(* ===== verification/_CoqProject ===== *)
-Q . S2P
Prelude.v
Memory.v
Arrays.v
Wcwidth.v
Flanterm.v
FlantermFb.v
State.v
Cpu.v
Arch.v
Asm.v
Stubs.v
Ubsan.v
Libc.v
Pmm.v
Vmm.v
VmmTree.v
VmmSpec.v
VmmFresh.v
VmmCopy.v
Heap.v
HeapTiles.v
HeapList.v
HeapSpec.v
Budget.v
HeapTop.v
HeapIface.v
Pagemap.v
Elf.v
ElfSpec.v
Process.v
ProcessSpec.v
ProcessCreate.v
ProcessExit.v
Devices.v
DevicesSpec.v
Pci.v
PciSpec.v
Devfs.v
Tarfs.v
TarfsSpec.v
Vfs.v
VfsSpec.v
Printf.v
Syscall.v
SyscallSpec.v
Kernel.v
Interrupts.v
PrintfSpec.v
Ssfn.v
Info.v
Runs.v
Shell.v
ShellSpec.v
FbTest.v
FlantermSim.v
FlantermSafe.v
FlantermPlot.v
FlantermScreen.v
FlantermStore.v
FlantermFlush.v
FlantermFbSpec.v
FlantermInit.v
FlantermInitSpec.v
FlantermText.v
FlantermTop.v
FlantermCases.v
Console.v
