(* ===== verification/Prelude.v ===== *)
(** * riria: a verification library for the riria kernel

    riria is a small x86-64 kernel with preemptive processes, four-level paging,
    a heap, a virtual file system over a device file system and a tar archive, a
    few device drivers, a terminal on the frame buffer and a system call
    interface.  This library translates the kernel's C and assembly code into
    Rocq functions and proves what the code does.  Paths below are under src/;
    kernel/ is src/kernel/.

    ** How the parts interact

    The boot loader hands over a memory map, the kernel's addresses, a frame
    buffer and the archive.  [kmain] (kernel/entry.c) installs the parts in
    order: descriptor tables and interrupt gates, the physical page allocator
    over the memory map, the page tables on top of it, the heap on top of both,
    then devices, file systems, system calls and the first processes.  From
    then on the kernel runs in system calls, interrupts and page faults: the
    timer calls the scheduler, the keyboard fills a buffer that /dev/keyboard
    empties, [mmap] and page faults take pages from the allocator and map
    them, [open] and [close] take their objects from the heap.  What the kernel
    prints goes to the terminal: its parser reads text and escape sequences and
    calls the operations of a backend, which queues the characters that change
    and draws them in the frame buffer at the next flush.

    ** The model

    All globals are fields of one record [State.kstate]; C functions are
    functions of the state monad [State.M].  The outcomes of a function are a
    result, a panic with its message, a spin lock that is never released
    (there is one processor, so a lock that is taken when one waits for it
    stays taken), an access through a pointer to no object or other undefined
    behaviour, and a loop that does not end.  [State.wp] is the corresponding total correctness
    predicate: only a result or a panic can meet it.  Memory is one flat map
    from addresses to bytes; page tables, block headers, stacks, the archive
    and all buffers are bytes of it.  Objects reached by typed pointers only
    (processes, open files, pagemaps) are records in maps from addresses.
    Integers are [Z] with the wrap-around of their width written out.  What a
    port answers is a function of the port accesses so far ([s_dev]).

    The terminal is a library of its own and has a model of its own: its two
    contexts are records, its tables (the arrays of [Arrays]) lists whose
    accesses out of range give [None], and its functions are of the state and
    error monad [Flanterm.T] over the parser's context, the state of a backend
    and the calls of the client's callback.  The parser is proved once, against
    the interface [FlantermSim.backend_sim] of two backends that behave alike;
    the frame buffer backend of fb.c and a plain array of characters discharge
    it.

    ** Files

    - Prelude, Memory, State: integers and automation; bytes and words in
      memory; the state, the monad and its proof rules.  The state holds the
      terminal, whose type is in Flanterm and FlantermFb.
    - Cpu, Arch: kernel/arch/x86_64/ (irq.c, msr.c, idt.c, isr.c, gdt.c,
      cpuid.c, features.c), cpu/io.h and spinlock.h.
    - Asm, Stubs: the instructions of kernel/arch/x86_64/asm/*.S and
      kernel/system/asm/user.S on a machine with registers, selectors and
      memory, and those files as blocks of them.  Interrupts: the way from a
      gate through a stub to the handlers of irq.c and isr.c and back.
    - Ubsan: kernel/system/ubsan.c, the handlers of the compiler's checks.
    - Libc: kernel/libc/string/.
    - Pmm: kernel/system/pmm.c.  The class [page_allocator] is what the rest of
      the kernel relies on; [pmm_allocate] and [pmm_free] are an instance.
    - Vmm (code), VmmTree, VmmSpec, VmmFresh, VmmCopy (proofs):
      kernel/system/vmm.c without [vmm_new_pagemap] and [vmm_pagefault], which
      are in Pagemap and Process because they call the heap and processes.
    - Heap (code), HeapTiles, HeapList, HeapSpec, HeapTop (proofs):
      kernel/system/heap.c; HeapIface has the class [heap_allocator] that the
      clients of [malloc] and [free] are proved against.  Budget counts the free
      pages that code can use up, which bounds when memory runs out.
    - Elf, ElfSpec: kernel/system/elf.c.
    - Process (code), ProcessSpec, ProcessCreate, ProcessExit (proofs):
      kernel/system/process.c, panic.c, asm/process.S, asm/user.S.
    - Devices, DevicesSpec: kernel/drivers/tty/serial.c, ps2/, video/fb0.c.
    - Pci, PciSpec: kernel/drivers/pci/.
    - Devfs, Tarfs, TarfsSpec, Vfs, VfsSpec: kernel/fs/.
    - Syscall, SyscallSpec: kernel/system/syscall.c and asm/syscall.S.
    - Kernel: interrupt dispatch, kernel/entry.c, elf.c, system/boot.c.
    - Printf, PrintfSpec: kernel/libc/stdio/, the formatter nanoprintf.h as
      printf.c configures it and the library functions on top of it.
    - Ssfn: [ssfn_putc] of base/usr/include/riria/thirdparty/ssfn.h, the font
      renderer; Info: kernel/info.c, the information screen drawn with it.
    - Shell, ShellSpec: misc/userspace/user/shell.c, a program of user mode, as
      an interaction tree over the calls it makes to its C library; FbTest:
      misc/userspace/mlibc_test/fb.c in the same way.  Neither program returns,
      so Runs says how far a program comes: [runs] is a finite run of calls that
      a library answers, from one tree and state to another.
    - The terminal, kernel/drivers/video/flanterm/: Arrays; Wcwidth and Flanterm
      (flanterm.c: tables and parser), FlantermFb and FlantermInit
      (flanterm_backends/fb.c: drawing, queue and flush; [flanterm_fb_init] and
      its pool) are the code.  FlantermSim has the interface between parser and
      backend, FlantermSafe the parser's side of it; FlantermScreen is the plain
      array; FlantermPlot (pixels), FlantermStore (queue, map and grid),
      FlantermFlush and FlantermFbSpec are the backend's side; FlantermInitSpec
      is about the initial state; FlantermText (what the parser reads),
      FlantermTop (the whole) and FlantermCases (surprises) have the theorems.
    - Console: [framebuffer_install] and [framebuffer_write] of fb0.c and the
      library's printf on the terminal's model.

    ** What is proved

    - Page allocator: allocation and release refine an ordered list of free
      pages, no page is handed out twice, and [pmm_install] builds from any
      memory map an allocator whose free pages are the usable ones above the
      first megabyte without the bitmap and the kernel's image; the end of the
      image is left out of what it reserves.
    - Paging: [vmm_map_page] and [vmm_unmap_page] change exactly one translation
      of a well-formed tree of tables and account for every table's frame;
      [vmm_virt_to_phys] reads the mapping back; copies through a pagemap write
      exactly the range; a new pagemap shares the kernel's half.
    - Heap: the heap is a row of blocks without gaps, with its free list in
      address order and no two neighbours free; [kmalloc] and [kfree] keep that
      and change nothing in other blocks; freeing what was just allocated
      restores the row; [heap_install] succeeds when 1024 pages are free.
    - Loader: a well-formed image ends up byte for byte at its addresses.
    - Processes: a switch and the switch back restore the registers; the
      scheduler takes the next process that is awake; new processes start in
      their trampoline, and with 1700 free pages they are created; the corner
      cases of exit and of masking.
    - Interrupts: a gate whose stub agrees with the processor on the error code
      leads to the handler with the interrupted registers in its frame, and
      after it the stub restores all registers, flags, selectors and the stack;
      the gate of the divide error leads nowhere.  Loading the descriptor
      tables leaves the kernel's descriptors in the segment registers.
    - Drivers: reads of the keyboard deliver the characters of the US layout
      that were typed, the newest first; pixels stay inside the frame buffer, base address registers are probed without a change, sound goes
      to the next free buffer only.
    - Files: open takes the lowest free descriptor, open and close keep the
      descriptor table well formed, reading the archive returns the bytes of the
      file.
    - System calls: the entry stub gives user mode its registers back, and
      anonymous [mmap] maps fresh zeroed pages.
    - Formatted output: every receiver gets the same text, a buffer gets it cut
      to its size and terminated, the conversion buffer is never overrun, and
      what %d leaves in the buffer reads back as the number.  On the installed
      console the text of [printf] goes to the serial port and, as the terminal
      reads it, to the pixels of the frame buffer.
    - Fonts: [ssfn_putc] finds the glyph that a search through the decoded
      character table finds and changes the pixels of its fragments only.
    - Shell: a turn reads the edited line, whatever is typed, never writes
      outside its buffer and comes to the command that the line names.  The
      frame buffer test comes through any number of turns, stores inside the
      memory that it mapped only and leaves the squares it means to draw.
    - Terminal: on every frame buffer with room for a character the kernel's call
      of [flanterm_fb_init] succeeds within its pool; from then on any bytes are
      processed without an access out of bounds, the characters on the screen
      are those that a plain array fed with the same bytes holds, and after a
      flush every pixel shows them, the cursor in inverse colours, with no
      memory outside of the frame buffer changed.  The parser's context keeps
      its type on every backend; code points in UTF-8 and the coordinates of
      [ESC [ row ; column H] are read back as they were written; the binary
      search of character widths equals a search from end to end.
    Where the code does not do what it means to, the theorem says what it does
    instead ([unexpected_error_code], [main_failures], [map_failed_wraps],
    [unhandled_sequence_spec], [raw_putchar_row],
    [deinit_loses_alignment], the examples of FlantermCases,
    [kmalloc_size_wraps], [vsprintf_clears_below],
    [negative_star_width], [new_pagemap_deadlock],
    [segment_check_wraps], [all_asleep_hangs],
    [exit_returns_when_others_sleep], [exit_sole_process],
    [preempted_syscall_wrong_process], [keyboard_overflow],
    [write_console_undefined] and parts of [pmm_install_spec],
    [interrupt_gates], [pci_get_bar_spec], [ac97_write_buffer_spec],
    [mmap_anonymous_spec]).

    ** Bounds and fuel

    Loops over ranges are bounded by the length of the range.  Walks over the
    heap's list take the number of smallest blocks that fit the heap plus two as
    fuel, the retry of [kmalloc] one round per page asked for plus two, walks
    over the process ring the number of nodes plus one, the formatter one round
    per byte of the format and 64 digits; the theorems on them show that this
    is enough.  In the terminal the loop of [sgr] takes one round per value, the
    loops that count down the number of columns, [flanterm_fb_revscroll] the
    number of cells and the binary search the length of its table; they return
    [None] when that is not enough, and the theorems show that it is.  A stub
    runs in three blocks: up to the call, the handler's return, the rest.  The
    search of [ssfn_putc] goes through the 0x110000 code points at most.  Waits
    for a device, walks over strings, the turns of the information screen and
    the walk over the archive take a bound [fuel] as an argument, and running
    out of it is the outcome of a loop that does not end; theorems assume a
    bound larger than the strings or the archive at hand.

    ** Parameters

    The answers of the [cpuid] instruction; the terminal's two entry points in
    the definitions of Devices, Printf, Syscall and Kernel, which Console gives;
    the address of [printf]'s local array and the return address of the system
    call stub; the C library of the two programs of user mode; the allocator that a client may hand to [flanterm_fb_init]; the addresses of
    string literals, of labels and of linked code ([link_symbols]); and, in
    Stubs and Interrupts, what a compiled C function leaves in the registers
    that its calling convention lets it change, are arguments of the definitions
    that use them.

    ** Not modelled

    thirdparty/limine.h only declares the boot protocol.  Of ssfn.h the renderer
    that info.c compiles is modelled, and of the formatter the parts that
    printf.c compiles; the floating-point ones are not.  The callbacks of the
    terminal's client and the flush callback are recorded with their arguments,
    not run: the kernel sets neither.  The kernel's messages are left out of the
    functions that print them: they change nothing that other code reads.
    Loading a selector checks that the descriptor it names is present and of the
    right kind, but no privilege levels and not the L and G bits.  C functions
    have no stack frames: of the stacks, the words are modelled that the sources
    push or that a call and its return leave there.
    The checks that the compiler inserts into the code (their handlers are in
    Ubsan) are not in the sources.  The TLB is not modelled, and user pointers
    are read in the flat memory without a walk through the page tables.  *)

From Stdlib Require Export ZArith Lia.
From stdpp Require Export strings numbers base gmap.
From stdpp Require Export list_basics list_relations list_monad list_misc list_tactics list.

#[global] Open Scope Z_scope.

(** ** Automation *)

Create HintDb riria.
Create HintDb riria_mem.

(** [zlia] is [lia] with quotients and remainders by positive constants
    turned into linear equations first. *)
Ltac zlia := Z.to_euclidean_division_equations; lia.

(** Case analysis on a boolean integer test of the goal or a hypothesis. *)
Ltac zcases :=
  repeat match goal with
  | |- context [?a <? ?b] => destruct (Z.ltb_spec a b)
  | |- context [?a <=? ?b] => destruct (Z.leb_spec a b)
  | |- context [?a =? ?b] => destruct (Z.eqb_spec a b)
  end.

Ltac zcases_in H :=
  repeat match type of H with
  | context [?a <? ?b] => destruct (Z.ltb_spec a b)
  | context [?a <=? ?b] => destruct (Z.leb_spec a b)
  | context [?a =? ?b] => destruct (Z.eqb_spec a b)
  end.

(** ** Machine integers

    A w-bit C integer is a [Z] kept in range by writing the wrap-around of
    each operation out with the functions below. *)

Definition u8 (z : Z) : Z := z mod 2 ^ 8.
Definition u16 (z : Z) : Z := z mod 2 ^ 16.
Definition u32 (z : Z) : Z := z mod 2 ^ 32.
Definition u64 (z : Z) : Z := z mod 2 ^ 64.

(** Conversion to [int] and to [ssize_t]/[int64_t]. *)
Definition i32 (z : Z) : Z := (z + 2 ^ 31) mod 2 ^ 32 - 2 ^ 31.
Definition i64 (z : Z) : Z := (z + 2 ^ 63) mod 2 ^ 64 - 2 ^ 63.

Definition in_u64 (z : Z) : Prop := 0 <= z < 2 ^ 64.

Lemma u8_range z : 0 <= u8 z < 256.
Proof. apply Z.mod_pos_bound. lia. Qed.

Lemma u8_small z : 0 <= z < 256 -> u8 z = z.
Proof. apply Z.mod_small. Qed.

Lemma u8_idemp z : u8 (u8 z) = u8 z.
Proof. apply u8_small, u8_range. Qed.

Lemma u64_range z : 0 <= u64 z < 2 ^ 64.
Proof. apply Z.mod_pos_bound. lia. Qed.

Lemma u64_small z : 0 <= z < 2 ^ 64 -> u64 z = z.
Proof. apply Z.mod_small. Qed.

Lemma u32_small z : 0 <= z < 2 ^ 32 -> u32 z = z.
Proof. apply Z.mod_small. Qed.

Lemma u64_add_l a b : u64 (u64 a + b) = u64 (a + b).
Proof. apply Zplus_mod_idemp_l. Qed.

Lemma u64_add_r a b : u64 (a + u64 b) = u64 (a + b).
Proof. apply Zplus_mod_idemp_r. Qed.

Lemma i32_small z : - 2 ^ 31 <= z < 2 ^ 31 -> i32 z = z.
Proof. intros. unfold i32. rewrite Z.mod_small; lia. Qed.

Lemma i64_small z : - 2 ^ 63 <= z < 2 ^ 63 -> i64 z = z.
Proof. intros. unfold i64. rewrite Z.mod_small; lia. Qed.

(** ** Alignment *)

(** [x & ~(2^k - 1)] rounds a non-negative [x] down. *)
Lemma land_lnot_ones x k : 0 <= k -> Z.land x (Z.lnot (2 ^ k - 1)) = x / 2 ^ k * 2 ^ k.
Proof.
  intros Hk. replace (2 ^ k - 1) with (Z.ones k) by (rewrite Z.ones_equiv; lia).
  rewrite <- Z.ldiff_land, Z.ldiff_ones_r by done.
  rewrite Z.shiftl_mul_pow2, Z.shiftr_div_pow2 by done. done.
Qed.

Lemma land_lnot_page x : Z.land x (Z.lnot 4095) = x / 4096 * 4096.
Proof. apply (land_lnot_ones x 12). lia. Qed.

Lemma land_lnot_15 x : Z.land x (Z.lnot 15) = x / 16 * 16.
Proof. apply (land_lnot_ones x 4). lia. Qed.

Lemma land_page_mask x : Z.land x 4095 = x mod 4096.
Proof. change 4095 with (Z.ones 12). rewrite Z.land_ones; [done|lia]. Qed.

Lemma land_511 x : Z.land x 0x1FF = x mod 512.
Proof. change 0x1FF with (Z.ones 9). rewrite Z.land_ones; [done|lia]. Qed.

Lemma land_1 x : Z.land x 1 = x mod 2.
Proof. change 1 with (Z.ones 1) at 1. rewrite Z.land_ones; [done|lia]. Qed.

(** ** Single bits of a byte *)

Lemma land_bit_nonzero b k :
  0 <= k -> (Z.land b (Z.shiftl 1 k) =? 0) = negb (Z.testbit b k).
Proof.
  intros Hk. destruct (Z.testbit b k) eqn:E; simpl.
  - apply Z.eqb_neq. intros H0.
    assert (Z.testbit (Z.land b (Z.shiftl 1 k)) k = true) as Ht.
    { rewrite Z.land_spec, E, Z.shiftl_spec, Z.sub_diag by lia. done. }
    rewrite H0, Z.bits_0 in Ht. done.
  - apply Z.eqb_eq, Z.bits_inj'. intros n Hn.
    rewrite Z.land_spec, Z.bits_0, Z.shiftl_spec by lia.
    destruct (decide (n = k)) as [->|Hne]; [by rewrite E|].
    replace 1 with (2 ^ 0) by done. rewrite Z.pow2_bits_eqb by lia.
    destruct (Z.eqb_spec 0 (n - k)); [lia|]. by rewrite andb_false_r.
Qed.

Lemma testbit_bit k j : 0 <= k -> 0 <= j -> Z.testbit (Z.shiftl 1 k) j = (k =? j).
Proof.
  intros. rewrite Z.shiftl_mul_pow2, Z.mul_1_l by lia. apply Z.pow2_bits_eqb. lia.
Qed.

Lemma testbit_u8 b j : 0 <= j < 8 -> Z.testbit (u8 b) j = Z.testbit b j.
Proof. intros. unfold u8. apply Z.mod_pow2_bits_low. lia. Qed.

(** ** Values with no bit in common *)

Lemma lor_add a n q : 0 <= n -> 0 <= q < 2 ^ n -> Z.lor (a * 2 ^ n) q = a * 2 ^ n + q.
Proof.
  intros Hn Hq. symmetry. apply Z.add_nocarry_lor. apply Z.bits_inj'. intros i Hi.
  rewrite Z.land_spec, Z.bits_0. destruct (Z.lt_ge_cases i n).
  - by rewrite Z.mul_pow2_bits_low.
  - rewrite <- (Z.mod_small q (2 ^ n)), Z.mod_pow2_bits_high by lia. apply andb_false_r.
Qed.

Lemma lor_low a b k : 0 <= k -> a mod 2 ^ k = 0 -> 0 <= b < 2 ^ k -> Z.lor a b = a + b.
Proof.
  intros Hk Ha Hb. rewrite (Z.div_mod a (2 ^ k)), Ha, Z.add_0_r, Z.mul_comm by lia. by apply lor_add.
Qed.

Lemma lor_range a b n : 0 <= n -> 0 <= a < 2 ^ n -> 0 <= b < 2 ^ n -> 0 <= Z.lor a b < 2 ^ n.
Proof.
  intros Hn Ha Hb. assert (0 <= Z.lor a b) by (apply Z.lor_nonneg; lia). split; [done|].
  destruct (Z.eq_dec (Z.lor a b) 0) as [->|Hne]; [lia|].
  apply Z.log2_lt_pow2; [lia|]. rewrite Z.log2_lor by lia.
  assert (forall c, 0 <= c < 2 ^ n -> c = 0 \/ Z.log2 c < n) as Hlog.
  { intros c Hc. destruct (Z.eq_dec c 0); [by left|right]. apply Z.log2_lt_pow2; lia. }
  destruct (Hlog a Ha) as [->|], (Hlog b Hb) as [->|]; simpl in *; try lia; try done.
  - change (Z.log2 0) with 0 in *. pose proof (Z.log2_nonneg b). lia.
  - change (Z.log2 0) with 0 in *. pose proof (Z.log2_nonneg a). lia.
Qed.

Lemma lor_shiftl a n q : 0 <= n -> 0 <= q < 2 ^ n -> Z.lor (Z.shiftl a n) q = a * 2 ^ n + q.
Proof. intros Hn Hq. rewrite Z.shiftl_mul_pow2 by done. by apply lor_add. Qed.

(** ** Counting over an interval of integers *)

(** [zcount f lo n] is how many of [lo], ..., [lo + n - 1] satisfy [f]. *)
Fixpoint zcount (f : Z -> bool) (lo : Z) (n : nat) : Z :=
  match n with
  | O => 0
  | S n => (if f lo then 1 else 0) + zcount f (lo + 1) n
  end.

Lemma zcount_ext f g lo n :
  (forall i, lo <= i < lo + Z.of_nat n -> f i = g i) -> zcount f lo n = zcount g lo n.
Proof.
  revert lo. induction n as [|n IH]; intros lo H; simpl; [done|].
  rewrite (H lo), (IH (lo + 1)) by (intros; try apply H; lia). done.
Qed.

Lemma zcount_false f lo n :
  (forall i, lo <= i < lo + Z.of_nat n -> f i = false) -> zcount f lo n = 0.
Proof.
  revert lo. induction n as [|n IH]; intros lo H; simpl; [done|].
  rewrite (H lo), IH by (intros; try apply H; lia). done.
Qed.

Lemma zcount_bounds f lo n : 0 <= zcount f lo n <= Z.of_nat n.
Proof.
  revert lo. induction n as [|n IH]; intros lo; simpl; [lia|].
  specialize (IH (lo + 1)). destruct (f lo); lia.
Qed.

(** Changing the value of [f] at one point of the interval changes the count
    by the difference there. *)
Lemma zcount_update f g lo n k :
  lo <= k < lo + Z.of_nat n -> (forall i, i <> k -> g i = f i) ->
  zcount g lo n = zcount f lo n - (if f k then 1 else 0) + (if g k then 1 else 0).
Proof.
  revert lo. induction n as [|n IH]; intros lo Hk H; simpl; [lia|].
  destruct (decide (k = lo)) as [->|].
  - rewrite (zcount_ext g f (lo + 1)) by (intros; apply H; lia).
    destruct (f lo), (g lo); lia.
  - rewrite (H lo), (IH (lo + 1)) by (done || lia). lia.
Qed.

Lemma zcount_pos f lo n :
  0 < zcount f lo n -> exists i, lo <= i < lo + Z.of_nat n /\ f i = true.
Proof.
  revert lo. induction n as [|n IH]; intros lo H; simpl in *; [lia|].
  destruct (f lo) eqn:E; [exists lo; split; [lia|done]|].
  destruct (IH (lo + 1)) as (i & Hi & Hf); [lia|]. exists i. split; [lia|done].
Qed.

Lemma zcount_zero f lo n i :
  zcount f lo n = 0 -> lo <= i < lo + Z.of_nat n -> f i = false.
Proof.
  revert lo. induction n as [|n IH]; intros lo H Hi; simpl in *; [lia|].
  pose proof (zcount_bounds f (lo + 1) n).
  destruct (f lo) eqn:E; [lia|].
  destruct (decide (i = lo)) as [->|]; [done|]. apply (IH (lo + 1)); lia.
Qed.

(** ** Strings of C as lists of bytes *)

(** The bytes of a string literal (without its terminator). *)
Fixpoint cstr (s : string) : list Z :=
  match s with
  | EmptyString => []
  | String c s => Z.of_N (Ascii.N_of_ascii c) :: cstr s
  end.
