(* ===== verification/Memory.v ===== *)
(** * Byte-addressed memory

    The kernel's memory as a finite map from virtual addresses to bytes, with
    the little-endian accesses a [uint64_t*] or a [uint32_t*] dereference makes
    on x86-64, and the byte loops of kernel/libc/string/ as pure functions on
    such a memory.  An address that was never written reads as zero. *)

From S2P Require Import Prelude.

Abbreviation mem := (gmap Z Z).

(** ** Definitions *)

Definition rd (m : mem) (a : Z) : Z := u8 (default 0 (m !! a)).
Definition wr (m : mem) (a v : Z) : mem := <[a := u8 v]> m.

(** Little-endian load and store of [n] bytes. *)
Fixpoint load_le (m : mem) (a : Z) (n : nat) : Z :=
  match n with
  | O => 0
  | S n => rd m a + 256 * load_le m (a + 1) n
  end.

Fixpoint store_le (m : mem) (a : Z) (n : nat) (v : Z) : mem :=
  match n with
  | O => m
  | S n => store_le (wr m a (v mod 256)) (a + 1) n (v / 256)
  end.

Definition load64 (m : mem) (a : Z) : Z := load_le m a 8.
Definition store64 (m : mem) (a v : Z) : mem := store_le m a 8 v.
Definition load32 (m : mem) (a : Z) : Z := load_le m a 4.
Definition store32 (m : mem) (a v : Z) : mem := store_le m a 4 v.
Definition load16 (m : mem) (a : Z) : Z := load_le m a 2.

(** [p[i] = (uint8_t)c] for [i] from the current index up, [n] times
    (libc/string/memset.c). *)
Fixpoint memset_loop (m : mem) (p c : Z) (n : nat) : mem :=
  match n with
  | O => m
  | S n => memset_loop (wr m p c) (p + 1) c n
  end.

(** [pdest[i] = psrc[i]] for increasing [i] (memcpy.c, and memmove.c when
    [src > dest]). *)
Fixpoint copy_fwd (m : mem) (d s : Z) (n : nat) : mem :=
  match n with
  | O => m
  | S n => copy_fwd (wr m d (rd m s)) (d + 1) (s + 1) n
  end.

(** [pdest[i - 1] = psrc[i - 1]] for decreasing [i] (memmove.c when
    [src < dest]). *)
Fixpoint copy_bwd (m : mem) (d s : Z) (n : nat) : mem :=
  match n with
  | O => m
  | S n => copy_bwd (wr m (d + Z.of_nat n) (rd m (s + Z.of_nat n))) d s n
  end.

(** The bytes of a list laid out from [a] on. *)
Fixpoint write_bytes (m : mem) (a : Z) (l : list Z) : mem :=
  match l with
  | [] => m
  | b :: l => write_bytes (wr m a b) (a + 1) l
  end.

Fixpoint read_bytes (m : mem) (a : Z) (n : nat) : list Z :=
  match n with
  | O => []
  | S n => rd m a :: read_bytes m (a + 1) n
  end.

(** Two memories with the same bytes; coarser than equality of the maps,
    since an absent byte and an explicit zero read alike. *)
#[export] Instance mem_equiv : Equiv mem := fun m1 m2 => forall a, rd m1 a = rd m2 a.

(** [m'] is [m] outside the addresses that satisfy [P]. *)
Definition agree_off (P : Z -> Prop) (m m' : mem) : Prop :=
  forall a, ~ P a -> rd m' a = rd m a.

(** ** Equivalence *)

#[export] Instance mem_equivalence : Equivalence mem_equiv.
Proof.
  split.
  - intros m a. reflexivity.
  - intros m1 m2 H a. symmetry. apply H.
  - intros m1 m2 m3 H1 H2 a. rewrite (H1 a). apply H2.
Qed.

#[export] Instance rd_proper : Proper (mem_equiv ==> eq ==> eq) rd.
Proof. intros m1 m2 H a ? <-. apply H. Qed.

Lemma rd_range m a : 0 <= rd m a < 256.
Proof. apply u8_range. Qed.

Lemma rd_wr m a v x : rd (wr m a v) x = if x =? a then u8 v else rd m x.
Proof.
  unfold rd, wr. destruct (Z.eqb_spec x a) as [->|Hne].
  - rewrite lookup_insert_eq. simpl. apply u8_idemp.
  - by rewrite lookup_insert_ne by done.
Qed.

#[export] Instance wr_proper : Proper (mem_equiv ==> eq ==> eq ==> mem_equiv) wr.
Proof. intros m1 m2 H a ? <- v ? <- x. rewrite !rd_wr. by rewrite (H x). Qed.

#[export] Instance load_le_proper : Proper (mem_equiv ==> eq ==> eq ==> eq) load_le.
Proof.
  intros m1 m2 H a ? <- n ? <-. revert a.
  induction n as [|n IH]; intros a; simpl; [done|]. by rewrite IH, H.
Qed.

#[export] Instance store_le_proper :
  Proper (mem_equiv ==> eq ==> eq ==> eq ==> mem_equiv) store_le.
Proof.
  intros m1 m2 H a ? <- n ? <- v ? <-. revert m1 m2 H a v.
  induction n as [|n IH]; intros m1 m2 H a v; simpl; [done|].
  apply IH. by apply wr_proper.
Qed.

(** ** Loads and stores *)

Lemma load_le_copied m m' a b n :
  (forall i, 0 <= i < Z.of_nat n -> rd m' (a + i) = rd m (b + i)) ->
  load_le m' a n = load_le m b n.
Proof.
  revert a b. induction n as [|n IH]; intros a b H; simpl; [done|].
  pose proof (H 0 ltac:(lia)) as H0. rewrite !Z.add_0_r in H0. rewrite H0.
  rewrite (IH (a + 1) (b + 1)); [done|]. intros i Hi.
  replace (a + 1 + i) with (a + (1 + i)) by lia. replace (b + 1 + i) with (b + (1 + i)) by lia.
  apply H. lia.
Qed.

Lemma load_le_ext m m' a n :
  (forall i, 0 <= i < Z.of_nat n -> rd m' (a + i) = rd m (a + i)) ->
  load_le m' a n = load_le m a n.
Proof. apply load_le_copied. Qed.

Lemma load64_copied m m' a b :
  (forall i, 0 <= i < 8 -> rd m' (a + i) = rd m (b + i)) -> load64 m' a = load64 m b.
Proof. intros H. apply load_le_copied. exact H. Qed.

Lemma load_le_range m a n : 0 <= load_le m a n < 256 ^ Z.of_nat n.
Proof.
  revert a. induction n as [|n IH]; intros a; [simpl; lia|].
  cbn [load_le]. specialize (IH (a + 1)). pose proof (rd_range m a).
  rewrite Nat2Z.inj_succ, Z.pow_succ_r by lia. lia.
Qed.

Lemma load64_range m a : 0 <= load64 m a < 2 ^ 64.
Proof. apply (load_le_range m a 8). Qed.

Lemma rd_store_le m a n v x :
  rd (store_le m a n v) x =
  if (a <=? x) && (x <? a + Z.of_nat n) then (v / 256 ^ (x - a)) mod 256 else rd m x.
Proof.
  revert m a v. induction n as [|n IH]; intros m a v; [simpl; zcases; simpl; done || lia|].
  cbn [store_le]. rewrite IH, rd_wr.
  destruct (Z.eqb_spec x a) as [->|Hne].
  - destruct (Z.leb_spec (a + 1) a); [lia|]. cbn [andb].
    destruct (Z.leb_spec a a); [|lia]. destruct (Z.ltb_spec a (a + Z.of_nat (S n))); [|lia].
    cbn [andb]. rewrite Z.sub_diag, Z.pow_0_r, Z.div_1_r. unfold u8.
    change (2 ^ 8) with 256. by rewrite Zmod_mod.
  - destruct (Z.leb_spec a x), (Z.leb_spec (a + 1) x); cbn [andb]; try lia; try done.
    replace (a + 1 + Z.of_nat n) with (a + Z.of_nat (S n)) by lia.
    destruct (x <? a + Z.of_nat (S n)); [|done].
    replace (x - a) with (1 + (x - (a + 1))) by lia.
    rewrite Z.pow_add_r, Z.pow_1_r, Z.div_div by lia. done.
Qed.

Lemma load_store_le m a n v : load_le (store_le m a n v) a n = v mod 256 ^ Z.of_nat n.
Proof.
  revert m a v. induction n as [|n IH]; intros m a v; [simpl; by rewrite Z.mod_1_r|].
  cbn [store_le load_le]. rewrite IH, rd_store_le.
  destruct (Z.leb_spec (a + 1) a); [lia|]. cbn [andb].
  rewrite rd_wr, Z.eqb_refl. unfold u8. change (2 ^ 8) with 256. rewrite Zmod_mod.
  rewrite Nat2Z.inj_succ, Z.pow_succ_r by lia.
  rewrite (Z.rem_mul_r v 256 (256 ^ Z.of_nat n)) by lia. done.
Qed.

Lemma load_store_le_ne m a n v b k :
  b + Z.of_nat k <= a \/ a + Z.of_nat n <= b ->
  load_le (store_le m a n v) b k = load_le m b k.
Proof.
  intros H. apply load_le_ext. intros i Hi. rewrite rd_store_le.
  destruct (Z.leb_spec a (b + i)), (Z.ltb_spec (b + i) (a + Z.of_nat n)); simpl; lia || done.
Qed.

Lemma load_store64 m a v : 0 <= v < 2 ^ 64 -> load64 (store64 m a v) a = v.
Proof.
  intros. unfold load64, store64. rewrite load_store_le.
  change (256 ^ Z.of_nat 8) with (2 ^ 64). by apply Z.mod_small.
Qed.

Lemma load_store64_ne m a v b :
  b + 8 <= a \/ a + 8 <= b -> load64 (store64 m a v) b = load64 m b.
Proof. intros. apply load_store_le_ne. lia. Qed.

Lemma rd_store64_ne m a v x : x < a \/ a + 8 <= x -> rd (store64 m a v) x = rd m x.
Proof.
  intros H. unfold store64. rewrite rd_store_le.
  destruct (Z.leb_spec a x), (Z.ltb_spec x (a + Z.of_nat 8)); simpl; lia || done.
Qed.

Lemma load64_ext m m' a :
  (forall x, a <= x < a + 8 -> rd m' x = rd m x) -> load64 m' a = load64 m a.
Proof. intros H. apply load_le_ext. intros i Hi. apply H. lia. Qed.

Lemma load64_zero m a : (forall x, a <= x < a + 8 -> rd m x = 0) -> load64 m a = 0.
Proof.
  intros H. unfold load64. cbn [load_le]. rewrite !H by lia. lia.
Qed.

(** ** The byte loops *)

Lemma rd_memset_loop m p c n x :
  rd (memset_loop m p c n) x =
  if (p <=? x) && (x <? p + Z.of_nat n) then u8 c else rd m x.
Proof.
  revert m p. induction n as [|n IH]; intros m p; cbn [memset_loop].
  - destruct (Z.leb_spec p x), (Z.ltb_spec x (p + Z.of_nat 0)); simpl; lia || done.
  - rewrite IH, rd_wr.
    destruct (Z.eqb_spec x p), (Z.leb_spec (p + 1) x), (Z.leb_spec p x),
      (Z.ltb_spec x (p + 1 + Z.of_nat n)), (Z.ltb_spec x (p + Z.of_nat (S n)));
      simpl; done || lia.
Qed.

(** A forward copy is right as soon as the destination does not start inside
    the source, after its first byte. *)
Lemma rd_copy_fwd m d s n x :
  d <= s \/ s + Z.of_nat n <= d ->
  rd (copy_fwd m d s n) x =
  if (d <=? x) && (x <? d + Z.of_nat n) then rd m (s + (x - d)) else rd m x.
Proof.
  revert m d s. induction n as [|n IH]; intros m d s H; cbn [copy_fwd].
  - destruct (Z.leb_spec d x), (Z.ltb_spec x (d + Z.of_nat 0)); simpl; lia || done.
  - rewrite IH by lia. rewrite !rd_wr.
    destruct (Z.eqb_spec x d) as [->|Hne].
    + destruct (Z.leb_spec (d + 1) d); [lia|]. cbn [andb].
      destruct (Z.leb_spec d d); [|lia]. destruct (Z.ltb_spec d (d + Z.of_nat (S n))); [|lia].
      cbn [andb]. rewrite Z.sub_diag, Z.add_0_r. apply u8_small, rd_range.
    + replace (s + 1 + (x - (d + 1))) with (s + (x - d)) by lia.
      replace (d + 1 + Z.of_nat n) with (d + Z.of_nat (S n)) by lia.
      destruct (Z.leb_spec (d + 1) x), (Z.leb_spec d x); cbn [andb]; try lia; try done.
      destruct (Z.ltb_spec x (d + Z.of_nat (S n))); [|done].
      destruct (Z.eqb_spec (s + (x - d)) d); [|done]. lia.
Qed.

(** A backward copy is right as soon as the destination does not start
    before the source and inside its reach. *)
Lemma rd_copy_bwd m d s n x :
  s <= d \/ d + Z.of_nat n <= s ->
  rd (copy_bwd m d s n) x =
  if (d <=? x) && (x <? d + Z.of_nat n) then rd m (s + (x - d)) else rd m x.
Proof.
  revert m. induction n as [|n IH]; intros m H; cbn [copy_bwd].
  - destruct (Z.leb_spec d x), (Z.ltb_spec x (d + Z.of_nat 0)); simpl; lia || done.
  - rewrite IH by lia. rewrite !rd_wr.
    destruct (Z.leb_spec d x), (Z.ltb_spec x (d + Z.of_nat n)),
      (Z.ltb_spec x (d + Z.of_nat (S n))), (Z.eqb_spec x (d + Z.of_nat n)); cbn [andb];
      try lia; try done.
    + destruct (Z.eqb_spec (s + (x - d)) (d + Z.of_nat n)); [lia|done].
    + subst x. replace (s + (d + Z.of_nat n - d)) with (s + Z.of_nat n) by lia.
      apply u8_small, rd_range.
Qed.

Lemma rd_write_bytes m a l x :
  rd (write_bytes m a l) x =
  if (a <=? x) && (x <? a + Z.of_nat (length l))
  then u8 (nth (Z.to_nat (x - a)) l 0) else rd m x.
Proof.
  revert m a. induction l as [|b l IH]; intros m a; cbn [write_bytes length].
  - destruct (Z.leb_spec a x), (Z.ltb_spec x (a + Z.of_nat 0)); simpl; lia || done.
  - rewrite IH, rd_wr.
    destruct (Z.eqb_spec x a) as [->|Hne].
    + destruct (Z.leb_spec (a + 1) a); [lia|]. cbn [andb].
      destruct (Z.leb_spec a a); [|lia].
      destruct (Z.ltb_spec a (a + Z.of_nat (S (length l)))); [|lia].
      cbn [andb]. by rewrite Z.sub_diag.
    + replace (a + 1 + Z.of_nat (length l)) with (a + Z.of_nat (S (length l))) by lia.
      destruct (Z.leb_spec (a + 1) x), (Z.leb_spec a x); cbn [andb]; try lia; try done.
      destruct (x <? a + Z.of_nat (S (length l))); [|done].
      replace (Z.to_nat (x - a)) with (S (Z.to_nat (x - (a + 1)))) by lia. done.
Qed.

Lemma length_read_bytes m a n : length (read_bytes m a n) = n.
Proof. revert a. induction n as [|n IH]; intros a; simpl; [done|]. by rewrite IH. Qed.

Lemma read_bytes_lookup m a n i : (i < n)%nat -> read_bytes m a n !! i = Some (rd m (a + Z.of_nat i)).
Proof.
  revert a i. induction n as [|n IH]; intros a [|i] H; cbn [read_bytes]; try lia.
  - by rewrite Z.add_0_r.
  - cbn [lookup list_lookup]. rewrite IH by lia. do 2 f_equal. lia.
Qed.

Lemma read_bytes_ext m m' a n :
  (forall x, a <= x < a + Z.of_nat n -> rd m' x = rd m x) ->
  read_bytes m' a n = read_bytes m a n.
Proof.
  revert a. induction n as [|n IH]; intros a H; simpl; [done|].
  rewrite (H a), IH by (intros; try apply H; lia). done.
Qed.

Lemma read_write_bytes m a l :
  Forall (fun b => 0 <= b < 256) l -> read_bytes (write_bytes m a l) a (length l) = l.
Proof.
  intros Hl. revert m a. induction Hl as [|b l Hb Hl IH]; intros m a; [done|].
  cbn [length write_bytes read_bytes]. rewrite IH. f_equal.
  rewrite rd_write_bytes.
  destruct (Z.leb_spec (a + 1) a); [lia|]. cbn [andb].
  rewrite rd_wr, Z.eqb_refl. by apply u8_small.
Qed.

(** ** Frames *)

Lemma agree_off_refl P m : agree_off P m m.
Proof. intros a _. reflexivity. Qed.

Lemma agree_off_trans (P : Z -> Prop) m1 m2 m3 :
  agree_off P m1 m2 -> agree_off P m2 m3 -> agree_off P m1 m3.
Proof. intros H1 H2 a Ha. rewrite (H2 a Ha). by apply H1. Qed.

Lemma agree_off_weaken (P Q : Z -> Prop) m m' :
  (forall a, P a -> Q a) -> agree_off P m m' -> agree_off Q m m'.
Proof. intros HPQ H a Ha. apply H. auto. Qed.

Lemma agree_off_load64 (P : Z -> Prop) m m' a :
  agree_off P m m' -> (forall x, a <= x < a + 8 -> ~ P x) -> load64 m' a = load64 m a.
Proof. intros H Ha. apply load64_ext. intros x Hx. by apply H, Ha. Qed.

#[export] Hint Resolve agree_off_refl agree_off_trans : riria_mem.
