(* ===== verification/Arrays.v ===== *)
(** * C arrays

    An array of the program as a list, with the index an integer: a read or a
    write outside of it has no result, which is how the components that use
    this file make an access out of bounds visible. *)

From S2P Require Import Prelude.

(** Two boolean conditions on integers that say the same. *)
Ltac bool_lia :=
  cbv beta; apply Bool.eq_iff_eq_true;
  rewrite ?orb_true_iff, ?andb_true_iff, ?Z.leb_le, ?Z.ltb_lt, ?Z.eqb_eq; lia.

Section arrays.
Context {A : Type}.
Implicit Types (l : list A) (i j : Z) (v : A).

Definition zlen l : Z := Z.of_nat (length l).

(** [l[i]] *)
Definition aget l i : option A :=
  if i <? 0 then None else l !! Z.to_nat i.

(** [l[i] = v] *)
Definition aset l i v : option (list A) :=
  if (0 <=? i) && (i <? zlen l) then Some (<[Z.to_nat i := v]> l) else None.

Lemma zlen_nonneg l : 0 <= zlen l.
Proof. unfold zlen. lia. Qed.

Lemma aget_Some_range l i v : aget l i = Some v -> 0 <= i < zlen l.
Proof.
  unfold aget, zlen. case_match eqn:E; [done|]. apply Z.ltb_ge in E.
  intros H%lookup_lt_Some. lia.
Qed.

Lemma aget_in l i : 0 <= i < zlen l -> exists v, aget l i = Some v.
Proof.
  intros H. unfold aget. replace (i <? 0) with false by lia.
  apply lookup_lt_is_Some_2. unfold zlen in H. lia.
Qed.

Lemma aget_out l i : ~ (0 <= i < zlen l) -> aget l i = None.
Proof.
  intros H. destruct (aget l i) as [v|] eqn:E; [|done].
  apply aget_Some_range in E. contradiction.
Qed.

Lemma aset_in l i v : 0 <= i < zlen l -> aset l i v = Some (<[Z.to_nat i := v]> l).
Proof. intros H. unfold aset. by replace ((0 <=? i) && (i <? zlen l)) with true by lia. Qed.

Lemma aset_Some l i v l' :
  aset l i v = Some l' -> 0 <= i < zlen l /\ l' = <[Z.to_nat i := v]> l.
Proof. unfold aset. case_match; intros; simplify_eq. split; [lia|done]. Qed.

Lemma aset_len l i v l' : aset l i v = Some l' -> zlen l' = zlen l.
Proof. intros [_ ->]%aset_Some. unfold zlen. by rewrite length_insert. Qed.

Lemma aget_insert l i v j :
  0 <= i < zlen l -> aget (<[Z.to_nat i := v]> l) j = if j =? i then Some v else aget l j.
Proof.
  intros Hi. unfold aget. destruct (Z.ltb_spec j 0) as [Hj|Hj].
  - destruct (Z.eqb_spec j i); [lia|done].
  - destruct (Z.eqb_spec j i) as [->|Hne].
    + apply list_lookup_insert_eq. unfold zlen in Hi. lia.
    + apply list_lookup_insert_ne. lia.
Qed.

Lemma zlen_insert l (i : nat) v : zlen (<[i := v]> l) = zlen l.
Proof. unfold zlen. by rewrite length_insert. Qed.

Lemma aget_aset l i v l' j :
  aset l i v = Some l' -> aget l' j = if j =? i then Some v else aget l j.
Proof. intros [Hi ->]%aset_Some. by apply aget_insert. Qed.

(** Two arrays of one length with the same cells are equal. *)
Lemma aget_ext l l' : zlen l = zlen l' -> (forall i, 0 <= i < zlen l -> aget l i = aget l' i) -> l = l'.
Proof.
  intros Hlen H. apply list_eq_same_length with (n := length l); [unfold zlen in Hlen; lia|done|].
  intros i x y Hi Hx Hy. specialize (H (Z.of_nat i)). unfold zlen, aget in H.
  rewrite Nat2Z.id in H. replace (Z.of_nat i <? 0) with false in H by lia.
  rewrite H in Hx by lia. congruence.
Qed.

Lemma aget_replicate n v i : 0 <= i < Z.of_nat n -> aget (replicate n v) i = Some v.
Proof.
  intros H. unfold aget. replace (i <? 0) with false by lia.
  apply lookup_replicate_2. lia.
Qed.

Lemma zlen_replicate n v : zlen (replicate n v) = Z.of_nat n.
Proof. unfold zlen. by rewrite length_replicate. Qed.

Lemma aget_Forall (P : A -> Prop) l i v : Forall P l -> aget l i = Some v -> P v.
Proof.
  unfold aget. case_match; [done|]. intros HF Hv. by eapply Forall_lookup_1.
Qed.

Lemma insert_id l i v : aget l i = Some v -> <[Z.to_nat i := v]> l = l.
Proof. unfold aget. case_match; [done|]. apply list_insert_id. Qed.
End arrays.

