(* ===== verification/Wcwidth.v ===== *)
(** * Character widths and the code page: kernel/drivers/video/flanterm/flanterm.c

    The part of the terminal emulator that looks at a decoded code point: the
    binary search of Markus Kuhn's [wcwidth], the width of a character, and the
    translation of Unicode to the glyphs of code page 437.  [mk_wcwidth_spec]
    shows that the width is the one its table of combining characters gives
    when it is read from end to end. *)

From S2P Require Import Prelude Arrays.

(** ** Definitions *)

Record interval : Type := mk_interval { first : Z; last : Z }.

(** The [while] loop of [bisearch]; every round narrows the range, so as many
    rounds as the table has entries are enough ([bisearch_correct]). *)
Fixpoint bisearch_loop (fuel : nat) (ucs : Z) (table : list interval) (min max : Z) : option Z :=
  if max <? min then Some 0 else
  match fuel with
  | O => None
  | S fuel =>
    let mid := Z.quot (i32 (min + max)) 2 in
    iv ← aget table mid;
    if last iv <? ucs then bisearch_loop fuel ucs table (i32 (mid + 1)) max
    else if ucs <? first iv then bisearch_loop fuel ucs table min (i32 (mid - 1))
    else Some 1
  end.

Definition bisearch (ucs : Z) (table : list interval) (max : Z) : option Z :=
  lo ← aget table 0;
  hi ← aget table max;
  if (ucs <? first lo) || (last hi <? ucs) then Some 0
  else bisearch_loop (length table) ucs table 0 max.

Definition combining : list interval :=
  [
   mk_interval 0x0300 0x036F; mk_interval 0x0483 0x0486; mk_interval 0x0488 0x0489;
   mk_interval 0x0591 0x05BD; mk_interval 0x05BF 0x05BF; mk_interval 0x05C1 0x05C2;
   mk_interval 0x05C4 0x05C5; mk_interval 0x05C7 0x05C7; mk_interval 0x0600 0x0603;
   mk_interval 0x0610 0x0615; mk_interval 0x064B 0x065E; mk_interval 0x0670 0x0670;
   mk_interval 0x06D6 0x06E4; mk_interval 0x06E7 0x06E8; mk_interval 0x06EA 0x06ED;
   mk_interval 0x070F 0x070F; mk_interval 0x0711 0x0711; mk_interval 0x0730 0x074A;
   mk_interval 0x07A6 0x07B0; mk_interval 0x07EB 0x07F3; mk_interval 0x0901 0x0902;
   mk_interval 0x093C 0x093C; mk_interval 0x0941 0x0948; mk_interval 0x094D 0x094D;
   mk_interval 0x0951 0x0954; mk_interval 0x0962 0x0963; mk_interval 0x0981 0x0981;
   mk_interval 0x09BC 0x09BC; mk_interval 0x09C1 0x09C4; mk_interval 0x09CD 0x09CD;
   mk_interval 0x09E2 0x09E3; mk_interval 0x0A01 0x0A02; mk_interval 0x0A3C 0x0A3C;
   mk_interval 0x0A41 0x0A42; mk_interval 0x0A47 0x0A48; mk_interval 0x0A4B 0x0A4D;
   mk_interval 0x0A70 0x0A71; mk_interval 0x0A81 0x0A82; mk_interval 0x0ABC 0x0ABC;
   mk_interval 0x0AC1 0x0AC5; mk_interval 0x0AC7 0x0AC8; mk_interval 0x0ACD 0x0ACD;
   mk_interval 0x0AE2 0x0AE3; mk_interval 0x0B01 0x0B01; mk_interval 0x0B3C 0x0B3C;
   mk_interval 0x0B3F 0x0B3F; mk_interval 0x0B41 0x0B43; mk_interval 0x0B4D 0x0B4D;
   mk_interval 0x0B56 0x0B56; mk_interval 0x0B82 0x0B82; mk_interval 0x0BC0 0x0BC0;
   mk_interval 0x0BCD 0x0BCD; mk_interval 0x0C3E 0x0C40; mk_interval 0x0C46 0x0C48;
   mk_interval 0x0C4A 0x0C4D; mk_interval 0x0C55 0x0C56; mk_interval 0x0CBC 0x0CBC;
   mk_interval 0x0CBF 0x0CBF; mk_interval 0x0CC6 0x0CC6; mk_interval 0x0CCC 0x0CCD;
   mk_interval 0x0CE2 0x0CE3; mk_interval 0x0D41 0x0D43; mk_interval 0x0D4D 0x0D4D;
   mk_interval 0x0DCA 0x0DCA; mk_interval 0x0DD2 0x0DD4; mk_interval 0x0DD6 0x0DD6;
   mk_interval 0x0E31 0x0E31; mk_interval 0x0E34 0x0E3A; mk_interval 0x0E47 0x0E4E;
   mk_interval 0x0EB1 0x0EB1; mk_interval 0x0EB4 0x0EB9; mk_interval 0x0EBB 0x0EBC;
   mk_interval 0x0EC8 0x0ECD; mk_interval 0x0F18 0x0F19; mk_interval 0x0F35 0x0F35;
   mk_interval 0x0F37 0x0F37; mk_interval 0x0F39 0x0F39; mk_interval 0x0F71 0x0F7E;
   mk_interval 0x0F80 0x0F84; mk_interval 0x0F86 0x0F87; mk_interval 0x0F90 0x0F97;
   mk_interval 0x0F99 0x0FBC; mk_interval 0x0FC6 0x0FC6; mk_interval 0x102D 0x1030;
   mk_interval 0x1032 0x1032; mk_interval 0x1036 0x1037; mk_interval 0x1039 0x1039;
   mk_interval 0x1058 0x1059; mk_interval 0x1160 0x11FF; mk_interval 0x135F 0x135F;
   mk_interval 0x1712 0x1714; mk_interval 0x1732 0x1734; mk_interval 0x1752 0x1753;
   mk_interval 0x1772 0x1773; mk_interval 0x17B4 0x17B5; mk_interval 0x17B7 0x17BD;
   mk_interval 0x17C6 0x17C6; mk_interval 0x17C9 0x17D3; mk_interval 0x17DD 0x17DD;
   mk_interval 0x180B 0x180D; mk_interval 0x18A9 0x18A9; mk_interval 0x1920 0x1922;
   mk_interval 0x1927 0x1928; mk_interval 0x1932 0x1932; mk_interval 0x1939 0x193B;
   mk_interval 0x1A17 0x1A18; mk_interval 0x1B00 0x1B03; mk_interval 0x1B34 0x1B34;
   mk_interval 0x1B36 0x1B3A; mk_interval 0x1B3C 0x1B3C; mk_interval 0x1B42 0x1B42;
   mk_interval 0x1B6B 0x1B73; mk_interval 0x1DC0 0x1DCA; mk_interval 0x1DFE 0x1DFF;
   mk_interval 0x200B 0x200F; mk_interval 0x202A 0x202E; mk_interval 0x2060 0x2063;
   mk_interval 0x206A 0x206F; mk_interval 0x20D0 0x20EF; mk_interval 0x302A 0x302F;
   mk_interval 0x3099 0x309A; mk_interval 0xA806 0xA806; mk_interval 0xA80B 0xA80B;
   mk_interval 0xA825 0xA826; mk_interval 0xFB1E 0xFB1E; mk_interval 0xFE00 0xFE0F;
   mk_interval 0xFE20 0xFE23; mk_interval 0xFEFF 0xFEFF; mk_interval 0xFFF9 0xFFFB;
   mk_interval 0x10A01 0x10A03; mk_interval 0x10A05 0x10A06; mk_interval 0x10A0C 0x10A0F;
   mk_interval 0x10A38 0x10A3A; mk_interval 0x10A3F 0x10A3F; mk_interval 0x1D167 0x1D169;
   mk_interval 0x1D173 0x1D182; mk_interval 0x1D185 0x1D18B; mk_interval 0x1D1AA 0x1D1AD;
   mk_interval 0x1D242 0x1D244; mk_interval 0xE0001 0xE0001; mk_interval 0xE0020 0xE007F;
   mk_interval 0xE0100 0xE01EF].

(** The ranges of wide characters, the second operand of the sum that
    [mk_wcwidth] returns. *)
Definition is_wide (ucs : Z) : bool :=
  (0x1100 <=? ucs) &&
  ((ucs <=? 0x115f) ||
   (ucs =? 0x2329) || (ucs =? 0x232a) ||
   ((0x2e80 <=? ucs) && (ucs <=? 0xa4cf) && negb (ucs =? 0x303f)) ||
   ((0xac00 <=? ucs) && (ucs <=? 0xd7a3)) ||
   ((0xf900 <=? ucs) && (ucs <=? 0xfaff)) ||
   ((0xfe10 <=? ucs) && (ucs <=? 0xfe19)) ||
   ((0xfe30 <=? ucs) && (ucs <=? 0xfe6f)) ||
   ((0xff00 <=? ucs) && (ucs <=? 0xff60)) ||
   ((0xffe0 <=? ucs) && (ucs <=? 0xffe6)) ||
   ((0x20000 <=? ucs) && (ucs <=? 0x2fffd)) ||
   ((0x30000 <=? ucs) && (ucs <=? 0x3fffd))).

Definition mk_wcwidth (ucs : Z) : option Z :=
  if ucs =? 0 then Some 0 else
  if (ucs <? 32) || ((0x7f <=? ucs) && (ucs <? 0xa0)) then Some 1 else
  r ← bisearch ucs combining (zlen combining - 1);
  if negb (r =? 0) then Some 0
  else Some (1 + Z.b2z (is_wide ucs)).

(** The [case]s of [unicode_to_cp437] with the value each returns: the symbols,
    the letters of Latin alphabets, boxes and blocks, then Greek and mathematics. *)
Definition cp437_symbols : list (Z * Z) :=
  [(0x263a, 1); (0x263b, 2); (0x2665, 3); (0x2666, 4); (0x2663, 5); (0x2660, 6);
   (0x2022, 7); (0x25d8, 8); (0x25cb, 9); (0x25d9, 10); (0x2642, 11); (0x2640, 12);
   (0x266a, 13); (0x266b, 14); (0x263c, 15); (0x25ba, 16); (0x25c4, 17); (0x2195, 18);
   (0x203c, 19); (0x00b6, 20); (0x00a7, 21); (0x25ac, 22); (0x21a8, 23); (0x2191, 24);
   (0x2193, 25); (0x2192, 26); (0x2190, 27); (0x221f, 28); (0x2194, 29); (0x25b2, 30);
   (0x25bc, 31); (0x2302, 127)].

Definition cp437_latin : list (Z * Z) :=
  [(0x00c7, 128); (0x00fc, 129); (0x00e9, 130); (0x00e2, 131); (0x00e4, 132); (0x00e0, 133);
   (0x00e5, 134); (0x00e7, 135); (0x00ea, 136); (0x00eb, 137); (0x00e8, 138); (0x00ef, 139);
   (0x00ee, 140); (0x00ec, 141); (0x00c4, 142); (0x00c5, 143); (0x00c9, 144); (0x00e6, 145);
   (0x00c6, 146); (0x00f4, 147); (0x00f6, 148); (0x00f2, 149); (0x00fb, 150); (0x00f9, 151);
   (0x00ff, 152); (0x00d6, 153); (0x00dc, 154); (0x00a2, 155); (0x00a3, 156); (0x00a5, 157);
   (0x20a7, 158); (0x0192, 159); (0x00e1, 160); (0x00ed, 161); (0x00f3, 162); (0x00fa, 163);
   (0x00f1, 164); (0x00d1, 165); (0x00aa, 166); (0x00ba, 167); (0x00bf, 168); (0x2310, 169);
   (0x00ac, 170); (0x00bd, 171); (0x00bc, 172); (0x00a1, 173); (0x00ab, 174); (0x00bb, 175)].

Definition cp437_boxes : list (Z * Z) :=
  [(0x2591, 176); (0x2592, 177); (0x2593, 178); (0x2502, 179); (0x2524, 180); (0x2561, 181);
   (0x2562, 182); (0x2556, 183); (0x2555, 184); (0x2563, 185); (0x2551, 186); (0x2557, 187);
   (0x255d, 188); (0x255c, 189); (0x255b, 190); (0x2510, 191); (0x2514, 192); (0x2534, 193);
   (0x252c, 194); (0x251c, 195); (0x2500, 196); (0x253c, 197); (0x255e, 198); (0x255f, 199);
   (0x255a, 200); (0x2554, 201); (0x2569, 202); (0x2566, 203); (0x2560, 204); (0x2550, 205);
   (0x256c, 206); (0x2567, 207); (0x2568, 208); (0x2564, 209); (0x2565, 210); (0x2559, 211);
   (0x2558, 212); (0x2552, 213); (0x2553, 214); (0x256b, 215); (0x256a, 216); (0x2518, 217);
   (0x250c, 218); (0x2588, 219); (0x2584, 220); (0x258c, 221); (0x2590, 222); (0x2580, 223)].

Definition cp437_greek : list (Z * Z) :=
  [(0x03b1, 224); (0x00df, 225); (0x0393, 226); (0x03c0, 227); (0x03a3, 228); (0x03c3, 229);
   (0x00b5, 230); (0x03c4, 231); (0x03a6, 232); (0x0398, 233); (0x03a9, 234); (0x03b4, 235);
   (0x221e, 236); (0x03c6, 237); (0x03b5, 238); (0x2229, 239); (0x2261, 240); (0x00b1, 241);
   (0x2265, 242); (0x2264, 243); (0x2320, 244); (0x2321, 245); (0x00f7, 246); (0x2248, 247);
   (0x00b0, 248); (0x2219, 249); (0x00b7, 250); (0x221a, 251); (0x207f, 252); (0x00b2, 253);
   (0x25a0, 254)].

Definition cp437_cases : list (Z * Z) := cp437_symbols ++ cp437_latin ++ cp437_boxes ++ cp437_greek.

(** The value of the first case that matches, or the default. *)
Fixpoint switch (cases : list (Z * Z)) (v dflt : Z) : Z :=
  match cases with
  | [] => dflt
  | (k, r) :: cases => if v =? k then r else switch cases v dflt
  end.

Definition unicode_to_cp437 (code_point : Z) : Z := switch cp437_cases code_point (-1).

(** ** The table searched from end to end *)

Definition in_interval (ucs : Z) (iv : interval) : bool := (first iv <=? ucs) && (ucs <=? last iv).

Definition in_table (ucs : Z) (table : list interval) : bool := existsb (in_interval ucs) table.

(** Intervals that are not empty, each one before the next. *)
Fixpoint ordered_table (table : list interval) : bool :=
  match table with
  | [] => true
  | iv :: table =>
    (first iv <=? last iv) && ordered_table table &&
    match table with [] => true | iv' :: _ => last iv <? first iv' end
  end.

(** What the width of a character should be: nothing for the terminator and a
    combining character, two cells for a wide one, one for the rest, control
    characters included. *)
Definition width_spec (ucs : Z) : Z :=
  if ucs =? 0 then 0 else
  if (ucs <? 32) || ((0x7f <=? ucs) && (ucs <? 0xa0)) then 1 else
  if in_table ucs combining then 0 else if is_wide ucs then 2 else 1.

(** ** The binary search *)

Lemma ordered_inside table i iv :
  ordered_table table = true -> table !! i = Some iv -> first iv <= last iv.
Proof.
  revert i. induction table as [|iv' table IH]; intros i Ho Hi; [done|].
  cbn in Ho. destruct i as [|i]; cbn in Hi.
  - simplify_eq. lia.
  - eapply IH; [|done]. destruct (ordered_table table); [done|]. cbn in Ho. lia.
Qed.

Lemma ordered_before table i j a b :
  ordered_table table = true -> (i < j)%nat ->
  table !! i = Some a -> table !! j = Some b -> last a < first b.
Proof.
  revert i j a b. induction table as [|iv table IH]; intros i j a b Ho Hij Ha Hb; [done|].
  assert (Hot : ordered_table table = true).
  { cbn in Ho. destruct (ordered_table table); [done|]. cbn in Ho. lia. }
  destruct j as [|j]; [lia|]. cbn in Hb.
  destruct i as [|i]; cbn in Ha; [|eapply (IH i j); eauto; lia].
  injection Ha as <-. destruct table as [|iv' table]; [done|].
  assert (H1 : last iv < first iv') by (cbn in Ho; lia).
  destruct j as [|j]; cbn in Hb; [by simplify_eq|].
  pose proof (ordered_inside _ 0 iv' Hot eq_refl).
  pose proof (IH 0%nat (S j) iv' b Hot ltac:(lia) eq_refl Hb). lia.
Qed.

Lemma in_table_spec ucs table :
  in_table ucs table = true <-> exists i iv, table !! i = Some iv /\ first iv <= ucs <= last iv.
Proof.
  unfold in_table. rewrite existsb_exists. split.
  - intros (iv & Hin & H). apply list_elem_of_In, list_elem_of_lookup_1 in Hin as [i Hi].
    exists i, iv. unfold in_interval in H. split; [done|lia].
  - intros (i & iv & Hi & H). exists iv. split.
    + by eapply list_elem_of_In, list_elem_of_lookup_2.
    + unfold in_interval. lia.
Qed.

Section search.
Context (ucs : Z) (table : list interval).
Hypothesis Hord : ordered_table table = true.
Hypothesis Hlen : zlen table <= 2 ^ 30.

(** The intervals below [min] end before the character, those above [max]
    start after it. *)
Definition narrowed (min max : Z) : Prop :=
  0 <= min /\ max < zlen table /\
  (forall i iv, table !! i = Some iv -> Z.of_nat i < min -> last iv < ucs) /\
  (forall i iv, table !! i = Some iv -> max < Z.of_nat i -> ucs < first iv).

Lemma narrowed_empty min max : narrowed min max -> max < min -> in_table ucs table = false.
Proof.
  intros (H0 & H1 & Hlo & Hhi) Hmm. apply not_true_is_false.
  intros (i & iv & Hi & Hin)%in_table_spec.
  destruct (Z.lt_ge_cases (Z.of_nat i) min) as [Hlt|Hge].
  - specialize (Hlo i iv Hi Hlt). lia.
  - specialize (Hhi i iv Hi ltac:(lia)). lia.
Qed.

(** A round that finds the character beyond the middle interval, or before it,
    keeps the range narrowed. *)
Lemma narrowed_up min max mid iv :
  narrowed min max -> aget table mid = Some iv -> min <= mid <= max -> last iv < ucs ->
  narrowed (mid + 1) max.
Proof.
  intros (H0 & H1 & Hlo & Hhi) Hmid Hr Hlt. split_and!; [lia|lia| |done].
  intros i iv' Hi Him. unfold aget in Hmid. replace (mid <? 0) with false in Hmid by lia.
  destruct (decide (i = Z.to_nat mid)) as [->|Hne]; [congruence|].
  pose proof (ordered_before table i (Z.to_nat mid) iv' iv Hord ltac:(lia) Hi Hmid).
  pose proof (ordered_inside table _ _ Hord Hmid). lia.
Qed.

Lemma narrowed_down min max mid iv :
  narrowed min max -> aget table mid = Some iv -> min <= mid <= max -> ucs < first iv ->
  narrowed min (mid - 1).
Proof.
  intros (H0 & H1 & Hlo & Hhi) Hmid Hr Hlt. split_and!; [lia|lia|done|].
  intros i iv' Hi Him. unfold aget in Hmid. replace (mid <? 0) with false in Hmid by lia.
  destruct (decide (i = Z.to_nat mid)) as [->|Hne]; [congruence|].
  pose proof (ordered_before table (Z.to_nat mid) i iv iv' Hord ltac:(lia) Hmid Hi).
  pose proof (ordered_inside table _ _ Hord Hmid). lia.
Qed.

Lemma bisearch_loop_correct fuel min max :
  narrowed min max -> max - min < Z.of_nat fuel ->
  bisearch_loop fuel ucs table min max = Some (Z.b2z (in_table ucs table)).
Proof.
  revert min max. induction fuel as [|fuel IH]; intros min max Hn Hf; cbn [bisearch_loop].
  - replace (max <? min) with true by lia. by rewrite (narrowed_empty min max) by (done || lia).
  - destruct (Z.ltb_spec max min) as [Hmm|Hmm]; [by rewrite (narrowed_empty min max)|].
    pose proof Hn as (H0 & H1 & _ & _).
    rewrite (i32_small (min + max)) by lia.
    rewrite Z.quot_div_nonneg by lia. set (mid := (min + max) / 2).
    assert (Hmid : min <= mid <= max) by (subst mid; zlia).
    destruct (aget_in table mid ltac:(lia)) as [iv Hiv]. rewrite Hiv. cbn [mbind option_bind].
    destruct (Z.ltb_spec (last iv) ucs) as [Hl|Hl]; [|destruct (Z.ltb_spec ucs (first iv)) as [Hh|Hh]].
    + rewrite i32_small by lia. apply IH; [by eapply narrowed_up|lia].
    + rewrite i32_small by lia. apply IH; [by eapply narrowed_down|lia].
    + assert (in_table ucs table = true) as ->; [|done].
      apply in_table_spec. unfold aget in Hiv. replace (mid <? 0) with false in Hiv by lia.
      by exists (Z.to_nat mid), iv.
Qed.

(** The binary search always ends, reads inside the table only and finds what
    a search from end to end finds. *)
Lemma bisearch_correct :
  table <> [] -> bisearch ucs table (zlen table - 1) = Some (Z.b2z (in_table ucs table)).
Proof.
  intros Hne. assert (0 < zlen table) by (destruct table; [done|unfold zlen; cbn [length]; lia]).
  unfold bisearch. destruct (aget_in table 0 ltac:(lia)) as [lo Hlo].
  destruct (aget_in table (zlen table - 1) ltac:(lia)) as [hi Hhi].
  rewrite Hlo, Hhi. cbn [mbind option_bind].
  assert (Hall : narrowed 0 (zlen table - 1)).
  { split_and!; [lia|lia|intros; lia|]. intros i iv Hi%lookup_lt_Some ?. unfold zlen in *. lia. }
  destruct (Z.ltb_spec ucs (first lo)) as [H1|H1]; cbn [orb].
  - rewrite (narrowed_empty 0 (-1)); [done| |lia].
    apply (narrowed_down 0 (zlen table - 1) 0 lo); [done|done|lia|done].
  - destruct (Z.ltb_spec (last hi) ucs) as [H2|H2].
    + rewrite (narrowed_empty (zlen table) (zlen table - 1)); [done| |lia].
      replace (zlen table) with (zlen table - 1 + 1) at 1 by lia.
      apply (narrowed_up 0 (zlen table - 1) (zlen table - 1) hi); [done|done|lia|done].
    + apply bisearch_loop_correct; [done|]. unfold zlen. lia.
Qed.
End search.

(** ** Widths *)

Lemma combining_ordered : ordered_table combining = true.
Proof. vm_compute. reflexivity. Qed.

Lemma search_combining ucs :
  bisearch ucs combining (zlen combining - 1) = Some (Z.b2z (in_table ucs combining)).
Proof. apply bisearch_correct; [apply combining_ordered|by vm_compute|done]. Qed.

(** [mk_wcwidth] always returns, without an access outside the table of
    combining characters, and what it returns is the width that the table gives
    when it is searched from end to end: 0 for a combining character and the
    terminator, 2 for a character of the wide ranges and 1 for every other. *)
Theorem mk_wcwidth_spec ucs : mk_wcwidth ucs = Some (width_spec ucs).
Proof.
  unfold mk_wcwidth, width_spec. rewrite search_combining. cbn [mbind option_bind].
  repeat case_match; done.
Qed.

(** For the client: a width is 0, 1 or 2. *)
Lemma mk_wcwidth_total ucs : exists w, mk_wcwidth ucs = Some w /\ 0 <= w <= 2.
Proof.
  unfold mk_wcwidth. rewrite search_combining. cbn [mbind option_bind].
  repeat case_match; eexists; (split; [done|]); lia || (destruct (is_wide ucs); cbn; lia).
Qed.

(** ** The code page *)

Lemma switch_in cases v dflt :
  switch cases v dflt = dflt \/ (v, switch cases v dflt) ∈ cases.
Proof.
  induction cases as [|[k r] cases IH]; cbn [switch]; [by left|].
  destruct (Z.eqb_spec v k) as [->|]; [right; left|].
  destruct IH as [IH|IH]; [by left|right; by right].
Qed.

Lemma cp437_cases_glyphs : forallb (fun '(_, r) => (1 <=? r) && (r <? 255)) cp437_cases = true.
Proof. vm_compute. reflexivity. Qed.

(** The result is a glyph of the font, or -1. *)
Lemma unicode_to_cp437_glyph cp :
  unicode_to_cp437 cp = -1 \/ 1 <= unicode_to_cp437 cp < 255.
Proof.
  unfold unicode_to_cp437. destruct (switch_in cp437_cases cp (-1)) as [H|H]; [by left|right].
  revert H. generalize (switch cp437_cases cp (-1)). intros r H.
  pose proof cp437_cases_glyphs as Hg. rewrite forallb_forall in Hg.
  specialize (Hg _ (proj1 (list_elem_of_In _ _) H)). cbn beta iota in Hg. lia.
Qed.
