(* ===== verification/Flanterm.v ===== *)
(** * The terminal emulator: kernel/drivers/video/flanterm/flanterm.c

    The parser of the text and of the escape sequences that the kernel and its
    programs print.  [flanterm_context] is the part of the struct of
    flanterm_private.h that this file keeps itself, [flanterm_ops] the function
    pointers that a backend puts into it, over the backend's own state: the
    parser is written against that record, and FlantermFb.v is its one
    implementation in the sources.  An operation has no result when it makes
    an access out of bounds.

    The monad threads the context, the backend and the calls made to the
    client's [callback]; the kernel leaves that pointer null. *)

From S2P Require Import Prelude Arrays Wcwidth.

(** ** The context *)

Record flanterm_context : Type := mk_context {
  tab_size : Z;
  autoflush : bool;
  cursor_enabled : bool;
  scroll_enabled : bool;
  control_sequence : bool;
  escape : bool;
  osc : bool;
  osc_escape : bool;
  rrr : bool;
  discard_next : bool;
  bold : bool;
  bg_bold : bool;
  reverse_video : bool;
  dec_private : bool;
  insert_mode : bool;
  csi_unhandled : bool;
  code_point : Z;
  unicode_remaining : Z;
  g_select : Z;
  charsets : list Z;
  current_charset : Z;
  escape_offset : Z;
  esc_values_i : Z;
  saved_cursor_x : Z;
  saved_cursor_y : Z;
  current_primary : Z;
  current_bg : Z;
  scroll_top_margin : Z;
  scroll_bottom_margin : Z;
  esc_values : list Z;
  oob_output : Z;
  saved_state_bold : bool;
  saved_state_bg_bold : bool;
  saved_state_reverse_video : bool;
  saved_state_current_charset : Z;
  saved_state_current_primary : Z;
  saved_state_current_bg : Z;
  rows : Z;
  cols : Z;
  callback : bool
}.

(** The pointers of the context that the backend sets.  None of them writes
    to the context; [get_cursor_pos] only reads. *)
Record flanterm_ops (B : Type) : Type := mk_ops {
  op_raw_putchar : flanterm_context -> Z -> B -> option B;
  op_clear : flanterm_context -> bool -> B -> option B;
  op_set_cursor_pos : flanterm_context -> Z -> Z -> B -> option B;
  op_get_cursor_pos : flanterm_context -> B -> Z * Z;
  op_set_text_fg : flanterm_context -> Z -> B -> option B;
  op_set_text_bg : flanterm_context -> Z -> B -> option B;
  op_set_text_fg_bright : flanterm_context -> Z -> B -> option B;
  op_set_text_bg_bright : flanterm_context -> Z -> B -> option B;
  op_set_text_fg_rgb : flanterm_context -> Z -> B -> option B;
  op_set_text_bg_rgb : flanterm_context -> Z -> B -> option B;
  op_set_text_fg_default : flanterm_context -> B -> option B;
  op_set_text_bg_default : flanterm_context -> B -> option B;
  op_set_text_fg_default_bright : flanterm_context -> B -> option B;
  op_set_text_bg_default_bright : flanterm_context -> B -> option B;
  op_move_character : flanterm_context -> Z -> Z -> Z -> Z -> B -> option B;
  op_scroll : flanterm_context -> B -> option B;
  op_revscroll : flanterm_context -> B -> option B;
  op_swap_palette : flanterm_context -> B -> option B;
  op_save_state : flanterm_context -> B -> option B;
  op_restore_state : flanterm_context -> B -> option B;
  op_double_buffer_flush : flanterm_context -> B -> option B;
  op_full_refresh : flanterm_context -> B -> option B
}.
Arguments op_raw_putchar {B}. Arguments op_clear {B}. Arguments op_set_cursor_pos {B}.
Arguments op_get_cursor_pos {B}. Arguments op_set_text_fg {B}. Arguments op_set_text_bg {B}.
Arguments op_set_text_fg_bright {B}. Arguments op_set_text_bg_bright {B}.
Arguments op_set_text_fg_rgb {B}. Arguments op_set_text_bg_rgb {B}.
Arguments op_set_text_fg_default {B}. Arguments op_set_text_bg_default {B}.
Arguments op_set_text_fg_default_bright {B}. Arguments op_set_text_bg_default_bright {B}.
Arguments op_move_character {B}. Arguments op_scroll {B}. Arguments op_revscroll {B}.
Arguments op_swap_palette {B}. Arguments op_save_state {B}. Arguments op_restore_state {B}.
Arguments op_double_buffer_flush {B}. Arguments op_full_refresh {B}.

(** A call of [callback]; the third argument is a number, or the array
    [esc_values] at that moment. *)
Record callback_call : Type := mk_call {
  cb_type : Z; cb_a : Z; cb_b : Z + list Z; cb_c : Z
}.

Record terminal (B : Type) : Type := mk_terminal {
  t_ctx : flanterm_context;
  t_be : B;
  t_calls : list callback_call
}.
Arguments mk_terminal {B}. Arguments t_ctx {B}. Arguments t_be {B}. Arguments t_calls {B}.

(** ** The setters of the context *)

Definition set_autoflush (x : bool) (r : flanterm_context) : flanterm_context :=
  mk_context (tab_size r) x (cursor_enabled r) (scroll_enabled r) (control_sequence r) (escape r)
    (osc r) (osc_escape r) (rrr r) (discard_next r) (bold r) (bg_bold r) (reverse_video r)
    (dec_private r) (insert_mode r) (csi_unhandled r) (code_point r) (unicode_remaining r)
    (g_select r) (charsets r) (current_charset r) (escape_offset r) (esc_values_i r)
    (saved_cursor_x r) (saved_cursor_y r) (current_primary r) (current_bg r) (scroll_top_margin r)
    (scroll_bottom_margin r) (esc_values r) (oob_output r) (saved_state_bold r)
    (saved_state_bg_bold r) (saved_state_reverse_video r) (saved_state_current_charset r)
    (saved_state_current_primary r) (saved_state_current_bg r) (rows r) (cols r) (callback r).
Definition set_cursor_enabled (x : bool) (r : flanterm_context) : flanterm_context :=
  mk_context (tab_size r) (autoflush r) x (scroll_enabled r) (control_sequence r) (escape r) (osc r)
    (osc_escape r) (rrr r) (discard_next r) (bold r) (bg_bold r) (reverse_video r) (dec_private r)
    (insert_mode r) (csi_unhandled r) (code_point r) (unicode_remaining r) (g_select r) (charsets r)
    (current_charset r) (escape_offset r) (esc_values_i r) (saved_cursor_x r) (saved_cursor_y r)
    (current_primary r) (current_bg r) (scroll_top_margin r) (scroll_bottom_margin r) (esc_values r)
    (oob_output r) (saved_state_bold r) (saved_state_bg_bold r) (saved_state_reverse_video r)
    (saved_state_current_charset r) (saved_state_current_primary r) (saved_state_current_bg r)
    (rows r) (cols r) (callback r).
Definition set_scroll_enabled (x : bool) (r : flanterm_context) : flanterm_context :=
  mk_context (tab_size r) (autoflush r) (cursor_enabled r) x (control_sequence r) (escape r) (osc r)
    (osc_escape r) (rrr r) (discard_next r) (bold r) (bg_bold r) (reverse_video r) (dec_private r)
    (insert_mode r) (csi_unhandled r) (code_point r) (unicode_remaining r) (g_select r) (charsets r)
    (current_charset r) (escape_offset r) (esc_values_i r) (saved_cursor_x r) (saved_cursor_y r)
    (current_primary r) (current_bg r) (scroll_top_margin r) (scroll_bottom_margin r) (esc_values r)
    (oob_output r) (saved_state_bold r) (saved_state_bg_bold r) (saved_state_reverse_video r)
    (saved_state_current_charset r) (saved_state_current_primary r) (saved_state_current_bg r)
    (rows r) (cols r) (callback r).
Definition set_control_sequence (x : bool) (r : flanterm_context) : flanterm_context :=
  mk_context (tab_size r) (autoflush r) (cursor_enabled r) (scroll_enabled r) x (escape r) (osc r)
    (osc_escape r) (rrr r) (discard_next r) (bold r) (bg_bold r) (reverse_video r) (dec_private r)
    (insert_mode r) (csi_unhandled r) (code_point r) (unicode_remaining r) (g_select r) (charsets r)
    (current_charset r) (escape_offset r) (esc_values_i r) (saved_cursor_x r) (saved_cursor_y r)
    (current_primary r) (current_bg r) (scroll_top_margin r) (scroll_bottom_margin r) (esc_values r)
    (oob_output r) (saved_state_bold r) (saved_state_bg_bold r) (saved_state_reverse_video r)
    (saved_state_current_charset r) (saved_state_current_primary r) (saved_state_current_bg r)
    (rows r) (cols r) (callback r).
Definition set_escape (x : bool) (r : flanterm_context) : flanterm_context :=
  mk_context (tab_size r) (autoflush r) (cursor_enabled r) (scroll_enabled r) (control_sequence r) x
    (osc r) (osc_escape r) (rrr r) (discard_next r) (bold r) (bg_bold r) (reverse_video r)
    (dec_private r) (insert_mode r) (csi_unhandled r) (code_point r) (unicode_remaining r)
    (g_select r) (charsets r) (current_charset r) (escape_offset r) (esc_values_i r)
    (saved_cursor_x r) (saved_cursor_y r) (current_primary r) (current_bg r) (scroll_top_margin r)
    (scroll_bottom_margin r) (esc_values r) (oob_output r) (saved_state_bold r)
    (saved_state_bg_bold r) (saved_state_reverse_video r) (saved_state_current_charset r)
    (saved_state_current_primary r) (saved_state_current_bg r) (rows r) (cols r) (callback r).
Definition set_osc (x : bool) (r : flanterm_context) : flanterm_context :=
  mk_context (tab_size r) (autoflush r) (cursor_enabled r) (scroll_enabled r) (control_sequence r)
    (escape r) x (osc_escape r) (rrr r) (discard_next r) (bold r) (bg_bold r) (reverse_video r)
    (dec_private r) (insert_mode r) (csi_unhandled r) (code_point r) (unicode_remaining r)
    (g_select r) (charsets r) (current_charset r) (escape_offset r) (esc_values_i r)
    (saved_cursor_x r) (saved_cursor_y r) (current_primary r) (current_bg r) (scroll_top_margin r)
    (scroll_bottom_margin r) (esc_values r) (oob_output r) (saved_state_bold r)
    (saved_state_bg_bold r) (saved_state_reverse_video r) (saved_state_current_charset r)
    (saved_state_current_primary r) (saved_state_current_bg r) (rows r) (cols r) (callback r).
Definition set_osc_escape (x : bool) (r : flanterm_context) : flanterm_context :=
  mk_context (tab_size r) (autoflush r) (cursor_enabled r) (scroll_enabled r) (control_sequence r)
    (escape r) (osc r) x (rrr r) (discard_next r) (bold r) (bg_bold r) (reverse_video r)
    (dec_private r) (insert_mode r) (csi_unhandled r) (code_point r) (unicode_remaining r)
    (g_select r) (charsets r) (current_charset r) (escape_offset r) (esc_values_i r)
    (saved_cursor_x r) (saved_cursor_y r) (current_primary r) (current_bg r) (scroll_top_margin r)
    (scroll_bottom_margin r) (esc_values r) (oob_output r) (saved_state_bold r)
    (saved_state_bg_bold r) (saved_state_reverse_video r) (saved_state_current_charset r)
    (saved_state_current_primary r) (saved_state_current_bg r) (rows r) (cols r) (callback r).
Definition set_rrr (x : bool) (r : flanterm_context) : flanterm_context :=
  mk_context (tab_size r) (autoflush r) (cursor_enabled r) (scroll_enabled r) (control_sequence r)
    (escape r) (osc r) (osc_escape r) x (discard_next r) (bold r) (bg_bold r) (reverse_video r)
    (dec_private r) (insert_mode r) (csi_unhandled r) (code_point r) (unicode_remaining r)
    (g_select r) (charsets r) (current_charset r) (escape_offset r) (esc_values_i r)
    (saved_cursor_x r) (saved_cursor_y r) (current_primary r) (current_bg r) (scroll_top_margin r)
    (scroll_bottom_margin r) (esc_values r) (oob_output r) (saved_state_bold r)
    (saved_state_bg_bold r) (saved_state_reverse_video r) (saved_state_current_charset r)
    (saved_state_current_primary r) (saved_state_current_bg r) (rows r) (cols r) (callback r).
Definition set_discard_next (x : bool) (r : flanterm_context) : flanterm_context :=
  mk_context (tab_size r) (autoflush r) (cursor_enabled r) (scroll_enabled r) (control_sequence r)
    (escape r) (osc r) (osc_escape r) (rrr r) x (bold r) (bg_bold r) (reverse_video r)
    (dec_private r) (insert_mode r) (csi_unhandled r) (code_point r) (unicode_remaining r)
    (g_select r) (charsets r) (current_charset r) (escape_offset r) (esc_values_i r)
    (saved_cursor_x r) (saved_cursor_y r) (current_primary r) (current_bg r) (scroll_top_margin r)
    (scroll_bottom_margin r) (esc_values r) (oob_output r) (saved_state_bold r)
    (saved_state_bg_bold r) (saved_state_reverse_video r) (saved_state_current_charset r)
    (saved_state_current_primary r) (saved_state_current_bg r) (rows r) (cols r) (callback r).
Definition set_bold (x : bool) (r : flanterm_context) : flanterm_context :=
  mk_context (tab_size r) (autoflush r) (cursor_enabled r) (scroll_enabled r) (control_sequence r)
    (escape r) (osc r) (osc_escape r) (rrr r) (discard_next r) x (bg_bold r) (reverse_video r)
    (dec_private r) (insert_mode r) (csi_unhandled r) (code_point r) (unicode_remaining r)
    (g_select r) (charsets r) (current_charset r) (escape_offset r) (esc_values_i r)
    (saved_cursor_x r) (saved_cursor_y r) (current_primary r) (current_bg r) (scroll_top_margin r)
    (scroll_bottom_margin r) (esc_values r) (oob_output r) (saved_state_bold r)
    (saved_state_bg_bold r) (saved_state_reverse_video r) (saved_state_current_charset r)
    (saved_state_current_primary r) (saved_state_current_bg r) (rows r) (cols r) (callback r).
Definition set_bg_bold (x : bool) (r : flanterm_context) : flanterm_context :=
  mk_context (tab_size r) (autoflush r) (cursor_enabled r) (scroll_enabled r) (control_sequence r)
    (escape r) (osc r) (osc_escape r) (rrr r) (discard_next r) (bold r) x (reverse_video r)
    (dec_private r) (insert_mode r) (csi_unhandled r) (code_point r) (unicode_remaining r)
    (g_select r) (charsets r) (current_charset r) (escape_offset r) (esc_values_i r)
    (saved_cursor_x r) (saved_cursor_y r) (current_primary r) (current_bg r) (scroll_top_margin r)
    (scroll_bottom_margin r) (esc_values r) (oob_output r) (saved_state_bold r)
    (saved_state_bg_bold r) (saved_state_reverse_video r) (saved_state_current_charset r)
    (saved_state_current_primary r) (saved_state_current_bg r) (rows r) (cols r) (callback r).
Definition set_reverse_video (x : bool) (r : flanterm_context) : flanterm_context :=
  mk_context (tab_size r) (autoflush r) (cursor_enabled r) (scroll_enabled r) (control_sequence r)
    (escape r) (osc r) (osc_escape r) (rrr r) (discard_next r) (bold r) (bg_bold r) x
    (dec_private r) (insert_mode r) (csi_unhandled r) (code_point r) (unicode_remaining r)
    (g_select r) (charsets r) (current_charset r) (escape_offset r) (esc_values_i r)
    (saved_cursor_x r) (saved_cursor_y r) (current_primary r) (current_bg r) (scroll_top_margin r)
    (scroll_bottom_margin r) (esc_values r) (oob_output r) (saved_state_bold r)
    (saved_state_bg_bold r) (saved_state_reverse_video r) (saved_state_current_charset r)
    (saved_state_current_primary r) (saved_state_current_bg r) (rows r) (cols r) (callback r).
Definition set_dec_private (x : bool) (r : flanterm_context) : flanterm_context :=
  mk_context (tab_size r) (autoflush r) (cursor_enabled r) (scroll_enabled r) (control_sequence r)
    (escape r) (osc r) (osc_escape r) (rrr r) (discard_next r) (bold r) (bg_bold r)
    (reverse_video r) x (insert_mode r) (csi_unhandled r) (code_point r) (unicode_remaining r)
    (g_select r) (charsets r) (current_charset r) (escape_offset r) (esc_values_i r)
    (saved_cursor_x r) (saved_cursor_y r) (current_primary r) (current_bg r) (scroll_top_margin r)
    (scroll_bottom_margin r) (esc_values r) (oob_output r) (saved_state_bold r)
    (saved_state_bg_bold r) (saved_state_reverse_video r) (saved_state_current_charset r)
    (saved_state_current_primary r) (saved_state_current_bg r) (rows r) (cols r) (callback r).
Definition set_insert_mode (x : bool) (r : flanterm_context) : flanterm_context :=
  mk_context (tab_size r) (autoflush r) (cursor_enabled r) (scroll_enabled r) (control_sequence r)
    (escape r) (osc r) (osc_escape r) (rrr r) (discard_next r) (bold r) (bg_bold r)
    (reverse_video r) (dec_private r) x (csi_unhandled r) (code_point r) (unicode_remaining r)
    (g_select r) (charsets r) (current_charset r) (escape_offset r) (esc_values_i r)
    (saved_cursor_x r) (saved_cursor_y r) (current_primary r) (current_bg r) (scroll_top_margin r)
    (scroll_bottom_margin r) (esc_values r) (oob_output r) (saved_state_bold r)
    (saved_state_bg_bold r) (saved_state_reverse_video r) (saved_state_current_charset r)
    (saved_state_current_primary r) (saved_state_current_bg r) (rows r) (cols r) (callback r).
Definition set_csi_unhandled (x : bool) (r : flanterm_context) : flanterm_context :=
  mk_context (tab_size r) (autoflush r) (cursor_enabled r) (scroll_enabled r) (control_sequence r)
    (escape r) (osc r) (osc_escape r) (rrr r) (discard_next r) (bold r) (bg_bold r)
    (reverse_video r) (dec_private r) (insert_mode r) x (code_point r) (unicode_remaining r)
    (g_select r) (charsets r) (current_charset r) (escape_offset r) (esc_values_i r)
    (saved_cursor_x r) (saved_cursor_y r) (current_primary r) (current_bg r) (scroll_top_margin r)
    (scroll_bottom_margin r) (esc_values r) (oob_output r) (saved_state_bold r)
    (saved_state_bg_bold r) (saved_state_reverse_video r) (saved_state_current_charset r)
    (saved_state_current_primary r) (saved_state_current_bg r) (rows r) (cols r) (callback r).
Definition set_code_point (x : Z) (r : flanterm_context) : flanterm_context :=
  mk_context (tab_size r) (autoflush r) (cursor_enabled r) (scroll_enabled r) (control_sequence r)
    (escape r) (osc r) (osc_escape r) (rrr r) (discard_next r) (bold r) (bg_bold r)
    (reverse_video r) (dec_private r) (insert_mode r) (csi_unhandled r) x (unicode_remaining r)
    (g_select r) (charsets r) (current_charset r) (escape_offset r) (esc_values_i r)
    (saved_cursor_x r) (saved_cursor_y r) (current_primary r) (current_bg r) (scroll_top_margin r)
    (scroll_bottom_margin r) (esc_values r) (oob_output r) (saved_state_bold r)
    (saved_state_bg_bold r) (saved_state_reverse_video r) (saved_state_current_charset r)
    (saved_state_current_primary r) (saved_state_current_bg r) (rows r) (cols r) (callback r).
Definition set_unicode_remaining (x : Z) (r : flanterm_context) : flanterm_context :=
  mk_context (tab_size r) (autoflush r) (cursor_enabled r) (scroll_enabled r) (control_sequence r)
    (escape r) (osc r) (osc_escape r) (rrr r) (discard_next r) (bold r) (bg_bold r)
    (reverse_video r) (dec_private r) (insert_mode r) (csi_unhandled r) (code_point r) x
    (g_select r) (charsets r) (current_charset r) (escape_offset r) (esc_values_i r)
    (saved_cursor_x r) (saved_cursor_y r) (current_primary r) (current_bg r) (scroll_top_margin r)
    (scroll_bottom_margin r) (esc_values r) (oob_output r) (saved_state_bold r)
    (saved_state_bg_bold r) (saved_state_reverse_video r) (saved_state_current_charset r)
    (saved_state_current_primary r) (saved_state_current_bg r) (rows r) (cols r) (callback r).
Definition set_g_select (x : Z) (r : flanterm_context) : flanterm_context :=
  mk_context (tab_size r) (autoflush r) (cursor_enabled r) (scroll_enabled r) (control_sequence r)
    (escape r) (osc r) (osc_escape r) (rrr r) (discard_next r) (bold r) (bg_bold r)
    (reverse_video r) (dec_private r) (insert_mode r) (csi_unhandled r) (code_point r)
    (unicode_remaining r) x (charsets r) (current_charset r) (escape_offset r) (esc_values_i r)
    (saved_cursor_x r) (saved_cursor_y r) (current_primary r) (current_bg r) (scroll_top_margin r)
    (scroll_bottom_margin r) (esc_values r) (oob_output r) (saved_state_bold r)
    (saved_state_bg_bold r) (saved_state_reverse_video r) (saved_state_current_charset r)
    (saved_state_current_primary r) (saved_state_current_bg r) (rows r) (cols r) (callback r).
Definition set_charsets (x : list Z) (r : flanterm_context) : flanterm_context :=
  mk_context (tab_size r) (autoflush r) (cursor_enabled r) (scroll_enabled r) (control_sequence r)
    (escape r) (osc r) (osc_escape r) (rrr r) (discard_next r) (bold r) (bg_bold r)
    (reverse_video r) (dec_private r) (insert_mode r) (csi_unhandled r) (code_point r)
    (unicode_remaining r) (g_select r) x (current_charset r) (escape_offset r) (esc_values_i r)
    (saved_cursor_x r) (saved_cursor_y r) (current_primary r) (current_bg r) (scroll_top_margin r)
    (scroll_bottom_margin r) (esc_values r) (oob_output r) (saved_state_bold r)
    (saved_state_bg_bold r) (saved_state_reverse_video r) (saved_state_current_charset r)
    (saved_state_current_primary r) (saved_state_current_bg r) (rows r) (cols r) (callback r).
Definition set_current_charset (x : Z) (r : flanterm_context) : flanterm_context :=
  mk_context (tab_size r) (autoflush r) (cursor_enabled r) (scroll_enabled r) (control_sequence r)
    (escape r) (osc r) (osc_escape r) (rrr r) (discard_next r) (bold r) (bg_bold r)
    (reverse_video r) (dec_private r) (insert_mode r) (csi_unhandled r) (code_point r)
    (unicode_remaining r) (g_select r) (charsets r) x (escape_offset r) (esc_values_i r)
    (saved_cursor_x r) (saved_cursor_y r) (current_primary r) (current_bg r) (scroll_top_margin r)
    (scroll_bottom_margin r) (esc_values r) (oob_output r) (saved_state_bold r)
    (saved_state_bg_bold r) (saved_state_reverse_video r) (saved_state_current_charset r)
    (saved_state_current_primary r) (saved_state_current_bg r) (rows r) (cols r) (callback r).
Definition set_escape_offset (x : Z) (r : flanterm_context) : flanterm_context :=
  mk_context (tab_size r) (autoflush r) (cursor_enabled r) (scroll_enabled r) (control_sequence r)
    (escape r) (osc r) (osc_escape r) (rrr r) (discard_next r) (bold r) (bg_bold r)
    (reverse_video r) (dec_private r) (insert_mode r) (csi_unhandled r) (code_point r)
    (unicode_remaining r) (g_select r) (charsets r) (current_charset r) x (esc_values_i r)
    (saved_cursor_x r) (saved_cursor_y r) (current_primary r) (current_bg r) (scroll_top_margin r)
    (scroll_bottom_margin r) (esc_values r) (oob_output r) (saved_state_bold r)
    (saved_state_bg_bold r) (saved_state_reverse_video r) (saved_state_current_charset r)
    (saved_state_current_primary r) (saved_state_current_bg r) (rows r) (cols r) (callback r).
Definition set_esc_values_i (x : Z) (r : flanterm_context) : flanterm_context :=
  mk_context (tab_size r) (autoflush r) (cursor_enabled r) (scroll_enabled r) (control_sequence r)
    (escape r) (osc r) (osc_escape r) (rrr r) (discard_next r) (bold r) (bg_bold r)
    (reverse_video r) (dec_private r) (insert_mode r) (csi_unhandled r) (code_point r)
    (unicode_remaining r) (g_select r) (charsets r) (current_charset r) (escape_offset r) x
    (saved_cursor_x r) (saved_cursor_y r) (current_primary r) (current_bg r) (scroll_top_margin r)
    (scroll_bottom_margin r) (esc_values r) (oob_output r) (saved_state_bold r)
    (saved_state_bg_bold r) (saved_state_reverse_video r) (saved_state_current_charset r)
    (saved_state_current_primary r) (saved_state_current_bg r) (rows r) (cols r) (callback r).
Definition set_saved_cursor_x (x : Z) (r : flanterm_context) : flanterm_context :=
  mk_context (tab_size r) (autoflush r) (cursor_enabled r) (scroll_enabled r) (control_sequence r)
    (escape r) (osc r) (osc_escape r) (rrr r) (discard_next r) (bold r) (bg_bold r)
    (reverse_video r) (dec_private r) (insert_mode r) (csi_unhandled r) (code_point r)
    (unicode_remaining r) (g_select r) (charsets r) (current_charset r) (escape_offset r)
    (esc_values_i r) x (saved_cursor_y r) (current_primary r) (current_bg r) (scroll_top_margin r)
    (scroll_bottom_margin r) (esc_values r) (oob_output r) (saved_state_bold r)
    (saved_state_bg_bold r) (saved_state_reverse_video r) (saved_state_current_charset r)
    (saved_state_current_primary r) (saved_state_current_bg r) (rows r) (cols r) (callback r).
Definition set_saved_cursor_y (x : Z) (r : flanterm_context) : flanterm_context :=
  mk_context (tab_size r) (autoflush r) (cursor_enabled r) (scroll_enabled r) (control_sequence r)
    (escape r) (osc r) (osc_escape r) (rrr r) (discard_next r) (bold r) (bg_bold r)
    (reverse_video r) (dec_private r) (insert_mode r) (csi_unhandled r) (code_point r)
    (unicode_remaining r) (g_select r) (charsets r) (current_charset r) (escape_offset r)
    (esc_values_i r) (saved_cursor_x r) x (current_primary r) (current_bg r) (scroll_top_margin r)
    (scroll_bottom_margin r) (esc_values r) (oob_output r) (saved_state_bold r)
    (saved_state_bg_bold r) (saved_state_reverse_video r) (saved_state_current_charset r)
    (saved_state_current_primary r) (saved_state_current_bg r) (rows r) (cols r) (callback r).
Definition set_current_primary (x : Z) (r : flanterm_context) : flanterm_context :=
  mk_context (tab_size r) (autoflush r) (cursor_enabled r) (scroll_enabled r) (control_sequence r)
    (escape r) (osc r) (osc_escape r) (rrr r) (discard_next r) (bold r) (bg_bold r)
    (reverse_video r) (dec_private r) (insert_mode r) (csi_unhandled r) (code_point r)
    (unicode_remaining r) (g_select r) (charsets r) (current_charset r) (escape_offset r)
    (esc_values_i r) (saved_cursor_x r) (saved_cursor_y r) x (current_bg r) (scroll_top_margin r)
    (scroll_bottom_margin r) (esc_values r) (oob_output r) (saved_state_bold r)
    (saved_state_bg_bold r) (saved_state_reverse_video r) (saved_state_current_charset r)
    (saved_state_current_primary r) (saved_state_current_bg r) (rows r) (cols r) (callback r).
Definition set_current_bg (x : Z) (r : flanterm_context) : flanterm_context :=
  mk_context (tab_size r) (autoflush r) (cursor_enabled r) (scroll_enabled r) (control_sequence r)
    (escape r) (osc r) (osc_escape r) (rrr r) (discard_next r) (bold r) (bg_bold r)
    (reverse_video r) (dec_private r) (insert_mode r) (csi_unhandled r) (code_point r)
    (unicode_remaining r) (g_select r) (charsets r) (current_charset r) (escape_offset r)
    (esc_values_i r) (saved_cursor_x r) (saved_cursor_y r) (current_primary r) x
    (scroll_top_margin r) (scroll_bottom_margin r) (esc_values r) (oob_output r)
    (saved_state_bold r) (saved_state_bg_bold r) (saved_state_reverse_video r)
    (saved_state_current_charset r) (saved_state_current_primary r) (saved_state_current_bg r)
    (rows r) (cols r) (callback r).
Definition set_scroll_top_margin (x : Z) (r : flanterm_context) : flanterm_context :=
  mk_context (tab_size r) (autoflush r) (cursor_enabled r) (scroll_enabled r) (control_sequence r)
    (escape r) (osc r) (osc_escape r) (rrr r) (discard_next r) (bold r) (bg_bold r)
    (reverse_video r) (dec_private r) (insert_mode r) (csi_unhandled r) (code_point r)
    (unicode_remaining r) (g_select r) (charsets r) (current_charset r) (escape_offset r)
    (esc_values_i r) (saved_cursor_x r) (saved_cursor_y r) (current_primary r) (current_bg r) x
    (scroll_bottom_margin r) (esc_values r) (oob_output r) (saved_state_bold r)
    (saved_state_bg_bold r) (saved_state_reverse_video r) (saved_state_current_charset r)
    (saved_state_current_primary r) (saved_state_current_bg r) (rows r) (cols r) (callback r).
Definition set_scroll_bottom_margin (x : Z) (r : flanterm_context) : flanterm_context :=
  mk_context (tab_size r) (autoflush r) (cursor_enabled r) (scroll_enabled r) (control_sequence r)
    (escape r) (osc r) (osc_escape r) (rrr r) (discard_next r) (bold r) (bg_bold r)
    (reverse_video r) (dec_private r) (insert_mode r) (csi_unhandled r) (code_point r)
    (unicode_remaining r) (g_select r) (charsets r) (current_charset r) (escape_offset r)
    (esc_values_i r) (saved_cursor_x r) (saved_cursor_y r) (current_primary r) (current_bg r)
    (scroll_top_margin r) x (esc_values r) (oob_output r) (saved_state_bold r)
    (saved_state_bg_bold r) (saved_state_reverse_video r) (saved_state_current_charset r)
    (saved_state_current_primary r) (saved_state_current_bg r) (rows r) (cols r) (callback r).
Definition set_esc_values (x : list Z) (r : flanterm_context) : flanterm_context :=
  mk_context (tab_size r) (autoflush r) (cursor_enabled r) (scroll_enabled r) (control_sequence r)
    (escape r) (osc r) (osc_escape r) (rrr r) (discard_next r) (bold r) (bg_bold r)
    (reverse_video r) (dec_private r) (insert_mode r) (csi_unhandled r) (code_point r)
    (unicode_remaining r) (g_select r) (charsets r) (current_charset r) (escape_offset r)
    (esc_values_i r) (saved_cursor_x r) (saved_cursor_y r) (current_primary r) (current_bg r)
    (scroll_top_margin r) (scroll_bottom_margin r) x (oob_output r) (saved_state_bold r)
    (saved_state_bg_bold r) (saved_state_reverse_video r) (saved_state_current_charset r)
    (saved_state_current_primary r) (saved_state_current_bg r) (rows r) (cols r) (callback r).
Definition set_oob_output (x : Z) (r : flanterm_context) : flanterm_context :=
  mk_context (tab_size r) (autoflush r) (cursor_enabled r) (scroll_enabled r) (control_sequence r)
    (escape r) (osc r) (osc_escape r) (rrr r) (discard_next r) (bold r) (bg_bold r)
    (reverse_video r) (dec_private r) (insert_mode r) (csi_unhandled r) (code_point r)
    (unicode_remaining r) (g_select r) (charsets r) (current_charset r) (escape_offset r)
    (esc_values_i r) (saved_cursor_x r) (saved_cursor_y r) (current_primary r) (current_bg r)
    (scroll_top_margin r) (scroll_bottom_margin r) (esc_values r) x (saved_state_bold r)
    (saved_state_bg_bold r) (saved_state_reverse_video r) (saved_state_current_charset r)
    (saved_state_current_primary r) (saved_state_current_bg r) (rows r) (cols r) (callback r).
Definition set_saved_state_bold (x : bool) (r : flanterm_context) : flanterm_context :=
  mk_context (tab_size r) (autoflush r) (cursor_enabled r) (scroll_enabled r) (control_sequence r)
    (escape r) (osc r) (osc_escape r) (rrr r) (discard_next r) (bold r) (bg_bold r)
    (reverse_video r) (dec_private r) (insert_mode r) (csi_unhandled r) (code_point r)
    (unicode_remaining r) (g_select r) (charsets r) (current_charset r) (escape_offset r)
    (esc_values_i r) (saved_cursor_x r) (saved_cursor_y r) (current_primary r) (current_bg r)
    (scroll_top_margin r) (scroll_bottom_margin r) (esc_values r) (oob_output r) x
    (saved_state_bg_bold r) (saved_state_reverse_video r) (saved_state_current_charset r)
    (saved_state_current_primary r) (saved_state_current_bg r) (rows r) (cols r) (callback r).
Definition set_saved_state_bg_bold (x : bool) (r : flanterm_context) : flanterm_context :=
  mk_context (tab_size r) (autoflush r) (cursor_enabled r) (scroll_enabled r) (control_sequence r)
    (escape r) (osc r) (osc_escape r) (rrr r) (discard_next r) (bold r) (bg_bold r)
    (reverse_video r) (dec_private r) (insert_mode r) (csi_unhandled r) (code_point r)
    (unicode_remaining r) (g_select r) (charsets r) (current_charset r) (escape_offset r)
    (esc_values_i r) (saved_cursor_x r) (saved_cursor_y r) (current_primary r) (current_bg r)
    (scroll_top_margin r) (scroll_bottom_margin r) (esc_values r) (oob_output r)
    (saved_state_bold r) x (saved_state_reverse_video r) (saved_state_current_charset r)
    (saved_state_current_primary r) (saved_state_current_bg r) (rows r) (cols r) (callback r).
Definition set_saved_state_reverse_video (x : bool) (r : flanterm_context) : flanterm_context :=
  mk_context (tab_size r) (autoflush r) (cursor_enabled r) (scroll_enabled r) (control_sequence r)
    (escape r) (osc r) (osc_escape r) (rrr r) (discard_next r) (bold r) (bg_bold r)
    (reverse_video r) (dec_private r) (insert_mode r) (csi_unhandled r) (code_point r)
    (unicode_remaining r) (g_select r) (charsets r) (current_charset r) (escape_offset r)
    (esc_values_i r) (saved_cursor_x r) (saved_cursor_y r) (current_primary r) (current_bg r)
    (scroll_top_margin r) (scroll_bottom_margin r) (esc_values r) (oob_output r)
    (saved_state_bold r) (saved_state_bg_bold r) x (saved_state_current_charset r)
    (saved_state_current_primary r) (saved_state_current_bg r) (rows r) (cols r) (callback r).
Definition set_saved_state_current_charset (x : Z) (r : flanterm_context) : flanterm_context :=
  mk_context (tab_size r) (autoflush r) (cursor_enabled r) (scroll_enabled r) (control_sequence r)
    (escape r) (osc r) (osc_escape r) (rrr r) (discard_next r) (bold r) (bg_bold r)
    (reverse_video r) (dec_private r) (insert_mode r) (csi_unhandled r) (code_point r)
    (unicode_remaining r) (g_select r) (charsets r) (current_charset r) (escape_offset r)
    (esc_values_i r) (saved_cursor_x r) (saved_cursor_y r) (current_primary r) (current_bg r)
    (scroll_top_margin r) (scroll_bottom_margin r) (esc_values r) (oob_output r)
    (saved_state_bold r) (saved_state_bg_bold r) (saved_state_reverse_video r) x
    (saved_state_current_primary r) (saved_state_current_bg r) (rows r) (cols r) (callback r).
Definition set_saved_state_current_primary (x : Z) (r : flanterm_context) : flanterm_context :=
  mk_context (tab_size r) (autoflush r) (cursor_enabled r) (scroll_enabled r) (control_sequence r)
    (escape r) (osc r) (osc_escape r) (rrr r) (discard_next r) (bold r) (bg_bold r)
    (reverse_video r) (dec_private r) (insert_mode r) (csi_unhandled r) (code_point r)
    (unicode_remaining r) (g_select r) (charsets r) (current_charset r) (escape_offset r)
    (esc_values_i r) (saved_cursor_x r) (saved_cursor_y r) (current_primary r) (current_bg r)
    (scroll_top_margin r) (scroll_bottom_margin r) (esc_values r) (oob_output r)
    (saved_state_bold r) (saved_state_bg_bold r) (saved_state_reverse_video r)
    (saved_state_current_charset r) x (saved_state_current_bg r) (rows r) (cols r) (callback r).
Definition set_saved_state_current_bg (x : Z) (r : flanterm_context) : flanterm_context :=
  mk_context (tab_size r) (autoflush r) (cursor_enabled r) (scroll_enabled r) (control_sequence r)
    (escape r) (osc r) (osc_escape r) (rrr r) (discard_next r) (bold r) (bg_bold r)
    (reverse_video r) (dec_private r) (insert_mode r) (csi_unhandled r) (code_point r)
    (unicode_remaining r) (g_select r) (charsets r) (current_charset r) (escape_offset r)
    (esc_values_i r) (saved_cursor_x r) (saved_cursor_y r) (current_primary r) (current_bg r)
    (scroll_top_margin r) (scroll_bottom_margin r) (esc_values r) (oob_output r)
    (saved_state_bold r) (saved_state_bg_bold r) (saved_state_reverse_video r)
    (saved_state_current_charset r) (saved_state_current_primary r) x (rows r) (cols r) (callback r).
Definition set_callback (x : bool) (r : flanterm_context) : flanterm_context :=
  mk_context (tab_size r) (autoflush r) (cursor_enabled r) (scroll_enabled r) (control_sequence r)
    (escape r) (osc r) (osc_escape r) (rrr r) (discard_next r) (bold r) (bg_bold r)
    (reverse_video r) (dec_private r) (insert_mode r) (csi_unhandled r) (code_point r)
    (unicode_remaining r) (g_select r) (charsets r) (current_charset r) (escape_offset r)
    (esc_values_i r) (saved_cursor_x r) (saved_cursor_y r) (current_primary r) (current_bg r)
    (scroll_top_margin r) (scroll_bottom_margin r) (esc_values r) (oob_output r)
    (saved_state_bold r) (saved_state_bg_bold r) (saved_state_reverse_video r)
    (saved_state_current_charset r) (saved_state_current_primary r) (saved_state_current_bg r)
    (rows r) (cols r) x.

(** ** The monad *)

Definition T (B A : Type) : Type := terminal B -> option (A * terminal B).

Definition tret {B A} (a : A) : T B A := fun t => Some (a, t).
Definition tbind {B A C} (m : T B A) (k : A -> T B C) : T B C :=
  fun t => match m t with Some (a, t') => k a t' | None => None end.

Declare Scope term_scope.
Delimit Scope term_scope with term.
Notation "x <- m ;; k" := (tbind m (fun x => k))
  (at level 100, m at next level, right associativity) : term_scope.
Notation "' p <- m ;; k" := (tbind m (fun p => k))
  (at level 20, p pattern, m at level 99, k at level 200) : term_scope.
Notation "m ;;; k" := (tbind m (fun _ => k))
  (at level 100, right associativity) : term_scope.
Local Open Scope term_scope.

Definition stuck {B A} : T B A := fun _ => None.
Definition context {B} : T B flanterm_context := fun t => Some (t_ctx t, t).
(** Assignments to fields of the context. *)
Definition upd {B} (f : flanterm_context -> flanterm_context) : T B unit :=
  fun t => Some (tt, mk_terminal (f (t_ctx t)) (t_be t) (t_calls t)).
(** Assignments that index an array of the context. *)
Definition updo {B} (f : flanterm_context -> option flanterm_context) : T B unit :=
  fun t => c ← f (t_ctx t); Some (tt, mk_terminal c (t_be t) (t_calls t)).
(** A call through a function pointer of the context. *)
Definition call {B} (f : flanterm_context -> B -> option B) : T B unit :=
  fun t => b ← f (t_ctx t) (t_be t); Some (tt, mk_terminal (t_ctx t) b (t_calls t)).
Definition reads {B A} (f : flanterm_context -> B -> A) : T B A :=
  fun t => Some (f (t_ctx t) (t_be t), t).
Definition tget {B A} (o : option A) : T B A := fun t => a ← o; Some (a, t).
Definition twhen {B} (b : bool) (m : T B unit) : T B unit := if b then m else tret tt.

(** [if (ctx->callback != NULL) ctx->callback(ctx, type, a, b, c);] *)
Definition notify {B} (ty a : Z) (b : Z + list Z) (c : Z) : T B unit :=
  fun t => Some (tt, if callback (t_ctx t)
                     then mk_terminal (t_ctx t) (t_be t) (t_calls t ++ [mk_call ty a b c])
                     else t).

(** [for (size_t i = lo; i < hi; i++) body] *)
Fixpoint for_n {B} (n : nat) (i : Z) (body : Z -> T B unit) : T B unit :=
  match n with
  | O => tret tt
  | S n => body i;;; for_n n (i + 1) body
  end.
Definition for_up {B} (lo hi : Z) (body : Z -> T B unit) : T B unit :=
  for_n (Z.to_nat (hi - lo)) lo body.

(** [for (size_t i = hi;; i--) { body; if (i == lo) break; }]: [fuel] rounds
    at most. *)
Fixpoint down_to {B} (fuel : nat) (i lo : Z) (body : Z -> T B unit) : T B unit :=
  match fuel with
  | O => stuck
  | S fuel => body i;;; if i =? lo then tret tt else down_to fuel (u64 (i - 1)) lo body
  end.

(** The code of a character, and whether a byte is one of some characters. *)
Definition ch (s : string) : Z := default 0 (head (cstr s)).
Definition one_of (c : Z) (s : string) : bool := existsb (Z.eqb c) (cstr s).

(** ** Constants of flanterm.h and flanterm_private.h *)

Definition FLANTERM_MAX_ESC_VALUES : Z := 16.
Definition FLANTERM_CB_DEC : Z := 10.
Definition FLANTERM_CB_BELL : Z := 20.
Definition FLANTERM_CB_PRIVATE_ID : Z := 30.
Definition FLANTERM_CB_STATUS_REPORT : Z := 40.
Definition FLANTERM_CB_POS_REPORT : Z := 50.
Definition FLANTERM_CB_KBD_LEDS : Z := 60.
Definition FLANTERM_CB_MODE : Z := 70.
Definition FLANTERM_CB_LINUX : Z := 80.
Definition FLANTERM_OOB_OUTPUT_ONLCR : Z := Z.shiftl 1 4.

Definition CHARSET_DEFAULT : Z := 0.
Definition CHARSET_DEC_SPECIAL : Z := 1.

(** [(size_t)-1] *)
Definition SIZE_MAX : Z := 2 ^ 64 - 1.

Definition col256 : list Z :=
  [
   0x000000; 0x00005f; 0x000087; 0x0000af; 0x0000d7; 0x0000ff; 0x005f00; 0x005f5f; 0x005f87;
   0x005faf; 0x005fd7; 0x005fff; 0x008700; 0x00875f; 0x008787; 0x0087af; 0x0087d7; 0x0087ff;
   0x00af00; 0x00af5f; 0x00af87; 0x00afaf; 0x00afd7; 0x00afff; 0x00d700; 0x00d75f; 0x00d787;
   0x00d7af; 0x00d7d7; 0x00d7ff; 0x00ff00; 0x00ff5f; 0x00ff87; 0x00ffaf; 0x00ffd7; 0x00ffff;
   0x5f0000; 0x5f005f; 0x5f0087; 0x5f00af; 0x5f00d7; 0x5f00ff; 0x5f5f00; 0x5f5f5f; 0x5f5f87;
   0x5f5faf; 0x5f5fd7; 0x5f5fff; 0x5f8700; 0x5f875f; 0x5f8787; 0x5f87af; 0x5f87d7; 0x5f87ff;
   0x5faf00; 0x5faf5f; 0x5faf87; 0x5fafaf; 0x5fafd7; 0x5fafff; 0x5fd700; 0x5fd75f; 0x5fd787;
   0x5fd7af; 0x5fd7d7; 0x5fd7ff; 0x5fff00; 0x5fff5f; 0x5fff87; 0x5fffaf; 0x5fffd7; 0x5fffff;
   0x870000; 0x87005f; 0x870087; 0x8700af; 0x8700d7; 0x8700ff; 0x875f00; 0x875f5f; 0x875f87;
   0x875faf; 0x875fd7; 0x875fff; 0x878700; 0x87875f; 0x878787; 0x8787af; 0x8787d7; 0x8787ff;
   0x87af00; 0x87af5f; 0x87af87; 0x87afaf; 0x87afd7; 0x87afff; 0x87d700; 0x87d75f; 0x87d787;
   0x87d7af; 0x87d7d7; 0x87d7ff; 0x87ff00; 0x87ff5f; 0x87ff87; 0x87ffaf; 0x87ffd7; 0x87ffff;
   0xaf0000; 0xaf005f; 0xaf0087; 0xaf00af; 0xaf00d7; 0xaf00ff; 0xaf5f00; 0xaf5f5f; 0xaf5f87;
   0xaf5faf; 0xaf5fd7; 0xaf5fff; 0xaf8700; 0xaf875f; 0xaf8787; 0xaf87af; 0xaf87d7; 0xaf87ff;
   0xafaf00; 0xafaf5f; 0xafaf87; 0xafafaf; 0xafafd7; 0xafafff; 0xafd700; 0xafd75f; 0xafd787;
   0xafd7af; 0xafd7d7; 0xafd7ff; 0xafff00; 0xafff5f; 0xafff87; 0xafffaf; 0xafffd7; 0xafffff;
   0xd70000; 0xd7005f; 0xd70087; 0xd700af; 0xd700d7; 0xd700ff; 0xd75f00; 0xd75f5f; 0xd75f87;
   0xd75faf; 0xd75fd7; 0xd75fff; 0xd78700; 0xd7875f; 0xd78787; 0xd787af; 0xd787d7; 0xd787ff;
   0xd7af00; 0xd7af5f; 0xd7af87; 0xd7afaf; 0xd7afd7; 0xd7afff; 0xd7d700; 0xd7d75f; 0xd7d787;
   0xd7d7af; 0xd7d7d7; 0xd7d7ff; 0xd7ff00; 0xd7ff5f; 0xd7ff87; 0xd7ffaf; 0xd7ffd7; 0xd7ffff;
   0xff0000; 0xff005f; 0xff0087; 0xff00af; 0xff00d7; 0xff00ff; 0xff5f00; 0xff5f5f; 0xff5f87;
   0xff5faf; 0xff5fd7; 0xff5fff; 0xff8700; 0xff875f; 0xff8787; 0xff87af; 0xff87d7; 0xff87ff;
   0xffaf00; 0xffaf5f; 0xffaf87; 0xffafaf; 0xffafd7; 0xffafff; 0xffd700; 0xffd75f; 0xffd787;
   0xffd7af; 0xffd7d7; 0xffd7ff; 0xffff00; 0xffff5f; 0xffff87; 0xffffaf; 0xffffd7; 0xffffff;
   0x080808; 0x121212; 0x1c1c1c; 0x262626; 0x303030; 0x3a3a3a; 0x444444; 0x4e4e4e; 0x585858;
   0x626262; 0x6c6c6c; 0x767676; 0x808080; 0x8a8a8a; 0x949494; 0x9e9e9e; 0xa8a8a8; 0xb2b2b2;
   0xbcbcbc; 0xc6c6c6; 0xd0d0d0; 0xdadada; 0xe4e4e4; 0xeeeeee].

Definition flanterm_context_reinit (c : flanterm_context) : flanterm_context :=
  mk_context
    8 (* tab_size *) true (* autoflush *) true (* cursor_enabled *) true (* scroll_enabled *)
    false (* control_sequence *) false (* escape *) false (* osc *) false (* osc_escape *)
    false (* rrr *) false (* discard_next *) false (* bold *) false (* bg_bold *)
    false (* reverse_video *) false (* dec_private *) false (* insert_mode *)
    false (* csi_unhandled *) (code_point c) 0 (* unicode_remaining *) 0 (* g_select *)
    [CHARSET_DEFAULT; CHARSET_DEC_SPECIAL] 0 (* current_charset *) 0 (* escape_offset *)
    0 (* esc_values_i *) 0 (* saved_cursor_x *) 0 (* saved_cursor_y *)
    SIZE_MAX (* current_primary *) SIZE_MAX (* current_bg *) 0 (* scroll_top_margin *)
    (rows c) (* scroll_bottom_margin *) (esc_values c) FLANTERM_OOB_OUTPUT_ONLCR
    (saved_state_bold c) (saved_state_bg_bold c) (saved_state_reverse_video c)
    (saved_state_current_charset c) (saved_state_current_primary c) (saved_state_current_bg c)
    (rows c) (cols c) (callback c).

Section parser.
Context {B : Type} (F : flanterm_ops B).

Definition get_cursor_pos : T B (Z * Z) := reads (op_get_cursor_pos F).
Definition set_cursor_pos (x y : Z) : T B unit := call (fun c => op_set_cursor_pos F c x y).
Definition raw_putchar (c : Z) : T B unit := call (fun t => op_raw_putchar F t c).
Definition move_character (new_x new_y old_x old_y : Z) : T B unit :=
  call (fun c => op_move_character F c new_x new_y old_x old_y).

(** [ctx->esc_values[i]], and the assignment to it. *)
Definition esc (i : Z) : T B Z := c <- context;; tget (aget (esc_values c) i).
Definition set_esc (i v : Z) : T B unit :=
  updo (fun c => l ← aset (esc_values c) i v; Some (set_esc_values l c)).

(** ** Colours: sgr *)

(** The label [def]. *)
Definition sgr_def : T B unit :=
  c <- context;;
  twhen (reverse_video c) (upd (set_reverse_video false);;; call (op_swap_palette F));;;
  upd (fun c => set_current_bg SIZE_MAX (set_current_primary SIZE_MAX (set_bg_bold false (set_bold false c))));;;
  call (op_set_text_bg_default F);;;
  call (op_set_text_fg_default F).

(** The labels [set_fg], [set_bg], [set_fg_bright] and [set_bg_bright], for
    the colour [ctx->esc_values[i] - offset]. *)
Definition sgr_set_fg (col : Z) : T B unit :=
  c <- context;;
  if (bold c && negb (reverse_video c)) || (bg_bold c && reverse_video c)
  then call (fun c => op_set_text_fg_bright F c col)
  else call (fun c => op_set_text_fg F c col).

Definition sgr_set_bg (col : Z) : T B unit :=
  c <- context;;
  if (bold c && reverse_video c) || (bg_bold c && negb (reverse_video c))
  then call (fun c => op_set_text_bg_bright F c col)
  else call (fun c => op_set_text_bg F c col).

Definition sgr_set_fg_bright (col : Z) : T B unit := call (fun c => op_set_text_fg_bright F c col).
Definition sgr_set_bg_bright (col : Z) : T B unit := call (fun c => op_set_text_bg_bright F c col).

(** Attributes 1, 5, 22 and 25. *)
Definition sgr_bold : T B unit :=
  upd (set_bold true);;;
  c <- context;;
  if negb (current_primary c =? SIZE_MAX) then
    if negb (reverse_video c)
    then call (fun t => op_set_text_fg_bright F t (current_primary c))
    else call (fun t => op_set_text_bg_bright F t (current_primary c))
  else
    if negb (reverse_video c)
    then call (op_set_text_fg_default_bright F)
    else call (op_set_text_bg_default_bright F).

Definition sgr_bg_bold : T B unit :=
  upd (set_bg_bold true);;;
  c <- context;;
  if negb (current_bg c =? SIZE_MAX) then
    if negb (reverse_video c)
    then call (fun t => op_set_text_bg_bright F t (current_bg c))
    else call (fun t => op_set_text_fg_bright F t (current_bg c))
  else
    if negb (reverse_video c)
    then call (op_set_text_bg_default_bright F)
    else call (op_set_text_fg_default_bright F).

Definition sgr_unbold : T B unit :=
  upd (set_bold false);;;
  c <- context;;
  if negb (current_primary c =? SIZE_MAX) then
    if negb (reverse_video c)
    then call (fun t => op_set_text_fg F t (current_primary c))
    else call (fun t => op_set_text_bg F t (current_primary c))
  else
    if negb (reverse_video c)
    then call (op_set_text_fg_default F)
    else call (op_set_text_bg_default F).

Definition sgr_bg_unbold : T B unit :=
  upd (set_bg_bold false);;;
  c <- context;;
  if negb (current_bg c =? SIZE_MAX) then
    if negb (reverse_video c)
    then call (fun t => op_set_text_bg F t (current_bg c))
    else call (fun t => op_set_text_fg F t (current_bg c))
  else
    if negb (reverse_video c)
    then call (op_set_text_bg_default F)
    else call (op_set_text_fg_default F).

(** Attributes 39 and 49. *)
Definition sgr_default_fg : T B unit :=
  upd (set_current_primary SIZE_MAX);;;
  c <- context;;
  twhen (reverse_video c) (call (op_swap_palette F));;;
  (if negb (bold c) then call (op_set_text_fg_default F)
   else call (op_set_text_fg_default_bright F));;;
  twhen (reverse_video c) (call (op_swap_palette F)).

Definition sgr_default_bg : T B unit :=
  upd (set_current_bg SIZE_MAX);;;
  c <- context;;
  twhen (reverse_video c) (call (op_swap_palette F));;;
  (if negb (bg_bold c) then call (op_set_text_bg_default F)
   else call (op_set_text_bg_default_bright F));;;
  twhen (reverse_video c) (call (op_swap_palette F)).

(** How one round of the loop of [sgr] ends: with the next index after
    [continue] or the end of the body, or out of the loop. *)
Inductive sgr_step : Type := SgrNext (i : Z) | SgrOut.

(** 38 and 48, a colour by number or by its components; [i] is the index of
    the next value. *)
Definition sgr_extended (fg : bool) (i : Z) : T B sgr_step :=
  c <- context;;
  if esc_values_i c <=? i then tret SgrOut else
  v <- esc i;;
  if v =? 2 then
    if esc_values_i c <=? u64 (i + 3) then tret SgrOut else
    r <- esc (i + 1);;
    g <- esc (i + 2);;
    b <- esc (i + 3);;
    let rgb_value := Z.lor (Z.lor (u32 (Z.shiftl r 16)) (u32 (Z.shiftl g 8))) b in
    call (fun c => (if fg then op_set_text_fg_rgb else op_set_text_bg_rgb) F c rgb_value);;;
    tret (SgrNext (u64 (i + 4)))
  else if v =? 5 then
    if esc_values_i c <=? u64 (i + 1) then tret SgrOut else
    col <- esc (i + 1);;
    (if col <? 8 then
       call (fun c => (if fg then op_set_text_fg else op_set_text_bg) F c col)
     else if col <? 16 then
       call (fun c => (if fg then op_set_text_fg_bright else op_set_text_bg_bright) F c (col - 8))
     else if col <? 256 then
       rgb_value <- tget (aget col256 (col - 16));;
       call (fun c => (if fg then op_set_text_fg_rgb else op_set_text_bg_rgb) F c rgb_value)
     else tret tt);;;
    tret (SgrNext (u64 (i + 2)))
  else tret (SgrNext (u64 (i + 1))).

Definition sgr_body (i : Z) : T B sgr_step :=
  v <- esc i;;
  let continue m : T B sgr_step := (m;;; tret (SgrNext (u64 (i + 1)))) in
  c <- context;;
  if v =? 0 then continue sgr_def
  else if v =? 1 then continue sgr_bold
  else if v =? 5 then continue sgr_bg_bold
  else if v =? 22 then continue sgr_unbold
  else if v =? 25 then continue sgr_bg_unbold
  else if (30 <=? v) && (v <=? 37) then continue (
    upd (set_current_primary (v - 30));;;
    if reverse_video c then sgr_set_bg (v - 30) else sgr_set_fg (v - 30))
  else if (40 <=? v) && (v <=? 47) then continue (
    upd (set_current_bg (v - 40));;;
    if reverse_video c then sgr_set_fg (v - 40) else sgr_set_bg (v - 40))
  else if (90 <=? v) && (v <=? 97) then continue (
    upd (set_current_primary (v - 90));;;
    if reverse_video c then sgr_set_bg_bright (v - 90) else sgr_set_fg_bright (v - 90))
  else if (100 <=? v) && (v <=? 107) then continue (
    upd (set_current_bg (v - 100));;;
    if reverse_video c then sgr_set_fg_bright (v - 100) else sgr_set_bg_bright (v - 100))
  else if v =? 39 then continue sgr_default_fg
  else if v =? 49 then continue sgr_default_bg
  else if v =? 7 then continue (
    twhen (negb (reverse_video c)) (upd (set_reverse_video true);;; call (op_swap_palette F)))
  else if v =? 27 then continue (
    twhen (reverse_video c) (upd (set_reverse_video false);;; call (op_swap_palette F)))
  else if (v =? 38) || (v =? 48) then sgr_extended (v =? 38) (u64 (i + 1))
  else tret (SgrNext (u64 (i + 1))).

(** The index grows in every round and stays below [esc_values_i], so sixteen
    rounds are enough. *)
Fixpoint sgr_loop (fuel : nat) (i : Z) : T B unit :=
  c <- context;;
  if esc_values_i c <=? i then tret tt else
  match fuel with
  | O => stuck
  | S fuel =>
    s <- sgr_body i;;
    match s with SgrNext i' => sgr_loop fuel i' | SgrOut => tret tt end
  end.

Definition sgr : T B unit :=
  c <- context;;
  if esc_values_i c =? 0 then sgr_def else sgr_loop (Z.to_nat FLANTERM_MAX_ESC_VALUES) 0.

(** ** Modes and private sequences *)

Definition dec_private_parse (c : Z) : T B unit :=
  upd (set_dec_private false);;;
  t <- context;;
  if esc_values_i t =? 0 then tret tt else
  if negb (one_of c "hl") then tret tt else
  let set := c =? ch "h" in
  v <- esc 0;;
  if v =? 25 then upd (set_cursor_enabled set) else
  notify FLANTERM_CB_DEC (esc_values_i t) (inr (esc_values t)) c.

Definition linux_private_parse : T B unit :=
  t <- context;;
  if esc_values_i t =? 0 then tret tt else
  notify FLANTERM_CB_LINUX (esc_values_i t) (inr (esc_values t)) 0.

Definition mode_toggle (c : Z) : T B unit :=
  t <- context;;
  if esc_values_i t =? 0 then tret tt else
  if negb (one_of c "hl") then tret tt else
  let set := c =? ch "h" in
  v <- esc 0;;
  if v =? 4 then upd (set_insert_mode set) else
  notify FLANTERM_CB_MODE (esc_values_i t) (inr (esc_values t)) c.

Definition osc_parse (c : Z) : T B bool :=
  t <- context;;
  if osc_escape t then
    if c =? 92 (* backslash *) then
      upd (fun t => set_escape false (set_osc_escape false (set_osc false t)));;; tret true
    else
      upd (fun t => set_osc false (set_osc_escape false t));;; tret false
  else
    (if c =? 0x1b then upd (set_osc_escape true)
     else if c =? 7 then
       upd (fun t => set_escape false (set_osc false (set_osc_escape false t)))
     else tret tt);;;
    tret true.

(** ** Control sequences *)

(** How the [switch] of [control_sequence_parse] is left: with [break], or with
    a [return] from the function. *)
Inductive csi_exit : Type := Break | Return.

(** A digit of a parameter. *)
Definition csi_digit (c : Z) (t : flanterm_context) : option flanterm_context :=
  if esc_values_i t =? FLANTERM_MAX_ESC_VALUES then Some t else
  v ← aget (esc_values t) (esc_values_i t);
  l ← aset (esc_values t) (esc_values_i t) (u32 (u32 (v * 10) + (c - ch "0")));
  Some (set_esc_values l (set_rrr true t)).

(** The end of a parameter that has digits. *)
Definition csi_end_value (t : flanterm_context) : flanterm_context :=
  if rrr t then set_rrr false (set_esc_values_i (u64 (esc_values_i t + 1)) t) else t.

(** A parameter without digits. *)
Definition csi_empty_value (t : flanterm_context) : option flanterm_context :=
  if esc_values_i t =? FLANTERM_MAX_ESC_VALUES then Some t else
  l ← aset (esc_values t) (esc_values_i t) 0;
  Some (set_esc_values_i (u64 (esc_values_i t + 1)) (set_esc_values l t)).

(** [for (i = ctx->esc_values_i; i < FLANTERM_MAX_ESC_VALUES; i++)
    ctx->esc_values[i] = esc_default;] *)
Fixpoint fill_values (n : nat) (i v : Z) (l : list Z) : option (list Z) :=
  match n with
  | O => Some l
  | S n => l ← aset l i v; fill_values n (i + 1) v l
  end.

Definition csi_defaults (c : Z) (t : flanterm_context) : option flanterm_context :=
  let esc_default := if one_of c "JKq" then 0 else 1 in
  l ← fill_values (Z.to_nat (FLANTERM_MAX_ESC_VALUES - esc_values_i t)) (esc_values_i t)
        esc_default (esc_values t);
  Some (set_esc_values l t).

(** The label [cleanup]. *)
Definition cleanup : T B unit :=
  upd (fun t => set_escape false (set_control_sequence false t)).

(** The cases of the [switch], each one with the cursor position that was read
    before it. *)
Definition csi_up (x y : Z) : T B unit :=
  v <- esc 0;;
  twhen (y <? v) (set_esc 0 (u32 y));;;
  v <- esc 0;;
  t <- context;;
  let dest_y := u64 (y - v) in
  let will_be_in_scroll_region :=
    ((dest_y <=? scroll_top_margin t) && (scroll_top_margin t <=? y)) ||
    ((dest_y <=? scroll_bottom_margin t) && (scroll_bottom_margin t <=? y)) in
  let dest_y :=
    if will_be_in_scroll_region && (dest_y <? scroll_top_margin t)
    then scroll_top_margin t else dest_y in
  set_cursor_pos x dest_y.

Definition csi_down (x y : Z) : T B unit :=
  v <- esc 0;;
  t <- context;;
  twhen (u64 (rows t - 1) <? u64 (y + v)) (set_esc 0 (u32 (rows t - 1 - y)));;;
  v <- esc 0;;
  let dest_y := u64 (y + v) in
  let will_be_in_scroll_region :=
    ((y <=? scroll_top_margin t) && (scroll_top_margin t <=? dest_y)) ||
    ((y <=? scroll_bottom_margin t) && (scroll_bottom_margin t <=? dest_y)) in
  let dest_y :=
    if will_be_in_scroll_region && (scroll_bottom_margin t <=? dest_y)
    then u64 (scroll_bottom_margin t - 1) else dest_y in
  set_cursor_pos x dest_y.

Definition csi_right (x y : Z) : T B unit :=
  v <- esc 0;;
  t <- context;;
  twhen (u64 (cols t - 1) <? u64 (x + v)) (set_esc 0 (u32 (cols t - 1 - x)));;;
  v <- esc 0;;
  set_cursor_pos (u64 (x + v)) y.

Definition csi_left (x y : Z) : T B unit :=
  v <- esc 0;;
  twhen (x <? v) (set_esc 0 (u32 x));;;
  v <- esc 0;;
  set_cursor_pos (u64 (x - v)) y.

Definition csi_row (x : Z) : T B unit :=
  v <- esc 0;;
  set_esc 0 (u32 (v - 1));;;
  v <- esc 0;;
  t <- context;;
  twhen (rows t <=? v) (set_esc 0 (u32 (rows t - 1)));;;
  v <- esc 0;;
  set_cursor_pos x v.

Definition csi_column (y : Z) : T B unit :=
  v <- esc 0;;
  set_esc 0 (u32 (v - 1));;;
  v <- esc 0;;
  t <- context;;
  twhen (cols t <=? v) (set_esc 0 (u32 (cols t - 1)));;;
  v <- esc 0;;
  set_cursor_pos v y.

Definition csi_position : T B unit :=
  v0 <- esc 0;;
  twhen (negb (v0 =? 0)) (set_esc 0 (u32 (v0 - 1)));;;
  v1 <- esc 1;;
  twhen (negb (v1 =? 0)) (set_esc 1 (u32 (v1 - 1)));;;
  t <- context;;
  v1 <- esc 1;;
  twhen (cols t <=? v1) (set_esc 1 (u32 (cols t - 1)));;;
  v0 <- esc 0;;
  twhen (rows t <=? v0) (set_esc 0 (u32 (rows t - 1)));;;
  v1 <- esc 1;;
  v0 <- esc 0;;
  set_cursor_pos v1 v0.

Definition csi_scroll_up : T B unit :=
  v <- esc 0;;
  t <- context;;
  let count := if rows t <? v then rows t else v in
  for_up 0 count (fun _ => call (op_scroll F)).

Definition csi_insert_lines (y : Z) : T B unit :=
  t <- context;;
  let old_scroll_top_margin := scroll_top_margin t in
  upd (set_scroll_top_margin y);;;
  v <- esc 0;;
  let count := if rows t <? v then rows t else v in
  for_up 0 count (fun _ => call (op_revscroll F));;;
  upd (set_scroll_top_margin old_scroll_top_margin).

Definition csi_report (x y : Z) : T B unit :=
  v <- esc 0;;
  if v =? 5 then notify FLANTERM_CB_STATUS_REPORT 0 (inl 0) 0
  else if v =? 6 then notify FLANTERM_CB_POS_REPORT (u64 (x + 1)) (inl (u64 (y + 1))) 0
  else tret tt.

(** [raw_putchar(ctx, ' ')] from the current position on until the cell at
    column [x], one row of the loop of [csi_erase_before]; the result says
    whether that cell was reached. *)
Fixpoint erase_row (n : nat) (xc yc x y : Z) : T B bool :=
  match n with
  | O => tret false
  | S n =>
    raw_putchar (ch " ");;;
    if (xc =? x) && (yc =? y) then set_cursor_pos x y;;; tret true
    else erase_row n (xc + 1) yc x y
  end.

Fixpoint erase_rows (n : nat) (yc x y width : Z) : T B unit :=
  match n with
  | O => tret tt
  | S n =>
    b <- erase_row (Z.to_nat width) 0 yc x y;;
    if (b : bool) then tret tt else erase_rows n (yc + 1) x y width
  end.

Definition csi_erase_display (x y : Z) : T B unit :=
  v <- esc 0;;
  t <- context;;
  if v =? 0 then
    let rows_remaining := u64 (rows t - (y + 1)) in
    let cols_diff := u64 (cols t - (x + 1)) in
    let to_clear := u64 (rows_remaining * cols t + cols_diff + 1) in
    for_up 0 to_clear (fun _ => raw_putchar (ch " "));;;
    set_cursor_pos x y
  else if v =? 1 then
    set_cursor_pos 0 0;;;
    erase_rows (Z.to_nat (rows t)) 0 x y (cols t)
  else if (v =? 2) || (v =? 3) then call (fun t => op_clear F t false)
  else tret tt.

Definition csi_insert_chars (x y : Z) : T B unit :=
  t <- context;;
  down_to (Z.to_nat (cols t)) (u64 (cols t - 1)) x (fun i =>
    v <- esc 0;;
    move_character (u64 (i + v)) y i y;;;
    set_cursor_pos i y;;;
    raw_putchar (ch " "));;;
  set_cursor_pos x y.

Definition csi_erase_chars (x y : Z) : T B unit :=
  v <- esc 0;;
  t <- context;;
  let count := if cols t <? v then cols t else v in
  for_up 0 count (fun _ => raw_putchar (ch " "));;;
  set_cursor_pos x y.

(** [P] falls through to [X]. *)
Definition csi_delete_chars (x y : Z) : T B unit :=
  v <- esc 0;;
  t <- context;;
  for_up (u64 (x + v)) (cols t) (fun i => move_character (u64 (i - v)) y i y);;;
  set_cursor_pos (u64 (cols t - v)) y;;;
  csi_erase_chars x y.

Definition csi_save_cursor : T B unit :=
  '(x, y) <- get_cursor_pos;;
  upd (fun t => set_saved_cursor_y y (set_saved_cursor_x x t)).

Definition csi_restore_cursor : T B unit :=
  t <- context;;
  set_cursor_pos (saved_cursor_x t) (saved_cursor_y t).

Definition csi_erase_line (x y : Z) : T B unit :=
  v <- esc 0;;
  t <- context;;
  if v =? 0 then
    for_up x (cols t) (fun _ => raw_putchar (ch " "));;;
    set_cursor_pos x y
  else if v =? 1 then
    set_cursor_pos 0 y;;;
    for_up 0 x (fun _ => raw_putchar (ch " "))
  else if v =? 2 then
    set_cursor_pos 0 y;;;
    for_up 0 (cols t) (fun _ => raw_putchar (ch " "));;;
    set_cursor_pos x y
  else tret tt.

(** The assignments of case [r] to the two parameters and the two margins. *)
Definition csi_set_margins (t : flanterm_context) : option flanterm_context :=
  v0 ← aget (esc_values t) 0;
  l ← (if v0 =? 0 then aset (esc_values t) 0 1 else Some (esc_values t));
  v1 ← aget l 1;
  l ← (if v1 =? 0 then aset l 1 1 else Some l);
  v0 ← aget l 0;
  v1 ← aget l 1;
  let top := if 0 <? esc_values_i t then u32 (v0 - 1) else 0 in
  let bottom := if 1 <? esc_values_i t then v1 else rows t in
  let t := set_esc_values l t in
  Some (if (rows t <=? top) || (rows t <? bottom) || (u64 (bottom - 1) <=? top)
        then set_scroll_bottom_margin (rows t) (set_scroll_top_margin 0 t)
        else set_scroll_bottom_margin bottom (set_scroll_top_margin top t)).

Definition csi_switch (c x y : Z) : T B csi_exit :=
  let break m : T B csi_exit := (m;;; tret Break) in
  if c =? 0x1b then tret Return
  else if c =? ch "F" then break (csi_up 0 y)
  else if c =? ch "A" then break (csi_up x y)
  else if c =? ch "E" then break (csi_down 0 y)
  else if one_of c "eB" then break (csi_down x y)
  else if one_of c "aC" then break (csi_right x y)
  else if c =? ch "D" then break (csi_left x y)
  else if c =? ch "c" then break (notify FLANTERM_CB_PRIVATE_ID 0 (inl 0) 0)
  else if c =? ch "d" then break (csi_row x)
  else if one_of c "G`" then break (csi_column y)
  else if one_of c "Hf" then break csi_position
  else if c =? ch "M" then break csi_scroll_up
  else if c =? ch "L" then break (csi_insert_lines y)
  else if c =? ch "n" then break (csi_report x y)
  else if c =? ch "q" then break (v <- esc 0;; notify FLANTERM_CB_KBD_LEDS v (inl 0) 0)
  else if c =? ch "J" then break (csi_erase_display x y)
  else if c =? ch "@" then break (csi_insert_chars x y)
  else if c =? ch "P" then break (csi_delete_chars x y)
  else if c =? ch "X" then break (csi_erase_chars x y)
  else if c =? ch "m" then break sgr
  else if c =? ch "s" then break csi_save_cursor
  else if c =? ch "u" then break csi_restore_cursor
  else if c =? ch "K" then break (csi_erase_line x y)
  else if c =? ch "r" then break (updo csi_set_margins;;; set_cursor_pos 0 0)
  else if one_of c "lh" then break (mode_toggle c)
  else if c =? ch "]" then break linux_private_parse
  else upd (set_csi_unhandled true);;; tret Return.

(** [control_sequence_parse] once a byte that is neither a digit nor a
    separator has arrived. *)
Definition csi_final (c : Z) : T B unit :=
  updo (csi_defaults c);;;
  t <- context;;
  if dec_private t then dec_private_parse c;;; cleanup else
  let r := scroll_enabled t in
  upd (set_scroll_enabled false);;;
  '(x, y) <- get_cursor_pos;;
  if csi_unhandled t then
    if (0x40 <=? c) && (c <=? 0x7e) then upd (set_csi_unhandled false);;; cleanup
    else tret tt
  else
  e <- csi_switch c x y;;
  match e with
  | Break => upd (set_scroll_enabled r);;; cleanup
  | Return => tret tt
  end.

Definition control_sequence_parse (c : Z) : T B unit :=
  t <- context;;
  if (escape_offset t =? 2) && (c =? ch "[") then upd (set_discard_next true);;; cleanup
  else if (escape_offset t =? 2) && (c =? ch "?") then upd (set_dec_private true)
  else if (ch "0" <=? c) && (c <=? ch "9") then updo (csi_digit c)
  else if rrr t then
    upd csi_end_value;;;
    if c =? ch ";" then tret tt else csi_final c
  else if c =? ch ";" then updo csi_empty_value
  else csi_final c.

(** ** Escape sequences *)

Definition restore_state : T B unit :=
  upd (fun t =>
    set_current_bg (saved_state_current_bg t)
      (set_current_primary (saved_state_current_primary t)
        (set_current_charset (saved_state_current_charset t)
          (set_reverse_video (saved_state_reverse_video t)
            (set_bg_bold (saved_state_bg_bold t) (set_bold (saved_state_bold t) t))))));;;
  call (op_restore_state F).

Definition save_state : T B unit :=
  call (op_save_state F);;;
  upd (fun t =>
    set_saved_state_current_bg (current_bg t)
      (set_saved_state_current_primary (current_primary t)
        (set_saved_state_current_charset (current_charset t)
          (set_saved_state_reverse_video (reverse_video t)
            (set_saved_state_bg_bold (bg_bold t) (set_saved_state_bold (bold t) t)))))).

(** The end of a line: the region scrolls when the cursor is in its last row. *)
Definition line_feed (x y : Z) : T B unit :=
  t <- context;;
  if y =? u64 (scroll_bottom_margin t - 1) then call (op_scroll F);;; set_cursor_pos x y
  else set_cursor_pos x (u64 (y + 1)).

(** The [switch] of [escape_parse] once an operating system command and a
    control sequence are excluded. *)
Definition escape_switch (c x y : Z) : T B unit :=
  let finish m : T B unit := (m;;; upd (set_escape false)) in
  if c =? ch "]" then upd (fun t => set_osc true (set_osc_escape false t))
  else if c =? ch "[" then
    updo (fun t =>
      l ← fill_values (Z.to_nat FLANTERM_MAX_ESC_VALUES) 0 0 (esc_values t);
      Some (set_control_sequence true (set_csi_unhandled false (set_rrr false
        (set_esc_values_i 0 (set_esc_values l t))))))
  else if c =? ch "7" then finish save_state
  else if c =? ch "8" then finish restore_state
  else if c =? ch "c" then finish (upd flanterm_context_reinit;;; call (fun t => op_clear F t true))
  else if c =? ch "D" then finish (line_feed x y)
  else if c =? ch "E" then finish (line_feed 0 y)
  else if c =? ch "M" then finish (
    t <- context;;
    if y =? scroll_top_margin t then call (op_revscroll F);;; set_cursor_pos 0 y
    else set_cursor_pos 0 (u64 (y - 1)))
  else if c =? ch "Z" then finish (notify FLANTERM_CB_PRIVATE_ID 0 (inl 0) 0)
  else if one_of c "()" then finish (upd (set_g_select (u8 (c - 39))))
  else finish (tret tt).

Definition escape_parse (c : Z) : T B unit :=
  upd (fun t => set_escape_offset (u64 (escape_offset t + 1)) t);;;
  t <- context;;
  done <- (if osc t then osc_parse c else tret false);;
  if (done : bool) then tret tt else
  t <- context;;
  if control_sequence t then control_sequence_parse c else
  '(x, y) <- get_cursor_pos;;
  escape_switch c x y.

(** ** Characters *)

(** The cases of [dec_special_print] with the glyph of each. *)
Definition dec_special_cases : list (Z * Z) :=
  [(ch "`", 0x04); (ch "0", 0xdb); (ch "-", 0x18); (ch ",", 0x1b); (ch ".", 0x19);
   (ch "a", 0xb1); (ch "f", 0xf8); (ch "g", 0xf1); (ch "h", 0xb0); (ch "j", 0xd9);
   (ch "k", 0xbf); (ch "l", 0xda); (ch "m", 0xc0); (ch "n", 0xc5); (ch "q", 0xc4);
   (ch "s", 0x5f); (ch "t", 0xc3); (ch "u", 0xb4); (ch "v", 0xc1); (ch "w", 0xc2);
   (ch "x", 0xb3); (ch "y", 0xf3); (ch "z", 0xf2); (ch "~", 0xfa); (ch "_", 0xff);
   (ch "+", 0x1a); (ch "{", 0xe3); (ch "}", 0x9c)].

Definition dec_special_print (c : Z) : T B bool :=
  let g := switch dec_special_cases c (-1) in
  if g =? -1 then tret false else raw_putchar g;;; tret true.

(** A complete code point: its glyph, or a replacement as wide as it is. *)
Definition put_code_point : T B unit :=
  t <- context;;
  let cc := unicode_to_cp437 (code_point t) in
  if cc =? -1 then
    replacement_width <- tget (mk_wcwidth (u32 (code_point t)));;
    twhen (0 <? replacement_width) (raw_putchar 0xfe);;;
    for_up 1 replacement_width (fun _ => raw_putchar (ch " "))
  else raw_putchar cc.

(** A character that belongs to no sequence. *)
Definition put_plain (c x y : Z) : T B unit :=
  t <- context;;
  twhen (insert_mode t)
    (down_to (Z.to_nat (cols t)) (u64 (cols t - 1)) x
      (fun i => move_character (u64 (i + 1)) y i y));;;
  cs <- tget (aget (charsets t) (current_charset t));;
  special <- (if cs =? CHARSET_DEC_SPECIAL then dec_special_print c else tret false);;
  if (special : bool) then tret tt else
  if (0x20 <=? c) && (c <=? 0x7e) then raw_putchar c else raw_putchar 0xfe.

(** A byte outside of sequences: the control characters, then the others. *)
Definition put_control (c x y : Z) : T B unit :=
  t <- context;;
  if (c =? 0) || (c =? 0x7f) then tret tt
  else if c =? 0x1b then upd (fun t => set_escape true (set_escape_offset 0 t))
  else if c =? 9 then
    if cols t <=? u64 (x / tab_size t + 1) then set_cursor_pos (u64 (cols t - 1)) y
    else set_cursor_pos (u64 (u64 (x / tab_size t + 1) * tab_size t)) y
  else if (c =? 0x0b) || (c =? 0x0c) || (c =? 10) then
    line_feed (if negb (Z.land (oob_output t) FLANTERM_OOB_OUTPUT_ONLCR =? 0) then 0 else x) y
  else if c =? 8 then set_cursor_pos (u64 (x - 1)) y
  else if c =? 13 then set_cursor_pos 0 y
  else if c =? 7 then notify FLANTERM_CB_BELL 0 (inl 0) 0
  else if c =? 14 then upd (set_current_charset 1)
  else if c =? 15 then upd (set_current_charset 0)
  else put_plain c x y.

(** The second byte of a selection of a character set. *)
Definition select_charset (c : Z) (t : flanterm_context) : option flanterm_context :=
  let g := u8 (g_select t - 1) in
  l ← (if c =? ch "B" then aset (charsets t) g CHARSET_DEFAULT
       else if c =? ch "0" then aset (charsets t) g CHARSET_DEC_SPECIAL
       else Some (charsets t));
  Some (set_g_select 0 (set_charsets l t)).

(** The label [unicode_error]. *)
Definition put_start (c : Z) : T B unit :=
  if (0xc0 <=? c) && (c <=? 0xf7) then
    if (0xc0 <=? c) && (c <=? 0xdf) then
      upd (fun t => set_code_point (Z.shiftl (Z.land c 0x1f) 6) (set_unicode_remaining 1 t))
    else if (0xe0 <=? c) && (c <=? 0xef) then
      upd (fun t => set_code_point (Z.shiftl (Z.land c 0x0f) (6 * 2)) (set_unicode_remaining 2 t))
    else if (0xf0 <=? c) && (c <=? 0xf7) then
      upd (fun t => set_code_point (Z.shiftl (Z.land c 0x07) (6 * 3)) (set_unicode_remaining 3 t))
    else tret tt
  else
  t <- context;;
  if escape t then escape_parse c else
  if negb (g_select t =? 0) then updo (select_charset c) else
  '(x, y) <- get_cursor_pos;;
  put_control c x y.

(** The next byte of a code point. *)
Definition put_continuation (c : Z) : T B unit :=
  upd (fun t =>
    let r := u64 (unicode_remaining t - 1) in
    set_code_point (Z.lor (code_point t) (u64 (Z.shiftl (Z.land c 0x3f) (6 * r))))
      (set_unicode_remaining r t));;;
  t <- context;;
  if negb (unicode_remaining t =? 0) then tret tt else put_code_point.

Definition flanterm_putchar (c : Z) : T B unit :=
  t <- context;;
  if discard_next t || ((c =? 0x18) || (c =? 0x1a)) then
    upd (fun t => set_g_select 0 (set_osc_escape false (set_osc false (set_unicode_remaining 0
      (set_control_sequence false (set_escape false (set_discard_next false t)))))))
  else if negb (unicode_remaining t =? 0) then
    if negb (Z.land c 0xc0 =? 0x80) then upd (set_unicode_remaining 0);;; put_start c
    else put_continuation c
  else put_start c.

(** [buf] as bytes: [flanterm_putchar] takes each [char] as an [uint8_t]. *)
Fixpoint flanterm_putchars (buf : list Z) : T B unit :=
  match buf with
  | [] => tret tt
  | b :: buf => flanterm_putchar (u8 b);;; flanterm_putchars buf
  end.

Definition flanterm_write (buf : list Z) : T B unit :=
  flanterm_putchars buf;;;
  t <- context;;
  twhen (autoflush t) (call (op_double_buffer_flush F)).

(** ** The interface of flanterm.h *)

Definition flanterm_flush : T B unit := call (op_double_buffer_flush F).
Definition flanterm_full_refresh : T B unit := call (op_full_refresh F).
Definition flanterm_get_dimensions : T B (Z * Z) := t <- context;; tret (cols t, rows t).
Definition flanterm_set_autoflush (state : bool) : T B unit := upd (set_autoflush state).
Definition flanterm_set_callback (cb : bool) : T B unit := upd (set_callback cb).
Definition flanterm_get_oob_output : T B Z := t <- context;; tret (oob_output t).
Definition flanterm_set_oob_output (oob : Z) : T B unit := upd (set_oob_output oob).
End parser.
