(* ===== verification/FlantermFb.v ===== *)
(** * The frame buffer backend: kernel/drivers/video/flanterm/flanterm_backends/fb.c

    The terminal's screen as the backend keeps it: [grid] holds the characters
    as they were last drawn, [queue] the changes since then, and [map] leads
    from a cell to its entry of the queue.  A buffer of the struct is its
    address with its contents, a pointer into the queue its index; [fb_world]
    adds the memory that the frame buffer is part of, and the calls made to
    [flush_callback].  The fifteen operations at the end are the ones that
    [flanterm_fb_init] puts into the context ([fb_ops]). *)

From S2P Require Import Prelude Memory Arrays Flanterm.

(** ** Data *)

Record flanterm_fb_char : Type := mk_char { c_c : Z; c_fg : Z; c_bg : Z }.

Record flanterm_fb_queue_item : Type := mk_item { q_x : Z; q_y : Z; q_c : flanterm_fb_char }.

(** A pointer to an array with that array; the address is 0 for NULL. *)
Record buffer (A : Type) : Type := mk_buffer { buf_ptr : Z; buf_data : list A }.
Arguments mk_buffer {A}. Arguments buf_ptr {A}. Arguments buf_data {A}.

Definition set_data {A} (l : list A) (b : buffer A) : buffer A := mk_buffer (buf_ptr b) l.

(** The functions that [plot_char] can point to. *)
Inductive plot_char_fn : Type :=
| scaled_canvas | scaled_uncanvas | unscaled_canvas | unscaled_uncanvas.

Record flanterm_fb_context : Type := mk_fb_context {
  plot_char : plot_char_fn;
  flush_callback : bool;
  font_width : Z;
  font_height : Z;
  glyph_width : Z;
  glyph_height : Z;
  font_scale_x : Z;
  font_scale_y : Z;
  offset_x : Z;
  offset_y : Z;
  framebuffer : Z;
  pitch : Z;
  width : Z;
  height : Z;
  bpp : Z;
  red_mask_size : Z;
  red_mask_shift : Z;
  green_mask_size : Z;
  green_mask_shift : Z;
  blue_mask_size : Z;
  blue_mask_shift : Z;
  rotation : Z;
  font_bits_size : Z;
  font_bits : buffer Z;
  font_bool_size : Z;
  font_bool : buffer bool;
  ansi_colours : list Z;
  ansi_bright_colours : list Z;
  default_fg : Z;
  default_bg : Z;
  default_fg_bright : Z;
  default_bg_bright : Z;
  canvas_size : Z;
  canvas : buffer Z;
  grid_size : Z;
  queue_size : Z;
  map_size : Z;
  grid : buffer flanterm_fb_char;
  queue : buffer flanterm_fb_queue_item;
  queue_i : Z;
  map : buffer (option Z);
  text_fg : Z;
  text_bg : Z;
  cursor_x : Z;
  cursor_y : Z;
  saved_state_text_fg : Z;
  saved_state_text_bg : Z;
  saved_state_cursor_x : Z;
  saved_state_cursor_y : Z;
  old_cursor_x : Z;
  old_cursor_y : Z
}.

Record fb_world : Type := mk_world {
  fb : flanterm_fb_context;
  vram : mem;
  flushes : list (Z * Z)
}.

#[export] Instance flanterm_fb_char_eq_dec : EqDecision flanterm_fb_char.
Proof. solve_decision. Defined.

Definition set_flush_callback (x : bool) (r : flanterm_fb_context) : flanterm_fb_context :=
  mk_fb_context (plot_char r) x (font_width r) (font_height r) (glyph_width r) (glyph_height r)
    (font_scale_x r) (font_scale_y r) (offset_x r) (offset_y r) (framebuffer r) (pitch r) (width r)
    (height r) (bpp r) (red_mask_size r) (red_mask_shift r) (green_mask_size r) (green_mask_shift r)
    (blue_mask_size r) (blue_mask_shift r) (rotation r) (font_bits_size r) (font_bits r)
    (font_bool_size r) (font_bool r) (ansi_colours r) (ansi_bright_colours r) (default_fg r)
    (default_bg r) (default_fg_bright r) (default_bg_bright r) (canvas_size r) (canvas r)
    (grid_size r) (queue_size r) (map_size r) (grid r) (queue r) (queue_i r) (map r) (text_fg r)
    (text_bg r) (cursor_x r) (cursor_y r) (saved_state_text_fg r) (saved_state_text_bg r)
    (saved_state_cursor_x r) (saved_state_cursor_y r) (old_cursor_x r) (old_cursor_y r).
Definition set_grid (x : buffer flanterm_fb_char) (r : flanterm_fb_context) : flanterm_fb_context :=
  mk_fb_context (plot_char r) (flush_callback r) (font_width r) (font_height r) (glyph_width r)
    (glyph_height r) (font_scale_x r) (font_scale_y r) (offset_x r) (offset_y r) (framebuffer r)
    (pitch r) (width r) (height r) (bpp r) (red_mask_size r) (red_mask_shift r) (green_mask_size r)
    (green_mask_shift r) (blue_mask_size r) (blue_mask_shift r) (rotation r) (font_bits_size r)
    (font_bits r) (font_bool_size r) (font_bool r) (ansi_colours r) (ansi_bright_colours r)
    (default_fg r) (default_bg r) (default_fg_bright r) (default_bg_bright r) (canvas_size r)
    (canvas r) (grid_size r) (queue_size r) (map_size r) x (queue r) (queue_i r) (map r) (text_fg r)
    (text_bg r) (cursor_x r) (cursor_y r) (saved_state_text_fg r) (saved_state_text_bg r)
    (saved_state_cursor_x r) (saved_state_cursor_y r) (old_cursor_x r) (old_cursor_y r).
Definition set_queue (x : buffer flanterm_fb_queue_item) (r : flanterm_fb_context) : flanterm_fb_context :=
  mk_fb_context (plot_char r) (flush_callback r) (font_width r) (font_height r) (glyph_width r)
    (glyph_height r) (font_scale_x r) (font_scale_y r) (offset_x r) (offset_y r) (framebuffer r)
    (pitch r) (width r) (height r) (bpp r) (red_mask_size r) (red_mask_shift r) (green_mask_size r)
    (green_mask_shift r) (blue_mask_size r) (blue_mask_shift r) (rotation r) (font_bits_size r)
    (font_bits r) (font_bool_size r) (font_bool r) (ansi_colours r) (ansi_bright_colours r)
    (default_fg r) (default_bg r) (default_fg_bright r) (default_bg_bright r) (canvas_size r)
    (canvas r) (grid_size r) (queue_size r) (map_size r) (grid r) x (queue_i r) (map r) (text_fg r)
    (text_bg r) (cursor_x r) (cursor_y r) (saved_state_text_fg r) (saved_state_text_bg r)
    (saved_state_cursor_x r) (saved_state_cursor_y r) (old_cursor_x r) (old_cursor_y r).
Definition set_queue_i (x : Z) (r : flanterm_fb_context) : flanterm_fb_context :=
  mk_fb_context (plot_char r) (flush_callback r) (font_width r) (font_height r) (glyph_width r)
    (glyph_height r) (font_scale_x r) (font_scale_y r) (offset_x r) (offset_y r) (framebuffer r)
    (pitch r) (width r) (height r) (bpp r) (red_mask_size r) (red_mask_shift r) (green_mask_size r)
    (green_mask_shift r) (blue_mask_size r) (blue_mask_shift r) (rotation r) (font_bits_size r)
    (font_bits r) (font_bool_size r) (font_bool r) (ansi_colours r) (ansi_bright_colours r)
    (default_fg r) (default_bg r) (default_fg_bright r) (default_bg_bright r) (canvas_size r)
    (canvas r) (grid_size r) (queue_size r) (map_size r) (grid r) (queue r) x (map r) (text_fg r)
    (text_bg r) (cursor_x r) (cursor_y r) (saved_state_text_fg r) (saved_state_text_bg r)
    (saved_state_cursor_x r) (saved_state_cursor_y r) (old_cursor_x r) (old_cursor_y r).
Definition set_map (x : buffer (option Z)) (r : flanterm_fb_context) : flanterm_fb_context :=
  mk_fb_context (plot_char r) (flush_callback r) (font_width r) (font_height r) (glyph_width r)
    (glyph_height r) (font_scale_x r) (font_scale_y r) (offset_x r) (offset_y r) (framebuffer r)
    (pitch r) (width r) (height r) (bpp r) (red_mask_size r) (red_mask_shift r) (green_mask_size r)
    (green_mask_shift r) (blue_mask_size r) (blue_mask_shift r) (rotation r) (font_bits_size r)
    (font_bits r) (font_bool_size r) (font_bool r) (ansi_colours r) (ansi_bright_colours r)
    (default_fg r) (default_bg r) (default_fg_bright r) (default_bg_bright r) (canvas_size r)
    (canvas r) (grid_size r) (queue_size r) (map_size r) (grid r) (queue r) (queue_i r) x
    (text_fg r) (text_bg r) (cursor_x r) (cursor_y r) (saved_state_text_fg r)
    (saved_state_text_bg r) (saved_state_cursor_x r) (saved_state_cursor_y r) (old_cursor_x r)
    (old_cursor_y r).
Definition set_text_fg (x : Z) (r : flanterm_fb_context) : flanterm_fb_context :=
  mk_fb_context (plot_char r) (flush_callback r) (font_width r) (font_height r) (glyph_width r)
    (glyph_height r) (font_scale_x r) (font_scale_y r) (offset_x r) (offset_y r) (framebuffer r)
    (pitch r) (width r) (height r) (bpp r) (red_mask_size r) (red_mask_shift r) (green_mask_size r)
    (green_mask_shift r) (blue_mask_size r) (blue_mask_shift r) (rotation r) (font_bits_size r)
    (font_bits r) (font_bool_size r) (font_bool r) (ansi_colours r) (ansi_bright_colours r)
    (default_fg r) (default_bg r) (default_fg_bright r) (default_bg_bright r) (canvas_size r)
    (canvas r) (grid_size r) (queue_size r) (map_size r) (grid r) (queue r) (queue_i r) (map r) x
    (text_bg r) (cursor_x r) (cursor_y r) (saved_state_text_fg r) (saved_state_text_bg r)
    (saved_state_cursor_x r) (saved_state_cursor_y r) (old_cursor_x r) (old_cursor_y r).
Definition set_text_bg (x : Z) (r : flanterm_fb_context) : flanterm_fb_context :=
  mk_fb_context (plot_char r) (flush_callback r) (font_width r) (font_height r) (glyph_width r)
    (glyph_height r) (font_scale_x r) (font_scale_y r) (offset_x r) (offset_y r) (framebuffer r)
    (pitch r) (width r) (height r) (bpp r) (red_mask_size r) (red_mask_shift r) (green_mask_size r)
    (green_mask_shift r) (blue_mask_size r) (blue_mask_shift r) (rotation r) (font_bits_size r)
    (font_bits r) (font_bool_size r) (font_bool r) (ansi_colours r) (ansi_bright_colours r)
    (default_fg r) (default_bg r) (default_fg_bright r) (default_bg_bright r) (canvas_size r)
    (canvas r) (grid_size r) (queue_size r) (map_size r) (grid r) (queue r) (queue_i r) (map r)
    (text_fg r) x (cursor_x r) (cursor_y r) (saved_state_text_fg r) (saved_state_text_bg r)
    (saved_state_cursor_x r) (saved_state_cursor_y r) (old_cursor_x r) (old_cursor_y r).
Definition set_cursor_x (x : Z) (r : flanterm_fb_context) : flanterm_fb_context :=
  mk_fb_context (plot_char r) (flush_callback r) (font_width r) (font_height r) (glyph_width r)
    (glyph_height r) (font_scale_x r) (font_scale_y r) (offset_x r) (offset_y r) (framebuffer r)
    (pitch r) (width r) (height r) (bpp r) (red_mask_size r) (red_mask_shift r) (green_mask_size r)
    (green_mask_shift r) (blue_mask_size r) (blue_mask_shift r) (rotation r) (font_bits_size r)
    (font_bits r) (font_bool_size r) (font_bool r) (ansi_colours r) (ansi_bright_colours r)
    (default_fg r) (default_bg r) (default_fg_bright r) (default_bg_bright r) (canvas_size r)
    (canvas r) (grid_size r) (queue_size r) (map_size r) (grid r) (queue r) (queue_i r) (map r)
    (text_fg r) (text_bg r) x (cursor_y r) (saved_state_text_fg r) (saved_state_text_bg r)
    (saved_state_cursor_x r) (saved_state_cursor_y r) (old_cursor_x r) (old_cursor_y r).
Definition set_cursor_y (x : Z) (r : flanterm_fb_context) : flanterm_fb_context :=
  mk_fb_context (plot_char r) (flush_callback r) (font_width r) (font_height r) (glyph_width r)
    (glyph_height r) (font_scale_x r) (font_scale_y r) (offset_x r) (offset_y r) (framebuffer r)
    (pitch r) (width r) (height r) (bpp r) (red_mask_size r) (red_mask_shift r) (green_mask_size r)
    (green_mask_shift r) (blue_mask_size r) (blue_mask_shift r) (rotation r) (font_bits_size r)
    (font_bits r) (font_bool_size r) (font_bool r) (ansi_colours r) (ansi_bright_colours r)
    (default_fg r) (default_bg r) (default_fg_bright r) (default_bg_bright r) (canvas_size r)
    (canvas r) (grid_size r) (queue_size r) (map_size r) (grid r) (queue r) (queue_i r) (map r)
    (text_fg r) (text_bg r) (cursor_x r) x (saved_state_text_fg r) (saved_state_text_bg r)
    (saved_state_cursor_x r) (saved_state_cursor_y r) (old_cursor_x r) (old_cursor_y r).
Definition set_saved_state_text_fg (x : Z) (r : flanterm_fb_context) : flanterm_fb_context :=
  mk_fb_context (plot_char r) (flush_callback r) (font_width r) (font_height r) (glyph_width r)
    (glyph_height r) (font_scale_x r) (font_scale_y r) (offset_x r) (offset_y r) (framebuffer r)
    (pitch r) (width r) (height r) (bpp r) (red_mask_size r) (red_mask_shift r) (green_mask_size r)
    (green_mask_shift r) (blue_mask_size r) (blue_mask_shift r) (rotation r) (font_bits_size r)
    (font_bits r) (font_bool_size r) (font_bool r) (ansi_colours r) (ansi_bright_colours r)
    (default_fg r) (default_bg r) (default_fg_bright r) (default_bg_bright r) (canvas_size r)
    (canvas r) (grid_size r) (queue_size r) (map_size r) (grid r) (queue r) (queue_i r) (map r)
    (text_fg r) (text_bg r) (cursor_x r) (cursor_y r) x (saved_state_text_bg r)
    (saved_state_cursor_x r) (saved_state_cursor_y r) (old_cursor_x r) (old_cursor_y r).
Definition set_saved_state_text_bg (x : Z) (r : flanterm_fb_context) : flanterm_fb_context :=
  mk_fb_context (plot_char r) (flush_callback r) (font_width r) (font_height r) (glyph_width r)
    (glyph_height r) (font_scale_x r) (font_scale_y r) (offset_x r) (offset_y r) (framebuffer r)
    (pitch r) (width r) (height r) (bpp r) (red_mask_size r) (red_mask_shift r) (green_mask_size r)
    (green_mask_shift r) (blue_mask_size r) (blue_mask_shift r) (rotation r) (font_bits_size r)
    (font_bits r) (font_bool_size r) (font_bool r) (ansi_colours r) (ansi_bright_colours r)
    (default_fg r) (default_bg r) (default_fg_bright r) (default_bg_bright r) (canvas_size r)
    (canvas r) (grid_size r) (queue_size r) (map_size r) (grid r) (queue r) (queue_i r) (map r)
    (text_fg r) (text_bg r) (cursor_x r) (cursor_y r) (saved_state_text_fg r) x
    (saved_state_cursor_x r) (saved_state_cursor_y r) (old_cursor_x r) (old_cursor_y r).
Definition set_saved_state_cursor_x (x : Z) (r : flanterm_fb_context) : flanterm_fb_context :=
  mk_fb_context (plot_char r) (flush_callback r) (font_width r) (font_height r) (glyph_width r)
    (glyph_height r) (font_scale_x r) (font_scale_y r) (offset_x r) (offset_y r) (framebuffer r)
    (pitch r) (width r) (height r) (bpp r) (red_mask_size r) (red_mask_shift r) (green_mask_size r)
    (green_mask_shift r) (blue_mask_size r) (blue_mask_shift r) (rotation r) (font_bits_size r)
    (font_bits r) (font_bool_size r) (font_bool r) (ansi_colours r) (ansi_bright_colours r)
    (default_fg r) (default_bg r) (default_fg_bright r) (default_bg_bright r) (canvas_size r)
    (canvas r) (grid_size r) (queue_size r) (map_size r) (grid r) (queue r) (queue_i r) (map r)
    (text_fg r) (text_bg r) (cursor_x r) (cursor_y r) (saved_state_text_fg r)
    (saved_state_text_bg r) x (saved_state_cursor_y r) (old_cursor_x r) (old_cursor_y r).
Definition set_saved_state_cursor_y (x : Z) (r : flanterm_fb_context) : flanterm_fb_context :=
  mk_fb_context (plot_char r) (flush_callback r) (font_width r) (font_height r) (glyph_width r)
    (glyph_height r) (font_scale_x r) (font_scale_y r) (offset_x r) (offset_y r) (framebuffer r)
    (pitch r) (width r) (height r) (bpp r) (red_mask_size r) (red_mask_shift r) (green_mask_size r)
    (green_mask_shift r) (blue_mask_size r) (blue_mask_shift r) (rotation r) (font_bits_size r)
    (font_bits r) (font_bool_size r) (font_bool r) (ansi_colours r) (ansi_bright_colours r)
    (default_fg r) (default_bg r) (default_fg_bright r) (default_bg_bright r) (canvas_size r)
    (canvas r) (grid_size r) (queue_size r) (map_size r) (grid r) (queue r) (queue_i r) (map r)
    (text_fg r) (text_bg r) (cursor_x r) (cursor_y r) (saved_state_text_fg r)
    (saved_state_text_bg r) (saved_state_cursor_x r) x (old_cursor_x r) (old_cursor_y r).
Definition set_old_cursor_x (x : Z) (r : flanterm_fb_context) : flanterm_fb_context :=
  mk_fb_context (plot_char r) (flush_callback r) (font_width r) (font_height r) (glyph_width r)
    (glyph_height r) (font_scale_x r) (font_scale_y r) (offset_x r) (offset_y r) (framebuffer r)
    (pitch r) (width r) (height r) (bpp r) (red_mask_size r) (red_mask_shift r) (green_mask_size r)
    (green_mask_shift r) (blue_mask_size r) (blue_mask_shift r) (rotation r) (font_bits_size r)
    (font_bits r) (font_bool_size r) (font_bool r) (ansi_colours r) (ansi_bright_colours r)
    (default_fg r) (default_bg r) (default_fg_bright r) (default_bg_bright r) (canvas_size r)
    (canvas r) (grid_size r) (queue_size r) (map_size r) (grid r) (queue r) (queue_i r) (map r)
    (text_fg r) (text_bg r) (cursor_x r) (cursor_y r) (saved_state_text_fg r)
    (saved_state_text_bg r) (saved_state_cursor_x r) (saved_state_cursor_y r) x (old_cursor_y r).
Definition set_old_cursor_y (x : Z) (r : flanterm_fb_context) : flanterm_fb_context :=
  mk_fb_context (plot_char r) (flush_callback r) (font_width r) (font_height r) (glyph_width r)
    (glyph_height r) (font_scale_x r) (font_scale_y r) (offset_x r) (offset_y r) (framebuffer r)
    (pitch r) (width r) (height r) (bpp r) (red_mask_size r) (red_mask_shift r) (green_mask_size r)
    (green_mask_shift r) (blue_mask_size r) (blue_mask_shift r) (rotation r) (font_bits_size r)
    (font_bits r) (font_bool_size r) (font_bool r) (ansi_colours r) (ansi_bright_colours r)
    (default_fg r) (default_bg r) (default_fg_bright r) (default_bg_bright r) (canvas_size r)
    (canvas r) (grid_size r) (queue_size r) (map_size r) (grid r) (queue r) (queue_i r) (map r)
    (text_fg r) (text_bg r) (cursor_x r) (cursor_y r) (saved_state_text_fg r)
    (saved_state_text_bg r) (saved_state_cursor_x r) (saved_state_cursor_y r) (old_cursor_x r) x.

Definition FLANTERM_FB_FONT_GLYPHS : Z := 256.
Definition FLANTERM_FB_ROTATE_0 : Z := 0.
Definition FLANTERM_FB_ROTATE_90 : Z := 1.
Definition FLANTERM_FB_ROTATE_180 : Z := 2.
Definition FLANTERM_FB_ROTATE_270 : Z := 3.

(** The colour that stands for the background. *)
Definition TRANSPARENT : Z := 0xffffffff.

(** ** Colours *)

(** [convert_colour], from the three shifts of the context. *)
Definition convert (red_shift green_shift blue_shift colour : Z) : Z :=
  let r := Z.land (Z.shiftr colour 16) 0xff in
  let g := Z.land (Z.shiftr colour 8) 0xff in
  let b := Z.land colour 0xff in
  Z.lor (Z.lor (u32 (Z.shiftl r red_shift)) (u32 (Z.shiftl g green_shift)))
        (u32 (Z.shiftl b blue_shift)).

Definition convert_colour (f : flanterm_fb_context) (colour : Z) : Z :=
  convert (red_mask_shift f) (green_mask_shift f) (blue_mask_shift f) colour.

Definition flanterm_fb_save_state (f : flanterm_fb_context) : flanterm_fb_context :=
  set_saved_state_cursor_y (cursor_y f) (set_saved_state_cursor_x (cursor_x f)
    (set_saved_state_text_bg (text_bg f) (set_saved_state_text_fg (text_fg f) f))).

Definition flanterm_fb_restore_state (f : flanterm_fb_context) : flanterm_fb_context :=
  set_cursor_y (saved_state_cursor_y f) (set_cursor_x (saved_state_cursor_x f)
    (set_text_bg (saved_state_text_bg f) (set_text_fg (saved_state_text_fg f) f))).

Definition flanterm_fb_swap_palette (f : flanterm_fb_context) : flanterm_fb_context :=
  set_text_fg (text_bg f) (set_text_bg (text_fg f) f).

(** ** Drawing *)

(** The [switch] on the rotation that the four functions share: the index of
    the first pixel, and the two strides. *)
Definition plot_dest (f : flanterm_fb_context) (x y : Z) : Z * Z * Z :=
  let line := pitch f / 4 in
  if rotation f =? FLANTERM_FB_ROTATE_90 then
    (u64 (u64 (height f - 1 - y) + u64 (x * line)), -1, i32 line)
  else if rotation f =? FLANTERM_FB_ROTATE_180 then
    (u64 (u64 (width f - 1 - x) + u64 (u64 (height f - 1 - y) * line)), i32 (u64 (- line)), -1)
  else if rotation f =? FLANTERM_FB_ROTATE_270 then
    (u64 (y + u64 (u64 (width f - 1 - x) * line)), 1, i32 (u64 (- line)))
  else (u64 (x + u64 (y * line)), i32 line, 1).

(** [*fb_line = v], with [fb_line] an index of the frame buffer. *)
Definition put_pixel (f : flanterm_fb_context) (fb_line v : Z) (m : mem) : mem :=
  store32 m (u64 (framebuffer f + 4 * fb_line)) v.

(** The colours of a pixel with a canvas, [line] the index of [canvas_line], and
    without one: foreground, then background. *)
Definition canvas_colours (f : flanterm_fb_context) (c : flanterm_fb_char) (line gx : Z) : option (Z * Z) :=
  bg ← (if c_bg c =? TRANSPARENT then aget (buf_data (canvas f)) (line + gx) else Some (c_bg c));
  fg ← (if c_fg c =? TRANSPARENT then aget (buf_data (canvas f)) (line + gx) else Some (c_fg c));
  Some (fg, bg).

Definition default_colours (f : flanterm_fb_context) (c : flanterm_fb_char) : Z * Z :=
  let default_bg := default_bg f in
  let bg := if c_bg c =? TRANSPARENT then default_bg else c_bg c in
  let fg := if c_fg c =? TRANSPARENT then default_bg else c_fg c in
  (fg, bg).

(** [ctx->canvas + x + (y + gy) * ctx->width] *)
Definition canvas_line (f : flanterm_fb_context) (x y gy : Z) : Z :=
  u64 (x + u64 (u64 (y + gy) * width f)).

(** The loop over [fx] of the unscaled functions. *)
Fixpoint unscaled_row (f : flanterm_fb_context) (colours : Z -> option (Z * Z)) (n : nat)
    (fx fb_line glyph_pointer inner_stride : Z) (m : mem) : option mem :=
  match n with
  | O => Some m
  | S n =>
    col ← colours fx;
    b ← aget (buf_data (font_bool f)) glyph_pointer;
    let m := put_pixel f fb_line (if (b : bool) then col.1 else col.2) m in
    unscaled_row f colours n (fx + 1) (fb_line + inner_stride) (glyph_pointer + 1) inner_stride m
  end.

(** The loop over [i] of the scaled functions, for one column of the font, and
    the loop over [fx] around it. *)
Fixpoint scaled_column (f : flanterm_fb_context) (colours : Z -> option (Z * Z)) (n : nat)
    (gx fb_line glyph_pointer inner_stride : Z) (m : mem) : option (Z * mem) :=
  match n with
  | O => Some (fb_line, m)
  | S n =>
    col ← colours gx;
    b ← aget (buf_data (font_bool f)) glyph_pointer;
    let m := put_pixel f fb_line (if (b : bool) then col.1 else col.2) m in
    scaled_column f colours n (gx + 1) (fb_line + inner_stride) glyph_pointer inner_stride m
  end.

Fixpoint scaled_row (f : flanterm_fb_context) (colours : Z -> option (Z * Z)) (n : nat)
    (fx fb_line glyph_pointer inner_stride : Z) (m : mem) : option mem :=
  match n with
  | O => Some m
  | S n =>
    r ← scaled_column f colours (Z.to_nat (font_scale_x f)) (u64 (font_scale_x f * fx)) fb_line
          glyph_pointer inner_stride m;
    scaled_row f colours n (fx + 1) r.1 (glyph_pointer + 1) inner_stride r.2
  end.

(** The loop over [gy]; [row] draws the line that starts at [dest]. *)
Fixpoint plot_rows (row : Z -> Z -> mem -> option mem) (n : nat) (gy dest outer_stride : Z) (m : mem)
    : option mem :=
  match n with
  | O => Some m
  | S n => m ← row gy dest m; plot_rows row n (gy + 1) (dest + outer_stride) outer_stride m
  end.

(** [ctx->font_bool[c->c * ctx->font_height * ctx->font_width]] *)
Definition glyph_index (f : flanterm_fb_context) (c : flanterm_fb_char) : Z :=
  u64 (u64 (c_c c * font_height f) * font_width f).

Section plot.
Context (t : flanterm_context) (f : flanterm_fb_context) (c : flanterm_fb_char) (x y : Z) (m : mem).

Let px : Z := u64 (offset_x f + x * glyph_width f).
Let py : Z := u64 (offset_y f + y * glyph_height f).
Let glyph : Z := glyph_index f c.

Definition plot_char_scaled_canvas : option mem :=
  if (cols t <=? x) || (rows t <=? y) then Some m else
  let '(dest, outer_stride, inner_stride) := plot_dest f px py in
  plot_rows (fun gy dest =>
      let fy := u8 (gy / font_scale_y f) in
      scaled_row f (canvas_colours f c (canvas_line f px py gy)) (Z.to_nat (font_width f)) 0 dest
        (glyph + fy * font_width f) inner_stride)
    (Z.to_nat (glyph_height f)) 0 dest outer_stride m.

Definition plot_char_scaled_uncanvas : option mem :=
  if (cols t <=? x) || (rows t <=? y) then Some m else
  let '(dest, outer_stride, inner_stride) := plot_dest f px py in
  plot_rows (fun gy dest =>
      let fy := u8 (gy / font_scale_y f) in
      scaled_row f (fun _ => Some (default_colours f c)) (Z.to_nat (font_width f)) 0 dest
        (glyph + fy * font_width f) inner_stride)
    (Z.to_nat (glyph_height f)) 0 dest outer_stride m.

Definition plot_char_unscaled_canvas : option mem :=
  if (cols t <=? x) || (rows t <=? y) then Some m else
  let '(dest, outer_stride, inner_stride) := plot_dest f px py in
  plot_rows (fun gy dest =>
      unscaled_row f (canvas_colours f c (canvas_line f px py gy)) (Z.to_nat (font_width f)) 0 dest
        (glyph + gy * font_width f) inner_stride)
    (Z.to_nat (glyph_height f)) 0 dest outer_stride m.

Definition plot_char_unscaled_uncanvas : option mem :=
  if (cols t <=? x) || (rows t <=? y) then Some m else
  let '(dest, outer_stride, inner_stride) := plot_dest f px py in
  plot_rows (fun gy dest =>
      unscaled_row f (fun _ => Some (default_colours f c)) (Z.to_nat (font_width f)) 0 dest
        (glyph + gy * font_width f) inner_stride)
    (Z.to_nat (glyph_height f)) 0 dest outer_stride m.

(** The call through [ctx->plot_char]. *)
Definition plot : option mem :=
  match plot_char f with
  | scaled_canvas => plot_char_scaled_canvas
  | scaled_uncanvas => plot_char_scaled_uncanvas
  | unscaled_canvas => plot_char_unscaled_canvas
  | unscaled_uncanvas => plot_char_unscaled_uncanvas
  end.
End plot.

(** ** The queue *)

Definition compare_char (a b : flanterm_fb_char) : bool :=
  negb (negb (c_c a =? c_c b) || negb (c_bg a =? c_bg b) || negb (c_fg a =? c_fg b)).

(** [q->c = *c] for the entry [j] of the queue. *)
Definition set_entry (f : flanterm_fb_context) (j : Z) (c : flanterm_fb_char) : option flanterm_fb_context :=
  q ← aget (buf_data (queue f)) j;
  l ← aset (buf_data (queue f)) j (mk_item (q_x q) (q_y q) c);
  Some (set_queue (set_data l (queue f)) f).

(** The character is passed by value: where the code passes a pointer to an
    entry of the queue or to the grid, the entry that [push_to_queue] fills is
    another one or receives its own value. *)
Definition push_to_queue (t : flanterm_context) (c : flanterm_fb_char) (x y : Z) (f : flanterm_fb_context)
    : option flanterm_fb_context :=
  if (cols t <=? x) || (rows t <=? y) then Some f else
  let i := u64 (u64 (y * cols t) + x) in
  q ← aget (buf_data (map f)) i;
  match q with
  | Some j => set_entry f j c
  | None =>
    g ← aget (buf_data (grid f)) i;
    if compare_char g c then Some f else
    let j := queue_i f in
    old ← aget (buf_data (queue f)) j;
    l ← aset (buf_data (queue f)) j (mk_item x y (q_c old));
    mp ← aset (buf_data (map f)) i (Some j);
    set_entry (set_map (set_data mp (map f)) (set_queue (set_data l (queue f))
      (set_queue_i (u64 (j + 1)) f))) j c
  end.

(** [q != NULL ? q->c : ctx->grid[i]] with [q] the entry of cell [i]. *)
Definition cell (f : flanterm_fb_context) (i : Z) : option flanterm_fb_char :=
  q ← aget (buf_data (map f)) i;
  match q with
  | Some j => it ← aget (buf_data (queue f)) j; Some (q_c it)
  | None => aget (buf_data (grid f)) i
  end.

(** [for (size_t i = lo; i < hi; i++) body], [n] rounds. *)
Fixpoint fb_for {A} (n : nat) (i : Z) (body : Z -> A -> option A) (f : A) : option A :=
  match n with
  | O => Some f
  | S n => f ← body i f; fb_for n (i + 1) body f
  end.

(** A blank in the current colours. *)
Definition empty (f : flanterm_fb_context) : flanterm_fb_char := mk_char 32 (text_fg f) (text_bg f).

(** The loop of [flanterm_fb_revscroll]; the cells above the last row are as
    many rounds as it can take. *)
Fixpoint revscroll_loop (fuel : nat) (t : flanterm_context) (i : Z) (f : flanterm_fb_context)
    : option flanterm_fb_context :=
  if negb (u64 (scroll_top_margin t * cols t) <=? i) then Some f else
  if i =? SIZE_MAX then Some f else
  match fuel with
  | O => None
  | S fuel =>
    c ← cell f i;
    f ← push_to_queue t c (u64 (i + cols t) mod cols t) (u64 (i + cols t) / cols t) f;
    revscroll_loop fuel t (u64 (i - 1)) f
  end.

Definition flanterm_fb_revscroll (t : flanterm_context) (f : flanterm_fb_context)
    : option flanterm_fb_context :=
  f ← revscroll_loop (Z.to_nat (rows t * cols t)) t
        (u64 (u64 ((scroll_bottom_margin t - 1) * cols t) - 1)) f;
  let e := empty f in
  fb_for (Z.to_nat (cols t)) 0 (fun i => push_to_queue t e i (scroll_top_margin t)) f.

Definition flanterm_fb_scroll (t : flanterm_context) (f : flanterm_fb_context)
    : option flanterm_fb_context :=
  let lo := u64 ((scroll_top_margin t + 1) * cols t) in
  let hi := u64 (scroll_bottom_margin t * cols t) in
  f ← fb_for (Z.to_nat (hi - lo)) lo (fun i f =>
        c ← cell f i;
        push_to_queue t c (u64 (i - cols t) mod cols t) (u64 (i - cols t) / cols t) f) f;
  let e := empty f in
  fb_for (Z.to_nat (cols t)) 0 (fun i => push_to_queue t e i (u64 (scroll_bottom_margin t - 1))) f.

Definition flanterm_fb_clear (t : flanterm_context) (move : bool) (f : flanterm_fb_context)
    : option flanterm_fb_context :=
  let e := empty f in
  f ← fb_for (Z.to_nat (u64 (rows t * cols t))) 0
        (fun i => push_to_queue t e (i mod cols t) (i / cols t)) f;
  Some (if move then set_cursor_y 0 (set_cursor_x 0 f) else f).

(** ** The cursor *)

Definition flanterm_fb_set_cursor_pos (t : flanterm_context) (x y : Z) (f : flanterm_fb_context)
    : flanterm_fb_context :=
  let x := if cols t <=? x then if i32 x <? 0 then 0 else u64 (cols t - 1) else x in
  let y := if rows t <=? y then if i32 y <? 0 then 0 else u64 (rows t - 1) else y in
  set_cursor_y y (set_cursor_x x f).

Definition flanterm_fb_get_cursor_pos (t : flanterm_context) (f : flanterm_fb_context) : Z * Z :=
  (if cols t <=? cursor_x f then u64 (cols t - 1) else cursor_x f,
   if rows t <=? cursor_y f then u64 (rows t - 1) else cursor_y f).

Definition flanterm_fb_move_character (t : flanterm_context) (new_x new_y old_x old_y : Z)
    (f : flanterm_fb_context) : option flanterm_fb_context :=
  if (cols t <=? old_x) || (rows t <=? old_y) || (cols t <=? new_x) || (rows t <=? new_y)
  then Some f else
  let i := u64 (old_x + u64 (old_y * cols t)) in
  c ← cell f i;
  push_to_queue t c new_x new_y f.

(** ** Text colours *)

Definition flanterm_fb_set_text_fg (fg : Z) (f : flanterm_fb_context) : option flanterm_fb_context :=
  v ← aget (ansi_colours f) fg; Some (set_text_fg v f).
Definition flanterm_fb_set_text_bg (bg : Z) (f : flanterm_fb_context) : option flanterm_fb_context :=
  v ← aget (ansi_colours f) bg; Some (set_text_bg v f).
Definition flanterm_fb_set_text_fg_bright (fg : Z) (f : flanterm_fb_context) : option flanterm_fb_context :=
  v ← aget (ansi_bright_colours f) fg; Some (set_text_fg v f).
Definition flanterm_fb_set_text_bg_bright (bg : Z) (f : flanterm_fb_context) : option flanterm_fb_context :=
  v ← aget (ansi_bright_colours f) bg; Some (set_text_bg v f).
Definition flanterm_fb_set_text_fg_rgb (fg : Z) (f : flanterm_fb_context) : flanterm_fb_context :=
  set_text_fg (convert_colour f fg) f.
Definition flanterm_fb_set_text_bg_rgb (bg : Z) (f : flanterm_fb_context) : flanterm_fb_context :=
  set_text_bg (convert_colour f bg) f.
Definition flanterm_fb_set_text_fg_default (f : flanterm_fb_context) : flanterm_fb_context :=
  set_text_fg (default_fg f) f.
Definition flanterm_fb_set_text_bg_default (f : flanterm_fb_context) : flanterm_fb_context :=
  set_text_bg TRANSPARENT f.
Definition flanterm_fb_set_text_fg_default_bright (f : flanterm_fb_context) : flanterm_fb_context :=
  set_text_fg (default_fg_bright f) f.
Definition flanterm_fb_set_text_bg_default_bright (f : flanterm_fb_context) : flanterm_fb_context :=
  set_text_bg (default_bg_bright f) f.

(** ** Flushing *)

(** [ctx->grid[i] = c; ctx->map[i] = NULL;] *)
Definition settle (f : flanterm_fb_context) (i : Z) (c : flanterm_fb_char) : option flanterm_fb_context :=
  g ← aset (buf_data (grid f)) i c;
  mp ← aset (buf_data (map f)) i None;
  Some (set_map (set_data mp (map f)) (set_grid (set_data g (grid f)) f)).

Definition draw_cursor (t : flanterm_context) (w : fb_world) : option fb_world :=
  let f := fb w in
  if (cols t <=? cursor_x f) || (rows t <=? cursor_y f) then Some w else
  let i := u64 (cursor_x f + u64 (cursor_y f * cols t)) in
  c ← cell f i;
  q ← aget (buf_data (map f)) i;
  m ← plot t f (mk_char (c_c c) (c_bg c) (c_fg c)) (cursor_x f) (cursor_y f) (vram w);
  f ← match q with Some _ => settle f i c | None => Some f end;
  Some (mk_world f m (flushes w)).

(** One round of the loop over the queue. *)
Definition flush_entry (t : flanterm_context) (i : Z) (w : fb_world) : option fb_world :=
  let f := fb w in
  q ← aget (buf_data (queue f)) i;
  let offset := u64 (u64 (q_y q * cols t) + q_x q) in
  p ← aget (buf_data (map f)) offset;
  match p with
  | None => Some w
  | Some _ =>
    m ← plot t f (q_c q) (q_x q) (q_y q) (vram w);
    f ← settle f offset (q_c q);
    Some (mk_world f m (flushes w))
  end.

(** [if (ctx->flush_callback) ctx->flush_callback(ctx->framebuffer, ctx->pitch * ctx->height);] *)
Definition notify_flush (w : fb_world) : fb_world :=
  if flush_callback (fb w)
  then mk_world (fb w) (vram w) (flushes w ++ [(framebuffer (fb w), u64 (pitch (fb w) * height (fb w)))])
  else w.

(** The cell of the previous cursor is drawn again when the cursor has left it
    or is hidden. *)
Definition redraw_old_cursor (t : flanterm_context) (w : fb_world) : option fb_world :=
  let f := fb w in
  if (negb (old_cursor_x f =? cursor_x f) || negb (old_cursor_y f =? cursor_y f)) ||
     negb (cursor_enabled t)
  then
    if (old_cursor_x f <? cols t) && (old_cursor_y f <? rows t) then
      c ← aget (buf_data (grid f)) (u64 (old_cursor_x f + u64 (old_cursor_y f * cols t)));
      m ← plot t f c (old_cursor_x f) (old_cursor_y f) (vram w);
      Some (mk_world f m (flushes w))
    else Some w
  else Some w.

Definition flanterm_fb_double_buffer_flush (t : flanterm_context) (w : fb_world) : option fb_world :=
  w ← (if cursor_enabled t then draw_cursor t w else Some w);
  w ← fb_for (Z.to_nat (queue_i (fb w))) 0 (flush_entry t) w;
  w ← redraw_old_cursor t w;
  let f := fb w in
  let f := set_queue_i 0 (set_old_cursor_y (cursor_y f) (set_old_cursor_x (cursor_x f) f)) in
  Some (notify_flush (mk_world f (vram w) (flushes w))).

Definition flanterm_fb_raw_putchar (t : flanterm_context) (c : Z) (f : flanterm_fb_context)
    : option flanterm_fb_context :=
  f ← (if (cols t <=? cursor_x f) &&
          ((cursor_y f <? u64 (scroll_bottom_margin t - 1)) || scroll_enabled t) then
         let f := set_cursor_y (u64 (cursor_y f + 1)) (set_cursor_x 0 f) in
         f ← (if cursor_y f =? scroll_bottom_margin t
              then flanterm_fb_scroll t (set_cursor_y (u64 (cursor_y f - 1)) f) else Some f);
         Some (if cols t <=? cursor_y f then set_cursor_y (u64 (cols t - 1)) f else f)
       else Some f);
  let x := cursor_x f in
  push_to_queue t (mk_char c (text_fg f) (text_bg f)) x (cursor_y f)
    (set_cursor_x (u64 (x + 1)) f).

(** ** Refreshing the whole screen *)

(** Where the pixel of column [x] and row [y] of the picture is shown. *)
Definition refresh_pixel (f : flanterm_fb_context) (x y : Z) : Z :=
  let '(px, py) :=
    if rotation f =? FLANTERM_FB_ROTATE_90 then (u64 (height f - 1 - y), x)
    else if rotation f =? FLANTERM_FB_ROTATE_180 then (u64 (width f - 1 - x), u64 (height f - 1 - y))
    else if rotation f =? FLANTERM_FB_ROTATE_270 then (y, u64 (width f - 1 - x))
    else (x, y) in
  u64 (u64 (py * (pitch f / 4)) + px).

Definition refresh_background (f : flanterm_fb_context) (m : mem) : option mem :=
  fb_for (Z.to_nat (height f)) 0 (fun y =>
    fb_for (Z.to_nat (width f)) 0 (fun x m =>
      v ← (if negb (buf_ptr (canvas f) =? 0)
           then aget (buf_data (canvas f)) (u64 (u64 (y * width f) + x))
           else Some (default_bg f));
      Some (put_pixel f (refresh_pixel f x y) v m))) m.

Definition flanterm_fb_full_refresh (t : flanterm_context) (w : fb_world) : option fb_world :=
  let f := fb w in
  m ← refresh_background f (vram w);
  m ← fb_for (Z.to_nat (u64 (rows t * cols t))) 0 (fun i m =>
        c ← aget (buf_data (grid f)) i;
        plot t f c (i mod cols t) (i / cols t) m) m;
  let w := mk_world f m (flushes w) in
  w ← (if cursor_enabled t then draw_cursor t w else Some w);
  Some (notify_flush w).

Definition flanterm_fb_set_flush_callback (cb : bool) (w : fb_world) : fb_world :=
  mk_world (set_flush_callback cb (fb w)) (vram w) (flushes w).

(** ** The operations of the backend *)

Definition lifto (g : flanterm_fb_context -> option flanterm_fb_context) (w : fb_world) : option fb_world :=
  f ← g (fb w); Some (mk_world f (vram w) (flushes w)).
Definition lift (g : flanterm_fb_context -> flanterm_fb_context) : fb_world -> option fb_world :=
  lifto (fun f => Some (g f)).

Definition fb_ops : flanterm_ops fb_world :=
  mk_ops fb_world
    (fun t c => lifto (flanterm_fb_raw_putchar t c))
    (fun t mv => lifto (flanterm_fb_clear t mv))
    (fun t x y => lift (flanterm_fb_set_cursor_pos t x y))
    (fun t w => flanterm_fb_get_cursor_pos t (fb w))
    (fun _ fg => lifto (flanterm_fb_set_text_fg fg))
    (fun _ bg => lifto (flanterm_fb_set_text_bg bg))
    (fun _ fg => lifto (flanterm_fb_set_text_fg_bright fg))
    (fun _ bg => lifto (flanterm_fb_set_text_bg_bright bg))
    (fun _ fg => lift (flanterm_fb_set_text_fg_rgb fg))
    (fun _ bg => lift (flanterm_fb_set_text_bg_rgb bg))
    (fun _ => lift flanterm_fb_set_text_fg_default)
    (fun _ => lift flanterm_fb_set_text_bg_default)
    (fun _ => lift flanterm_fb_set_text_fg_default_bright)
    (fun _ => lift flanterm_fb_set_text_bg_default_bright)
    (fun t nx ny ox oy => lifto (flanterm_fb_move_character t nx ny ox oy))
    (fun t => lifto (flanterm_fb_scroll t))
    (fun t => lifto (flanterm_fb_revscroll t))
    (fun _ => lift flanterm_fb_swap_palette)
    (fun _ => lift flanterm_fb_save_state)
    (fun _ => lift flanterm_fb_restore_state)
    flanterm_fb_double_buffer_flush
    flanterm_fb_full_refresh.
