(* ===== verification/State.v ===== *)
(** * The kernel state and the monad of kernel code

    Every global of the modelled files is a field of [kstate]; C functions are
    values of the state monad [M], whose outcomes besides a result are a
    [panic], a spin lock that is never released, an access through a pointer
    to no object, and a loop that does not end.  Objects that the code
    allocates one by one and reaches through typed pointers ([process_t],
    [vfs_file_t], [pagemap_t], ...) are kept in maps from their address;
    page tables, heap block headers, stacks and buffers are bytes of [s_mem].

    The terminal of the frame buffer driver is the one of Flanterm.v and
    FlantermFb.v.  The calls of [printf] that only log are left out of the
    functions that make them; [printf] itself is in Printf.v and Console.v. *)

From S2P Require Import Prelude Memory Flanterm FlantermFb.

(** A terminal on a frame buffer. *)
Abbreviation fb_terminal := (terminal fb_world).

(** ** Data of the headers *)

(** [struct limine_memmap_entry] (thirdparty/limine.h). *)
Record limine_memmap_entry : Type := mk_memmap_entry {
  me_base : Z;
  me_length : Z;
  me_type : Z
}.

(** The addresses of functions and arrays that are stored as data: the entry
    stubs of the assembly files, the return address inside
    [process_schedule], and the static arrays of gdt.c and ac97.c. *)
Record link_symbols : Type := mk_symbols {
  sym_kernel_trampoline : Z;
  sym_user_trampoline : Z;
  sym_switch_return : Z;
  sym_forever : Z;
  sym_syscall_trap : Z;
  sym_isr : Z -> Z;
  sym_irq : Z -> Z;
  sym_tss : Z;
  sym_kernel_stack : Z;
  sym_df_stack : Z;
  sym_nmi_stack : Z;
  sym_temp_buffer : Z
}.

(** [struct limine_framebuffer] (thirdparty/limine.h), the fields in use. *)
Record limine_framebuffer : Type := mk_limine_fb {
  lf_address : Z;
  lf_width : Z;
  lf_height : Z;
  lf_bpp : Z;
  lf_pitch : Z;
  lf_masks : list Z
}.

(** What the boot loader and the linker hand over: the answers to the requests
    of kernel/system/requests.c and the symbols of kernel/link.ld. *)
Record boot_info : Type := mk_boot {
  memmap : list limine_memmap_entry;
  hhdm_offset : Z;
  physical_base : Z;
  virtual_base : Z;
  text_begin : Z;
  text_end : Z;
  rodata_begin : Z;
  rodata_end : Z;
  data_begin : Z;
  bss_end : Z;
  bitmap_addr : Z;
  new_pagemap_addr : Z;
  boot_modules : list (list Z * Z);
  framebuffers : list limine_framebuffer;
  symbols : link_symbols
}.

(** Port accesses: direction, width in bits, port and, for writes, value. *)
Inductive io_event : Type :=
| IoIn (width port : Z)
| IoOut (width port value : Z).

(** [process_type_t], [process_state_t], [process_t] (process.h). *)
Inductive process_type : Type := PROCESS_KERNEL | PROCESS_USER.

Inductive process_state : Type :=
| PROCESS_READY | PROCESS_RUNNING | PROCESS_SLEEPING | PROCESS_DEAD.

Record process : Type := mk_process {
  krsp : Z;
  ursp : Z;
  p_id : Z;
  p_name : string;
  wake_at : Z;
  p_type : process_type;
  p_state : process_state;
  p_stack : Z;
  stack_top : Z;
  p_pagemap : Z;
  user_heap_start : Z;
  user_heap_position : Z;
  fsbase : Z;
  fpu_state : Z
}.

Record process_node : Type := mk_node {
  n_process : Z;
  n_next : Z
}.

(** The functions that a file system puts into a [vfs_impl_t] or a
    [devfs_dev_t], by name.  A field that was never assigned holds whatever
    the allocator returned: [Some Uninitialised]. *)
Inductive fs_fun : Type :=
| Devfs_read | Devfs_write | Devfs_exists | Devfs_mmap
| Tarfs_read | Tarfs_exists | Tarfs_seek | Tarfs_stat
| Zero_read | Zero_write | Stdout_read | Stdout_write | Audio_write
| Keyboard_read | Keyboard_write | Framebuffer_write | Framebuffer_mmap
| Uninitialised.

(** [vfs_impl_t], [vfs_t], [vfs_file_t] (fs/vfs.h). *)
Record vfs_impl : Type := mk_impl {
  i_read : option fs_fun;
  i_write : option fs_fun;
  i_seek : option fs_fun;
  i_exists : option fs_fun;
  i_stat : option fs_fun;
  i_mmap : option fs_fun
}.

Record vfs : Type := mk_mnt {
  mnt : option (list Z);
  impl : option vfs_impl
}.

Record vfs_file : Type := mk_file {
  f_id : Z;
  f_loc : Z;
  f_flags : Z;
  f_mode : Z;
  f_fs : nat
}.

(** [devfs_dev_t] (fs/devfs.h) and [tarfs_file_t] (fs/tarfs.h). *)
Record devfs_dev : Type := mk_dev {
  d_loc : list Z;
  d_read : option fs_fun;
  d_write : option fs_fun;
  d_mmap : option fs_fun
}.

Record tarfs_file : Type := mk_tarfs_file {
  t_loc : Z;
  t_seek_pos : Z;
  t_len : Z
}.

(** [gdt_entry_t] (cpu/gdt.h) and the fields of [tss_entry_t] (cpu/tss.h) that
    are assigned. *)
Record gdt_entry : Type := mk_gdt_entry {
  g_limit_low : Z;
  g_base_low : Z;
  g_base_middle : Z;
  g_access : Z;
  g_limit_high : Z;
  g_granularity : Z;
  g_base_high : Z
}.

Record tss_entry : Type := mk_tss {
  rsp0 : Z;
  ist1 : Z;
  ist2 : Z
}.

(** [pci_device_t], [pci_bar_t] (drivers/pci.h) and [audio_buffer_t]
    (drivers/ac97.h). *)
Record pci_device : Type := mk_pci {
  vendor : Z;
  device : Z;
  bus : Z;
  slot : Z;
  pci_function : Z;
  general_base : Z
}.

Record pci_bar : Type := mk_bar {
  bar_addr : Z;
  bar_size : Z;
  bar_type : Z
}.

Record audio_buffer : Type := mk_audio {
  ab_data : Z;
  data_written : Z;
  ab_phys : Z;
  has_played : Z
}.

(** Handlers of irq.c and isr.c by name. *)
Inductive irq_routine : Type := Pit_handler | Process_schedule | Keyboard_handler.

Inductive isr_routine : Type := Irq_invalid_opcode | Gpf_fault_handler | Vmm_pagefault.

(** [idt_entry_t] (cpu/idt.h). *)
Record idt_entry : Type := mk_idt_entry {
  base_low : Z;
  segment_selector : Z;
  ist : Z;
  idt_flags : Z;
  base_middle : Z;
  base_high : Z;
  idt_reserved : Z
}.

#[export] Instance process_state_eq_dec : EqDecision process_state.
Proof. solve_decision. Defined.
#[export] Instance process_type_eq_dec : EqDecision process_type.
Proof. solve_decision. Defined.
#[export] Instance fs_fun_eq_dec : EqDecision fs_fun.
Proof. solve_decision. Defined.
#[export] Instance irq_routine_eq_dec : EqDecision irq_routine.
Proof. solve_decision. Defined.

(** ** The state *)

(** The processor and the interrupt bookkeeping of kernel/arch/x86_64/irq.c:
    the interrupt flag of RFLAGS, [sync_depth] and [sync_was_enabled], the
    control registers, the model specific registers, the contents of the FPU
    registers (an opaque value), [ticks], the stack pointer, the callee-saved registers in the order RBP, RBX, R12 to R15,
    and the address of the last page fault. *)
Record cpu_state : Type := mk_cpu {
  if_flag : bool;
  sync_depth : Z;
  sync_was_enabled : bool;
  cr0 : Z;
  cr3 : Z;
  cr4 : Z;
  msrs : gmap Z Z;
  fpu : Z;
  ticks : Z;
  rsp : Z;
  callee : list Z;
  cr2 : Z
}.

(** The [latch] of each [spin_lock_t] of the kernel (spinlock.h). *)
Record locks : Type := mk_locks {
  pmm_latch : bool;
  vmm_latch : bool;
  heap_latch : bool;
  ac97_latch : bool
}.

(** The static data of kernel/system/pmm.c; [bitmap] by byte index. *)
Record pmm_state : Type := mk_pmm {
  bitmap : gmap Z Z;
  highest_page : Z;
  used_pages : Z;
  free_pages : Z;
  total_ram_pages : Z
}.

(** kernel/system/vmm.c: [kernel_pagemap] and the [base_virt] field of every
    [pagemap_t] object, by the object's address. *)
Record vmm_state : Type := mk_vmm {
  kernel_pagemap : Z;
  pagemaps : gmap Z Z
}.

(** The static data of kernel/system/heap.c; the block headers are in memory. *)
Record heap_state : Type := mk_heap {
  heap_start : Z;
  heap_size : Z;
  heap_head : Z
}.

(** kernel/system/process.c: the [process_t] and [process_node_t] objects by
    address, and the three globals. *)
Record proc_state : Type := mk_proc {
  processes : gmap Z process;
  nodes : gmap Z process_node;
  process_head : Z;
  next_pid : Z;
  should_schedule : bool
}.

(** kernel/fs/: the mount table and the descriptor table of vfs.c (file pointers
    by index), the [vfs_file_t] objects by address, the device list of devfs.c
    and the file list of tarfs.c in list order. *)
Record vfs_state : Type := mk_vfs {
  mountpoints : list vfs;
  open_files : gmap Z Z;
  files : gmap Z vfs_file;
  devs : list devfs_dev;
  initramfs : Z;
  tarfs_files : list tarfs_file
}.

(** kernel/drivers/ps2/ps2.keyboard.c. *)
Record kbd_state : Type := mk_kbd {
  input_buffer : gmap Z Z;
  input_buffer_index : Z;
  shift_pressed : Z
}.

(** The handler tables of irq.c and isr.c and the interrupt descriptor table. *)
Record irq_state : Type := mk_irqs {
  irq_routines : gmap Z irq_routine;
  irq_description : gmap Z string;
  idt_entries : gmap Z idt_entry;
  isr_callbacks : gmap Z isr_routine
}.

(** kernel/arch/x86_64/gdt.c: the segment descriptors, the task state segment
    and the limits loaded with [lgdt] and [lidt]. *)
Record gdt_state : Type := mk_gdts {
  gdt_entries : gmap Z gdt_entry;
  gdt_tss : tss_entry;
  gdt_limit : Z;
  idt_limit : Z
}.

(** kernel/drivers/pci/ac97.c; [temp_buffer] is the address of that array. *)
Record ac97_state : Type := mk_ac97 {
  ac97_initialized : bool;
  ac97 : pci_device;
  nabm : pci_bar;
  nam : pci_bar;
  buf_desc : Z;
  phys_buf_desc : Z;
  buffers : gmap Z audio_buffer;
  current_volume : Z;
  ac97_entry : Z;
  temp_buffer : Z;
  temp_buffer_count : Z
}.

(** kernel/drivers/video/fb0.c: [fb_info], whether the terminal exists, and the
    text queued before it did. *)
Record fb_state : Type := mk_fb {
  fb_addr : Z;
  fb_width : Z;
  fb_height : Z;
  fb_bpp : Z;
  fb_pitch : Z;
  fb_masks : list Z;
  ft_ctx : option fb_terminal;
  term_buffer : list Z
}.

(** The whole kernel. [s_mem] is memory by kernel virtual address, [s_io] the
    port accesses so far, newest first, and [s_dev] the answer of the devices
    to a port read as a function of that history. *)
Record kstate : Type := mk_kstate {
  s_mem : mem;
  s_cpu : cpu_state;
  s_io : list io_event;
  s_dev : list io_event -> Z -> Z;
  s_boot : boot_info;
  s_locks : locks;
  s_pmm : pmm_state;
  s_vmm : vmm_state;
  s_heap : heap_state;
  s_proc : proc_state;
  s_vfs : vfs_state;
  s_kbd : kbd_state;
  s_irq : irq_state;
  s_gdt : gdt_state;
  s_ac97 : ac97_state;
  s_fb : fb_state
}.

Definition set_if_flag (x : bool) (r : cpu_state) : cpu_state :=
  mk_cpu x (sync_depth r) (sync_was_enabled r) (cr0 r) (cr3 r) (cr4 r) (msrs r) (fpu r) (ticks r) (rsp r) (callee r) (cr2 r).
Definition set_sync_depth (x : Z) (r : cpu_state) : cpu_state :=
  mk_cpu (if_flag r) x (sync_was_enabled r) (cr0 r) (cr3 r) (cr4 r) (msrs r) (fpu r) (ticks r) (rsp r) (callee r) (cr2 r).
Definition set_sync_was_enabled (x : bool) (r : cpu_state) : cpu_state :=
  mk_cpu (if_flag r) (sync_depth r) x (cr0 r) (cr3 r) (cr4 r) (msrs r) (fpu r) (ticks r) (rsp r) (callee r) (cr2 r).
Definition set_cr0 (x : Z) (r : cpu_state) : cpu_state :=
  mk_cpu (if_flag r) (sync_depth r) (sync_was_enabled r) x (cr3 r) (cr4 r) (msrs r) (fpu r) (ticks r) (rsp r) (callee r) (cr2 r).
Definition set_cr3 (x : Z) (r : cpu_state) : cpu_state :=
  mk_cpu (if_flag r) (sync_depth r) (sync_was_enabled r) (cr0 r) x (cr4 r) (msrs r) (fpu r) (ticks r) (rsp r) (callee r) (cr2 r).
Definition set_cr4 (x : Z) (r : cpu_state) : cpu_state :=
  mk_cpu (if_flag r) (sync_depth r) (sync_was_enabled r) (cr0 r) (cr3 r) x (msrs r) (fpu r) (ticks r) (rsp r) (callee r) (cr2 r).
Definition set_msrs (x : gmap Z Z) (r : cpu_state) : cpu_state :=
  mk_cpu (if_flag r) (sync_depth r) (sync_was_enabled r) (cr0 r) (cr3 r) (cr4 r) x (fpu r) (ticks r) (rsp r) (callee r) (cr2 r).
Definition set_fpu (x : Z) (r : cpu_state) : cpu_state :=
  mk_cpu (if_flag r) (sync_depth r) (sync_was_enabled r) (cr0 r) (cr3 r) (cr4 r) (msrs r) x (ticks r) (rsp r) (callee r) (cr2 r).
Definition set_ticks (x : Z) (r : cpu_state) : cpu_state :=
  mk_cpu (if_flag r) (sync_depth r) (sync_was_enabled r) (cr0 r) (cr3 r) (cr4 r) (msrs r) (fpu r) x (rsp r) (callee r) (cr2 r).
Definition set_rsp (x : Z) (r : cpu_state) : cpu_state :=
  mk_cpu (if_flag r) (sync_depth r) (sync_was_enabled r) (cr0 r) (cr3 r) (cr4 r) (msrs r) (fpu r) (ticks r) x (callee r) (cr2 r).
Definition set_callee (x : list Z) (r : cpu_state) : cpu_state :=
  mk_cpu (if_flag r) (sync_depth r) (sync_was_enabled r) (cr0 r) (cr3 r) (cr4 r) (msrs r) (fpu r) (ticks r) (rsp r) x (cr2 r).
Definition set_cr2 (x : Z) (r : cpu_state) : cpu_state :=
  mk_cpu (if_flag r) (sync_depth r) (sync_was_enabled r) (cr0 r) (cr3 r) (cr4 r) (msrs r) (fpu r) (ticks r) (rsp r) (callee r) x.

Definition set_pmm_latch (x : bool) (r : locks) : locks :=
  mk_locks x (vmm_latch r) (heap_latch r) (ac97_latch r).
Definition set_vmm_latch (x : bool) (r : locks) : locks :=
  mk_locks (pmm_latch r) x (heap_latch r) (ac97_latch r).
Definition set_heap_latch (x : bool) (r : locks) : locks :=
  mk_locks (pmm_latch r) (vmm_latch r) x (ac97_latch r).
Definition set_ac97_latch (x : bool) (r : locks) : locks :=
  mk_locks (pmm_latch r) (vmm_latch r) (heap_latch r) x.

Definition set_bitmap (x : gmap Z Z) (r : pmm_state) : pmm_state :=
  mk_pmm x (highest_page r) (used_pages r) (free_pages r) (total_ram_pages r).
Definition set_highest_page (x : Z) (r : pmm_state) : pmm_state :=
  mk_pmm (bitmap r) x (used_pages r) (free_pages r) (total_ram_pages r).
Definition set_used_pages (x : Z) (r : pmm_state) : pmm_state :=
  mk_pmm (bitmap r) (highest_page r) x (free_pages r) (total_ram_pages r).
Definition set_free_pages (x : Z) (r : pmm_state) : pmm_state :=
  mk_pmm (bitmap r) (highest_page r) (used_pages r) x (total_ram_pages r).
Definition set_total_ram_pages (x : Z) (r : pmm_state) : pmm_state :=
  mk_pmm (bitmap r) (highest_page r) (used_pages r) (free_pages r) x.

Definition set_kernel_pagemap (x : Z) (r : vmm_state) : vmm_state :=
  mk_vmm x (pagemaps r).
Definition set_pagemaps (x : gmap Z Z) (r : vmm_state) : vmm_state :=
  mk_vmm (kernel_pagemap r) x.

Definition set_heap_start (x : Z) (r : heap_state) : heap_state :=
  mk_heap x (heap_size r) (heap_head r).
Definition set_heap_size (x : Z) (r : heap_state) : heap_state :=
  mk_heap (heap_start r) x (heap_head r).
Definition set_heap_head (x : Z) (r : heap_state) : heap_state :=
  mk_heap (heap_start r) (heap_size r) x.

Definition set_processes (x : gmap Z process) (r : proc_state) : proc_state :=
  mk_proc x (nodes r) (process_head r) (next_pid r) (should_schedule r).
Definition set_nodes (x : gmap Z process_node) (r : proc_state) : proc_state :=
  mk_proc (processes r) x (process_head r) (next_pid r) (should_schedule r).
Definition set_process_head (x : Z) (r : proc_state) : proc_state :=
  mk_proc (processes r) (nodes r) x (next_pid r) (should_schedule r).
Definition set_next_pid (x : Z) (r : proc_state) : proc_state :=
  mk_proc (processes r) (nodes r) (process_head r) x (should_schedule r).
Definition set_should_schedule (x : bool) (r : proc_state) : proc_state :=
  mk_proc (processes r) (nodes r) (process_head r) (next_pid r) x.

Definition set_mountpoints (x : list vfs) (r : vfs_state) : vfs_state :=
  mk_vfs x (open_files r) (files r) (devs r) (initramfs r) (tarfs_files r).
Definition set_open_files (x : gmap Z Z) (r : vfs_state) : vfs_state :=
  mk_vfs (mountpoints r) x (files r) (devs r) (initramfs r) (tarfs_files r).
Definition set_files (x : gmap Z vfs_file) (r : vfs_state) : vfs_state :=
  mk_vfs (mountpoints r) (open_files r) x (devs r) (initramfs r) (tarfs_files r).
Definition set_devs (x : list devfs_dev) (r : vfs_state) : vfs_state :=
  mk_vfs (mountpoints r) (open_files r) (files r) x (initramfs r) (tarfs_files r).
Definition set_initramfs (x : Z) (r : vfs_state) : vfs_state :=
  mk_vfs (mountpoints r) (open_files r) (files r) (devs r) x (tarfs_files r).
Definition set_tarfs_files (x : list tarfs_file) (r : vfs_state) : vfs_state :=
  mk_vfs (mountpoints r) (open_files r) (files r) (devs r) (initramfs r) x.

Definition set_input_buffer (x : gmap Z Z) (r : kbd_state) : kbd_state :=
  mk_kbd x (input_buffer_index r) (shift_pressed r).
Definition set_input_buffer_index (x : Z) (r : kbd_state) : kbd_state :=
  mk_kbd (input_buffer r) x (shift_pressed r).
Definition set_shift_pressed (x : Z) (r : kbd_state) : kbd_state :=
  mk_kbd (input_buffer r) (input_buffer_index r) x.

Definition set_irq_routines (x : gmap Z irq_routine) (r : irq_state) : irq_state :=
  mk_irqs x (irq_description r) (idt_entries r) (isr_callbacks r).
Definition set_irq_description (x : gmap Z string) (r : irq_state) : irq_state :=
  mk_irqs (irq_routines r) x (idt_entries r) (isr_callbacks r).
Definition set_idt_entries (x : gmap Z idt_entry) (r : irq_state) : irq_state :=
  mk_irqs (irq_routines r) (irq_description r) x (isr_callbacks r).
Definition set_isr_callbacks (x : gmap Z isr_routine) (r : irq_state) : irq_state :=
  mk_irqs (irq_routines r) (irq_description r) (idt_entries r) x.

Definition set_gdt_entries (x : gmap Z gdt_entry) (r : gdt_state) : gdt_state :=
  mk_gdts x (gdt_tss r) (gdt_limit r) (idt_limit r).
Definition set_gdt_tss (x : tss_entry) (r : gdt_state) : gdt_state :=
  mk_gdts (gdt_entries r) x (gdt_limit r) (idt_limit r).
Definition set_gdt_limit (x : Z) (r : gdt_state) : gdt_state :=
  mk_gdts (gdt_entries r) (gdt_tss r) x (idt_limit r).
Definition set_idt_limit (x : Z) (r : gdt_state) : gdt_state :=
  mk_gdts (gdt_entries r) (gdt_tss r) (gdt_limit r) x.

Definition set_ac97_initialized (x : bool) (r : ac97_state) : ac97_state :=
  mk_ac97 x (ac97 r) (nabm r) (nam r) (buf_desc r) (phys_buf_desc r) (buffers r) (current_volume r) (ac97_entry r) (temp_buffer r) (temp_buffer_count r).
Definition set_ac97 (x : pci_device) (r : ac97_state) : ac97_state :=
  mk_ac97 (ac97_initialized r) x (nabm r) (nam r) (buf_desc r) (phys_buf_desc r) (buffers r) (current_volume r) (ac97_entry r) (temp_buffer r) (temp_buffer_count r).
Definition set_nabm (x : pci_bar) (r : ac97_state) : ac97_state :=
  mk_ac97 (ac97_initialized r) (ac97 r) x (nam r) (buf_desc r) (phys_buf_desc r) (buffers r) (current_volume r) (ac97_entry r) (temp_buffer r) (temp_buffer_count r).
Definition set_nam (x : pci_bar) (r : ac97_state) : ac97_state :=
  mk_ac97 (ac97_initialized r) (ac97 r) (nabm r) x (buf_desc r) (phys_buf_desc r) (buffers r) (current_volume r) (ac97_entry r) (temp_buffer r) (temp_buffer_count r).
Definition set_buf_desc (x : Z) (r : ac97_state) : ac97_state :=
  mk_ac97 (ac97_initialized r) (ac97 r) (nabm r) (nam r) x (phys_buf_desc r) (buffers r) (current_volume r) (ac97_entry r) (temp_buffer r) (temp_buffer_count r).
Definition set_phys_buf_desc (x : Z) (r : ac97_state) : ac97_state :=
  mk_ac97 (ac97_initialized r) (ac97 r) (nabm r) (nam r) (buf_desc r) x (buffers r) (current_volume r) (ac97_entry r) (temp_buffer r) (temp_buffer_count r).
Definition set_buffers (x : gmap Z audio_buffer) (r : ac97_state) : ac97_state :=
  mk_ac97 (ac97_initialized r) (ac97 r) (nabm r) (nam r) (buf_desc r) (phys_buf_desc r) x (current_volume r) (ac97_entry r) (temp_buffer r) (temp_buffer_count r).
Definition set_current_volume (x : Z) (r : ac97_state) : ac97_state :=
  mk_ac97 (ac97_initialized r) (ac97 r) (nabm r) (nam r) (buf_desc r) (phys_buf_desc r) (buffers r) x (ac97_entry r) (temp_buffer r) (temp_buffer_count r).
Definition set_ac97_entry (x : Z) (r : ac97_state) : ac97_state :=
  mk_ac97 (ac97_initialized r) (ac97 r) (nabm r) (nam r) (buf_desc r) (phys_buf_desc r) (buffers r) (current_volume r) x (temp_buffer r) (temp_buffer_count r).
Definition set_temp_buffer (x : Z) (r : ac97_state) : ac97_state :=
  mk_ac97 (ac97_initialized r) (ac97 r) (nabm r) (nam r) (buf_desc r) (phys_buf_desc r) (buffers r) (current_volume r) (ac97_entry r) x (temp_buffer_count r).
Definition set_temp_buffer_count (x : Z) (r : ac97_state) : ac97_state :=
  mk_ac97 (ac97_initialized r) (ac97 r) (nabm r) (nam r) (buf_desc r) (phys_buf_desc r) (buffers r) (current_volume r) (ac97_entry r) (temp_buffer r) x.

Definition set_fb_addr (x : Z) (r : fb_state) : fb_state :=
  mk_fb x (fb_width r) (fb_height r) (fb_bpp r) (fb_pitch r) (fb_masks r) (ft_ctx r) (term_buffer r).
Definition set_fb_width (x : Z) (r : fb_state) : fb_state :=
  mk_fb (fb_addr r) x (fb_height r) (fb_bpp r) (fb_pitch r) (fb_masks r) (ft_ctx r) (term_buffer r).
Definition set_fb_height (x : Z) (r : fb_state) : fb_state :=
  mk_fb (fb_addr r) (fb_width r) x (fb_bpp r) (fb_pitch r) (fb_masks r) (ft_ctx r) (term_buffer r).
Definition set_fb_bpp (x : Z) (r : fb_state) : fb_state :=
  mk_fb (fb_addr r) (fb_width r) (fb_height r) x (fb_pitch r) (fb_masks r) (ft_ctx r) (term_buffer r).
Definition set_fb_pitch (x : Z) (r : fb_state) : fb_state :=
  mk_fb (fb_addr r) (fb_width r) (fb_height r) (fb_bpp r) x (fb_masks r) (ft_ctx r) (term_buffer r).
Definition set_fb_masks (x : list Z) (r : fb_state) : fb_state :=
  mk_fb (fb_addr r) (fb_width r) (fb_height r) (fb_bpp r) (fb_pitch r) x (ft_ctx r) (term_buffer r).
Definition set_ft_ctx (x : option fb_terminal) (r : fb_state) : fb_state :=
  mk_fb (fb_addr r) (fb_width r) (fb_height r) (fb_bpp r) (fb_pitch r) (fb_masks r) x (term_buffer r).
Definition set_term_buffer (x : list Z) (r : fb_state) : fb_state :=
  mk_fb (fb_addr r) (fb_width r) (fb_height r) (fb_bpp r) (fb_pitch r) (fb_masks r) (ft_ctx r) x.

Definition set_mem (x : mem) (r : kstate) : kstate :=
  mk_kstate x (s_cpu r) (s_io r) (s_dev r) (s_boot r) (s_locks r) (s_pmm r) (s_vmm r) (s_heap r) (s_proc r) (s_vfs r) (s_kbd r) (s_irq r) (s_gdt r) (s_ac97 r) (s_fb r).
Definition set_cpu (x : cpu_state) (r : kstate) : kstate :=
  mk_kstate (s_mem r) x (s_io r) (s_dev r) (s_boot r) (s_locks r) (s_pmm r) (s_vmm r) (s_heap r) (s_proc r) (s_vfs r) (s_kbd r) (s_irq r) (s_gdt r) (s_ac97 r) (s_fb r).
Definition set_io (x : list io_event) (r : kstate) : kstate :=
  mk_kstate (s_mem r) (s_cpu r) x (s_dev r) (s_boot r) (s_locks r) (s_pmm r) (s_vmm r) (s_heap r) (s_proc r) (s_vfs r) (s_kbd r) (s_irq r) (s_gdt r) (s_ac97 r) (s_fb r).
Definition set_dev (x : list io_event -> Z -> Z) (r : kstate) : kstate :=
  mk_kstate (s_mem r) (s_cpu r) (s_io r) x (s_boot r) (s_locks r) (s_pmm r) (s_vmm r) (s_heap r) (s_proc r) (s_vfs r) (s_kbd r) (s_irq r) (s_gdt r) (s_ac97 r) (s_fb r).
Definition set_boot (x : boot_info) (r : kstate) : kstate :=
  mk_kstate (s_mem r) (s_cpu r) (s_io r) (s_dev r) x (s_locks r) (s_pmm r) (s_vmm r) (s_heap r) (s_proc r) (s_vfs r) (s_kbd r) (s_irq r) (s_gdt r) (s_ac97 r) (s_fb r).
Definition set_locks (x : locks) (r : kstate) : kstate :=
  mk_kstate (s_mem r) (s_cpu r) (s_io r) (s_dev r) (s_boot r) x (s_pmm r) (s_vmm r) (s_heap r) (s_proc r) (s_vfs r) (s_kbd r) (s_irq r) (s_gdt r) (s_ac97 r) (s_fb r).
Definition set_pmm (x : pmm_state) (r : kstate) : kstate :=
  mk_kstate (s_mem r) (s_cpu r) (s_io r) (s_dev r) (s_boot r) (s_locks r) x (s_vmm r) (s_heap r) (s_proc r) (s_vfs r) (s_kbd r) (s_irq r) (s_gdt r) (s_ac97 r) (s_fb r).
Definition set_vmm (x : vmm_state) (r : kstate) : kstate :=
  mk_kstate (s_mem r) (s_cpu r) (s_io r) (s_dev r) (s_boot r) (s_locks r) (s_pmm r) x (s_heap r) (s_proc r) (s_vfs r) (s_kbd r) (s_irq r) (s_gdt r) (s_ac97 r) (s_fb r).
Definition set_heap (x : heap_state) (r : kstate) : kstate :=
  mk_kstate (s_mem r) (s_cpu r) (s_io r) (s_dev r) (s_boot r) (s_locks r) (s_pmm r) (s_vmm r) x (s_proc r) (s_vfs r) (s_kbd r) (s_irq r) (s_gdt r) (s_ac97 r) (s_fb r).
Definition set_proc (x : proc_state) (r : kstate) : kstate :=
  mk_kstate (s_mem r) (s_cpu r) (s_io r) (s_dev r) (s_boot r) (s_locks r) (s_pmm r) (s_vmm r) (s_heap r) x (s_vfs r) (s_kbd r) (s_irq r) (s_gdt r) (s_ac97 r) (s_fb r).
Definition set_vfs (x : vfs_state) (r : kstate) : kstate :=
  mk_kstate (s_mem r) (s_cpu r) (s_io r) (s_dev r) (s_boot r) (s_locks r) (s_pmm r) (s_vmm r) (s_heap r) (s_proc r) x (s_kbd r) (s_irq r) (s_gdt r) (s_ac97 r) (s_fb r).
Definition set_kbd (x : kbd_state) (r : kstate) : kstate :=
  mk_kstate (s_mem r) (s_cpu r) (s_io r) (s_dev r) (s_boot r) (s_locks r) (s_pmm r) (s_vmm r) (s_heap r) (s_proc r) (s_vfs r) x (s_irq r) (s_gdt r) (s_ac97 r) (s_fb r).
Definition set_irq (x : irq_state) (r : kstate) : kstate :=
  mk_kstate (s_mem r) (s_cpu r) (s_io r) (s_dev r) (s_boot r) (s_locks r) (s_pmm r) (s_vmm r) (s_heap r) (s_proc r) (s_vfs r) (s_kbd r) x (s_gdt r) (s_ac97 r) (s_fb r).
Definition set_gdt (x : gdt_state) (r : kstate) : kstate :=
  mk_kstate (s_mem r) (s_cpu r) (s_io r) (s_dev r) (s_boot r) (s_locks r) (s_pmm r) (s_vmm r) (s_heap r) (s_proc r) (s_vfs r) (s_kbd r) (s_irq r) x (s_ac97 r) (s_fb r).
Definition set_s_ac97 (x : ac97_state) (r : kstate) : kstate :=
  mk_kstate (s_mem r) (s_cpu r) (s_io r) (s_dev r) (s_boot r) (s_locks r) (s_pmm r) (s_vmm r) (s_heap r) (s_proc r) (s_vfs r) (s_kbd r) (s_irq r) (s_gdt r) x (s_fb r).
Definition set_fb (x : fb_state) (r : kstate) : kstate :=
  mk_kstate (s_mem r) (s_cpu r) (s_io r) (s_dev r) (s_boot r) (s_locks r) (s_pmm r) (s_vmm r) (s_heap r) (s_proc r) (s_vfs r) (s_kbd r) (s_irq r) (s_gdt r) (s_ac97 r) x.

(** Updates of one component of the state. *)
Definition on_mem (f : mem -> mem) (s : kstate) : kstate := set_mem (f (s_mem s)) s.
Definition on_cpu (f : cpu_state -> cpu_state) (s : kstate) : kstate := set_cpu (f (s_cpu s)) s.
Definition on_locks (f : locks -> locks) (s : kstate) : kstate := set_locks (f (s_locks s)) s.
Definition on_pmm (f : pmm_state -> pmm_state) (s : kstate) : kstate := set_pmm (f (s_pmm s)) s.
Definition on_vmm (f : vmm_state -> vmm_state) (s : kstate) : kstate := set_vmm (f (s_vmm s)) s.
Definition on_heap (f : heap_state -> heap_state) (s : kstate) : kstate := set_heap (f (s_heap s)) s.
Definition on_proc (f : proc_state -> proc_state) (s : kstate) : kstate := set_proc (f (s_proc s)) s.
Definition on_vfs (f : vfs_state -> vfs_state) (s : kstate) : kstate := set_vfs (f (s_vfs s)) s.
Definition on_kbd (f : kbd_state -> kbd_state) (s : kstate) : kstate := set_kbd (f (s_kbd s)) s.
Definition on_irq (f : irq_state -> irq_state) (s : kstate) : kstate := set_irq (f (s_irq s)) s.
Definition on_gdt (f : gdt_state -> gdt_state) (s : kstate) : kstate := set_gdt (f (s_gdt s)) s.
Definition on_ac97 (f : ac97_state -> ac97_state) (s : kstate) : kstate := set_s_ac97 (f (s_ac97 s)) s.
Definition on_fb (f : fb_state -> fb_state) (s : kstate) : kstate := set_fb (f (s_fb s)) s.

(** The kernel at the entry of [kmain]: zeroed static data, interrupts as the
    boot loader left them. *)
Definition entry_state (b : boot_info) (dev : list io_event -> Z -> Z) (iflag : bool) : kstate :=
  mk_kstate ∅ (mk_cpu iflag 0 false 0 0 0 ∅ 0 0 0 [0; 0; 0; 0; 0; 0] 0) [] dev b
    (mk_locks false false false false) (mk_pmm ∅ 0 0 0 0) (mk_vmm 0 ∅) (mk_heap 0 0 0)
    (mk_proc ∅ ∅ 0 0 false)
    (mk_vfs (replicate 16 (mk_mnt None None)) ∅ ∅ [] 0 []) (mk_kbd ∅ 0 0)
    (mk_irqs ∅ ∅ ∅ ∅) (mk_gdts ∅ (mk_tss 0 0 0) 0 0)
    (mk_ac97 false (mk_pci 0 0 0 0 0 0) (mk_bar 0 0 0) (mk_bar 0 0 0) 0 0 ∅ 100 0
       (sym_temp_buffer (symbols b)) 0)
    (mk_fb 0 0 0 0 0 [] None []).

(** ** The monad *)

Inductive lock_id : Type := pmm_lock | vmm_lock | heap_lock | ac97_lock.

Inductive outcome (A : Type) : Type :=
| Ok (a : A) (s : kstate)
| Panic (msg : string) (s : kstate)   (** [panic(msg)] was called *)
| Spin (l : lock_id) (s : kstate)     (** waits for a latch that stays set *)
| Fault (s : kstate)                  (** dereferences a pointer to no object, or is undefined otherwise *)
| Diverge.                            (** a loop that does not end *)

Arguments Ok {A} _ _.
Arguments Panic {A} _ _.
Arguments Spin {A} _ _.
Arguments Fault {A} _.
Arguments Diverge {A}.

Definition M (A : Type) : Type := kstate -> outcome A.

Definition ret {A} (a : A) : M A := fun s => Ok a s.

Definition bind {A B} (m : M A) (k : A -> M B) : M B := fun s =>
  match m s with
  | Ok a s' => k a s'
  | Panic msg s' => Panic msg s'
  | Spin l s' => Spin l s'
  | Fault s' => Fault s'
  | Diverge => Diverge
  end.

Definition gets {A} (f : kstate -> A) : M A := fun s => Ok (f s) s.
Definition modify (f : kstate -> kstate) : M unit := fun s => Ok tt (f s).
Definition panic {A} (msg : string) : M A := fun s => Panic msg s.
Definition fault {A} : M A := fun s => Fault s.
Definition diverge {A} : M A := fun _ => Diverge.

Declare Scope k_scope.
Delimit Scope k_scope with K.
Notation "x <- m ;; k" := (bind m (fun x => k))
  (at level 100, m at next level, right associativity) : k_scope.
Notation "m1 ;;; m2" := (bind m1 (fun _ => m2)) (at level 100, right associativity) : k_scope.
#[global] Open Scope k_scope.

(** [if (b) stmt;] *)
Definition when (b : bool) (m : M unit) : M unit := if b then m else ret tt.

(** [ASSERT(cond)] and [UNREACHABLE()] (types.h). *)
Definition ASSERT (b : bool) : M unit := if b then ret tt else panic "Assertion failure".
Definition UNREACHABLE {A} : M A := panic "Assertion failure".

(** [for (i = i0; i < i0 + n; ++i) body(i)] *)
Fixpoint for_loop (n : nat) (i : Z) (body : Z -> M unit) : M unit :=
  match n with
  | O => ret tt
  | S n => body i;;; for_loop n (i + 1) body
  end.

(** Loads and stores through a pointer into [s_mem]. *)
Definition read64 (a : Z) : M Z := gets (fun s => load64 (s_mem s) a).
Definition write64 (a v : Z) : M unit := modify (on_mem (fun m => store64 m a v)).

(** ** Spin locks (spinlock.h)

    One processor runs the kernel: a latch found set by the running code is
    never released while it spins with interrupts as they are, so the wait is
    the outcome [Spin].  The [func] field only feeds a diagnostic. *)

Definition latch (l : lock_id) (k : locks) : bool :=
  match l with
  | pmm_lock => pmm_latch k | vmm_lock => vmm_latch k
  | heap_lock => heap_latch k | ac97_lock => ac97_latch k
  end.

Definition set_latch (l : lock_id) (b : bool) (k : locks) : locks :=
  match l with
  | pmm_lock => set_pmm_latch b k | vmm_lock => set_vmm_latch b k
  | heap_lock => set_heap_latch b k | ac97_lock => set_ac97_latch b k
  end.

Definition spin_lock (l : lock_id) : M unit := fun s =>
  if latch l (s_locks s) then Spin l s else Ok tt (on_locks (set_latch l true) s).

Definition spin_unlock (l : lock_id) : M unit := modify (on_locks (set_latch l false)).

(** ** Weakest preconditions

    [wp m s Q E]: from [s], [m] returns with [Q] or panics with [E]; it never
    spins, faults or diverges. *)

Definition wp {A} (m : M A) (s : kstate)
    (Q : A -> kstate -> Prop) (E : string -> kstate -> Prop) : Prop :=
  match m s with
  | Ok a s' => Q a s'
  | Panic msg s' => E msg s'
  | _ => False
  end.

Definition no_panic : string -> kstate -> Prop := fun _ _ => False.

Section wp_rules.
Context {A B : Type}.
Implicit Types (m : M A) (k : A -> M B) (Q : A -> kstate -> Prop).

Lemma wp_ret (a : A) s Q E : Q a s -> wp (ret a) s Q E.
Proof. done. Qed.

Lemma wp_bind m k s (Q : B -> kstate -> Prop) E :
  wp m s (fun a s' => wp (k a) s' Q E) E -> wp (bind m k) s Q E.
Proof. unfold wp, bind. destruct (m s); done. Qed.

Lemma wp_mono m s Q Q' (E E' : string -> kstate -> Prop) :
  wp m s Q E -> (forall a s', Q a s' -> Q' a s') ->
  (forall msg s', E msg s' -> E' msg s') -> wp m s Q' E'.
Proof. unfold wp. intros H HQ HE. destruct (m s); auto. Qed.

(** The cut rule: a callee's specification, then the rest of the body. *)
Lemma wp_call m k s Q (Q' : B -> kstate -> Prop) E :
  wp m s Q E -> (forall a s', Q a s' -> wp (k a) s' Q' E) -> wp (bind m k) s Q' E.
Proof. intros H HQ. apply wp_bind. eapply wp_mono; eauto. Qed.

Lemma wp_ok m s a s' Q E : m s = Ok a s' -> Q a s' -> wp m s Q E.
Proof. unfold wp. intros ->. done. Qed.

(** Two specifications of the same call. *)
Lemma wp_and m s Q Q' (E E' : string -> kstate -> Prop) :
  wp m s Q E -> wp m s Q' E' -> wp m s (fun a s' => Q a s' /\ Q' a s') E.
Proof. unfold wp. destruct (m s); auto. Qed.

Lemma wp_no_panic m s Q : wp m s Q no_panic -> exists a s', m s = Ok a s' /\ Q a s'.
Proof. unfold wp, no_panic. destruct (m s); try done. eauto. Qed.

Lemma bind_ok m k s a s' : m s = Ok a s' -> bind m k s = k a s'.
Proof. unfold bind. intros ->. done. Qed.
End wp_rules.

Lemma wp_assoc {A B C} (m : M A) (f : A -> M B) (g : B -> M C) s Q E :
  wp (bind (bind m f) g) s Q E -> wp (bind m (fun a => bind (f a) g)) s Q E.
Proof. unfold wp, bind. by destruct (m s). Qed.

Lemma wp_gets {A} (f : kstate -> A) s Q E : Q (f s) s -> wp (gets f) s Q E.
Proof. done. Qed.

Lemma wp_modify f s (Q : unit -> kstate -> Prop) E : Q tt (f s) -> wp (modify f) s Q E.
Proof. done. Qed.

Lemma wp_panic {A} msg s (Q : A -> kstate -> Prop) (E : string -> kstate -> Prop) :
  E msg s -> wp (panic msg) s Q E.
Proof. done. Qed.

Lemma wp_ASSERT b s (Q : unit -> kstate -> Prop) E : b = true -> Q tt s -> wp (ASSERT b) s Q E.
Proof. intros ->. done. Qed.

Lemma wp_when b m s (Q : unit -> kstate -> Prop) E :
  (b = true -> wp m s Q E) -> (b = false -> Q tt s) -> wp (when b m) s Q E.
Proof. intros H1 H2. destruct b; [by apply H1|by apply wp_ret, H2]. Qed.

Lemma wp_spin_lock l s (Q : unit -> kstate -> Prop) E :
  latch l (s_locks s) = false -> Q tt (on_locks (set_latch l true) s) ->
  wp (spin_lock l) s Q E.
Proof. unfold wp, spin_lock. intros ->. done. Qed.

Lemma wp_spin_unlock l s (Q : unit -> kstate -> Prop) E :
  Q tt (on_locks (set_latch l false) s) -> wp (spin_unlock l) s Q E.
Proof. done. Qed.

(** Loop rule with an invariant indexed by the loop counter. *)
Lemma wp_for_loop (I : Z -> kstate -> Prop) n i body s E :
  I i s ->
  (forall j s', i <= j < i + Z.of_nat n -> I j s' ->
    wp (body j) s' (fun _ s'' => I (j + 1) s'') E) ->
  wp (for_loop n i body) s (fun _ s' => I (i + Z.of_nat n) s') E.
Proof.
  revert i s. induction n as [|n IH]; intros i s HI Hb; cbn [for_loop].
  - apply wp_ret. by rewrite Z.add_0_r.
  - eapply wp_call; [apply Hb; [lia|done]|].
    intros [] s' HI'. replace (i + Z.of_nat (S n)) with (i + 1 + Z.of_nat n) by lia.
    apply IH; [done|]. intros j s'' Hj. apply Hb. lia.
Qed.

(** ** Results of concrete runs *)

Definition after {A} (m : M A) (s : kstate) : kstate := match m s with Ok _ s' => s' | _ => s end.
Definition result {A} (m : M A) (s : kstate) : option A := match m s with Ok a _ => Some a | _ => None end.

Lemma result_after {A} (m : M A) s a : result m s = Some a -> m s = Ok a (after m s).
Proof. unfold result, after. destruct (m s); congruence. Qed.

Lemma wp_result {A} (m : M A) s a Q E : result m s = Some a -> wp m s Q E -> m s = Ok a (after m s) /\ Q a (after m s).
Proof. unfold result, after, wp. destruct (m s); [intros [= <-]|done..]. by split. Qed.

(** ** Facts about the state *)

Lemma kstate_ext s s' :
  s_mem s = s_mem s' -> s_cpu s = s_cpu s' -> s_io s = s_io s' -> s_dev s = s_dev s' ->
  s_boot s = s_boot s' -> s_locks s = s_locks s' -> s_pmm s = s_pmm s' ->
  s_vmm s = s_vmm s' -> s_heap s = s_heap s' -> s_proc s = s_proc s' ->
  s_vfs s = s_vfs s' -> s_kbd s = s_kbd s' -> s_irq s = s_irq s' ->
  s_gdt s = s_gdt s' -> s_ac97 s = s_ac97 s' -> s_fb s = s_fb s' -> s = s'.
Proof. destruct s, s'; cbn. intros; subst. done. Qed.

Lemma latch_set_eq l b k : latch l (set_latch l b k) = b.
Proof. by destruct l. Qed.

Lemma latch_set_ne l l' b k : l <> l' -> latch l (set_latch l' b k) = latch l k.
Proof. by destruct l, l'. Qed.

Lemma set_latch_back l b k : latch l k = b -> set_latch l b (set_latch l (negb b) k) = k.
Proof. destruct l, k; simpl; intros <-; done. Qed.

Lemma set_latch_relock l k : latch l k = false -> set_latch l false (set_latch l true k) = k.
Proof. apply (set_latch_back l false). Qed.
