(* ===== verification/Cpu.v ===== *)
(** * Interrupt masking, ports and model specific registers

    [int_disable], [int_resume] and [int_enable] of kernel/arch/x86_64/irq.c
    (the macros IRQ_OFF, IRQ_RES and IRQ_ON), the port accesses of cpu/io.h,
    [rdmsr] and [wrmsr] of msr.c, and the theorem that well-bracketed critical
    sections restore the interrupt flag. *)

From S2P Require Import Prelude Memory State.

(** ** Definitions *)

(** [void int_disable(void)]: [pushfq; popq flags; cli], then the counter. *)
Definition cpu_int_disable (c : cpu_state) : cpu_state :=
  let was := if_flag c in
  let c := set_if_flag false c in
  let c := if sync_depth c =? 0 then set_sync_was_enabled was c else c in
  set_sync_depth (i32 (sync_depth c + 1)) c.

(** [void int_resume(void)] *)
Definition cpu_int_resume (c : cpu_state) : cpu_state :=
  if sync_depth c =? 0 then c else
  let c := set_sync_depth (i32 (sync_depth c - 1)) c in
  if (sync_depth c =? 0) && sync_was_enabled c then set_if_flag true c else c.

(** [void int_enable(void)] *)
Definition cpu_int_enable (c : cpu_state) : cpu_state :=
  set_if_flag true (set_sync_was_enabled true (set_sync_depth 0 c)).

Definition int_disable : M unit := modify (on_cpu cpu_int_disable).
Definition int_resume : M unit := modify (on_cpu cpu_int_resume).
Definition int_enable : M unit := modify (on_cpu cpu_int_enable).

(** Ports: a read is answered by the devices according to what was done to
    them so far; every access is recorded. *)
Definition port_in (width : Z) (port : Z) : M Z := fun s =>
  Ok (s_dev s (s_io s) port mod 2 ^ width) (set_io (IoIn width port :: s_io s) s).

Definition port_out (width : Z) (port value : Z) : M unit :=
  modify (fun s => set_io (IoOut width port (value mod 2 ^ width) :: s_io s) s).

Definition inb (port : Z) : M Z := port_in 8 (u16 port).
Definition outb (port data : Z) : M unit := port_out 8 (u16 port) data.
Definition outb_p (port data : Z) : M unit := port_out 8 (u16 port) data.
Definition outb_w (port data : Z) : M unit := port_out 16 (u16 port) data.
Definition inb_l (port : Z) : M Z := port_in 32 (u16 port).
Definition outb_l (port data : Z) : M unit := port_out 32 (u16 port) data.

(** [rdmsr] and [wrmsr]: the value crosses as two 32-bit halves. *)
Definition rdmsr (msr : Z) : M Z :=
  v <- gets (fun s => default 0 (msrs (s_cpu s) !! u32 msr));;
  let low := u32 v in
  let high := u32 (Z.shiftr v 32) in
  ret (Z.lor (u64 (Z.shiftl high 32)) low).

Definition wrmsr (msr value : Z) : M unit :=
  let low := u32 (Z.land value 0xFFFFFFFF) in
  let high := u32 (Z.shiftr value 32) in
  modify (on_cpu (fun c =>
    set_msrs (<[u32 msr := Z.lor (Z.shiftl high 32) low]> (msrs c)) c)).

(** [swapgs]: the processor exchanges the base of the GS segment with the one
    kept aside for the kernel. *)
Definition MSR_USER_GS_BASE : Z := 0xC0000101.
Definition MSR_KERNEL_GS_BASE : Z := 0xC0000102.

Definition swapgs : M unit :=
  modify (on_cpu (fun c =>
    set_msrs (<[MSR_USER_GS_BASE := default 0 (msrs c !! MSR_KERNEL_GS_BASE)]>
             (<[MSR_KERNEL_GS_BASE := default 0 (msrs c !! MSR_USER_GS_BASE)]> (msrs c))) c)).

(** Critical sections as sequences of masking operations. *)
Inductive sync_op : Type := Op_disable | Op_resume.

Definition sync_step (c : cpu_state) (o : sync_op) : cpu_state :=
  match o with Op_disable => cpu_int_disable c | Op_resume => cpu_int_resume c end.

Definition sync_run (l : list sync_op) (c : cpu_state) : cpu_state := fold_left sync_step l c.

(** Well-bracketed sequences of IRQ_OFF and IRQ_RES. *)
Inductive bracketed : list sync_op -> Prop :=
| br_nil : bracketed []
| br_seq l1 l2 : bracketed l1 -> bracketed l2 -> bracketed (l1 ++ l2)
| br_section l : bracketed l -> bracketed (Op_disable :: l ++ [Op_resume]).

(** The state the masking functions maintain: inside a section the flag is
    clear, and the counter is in range. *)
Definition cpu_ok (c : cpu_state) : Prop :=
  0 <= sync_depth c < 2 ^ 31 - 1 /\ (0 < sync_depth c -> if_flag c = false).

(** What an empty critical section leaves behind. *)
Definition irq_section (c : cpu_state) : cpu_state :=
  if sync_depth c =? 0 then set_sync_was_enabled (if_flag c) c else c.

(** ** Lemmas *)

Lemma cpu_disable_resume c : cpu_ok c -> cpu_int_resume (cpu_int_disable c) = irq_section c.
Proof.
  intros [Hd Hf]. unfold cpu_int_disable, cpu_int_resume, irq_section.
  destruct c as [fl d was r0 r3 r4 ms fp tk]; cbn in *.
  destruct (Z.eqb_spec d 0) as [->|Hne]; cbn; [by destruct fl|].
  rewrite (i32_small (d + 1)) by lia.
  destruct (Z.eqb_spec (d + 1) 0); [lia|]. cbn.
  rewrite i32_small by lia. replace (d + 1 - 1) with d by lia.
  destruct (Z.eqb_spec d 0); [lia|]. cbn. unfold set_sync_depth; cbn.
  rewrite Hf by lia. done.
Qed.

Lemma irq_section_idemp c : irq_section (irq_section c) = irq_section c.
Proof. unfold irq_section. destruct (sync_depth c =? 0) eqn:E; cbn; by rewrite E. Qed.

Lemma irq_section_ok c : cpu_ok c -> cpu_ok (irq_section c).
Proof. unfold irq_section. destruct (sync_depth c =? 0); done. Qed.

Lemma irq_section_fields c :
  if_flag (irq_section c) = if_flag c /\ sync_depth (irq_section c) = sync_depth c /\
  cr3 (irq_section c) = cr3 c /\ ticks (irq_section c) = ticks c.
Proof. unfold irq_section. destruct (sync_depth c =? 0); done. Qed.

Lemma cpu_int_disable_off c : if_flag (cpu_int_disable c) = false.
Proof. unfold cpu_int_disable. destruct (sync_depth _ =? 0); done. Qed.

Lemma cpu_int_disable_depth c :
  0 <= sync_depth c < 2 ^ 31 - 1 -> sync_depth (cpu_int_disable c) = sync_depth c + 1.
Proof.
  intros Hd. unfold cpu_int_disable.
  destruct (sync_depth (set_if_flag false c) =? 0); cbn; apply i32_small; lia.
Qed.

Lemma msr_join v : in_u64 v ->
  Z.lor (Z.shiftl (u32 (Z.shiftr v 32)) 32) (u32 (Z.land v 0xFFFFFFFF)) = v.
Proof.
  intros Hv. unfold in_u64 in Hv. unfold u32. rewrite lor_shiftl by (lia || apply Z.mod_pos_bound; lia).
  change 0xFFFFFFFF with (Z.ones 32). rewrite Z.land_ones, Z.shiftr_div_pow2 by lia. zlia.
Qed.

Lemma wrmsr_run r v s : in_u64 v -> wrmsr r v s = Ok tt (on_cpu (fun c => set_msrs (<[u32 r := v]> (msrs c)) c) s).
Proof. intros Hv. unfold wrmsr, modify. by rewrite msr_join. Qed.

Lemma rdmsr_run r s v : in_u64 v -> default 0 (msrs (s_cpu s) !! u32 r) = v -> rdmsr r s = Ok v s.
Proof.
  intros Hv E. unfold rdmsr, bind, gets, ret. rewrite E. f_equal. unfold in_u64 in Hv.
  rewrite <- (msr_join v) at 3 by done. f_equal.
  - unfold u64. rewrite Z.mod_small; [done|]. rewrite Z.shiftl_mul_pow2 by lia. unfold u32. zlia.
  - unfold u32. change 0xFFFFFFFF with (Z.ones 32). rewrite Z.land_ones by lia. zlia.
Qed.

(** Inside a section, [sync_was_enabled] is the flag as it was outside. *)
Definition remembers (c0 c : cpu_state) : Prop :=
  sync_depth c = sync_depth c0 /\ if_flag c = if_flag c0 /\
  (0 < sync_depth c0 -> sync_was_enabled c = sync_was_enabled c0).

Lemma sync_run_app l1 l2 c : sync_run (l1 ++ l2) c = sync_run l2 (sync_run l1 c).
Proof. apply fold_left_app. Qed.

Lemma remembers_trans c1 c2 c3 : remembers c1 c2 -> remembers c2 c3 -> remembers c1 c3.
Proof.
  intros (? & ? & H1) (? & ? & H2). split_and!; [congruence..|].
  intros. rewrite H2, H1 by lia. done.
Qed.

Lemma remembers_ok c c' : remembers c c' -> cpu_ok c -> cpu_ok c'.
Proof. intros (Hd & Hf & _) [H1 H2]. split; [lia|]. intros. rewrite Hf. apply H2. lia. Qed.

(** Leaving a section that was entered in [c0]. *)
Lemma resume_remembers c0 c :
  cpu_ok c0 -> remembers (cpu_int_disable c0) c -> remembers c0 (cpu_int_resume c).
Proof.
  intros [Hd Hf] (H1 & H2 & H3). rewrite cpu_int_disable_depth in H1, H3 by done.
  rewrite cpu_int_disable_off in H2. specialize (H3 ltac:(lia)).
  unfold cpu_int_resume. destruct (Z.eqb_spec (sync_depth c) 0); [lia|]. cbn.
  rewrite H1, i32_small by lia. replace (sync_depth c0 + 1 - 1) with (sync_depth c0) by lia.
  rewrite H3. unfold remembers, cpu_int_disable.
  destruct (Z.eqb_spec (sync_depth (set_if_flag false c0)) 0) as [E|E]; cbn in E |- *.
  - rewrite E, Z.eqb_refl. cbn. destruct (if_flag c0) eqn:F; cbn; rewrite ?H2; repeat split; lia.
  - destruct (Z.eqb_spec (sync_depth c0) 0); [lia|]. cbn.
    rewrite H2, H3, Hf by lia. split_and!; [done|done|].
    intros _. unfold cpu_int_disable. cbn.
    destruct (Z.eqb_spec (sync_depth c0) 0); [lia|done].
Qed.

Lemma bracketed_remembers l c :
  bracketed l -> cpu_ok c -> sync_depth c + Z.of_nat (length l) < 2 ^ 31 - 1 ->
  remembers c (sync_run l c).
Proof.
  intros Hb. revert c. induction Hb as [|l1 l2 H1 IH1 H2 IH2|l Hb IH]; intros c Hok Hlen.
  - done.
  - rewrite length_app in Hlen. rewrite sync_run_app.
    pose proof (IH1 c Hok ltac:(lia)) as R1.
    eapply remembers_trans; [exact R1|]. apply IH2; [by eapply remembers_ok|].
    destruct R1 as (-> & _). lia.
  - cbn [sync_run fold_left] in *. cbn [length] in Hlen. rewrite length_app in Hlen.
    cbn [length] in Hlen.
    change (remembers c (sync_run (l ++ [Op_resume]) (cpu_int_disable c))).
    rewrite sync_run_app. apply resume_remembers; [done|].
    destruct Hok as [Hd Hf].
    apply IH; [split|]; rewrite ?cpu_int_disable_depth, ?cpu_int_disable_off by done;
      done || lia.
Qed.

(** ** Properties *)

(** However critical sections are nested and sequenced, a
    well-bracketed run of IRQ_OFF and IRQ_RES ends with the interrupt flag and
    the nesting counter it started with. *)
Theorem bracketed_sections_restore (l : list sync_op) (c : cpu_state) :
  bracketed l -> cpu_ok c -> sync_depth c + Z.of_nat (length l) < 2 ^ 31 - 1 ->
  if_flag (sync_run l c) = if_flag c /\ sync_depth (sync_run l c) = sync_depth c.
Proof.
  intros Hb Hok Hlen. by destruct (bracketed_remembers l c Hb Hok Hlen) as (-> & -> & _).
Qed.

Lemma bracketed_sections_restore_witness :
  let c := mk_cpu true 0 false 0 0 0 ∅ 0 0 0 [0; 0; 0; 0; 0; 0] 0 in
  let l := [Op_disable; Op_disable; Op_resume; Op_resume] in
  if_flag (sync_run l c) = true /\ sync_depth (sync_run l c) = 0.
Proof.
  apply (bracketed_sections_restore [Op_disable; Op_disable; Op_resume; Op_resume]).
  - apply (br_section [Op_disable; Op_resume]), (br_section []), br_nil.
  - split; cbn; [lia|done].
  - cbn; lia.
Defined.
