(* ===== verification/Arch.v ===== *)
(** * Descriptor tables, the interrupt controller and processor features

    kernel/arch/x86_64: gdt.c, idt.c, isr.c, features.c and the half of irq.c
    that does not dispatch.  The entry stubs of the assembly files are the
    addresses of [link_symbols]; the answer of the [cpuid] instruction is an
    argument. *)

From S2P Require Import Prelude Memory State Cpu.

(** ** The interrupt frame (cpu/regs.h) *)

Record regs : Type := mk_regs {
  r_rflags : Z; r_r15 : Z; r_r14 : Z; r_r13 : Z; r_r12 : Z; r_r11 : Z; r_r10 : Z; r_r9 : Z; r_r8 : Z;
  r_rbp : Z; r_rdi : Z; r_rsi : Z; r_rdx : Z; r_rcx : Z; r_rbx : Z; r_rax : Z;
  int_no : Z; err_code : Z; r_rip : Z; r_cs : Z; r_rsp : Z; r_ss : Z
}.

(** ** The interrupt descriptor table (idt.c) *)

(** A gate that was never written is all zero. *)
Definition idt_zero : idt_entry := mk_idt_entry 0 0 0 0 0 0 0.

Definition idt_set_gate (num base segment flags : Z) : M unit :=
  let addr := u64 base in
  let e := mk_idt_entry (Z.land addr 0xFFFF) (u16 segment) 0 (u8 flags)
             (Z.land (Z.shiftr addr 16) 0xFFFF) (Z.land (Z.shiftr addr 32) 0xFFFFFFFF) 0 in
  modify (on_irq (fun q => set_idt_entries (<[u8 num := e]> (idt_entries q)) q)).

Definition idt_install : M unit :=
  modify (on_irq (set_idt_entries ∅));;;
  modify (on_gdt (set_idt_limit (16 * 256 - 1))).

(** The address the processor jumps to through a gate. *)
Definition gate_target (s : kstate) (n : Z) : Z :=
  let e := default idt_zero (idt_entries (s_irq s) !! n) in
  base_low e + Z.shiftl (base_middle e) 16 + Z.shiftl (base_high e) 32.

(** ** Exceptions (isr.c) *)

(** [isr_callbacks[256]]: an index past the end is not an element. *)
Definition isr_install_handler (isr : Z) (callback : isr_routine) : M unit :=
  if 256 <=? isr then fault else
  modify (on_irq (fun q => set_isr_callbacks (<[isr := callback]> (isr_callbacks q)) q)).

Definition isr_uninstall_handler (isr : Z) : M unit :=
  if 256 <=? isr then fault else
  modify (on_irq (fun q => set_isr_callbacks (delete isr (isr_callbacks q)) q)).

(** [isrs[i]] after the [ISR_SET] lines: index and stub; the last element of
    the array was never set. *)
Definition isrs (b : boot_info) (i : Z) : Z * Z :=
  if (0 <=? i) && (i <? 32) then (i, sym_isr (symbols b) i) else (0, 0).

Definition isr_install : M unit :=
  b <- gets s_boot;;
  idt_set_gate 6 (sym_isr (symbols b) 6) 0x08 0x8E;;;
  isr_install_handler 6 Irq_invalid_opcode;;;
  idt_set_gate 13 (sym_isr (symbols b) 13) 0x08 0x8E;;;
  isr_install_handler 13 Gpf_fault_handler;;;
  idt_set_gate 14 (sym_isr (symbols b) 14) 0x08 0x8E;;;
  for_loop 33 0 (fun i => idt_set_gate (isrs b i).1 (isrs b i).2 0x08 0x8E).

(** ** The interrupt controller (irq.c) *)

Definition PIC1_COMMAND : Z := 0x20.
Definition PIC1_DATA : Z := 0x21.
Definition PIC2_COMMAND : Z := 0xA0.
Definition PIC2_DATA : Z := 0xA1.
Definition PIC1_OFFSET : Z := 0x20.
Definition PIC2_OFFSET : Z := 0x28.
Definition PIC_EOI : Z := 0x20.
Definition IRQ_CHAIN_SIZE : Z := 16.
Definition IRQ_CHAIN_DEPTH : Z := 4.

Definition pit_handler : M Z :=
  modify (on_cpu (fun c => set_ticks (u64 (ticks c + 1)) c));;;
  ret 0.

Definition irq_get_handler (irq chain : Z) : M (option string) :=
  if IRQ_CHAIN_SIZE <=? irq then ret None else
  if IRQ_CHAIN_DEPTH <=? chain then ret None else
  gets (fun s => irq_description (s_irq s) !! (IRQ_CHAIN_SIZE * chain + irq)).

(** The loop of [irq_install_handler] from chain level [i] on: the first free
    level takes the handler, a full chain drops it. *)
Fixpoint install_chain (levels : nat) (i irq : Z) (handler : irq_routine) (description : string) : M unit :=
  match levels with
  | O => ret tt
  | S levels =>
    let k := i * IRQ_CHAIN_SIZE + irq in
    if negb ((0 <=? k) && (k <? IRQ_CHAIN_SIZE * IRQ_CHAIN_DEPTH)) then fault else
    q <- gets s_irq;;
    match irq_routines q !! k with
    | Some _ => install_chain levels (i + 1) irq handler description
    | None =>
      modify (on_irq (fun q => set_irq_description (<[k := description]> (irq_description q))
                                 (set_irq_routines (<[k := handler]> (irq_routines q)) q)))
    end
  end.

Definition irq_install_handler (irq : Z) (handler : irq_routine) (description : string) : M unit :=
  install_chain 4 0 irq handler description.

Definition irq_remap : M unit :=
  outb_p PIC1_COMMAND (Z.lor 0x10 0x01);;;
  outb_p PIC2_COMMAND (Z.lor 0x10 0x01);;;
  outb_p PIC1_DATA PIC1_OFFSET;;;
  outb_p PIC2_DATA PIC2_OFFSET;;;
  outb_p PIC1_DATA 0x04;;;
  outb_p PIC2_DATA 0x02;;;
  outb_p PIC1_DATA 0x01;;;
  outb_p PIC2_DATA 0x01.

Definition irq_setup_gates : M unit :=
  b <- gets s_boot;;
  for_loop 16 0 (fun i => idt_set_gate (32 + i) (sym_irq (symbols b) i) 0x08 0x8E).

Definition irq_install : M unit :=
  irq_remap;;;
  irq_setup_gates;;;
  int_disable;;;
  let divisor := u16 ((1193182 + 1000 / 2) / 1000) in
  outb_p 0x43 0x36;;;
  outb_p 0x40 (Z.land divisor 0xFF);;;
  outb_p 0x40 (Z.shiftr divisor 8);;;
  int_enable;;;
  irq_install_handler 0 Pit_handler "pit counter";;;
  irq_install_handler 0 Process_schedule "process scheduling".

Definition irq_ack (irq_no : Z) : M unit :=
  when (8 <=? irq_no) (outb PIC2_COMMAND PIC_EOI);;;
  outb PIC1_COMMAND PIC_EOI.

(** ** Segments and the task state segment (gdt.c) *)

Definition gdt_zero : gdt_entry := mk_gdt_entry 0 0 0 0 0 0 0.

(** [ENTRY(idx) = e]; the array has nine elements. *)
Definition gdt_put (idx : Z) (e : gdt_entry) : M unit :=
  if 9 <=? idx then fault else
  modify (on_gdt (fun g => set_gdt_entries (<[idx := e]> (gdt_entries g)) g)).

Definition gdt_set_gate (idx base limit access granularity : Z) : M unit :=
  gdt_put (u8 idx) (mk_gdt_entry 0 0 0 (u8 access) 0 (Z.land granularity 0xF) 0).

(** [write_tss]: the low half of the descriptor field by field, the high half
    as two words over the next entry, then the stacks. *)
Definition write_tss (num : Z) : M unit :=
  y <- gets (fun s => symbols (s_boot s));;
  let base := sym_tss y in
  let limit := 104 - 1 in
  gdt_put num (mk_gdt_entry (u16 limit) (Z.land base 0xFFFF) (Z.land (Z.shiftr base 16) 0xFF) 0x89
                 (Z.land (Z.shiftr limit 16) 0x0F) 0 (Z.land (Z.shiftr base 24) 0xFF));;;
  let hi0 := u32 (Z.shiftr base 32) in
  gdt_put (num + 1) (mk_gdt_entry (Z.land hi0 0xFFFF) (Z.shiftr hi0 16) 0 0 0 0 0);;;
  modify (on_gdt (set_gdt_tss (mk_tss (u64 (sym_kernel_stack y + 4096)) (u64 (sym_df_stack y + 4096))
                                 (u64 (sym_nmi_stack y + 4096))))).

Definition gdt_install : M unit :=
  gdt_set_gate 0 0 0 0 0;;;
  gdt_set_gate 1 0 0 0x9A 0xA;;;
  gdt_set_gate 2 0 0 0x92 0xC;;;
  gdt_set_gate 3 0 0 0xFA 0xC;;;
  gdt_set_gate 4 0 0 0xF2 0xC;;;
  gdt_set_gate 5 0 0 0xFA 0xA;;;
  write_tss 6;;;
  modify (on_gdt (set_gdt_limit (8 * 9 - 1))).

Definition tss_set_stack (stack : Z) : M unit :=
  modify (on_gdt (fun g => set_gdt_tss (mk_tss (u64 stack) (ist1 (gdt_tss g)) (ist2 (gdt_tss g))) g)).

(** The base address in the 16-byte system descriptor that starts at [num]. *)
Definition tss_base (s : kstate) (num : Z) : Z :=
  let e := default gdt_zero (gdt_entries (s_gdt s) !! num) in
  let h := default gdt_zero (gdt_entries (s_gdt s) !! (num + 1)) in
  g_base_low e + Z.shiftl (g_base_middle e) 16 + Z.shiftl (g_base_high e) 24 +
  Z.shiftl (g_limit_low h + Z.shiftl (g_base_low h) 16) 32.

(** ** Processor features (features.c, cpuid.c) *)

Record cpuid_info : Type := mk_cpuid { eax : Z; ebx : Z; ecx : Z; edx : Z }.

Section features.
(** The instruction [cpuid]: EAX and ECX in; EAX, EBX, ECX and EDX out. *)
Variable cpuid_insn : Z -> Z -> Z * Z * Z * Z.

Definition cpuid (leaf subleaf : Z) : cpuid_info :=
  let '(a, b, c, d) := cpuid_insn (u32 leaf) (u32 subleaf) in mk_cpuid (u32 a) (u32 b) (u32 c) (u32 d).

Definition cpuid_has_sse : bool := negb (Z.land (edx (cpuid 1 0)) (Z.shiftl 1 25) =? 0).
Definition cpuid_has_fsgsbase : bool := negb (Z.land (ebx (cpuid 7 0)) (Z.shiftl 1 0) =? 0).

Definition setup_cr0 : M unit :=
  modify (on_cpu (fun c =>
    let v := Z.land (cr0 c) (Z.lxor (2 ^ 64 - 1) (Z.shiftl 1 2)) in
    set_cr0 (Z.lor v (Z.shiftl 1 1)) c)).

Definition setup_cr4 : M unit :=
  modify (on_cpu (fun c => set_cr4 (Z.lor (Z.lor (cr4 c) (Z.shiftl 1 9)) (Z.shiftl 1 10)) c)).

Definition cpu_features_install : M unit :=
  (if negb cpuid_has_fsgsbase then panic "cpu does not support FSGSBASE instructions!"
   else modify (on_cpu (fun c => set_cr4 (Z.lor (cr4 c) (Z.shiftl 1 16)) c)));;;
  if negb cpuid_has_sse then panic "cpu does not support SSE!"
  else setup_cr0;;; setup_cr4.
End features.

(** ** Lemmas *)

(** A gate reassembles to the address it was set to. *)
Lemma split_address a : 0 <= a < 2 ^ 64 ->
  Z.land a 0xFFFF + Z.shiftl (Z.land (Z.shiftr a 16) 0xFFFF) 16 +
  Z.shiftl (Z.land (Z.shiftr a 32) 0xFFFFFFFF) 32 = a.
Proof.
  intros Ha. change 0xFFFF with (Z.ones 16). change 0xFFFFFFFF with (Z.ones 32).
  rewrite !Z.land_ones, !Z.shiftl_mul_pow2, !Z.shiftr_div_pow2 by lia. zlia.
Qed.

Lemma idt_set_gate_run num base seg fl s :
  exists e, idt_set_gate num base seg fl s =
    Ok tt (on_irq (fun q => set_idt_entries (<[u8 num := e]> (idt_entries q)) q) s) /\
    base_low e + Z.shiftl (base_middle e) 16 + Z.shiftl (base_high e) 32 = u64 base.
Proof. eexists. split; [reflexivity|]. cbn [base_low base_middle base_high]. apply split_address, u64_range. Qed.

Lemma wp_idt_set_gate num base seg fl s (Q : unit -> kstate -> Prop) E :
  0 <= num < 256 -> 0 <= base < 2 ^ 64 ->
  (forall s', (forall n, gate_target s' n = if n =? num then base else gate_target s n) ->
     s_boot s' = s_boot s -> isr_callbacks (s_irq s') = isr_callbacks (s_irq s) -> Q tt s') ->
  wp (idt_set_gate num base seg fl) s Q E.
Proof.
  intros Hn Hb HQ. destruct (idt_set_gate_run num base seg fl s) as (e & He & Ht).
  eapply wp_ok; [exact He|]. apply HQ; [|done|done].
  intros n. unfold gate_target. cbn [on_irq set_irq s_irq set_idt_entries idt_entries].
  rewrite u8_small by lia. rewrite u64_small in Ht by lia.
  destruct (Z.eqb_spec n num) as [->|]; [by rewrite lookup_insert_eq|by rewrite lookup_insert_ne].
Qed.

(** A loop of gates, one per index. *)
Lemma wp_gates_loop (idx tgt : Z -> Z) k i s (Q : unit -> kstate -> Prop) E :
  (forall j, i <= j < i + Z.of_nat k -> 0 <= idx j < 256 /\ 0 <= tgt j < 2 ^ 64) ->
  (forall s', (forall n, gate_target s' n =
       fold_left (fun t j => if n =? idx j then tgt j else t) (seqZ i (Z.of_nat k)) (gate_target s n)) ->
     s_boot s' = s_boot s -> isr_callbacks (s_irq s') = isr_callbacks (s_irq s) -> Q tt s') ->
  wp (for_loop k i (fun j => idt_set_gate (idx j) (tgt j) 0x08 0x8E)) s Q E.
Proof.
  revert i s Q. induction k as [|k IH]; intros i s Q Hr HQ; cbn [for_loop].
  - apply wp_ret, HQ; done.
  - apply wp_bind. destruct (Hr i ltac:(lia)) as [? ?]. apply wp_idt_set_gate; [done|done|].
    intros s1 H1 B1 C1. apply IH; [intros j Hj; apply Hr; lia|].
    intros s' H2 B2 C2. apply HQ; [|congruence|congruence].
    intros n. rewrite H2, H1. replace (Z.of_nat (S k)) with (Z.succ (Z.of_nat k)) by lia.
    rewrite (seqZ_cons i) by lia. cbn [fold_left]. do 2 f_equal; [|lia..]. f_equal; lia.
Qed.

Lemma fold_gates (tgt : Z -> Z) n k i t :
  fold_left (fun t j => if n =? j then tgt j else t) (seqZ i (Z.of_nat k)) t =
  if (i <=? n) && (n <? i + Z.of_nat k) then tgt n else t.
Proof.
  revert i t. induction k as [|k IH]; intros i t.
  - change (Z.of_nat 0) with 0. rewrite Z.add_0_r. change (seqZ i 0) with (@nil Z). zcases; cbn; done || lia.
  - replace (Z.of_nat (S k)) with (Z.succ (Z.of_nat k)) by lia. rewrite (seqZ_cons i) by lia.
    replace (Z.pred (Z.succ (Z.of_nat k))) with (Z.of_nat k) by lia. cbn [fold_left]. rewrite IH.
    replace (Z.succ i + Z.of_nat k) with (i + Z.succ (Z.of_nat k)) by lia.
    destruct (Z.eqb_spec n i) as [->|]; zcases; cbn; done || lia.
Qed.

(** What [isr_install] leaves: the loop runs one element past the stubs. *)
Lemma isr_install_gates s :
  (forall i, 0 <= sym_isr (symbols (s_boot s)) i < 2 ^ 64) ->
  wp isr_install s (fun _ s' => s_boot s' = s_boot s /\
      isr_callbacks (s_irq s') = <[13 := Gpf_fault_handler]> (<[6 := Irq_invalid_opcode]> (isr_callbacks (s_irq s))) /\
      forall n, gate_target s' n =
        if n =? 0 then 0 else if (0 <=? n) && (n <? 32) then sym_isr (symbols (s_boot s)) n else gate_target s n)
    no_panic.
Proof.
  intros Hy. unfold isr_install. apply wp_bind, wp_gets. set (b := s_boot s) in *.
  apply wp_bind, wp_idt_set_gate; [lia|apply Hy|]. intros s1 G1 B1 C1.
  apply wp_bind, wp_modify, wp_bind, wp_idt_set_gate; [lia|apply Hy|]. intros s2 G2 B2 C2.
  apply wp_bind, wp_modify, wp_bind, wp_idt_set_gate; [lia|apply Hy|]. intros s3 G3 B3 C3.
  apply (wp_gates_loop (fun i => (isrs b i).1) (fun i => (isrs b i).2)).
  { intros j Hj. unfold isrs. destruct ((0 <=? j) && (j <? 32)) eqn:E; cbn; [|lia].
    split; [lia|apply Hy]. }
  intros s' G B C. split_and!.
  { rewrite B, B3. cbn [on_irq set_irq s_boot]. rewrite B2. cbn [on_irq set_irq s_boot]. by rewrite B1. }
  { rewrite C, C3. cbn [on_irq set_irq s_irq set_isr_callbacks isr_callbacks]. rewrite C2.
    cbn [on_irq set_irq s_irq set_isr_callbacks isr_callbacks]. by rewrite C1. }
  intros n. rewrite G. change (Z.of_nat 33) with (32 + 1). rewrite seqZ_app, fold_left_app by lia. cbn [fold_left].
  change (seqZ (0 + 32) 1) with [32]. cbn [fold_left]. change (isrs b 32) with (0, 0). cbn [fst snd].
  destruct (Z.eqb_spec n 0); [done|].
  assert (forall l t, Forall (fun j => 0 <= j < 32) l ->
    fold_left (fun t j => if n =? (isrs b j).1 then (isrs b j).2 else t) l t =
    fold_left (fun t j => if n =? j then sym_isr (symbols b) j else t) l t) as Hext.
  { intros l t Hl. revert t. induction Hl as [|j l Hj Hl IH]; intros t; [done|]. cbn [fold_left].
    rewrite IH. unfold isrs. by rewrite (proj2 (Z.leb_le 0 j)), (proj2 (Z.ltb_lt j 32)) by lia. }
  rewrite Hext by (apply Forall_forall; intros j Hj%elem_of_seqZ; lia).
  rewrite (fold_gates _ n 32 0). change (0 + Z.of_nat 32) with 32.
  destruct ((0 <=? n) && (n <? 32)) eqn:E; [done|]. apply andb_false_iff in E.
  rewrite G3. destruct (Z.eqb_spec n 14); [lia|]. change (gate_target (on_irq _ s2) n) with (gate_target s2 n).
  rewrite G2. destruct (Z.eqb_spec n 13); [lia|]. change (gate_target (on_irq _ s1) n) with (gate_target s1 n).
  rewrite G1. destruct (Z.eqb_spec n 6); [lia|done].
Qed.

(** ** Properties *)

(** Once [idt_install], [isr_install] and [irq_setup_gates] ran, the
    gates of exceptions 1 to 31 and of the sixteen interrupt lines (vectors 32
    to 47) lead to their stubs and all others are empty; the gate of
    exception 0 (divide error) is empty too, since the last round of the loop
    in [isr_install] overwrites it from an element that was never set. *)
Theorem interrupt_gates (s : kstate) :
  (forall i, 0 <= sym_isr (symbols (s_boot s)) i < 2 ^ 64) ->
  (forall i, 0 <= sym_irq (symbols (s_boot s)) i < 2 ^ 64) ->
  wp (idt_install;;; isr_install;;; irq_setup_gates) s
    (fun _ s' => forall n, gate_target s' n =
       if (1 <=? n) && (n <? 32) then sym_isr (symbols (s_boot s)) n
       else if (32 <=? n) && (n <? 48) then sym_irq (symbols (s_boot s)) (n - 32) else 0) no_panic.
Proof.
  intros Hisr Hirq. assert (wp idt_install s (fun _ s1 => s_boot s1 = s_boot s /\
    forall n, gate_target s1 n = 0) no_panic) as H1.
  { split; [done|]. intros n. unfold gate_target. cbn [on_gdt set_gdt on_irq set_irq s_irq set_idt_entries idt_entries].
    by rewrite lookup_empty. }
  eapply wp_call; [exact H1|]. intros [] s1 [B1 G1]. eapply wp_call; [apply isr_install_gates; by rewrite B1|].
  intros [] s2 (B2 & _ & G2). rewrite B1 in *. apply wp_bind, wp_gets.
  apply (wp_gates_loop (fun i => 32 + i) (sym_irq (symbols (s_boot s2)))).
  { intros j Hj. rewrite B2. split; [lia|apply Hirq]. }
  intros s' G _ _ n. rewrite G, B2.
  assert (forall l t, fold_left (fun t j => if n =? 32 + j then sym_irq (symbols (s_boot s)) j else t) l t =
    fold_left (fun t j => if n - 32 =? j then sym_irq (symbols (s_boot s)) j else t) l t) as Hext.
  { induction l as [|j l IH]; intros t; [done|]. cbn [fold_left]. rewrite IH. f_equal.
    destruct (Z.eqb_spec n (32 + j)), (Z.eqb_spec (n - 32) j); done || lia. }
  rewrite Hext, (fold_gates _ _ 16 0), G2, G1. change (0 + Z.of_nat 16) with 16.
  zcases; cbn; done || lia.
Qed.

(** [gdt_install] writes a task state descriptor whose base decodes to
    the task state segment, wherever it was linked, with the three stacks
    pointing past the end of their arrays, flat code and data descriptors of
    both privilege levels, and later [tss_set_stack] changes the kernel stack
    only. *)
Theorem gdt_install_spec (s : kstate) (stack : Z) :
  0 <= sym_tss (symbols (s_boot s)) < 2 ^ 64 -> 0 <= stack < 2 ^ 64 ->
  wp (gdt_install;;; tss_set_stack stack) s
    (fun _ s' => tss_base s' 6 = sym_tss (symbols (s_boot s)) /\
       gdt_tss (s_gdt s') = mk_tss stack (u64 (sym_df_stack (symbols (s_boot s)) + 4096))
                              (u64 (sym_nmi_stack (symbols (s_boot s)) + 4096)) /\
       map (fun n => option_map (fun e => (g_access e, g_granularity e)) (gdt_entries (s_gdt s') !! n))
         [0; 1; 2; 3; 4; 5; 6; 7; 8] =
       [Some (0, 0); Some (0x9A, 0xA); Some (0x92, 0xC); Some (0xFA, 0xC); Some (0xF2, 0xC);
        Some (0xFA, 0xA); Some (0x89, 0); Some (0, 0);
        option_map (fun e => (g_access e, g_granularity e)) (gdt_entries (s_gdt s) !! 8)]) no_panic.
Proof.
  intros Hb Hs. unfold wp. cbn -[lookup insert Z.land Z.shiftr Z.shiftl Z.add u32 u64 u16]. split_and!.
  - unfold tss_base. cbn -[lookup insert Z.land Z.shiftr Z.shiftl Z.add u32 u64 u16]. simplify_map_eq.
    cbn [g_base_low g_base_middle g_base_high g_limit_low]. set (b := sym_tss _) in *.
    change 0xFFFF with (Z.ones 16). change 0xFF with (Z.ones 8). unfold u32.
    rewrite !Z.land_ones, !Z.shiftl_mul_pow2, !Z.shiftr_div_pow2 by lia. zlia.
  - by rewrite u64_small.
  - cbn [map]. by simplify_map_eq.
Qed.

(** ** Witnesses *)

Definition demo_symbols : link_symbols :=
  mk_symbols 0x100 0x200 0x300 0x400 0x500 (fun i => 0xFFFFFFFF80001000 + (i mod 64) * 16)
    (fun i => 0xFFFFFFFF80002000 + (i mod 64) * 16) 0xFFFFFFFF80123450 0x7000 0x8000 0x9000 0xA000.

Definition demo_boot_info : boot_info :=
  mk_boot [] 0xFFFF800000000000 0 0 0 0 0 0 0 0 0 0 [] [] demo_symbols.

Definition demo_entry_state : kstate := entry_state demo_boot_info (fun _ _ => 0) false.

Lemma interrupt_gates_witness :
  wp (idt_install;;; isr_install;;; irq_setup_gates) demo_entry_state
    (fun _ s' => gate_target s' 0 = 0 /\ gate_target s' 14 = 0xFFFFFFFF800010E0 /\
       gate_target s' 33 = 0xFFFFFFFF80002010) no_panic.
Proof.
  eapply wp_mono; [apply (interrupt_gates demo_entry_state)| |done].
  - intros i. cbn [sym_isr symbols s_boot demo_entry_state entry_state demo_boot_info demo_symbols]. zlia.
  - intros i. cbn [sym_irq symbols s_boot demo_entry_state entry_state demo_boot_info demo_symbols]. zlia.
  - intros [] s' H. rewrite !H. done.
Defined.

Lemma gdt_install_spec_witness :
  wp (gdt_install;;; tss_set_stack 0x5000) demo_entry_state
    (fun _ s' => tss_base s' 6 = 0xFFFFFFFF80123450 /\ rsp0 (gdt_tss (s_gdt s')) = 0x5000) no_panic.
Proof.
  eapply wp_mono; [apply (gdt_install_spec demo_entry_state 0x5000)| |done].
  - vm_compute. split; congruence.
  - lia.
  - intros [] s' (H1 & H2 & _). split; [exact H1|by rewrite H2].
Defined.
