(* ===== verification/Asm.v ===== *)
(** * The instructions of the assembly stubs

    The part of the x86-64 instruction set that kernel/arch/x86_64/asm/*.S and
    kernel/system/asm/user.S use, executed on a machine with its registers,
    flags, selectors, descriptor table registers and memory.  Selectors are
    checked against the descriptors in memory (table limit, presence and type;
    not the privilege levels) when an instruction loads them.  Every address
    that the stubs put on a stack or jump to is the address of a label; the
    instruction after a call has a label of its own.  A C function is a
    parameter: the machine at its entry gives the machine at its return. *)

From S2P Require Import Prelude Memory.

(** ** The machine *)

Inductive register : Type :=
  | RAX | RBX | RCX | RDX | RSI | RDI | RBP
  | R8 | R9 | R10 | R11 | R12 | R13 | R14 | R15.

Inductive sreg : Type := DS | ES | FS | GS | SS.

#[global] Instance register_eq_dec : EqDecision register.
Proof. solve_decision. Defined.

#[global] Instance sreg_eq_dec : EqDecision sreg.
Proof. solve_decision. Defined.

Record machine : Type := mk_machine {
  gpr : register -> Z;
  m_rsp : Z;
  m_rflags : Z;
  m_cs : Z;
  sel : sreg -> Z;
  gdtr : Z * Z;
  idtr : Z * Z;
  m_tr : Z;
  m_mem : mem
}.

Definition set_gpr (r : register) (v : Z) (m : machine) : machine :=
  mk_machine (fun x => if decide (x = r) then v else gpr m x) (m_rsp m) (m_rflags m) (m_cs m) (sel m)
    (gdtr m) (idtr m) (m_tr m) (m_mem m).
Definition set_stack (a : Z) (x : mem) (m : machine) : machine :=
  mk_machine (gpr m) a (m_rflags m) (m_cs m) (sel m) (gdtr m) (idtr m) (m_tr m) x.
Definition set_flags (v : Z) (m : machine) : machine :=
  mk_machine (gpr m) (m_rsp m) v (m_cs m) (sel m) (gdtr m) (idtr m) (m_tr m) (m_mem m).
Definition set_cs (v : Z) (m : machine) : machine :=
  mk_machine (gpr m) (m_rsp m) (m_rflags m) v (sel m) (gdtr m) (idtr m) (m_tr m) (m_mem m).
Definition set_sel (s : sreg) (v : Z) (m : machine) : machine :=
  mk_machine (gpr m) (m_rsp m) (m_rflags m) (m_cs m) (fun x => if decide (x = s) then v else sel m x)
    (gdtr m) (idtr m) (m_tr m) (m_mem m).
Definition set_tables (g i : Z * Z) (m : machine) : machine :=
  mk_machine (gpr m) (m_rsp m) (m_rflags m) (m_cs m) (sel m) g i (m_tr m) (m_mem m).
Definition set_tr (v : Z) (x : mem) (m : machine) : machine :=
  mk_machine (gpr m) (m_rsp m) (m_rflags m) (m_cs m) (sel m) (gdtr m) (idtr m) v x.

(** ** Flags *)

Definition EFLAGS_TF : Z := 0x100.
Definition EFLAGS_IF : Z := 0x200.
Definition EFLAGS_NT : Z := 0x4000.
Definition EFLAGS_RF : Z := 0x10000.
Definition EFLAGS_VM : Z := 0x20000.

Definition clear_bits (mask v : Z) : Z := Z.land v (Z.land (Z.lnot mask) (Z.ones 64)).

(** The image that [pushfq] stores and that [popfq] loads has RF and VM clear. *)
Definition flags_image (v : Z) : Z := clear_bits (Z.lor EFLAGS_RF EFLAGS_VM) v.

Definition bit (b : bool) (k : Z) : Z := if b then Z.shiftl 1 k else 0.

(** The status flags after adding [b] to [a]: CF, PF, AF, ZF, SF and OF. *)
Definition add_flags (a b fl : Z) : Z :=
  let r := u64 (a + b) in
  let parity := fold_left (fun p k => xorb p (Z.testbit r k)) [0; 1; 2; 3; 4; 5; 6; 7] true in
  Z.lor (clear_bits 0x8D5 fl)
    (bit (2 ^ 64 <=? u64 a + u64 b) 0 + bit parity 2 +
     bit (Z.testbit (Z.lxor (Z.lxor a b) r) 4) 4 + bit (r =? 0) 6 + bit (Z.testbit r 63) 7 +
     bit (Z.testbit (Z.land (Z.lxor a r) (Z.lxor b r)) 63) 11).

(** ** Stack *)

Definition push (v : Z) (m : machine) : machine :=
  let a := u64 (m_rsp m - 8) in set_stack a (store64 (m_mem m) a v) m.

Definition top_word (m : machine) : Z := load64 (m_mem m) (m_rsp m).
Definition drop_words (n : Z) (m : machine) : machine := set_stack (u64 (m_rsp m + 8 * n)) (m_mem m) m.

(** ** Selectors *)

(** A selector of the global table whose descriptor lies inside the table. *)
Definition in_table (m : machine) (s : Z) : bool :=
  negb (Z.testbit s 2) && (Z.land s 0xFFF8 + 7 <=? (gdtr m).1).
Definition access (m : machine) (s : Z) : Z := rd (m_mem m) ((gdtr m).2 + Z.land s 0xFFF8 + 5).
Definition is_null (s : Z) : bool := Z.land s 0xFFFC =? 0.

(** Present code segment; the privilege levels and the L and G bits of the
    descriptor are not looked at. *)
Definition cs_ok (m : machine) (s : Z) : bool :=
  negb (is_null s) && in_table m s && (Z.land (access m s) 0x98 =? 0x98).

(** Present writable data segment, or a null selector outside ring 3. *)
Definition ss_ok (m : machine) (s : Z) : bool :=
  if is_null s then negb (Z.land s 3 =? 3)
  else in_table m s && (Z.land (access m s) 0x9A =? 0x92).

(** Null, or a present segment that can be read. *)
Definition ds_ok (m : machine) (s : Z) : bool :=
  is_null s ||
  (in_table m s && (Z.land (access m s) 0x90 =? 0x90) && negb (Z.land (access m s) 0x0A =? 0x08)).

(** Present task state segment that is not busy. *)
Definition tss_ok (m : machine) (s : Z) : bool :=
  negb (is_null s) && in_table m s && (Z.land (access m s) 0x9F =? 0x89).

(** ** Instructions *)

Inductive label : Type :=
  | Irq (n : Z) | Irq_common | Irq_return
  | Isr (n : Z) | Isr_common | Isr_return
  | Gdt_flush | Reload_cs | Idt_flush | Tss_flush | Switch_to_user.

#[global] Instance label_eq_dec : EqDecision label.
Proof. solve_decision. Defined.

(** The C functions that the stubs call. *)
Inductive cfun : Type := Irq_handler | Isr_handler.

Inductive instr : Type :=
  | Push (r : register) | Push_imm (v : Z) | Pushfq
  | Pop (r : register) | Popfq
  | Cli
  | Mov_rsp (r : register)            (* mov %rsp, r *)
  | Mov_imm16 (v : Z) (r : register)  (* mov $v, low half word of r *)
  | Mov_sreg (r : register) (s : sreg)
  | Lea (l : label) (r : register)
  | Add_rsp (v : Z)
  | Jmp (l : label)
  | Call (f : cfun) (after : label)
  | Ret | Retfq | Iretq
  | Lgdt (r : register) | Lidt (r : register) | Ltr (r : register).

(** How control leaves an instruction or a block: on to the next instruction,
    to an address among the labels, out to the interrupted program or the
    caller, a general protection fault, or a C function that does not come
    back. *)
Inductive outcome (W : Type) : Type :=
  | Next (m : machine) (w : W)
  | Goto (a : Z) (m : machine) (w : W)
  | Leave (a : Z) (m : machine) (w : W)
  | Fault
  | Gone.
#[global] Arguments Next {W}.
#[global] Arguments Goto {W}.
#[global] Arguments Leave {W}.
#[global] Arguments Fault {W}.
#[global] Arguments Gone {W}.

Section execution.
Context {W : Type}.
Variable addr : label -> Z.
Variable cfunction : cfun -> machine -> W -> option (machine * W).

Definition load_table (m : machine) (r : register) : Z * Z :=
  (load16 (m_mem m) (gpr m r), load64 (m_mem m) (gpr m r + 2)).

Definition load_sreg (s : sreg) (v : Z) (m : machine) (w : W) : outcome W :=
  if match s with SS => ss_ok m v | _ => ds_ok m v end then Next (set_sel s v m) w else Fault.

(** [iretq]: instruction pointer, code selector, flags, stack pointer and stack
    selector, in this order from the top of the stack. *)
Definition iretq (m : machine) (w : W) : outcome W :=
  let word i := load64 (m_mem m) (u64 (m_rsp m + 8 * i)) in
  let cs := u16 (word 1) in
  let ss := u16 (word 4) in
  if cs_ok m cs && ss_ok m ss then
    Leave (word 0) (set_sel SS ss (set_flags (word 2) (set_cs cs (set_stack (word 3) (m_mem m) m)))) w
  else Fault.

Definition step (i : instr) (m : machine) (w : W) : outcome W :=
  match i with
  | Push r => Next (push (gpr m r) m) w
  | Push_imm v => Next (push (u64 v) m) w
  | Pushfq => Next (push (flags_image (m_rflags m)) m) w
  | Pop r => Next (set_gpr r (top_word m) (drop_words 1 m)) w
  | Popfq => Next (set_flags (flags_image (top_word m)) (drop_words 1 m)) w
  | Cli => Next (set_flags (clear_bits EFLAGS_IF (m_rflags m)) m) w
  | Mov_rsp r => Next (set_gpr r (m_rsp m) m) w
  | Mov_imm16 v r => Next (set_gpr r (gpr m r / 2 ^ 16 * 2 ^ 16 + u16 v) m) w
  | Mov_sreg r s => load_sreg s (u16 (gpr m r)) m w
  | Lea l r => Next (set_gpr r (addr l) m) w
  | Add_rsp v =>
    Next (set_flags (add_flags (m_rsp m) v (m_rflags m)) (set_stack (u64 (m_rsp m + v)) (m_mem m) m)) w
  | Jmp l => Goto (addr l) m w
  | Call f after =>
    match cfunction f (push (addr after) m) w with
    | Some (m', w') => Goto (top_word m') (drop_words 1 m') w'
    | None => Gone
    end
  | Ret => Leave (top_word m) (drop_words 1 m) w
  | Retfq =>
    let cs := u16 (load64 (m_mem m) (u64 (m_rsp m + 8))) in
    if cs_ok m cs then Goto (top_word m) (set_cs cs (drop_words 2 m)) w else Fault
  | Iretq => iretq m w
  | Lgdt r => Next (set_tables (load_table m r) (idtr m) m) w
  | Lidt r => Next (set_tables (gdtr m) (load_table m r) m) w
  | Ltr r =>
    let s := u16 (gpr m r) in
    if tss_ok m s
    then Next (set_tr s (wr (m_mem m) ((gdtr m).2 + Z.land s 0xFFF8 + 5) (Z.lor (access m s) 2)) m) w
    else Fault
  end.

(** A block of straight-line code. *)
Fixpoint exec_block (code : list instr) (m : machine) (w : W) : outcome W :=
  match code with
  | [] => Next m w
  | i :: code =>
    match step i m w with
    | Next m' w' => exec_block code m' w'
    | o => o
    end
  end.

Variable code : label -> list instr.
Variable labels : list label.

Definition label_at (a : Z) : option label := List.find (fun l => addr l =? a) labels.

(** Blocks from address [a] on until control leaves the labels; a jump to an
    address that is no label's, or off the end of a block, is a fault here. *)
Fixpoint run (fuel : nat) (a : Z) (m : machine) (w : W) : outcome W :=
  match fuel with
  | O => Gone
  | S fuel =>
    match label_at a with
    | None => Fault
    | Some l =>
      match exec_block (code l) m w with
      | Goto a' m' w' => run fuel a' m' w'
      | Next _ _ => Fault
      | o => o
      end
    end
  end.

(** ** Lemmas *)

Lemma exec_app c1 c2 m w :
  exec_block (c1 ++ c2) m w = match exec_block c1 m w with Next m' w' => exec_block c2 m' w' | o => o end.
Proof.
  revert m w. induction c1 as [|i c1 IH]; intros m w; [done|]. cbn [app exec_block].
  destruct (step i m w); auto.
Qed.

Lemma exec_cons i c m w :
  exec_block (i :: c) m w = match step i m w with Next m' w' => exec_block c m' w' | o => o end.
Proof. done. Qed.

Definition pushes (vs : list Z) (m : machine) : machine := fold_left (fun m v => push v m) vs m.

Lemma gpr_pushes vs m : gpr (pushes vs m) = gpr m.
Proof. revert m. induction vs as [|v vs IH]; intros m; [done|]. apply (IH (push v m)). Qed.

Lemma exec_pushes rs m w : exec_block (map Push rs) m w = Next (pushes (map (gpr m) rs) m) w.
Proof.
  revert m. induction rs as [|r rs IH]; intros m; [done|]. cbn [map exec_block step]. rewrite IH.
  cbn [pushes fold_left]. do 2 f_equal.
Qed.

Definition pops (rs : list register) (m : machine) : machine :=
  fold_left (fun m r => set_gpr r (top_word m) (drop_words 1 m)) rs m.

Lemma exec_pops rs m w : exec_block (map Pop rs) m w = Next (pops rs m) w.
Proof. revert m. induction rs as [|r rs IH]; intros m; [done|]. cbn [map exec_block step pops fold_left]. apply IH. Qed.
End execution.

Lemma clear_bits_range mask v : in_u64 (clear_bits mask v).
Proof. unfold clear_bits, in_u64. rewrite Z.land_assoc, Z.land_ones by lia. apply Z.mod_pos_bound. lia. Qed.

Lemma clear_bits_testbit mask v k : 0 <= k -> Z.testbit mask k = true -> Z.testbit (clear_bits mask v) k = false.
Proof. intros Hk H. unfold clear_bits. by rewrite !Z.land_spec, Z.lnot_spec, H, andb_false_r by done. Qed.

(** ** What lies on the stack *)

(** The words [ws] lie from address [a] upwards. *)
Fixpoint words_at (x : mem) (a : Z) (ws : list Z) : Prop :=
  match ws with
  | [] => True
  | v :: ws => load64 x a = v /\ words_at x (a + 8) ws
  end.

Lemma words_at_lookup x a ws i v : words_at x a ws -> ws !! i = Some v -> load64 x (a + 8 * Z.of_nat i) = v.
Proof.
  revert a i. induction ws as [|u ws IH]; intros a i Hw Hi; [done|]. destruct Hw as [Hu Hw].
  destruct i as [|i]; cbn in Hi; [simplify_eq; by rewrite Z.mul_0_r, Z.add_0_r|].
  rewrite <- (IH (a + 8) i) by done. f_equal. lia.
Qed.

Lemma words_at_ext x y a ws :
  (forall b, a <= b < a + 8 * Z.of_nat (length ws) -> rd y b = rd x b) -> words_at x a ws -> words_at y a ws.
Proof.
  revert a. induction ws as [|v ws IH]; intros a E Hw; [done|]. destruct Hw as [Hv Hw]. cbn [length] in E. split.
  - rewrite <- Hv. apply load64_ext. intros b Hb. apply E. lia.
  - apply IH; [|done]. intros b Hb. apply E. lia.
Qed.

Lemma words_at_app x a vs ws :
  words_at x a (vs ++ ws) <-> words_at x a vs /\ words_at x (a + 8 * Z.of_nat (length vs)) ws.
Proof.
  revert a. induction vs as [|v vs IH]; intros a; cbn [app words_at length].
  - rewrite Z.mul_0_r, Z.add_0_r. tauto.
  - rewrite IH. replace (a + 8 * Z.of_nat (S (length vs))) with (a + 8 + 8 * Z.of_nat (length vs)) by lia. tauto.
Qed.

(** [n] pushes leave the pushed words on top of those that were there and touch
    nothing else. *)
Lemma pushes_spec vs m ws :
  Forall in_u64 vs -> 8 * Z.of_nat (length vs) <= m_rsp m < 2 ^ 64 -> words_at (m_mem m) (m_rsp m) ws ->
  exists x, pushes vs m = set_stack (m_rsp m - 8 * Z.of_nat (length vs)) x m /\
    words_at x (m_rsp m - 8 * Z.of_nat (length vs)) (rev vs ++ ws) /\
    (forall b, b < m_rsp m - 8 * Z.of_nat (length vs) \/ m_rsp m <= b -> rd x b = rd (m_mem m) b).
Proof.
  intros Hvs. revert m ws. induction Hvs as [|v vs Hv Hvs IH]; intros m ws Hr Hw.
  - exists (m_mem m). cbn [length rev app pushes fold_left]. rewrite Z.mul_0_r, Z.sub_0_r.
    split_and!; [by destruct m|done|done].
  - cbn [length] in Hr |- *. assert (u64 (m_rsp m - 8) = m_rsp m - 8) as Hu by (apply u64_small; lia).
    destruct (IH (push v m) (v :: ws)) as (x & E & Hx & Hf).
    + unfold push. cbn [set_stack m_rsp]. rewrite Hu. lia.
    + unfold push. cbn [set_stack m_rsp m_mem words_at]. rewrite Hu. split; [by apply load_store64|].
      replace (m_rsp m - 8 + 8) with (m_rsp m) by lia. revert Hw. apply words_at_ext.
      intros b Hb. apply rd_store64_ne. lia.
    + unfold push in E, Hx, Hf. cbn [set_stack m_rsp m_mem] in E, Hx, Hf. rewrite Hu in E, Hx, Hf.
      replace (m_rsp m - 8 - 8 * Z.of_nat (length vs)) with (m_rsp m - 8 * Z.of_nat (S (length vs))) in * by lia.
      exists x. split_and!.
      * cbn [pushes fold_left]. unfold push at 2. rewrite Hu. exact E.
      * cbn [rev]. by rewrite <- app_assoc.
      * intros b Hb. rewrite Hf by lia. apply rd_store64_ne. lia.
Qed.

Lemma push_spec v m ws :
  in_u64 v -> 8 <= m_rsp m < 2 ^ 64 -> words_at (m_mem m) (m_rsp m) ws ->
  exists x, push v m = set_stack (m_rsp m - 8) x m /\ words_at x (m_rsp m - 8) (v :: ws) /\
    (forall b, b < m_rsp m - 8 \/ m_rsp m <= b -> rd x b = rd (m_mem m) b).
Proof. intros Hv Hr Hw. exact (pushes_spec [v] m ws (Forall_cons_2 _ _ _ Hv (Forall_nil_2 _)) Hr Hw). Qed.

Definition set_gprs (l : list (register * Z)) (m : machine) : machine :=
  fold_left (fun m p => set_gpr p.1 p.2 m) l m.

Lemma set_gprs_stack l a x m : set_gprs l (set_stack a x m) = set_stack a x (set_gprs l m).
Proof. revert m. induction l as [|p l IH]; intros m; [done|]. apply (IH (set_gpr p.1 p.2 m)). Qed.

Lemma pops_spec rs ws m :
  length rs = length ws -> 0 <= m_rsp m -> m_rsp m + 8 * Z.of_nat (length rs) < 2 ^ 64 ->
  words_at (m_mem m) (m_rsp m) ws ->
  pops rs m = set_stack (m_rsp m + 8 * Z.of_nat (length rs)) (m_mem m) (set_gprs (zip rs ws) m).
Proof.
  revert ws m. induction rs as [|r rs IH]; intros [|v ws] m Hl H0 Hr Hw; try discriminate Hl.
  - cbn. rewrite Z.add_0_r. by destruct m.
  - destruct Hw as [Hv Hw]. injection Hl as Hl. cbn [length] in Hr |- *.
    assert (u64 (m_rsp m + 8 * 1) = m_rsp m + 8) as Hu by (rewrite u64_small; lia).
    cbn [pops fold_left]. change (fold_left _ rs ?m) with (pops rs m). unfold drop_words, top_word.
    rewrite Hu, Hv. change (set_gpr r v (set_stack ?a ?x m)) with (set_stack a x (set_gpr r v m)).
    rewrite (IH ws) by (done || cbn [set_stack m_rsp m_mem]; done || lia).
    cbn [set_stack m_rsp m_mem zip zip_with]. rewrite set_gprs_stack.
    replace (m_rsp m + 8 + 8 * Z.of_nat (length rs)) with (m_rsp m + 8 * Z.of_nat (S (length rs))) by lia. done.
Qed.
