(* ===== verification/Stubs.v ===== *)
(** * The assembly stubs

    kernel/arch/x86_64/asm/irq_asm.S, isr_asm.S, gdt_asm.S, idt_asm.S and
    tss_asm.S and kernel/system/asm/user.S as blocks of the instructions of
    [Asm], and the way the processor enters a stub through an interrupt gate.
    The handlers of irq.c and isr.c are the C functions that the stubs call. *)

From S2P Require Import Prelude Memory State Cpu Arch Asm.

(** ** Code *)

(** The registers in the order in which both common parts push them. *)
Definition saved : list register := [RAX; RBX; RCX; RDX; RSI; RDI; RBP; R8; R9; R10; R11; R12; R13; R14; R15].

Definition IRQ (byte : Z) : list instr := [Cli; Push_imm 0x00; Push_imm byte; Jmp Irq_common].

Definition irq_stub (ident : Z) : list instr := IRQ (32 + ident).

Definition irq_common : list instr :=
  map Push saved ++ [Pushfq; Mov_rsp RDI; Call Irq_handler Irq_return].

Definition irq_return : list instr := Popfq :: map Pop (rev saved) ++ [Add_rsp 16; Iretq].

Definition ISR_NOERR (number : Z) : list instr := [Cli; Push_imm 0; Push_imm number; Jmp Isr_common].
Definition ISR_ERR (number : Z) : list instr := [Cli; Push_imm number; Jmp Isr_common].

(** The stubs that the file declares with an error code. *)
Definition declared_error (number : Z) : bool := bool_decide (number ∈ [8; 10; 11; 12; 13; 14]).

Definition isr_stub (number : Z) : list instr :=
  if declared_error number then ISR_ERR number else ISR_NOERR number.

Definition isr_common : list instr :=
  map Push saved ++ [Pushfq; Mov_rsp RDI; Call Isr_handler Isr_return].

Definition isr_return : list instr := Popfq :: map Pop (rev saved) ++ [Add_rsp 16; Iretq].

Definition gdt_flush : list instr := [Lgdt RDI; Push_imm 0x08; Lea Reload_cs RAX; Push RAX; Retfq].

Definition reload_cs : list instr :=
  [Mov_imm16 0x10 RAX; Mov_sreg RAX DS; Mov_sreg RAX ES; Mov_sreg RAX FS; Mov_sreg RAX GS;
   Mov_sreg RAX SS; Ret].

Definition idt_flush : list instr := [Lidt RDI; Ret].

Definition tss_flush : list instr := [Mov_imm16 0x30 RAX; Ltr RAX; Ret].

Definition switch_to_user_code : list instr :=
  [Push_imm 0x23; Push RSI; Push_imm 0x200; Push_imm 0x2B; Push RDI; Iretq].

Definition stub_code (l : label) : list instr :=
  match l with
  | Irq n => irq_stub n
  | Irq_common => irq_common
  | Irq_return => irq_return
  | Isr n => isr_stub n
  | Isr_common => isr_common
  | Isr_return => isr_return
  | Gdt_flush => gdt_flush
  | Reload_cs => reload_cs
  | Idt_flush => idt_flush
  | Tss_flush => tss_flush
  | Switch_to_user => switch_to_user_code
  end.

Definition stub_labels : list label :=
  map Irq (seqZ 0 16) ++ map Isr (seqZ 0 32) ++
  [Irq_common; Irq_return; Isr_common; Isr_return; Gdt_flush; Reload_cs; Idt_flush; Tss_flush; Switch_to_user].

(** ** Entry through an interrupt gate *)

(** The exceptions for which the processor pushes an error code. *)
Definition pushes_error (number : Z) : bool := bool_decide (number ∈ [8; 10; 11; 12; 13; 14; 17; 21; 29; 30]).

Definition entry_stack (stack0 : Z) (m : machine) : Z :=
  Z.land (if Z.land (m_cs m) 3 =? 0 then m_rsp m else stack0) (Z.lnot 15).

(** Through an interrupt gate of selector [gate_cs] without a stack of its own:
    from user mode on the stack [stack0] of the task state segment, otherwise
    on the present one, aligned; the five words and the error code are pushed
    and the flags that the gate clears are cleared. *)
Definition deliver (gate_cs stack0 : Z) (err : option Z) (rip : Z) (m : machine) : machine :=
  let user := negb (Z.land (m_cs m) 3 =? 0) in
  let m1 := pushes ([sel m SS; m_rsp m; m_rflags m; m_cs m; rip] ++ option_list err)
              (set_stack (entry_stack stack0 m) (m_mem m) m) in
  let m2 := set_flags (clear_bits (EFLAGS_TF + EFLAGS_IF + EFLAGS_NT + EFLAGS_RF + EFLAGS_VM) (m_rflags m)) m1 in
  set_cs gate_cs (if user then set_sel SS 0 m2 else m2).

(** ** The frame that the handlers see *)

(** [regs_t] at an address, field by field. *)
Definition regs_at (x : mem) (a : Z) : regs :=
  let f i := load64 x (a + 8 * i) in
  mk_regs (f 0) (f 1) (f 2) (f 3) (f 4) (f 5) (f 6) (f 7) (f 8) (f 9) (f 10) (f 11) (f 12) (f 13) (f 14)
    (f 15) (f 16) (f 17) (f 18) (f 19) (f 20) (f 21).

Definition sizeof_regs : Z := 176.

Definition regs_words (r : regs) : list Z :=
  [r_rflags r; r_r15 r; r_r14 r; r_r13 r; r_r12 r; r_r11 r; r_r10 r; r_r9 r; r_r8 r; r_rbp r; r_rdi r;
   r_rsi r; r_rdx r; r_rcx r; r_rbx r; r_rax r; int_no r; err_code r; r_rip r; r_cs r; r_rsp r; r_ss r].

(** The general registers of a frame. *)
Definition frame_gpr (r : regs) (x : register) : Z :=
  match x with
  | RAX => r_rax r | RBX => r_rbx r | RCX => r_rcx r | RDX => r_rdx r | RSI => r_rsi r | RDI => r_rdi r
  | RBP => r_rbp r | R8 => r_r8 r | R9 => r_r9 r | R10 => r_r10 r | R11 => r_r11 r | R12 => r_r12 r
  | R13 => r_r13 r | R14 => r_r14 r | R15 => r_r15 r
  end.

(** The frame of machine [m]: number, error code and the words that follow it
    on the stack. *)
Definition frame_of (m : machine) (num err w0 w1 w2 w3 : Z) : regs :=
  mk_regs (flags_image (m_rflags m)) (gpr m R15) (gpr m R14) (gpr m R13) (gpr m R12) (gpr m R11) (gpr m R10)
    (gpr m R9) (gpr m R8) (gpr m RBP) (gpr m RDI) (gpr m RSI) (gpr m RDX) (gpr m RCX) (gpr m RBX) (gpr m RAX)
    num err w0 w1 w2 w3.

(** ** Lemmas *)

Lemma frame_words x a r : words_at x a (regs_words r) -> regs_at x a = r.
Proof.
  intros Hw. pose proof (fun i v => words_at_lookup x a (regs_words r) i v Hw) as Hl. clear Hw.
  unfold regs_at. destruct r. f_equal;
    match goal with |- load64 _ (_ + 8 * ?k) = _ => exact (Hl (Z.to_nat k) _ eq_refl) end.
Qed.

Lemma set_gprs_eta l m :
  set_gprs l m = mk_machine (gpr (set_gprs l m)) (m_rsp m) (m_rflags m) (m_cs m) (sel m) (gdtr m) (idtr m)
                   (m_tr m) (m_mem m).
Proof. revert m. induction l as [|p l IH]; intros m; [by destruct m|]. apply (IH (set_gpr p.1 p.2 m)). Qed.

Section common.
Context {W : Type}.
Variable addr : label -> Z.
Variable cfunction : cfun -> machine -> W -> option (machine * W).

(** The common part up to the call. *)
Lemma save_spec f after m w num err w0 w1 w2 w3 w4 :
  (forall r, in_u64 (gpr m r)) -> in_u64 (addr after) -> 136 <= m_rsp m < 2 ^ 64 ->
  words_at (m_mem m) (m_rsp m) [num; err; w0; w1; w2; w3; w4] ->
  exists mh,
    exec_block addr cfunction (map Push saved ++ [Pushfq; Mov_rsp RDI; Call f after]) m w =
      match cfunction f mh w with
      | Some (m', w') => Goto (top_word m') (drop_words 1 m') w'
      | None => Gone
      end /\
    m_rsp mh = m_rsp m - 136 /\ gpr mh RDI = m_rsp m - 128 /\
    words_at (m_mem mh) (m_rsp mh) (addr after :: regs_words (frame_of m num err w0 w1 w2 w3) ++ [w4]) /\
    m_rflags mh = m_rflags m /\ gdtr mh = gdtr m /\
    (forall b, b < m_rsp m - 136 \/ m_rsp m <= b -> rd (m_mem mh) b = rd (m_mem m) b).
Proof.
  intros Hg Ha Hr Hw. rewrite exec_app, exec_pushes.
  destruct (pushes_spec (map (gpr m) saved) m [num; err; w0; w1; w2; w3; w4]) as (x & E & Hx & Fx); auto.
  { by apply Forall_map, Forall_true. }
  { cbn [saved map length]. lia. }
  change (8 * Z.of_nat (length (map (gpr m) saved))) with 120 in *. rewrite E. cbn [exec_block step].
  destruct (push_spec (flags_image (m_rflags m)) (set_stack (m_rsp m - 120) x m)
    (rev (map (gpr m) saved) ++ [num; err; w0; w1; w2; w3; w4])) as (y & E1 & Hy & Fy);
    [apply clear_bits_range|cbn [set_stack m_rsp]; lia|done|].
  change (m_rflags (set_stack _ x m)) with (m_rflags m). rewrite E1. cbn [set_stack m_rsp m_mem] in E1, Hy, Fy |- *.
  set (m2 := set_gpr RDI _ _).
  destruct (push_spec (addr after) m2 (regs_words (frame_of m num err w0 w1 w2 w3) ++ [w4])) as (z & E2 & Hz & Fz);
    [done|cbn [m2 set_gpr set_stack m_rsp]; lia| |].
  { cbn [m2 set_gpr set_stack m_rsp m_mem]. exact Hy. }
  exists (push (addr after) m2). rewrite E2. cbn [m2 set_gpr set_stack m_rsp m_mem] in Hz, Fz |- *.
  split_and!; cbn [m2 set_stack set_gpr m_rsp m_mem gpr m_rflags gdtr]; try done; try lia.
  - by destruct (cfunction f _ w) as [[]|].
  - rewrite decide_True by done. lia.
  - intros b Hb. rewrite Fz, Fy, Fx by lia. done.
Qed.

(** What the common part restores from the frame [r] and the word [w4] that
    follows it: [iretq] takes the flags and the stack pointer from the words
    that [regs_t] calls [rsp] and [ss]. *)
Definition resumed (r : regs) (w4 : Z) (m mf : machine) : Prop :=
  (forall x, gpr mf x = frame_gpr r x) /\ m_rflags mf = r_rsp r /\ m_rsp mf = r_ss r /\
  m_cs mf = u16 (r_cs r) /\ sel mf SS = u16 w4 /\ (forall x, x <> SS -> sel mf x = sel m x) /\
  gdtr mf = gdtr m /\ idtr mf = idtr m /\ m_tr mf = m_tr m /\ m_mem mf = m_mem m.

(** The common part after the call. *)
Lemma restore_spec m w a r w4 :
  0 <= m_rsp m -> m_rsp m + 192 < 2 ^ 64 -> words_at (m_mem m) (m_rsp m) (a :: regs_words r ++ [w4]) ->
  exists mf,
    exec_block addr cfunction (Popfq :: map Pop (rev saved) ++ [Add_rsp 16; Iretq]) (drop_words 1 m) w =
      (if cs_ok m (u16 (r_cs r)) && ss_ok m (u16 w4) then Leave (r_rip r) mf w else Fault) /\
    resumed r w4 m mf.
Proof.
  intros H0 Hr [_ Hw]. unfold drop_words at 1. rewrite u64_small by lia.
  replace (m_rsp m + 8 * 1) with (m_rsp m + 8) by lia. rewrite exec_cons. cbn [step].
  unfold drop_words. cbn [set_stack m_rsp m_mem]. rewrite u64_small by lia.
  replace (m_rsp m + 8 + 8 * 1) with (m_rsp m + 16) by lia. rewrite exec_app, exec_pops.
  set (m1 := set_flags _ _).
  assert (words_at (m_mem m1) (m_rsp m1) (map (frame_gpr r) (rev saved) ++ [int_no r; err_code r; r_rip r; r_cs r; r_rsp r; r_ss r; w4])) as H1.
  { cbn [m1 set_flags set_stack m_rsp m_mem]. replace (m_rsp m + 16) with (m_rsp m + 8 + 8) by lia. exact (proj2 Hw). }
  apply words_at_app in H1 as [H1 H2].
  rewrite (pops_spec _ (map (frame_gpr r) (rev saved))); [|done|cbn [m1 set_flags set_stack m_rsp saved rev app length]; lia..|exact H1].
  change (8 * Z.of_nat (length (map (frame_gpr r) (rev saved)))) with 120 in H2.
  change (8 * Z.of_nat (length (rev saved))) with 120.
  rewrite set_gprs_eta. set (g := gpr (set_gprs _ m1)). cbn [m1 set_flags set_stack m_rsp m_rflags m_cs sel gdtr idtr m_tr m_mem gpr] in H2 |- *.
  cbn [exec_block step]. cbn [set_flags set_stack m_rsp m_rflags m_cs sel gdtr idtr m_tr m_mem gpr].
  rewrite u64_small by lia. replace (m_rsp m + 16 + 120 + 16) with (m_rsp m + 16 + 120 + 8 * 2) by lia.
  unfold iretq. cbn [set_flags set_stack m_rsp m_rflags m_cs sel gdtr idtr m_tr m_mem gpr].
  pose proof (fun i v => words_at_lookup _ _ _ i v H2) as Hl.
  rewrite !u64_small by lia.
  replace (m_rsp m + 16 + 120 + 8 * 2 + 8 * 0) with (m_rsp m + 16 + 120 + 8 * Z.of_nat 2) by lia.
  replace (m_rsp m + 16 + 120 + 8 * 2 + 8 * 1) with (m_rsp m + 16 + 120 + 8 * Z.of_nat 3) by lia.
  replace (m_rsp m + 16 + 120 + 8 * 2 + 8 * 2) with (m_rsp m + 16 + 120 + 8 * Z.of_nat 4) by lia.
  replace (m_rsp m + 16 + 120 + 8 * 2 + 8 * 3) with (m_rsp m + 16 + 120 + 8 * Z.of_nat 5) by lia.
  replace (m_rsp m + 16 + 120 + 8 * 2 + 8 * 4) with (m_rsp m + 16 + 120 + 8 * Z.of_nat 6) by lia.
  rewrite (Hl 2%nat _ eq_refl), (Hl 3%nat _ eq_refl), (Hl 4%nat _ eq_refl), (Hl 5%nat _ eq_refl), (Hl 6%nat _ eq_refl).
  eexists. split.
  - match goal with |- match (if ?b then _ else _) with _ => _ end = _ => change b with (cs_ok m (u16 (r_cs r)) && ss_ok m (u16 w4)) end.
    destruct (cs_ok m (u16 (r_cs r)) && ss_ok m (u16 w4)); reflexivity.
  - unfold resumed. cbn [set_sel set_cs set_flags set_stack m_rsp m_rflags m_cs sel gdtr idtr m_tr m_mem gpr].
    split_and!; try done. { by intros []. } { intros x Hx. by rewrite decide_False. }
Qed.
End common.

(** ** What a run relies on *)

(** The linker gave every label an address of its own. *)
Class Layout (addr : label -> Z) : Prop := {
  layout_at : forall l, l ∈ stub_labels -> label_at addr stub_labels (addr l) = Some l;
  layout_range : forall l, in_u64 (addr l)
}.

(** The bytes of the descriptor table are the same in both machines. *)
Definition same_table (m m' : machine) : Prop :=
  gdtr m' = gdtr m /\
  forall b, (gdtr m).2 <= b <= (gdtr m).2 + (gdtr m).1 -> rd (m_mem m') b = rd (m_mem m) b.

(** What a C function leaves alone that follows the calling convention and
    does not change its argument: the stack pointer, its return address, the
    frame, and the descriptor table.  All registers may change. *)
Definition keeps_frame (mh m' : machine) : Prop :=
  m_rsp m' = m_rsp mh /\ same_table mh m' /\
  forall b, m_rsp mh <= b < m_rsp mh + 192 -> rd (m_mem m') b = rd (m_mem mh) b.

(** A machine that can be interrupted at [rip]: values in range, room on the
    stack, selectors that were loaded from the table, and a table that is not
    on the stack. *)
Record interruptible (stack0 rip : Z) (m : machine) : Prop := {
  i_gpr : forall r, in_u64 (gpr m r);
  i_flags : in_u64 (m_rflags m);
  i_rsp : in_u64 (m_rsp m);
  i_rip : in_u64 rip;
  i_cs : 0 <= m_cs m < 2 ^ 16;
  i_ss : 0 <= sel m SS < 2 ^ 16;
  i_stack : 256 <= entry_stack stack0 m < 2 ^ 64;
  i_cs_ok : cs_ok m (m_cs m) = true;
  i_ss_ok : ss_ok m (sel m SS) = true;
  i_gdt : (gdtr m).2 + (gdtr m).1 < entry_stack stack0 m - 256 \/ entry_stack stack0 m <= (gdtr m).2
}.

(** The flags in the stubs: those of the gate, and [cli]. *)
Definition entry_flags (m : machine) : Z :=
  clear_bits EFLAGS_IF (clear_bits (EFLAGS_TF + EFLAGS_IF + EFLAGS_NT + EFLAGS_RF + EFLAGS_VM) (m_rflags m)).

Lemma same_table_trans m1 m2 m3 : same_table m1 m2 -> same_table m2 m3 -> same_table m1 m3.
Proof. intros [E1 H1] [E2 H2]. split; [congruence|]. intros b Hb. rewrite H2; [auto|]. by rewrite E1. Qed.

Lemma access_in_table m m' s : same_table m m' -> in_table m s = true -> access m' s = access m s.
Proof.
  intros [E H] Hs. unfold access. rewrite E. apply H. unfold in_table in Hs. apply andb_prop in Hs as [_ Hs].
  assert (0 <= Z.land s 0xFFF8) by (apply Z.land_nonneg; lia). apply Z.leb_le in Hs. lia.
Qed.

Lemma cs_ok_table m m' s : same_table m m' -> cs_ok m' s = cs_ok m s.
Proof.
  intros H. unfold cs_ok. assert (in_table m' s = in_table m s) as -> by (unfold in_table; by rewrite (proj1 H)).
  destruct (in_table m s) eqn:E; [by rewrite (access_in_table m m')|by rewrite !andb_false_r].
Qed.

Lemma ss_ok_table m m' s : same_table m m' -> ss_ok m' s = ss_ok m s.
Proof.
  intros H. unfold ss_ok. assert (in_table m' s = in_table m s) as -> by (unfold in_table; by rewrite (proj1 H)).
  destruct (in_table m s) eqn:E; [by rewrite (access_in_table m m')|done].
Qed.

(** The machine at the first instruction of a stub. *)
Lemma deliver_spec gate_cs stack0 err rip m :
  interruptible stack0 rip m -> Forall in_u64 (option_list err) ->
  let d := deliver gate_cs stack0 err rip m in
  m_rsp d = entry_stack stack0 m - 40 - 8 * Z.of_nat (length (option_list err)) /\
  words_at (m_mem d) (m_rsp d) (option_list err ++ [rip; m_cs m; m_rflags m; m_rsp m; sel m SS]) /\
  gpr d = gpr m /\ gdtr d = gdtr m /\
  m_rflags d = clear_bits (EFLAGS_TF + EFLAGS_IF + EFLAGS_NT + EFLAGS_RF + EFLAGS_VM) (m_rflags m) /\
  (forall b, b < m_rsp d \/ entry_stack stack0 m <= b -> rd (m_mem d) b = rd (m_mem m) b).
Proof.
  intros I He d. pose proof (i_stack _ _ _ I) as Hs. set (m0 := set_stack (entry_stack stack0 m) (m_mem m) m).
  assert (length (option_list err) <= 1)%nat as Hl by (destruct err; cbn; lia).
  destruct (pushes_spec ([sel m SS; m_rsp m; m_rflags m; m_cs m; rip] ++ option_list err) m0 []) as (x & E & Hx & Fx).
  { apply Forall_app. split; [|done]. pose proof (i_cs _ _ _ I). pose proof (i_ss _ _ _ I).
    repeat constructor; try apply I; unfold in_u64; lia. }
  { rewrite length_app. cbn [length m0 set_stack m_rsp]. lia. }
  { done. }
  rewrite length_app in E, Hx, Fx. cbn [length m0 set_stack m_rsp] in E, Hx, Fx.
  replace (entry_stack stack0 m - 8 * Z.of_nat (5 + length (option_list err)))
    with (entry_stack stack0 m - 40 - 8 * Z.of_nat (length (option_list err))) in E, Hx, Fx by lia.
  assert (m_rsp d = entry_stack stack0 m - 40 - 8 * Z.of_nat (length (option_list err)) /\ m_mem d = x /\
          gpr d = gpr m /\ gdtr d = gdtr m /\
          m_rflags d = clear_bits (EFLAGS_TF + EFLAGS_IF + EFLAGS_NT + EFLAGS_RF + EFLAGS_VM) (m_rflags m))
    as (D1 & D2 & D3 & D4 & D5).
  { unfold d, deliver. fold m0. rewrite E. by destruct (negb _). }
  rewrite D1, D2. split_and!; auto. rewrite rev_app_distr, app_nil_r in Hx. by destruct err.
Qed.

Section stubs.
Context {W : Type} (addr : label -> Z) `{Hlay : !Layout addr}.
Variable cfunction : cfun -> machine -> W -> option (machine * W).

Definition run_stub (l : label) (m : machine) (w : W) : outcome W :=
  run addr cfunction stub_code stub_labels 3 (addr l) m w.

(** How an interrupt ends whose stub showed [r] and the word [w4] to the
    handler [f] at machine [mh]: not at all, or with the frame restored, or
    with a fault of [iretq] when the selectors in the frame cannot be loaded. *)
Definition ends (f : cfun) (m mh : machine) (r : regs) (w4 : Z) (w : W) (o : outcome W) : Prop :=
  match cfunction f mh w with
  | None => o = Gone
  | Some (m', w') =>
    keeps_frame mh m' ->
    exists mf, o = (if cs_ok m (u16 (r_cs r)) && ss_ok m (u16 w4) then Leave (r_rip r) mf w' else Fault) /\
               resumed r w4 m' mf
  end.

(** From a stub's jump to the common part on. *)
Lemma common_run f common after l d m m1 w num err w0 w1 w2 w3 w4 :
  stub_code common = map Push saved ++ [Pushfq; Mov_rsp RDI; Call f after] ->
  stub_code after = Popfq :: map Pop (rev saved) ++ [Add_rsp 16; Iretq] ->
  l ∈ stub_labels -> common ∈ stub_labels -> after ∈ stub_labels ->
  exec_block addr cfunction (stub_code l) d w = Goto (addr common) m1 w ->
  (forall r, in_u64 (gpr m1 r)) -> 136 <= m_rsp m1 -> m_rsp m1 + 56 < 2 ^ 64 ->
  words_at (m_mem m1) (m_rsp m1) [num; err; w0; w1; w2; w3; w4] ->
  gdtr m1 = gdtr m ->
  (forall b, (gdtr m).2 <= b <= (gdtr m).2 + (gdtr m).1 ->
     (b < m_rsp m1 - 136 \/ m_rsp m1 <= b) /\ rd (m_mem m1) b = rd (m_mem m) b) ->
  exists mh, regs_at (m_mem mh) (gpr mh RDI) = frame_of m1 num err w0 w1 w2 w3 /\
    load64 (m_mem mh) (gpr mh RDI + sizeof_regs) = w4 /\
    m_rsp mh = gpr mh RDI - 8 /\ gpr mh RDI = m_rsp m1 - 128 /\ m_rflags mh = m_rflags m1 /\
    ends f m mh (frame_of m1 num err w0 w1 w2 w3) w4 w (run_stub l d w).
Proof.
  intros Ec Ea Hl Hc Ha He Hg Hr Hr2 Hw Ht Hd.
  destruct (save_spec addr cfunction f after m1 w num err w0 w1 w2 w3 w4) as (mh & Ex & R1 & R2 & Hwh & R3 & R4 & Fh);
    [done|apply layout_range|lia|done|].
  assert (same_table m mh) as Htab.
  { split; [congruence|]. intros b Hb. destruct (Hd b Hb) as [Hb1 <-]. apply Fh. lia. }
  assert (words_at (m_mem mh) (gpr mh RDI) (regs_words (frame_of m1 num err w0 w1 w2 w3) ++ [w4])) as Hf.
  { replace (gpr mh RDI) with (m_rsp mh + 8) by lia. exact (proj2 Hwh). }
  apply words_at_app in Hf as [Hf [Hf4 _]]. exists mh. split_and!; try lia; try done.
  { by apply frame_words. }
  unfold ends, run_stub. cbn [run]. rewrite (layout_at l) by done. rewrite He. rewrite (layout_at common), Ec, Ex by done.
  destruct (cfunction f mh w) as [[m' w']|]; [|done]. intros (K1 & K2 & K3).
  assert (words_at (m_mem m') (m_rsp m') (addr after :: regs_words (frame_of m1 num err w0 w1 w2 w3) ++ [w4])) as Hw'.
  { rewrite K1. revert Hwh. apply words_at_ext. intros b Hb. apply K3. cbn [length app regs_words] in Hb. lia. }
  destruct (restore_spec addr cfunction m' w' (addr after) (frame_of m1 num err w0 w1 w2 w3) w4) as (mf & Er & Hres);
    [lia..|done|].
  replace (top_word m') with (addr after) by (symmetry; exact (proj1 Hw')).
  rewrite (layout_at after), Ea, Er by done. exists mf. split; [|done].
  pose proof (same_table_trans _ _ _ Htab K2) as Htab'.
  rewrite (cs_ok_table m m'), (ss_ok_table m m') by done. match goal with |- _ = (if ?b then _ else _) => by destruct b end.
Qed.

(** [cli] and the words that a stub pushes, before its jump. *)
Lemma prologue_spec c d w vs common ws :
  c = Cli :: map Push_imm vs ++ [Jmp common] -> Forall in_u64 vs ->
  8 * Z.of_nat (length vs) <= m_rsp d < 2 ^ 64 -> words_at (m_mem d) (m_rsp d) ws ->
  exists m1, exec_block addr cfunction c d w = Goto (addr common) m1 w /\
    m_rsp m1 = m_rsp d - 8 * Z.of_nat (length vs) /\ words_at (m_mem m1) (m_rsp m1) (rev vs ++ ws) /\
    gpr m1 = gpr d /\ gdtr m1 = gdtr d /\ m_rflags m1 = clear_bits EFLAGS_IF (m_rflags d) /\
    (forall b, b < m_rsp m1 \/ m_rsp d <= b -> rd (m_mem m1) b = rd (m_mem d) b).
Proof.
  intros -> Hv Hr Hw. rewrite exec_cons. cbn [step]. set (d1 := set_flags _ d).
  assert (forall vs m, Forall in_u64 vs ->
    exec_block addr cfunction (map Push_imm vs ++ [Jmp common]) m w = Goto (addr common) (pushes vs m) w) as Hp.
  { clear. intros vs m Hv. revert m. induction Hv as [|v vs Hv Hvs IH]; intros m; [done|].
    cbn [map app]. rewrite exec_cons. cbn [step]. rewrite u64_small by exact Hv. apply IH. }
  rewrite Hp by done. destruct (pushes_spec vs d1 ws) as (x & E & Hx & Fx); [done..|].
  rewrite E. cbn [d1 set_flags m_rsp m_mem] in *. eexists. split; [reflexivity|]. by split_and!.
Qed.

(** The stub and the handler of a vector. *)
Definition vector_label (n : Z) : label := if n <? 32 then Isr n else Irq (n - 32).
Definition vector_handler (n : Z) : cfun := if n <? 32 then Isr_handler else Irq_handler.
Definition vector_common (n : Z) : label := if n <? 32 then Isr_common else Irq_common.
Definition vector_return (n : Z) : label := if n <? 32 then Isr_return else Irq_return.

Lemma vector_labels n :
  0 <= n < 48 ->
  (vector_label n ∈ stub_labels /\ vector_common n ∈ stub_labels /\ vector_return n ∈ stub_labels) /\
  stub_code (vector_common n) = map Push saved ++ [Pushfq; Mov_rsp RDI; Call (vector_handler n) (vector_return n)] /\
  stub_code (vector_return n) = Popfq :: map Pop (rev saved) ++ [Add_rsp 16; Iretq] /\
  stub_code (vector_label n) =
    Cli :: map Push_imm (if declared_error n then [n] else [0; n]) ++ [Jmp (vector_common n)].
Proof.
  intros Hn. unfold vector_label, vector_common, vector_return, vector_handler.
  assert (forall l, bool_decide (l ∈ stub_labels) = true -> l ∈ stub_labels) as Hl
    by (intros l; apply bool_decide_eq_true_1).
  destruct (Z.ltb_spec n 32).
  - split_and!; try done; try (apply Hl; vm_compute; reflexivity).
    + apply elem_of_app. right. apply elem_of_app. left. apply list_elem_of_fmap. exists n. split; [done|]. apply elem_of_seqZ. lia.
    + cbn [stub_code]. unfold isr_stub, ISR_ERR, ISR_NOERR. by destruct (declared_error n).
  - assert (declared_error n = false) as E.
    { unfold declared_error. apply bool_decide_eq_false. intros He. rewrite !elem_of_cons in He. destruct He as [|[|[|[|[|[|He]]]]]]; [lia..|]. by apply not_elem_of_nil in He. }
    split_and!; try done; try (apply Hl; vm_compute; reflexivity).
    + apply elem_of_app. left. apply list_elem_of_fmap. exists (n - 32). split; [done|]. apply elem_of_seqZ. lia.
    + rewrite E. cbn [stub_code map app]. unfold irq_stub, IRQ. do 4 f_equal. lia.
Qed.

(** A vector up to the common part, whether or not the processor pushed an
    error code. *)
Lemma vector_entry n err stack0 rip m w :
  0 <= n < 48 -> interruptible stack0 rip m -> Forall in_u64 (option_list err) ->
  let d := deliver 0x08 stack0 err rip m in
  let vs := if declared_error n then [n] else [0; n] in
  exists m1, exec_block addr cfunction (stub_code (vector_label n)) d w = Goto (addr (vector_common n)) m1 w /\
    m_rsp m1 = entry_stack stack0 m - 40 - 8 * Z.of_nat (length vs + length (option_list err)) /\
    words_at (m_mem m1) (m_rsp m1)
      (rev vs ++ option_list err ++ [rip; m_cs m; m_rflags m; m_rsp m; sel m SS]) /\
    gpr m1 = gpr m /\ gdtr m1 = gdtr m /\ m_rflags m1 = entry_flags m /\
    (forall b, b < m_rsp m1 \/ entry_stack stack0 m <= b -> rd (m_mem m1) b = rd (m_mem m) b).
Proof.
  intros Hn I He d vs. destruct (deliver_spec 0x08 stack0 err rip m) as (D1 & D2 & D3 & D4 & D5 & D6); [done..|]. fold d in D1, D2, D3, D4, D5, D6.
  pose proof (i_stack _ _ _ I) as Hs.
  assert (length (option_list err) <= 1)%nat by (destruct err; cbn; lia).
  assert (length vs <= 2)%nat by (unfold vs; destruct (declared_error n); cbn; lia).
  destruct (prologue_spec (stub_code (vector_label n)) d w vs (vector_common n)
    (option_list err ++ [rip; m_cs m; m_rflags m; m_rsp m; sel m SS])) as (m1 & E & R & Hw & G & T & F & M).
  - apply (vector_labels n Hn).
  - unfold vs. destruct (declared_error n); repeat constructor; unfold in_u64; lia.
  - lia.
  - done.
  - exists m1. split_and!; [done|lia|done|congruence..| |].
    + rewrite F, D5. done.
    + intros b Hb. rewrite M, D6 by lia. done.
Qed.

(** The machine continues where it was interrupted, with everything it had. *)
Definition same_context (m mf : machine) : Prop :=
  (forall x, gpr mf x = gpr m x) /\ m_rflags mf = m_rflags m /\ m_rsp mf = m_rsp m /\
  m_cs mf = m_cs m /\ sel mf SS = sel m SS.

Lemma entry_stack_aligned stack0 m : entry_stack stack0 m mod 16 = 0.
Proof. unfold entry_stack. rewrite land_lnot_15. apply Z.mod_mul. lia. Qed.

Lemma table_untouched stack0 rip m b :
  interruptible stack0 rip m -> (gdtr m).2 <= b <= (gdtr m).2 + (gdtr m).1 ->
  b < entry_stack stack0 m - 256 \/ entry_stack stack0 m <= b.
Proof. intros I Hb. pose proof (i_gdt _ _ _ I). lia. Qed.

(** A vector from the entry to the end, in terms of the words that its stub
    completes. *)
Lemma vector_run n err stack0 rip m w ec w0 w1 w2 w3 w4 rest :
  0 <= n < 48 -> interruptible stack0 rip m -> Forall in_u64 (option_list err) ->
  rev (if declared_error n then [n] else [0; n]) ++
    option_list err ++ [rip; m_cs m; m_rflags m; m_rsp m; sel m SS] =
  n :: ec :: w0 :: w1 :: w2 :: w3 :: w4 :: rest ->
  let r := frame_of (set_flags (entry_flags m) m) n ec w0 w1 w2 w3 in
  exists mh, regs_at (m_mem mh) (gpr mh RDI) = r /\ load64 (m_mem mh) (gpr mh RDI + sizeof_regs) = w4 /\
    m_rsp mh = gpr mh RDI - 8 /\ m_rsp mh = entry_stack stack0 m - 192 - 8 * Z.of_nat (length rest) /\
    Z.testbit (m_rflags mh) 9 = false /\
    ends (vector_handler n) m mh r w4 w (run_stub (vector_label n) (deliver 0x08 stack0 err rip m) w).
Proof.
  intros Hn I He Hws r. destruct (vector_labels n Hn) as ((L1 & L2 & L3) & C1 & C2 & _).
  destruct (vector_entry n err stack0 rip m w Hn I He) as (m1 & E & R & Hw & G & T & F & M).
  pose proof (i_stack _ _ _ I) as Hs. set (d := deliver 0x08 stack0 err rip m) in *.
  assert (m_rsp m1 = entry_stack stack0 m - 56 - 8 * Z.of_nat (length rest) /\ (length rest <= 1)%nat) as [R' Hl].
  { apply (f_equal length) in Hws. rewrite !length_app, length_rev in Hws. cbn [length] in Hws.
    assert (length (option_list err) <= 1)%nat by (destruct err; cbn; lia).
    assert (Z.of_nat (length (if declared_error n then [n] else [0; n])) <= 2) by (destruct (declared_error n); cbn; lia). lia. }
  rewrite Hws in Hw. apply (words_at_app _ _ [n; ec; w0; w1; w2; w3; w4]) in Hw as [Hw _].
  destruct (common_run (vector_handler n) (vector_common n) (vector_return n) (vector_label n) d m m1 w
    n ec w0 w1 w2 w3 w4) as (mh & H1 & H2 & H3 & H4 & H5 & H6); try done; try lia.
  { rewrite G. apply I. }
  { intros b Hb. destruct (table_untouched _ _ _ _ I Hb); split; try lia; apply M; lia. }
  assert (frame_of m1 n ec w0 w1 w2 w3 = r) as Hf by (unfold r, frame_of; by rewrite G, F).
  rewrite Hf in H1, H6. exists mh. split_and!; try done; [lia|].
  rewrite H5, F. by apply clear_bits_testbit.
Qed.
End stubs.

Section properties.
Context {W : Type} (addr : label -> Z) `{Hlay : !Layout addr}.
Variable cfunction : cfun -> machine -> W -> option (machine * W).

(** An exception or interrupt whose stub agrees with the processor about
    the error code (all of 0 to 47 but 17, 21, 29 and 30) calls its handler
    with interrupts off and with a pointer to a [regs_t] that holds the vector,
    the error code or 0, the registers, instruction pointer and code selector
    of the interrupted program.  When the handler returns and keeps its frame,
    whatever it does to the registers, the program continues at the same
    instruction with every register, the flags, the stack and both selectors
    as they were; when the handler does not return, neither does the stub.
    The words that [regs_t] names [rsp] and [ss] are the saved flags and the
    saved stack pointer, and [rflags] are the flags inside the stub; the call
    is made with the stack 8 bytes off the alignment of the calling
    convention. *)
Theorem interrupt_roundtrip n err stack0 rip m w :
  0 <= n < 48 -> interruptible stack0 rip m ->
  declared_error n = pushes_error n -> pushes_error n = bool_decide (is_Some err) ->
  Forall in_u64 (option_list err) ->
  exists mh,
    regs_at (m_mem mh) (gpr mh RDI) =
      frame_of (set_flags (entry_flags m) m) n (default 0 err) rip (m_cs m) (m_rflags m) (m_rsp m) /\
    load64 (m_mem mh) (gpr mh RDI + sizeof_regs) = sel m SS /\
    m_rsp mh = gpr mh RDI - 8 /\ m_rsp mh mod 16 = 0 /\ Z.testbit (m_rflags mh) 9 = false /\
    match cfunction (vector_handler n) mh w with
    | None => run_stub addr cfunction (vector_label n) (deliver 0x08 stack0 err rip m) w = Gone
    | Some (m', w') =>
      keeps_frame mh m' ->
      exists mf, run_stub addr cfunction (vector_label n) (deliver 0x08 stack0 err rip m) w = Leave rip mf w' /\
        same_context m mf
    end.
Proof.
  intros Hn I Hdec Herr He.
  destruct (vector_run addr cfunction n err stack0 rip m w (default 0 err) rip (m_cs m) (m_rflags m) (m_rsp m) (sel m SS) [])
    as (mh & H1 & H2 & H3 & H4 & H5 & H6); [done..| |].
  { rewrite Hdec, Herr. by destruct err. }
  exists mh. split_and!; try done.
  { rewrite H4. pose proof (entry_stack_aligned stack0 m). cbn [length]. zlia. }
  unfold ends in H6. destruct (cfunction _ mh w) as [[m' w']|]; [|done]. intros K.
  destruct (H6 K) as (mf & Hrun & Q1 & Q2 & Q3 & Q4 & Q5 & _). exists mf.
  assert (u16 (m_cs m) = m_cs m) as Ec by (apply Z.mod_small, I).
  assert (u16 (sel m SS) = sel m SS) as Es by (apply Z.mod_small, I).
  cbn [frame_of r_cs r_rip r_rsp r_ss] in Hrun, Q2, Q3, Q4.
  rewrite Ec, Es, (i_cs_ok _ _ _ I), (i_ss_ok _ _ _ I) in Hrun. rewrite Ec in Q4. rewrite Es in Q5.
  split; [exact Hrun|]. unfold same_context. split_and!; try done. intros x. rewrite Q1. by destruct x.
Qed.

(** C39: For the exceptions 17, 21, 29 and 30 the processor pushes an error
    code [e] that their stubs do not expect: the handler sees the error code 0,
    the real one as the instruction pointer and the instruction pointer as the
    code selector, and a handler that returns is followed by an [iretq] that
    faults, unless the low halves of the instruction pointer and of the stack
    pointer happen to be selectors, and then goes to the address [e]. *)
Theorem unexpected_error_code n e stack0 rip m w :
  In n [17; 21; 29; 30] -> interruptible stack0 rip m -> in_u64 e ->
  exists mh,
    regs_at (m_mem mh) (gpr mh RDI) =
      frame_of (set_flags (entry_flags m) m) n 0 e rip (m_cs m) (m_rflags m) /\
    forall m' w', cfunction Isr_handler mh w = Some (m', w') -> keeps_frame mh m' ->
      exists mf, run_stub addr cfunction (Isr n) (deliver 0x08 stack0 (Some e) rip m) w =
        (if cs_ok m (u16 rip) && ss_ok m (u16 (m_rsp m)) then Leave e mf w' else Fault).
Proof.
  intros Hn I He. assert (0 <= n < 32 /\ declared_error n = false) as [Hr Hd].
  { cbn [In] in Hn. destruct Hn as [<-|[<-|[<-|[<-|[]]]]]; done. }
  destruct (vector_run addr cfunction n (Some e) stack0 rip m w 0 e rip (m_cs m) (m_rflags m) (m_rsp m) [sel m SS])
    as (mh & H1 & H2 & H3 & H4 & H5 & H6); [lia|done|by constructor|by rewrite Hd|].
  exists mh. split; [done|]. intros m' w' Hc K. unfold vector_handler, vector_label in H6.
  rewrite (proj2 (Z.ltb_lt n 32)) in H6 by lia. unfold ends in H6. rewrite Hc in H6.
  destruct (H6 K) as (mf & Hrun & _). by exists mf.
Qed.
End properties.

(** ** Loading the tables *)

(** The eight bytes of a descriptor ([gdt_entry_t] is packed). *)
Definition gdt_entry_bytes (e : gdt_entry) : list Z :=
  [u8 (g_limit_low e); u8 (g_limit_low e / 256); u8 (g_base_low e); u8 (g_base_low e / 256);
   u8 (g_base_middle e); u8 (g_access e); u8 (g_limit_high e + 16 * g_granularity e); u8 (g_base_high e)].

Definition table_bytes (s : kstate) : list Z :=
  flat_map (fun i => gdt_entry_bytes (default gdt_zero (gdt_entries (s_gdt s) !! i))) [0; 1; 2; 3; 4; 5; 6; 7; 8].

(** The machine's memory holds the kernel's [gdt.entries] at [base] and
    [gdt.ptr] at [p]. *)
Definition holds_table (s : kstate) (base p : Z) (x : mem) : Prop :=
  read_bytes x base 72 = table_bytes s /\ load16 x p = gdt_limit (s_gdt s) /\ load64 x (p + 2) = base.

Lemma rd_listed x a n i v : read_bytes x a n !! i = Some v -> rd x (a + Z.of_nat i) = v.
Proof.
  intros Hi. pose proof (lookup_lt_Some _ _ _ Hi) as Hn. rewrite length_read_bytes in Hn.
  rewrite read_bytes_lookup in Hi by done. congruence.
Qed.

Lemma gdt_install_access s :
  wp gdt_install s (fun _ s' => gdt_limit (s_gdt s') = 71 /\
    forall base p x, holds_table s' base p x ->
      rd x (base + 0x0D) = 0x9A /\ rd x (base + 0x15) = 0x92 /\ rd x (base + 0x25) = 0xF2 /\
      rd x (base + 0x2D) = 0xFA /\ rd x (base + 0x35) = 0x89) no_panic.
Proof.
  unfold wp. cbn -[lookup insert Z.land Z.shiftr Z.shiftl Z.add u32 u64 u16 holds_table rd]. split; [done|].
  intros base p x [Hb _]. pose proof (fun i v => rd_listed x base 72 i v) as Hl. rewrite Hb in Hl.
  split_and!; [apply (Hl 13%nat)|apply (Hl 21%nat)|apply (Hl 37%nat)|apply (Hl 45%nat)|apply (Hl 53%nat)]; clear; unfold table_bytes;
    cbn [flat_map]; cbn [on_gdt set_gdt s_gdt set_gdt_entries gdt_entries]; by simplify_map_eq.
Qed.

Section loading.
Context {W : Type} (addr : label -> Z) `{Hlay : !Layout addr}.
Variable cfunction : cfun -> machine -> W -> option (machine * W).

Lemma low_half_word v k : 0 <= k < 2 ^ 16 -> u16 (v / 2 ^ 16 * 2 ^ 16 + u16 k) = k.
Proof. intros Hk. unfold u16. rewrite (Z.mod_small k) by done. rewrite Z.add_comm, Z.mod_add by lia. by apply Z.mod_small. Qed.

(** The part after the far return. *)
Lemma reload_cs_spec m w ra ws :
  ds_ok m 0x10 = true -> ss_ok m 0x10 = true -> 0 <= m_rsp m -> m_rsp m + 8 < 2 ^ 64 ->
  words_at (m_mem m) (m_rsp m) (ra :: ws) ->
  exists mf, exec_block addr cfunction reload_cs m w = Leave ra mf w /\
    (forall r, r <> RAX -> gpr mf r = gpr m r) /\ (forall s, sel mf s = 0x10) /\ m_rsp mf = m_rsp m + 8 /\
    m_cs mf = m_cs m /\ m_rflags mf = m_rflags m /\ gdtr mf = gdtr m /\ idtr mf = idtr m /\ m_mem mf = m_mem m.
Proof.
  intros Hds Hss H0 Hr [Hra _]. unfold reload_cs. rewrite exec_cons. cbn [step].
  set (m1 := set_gpr RAX _ m).
  assert (u16 (gpr m1 RAX) = 0x10) as Hax.
  { cbn [m1 set_gpr gpr]. rewrite decide_True by done. by apply low_half_word. }
  assert (forall s c n w, gdtr n = gdtr m -> m_mem n = m_mem m -> gpr n = gpr m1 ->
    exec_block addr cfunction (Mov_sreg RAX s :: c) n w = exec_block addr cfunction c (set_sel s 0x10 n) w) as Hmov.
  { intros s c n v Hg Hm Hn. rewrite exec_cons. cbn [step]. rewrite Hn, Hax. unfold load_sreg.
    assert (same_table m n) as Ht by (split; [done|]; by rewrite Hm).
    assert (ds_ok n 0x10 = ds_ok m 0x10) as Ed by (unfold ds_ok, in_table, access; by rewrite Hg, Hm).
    rewrite (ss_ok_table m n), Ed, Hds, Hss by done. by destruct s. }
  do 5 (rewrite Hmov by done). cbn [exec_block step]. eexists. split; [rewrite <- Hra; reflexivity|].
  unfold drop_words.
  cbn [set_sel set_stack set_gpr m1 m_rsp m_mem gpr sel m_cs m_rflags gdtr idtr].
  rewrite u64_small by lia. split_and!; try done.
  - intros r Hr'. by rewrite decide_False.
  - by intros [].
Qed.

Lemma label_known l : bool_decide (l ∈ stub_labels) = true -> label_at addr stub_labels (addr l) = Some l.
Proof. intros H. by apply layout_at, (bool_decide_eq_true_1 _ H). Qed.

(** [gdt_flush] up to the far return, on a table with a code descriptor at
    0x08. *)
Lemma gdt_flush_exec m w base ra :
  load_table m RDI = (71, base) -> rd (m_mem m) (base + 0x0D) = 0x9A ->
  16 <= m_rsp m -> m_rsp m + 8 < 2 ^ 64 -> base + 72 <= m_rsp m - 16 \/ m_rsp m <= base ->
  load64 (m_mem m) (m_rsp m) = ra ->
  exists m4, exec_block addr cfunction gdt_flush m w = Goto (addr Reload_cs) m4 w /\
    (forall r, r <> RAX -> gpr m4 r = gpr m r) /\ m_rsp m4 = m_rsp m /\ m_cs m4 = 0x08 /\
    m_rflags m4 = m_rflags m /\ gdtr m4 = (71, base) /\ idtr m4 = idtr m /\ load64 (m_mem m4) (m_rsp m) = ra /\
    (forall b, b < m_rsp m - 16 \/ m_rsp m <= b -> rd (m_mem m4) b = rd (m_mem m) b).
Proof.
  intros Ht Hcs Hr Hr2 Hdis Hra. unfold gdt_flush.
  rewrite exec_cons. cbn [step]. rewrite Ht, exec_cons. cbn [step]. set (m1 := set_tables _ _ m).
  destruct (push_spec (u64 8) m1 [ra]) as (x & E & Hx & Fx); [done|cbn; lia|done|].
  rewrite E, exec_cons. cbn [step]. set (m2 := set_gpr RAX _ _). rewrite exec_cons. cbn [step].
  assert (gpr m2 RAX = addr Reload_cs) as -> by (cbn [m2 set_gpr gpr]; by rewrite decide_True).
  destruct (push_spec (addr Reload_cs) m2 [u64 8; ra]) as (y & E2 & Hy & Fy);
    [apply layout_range|cbn [m2 m1 set_gpr set_stack set_tables m_rsp]; lia|exact Hx|].
  rewrite E2. cbn [exec_block step]. cbn [m2 m1 set_gpr set_stack set_tables m_rsp m_mem] in Hx, Fx, Hy, Fy |- *.
  destruct Hy as (Y1 & Y2 & Y3 & _). rewrite u64_small by lia. rewrite Y2. change (u16 (u64 8)) with 0x08.
  assert (forall b, b < m_rsp m - 16 \/ m_rsp m <= b -> rd y b = rd (m_mem m) b) as Fm.
  { intros b Hb. rewrite Fy, Fx by lia. done. }
  set (m3 := set_stack _ y _). assert (cs_ok m3 0x08 = true) as ->.
  { unfold cs_ok, in_table, access. cbn [m3 m2 set_gpr set_stack set_tables gdtr fst snd m_mem].
    change (m1.(gdtr)) with (71, base). cbn [fst snd]. rewrite <- Z.add_assoc. change (Z.land 8 65528 + 5) with 0x0D.
    rewrite Fm, Hcs by lia. done. }
  eexists. split. { f_equal. exact Y1. }
  unfold drop_words. cbn [m3 m2 m1 set_cs set_gpr set_stack set_tables gpr m_rsp m_mem m_cs m_rflags gdtr idtr].
  rewrite u64_small by lia. split_and!; try done; try lia.
  - intros r Hr'. by rewrite decide_False.
  - rewrite <- Y3. f_equal. lia.
Qed.

Lemma gdt_flush_run m w base ra :
  load_table m RDI = (71, base) -> rd (m_mem m) (base + 0x0D) = 0x9A -> rd (m_mem m) (base + 0x15) = 0x92 ->
  16 <= m_rsp m -> m_rsp m + 8 < 2 ^ 64 -> base + 72 <= m_rsp m - 16 \/ m_rsp m <= base ->
  load64 (m_mem m) (m_rsp m) = ra ->
  exists mf, run_stub addr cfunction Gdt_flush m w = Leave ra mf w /\
    (forall r, r <> RAX -> gpr mf r = gpr m r) /\ (forall s, sel mf s = 0x10) /\ m_rsp mf = m_rsp m + 8 /\
    m_cs mf = 0x08 /\ m_rflags mf = m_rflags m /\ gdtr mf = (71, base) /\ idtr mf = idtr m /\
    (forall b, b < m_rsp m - 16 \/ m_rsp m <= b -> rd (m_mem mf) b = rd (m_mem m) b).
Proof.
  intros Ht Hcs Hds Hr Hr2 Hdis Hra.
  destruct (gdt_flush_exec m w base ra) as (m4 & E & G1 & G2 & G3 & G4 & G5 & G6 & G7 & G8); try done.
  assert (access m4 0x10 = 0x92) as Ha.
  { unfold access. rewrite G5. cbn [snd]. rewrite <- Z.add_assoc. change (Z.land 16 65528 + 5) with 0x15.
    by rewrite G8 by lia. }
  destruct (reload_cs_spec m4 w ra []) as (mf & Ef & F1 & F2 & F3 & F4 & F5 & F6 & F7 & F8); try lia.
  - unfold ds_ok, in_table. by rewrite G5, Ha.
  - unfold ss_ok, in_table. by rewrite G5, Ha.
  - rewrite G2. by split.
  - exists mf. unfold run_stub. cbn [run]. rewrite label_known by done. cbn [stub_code]. rewrite E, label_known by done.
    cbn [stub_code]. rewrite Ef. split_and!; try congruence.
    + intros r Hr'. by rewrite F1, G1.
    + rewrite F8. exact G8.
Qed.

(** [tss_flush] on a table with an available task state segment at 0x30. *)
Lemma tss_flush_run m w base ra :
  gdtr m = (71, base) -> rd (m_mem m) (base + 0x35) = 0x89 ->
  0 <= m_rsp m -> m_rsp m + 8 < 2 ^ 64 -> load64 (m_mem m) (m_rsp m) = ra ->
  base + 72 <= m_rsp m \/ m_rsp m + 8 <= base ->
  exists mf, run_stub addr cfunction Tss_flush m w = Leave ra mf w /\ m_tr mf = 0x30 /\ m_rsp mf = m_rsp m + 8 /\
    (forall r, r <> RAX -> gpr mf r = gpr m r) /\ sel mf = sel m /\ m_cs mf = m_cs m /\ gdtr mf = gdtr m /\
    (forall b, rd (m_mem mf) b = if b =? base + 0x35 then 0x8B else rd (m_mem m) b).
Proof.
  intros Ht Ha H0 Hr Hra Hdis. unfold run_stub. cbn [run]. rewrite label_known by done. cbn [stub_code]. unfold tss_flush.
  rewrite exec_cons. cbn [step]. set (m1 := set_gpr RAX _ m). rewrite exec_cons. cbn [step].
  assert (u16 (gpr m1 RAX) = 0x30) as ->.
  { cbn [m1 set_gpr gpr]. rewrite decide_True by done. by apply low_half_word. }
  assert (access m1 0x30 = 0x89) as Hac.
  { unfold access. cbn [m1 set_gpr gdtr m_mem]. rewrite Ht. cbn [snd]. rewrite <- Z.add_assoc. exact Ha. }
  assert (tss_ok m1 0x30 = true) as ->.
  { unfold tss_ok. rewrite Hac. unfold in_table. cbn [m1 set_gpr gdtr]. by rewrite Ht. }
  rewrite Hac. cbn [exec_block step]. unfold top_word, drop_words. cbn [m1 set_tr set_stack set_gpr m_mem m_rsp gdtr].
  rewrite Ht. cbn [snd]. rewrite <- Z.add_assoc. change (Z.land 48 65528 + 5) with 0x35. change (Z.lor 137 2) with 0x8B.
  rewrite u64_small by lia. eexists. split.
  { f_equal. rewrite <- Hra. apply load64_ext. intros b Hb. rewrite rd_wr. destruct (Z.eqb_spec b (base + 0x35)); [lia|done]. }
  cbn [m1 set_tr set_stack set_gpr m_mem m_rsp gdtr gpr sel m_cs m_tr]. split_and!; try done; try lia.
  - intros r Hr'. by rewrite decide_False.
  - intros b. by rewrite rd_wr.
Qed.

(** [switch_to_user] on a table with a code descriptor at 0x28 and a writable
    data descriptor at 0x20. *)
Lemma switch_to_user_run m w base :
  gdtr m = (71, base) -> rd (m_mem m) (base + 0x25) = 0xF2 -> rd (m_mem m) (base + 0x2D) = 0xFA ->
  in_u64 (gpr m RDI) -> in_u64 (gpr m RSI) -> 40 <= m_rsp m < 2 ^ 64 ->
  base + 72 <= m_rsp m - 40 \/ m_rsp m <= base ->
  exists mf, run_stub addr cfunction Switch_to_user m w = Leave (gpr m RDI) mf w /\ m_rsp mf = gpr m RSI /\
    m_cs mf = 0x2B /\ sel mf SS = 0x23 /\ m_rflags mf = 0x200 /\ gpr mf = gpr m.
Proof.
  intros Ht Hd Hc Hi Hs Hr Hdis. unfold run_stub. cbn [run]. rewrite label_known by done. cbn [stub_code].
  change switch_to_user_code with ([Push_imm 0x23; Push RSI; Push_imm 0x200; Push_imm 0x2B; Push RDI] ++ [Iretq]).
  rewrite exec_app. assert (forall n, exec_block addr cfunction
    [Push_imm 0x23; Push RSI; Push_imm 0x200; Push_imm 0x2B; Push RDI] n w =
    Next (pushes [0x23; gpr n RSI; 0x200; 0x2B; gpr n RDI] n) w) as -> by done.
  destruct (pushes_spec [0x23; gpr m RSI; 0x200; 0x2B; gpr m RDI] m []) as (x & E & Hx & Fx);
    [do 5 (apply Forall_cons_2; [done || (unfold in_u64; lia)|]); apply Forall_nil_2|cbn [length]; lia|done|].
  change (8 * Z.of_nat (length [0x23; gpr m RSI; 0x200; 0x2B; gpr m RDI])) with 40 in E, Hx, Fx.
  cbn [rev app] in Hx. rewrite E. cbn [exec_block step]. unfold iretq. cbn [set_stack m_rsp m_mem].
  pose proof (fun i v => words_at_lookup _ _ _ i v Hx) as Hl. rewrite !u64_small by lia.
  rewrite (Hl 0%nat _ eq_refl : load64 x (m_rsp m - 40 + 8 * 0) = _), (Hl 1%nat _ eq_refl : load64 x (m_rsp m - 40 + 8 * 1) = _),
    (Hl 2%nat _ eq_refl : load64 x (m_rsp m - 40 + 8 * 2) = _), (Hl 3%nat _ eq_refl : load64 x (m_rsp m - 40 + 8 * 3) = _),
    (Hl 4%nat _ eq_refl : load64 x (m_rsp m - 40 + 8 * 4) = _).
  change (u16 0x2B) with 0x2B. change (u16 0x23) with 0x23. set (m1 := set_stack _ x m) at 1 2.
  assert (access m1 0x2B = 0xFA /\ access m1 0x23 = 0xF2) as [A1 A2].
  { unfold access. cbn [m1 set_stack gdtr m_mem]. rewrite Ht. cbn [snd]. rewrite <- !Z.add_assoc.
    change (Z.land 0x2B 65528 + 5) with 0x2D. change (Z.land 0x23 65528 + 5) with 0x25. rewrite !Fx by lia. done. }
  assert (cs_ok m1 0x2B && ss_ok m1 0x23 = true) as ->.
  { unfold cs_ok, ss_ok. rewrite A1, A2. unfold in_table. cbn [m1 set_stack gdtr]. by rewrite Ht. }
  eexists. split; [reflexivity|]. done.
Qed.
End loading.

Section loaded.
Context {W : Type} (addr : label -> Z) `{Hlay : !Layout addr}.
Variable cfunction : cfun -> machine -> W -> option (machine * W).

(** C25: With the table that [gdt_install] builds in memory, [gdt_flush] called
    with the address of [gdt.ptr] returns to its caller with the table loaded,
    the kernel's code selector in CS and its data selector in all data segment
    registers, and [tss_flush] then loads the task register and marks the task
    state segment busy; afterwards [switch_to_user] enters user mode at the
    given entry and stack with the user's selectors and interrupts on.  Nothing
    faults, and no memory changes but the stack and the busy bit. *)
Theorem segments_loaded (s : kstate) :
  wp gdt_install s (fun _ s' => forall base p m w ra ra',
    holds_table s' base p (m_mem m) -> gpr m RDI = p -> load64 (m_mem m) (m_rsp m) = ra -> in_u64 ra' ->
    48 <= m_rsp m -> m_rsp m + 8 < 2 ^ 64 -> base + 72 <= m_rsp m - 48 \/ m_rsp m + 8 <= base ->
    exists m1 m2, run_stub addr cfunction Gdt_flush m w = Leave ra m1 w /\ gdtr m1 = (8 * 9 - 1, base) /\
      m_cs m1 = 0x08 /\ (forall r, sel m1 r = 0x10) /\ m_rsp m1 = m_rsp m + 8 /\
      run_stub addr cfunction Tss_flush (push ra' m1) w = Leave ra' m2 w /\ m_tr m2 = 0x30 /\
      m_rsp m2 = m_rsp m1 /\ m_cs m2 = 0x08 /\
      (forall b, b < m_rsp m - 16 \/ m_rsp m + 8 <= b ->
         rd (m_mem m2) b = if b =? base + 0x35 then 0x8B else rd (m_mem m) b) /\
      forall entry stack, in_u64 entry -> in_u64 stack ->
        exists mu, run_stub addr cfunction Switch_to_user (set_gpr RSI stack (set_gpr RDI entry m2)) w = Leave entry mu w /\
          m_rsp mu = stack /\ m_cs mu = 0x2B /\ sel mu SS = 0x23 /\ m_rflags mu = 0x200) no_panic.
Proof.
  eapply wp_mono; [apply gdt_install_access| |done]. intros [] s' [Hlim Hacc] base p m w ra ra' Hold Hp Hra Hra' Hr Hr2 Hdis.
  destruct (Hacc _ _ _ Hold) as (A1 & A2 & A3 & A4 & A5).
  destruct (gdt_flush_run addr cfunction m w base ra) as (m1 & E1 & F1 & F2 & F3 & F4 & F5 & F6 & F7 & F8); try done; try lia.
  { unfold load_table. rewrite Hp, <- Hlim. destruct Hold as (_ & -> & ->). done. }
  destruct (push_spec ra' m1 []) as (x & Ex & [Hx _] & Fx); [done|lia|done|].
  destruct (tss_flush_run addr cfunction (push ra' m1) w base ra') as (m2 & E2 & T1 & T2 & T3 & T4 & T5 & T6 & T7).
  - by rewrite Ex.
  - rewrite Ex. cbn [set_stack m_mem]. by rewrite Fx, F8 by lia.
  - rewrite Ex. cbn [set_stack m_rsp]. lia.
  - rewrite Ex. cbn [set_stack m_rsp]. lia.
  - by rewrite Ex.
  - rewrite Ex. cbn [set_stack m_rsp]. lia.
  - rewrite Ex in T2, T4, T5, T6, T7. cbn [set_stack m_rsp m_mem m_cs gdtr] in T2, T4, T5, T6, T7.
    assert (forall b, b < m_rsp m - 16 \/ m_rsp m + 8 <= b ->
         rd (m_mem m2) b = if b =? base + 0x35 then 0x8B else rd (m_mem m) b) as Hm.
    { intros b Hb. rewrite T7. destruct (b =? base + 0x35); [done|]. rewrite Fx, F8 by lia. done. }
    exists m1, m2. split_and!; try done; try congruence; [lia|].
    intros entry stack He Hst.
    destruct (switch_to_user_run addr cfunction (set_gpr RSI stack (set_gpr RDI entry m2)) w base) as (mu & Eu & U);
      cbn [set_gpr gdtr m_mem gpr m_rsp]; try done; try lia.
    + congruence.
    + rewrite Hm by lia. destruct (Z.eqb_spec (base + 0x25) (base + 0x35)); [lia|done].
    + rewrite Hm by lia. destruct (Z.eqb_spec (base + 0x2D) (base + 0x35)); [lia|done].
    + exists mu. cbn [set_gpr gpr] in Eu, U. split_and!; [exact Eu|apply U..].
Qed.
End loaded.
