(* ===== verification/Ubsan.v ===== *)
(** * The handlers of the compiler's checks (kernel/system/ubsan.c)

    The kernel is built with checks for undefined behaviour and for a smashed
    stack; the code that the compiler inserts calls one of these functions when
    a check fails.  Each ends in [panic] with a message of its own; what some
    print before that is left out, as everywhere. *)

From S2P Require Import Prelude State.

(** The value that the prologue of a function puts on the stack. *)
Definition stack_chk_guard : Z := 0x17701369420BABE.

Definition stack_chk_fail {A} : M A := panic "stack smashing detected".

Definition ubsan_handle_pointer_overflow : M unit := panic "pointer overflow detected".
Definition ubsan_handle_type_mismatch_v1 (ptr : Z) : M unit := panic "type mismatch detected".
Definition ubsan_handle_function_type_mismatch : M unit := panic "function type mismatch detected".
Definition ubsan_handle_load_invalid_value : M unit := panic "load invalid value detected".
Definition ubsan_handle_divrem_overflow : M unit := panic "division/remainder overflow detected".
Definition ubsan_handle_shift_out_of_bounds : M unit := panic "shift out of bounds detected".
Definition ubsan_handle_out_of_bounds : M unit := panic "out of bounds detected".
Definition ubsan_handle_add_overflow : M unit := panic "addition overflow detected".
Definition ubsan_handle_sub_overflow : M unit := panic "subtraction overflow detected".
Definition ubsan_handle_mul_overflow : M unit := panic "multiplication overflow detected".
Definition ubsan_handle_negate_overflow : M unit := panic "negation overflow detected".
Definition ubsan_handle_invalid_builtin : M unit := panic "invalid builtin detected".
Definition ubsan_handle_builtin_unreachable : M unit := panic "unreachable builtin executed".
