(* ===== verification/Libc.v ===== *)
(** * kernel/libc/string

    The memory functions over [s_mem], with the assertions [memcpy] makes, and
    the string functions twice: over memory, the way the C loops walk it, and
    over the list of a string's bytes, the form in which the file systems of
    this development compare paths.  The theorems relate the two. *)

From S2P Require Import Prelude Memory State.

(** ** Memory functions *)

Definition memset (p c n : Z) : M Z :=
  modify (on_mem (fun m => memset_loop m p c (Z.to_nat n)));;; ret p.

Definition memcpy (dest src n : Z) : M Z :=
  ASSERT (negb (dest =? 0));;;
  ASSERT (negb (src =? 0));;;
  ASSERT (0 <? n);;;
  modify (on_mem (fun m => copy_fwd m dest src (Z.to_nat n)));;;
  ret dest.

Definition memmove_mem (m : mem) (dest src : Z) (n : nat) : mem :=
  if dest <? src then copy_fwd m dest src n
  else if src <? dest then copy_bwd m dest src n
  else m.

Definition memmove (dest src n : Z) : M Z :=
  modify (on_mem (fun m => memmove_mem m dest src (Z.to_nat n)));;; ret dest.

Fixpoint memcmp_loop (m : mem) (p1 p2 : Z) (n : nat) : Z :=
  match n with
  | O => 0
  | S n =>
    if negb (rd m p1 =? rd m p2) then (if rd m p1 <? rd m p2 then -1 else 1)
    else memcmp_loop m (p1 + 1) (p2 + 1) n
  end.

Definition memcmp (s1 s2 n : Z) : M Z :=
  gets (fun s => memcmp_loop (s_mem s) s1 s2 (Z.to_nat n)).

(** ** String functions over memory

    [fuel] bounds the length of the walk; [None] when it is used up. *)

Fixpoint strlen_mem (fuel : nat) (m : mem) (s : Z) : option Z :=
  match fuel with
  | O => None
  | S fuel => if rd m s =? 0 then Some 0 else n ← strlen_mem fuel m (s + 1); Some (n + 1)
  end.

Fixpoint strcmp_mem (fuel : nat) (m : mem) (s1 s2 : Z) : option Z :=
  match fuel with
  | O => None
  | S fuel =>
    if negb (rd m s1 =? 0) && (rd m s1 =? rd m s2) then strcmp_mem fuel m (s1 + 1) (s2 + 1)
    else Some (rd m s1 - rd m s2)
  end.

(** [i] is [n - k] where [k] is the recursion argument. *)
Fixpoint strncmp_mem (k : nat) (m : mem) (s1 s2 : Z) : Z :=
  match k with
  | O => 0
  | S k =>
    if negb (rd m s1 =? 0) && (rd m s1 =? rd m s2) then strncmp_mem k m (s1 + 1) (s2 + 1)
    else rd m s1 - rd m s2
  end.

Fixpoint strcpy_mem (fuel : nat) (m : mem) (d s : Z) : option mem :=
  match fuel with
  | O => None
  | S fuel =>
    let c := rd m s in
    let m := wr m d c in
    if c =? 0 then Some m else strcpy_mem fuel m (d + 1) (s + 1)
  end.

(** ** String functions over byte lists *)

Definition strlen (s : list Z) : Z := Z.of_nat (length s).

Fixpoint strcmp (s1 s2 : list Z) : Z :=
  match s1, s2 with
  | [], [] => 0
  | [], c2 :: _ => 0 - c2
  | c1 :: _, [] => c1
  | c1 :: s1, c2 :: s2 => if c1 =? c2 then strcmp s1 s2 else c1 - c2
  end.

Fixpoint strncmp (s1 s2 : list Z) (n : nat) {struct n} : Z :=
  match n with
  | O => 0
  | S n =>
    match s1, s2 with
    | [], [] => 0
    | [], c2 :: _ => 0 - c2
    | c1 :: _, [] => c1
    | c1 :: s1, c2 :: s2 => if c1 =? c2 then strncmp s1 s2 n else c1 - c2
    end
  end.

(** A C string: no byte of it is zero, and a zero byte follows. *)
Fixpoint cstr_at (m : mem) (a : Z) (l : list Z) : Prop :=
  match l with
  | [] => rd m a = 0
  | c :: l => c <> 0 /\ rd m a = c /\ cstr_at m (a + 1) l
  end.

Definition nul_free (l : list Z) : Prop := Forall (fun c => 0 < c < 256) l.

(** ** Lemmas *)

Lemma wp_memset p c n s (Q : Z -> kstate -> Prop) E :
  Q p (on_mem (fun m => memset_loop m p c (Z.to_nat n)) s) -> wp (memset p c n) s Q E.
Proof. done. Qed.

Lemma wp_memcpy d p n s (Q : Z -> kstate -> Prop) E :
  d <> 0 -> p <> 0 -> 0 < n ->
  Q d (on_mem (fun m => copy_fwd m d p (Z.to_nat n)) s) -> wp (memcpy d p n) s Q E.
Proof.
  intros Hd Hp Hn HQ. unfold memcpy.
  apply wp_bind, wp_ASSERT; [by destruct (Z.eqb_spec d 0)|].
  apply wp_bind, wp_ASSERT; [by destruct (Z.eqb_spec p 0)|].
  apply wp_bind, wp_ASSERT; [by apply Z.ltb_lt|]. done.
Qed.

Lemma cstr_at_nul_free m a l : cstr_at m a l -> nul_free l.
Proof.
  revert a. induction l as [|c l IH]; intros a H; [constructor|].
  destruct H as (Hc & <- & H). constructor; [|by eapply IH].
  pose proof (rd_range m a). lia.
Qed.

Lemma cstr_at_ext m m' a l :
  (forall x, a <= x <= a + Z.of_nat (length l) -> rd m' x = rd m x) ->
  cstr_at m a l -> cstr_at m' a l.
Proof.
  revert a. induction l as [|c l IH]; intros a Hx H; cbn [cstr_at length] in *.
  - rewrite Hx; [done|lia].
  - destruct H as (Hc & Ha & H). split_and!; [done|rewrite Hx; [done|lia]|].
    apply IH; [|done]. intros x ?. apply Hx. lia.
Qed.

Lemma strcmp_refl l : strcmp l l = 0.
Proof. induction l as [|c l IH]; simpl; [done|]. by rewrite Z.eqb_refl. Qed.

Lemma strcmp_zero s1 s2 : nul_free s1 -> nul_free s2 -> strcmp s1 s2 = 0 -> s1 = s2.
Proof.
  intros H1. revert s2. induction H1 as [|c1 s1 Hc1 H1 IH]; intros [|c2 s2] H2; simpl;
    try done; try (inversion H2; lia).
  inversion H2; subst. destruct (Z.eqb_spec c1 c2) as [->|]; [|lia].
  intros. f_equal. auto.
Qed.

Lemma strcmp_eq s1 s2 : nul_free s1 -> nul_free s2 -> (strcmp s1 s2 =? 0) = bool_decide (s1 = s2).
Proof.
  intros H1 H2. destruct (Z.eqb_spec (strcmp s1 s2) 0) as [E|E];
    destruct (bool_decide_reflect (s1 = s2)) as [|Hne]; try done.
  - by apply strcmp_zero in E.
  - subst. by rewrite strcmp_refl in E.
Qed.

Lemma strncmp_prefix s p : nul_free s -> nul_free p ->
  strncmp s p (length p) = 0 <-> exists r, s = p ++ r.
Proof.
  intros Hs Hp. revert s Hs.
  induction Hp as [|c p Hc Hp IH]; intros s Hs; cbn [length strncmp].
  - split; [by exists s|done].
  - destruct s as [|d s]; [split; [intros; lia|intros [r Hr]; done]|].
    inversion Hs; subst. destruct (Z.eqb_spec d c) as [->|Hne].
    + rewrite IH by done. split; intros [r Hr]; exists r; simpl in *; congruence.
    + split; [intros; lia|]. intros [r Hr]. simpl in Hr. congruence.
Qed.

(** ** Properties *)

(** [memmove] leaves in the destination what the source held before
    the call, byte by byte, also when the two overlap in either direction, and
    changes nothing else. *)
Theorem memmove_correct (m : mem) (d s : Z) (n : nat) (x : Z) :
  rd (memmove_mem m d s n) x =
  if (d <=? x) && (x <? d + Z.of_nat n) then rd m (s + (x - d)) else rd m x.
Proof.
  unfold memmove_mem. destruct (Z.ltb_spec d s).
  - apply rd_copy_fwd. lia.
  - destruct (Z.ltb_spec s d); [apply rd_copy_bwd; lia|].
    replace s with d by lia. replace (d + (x - d)) with x by lia.
    by destruct ((d <=? x) && (x <? d + Z.of_nat n)).
Qed.

(** The string functions over memory compute the functions over byte lists. *)
Lemma strlen_mem_spec m a l fuel :
  cstr_at m a l -> (length l < fuel)%nat -> strlen_mem fuel m a = Some (strlen l).
Proof.
  revert a fuel. induction l as [|c l IH]; intros a [|fuel] H Hf; simpl in *; try lia.
  - by rewrite H.
  - destruct H as (Hc & <- & H). destruct (Z.eqb_spec (rd m a) 0); [done|].
    rewrite (IH _ fuel) by (done || lia). simpl. unfold strlen. simpl. f_equal. lia.
Qed.

Lemma strcmp_mem_eq (m : mem) (a1 a2 : Z) (l1 l2 : list Z) (fuel : nat) :
  cstr_at m a1 l1 -> cstr_at m a2 l2 -> (length l1 < fuel)%nat ->
  strcmp_mem fuel m a1 a2 = Some (strcmp l1 l2).
Proof.
  revert a1 a2 l2 fuel. induction l1 as [|c l1 IH]; intros a1 a2 [|d l2] [|fuel] H1 H2 Hf;
    cbn [cstr_at length strcmp_mem strcmp] in *; try lia.
  - by rewrite H1, H2.
  - rewrite H1. by destruct H2 as (? & -> & ?).
  - destruct H1 as (Hc & H1 & ?). rewrite H1, H2. destruct (Z.eqb_spec c 0); [done|].
    cbn. f_equal. lia.
  - destruct H1 as (Hc & H1 & H1'), H2 as (Hd & H2 & H2'). rewrite H1, H2.
    destruct (Z.eqb_spec c 0); [done|]. cbn.
    destruct (Z.eqb_spec c d); [|done]. apply IH; done || lia.
Qed.

(** On two terminated strings the pointer walk of [strcmp] returns the
    difference of the first bytes that differ, terminators included, whatever
    the strings' lengths. *)
Theorem strcmp_mem_spec (m : mem) (a1 a2 : Z) (l1 l2 : list Z) (fuel : nat) :
  cstr_at m a1 l1 -> cstr_at m a2 l2 -> (length l1 < fuel)%nat ->
  strcmp_mem fuel m a1 a2 = Some (strcmp l1 l2).
Proof. apply strcmp_mem_eq. Qed.

Lemma strncmp_mem_spec m a1 a2 l1 l2 k :
  cstr_at m a1 l1 -> cstr_at m a2 l2 -> strncmp_mem k m a1 a2 = strncmp l1 l2 k.
Proof.
  revert a1 a2 l1 l2. induction k as [|k IH]; intros a1 a2 [|c l1] [|d l2] H1 H2;
    cbn [cstr_at strncmp_mem strncmp] in *; try done.
  - by rewrite H1, H2.
  - rewrite H1. by destruct H2 as (? & -> & ?).
  - destruct H1 as (Hc & H1 & ?). rewrite H1, H2. destruct (Z.eqb_spec c 0); [done|].
    cbn. lia.
  - destruct H1 as (Hc & H1 & H1'), H2 as (Hd & H2 & H2'). rewrite H1, H2.
    destruct (Z.eqb_spec c 0); [done|]. cbn.
    destruct (Z.eqb_spec c d); [|done]. by apply IH.
Qed.

Lemma strcmp_mem_spec_witness :
  let m := write_bytes ∅ 100 (cstr "/zero" ++ [0] ++ cstr "/zebra" ++ [0]) in
  strcmp_mem 6 m 100 106 = Some 16.
Proof.
  intros m. rewrite (strcmp_mem_spec m 100 106 (cstr "/zero") (cstr "/zebra") 6);
    [vm_compute; done| | |simpl; lia]; vm_compute; repeat split; done || lia.
Defined.

(** [strcpy] copies the string with its terminator when the two do not
    overlap. *)
Lemma strcpy_mem_spec m d a l fuel :
  cstr_at m a l -> (length l < fuel)%nat ->
  d + Z.of_nat (length l) < a \/ a + Z.of_nat (length l) < d ->
  exists m', strcpy_mem fuel m d a = Some m' /\ cstr_at m' d l /\
    agree_off (fun x => d <= x <= d + Z.of_nat (length l)) m m'.
Proof.
  revert m d a fuel. induction l as [|c l IH]; intros m d a [|fuel] H Hf Hd; simpl in *; try lia.
  - rewrite H. exists (wr m d 0). split_and!; [done| |].
    + by rewrite rd_wr, Z.eqb_refl.
    + intros x Hx. rewrite rd_wr. destruct (Z.eqb_spec x d); [lia|done].
  - destruct H as (Hc & Ha & H). rewrite Ha. destruct (Z.eqb_spec c 0); [done|].
    destruct (IH (wr m d c) (d + 1) (a + 1) fuel) as (m' & E & Hs & Hag); [|lia|lia|].
    { apply cstr_at_ext with m; [|done]. intros x Hx. rewrite rd_wr.
      destruct (Z.eqb_spec x d); [lia|done]. }
    pose proof (rd_range m a). exists m'. split_and!; [done|done| |done|].
    + rewrite Hag by lia. rewrite rd_wr, Z.eqb_refl. apply u8_small. lia.
    + intros x Hx. rewrite Hag by lia. rewrite rd_wr.
      destruct (Z.eqb_spec x d); [lia|done].
Qed.

(** [memcmp] decides equality of the two ranges. *)
Lemma memcmp_loop_zero m p1 p2 n :
  memcmp_loop m p1 p2 n = 0 <-> read_bytes m p1 n = read_bytes m p2 n.
Proof.
  revert p1 p2. induction n as [|n IH]; intros p1 p2; simpl; [done|].
  destruct (Z.eqb_spec (rd m p1) (rd m p2)) as [E|E]; simpl.
  - rewrite IH, E. split; [by intros ->|by intros [= ]].
  - split; [destruct (rd m p1 <? rd m p2); done|]. intros [=]. done.
Qed.
