(* ===== verification/Pmm.v ===== *)
(** * The physical page allocator (kernel/system/pmm.c)

    A bit per physical page, set when the page is in use.  The functions are
    translated with the bitmap as bytes; [free_list] is the abstract view, the
    ascending list of free page numbers, of which [pmm_allocate] takes the head
    and into which [pmm_free] inserts. *)

From S2P Require Import Prelude Memory State Cpu Libc.

(** ** Definitions *)

Abbreviation PAGE_SIZE := 4096 (only parsing).
Abbreviation PMM_BITMAP_SIZE := (1024 * 1024) (only parsing).
Abbreviation LIMINE_MEMMAP_USABLE := 0 (only parsing).
Abbreviation LIMINE_MEMMAP_BOOTLOADER_RECLAIMABLE := 5 (only parsing).

(** [ALIGN_UP(value, align)] (mem.h) on a 64-bit value. *)
Definition ALIGN_UP (value align : Z) : Z :=
  Z.land (u64 (value + align - 1)) (Z.lnot (align - 1)).

Definition BITMAP_GET (bm : mem) (index : Z) : bool :=
  negb (Z.land (rd bm (index / 8)) (Z.shiftl 1 (index mod 8)) =? 0).

Definition BITMAP_SET (bm : mem) (index : Z) : mem :=
  wr bm (index / 8) (Z.lor (rd bm (index / 8)) (Z.shiftl 1 (index mod 8))).

Definition BITMAP_CLEAR (bm : mem) (index : Z) : mem :=
  wr bm (index / 8) (Z.land (rd bm (index / 8)) (Z.lnot (Z.shiftl 1 (index mod 8)))).

(** First loop of [pmm_install]: the highest end of a memory map entry. *)
Definition highest_address (entries : list limine_memmap_entry) : Z :=
  fold_left (fun h e =>
    let top := u64 (me_base e + me_length e) in if h <? top then top else h) entries 0.

(** Inner loop of the second one: release the pages [page_idx], ... *)
Fixpoint release_pages (n : nat) (page_idx : Z) (p : pmm_state) : pmm_state :=
  match n with
  | O => p
  | S n =>
    let p :=
      if (page_idx <=? highest_page p) && BITMAP_GET (bitmap p) page_idx then
        set_total_ram_pages (u64 (total_ram_pages p + 1))
          (set_bitmap (BITMAP_CLEAR (bitmap p) page_idx) p)
      else p in
    release_pages n (page_idx + 1) p
  end.

Definition release_entry (p : pmm_state) (e : limine_memmap_entry) : pmm_state :=
  if (me_type e =? LIMINE_MEMMAP_USABLE) ||
     (me_type e =? LIMINE_MEMMAP_BOOTLOADER_RECLAIMABLE) then
    let base := ALIGN_UP (me_base e) PAGE_SIZE in
    let top := Z.land (u64 (me_base e + me_length e)) (Z.lnot (PAGE_SIZE - 1)) in
    if top <=? base then p
    else release_pages (Z.to_nat (top / PAGE_SIZE - base / PAGE_SIZE)) (base / PAGE_SIZE) p
  else p.

(** The three loops that take pages back (kernel image, bitmap, low memory). *)
Fixpoint reserve_pages (n : nat) (page_idx : Z) (p : pmm_state) : pmm_state :=
  match n with
  | O => p
  | S n =>
    let p :=
      if page_idx <=? highest_page p then
        let p := if negb (BITMAP_GET (bitmap p) page_idx)
                 then set_free_pages (u64 (free_pages p - 1)) p else p in
        set_bitmap (BITMAP_SET (bitmap p) page_idx) p
      else p in
    reserve_pages n (page_idx + 1) p
  end.

(** Page numbers of the kernel image and of the bitmap. *)
Definition kernel_pages (b : boot_info) : Z * Z :=
  let k_size := u64 (bss_end b - text_begin b) in
  let k_phys_end := u64 (physical_base b + ALIGN_UP k_size PAGE_SIZE) in
  (physical_base b / PAGE_SIZE, k_phys_end / PAGE_SIZE).

Definition bitmap_pages (b : boot_info) : Z * Z :=
  let start := u64 (bitmap_addr b - virtual_base b + physical_base b) in
  let stop := u64 (start + PMM_BITMAP_SIZE) in
  (start / PAGE_SIZE, u64 (stop + PAGE_SIZE - 1) / PAGE_SIZE).

(** [pmm_install] once [highest_page] is set and the bitmap filled with ones. *)
Definition pmm_install_map (b : boot_info) (p : pmm_state) : pmm_state :=
  let p := set_total_ram_pages 0 p in
  let p := fold_left release_entry (memmap b) p in
  let p := set_free_pages (total_ram_pages p) p in
  let k := kernel_pages b in
  let p := reserve_pages (Z.to_nat (k.2 - k.1)) k.1 p in
  let m := bitmap_pages b in
  let p := reserve_pages (Z.to_nat (m.2 - m.1)) m.1 p in
  let p := reserve_pages (Z.to_nat (0x100000 / PAGE_SIZE)) 0 p in
  set_used_pages (u64 (total_ram_pages p - free_pages p)) p.

Definition pmm_install_pmm (b : boot_info) (p : pmm_state) : pmm_state :=
  let hp := u64 (highest_address (memmap b) - 1) / PAGE_SIZE in
  let hp := if PMM_BITMAP_SIZE * 8 <=? hp then PMM_BITMAP_SIZE * 8 - 1 else hp in
  let p := set_highest_page hp p in
  let p := set_bitmap (memset_loop (bitmap p) 0 0xFF (Z.to_nat PMM_BITMAP_SIZE)) p in
  pmm_install_map b p.

Definition pmm_install : M unit :=
  b <- gets s_boot;; modify (on_pmm (pmm_install_pmm b)).

(** Marking page [i] as in use and as free, with the counters. *)
Definition take_page (i : Z) (p : pmm_state) : pmm_state :=
  set_free_pages (u64 (free_pages p - 1))
    (set_used_pages (u64 (used_pages p + 1))
      (set_bitmap (BITMAP_SET (bitmap p) i) p)).

Definition give_page (i : Z) (p : pmm_state) : pmm_state :=
  set_free_pages (u64 (free_pages p + 1))
    (set_used_pages (u64 (used_pages p - 1))
      (set_bitmap (BITMAP_CLEAR (bitmap p) i) p)).

(** The search loop of [pmm_allocate], from page [i] on. *)
Fixpoint pmm_scan (n : nat) (i : Z) : M Z :=
  match n with
  | O =>
    spin_unlock pmm_lock;;;
    int_resume;;;
    panic "out of memory in pmm_allocate!"
  | S n =>
    bm <- gets (fun s => bitmap (s_pmm s));;
    if negb (BITMAP_GET bm i) then
      modify (on_pmm (take_page i));;;
      hhdm <- gets (fun s => hhdm_offset (s_boot s));;
      let phys := u64 (i * PAGE_SIZE) in
      let vaddr := u64 (phys + hhdm) in
      spin_unlock pmm_lock;;;
      int_resume;;;
      memset vaddr 0 PAGE_SIZE;;;
      ret phys
    else pmm_scan n (i + 1)
  end.

Definition pmm_allocate : M Z :=
  int_disable;;;
  spin_lock pmm_lock;;;
  hp <- gets (fun s => highest_page (s_pmm s));;
  pmm_scan (Z.to_nat (hp + 1)) 0.

Definition pmm_free (page : Z) : M unit :=
  if page =? 0 then panic "pmm_free called with NULL pointer!" else
  if negb (page mod PAGE_SIZE =? 0) then panic "pmm_free called with unaligned address!" else
  let idx := page / PAGE_SIZE in
  hp <- gets (fun s => highest_page (s_pmm s));;
  if hp <? idx then panic "pmm_free called with out-of-bounds address!" else
  bm <- gets (fun s => bitmap (s_pmm s));;
  if negb (BITMAP_GET bm idx) then panic "pmm_free called on already free page!" else
  int_disable;;;
  spin_lock pmm_lock;;;
  modify (on_pmm (give_page idx));;;
  spin_unlock pmm_lock;;;
  int_resume.

Definition pmm_get_total_pages : M Z := gets (fun s => total_ram_pages (s_pmm s)).
Definition pmm_get_free_pages : M Z := gets (fun s => free_pages (s_pmm s)).

(** *** Abstract view and invariant *)

(** Bit [i] of a bitmap. *)
Definition bit (bm : mem) (i : Z) : bool := Z.testbit (rd bm (i / 8)) (i mod 8).

Definition page_used (p : pmm_state) (i : Z) : bool := bit (bitmap p) i.

Definition free_list (p : pmm_state) : list Z :=
  filter (fun i => page_used p i = false) (seqZ 0 (highest_page p + 1)).

Definition free_count (p : pmm_state) : Z :=
  zcount (fun i => negb (page_used p i)) 0 (Z.to_nat (highest_page p + 1)).

Record pmm_inv (p : pmm_state) : Prop := {
  pi_high : 0 <= highest_page p < 8388608;
  pi_free : free_pages p = free_count p;
  pi_used : used_pages p = u64 (total_ram_pages p - free_pages p);
  pi_zero : page_used p 0 = true
}.

(** The direct map starts at a page boundary and, for every page the bitmap
    can describe, ends before the kernel heap. *)
Record boot_ok (b : boot_info) : Prop := {
  bo_align : hhdm_offset b mod 4096 = 0;
  bo_low : 0 < hhdm_offset b;
  bo_high : hhdm_offset b + 2 ^ 35 <= 0xFFFF810000000000
}.

(** The state [pmm_allocate] leaves when it takes page [i]. *)
Definition alloc_post (i : Z) (s : kstate) : kstate :=
  on_mem (fun m => memset_loop m (hhdm_offset (s_boot s) + i * 4096) 0 (Z.to_nat PAGE_SIZE))
    (on_cpu irq_section (on_pmm (take_page i) s)).

Definition free_post (i : Z) (s : kstate) : kstate :=
  on_cpu irq_section (on_pmm (give_page i) s).

(** The allocator is usable: its lock is free and its data are consistent. *)
Record pmm_ready (s : kstate) : Prop := {
  pr_inv : pmm_inv (s_pmm s);
  pr_boot : boot_ok (s_boot s);
  pr_cpu : cpu_ok (s_cpu s);
  pr_lock : latch pmm_lock (s_locks s) = false
}.

(** Clients that hold pages: what they own is tracked beside the state. *)
Inductive pmm_reach (s0 : kstate) : kstate -> list Z -> Prop :=
| pr_start : pmm_reach s0 s0 []
| pr_alloc s owned a s' :
    pmm_reach s0 s owned -> pmm_allocate s = Ok a s' -> pmm_reach s0 s' (a :: owned)
| pr_free s owned1 a owned2 s' :
    pmm_reach s0 s (owned1 ++ a :: owned2) -> pmm_free a s = Ok tt s' ->
    pmm_reach s0 s' (owned1 ++ owned2).

(** [s'] is [s] but for the memory, the page allocator's own data and the
    scratch flag of interrupt masking. *)
Record same_ctx (s s' : kstate) : Prop := {
  sc_cpu : s_cpu s' = s_cpu s \/ s_cpu s' = irq_section (s_cpu s);
  sc_io : s_io s' = s_io s;
  sc_dev : s_dev s' = s_dev s;
  sc_boot : s_boot s' = s_boot s;
  sc_locks : s_locks s' = s_locks s;
  sc_vmm : s_vmm s' = s_vmm s;
  sc_heap : s_heap s' = s_heap s;
  sc_proc : s_proc s' = s_proc s;
  sc_vfs : s_vfs s' = s_vfs s;
  sc_kbd : s_kbd s' = s_kbd s;
  sc_irq : s_irq s' = s_irq s;
  sc_gdt : s_gdt s' = s_gdt s;
  sc_ac97 : s_ac97 s' = s_ac97 s;
  sc_fb : s_fb s' = s_fb s
}.

(** The bytes of the page frame at physical address [a], in the direct map. *)
Definition in_frame (s : kstate) (a x : Z) : Prop :=
  hhdm_offset (s_boot s) + a <= x < hhdm_offset (s_boot s) + a + 4096.

Definition out_of_memory : string -> kstate -> Prop :=
  fun msg _ => msg = "out of memory in pmm_allocate!"%string.

(** What the rest of the kernel relies on: a source of zeroed page frames.
    [frame_used s a] says that the frame at [a] is handed out. *)
Class page_allocator (allocate : M Z) (release : Z -> M unit) : Type := {
  pa_ready : kstate -> Prop;
  frame_used : kstate -> Z -> Prop;
  pa_range : forall s a, pa_ready s -> frame_used s a -> a mod 4096 = 0 /\ 0 < a < 2 ^ 35;
  pa_boot : forall s, pa_ready s -> boot_ok (s_boot s);
  pa_allocate : forall s, pa_ready s ->
    wp allocate s (fun a s' =>
      ~ frame_used s a /\ frame_used s' a /\
      (forall b, b <> a -> frame_used s' b <-> frame_used s b) /\
      (forall x, in_frame s a x -> rd (s_mem s') x = 0) /\
      agree_off (in_frame s a) (s_mem s) (s_mem s') /\
      same_ctx s s' /\ pa_ready s') out_of_memory;
  pa_release : forall s a, pa_ready s -> frame_used s a ->
    wp (release a) s (fun _ s' =>
      ~ frame_used s' a /\ (forall b, b <> a -> frame_used s' b <-> frame_used s b) /\
      s_mem s' = s_mem s /\ same_ctx s s' /\ pa_ready s') no_panic;
  pa_frame : forall s s', pa_ready s ->
    s_pmm s' = s_pmm s -> s_boot s' = s_boot s ->
    latch pmm_lock (s_locks s') = latch pmm_lock (s_locks s) ->
    (s_cpu s' = s_cpu s \/ s_cpu s' = irq_section (s_cpu s) \/ cpu_ok (s_cpu s')) ->
    pa_ready s' /\ forall a, frame_used s' a <-> frame_used s a;
  pa_cpu : forall s, pa_ready s -> cpu_ok (s_cpu s)
}.

(** Closes an equation between states that take and release the page
    allocator's lock inside a critical section and one that does not. *)
Ltac unlocked_eq :=
  apply kstate_ext;
  cbn [on_mem on_cpu on_locks on_pmm set_mem set_cpu set_locks set_pmm
       s_mem s_cpu s_io s_dev s_boot s_locks s_pmm s_vmm s_heap s_proc s_vfs s_kbd s_irq];
  try done; [by apply cpu_disable_resume|by apply (set_latch_relock pmm_lock)].

(** ** Lemmas: the bitmap *)

Lemma BITMAP_GET_bit bm i : BITMAP_GET bm i = bit bm i.
Proof.
  unfold BITMAP_GET, bit. rewrite land_bit_nonzero, negb_involutive; [done|].
  apply Z.mod_pos_bound. lia.
Qed.

Lemma bit_set bm i j : bit (BITMAP_SET bm i) j = (j =? i) || bit bm j.
Proof.
  unfold bit, BITMAP_SET. rewrite rd_wr.
  pose proof (Z.mod_pos_bound i 8 ltac:(lia)). pose proof (Z.mod_pos_bound j 8 ltac:(lia)).
  destruct (Z.eqb_spec (j / 8) (i / 8)) as [E|E].
  - rewrite testbit_u8, Z.lor_spec, testbit_bit, E by lia.
    destruct (Z.eqb_spec (i mod 8) (j mod 8)), (Z.eqb_spec j i);
      rewrite ?orb_true_r, ?orb_false_r; try done; zlia.
  - destruct (Z.eqb_spec j i); [congruence|done].
Qed.

Lemma bit_clear bm i j : bit (BITMAP_CLEAR bm i) j = negb (j =? i) && bit bm j.
Proof.
  unfold bit, BITMAP_CLEAR. rewrite rd_wr.
  pose proof (Z.mod_pos_bound i 8 ltac:(lia)). pose proof (Z.mod_pos_bound j 8 ltac:(lia)).
  destruct (Z.eqb_spec (j / 8) (i / 8)) as [E|E].
  - rewrite testbit_u8, Z.land_spec, Z.lnot_spec, testbit_bit, E by lia.
    destruct (Z.eqb_spec (i mod 8) (j mod 8)), (Z.eqb_spec j i);
      cbn [negb]; rewrite ?andb_true_r, ?andb_false_r; try done; zlia.
  - destruct (Z.eqb_spec j i); [congruence|done].
Qed.

Lemma bit_all_ones bm j n : 0 <= j < 8 * Z.of_nat n -> bit (memset_loop bm 0 0xFF n) j = true.
Proof.
  intros Hj. unfold bit. rewrite rd_memset_loop.
  destruct (Z.leb_spec 0 (j / 8)); [|zlia]. destruct (Z.ltb_spec (j / 8) (0 + Z.of_nat n)); [|zlia].
  cbn [andb]. change (u8 255) with (Z.ones 8). apply Z.ones_spec_low. zlia.
Qed.

(** ** Lemmas: counting free pages *)

(** A state that differs from [p] in the bit of page [k] only. *)
Lemma free_count_flip p q k :
  highest_page q = highest_page p -> 0 <= k <= highest_page p ->
  (forall i, i <> k -> page_used q i = page_used p i) ->
  free_count q = free_count p - (if page_used p k then 0 else 1) + (if page_used q k then 0 else 1).
Proof.
  intros Hh Hk H. unfold free_count. rewrite Hh.
  rewrite (zcount_update (fun i => negb (page_used p i)) _ _ _ k);
    [|lia|intros i Hi; by rewrite H].
  destruct (page_used p k), (page_used q k); simpl; lia.
Qed.

Lemma free_count_bounds p : 0 <= highest_page p -> 0 <= free_count p <= highest_page p + 1.
Proof.
  intros. unfold free_count.
  pose proof (zcount_bounds (fun i => negb (page_used p i)) 0 (Z.to_nat (highest_page p + 1))).
  lia.
Qed.

(** ** Lemmas: the abstract free list *)

Lemma elem_of_free_list p i :
  i ∈ free_list p <-> 0 <= i <= highest_page p /\ page_used p i = false.
Proof. unfold free_list. rewrite list_elem_of_filter, elem_of_seqZ. intuition lia. Qed.

(** The scan stops at the head of the free list. *)
Definition first_free (p : pmm_state) (i : Z) : Prop :=
  0 <= i <= highest_page p /\ page_used p i = false /\
  forall j, 0 <= j < i -> page_used p j = true.

Lemma seqZ_split lo n k : lo <= k < lo + n ->
  seqZ lo n = seqZ lo (k - lo) ++ k :: seqZ (k + 1) (lo + n - (k + 1)).
Proof.
  intros. replace n with ((k - lo) + (1 + (lo + n - (k + 1)))) at 1 by lia.
  rewrite seqZ_app by lia. f_equal. replace (lo + (k - lo)) with k by lia.
  rewrite seqZ_app by lia. simpl. by replace (Z.succ k) with (k + 1) by lia.
Qed.

Lemma filter_all_used p l :
  (forall j, j ∈ l -> page_used p j = true) -> filter (fun i => page_used p i = false) l = [].
Proof.
  induction l as [|x l IH]; intros H; [done|].
  rewrite filter_cons_False by (rewrite H by left; done). apply IH. intros j Hj. apply H. by right.
Qed.

Lemma filter_same p q (l : list Z) :
  (forall j, j ∈ l -> page_used q j = page_used p j) ->
  filter (fun i => page_used q i = false) l = filter (fun i => page_used p i = false) l.
Proof.
  induction l as [|x l IH]; intros H; [done|].
  rewrite !filter_cons, (H x), IH; [done| |by left]. intros j Hj. apply H. by right.
Qed.

(** Taking the first free page removes the head of the list. *)
Lemma free_list_take p q i :
  first_free p i -> highest_page q = highest_page p ->
  (forall j, page_used q j = (j =? i) || page_used p j) ->
  free_list p = i :: free_list q.
Proof.
  intros (Hi & Hu & Hlt) Hh Hq. unfold free_list. rewrite Hh.
  rewrite (seqZ_split 0 (highest_page p + 1) i) by lia.
  rewrite !list.filter_app, !filter_cons.
  rewrite (filter_all_used p), (filter_all_used q).
  - rewrite decide_True by done.
    rewrite decide_False by (rewrite Hq, Z.eqb_refl; done).
    simpl. f_equal. symmetry. apply filter_same. intros j Hj.
    rewrite elem_of_seqZ in Hj. rewrite Hq. destruct (Z.eqb_spec j i); [lia|done].
  - intros j Hj. rewrite elem_of_seqZ in Hj. rewrite Hq, Hlt by lia. apply orb_true_r.
  - intros j Hj. rewrite elem_of_seqZ in Hj. apply Hlt. lia.
Qed.

(** Giving a page back inserts it at its place. *)
Lemma free_list_give p q i :
  0 <= i <= highest_page p -> page_used p i = true -> highest_page q = highest_page p ->
  (forall j, page_used q j = negb (j =? i) && page_used p j) ->
  exists l1 l2, free_list p = l1 ++ l2 /\ free_list q = l1 ++ i :: l2 /\
    Forall (fun j => j < i) l1 /\ Forall (fun j => i < j) l2.
Proof.
  intros Hi Hu Hh Hq. unfold free_list. rewrite Hh.
  rewrite (seqZ_split 0 (highest_page p + 1) i) by lia.
  set (a := seqZ 0 (i - 0)). set (b := seqZ (i + 1) (0 + (highest_page p + 1) - (i + 1))).
  exists (filter (fun k => page_used p k = false) a), (filter (fun k => page_used p k = false) b).
  assert (forall j : Z, j ∈ a \/ j ∈ b -> page_used q j = page_used p j) as Hsame.
  { intros j Hj. unfold a, b in Hj. rewrite !elem_of_seqZ in Hj. rewrite Hq.
    destruct (Z.eqb_spec j i); [lia|done]. }
  rewrite !list.filter_app, !filter_cons.
  rewrite (filter_same p q a), (filter_same p q b) by auto.
  rewrite decide_False by (rewrite Hu; done).
  rewrite decide_True by (rewrite Hq, Z.eqb_refl; done).
  split_and!; [done|done|..]; apply Forall_forall; intros j Hj;
    apply list_elem_of_filter in Hj as [_ Hj]; apply elem_of_seqZ in Hj; lia.
Qed.

(** ** Lemmas: invariant *)

Lemma take_page_used p i j : page_used (take_page i p) j = (j =? i) || page_used p j.
Proof. apply bit_set. Qed.

Lemma give_page_used p i j : page_used (give_page i p) j = negb (j =? i) && page_used p j.
Proof. apply bit_clear. Qed.

Lemma take_page_inv p i :
  pmm_inv p -> 0 <= i <= highest_page p -> page_used p i = false -> pmm_inv (take_page i p).
Proof.
  intros [Hh Hf Hu Hz] Hi Hfree.
  pose proof (free_count_bounds p ltac:(lia)) as Hb.
  pose proof (free_count_flip p (take_page i p) i eq_refl Hi) as Hc.
  rewrite !take_page_used, Z.eqb_refl, Hfree in Hc. cbn [orb] in Hc.
  specialize (Hc ltac:(intros j Hj; rewrite take_page_used; by destruct (Z.eqb_spec j i))).
  pose proof (free_count_bounds (take_page i p) (proj1 Hh)) as Hb'.
  split; cbn [take_page set_free_pages highest_page free_pages used_pages total_ram_pages].
  - done.
  - cbn. rewrite Hf, Hc. rewrite u64_small; [lia|]. cbn in Hb'. lia.
  - cbn. rewrite Hu, u64_add_l. unfold u64.
    rewrite Zminus_mod_idemp_r. f_equal. lia.
  - rewrite take_page_used, Hz. apply orb_true_r.
Qed.

Lemma give_page_inv p i :
  pmm_inv p -> 0 < i <= highest_page p -> page_used p i = true -> pmm_inv (give_page i p).
Proof.
  intros [Hh Hf Hu Hz] Hi Hused.
  pose proof (free_count_bounds p ltac:(lia)) as Hb.
  pose proof (free_count_flip p (give_page i p) i eq_refl ltac:(lia)) as Hc.
  rewrite !give_page_used, Z.eqb_refl, Hused in Hc. cbn [negb andb] in Hc.
  specialize (Hc ltac:(intros j Hj; rewrite give_page_used; by destruct (Z.eqb_spec j i))).
  pose proof (free_count_bounds (give_page i p) (proj1 Hh)) as Hb'.
  split; cbn [give_page set_free_pages highest_page free_pages used_pages total_ram_pages].
  - done.
  - cbn. rewrite Hf, Hc. rewrite u64_small; [lia|]. cbn in Hb'. lia.
  - cbn. rewrite Hu. unfold u64. rewrite Zminus_mod_idemp_l, Zminus_mod_idemp_r. f_equal. lia.
  - rewrite give_page_used, Hz. destruct (Z.eqb_spec 0 i); [lia|done].
Qed.

(** No page is free exactly when the counter says so. *)
Lemma none_free p : pmm_inv p ->
  (free_pages p = 0 <-> forall i, 0 <= i <= highest_page p -> page_used p i = true).
Proof.
  intros [Hh Hf _ _]. rewrite Hf. unfold free_count. split.
  - intros H0 i Hi. apply (zcount_zero _ _ _ i) in H0; [|lia].
    cbn in H0. by destruct (page_used p i).
  - intros H. destruct (Z.eq_dec (zcount (fun i => negb (page_used p i)) 0
      (Z.to_nat (highest_page p + 1))) 0) as [|Hne]; [done|].
    pose proof (zcount_bounds (fun i => negb (page_used p i)) 0 (Z.to_nat (highest_page p + 1))).
    destruct (zcount_pos (fun i => negb (page_used p i)) 0 (Z.to_nat (highest_page p + 1)))
      as (i & Hi & Hu); [lia|].
    rewrite H in Hu by lia. done.
Qed.

(** ** Lemmas: the operations *)

(** Either some page is the first free one or the scan finds none. *)
Lemma pmm_scan_spec n i s :
  (forall j, 0 <= j < i -> page_used (s_pmm s) j = true) ->
  i + Z.of_nat n = highest_page (s_pmm s) + 1 -> 0 <= i ->
  (exists k, first_free (s_pmm s) k /\ i <= k /\
     pmm_scan n i s = pmm_scan 1 k s) \/
  ((forall j, 0 <= j <= highest_page (s_pmm s) -> page_used (s_pmm s) j = true) /\
     pmm_scan n i s = pmm_scan 0 0 s).
Proof.
  revert i. induction n as [|n IH]; intros i Hlt Hn Hi.
  - right. split; [|done]. intros j Hj. apply Hlt. lia.
  - destruct (page_used (s_pmm s) i) eqn:E.
    + assert (pmm_scan (S n) i s = pmm_scan n (i + 1) s) as ->.
      { cbn [pmm_scan]. unfold bind, gets. rewrite BITMAP_GET_bit.
        unfold page_used in E. by rewrite E. }
      destruct (IH (i + 1)) as [(k & Hk & Hle & Heq)|H]; [|lia|lia| |by right].
      * intros j Hj. destruct (decide (j = i)) as [->|]; [done|]. apply Hlt. lia.
      * left. exists k. split_and!; [done|lia|done].
    + left. exists i. split_and!; [|lia|].
      * split_and!; [lia|lia|done|done].
      * cbn [pmm_scan]. unfold bind, gets. rewrite BITMAP_GET_bit.
        unfold page_used in E. by rewrite E.
Qed.

Lemma pmm_allocate_first s i :
  pmm_ready s -> first_free (s_pmm s) i -> pmm_allocate s = Ok (i * 4096) (alloc_post i s).
Proof.
  intros [[Hh Hf Hu Hz] [Ha Hl Hb] Hcpu Hlk] Hff.
  unfold pmm_allocate, bind, int_disable, modify, spin_lock, gets.
  cbn [on_cpu set_cpu s_locks s_pmm on_locks set_locks]. rewrite Hlk.
  set (s1 := on_locks (set_latch pmm_lock true) (on_cpu cpu_int_disable s)).
  destruct (pmm_scan_spec (Z.to_nat (highest_page (s_pmm s) + 1)) 0 s1)
    as [(k & Hk & _ & E)|[Hall _]]; [intros; lia|cbn; lia|lia| |].
  2: { destruct Hff as (Hi & Hfree & _). pose proof (Hall i Hi) as Hc. cbn in Hc. congruence. }
  assert (k = i) as ->.
  { destruct Hk as (Hk1 & Hk2 & Hk3), Hff as (Hi1 & Hi2 & Hi3).
    destruct (Z.lt_trichotomy k i) as [?|[?|?]]; [|done|].
    - rewrite Hi3 in Hk2 by lia. done.
    - rewrite Hk3 in Hi2 by (cbn in *; lia). done. }
  change (s_pmm s1) with (s_pmm s) in *. change (s_pmm (on_cpu cpu_int_disable s)) with (s_pmm s).
  rewrite E. cbn [pmm_scan]. unfold bind, gets. change (s_pmm s1) with (s_pmm s).
  rewrite BITMAP_GET_bit. destruct Hff as (Hi & Hfree & _). unfold page_used in Hfree.
  rewrite Hfree. cbn [negb]. unfold modify, spin_unlock, int_resume, memset, ret, bind, modify.
  rewrite u64_small by lia. rewrite u64_small by (cbn; lia). f_equal.
  unfold alloc_post, s1. rewrite (Z.add_comm (hhdm_offset _)).
  unlocked_eq.
Qed.

Lemma pmm_allocate_none s :
  pmm_ready s -> (forall i, 0 <= i <= highest_page (s_pmm s) -> page_used (s_pmm s) i = true) ->
  pmm_allocate s = Panic "out of memory in pmm_allocate!" (on_cpu irq_section s).
Proof.
  intros [[Hh Hf Hu Hz] [Ha Hl Hb] Hcpu Hlk] Hall.
  unfold pmm_allocate, bind, int_disable, modify, spin_lock, gets.
  cbn [on_cpu set_cpu s_locks s_pmm on_locks set_locks]. rewrite Hlk.
  set (s1 := on_locks (set_latch pmm_lock true) (on_cpu cpu_int_disable s)).
  destruct (pmm_scan_spec (Z.to_nat (highest_page (s_pmm s) + 1)) 0 s1)
    as [(k & (Hk1 & Hk2 & _) & _)|[_ E]]; [intros; lia|cbn; lia|lia| |].
  { cbn in Hk1. rewrite Hall in Hk2 by done. done. }
  change (s_pmm (on_cpu cpu_int_disable s)) with (s_pmm s). change (s_pmm s1) with (s_pmm s).
  rewrite E. cbn [pmm_scan]. unfold bind, modify, spin_unlock, int_resume, panic, modify.
  f_equal. unfold s1. unlocked_eq.
Qed.

Lemma pmm_free_used s a :
  pmm_ready s -> a mod 4096 = 0 -> a <> 0 -> a / 4096 <= highest_page (s_pmm s) ->
  page_used (s_pmm s) (a / 4096) = true ->
  pmm_free a s = Ok tt (free_post (a / 4096) s).
Proof.
  intros [_ _ Hcpu Hlk] Ha H0 Hh Hu. unfold pmm_free.
  destruct (Z.eqb_spec a 0); [done|]. rewrite Ha. cbn [negb Z.eqb].
  unfold bind, gets. destruct (Z.ltb_spec (highest_page (s_pmm s)) (a / 4096)); [lia|].
  rewrite BITMAP_GET_bit. unfold page_used in Hu. rewrite Hu. cbn [negb].
  unfold int_disable, modify, spin_lock. cbn [on_cpu set_cpu s_locks]. rewrite Hlk.
  unfold spin_unlock, int_resume, modify. f_equal. unfold free_post. unlocked_eq.
Qed.

(** There is a first free page, or none. *)
Lemma first_free_upto p (n : nat) :
  (exists i, 0 <= i < Z.of_nat n /\ page_used p i = false /\
     forall j, 0 <= j < i -> page_used p j = true) \/
  (forall i, 0 <= i < Z.of_nat n -> page_used p i = true).
Proof.
  induction n as [|n [(i & Hi & Hu & Hlt)|IH]]; [right; intros; lia| |].
  - left. exists i. split_and!; try done; lia.
  - destruct (page_used p (Z.of_nat n)) eqn:U.
    + right. intros i Hi. destruct (decide (i = Z.of_nat n)) as [->|]; [done|]. apply IH. lia.
    + left. exists (Z.of_nat n). split_and!; try done; lia.
Qed.

Lemma first_free_dec p :
  (exists i, first_free p i) \/ (forall i, 0 <= i <= highest_page p -> page_used p i = true).
Proof.
  destruct (first_free_upto p (Z.to_nat (highest_page p + 1))) as [(i & Hi & Hu & Hlt)|H].
  - left. exists i. split_and!; try done; lia.
  - right. intros i Hi. apply H. lia.
Qed.

Lemma first_free_head p i l : free_list p = i :: l -> first_free p i.
Proof.
  intros E. destruct (first_free_dec p) as [[k Hk]|H].
  - rewrite (free_list_take p (take_page k p) k Hk eq_refl (take_page_used p k)) in E.
    by inversion E; subst.
  - assert (i ∈ free_list p) as [Hi Hu]%elem_of_free_list by (rewrite E; left).
    rewrite H in Hu; done.
Qed.

(** ** Lemmas: [same_ctx] is a preorder *)

#[export] Instance same_ctx_refl : Reflexive same_ctx.
Proof. intros s. split; auto. Qed.

#[export] Instance same_ctx_trans : Transitive same_ctx.
Proof.
  intros s1 s2 s3 [C1 ? ? ? ? ? ? ? ? ? ? ? ? ?] [C2 ? ? ? ? ? ? ? ? ? ? ? ? ?].
  split; try congruence.
  destruct C1 as [C1|C1], C2 as [C2|C2]; rewrite C2, C1, ?irq_section_idemp; auto.
Qed.

#[export] Hint Resolve same_ctx_refl same_ctx_trans : riria.

Lemma alloc_post_ctx i s : same_ctx s (alloc_post i s).
Proof. split; cbn; auto. Qed.

Lemma free_post_ctx i s : same_ctx s (free_post i s).
Proof. split; cbn; auto. Qed.

(** ** Lemmas: [pmm_install] *)

Definition in_range (i : Z) (n : nat) (hp j : Z) : bool :=
  (i <=? j) && (j <? i + Z.of_nat n) && (j <=? hp).

Lemma in_range_S i n hp j : in_range i (S n) hp j = ((j =? i) && (i <=? hp)) || in_range (i + 1) n hp j.
Proof.
  unfold in_range.
  destruct (Z.leb_spec i j), (Z.leb_spec (i + 1) j), (Z.ltb_spec j (i + Z.of_nat (S n))),
    (Z.ltb_spec j (i + 1 + Z.of_nat n)), (Z.eqb_spec j i), (Z.leb_spec j hp), (Z.leb_spec i hp);
    simpl; done || lia.
Qed.

Lemma release_pages_spec n i p :
  0 <= i -> 0 <= highest_page p < 8388608 -> total_ram_pages p = free_count p ->
  let q := release_pages n i p in
  highest_page q = highest_page p /\ total_ram_pages q = free_count q /\
  forall j, page_used q j = page_used p j && negb (in_range i n (highest_page p) j).
Proof.
  revert i p. induction n as [|n IH]; intros i p Hi Hh Ht; cbn [release_pages].
  { split_and!; [done|done|]. intros j. unfold in_range.
    destruct (Z.leb_spec i j), (Z.ltb_spec j (i + Z.of_nat 0)); simpl; try lia; by rewrite andb_true_r. }
  rewrite BITMAP_GET_bit. change (bit (bitmap p) i) with (page_used p i).
  destruct ((i <=? highest_page p) && page_used p i) eqn:E.
  - apply andb_true_iff in E as [Hle%Z.leb_le Hu].
    set (q := set_total_ram_pages (u64 (total_ram_pages p + 1))
      (set_bitmap (BITMAP_CLEAR (bitmap p) i) p)).
    assert (forall j, page_used q j = negb (j =? i) && page_used p j) as Hq by apply bit_clear.
    assert (free_count q = free_count p + 1) as Hc.
    { rewrite (free_count_flip p q i); [|done|lia|].
      - rewrite Hq, Z.eqb_refl, Hu. simpl. lia.
      - intros j Hj. rewrite Hq. destruct (Z.eqb_spec j i); done. }
    pose proof (free_count_bounds q ltac:(cbn; lia)) as Hb. cbn in Hb.
    destruct (IH (i + 1) q) as (H1 & H2 & H3); [lia|done| |].
    { cbn. rewrite Hc, Ht. apply u64_small. lia. }
    split_and!; [done|done|]. intros j. rewrite H3, Hq, in_range_S. cbn.
    destruct (Z.eqb_spec j i) as [->|], (Z.leb_spec i (highest_page p)); try lia; simpl.
    by destruct (page_used p i).
  - destruct (IH (i + 1) p) as (H1 & H2 & H3); [lia|done|done|].
    split_and!; [done|done|]. intros j. rewrite H3, in_range_S.
    destruct (Z.eqb_spec j i) as [->|]; [|done]. rewrite andb_true_l.
    destruct (i <=? highest_page p); [|done]. simpl in E. rewrite E. done.
Qed.

Lemma reserve_pages_spec n i p :
  0 <= i -> 0 <= highest_page p < 8388608 -> free_pages p = free_count p ->
  let q := reserve_pages n i p in
  highest_page q = highest_page p /\ total_ram_pages q = total_ram_pages p /\
  free_pages q = free_count q /\
  forall j, page_used q j = page_used p j || in_range i n (highest_page p) j.
Proof.
  revert i p. induction n as [|n IH]; intros i p Hi Hh Ht; cbn [reserve_pages].
  { split_and!; try done. intros j. unfold in_range.
    destruct (Z.leb_spec i j), (Z.ltb_spec j (i + Z.of_nat 0)); simpl; try lia; by rewrite orb_false_r. }
  rewrite BITMAP_GET_bit. change (bit (bitmap p) i) with (page_used p i).
  destruct (Z.leb_spec i (highest_page p)) as [Hle|Hgt].
  - set (p1 := if negb (page_used p i) then set_free_pages (u64 (free_pages p - 1)) p else p).
    set (q := set_bitmap (BITMAP_SET (bitmap p1) i) p1).
    assert (bitmap p1 = bitmap p /\ highest_page p1 = highest_page p /\
      total_ram_pages p1 = total_ram_pages p) as (Hb1 & Hh1 & Ht1)
      by (unfold p1; by destruct (negb (page_used p i))).
    assert (forall j, page_used q j = (j =? i) || page_used p j) as Hq.
    { intros j. unfold page_used. cbn. rewrite Hb1. apply bit_set. }
    assert (free_count q = free_count p - (if page_used p i then 0 else 1)) as Hc.
    { rewrite (free_count_flip p q i); [|done|lia|].
      - rewrite Hq, Z.eqb_refl. simpl. lia.
      - intros j Hj. rewrite Hq. destruct (Z.eqb_spec j i); done. }
    pose proof (free_count_bounds q ltac:(cbn; rewrite Hh1; lia)) as Hb. cbn in Hb.
    pose proof (free_count_bounds p ltac:(lia)).
    destruct (IH (i + 1) q) as (H1 & H2 & H3 & H4); [lia|cbn; lia| |].
    { cbn. rewrite Hc. unfold p1. destruct (page_used p i); cbn; [lia|].
      rewrite Ht. apply u64_small. lia. }
    split_and!; [cbn in *; congruence|cbn in *; congruence|done|].
    intros j. rewrite H4, Hq, in_range_S. cbn. rewrite Hh1.
    destruct (Z.eqb_spec j i) as [->|], (Z.leb_spec i (highest_page p)); try lia; simpl;
      by rewrite ?orb_true_r.
  - destruct (IH (i + 1) p) as (H1 & H2 & H3 & H4); [lia|done|done|].
    split_and!; [done..|]. intros j. rewrite H4, in_range_S.
    destruct (Z.leb_spec i (highest_page p)); [lia|]. by rewrite andb_false_r.
Qed.

(** The pages an entry of the memory map gives. *)
Definition entry_pages (e : limine_memmap_entry) (j : Z) : bool :=
  ((me_type e =? 0) || (me_type e =? 5)) &&
  (me_base e <=? j * 4096) && ((j + 1) * 4096 <=? me_base e + me_length e).

Definition memmap_ok (b : boot_info) : Prop :=
  Forall (fun e => 0 <= me_base e /\ 0 <= me_length e /\
    me_base e + me_length e + 4096 <= 2 ^ 64) (memmap b).

Lemma ALIGN_UP_page v : 0 <= v -> v + 4096 <= 2 ^ 64 -> ALIGN_UP v 4096 = (v + 4095) / 4096 * 4096.
Proof.
  intros. unfold ALIGN_UP. change (4096 - 1) with 4095. rewrite land_lnot_page, u64_small by lia.
  f_equal. f_equal. lia.
Qed.

Lemma release_entry_spec e p :
  0 <= me_base e -> 0 <= me_length e -> me_base e + me_length e + 4096 <= 2 ^ 64 ->
  0 <= highest_page p < 8388608 -> total_ram_pages p = free_count p ->
  let q := release_entry p e in
  highest_page q = highest_page p /\ total_ram_pages q = free_count q /\
  forall j, page_used q j = page_used p j && negb (entry_pages e j && (j <=? highest_page p)).
Proof.
  intros Hb Hl Ht Hh Htot. unfold release_entry.
  assert (entry_pages e = fun j => ((me_type e =? 0) || (me_type e =? 5)) &&
    (me_base e <=? j * 4096) && ((j + 1) * 4096 <=? me_base e + me_length e)) as Ee by done.
  rewrite Ee. clear Ee.
  destruct ((me_type e =? 0) || (me_type e =? 5)) eqn:T.
  2: { split_and!; [done|done|]. intros j. by rewrite andb_true_r. }
  change (4096 - 1) with 4095. rewrite land_lnot_page, ALIGN_UP_page, u64_small by lia.
  set (base := (me_base e + 4095) / 4096). set (top := (me_base e + me_length e) / 4096).
  assert (forall j, ((me_base e <=? j * 4096) && ((j + 1) * 4096 <=? me_base e + me_length e))
    = ((base <=? j) && (j <? top))) as Hj.
  { intros j. unfold base, top.
    destruct (Z.leb_spec (me_base e) (j * 4096)), (Z.leb_spec ((j + 1) * 4096) (me_base e + me_length e)),
      (Z.leb_spec ((me_base e + 4095) / 4096) j), (Z.ltb_spec j ((me_base e + me_length e) / 4096));
      simpl; done || zlia. }
  destruct (Z.leb_spec (top * 4096) (base * 4096)).
  - split_and!; [done|done|]. intros j. rewrite andb_true_l, Hj.
    destruct (Z.leb_spec base j), (Z.ltb_spec j top); simpl; try lia; by rewrite andb_true_r.
  - rewrite !Z.div_mul by lia.
    destruct (release_pages_spec (Z.to_nat (top - base)) base p) as (H1 & H2 & H3);
      [unfold base; zlia|done|done|].
    split_and!; [done|done|]. intros j. rewrite H3, andb_true_l, Hj. unfold in_range.
    by replace (base + Z.of_nat (Z.to_nat (top - base))) with top by lia.
Qed.

Definition usable_page (b : boot_info) (j : Z) : bool :=
  existsb (fun e => entry_pages e j) (memmap b).

Lemma release_entries_spec l p :
  Forall (fun e => 0 <= me_base e /\ 0 <= me_length e /\
    me_base e + me_length e + 4096 <= 2 ^ 64) l ->
  0 <= highest_page p < 8388608 -> total_ram_pages p = free_count p ->
  let q := fold_left release_entry l p in
  highest_page q = highest_page p /\ total_ram_pages q = free_count q /\
  forall j, page_used q j =
    page_used p j && negb (existsb (fun e => entry_pages e j) l && (j <=? highest_page p)).
Proof.
  intros Hl. revert p. induction Hl as [|e l (Hb & Hn & Ht) Hl IH]; intros p Hh Hc; cbn [fold_left].
  { split_and!; [done|done|]. intros j. by rewrite andb_true_r. }
  destruct (release_entry_spec e p Hb Hn Ht Hh Hc) as (H1 & H2 & H3).
  destruct (IH (release_entry p e)) as (I1 & I2 & I3); [congruence|done|].
  rewrite H1 in *. split_and!; [done|done|].
  intros j. rewrite I3, H3. cbn [existsb].
  destruct (page_used p j), (entry_pages e j), (existsb (fun e => entry_pages e j) l),
    (j <=? highest_page p); done.
Qed.

Definition in_pages (r : Z * Z) (j : Z) : bool := (r.1 <=? j) && (j <? r.2).

Lemma in_range_pages r hp j :
  j <= hp -> in_range r.1 (Z.to_nat (r.2 - r.1)) hp j = in_pages r j.
Proof.
  intros. unfold in_range, in_pages.
  destruct (Z.leb_spec r.1 j), (Z.ltb_spec j (r.1 + Z.of_nat (Z.to_nat (r.2 - r.1)))),
    (Z.ltb_spec j r.2), (Z.leb_spec j hp); simpl; done || lia.
Qed.

(** The page frames a boot leaves free. *)
Definition boot_free (b : boot_info) (j : Z) : bool :=
  usable_page b j && negb (in_pages (kernel_pages b) j) &&
  negb (in_pages (bitmap_pages b) j) && (256 <=? j).

Lemma kernel_pages_low b : 0 <= physical_base b -> 0 <= (kernel_pages b).1.
Proof. intros. cbn. zlia. Qed.

Lemma bitmap_pages_low b : 0 <= (bitmap_pages b).1.
Proof. cbn. pose proof (u64_range (bitmap_addr b - virtual_base b + physical_base b)). zlia. Qed.

Lemma low_range hp j :
  0 <= j <= hp -> in_range 0 (Z.to_nat (0x100000 / 4096)) hp j = (j <? 256).
Proof.
  intros. unfold in_range. rewrite Z2Nat.id by done.
  destruct (Z.leb_spec 0 j), (Z.leb_spec j hp); try lia. by rewrite andb_true_r.
Qed.

Lemma install_finish b hp p :
  0 <= hp < 8388608 -> highest_page p = hp -> free_pages p = free_count p ->
  (forall j, 0 <= j <= highest_page p -> page_used p j = negb (boot_free b j)) ->
  let q := set_used_pages (u64 (total_ram_pages p - free_pages p)) p in
  pmm_inv q /\ highest_page q = hp /\
  forall j, 0 <= j <= highest_page q -> page_used q j = negb (boot_free b j).
Proof.
  intros Hhp Hh Hf Hu q. split_and!; [split|done|done]; try done.
  - cbn. by rewrite Hh.
  - change (page_used p 0 = true). rewrite Hu by (rewrite Hh; lia).
    unfold boot_free. by rewrite andb_false_r.
Qed.

Lemma pmm_install_map_spec b p0 :
  memmap_ok b -> 0 <= physical_base b -> 0 <= highest_page p0 < 8388608 ->
  (forall j, 0 <= j <= highest_page p0 -> page_used p0 j = true) ->
  let p := pmm_install_map b p0 in
  pmm_inv p /\ highest_page p = highest_page p0 /\
  forall j, 0 <= j <= highest_page p -> page_used p j = negb (boot_free b j).
Proof.
  intros Hmm Hpb Hhp Hones0. unfold pmm_install_map. set (p1 := set_total_ram_pages 0 p0).
  assert (forall j, 0 <= j <= highest_page p0 -> page_used p1 j = true) as Hones by done.
  assert (highest_page p1 = highest_page p0 /\ total_ram_pages p1 = 0) as [Hhp1 Ht1] by done.
  remember p1 as q1 eqn:Eq1. clear Eq1. remember (highest_page p0) as hp' eqn:Ehp. clear Hones0 Ehp p1 p0.
  destruct (release_entries_spec (memmap b) q1 Hmm) as (A1 & A2 & A3); [by rewrite Hhp1|rewrite Ht1|].
  { symmetry. apply zcount_false. intros i Hi. rewrite Hones; [done|rewrite Hhp1 in Hi; lia]. }
  rewrite Hhp1 in A1, A3.
  remember (set_free_pages _ _) as p2 eqn:Ep2.
  assert (highest_page p2 = hp' /\ free_pages p2 = free_count p2 /\ forall j,
    page_used p2 j = page_used q1 j && negb (usable_page b j && (j <=? hp'))) as (E1 & E2 & E3)
    by (subst p2; done).
  clear A1 A2 A3 Ep2.
  destruct (reserve_pages_spec (Z.to_nat ((kernel_pages b).2 - (kernel_pages b).1))
    (kernel_pages b).1 p2) as (B1 & B2 & B3 & B4);
    [by apply kernel_pages_low|by rewrite E1|done|].
  remember (reserve_pages _ _ p2) as p3 eqn:Ep3. clear Ep3. rewrite E1 in B1, B4.
  destruct (reserve_pages_spec (Z.to_nat ((bitmap_pages b).2 - (bitmap_pages b).1))
    (bitmap_pages b).1 p3) as (C1 & C2 & C3 & C4);
    [apply bitmap_pages_low|by rewrite B1|done|].
  remember (reserve_pages _ _ p3) as p4 eqn:Ep4. clear Ep4. rewrite B1 in C1, C4.
  destruct (reserve_pages_spec (Z.to_nat (0x100000 / 4096)) 0 p4) as (D1 & D2 & D3 & D4);
    [lia|by rewrite C1|done|].
  remember (reserve_pages _ _ p4) as p5 eqn:Ep5. clear Ep5. rewrite C1 in D1, D4.
  assert (forall j, 0 <= j <= hp' -> page_used p5 j = negb (boot_free b j)) as Hused.
  { intros j Hj. rewrite D4, C4, B4, E3, Hones, !in_range_pages by lia.
    rewrite low_range by lia. unfold boot_free.
    destruct (Z.leb_spec j hp'), (Z.ltb_spec j 256), (Z.leb_spec 256 j); try lia;
      by destruct (usable_page b j), (in_pages (kernel_pages b) j), (in_pages (bitmap_pages b) j). }
  apply install_finish; [done|done|done|]. by rewrite D1.
Qed.

Lemma pmm_install_free (b : boot_info) (p0 : pmm_state) :
  memmap_ok b -> 0 <= physical_base b ->
  let p := pmm_install_pmm b p0 in
  pmm_inv p /\ highest_page p = Z.min (u64 (highest_address (memmap b) - 1) / 4096) 8388607 /\
  forall j, 0 <= j <= highest_page p -> page_used p j = negb (boot_free b j).
Proof.
  intros Hmm Hpb. unfold pmm_install_pmm. cbv zeta.
  set (hp := if _ <=? _ then _ else _).
  assert (0 <= hp < 8388608 /\ hp = Z.min (u64 (highest_address (memmap b) - 1) / 4096) 8388607) as [Hhp Emin].
  { unfold hp. pose proof (u64_range (highest_address (memmap b) - 1)).
    destruct (Z.leb_spec (1024 * 1024 * 8) (u64 (highest_address (memmap b) - 1) / 4096)); zlia. }
  match goal with |- context [pmm_install_map b ?p] =>
    destruct (pmm_install_map_spec b p Hmm Hpb) as (H1 & H3 & H2) end; [done| |split_and!; [done|by rewrite H3|done]].
  intros j Hj. apply bit_all_ones. cbn [set_bitmap set_highest_page highest_page] in Hj. lia.
Qed.

(** *** What is in the way *)

(** The page frame [j] holds a byte of the kernel's image with a virtual
    address from [lo] up to [hi]: the boot loader puts the image, from
    [virtual_base] on, at [physical_base]. *)
Definition holds_page (b : boot_info) (lo hi j : Z) : Prop :=
  exists v, lo <= v < hi /\ (v - virtual_base b + physical_base b) / 4096 = j.

Definition image_page (b : boot_info) : Z -> Prop := holds_page b (virtual_base b) (bss_end b).
Definition bitmap_page (b : boot_info) : Z -> Prop := holds_page b (bitmap_addr b) (bitmap_addr b + 1024 * 1024).

(** The image as link.ld lays it out: pages of boot loader requests, then
    [_text_begin] at a page boundary, then the rest up to [_bss_end]. *)
Record image_ok (b : boot_info) : Prop := {
  im_base : 0 <= physical_base b /\ physical_base b mod 4096 = 0;
  im_text : 0 <= virtual_base b <= text_begin b /\ (text_begin b - virtual_base b) mod 4096 = 0;
  im_end : text_begin b <= bss_end b /\ physical_base b + (bss_end b - virtual_base b) + 4096 <= 2 ^ 64;
  im_bitmap : virtual_base b <= bitmap_addr b /\
    physical_base b + (bitmap_addr b - virtual_base b) + 1024 * 1024 + 4096 <= 2 ^ 64
}.

Lemma holds_page_range b lo hi j :
  lo < hi ->
  holds_page b lo hi j <->
  (lo - virtual_base b + physical_base b) / 4096 <= j /\ j * 4096 < hi - virtual_base b + physical_base b.
Proof.
  intros Hlo. split.
  - intros (v & Hv & <-). zlia.
  - intros [H1 H2]. exists (Z.max lo (j * 4096 - physical_base b + virtual_base b)). split; [lia|].
    destruct (Z.max_spec lo (j * 4096 - physical_base b + virtual_base b)) as [[? ->]|[? ->]]; zlia.
Qed.

Lemma bitmap_pages_spec b j : image_ok b -> in_pages (bitmap_pages b) j = true <-> bitmap_page b j.
Proof.
  intros [[B1 B2] [T1 T2] [E1 E2] [M1 M2]]. unfold bitmap_page. rewrite holds_page_range by lia.
  unfold in_pages, bitmap_pages. cbv zeta. cbn [fst snd]. rewrite andb_true_iff, Z.leb_le, Z.ltb_lt.
  rewrite (u64_small (bitmap_addr b - _ + _)) by lia. rewrite (u64_small (_ + 1024 * 1024)) by lia.
  rewrite u64_small by lia. zlia.
Qed.

(** The pages that the code takes for the kernel's start where the image
    starts, but there are only as many as from [_text_begin] on. *)
Lemma kernel_pages_spec b j : image_ok b ->
  in_pages (kernel_pages b) j = true <->
  image_page b j /\ image_page b (j + (text_begin b - virtual_base b) / 4096).
Proof.
  intros [[B1 B2] [T1 T2] [E1 E2] _]. unfold in_pages, kernel_pages. cbv zeta. cbn [fst snd].
  rewrite andb_true_iff, Z.leb_le, Z.ltb_lt. rewrite (u64_small (bss_end b - _)) by lia.
  rewrite ALIGN_UP_page by lia. rewrite u64_small by zlia. unfold image_page.
  destruct (Z.lt_ge_cases (virtual_base b) (bss_end b)) as [Hne|Hemp].
  - rewrite !holds_page_range by done. replace (virtual_base b - virtual_base b + physical_base b) with (physical_base b) by lia.
    zlia.
  - split; [zlia|]. intros [(v & Hv & _) _]. lia.
Qed.

(** ** Properties *)

(** C26: [pmm_install] leaves a consistent allocator, whatever its data were
    before, up to the highest page of the memory map that the bitmap can hold.
    A page up to that one is free exactly when it lies wholly
    inside a usable or reclaimable region of the memory map, above the first
    megabyte, and neither holds a part of the bitmap nor is reserved for the
    kernel's image.  The image is reserved but for its end: as many pages as
    lie in front of [_text_begin] (the boot loader requests) are left out at
    the end of .bss.  So the kernel's own pages are safe if the memory map does
    not offer them, and an image page that is offered and left out is free. *)
Theorem pmm_install_spec (b : boot_info) (p0 : pmm_state) :
  memmap_ok b -> image_ok b ->
  let p := pmm_install_pmm b p0 in
  let lead := (text_begin b - virtual_base b) / 4096 in
  pmm_inv p /\ highest_page p = Z.min (u64 (highest_address (memmap b) - 1) / 4096) 8388607 /\
  (forall j, 0 <= j <= highest_page p ->
     page_used p j = false <->
     usable_page b j = true /\ 256 <= j /\ ~ bitmap_page b j /\ ~ (image_page b j /\ image_page b (j + lead))) /\
  ((forall j, image_page b j -> usable_page b j = false) ->
     forall j, 0 <= j <= highest_page p -> image_page b j -> page_used p j = true) /\
  (forall j, 0 <= j <= highest_page p -> image_page b j -> ~ image_page b (j + lead) ->
     usable_page b j = true -> 256 <= j -> ~ bitmap_page b j -> page_used p j = false).
Proof.
  intros Hmm Him. pose proof (pmm_install_free b p0 Hmm ltac:(by destruct Him as [[? _] _ _ _])) as H. cbv zeta in H |- *.
  set (lead := (text_begin b - virtual_base b) / 4096). remember (pmm_install_pmm b p0) as p eqn:Ep. clear Ep. destruct H as (Hinv & Hhp & Hused).
  assert (forall j, 0 <= j <= highest_page p ->
     page_used p j = false <->
     usable_page b j = true /\ 256 <= j /\ ~ bitmap_page b j /\ ~ (image_page b j /\ image_page b (j + lead))) as Hfree.
  { intros j Hj. rewrite Hused, negb_false_iff by done. unfold boot_free.
    rewrite !andb_true_iff, !negb_true_iff, Z.leb_le, <- !not_true_iff_false.
    rewrite (kernel_pages_spec b j Him), (bitmap_pages_spec b j Him). tauto. }
  split_and!; [done|done|done| |].
  - intros Hu j Hj Hi. apply not_false_iff_true. rewrite Hfree by done. rewrite (Hu j Hi). by intros [? _].
  - intros j Hj Hi Hl Hu H256 Hb. apply Hfree; [done|]. split_and!; try done. by intros [_ ?].
Qed.

(** A machine with 4 MiB of memory and the kernel at 1 MiB, one page of requests
    in front of its code. *)
Definition demo_boot : boot_info :=
  mk_boot [mk_memmap_entry 0 0x9f000 0; mk_memmap_entry 0x100000 0x300000 0]
    0xFFFF800000000000 0x100000 0xFFFFFFFF80000000
    0xFFFFFFFF80001000 0xFFFFFFFF80010000 0xFFFFFFFF80010000 0xFFFFFFFF80012000
    0xFFFFFFFF80012000 0xFFFFFFFF80120000 0xFFFFFFFF80014000
    0xFFFFFFFF80013000 [] []
    (mk_symbols 0xFFFFFFFF80002000 0xFFFFFFFF80002010 0xFFFFFFFF80002020 0xFFFFFFFF80002030
       0xFFFFFFFF80002040 (fun i => 0xFFFFFFFF80003000 + i * 16) (fun i => 0xFFFFFFFF80004000 + i * 16)
       0xFFFFFFFF80014000 0xFFFFFFFF80015000 0xFFFFFFFF80016000 0xFFFFFFFF80017000 0xFFFFFFFF80018000).

(** Its memory map offers the whole image: the last page of .bss is free, the
    page before it and a page behind the image are as they should be. *)
Lemma pmm_install_spec_witness :
  let p := pmm_install_pmm demo_boot (mk_pmm ∅ 0 0 0 0) in
  pmm_inv p /\ image_page demo_boot 0x21F /\ page_used p 0x21F = false /\
  image_page demo_boot 0x21E /\ page_used p 0x21E = true /\ ~ image_page demo_boot 0x220 /\ page_used p 0x220 = false.
Proof.
  assert (memmap_ok demo_boot) as Hmm by (repeat constructor; cbn; lia).
  assert (image_ok demo_boot) as Him by (split; cbn; (split; [lia|done || lia])).
  assert (forall j, image_page demo_boot j <-> 0x100 <= j < 0x220) as Hi.
  { intros j. unfold image_page. rewrite holds_page_range by (cbn; lia). cbn [demo_boot virtual_base physical_base bss_end]. zlia. }
  assert (forall j, bitmap_page demo_boot j <-> 0x114 <= j < 0x214) as Hb.
  { intros j. unfold bitmap_page. rewrite holds_page_range by lia. cbn [demo_boot virtual_base physical_base bitmap_addr]. zlia. }
  destruct (pmm_install_spec demo_boot (mk_pmm ∅ 0 0 0 0) Hmm Him) as (Hinv & Hp & Hf & _ & Hl).
  change ((text_begin demo_boot - virtual_base demo_boot) / 4096) with 1 in Hf, Hl. intros p.
  change (Z.min _ 8388607) with 0x3FF in Hp.
  change (pmm_install_pmm demo_boot (mk_pmm ∅ 0 0 0 0)) with p in Hinv, Hp, Hf, Hl. rewrite Hp in Hf, Hl. clearbody p.
  split; [exact Hinv|]. rewrite !Hi. split; [lia|]. split; [|split; [lia|split; [|split; [lia|]]]].
  - apply Hl; rewrite ?Hi, ?Hb; try lia. reflexivity.
  - apply not_false_iff_true. rewrite Hf, !Hi by lia. lia.
  - apply Hf; [lia|]. rewrite !Hi, Hb. split; [reflexivity|lia].
Defined.

Lemma alloc_post_ready i s :
  pmm_ready s -> 0 <= i <= highest_page (s_pmm s) -> page_used (s_pmm s) i = false ->
  pmm_ready (alloc_post i s).
Proof.
  intros [H1 H2 H3 H4] Hi Hu. split; [by apply take_page_inv|done|by apply irq_section_ok|done].
Qed.

Lemma free_post_ready i s :
  pmm_ready s -> 0 < i <= highest_page (s_pmm s) -> page_used (s_pmm s) i = true ->
  pmm_ready (free_post i s).
Proof.
  intros [H1 H2 H3 H4] Hi Hu. split; [by apply give_page_inv|done|by apply irq_section_ok|done].
Qed.

Lemma alloc_post_mem i s x :
  rd (s_mem (alloc_post i s)) x =
  if (hhdm_offset (s_boot s) + i * 4096 <=? x) && (x <? hhdm_offset (s_boot s) + i * 4096 + 4096)
  then 0 else rd (s_mem s) x.
Proof. cbn [alloc_post on_mem s_mem set_mem]. by rewrite rd_memset_loop. Qed.

(** C1: [pmm_allocate] refines taking the head of the ascending list of free
    page numbers: it returns that page's address, the page reads as zero in the
    direct map, no other byte changes, and the allocator is ready again; with
    no free page it panics after releasing its lock and leaving its critical
    section. *)
Theorem pmm_allocate_refines (s : kstate) :
  pmm_ready s ->
  match free_list (s_pmm s) with
  | [] => pmm_allocate s = Panic "out of memory in pmm_allocate!" (on_cpu irq_section s)
  | i :: l => exists s', pmm_allocate s = Ok (i * 4096) s' /\
      free_list (s_pmm s') = l /\ pmm_ready s' /\ same_ctx s s' /\
      forall x, rd (s_mem s') x =
        if (hhdm_offset (s_boot s) + i * 4096 <=? x) && (x <? hhdm_offset (s_boot s) + i * 4096 + 4096)
        then 0 else rd (s_mem s) x
  end.
Proof.
  intros Hr. destruct (free_list (s_pmm s)) as [|i l] eqn:E.
  - apply pmm_allocate_none; [done|]. intros i Hi.
    destruct (page_used (s_pmm s) i) eqn:U; [done|].
    assert (i ∈ free_list (s_pmm s)) as Hin by by apply elem_of_free_list.
    rewrite E in Hin. by apply not_elem_of_nil in Hin.
  - pose proof (first_free_head _ _ _ E) as Hff. exists (alloc_post i s).
    split_and!; [by apply pmm_allocate_first| | |apply alloc_post_ctx|apply alloc_post_mem].
    + pose proof (free_list_take _ (take_page i (s_pmm s)) i Hff eq_refl
        (take_page_used (s_pmm s) i)) as Ht.
      rewrite E in Ht. by inversion Ht.
    + destruct Hff as (Hi & Hu & _). by apply alloc_post_ready.
Qed.

(** A four page machine, pages 0 and 1 in use. *)
Definition demo_pmm : pmm_state := mk_pmm {[0 := 3]} 3 0 2 2.

Definition demo_state : kstate :=
  set_pmm demo_pmm (entry_state demo_boot (fun _ _ => 0) true).

Lemma demo_ready : pmm_ready demo_state.
Proof.
  split; [split; vm_compute; done || (split; done || lia)| |split; cbn; done || lia|done].
  split; vm_compute; done.
Defined.

Lemma pmm_allocate_refines_witness :
  free_list (s_pmm demo_state) = [2; 3] /\
  exists s', pmm_allocate demo_state = Ok (2 * 4096) s' /\ free_list (s_pmm s') = [3].
Proof.
  split; [vm_compute; done|].
  pose proof (pmm_allocate_refines demo_state demo_ready) as H.
  change (free_list (s_pmm demo_state)) with [2; 3] in H.
  destruct H as (s' & H1 & H2 & _). exists s'. done.
Defined.

(** C2: [pmm_free] inserts the page into the free list at its place, and each
    of its four checks stops a bad call before anything changed: the null
    page, an unaligned address, a page beyond the highest one, and a page that
    is free already. *)
Theorem pmm_free_refines (s : kstate) (a : Z) :
  pmm_ready s -> 0 <= a ->
  match pmm_free a s with
  | Ok _ s' =>
      0 < a /\ a mod 4096 = 0 /\ ((a / 4096) ∉ free_list (s_pmm s)) /\
      (exists l1 l2, free_list (s_pmm s) = l1 ++ l2 /\
        free_list (s_pmm s') = l1 ++ (a / 4096) :: l2 /\
        Forall (fun j => j < a / 4096) l1 /\ Forall (fun j => a / 4096 < j) l2) /\
      pmm_ready s' /\ same_ctx s s' /\ s_mem s' = s_mem s
  | Panic msg s' => s' = s /\
      ((msg = "pmm_free called with NULL pointer!"%string /\ a = 0) \/
       (msg = "pmm_free called with unaligned address!"%string /\ a mod 4096 <> 0) \/
       (msg = "pmm_free called with out-of-bounds address!"%string /\
          highest_page (s_pmm s) < a / 4096) \/
       (msg = "pmm_free called on already free page!"%string /\ (a / 4096) ∈ free_list (s_pmm s)))
  | _ => False
  end.
Proof.
  intros Hr Ha0.
  destruct (decide (a = 0)) as [->|Hn0]; [by cbn; auto|].
  destruct (decide (a mod 4096 = 0)) as [Hal|Hal].
  2: { unfold pmm_free. destruct (Z.eqb_spec a 0); [done|].
       destruct (Z.eqb_spec (a mod 4096) 0); [done|]. cbn. auto. }
  destruct (decide (a / 4096 <= highest_page (s_pmm s))) as [Hle|Hgt].
  2: { unfold pmm_free. destruct (Z.eqb_spec a 0); [done|]. rewrite Hal. cbn [negb Z.eqb].
       unfold bind, gets. destruct (Z.ltb_spec (highest_page (s_pmm s)) (a / 4096)); [|lia].
       cbn. auto 6. }
  assert (0 < a / 4096) by zlia.
  destruct (page_used (s_pmm s) (a / 4096)) eqn:U.
  - rewrite pmm_free_used by done. split_and!; [lia|done| | | |apply free_post_ctx|done].
    + rewrite elem_of_free_list, U. by intros [_ ?].
    + apply free_list_give; [lia|done|done|apply give_page_used].
    + by apply free_post_ready.
  - unfold pmm_free. destruct (Z.eqb_spec a 0); [done|]. rewrite Hal. cbn [negb Z.eqb].
    unfold bind, gets. destruct (Z.ltb_spec (highest_page (s_pmm s)) (a / 4096)); [lia|].
    rewrite BITMAP_GET_bit. unfold page_used in U. rewrite U. cbn [negb]. split; [done|].
    right; right; right. split; [done|]. apply elem_of_free_list. split; [lia|done].
Qed.

Lemma pmm_free_refines_witness :
  exists s' l1 l2, pmm_free 4096 demo_state = Ok tt s' /\
    free_list (s_pmm demo_state) = l1 ++ l2 /\ free_list (s_pmm s') = l1 ++ 1 :: l2.
Proof.
  pose proof (pmm_free_refines demo_state 4096 demo_ready ltac:(lia)) as H.
  assert (pmm_free 4096 demo_state = Ok tt (free_post 1 demo_state)) as E
    by (apply (pmm_free_used demo_state 4096 demo_ready); vm_compute; done).
  rewrite E in H. destruct H as (_ & _ & _ & (l1 & l2 & H1 & H2 & _) & _).
  exists (free_post 1 demo_state), l1, l2. done.
Defined.

(** Every page a client holds is in use, and the client holds no page twice. *)
Lemma pmm_reach_inv s0 s owned :
  pmm_ready s0 -> pmm_reach s0 s owned ->
  pmm_ready s /\ NoDup owned /\
  Forall (fun a => a mod 4096 = 0 /\ 0 < a /\ a / 4096 <= highest_page (s_pmm s) /\
    page_used (s_pmm s) (a / 4096) = true) owned /\
  free_count (s_pmm s) + Z.of_nat (length owned) = free_count (s_pmm s0).
Proof.
  intros H0. induction 1 as [|s owned a s' _ (Hr & Hnd & Hown & Hcnt) Hal
    |s o1 a o2 s' _ (Hr & Hnd & Hown & Hcnt) Hfr].
  - split_and!; [done|constructor|constructor|cbn; lia].
  - destruct (first_free_dec (s_pmm s)) as [[i Hi]|Hnone].
    2: { rewrite pmm_allocate_none in Hal by done. done. }
    rewrite (pmm_allocate_first s i Hr Hi) in Hal. injection Hal as <- <-.
    destruct Hi as (Hi & Hu & Hlt). pose proof (pi_zero _ (pr_inv _ Hr)) as Hz.
    assert (i <> 0) by congruence. rewrite Forall_forall in Hown.
    split_and!.
    + by apply alloc_post_ready.
    + constructor; [|done]. intros Hin. destruct (Hown _ Hin) as (_ & _ & _ & Hu').
      rewrite Z.div_mul in Hu' by lia. congruence.
    + cbn. constructor.
      * rewrite Z.div_mul, Z_mod_mult, take_page_used, Z.eqb_refl by lia.
        split_and!; done || lia.
      * apply Forall_forall. intros b Hb. destruct (Hown _ Hb) as (? & ? & ? & Hub).
        rewrite take_page_used, Hub. split_and!; [done..|]. apply orb_true_r.
    + cbn [alloc_post s_pmm on_mem on_cpu on_pmm set_mem set_cpu set_pmm].
      rewrite (free_count_flip (s_pmm s) (take_page i (s_pmm s)) i eq_refl Hi).
      * rewrite take_page_used, Z.eqb_refl, Hu. cbn [length orb]. lia.
      * intros j Hj. rewrite take_page_used. by destruct (Z.eqb_spec j i).
  - apply NoDup_app in Hnd as (Hnd1 & Hdis & Hnd2). apply NoDup_cons in Hnd2 as [Hna Hnd2].
    apply Forall_app in Hown as [Ho1 Ho2]. inversion Ho2 as [|? ? (Ham & Hap & Hah & Hau) Ho2']; subst.
    rewrite pmm_free_used in Hfr by (done || lia). injection Hfr as <-.
    assert (0 < a / 4096 <= highest_page (s_pmm s)) as Hrange by zlia.
    assert (forall o, (forall b, b ∈ o -> b <> a) ->
      Forall (fun a => a mod 4096 = 0 /\ 0 < a /\ a / 4096 <= highest_page (s_pmm s) /\
        page_used (s_pmm s) (a / 4096) = true) o ->
      Forall (fun b => b mod 4096 = 0 /\ 0 < b /\ b / 4096 <= highest_page (s_pmm s) /\
        page_used (give_page (a / 4096) (s_pmm s)) (b / 4096) = true) o) as Hkeep.
    { intros o Ho HF. rewrite Forall_forall in *. intros b Hb. specialize (HF b Hb).
      destruct HF as (? & ? & ? & Hub). rewrite give_page_used, Hub.
      split_and!; [done..|]. specialize (Ho b Hb).
      destruct (Z.eqb_spec (b / 4096) (a / 4096)); [zlia|done]. }
    split_and!.
    + by apply free_post_ready.
    + apply NoDup_app. split_and!; [done| |done]. intros b Hb Hb2. apply (Hdis b Hb). by right.
    + cbn. apply Forall_app. split; apply Hkeep; try done.
      * intros b Hb ->. apply (Hdis a Hb). left.
      * intros b Hb ->. done.
    + cbn [free_post s_pmm on_cpu on_pmm set_cpu set_pmm].
      rewrite (free_count_flip (s_pmm s) (give_page (a / 4096) (s_pmm s)) (a / 4096) eq_refl ltac:(lia)).
      * rewrite give_page_used, Z.eqb_refl, Hau. cbn [negb andb].
        rewrite length_app in *. cbn [length] in *. lia.
      * intros j Hj. rewrite give_page_used. by destruct (Z.eqb_spec j (a / 4096)).
Qed.

(** C5: in every run of clients that only return pages they hold, no page is
    held twice, and the pages held together with [free_pages] always make up
    the pages that were free at the start. *)
Theorem pmm_no_double_allocation (s0 s : kstate) (owned : list Z) :
  pmm_ready s0 -> pmm_reach s0 s owned ->
  NoDup owned /\ Forall (fun a => (a / 4096) ∉ free_list (s_pmm s)) owned /\
  free_pages (s_pmm s) + Z.of_nat (length owned) = free_pages (s_pmm s0).
Proof.
  intros H0 Hr. destruct (pmm_reach_inv s0 s owned H0 Hr) as (Hrd & Hnd & Hown & Hc).
  rewrite (pi_free _ (pr_inv _ Hrd)), (pi_free _ (pr_inv _ H0)).
  split_and!; [done| |done]. eapply Forall_impl; [exact Hown|].
  intros a (_ & _ & _ & Hu). rewrite elem_of_free_list, Hu. by intros [_ ?].
Qed.

Lemma pmm_no_double_allocation_witness :
  exists s owned, pmm_reach demo_state s owned /\ length owned = 2%nat /\ NoDup owned.
Proof.
  assert (pmm_allocate demo_state = Ok (2 * 4096) (alloc_post 2 demo_state)) as E1.
  { apply pmm_allocate_first; [apply demo_ready|]. split_and!; [cbn; lia|cbn; lia|done|].
    intros j Hj. assert (j = 0 \/ j = 1) as [-> | ->] by lia; done. }
  assert (pmm_ready (alloc_post 2 demo_state)) as R1
    by (apply alloc_post_ready; [apply demo_ready|cbn; lia|done]).
  assert (pmm_allocate (alloc_post 2 demo_state)
    = Ok (3 * 4096) (alloc_post 3 (alloc_post 2 demo_state))) as E2.
  { apply pmm_allocate_first; [done|]. split_and!; [cbn; lia|cbn; lia|done|].
    intros j Hj. assert (j = 0 \/ j = 1 \/ j = 2) as [-> | [-> | ->]] by lia; done. }
  pose proof (pr_alloc _ _ _ _ _ (pr_alloc _ _ _ _ _ (pr_start demo_state) E1) E2) as R.
  eexists _, _. split; [exact R|]. split; [done|].
  apply (pmm_no_double_allocation _ _ _ demo_ready R).
Defined.

(** ** The interface to the rest of the kernel *)

Definition pmm_frame_used (s : kstate) (a : Z) : Prop :=
  a mod 4096 = 0 /\ 0 < a /\ a / 4096 <= highest_page (s_pmm s) /\
  page_used (s_pmm s) (a / 4096) = true.

#[export] Program Instance pmm_page_allocator : page_allocator pmm_allocate pmm_free := {|
  pa_ready := pmm_ready;
  frame_used := pmm_frame_used
|}.
Next Obligation.
  intros s a [[Hh _ _ _] _ _ _] (Ha & Hp & Hle & _). split; [done|]. zlia.
Qed.
Next Obligation. by intros s [_ ? _ _]. Qed.
Next Obligation.
  intros s Hr. destruct (first_free_dec (s_pmm s)) as [[i Hi]|Hnone].
  2: { unfold wp. rewrite pmm_allocate_none by done. done. }
  eapply wp_ok; [by apply pmm_allocate_first|]. destruct Hi as (Hi & Hu & Hlt).
  assert (i <> 0) by (intros ->; pose proof (pi_zero _ (pr_inv _ Hr)); congruence).
  unfold pmm_frame_used, agree_off, in_frame. split_and!.
  - rewrite Z.div_mul, Hu by lia. by intros (_ & _ & _ & ?).
  - apply Z_mod_mult.
  - lia.
  - rewrite Z.div_mul by lia. cbn. lia.
  - rewrite Z.div_mul by lia. cbn [alloc_post on_mem on_cpu on_pmm s_pmm set_mem set_cpu set_pmm].
    by rewrite take_page_used, Z.eqb_refl.
  - intros b Hb. cbn [alloc_post on_mem on_cpu on_pmm s_pmm set_mem set_cpu set_pmm].
    rewrite take_page_used. destruct (Z.eqb_spec (b / 4096) i); [|done].
    split; intros (? & _); exfalso; apply Hb; zlia.
  - intros x Hx. rewrite alloc_post_mem.
    destruct (Z.leb_spec (hhdm_offset (s_boot s) + i * 4096) x),
      (Z.ltb_spec x (hhdm_offset (s_boot s) + i * 4096 + 4096)); simpl; done || lia.
  - intros x Hx. rewrite alloc_post_mem.
    destruct (Z.leb_spec (hhdm_offset (s_boot s) + i * 4096) x),
      (Z.ltb_spec x (hhdm_offset (s_boot s) + i * 4096 + 4096)); simpl; done || lia.
  - apply alloc_post_ctx.
  - by apply alloc_post_ready.
Qed.
Next Obligation.
  intros s a Hr (Ha & Hp & Hle & Hu). eapply wp_ok; [apply pmm_free_used; done || lia|].
  unfold pmm_frame_used. cbn [free_post on_cpu on_pmm s_pmm set_cpu set_pmm].
  assert (0 < a / 4096) by zlia. split_and!.
  - rewrite give_page_used, Z.eqb_refl. by intros (_ & _ & _ & ?).
  - intros b Hb. rewrite give_page_used.
    destruct (Z.eqb_spec (b / 4096) (a / 4096)); [|done].
    split; intros (? & _); exfalso; apply Hb; zlia.
  - done.
  - apply free_post_ctx.
  - by apply free_post_ready.
Qed.
Next Obligation.
  intros s s' [H1 H2 H3 H4] Ep Eb El Ec. split.
  - split; [by rewrite Ep|by rewrite Eb| |congruence].
    destruct Ec as [-> |[-> |?]]; [done|by apply irq_section_ok|done].
  - intros a. unfold pmm_frame_used. by rewrite Ep.
Qed.
Next Obligation. by intros s [_ _ ? _]. Qed.
