(* ===== verification/Vmm.v ===== *)
(** * Paging (kernel/system/vmm.c): the functions

    Four-level page tables in memory, reached through the direct map: the walk
    step [vmm_get_next_level], mapping, unmapping, translation, copying into a
    mapped range, and the construction of the kernel's own tables.
    [vmm_new_pagemap] needs the heap and is in Pagemap.v; the page fault
    handler needs processes and is in Process.v.  The translation lookaside
    buffer is not modelled: [vmm_invalidate_page] has no effect on the state. *)

From S2P Require Import Prelude Memory State Cpu Libc Pmm.

(** ** Definitions *)

Abbreviation PTE_PRESENT := 1 (only parsing).
Abbreviation PTE_WRITABLE := 2 (only parsing).
Abbreviation PTE_USER := 4 (only parsing).
Abbreviation PTE_NX := (2 ^ 63) (only parsing).
Abbreviation PTE_ADDR_MASK := 0x000ffffffffff000 (only parsing).

Definition PTE_GET_ADDR (value : Z) : Z := Z.land value PTE_ADDR_MASK.
Definition PTE_GET_FLAGS (value : Z) : Z := Z.land value (Z.lnot PTE_ADDR_MASK).

(** [entry & PTE_PRESENT] *)
Definition present (entry : Z) : bool := negb (Z.land entry PTE_PRESENT =? 0).

Definition pml4_idx (virt : Z) : Z := Z.land (Z.shiftr virt 39) 0x1FF.
Definition pdpt_idx (virt : Z) : Z := Z.land (Z.shiftr virt 30) 0x1FF.
Definition pd_idx (virt : Z) : Z := Z.land (Z.shiftr virt 21) 0x1FF.
Definition pt_idx (virt : Z) : Z := Z.land (Z.shiftr virt 12) 0x1FF.

Definition VMM_HIGHER_HALF : M Z := gets (fun s => hhdm_offset (s_boot s)).

(** [pagemap->base_virt] *)
Definition base_virt (pagemap : Z) : M Z := fun s =>
  match pagemaps (s_vmm s) !! pagemap with
  | Some b => Ok b s
  | None => Fault s
  end.

Fixpoint table_empty_from (m : mem) (table : Z) (i : Z) (n : nat) : bool :=
  match n with
  | O => true
  | S n => if negb (load64 m (table + i * 8) =? 0) then false else table_empty_from m table (i + 1) n
  end.

Definition vmm_is_table_empty (table : Z) : M bool :=
  gets (fun s => table_empty_from (s_mem s) table 0 512).

Definition vmm_invalidate_page (addr : Z) : M unit := ret tt.

Definition vmm_switch_pagemap (pagemap : Z) : M unit :=
  if pagemap =? 0 then panic "invalid pagemap while switching" else
  base <- base_virt pagemap;;
  if base =? 0 then panic "invalid pagemap while switching" else
  hhdm <- VMM_HIGHER_HALF;;
  modify (on_cpu (set_cr3 (u64 (base - hhdm)))).

Definition vmm_get_next_level (current_level_virt idx : Z) (allocate : bool)
    (alloc_entry_flags : Z) : M Z :=
  entry <- read64 (current_level_virt + idx * 8);;
  hhdm <- VMM_HIGHER_HALF;;
  if present entry then ret (u64 (PTE_GET_ADDR entry + hhdm)) else
  if negb allocate then ret 0 else
  next_level_phys <- pmm_allocate;;
  if next_level_phys =? 0 then panic "failed to allocate page for vmm_get_next_level" else
  let next_level_virt := u64 (next_level_phys + hhdm) in
  memset next_level_virt 0 PAGE_SIZE;;;
  let new_entry_flags :=
    if negb (alloc_entry_flags =? 0) then alloc_entry_flags
    else Z.lor PTE_PRESENT PTE_WRITABLE in
  write64 (current_level_virt + idx * 8) (Z.lor next_level_phys new_entry_flags);;;
  ret next_level_virt.

(** The [fail:] label of [vmm_map_page]. *)
Definition map_page_fail : M bool :=
  spin_unlock vmm_lock;;; panic "vmm_map_page failure".

Definition vmm_map_page (pagemap virt phys flags : Z) : M bool :=
  let virt := Z.land virt (Z.lnot (PAGE_SIZE - 1)) in
  let phys := Z.land phys (Z.lnot (PAGE_SIZE - 1)) in
  let alloc_flags := Z.lor PTE_PRESENT PTE_WRITABLE in
  let alloc_flags :=
    if negb (Z.land flags PTE_USER =? 0) then Z.lor alloc_flags PTE_USER else alloc_flags in
  spin_lock vmm_lock;;;
  pml4 <- base_virt pagemap;;
  if pml4 =? 0 then map_page_fail else
  pdpt <- vmm_get_next_level pml4 (pml4_idx virt) true alloc_flags;;
  if pdpt =? 0 then map_page_fail else
  pd <- vmm_get_next_level pdpt (pdpt_idx virt) true alloc_flags;;
  if pd =? 0 then map_page_fail else
  pt <- vmm_get_next_level pd (pd_idx virt) true alloc_flags;;
  if pt =? 0 then map_page_fail else
  write64 (pt + pt_idx virt * 8) (Z.lor (Z.lor phys flags) PTE_PRESENT);;;
  vmm_invalidate_page virt;;;
  spin_unlock vmm_lock;;;
  ret true.

Definition vmm_unmap_page (pagemap virt : Z) : M bool :=
  if negb (virt mod PAGE_SIZE =? 0) then panic "page not aligned in vmm_unmap_page" else
  pml4 <- base_virt pagemap;;
  pdpt <- vmm_get_next_level pml4 (pml4_idx virt) false 0;;
  if pdpt =? 0 then ret true else
  pdpt_entry <- read64 (pml4 + pml4_idx virt * 8);;
  pd <- vmm_get_next_level pdpt (pdpt_idx virt) false 0;;
  if pd =? 0 then ret true else
  pd_entry <- read64 (pdpt + pdpt_idx virt * 8);;
  pt <- vmm_get_next_level pd (pd_idx virt) false 0;;
  if pt =? 0 then ret true else
  pt_entry <- read64 (pd + pd_idx virt * 8);;
  leaf <- read64 (pt + pt_idx virt * 8);;
  if negb (present leaf) then ret true else
  spin_lock vmm_lock;;;
  write64 (pt + pt_idx virt * 8) 0;;;
  vmm_invalidate_page virt;;;
  pt_empty <- vmm_is_table_empty pt;;
  when pt_empty (
    write64 (pd + pd_idx virt * 8) 0;;;
    pmm_free (PTE_GET_ADDR pt_entry);;;
    pd_empty <- vmm_is_table_empty pd;;
    when pd_empty (
      write64 (pdpt + pdpt_idx virt * 8) 0;;;
      pmm_free (PTE_GET_ADDR pd_entry);;;
      pdpt_empty <- vmm_is_table_empty pdpt;;
      when (pdpt_empty && negb (256 <=? pml4_idx virt)) (
        write64 (pml4 + pml4_idx virt * 8) 0;;;
        pmm_free (PTE_GET_ADDR pdpt_entry))));;;
  spin_unlock vmm_lock;;;
  ret true.

Definition vmm_virt_to_phys (pagemap virt : Z) : M Z :=
  pml4 <- base_virt pagemap;;
  pdpt <- vmm_get_next_level pml4 (pml4_idx virt) false 0;;
  if pdpt =? 0 then ret 0 else
  pd <- vmm_get_next_level pdpt (pdpt_idx virt) false 0;;
  if pd =? 0 then ret 0 else
  pt <- vmm_get_next_level pd (pd_idx virt) false 0;;
  if pt =? 0 then ret 0 else
  entry <- read64 (pt + pt_idx virt * 8);;
  if negb (present entry) then ret 0 else
  ret (u64 (PTE_GET_ADDR entry + virt mod PAGE_SIZE)).

(** The loops of [vmm_map_copy] and [vmm_map_zero]; at most [fuel] pages are
    touched, and [len / PAGE_SIZE + 2] are enough for [len] bytes. *)
Fixpoint map_copy_loop (fuel : nat) (pagemap virt buffer len copied : Z) : M unit :=
  if negb (copied <? len) then ret tt else
  match fuel with
  | O => diverge
  | S fuel =>
    let curr_virt := u64 (virt + copied) in
    curr_phys <- vmm_virt_to_phys pagemap curr_virt;;
    if curr_phys =? 0 then panic "vmm_map_copy: target not mapped" else
    let page_offset := Z.land curr_virt (PAGE_SIZE - 1) in
    let chunk := PAGE_SIZE - page_offset in
    let remaining := len - copied in
    let chunk := if remaining <? chunk then remaining else chunk in
    hhdm <- VMM_HIGHER_HALF;;
    memcpy (u64 (curr_phys + hhdm)) (u64 (buffer + copied)) chunk;;;
    map_copy_loop fuel pagemap virt buffer len (copied + chunk)
  end.

Definition vmm_map_copy (pagemap virt src len : Z) : M unit :=
  spin_lock vmm_lock;;;
  map_copy_loop (Z.to_nat (len / PAGE_SIZE + 2)) pagemap virt src len 0;;;
  spin_unlock vmm_lock.

Fixpoint map_zero_loop (fuel : nat) (pagemap virt len cleared : Z) : M unit :=
  if negb (cleared <? len) then ret tt else
  match fuel with
  | O => diverge
  | S fuel =>
    let curr_virt := u64 (virt + cleared) in
    curr_phys <- vmm_virt_to_phys pagemap curr_virt;;
    if curr_phys =? 0 then panic "vmm_map_zero: target not mapped" else
    let page_offset := Z.land curr_virt (PAGE_SIZE - 1) in
    let chunk := PAGE_SIZE - page_offset in
    let remaining := len - cleared in
    let chunk := if remaining <? chunk then remaining else chunk in
    hhdm <- VMM_HIGHER_HALF;;
    memset (u64 (curr_phys + hhdm)) 0 chunk;;;
    map_zero_loop fuel pagemap virt len (cleared + chunk)
  end.

Definition vmm_map_zero (pagemap virt len : Z) : M unit :=
  spin_lock vmm_lock;;;
  map_zero_loop (Z.to_nat (len / PAGE_SIZE + 2)) pagemap virt len 0;;;
  spin_unlock vmm_lock.

(** *** [vmm_install] *)

(** The protection of a page of the kernel image. *)
Definition kernel_page_flags (b : boot_info) (p_virt : Z) : Z :=
  let data_end := ALIGN_UP (bss_end b) PAGE_SIZE in
  if (text_begin b <=? p_virt) && (p_virt <? text_end b) then PTE_PRESENT
  else if (rodata_begin b <=? p_virt) && (p_virt <? rodata_end b) then
    Z.lor PTE_PRESENT PTE_NX
  else if (data_begin b <=? p_virt) && (p_virt <? data_end) then
    Z.lor PTE_PRESENT (Z.lor PTE_WRITABLE PTE_NX)
  else Z.lor PTE_PRESENT (Z.lor PTE_WRITABLE PTE_NX).

(** [for (p = start; p < stop; p += PAGE_SIZE) map(p)], with [n] the number of
    steps that fit. *)
Fixpoint map_pages (n : nat) (p stop : Z) (virt_of phys_of flags_of : Z -> Z) (msg : string)
    : M unit :=
  match n with
  | O => ret tt
  | S n =>
    if negb (p <? stop) then ret tt else
    kp <- gets (fun s => kernel_pagemap (s_vmm s));;
    ok <- vmm_map_page kp (virt_of p) (phys_of p) (flags_of p);;
    if negb ok then panic msg else
    map_pages n (p + PAGE_SIZE) stop virt_of phys_of flags_of msg
  end.

Definition pages_between (start stop : Z) : nat := Z.to_nat ((stop - start + 4095) / PAGE_SIZE).

Definition map_memmap_entry (hhdm : Z) (e : limine_memmap_entry) : M unit :=
  let base := me_base e in
  let top := u64 (base + me_length e) in
  let map_base := ALIGN_UP base PAGE_SIZE in
  let map_top := Z.land top (Z.lnot (PAGE_SIZE - 1)) in
  let rwx := Z.lor PTE_PRESENT (Z.lor PTE_WRITABLE PTE_NX) in
  if map_top <=? map_base then ret tt else
  map_pages (pages_between map_base map_top) map_base map_top
    (fun p => u64 (p + hhdm)) (fun p => p) (fun _ => rwx) "failed to map hhdm page";;;
  let ident_map_limit := 0x00100000 in
  when (map_base <? ident_map_limit) (
    let ident_map_end := if ident_map_limit <? map_top then ident_map_limit else map_top in
    map_pages (pages_between map_base ident_map_end) map_base ident_map_end
      (fun p => p) (fun p => p) (fun _ => rwx) "failed to identity map low 1mb page").

Fixpoint map_memmap (hhdm : Z) (l : list limine_memmap_entry) : M unit :=
  match l with
  | [] => ret tt
  | e :: l => map_memmap_entry hhdm e;;; map_memmap hhdm l
  end.

Definition vmm_install : M unit :=
  pml4_phys <- pmm_allocate;;
  if pml4_phys =? 0 then panic "failed to allocate kernel pml4" else
  hhdm <- VMM_HIGHER_HALF;;
  let pml4_virt := u64 (pml4_phys + hhdm) in
  memset pml4_virt 0 PAGE_SIZE;;;
  b <- gets s_boot;;
  modify (on_vmm (fun v =>
    set_pagemaps (<[new_pagemap_addr b := pml4_virt]> (pagemaps v))
      (set_kernel_pagemap (new_pagemap_addr b) v)));;;
  let kernel_virt_end := ALIGN_UP (bss_end b) PAGE_SIZE in
  map_pages (pages_between (virtual_base b) kernel_virt_end) (virtual_base b) kernel_virt_end
    (fun p => p) (fun p => u64 (p - virtual_base b + physical_base b))
    (kernel_page_flags b) "failed to map kernel page";;;
  map_memmap hhdm (memmap b);;;
  kp <- gets (fun s => kernel_pagemap (s_vmm s));;
  vmm_switch_pagemap kp;;;
  modify (on_irq (fun q => set_isr_callbacks (<[14 := Vmm_pagefault]> (isr_callbacks q)) q)).
