(* ===== verification/VmmTree.v ===== *)
(** * Page tables as a tree (proofs about kernel/system/vmm.c)

    The abstract view of a pagemap: a finite map [T] from index paths (of at
    most three indices) to the physical address of the table found there.
    [tree] ties it to memory; [leaf_entry] is the page table entry of a virtual
    address.  The functions of Vmm.v are proved against the page allocator's
    interface: they keep a tree a tree and change exactly the entry asked
    for. *)

From S2P Require Import Prelude Memory State Cpu Libc Pmm Vmm.

(** ** Definitions *)

(** Entry [i] of the table at physical address [t]. *)
Definition pte (s : kstate) (t i : Z) : Z :=
  load64 (s_mem s) (hhdm_offset (s_boot s) + t + i * 8).

(** The page number of a virtual address as the four indices see it. *)
Definition vpn (v : Z) : Z := (v / 4096) mod 2 ^ 36.

Definition pt_path (v : Z) : list Z := [pml4_idx v; pdpt_idx v; pd_idx v].

Definition leaf_entry (s : kstate) (T : gmap (list Z) Z) (v : Z) : Z :=
  match T !! pt_path v with
  | Some t => pte s t (pt_idx v)
  | None => 0
  end.

(** What an address translates to: 0 for none, as [vmm_virt_to_phys] says it. *)
Definition translate (s : kstate) (T : gmap (list Z) Z) (v : Z) : Z :=
  let e := leaf_entry s T v in
  if present e then u64 (PTE_GET_ADDR e + v mod 4096) else 0.

Section tree_def.
Context {PA : page_allocator pmm_allocate pmm_free}.

Record tree (s : kstate) (root : Z) (T : gmap (list Z) Z) : Prop := {
  tr_root : T !! [] = Some root;
  tr_inj : forall p q t, T !! p = Some t -> T !! q = Some t -> p = q;
  tr_used : forall p t, T !! p = Some t -> frame_used s t;
  tr_link : forall p t i, T !! p = Some t -> (length p < 3)%nat -> 0 <= i < 512 ->
    match T !! (p ++ [i]) with
    | Some t' => present (pte s t i) = true /\ PTE_GET_ADDR (pte s t i) = t'
    | None => present (pte s t i) = false
    end;
  tr_closed : forall p i, is_Some (T !! (p ++ [i])) ->
    0 <= i < 512 /\ (length p < 3)%nat /\ is_Some (T !! p)
}.

(** A pagemap object at [pm] whose tables form the tree [T]. *)
Record vmm_ready (s : kstate) (pm root : Z) (T : gmap (list Z) Z) : Prop := {
  vr_pmm : pa_ready s;
  vr_lock : latch vmm_lock (s_locks s) = false;
  vr_base : pagemaps (s_vmm s) !! pm = Some (hhdm_offset (s_boot s) + root);
  vr_tree : tree s root T
}.

(** The bytes a mapping operation may write: the tables of the tree and
    frames that were not in use before. *)
Definition touched (s : kstate) (T : gmap (list Z) Z) (s' : kstate) (x : Z) : Prop :=
  exists t, in_frame s t x /\
    ((exists p, T !! p = Some t) \/ (~ frame_used s t /\ frame_used s' t)).

(** A tree that grew by tables without entries. *)
Record grown (s : kstate) (root : Z) (T : gmap (list Z) Z) (s' : kstate)
    (T' : gmap (list Z) Z) : Prop := {
  g_ready : pa_ready s';
  g_ctx : same_ctx s s';
  g_tree : tree s' root T';
  g_sub : T ⊆ T';
  g_new : forall p t, T' !! p = Some t -> (exists q, T !! q = Some t) \/ ~ frame_used s t;
  g_leaf : forall v, leaf_entry s' T' v = leaf_entry s T v;
  g_used : forall a, frame_used s a -> frame_used s' a;
  g_mem : agree_off (touched s T s') (s_mem s) (s_mem s')
}.
End tree_def.

(** ** Lemmas: entries and indices *)

Lemma present_bit e : present e = Z.testbit e 0.
Proof.
  unfold present. change 1 with (Z.shiftl 1 0).
  rewrite land_bit_nonzero, negb_involutive; [done|lia].
Qed.

Lemma pte_mask_shift : 0x000ffffffffff000 = Z.shiftl (Z.ones 40) 12.
Proof. reflexivity. Qed.

Lemma land_mask_frame a :
  a mod 4096 = 0 -> 0 <= a < 2 ^ 52 -> Z.land a 0x000ffffffffff000 = a.
Proof.
  intros Ha Hr. rewrite pte_mask_shift.
  replace a with (Z.shiftl (a / 4096) 12) at 1
    by (rewrite Z.shiftl_mul_pow2 by lia; change (2 ^ 12) with 4096; zlia).
  rewrite <- Z.shiftl_land, Z.land_ones, Z.mod_small, Z.shiftl_mul_pow2 by (lia || zlia).
  change (2 ^ 12) with 4096. zlia.
Qed.

Lemma PTE_GET_ADDR_lor a f :
  a mod 4096 = 0 -> 0 <= a < 2 ^ 52 -> Z.land f 0x000ffffffffff000 = 0 ->
  PTE_GET_ADDR (Z.lor a f) = a.
Proof.
  intros Ha Hr Hf. unfold PTE_GET_ADDR.
  rewrite Z.land_lor_distr_l, Hf, Z.lor_0_r. by apply land_mask_frame.
Qed.

Lemma idx_alt v :
  pml4_idx v = (v / 2 ^ 39) mod 512 /\ pdpt_idx v = (v / 2 ^ 30) mod 512 /\
  pd_idx v = (v / 2 ^ 21) mod 512 /\ pt_idx v = (v / 2 ^ 12) mod 512.
Proof.
  unfold pml4_idx, pdpt_idx, pd_idx, pt_idx.
  rewrite !land_511, !Z.shiftr_div_pow2 by lia. done.
Qed.

Lemma idx_range v :
  0 <= pml4_idx v < 512 /\ 0 <= pdpt_idx v < 512 /\ 0 <= pd_idx v < 512 /\ 0 <= pt_idx v < 512.
Proof.
  destruct (idx_alt v) as (-> & -> & -> & ->). split_and!; apply Z.mod_pos_bound; lia.
Qed.

(** The page number in base 512. *)
Lemma vpn_digits v :
  vpn v = pml4_idx v * 2 ^ 27 + pdpt_idx v * 2 ^ 18 + pd_idx v * 2 ^ 9 + pt_idx v.
Proof.
  destruct (idx_alt v) as (-> & -> & -> & ->). unfold vpn.
  change (2 ^ 39) with (2 ^ 12 * (2 ^ 9 * (2 ^ 9 * 2 ^ 9))).
  change (2 ^ 30) with (2 ^ 12 * (2 ^ 9 * 2 ^ 9)). change (2 ^ 21) with (2 ^ 12 * 2 ^ 9).
  rewrite <- !Z.div_div by lia. change 4096 with (2 ^ 12). set (x := v / 2 ^ 12).
  change (2 ^ 36) with (2 ^ 9 * (2 ^ 9 * (2 ^ 9 * 2 ^ 9))).
  rewrite !Z.rem_mul_r by lia. change (2 ^ 9) with 512. lia.
Qed.

Lemma vpn_path v w : vpn v = vpn w <-> pt_path v = pt_path w /\ pt_idx v = pt_idx w.
Proof.
  rewrite !vpn_digits. pose proof (idx_range v). pose proof (idx_range w).
  unfold pt_path. split.
  - intros E. split; [f_equal; [|f_equal; [|f_equal]]|]; lia.
  - by intros [[= -> -> ->] ->].
Qed.

Lemma idx_page_down v :
  0 <= v -> let w := Z.land v (Z.lnot 4095) in
  pml4_idx w = pml4_idx v /\ pdpt_idx w = pdpt_idx v /\ pd_idx w = pd_idx v /\ pt_idx w = pt_idx v.
Proof.
  intros Hv. cbv zeta. rewrite land_lnot_page.
  assert (vpn (v / 4096 * 4096) = vpn v) as [[= -> -> ->] ->]%vpn_path
    by (unfold vpn; by rewrite Z.div_mul by lia). done.
Qed.

(** ** Lemmas: frames in memory *)

Lemma frames_disjoint s a b x :
  a mod 4096 = 0 -> b mod 4096 = 0 -> a <> b -> in_frame s a x -> in_frame s b x -> False.
Proof. unfold in_frame. intros. zlia. Qed.

Lemma pte_agree s s' P t i :
  agree_off P (s_mem s) (s_mem s') -> s_boot s' = s_boot s ->
  (forall x, in_frame s t x -> ~ P x) -> 0 <= i < 512 -> pte s' t i = pte s t i.
Proof.
  intros Hag Hb HP Hi. unfold pte. rewrite Hb. apply (agree_off_load64 P); [done|].
  intros x Hx. apply HP. unfold in_frame. lia.
Qed.

Lemma pte_write s t i v t' j :
  t mod 4096 = 0 -> t' mod 4096 = 0 -> 0 <= i < 512 -> 0 <= j < 512 -> 0 <= v < 2 ^ 64 ->
  pte (on_mem (fun m => store64 m (hhdm_offset (s_boot s) + t + i * 8) v) s) t' j =
  if (t' =? t) && (j =? i) then v else pte s t' j.
Proof.
  intros Ht Ht' Hi Hj Hv. unfold pte. cbn [on_mem set_mem s_mem s_boot].
  destruct (Z.eqb_spec t' t) as [->|Hne]; cbn [andb].
  - destruct (Z.eqb_spec j i) as [->|Hne]; [by apply load_store64|].
    apply load_store64_ne. lia.
  - apply load_store64_ne. zlia.
Qed.

Lemma table_empty_from_spec m table i n :
  table_empty_from m table i n = true <->
  forall j, i <= j < i + Z.of_nat n -> load64 m (table + j * 8) = 0.
Proof.
  revert i. induction n as [|n IH]; intros i; cbn [table_empty_from].
  - split; [intros; lia|done].
  - destruct (Z.eqb_spec (load64 m (table + i * 8)) 0) as [E|E]; cbn [negb].
    + rewrite IH. split; intros H j Hj; [|apply H; lia].
      destruct (decide (j = i)) as [->|]; [done|]. apply H. lia.
    + split; [done|]. intros H. exfalso. apply E, H. lia.
Qed.

(** ** Lemmas: trees *)

Section tree_lemmas.
Context {PA : page_allocator pmm_allocate pmm_free}.

Lemma table_facts s root T p t :
  pa_ready s -> tree s root T -> T !! p = Some t ->
  t mod 4096 = 0 /\ 0 < t < 2 ^ 35 /\ u64 (t + hhdm_offset (s_boot s)) = hhdm_offset (s_boot s) + t /\
  hhdm_offset (s_boot s) + t <> 0.
Proof.
  intros Hr Ht Hp. destruct (pa_range s t Hr (tr_used _ _ _ Ht _ _ Hp)) as [Ha Hb].
  destruct (pa_boot s Hr) as [? ? ?]. split_and!; [done|lia|lia| |lia].
  rewrite u64_small; lia.
Qed.

Lemma tree_frame s s' root T :
  s_mem s' = s_mem s -> s_boot s' = s_boot s -> (forall a, frame_used s' a <-> frame_used s a) ->
  tree s root T -> tree s' root T.
Proof.
  intros Hm Hb Hu [H1 H2 H3 H4 H5]. split; [done|done| |  |done].
  - intros p t Hp. apply Hu. eauto.
  - intros p t i Hp Hl Hi. unfold pte. rewrite Hm, Hb. by apply H4.
Qed.

Lemma leaf_entry_frame s s' T v :
  s_mem s' = s_mem s -> s_boot s' = s_boot s -> leaf_entry s' T v = leaf_entry s T v.
Proof. intros Hm Hb. unfold leaf_entry, pte. by rewrite Hm, Hb. Qed.

Lemma path_length s root T p : tree s root T -> is_Some (T !! p) -> (length p <= 3)%nat.
Proof.
  intros Ht. destruct p as [|i p _] using rev_ind; [simpl; lia|].
  intros Hp. apply (tr_closed _ _ _ Ht) in Hp as (_ & Hl & _). rewrite length_app. simpl. lia.
Qed.

(** The walk without allocation follows the tree and changes nothing. *)
Lemma get_next_level_walk s root T p t i f :
  pa_ready s -> tree s root T -> T !! p = Some t -> (length p < 3)%nat -> 0 <= i < 512 ->
  vmm_get_next_level (hhdm_offset (s_boot s) + t) i false f s =
  Ok (match T !! (p ++ [i]) with
      | Some t' => hhdm_offset (s_boot s) + t'
      | None => 0
      end) s.
Proof.
  intros Hr Ht Hp Hl Hi. pose proof (tr_link _ _ _ Ht p t i Hp Hl Hi) as Hk.
  unfold vmm_get_next_level, VMM_HIGHER_HALF, bind, gets, read64, gets.
  change (load64 (s_mem s) (hhdm_offset (s_boot s) + t + i * 8)) with (pte s t i).
  destruct (T !! (p ++ [i])) as [t'|] eqn:E.
  - destruct Hk as [-> ->]. by destruct (table_facts s root T _ t' Hr Ht E) as (_ & _ & -> & _).
  - by rewrite Hk.
Qed.

Lemma grown_refl s root T : pa_ready s -> tree s root T -> grown s root T s T.
Proof.
  intros Hr Ht. split; try done.
  intros p t Hp. left. eauto.
Qed.

Lemma grown_trans s1 root T1 s2 T2 s3 T3 :
  grown s1 root T1 s2 T2 -> grown s2 root T2 s3 T3 -> grown s1 root T1 s3 T3.
Proof.
  intros [R1 C1 Tr1 S1 N1 L1 U1 M1] [R2 C2 Tr2 S2 N2 L2 U2 M2]. split.
  - done.
  - by etransitivity.
  - done.
  - by etransitivity.
  - intros p t Hp. destruct (N2 p t Hp) as [[q Hq]|Hn]; [eauto|]. right. eauto.
  - intros v. by rewrite L2.
  - eauto.
  - intros x Hx. rewrite M2.
    + apply M1. intros (t & Ht & Hor). apply Hx. exists t. split; [done|].
      destruct Hor as [?|[? ?]]; [by left|right; eauto].
    + intros (t & Ht & Hor). apply Hx. exists t.
      unfold in_frame in *. rewrite (sc_boot _ _ C1) in Ht. split; [done|].
      destruct Hor as [[q Hq]|[Hn Hu]].
      * destruct (N1 q t Hq) as [[q' Hq']|Hn]; [left; eauto|right]. split; [done|].
        apply U2. by apply (tr_used _ _ _ Tr1 q).
      * right. eauto.
Qed.

(** A child for an absent entry: the new table is linked and empty. *)
Lemma tree_add s root T s' p t i a f :
  pa_ready s -> tree s root T -> T !! p = Some t -> (length p < 3)%nat -> 0 <= i < 512 ->
  T !! (p ++ [i]) = None -> ~ frame_used s a -> frame_used s' a -> pa_ready s' ->
  (forall b, b <> a -> frame_used s' b <-> frame_used s b) ->
  s_boot s' = s_boot s ->
  Z.land f 0x000ffffffffff000 = 0 -> present f = true ->
  pte s' t i = Z.lor a f -> (forall j, 0 <= j < 512 -> pte s' a j = 0) ->
  (forall q b j, T !! q = Some b -> 0 <= j < 512 -> (b, j) <> (t, i) -> pte s' b j = pte s b j) ->
  tree s' root (<[p ++ [i] := a]> T) /\
  (forall v, leaf_entry s' (<[p ++ [i] := a]> T) v = leaf_entry s T v).
Proof.
  intros Hr Ht Hp Hl Hi Hnone Hna Hua Hr' Hoth Hb Hf Hpf Hte Hze Hsame.
  assert (forall q b, T !! q = Some b -> b <> a) as Hfresh.
  { intros q b Hq ->. by apply Hna, (tr_used _ _ _ Ht q). }
  destruct (pa_range s' a Hr' Hua) as [Ham Har].
  assert (PTE_GET_ADDR (Z.lor a f) = a) as Hga by (apply PTE_GET_ADDR_lor; done || lia).
  assert (present (Z.lor a f) = true) as Hpa.
  { rewrite present_bit in *. rewrite Z.lor_spec, Hpf. apply orb_true_r. }
  split; [split|].
  - rewrite lookup_insert_ne by (by destruct p). apply Ht.
  - intros q1 q2 b H1 H2. destruct (decide (q1 = p ++ [i])) as [->|N1].
    + rewrite lookup_insert_eq in H1. injection H1 as <-.
      destruct (decide (q2 = p ++ [i])) as [->|N2]; [done|].
      rewrite lookup_insert_ne in H2 by done. by apply Hfresh in H2.
    + rewrite lookup_insert_ne in H1 by done.
      destruct (decide (q2 = p ++ [i])) as [->|N2].
      * rewrite lookup_insert_eq in H2. injection H2 as <-. by apply Hfresh in H1.
      * rewrite lookup_insert_ne in H2 by done. by apply (tr_inj _ _ _ Ht q1 q2 b).
  - intros q b Hq. destruct (decide (q = p ++ [i])) as [->|N].
    + rewrite lookup_insert_eq in Hq. by injection Hq as <-.
    + rewrite lookup_insert_ne in Hq by done. apply Hoth; [by eapply Hfresh|].
      by apply (tr_used _ _ _ Ht q).
  - intros q b j Hq Hlq Hj. destruct (decide (q = p ++ [i])) as [->|N].
    + rewrite lookup_insert_eq in Hq. injection Hq as <-. rewrite Hze by done.
      rewrite lookup_insert_ne by (intros E%(f_equal length); rewrite !length_app in E; simpl in E; lia).
      destruct (T !! ((p ++ [i]) ++ [j])) eqn:E; [|by rewrite present_bit].
      destruct (tr_closed _ _ _ Ht (p ++ [i]) j) as (_ & _ & Hs); [by rewrite E|].
      rewrite Hnone in Hs. by destruct Hs.
    + rewrite lookup_insert_ne in Hq by done.
      destruct (decide (q ++ [j] = p ++ [i])) as [E|N2].
      * rewrite E, lookup_insert_eq. apply app_inj_tail in E as [-> ->].
        rewrite Hp in Hq. injection Hq as <-. rewrite Hte. done.
      * rewrite lookup_insert_ne by done. pose proof (tr_link _ _ _ Ht q b j Hq Hlq Hj) as Hk.
        rewrite (Hsame q b j Hq Hj); [done|]. intros [= -> ->]. apply N2. f_equal.
        by apply (tr_inj _ _ _ Ht q p t).
  - intros q j Hs. destruct (decide (q ++ [j] = p ++ [i])) as [E|N].
    + apply app_inj_tail in E as [-> ->]. split_and!; [lia|lia|done|].
      rewrite lookup_insert_ne; [by rewrite Hp|].
      intros E%(f_equal length). rewrite length_app in E. simpl in E. lia.
    + rewrite lookup_insert_ne in Hs by done. apply (tr_closed _ _ _ Ht) in Hs as (? & ? & [b Hq]).
      split_and!; [lia|lia|done|]. destruct (decide (q = p ++ [i])) as [->|]; [by rewrite lookup_insert_eq|].
      by rewrite lookup_insert_ne, Hq by done.
  - intros v. unfold leaf_entry. pose proof (idx_range v) as (_ & _ & _ & Hv).
    destruct (decide (pt_path v = p ++ [i])) as [E|N].
    + rewrite E, lookup_insert_eq, Hnone. by apply Hze.
    + rewrite lookup_insert_ne by done. destruct (T !! pt_path v) as [b|] eqn:Eb; [|done].
      apply (Hsame _ _ _ Eb Hv). intros [= -> _].
      assert (pt_path v = p) as <- by by apply (tr_inj _ _ _ Ht _ _ t). simpl in Hl. lia.
Qed.

(** The walk with allocation: the next level is there afterwards. *)
Lemma get_next_level_alloc s root T p t i f :
  pa_ready s -> tree s root T -> T !! p = Some t -> (length p < 3)%nat -> 0 <= i < 512 ->
  Z.land f 0x000ffffffffff000 = 0 -> present f = true -> 0 <= f < 2 ^ 64 ->
  wp (vmm_get_next_level (hhdm_offset (s_boot s) + t) i true f) s
    (fun r s' => exists T' t', r = hhdm_offset (s_boot s) + t' /\
       T' !! (p ++ [i]) = Some t' /\ grown s root T s' T') out_of_memory.
Proof.
  intros Hr Ht Hp Hl Hi Hf Hpf Hfr. pose proof (tr_link _ _ _ Ht p t i Hp Hl Hi) as Hk.
  destruct (table_facts s root T p t Hr Ht Hp) as (Htm & Htr & _ & _).
  unfold vmm_get_next_level, VMM_HIGHER_HALF.
  apply wp_bind, wp_gets, wp_bind, wp_gets.
  change (load64 (s_mem s) (hhdm_offset (s_boot s) + t + i * 8)) with (pte s t i).
  destruct (T !! (p ++ [i])) as [t'|] eqn:E.
  { destruct Hk as [-> ->]. apply wp_ret. exists T, t'.
    destruct (table_facts s root T _ t' Hr Ht E) as (_ & _ & -> & _).
    split_and!; [done|done|by apply grown_refl]. }
  rewrite Hk. cbn [negb].
  eapply wp_call; [by apply pa_allocate|]. intros a s1 (Hna & Hua & Hoth & Hz & Hag & Hctx & Hr1).
  destruct (pa_range s1 a Hr1 Hua) as [Ham Har]. destruct (pa_boot s Hr) as [Hb1 Hb2 Hb3].
  pose proof (sc_boot _ _ Hctx) as Hboot.
  destruct (Z.eqb_spec a 0); [lia|]. rewrite u64_small by lia.
  apply wp_bind, wp_memset, wp_bind, wp_modify, wp_ret.
  assert (f <> 0) as Hf0 by (intros ->; by rewrite present_bit in Hpf).
  destruct (Z.eqb_spec f 0); [done|]. cbn [negb].
  set (s2 := on_mem (fun m => memset_loop m (a + hhdm_offset (s_boot s)) 0 (Z.to_nat 4096)) s1).
  set (s3 := on_mem _ s2).
  assert (s_boot s2 = s_boot s) as Hboot2 by done.
  assert (pa_ready s3 /\ forall b, frame_used s3 b <-> frame_used s1 b) as [Hr3 Hu3]
    by (apply pa_frame; auto).
  assert (forall x, in_frame s a x -> rd (s_mem s2) x = 0) as Hz2.
  { intros x Hx. unfold s2, in_frame in *. cbn [on_mem s_mem set_mem]. rewrite rd_memset_loop.
    destruct (Z.leb_spec (a + hhdm_offset (s_boot s)) x),
      (Z.ltb_spec x (a + hhdm_offset (s_boot s) + Z.of_nat (Z.to_nat 4096))); simpl; done || lia. }
  assert (agree_off (in_frame s a) (s_mem s) (s_mem s2)) as Hag2.
  { intros x Hx. rewrite <- (Hag x Hx). unfold s2, in_frame in *. cbn [on_mem s_mem set_mem].
    rewrite rd_memset_loop.
    destruct (Z.leb_spec (a + hhdm_offset (s_boot s)) x),
      (Z.ltb_spec x (a + hhdm_offset (s_boot s) + Z.of_nat (Z.to_nat 4096))); simpl; done || lia. }
  assert (0 <= Z.lor a f < 2 ^ 64) as Hlor by (apply lor_range; lia).
  assert (forall b j, b mod 4096 = 0 -> 0 <= j < 512 ->
    pte s3 b j = if (b =? t) && (j =? i) then Z.lor a f else pte s2 b j) as Hpte3.
  { intros b j Hb Hj. unfold s3. rewrite <- Hboot2. by apply pte_write. }
  assert (t <> a) as Hta by (intros ->; by apply Hna, (tr_used _ _ _ Ht p)).
  assert (forall q b j, T !! q = Some b -> 0 <= j < 512 -> pte s2 b j = pte s b j) as Hpte2.
  { intros q b j Hq Hj. apply (pte_agree s s2 (in_frame s a)); [done|done| |done].
    intros x Hx Hx'. destruct (table_facts s root T q b Hr Ht Hq) as (Hbm & _ & _ & _).
    apply (frames_disjoint s b a x); try done.
    intros ->. by apply Hna, (tr_used _ _ _ Ht q). }
  destruct (tree_add s root T s3 p t i a f) as [Htree Hleaf]; try done.
  { by apply Hu3. }
  { intros b Hb. rewrite Hu3. by apply Hoth. }
  { rewrite Hpte3 by done. by rewrite !Z.eqb_refl. }
  { intros j Hj. rewrite Hpte3 by done. destruct (Z.eqb_spec a t); [congruence|]. cbn [andb].
    unfold pte. rewrite Hboot2. apply load64_zero. intros x Hx. apply Hz2. unfold in_frame. lia. }
  { intros q b j Hq Hj Hne. destruct (table_facts s root T q b Hr Ht Hq) as (Hbm & _ & _ & _).
    rewrite Hpte3, (Hpte2 q) by done.
    destruct (Z.eqb_spec b t), (Z.eqb_spec j i); try done. subst. done. }
  exists (<[p ++ [i] := a]> T), a. split_and!; [lia|by rewrite lookup_insert_eq|].
  split.
  - done.
  - etransitivity; [exact Hctx|]. split; auto.
  - done.
  - by apply insert_subseteq.
  - intros q b Hq. destruct (decide (q = p ++ [i])) as [->|].
    + rewrite lookup_insert_eq in Hq. injection Hq as <-. by right.
    + rewrite lookup_insert_ne in Hq by done. left. eauto.
  - done.
  - intros b Hb. apply Hu3. destruct (decide (b = a)) as [->|]; [done|]. by apply Hoth.
  - intros x Hx. unfold s3. cbn [on_mem s_mem set_mem]. rewrite rd_store64_ne.
    + apply Hag2. intros Hin. apply Hx. exists a. split; [done|]. right. split; [done|]. by apply Hu3.
    + destruct (decide (hhdm_offset (s_boot s) + t + i * 8 <= x < hhdm_offset (s_boot s) + t + i * 8 + 8));
        [|lia].
      exfalso. apply Hx. exists t. split; [unfold in_frame; lia|]. left. eauto.
Qed.
End tree_lemmas.
