(* ===== verification/VmmSpec.v ===== *)
(** * Mapping, unmapping and translating (theorems about kernel/system/vmm.c)

    Proved for any page allocator that meets the interface of Pmm.v: mapping
    sets exactly one leaf entry, translation reads it back, unmapping clears
    it and returns the tables that became empty, and the copy loops reach
    every byte of a mapped range. *)

From S2P Require Import Prelude Memory State Cpu Libc Pmm Vmm VmmTree.

Section vmm_spec.
Context {PA : page_allocator pmm_allocate pmm_free}.

(** ** Definitions *)

(** From [s] to [s'] the entry of one page became [e] and nothing else did. *)
Record remapped (s : kstate) (pm root : Z) (T : gmap (list Z) Z) (virt e : Z) (s' : kstate)
    (T' : gmap (list Z) Z) : Prop := {
  rm_ready : vmm_ready s' pm root T';
  rm_ctx : same_ctx s s';
  rm_sub : T ⊆ T';
  rm_new : forall p t, T' !! p = Some t -> (exists q, T !! q = Some t) \/ ~ frame_used s t;
  rm_leaf : forall w, leaf_entry s' T' w = if vpn w =? vpn virt then e else leaf_entry s T w;
  rm_used : forall a, frame_used s a -> frame_used s' a;
  rm_mem : agree_off (touched s T s') (s_mem s) (s_mem s')
}.

(** A tree that lost tables without entries; their frames were released. *)
Record shrunk (s : kstate) (root : Z) (T : gmap (list Z) Z) (s' : kstate)
    (T' : gmap (list Z) Z) : Prop := {
  sh_ready : pa_ready s';
  sh_ctx : same_ctx s s';
  sh_tree : tree s' root T';
  sh_sub : T' ⊆ T;
  sh_leaf : forall v, leaf_entry s' T' v = leaf_entry s T v;
  sh_used : forall a, frame_used s' a <->
    frame_used s a /\ ~ (exists p, T !! p = Some a /\ T' !! p = None);
  sh_mem : agree_off (fun x => exists p t, T !! p = Some t /\ in_frame s t x) (s_mem s) (s_mem s')
}.

(** The table at path [p], if there is one, has an entry. *)
Definition occupied (s : kstate) (T : gmap (list Z) Z) (p : list Z) : Prop :=
  forall t, T !! p = Some t -> exists j, 0 <= j < 512 /\ pte s t j <> 0.

(** [shrunk], where only tables at the paths [ps] went away: those left there
    are occupied, but for the table of a kernel-half entry of the root. *)
Record pruned (v : Z) (s : kstate) (root : Z) (T : gmap (list Z) Z) (s' : kstate)
    (T' : gmap (list Z) Z) (ps : list (list Z)) : Prop := {
  pn_shrunk : shrunk s root T s' T';
  pn_off : forall q, q ∉ ps -> T' !! q = T !! q;
  pn_on : forall q, q ∈ ps ->
    occupied s' T' q \/ (q = [pml4_idx v] /\ 256 <= pml4_idx v /\ T' !! q = T !! q)
}.

(** ** Lemmas *)

Lemma wp_base_virt pm b s (Q : Z -> kstate -> Prop) E :
  pagemaps (s_vmm s) !! pm = Some b -> Q b s -> wp (base_virt pm) s Q E.
Proof. unfold wp, base_virt. intros ->. done. Qed.

(** The latch of [vmm_lock] is not part of a tree. *)
Lemma relatch s b root T :
  pa_ready s -> tree s root T ->
  pa_ready (on_locks (set_latch vmm_lock b) s) /\
  tree (on_locks (set_latch vmm_lock b) s) root T /\
  (forall a, frame_used (on_locks (set_latch vmm_lock b) s) a <-> frame_used s a).
Proof.
  intros Hr Ht. destruct (pa_frame s (on_locks (set_latch vmm_lock b) s)) as [Hr' Hu']; auto.
  split_and!; [done| |done]. by apply (tree_frame s).
Qed.

(** A write to a leaf entry changes that page's entry only. *)
Lemma leaf_write s root T v t e :
  pa_ready s -> tree s root T -> T !! pt_path v = Some t -> 0 <= e < 2 ^ 64 ->
  let s' := on_mem (fun m => store64 m (hhdm_offset (s_boot s) + t + pt_idx v * 8) e) s in
  pa_ready s' /\ (forall a, frame_used s' a <-> frame_used s a) /\ tree s' root T /\
  (forall w, leaf_entry s' T w = if vpn w =? vpn v then e else leaf_entry s T w).
Proof.
  intros Hr Ht Hv He s'.
  destruct (pa_frame s s') as [Hr' Hu']; auto.
  destruct (table_facts s root T _ t Hr Ht Hv) as (Htm & _).
  pose proof (idx_range v) as (_ & _ & _ & Hi).
  assert (forall p b j, T !! p = Some b -> 0 <= j < 512 ->
    pte s' b j = if (b =? t) && (j =? pt_idx v) then e else pte s b j) as Hp.
  { intros p b j Hb Hj. destruct (table_facts s root T _ b Hr Ht Hb) as (Hbm & _).
    by apply pte_write. }
  split_and!; [done|done| |].
  - split; [apply Ht|apply Ht| | |apply Ht].
    + intros p b Hb. apply Hu'. by apply (tr_used _ _ _ Ht p).
    + intros p b i Hb Hl Hi'. rewrite (Hp p) by done.
      destruct (Z.eqb_spec b t) as [->|]; [|by apply Ht].
      assert (p = pt_path v) as -> by by apply (tr_inj _ _ _ Ht _ _ t). simpl in Hl. lia.
  - intros w. unfold leaf_entry at 1. pose proof (idx_range w) as (_ & _ & _ & Hw).
    destruct (Z.eqb_spec (vpn w) (vpn v)) as [E|N].
    + apply vpn_path in E as [-> ->]. rewrite Hv, (Hp _ _ _ Hv Hi). by rewrite !Z.eqb_refl.
    + unfold leaf_entry. destruct (T !! pt_path w) as [b|] eqn:Eb; [|done].
      rewrite (Hp _ _ _ Eb Hw). destruct (Z.eqb_spec b t) as [->|]; [|done].
      destruct (Z.eqb_spec (pt_idx w) (pt_idx v)); [|done]. exfalso. apply N, vpn_path.
      split; [by apply (tr_inj _ _ _ Ht _ _ t)|done].
Qed.

Lemma table_virt s root T p t :
  pa_ready s -> tree s root T -> T !! p = Some t -> (hhdm_offset (s_boot s) + t =? 0) = false.
Proof.
  intros Hr Ht Hp. apply Z.eqb_neq. by apply (table_facts s root T p t).
Qed.

(** The flags of the tables that a mapping adds. *)
Lemma alloc_flags_ok flags :
  let f := if negb (Z.land flags 4 =? 0) then Z.lor (Z.lor 1 2) 4 else Z.lor 1 2 in
  Z.land f 0x000ffffffffff000 = 0 /\ present f = true /\ 0 <= f < 2 ^ 64.
Proof. destruct (negb (Z.land flags 4 =? 0)); cbv; split_and!; congruence. Qed.

(** ** Mapping *)

Lemma map_page_locked s pm root T virt phys flags :
  pa_ready s -> tree s root T -> latch vmm_lock (s_locks s) = true ->
  pagemaps (s_vmm s) !! pm = Some (hhdm_offset (s_boot s) + root) ->
  0 <= virt -> 0 <= phys < 2 ^ 52 -> 0 <= flags < 2 ^ 64 ->
  wp (vmm_map_page pm virt phys flags) (on_locks (set_latch vmm_lock false) s)
    (fun r s' => r = true /\ exists T' s1 t e, grown s root T s1 T' /\
      T' !! pt_path virt = Some t /\
      e = Z.lor (Z.lor (phys / 4096 * 4096) flags) 1 /\ 0 <= e < 2 ^ 64 /\
      s' = on_locks (set_latch vmm_lock false)
        (on_mem (fun m => store64 m (hhdm_offset (s_boot s1) + t + pt_idx virt * 8) e) s1))
    out_of_memory.
Proof.
  intros Hr Ht Hl Hb Hv Hp Hf. unfold vmm_map_page.
  destruct (alloc_flags_ok flags) as (F1 & F2 & F3). cbv zeta in F1, F2, F3.
  set (af := if negb (Z.land flags 4 =? 0) then Z.lor (Z.lor 1 2) 4 else Z.lor 1 2) in *.
  change (PAGE_SIZE - 1) with 4095.
  destruct (idx_page_down virt Hv) as (-> & -> & -> & ->). rewrite land_lnot_page.
  destruct (idx_range virt) as (I1 & I2 & I3 & I4).
  apply wp_bind, wp_spin_lock; [apply latch_set_eq|].
  replace (on_locks (set_latch vmm_lock true) (on_locks (set_latch vmm_lock false) s)) with s.
  2: { apply kstate_ext; try done. cbn [on_locks set_locks s_locks].
       by rewrite (set_latch_back vmm_lock true). }
  apply wp_bind, (wp_base_virt _ (hhdm_offset (s_boot s) + root)); [done|].
  rewrite (table_virt s root T [] root Hr Ht (tr_root _ _ _ Ht)).
  eapply wp_call; [by apply (get_next_level_alloc s root T []); [| |apply Ht|simpl; lia|..]|].
  intros r1 s1 (T1 & t1 & -> & L1 & G1).
  rewrite <- (sc_boot _ _ (g_ctx _ _ _ _ _ G1)).
  rewrite (table_virt s1 root T1 _ t1 (g_ready _ _ _ _ _ G1) (g_tree _ _ _ _ _ G1) L1).
  eapply wp_call; [by apply (get_next_level_alloc s1 root T1 [pml4_idx virt]);
    [apply G1|apply G1| |simpl; lia|..]|].
  intros r2 s2 (T2 & t2 & -> & L2 & G2).
  rewrite <- (sc_boot _ _ (g_ctx _ _ _ _ _ G2)).
  rewrite (table_virt s2 root T2 _ t2 (g_ready _ _ _ _ _ G2) (g_tree _ _ _ _ _ G2) L2).
  eapply wp_call; [by apply (get_next_level_alloc s2 root T2 [pml4_idx virt; pdpt_idx virt]);
    [apply G2|apply G2| |simpl; lia|..]|].
  intros r3 s3 (T3 & t3 & -> & L3 & G3).
  rewrite <- (sc_boot _ _ (g_ctx _ _ _ _ _ G3)).
  rewrite (table_virt s3 root T3 _ t3 (g_ready _ _ _ _ _ G3) (g_tree _ _ _ _ _ G3) L3).
  apply wp_bind, wp_modify, wp_bind, wp_ret, wp_bind, wp_spin_unlock, wp_ret.
  split; [done|]. eexists T3, s3, t3, _. split_and!; [|exact L3|done| | |done].
  - eapply grown_trans; [exact G1|]. by eapply grown_trans.
  - apply Z.lor_nonneg. split; [apply Z.lor_nonneg; split; zlia|lia].
  - apply lor_range; [lia| |lia]. apply lor_range; [lia|zlia|lia].
Qed.

Lemma remap_finish s pm root T virt s1 T' t e :
  vmm_ready s pm root T -> grown (on_locks (set_latch vmm_lock true) s) root T s1 T' ->
  T' !! pt_path virt = Some t -> 0 <= e < 2 ^ 64 ->
  remapped s pm root T virt e
    (on_locks (set_latch vmm_lock false)
      (on_mem (fun m => store64 m (hhdm_offset (s_boot s1) + t + pt_idx virt * 8) e) s1)) T'.
Proof.
  intros [Rp Rl Rb Rt] [G1 G2 G3 G4 G5 G6 G7 G8] Ht He.
  destruct (leaf_write s1 root T' virt t e G1 G3 Ht He) as (L1 & L2 & L3 & L4).
  cbv zeta in *. set (s2 := on_mem _ s1) in *.
  destruct (relatch s2 false root T' L1 L3) as (K1 & K2 & K3).
  destruct (relatch s true root T Rp Rt) as (Q1 & Q2 & Q3).
  destruct G2 as [C1 C2 C3 C4 C5 C6 C7 C8 C9 C10 C11 C12 C13 C14].
  cbn [on_locks set_locks s_cpu s_io s_dev s_boot s_locks s_vmm s_heap s_proc s_vfs s_kbd s_irq s_gdt s_ac97 s_fb] in *.
  split.
  - split; [done|apply latch_set_eq| |done].
    cbn [s2 on_locks on_mem set_locks set_mem s_vmm s_boot]. by rewrite C6, C4.
  - split; cbn [s2 on_locks on_mem set_locks set_mem s_cpu s_io s_dev s_boot s_locks s_vmm
      s_heap s_proc s_vfs s_kbd s_irq s_gdt s_ac97 s_fb]; try done.
    rewrite C5. by apply set_latch_relock.
  - done.
  - intros p b Hb. destruct (G5 p b Hb) as [?|Hn]; [by left|right]. by rewrite <- Q3.
  - intros w. rewrite (leaf_entry_frame s2), L4 by done.
    destruct (vpn w =? vpn virt); [done|]. rewrite G6. by apply leaf_entry_frame.
  - intros a Ha. rewrite K3, L2. by apply G7, Q3.
  - intros x Hx. cbn [on_locks set_locks s_mem s2 on_mem set_mem].
    rewrite rd_store64_ne.
    + apply G8. intros (b & Hb & Hor). apply Hx. exists b. split; [exact Hb|].
      rewrite Q3 in Hor. destruct Hor as [?|[? ?]]; [by left|right]. split; [done|].
      by rewrite K3, L2.
    + destruct (decide (hhdm_offset (s_boot s1) + t + pt_idx virt * 8 <= x <
        hhdm_offset (s_boot s1) + t + pt_idx virt * 8 + 8)) as [Hin|]; [|lia].
      exfalso. apply Hx. exists t. pose proof (idx_range virt).
      split; [unfold in_frame; rewrite C4 in Hin; lia|].
      destruct (G5 _ _ Ht) as [?|Hn]; [by left|right]. rewrite <- Q3. split; [done|].
      rewrite K3, L2. by apply (tr_used _ _ _ G3 (pt_path virt)).
Qed.

(** [vmm_map_page] as callers use it. *)
Lemma map_page_remaps s pm root T virt phys flags :
  vmm_ready s pm root T -> 0 <= virt -> 0 <= phys < 2 ^ 52 -> 0 <= flags < 2 ^ 64 ->
  wp (vmm_map_page pm virt phys flags) s
    (fun r s' => r = true /\ exists T',
       remapped s pm root T virt (Z.lor (Z.lor (phys / 4096 * 4096) flags) 1) s' T')
    out_of_memory.
Proof.
  intros R Hv Hp Hf. pose proof R as [Rp Rl Rb Rt].
  destruct (relatch s true root T Rp Rt) as (Q1 & Q2 & Q3).
  replace s with (on_locks (set_latch vmm_lock false) (on_locks (set_latch vmm_lock true) s)) at 1.
  2: { apply kstate_ext; try done. cbn [on_locks set_locks s_locks]. by apply set_latch_relock. }
  eapply wp_mono; [apply (map_page_locked _ pm root T); try done; apply latch_set_eq| |done].
  intros r s' (-> & T' & s1 & t & e & G & Ht & -> & He & ->). split; [done|]. exists T'.
  by apply remap_finish.
Qed.

Lemma map_page_translates (s : kstate) (pm root : Z) (T : gmap (list Z) Z) (virt phys flags : Z) :
  vmm_ready s pm root T -> 0 <= virt -> 0 <= phys < 2 ^ 52 -> 0 <= flags < 2 ^ 64 ->
  Z.land flags 0x000ffffffffff000 = 0 ->
  wp (vmm_map_page pm virt phys flags) s
    (fun r s' => r = true /\ exists T', vmm_ready s' pm root T' /\ T ⊆ T' /\ same_ctx s s' /\
       (forall w, translate s' T' w =
          if vpn w =? vpn virt then phys / 4096 * 4096 + w mod 4096 else translate s T w) /\
       (forall a, frame_used s a -> frame_used s' a) /\
       agree_off (touched s T s') (s_mem s) (s_mem s')) out_of_memory.
Proof.
  intros R Hv Hp Hf Hm. eapply wp_mono; [by apply map_page_remaps| |done].
  intros r s' (-> & T' & [Q1 Q2 Q3 Q4 Q5 Q6 Q7]). split; [done|]. exists T'.
  split_and!; try done. intros w. unfold translate. rewrite Q5.
  destruct (vpn w =? vpn virt); [|done].
  set (P := phys / 4096 * 4096). assert (P mod 4096 = 0) as HP by apply Z_mod_mult.
  assert (0 <= P < 2 ^ 52) by (unfold P; zlia).
  assert (present (Z.lor (Z.lor P flags) 1) = true) as ->.
  { rewrite present_bit, Z.lor_spec. apply orb_true_r. }
  rewrite <- Z.lor_assoc, PTE_GET_ADDR_lor; [rewrite u64_small; [done|zlia]|done|done|].
  rewrite Z.land_lor_distr_l, Hm. reflexivity.
Qed.

(** C3: mapping a page succeeds unless memory runs out; afterwards the pagemap
    is well formed, exactly the page of [virt] changed its translation, to
    [phys], no frame in use was released, and the only memory written belongs
    to the pagemap's tables. *)
Theorem vmm_map_page_spec (s : kstate) (pm root : Z) (T : gmap (list Z) Z) (virt phys flags : Z) :
  vmm_ready s pm root T -> 0 <= virt -> 0 <= phys < 2 ^ 52 -> 0 <= flags < 2 ^ 64 ->
  Z.land flags 0x000ffffffffff000 = 0 ->
  wp (vmm_map_page pm virt phys flags) s
    (fun r s' => r = true /\ exists T', vmm_ready s' pm root T' /\ T ⊆ T' /\ same_ctx s s' /\
       (forall w, translate s' T' w =
          if vpn w =? vpn virt then phys / 4096 * 4096 + w mod 4096 else translate s T w) /\
       (forall a, frame_used s a -> frame_used s' a) /\
       agree_off (touched s T s') (s_mem s) (s_mem s')) out_of_memory.
Proof. apply map_page_translates. Qed.

(** ** Translation *)

Lemma tree_none s root T p i : tree s root T -> T !! p = None -> T !! (p ++ [i]) = None.
Proof.
  intros Ht Hp. apply eq_None_not_Some. intros Hs.
  apply (tr_closed _ _ _ Ht) in Hs as (_ & _ & [b Hs]). congruence.
Qed.

(** The tables on the way to a leaf table are there, or the leaf table is not. *)
Lemma tree_walk s root T v :
  tree s root T ->
  T !! pt_path v = None \/
  exists t1 t2 t3, T !! [pml4_idx v] = Some t1 /\ T !! [pml4_idx v; pdpt_idx v] = Some t2 /\
    T !! pt_path v = Some t3.
Proof.
  intros Ht. pose proof (tree_none s root T) as Hcl.
  destruct (T !! pt_path v) as [t3|] eqn:E3; [right|by left].
  destruct (T !! [pml4_idx v; pdpt_idx v]) as [t2|] eqn:E2.
  2: { pose proof (Hcl _ (pd_idx v) Ht E2) as E. change (T !! pt_path v = None) in E. congruence. }
  destruct (T !! [pml4_idx v]) as [t1|] eqn:E1; [eauto 10|].
  pose proof (Hcl _ (pdpt_idx v) Ht E1) as E. cbn [app] in E. congruence.
Qed.

(** [vmm_virt_to_phys] computes [translate]. *)
Lemma virt_to_phys_translates s pm root T virt :
  pa_ready s -> tree s root T ->
  pagemaps (s_vmm s) !! pm = Some (hhdm_offset (s_boot s) + root) ->
  vmm_virt_to_phys pm virt s = Ok (translate s T virt) s.
Proof.
  intros Hr Ht Hb. unfold vmm_virt_to_phys. destruct (idx_range virt) as (I1 & I2 & I3 & I4).
  erewrite bind_ok by (unfold base_virt; rewrite Hb; reflexivity).
  erewrite bind_ok by (by apply (get_next_level_walk s root T []); [| |apply Ht|simpl; lia|]).
  unfold translate, leaf_entry. cbn [app].
  pose proof (fun p i => tree_none s root T p i Ht) as Hcl.
  destruct (T !! [pml4_idx virt]) as [t1|] eqn:E1.
  2: { pose proof (Hcl _ (pd_idx virt) (Hcl _ (pdpt_idx virt) E1)) as E3. cbn [app] in E3.
       unfold pt_path. by rewrite E3. }
  rewrite (table_virt s root T _ t1 Hr Ht E1).
  erewrite bind_ok by (by apply (get_next_level_walk s root T [pml4_idx virt]); [| | |simpl; lia|]).
  cbn [app]. destruct (T !! [pml4_idx virt; pdpt_idx virt]) as [t2|] eqn:E2.
  2: { pose proof (Hcl _ (pd_idx virt) E2) as E3. cbn [app] in E3. unfold pt_path. by rewrite E3. }
  rewrite (table_virt s root T _ t2 Hr Ht E2).
  erewrite bind_ok by (by apply (get_next_level_walk s root T [pml4_idx virt; pdpt_idx virt]);
    [| | |simpl; lia|]).
  cbn [app]. unfold pt_path.
  destruct (T !! [pml4_idx virt; pdpt_idx virt; pd_idx virt]) as [t3|] eqn:E3; [|done].
  rewrite (table_virt s root T _ t3 Hr Ht E3). unfold bind, read64, gets.
  change (load64 _ _) with (pte s t3 (pt_idx virt)).
  by destruct (present (pte s t3 (pt_idx virt))).
Qed.

(** After a page was mapped, [vmm_virt_to_phys] returns the mapped frame
    with the offset for every address of the page, and for every other address
    what it returned before. *)
Theorem map_then_translate (s : kstate) (pm root : Z) (T : gmap (list Z) Z) (virt phys flags w : Z) :
  vmm_ready s pm root T -> 0 <= virt -> 0 <= phys < 2 ^ 52 -> 0 <= flags < 2 ^ 64 ->
  Z.land flags 0x000ffffffffff000 = 0 ->
  exists before, vmm_virt_to_phys pm w s = Ok before s /\
  wp (vmm_map_page pm virt phys flags;;; vmm_virt_to_phys pm w) s
    (fun r _ => r = if vpn w =? vpn virt then phys / 4096 * 4096 + w mod 4096 else before)
    out_of_memory.
Proof.
  intros R Hv Hp Hf Hm. exists (translate s T w). pose proof R as [Rp Rl Rb Rt].
  split; [by apply (virt_to_phys_translates s pm root T)|].
  eapply wp_call; [by apply (map_page_translates s pm root T)|].
  intros r s' (-> & T' & [Q1 Q2 Q3 Q4] & _ & _ & Htr & _).
  eapply wp_ok; [by apply (virt_to_phys_translates s' pm root T')|]. apply Htr.
Qed.

(** ** Unmapping *)

Lemma shrunk_refl s root T : pa_ready s -> tree s root T -> shrunk s root T s T.
Proof.
  intros Hr Ht. split; try done. intros a. split; [|by intros [? _]].
  intros Ha. split; [done|]. intros (p & Hp & Hn). congruence.
Qed.

Lemma shrunk_trans s1 root T1 s2 T2 s3 T3 :
  tree s1 root T1 -> shrunk s1 root T1 s2 T2 -> shrunk s2 root T2 s3 T3 -> shrunk s1 root T1 s3 T3.
Proof.
  intros Ht [R1 C1 Tr1 S1 L1 U1 M1] [R2 C2 Tr2 S2 L2 U2 M2]. split.
  - done.
  - by etransitivity.
  - done.
  - by etransitivity.
  - intros v. by rewrite L2.
  - intros a. rewrite U2, U1. split.
    + intros [[Ha N1] N2]. split; [done|]. intros (p & Hp & Hn).
      destruct (T2 !! p) as [b|] eqn:E; [|apply N1; eauto].
      apply N2. exists p. split; [|done]. pose proof (lookup_weaken _ _ _ _ E S1). congruence.
    + intros [Ha N]. split_and!; [done| |].
      * intros (p & Hp & Hn). apply N. exists p. split; [done|].
        apply eq_None_not_Some. intros [b Hb]. rewrite (lookup_weaken _ _ _ _ Hb S2) in Hn. done.
      * intros (p & Hp & Hn). apply N. exists p. split; [|done]. by eapply lookup_weaken.
  - intros x Hx. rewrite M2; [by apply M1|]. intros (p & t & Hp & Hin). apply Hx.
    exists p, t. unfold in_frame in *. rewrite (sc_boot _ _ C1) in Hin.
    split; [by eapply lookup_weaken|done].
Qed.

(** Unlinking an empty table. *)
Lemma tree_remove s root T s' p t i a :
  pa_ready s -> tree s root T -> T !! p = Some t -> (length p < 3)%nat -> 0 <= i < 512 ->
  T !! (p ++ [i]) = Some a -> (forall j, 0 <= j < 512 -> pte s a j = 0) ->
  (forall b, b <> a -> frame_used s' b <-> frame_used s b) ->
  (forall q b j, T !! q = Some b -> 0 <= j < 512 ->
     pte s' b j = if (b =? t) && (j =? i) then 0 else pte s b j) ->
  tree s' root (delete (p ++ [i]) T) /\
  (forall v, leaf_entry s' (delete (p ++ [i]) T) v = leaf_entry s T v).
Proof.
  intros Hr Ht Hp Hl Hi Ha Hz Hoth Hpte.
  assert (forall q b, delete (p ++ [i]) T !! q = Some b -> q <> p ++ [i] /\ T !! q = Some b) as Hd.
  { intros q b. rewrite lookup_delete_Some. intros [? ?]. done. }
  assert (forall j, T !! ((p ++ [i]) ++ [j]) = None) as Hleafless.
  { intros j. apply eq_None_not_Some. intros Hs.
    pose proof (tr_closed _ _ _ Ht _ _ Hs) as (Hj & Hl' & _). destruct Hs as [b Hb].
    pose proof (tr_link _ _ _ Ht _ _ j Ha Hl' Hj) as Hk. rewrite Hb, Hz in Hk by done.
    by destruct Hk as [Hk _]. }
  split; [split|].
  - rewrite lookup_delete_ne by (by destruct p). apply Ht.
  - intros q1 q2 b [_ H1]%Hd [_ H2]%Hd. by apply (tr_inj _ _ _ Ht q1 q2 b).
  - intros q b [Hq Hb]%Hd. apply Hoth; [|by apply (tr_used _ _ _ Ht q)].
    intros ->. by apply Hq, (tr_inj _ _ _ Ht q (p ++ [i]) a).
  - intros q b j [Hq Hb]%Hd Hlq Hj. rewrite (Hpte q) by done.
    pose proof (tr_link _ _ _ Ht q b j Hb Hlq Hj) as Hk.
    destruct (decide (q ++ [j] = p ++ [i])) as [E|N].
    + rewrite E, lookup_delete_eq. apply app_inj_tail in E as [-> ->].
      rewrite Hp in Hb. injection Hb as <-. by rewrite !Z.eqb_refl.
    + rewrite lookup_delete_ne by done.
      destruct (Z.eqb_spec b t) as [->|]; [|done]. destruct (Z.eqb_spec j i) as [->|]; [|done].
      exfalso. apply N. f_equal. by apply (tr_inj _ _ _ Ht q p t).
  - intros q j [b [Hq Hb]%Hd].
    destruct (tr_closed _ _ _ Ht q j) as (? & ? & [c Hc]); [by rewrite Hb|].
    split_and!; [lia|lia|done|]. rewrite lookup_delete_ne; [by rewrite Hc|].
    intros <-. rewrite Hleafless in Hb. done.
  - intros v. unfold leaf_entry. pose proof (idx_range v) as (_ & _ & _ & Hv).
    destruct (decide (pt_path v = p ++ [i])) as [E|N].
    + rewrite E, lookup_delete_eq, Ha. by rewrite Hz.
    + rewrite lookup_delete_ne by done. destruct (T !! pt_path v) as [b|] eqn:Eb; [|done].
      rewrite (Hpte _ _ _ Eb Hv). destruct (Z.eqb_spec b t) as [->|]; [|done].
      assert (pt_path v = p) as <- by by apply (tr_inj _ _ _ Ht _ _ t). simpl in Hl. lia.
Qed.

(** Clearing the entry of an empty table and releasing its frame. *)
Lemma prune_step s root T p t i a :
  pa_ready s -> tree s root T -> T !! p = Some t -> (length p < 3)%nat -> 0 <= i < 512 ->
  T !! (p ++ [i]) = Some a -> (forall j, 0 <= j < 512 -> pte s a j = 0) ->
  wp (write64 (hhdm_offset (s_boot s) + t + i * 8) 0;;; pmm_free a) s
    (fun _ s' => shrunk s root T s' (delete (p ++ [i]) T) /\
       forall q b j, T !! q = Some b -> 0 <= j < 512 ->
         pte s' b j = if (b =? t) && (j =? i) then 0 else pte s b j) no_panic.
Proof.
  intros Hr Ht Hp Hl Hi Ha Hz. apply wp_bind, wp_modify.
  set (s1 := on_mem _ s). destruct (pa_frame s s1) as [Hr1 Hu1]; auto.
  pose proof (tr_used _ _ _ Ht _ _ Ha) as Hua.
  eapply wp_mono; [by apply pa_release; [|by apply Hu1]| |done].
  intros [] s2 (Hn & Hoth & Hm & Hc & Hr2).
  assert (forall q b j, T !! q = Some b -> 0 <= j < 512 ->
    pte s2 b j = if (b =? t) && (j =? i) then 0 else pte s b j) as Hpte.
  { intros q b j Hb Hj. transitivity (pte s1 b j).
    { unfold pte. by rewrite Hm, (sc_boot _ _ Hc). }
    apply pte_write; [by apply (table_facts s root T p t)|by apply (table_facts s root T q b)|done|done|lia]. }
  assert (forall b, b <> a -> frame_used s2 b <-> frame_used s b) as Hoth'.
  { intros b Hb. by rewrite Hoth, Hu1. }
  destruct (tree_remove s root T s2 p t i a) as [Htree Hleaf]; try done.
  split; [split|]; try done.
  - transitivity s1; [|done]. split; auto.
  - apply delete_subseteq.
  - intros b. destruct (decide (b = a)) as [->|Hb].
    + split; [done|]. intros [_ []]. exists (p ++ [i]). by rewrite lookup_delete_eq.
    + rewrite Hoth' by done. split; [|by intros [? _]]. intros Hb'. split; [done|].
      intros (q & Hq & Hd). apply lookup_delete_None in Hd as [<-|Hd]; congruence.
  - intros x Hx. rewrite Hm. cbn [s1 on_mem set_mem s_mem]. rewrite rd_store64_ne; [done|].
    destruct (decide (hhdm_offset (s_boot s) + t + i * 8 <= x < hhdm_offset (s_boot s) + t + i * 8 + 8));
      [|lia].
    exfalso. apply Hx. exists p, t. split; [done|]. unfold in_frame. lia.
Qed.

Lemma is_table_empty_spec s t :
  exists b, vmm_is_table_empty (hhdm_offset (s_boot s) + t) s = Ok b s /\
    if b then forall j, 0 <= j < 512 -> pte s t j = 0
    else exists j, 0 <= j < 512 /\ pte s t j <> 0.
Proof.
  unfold vmm_is_table_empty, gets. eexists. split; [done|].
  set (base := hhdm_offset (s_boot s) + t).
  destruct (table_empty_from (s_mem s) base 0 512) eqn:E.
  - intros j Hj. apply (proj1 (table_empty_from_spec _ base 0 512) E). lia.
  - destruct (decide (Exists (fun j => pte s t j <> 0) (seqZ 0 512))) as [Hx|Hx].
    + apply Exists_exists in Hx as (j & Hj%elem_of_seqZ & Hne). exists j. split; [lia|done].
    + exfalso. apply not_true_iff_false in E. apply E, table_empty_from_spec. intros j Hj.
      apply dec_stable. intros Hne. apply Hx, Exists_exists. exists j.
      split; [apply elem_of_seqZ; lia|done].
Qed.

Lemma linked_occupied s root T p i :
  tree s root T -> is_Some (T !! (p ++ [i])) -> occupied s T p.
Proof.
  intros Ht Hs t Hp. pose proof (tr_closed _ _ _ Ht p i Hs) as (Hi & Hl & _).
  pose proof (tr_link _ _ _ Ht p t i Hp Hl Hi) as Hk. destruct Hs as [b Hb].
  rewrite Hb in Hk. exists i. split; [done|]. intros E. rewrite E in Hk. by destruct Hk as [Hk _].
Qed.

Lemma pruned_none v s root T ps :
  pa_ready s -> tree s root T -> (forall q, q ∈ ps -> occupied s T q) -> pruned v s root T s T ps.
Proof. intros Hr Ht Ho. split; [by apply shrunk_refl|done|]. intros q Hq. left. auto. Qed.

Lemma pruned_cons v s root T s1 s' T' ps q :
  tree s root T -> shrunk s root T s1 (delete q T) -> q ∉ ps ->
  pruned v s1 root (delete q T) s' T' ps -> (forall r, r ∈ ps -> r <> q) ->
  pruned v s root T s' T' (q :: ps).
Proof.
  intros Ht Sh Hq [P1 P2 P3] Hne. split.
  - by eapply shrunk_trans.
  - intros r [Hr Hps]%not_elem_of_cons. rewrite P2 by done. by rewrite lookup_delete_ne.
  - intros r [->|Hr]%elem_of_cons.
    + left. intros b Hb. rewrite P2, lookup_delete_eq in Hb by done. done.
    + destruct (P3 r Hr) as [?|(? & ? & E)]; [by left|right]. split_and!; [done..|].
      rewrite E. rewrite lookup_delete_ne; [done|]. intros ->. by apply (Hne r).
Qed.

Lemma prune_level v s root T p t i a ps K :
  pa_ready s -> tree s root T -> T !! p = Some t -> (length p < 3)%nat -> 0 <= i < 512 ->
  T !! (p ++ [i]) = Some a -> (p ++ [i]) ∉ ps -> (forall q, q ∈ ps -> occupied s T q) ->
  (forall s1, s_boot s1 = s_boot s -> shrunk s root T s1 (delete (p ++ [i]) T) ->
     wp K s1 (fun _ s' => exists T', pruned v s1 root (delete (p ++ [i]) T) s' T' ps) no_panic) ->
  wp (e <- vmm_is_table_empty (hhdm_offset (s_boot s) + a);;
      when e (write64 (hhdm_offset (s_boot s) + t + i * 8) 0;;; pmm_free a;;; K)) s
    (fun _ s' => exists T', pruned v s root T s' T' ((p ++ [i]) :: ps)) no_panic.
Proof.
  intros Hr Ht Hp Hl Hi Ha Hn Ho HK.
  destruct (is_table_empty_spec s a) as (b & Hb & Hbs). eapply wp_bind, wp_ok; [exact Hb|].
  destruct b; cbn [when].
  - assert (wp (bind (bind (write64 (hhdm_offset (s_boot s) + t + i * 8) 0) (fun _ => pmm_free a))
      (fun _ => K)) s (fun _ s' => exists T', pruned v s root T s' T' ((p ++ [i]) :: ps)) no_panic)
      as Hgoal; [|exact Hgoal].
    eapply wp_call; [by apply (prune_step s root T)|]. intros [] s1 [Sh _].
    eapply wp_mono; [by apply HK, Sh; apply Sh| |done].
    intros [] s' (T' & P). exists T'. eapply pruned_cons; try done.
    intros r Hr' ->. done.
  - apply wp_ret. exists T. apply pruned_none; [done|done|].
    intros q [->|Hq]%elem_of_cons; [|auto]. intros b Hb'. rewrite Ha in Hb'. by injection Hb' as <-.
Qed.

(** The last level: the table below the root, kept in the kernel half. *)
Lemma prune_top v s root T a :
  pa_ready s -> tree s root T -> T !! [pml4_idx v] = Some a ->
  wp (e <- vmm_is_table_empty (hhdm_offset (s_boot s) + a);;
      when (e && negb (256 <=? pml4_idx v))
        (write64 (hhdm_offset (s_boot s) + root + pml4_idx v * 8) 0;;; pmm_free a)) s
    (fun _ s' => exists T', pruned v s root T s' T' [[pml4_idx v]]) no_panic.
Proof.
  intros Hr Ht Ha. destruct (is_table_empty_spec s a) as (b & Hb & Hbs).
  eapply wp_bind, wp_ok; [exact Hb|]. destruct b; cbn [andb].
  - destruct (Z.leb_spec 256 (pml4_idx v)); cbn [negb when].
    + apply wp_ret. exists T. split; [by apply shrunk_refl|done|].
      intros q ->%list_elem_of_singleton. by right.
    + eapply wp_mono; [apply (prune_step s root T [] root (pml4_idx v) a); try done;
        [apply Ht|simpl; lia|apply idx_range]| |done].
      intros [] s' [Sh _]. exists (delete [pml4_idx v] T). split; [done| |].
      * intros q Hq. rewrite lookup_delete_ne; [done|]. intros <-. apply Hq. set_solver.
      * intros q ->%list_elem_of_singleton. left. intros b Hb'.
        cbn [app] in Hb'. by rewrite lookup_delete_eq in Hb'.
  - apply wp_ret. exists T. apply pruned_none; [done|done|].
    intros q ->%list_elem_of_singleton b Hb'. rewrite Ha in Hb'. by injection Hb' as <-.
Qed.

Definition unmap_paths (v : Z) : list (list Z) :=
  [pt_path v; [pml4_idx v; pdpt_idx v]; [pml4_idx v]].

(** The pruning half of [vmm_unmap_page]. *)
Lemma prune_all v s root T t1 t2 t3 :
  pa_ready s -> tree s root T -> T !! [pml4_idx v] = Some t1 ->
  T !! [pml4_idx v; pdpt_idx v] = Some t2 -> T !! pt_path v = Some t3 ->
  let h := hhdm_offset (s_boot s) in
  wp (e3 <- vmm_is_table_empty (h + t3);;
      when e3 (write64 (h + t2 + pd_idx v * 8) 0;;; pmm_free t3;;;
        e2 <- vmm_is_table_empty (h + t2);;
        when e2 (write64 (h + t1 + pdpt_idx v * 8) 0;;; pmm_free t2;;;
          e1 <- vmm_is_table_empty (h + t1);;
          when (e1 && negb (256 <=? pml4_idx v))
            (write64 (h + root + pml4_idx v * 8) 0;;; pmm_free t1)))) s
    (fun _ s' => exists T', pruned v s root T s' T' (unmap_paths v)) no_panic.
Proof.
  intros Hr Ht E1 E2 E3 h. destruct (idx_range v) as (I1 & I2 & I3 & I4).
  assert (E2' : T !! ([pml4_idx v] ++ [pdpt_idx v]) = Some t2) by done.
  assert (E3' : T !! ([pml4_idx v; pdpt_idx v] ++ [pd_idx v]) = Some t3) by done.
  apply (prune_level v s root T [pml4_idx v; pdpt_idx v] t2 (pd_idx v) t3); try done.
  { simpl. lia. }
  { rewrite !not_elem_of_cons. by split_and!; [intros [=]|intros [=]|apply not_elem_of_nil]. }
  { intros q [->|[->|[]%elem_of_nil]%elem_of_cons]%elem_of_cons;
      [by eapply linked_occupied; [|by rewrite E3']|by eapply linked_occupied; [|by rewrite E2']]. }
  intros s1 B1 Sh1. unfold h. rewrite <- B1.
  assert (forall q, (length q < 3)%nat ->
    delete ([pml4_idx v; pdpt_idx v] ++ [pd_idx v]) T !! q = T !! q) as Hd1.
  { intros q Hq. apply lookup_delete_ne. intros <-. simpl in Hq. lia. }
  apply (prune_level v s1 root _ [pml4_idx v] t1 (pdpt_idx v) t2); try apply Sh1; try done.
  { rewrite Hd1; [done|simpl; lia]. }
  { simpl. lia. }
  { rewrite Hd1; [done|simpl; lia]. }
  { rewrite list_elem_of_singleton. by intros [=]. }
  { intros q ->%list_elem_of_singleton. eapply (linked_occupied _ _ _ _ (pdpt_idx v)); [apply Sh1|].
    rewrite Hd1 by (simpl; lia). by rewrite E2'. }
  intros s2 B2 Sh2. rewrite <- B2. apply prune_top; try apply Sh2.
  rewrite lookup_delete_ne by done. rewrite Hd1; [done|simpl; lia].
Qed.

(** What unmapping leaves behind. *)
Record unmapped (s : kstate) (pm root : Z) (T : gmap (list Z) Z) (virt : Z) (s' : kstate)
    (T' : gmap (list Z) Z) : Prop := {
  um_ready : vmm_ready s' pm root T';
  um_sub : T' ⊆ T;
  um_ctx : same_ctx s s';
  um_translate : forall w, translate s' T' w = if vpn w =? vpn virt then 0 else translate s T w;
  um_used : forall a, frame_used s' a <->
    frame_used s a /\ ~ (exists p, T !! p = Some a /\ T' !! p = None);
  um_off : forall q, q ∉ unmap_paths virt -> T' !! q = T !! q;
  um_pruned : present (leaf_entry s T virt) = true -> forall q, q ∈ unmap_paths virt ->
    occupied s' T' q \/ (q = [pml4_idx virt] /\ 256 <= pml4_idx virt /\ T' !! q = T !! q);
  um_mem : agree_off (fun x => exists p t, T !! p = Some t /\ in_frame s t x) (s_mem s) (s_mem s')
}.

Lemma leaf_entry_vpn s T v w : vpn v = vpn w -> leaf_entry s T v = leaf_entry s T w.
Proof. intros [Ep Ei]%vpn_path. unfold leaf_entry. by rewrite Ep, Ei. Qed.

Lemma unmapped_absent s pm root T virt :
  vmm_ready s pm root T -> present (leaf_entry s T virt) = false -> unmapped s pm root T virt s T.
Proof.
  intros R Hp. destruct (shrunk_refl s root T (vr_pmm _ _ _ _ R) (vr_tree _ _ _ _ R)) as [? ? ? ? ? Hu ?].
  split; try done.
  - intros w. destruct (Z.eqb_spec (vpn w) (vpn virt)) as [E|]; [|done].
    unfold translate. by rewrite (leaf_entry_vpn s T w virt E), Hp.
  - congruence.
Qed.

(** The critical section of [vmm_unmap_page], from the locked state. *)
Lemma unmap_locked s pm root T virt t1 t2 t3 :
  vmm_ready s pm root T -> T !! [pml4_idx virt] = Some t1 ->
  T !! [pml4_idx virt; pdpt_idx virt] = Some t2 -> T !! pt_path virt = Some t3 ->
  let h := hhdm_offset (s_boot s) in
  wp (write64 (h + t3 + pt_idx virt * 8) 0;;;
      vmm_invalidate_page virt;;;
      e3 <- vmm_is_table_empty (h + t3);;
      when e3 (write64 (h + t2 + pd_idx virt * 8) 0;;; pmm_free t3;;;
        e2 <- vmm_is_table_empty (h + t2);;
        when e2 (write64 (h + t1 + pdpt_idx virt * 8) 0;;; pmm_free t2;;;
          e1 <- vmm_is_table_empty (h + t1);;
          when (e1 && negb (256 <=? pml4_idx virt))
            (write64 (h + root + pml4_idx virt * 8) 0;;; pmm_free t1)));;;
      spin_unlock vmm_lock;;; ret true) (on_locks (set_latch vmm_lock true) s)
    (fun r s' => r = true /\ exists T', unmapped s pm root T virt s' T') no_panic.
Proof.
  intros R E1 E2 E3 h. pose proof R as [Hr Hlk Hb Ht].
  destruct (relatch s true root T Hr Ht) as (Lr & Lt & Lu).
  set (s0 := on_locks (set_latch vmm_lock true) s) in *.
  destruct (leaf_write s0 root T virt t3 0 Lr Lt E3 ltac:(lia)) as (Wr & Wu & Wt & Wl).
  apply wp_bind, wp_modify, wp_bind, wp_ret. cbv zeta in *.
  change (s_boot s0) with (s_boot s) in *. change (on_mem _ s0) with
    (on_mem (fun m => store64 m (hhdm_offset (s_boot s) + t3 + pt_idx virt * 8) 0) s0).
  set (s1 := on_mem _ s0) in *. change h with (hhdm_offset (s_boot s1)).
  apply wp_assoc. eapply wp_call; [apply (prune_all virt s1 root T t1 t2 t3 Wr Wt E1 E2 E3)|].
  intros [] s2 (T' & [[P1 P2 P3 P4 P5 P6 P7] P8 P9]). apply wp_bind, wp_spin_unlock, wp_ret.
  split; [done|]. exists T'. destruct (relatch s2 false root T' P1 P3) as (K1 & K2 & K3).
  destruct P2 as [C1 C2 C3 C4 C5 C6 C7 C8 C9 C10 C11 C12 C13 C14].
  split; cbn [on_locks set_locks s_mem]; try done.
  - split; [done|apply latch_set_eq| |done].
    cbn [on_locks set_locks s_vmm s_boot]. by rewrite C6, C4.
  - split; cbn [on_locks set_locks s_cpu s_io s_dev s_boot s_locks s_vmm
      s_heap s_proc s_vfs s_kbd s_irq s_gdt s_ac97 s_fb]; try done.
    rewrite C5. by apply set_latch_relock.
  - intros w. unfold translate. rewrite (leaf_entry_frame s2), P5, Wl by done.
    destruct (vpn w =? vpn virt); [done|]. by rewrite (leaf_entry_frame s).
  - intros a. by rewrite K3, P6, Wu, Lu.
  - intros x Hx. rewrite (P7 x Hx). cbn [s1 s0 on_mem on_locks set_mem set_locks s_mem].
    pose proof (idx_range virt) as (_ & _ & _ & I4). rewrite rd_store64_ne; [done|].
    destruct (decide (h + t3 + pt_idx virt * 8 <= x < h + t3 + pt_idx virt * 8 + 8)); [|unfold h in *; lia].
    exfalso. apply Hx. exists (pt_path virt), t3. split; [done|]. unfold in_frame, h in *. lia.
Qed.

Lemma unmap_page_unmaps s pm root T virt :
  vmm_ready s pm root T -> virt mod 4096 = 0 ->
  wp (vmm_unmap_page pm virt) s
    (fun r s' => r = true /\ exists T', unmapped s pm root T virt s' T') no_panic.
Proof.
  intros R Hal. pose proof R as [Hr Hlk Hb Ht]. destruct (idx_range virt) as (I1 & I2 & I3 & I4).
  pose proof (fun p i => tree_none s root T p i Ht) as Hcl.
  assert (T !! pt_path virt = None -> unmapped s pm root T virt s T) as Hnp.
  { intros E. apply unmapped_absent; [done|]. unfold leaf_entry. by rewrite E. }
  unfold vmm_unmap_page. rewrite Hal. cbn [Z.eqb negb].
  apply wp_bind, (wp_base_virt _ (hhdm_offset (s_boot s) + root)); [done|].
  eapply wp_bind, wp_ok; [by apply (get_next_level_walk s root T []); [| |apply Ht|simpl; lia|]|].
  cbn [app]. destruct (T !! [pml4_idx virt]) as [t1|] eqn:E1.
  2: { apply wp_ret. split; [done|]. eexists. apply Hnp.
       apply (Hcl _ (pd_idx virt) (Hcl _ (pdpt_idx virt) E1)). }
  rewrite (table_virt s root T _ t1 Hr Ht E1). apply wp_bind, wp_gets.
  eapply wp_bind, wp_ok; [by apply (get_next_level_walk s root T [pml4_idx virt]); [| | |simpl; lia|]|].
  cbn [app]. destruct (T !! [pml4_idx virt; pdpt_idx virt]) as [t2|] eqn:E2.
  2: { apply wp_ret. split; [done|]. eexists. apply Hnp, (Hcl _ (pd_idx virt) E2). }
  rewrite (table_virt s root T _ t2 Hr Ht E2). apply wp_bind, wp_gets.
  eapply wp_bind, wp_ok; [by apply (get_next_level_walk s root T [pml4_idx virt; pdpt_idx virt]);
    [| | |simpl; lia|]|].
  cbn [app]. destruct (T !! [pml4_idx virt; pdpt_idx virt; pd_idx virt]) as [t3|] eqn:E3.
  2: { apply wp_ret. split; [done|]. eexists. by apply Hnp. }
  rewrite (table_virt s root T _ t3 Hr Ht E3). apply wp_bind, wp_gets. apply wp_bind, wp_gets.
  change (load64 (s_mem s) (hhdm_offset (s_boot s) + t3 + pt_idx virt * 8)) with (pte s t3 (pt_idx virt)).
  destruct (present (pte s t3 (pt_idx virt))) eqn:Hpr; cbn [negb].
  2: { apply wp_ret. split; [done|]. eexists. apply unmapped_absent; [done|].
       unfold leaf_entry, pt_path. by rewrite E3. }
  pose proof (tr_link _ _ _ Ht [] root _ (tr_root _ _ _ Ht) ltac:(simpl; lia) I1) as K1.
  pose proof (tr_link _ _ _ Ht _ _ _ E1 ltac:(simpl; lia) I2) as K2.
  pose proof (tr_link _ _ _ Ht _ _ _ E2 ltac:(simpl; lia) I3) as K3.
  cbn [app] in K1, K2, K3. rewrite E1 in K1. rewrite E2 in K2. rewrite E3 in K3. unfold pte in K1, K2, K3.
  rewrite (proj2 K1), (proj2 K2), (proj2 K3).
  apply wp_bind, wp_spin_lock; [done|]. by apply unmap_locked.
Qed.

(** C4: unmapping an aligned address succeeds without any panic: afterwards
    that page translates to nothing and every other page as before; the tables
    that became empty, and no others, are unlinked and their frames released,
    except that a table of the kernel half of the root stays. *)
Theorem vmm_unmap_page_spec (s : kstate) (pm root : Z) (T : gmap (list Z) Z) (virt : Z) :
  vmm_ready s pm root T -> virt mod 4096 = 0 ->
  wp (vmm_unmap_page pm virt) s
    (fun r s' => r = true /\ exists T', vmm_ready s' pm root T' /\ T' ⊆ T /\ same_ctx s s' /\
       (forall w, translate s' T' w = if vpn w =? vpn virt then 0 else translate s T w) /\
       (forall a, frame_used s' a <->
          frame_used s a /\ ~ (exists p, T !! p = Some a /\ T' !! p = None)) /\
       (forall q, q ∉ unmap_paths virt -> T' !! q = T !! q) /\
       (present (leaf_entry s T virt) = true -> forall q, q ∈ unmap_paths virt ->
          occupied s' T' q \/
          (q = [pml4_idx virt] /\ 256 <= pml4_idx virt /\ T' !! q = T !! q))) no_panic.
Proof.
  intros R Hal. eapply wp_mono; [by apply unmap_page_unmaps| |done].
  intros r s' (-> & T' & [U1 U2 U3 U4 U5 U6 U7 U8]). split; [done|]. exists T'. by split_and!.
Qed.

End vmm_spec.

(** ** A pagemap with one page

    2048 frames of which six are in use: frame 1 is the root, frames 2, 3 and 4
    are the tables of one page, frame 5 is mapped there. *)

Definition demo_base : kstate :=
  set_vmm (mk_vmm 0x5000 {[0x5000 := 0xFFFF800000001000]})
    (set_pmm (mk_pmm {[0 := 0x3F]} 2047 0 2042 2042) demo_state).

Definition demo_entry (t i v : Z) (s : kstate) : kstate :=
  on_mem (fun m => store64 m (hhdm_offset (s_boot s) + t + i * 8) v) s.

(** The page with the indices of [v]. *)
Definition demo_map (v : Z) : kstate :=
  demo_entry 0x4000 (pt_idx v) 0x5003 (demo_entry 0x3000 (pd_idx v) 0x4003
    (demo_entry 0x2000 (pdpt_idx v) 0x3003 (demo_entry 0x1000 (pml4_idx v) 0x2003 demo_base))).

Definition demo_tables (v : Z) : gmap (list Z) Z :=
  <[[] := 0x1000]> (<[[pml4_idx v] := 0x2000]>
    (<[[pml4_idx v; pdpt_idx v] := 0x3000]> {[pt_path v := 0x4000]})).

Abbreviation demo_vmm := (demo_map 0x400000).
Abbreviation demo_tree := (demo_tables 0x400000).

Lemma demo_base_ready : pmm_ready demo_base.
Proof.
  split; [split; vm_compute; done || (split; done || lia)| |split; cbn; done || lia|done].
  split; vm_compute; done.
Qed.

Lemma demo_pte v t i :
  t mod 4096 = 0 -> 0 <= i < 512 ->
  pte (demo_map v) t i =
  if (t =? 0x4000) && (i =? pt_idx v) then 0x5003 else
  if (t =? 0x3000) && (i =? pd_idx v) then 0x4003 else
  if (t =? 0x2000) && (i =? pdpt_idx v) then 0x3003 else
  if (t =? 0x1000) && (i =? pml4_idx v) then 0x2003 else 0.
Proof.
  intros Ht Hi. unfold demo_map, demo_entry. pose proof (idx_range v) as (? & ? & ? & ?).
  rewrite !pte_write by (done || lia). unfold pte. by rewrite load64_zero by done.
Qed.

Lemma demo_tree_lookup v p t : demo_tables v !! p = Some t <->
  (p = [] /\ t = 0x1000) \/ (p = [pml4_idx v] /\ t = 0x2000) \/
  (p = [pml4_idx v; pdpt_idx v] /\ t = 0x3000) \/ (p = pt_path v /\ t = 0x4000).
Proof.
  unfold demo_tables. rewrite !lookup_insert_Some, lookup_singleton_Some. naive_solver.
Qed.

Lemma demo_used v t : t ∈ [0x1000; 0x2000; 0x3000; 0x4000; 0x5000] -> pmm_frame_used (demo_map v) t.
Proof.
  intros Ht. unfold pmm_frame_used. change (s_pmm (demo_map v)) with (mk_pmm {[0 := 0x3F]} 2047 0 2042 2042).
  repeat (apply elem_of_cons in Ht as [->|Ht]; [split_and!; vm_compute; done|]).
  by apply elem_of_nil in Ht.
Qed.

(** The links of the tree: what is under each of the first three tables. *)
Lemma demo_link v p t j t' e :
  (p, t, j, t', e) ∈ [([], 0x1000, pml4_idx v, 0x2000, 0x2003);
    ([pml4_idx v], 0x2000, pdpt_idx v, 0x3000, 0x3003);
    ([pml4_idx v; pdpt_idx v], 0x3000, pd_idx v, 0x4000, 0x4003)] ->
  forall i, 0 <= i < 512 ->
    demo_tables v !! (p ++ [i]) = (if i =? j then Some t' else None) /\
    pte (demo_map v) t i = (if i =? j then e else 0) /\ PTE_GET_ADDR e = t' /\ present e = true.
Proof.
  intros Hin i Hi. assert (demo_tables v !! (p ++ [j]) = Some t') as Hj.
  { apply demo_tree_lookup. unfold pt_path. set_unfold in Hin. naive_solver. }
  split_and!.
  - destruct (Z.eqb_spec i j) as [->|Hne]; [done|]. apply eq_None_not_Some.
    intros [b Hb%demo_tree_lookup]. unfold pt_path in Hb. set_unfold in Hin.
    destruct Hin as [[= -> -> -> -> ->]|[[= -> -> -> -> ->]|[[= -> -> -> -> ->]|[]]]]; simpl in Hb;
      destruct Hb as [[[=] _]|[[[=] _]|[[[=] _]|[[=] _]]]]; done.
  - set_unfold in Hin.
    destruct Hin as [[= -> -> -> -> ->]|[[= -> -> -> -> ->]|[[= -> -> -> -> ->]|[]]]];
      by rewrite demo_pte by done.
  - set_unfold in Hin. by destruct Hin as [[= -> -> -> -> ->]|[[= -> -> -> -> ->]|[[= -> -> -> -> ->]|[]]]].
  - set_unfold in Hin. by destruct Hin as [[= -> -> -> -> ->]|[[= -> -> -> -> ->]|[[= -> -> -> -> ->]|[]]]].
Qed.

Lemma demo_tree_ok v : tree (demo_map v) 0x1000 (demo_tables v).
Proof.
  split.
  - by apply demo_tree_lookup; left.
  - intros p q t Hp%demo_tree_lookup Hq%demo_tree_lookup. naive_solver lia.
  - intros p t Hp%demo_tree_lookup. apply demo_used. set_unfold. naive_solver.
  - intros p t i Hp%demo_tree_lookup Hl Hi.
    assert (exists j t' e, (p, t, j, t', e) ∈ [([], 0x1000, pml4_idx v, 0x2000, 0x2003);
      ([pml4_idx v], 0x2000, pdpt_idx v, 0x3000, 0x3003);
      ([pml4_idx v; pdpt_idx v], 0x3000, pd_idx v, 0x4000, 0x4003)]) as (j & t' & e & Hin).
    { destruct Hp as [[-> ->]|[[-> ->]|[[-> ->]|[-> ->]]]]; [..|simpl in Hl; lia];
        do 3 eexists; rewrite !elem_of_cons; eauto. }
    destruct (demo_link v p t j t' e Hin i Hi) as (-> & -> & E1 & E2).
    by destruct (i =? j).
  - pose proof (idx_range v) as (? & ? & ? & _).
    intros p i [b E%demo_tree_lookup]. destruct E as [[E _]|[[E _]|[[E _]|[E _]]]].
    + by destruct p.
    + apply (app_inj_tail p []) in E as [-> ->]. split_and!; [lia|lia|simpl; lia|].
      eexists. apply demo_tree_lookup. eauto.
    + apply (app_inj_tail p [_]) in E as [-> ->]. split_and!; [lia|lia|simpl; lia|].
      eexists. apply demo_tree_lookup. eauto.
    + apply (app_inj_tail p [_; _]) in E as [-> ->]. split_and!; [lia|lia|simpl; lia|].
      eexists. apply demo_tree_lookup. eauto 6.
Qed.

Lemma demo_vmm_ready v : vmm_ready (demo_map v) 0x5000 0x1000 (demo_tables v).
Proof.
  split; [|done|by vm_compute|apply demo_tree_ok].
  by destruct (@pa_frame _ _ pmm_page_allocator demo_base (demo_map v) demo_base_ready); auto.
Qed.

Lemma demo_leaf v w : leaf_entry (demo_map v) (demo_tables v) w = if vpn w =? vpn v then 0x5003 else 0.
Proof.
  unfold leaf_entry. pose proof (idx_range w) as (_ & _ & _ & ?).
  destruct (demo_tables v !! pt_path w) as [t|] eqn:E.
  - apply demo_tree_lookup in E. unfold pt_path in E.
    destruct E as [[[=] _]|[[[=] _]|[[[=] _]|[[= E1 E2 E3] ->]]]]. rewrite demo_pte by done.
    cbn [Z.eqb Pos.eqb andb]. assert (pt_path w = pt_path v) as Ep by (unfold pt_path; congruence).
    destruct (Z.eqb_spec (pt_idx w) (pt_idx v)), (Z.eqb_spec (vpn w) (vpn v)) as [E|E]; try done.
    + exfalso. by apply E, vpn_path.
    + by apply vpn_path in E as [_ ?].
  - destruct (Z.eqb_spec (vpn w) (vpn v)) as [E'|]; [|done]. apply vpn_path in E' as [E' _].
    rewrite E' in E. rewrite (proj2 (demo_tree_lookup v _ 0x4000)) in E; [done|]. eauto 6.
Qed.

Lemma vmm_map_page_spec_witness :
  wp (vmm_map_page 0x5000 0x401000 0x9000 3) demo_vmm
    (fun r s' => r = true /\ exists T', translate s' T' 0x401234 = 0x9234 /\
       translate s' T' 0x400010 = 0x5010) out_of_memory.
Proof.
  eapply wp_mono.
  - apply (vmm_map_page_spec demo_vmm 0x5000 0x1000 demo_tree 0x401000 0x9000 3 (demo_vmm_ready _));
      done || lia.
  - intros r s' (-> & T' & _ & _ & _ & Htr & _). split; [done|]. exists T'.
    rewrite !Htr. split; [done|].
    unfold translate. by rewrite demo_leaf.
  - done.
Defined.

Lemma vmm_unmap_page_spec_witness :
  wp (vmm_unmap_page 0x5000 0x400000) demo_vmm
    (fun r s' => r = true /\ exists T', vmm_ready s' 0x5000 0x1000 T' /\
       translate s' T' 0x400000 = 0) no_panic.
Proof.
  eapply wp_mono.
  - apply (vmm_unmap_page_spec demo_vmm 0x5000 0x1000 demo_tree 0x400000 (demo_vmm_ready _)). done.
  - intros r s' (-> & T' & Hr & _ & _ & Htr & _). split; [done|]. exists T'.
    split; [done|]. by rewrite Htr.
  - done.
Defined.

Lemma map_then_translate_witness :
  exists before, vmm_virt_to_phys 0x5000 0x401234 demo_vmm = Ok before demo_vmm /\
  wp (vmm_map_page 0x5000 0x401000 0x9000 3;;; vmm_virt_to_phys 0x5000 0x401234) demo_vmm
    (fun r _ => r = 0x9234) out_of_memory.
Proof.
  apply (map_then_translate demo_vmm 0x5000 0x1000 demo_tree 0x401000 0x9000 3 0x401234 (demo_vmm_ready _));
    done || lia.
Defined.
