(* ===== verification/VmmFresh.v ===== *)
(** * A fresh frame behind a page

    Allocating a frame and mapping it is what the heap, the program loader,
    the page fault handler and the system calls do; this is its effect on the
    address space, with the contents of the new page. *)

From S2P Require Import Prelude Memory State Cpu Libc Pmm Vmm VmmTree VmmSpec.

Section fresh.
Context {PA : page_allocator pmm_allocate pmm_free}.

(** The page of [virt] is now backed by the frame [f], all zero, which was
    not in use before; every other page is as it was. *)
Record mapped_fresh (s : kstate) (pm root : Z) (T : gmap (list Z) Z) (virt flags f : Z) (s' : kstate)
    (T' : gmap (list Z) Z) : Prop := {
  mf_ready : vmm_ready s' pm root T';
  mf_ctx : same_ctx s s';
  mf_new : ~ frame_used s f;
  mf_used : frame_used s' f;
  mf_table : forall p, T' !! p <> Some f;
  mf_tables : forall p t, T' !! p = Some t -> (exists q, T !! q = Some t) \/ ~ frame_used s t;
  mf_leaf : forall w, leaf_entry s' T' w =
    if vpn w =? vpn virt then Z.lor (Z.lor f flags) 1 else leaf_entry s T w;
  mf_mono : forall a, frame_used s a -> frame_used s' a;
  mf_zero : forall x, in_frame s f x -> rd (s_mem s') x = 0;
  mf_mem : agree_off (touched s T s') (s_mem s) (s_mem s')
}.

Lemma same_ctx_trans s1 s2 s3 : same_ctx s1 s2 -> same_ctx s2 s3 -> same_ctx s1 s3.
Proof.
  intros [C1 ? ? ? ? ? ? ? ? ? ? ? ? ?] [C2 ? ? ? ? ? ? ? ? ? ? ? ? ?]. split; try congruence.
  destruct C1 as [C1|C1], C2 as [C2|C2]; rewrite C2, C1, ?irq_section_idemp; auto.
Qed.

(** The two steps put together. *)
Lemma fresh_remap s pm root T virt flags f s1 s' T' :
  vmm_ready s pm root T -> ~ frame_used s f -> frame_used s1 f ->
  (forall b, b <> f -> frame_used s1 b <-> frame_used s b) ->
  (forall x, in_frame s f x -> rd (s_mem s1) x = 0) ->
  agree_off (in_frame s f) (s_mem s) (s_mem s1) -> same_ctx s s1 -> pa_ready s1 ->
  (forall w, leaf_entry s1 T w = leaf_entry s T w) ->
  remapped s1 pm root T virt (Z.lor (Z.lor f flags) 1) s' T' ->
  mapped_fresh s pm root T virt flags f s' T'.
Proof.
  intros R Hnf Huf Hoth Hz Hag Hc Hr1 Hl1 [Q1 Q2 Q3 Q4 Q5 Q6 Q7]. pose proof R as [Rp _ _ Rt].
  assert (forall q, T !! q <> Some f) as HTf by (intros q Hq; by apply Hnf, (tr_used _ _ _ Rt q)).
  assert (forall a, frame_used s a -> frame_used s1 a) as Hmono.
  { intros a Ha. destruct (decide (a = f)) as [->|]; [done|]. by apply Hoth. }
  assert (s_boot s1 = s_boot s) as Eb by apply Hc.
  assert (forall t x, in_frame s1 t x <-> in_frame s t x) as Hin by (intros; unfold in_frame; by rewrite Eb).
  destruct (pa_range _ _ Hr1 Huf) as [Hfm _].
  split; [done|by eapply same_ctx_trans|done|auto| | | |auto| |].
  - intros p Hp. destruct (Q4 p f Hp) as [[q Hq]|Hnu]; [by apply (HTf q)|done].
  - intros p t Hp. destruct (Q4 p t Hp) as [?|Hnu]; [by left|]. right. intros Hu. by apply Hnu, Hmono.
  - intros w. rewrite Q5. destruct (_ =? _); [done|apply Hl1].
  - intros x Hx. rewrite Q7; [by apply Hz|]. intros (t & Ht & [[q Hq]|[Hnt Hut]]).
    + destruct (pa_range _ _ Rp (tr_used _ _ _ Rt _ _ Hq)) as [Htm _].
      apply (frames_disjoint s t f x); try done; [by intros ->; apply (HTf q)|by apply Hin].
    + apply (frames_disjoint s t f x); try done; [|by intros ->|by apply Hin].
      destruct Q1 as [Hr' _ _ _]. by destruct (pa_range _ _ Hr' Hut).
  - intros x Hx. rewrite Q7, Hag; [done| |].
    + intros Hx'. apply Hx. exists f. split; [done|]. right. split; [done|auto].
    + intros (t & Ht & Hor). apply Hx. exists t. split; [by apply Hin|]. destruct Hor as [?|[Hnt Hut]]; [by left|].
      right. split; [|done]. intros Hu. by apply Hnt, Hmono.
Qed.

Lemma alloc_leaf s s1 pm root T f :
  vmm_ready s pm root T -> ~ frame_used s f -> frame_used s1 f ->
  (forall b, b <> f -> frame_used s1 b <-> frame_used s b) ->
  agree_off (in_frame s f) (s_mem s) (s_mem s1) -> same_ctx s s1 -> pa_ready s1 ->
  vmm_ready s1 pm root T /\ forall w, leaf_entry s1 T w = leaf_entry s T w.
Proof.
  intros R Hnf Huf Hoth Hag Hc Hr1. pose proof R as [Rp Rl Rb Rt]. destruct (pa_range _ _ Hr1 Huf) as [Hfm _].
  assert (s_boot s1 = s_boot s) as Eb by apply Hc.
  assert (forall p t i, T !! p = Some t -> 0 <= i < 512 -> pte s1 t i = pte s t i) as Hp.
  { intros p t i Hp Hi. unfold pte. rewrite Eb. apply (agree_off_load64 _ _ _ _ Hag). intros x Hx Hx'.
    pose proof (tr_used _ _ _ Rt _ _ Hp) as Hut. destruct (pa_range _ _ Rp Hut) as [Htm _].
    apply (frames_disjoint s t f x); try done; [by intros ->|]. unfold in_frame. lia. }
  split.
  - split; [done|by rewrite (sc_locks _ _ Hc)|by rewrite (sc_vmm _ _ Hc), Eb|].
    split; [apply Rt|apply Rt| | |apply Rt].
    + intros p t Hpt. pose proof (tr_used _ _ _ Rt _ _ Hpt) as Hut.
      destruct (decide (t = f)) as [->|]; [done|]. by apply Hoth.
    + intros p t i Hpt Hl Hi. rewrite (Hp p) by done. by apply Rt.
  - intros w. unfold leaf_entry. destruct (T !! pt_path w) as [t|] eqn:E; [|done].
    by apply (Hp (pt_path w)); [|apply idx_range].
Qed.

(** [page = pmm_allocate(); ...; vmm_map_page(pagemap, virt, page, flags)],
    with any test of the page in between that a non-null page passes. *)
Lemma map_fresh_spec s pm root T virt flags (test : Z -> M unit) :
  vmm_ready s pm root T -> 0 <= virt -> 0 <= flags < 2 ^ 64 ->
  (forall a t, 0 < a -> test a t = Ok tt t) ->
  wp (page <- pmm_allocate;; test page;;; vmm_map_page pm virt page flags) s
    (fun r s' => r = true /\ exists f T', mapped_fresh s pm root T virt flags f s' T') out_of_memory.
Proof.
  intros R Hv Hf Htest. pose proof R as [Rp _ _ _].
  eapply wp_call; [by apply pa_allocate|]. intros f s1 (Hnf & Huf & Hoth & Hz & Hag & Hc & Hr1).
  destruct (pa_range _ _ Hr1 Huf) as [Hfm Hfr]. destruct (alloc_leaf s s1 pm root T f) as [R1 Hl1]; try done.
  eapply wp_bind, wp_ok; [apply Htest; lia|].
  eapply wp_mono; [apply (map_page_remaps s1 pm root T virt f flags R1); lia| |done].
  intros r s' (-> & T' & Q). split; [done|]. exists f, T'.
  replace (f / 4096 * 4096) with f in Q by zlia. by apply (fresh_remap s pm root T virt flags f s1).
Qed.

(** The entry of the new page. *)
Lemma fresh_entry f flags : f mod 4096 = 0 -> 0 < f < 2 ^ 35 -> Z.land flags 0x000ffffffffff000 = 0 ->
  present (Z.lor (Z.lor f flags) 1) = true /\ PTE_GET_ADDR (Z.lor (Z.lor f flags) 1) = f.
Proof.
  intros Hm Hr Hf. split.
  - rewrite present_bit, Z.lor_spec. apply orb_true_r.
  - rewrite <- Z.lor_assoc. apply PTE_GET_ADDR_lor; [done|lia|]. rewrite Z.land_lor_distr_l, Hf. reflexivity.
Qed.
End fresh.
