(* ===== verification/VmmCopy.v ===== *)
(** * Copying into a mapped range (theorems about [vmm_map_copy] and
      [vmm_map_zero] of kernel/system/vmm.c)

    Both loops translate the next address, touch the rest of that page and go
    on.  A range whose pages are backed by distinct frames outside the page
    tables receives every byte, in as many steps as it has pages. *)

From S2P Require Import Prelude Memory State Cpu Libc Pmm Vmm VmmTree VmmSpec.

Section vmm_copy.
Context {PA : page_allocator pmm_allocate pmm_free}.

(** ** Definitions *)

(** Where byte [k] of the range at [virt] is, in the direct map. *)
Definition dst (s : kstate) (T : gmap (list Z) Z) (virt k : Z) : Z :=
  hhdm_offset (s_boot s) + translate s T (virt + k).

(** The pages of the range are mapped to frames that belong to nobody else. *)
Record copy_target (s : kstate) (T : gmap (list Z) Z) (virt len : Z) : Prop := {
  ct_low : 0 <= virt;
  ct_len : 0 <= len;
  ct_high : virt + len <= 2 ^ 48;
  ct_present : forall k, 0 <= k < len -> present (leaf_entry s T (virt + k)) = true;
  ct_frame : forall k, 0 <= k < len -> frame_used s (PTE_GET_ADDR (leaf_entry s T (virt + k)));
  ct_inj : forall j k, 0 <= j < len -> 0 <= k < len ->
    PTE_GET_ADDR (leaf_entry s T (virt + j)) = PTE_GET_ADDR (leaf_entry s T (virt + k)) ->
    vpn (virt + j) = vpn (virt + k);
  ct_table : forall k p, 0 <= k < len ->
    T !! p <> Some (PTE_GET_ADDR (leaf_entry s T (virt + k)))
}.

(** The memory after the first [c] bytes became [f]. *)
Record filled (s : kstate) (T : gmap (list Z) Z) (virt : Z) (f : Z -> Z) (c : Z) (m : mem) : Prop := {
  fi_in : forall k, 0 <= k < c -> rd m (dst s T virt k) = f k;
  fi_out : forall x, (forall k, 0 <= k < c -> x <> dst s T virt k) -> rd m x = rd (s_mem s) x
}.

(** ** Lemmas *)

(** A tree depends on the bytes of its tables only. *)
Lemma tree_mem s root T m :
  pa_ready s -> tree s root T ->
  (forall p t x, T !! p = Some t -> in_frame s t x -> rd m x = rd (s_mem s) x) ->
  pa_ready (set_mem m s) /\ tree (set_mem m s) root T /\
  (forall v, leaf_entry (set_mem m s) T v = leaf_entry s T v).
Proof.
  intros Hr Ht Hm. destruct (pa_frame s (set_mem m s)) as [Hr' Hu']; auto.
  assert (forall p t i, T !! p = Some t -> 0 <= i < 512 -> pte (set_mem m s) t i = pte s t i) as Hp.
  { intros p t i Hp Hi. apply load64_ext. intros x Hx. apply (Hm p t); [done|].
    unfold in_frame. cbn [set_mem s_boot] in Hx. lia. }
  split_and!; [done| |].
  - split; [apply Ht|apply Ht| | |apply Ht].
    + intros p t Hpt. apply Hu'. by apply (tr_used _ _ _ Ht p).
    + intros p t i Hpt Hl Hi. rewrite (Hp p) by done. by apply Ht.
  - intros v. unfold leaf_entry. destruct (T !! pt_path v) as [t|] eqn:E; [|done].
    by apply (Hp (pt_path v)); [|apply idx_range].
Qed.

Lemma vpn_small v w : 0 <= v < 2 ^ 48 -> 0 <= w < 2 ^ 48 -> vpn v = vpn w <-> v / 4096 = w / 4096.
Proof. intros Hv Hw. unfold vpn. rewrite !Z.mod_small by zlia. done. Qed.

Section loop.
Variables (s : kstate) (pm root : Z) (T : gmap (list Z) Z) (virt len : Z).
Hypothesis Hr : pa_ready s.
Hypothesis Ht : tree s root T.
Hypothesis Hb : pagemaps (s_vmm s) !! pm = Some (hhdm_offset (s_boot s) + root).
Hypothesis Htgt : copy_target s T virt len.

Lemma dst_alt k : 0 <= k < len ->
  translate s T (virt + k) = PTE_GET_ADDR (leaf_entry s T (virt + k)) + (virt + k) mod 4096 /\
  0 < PTE_GET_ADDR (leaf_entry s T (virt + k)) < 2 ^ 35 /\
  PTE_GET_ADDR (leaf_entry s T (virt + k)) mod 4096 = 0.
Proof.
  intros Hk. destruct (pa_range _ _ Hr (ct_frame _ _ _ _ Htgt k Hk)) as [Hm Hlt].
  unfold translate. rewrite (ct_present _ _ _ _ Htgt k Hk), u64_small; [done|zlia].
Qed.

(** Within a page the destination is contiguous. *)
Lemma dst_page c j : 0 <= c -> 0 <= j -> c + j < len -> (virt + c) mod 4096 + j < 4096 ->
  dst s T virt (c + j) = dst s T virt c + j.
Proof.
  intros Hc Hj Hl Hp. destruct Htgt as [T1 T2 T3 _ _ _ _]. unfold dst.
  rewrite (proj1 (dst_alt (c + j) ltac:(lia))), (proj1 (dst_alt c ltac:(lia))).
  rewrite (leaf_entry_vpn s T (virt + (c + j)) (virt + c)); [zlia|].
  apply vpn_small; [lia|lia|]. zlia.
Qed.

Lemma dst_inj j k : 0 <= j < len -> 0 <= k < len -> dst s T virt j = dst s T virt k -> j = k.
Proof.
  intros Hj Hk E. unfold dst in E.
  destruct (dst_alt j Hj) as (Ej & _ & Mj), (dst_alt k Hk) as (Ek & _ & Mk).
  assert (vpn (virt + j) = vpn (virt + k)) as V.
  { apply (ct_inj _ _ _ _ Htgt); [done|done|]. zlia. }
  pose proof V as V'. destruct Htgt as [T1 T2 T3 _ _ _ _].
  apply vpn_small in V'; [|lia|lia]. rewrite (leaf_entry_vpn s T _ _ V) in Ej. zlia.
Qed.

Lemma dst_not_table k p t x : 0 <= k < len -> T !! p = Some t -> in_frame s t x ->
  x <> dst s T virt k.
Proof.
  intros Hk Hp Hx ->. destruct (dst_alt k Hk) as (Ek & _ & Mk).
  destruct (table_facts s root T p t Hr Ht Hp) as (Mt & _).
  apply (ct_table _ _ _ _ Htgt k p Hk). rewrite Hp. f_equal.
  unfold in_frame, dst in Hx. zlia.
Qed.

(** One chunk: the rest of the page or of the range. *)
Lemma chunk_facts c n :
  0 <= virt -> c < len ->
  n = (if len - c <? 4096 - (virt + c) mod 4096 then len - c else 4096 - (virt + c) mod 4096) ->
  0 < n /\ c + n <= len /\ (virt + c) mod 4096 + n <= 4096 /\
  (c + n < len -> (virt + (c + n)) / 4096 = (virt + c) / 4096 + 1).
Proof.
  intros Hv Hc ->. destruct (Z.ltb_spec (len - c) (4096 - (virt + c) mod 4096)); split_and!; zlia.
Qed.

Lemma dst_virt c : 0 <= c < len ->
  u64 (virt + c) = virt + c /\ (translate s T (virt + c) =? 0) = false /\
  u64 (translate s T (virt + c) + hhdm_offset (s_boot s)) = dst s T virt c /\ dst s T virt c <> 0.
Proof.
  intros Hc. destruct (dst_alt c Hc) as (E & Hlt & Hm). destruct (pa_boot _ Hr) as [B1 B2 B3].
  pose proof (ct_low _ _ _ _ Htgt). pose proof (ct_high _ _ _ _ Htgt).
  split_and!; [rewrite u64_small; lia|apply Z.eqb_neq; zlia| |unfold dst; zlia].
  unfold dst. rewrite u64_small; zlia.
Qed.

Variable f : Z -> Z.

Lemma filled_step c n m m' :
  filled s T virt f c m -> 0 <= c -> 0 <= n -> c + n <= len -> (virt + c) mod 4096 + n <= 4096 ->
  (forall x, rd m' x = if (dst s T virt c <=? x) && (x <? dst s T virt c + n)
                       then f (c + (x - dst s T virt c)) else rd m x) ->
  filled s T virt f (c + n) m'.
Proof.
  intros [F1 F2] Hc Hn Hl Hp Hm'. split.
  - intros k Hk. rewrite Hm'. destruct (decide (k < c)).
    + assert (~ (dst s T virt c <= dst s T virt k < dst s T virt c + n)) as Hno.
      { intros Hin. set (j := dst s T virt k - dst s T virt c) in *.
        assert (dst s T virt (c + j) = dst s T virt c + j) as E by (apply dst_page; lia).
        assert (c + j = k) by (apply dst_inj; lia). lia. }
      destruct (Z.leb_spec (dst s T virt c) (dst s T virt k)),
        (Z.ltb_spec (dst s T virt k) (dst s T virt c + n)); cbn [andb]; try lia; apply F1; lia.
    + assert (dst s T virt k = dst s T virt c + (k - c)) as E.
      { rewrite <- dst_page by lia. f_equal. lia. }
      rewrite E. destruct (Z.leb_spec (dst s T virt c) (dst s T virt c + (k - c))); [|lia].
      destruct (Z.ltb_spec (dst s T virt c + (k - c)) (dst s T virt c + n)); [|lia].
      cbn [andb]. f_equal. lia.
  - intros x Hx. rewrite Hm'. destruct (Z.leb_spec (dst s T virt c) x); cbn [andb];
      [|apply F2; intros k Hk; apply Hx; lia].
    destruct (Z.ltb_spec x (dst s T virt c + n)); [|apply F2; intros k Hk; apply Hx; lia].
    exfalso. apply (Hx (c + (x - dst s T virt c))); [lia|]. rewrite dst_page by lia. lia.
Qed.

(** A state that differs in filled memory translates as before. *)
Lemma filled_translate c m k :
  filled s T virt f c m -> 0 <= c <= len -> 0 <= k < len ->
  vmm_virt_to_phys pm (virt + k) (set_mem m s) = Ok (translate s T (virt + k)) (set_mem m s).
Proof.
  intros [_ F2] Hc Hk. destruct (tree_mem s root T m Hr Ht) as (R & Tr & L).
  { intros p t x Hp Hx. apply F2. intros j Hj. eapply dst_not_table; [lia|done|done]. }
  rewrite (virt_to_phys_translates _ pm root T) by done.
  unfold translate. by rewrite L.
Qed.

End loop.

Section loops.
Variables (s : kstate) (pm root : Z) (T : gmap (list Z) Z) (virt len : Z).
Hypothesis Hr : pa_ready s.
Hypothesis Ht : tree s root T.
Hypothesis Hb : pagemaps (s_vmm s) !! pm = Some (hhdm_offset (s_boot s) + root).
Hypothesis Htgt : copy_target s T virt len.

Lemma map_zero_loop_fills fuel c m :
  filled s T virt (fun _ => 0) c m -> 0 <= c <= len ->
  (c < len -> (virt + len - 1) / 4096 - (virt + c) / 4096 < Z.of_nat fuel) ->
  wp (map_zero_loop fuel pm virt len c) (set_mem m s)
    (fun _ s' => exists m', s' = set_mem m' s /\ filled s T virt (fun _ => 0) len m') no_panic.
Proof.
  revert c m. induction fuel as [|fuel IH]; intros c m F Hc Hfuel; cbn [map_zero_loop];
    destruct (Z.ltb_spec c len) as [Hlt|]; cbn [negb].
  2, 4: apply wp_ret; exists m; split; [done|]; by replace len with c by lia.
  { zlia. }
  destruct (dst_virt s T virt len Hr Htgt c ltac:(lia)) as (-> & Hnz & Hd & Hd0).
  eapply wp_bind, wp_ok; [apply (filled_translate s pm root T virt len Hr Ht Hb Htgt _ c _ _ F); lia|].
  rewrite Hnz. apply wp_bind, wp_gets. cbn [set_mem s_boot]. rewrite Hd.
  change (Z.land (virt + c) (4096 - 1)) with (Z.land (virt + c) 4095). rewrite land_page_mask.
  set (n := if _ <? _ then _ else _).
  destruct (chunk_facts virt len c n (ct_low _ _ _ _ Htgt) Hlt eq_refl) as (N1 & N2 & N3 & N4).
  apply wp_bind, wp_memset.
  change (on_mem ?g (set_mem m s)) with (set_mem (g m) s). apply IH.
  - apply (filled_step s T virt len Hr Htgt _ c n m); try done; [lia|lia|].
    intros x. rewrite rd_memset_loop, Z2Nat.id by lia. done.
  - lia.
  - intros Hl. rewrite (N4 Hl). lia.
Qed.

Variable src : Z.
Hypothesis Hsrc : 0 < src /\ src + len <= 2 ^ 64.
Hypothesis Hov : forall k j, 0 <= k < len -> 0 <= j < len -> dst s T virt k <> src + j.

Lemma map_copy_loop_fills fuel c m :
  filled s T virt (fun k => rd (s_mem s) (src + k)) c m -> 0 <= c <= len ->
  (c < len -> (virt + len - 1) / 4096 - (virt + c) / 4096 < Z.of_nat fuel) ->
  wp (map_copy_loop fuel pm virt src len c) (set_mem m s)
    (fun _ s' => exists m', s' = set_mem m' s /\
       filled s T virt (fun k => rd (s_mem s) (src + k)) len m') no_panic.
Proof.
  revert c m. induction fuel as [|fuel IH]; intros c m F Hc Hfuel; cbn [map_copy_loop];
    destruct (Z.ltb_spec c len) as [Hlt|]; cbn [negb].
  2, 4: apply wp_ret; exists m; split; [done|]; by replace len with c by lia.
  { zlia. }
  destruct (dst_virt s T virt len Hr Htgt c ltac:(lia)) as (-> & Hnz & Hd & Hd0).
  eapply wp_bind, wp_ok; [apply (filled_translate s pm root T virt len Hr Ht Hb Htgt _ c _ _ F); lia|].
  rewrite Hnz. apply wp_bind, wp_gets. cbn [set_mem s_boot]. rewrite Hd, (u64_small (src + c)) by lia.
  change (Z.land (virt + c) (4096 - 1)) with (Z.land (virt + c) 4095). rewrite land_page_mask.
  set (n := if _ <? _ then _ else _).
  destruct (chunk_facts virt len c n (ct_low _ _ _ _ Htgt) Hlt eq_refl) as (N1 & N2 & N3 & N4).
  apply wp_bind, wp_memcpy; [done|lia|lia|].
  change (on_mem ?g (set_mem m s)) with (set_mem (g m) s). apply IH.
  - apply (filled_step s T virt len Hr Htgt _ c n m); try done; [lia|lia|].
    intros x. rewrite rd_copy_fwd; [rewrite Z2Nat.id by lia|].
    + destruct (Z.leb_spec (dst s T virt c) x), (Z.ltb_spec x (dst s T virt c + n)); cbn [andb]; try done.
      rewrite (fi_out _ _ _ _ _ _ F); [f_equal; lia|]. intros k Hk E.
      apply (Hov k (c + (x - dst s T virt c))); lia.
    + rewrite Z2Nat.id by lia. destruct (decide (dst s T virt c <= src + c)); [by left|right].
      destruct (decide (src + c + n <= dst s T virt c)); [done|]. exfalso.
      apply (Hov c (dst s T virt c - src)); lia.
  - lia.
  - intros Hl. rewrite (N4 Hl). lia.
Qed.
End loops.

Lemma filled_zero s T virt f : filled s T virt f 0 (s_mem s).
Proof. split; [intros; lia|done]. Qed.

(** Filled memory keeps the pagemap. *)
Lemma filled_ready s pm root T virt len f m :
  vmm_ready s pm root T -> copy_target s T virt len -> filled s T virt f len m ->
  vmm_ready (set_mem m s) pm root T /\ forall v, translate (set_mem m s) T v = translate s T v.
Proof.
  intros [Rp Rl Rb Rt] Htgt [_ F2]. destruct (tree_mem s root T m Rp Rt) as (R & Tr & L).
  { intros p t x Hp Hx. apply F2. intros j Hj. by eapply dst_not_table. }
  split; [split; done|]. intros v. unfold translate. by rewrite L.
Qed.

Lemma fuel_enough virt len : 0 <= virt -> 0 <= len ->
  0 < len -> (virt + len - 1) / 4096 - (virt + 0) / 4096 < Z.of_nat (Z.to_nat (len / 4096 + 2)).
Proof. intros. zlia. Qed.

(** Both functions run their loop under [vmm_lock]. *)
Lemma map_locked s pm root T virt len f (body : M unit) :
  vmm_ready s pm root T -> copy_target s T virt len ->
  (forall s0, s0 = on_locks (set_latch vmm_lock true) s ->
     pa_ready s0 -> tree s0 root T -> copy_target s0 T virt len ->
     wp body (set_mem (s_mem s) s0) (fun _ s' => exists m', s' = set_mem m' s0 /\
       filled s0 T virt f len m') no_panic) ->
  wp (spin_lock vmm_lock;;; body;;; spin_unlock vmm_lock) s
    (fun _ s' => exists m', s' = set_mem m' s /\ filled s T virt f len m' /\
       vmm_ready s' pm root T /\ forall v, translate s' T v = translate s T v) no_panic.
Proof.
  intros R Htgt Hbody. pose proof R as [Rp Rl Rb Rt].
  destruct (relatch s true root T Rp Rt) as (Q1 & Q2 & Q3).
  apply wp_bind, wp_spin_lock; [done|]. set (s0 := on_locks _ s) in *.
  assert (copy_target s0 T virt len) as Htgt0.
  { destruct Htgt as [T1 T2 T3 T4 T5 T6 T7]. split; try done. intros k Hk. by apply Q3, T5. }
  eapply wp_call.
  { replace s0 with (set_mem (s_mem s) s0) at 1 by done. by apply (Hbody s0). }
  intros [] s' (m' & -> & F). apply wp_spin_unlock. exists m'.
  assert (on_locks (set_latch vmm_lock false) (set_mem m' s0) = set_mem m' s) as ->.
  { apply kstate_ext; try done. cbn [s0 on_locks set_locks set_mem s_locks]. by apply set_latch_relock. }
  assert (filled s T virt f len m') as F' by (destruct F; by split).
  destruct (filled_ready s pm root T virt len f m' R Htgt F'). by split_and!.
Qed.

(** [vmm_map_copy] and [vmm_map_zero] as callers use them. *)
Lemma map_copy_fills (s : kstate) (pm root : Z) (T : gmap (list Z) Z) (virt src len : Z) :
  vmm_ready s pm root T -> copy_target s T virt len -> 0 < src -> src + len <= 2 ^ 64 ->
  (forall k j, 0 <= k < len -> 0 <= j < len -> dst s T virt k <> src + j) ->
  wp (vmm_map_copy pm virt src len) s
    (fun _ s' => exists m', s' = set_mem m' s /\
       (forall k, 0 <= k < len -> rd m' (dst s T virt k) = rd (s_mem s) (src + k)) /\
       (forall x, (forall k, 0 <= k < len -> x <> dst s T virt k) -> rd m' x = rd (s_mem s) x) /\
       vmm_ready s' pm root T /\ forall v, translate s' T v = translate s T v) no_panic.
Proof.
  intros R Htgt Hs1 Hs2 Hov. pose proof (ct_len _ _ _ _ Htgt). pose proof (ct_low _ _ _ _ Htgt).
  eapply wp_mono; [apply (map_locked s pm root T virt len (fun k => rd (s_mem s) (src + k))); try done| |done].
  - intros s0 -> Q1 Q2 Q3. apply (map_copy_loop_fills _ pm root T virt len Q1 Q2); try done.
    + apply R.
    + apply (filled_zero (on_locks (set_latch vmm_lock true) s)).
    + intros. by apply fuel_enough.
  - intros [] s' (m' & -> & [F1 F2] & Hrest). eauto 10.
Qed.

Lemma map_zero_fills (s : kstate) (pm root : Z) (T : gmap (list Z) Z) (virt len : Z) :
  vmm_ready s pm root T -> copy_target s T virt len ->
  wp (vmm_map_zero pm virt len) s
    (fun _ s' => exists m', s' = set_mem m' s /\
       (forall k, 0 <= k < len -> rd m' (dst s T virt k) = 0) /\
       (forall x, (forall k, 0 <= k < len -> x <> dst s T virt k) -> rd m' x = rd (s_mem s) x) /\
       vmm_ready s' pm root T /\ forall v, translate s' T v = translate s T v) no_panic.
Proof.
  intros R Htgt. pose proof (ct_len _ _ _ _ Htgt). pose proof (ct_low _ _ _ _ Htgt).
  eapply wp_mono; [apply (map_locked s pm root T virt len (fun _ => 0)); try done| |done].
  - intros s0 -> Q1 Q2 Q3. apply (map_zero_loop_fills _ pm root T virt len Q1 Q2); try done.
    + apply R.
    + apply (filled_zero (on_locks (set_latch vmm_lock true) s)).
    + intros. by apply fuel_enough.
  - intros [] s' (m' & -> & [F1 F2] & Hrest). eauto 10.
Qed.

(** C27: copying into a mapped range ends, without a panic, with exactly the
    bytes of the range equal to the source, whatever the alignment of the
    range; nothing else changes and the pagemap still translates as before. *)
Theorem vmm_map_copy_spec (s : kstate) (pm root : Z) (T : gmap (list Z) Z) (virt src len : Z) :
  vmm_ready s pm root T -> copy_target s T virt len -> 0 < src -> src + len <= 2 ^ 64 ->
  (forall k j, 0 <= k < len -> 0 <= j < len -> dst s T virt k <> src + j) ->
  wp (vmm_map_copy pm virt src len) s
    (fun _ s' => exists m', s' = set_mem m' s /\
       (forall k, 0 <= k < len -> rd m' (dst s T virt k) = rd (s_mem s) (src + k)) /\
       (forall x, (forall k, 0 <= k < len -> x <> dst s T virt k) -> rd m' x = rd (s_mem s) x) /\
       vmm_ready s' pm root T /\ forall v, translate s' T v = translate s T v) no_panic.
Proof. apply map_copy_fills. Qed.

(** Clearing a mapped range ends, without a panic, with exactly the bytes of
    the range zero; nothing else changes. *)
Theorem vmm_map_zero_spec (s : kstate) (pm root : Z) (T : gmap (list Z) Z) (virt len : Z) :
  vmm_ready s pm root T -> copy_target s T virt len ->
  wp (vmm_map_zero pm virt len) s
    (fun _ s' => exists m', s' = set_mem m' s /\
       (forall k, 0 <= k < len -> rd m' (dst s T virt k) = 0) /\
       (forall x, (forall k, 0 <= k < len -> x <> dst s T virt k) -> rd m' x = rd (s_mem s) x) /\
       vmm_ready s' pm root T /\ forall v, translate s' T v = translate s T v) no_panic.
Proof. apply map_zero_fills. Qed.
End vmm_copy.

(** ** A concrete range *)

Lemma demo_target : copy_target demo_vmm demo_tree 0x400010 8.
Proof.
  assert (forall k, 0 <= k < 8 -> leaf_entry demo_vmm demo_tree (0x400010 + k) = 0x5003) as Hl.
  { intros k Hk. rewrite demo_leaf. unfold vpn.
    by replace ((0x400010 + k) / 4096) with 0x400 by zlia. }
  split; try lia.
  - intros k Hk. by rewrite Hl.
  - intros k Hk. rewrite Hl by done. apply demo_used. set_solver.
  - intros j k Hj Hk _. apply vpn_small; zlia.
  - intros k p Hk. rewrite Hl by done. intros E%demo_tree_lookup.
    destruct E as [[_ E]|[[_ E]|[[_ E]|[_ E]]]]; by vm_compute in E.
Qed.

Lemma demo_dst k : 0 <= k < 8 -> dst demo_vmm demo_tree 0x400010 k = 0xFFFF800000005010 + k.
Proof.
  intros Hk. unfold dst. rewrite (proj1 (dst_alt _ _ _ _ (vr_pmm _ _ _ _ (demo_vmm_ready _)) demo_target k Hk)).
  rewrite demo_leaf. unfold vpn. replace ((0x400010 + k) / 4096) with 0x400 by zlia.
  change (if _ =? _ then _ else _) with 0x5003.
  change (hhdm_offset (s_boot demo_vmm)) with 0xFFFF800000000000.
  change (PTE_GET_ADDR 0x5003) with 0x5000. zlia.
Qed.

Lemma vmm_map_copy_spec_witness :
  wp (vmm_map_copy 0x5000 0x400010 0x7000 8) demo_vmm
    (fun _ s' => forall k, 0 <= k < 8 ->
       rd (s_mem s') (0xFFFF800000005010 + k) = rd (s_mem demo_vmm) (0x7000 + k)) no_panic.
Proof.
  eapply wp_mono.
  - apply (vmm_map_copy_spec demo_vmm 0x5000 0x1000 demo_tree 0x400010 0x7000 8 (demo_vmm_ready _) demo_target);
      [lia|lia|]. intros k j Hk Hj. rewrite demo_dst by done. lia.
  - intros [] s' (m' & -> & Hin & _) k Hk. rewrite <- demo_dst by done. by apply Hin.
  - done.
Defined.

Lemma vmm_map_zero_spec_witness :
  wp (vmm_map_zero 0x5000 0x400010 8) demo_vmm
    (fun _ s' => forall k, 0 <= k < 8 -> rd (s_mem s') (0xFFFF800000005010 + k) = 0) no_panic.
Proof.
  eapply wp_mono.
  - apply (vmm_map_zero_spec demo_vmm 0x5000 0x1000 demo_tree 0x400010 8 (demo_vmm_ready _) demo_target).
  - intros [] s' (m' & -> & Hin & _) k Hk. rewrite <- demo_dst by done. by apply Hin.
  - done.
Defined.
