(* ===== verification/Heap.v ===== *)
(** * The kernel heap (kernel/system/heap.c): the functions

    A first-fit allocator over an address-ordered free list whose nodes
    ([heap_block_t]: size, then next) are stored in the free blocks; an
    allocated block keeps its size in its first word.  The heap grows by
    mapping fresh frames at its end.  [malloc] and [free] of
    kernel/libc/stdlib/ are [kmalloc] and [kfree]. *)

From S2P Require Import Prelude Memory State Cpu Libc Pmm Vmm.

(** ** Definitions *)

Abbreviation KERNEL_HEAP_START := 0xFFFF810000000000 (only parsing).
Abbreviation KERNEL_INITIAL_PAGES := 256 (only parsing).
Abbreviation MIN_ALLOC_SIZE := 16 (only parsing).
Abbreviation HEAP_ALIGNMENT := 16 (only parsing).

Definition ALIGN_UP_HEAP (size : Z) : Z :=
  Z.land (u64 (size + HEAP_ALIGNMENT - 1)) (Z.lnot (HEAP_ALIGNMENT - 1)).

(** [block->size] and [block->next]. *)
Definition get_size (block : Z) : M Z := read64 block.
Definition get_next (block : Z) : M Z := read64 (block + 8).
Definition set_size (block v : Z) : M unit := write64 block v.
Definition set_next (block v : Z) : M unit := write64 (block + 8) v.

Definition get_head : M Z := gets (fun s => heap_head (s_heap s)).
Definition set_head (v : Z) : M unit := modify (on_heap (set_heap_head v)).

(** A walk over the free list visits at most one block per 16 bytes of heap;
    a longer one has met a block twice and does not end. *)
Definition walk_fuel : M nat := gets (fun s => Z.to_nat (heap_size (s_heap s) / MIN_ALLOC_SIZE + 2)).

(** [while (curr && (uintptr_t)curr < base) { prev = curr; curr = curr->next; }];
    the result is [prev]. *)
Fixpoint find_place (fuel : nat) (base prev curr : Z) : M Z :=
  if negb (negb (curr =? 0) && (curr <? base)) then ret prev else
  match fuel with
  | O => diverge
  | S fuel => next <- get_next curr;; find_place fuel base curr next
  end.

(** Linking a block after [prev], or at the head when [prev] is null. *)
Definition link_block (prev block : Z) : M unit :=
  if prev =? 0 then
    head <- get_head;;
    set_next block head;;;
    set_head block
  else
    next <- get_next prev;;
    set_next block next;;;
    set_next prev block.

(** Merging a linked block with its neighbours. *)
Definition merge_block (prev block : Z) : M unit :=
  next <- get_next block;;
  size <- get_size block;;
  when (negb (next =? 0) && (u64 (block + size) =? next)) (
    next_size <- get_size next;;
    set_size block (u64 (size + next_size));;;
    next_next <- get_next next;;
    set_next block next_next);;;
  if prev =? 0 then ret tt else
  prev_size <- get_size prev;;
  when (u64 (prev + prev_size) =? block) (
    size <- get_size block;;
    set_size prev (u64 (prev_size + size));;;
    next <- get_next block;;
    set_next prev next).

(** One page of [heap_expand_pages]. *)
Definition expand_page (base i : Z) : M unit :=
  phys <- pmm_allocate;;
  if phys =? 0 then panic "heap: failed to allocate page for heap expansion" else
  let virt := u64 (base + i * PAGE_SIZE) in
  kp <- gets (fun s => kernel_pagemap (s_vmm s));;
  ok <- vmm_map_page kp virt phys (Z.lor PTE_PRESENT (Z.lor PTE_WRITABLE PTE_NX));;
  if negb ok then panic "heap: vmm_map_page failed during heap expansion" else ret tt.

(** The new region of [heap_expand_pages] enters the free list. *)
Definition add_region (base new_region_size : Z) : M unit :=
  set_size base new_region_size;;;
  set_next base 0;;;
  head <- get_head;;
  if head =? 0 then set_head base else
  fuel <- walk_fuel;;
  prev <- find_place fuel base 0 head;;
  link_block prev base;;;
  merge_block prev base.

Definition heap_expand_pages (pages : Z) : M Z :=
  if pages =? 0 then ret 0 else
  h <- gets s_heap;;
  let base := u64 (heap_start h + heap_size h) in
  let new_region_size := u64 (pages * PAGE_SIZE) in
  ASSERT (Z.land (heap_start h) (PAGE_SIZE - 1) =? 0);;;
  ASSERT (Z.land (heap_size h) (PAGE_SIZE - 1) =? 0);;;
  for_loop (Z.to_nat pages) 0 (expand_page base);;;
  add_region base new_region_size;;;
  modify (on_heap (fun h => set_heap_size (u64 (heap_size h + new_region_size)) h));;;
  ret 1.

Definition heap_install : M unit :=
  h <- gets s_heap;;
  if negb (heap_start h =? 0) then panic "heap_install called multiple times" else
  modify (on_heap (fun h => set_heap_size 0 (set_heap_start KERNEL_HEAP_START h)));;;
  ok <- heap_expand_pages KERNEL_INITIAL_PAGES;;
  if ok =? 0 then panic "heap: failed to allocate the initial kernel heap" else ret tt.

(** The [while (curr)] loop of [kmalloc] up to the first block that fits. *)
Fixpoint find_fit (fuel : nat) (total_sz prev curr : Z) : M (option (Z * Z)) :=
  if curr =? 0 then ret None else
  match fuel with
  | O => diverge
  | S fuel =>
    size <- get_size curr;;
    if total_sz <=? size then ret (Some (prev, curr)) else
    next <- get_next curr;;
    find_fit fuel total_sz curr next
  end.

(** Replacing [curr] in the list by [block]. *)
Definition relink (prev block : Z) : M unit :=
  if prev =? 0 then set_head block else set_next prev block.

(** The body of the loop of [kmalloc] for the block that fits. *)
Definition take_block (total_sz prev curr : Z) : M Z :=
  size <- get_size curr;;
  (if u64 (total_sz + MIN_ALLOC_SIZE) <=? size then
     let new_block := u64 (curr + total_sz) in
     set_size new_block (size - total_sz);;;
     next <- get_next curr;;
     set_next new_block next;;;
     set_size curr total_sz;;;
     relink prev new_block
   else
     next <- get_next curr;;
     relink prev next);;;
  size <- get_size curr;;
  set_size curr size;;;
  spin_unlock heap_lock;;;
  ret (u64 (curr + ALIGN_UP_HEAP 8)).

(** The [try_again] loop; every round that fails makes the heap at least one
    page larger. *)
Fixpoint kmalloc_try (attempts : nat) (total_sz curr : Z) : M Z :=
  match attempts with
  | O => diverge
  | S attempts =>
    fuel <- walk_fuel;;
    r <- find_fit fuel total_sz 0 curr;;
    match r with
    | Some (prev, curr) => take_block total_sz prev curr
    | None =>
      ok <- heap_expand_pages 16;;
      (if negb (ok =? 0) then ret tt else
       ok <- heap_expand_pages 1;;
       if negb (ok =? 0) then ret tt else
       spin_unlock heap_lock;;; panic "out of memory");;;
      head <- get_head;;
      kmalloc_try attempts total_sz head
    end
  end.

Definition kmalloc (sz : Z) : M Z :=
  if sz =? 0 then ret 0 else
  let payload := ALIGN_UP_HEAP sz in
  let header_sz := ALIGN_UP_HEAP 8 in
  let total_sz := u64 (payload + header_sz) in
  let total_sz := if total_sz <? MIN_ALLOC_SIZE then MIN_ALLOC_SIZE else total_sz in
  curr <- get_head;;
  spin_lock heap_lock;;;
  kmalloc_try (Z.to_nat (total_sz / PAGE_SIZE + 2)) total_sz curr.

(** The result and the physical address stored through [phys], when that is not null. *)
Definition kmalloc_phys (sz : Z) (want_phys : bool) : M (Z * option Z) :=
  if sz =? 0 then ret (0, None) else
  virt_addr <- kmalloc sz;;
  ASSERT (negb (virt_addr =? 0));;;
  if want_phys then
    kp <- gets (fun s => kernel_pagemap (s_vmm s));;
    virt_to_phys <- vmm_virt_to_phys kp virt_addr;;
    ASSERT (negb (virt_to_phys =? 0));;;
    ret (virt_addr, Some virt_to_phys)
  else ret (virt_addr, None).

Definition kfree (ptr : Z) : M unit :=
  if ptr =? 0 then ret tt else
  let header_sz := ALIGN_UP_HEAP 8 in
  let block_start := u64 (ptr - header_sz) in
  block_size <- get_size block_start;;
  h <- gets s_heap;;
  if (block_start <? heap_start h) || (u64 (heap_start h + heap_size h) <=? block_start)
  then panic "pointer out of bound!" else
  if block_size <? MIN_ALLOC_SIZE then panic "invalid block size!" else
  if negb (Z.land block_start (HEAP_ALIGNMENT - 1) =? 0) then panic "alignment error!" else
  spin_lock heap_lock;;;
  head <- get_head;;
  fuel <- walk_fuel;;
  prev <- find_place fuel block_start 0 head;;
  set_size block_start block_size;;;
  link_block prev block_start;;;
  merge_block prev block_start;;;
  spin_unlock heap_lock.

Definition malloc (size : Z) : M Z := kmalloc size.
Definition free (ptr : Z) : M unit := kfree ptr.
