(* ===== verification/HeapTiles.v ===== *)
(** * The heap as a row of tiles (proofs about kernel/system/heap.c)

    The abstract view of the heap is the list of all its blocks in address
    order, free and allocated; they tile the heap without gaps and no two
    free ones are neighbours.  [place], [release] and [extend] are what
    allocating, freeing and growing mean on that list; the second half of the
    file ties the list to the block headers in memory. *)

From S2P Require Import Prelude Memory State Cpu Libc Pmm Vmm Heap.

(** ** Definitions *)

Record tile : Type := Tile {
  b_addr : Z;
  b_size : Z;
  b_free : bool
}.

(** The tiles cover [a, e) in order. *)
Fixpoint tiling (a e : Z) (bl : list tile) : Prop :=
  match bl with
  | [] => a = e
  | b :: bl => b_addr b = a /\ 16 <= b_size b /\ b_size b mod 16 = 0 /\ tiling (a + b_size b) e bl
  end.

(** No two neighbours are free. *)
Fixpoint coalesced (bl : list tile) : Prop :=
  match bl with
  | b :: (c :: _) as bl' => ~ (b_free b = true /\ b_free c = true) /\ coalesced bl'
  | _ => True
  end.

(** The free list. *)
Fixpoint faddrs (bl : list tile) : list Z :=
  match bl with
  | [] => []
  | b :: bl => if b_free b then b_addr b :: faddrs bl else faddrs bl
  end.

(** Allocation of [total] bytes from the tile [b]. *)
Definition place (total : Z) (b : tile) : list tile :=
  if total + 16 <=? b_size b then
    [Tile (b_addr b) total false; Tile (b_addr b + total) (b_size b - total) true]
  else [Tile (b_addr b) (b_size b) false].

(** A free tile in front of [post], merged with the first of them if free. *)
Definition merge_right (a n : Z) (post : list tile) : list tile :=
  match post with
  | c :: post' => if b_free c then Tile a (n + b_size c) true :: post' else Tile a n true :: post
  | [] => [Tile a n true]
  end.

(** The same with the last tile of [pre]. *)
Fixpoint release (pre : list tile) (a n : Z) (post : list tile) : list tile :=
  match pre with
  | [] => merge_right a n post
  | [p] => if b_free p then merge_right (b_addr p) (b_size p + n) post
           else p :: merge_right a n post
  | p :: pre => p :: release pre a n post
  end.

(** Growth by a free tile at the end. *)
Definition extend (bl : list tile) (e n : Z) : list tile := release bl e n [].

(** [x] is a byte of a free tile. *)
Definition in_free (bl : list tile) (x : Z) : Prop :=
  exists b, b ∈ bl /\ b_free b = true /\ b_addr b <= x < b_addr b + b_size b.

(** [x] is a byte of an allocated tile. *)
Definition in_alloc (bl : list tile) (x : Z) : Prop :=
  exists b, b ∈ bl /\ b_free b = false /\ b_addr b <= x < b_addr b + b_size b.

(** The allocated tiles. *)
Fixpoint allocs (bl : list tile) : list tile :=
  match bl with
  | [] => []
  | b :: bl => if b_free b then allocs bl else b :: allocs bl
  end.

(** The free bytes at the very end of the row. *)
Definition last_free (bl : list tile) : Z :=
  match last bl with
  | Some b => if b_free b then b_size b else 0
  | None => 0
  end.

(** The singly linked list from [p] to [q] through the nodes [l]. *)
Fixpoint lseg (m : mem) (p : Z) (l : list Z) (q : Z) : Prop :=
  match l with
  | [] => p = q
  | a :: l => p = a /\ lseg m (load64 m (a + 8)) l q
  end.

(** Memory holds the headers of the tiles, and the free list from [head]. *)
Record heap_mem (m : mem) (head : Z) (bl : list tile) : Prop := {
  hm_size : forall b, b ∈ bl -> load64 m (b_addr b) = b_size b;
  hm_list : lseg m head (faddrs bl) 0
}.

(** The last node of [l], or [d]. *)
Definition last_or (d : Z) (l : list Z) : Z := default d (last l).

(** ** Lemmas: tiles *)

Lemma tiling_app a e bl1 bl2 :
  tiling a e (bl1 ++ bl2) <-> exists c, tiling a c bl1 /\ tiling c e bl2.
Proof.
  revert a. induction bl1 as [|b bl1 IH]; intros a; cbn [app tiling].
  - split; [intros H; exists a; done|by intros (c & -> & H)].
  - rewrite IH. naive_solver.
Qed.

Lemma tiling_le a e bl : tiling a e bl -> a <= e.
Proof.
  revert a. induction bl as [|b bl IH]; intros a; cbn [tiling]; [lia|].
  intros (_ & ? & _ & H%IH). lia.
Qed.

Lemma tiling_mod a e bl : tiling a e bl -> e mod 16 = a mod 16.
Proof.
  revert a. induction bl as [|b bl IH]; intros a; cbn [tiling]; [by intros ->|].
  intros (_ & ? & ? & H%IH). zlia.
Qed.

Lemma tiling_in a e bl b : tiling a e bl -> a mod 16 = 0 -> b ∈ bl ->
  a <= b_addr b /\ b_addr b + b_size b <= e /\ b_addr b mod 16 = 0 /\ 16 <= b_size b /\
  b_size b mod 16 = 0.
Proof.
  revert a. induction bl as [|c bl IH]; intros a; cbn [tiling].
  - by intros _ _ ?%elem_of_nil.
  - intros (<- & ? & ? & H) Ha [->|Hin]%elem_of_cons.
    + apply tiling_le in H. split_and!; lia || done.
    + destruct (IH _ H) as (? & ? & ?); [zlia|done|]. split_and!; lia || tauto.
Qed.

(** The number of tiles is bounded by the bytes they cover. *)
Lemma tiling_length a e bl : tiling a e bl -> 16 * Z.of_nat (length bl) <= e - a.
Proof.
  revert a. induction bl as [|b bl IH]; intros a; cbn [tiling length]; [lia|].
  intros (_ & ? & _ & H%IH). lia.
Qed.

Lemma faddrs_app bl1 bl2 : faddrs (bl1 ++ bl2) = faddrs bl1 ++ faddrs bl2.
Proof.
  induction bl1 as [|b bl1 IH]; cbn [app faddrs]; [done|]. destruct (b_free b); by rewrite IH.
Qed.

Lemma faddrs_length bl : (length (faddrs bl) <= length bl)%nat.
Proof. induction bl as [|b bl IH]; cbn [faddrs length]; [lia|]. destruct (b_free b); simpl; lia. Qed.

Lemma elem_of_faddrs bl a : a ∈ faddrs bl <-> exists b, b ∈ bl /\ b_free b = true /\ b_addr b = a.
Proof.
  induction bl as [|b bl IH]; cbn [faddrs].
  - split; [by intros ?%elem_of_nil|by intros (b & ?%elem_of_nil & _)].
  - destruct (b_free b) eqn:E; rewrite ?elem_of_cons, IH; split.
    + intros [->|(c & ? & ? & ?)]; [exists b|exists c]; rewrite elem_of_cons; tauto.
    + intros (c & [->|Hc]%elem_of_cons & ? & <-); [by left|right; eauto].
    + intros (c & ? & ? & ?). exists c. rewrite elem_of_cons. tauto.
    + intros (c & [->|Hc]%elem_of_cons & ? & <-); [congruence|eauto].
Qed.

Lemma coalesced_app bl1 bl2 :
  coalesced (bl1 ++ bl2) <->
  coalesced bl1 /\ coalesced bl2 /\
  forall b c, last bl1 = Some b -> head bl2 = Some c -> ~ (b_free b = true /\ b_free c = true).
Proof.
  induction bl1 as [|b bl1 IH].
  - cbn. naive_solver.
  - destruct bl1 as [|b' bl1].
    + destruct bl2 as [|c bl2]; cbn; naive_solver.
    + change ((b :: b' :: bl1) ++ bl2) with (b :: b' :: (bl1 ++ bl2)).
      change (coalesced (b :: b' :: (bl1 ++ bl2))) with
        (~ (b_free b = true /\ b_free b' = true) /\ coalesced ((b' :: bl1) ++ bl2)).
      rewrite IH. cbn [last coalesced]. tauto.
Qed.

Lemma release_last pre p a n post :
  release (pre ++ [p]) a n post =
  pre ++ if b_free p then merge_right (b_addr p) (b_size p + n) post else p :: merge_right a n post.
Proof.
  induction pre as [|q pre IH]; [done|].
  destruct pre as [|q' pre]; cbn in *; [done|]. by rewrite IH.
Qed.

(** Releasing a tile is merging to the right after a choice on the left. *)
Lemma release_cases pre a n post :
  (exists pre' p, pre = pre' ++ [p] /\ b_free p = true /\
     release pre a n post = pre' ++ merge_right (b_addr p) (b_size p + n) post) \/
  ((forall p, last pre = Some p -> b_free p = false) /\
     release pre a n post = pre ++ merge_right a n post).
Proof.
  destruct pre as [|p pre _] using rev_ind; [by right|].
  rewrite release_last. destruct (b_free p) eqn:E; [left; eauto|right]. split.
  - intros q. rewrite last_snoc. by intros [= <-].
  - by rewrite <- app_assoc.
Qed.

Lemma merge_right_tiling a n e post :
  tiling (a + n) e post -> 16 <= n -> n mod 16 = 0 -> tiling a e (merge_right a n post).
Proof.
  intros H Hn Hm. destruct post as [|c post]; cbn in *; [by subst|].
  destruct H as (E & ? & ? & H). destruct (b_free c); cbn.
  - split_and!; [done|lia|zlia|]. by rewrite Z.add_assoc.
  - by split_and!.
Qed.

Lemma release_tiling h e pre a n post :
  tiling h a pre -> tiling (a + n) e post -> 16 <= n -> n mod 16 = 0 ->
  tiling h e (release pre a n post).
Proof.
  intros H1 H2 Hn Hm. destruct (release_cases pre a n post) as [(pre' & p & -> & Hp & ->)|[_ ->]].
  - apply tiling_app in H1 as (c & H1 & E & ? & ? & Ha). cbn in Ha. subst.
    apply tiling_app. exists (b_addr p). split; [done|].
    apply merge_right_tiling; [|lia|zlia]. by rewrite Z.add_assoc.
  - apply tiling_app. exists a. split; [done|]. by apply merge_right_tiling.
Qed.

Lemma merge_right_coalesced a n post : coalesced post -> coalesced (merge_right a n post).
Proof.
  destruct post as [|c post]; cbn [merge_right]; [done|].
  destruct (b_free c) eqn:E; destruct post as [|d post]; cbn; rewrite ?E; try tauto.
  - naive_solver.
  - naive_solver.
Qed.

Lemma merge_right_head a n post : exists n' post', merge_right a n post = Tile a n' true :: post'.
Proof. destruct post as [|c post]; cbn; [eauto|]. destruct (b_free c); eauto. Qed.

Lemma release_coalesced pre a n post :
  coalesced pre -> coalesced post -> coalesced (release pre a n post).
Proof.
  intros H1 H2. destruct (release_cases pre a n post) as [(pre' & p & -> & Hp & ->)|[Hl ->]].
  - apply coalesced_app in H1 as (H1 & _ & H). apply coalesced_app. split_and!; [done| |].
    + by apply merge_right_coalesced.
    + intros b c Hb Hc [Hb' _]. apply (H b p Hb); [done|by split].
  - apply coalesced_app. split_and!; [done|by apply merge_right_coalesced|].
    intros b c Hb _ [Hb' _]. rewrite (Hl b Hb) in Hb'. done.
Qed.

Lemma place_tiling h e pre b post total :
  tiling h e (pre ++ b :: post) -> 16 <= total -> total mod 16 = 0 ->
  tiling h e (pre ++ place total b ++ post).
Proof.
  rewrite !tiling_app. intros (c & H1 & E & ? & ? & H2) Ht Hm. exists c. split; [done|].
  unfold place. destruct (Z.leb_spec (total + 16) (b_size b)); cbn.
  - split_and!; try done; try lia; [zlia|]. by replace (c + total + (b_size b - total)) with (c + b_size b) by lia.
  - by split_and!.
Qed.

Lemma place_coalesced pre b post total :
  coalesced (pre ++ b :: post) -> b_free b = true -> coalesced (pre ++ place total b ++ post).
Proof.
  intros H Hb. apply coalesced_app in H as (H1 & H2 & H3).
  assert (coalesced post /\ forall c, head post = Some c -> b_free c = false) as [Hp Hh].
  { destruct post as [|c post]; [done|]. destruct H2 as [Hn H2]. split; [done|].
    intros d [= <-]. destruct (b_free c); [exfalso; auto|done]. }
  assert (coalesced (place total b ++ post) /\
    exists c, head (place total b ++ post) = Some c /\ b_free c = false) as (H4 & c & Hc & Hcf).
  { unfold place. destruct (total + 16 <=? b_size b); destruct post as [|d post]; cbn;
      (split; [|by eexists]); try (specialize (Hh d eq_refl)); cbn in *; naive_solver. }
  apply coalesced_app. split_and!; [done|done|].
  intros x y Hx Hy [_ Hy']. congruence.
Qed.

(** What is free after a release. *)
Lemma release_faddrs pre a n post :
  faddrs (release pre a n post) =
  (match last pre with
   | Some p => if b_free p then faddrs pre else faddrs pre ++ [a]
   | None => [a]
   end) ++
  (match post with
   | c :: post' => if b_free c then faddrs post' else faddrs post
   | [] => []
   end).
Proof.
  assert (forall a n, faddrs (merge_right a n post) = a :: match post with
    | c :: post' => if b_free c then faddrs post' else faddrs post | [] => [] end) as Hm.
  { intros a' n'. destruct post as [|c post]; cbn; [done|]. destruct (b_free c) eqn:E; cbn; by rewrite ?E. }
  destruct (release_cases pre a n post) as [(pre' & p & -> & Hp & ->)|[Hl ->]].
  - rewrite last_snoc, Hp, !faddrs_app, Hm. cbn. by rewrite Hp, <- app_assoc.
  - rewrite faddrs_app, Hm. destruct (last pre) as [p|] eqn:E.
    + by rewrite (Hl p eq_refl), <- app_assoc.
    + by apply last_None in E as ->.
Qed.

Lemma allocs_app bl1 bl2 : allocs (bl1 ++ bl2) = allocs bl1 ++ allocs bl2.
Proof.
  induction bl1 as [|b bl1 IH]; cbn [app allocs]; [done|]. destruct (b_free b); by rewrite IH.
Qed.

Lemma elem_of_allocs bl b : b ∈ allocs bl <-> b ∈ bl /\ b_free b = false.
Proof.
  induction bl as [|c bl IH]; cbn [allocs].
  - split; [by intros ?%elem_of_nil|by intros [?%elem_of_nil _]].
  - destruct (b_free c) eqn:E; rewrite ?elem_of_cons, IH; split.
    + tauto.
    + intros [[->|Hb] Hf]; [congruence|tauto].
    + intros [->|[Hb Hf]]; tauto.
    + tauto.
Qed.

Lemma in_alloc_allocs bl bl' x : (forall b, b ∈ allocs bl -> b ∈ allocs bl') -> in_alloc bl x -> in_alloc bl' x.
Proof.
  intros H (b & Hb & Hf & Hx). exists b. destruct (proj1 (elem_of_allocs bl' b)) as [? ?].
  - by apply H, elem_of_allocs.
  - split_and!; [done|done|lia|lia].
Qed.

Lemma merge_right_allocs a n post : allocs (merge_right a n post) = allocs post.
Proof.
  destruct post as [|c post]; cbn [merge_right allocs]; [done|].
  destruct (b_free c) eqn:E; cbn [allocs b_free]; by rewrite ?E.
Qed.

Lemma release_allocs pre a n post : allocs (release pre a n post) = allocs pre ++ allocs post.
Proof.
  destruct (release_cases pre a n post) as [(pre' & p & -> & Hp & ->)|[_ ->]];
    rewrite !allocs_app, merge_right_allocs; [|done].
  cbn [allocs]. by rewrite Hp, app_nil_r.
Qed.

Lemma extend_allocs bl e n : allocs (extend bl e n) = allocs bl.
Proof. unfold extend. rewrite release_allocs. apply app_nil_r. Qed.

Lemma extend_last_free bl e n : last_free (extend bl e n) = last_free bl + n.
Proof.
  unfold extend, last_free. destruct (release_cases bl e n []) as [(pre' & p & -> & Hp & ->)|[Hl ->]];
    cbn [merge_right]; rewrite !last_snoc; cbn [b_free b_size]; [by rewrite Hp|].
  destruct (last bl) as [p|]; [|lia]. rewrite (Hl p eq_refl). lia.
Qed.

(** Different tiles share no byte. *)
Lemma tiling_disjoint h e bl b c x :
  tiling h e bl -> h mod 16 = 0 -> b ∈ bl -> c ∈ bl ->
  b_addr b <= x < b_addr b + b_size b -> b_addr c <= x < b_addr c + b_size c -> b = c.
Proof.
  revert h. induction bl as [|d bl IH]; intros h; cbn [tiling].
  - by intros _ _ ?%elem_of_nil.
  - intros (E & ? & ? & H) Hh [->|Hb]%elem_of_cons [->|Hc]%elem_of_cons Hx Hy.
    + done.
    + destruct (tiling_in _ _ _ _ H ltac:(zlia) Hc) as (? & _). lia.
    + destruct (tiling_in _ _ _ _ H ltac:(zlia) Hb) as (? & _). lia.
    + eapply IH; try done. zlia.
Qed.

Lemma allocs_nodup h e bl : tiling h e bl -> h mod 16 = 0 -> NoDup (allocs bl).
Proof.
  revert h. induction bl as [|b bl IH]; intros h; cbn [tiling allocs]; [constructor|].
  intros (E & ? & ? & H) Hh. specialize (IH _ H ltac:(zlia)).
  destruct (b_free b); [done|]. constructor; [|done].
  intros [Hb _]%elem_of_allocs. destruct (tiling_in _ _ _ _ H ltac:(zlia) Hb) as (? & _). lia.
Qed.

Lemma free_not_alloc h e bl x : tiling h e bl -> h mod 16 = 0 -> in_free bl x -> ~ in_alloc bl x.
Proof.
  intros Ht Hh (b & Hb & Hbf & Hx) (c & Hc & Hcf & Hy).
  rewrite (tiling_disjoint _ _ _ b c x Ht Hh Hb Hc Hx Hy) in Hbf. congruence.
Qed.

Lemma first_fit bl total :
  (exists pre a n post, bl = pre ++ Tile a n true :: post /\ total <= n /\
     forall c, c ∈ pre -> b_free c = true -> b_size c < total) \/
  (forall c, c ∈ bl -> b_free c = true -> b_size c < total).
Proof.
  induction bl as [|[a n f] bl IH]; [right; by intros c ?%elem_of_nil|].
  destruct (decide (f = true /\ total <= n)) as [[-> Hn]|Hno].
  - left. exists [], a, n, bl. split_and!; [done|done|]. by intros c ?%elem_of_nil.
  - assert (f = true -> n < total) as Hlt by (intros ->; apply Z.nle_gt; intros ?; by apply Hno).
    destruct IH as [(pre & a' & n' & post & -> & Hn & Hpre)|Hall].
    + left. exists (Tile a n f :: pre), a', n', post. split_and!; [done|done|].
      intros c [->|Hc]%elem_of_cons; auto.
    + right. intros c [->|Hc]%elem_of_cons; auto.
Qed.

Lemma place_allocs total a n : 16 <= total <= n -> total mod 16 = 0 -> n mod 16 = 0 ->
  allocs (place total (Tile a n true)) = [Tile a total false].
Proof.
  intros Ht Hm Hn. unfold place. cbn [b_size b_addr].
  destruct (Z.leb_spec (total + 16) n); cbn [allocs b_free]; [done|].
  by replace total with n by zlia.
Qed.

(** ** Lemmas: headers in memory *)

Lemma load_size_size m a v b : a mod 16 = 0 -> b mod 16 = 0 -> 0 <= v < 2 ^ 64 ->
  load64 (store64 m a v) b = if b =? a then v else load64 m b.
Proof.
  intros. destruct (Z.eqb_spec b a) as [->|]; [by apply load_store64|]. apply load_store64_ne. zlia.
Qed.

Lemma load_next_next m a v b : a mod 16 = 0 -> b mod 16 = 0 -> 0 <= v < 2 ^ 64 ->
  load64 (store64 m (a + 8) v) (b + 8) = if b =? a then v else load64 m (b + 8).
Proof.
  intros. destruct (Z.eqb_spec b a) as [->|]; [by apply load_store64|]. apply load_store64_ne. zlia.
Qed.

Lemma load_size_next m a v b : a mod 16 = 0 -> b mod 16 = 0 ->
  load64 (store64 m a v) (b + 8) = load64 m (b + 8).
Proof. intros. apply load_store64_ne. zlia. Qed.

Lemma load_next_size m a v b : a mod 16 = 0 -> b mod 16 = 0 ->
  load64 (store64 m (a + 8) v) b = load64 m b.
Proof. intros. apply load_store64_ne. zlia. Qed.

Lemma lseg_app m p l1 l2 q : lseg m p (l1 ++ l2) q <-> exists r, lseg m p l1 r /\ lseg m r l2 q.
Proof.
  revert p. induction l1 as [|a l1 IH]; intros p; cbn [app lseg].
  - split; [eauto|by intros (r & -> & ?)].
  - rewrite IH. naive_solver.
Qed.

Lemma lseg_ext m m' p l q :
  (forall a, a ∈ l -> load64 m' (a + 8) = load64 m (a + 8)) -> lseg m p l q -> lseg m' p l q.
Proof.
  revert p. induction l as [|a l IH]; intros p Hext; cbn [lseg]; [done|].
  intros [-> H]. split; [done|]. rewrite Hext by set_solver. apply IH; [|done].
  intros b Hb. apply Hext. set_solver.
Qed.

(** Redirecting the last node. *)
Lemma lseg_redirect m m' p l a q q' :
  lseg m p (l ++ [a]) q -> load64 m' (a + 8) = q' ->
  (forall b, b ∈ l -> load64 m' (b + 8) = load64 m (b + 8)) -> lseg m' p (l ++ [a]) q'.
Proof.
  rewrite !lseg_app. intros (r & H1 & -> & H2) E Hext. exists a. split; [by eapply lseg_ext|].
  cbn. done.
Qed.
