(* ===== verification/HeapList.v ===== *)
(** * The free list operations (proofs about kernel/system/heap.c)

    The walks, the linking and merging of a block and the taking of a block
    do to memory what [release] and [place] do to the row of tiles. *)

From S2P Require Import Prelude Memory State Cpu Libc Pmm Vmm Heap HeapTiles.

(** ** Definitions *)

(** The state with other memory and another head of the free list. *)
Definition heap_upd (m : mem) (head : Z) (s : kstate) : kstate :=
  on_heap (set_heap_head head) (set_mem m s).

(** A row of tiles inside the address space. *)
Record row (h e : Z) (bl : list tile) : Prop := {
  rw_tiling : tiling h e bl;
  rw_low : 0 < h;
  rw_align : h mod 16 = 0;
  rw_high : e < 2 ^ 64
}.

(** ** Lemmas *)

Lemma heap_upd_id s : heap_upd (s_mem s) (heap_head (s_heap s)) s = s.
Proof. apply kstate_ext; try done. cbn. by destruct (s_heap s). Qed.

Lemma heap_upd_upd m1 h1 m2 h2 s : heap_upd m2 h2 (heap_upd m1 h1 s) = heap_upd m2 h2 s.
Proof. done. Qed.

Lemma row_in h e bl b : row h e bl -> b ∈ bl ->
  0 < b_addr b /\ b_addr b mod 16 = 0 /\ 16 <= b_size b /\ b_size b mod 16 = 0 /\
  h <= b_addr b /\ b_addr b + b_size b <= e /\ e < 2 ^ 64.
Proof.
  intros [H1 H2 H3 H4] Hb. destruct (tiling_in h e bl b H1 H3 Hb) as (? & ? & ? & ? & ?).
  split_and!; lia || done.
Qed.

Lemma row_split h e pre b post : row h e (pre ++ b :: post) ->
  tiling h (b_addr b) pre /\ tiling (b_addr b + b_size b) e post /\
  (forall c, c ∈ pre -> b_addr c + b_size c <= b_addr b) /\
  (forall c, c ∈ post -> b_addr b + b_size b <= b_addr c).
Proof.
  intros [H1 H2 H3 H4]. apply tiling_app in H1 as (c & H1 & E & ? & ? & Hp). subst c.
  pose proof (tiling_mod _ _ _ H1).
  split_and!; [done|done| |].
  - intros d Hd. by apply (tiling_in _ _ _ _ H1).
  - intros d Hd. apply (tiling_in _ _ _ _ Hp); [zlia|done].
Qed.

Lemma row_faddr h e bl a : row h e bl -> a ∈ faddrs bl ->
  0 < a /\ a mod 16 = 0 /\ h <= a /\ a + 16 <= e /\ e < 2 ^ 64.
Proof.
  intros Hr (b & Hb & _ & <-)%elem_of_faddrs.
  destruct (row_in h e bl b Hr Hb) as (? & ? & ? & ? & ? & ? & ?). split_and!; lia || done.
Qed.

Lemma last_or_snoc d l a : last_or d (l ++ [a]) = a.
Proof. unfold last_or. by rewrite last_snoc. Qed.

Lemma last_or_cons d a l : last_or d (a :: l) = last_or a l.
Proof.
  unfold last_or. destruct l as [|x l _] using rev_ind; [done|]. by rewrite app_comm_cons, !last_snoc.
Qed.

(** The walk stops at the first node from [base] on. *)
Lemma find_place_spec fuel base prev p l1 l2 s :
  lseg (s_mem s) p (l1 ++ l2) 0 -> (forall a, a ∈ l1 -> a <> 0 /\ a < base) ->
  (forall a, a ∈ l2 -> base <= a) -> (length l1 <= fuel)%nat ->
  find_place fuel base prev p s = Ok (last_or prev l1) s.
Proof.
  revert fuel prev p. induction l1 as [|a l1 IH]; intros fuel prev p Hl H1 H2 Hf.
  - assert (negb (p =? 0) && (p <? base) = false) as E.
    { destruct l2 as [|b l2]; [by simpl in Hl; subst|]. destruct Hl as [-> _].
      destruct (Z.ltb_spec b base); [|apply andb_false_r].
      specialize (H2 b ltac:(set_solver)). lia. }
    destruct fuel; cbn [find_place]; by rewrite E.
  - destruct Hl as [-> Hl]. destruct (H1 a ltac:(set_solver)) as [Ha Hlt].
    destruct fuel as [|fuel]; [simpl in Hf; lia|]. cbn [find_place].
    destruct (Z.eqb_spec a 0); [done|]. destruct (Z.ltb_spec a base); [|lia]. cbn [negb andb].
    rewrite last_or_cons. unfold bind, get_next, read64, gets at 1. apply IH; [done| |done|simpl in Hf; lia].
    intros b Hb. apply H1. set_solver.
Qed.

Lemma find_fit_found fuel total prev p l1 a l2 s :
  lseg (s_mem s) p (l1 ++ a :: l2) 0 ->
  (forall b, b ∈ l1 -> b <> 0 /\ load64 (s_mem s) b < total) ->
  a <> 0 -> total <= load64 (s_mem s) a -> (length l1 < fuel)%nat ->
  find_fit fuel total prev p s = Ok (Some (last_or prev l1, a)) s.
Proof.
  revert fuel prev p. induction l1 as [|b l1 IH]; intros fuel prev p [-> Hl] H1 Ha Hs Hf;
    (destruct fuel as [|fuel]; [simpl in Hf; lia|]); cbn [find_fit].
  - destruct (Z.eqb_spec a 0); [done|]. unfold bind, get_size, read64, gets.
    by destruct (Z.leb_spec total (load64 (s_mem s) a)); [|lia].
  - destruct (H1 b ltac:(set_solver)) as [Hb Hlt]. destruct (Z.eqb_spec b 0); [done|].
    unfold bind at 1, get_size, read64, gets at 1.
    destruct (Z.leb_spec total (load64 (s_mem s) b)); [lia|]. rewrite last_or_cons.
    unfold bind, get_next, read64, gets at 1. apply IH; [done| |done|done|simpl in Hf; lia].
    intros c Hc. apply H1. set_solver.
Qed.

Lemma find_fit_none fuel total prev p l s :
  lseg (s_mem s) p l 0 -> (forall b, b ∈ l -> b <> 0 /\ load64 (s_mem s) b < total) ->
  (length l <= fuel)%nat -> find_fit fuel total prev p s = Ok None s.
Proof.
  revert fuel prev p. induction l as [|b l IH]; intros fuel prev p Hl H1 Hf.
  - simpl in Hl. subst. by destruct fuel.
  - destruct Hl as [-> Hl]. destruct fuel as [|fuel]; [simpl in Hf; lia|]. cbn [find_fit].
    destruct (H1 b ltac:(set_solver)) as [Hb Hlt]. destruct (Z.eqb_spec b 0); [done|].
    unfold bind at 1, get_size, read64, gets at 1.
    destruct (Z.leb_spec total (load64 (s_mem s) b)); [lia|].
    unfold bind, get_next, read64, gets at 1. apply IH; [done| |simpl in Hf; lia].
    intros c Hc. apply H1. set_solver.
Qed.

(** Writes to headers of free tiles stay inside the free space. *)
Lemma agree_store_free bl b m a v :
  b ∈ bl -> b_free b = true -> b_addr b <= a -> a + 8 <= b_addr b + b_size b ->
  agree_off (in_free bl) m (store64 m a v).
Proof.
  intros Hb Hf H1 H2 x Hx. apply rd_store64_ne.
  destruct (decide (a <= x < a + 8)); [|lia]. exfalso. apply Hx. exists b. split_and!; [done|done|lia|lia].
Qed.

Lemma faddrs_nodup h e bl : tiling h e bl -> h mod 16 = 0 -> NoDup (faddrs bl).
Proof.
  revert h. induction bl as [|b bl IH]; intros h; cbn [tiling faddrs]; [constructor|].
  intros (E & ? & ? & H) Hh. specialize (IH _ H ltac:(zlia)).
  destruct (b_free b); [|done]. constructor; [|done].
  intros (c & Hc & _ & Ec)%elem_of_faddrs.
  destruct (tiling_in _ _ _ _ H ltac:(zlia) Hc) as (? & _). lia.
Qed.

(** The last free tile of a row. *)
Lemma faddrs_snoc bl l q : faddrs bl = l ++ [q] ->
  exists bl1 b bl2, bl = bl1 ++ b :: bl2 /\ b_free b = true /\ b_addr b = q /\
    faddrs bl1 = l /\ faddrs bl2 = [].
Proof.
  revert l. induction bl as [|b bl IH] using rev_ind; intros l; [by destruct l|].
  rewrite faddrs_app. cbn [faddrs]. destruct (b_free b) eqn:E.
  - intros [<- [= <-]]%app_inj_tail. exists bl, b, []. by split_and!.
  - rewrite app_nil_r. intros (bl1 & c & bl2 & -> & ? & ? & ? & ?)%IH.
    exists bl1, c, (bl2 ++ [b]). split_and!; try done; [by rewrite <- app_assoc|].
    rewrite faddrs_app. cbn [faddrs]. rewrite E. by rewrite app_nil_r.
Qed.

Lemma lseg_range m p l q : lseg m p l q -> 0 <= q < 2 ^ 64 -> (forall a, a ∈ l -> 0 <= a < 2 ^ 64) ->
  0 <= p < 2 ^ 64.
Proof. destruct l as [|a l]; [by intros ->|]. intros [-> _] _ H. apply H. set_solver. Qed.

Lemma row_before h e pre b post c : row h e (pre ++ b :: post) -> c ∈ faddrs pre -> c < b_addr b.
Proof.
  intros Hr (t & Ht & _ & <-)%elem_of_faddrs. destruct (row_split _ _ _ _ _ Hr) as (_ & _ & H & _).
  specialize (H t Ht). destruct (row_in _ _ _ t Hr ltac:(set_solver)) as (_ & _ & ? & _). lia.
Qed.

Lemma row_after h e pre b post c : row h e (pre ++ b :: post) -> c ∈ faddrs post -> b_addr b + b_size b <= c.
Proof.
  intros Hr (t & Ht & _ & <-)%elem_of_faddrs. destruct (row_split _ _ _ _ _ Hr) as (_ & _ & _ & H).
  by apply H.
Qed.

(** Linking a block at its place in the list. *)
Lemma link_spec s h e pre a n post E :
  row h e (pre ++ Tile a n true :: post) ->
  heap_mem (s_mem s) (heap_head (s_heap s)) (pre ++ post) -> load64 (s_mem s) a = n ->
  wp (link_block (last_or 0 (faddrs pre)) a) s
    (fun _ s' => exists m' head', s' = heap_upd m' head' s /\
       heap_mem m' head' (pre ++ Tile a n true :: post) /\
       agree_off (in_free (pre ++ Tile a n true :: post)) (s_mem s) m') E.
Proof.
  intros Hr [Hsz Hls] Hn. set (b := Tile a n true) in *. set (m := s_mem s) in *.
  destruct (row_in _ _ _ b Hr ltac:(set_solver)) as (Ha0 & Ham & Hn16 & _ & _ & Hae & He).
  cbn [b_addr b_size b] in *.
  assert (forall c, c ∈ pre ++ post -> b_addr c mod 16 = 0) as Hmod.
  { intros c Hc. apply (row_in _ _ _ c Hr). set_solver. }
  assert (forall c, c ∈ faddrs pre ++ faddrs post -> c mod 16 = 0 /\ c <> a /\ 0 < c < 2 ^ 64) as Hf.
  { intros c Hc. assert (c ∈ faddrs (pre ++ b :: post)) as Hin.
    { rewrite faddrs_app. cbn. set_solver. }
    destruct (row_faddr _ _ _ _ Hr Hin) as (? & ? & ? & ? & ?). split_and!; [done| |lia|lia].
    apply elem_of_app in Hc as [Hc|Hc];
      [apply (row_before _ _ _ _ _ _ Hr) in Hc|apply (row_after _ _ _ _ _ _ Hr) in Hc]; cbn in Hc; lia. }
  rewrite faddrs_app in Hls. unfold link_block.
  destruct (faddrs pre) as [|q l _] eqn:Ef using rev_ind.
  - cbn [last_or last default Z.eqb app] in *. apply wp_bind, wp_gets, wp_bind, wp_modify, wp_modify.
    set (hd := heap_head (s_heap s)) in *.
    assert (0 <= hd < 2 ^ 64) as Hhd.
    { apply (lseg_range m hd (faddrs post) 0 Hls); [lia|]. intros c Hc. destruct (Hf c Hc) as (_ & _ & ?). lia. }
    exists (store64 m (a + 8) hd), a. split; [done|]. split; [split|].
    + intros c [Hc|[->|Hc]%elem_of_cons]%elem_of_app; cbn [b_addr b_size b];
        rewrite load_next_size; try done; try (apply Hsz; set_solver); apply Hmod; set_solver.
    + rewrite faddrs_app, Ef. cbn [app faddrs b b_free b_addr lseg]. split; [done|]. rewrite load_store64 by done.
      eapply lseg_ext; [|done]. intros c Hc. destruct (Hf c Hc) as (? & ? & _).
      rewrite load_next_next by done. by destruct (Z.eqb_spec c a).
    + apply (agree_store_free _ b); [set_solver|done|cbn; lia|cbn; lia].
  - rewrite last_or_snoc. destruct (Hf q) as (Hqm & Hqa & Hq); [set_solver|].
    destruct (Z.eqb_spec q 0); [lia|]. apply wp_bind, wp_gets, wp_bind, wp_modify, wp_modify.
    set (nx := load64 m (q + 8)). set (hd := heap_head (s_heap s)) in *.
    rewrite <- app_assoc in Hls. pose proof Hls as (r & H1 & Hr' & H2)%lseg_app. cbn in Hr', H2. subst r.
    fold nx in H2. assert (0 <= nx < 2 ^ 64) as Hnx by apply load64_range.
    set (m' := store64 (store64 m (a + 8) nx) (q + 8) a).
    assert (forall c, c mod 16 = 0 -> load64 m' c = load64 m c) as Hs'.
    { intros c Hc. unfold m'. by rewrite !load_next_size. }
    assert (forall c, c mod 16 = 0 -> load64 m' (c + 8) =
      if c =? q then a else if c =? a then nx else load64 m (c + 8)) as Hn'.
    { intros c Hc. unfold m'. rewrite !load_next_next; done || lia. }
    assert (NoDup (l ++ [q])) as Hnd.
    { rewrite <- Ef. destruct (row_split _ _ _ _ _ Hr) as (Hp & _). by apply (faddrs_nodup _ _ _ Hp), Hr. }
    exists m', hd. split; [by apply kstate_ext; try done; cbn; destruct (s_heap s)|]. split; [split|].
    + intros c [Hc|[->|Hc]%elem_of_cons]%elem_of_app; cbn [b_addr b_size b]; rewrite Hs'; try done;
        try (apply Hsz; set_solver); apply Hmod; set_solver.
    + rewrite faddrs_app, Ef, <- app_assoc. cbn [app faddrs b b_free b_addr]. apply lseg_app. exists q. split.
      * eapply lseg_ext; [|exact H1]. intros c Hc. destruct (Hf c) as (? & ? & _); [set_solver|].
        rewrite Hn' by done. apply NoDup_app in Hnd as (_ & Hnd & _).
        destruct (Z.eqb_spec c q) as [->|]; [exfalso; apply (Hnd q Hc); set_solver|].
        by destruct (Z.eqb_spec c a).
      * cbn [lseg]. split; [done|]. rewrite Hn', Z.eqb_refl by done. split; [done|].
        rewrite Hn' by done. destruct (Z.eqb_spec a q); [congruence|]. rewrite Z.eqb_refl.
        eapply lseg_ext; [|done]. intros c Hc. destruct (Hf c) as (? & ? & _); [set_solver|].
        rewrite Hn' by done. destruct (Z.eqb_spec c a); [done|].
        assert (q < a /\ a < c) as [? ?].
        { split; [by apply (row_before _ _ _ b _ _ Hr); rewrite Ef; set_solver|].
          apply (row_after _ _ _ b _ _ Hr) in Hc. cbn in Hc. lia. }
        by destruct (Z.eqb_spec c q); [lia|].
    + apply faddrs_snoc in Ef as (b1 & t & b2 & -> & Htf & <- & _).
      destruct (row_in _ _ _ t Hr ltac:(set_solver)) as (_ & _ & ? & _).
      apply (agree_off_trans _ m (store64 m (a + 8) nx));
        [apply (agree_store_free _ b); [set_solver|done|cbn; lia|cbn; lia]|].
      apply (agree_store_free _ t); [set_solver|done|lia|lia].
Qed.

(** Two free neighbours become one. *)
Lemma absorb m hd h e l1 p n c k l2 :
  row h e (l1 ++ Tile p n true :: Tile c k true :: l2) ->
  heap_mem m hd (l1 ++ Tile p n true :: Tile c k true :: l2) ->
  let m' := store64 (store64 m p (n + k)) (p + 8) (load64 (store64 m p (n + k)) (c + 8)) in
  heap_mem m' hd (l1 ++ Tile p (n + k) true :: l2) /\
  agree_off (in_free (l1 ++ Tile p (n + k) true :: l2)) m m'.
Proof.
  intros Hr [Hsz Hls] m'.
  destruct (row_in _ _ _ (Tile p n true) Hr ltac:(set_solver)) as (Hp0 & Hpm & Hn & _ & _ & _ & He).
  destruct (row_in _ _ _ (Tile c k true) Hr ltac:(set_solver)) as (Hc0 & Hcm & Hk & _ & _ & Hck & _).
  destruct (row_split _ _ _ _ _ Hr) as (_ & (Ec & _) & Hbef & Haft). cbn [b_addr b_size] in *.
  assert (forall b, b ∈ l1 \/ b ∈ l2 -> b_addr b mod 16 = 0 /\ b_addr b <> p) as Hoth.
  { intros b Hb. split; [apply (row_in _ _ _ b Hr); set_solver|].
    destruct Hb as [Hb|Hb]; [specialize (Hbef b Hb)|specialize (Haft b ltac:(set_solver))]; [|lia].
    destruct (row_in _ _ _ b Hr ltac:(set_solver)) as (_ & _ & ? & _). lia. }
  assert (forall b, b mod 16 = 0 -> load64 m' b = if b =? p then n + k else load64 m b) as Hs'.
  { intros b Hb. unfold m'. rewrite load_next_size, load_size_size; done || lia. }
  assert (forall b, b mod 16 = 0 ->
    load64 m' (b + 8) = if b =? p then load64 m (c + 8) else load64 m (b + 8)) as Hn'.
  { intros b Hb. unfold m'. rewrite load_next_next, !load_size_next by (done || apply load64_range). done. }
  split; [split|].
  - intros b [Hb|[->|Hb]%elem_of_cons]%elem_of_app; cbn [b_addr b_size].
    + destruct (Hoth b ltac:(by left)) as [? ?]. rewrite Hs' by done.
      destruct (Z.eqb_spec (b_addr b) p); [done|]. apply Hsz. set_solver.
    + by rewrite Hs', Z.eqb_refl by done.
    + destruct (Hoth b ltac:(by right)) as [? ?]. rewrite Hs' by done.
      destruct (Z.eqb_spec (b_addr b) p); [done|]. apply Hsz. set_solver.
  - rewrite faddrs_app in *. cbn [faddrs b_free b_addr] in *.
    apply lseg_app in Hls as (r & H1 & -> & E & H2). apply lseg_app. exists p. split.
    + eapply lseg_ext; [|exact H1]. intros b (t & Ht & _ & <-)%elem_of_faddrs.
      destruct (Hoth t ltac:(by left)) as [? ?]. rewrite Hn' by done. by destruct (Z.eqb_spec (b_addr t) p).
    + cbn [lseg]. split; [done|]. rewrite Hn', Z.eqb_refl by done.
      eapply lseg_ext; [|exact H2]. intros b (t & Ht & _ & <-)%elem_of_faddrs.
      destruct (Hoth t ltac:(by right)) as [? ?]. rewrite Hn' by done. by destruct (Z.eqb_spec (b_addr t) p).
  - apply (agree_off_trans _ m (store64 m p (n + k)));
      (apply (agree_store_free _ (Tile p (n + k) true)); cbn [b_addr b_size]; [set_solver|done|lia|lia]).
Qed.

Lemma in_free_absorb l1 p n c k l2 x : c = p + n ->
  in_free (l1 ++ Tile p n true :: Tile c k true :: l2) x -> 0 <= n -> 0 <= k ->
  in_free (l1 ++ Tile p (n + k) true :: l2) x.
Proof.
  intros -> (b & Hb & Hf & Hx) Hn Hk. unfold in_free.
  apply elem_of_app in Hb as [Hb|[->|[->|Hb]%elem_of_cons]%elem_of_cons]; cbn in *.
  - exists b. split_and!; [set_solver|done|lia|lia].
  - exists (Tile p (n + k) true). split_and!; [set_solver|done|cbn; lia|cbn; lia].
  - exists (Tile p (n + k) true). split_and!; [set_solver|done|cbn; lia|cbn; lia].
  - exists b. split_and!; [set_solver|done|lia|lia].
Qed.

(** The first half of [merge_block]. *)
Definition merge_with_next (a : Z) : M unit :=
  next <- get_next a;;
  size <- get_size a;;
  when (negb (next =? 0) && (u64 (a + size) =? next)) (
    next_size <- get_size next;;
    set_size a (u64 (size + next_size));;;
    next_next <- get_next next;;
    set_next a next_next).

(** The second half. *)
Definition merge_with_prev (prev a : Z) : M unit :=
  if prev =? 0 then ret tt else
  prev_size <- get_size prev;;
  when (u64 (prev + prev_size) =? a) (
    size <- get_size a;;
    set_size prev (u64 (prev_size + size));;;
    next <- get_next a;;
    set_next prev next).

Lemma merge_block_halves prev a s : merge_block prev a s = (merge_with_next a;;; merge_with_prev prev a) s.
Proof. reflexivity. Qed.

Lemma merge_with_next_spec s h e pre a n post E :
  row h e (pre ++ Tile a n true :: post) ->
  heap_mem (s_mem s) (heap_head (s_heap s)) (pre ++ Tile a n true :: post) ->
  wp (merge_with_next a) s
    (fun _ s' => exists m', s' = heap_upd m' (heap_head (s_heap s)) s /\
       heap_mem m' (heap_head (s_heap s)) (pre ++ merge_right a n post) /\
       agree_off (in_free (pre ++ merge_right a n post)) (s_mem s) m') E.
Proof.
  intros Hr Hm. pose proof Hm as [Hsz Hls]. set (hd := heap_head (s_heap s)) in *. set (m := s_mem s) in *.
  destruct (row_in _ _ _ (Tile a n true) Hr ltac:(set_solver)) as (Ha0 & Ham & Hn & _ & _ & Hae & He).
  pose proof (Hsz (Tile a n true) ltac:(set_solver)) as Hsa. cbn [b_addr b_size] in *.
  rewrite faddrs_app in Hls. apply lseg_app in Hls as (r & _ & -> & Hls). cbn [b_addr] in Hls.
  unfold merge_with_next. apply wp_bind, wp_gets, wp_bind, wp_gets. fold m. rewrite Hsa.
  set (next := load64 m (a + 8)) in *.
  assert (post = [] \/ (exists c post', post = c :: post' /\ b_free c = false) \/
    exists k post', post = Tile (a + n) k true :: post') as Hcase.
  { destruct post as [|[c k []] post]; [by left| |right; left; eauto].
    right. right. destruct (row_split _ _ _ _ _ Hr) as (_ & (E' & _) & _). cbn in E'. subst. eauto. }
  destruct Hcase as [->|[(c & post' & -> & Hc)|(k & post' & ->)]].
  - cbn [faddrs lseg] in Hls. rewrite Hls. cbn [Z.eqb negb andb when]. apply wp_ret. exists m.
    split; [symmetry; apply heap_upd_id|done].
  - assert ((u64 (a + n) =? next) = false) as ->.
    { apply Z.eqb_neq. rewrite u64_small by lia. intros E'.
      cbn [faddrs] in Hls. rewrite Hc in Hls. destruct (faddrs post') as [|q l] eqn:Ef; [cbn [lseg] in Hls; lia|].
      destruct Hls as [Hq _]. assert (q ∈ faddrs post') as (t & Ht & _ & Et)%elem_of_faddrs by (rewrite Ef; set_solver).
      destruct (row_split _ _ (pre ++ [Tile a n true]) c post' ltac:(by rewrite <- app_assoc)) as (_ & _ & Hb & Hq').
      specialize (Hq' t Ht). destruct (row_in _ _ _ c Hr ltac:(set_solver)) as (_ & _ & ? & _).
      specialize (Hb (Tile a n true) ltac:(set_solver)). cbn in Hb. lia. }
    rewrite andb_false_r. cbn [when merge_right]. rewrite Hc. apply wp_ret. exists m.
    split; [symmetry; apply heap_upd_id|done].
  - destruct Hls as [Hnx Hls]. destruct (row_in _ _ _ (Tile (a + n) k true) Hr ltac:(set_solver)) as (_ & _ & ? & _ & _ & Hke & _).
    pose proof (Hsz (Tile (a + n) k true) ltac:(set_solver)) as Hsk. cbn [b_addr b_size] in *.
    rewrite Hnx, u64_small, Z.eqb_refl by lia. destruct (Z.eqb_spec (a + n) 0); [lia|]. cbn [negb andb when].
    apply wp_bind, wp_gets. fold m. rewrite Hsk, u64_small by lia.
    apply wp_bind, wp_modify, wp_bind, wp_gets, wp_modify.
    destruct (absorb m hd h e pre a n (a + n) k post' Hr Hm) as [Q1 Q2].
    eexists. split; [|split; [exact Q1|exact Q2]].
    apply kstate_ext; try done. cbn. by destruct (s_heap s).
Qed.

Lemma faddrs_nil_last bl p : faddrs bl = [] -> last bl = Some p -> b_free p = false.
Proof.
  destruct bl as [|q bl _] using rev_ind; [done|]. rewrite faddrs_app, last_snoc. cbn [faddrs].
  intros Hf [= ->]. destruct (b_free p); [|done]. by destruct (faddrs bl).
Qed.

Lemma merge_with_prev_spec s h e pre a n post E :
  row h e (pre ++ Tile a n true :: post) ->
  heap_mem (s_mem s) (heap_head (s_heap s)) (pre ++ Tile a n true :: post) ->
  wp (merge_with_prev (last_or 0 (faddrs pre)) a) s
    (fun _ s' => exists m' bl', s' = heap_upd m' (heap_head (s_heap s)) s /\
       heap_mem m' (heap_head (s_heap s)) bl' /\ agree_off (in_free bl') (s_mem s) m' /\
       ((exists pre' p, pre = pre' ++ [p] /\ b_free p = true /\
           bl' = pre' ++ Tile (b_addr p) (b_size p + n) true :: post) \/
        ((forall p, last pre = Some p -> b_free p = false) /\
           bl' = pre ++ Tile a n true :: post))) E.
Proof.
  intros Hr Hm. pose proof Hm as [Hsz Hls]. set (hd := heap_head (s_heap s)) in *. set (m := s_mem s) in *.
  destruct (row_split _ _ _ _ _ Hr) as (Hpre & _ & Hbef & _).
  pose proof (Hsz (Tile a n true) ltac:(set_solver)) as Hsa. cbn [b_addr b_size] in *.
  assert ((forall p, last pre = Some p -> b_free p = false) ->
    exists m' bl', s = heap_upd m' hd s /\ heap_mem m' hd bl' /\ agree_off (in_free bl') m m' /\
       ((exists pre' p, pre = pre' ++ [p] /\ b_free p = true /\
           bl' = pre' ++ Tile (b_addr p) (b_size p + n) true :: post) \/
        ((forall p, last pre = Some p -> b_free p = false) /\
           bl' = pre ++ Tile a n true :: post))) as Hnone.
  { intros Hl. exists m, (pre ++ Tile a n true :: post).
    split; [symmetry; apply heap_upd_id|]. split_and!; [done|done|by right]. }
  unfold merge_with_prev. destruct (faddrs pre) as [|q l _] eqn:Ef using rev_ind.
  { apply wp_ret, Hnone. intros p. by apply faddrs_nil_last. }
  rewrite last_or_snoc. apply faddrs_snoc in Ef as (b1 & p & b2 & -> & Hpf & <- & _ & Ef2).
  destruct (row_in _ _ _ p Hr ltac:(set_solver)) as (Hp0 & _ & Hp16 & _ & _ & _ & He).
  pose proof (Hbef p ltac:(set_solver)) as Hpa. pose proof (Hsz p ltac:(set_solver)) as Hsp.
  destruct (row_in _ _ _ (Tile a n true) Hr ltac:(set_solver)) as (_ & _ & ? & _ & _ & Hae & _).
  cbn [b_addr b_size] in *. destruct (Z.eqb_spec (b_addr p) 0); [lia|].
  apply wp_bind, wp_gets. fold m. rewrite Hsp, u64_small by lia.
  destruct b2 as [|t b2 _] using rev_ind.
  - assert (b_addr p + b_size p = a) as Ea.
    { apply tiling_app in Hpre as (c & _ & E1 & _ & _ & E2). cbn in E2. congruence. }
    rewrite Ea, Z.eqb_refl. cbn [when]. apply wp_bind, wp_gets. fold m. rewrite Hsa, u64_small by lia.
    apply wp_bind, wp_modify, wp_bind, wp_gets, wp_modify.
    destruct p as [pa pn pf]. cbn in Hpf, Ea, Hpa, Hp16. subst pf.
    rewrite <- app_assoc in Hr, Hm. cbn [app] in Hr, Hm.
    destruct (absorb m hd h e b1 pa pn a n post Hr Hm) as [Q1 Q2].
    eexists _, (b1 ++ Tile pa (pn + n) true :: post). split; [|split; [exact Q1|split; [exact Q2|]]].
    + apply kstate_ext; try done. cbn. by destruct (s_heap s).
    + left. by exists b1, (Tile pa pn true).
  - assert ((b_addr p + b_size p =? a) = false) as ->.
    { apply Z.eqb_neq. rewrite app_comm_cons, app_assoc in Hpre.
      apply tiling_app in Hpre as (c & Hc & Ht & Ht16 & _ & Et). cbn in Et. subst c.
      apply tiling_app in Hc as (c & _ & Ep & _ & _ & Hb2). apply tiling_le in Hb2. lia. }
    apply wp_ret, Hnone. intros p'. rewrite app_comm_cons, app_assoc, last_snoc. intros [= <-].
    rewrite faddrs_app in Ef2. cbn [faddrs] in Ef2. destruct (b_free t); [|done].
    by destruct (faddrs b2).
Qed.

Lemma merge_right_shift a n a' k post n' post' :
  merge_right a n post = Tile a n' true :: post' ->
  merge_right a' (k + n) post = Tile a' (k + n') true :: post'.
Proof.
  destruct post as [|c post]; cbn; [by intros [= <- <-]|].
  destruct (b_free c); intros [= <- <-]; [by rewrite Z.add_assoc|done].
Qed.

Lemma in_free_merge_right pre a n e post x :
  tiling (a + n) e post -> 0 <= n -> in_free (pre ++ Tile a n true :: post) x ->
  in_free (pre ++ merge_right a n post) x.
Proof.
  destruct post as [|[c k []] post]; [done| |done]. cbn. intros (E & ? & _) Hn Hx.
  eapply in_free_absorb; [|exact Hx|lia|lia]. done.
Qed.

(** A released block and everything free before it is free afterwards. *)
Lemma in_free_release h e pre a n post x :
  tiling h a pre -> tiling (a + n) e post -> 0 <= n ->
  in_free (pre ++ Tile a n true :: post) x -> in_free (release pre a n post) x.
Proof.
  intros Hpre Hpost Hn Hx. destruct (release_cases pre a n post) as [(pre' & p & -> & Hp & ->)|[_ ->]].
  - apply tiling_app in Hpre as (c & _ & E1 & ? & _ & E2). cbn in E2.
    destruct p as [pa pn pf]. cbn in *. subst pf c a.
    apply (in_free_merge_right pre' pa (pn + n) e); [by rewrite Z.add_assoc|lia|].
    rewrite <- app_assoc in Hx. by eapply in_free_absorb; [|exact Hx|lia|lia].
  - by apply (in_free_merge_right pre a n e).
Qed.

(** Inserting a block into the free list: the walk, the link and the merges. *)
Lemma insert_spec s h e pre a n post E :
  row h e (pre ++ Tile a n true :: post) ->
  heap_mem (s_mem s) (heap_head (s_heap s)) (pre ++ post) -> load64 (s_mem s) a = n ->
  wp (link_block (last_or 0 (faddrs pre)) a;;; merge_block (last_or 0 (faddrs pre)) a) s
    (fun _ s' => exists m' head', s' = heap_upd m' head' s /\
       heap_mem m' head' (release pre a n post) /\
       agree_off (in_free (release pre a n post)) (s_mem s) m') E.
Proof.
  intros Hr Hm Hn. destruct (row_split _ _ _ _ _ Hr) as (Hpre & Hpost & _).
  destruct (row_in _ _ _ (Tile a n true) Hr ltac:(set_solver)) as (_ & _ & Hn16 & Hnm & _).
  cbn [b_addr b_size] in *.
  eapply wp_call; [by apply (link_spec s h e)|]. intros [] s1 (m1 & hd1 & -> & Hm1 & Ha1).
  unfold wp. rewrite merge_block_halves. fold (wp (A := unit)).
  change (wp (merge_with_next a;;; merge_with_prev (last_or 0 (faddrs pre)) a) (heap_upd m1 hd1 s)
    (fun _ s' => exists m' head', s' = heap_upd m' head' s /\
       heap_mem m' head' (release pre a n post) /\
       agree_off (in_free (release pre a n post)) (s_mem s) m') E).
  eapply wp_call; [by apply (merge_with_next_spec _ h e pre a n post)|].
  intros [] s2 (m2 & -> & Hm2 & Ha2). rewrite heap_upd_upd in *.
  change (heap_head (s_heap (heap_upd m1 hd1 s))) with hd1 in *.
  change (s_mem (heap_upd m1 hd1 s)) with m1 in *.
  destruct (merge_right_head a n post) as (n' & post' & Em). rewrite Em in *.
  assert (row h e (pre ++ Tile a n' true :: post')) as Hr2.
  { destruct Hr as [_ R2 R3 R4]. split; try done. rewrite <- Em. apply tiling_app. exists a.
    split; [done|]. by apply merge_right_tiling. }
  eapply wp_mono; [by apply (merge_with_prev_spec _ h e pre a n' post')| |done].
  intros [] s3 (m3 & bl' & -> & Hm3 & Ha3 & Hcase). rewrite heap_upd_upd in *.
  change (heap_head (s_heap (heap_upd m2 hd1 s))) with hd1 in *.
  change (s_mem (heap_upd m2 hd1 s)) with m2 in *.
  exists m3, hd1. split; [done|].
  assert (bl' = release pre a n post /\ (forall x, in_free (pre ++ Tile a n true :: post) x -> in_free bl' x) /\
    (forall x, in_free (pre ++ Tile a n' true :: post') x -> in_free bl' x)) as (-> & I1 & I2).
  2: { split; [done|]. apply (agree_off_trans _ _ m1); [by eapply agree_off_weaken; [|apply Ha1]|].
       apply (agree_off_trans _ _ m2); [by eapply agree_off_weaken; [|apply Ha2]|done]. }
  assert (forall x, in_free (pre ++ Tile a n true :: post) x -> in_free (pre ++ Tile a n' true :: post') x) as I0.
  { intros x. rewrite <- Em. by apply (in_free_merge_right pre a n e post x); [|lia]. }
  destruct Hcase as [(pre' & p & -> & Hp & ->)|[Hl ->]].
  - assert (forall x, in_free ((pre' ++ [p]) ++ Tile a n' true :: post') x ->
      in_free (pre' ++ Tile (b_addr p) (b_size p + n') true :: post') x) as Hleft.
    { intros x Hx. destruct p as [pa pn pf]. cbn [b_free] in Hp. subst pf. rewrite <- app_assoc in Hx.
      destruct (row_in _ _ _ (Tile a n' true) Hr2 ltac:(set_solver)) as (_ & _ & ? & _).
      apply tiling_app in Hpre as (c & _ & E1 & ? & _ & E2). cbn in *.
      eapply in_free_absorb; [|exact Hx|lia|lia]. lia. }
    rewrite release_last, Hp, (merge_right_shift _ _ _ _ _ _ _ Em). split_and!; [done| |].
    + intros x Hx. apply I0 in Hx. by apply Hleft.
    + intros x Hx. by apply Hleft.
  - destruct (release_cases pre a n post) as [(pre' & p & -> & Hp & _)|[_ ->]].
    + specialize (Hl p). rewrite last_snoc in Hl. by rewrite Hl in Hp.
    + rewrite Em. by split_and!.
Qed.

(** Making [q] the successor of the last free tile of [pre]. *)
Lemma relink_spec s h e pre rest r q l2 E :
  row h e (pre ++ rest) -> lseg (s_mem s) (heap_head (s_heap s)) (faddrs pre) r ->
  lseg (s_mem s) q l2 0 -> (forall a, a ∈ l2 -> a mod 16 = 0 /\ a ∉ faddrs pre) -> 0 <= q < 2 ^ 64 ->
  wp (relink (last_or 0 (faddrs pre)) q) s
    (fun _ s' => exists m' hd', s' = heap_upd m' hd' s /\ lseg m' hd' (faddrs pre ++ l2) 0 /\
       (forall c, c mod 16 = 0 -> load64 m' c = load64 (s_mem s) c) /\
       agree_off (in_free (pre ++ rest)) (s_mem s) m') E.
Proof.
  intros Hr H1 H2 Hl2 Hq. set (m := s_mem s) in *. set (hd := heap_head (s_heap s)) in *.
  unfold relink. destruct (faddrs pre) as [|p l _] eqn:Ef using rev_ind.
  { apply wp_modify. exists m, q. split_and!; done. }
  rewrite last_or_snoc. apply faddrs_snoc in Ef as Hd. destruct Hd as (b1 & t & b2 & E1 & Htf & Et & _).
  assert (t ∈ pre ++ rest) as Htin by (rewrite E1; set_solver).
  destruct (row_in _ _ _ t Hr Htin) as (Ht0 & Htm & Ht16 & _). rewrite Et in *.
  destruct (Z.eqb_spec p 0); [lia|]. apply wp_modify.
  assert (NoDup (l ++ [p])) as Hnd.
  { rewrite <- Ef. destruct Hr as [Ht _ Hh _]. apply tiling_app in Ht as (c & Ht & _).
    by apply (faddrs_nodup _ _ _ Ht). }
  assert (forall a, a ∈ l ++ [p] -> a mod 16 = 0) as Hmod.
  { intros a Ha. rewrite <- Ef in Ha. apply elem_of_faddrs in Ha as (b & Hb & _ & <-).
    apply (row_in _ _ _ b Hr). set_solver. }
  exists (store64 m (p + 8) q), hd. split; [apply kstate_ext; try done; cbn; by destruct (s_heap s)|].
  split_and!.
  - apply lseg_app. exists q. split.
    + eapply lseg_redirect; [exact H1|by apply load_store64|]. intros b Hb.
      rewrite load_next_next; [|done|apply Hmod; set_solver|done].
      apply NoDup_app in Hnd as (_ & Hnd & _). destruct (Z.eqb_spec b p) as [->|]; [|done].
      exfalso. apply (Hnd p Hb). set_solver.
    + eapply lseg_ext; [|exact H2]. intros b Hb. destruct (Hl2 b Hb) as [? Hn].
      rewrite load_next_next by done. destruct (Z.eqb_spec b p) as [->|]; [|done]. set_solver.
  - intros c Hc. by apply load_next_size.
  - apply (agree_store_free _ t); [done|done|lia|lia].
Qed.

Lemma heap_mem_ext h e bl m m' hd :
  row h e bl -> heap_mem m hd bl ->
  (forall c, c mod 16 = 0 -> load64 m' c = load64 m c /\ load64 m' (c + 8) = load64 m (c + 8)) ->
  heap_mem m' hd bl.
Proof.
  intros Hr [H1 H2] Hext. split.
  - intros b Hb. rewrite (proj1 (Hext (b_addr b) ltac:(by apply (row_in _ _ _ b Hr)))). by apply H1.
  - eapply lseg_ext; [|exact H2]. intros a Ha. apply Hext. by apply (row_faddr _ _ _ a Hr).
Qed.

(** The end of [take_block], after the list was updated. *)
Lemma take_finish s h e bl0 bl m' hd' a k E :
  row h e bl -> heap_mem m' hd' bl -> Tile a k false ∈ bl ->
  agree_off (in_free bl0) (s_mem s) m' -> (forall x, a <= x < a + 8 -> in_free bl0 x) ->
  wp (size <- get_size a;; set_size a size;;; spin_unlock heap_lock;;;
      ret (u64 (a + ALIGN_UP_HEAP 8))) (heap_upd m' hd' s)
    (fun r s' => r = a + 16 /\ exists m' hd',
       s' = on_locks (set_latch heap_lock false) (heap_upd m' hd' s) /\
       heap_mem m' hd' bl /\ agree_off (in_free bl0) (s_mem s) m') E.
Proof.
  intros Hr Hm Hin Hag Hfree.
  destruct (row_in _ _ _ _ Hr Hin) as (Ha0 & Ham & Hk & _ & _ & Hae & He). cbn [b_addr b_size] in *.
  apply wp_bind, wp_gets, wp_bind, wp_modify, wp_bind, wp_spin_unlock, wp_ret.
  change (ALIGN_UP_HEAP 8) with 16. rewrite u64_small by lia. split; [done|].
  change (s_mem (heap_upd m' hd' s)) with m'.
  exists (store64 m' a (load64 m' a)), hd'. split; [done|]. split.
  - apply (heap_mem_ext h e _ m'); [done|done|]. intros c Hc.
    rewrite load_size_size, load_size_next; [|done|done|done|done|apply load64_range].
    split; [|done]. by destruct (Z.eqb_spec c a) as [->|].
  - eapply agree_off_trans; [exact Hag|]. intros x Hx. apply rd_store64_ne.
    destruct (decide (a <= x < a + 8)); [|lia]. exfalso. by apply Hx, Hfree.
Qed.

(** Taking the block that fits. *)
Lemma take_block_spec s h e pre a n post total E :
  row h e (pre ++ Tile a n true :: post) ->
  heap_mem (s_mem s) (heap_head (s_heap s)) (pre ++ Tile a n true :: post) ->
  16 <= total <= n -> total mod 16 = 0 ->
  wp (take_block total (last_or 0 (faddrs pre)) a) s
    (fun r s' => r = a + 16 /\ exists m' hd',
       s' = on_locks (set_latch heap_lock false) (heap_upd m' hd' s) /\
       heap_mem m' hd' (pre ++ place total (Tile a n true) ++ post) /\
       agree_off (in_free (pre ++ Tile a n true :: post)) (s_mem s) m') E.
Proof.
  intros Hr [Hsz Hls] Ht Htm. set (b := Tile a n true) in *. set (m := s_mem s) in *.
  destruct (row_in _ _ _ b Hr ltac:(set_solver)) as (Ha0 & Ham & Hn16 & Hnm & _ & Hae & He).
  pose proof (Hsz b ltac:(set_solver)) as Hsa. cbn [b b_addr b_size] in *.
  destruct (row_split _ _ _ _ _ Hr) as (_ & _ & Hbef & Haft). cbn [b b_addr b_size] in *.
  rewrite faddrs_app in Hls. apply lseg_app in Hls as (r & H1 & -> & H2). cbn [b_addr b] in H1, H2.
  assert (forall c, c ∈ pre -> b_addr c mod 16 = 0 /\ b_addr c < a) as Hpm.
  { intros c Hc. destruct (row_in _ _ _ c Hr ltac:(set_solver)) as (_ & ? & ? & _). specialize (Hbef c Hc). split; [done|lia]. }
  assert (forall c, c ∈ post -> b_addr c mod 16 = 0 /\ a + n <= b_addr c < 2 ^ 64) as Hqm.
  { intros c Hc. destruct (row_in _ _ _ c Hr ltac:(set_solver)) as (_ & ? & ? & _ & _ & ? & _).
    specialize (Haft c Hc). split_and!; done || lia. }
  assert (forall c, c ∈ faddrs post -> c mod 16 = 0 /\ a + n <= c < 2 ^ 64 /\ c ∉ faddrs pre) as Hfp.
  { intros c (t & Ht' & _ & <-)%elem_of_faddrs. destruct (Hqm t Ht') as [? ?]. split_and!; [done|lia|lia|].
    intros (t' & Hin & _ & E')%elem_of_faddrs. destruct (Hpm t' Hin) as [_ ?]. lia. }
  unfold take_block. apply wp_bind, wp_gets. fold m. rewrite Hsa, u64_small by zlia.
  set (next := load64 m (a + 8)) in *.
  assert (0 <= next < 2 ^ 64) as Hnext by apply load64_range.
  assert (forall x, a <= x < a + 8 -> in_free (pre ++ b :: post) x) as Hin8.
  { intros x Hx. exists b. split_and!; [set_solver|done|cbn; lia|cbn; lia]. }
  assert (row h e (pre ++ place total b ++ post)) as Hr'.
  { destruct Hr as [R1 R2 R3 R4]. split; try done. apply place_tiling; [done|lia|done]. }
  apply wp_bind. unfold place in *. cbn [b b_size b_addr] in *.
  destruct (Z.leb_spec (total + 16) n) as [Hsplit|Hexact].
  - rewrite u64_small by lia. set (nb := a + total) in *. assert (nb mod 16 = 0) as Hnbm by (unfold nb; zlia).
    apply wp_bind, wp_modify, wp_bind, wp_gets, wp_bind, wp_modify, wp_bind, wp_modify.
    match goal with |- wp _ ?st _ _ => set (s1 := st) end.
    set (m3 := store64 (store64 (store64 m nb (n - total)) (nb + 8) next) a total).
    assert (s_mem s1 = m3) as Em3.
    { unfold s1, m3. cbn [on_mem set_mem s_mem]. by rewrite load_size_next by done. }
    assert (forall c, c mod 16 = 0 ->
      load64 m3 c = (if c =? a then total else if c =? nb then n - total else load64 m c) /\
      load64 m3 (c + 8) = if c =? nb then next else load64 m (c + 8)) as Hl3.
    { intros c Hc. unfold m3. split.
      - rewrite load_size_size, load_next_size, load_size_size; done || lia.
      - rewrite load_size_next, load_next_next, load_size_next; done || lia. }
    assert (agree_off (in_free (pre ++ b :: post)) m m3) as Hag3.
    { apply (agree_off_trans _ _ (store64 m nb (n - total))); [|apply (agree_off_trans _ _
        (store64 (store64 m nb (n - total)) (nb + 8) next))];
      (apply (agree_store_free _ b); unfold nb; cbn [b b_addr b_size b_free]; [set_solver|done|lia|lia]). }
    eapply wp_mono; [apply (relink_spec s1 h e pre (b :: post) a nb (nb :: faddrs post))| |done];
      rewrite ?Em3; try done.
    + change (s_heap s1) with (s_heap s). eapply lseg_ext; [|exact H1].
      intros c (t & Htin & _ & <-)%elem_of_faddrs. destruct (Hpm t Htin) as [Hc ?].
      rewrite (proj2 (Hl3 _ Hc)). destruct (Z.eqb_spec (b_addr t) nb); [unfold nb in *; lia|done].
    + split; [done|]. rewrite (proj2 (Hl3 _ Hnbm)), Z.eqb_refl. eapply lseg_ext; [|exact H2].
      intros c Hc. destruct (Hfp c Hc) as (Hcm & ? & _). rewrite (proj2 (Hl3 _ Hcm)).
      destruct (Z.eqb_spec c nb); [unfold nb in *; lia|done].
    + intros c [->|Hc]%elem_of_cons; [|by destruct (Hfp c Hc) as (? & _ & ?)].
      split; [done|]. intros (t & Htin & _ & E')%elem_of_faddrs. destruct (Hpm t Htin). unfold nb in *. lia.
    + unfold nb. lia.
    + intros [] s2 (m' & hd' & -> & Hl' & Hs' & Hag').
      change (heap_upd m' hd' s1) with (heap_upd m' hd' s).
      apply (take_finish s h e (pre ++ b :: post) _ m' hd' a total); [exact Hr'| |set_solver| |done].
      * split.
        -- intros c Hc. assert (b_addr c mod 16 = 0) as Hcm by by apply (row_in _ _ _ c Hr').
           rewrite (Hs' _ Hcm), (proj1 (Hl3 _ Hcm)).
           apply elem_of_app in Hc as [Hc|[->|[->|Hc]%elem_of_cons]%elem_of_cons]; cbn [b_addr b_size].
           ++ destruct (Hpm c Hc). destruct (Z.eqb_spec (b_addr c) a); [lia|].
              destruct (Z.eqb_spec (b_addr c) nb); [unfold nb in *; lia|]. apply Hsz. set_solver.
           ++ by rewrite Z.eqb_refl.
           ++ destruct (Z.eqb_spec nb a); [unfold nb in *; lia|]. by rewrite Z.eqb_refl.
           ++ destruct (Hqm c Hc). destruct (Z.eqb_spec (b_addr c) a); [lia|].
              destruct (Z.eqb_spec (b_addr c) nb); [unfold nb in *; lia|]. apply Hsz. set_solver.
        -- rewrite faddrs_app. exact Hl'.
      * eapply agree_off_trans; [exact Hag3|exact Hag'].
  - assert (total = n) as -> by zlia. apply wp_bind, wp_gets.
    eapply wp_mono; [apply (relink_spec s h e pre (b :: post) a next (faddrs post))| |done]; try done.
    + intros c Hc. by destruct (Hfp c Hc) as (? & _ & ?).
    + intros [] s2 (m' & hd' & -> & Hl' & Hs' & Hag').
      apply (take_finish s h e (pre ++ b :: post) _ m' hd' a n); [exact Hr'| |set_solver|done|done].
      split; [|by rewrite faddrs_app].
      intros c Hc. rewrite (Hs' (b_addr c)) by by apply (row_in _ _ _ c Hr').
      apply elem_of_app in Hc as [Hc|[->|Hc]%elem_of_cons]; [|done|]; apply Hsz; set_solver.
Qed.
