(* ===== verification/HeapSpec.v ===== *)
(** * The heap's contract (theorems about kernel/system/heap.c)

    [heap_ok] is the invariant of the heap: the kernel's pagemap is well
    formed, every byte of the heap is mapped to a frame of its own, and the
    block headers in memory describe a coalesced row of tiles.  Every
    operation keeps it and changes the set of allocated blocks by exactly the
    block asked for. *)

From S2P Require Import Prelude Memory State Cpu Libc Pmm Vmm VmmTree VmmSpec.
From S2P Require Import Heap HeapTiles HeapList.

Section heap_spec.
Context {PA : page_allocator pmm_allocate pmm_free}.

(** ** Definitions *)

(** The addresses in [lo, hi) are mapped, to frames in use that are no page
    tables and that no two pages share. *)
Record backed (s : kstate) (T : gmap (list Z) Z) (lo hi : Z) : Prop := {
  bk_present : forall v, lo <= v < hi -> present (leaf_entry s T v) = true;
  bk_used : forall v, lo <= v < hi -> frame_used s (PTE_GET_ADDR (leaf_entry s T v));
  bk_inj : forall v w, lo <= v < hi -> lo <= w < hi ->
    PTE_GET_ADDR (leaf_entry s T v) = PTE_GET_ADDR (leaf_entry s T w) -> vpn v = vpn w;
  bk_table : forall v p, lo <= v < hi -> T !! p <> Some (PTE_GET_ADDR (leaf_entry s T v))
}.

(** What an operation of the heap leaves alone. *)
Record heap_ctx (s s' : kstate) : Prop := {
  hc_cpu : s_cpu s' = s_cpu s \/ s_cpu s' = irq_section (s_cpu s);
  hc_io : s_io s' = s_io s;
  hc_dev : s_dev s' = s_dev s;
  hc_boot : s_boot s' = s_boot s;
  hc_locks : s_locks s' = s_locks s;
  hc_vmm : s_vmm s' = s_vmm s;
  hc_proc : s_proc s' = s_proc s;
  hc_vfs : s_vfs s' = s_vfs s;
  hc_kbd : s_kbd s' = s_kbd s;
  hc_irq : s_irq s' = s_irq s;
  hc_gdt : s_gdt s' = s_gdt s;
  hc_ac97 : s_ac97 s' = s_ac97 s;
  hc_fb : s_fb s' = s_fb s
}.

Definition heap_end (s : kstate) : Z := KERNEL_HEAP_START + heap_size (s_heap s).

(** The invariant, but for the lock. *)
Record heap_core (s : kstate) (root : Z) (T : gmap (list Z) Z) (bl : list tile) : Prop := {
  ho_vmm : vmm_ready s (kernel_pagemap (s_vmm s)) root T;
  ho_start : heap_start (s_heap s) = KERNEL_HEAP_START;
  ho_page : heap_size (s_heap s) mod 4096 = 0;
  ho_size : 0 <= heap_size (s_heap s) <= 2 ^ 46;
  ho_tiles : tiling KERNEL_HEAP_START (heap_end s) bl;
  ho_coal : coalesced bl;
  ho_mem : heap_mem (s_mem s) (heap_head (s_heap s)) bl;
  ho_backed : backed s T KERNEL_HEAP_START (heap_end s)
}.

Record heap_ok (s : kstate) (root : Z) (T : gmap (list Z) Z) (bl : list tile) : Prop := {
  hk_core : heap_core s root T bl;
  hk_lock : latch heap_lock (s_locks s) = false
}.

(** ** Lemmas *)

#[export] Instance heap_ctx_trans : Transitive heap_ctx.
Proof.
  intros s1 s2 s3 [C1 ? ? ? ? ? ? ? ? ? ? ? ?] [C2 ? ? ? ? ? ? ? ? ? ? ? ?]. split; try congruence.
  destruct C1 as [C1|C1], C2 as [C2|C2]; rewrite C2, C1, ?irq_section_idemp; auto.
Qed.

Lemma heap_ctx_of s s' : same_ctx s s' -> heap_ctx s s'.
Proof. intros []. by split. Qed.

(** The page table machinery writes below the heap only. *)
Lemma frame_below s a x : pa_ready s -> frame_used s a -> in_frame s a x -> x < KERNEL_HEAP_START.
Proof.
  intros Hr Ha Hx. destruct (pa_range _ _ Hr Ha) as [_ Hlt]. destruct (pa_boot _ Hr) as [_ _ Hb].
  destruct (pa_range _ _ Hr Ha) as [Hm _]. unfold in_frame in Hx. zlia.
Qed.

Lemma touched_below s root T s' x :
  pa_ready s -> pa_ready s' -> tree s root T -> s_boot s' = s_boot s -> touched s T s' x ->
  x < KERNEL_HEAP_START.
Proof.
  intros Hr Hr' Ht Hb (t & Hx & [[p Hp]|[_ Hu]]).
  - apply (frame_below s t); [done|by apply (tr_used _ _ _ Ht p)|done].
  - apply (frame_below s' t); [done|done|]. unfold in_frame in *. by rewrite Hb.
Qed.

Lemma vmm_ready_step s s' pm root T :
  vmm_ready s pm root T -> pa_ready s' -> s_boot s' = s_boot s -> s_vmm s' = s_vmm s ->
  latch vmm_lock (s_locks s') = latch vmm_lock (s_locks s) ->
  (forall a, frame_used s a -> frame_used s' a) ->
  (forall p t x, T !! p = Some t -> in_frame s t x -> rd (s_mem s') x = rd (s_mem s) x) ->
  vmm_ready s' pm root T /\ forall v, leaf_entry s' T v = leaf_entry s T v.
Proof.
  intros [Rp Rl Rb Rt] Hr' Hb Hv Hlk Hu Hm.
  assert (forall p t i, T !! p = Some t -> 0 <= i < 512 -> pte s' t i = pte s t i) as Hp.
  { intros p t i Hp Hi. unfold pte. rewrite Hb. apply load64_ext. intros x Hx.
    apply (Hm p t); [done|]. unfold in_frame. lia. }
  split.
  - split; [done|by rewrite Hlk|by rewrite Hv, Hb|].
    split; [apply Rt|apply Rt| | |apply Rt].
    + intros p t Hpt. apply Hu. by apply (tr_used _ _ _ Rt p).
    + intros p t i Hpt Hl Hi. rewrite (Hp p) by done. by apply Rt.
  - intros v. unfold leaf_entry. destruct (T !! pt_path v) as [t|] eqn:E; [|done].
    by apply (Hp (pt_path v)); [|apply idx_range].
Qed.

Abbreviation heap_flags := (Z.lor 1 (Z.lor 2 (2 ^ 63))) (only parsing).

Lemma heap_entry a : a mod 4096 = 0 -> 0 < a < 2 ^ 35 ->
  let e := Z.lor (Z.lor (a / 4096 * 4096) heap_flags) 1 in
  present e = true /\ PTE_GET_ADDR e = a.
Proof.
  intros Hm Hr. assert (a / 4096 * 4096 = a) as -> by zlia. cbv zeta. split.
  - rewrite present_bit, Z.lor_spec. apply orb_true_r.
  - rewrite <- Z.lor_assoc. apply PTE_GET_ADDR_lor; [done|lia|]. reflexivity.
Qed.

(** One more page at the end of the heap. *)
Lemma expand_page_spec s root T lo base i :
  let kp := kernel_pagemap (s_vmm s) in
  vmm_ready s kp root T -> lo mod 4096 = 0 -> base mod 4096 = 0 -> 0 <= i -> lo <= base ->
  KERNEL_HEAP_START <= lo -> base + i * 4096 < KERNEL_HEAP_START + 2 ^ 46 ->
  backed s T lo (base + i * 4096) ->
  wp (expand_page base i) s
    (fun _ s' => exists T', vmm_ready s' kp root T' /\ same_ctx s s' /\
       backed s' T' lo (base + (i + 1) * 4096) /\ (forall a, frame_used s a -> frame_used s' a) /\
       agree_off (fun x => x < KERNEL_HEAP_START) (s_mem s) (s_mem s')) out_of_memory.
Proof.
  intros kp R Hlo Hbase Hi Hlb Hk Hhi [B1 B2 B3 B4]. unfold expand_page. pose proof R as [Rp _ _ Rt].
  eapply wp_call; [by apply pa_allocate|]. intros a s1 (Hna & Hua & Hoth & _ & Hag & Hc1 & Hr1).
  destruct (pa_range _ _ Hr1 Hua) as [Ham Har]. destruct (Z.eqb_spec a 0); [lia|].
  assert (forall b, frame_used s b -> frame_used s1 b) as Hmono.
  { intros b Hb. destruct (decide (b = a)) as [->|]; [done|]. by apply Hoth. }
  destruct (vmm_ready_step s s1 kp root T R Hr1 (sc_boot _ _ Hc1) (sc_vmm _ _ Hc1)
    (f_equal (latch vmm_lock) (sc_locks _ _ Hc1)) Hmono) as [R1 Hleaf1].
  { intros p t x Hp Hx. apply Hag. intros Hx'.
    destruct (table_facts s root T p t Rp Rt Hp) as (Htm & _).
    apply (frames_disjoint s t a x); try done. intros ->. by apply Hna, (tr_used _ _ _ Rt p). }
  set (virt := u64 (base + i * 4096)).
  assert (virt = base + i * 4096) as Ev by (unfold virt; rewrite u64_small; lia).
  apply wp_bind, wp_gets. rewrite (sc_vmm _ _ Hc1). fold kp.
  eapply wp_call.
  { apply (map_page_remaps s1 kp root T); [done|lia|lia|]. split; [by apply Z.lor_nonneg|reflexivity]. }
  intros r s2 (-> & T' & [Q1 Q2 Q3 Q4 Q5 Q6 Q7]). cbn [negb]. apply wp_ret. exists T'.
  destruct (heap_entry a Ham Har) as [He1 He2]. cbv zeta in He1, He2.
  assert (forall v, lo <= v < base + (i + 1) * 4096 ->
    (base + i * 4096 <= v /\ leaf_entry s2 T' v = Z.lor (Z.lor (a / 4096 * 4096) heap_flags) 1) \/
    (v < base + i * 4096 /\ leaf_entry s2 T' v = leaf_entry s T v)) as Hcase.
  { intros v Hv. rewrite Q5. destruct (Z.eqb_spec (vpn v) (vpn virt)) as [E|E].
    - left. split; [|done]. unfold vpn in E. rewrite Ev in E. zlia.
    - right. split; [|by rewrite Hleaf1]. unfold vpn in E. rewrite Ev in E.
      destruct (decide (v < base + i * 4096)); [done|]. exfalso. apply E. f_equal. zlia. }
  split_and!.
  - done.
  - by etransitivity.
  - split.
    + intros v Hv. destruct (Hcase v Hv) as [[_ ->]|[? ->]]; [done|apply B1; lia].
    + intros v Hv. destruct (Hcase v Hv) as [[_ ->]|[? ->]]; [rewrite He2; by apply Q6|].
      apply Q6, Hmono, B2. lia.
    + intros v w Hv Hw. destruct (Hcase v Hv) as [[? ->]|[? ->]], (Hcase w Hw) as [[? ->]|[? ->]].
      * intros _. unfold vpn. f_equal. zlia.
      * rewrite He2. intros ->. exfalso. apply Hna, B2. lia.
      * rewrite He2. intros <-. exfalso. apply Hna, B2. lia.
      * apply B3; lia.
    + intros v p Hv Hp. destruct (Q4 _ _ Hp) as [[q Hq]|Hn].
      * destruct (Hcase v Hv) as [[_ E]|[? E]]; rewrite E in Hq.
        -- rewrite He2 in Hq. by apply Hna, (tr_used _ _ _ Rt q).
        -- apply (B4 v q); [lia|done].
      * apply Hn. destruct (Hcase v Hv) as [[_ ->]|[? ->]]; [by rewrite He2|]. apply Hmono, B2. lia.
  - intros b Hb. by apply Q6, Hmono.
  - intros x Hx. transitivity (rd (s_mem s1) x).
    + apply Q7. intros Ht. apply Hx. destruct R1 as [R11 _ _ R14], Q1 as [Q11 _ _ _].
      by apply (touched_below s1 root T s2 x R11 Q11 R14 (sc_boot _ _ Q2)).
    + apply Hag. intros Hin. apply Hx. apply (frame_below s1 a x Hr1 Hua).
      unfold in_frame in *. by rewrite (sc_boot _ _ Hc1).
Qed.

Lemma heap_row s root T bl : heap_core s root T bl -> row KERNEL_HEAP_START (heap_end s) bl.
Proof. intros [_ _ _ H4 H5 _ _ _]. split; [done|lia|done|unfold heap_end; lia]. Qed.

(** The fuel of the walks is enough. *)
Lemma walk_fuel_enough s root T bl :
  heap_core s root T bl ->
  (length (faddrs bl) < Z.to_nat (heap_size (s_heap s) / 16 + 2))%nat.
Proof.
  intros H. pose proof (tiling_length _ _ _ (ho_tiles _ _ _ _ H)) as Hl. unfold heap_end in Hl.
  pose proof (faddrs_length bl). zlia.
Qed.

Lemma faddrs_none bl hd m : lseg m hd (faddrs bl) 0 -> (forall a, a ∈ faddrs bl -> a <> 0) ->
  hd = 0 <-> faddrs bl = [].
Proof.
  destruct (faddrs bl) as [|a l]; cbn [lseg]; [done|]. intros [-> _] Ha.
  split; [|done]. intros ->. exfalso. apply (Ha 0); [set_solver|done].
Qed.

(** The headers survive writes elsewhere. *)
Lemma heap_mem_frame h e bl m m' hd :
  row h e bl -> heap_mem m hd bl -> (forall x, h <= x < e -> rd m' x = rd m x) -> heap_mem m' hd bl.
Proof.
  intros Hr [H1 H2] Hm. split.
  - intros b Hb. destruct (row_in _ _ _ b Hr Hb) as (_ & _ & ? & _ & ? & ? & _).
    rewrite (load64_ext m m'); [by apply H1|]. intros x Hx. apply Hm. lia.
  - eapply lseg_ext; [|exact H2]. intros a Ha. destruct (row_faddr _ _ _ a Hr Ha) as (_ & _ & ? & ? & _).
    apply load64_ext. intros x Hx. apply Hm. lia.
Qed.

(** The list half of [heap_expand_pages]: a new block at the end. *)
Lemma add_region_spec s bl n e E :
  row KERNEL_HEAP_START e bl -> heap_mem (s_mem s) (heap_head (s_heap s)) bl ->
  (length (faddrs bl) < Z.to_nat (heap_size (s_heap s) / 16 + 2))%nat ->
  16 <= n -> n mod 16 = 0 -> e + n < 2 ^ 64 ->
  wp (add_region e n) s
    (fun _ s' => exists m' hd', s' = heap_upd m' hd' s /\
       heap_mem m' hd' (extend bl e n) /\
       agree_off (in_free (extend bl e n)) (s_mem s) m') E.
Proof.
  intros Hr Hm Hfuel Hn Hnm He. pose proof Hr as [R1 R2 R3 R4].
  assert (e mod 16 = 0) as Hem by (rewrite (tiling_mod _ _ _ R1); done).
  pose proof (tiling_le _ _ _ R1) as Hle.
  apply wp_bind, wp_modify, wp_bind, wp_modify, wp_bind, wp_gets.
  match goal with |- context [s_heap ?st] => set (s1 := st) end.
  set (m1 := store64 (store64 (s_mem s) e n) (e + 8) 0).
  change (heap_head (s_heap s1)) with (heap_head (s_heap s)).
  set (hd := heap_head (s_heap s)) in *.
  assert (s_mem s1 = m1) as Em by done.
  assert (heap_mem m1 hd bl) as Hm1.
  { apply (heap_mem_frame _ _ _ (s_mem s) _ _ Hr Hm). intros x Hx. unfold m1.
    rewrite !rd_store64_ne by lia. done. }
  assert (load64 m1 e = n) as Hse.
  { unfold m1. rewrite load_next_size, load_size_size, Z.eqb_refl; done || lia. }
  assert (load64 m1 (e + 8) = 0) as Hne by (apply load_store64; lia).
  assert (row KERNEL_HEAP_START (e + n) (bl ++ [Tile e n true])) as Hrow.
  { split; [|done|done|lia]. apply tiling_app. exists e. by split. }
  assert (agree_off (in_free (extend bl e n)) (s_mem s) m1) as Hag1.
  { intros x Hx. unfold m1. assert (~ e <= x < e + 16) as Hno.
    { intros Hin. apply Hx. apply (in_free_release KERNEL_HEAP_START (e + n) bl e n []); [done|done|lia|].
      exists (Tile e n true). split_and!; [set_solver|done|cbn; lia|cbn; lia]. }
    rewrite !rd_store64_ne by lia. done. }
  assert (forall a, a ∈ faddrs bl -> a <> 0 /\ a < e) as Hfa.
  { intros a Ha. destruct (row_faddr _ _ _ a Hr Ha). lia. }
  destruct (Z.eqb_spec hd 0) as [H0|H0].
  - apply wp_modify. exists m1, e. split; [done|].
    apply (faddrs_none bl hd m1 (hm_list _ _ _ Hm1)) in H0; [|by intros a [? _]%Hfa].
    assert (extend bl e n = bl ++ [Tile e n true]) as Eext.
    { unfold extend. destruct (release_cases bl e n []) as [(pre' & p & -> & Hp & _)|[_ ->]]; [|done].
      exfalso. rewrite faddrs_app in H0. cbn in H0. rewrite Hp in H0. by destruct (faddrs pre'). }
    split; [|done]. rewrite Eext. split.
    + intros b [Hb| ->%list_elem_of_singleton]%elem_of_app; [by apply (hm_size _ _ _ Hm1)|done].
    + rewrite faddrs_app, H0. cbn [app faddrs b_free b_addr lseg]. by rewrite Hne.
  - apply wp_bind, wp_gets. eapply wp_bind, wp_ok.
    { apply (find_place_spec _ e 0 hd (faddrs bl) []); [rewrite app_nil_r, Em; apply Hm1|done| |].
      - by intros a ?%elem_of_nil.
      - change (heap_size (s_heap s1)) with (heap_size (s_heap s)). lia. }
    eapply wp_mono; [apply (insert_spec s1 KERNEL_HEAP_START (e + n) bl e n []); [done| |done]| |done].
    { rewrite app_nil_r. exact Hm1. }
    intros [] s' (m' & hd' & -> & Hm' & Hag'). exists m', hd'. split; [done|]. split; [done|].
    by eapply agree_off_trans.
Qed.

(** A state that differs from another in heap bytes and heap bookkeeping, and
    in how deeply interrupts are masked. *)
Lemma heap_frame_ready s s' pm root T :
  vmm_ready s pm root T -> s_pmm s' = s_pmm s -> s_boot s' = s_boot s -> cpu_ok (s_cpu s') ->
  s_vmm s' = s_vmm s ->
  latch pmm_lock (s_locks s') = latch pmm_lock (s_locks s) ->
  latch vmm_lock (s_locks s') = latch vmm_lock (s_locks s) ->
  agree_off (fun x => KERNEL_HEAP_START <= x) (s_mem s) (s_mem s') ->
  vmm_ready s' pm root T /\ (forall v, leaf_entry s' T v = leaf_entry s T v) /\
  (forall a, frame_used s' a <-> frame_used s a).
Proof.
  intros R Hp Hb Hc Hv Hl1 Hl2 Hm. pose proof R as [Rp _ _ Rt].
  destruct (pa_frame s s') as [Hr' Hu']; auto.
  destruct (vmm_ready_step s s' pm root T R Hr' Hb Hv Hl2) as [R' Hleaf].
  - intros a. apply Hu'.
  - intros p t x Ht Hx. apply Hm.
    pose proof (frame_below s t x Rp (tr_used _ _ _ Rt _ _ Ht) Hx). lia.
  - done.
Qed.

Lemma heap_write_ready s s' pm root T :
  vmm_ready s pm root T -> s_pmm s' = s_pmm s -> s_boot s' = s_boot s -> s_cpu s' = s_cpu s ->
  s_vmm s' = s_vmm s ->
  latch pmm_lock (s_locks s') = latch pmm_lock (s_locks s) ->
  latch vmm_lock (s_locks s') = latch vmm_lock (s_locks s) ->
  agree_off (fun x => KERNEL_HEAP_START <= x) (s_mem s) (s_mem s') ->
  vmm_ready s' pm root T /\ (forall v, leaf_entry s' T v = leaf_entry s T v) /\
  (forall a, frame_used s' a <-> frame_used s a).
Proof.
  intros R Hp Hb Hc. apply heap_frame_ready; try done. rewrite Hc. by apply pa_cpu, R.
Qed.

Lemma backed_ext s s' T lo hi :
  backed s T lo hi -> (forall v, leaf_entry s' T v = leaf_entry s T v) ->
  (forall a, frame_used s a -> frame_used s' a) -> backed s' T lo hi.
Proof.
  intros [B1 B2 B3 B4] Hl Hu. split.
  - intros v Hv. rewrite Hl. auto.
  - intros v Hv. rewrite Hl. auto.
  - intros v w Hv Hw. rewrite !Hl. auto.
  - intros v p Hv. rewrite Hl. auto.
Qed.

Lemma in_free_range h e bl x : tiling h e bl -> h mod 16 = 0 -> in_free bl x -> h <= x < e.
Proof. intros Ht Hh (b & Hb & _ & Hx). pose proof (tiling_in _ _ _ _ Ht Hh Hb). lia. Qed.

(** [heap_core] with an updated list. *)
Lemma heap_core_upd s root T bl m' hd' bl' :
  heap_core s root T bl -> tiling KERNEL_HEAP_START (heap_end s) bl' -> coalesced bl' ->
  heap_mem m' hd' bl' -> agree_off (fun x => KERNEL_HEAP_START <= x) (s_mem s) m' ->
  heap_core (heap_upd m' hd' s) root T bl'.
Proof.
  intros [H1 H2 H3 H4 H5 H6 H7 H8] Ht Hc Hm Hag.
  destruct (heap_write_ready s (heap_upd m' hd' s) _ root T H1) as (R & L & U); try done.
  split; try done. apply (backed_ext s); [done|done|]. intros a. apply U.
Qed.

Lemma expand_pages_loop s root T bl pages :
  heap_core s root T bl -> 0 <= pages -> heap_size (s_heap s) + pages * 4096 <= 2 ^ 46 ->
  wp (for_loop (Z.to_nat pages) 0 (expand_page (heap_end s))) s
    (fun _ s' => exists T', vmm_ready s' (kernel_pagemap (s_vmm s')) root T' /\ same_ctx s s' /\
       backed s' T' KERNEL_HEAP_START (heap_end s + pages * 4096) /\
       agree_off (fun x => x < KERNEL_HEAP_START) (s_mem s) (s_mem s')) out_of_memory.
Proof.
  intros [H1 H2 H3 H4 H5 H6 H7 H8] Hp Hsz.
  eapply wp_mono; [apply (wp_for_loop (fun j s' => exists T',
    vmm_ready s' (kernel_pagemap (s_vmm s')) root T' /\ same_ctx s s' /\
    backed s' T' KERNEL_HEAP_START (heap_end s + j * 4096) /\
    agree_off (fun x => x < KERNEL_HEAP_START) (s_mem s) (s_mem s')))| |done].
  - exists T. rewrite Z.add_0_r. split_and!; done.
  - intros j s' Hj (T' & R & C & B & A).
    assert (heap_end s mod 4096 = 0) by (unfold heap_end; zlia).
    eapply wp_mono; [apply (expand_page_spec s' root T' KERNEL_HEAP_START (heap_end s) j); try done| |done].
    + lia.
    + unfold heap_end. lia.
    + unfold heap_end. lia.
    + intros [] s2 (T2 & R2 & C2 & B2 & _ & A2). exists T2. rewrite (sc_vmm _ _ C2).
      split_and!; [done|by etransitivity|done|by eapply agree_off_trans].
  - intros [] s' H. by rewrite Z2Nat.id in H by lia.
Qed.

(** Growing the heap. *)
Lemma heap_expand_spec s root T bl pages :
  heap_core s root T bl -> 0 < pages -> heap_size (s_heap s) + pages * 4096 <= 2 ^ 46 ->
  wp (heap_expand_pages pages) s
    (fun r s' => r = 1 /\ exists T',
       heap_core s' root T' (extend bl (heap_end s) (pages * 4096)) /\ heap_ctx s s' /\
       heap_size (s_heap s') = heap_size (s_heap s) + pages * 4096 /\
       agree_off (fun x => x < KERNEL_HEAP_START \/ in_free (extend bl (heap_end s) (pages * 4096)) x)
         (s_mem s) (s_mem s')) out_of_memory.
Proof.
  intros H Hp Hsz. pose proof H as [H1 H2 H3 H4 H5 H6 H7 H8]. pose proof (heap_row _ _ _ _ H) as Hrow.
  unfold heap_expand_pages. destruct (Z.eqb_spec pages 0) as [|_]; [lia|].
  apply wp_bind, wp_gets. rewrite H2. change (Z.land KERNEL_HEAP_START (PAGE_SIZE - 1) =? 0) with true.
  rewrite (u64_small (KERNEL_HEAP_START + _)) by lia. rewrite (u64_small (pages * 4096)) by lia.
  change (KERNEL_HEAP_START + heap_size (s_heap s)) with (heap_end s).
  apply wp_bind, wp_ASSERT; [done|]. apply wp_bind, wp_ASSERT.
  { change (PAGE_SIZE - 1) with 4095. rewrite land_page_mask. by apply Z.eqb_eq. }
  eapply wp_call; [apply (expand_pages_loop s root T bl); done || lia|].
  intros [] s1 (T1 & R1 & C1 & B1 & A1). set (n := pages * 4096) in *.
  assert (heap_mem (s_mem s1) (heap_head (s_heap s1)) bl) as Hm1.
  { rewrite (sc_heap _ _ C1). apply (heap_mem_frame _ _ _ (s_mem s) _ _ Hrow H7).
    intros x Hx. apply A1. lia. }
  eapply wp_call.
  { apply (add_region_spec s1 bl n (heap_end s)); [done|done| |lia|unfold n; zlia|unfold heap_end; lia].
    rewrite (sc_heap _ _ C1). by apply (walk_fuel_enough s root T). }
  intros [] s2 (m2 & hd2 & -> & Hm2 & Hag2). apply wp_bind, wp_modify, wp_ret. split; [done|]. exists T1.
  assert (tiling KERNEL_HEAP_START (heap_end s + n) (extend bl (heap_end s) n)) as Htile.
  { apply release_tiling; [done|done|lia|unfold n; zlia]. }
  assert (agree_off (fun x => KERNEL_HEAP_START <= x) (s_mem s1) m2) as Hag2'.
  { eapply agree_off_weaken; [|exact Hag2]. intros x Hx. by apply (in_free_range _ _ _ _ Htile). }
  set (s3 := on_heap _ (heap_upd m2 hd2 s1)).
  destruct (heap_write_ready s1 s3 _ root T1 R1) as (R3 & L3 & U3); try done.
  assert (heap_size (s_heap s3) = heap_size (s_heap s) + n) as Hsize3.
  { cbn [s3 on_heap heap_upd set_heap set_mem s_heap set_heap_size set_heap_head heap_size].
    rewrite (sc_heap _ _ C1). apply u64_small. lia. }
  assert (heap_end s3 = heap_end s + n) as Hend3 by (unfold heap_end; lia).
  split_and!; [split|..].
  - done.
  - cbn. rewrite (sc_heap _ _ C1). done.
  - rewrite Hsize3. unfold n. zlia.
  - lia.
  - by rewrite Hend3.
  - by apply release_coalesced.
  - exact Hm2.
  - rewrite Hend3. apply (backed_ext s1); [done|done|]. intros a. apply U3.
  - etransitivity; [apply heap_ctx_of, C1|]. by split; auto.
  - done.
  - intros x Hx. transitivity (rd (s_mem s1) x); [apply Hag2|apply A1]; intros ?; apply Hx; auto.
Qed.

(** What an allocation of a block of [total] bytes, header included, does. *)
Record allocated (s : kstate) (root : Z) (bl : list tile) (total r : Z) (s' : kstate)
    (T' : gmap (list Z) Z) (bl' : list tile) : Prop := {
  al_core : heap_core s' root T' bl';
  al_ctx : heap_ctx s s';
  al_size : heap_size (s_heap s) <= heap_size (s_heap s');
  al_allocs : allocs bl' ≡ₚ Tile (r - 16) total false :: allocs bl;
  al_mem : forall x, KERNEL_HEAP_START <= x -> in_alloc bl x \/ heap_end s' <= x ->
    rd (s_mem s') x = rd (s_mem s) x
}.

Lemma take_allocated s root T pre a n post total m' hd' :
  heap_core s root T (pre ++ Tile a n true :: post) -> 16 <= total <= n -> total mod 16 = 0 ->
  heap_mem m' hd' (pre ++ place total (Tile a n true) ++ post) ->
  agree_off (in_free (pre ++ Tile a n true :: post)) (s_mem s) m' ->
  allocated s root (pre ++ Tile a n true :: post) total (a + 16) (heap_upd m' hd' s) T
    (pre ++ place total (Tile a n true) ++ post).
Proof.
  intros H Ht Htm Hm' Hag. pose proof (heap_row _ _ _ _ H) as Hrow. pose proof (ho_tiles _ _ _ _ H) as Htl.
  destruct (row_in _ _ _ (Tile a n true) Hrow ltac:(set_solver)) as (_ & _ & _ & Hnm & _).
  assert (forall x, in_free (pre ++ Tile a n true :: post) x -> KERNEL_HEAP_START <= x < heap_end s) as Hin.
  { intros x. by apply in_free_range. }
  split.
  - eapply heap_core_upd; [exact H| | |exact Hm'|].
    + apply place_tiling; [done|lia|done].
    + apply place_coalesced; [apply H|done].
    + eapply agree_off_weaken; [|exact Hag]. intros x Hx. by apply Hin.
  - by split; auto.
  - done.
  - rewrite !allocs_app, place_allocs by done. cbn [allocs b_free app].
    replace (a + 16 - 16) with a by lia. symmetry. apply Permutation_middle.
  - intros x Hx Hor. apply Hag. intros Hf. destruct Hor as [Hal|Hge].
    + by apply (free_not_alloc _ _ _ x Htl eq_refl Hf).
    + change (heap_end (heap_upd m' hd' s)) with (heap_end s) in Hge. specialize (Hin x Hf). lia.
Qed.

Lemma last_free_small bl total :
  0 < total -> (forall c, c ∈ bl -> b_free c = true -> b_size c < total) -> last_free bl < total.
Proof.
  intros Ht H. unfold last_free. destruct bl as [|c bl _] using rev_ind; [done|].
  rewrite last_snoc. destruct (b_free c) eqn:E; [|done]. apply H; [set_solver|done].
Qed.

Lemma small_tiles s e bl l total :
  row KERNEL_HEAP_START e bl -> heap_mem (s_mem s) (heap_head (s_heap s)) bl ->
  (forall c, c ∈ l -> c ∈ bl) -> (forall c, c ∈ l -> b_free c = true -> b_size c < total) ->
  forall x, x ∈ faddrs l -> x <> 0 /\ load64 (s_mem s) x < total.
Proof.
  intros Hr Hm Hsub Hall x (c & Hc & Hf & <-)%elem_of_faddrs.
  destruct (row_in _ _ _ c Hr (Hsub c Hc)) as (? & _).
  rewrite (hm_size _ _ _ Hm) by auto. split; [lia|auto].
Qed.

(** A round of the [try_again] loop that finds a block, from the headers alone. *)
Lemma try_fit_raw attempts s pre a n post total E :
  let bl := pre ++ Tile a n true :: post in
  row KERNEL_HEAP_START (heap_end s) bl -> heap_mem (s_mem s) (heap_head (s_heap s)) bl ->
  16 <= total <= n -> total mod 16 = 0 ->
  (forall c, c ∈ pre -> b_free c = true -> b_size c < total) ->
  wp (kmalloc_try (S attempts) total (heap_head (s_heap s))) s
    (fun r s' => r = a + 16 /\ exists m' hd',
       s' = on_locks (set_latch heap_lock false) (heap_upd m' hd' s) /\
       heap_mem m' hd' (pre ++ place total (Tile a n true) ++ post) /\
       agree_off (in_free bl) (s_mem s) m') E.
Proof.
  intros bl Hrow Hm Ht Htm Hpre. cbn [kmalloc_try]. apply wp_bind, wp_gets.
  pose proof Hm as [Hms Hml]. pose proof (tiling_length _ _ _ (rw_tiling _ _ _ Hrow)) as Hlen.
  pose proof (faddrs_length bl) as Hfl.
  destruct (row_in _ _ _ (Tile a n true) Hrow ltac:(set_solver)) as (Ha0 & _).
  unfold bl in Hml, Hfl. rewrite faddrs_app in Hml, Hfl. cbn [faddrs b_free b_addr] in Hml, Hfl.
  rewrite length_app in Hfl. simpl in Hfl.
  eapply wp_bind, wp_ok; [apply (find_fit_found _ total 0 _ (faddrs pre) a (faddrs post))|].
  - exact Hml.
  - apply (small_tiles s _ bl pre total Hrow Hm); [set_solver|done].
  - cbn in Ha0. lia.
  - pose proof (Hms (Tile a n true) ltac:(set_solver)) as Ea. cbn [b_addr b_size] in Ea. lia.
  - fold bl in Hfl. unfold heap_end in Hlen. zlia.
  - by apply (take_block_spec s KERNEL_HEAP_START (heap_end s)).
Qed.

(** A round of the [try_again] loop that finds a block. *)
Lemma kmalloc_try_fit attempts s root T pre a n post total E :
  heap_core s root T (pre ++ Tile a n true :: post) -> 16 <= total <= n -> total mod 16 = 0 ->
  (forall c, c ∈ pre -> b_free c = true -> b_size c < total) ->
  wp (kmalloc_try (S attempts) total (heap_head (s_heap s))) s
    (fun r s' => r = a + 16 /\ exists s0, s' = on_locks (set_latch heap_lock false) s0 /\
       allocated s root (pre ++ Tile a n true :: post) total r s0 T
         (pre ++ place total (Tile a n true) ++ post)) E.
Proof.
  intros H Ht Htm Hpre.
  eapply wp_mono; [by apply (try_fit_raw attempts s pre a n post total E (heap_row _ _ _ _ H) (ho_mem _ _ _ _ H))| |done].
  intros r s' (-> & m' & hd' & -> & Hm' & Hag). split; [done|]. eexists. split; [done|].
  by apply take_allocated.
Qed.

(** The [try_again] loop: with enough attempts left, it ends. *)
Lemma kmalloc_try_spec attempts s root T bl total :
  heap_core s root T bl -> 16 <= total -> total mod 16 = 0 ->
  total <= last_free bl + 65536 * (Z.of_nat attempts - 1) -> (0 < attempts)%nat ->
  heap_size (s_heap s) + 65536 * Z.of_nat attempts <= 2 ^ 46 ->
  wp (kmalloc_try attempts total (heap_head (s_heap s))) s
    (fun r s' => exists s0 T' bl', s' = on_locks (set_latch heap_lock false) s0 /\
       allocated s root bl total r s0 T' bl') out_of_memory.
Proof.
  revert s T bl. induction attempts as [|attempts IH]; intros s T bl H Ht Htm Hlast Hpos Hsz; [lia|].
  destruct (first_fit bl total) as [(pre & a & n & post & -> & Hn & Hpre)|Hnone].
  { eapply wp_mono; [by apply (kmalloc_try_fit attempts s root T)| |done].
    intros r s' (_ & s0 & -> & Hal). eauto. }
  cbn [kmalloc_try]. apply wp_bind, wp_gets. pose proof (ho_mem _ _ _ _ H) as [Hms Hml].
  pose proof (walk_fuel_enough _ _ _ _ H) as Hfuel.
  eapply wp_bind, wp_ok.
  { apply (find_fit_none _ total 0 _ (faddrs bl)); [exact Hml| |lia].
    by apply (small_tiles s _ bl bl total (heap_row _ _ _ _ H) (ho_mem _ _ _ _ H)). }
  assert (0 < attempts)%nat as Hpos'.
  { pose proof (last_free_small bl total ltac:(lia) Hnone). lia. }
  eapply wp_call; [by apply (heap_expand_spec s root T bl 16 H); lia|].
  intros r1 s1 (-> & T1 & H1 & C1 & Hs1 & A1). apply wp_bind, wp_ret, wp_bind, wp_gets.
  change (16 * 4096) with 65536 in *.
  eapply wp_mono; [apply (IH s1 T1 (extend bl (heap_end s) 65536)); try done; [|lia]| |done].
  { rewrite extend_last_free. lia. }
  intros r s' (s0 & T' & bl' & -> & [B1 B2 B3 B4 B5]). exists s0, T', bl'. split; [done|].
  rewrite extend_allocs in B4. split; [done|by etransitivity|lia|done|].
  assert (forall x, in_alloc bl x -> in_alloc (extend bl (heap_end s) 65536) x) as Hext.
  { intros x. apply in_alloc_allocs. intros b. by rewrite extend_allocs. }
  intros x Hx Hor. rewrite B5; [|done|destruct Hor; auto].
  apply A1. intros [?|Hf]; [lia|]. pose proof (ho_tiles _ _ _ _ H1) as Htl1. destruct Hor as [Hal|Hge].
  - by apply (free_not_alloc _ _ _ x Htl1 eq_refl Hf), Hext.
  - apply (in_free_range _ _ _ _ Htl1 eq_refl) in Hf. unfold heap_end in *. lia.
Qed.

Lemma heap_core_relock s root T bl b :
  heap_core s root T bl -> heap_core (on_locks (set_latch heap_lock b) s) root T bl.
Proof.
  intros [H1 H2 H3 H4 H5 H6 H7 H8].
  destruct (heap_write_ready s (on_locks (set_latch heap_lock b) s) _ root T H1) as (R & L & U); try done.
  split; try done. apply (backed_ext s); [done|done|]. intros a. apply U.
Qed.

Lemma ALIGN_UP_HEAP_alt sz : 0 <= sz -> sz + 15 < 2 ^ 64 -> ALIGN_UP_HEAP sz = (sz + 15) / 16 * 16.
Proof.
  intros. unfold ALIGN_UP_HEAP. change (16 - 1) with 15. rewrite land_lnot_15, u64_small by lia.
  f_equal. f_equal. lia.
Qed.

(** The bytes [kmalloc] sets aside for a request, header included. *)
Definition block_bytes (sz : Z) : Z := (sz + 15) / 16 * 16 + 16.

Lemma kmalloc_allocates s root T bl sz :
  heap_ok s root T bl -> 0 < sz -> heap_size (s_heap s) + 16 * sz + 2 ^ 20 <= 2 ^ 46 ->
  wp (kmalloc sz) s
    (fun r s' => exists T' bl', allocated s root bl (block_bytes sz) r s' T' bl' /\
       latch heap_lock (s_locks s') = false) out_of_memory.
Proof.
  intros [H Hlk] Hsz Hmax. pose proof (ho_size _ _ _ _ H). unfold kmalloc.
  destruct (Z.eqb_spec sz 0) as [|_]; [lia|].
  rewrite ALIGN_UP_HEAP_alt by lia. change (ALIGN_UP_HEAP 8) with 16. fold (block_bytes sz).
  set (n := block_bytes sz). assert (32 <= n <= sz + 31 /\ n mod 16 = 0) as [Hn Hnm]
    by (unfold n, block_bytes; zlia).
  rewrite u64_small by lia. destruct (Z.ltb_spec n 16); [lia|].
  apply wp_bind, wp_gets, wp_bind, wp_spin_lock; [done|].
  set (sl := on_locks (set_latch heap_lock true) s).
  eapply wp_mono; [apply (kmalloc_try_spec _ sl root T bl n (heap_core_relock _ _ _ _ true H)); try done| |done].
  - assert (0 <= last_free bl) by (unfold last_free; destruct (last bl) as [[? k []]|] eqn:E; try lia;
      apply last_Some_elem_of, (row_in _ _ _ _ (heap_row _ _ _ _ H)) in E; cbn in E; cbn; lia).
    rewrite Z2Nat.id by zlia. zlia.
  - zlia.
  - change (heap_size (s_heap sl)) with (heap_size (s_heap s)). rewrite Z2Nat.id by zlia. zlia.
  - intros r s' (s0 & T' & bl' & -> & [B1 B2 B3 B4 B5]). exists T', bl'. split; [|apply latch_set_eq].
    split; [by apply heap_core_relock| |done|done|done]. destruct B2 as [C1 C2 C3 C4 C5 C6 C7 C8 C9 C10 C11 C12 C13].
    split; cbn [on_locks set_locks s_cpu s_io s_dev s_boot s_locks s_vmm s_proc s_vfs s_kbd s_irq s_gdt s_ac97 s_fb]; try done.
    rewrite C5. cbn [sl on_locks set_locks s_locks]. by apply set_latch_relock.
Qed.

(** C7: [kmalloc] on a well-formed heap either stops for lack of memory or
    returns, after finitely many expansions, a 16-byte aligned block of at
    least [sz] bytes that no other live block overlaps; the invariant is
    kept, all earlier blocks stay allocated with their contents, and locks and
    other subsystems are as before. *)
Theorem kmalloc_spec (s : kstate) (root : Z) (T : gmap (list Z) Z) (bl : list tile) (sz : Z) :
  heap_ok s root T bl -> 0 < sz -> heap_size (s_heap s) + 16 * sz + 2 ^ 20 <= 2 ^ 46 ->
  wp (kmalloc sz) s
    (fun r s' => exists T' bl', heap_ok s' root T' bl' /\ heap_ctx s s' /\
       r mod 16 = 0 /\ KERNEL_HEAP_START < r /\ r + sz <= heap_end s' /\
       allocs bl' ≡ₚ Tile (r - 16) (block_bytes sz) false :: allocs bl /\
       sz + 16 <= block_bytes sz < sz + 32 /\
       (forall x, r <= x < r + sz -> ~ in_alloc bl x) /\
       (forall x, in_alloc bl x -> rd (s_mem s') x = rd (s_mem s) x)) out_of_memory.
Proof.
  intros H Hsz Hmax. eapply wp_mono; [by apply (kmalloc_allocates s root T bl)| |done].
  intros r s' (T' & bl' & [B1 B2 B3 B4 B5] & Hlk). exists T', bl'. pose proof (ho_tiles _ _ _ _ B1) as Ht.
  assert (sz + 16 <= block_bytes sz < sz + 32) as Hbb by (unfold block_bytes; zlia).
  assert (Tile (r - 16) (block_bytes sz) false ∈ bl') as Hin.
  { apply elem_of_allocs. rewrite B4. set_solver. }
  destruct (tiling_in _ _ _ _ Ht eq_refl Hin) as (? & ? & Hm & _). cbn [b_addr b_size] in *.
  split_and!; try done; try lia; [zlia| |].
  - intros x Hx (b & Hb & Hf & Hbx).
    assert (b ∈ allocs bl) as Hba by by apply elem_of_allocs.
    assert (b ∈ bl') as Hb'. { apply elem_of_allocs. rewrite B4. set_solver. }
    assert (b = Tile (r - 16) (block_bytes sz) false) as ->.
    { apply (tiling_disjoint _ _ _ _ _ x Ht eq_refl Hb' Hin Hbx). cbn. lia. }
    pose proof (allocs_nodup _ _ _ Ht eq_refl) as Hnd. rewrite B4 in Hnd.
    by apply NoDup_cons in Hnd as [Hnd _].
  - intros x Hx. apply B5; [|by left]. destruct Hx as (b & Hb & _ & Hbx).
    destruct H as [H _]. destruct (tiling_in _ _ _ _ (ho_tiles _ _ _ _ H) eq_refl Hb) as (? & _). lia.
Qed.

(** ** Freeing *)

Lemma land_15 x : Z.land x 15 = x mod 16.
Proof. change 15 with (Z.ones 4). by rewrite Z.land_ones. Qed.

Lemma kfree_releases s root T pre a n post :
  heap_ok s root T (pre ++ Tile a n false :: post) ->
  wp (kfree (a + 16)) s
    (fun _ s' => heap_ok s' root T (release pre a n post) /\ heap_ctx s s' /\
       heap_size (s_heap s') = heap_size (s_heap s) /\
       agree_off (in_free (release pre a n post)) (s_mem s) (s_mem s')) no_panic.
Proof.
  intros [H Hlk]. pose proof (heap_row _ _ _ _ H) as Hrow. pose proof (ho_mem _ _ _ _ H) as [Hms Hml].
  pose proof (walk_fuel_enough _ _ _ _ H) as Hfuel. set (b := Tile a n false) in *.
  pose proof (row_in _ _ _ b Hrow ltac:(set_solver)) as (Ha0 & Ham & Hn & Hnm & Hlow & Hhigh & _).
  pose proof (Hms b ltac:(set_solver)) as Hsz. cbn [b b_addr b_size] in *.
  rewrite faddrs_app in Hml, Hfuel. cbn [faddrs b b_free b_addr] in Hml, Hfuel. rewrite length_app in Hfuel.
  assert (row KERNEL_HEAP_START (heap_end s) (pre ++ Tile a n true :: post)) as Hrow'.
  { destruct Hrow as [R1 R2 R3 R4]. split; try done. rewrite tiling_app in *. exact R1. }
  destruct (row_split _ _ _ _ _ Hrow') as (Hpre & Hpost & _). cbn [b_addr b_size] in *.
  unfold kfree. destruct (Z.eqb_spec (a + 16) 0) as [|_]; [lia|]. change (ALIGN_UP_HEAP 8) with 16.
  replace (u64 (a + 16 - 16)) with a by (rewrite u64_small; unfold heap_end in *; pose proof (ho_size _ _ _ _ H); lia).
  apply wp_bind, wp_gets, wp_bind, wp_gets. rewrite Hsz, (ho_start _ _ _ _ H).
  fold (heap_end s). rewrite (u64_small (heap_end s)) by (split; [lia|apply Hrow]).
  destruct (Z.ltb_spec a KERNEL_HEAP_START), (Z.leb_spec (heap_end s) a); try lia. cbn [orb].
  destruct (Z.ltb_spec n 16); [lia|]. change (16 - 1) with 15. rewrite land_15, Ham. cbn [Z.eqb negb].
  apply wp_bind, wp_spin_lock; [done|]. apply wp_bind, wp_gets, wp_bind, wp_gets.
  set (sl := on_locks (set_latch heap_lock true) s).
  eapply wp_bind, wp_ok.
  { apply (find_place_spec _ a 0 _ (faddrs pre) (faddrs post)); [exact Hml| | |].
    - intros c Hc. split; [|by apply (row_before _ _ _ _ _ _ Hrow' Hc)].
      assert (c ∈ faddrs (pre ++ b :: post)) as Hc' by (rewrite faddrs_app; set_solver).
      destruct (row_faddr _ _ _ c Hrow Hc'). lia.
    - intros c Hc. apply (row_after _ _ _ _ _ _ Hrow') in Hc. cbn in Hc. lia.
    - change (s_heap sl) with (s_heap s). lia. }
  apply wp_bind, wp_modify. set (s1 := on_mem _ sl).
  assert (heap_mem (s_mem s1) (heap_head (s_heap s)) (pre ++ post)) as Hm1.
  { cbn [s1 sl on_mem on_locks set_mem set_locks s_mem]. split.
    - intros c Hc. rewrite load_size_size; [|done|apply (row_in _ _ _ c Hrow); set_solver|unfold heap_end in *; pose proof (ho_size _ _ _ _ H); lia].
      destruct (Z.eqb_spec (b_addr c) a) as [E|_]; [|apply Hms; set_solver].
      rewrite <- Hsz, <- E. apply Hms. set_solver.
    - rewrite faddrs_app. eapply lseg_ext; [|exact Hml]. intros c Hc. apply load_size_next; [done|].
      apply (row_faddr _ _ _ c Hrow). rewrite faddrs_app. exact Hc. }
  apply wp_assoc. eapply wp_call.
  { apply (insert_spec s1 KERNEL_HEAP_START (heap_end s) pre a n post no_panic Hrow' Hm1).
    apply load_store64. unfold heap_end in *. pose proof (ho_size _ _ _ _ H). lia. }
  intros [] s2 (m2 & hd2 & -> & Hm2 & Hag2). apply wp_spin_unlock.
  assert (tiling KERNEL_HEAP_START (heap_end s) (release pre a n post)) as Htl by by apply (release_tiling _ _ _ _ _ _ Hpre Hpost).
  assert (agree_off (in_free (release pre a n post)) (s_mem s) m2) as Hag.
  { eapply agree_off_trans; [|exact Hag2]. intros x Hx. apply rd_store64_ne.
    destruct (decide (a <= x < a + 8)); [|lia]. exfalso. apply Hx.
    apply (in_free_release _ _ _ _ _ _ _ Hpre Hpost); [lia|].
    exists (Tile a n true). split_and!; [set_solver|done|cbn; lia|cbn; lia]. }
  assert (on_locks (set_latch heap_lock false) (heap_upd m2 hd2 s1) = heap_upd m2 hd2 s) as ->.
  { apply kstate_ext; try done. cbn [on_locks set_locks heap_upd on_heap set_heap set_mem s_locks s1 sl on_mem].
    by apply set_latch_relock. }
  split_and!; [split; [|done]|by split; auto|done|done].
  apply (heap_core_upd s root T (pre ++ b :: post)); [done|done| |done|].
  - pose proof (ho_coal _ _ _ _ H) as (C1 & C2 & _)%coalesced_app. apply release_coalesced; [done|].
    destruct post as [|c post]; [done|]. by destruct C2.
  - eapply agree_off_weaken; [|exact Hag]. intros x Hx. by apply (in_free_range _ _ _ x Htl).
Qed.

(** C8: freeing a live block never panics: exactly that block leaves the set of
    allocated blocks, it is merged with the free blocks next to it so that no
    two free blocks touch, and every other live block keeps its contents. *)
Theorem kfree_spec (s : kstate) (root : Z) (T : gmap (list Z) Z) (bl : list tile) (p n : Z) :
  heap_ok s root T bl -> Tile (p - 16) n false ∈ bl ->
  wp (kfree p) s
    (fun _ s' => exists bl', heap_ok s' root T bl' /\ heap_ctx s s' /\
       heap_size (s_heap s') = heap_size (s_heap s) /\
       allocs bl ≡ₚ Tile (p - 16) n false :: allocs bl' /\
       (forall x, in_alloc bl' x -> rd (s_mem s') x = rd (s_mem s) x)) no_panic.
Proof.
  intros H Hin. apply list_elem_of_split in Hin as (pre & post & ->).
  replace p with (p - 16 + 16) at 1 by lia.
  eapply wp_mono; [by apply (kfree_releases s root T)| |done].
  intros [] s' (H' & C & Hsz & Hag). exists (release pre (p - 16) n post).
  split_and!; try done.
  - rewrite allocs_app, release_allocs. cbn [allocs b_free]. symmetry. apply Permutation_middle.
  - intros x Hx. apply Hag. intros Hf. destruct H' as [H' _].
    by apply (free_not_alloc _ _ _ x (ho_tiles _ _ _ _ H') eq_refl Hf).
Qed.

(** A block that was just taken, given back. *)
Lemma release_place pre a n post total :
  coalesced (pre ++ Tile a n true :: post) -> 16 <= total <= n -> total mod 16 = 0 -> n mod 16 = 0 ->
  exists rest, pre ++ place total (Tile a n true) ++ post = pre ++ Tile a total false :: rest /\
    release pre a total rest = pre ++ Tile a n true :: post.
Proof.
  intros Hc Ht Htm Hnm. apply coalesced_app in Hc as (_ & C2 & C3).
  assert (forall x rest, release pre a x rest = pre ++ merge_right a x rest) as Hrel.
  { intros x rest. destruct (release_cases pre a x rest) as [(pre' & p & -> & Hp & _)|[_ ->]]; [|done].
    exfalso. apply (C3 p (Tile a n true)); [by rewrite last_snoc|done|done]. }
  unfold place. cbn [b_size b_addr]. destruct (Z.leb_spec (total + 16) n).
  - exists (Tile (a + total) (n - total) true :: post). split; [done|]. rewrite Hrel.
    cbn [merge_right b_free b_size]. by replace (total + (n - total)) with n by lia.
  - exists post. replace total with n by zlia. split; [done|]. rewrite Hrel.
    destruct post as [|c post]; [done|]. cbn [merge_right]. destruct C2 as [C2 _]. cbn in C2.
    destruct (b_free c); [exfalso; auto|done].
Qed.

(** C9: when some free block fits, allocating and freeing again returns the heap
    to the very same row of blocks, without panic. *)
Theorem kmalloc_kfree_roundtrip (s : kstate) (root : Z) (T : gmap (list Z) Z) (bl : list tile)
    (sz : Z) (b : tile) :
  heap_ok s root T bl -> 0 < sz < 2 ^ 46 -> b ∈ bl -> b_free b = true -> block_bytes sz <= b_size b ->
  wp (r <- kmalloc sz;; kfree r) s (fun _ s' => heap_ok s' root T bl /\ heap_ctx s s') no_panic.
Proof.
  intros [H Hlk] Hsz Hb Hbf Hfit. unfold kmalloc. destruct (Z.eqb_spec sz 0) as [|_]; [lia|].
  rewrite ALIGN_UP_HEAP_alt by lia. change (ALIGN_UP_HEAP 8) with 16. fold (block_bytes sz).
  set (n := block_bytes sz) in *. assert (32 <= n <= sz + 31 /\ n mod 16 = 0) as [Hn Hnm]
    by (unfold n, block_bytes; zlia).
  rewrite u64_small by lia. destruct (Z.ltb_spec n 16); [lia|].
  destruct (first_fit bl n) as [(pre & a & k & post & -> & Hk & Hpre)|Hnone].
  2: { specialize (Hnone b Hb Hbf). lia. }
  apply wp_bind, wp_bind, wp_gets, wp_bind, wp_spin_lock; [done|].
  replace (Z.to_nat (n / 4096 + 2)) with (S (Z.to_nat (n / 4096 + 1))) by zlia.
  set (sl := on_locks (set_latch heap_lock true) s).
  destruct (row_in _ _ _ (Tile a k true) (heap_row _ _ _ _ H) ltac:(set_solver)) as (_ & _ & _ & Hkm & _).
  eapply wp_mono; [apply (kmalloc_try_fit _ sl root T pre a k post n no_panic); try done| |done].
  { by apply heap_core_relock. }
  intros r s' (-> & s0 & -> & [B1 B2 B3 B4 B5]).
  destruct (release_place pre a k post n (ho_coal _ _ _ _ H) ltac:(lia) Hnm Hkm) as (rest & Er & Erel).
  rewrite Er in B1. set (s1 := on_locks (set_latch heap_lock false) s0).
  assert (heap_ctx s s1) as C1.
  { destruct B2 as [C1 C2 C3 C4 C5 C6 C7 C8 C9 C10 C11 C12 C13]. split; try done.
    cbn [s1 on_locks set_locks s_locks]. rewrite C5. by apply set_latch_relock. }
  eapply wp_mono; [apply (kfree_releases s1 root T pre a n rest)| |done].
  { split; [by apply heap_core_relock|apply latch_set_eq]. }
  intros [] s2 (H2 & C2 & _ & _). rewrite Erel in H2. split; [done|]. by etransitivity.
Qed.

End heap_spec.
