(* ===== verification/Budget.v ===== *)
(** * How many pages a function may take

    The functions on the way to [pmm_allocate] stop the kernel when no page is
    free.  [costs k m] bounds what [m] takes: it leaves at most [k] fewer free
    pages, and it runs out of memory only where fewer than [k] were free at its
    start.  The rules follow the program text, so a bound holds in every state,
    whatever the page tables and the heap look like.  Together with a theorem
    that allows for a lack of memory, a bound shows that there is none when
    enough pages are free ([wp_budget]). *)

From S2P Require Import Prelude Memory State Cpu Libc Pmm Vmm Heap.

Definition frees (s : kstate) : nat := length (free_list (s_pmm s)).

Definition costs {A} (k : nat) (m : M A) : Prop :=
  forall s, match m s with
  | Ok _ s' => (frees s <= frees s' + k)%nat
  | Panic msg s' => out_of_memory msg s' -> (frees s < k)%nat
  | _ => True
  end.

Create HintDb budget.

Lemma wp_budget {A} (k : nat) (m : M A) s Q :
  costs k m -> wp m s Q out_of_memory ->
  wp m s Q (fun msg s' => out_of_memory msg s' /\ (frees s < k)%nat).
Proof. intros Hc Hw. specialize (Hc s). unfold wp in *. destruct (m s); try done. split; [done|by apply Hc]. Qed.

(** With that many pages free the function returns. *)
Lemma wp_enough {A} (k : nat) (m : M A) s Q :
  (k <= frees s)%nat -> wp m s Q (fun msg s' => out_of_memory msg s' /\ (frees s < k)%nat) ->
  exists r s', m s = Ok r s' /\ Q r s'.
Proof. intros Hk Hw. unfold wp in Hw. destruct (m s) as [r s'|? ?| | |]; try done; [by exists r, s'|]. destruct Hw as [_ ?]. lia. Qed.

(** ** Rules *)

Lemma costs_le {A} k k' (m : M A) : costs k m -> (k <= k')%nat -> costs k' m.
Proof. intros H Hk s. specialize (H s). destruct (m s); try done; [lia|]. intros Ho. specialize (H Ho). lia. Qed.

Lemma costs_bind {A B} k1 k2 (m : M A) (f : A -> M B) :
  costs k1 m -> (forall a, costs k2 (f a)) -> costs (k1 + k2) (bind m f).
Proof.
  intros H1 H2 s. specialize (H1 s). unfold bind. destruct (m s) as [a s1|msg s1| | |]; try done.
  - specialize (H2 a s1). destruct (f a s1); try done; [lia|]. intros Ho. specialize (H2 Ho). lia.
  - intros Ho. specialize (H1 Ho). lia.
Qed.

Lemma costs_bind_free {A B} k (m : M A) (f : A -> M B) :
  costs 0 m -> (forall a, costs k (f a)) -> costs k (bind m f).
Proof. apply (costs_bind 0 k). Qed.

Lemma costs_ret {A} k (a : A) : costs k (ret a).
Proof. intros s. cbn. lia. Qed.

Lemma costs_gets {A} (f : kstate -> A) : costs 0 (gets f).
Proof. intros s. cbn. lia. Qed.

Lemma costs_modify f : (forall s, s_pmm (f s) = s_pmm s) -> costs 0 (modify f).
Proof. intros H s. cbn. unfold frees. rewrite H. lia. Qed.

Lemma costs_panic {A} k msg : msg <> "out of memory in pmm_allocate!"%string -> costs k (panic (A := A) msg).
Proof. intros H s Ho. by destruct H. Qed.

Lemma costs_diverge {A} k : costs k (diverge (A := A)).
Proof. by intros s. Qed.

Lemma costs_lock l : costs 0 (spin_lock l).
Proof. intros s. unfold spin_lock. destruct (latch _ _); [done|]. change (frees s <= frees s + 0)%nat. lia. Qed.

Lemma costs_base_virt p : costs 0 (base_virt p).
Proof. intros s. unfold base_virt. destruct (_ !! _); [lia|done]. Qed.

Lemma costs_for k n i body : (forall j, costs k (body j)) -> costs (n * k) (for_loop n i body).
Proof.
  intros H. revert i. induction n as [|n IH]; intros i; [apply costs_ret|]. cbn [for_loop Nat.mul].
  apply costs_bind; [apply H|intros _; apply IH].
Qed.

(** Follows the text of a function whose calls have known bounds. *)
Ltac budget :=
  lazymatch goal with
  | |- costs _ (let x := _ in _) => intros x; budget
  | |- costs _ (bind _ _) => apply costs_bind_free; [solve [budget]|intros ?; budget]
  | |- costs _ (if ?b then _ else _) => destruct b; budget
  | |- costs _ (match ?x with _ => _ end) => destruct x; budget
  | |- costs _ (when ?b _) => unfold when; destruct b; budget
  | |- costs _ (ASSERT ?b) => unfold ASSERT; destruct b; budget
  | |- costs _ (ret _) => apply costs_ret
  | |- costs _ (panic _) => apply costs_panic; discriminate
  | |- costs _ diverge => apply costs_diverge
  | |- costs 0 (gets _) => apply costs_gets
  | |- costs 0 (modify _) => apply costs_modify; reflexivity
  | |- costs 0 (spin_lock _) => apply costs_lock
  | |- costs 0 (base_virt _) => apply costs_base_virt
  | |- _ => solve [auto with budget nocore]
  end.

(** ** The functions *)

Lemma costs_pmm_allocate : costs 1 pmm_allocate.
Proof.
  intros s. unfold pmm_allocate. erewrite bind_ok by reflexivity. unfold bind at 1, spin_lock.
  destruct (latch _ _); [done|]. erewrite bind_ok by reflexivity.
  match goal with |- context [pmm_scan _ _ ?t] => set (s1 := t) end.
  assert (s_pmm s1 = s_pmm s) as E by done. assert (frees s1 = frees s) as <- by (unfold frees; by rewrite E).
  destruct (Z.lt_ge_cases (highest_page (s_pmm s1) + 1) 0) as [Hneg|Hpos].
  { replace (Z.to_nat (highest_page (s_pmm s1) + 1)) with 0%nat by lia.
    assert (frees s1 = 0)%nat as -> by (unfold frees, free_list, seqZ; by rewrite Z2Nat.nonpos by lia). cbn. lia. }
  destruct (pmm_scan_spec (Z.to_nat (highest_page (s_pmm s1) + 1)) 0 s1) as [(k & Hk & _ & ->)|[Hall ->]]; [lia..| |].
  - pose proof Hk as (_ & Hu & _). unfold page_used in Hu.
    assert (exists s2, pmm_scan 1 k s1 = Ok (u64 (k * 4096)) s2 /\ s_pmm s2 = take_page k (s_pmm s1)) as (s2 & -> & E2).
    { cbn [pmm_scan]. erewrite bind_ok by reflexivity. rewrite BITMAP_GET_bit, Hu. cbn [negb]. by eexists. }
    unfold frees. rewrite E2, (free_list_take _ (take_page k (s_pmm s1)) k Hk eq_refl (take_page_used _ k)). cbn [length]. lia.
  - cbn. intros _. unfold frees. destruct (free_list (s_pmm s1)) as [|i l] eqn:El; [cbn; lia|].
    assert (i ∈ free_list (s_pmm s1)) as [Hi Hu]%elem_of_free_list by (rewrite El; left). by rewrite Hall in Hu by lia.
Qed.

Lemma costs_read a : costs 0 (read64 a).
Proof. unfold read64. budget. Qed.
Lemma costs_write a v : costs 0 (write64 a v).
Proof. unfold write64. budget. Qed.
Lemma costs_unlock l : costs 0 (spin_unlock l).
Proof. unfold spin_unlock. budget. Qed.
Lemma costs_memset p c n : costs 0 (memset p c n).
Proof. unfold memset. budget. Qed.
#[export] Hint Resolve costs_read costs_write costs_unlock costs_memset : budget.

Lemma costs_next_level a i b f : costs 1 (vmm_get_next_level a i b f).
Proof.
  unfold vmm_get_next_level, VMM_HIGHER_HALF. do 2 (apply costs_bind_free; [budget|intros ?]).
  destruct (present _); [apply costs_ret|]. destruct b; cbn [negb]; [|apply costs_ret].
  apply (costs_bind 1 0); [apply costs_pmm_allocate|]. intros x. budget.
Qed.

(** A mapping may need three new tables. *)
Lemma costs_map_page pm v p f : costs 3 (vmm_map_page pm v p f).
Proof.
  unfold vmm_map_page, map_page_fail, vmm_invalidate_page. do 2 (apply costs_bind_free; [budget|intros ?]).
  do 3 (match goal with |- context [if ?b then _ else _] => destruct b end; [budget|];
        apply (costs_bind 1); [apply costs_next_level|intros ?]). budget.
Qed.

Lemma costs_expand_page base i : costs 4 (expand_page base i).
Proof.
  unfold expand_page. apply (costs_bind 1 3); [apply costs_pmm_allocate|intros x]. destruct (x =? 0); [budget|].
  apply costs_bind_free; [budget|intros ?]. apply (costs_bind 3 0); [apply costs_map_page|intros ?]. budget.
Qed.

Lemma costs_find_place fuel b p c : costs 0 (find_place fuel b p c).
Proof.
  revert p c. induction fuel as [|fuel IH]; intros p c; cbn [find_place]; unfold get_next; budget.
Qed.
#[export] Hint Resolve costs_find_place : budget.

Lemma costs_add_region b n : costs 0 (add_region b n).
Proof.
  unfold add_region, link_block, merge_block, walk_fuel, set_size, set_next, get_size, get_next, get_head, set_head.
  budget.
Qed.
#[export] Hint Resolve costs_add_region : budget.

(** A page of heap costs its frame and its tables. *)
Lemma costs_expand n : costs (Z.to_nat n * 4) (heap_expand_pages n).
Proof.
  unfold heap_expand_pages. destruct (n =? 0); [apply costs_ret|]. do 3 (apply costs_bind_free; [budget|intros ?]).
  rewrite <- (Nat.add_0_r (_ * 4)). apply costs_bind; [apply costs_for; intros j; apply costs_expand_page|intros ?]. budget.
Qed.

Lemma costs_heap_install : costs 1024 heap_install.
Proof.
  unfold heap_install. apply costs_bind_free; [budget|intros h]. destruct (negb _); [budget|].
  apply costs_bind_free; [budget|intros ?]. apply (costs_bind 1024 0); [apply (costs_expand 256)|intros ?]. budget.
Qed.

Lemma costs_find_fit fuel t p c : costs 0 (find_fit fuel t p c).
Proof. revert p c. induction fuel as [|fuel IH]; intros p c; cbn [find_fit]; unfold get_size, get_next; budget. Qed.
#[export] Hint Resolve costs_find_fit : budget.

Lemma costs_take_block t p c : costs 0 (take_block t p c).
Proof. unfold take_block, relink, set_size, set_next, get_size, get_next, set_head. budget. Qed.
#[export] Hint Resolve costs_take_block : budget.

(** Every round of [kmalloc] may grow the heap by sixteen pages. *)
Lemma costs_kmalloc_try n t c : costs (n * 68) (kmalloc_try n t c).
Proof.
  revert c. induction n as [|n IH]; intros c; [apply costs_diverge|]. cbn [kmalloc_try].
  unfold walk_fuel, get_head. do 2 (apply costs_bind_free; [budget|intros ?]).
  match goal with |- context [match ?r with Some _ => _ | None => _ end] => destruct r as [[p b]|] end.
  { eapply costs_le; [apply costs_take_block|lia]. }
  change (S n * 68)%nat with (64 + (4 + n * 68))%nat. apply (costs_bind 64); [apply (costs_expand 16)|intros ok].
  apply costs_bind.
  - destruct (negb _); [apply costs_ret|]. apply (costs_bind 4 0); [apply (costs_expand 1)|intros ?]. budget.
  - intros _. apply costs_bind_free; [budget|intros h; apply IH].
Qed.

Lemma costs_kmalloc sz : 0 <= sz < 2 ^ 63 ->
  costs (Z.to_nat (sz / 4096 + 3) * 68) (kmalloc sz).
Proof.
  intros Hsz. unfold kmalloc, get_head. destruct (sz =? 0); [apply costs_ret|]. cbv zeta.
  do 2 (apply costs_bind_free; [budget|intros ?]). eapply costs_le; [apply costs_kmalloc_try|].
  change (ALIGN_UP_HEAP 8) with 16. unfold ALIGN_UP_HEAP. change (16 - 1) with 15. rewrite land_lnot_15.
  rewrite (u64_small (sz + 16 - 1)), u64_small by (unfold in_u64; zlia).
  apply Nat.mul_le_mono_r, Z2Nat.inj_le; destruct (Z.ltb_spec ((sz + 16 - 1) / 16 * 16 + 16) 16); zlia.
Qed.
