(* ===== verification/HeapTop.v ===== *)
(** * Installing the heap, its guards and its limits (theorems about
      kernel/system/heap.c)

    [heap_install] establishes the heap invariant, [kmalloc_phys] returns
    the physical address behind a block, the checks of [kfree] stop bad
    pointers, and a request close to 2^64 wraps around; at the end concrete
    heaps. *)

From S2P Require Import Prelude Memory State Cpu Libc Pmm Vmm VmmTree VmmSpec.
From S2P Require Import Heap HeapTiles HeapList HeapSpec Budget.

Section heap_top.
Context {PA : page_allocator pmm_allocate pmm_free}.

(** C29: on a machine whose pagemap is ready and whose heap was never set up,
    [heap_install] ends with the heap invariant: one free block of 256 mapped
    pages.  With 1024 free pages it always does; with fewer it may stop for
    lack of memory. *)
Theorem heap_install_spec (s : kstate) (root : Z) (T : gmap (list Z) Z) :
  vmm_ready s (kernel_pagemap (s_vmm s)) root T -> latch heap_lock (s_locks s) = false ->
  heap_start (s_heap s) = 0 -> heap_head (s_heap s) = 0 ->
  wp heap_install s
    (fun _ s' => exists T', heap_ok s' root T' [Tile KERNEL_HEAP_START (256 * 4096) true] /\
       heap_ctx s s' /\ heap_size (s_heap s') = 256 * 4096)
    (fun msg s' => out_of_memory msg s' /\ (frees s < 1024)%nat).
Proof.
  intros R Hl Hs Hh. apply wp_budget; [exact costs_heap_install|]. unfold heap_install. apply wp_bind, wp_gets. rewrite Hs. cbn [Z.eqb negb].
  apply wp_bind, wp_modify. set (s1 := on_heap _ s).
  destruct (heap_write_ready s s1 _ root T R) as (R1 & L1 & U1); try done.
  assert (heap_core s1 root T []) as H1.
  { split; [done|done|done|cbn; lia|done|done| |].
    - split; [by intros b ?%elem_of_nil|done].
    - split; intros; unfold heap_end in *; cbn in *; lia. }
  eapply wp_call; [apply (heap_expand_spec s1 root T [] 256 H1); cbn; lia|].
  intros r s2 (-> & T' & H2 & C2 & Hs2 & _). cbn [Z.eqb]. apply wp_ret. exists T'.
  assert (heap_ctx s s2) as C by (destruct C2; split; done).
  split_and!; [split; [exact H2|by rewrite (hc_locks _ _ C)]|done|done].
Qed.

(** [kmalloc_phys] returns a block as [kmalloc] does together with the
    physical address of its first byte: the frame that the kernel's pagemap
    maps it to, with the offset inside the page. *)
Theorem kmalloc_phys_spec (s : kstate) (root : Z) (T : gmap (list Z) Z) (bl : list tile) (sz : Z) :
  heap_ok s root T bl -> 0 < sz -> heap_size (s_heap s) + 16 * sz + 2 ^ 20 <= 2 ^ 46 ->
  wp (kmalloc_phys sz true) s
    (fun r s' => exists T' bl' p, heap_ok s' root T' bl' /\ r.2 = Some p /\
       allocs bl' ≡ₚ Tile (r.1 - 16) (block_bytes sz) false :: allocs bl /\
       p = translate s' T' r.1 /\ frame_used s' (p - r.1 mod 4096) /\
       (forall q, T' !! q <> Some (p - r.1 mod 4096))) out_of_memory.
Proof.
  intros H Hsz Hmax. unfold kmalloc_phys. destruct (Z.eqb_spec sz 0) as [|_]; [lia|].
  eapply wp_call; [by apply (kmalloc_allocates s root T bl)|].
  intros r s' (T' & bl' & [B1 B2 B3 B4 B5] & Hlk).
  assert (Tile (r - 16) (block_bytes sz) false ∈ bl') as Hin.
  { apply elem_of_allocs. rewrite B4. set_solver. }
  destruct (tiling_in _ _ _ _ (ho_tiles _ _ _ _ B1) eq_refl Hin) as (? & ? & _). cbn [b_addr b_size] in *.
  assert (16 < block_bytes sz) by (unfold block_bytes; zlia).
  apply wp_bind, wp_ASSERT; [destruct (Z.eqb_spec r 0); [lia|done]|].
  apply wp_bind, wp_gets. pose proof (ho_vmm _ _ _ _ B1) as [V1 _ V3 V4].
  eapply wp_bind, wp_ok; [by apply (virt_to_phys_translates s' _ root T')|].
  destruct (ho_backed _ _ _ _ B1) as [K1 K2 _ K4]. specialize (K1 r ltac:(lia)).
  specialize (K2 r ltac:(lia)). specialize (fun q => K4 r q ltac:(lia)) as K4'.
  destruct (pa_range _ _ V1 K2) as [Hm Hr].
  assert (translate s' T' r = PTE_GET_ADDR (leaf_entry s' T' r) + r mod 4096) as Etr.
  { unfold translate. rewrite K1, u64_small; [done|zlia]. }
  apply wp_bind, wp_ASSERT; [destruct (Z.eqb_spec (translate s' T' r) 0); [zlia|done]|].
  apply wp_ret. exists T', bl', (translate s' T' r). cbn [fst snd].
  replace (translate s' T' r - r mod 4096) with (PTE_GET_ADDR (leaf_entry s' T' r)) by lia.
  by split_and!.
Qed.

(** [kfree] ignores the null pointer and panics, before it changes
    anything, on a pointer whose header is outside the heap, whose header holds
    less than the smallest block size, or which is not 16-byte aligned. *)
Theorem kfree_guards (s : kstate) (p : Z) :
  let b := u64 (p - 16) in
  let outside := b < heap_start (s_heap s) \/ u64 (heap_start (s_heap s) + heap_size (s_heap s)) <= b in
  (p = 0 -> kfree p s = Ok tt s) /\
  (p <> 0 -> outside -> kfree p s = Panic "pointer out of bound!" s) /\
  (p <> 0 -> ~ outside -> load64 (s_mem s) b < 16 -> kfree p s = Panic "invalid block size!" s) /\
  (p <> 0 -> ~ outside -> 16 <= load64 (s_mem s) b -> b mod 16 <> 0 ->
     kfree p s = Panic "alignment error!" s).
Proof.
  intros b outside. unfold kfree. change (ALIGN_UP_HEAP 8) with 16. fold b.
  unfold bind, get_size, read64, gets. change (16 - 1) with 15. rewrite land_15.
  destruct (Z.eqb_spec p 0) as [->|Hp]; [by split_and!|].
  destruct (Z.ltb_spec b (heap_start (s_heap s))), (Z.leb_spec (u64 (heap_start (s_heap s) + heap_size (s_heap s))) b);
    cbn [orb]; unfold outside; (split_and!; intros; try done; try lia);
    destruct (Z.ltb_spec (load64 (s_mem s) b) 16); try done; try lia;
    destruct (Z.eqb_spec (b mod 16) 0); done.
Qed.

(** The size computation of [kmalloc] wraps around: a request of 2^64 - 15
    or more bytes is served with a block that has room for its header only,
    so the returned pointer is the end of the block. *)
Theorem kmalloc_size_wraps (s : kstate) (root : Z) (T : gmap (list Z) Z) (pre : list tile) (a n : Z)
    (post : list tile) (sz : Z) :
  heap_ok s root T (pre ++ Tile a n true :: post) -> faddrs pre = [] ->
  2 ^ 64 - 15 <= sz < 2 ^ 64 ->
  wp (kmalloc sz) s
    (fun r s' => r = a + 16 /\ exists bl', heap_ok s' root T bl' /\
       allocs bl' ≡ₚ Tile (r - 16) 16 false :: allocs (pre ++ Tile a n true :: post)) no_panic.
Proof.
  intros [H Hlk] Hpre Hsz. unfold kmalloc. destruct (Z.eqb_spec sz 0) as [|_]; [lia|].
  assert (ALIGN_UP_HEAP sz = 0) as ->.
  { unfold ALIGN_UP_HEAP. change (16 - 1) with 15. rewrite land_lnot_15.
    assert (u64 (sz + 16 - 1) = sz + 15 - 2 ^ 64) as ->; [|zlia].
    unfold u64. symmetry. apply (Z.mod_unique_pos _ _ 1); lia. }
  change (u64 (0 + ALIGN_UP_HEAP 8)) with 16. cbn [Z.ltb Z.compare Pos.compare Pos.compare_cont].
  apply wp_bind, wp_gets, wp_bind, wp_spin_lock; [done|].
  change (Z.to_nat (16 / 4096 + 2)) with 2%nat.
  set (sl := on_locks (set_latch heap_lock true) s).
  destruct (row_in _ _ _ (Tile a n true) (heap_row _ _ _ _ H) ltac:(set_solver)) as (_ & _ & ? & _).
  eapply wp_mono; [apply (kmalloc_try_fit 1 sl root T pre a n post 16 no_panic); try done| |done].
  { by apply heap_core_relock. }
  { intros c Hc Hf. assert (b_addr c ∈ faddrs pre) as Hin by (apply elem_of_faddrs; eauto).
    rewrite Hpre in Hin. by apply elem_of_nil in Hin. }
  intros r s' (-> & s0 & -> & [B1 B2 B3 B4 B5]). split; [done|]. eexists. split; [|exact B4].
  split; [by apply heap_core_relock|apply latch_set_eq].
Qed.
End heap_top.

(** ** A heap of one page

    A live block of 64 bytes, then a free block. *)

Definition demo_heap_with (f : mem -> mem) (hd : Z) : kstate :=
  on_heap (fun _ => mk_heap KERNEL_HEAP_START 4096 hd) (on_mem f (demo_map KERNEL_HEAP_START)).

Definition demo_heap : kstate :=
  demo_heap_with (fun m => store64 (store64 (store64 m KERNEL_HEAP_START 64)
                                 (KERNEL_HEAP_START + 64) 4032) (KERNEL_HEAP_START + 64 + 8) 0)
    (KERNEL_HEAP_START + 64).

Definition demo_tiles : list tile :=
  [Tile KERNEL_HEAP_START 64 false; Tile (KERNEL_HEAP_START + 64) 4032 true].

(** A heap of one page that is one allocated block. *)
Definition demo_full : kstate := demo_heap_with (fun m => store64 m KERNEL_HEAP_START 4096) 0.

Lemma demo_heap_with_ok f hd bl :
  agree_off (fun x => KERNEL_HEAP_START <= x) (s_mem (demo_map KERNEL_HEAP_START)) (f (s_mem (demo_map KERNEL_HEAP_START))) ->
  tiling KERNEL_HEAP_START (KERNEL_HEAP_START + 4096) bl -> coalesced bl ->
  heap_mem (f (s_mem (demo_map KERNEL_HEAP_START))) hd bl ->
  heap_ok (demo_heap_with f hd) 0x1000 (demo_tables KERNEL_HEAP_START) bl.
Proof.
  intros Hf Ht Hc Hm. set (s := demo_heap_with f hd).
  destruct (heap_write_ready (demo_map KERNEL_HEAP_START) s 0x5000 0x1000 _
    (demo_vmm_ready KERNEL_HEAP_START)) as (R & L & U); try done.
  assert (forall v, KERNEL_HEAP_START <= v < heap_end s ->
    leaf_entry s (demo_tables KERNEL_HEAP_START) v = 0x5003) as Hleaf.
  { intros v Hv. rewrite L, demo_leaf. change (heap_end s) with (KERNEL_HEAP_START + 4096) in Hv.
    unfold vpn. by replace (v / 4096) with (KERNEL_HEAP_START / 4096) by zlia. }
  split; [|done]. split; [exact R|done|done|cbn; lia|done|done|done|].
  split.
  - intros v Hv. by rewrite Hleaf.
  - intros v Hv. rewrite Hleaf by done. apply U, demo_used. set_solver.
  - intros v w Hv Hw _. change (heap_end s) with (KERNEL_HEAP_START + 4096) in *.
    unfold vpn. f_equal. zlia.
  - intros v p Hv. rewrite Hleaf by done. intros E%demo_tree_lookup.
    destruct E as [[_ E]|[[_ E]|[[_ E]|[_ E]]]]; by vm_compute in E.
Qed.

Lemma demo_heap_ok : heap_ok demo_heap 0x1000 (demo_tables KERNEL_HEAP_START) demo_tiles.
Proof.
  apply demo_heap_with_ok.
  - intros x Hx. rewrite !rd_store64_ne by lia. done.
  - cbn. by split_and!.
  - cbn. split; [|done]. by intros [? _].
  - split.
    + intros b [->|[->|[]%elem_of_nil]%elem_of_cons]%elem_of_cons; cbn [b_addr b_size].
      * by rewrite load_next_size, !load_size_size by (done || lia).
      * by rewrite load_next_size, !load_size_size by (done || lia).
    + cbn [faddrs demo_tiles b_free b_addr lseg]. split; [done|]. by rewrite load_store64 by lia.
Qed.

Lemma demo_full_ok : heap_ok demo_full 0x1000 (demo_tables KERNEL_HEAP_START) [Tile KERNEL_HEAP_START 4096 false].
Proof.
  apply demo_heap_with_ok.
  - intros x Hx. rewrite !rd_store64_ne by lia. done.
  - cbn. by split_and!.
  - done.
  - split; [|done]. intros b [->|[]%elem_of_nil]%elem_of_cons. cbn [b_addr b_size]. by apply load_store64.
Qed.

Lemma heap_install_spec_witness :
  exists s', heap_install (demo_map 0) = Ok tt s' /\
    exists T', heap_ok s' 0x1000 T' [Tile KERNEL_HEAP_START (256 * 4096) true].
Proof.
  destruct (wp_enough 1024 heap_install (demo_map 0) _ ltac:(apply Nat.leb_le; vm_compute; reflexivity)
    (heap_install_spec (demo_map 0) 0x1000 (demo_tables 0) (demo_vmm_ready 0) eq_refl eq_refl eq_refl))
    as ([] & s' & E & T' & H & _). by exists s'; split; [|exists T'].
Defined.

Lemma kmalloc_spec_witness :
  wp (kmalloc 100) demo_heap
    (fun r s' => r mod 16 = 0 /\ rd (s_mem s') (KERNEL_HEAP_START + 20) =
       rd (s_mem demo_heap) (KERNEL_HEAP_START + 20)) out_of_memory.
Proof.
  eapply wp_mono; [apply (kmalloc_spec demo_heap _ _ _ 100 demo_heap_ok); cbn; lia| |done].
  intros r s' (T' & bl' & _ & _ & Hr & _ & _ & _ & _ & _ & Hm). split; [done|]. apply Hm.
  exists (Tile KERNEL_HEAP_START 64 false). split_and!; [set_solver|done|cbn; lia|cbn; lia].
Defined.

Lemma kfree_spec_witness :
  wp (kfree (KERNEL_HEAP_START + 16)) demo_heap
    (fun _ s' => heap_size (s_heap s') = 4096) no_panic.
Proof.
  eapply wp_mono; [apply (kfree_spec demo_heap _ _ _ (KERNEL_HEAP_START + 16) 64 demo_heap_ok); set_solver| |done].
  intros [] s' (bl' & _ & _ & E & _). exact E.
Defined.

Lemma kmalloc_kfree_roundtrip_witness :
  wp (r <- kmalloc 100;; kfree r) demo_heap
    (fun _ s' => heap_ok s' 0x1000 (demo_tables KERNEL_HEAP_START) demo_tiles) no_panic.
Proof.
  eapply wp_mono; [apply (kmalloc_kfree_roundtrip demo_heap _ _ _ 100
    (Tile (KERNEL_HEAP_START + 64) 4032 true) demo_heap_ok)| |done].
  - lia.
  - set_solver.
  - done.
  - vm_compute. done.
  - intros [] s' [E _]. exact E.
Defined.

Lemma kmalloc_phys_spec_witness :
  wp (kmalloc_phys 100 true) demo_heap (fun r s' => exists p, r.2 = Some p) out_of_memory.
Proof.
  eapply wp_mono; [apply (kmalloc_phys_spec demo_heap _ _ _ 100 demo_heap_ok); cbn; lia| |done].
  intros r s' (T' & bl' & p & _ & E & _). eauto.
Defined.

Lemma kfree_guards_witness :
  kfree 0 demo_heap = Ok tt demo_heap /\ kfree 0x1000 demo_heap = Panic "pointer out of bound!" demo_heap.
Proof.
  destruct (kfree_guards demo_heap 0) as (H1 & _). destruct (kfree_guards demo_heap 0x1000) as (_ & H2 & _).
  split; [by apply H1|]. apply H2; [done|]. left. vm_compute. done.
Defined.

Lemma kmalloc_size_wraps_witness :
  wp (kmalloc (2 ^ 64 - 1)) demo_heap (fun r s' => r = KERNEL_HEAP_START + 80) no_panic.
Proof.
  eapply wp_mono; [apply (kmalloc_size_wraps demo_heap 0x1000 (demo_tables KERNEL_HEAP_START)
    [Tile KERNEL_HEAP_START 64 false] (KERNEL_HEAP_START + 64) 4032 [] (2 ^ 64 - 1) demo_heap_ok)| |done].
  - done.
  - lia.
  - intros r s' [-> _]. done.
Defined.
