(* ===== verification/HeapIface.v ===== *)
(** * The heap as its clients see it

    [heap_allocator] is what [malloc] and [free] promise to the rest of the
    kernel: blocks that are disjoint and aligned, that keep their contents
    while others come and go, and an invariant that writes inside live blocks
    do not break.  [kmalloc] and [kfree] meet it without a bound on the size of
    the heap, because every page of the heap is backed by a frame of its own
    and there are at most 2^23 frames. *)

From S2P Require Import Prelude Memory State Cpu Libc Pmm Vmm VmmTree VmmSpec.
From S2P Require Import Heap HeapTiles HeapList HeapSpec.

(** ** The interface *)

(** The top two gigabytes, where the kernel itself is linked. *)
Definition kernel_image (x : Z) : Prop := 2 ^ 64 - 2 ^ 31 <= x < 2 ^ 64.

Class heap_allocator (alloc : Z -> M Z) (release : Z -> M unit) : Type := {
  hview : Type;
  ha_ok : kstate -> hview -> Prop;
  live : hview -> Z -> Z -> Prop;
  ha_range : forall s h p n, ha_ok s h -> live h p n ->
    p mod 16 = 0 /\ KERNEL_HEAP_START < p /\ 0 <= n /\ p + n < 2 ^ 64;
  ha_disjoint : forall s h p n q k x, ha_ok s h -> live h p n -> live h q k ->
    p <= x < p + n -> q <= x < q + k -> p = q /\ n = k;
  ha_alloc : forall s h sz, ha_ok s h -> 0 < sz <= 2 ^ 40 ->
    wp (alloc sz) s (fun r s' => exists h' n, ha_ok s' h' /\ heap_ctx s s' /\ sz <= n /\
      (forall q k, live h' q k <-> live h q k \/ (q = r /\ k = n)) /\
      (forall k, ~ live h r k) /\
      (forall q k x, live h q k -> q <= x < q + k -> rd (s_mem s') x = rd (s_mem s) x)) out_of_memory;
  ha_release : forall s h p n, ha_ok s h -> live h p n ->
    wp (release p) s (fun _ s' => exists h', ha_ok s' h' /\ heap_ctx s s' /\
      (forall q k, live h' q k <-> live h q k /\ q <> p) /\
      (forall q k x, live h' q k -> q <= x < q + k -> rd (s_mem s') x = rd (s_mem s) x)) no_panic;
  ha_frame : forall s s' h, ha_ok s h ->
    s_pmm s' = s_pmm s -> s_boot s' = s_boot s -> s_vmm s' = s_vmm s -> s_heap s' = s_heap s ->
    s_locks s' = s_locks s -> cpu_ok (s_cpu s') ->
    (forall x, (forall p n, live h p n -> ~ p <= x < p + n) -> rd (s_mem s') x = rd (s_mem s) x) ->
    ha_ok s' h;
  ha_cpu : forall s h, ha_ok s h -> cpu_ok (s_cpu s);
  ha_alloc_image : forall s h sz, ha_ok s h -> 0 < sz <= 2 ^ 40 ->
    wp (alloc sz) s (fun _ s' => forall x, kernel_image x -> rd (s_mem s') x = rd (s_mem s) x) out_of_memory;
  ha_release_image : forall s h p n, ha_ok s h -> live h p n ->
    wp (release p) s (fun _ s' => forall x, kernel_image x -> rd (s_mem s') x = rd (s_mem s) x) no_panic
}.

(** ** The size of the heap *)

Section bound.
Context {PA : page_allocator pmm_allocate pmm_free}.

(** [n] pages in a row need [n] frames. *)
Lemma backed_bound s T lo hi :
  pa_ready s -> backed s T lo hi -> lo mod 4096 = 0 -> hi mod 4096 = 0 -> lo <= hi ->
  hi - lo <= 2 ^ 46 -> hi - lo <= 2 ^ 35.
Proof.
  intros Hr [B1 B2 B3 B4] Hlo Hhi Hle Hmax.
  set (f := fun i => PTE_GET_ADDR (leaf_entry s T (lo + i * 4096)) / 4096).
  set (l := f <$> seqZ 0 ((hi - lo) / 4096)).
  assert (forall i, 0 <= i < (hi - lo) / 4096 -> lo <= lo + i * 4096 < hi) as Hi by (intros; zlia).
  assert (NoDup l) as Hnd.
  { unfold l. apply NoDup_fmap_2_strong; [|apply NoDup_seqZ].
    intros i j Hi1%elem_of_seqZ Hj1%elem_of_seqZ E.
    destruct (pa_range _ _ Hr (B2 _ (Hi i ltac:(lia)))) as [M1 _].
    destruct (pa_range _ _ Hr (B2 _ (Hi j ltac:(lia)))) as [M2 _].
    assert (vpn (lo + i * 4096) = vpn (lo + j * 4096)) as V.
    { apply B3; [apply Hi; lia|apply Hi; lia|]. unfold f in E. zlia. }
    unfold vpn in V. replace ((lo + i * 4096) / 4096) with (lo / 4096 + i) in V by zlia.
    replace ((lo + j * 4096) / 4096) with (lo / 4096 + j) in V by zlia.
    assert (0 <= i < 2 ^ 34 /\ 0 <= j < 2 ^ 34) as [? ?] by zlia. zlia. }
  assert (l ⊆+ seqZ 0 (2 ^ 23)) as Hsub.
  { apply NoDup_submseteq; [done|]. intros x (i & -> & Hi1%elem_of_seqZ)%list_elem_of_fmap.
    destruct (pa_range _ _ Hr (B2 _ (Hi i ltac:(lia)))) as [M1 R1]. apply elem_of_seqZ. unfold f. zlia. }
  apply submseteq_length in Hsub. unfold l in Hsub. rewrite length_fmap, !length_seqZ in Hsub.
  apply Z2Nat.inj_le in Hsub; zlia.
Qed.

Lemma heap_size_bound s root T bl : heap_core s root T bl -> heap_size (s_heap s) <= 2 ^ 35.
Proof.
  intros [H1 H2 H3 H4 H5 H6 H7 H8]. destruct H1 as [Hr _ _ _].
  pose proof (backed_bound _ _ _ _ Hr H8) as Hb. unfold heap_end in Hb.
  replace (KERNEL_HEAP_START + heap_size (s_heap s) - KERNEL_HEAP_START) with (heap_size (s_heap s)) in Hb by lia.
  apply Hb; try lia; zlia.
Qed.
End bound.

(** ** The instance *)

Section instance.
Context {PA : page_allocator pmm_allocate pmm_free}.

Record heap_view : Type := mk_view {
  hv_root : Z;
  hv_tables : gmap (list Z) Z;
  hv_tiles : list tile
}.

Definition view_ok (s : kstate) (h : heap_view) : Prop :=
  heap_ok s (hv_root h) (hv_tables h) (hv_tiles h).

Definition view_live (h : heap_view) (p n : Z) : Prop := Tile (p - 16) (n + 16) false ∈ hv_tiles h.

Lemma view_live_allocs h p n : view_live h p n <-> Tile (p - 16) (n + 16) false ∈ allocs (hv_tiles h).
Proof. unfold view_live. rewrite elem_of_allocs. cbn. tauto. Qed.

Lemma view_range s h p n : view_ok s h -> view_live h p n ->
  p mod 16 = 0 /\ KERNEL_HEAP_START < p /\ 0 <= n /\ p + n < 2 ^ 64.
Proof.
  intros [H _] Hl. destruct (row_in _ _ _ _ (heap_row _ _ _ _ H) Hl) as (? & Hm & ? & _ & ? & ? & ?).
  cbn [b_addr b_size] in *. split_and!; try lia. zlia.
Qed.

Lemma view_disjoint s h p n q k x : view_ok s h -> view_live h p n -> view_live h q k ->
  p <= x < p + n -> q <= x < q + k -> p = q /\ n = k.
Proof.
  intros [H _] Hp Hq Hx Hy.
  assert (Tile (p - 16) (n + 16) false = Tile (q - 16) (k + 16) false) as [= ? ?].
  { apply (tiling_disjoint _ _ _ _ _ x (ho_tiles _ _ _ _ H) eq_refl Hp Hq); cbn; lia. }
  lia.
Qed.

Lemma live_in_alloc h p n x : view_live h p n -> p <= x < p + n -> in_alloc (hv_tiles h) x.
Proof. intros Hl Hx. exists (Tile (p - 16) (n + 16) false). split_and!; [done|done|cbn; lia|cbn; lia]. Qed.

Lemma view_alloc s h sz : view_ok s h -> 0 < sz <= 2 ^ 40 ->
  wp (kmalloc sz) s (fun r s' => exists h' n, view_ok s' h' /\ heap_ctx s s' /\ sz <= n /\
    (forall q k, view_live h' q k <-> view_live h q k \/ (q = r /\ k = n)) /\
    (forall k, ~ view_live h r k) /\
    (forall q k x, view_live h q k -> q <= x < q + k -> rd (s_mem s') x = rd (s_mem s) x)) out_of_memory.
Proof.
  intros H Hsz. pose proof H as [Hc _]. pose proof (heap_size_bound _ _ _ _ Hc).
  eapply wp_mono; [apply (kmalloc_allocates s _ _ _ sz H); lia| |done].
  intros r s' (T' & bl' & [B1 B2 B3 B4 B5] & Hlk).
  exists (mk_view (hv_root h) T' bl'), (block_bytes sz - 16).
  assert (sz <= block_bytes sz - 16) by (unfold block_bytes; zlia).
  pose proof (allocs_nodup _ _ _ (ho_tiles _ _ _ _ B1) eq_refl) as Hnd. rewrite B4 in Hnd.
  apply NoDup_cons in Hnd as [Hfresh _].
  assert (Tile (r - 16) (block_bytes sz) false ∈ bl') as Hnew.
  { apply elem_of_allocs. rewrite B4. set_solver. }
  split_and!; [by split|done|done| | |].
  - intros q k. rewrite !view_live_allocs. cbn [hv_tiles]. rewrite B4, elem_of_cons. split.
    + intros [[= ? ?]|?]; [right; lia|by left].
    + intros [?|[-> ->]]; [by right|left]. by replace (block_bytes sz - 16 + 16) with (block_bytes sz) by lia.
  - intros k Hk. rewrite view_live_allocs in Hk.
    assert (Tile (r - 16) (k + 16) false ∈ bl') as Hk'. { apply elem_of_allocs. rewrite B4. set_solver. }
    assert (Tile (r - 16) (k + 16) false = Tile (r - 16) (block_bytes sz) false) as E.
    { apply (tiling_disjoint _ _ _ _ _ (r - 16) (ho_tiles _ _ _ _ B1) eq_refl Hk' Hnew);
        cbn; [|lia]. destruct (row_in _ _ _ _ (heap_row _ _ _ _ B1) Hk') as (_ & _ & ? & _). cbn in *. lia. }
    rewrite E in Hk. done.
  - intros q k x Hq Hx. destruct (view_range s h q k H Hq) as (_ & ? & _).
    apply B5; [lia|left]. by eapply live_in_alloc.
Qed.

Lemma view_release s h p n : view_ok s h -> view_live h p n ->
  wp (kfree p) s (fun _ s' => exists h', view_ok s' h' /\ heap_ctx s s' /\
    (forall q k, view_live h' q k <-> view_live h q k /\ q <> p) /\
    (forall q k x, view_live h' q k -> q <= x < q + k -> rd (s_mem s') x = rd (s_mem s) x)) no_panic.
Proof.
  intros H Hl. pose proof H as [Hc _]. pose proof Hl as Hl'. apply list_elem_of_split in Hl' as (pre & post & E).
  unfold view_ok in H. rewrite E in H. replace p with (p - 16 + 16) at 1 by lia.
  eapply wp_mono; [by apply (kfree_releases s (hv_root h) (hv_tables h))| |done].
  intros [] s' (H' & C & Hsz & Hag). set (bl' := release pre (p - 16) (n + 16) post) in *.
  exists (mk_view (hv_root h) (hv_tables h) bl').
  assert (allocs (hv_tiles h) ≡ₚ Tile (p - 16) (n + 16) false :: allocs bl') as Hp.
  { rewrite E. unfold bl'. rewrite allocs_app, release_allocs. cbn [allocs b_free].
    symmetry. apply Permutation_middle. }
  pose proof (allocs_nodup _ _ _ (ho_tiles _ _ _ _ Hc) eq_refl) as Hnd. rewrite Hp in Hnd.
  apply NoDup_cons in Hnd as [Hfresh _].
  assert (forall q k, view_live (mk_view (hv_root h) (hv_tables h) bl') q k <-> view_live h q k /\ q <> p) as Hlv.
  { intros q k. rewrite !view_live_allocs. cbn [hv_tiles]. rewrite Hp, elem_of_cons. split.
    - intros Hq. split; [by right|]. intros ->. apply Hfresh.
      assert (Tile (p - 16) (k + 16) false ∈ hv_tiles h) as Hq'. { apply elem_of_allocs. rewrite Hp. set_solver. }
      assert (Tile (p - 16) (k + 16) false = Tile (p - 16) (n + 16) false) as <-; [|done].
      destruct (row_in _ _ _ _ (heap_row _ _ _ _ Hc) Hq') as (_ & _ & ? & _).
      destruct (row_in _ _ _ _ (heap_row _ _ _ _ Hc) Hl) as (_ & _ & ? & _). cbn in *.
      apply (tiling_disjoint _ _ _ _ _ (p - 16) (ho_tiles _ _ _ _ Hc) eq_refl Hq' Hl); cbn; lia.
    - intros [[[= ? ?]|?] Hne]; [lia|done]. }
  split_and!; [done|done|exact Hlv|].
  intros q k x Hq Hx. apply Hag. intros Hf. destruct H' as [H' _].
  apply (free_not_alloc _ _ _ x (ho_tiles _ _ _ _ H') eq_refl Hf).
  by apply (live_in_alloc (mk_view (hv_root h) (hv_tables h) bl') q k).
Qed.

Lemma view_frame s s' h : view_ok s h ->
  s_pmm s' = s_pmm s -> s_boot s' = s_boot s -> s_vmm s' = s_vmm s -> s_heap s' = s_heap s ->
  s_locks s' = s_locks s -> cpu_ok (s_cpu s') ->
  (forall x, (forall p n, view_live h p n -> ~ p <= x < p + n) -> rd (s_mem s') x = rd (s_mem s) x) ->
  view_ok s' h.
Proof.
  intros [H Hlk] Ep Eb Ev Eh El Hcpu Hm. pose proof (heap_row _ _ _ _ H) as Hrow.
  pose proof H as [H1 H2 H3 H4 H5 H6 H7 H8].
  destruct (heap_frame_ready s s' (kernel_pagemap (s_vmm s)) (hv_root h) (hv_tables h) H1) as (R & L & U);
    try done; try congruence.
  { intros x Hx. apply Hm. intros p n Hl Hin. destruct (view_range s h p n) as (_ & ? & _); [by split|done|]. lia. }
  assert (forall b x, b ∈ hv_tiles h -> b_addr b <= x < b_addr b + b_size b ->
    b_free b = true \/ x < b_addr b + 16 -> rd (s_mem s') x = rd (s_mem s) x) as Hhd.
  { intros b x Hb Hx Hor. apply Hm. intros p n Hl Hin.
    assert (b = Tile (p - 16) (n + 16) false) as ->.
    { apply (tiling_disjoint _ _ _ _ _ x H5 eq_refl Hb Hl Hx). cbn. lia. }
    cbn in *. destruct Hor; [done|lia]. }
  split; [|by rewrite El]. split; rewrite ?Eh, ?Ev; try done.
  - unfold heap_end. by rewrite Eh.
  - destruct H7 as [Hs Hl]. split.
    + intros b Hb. destruct (row_in _ _ _ b Hrow Hb) as (_ & _ & ? & _).
      rewrite (load64_ext (s_mem s)); [by apply Hs|]. intros x Hx. apply (Hhd b); [done|lia|right; lia].
    + eapply lseg_ext; [|exact Hl]. intros a (b & Hb & Hf & <-)%elem_of_faddrs.
      destruct (row_in _ _ _ b Hrow Hb) as (_ & _ & ? & _).
      apply load64_ext. intros x Hx. apply (Hhd b); [done|lia|by left].
  - unfold heap_end. rewrite Eh. apply (backed_ext s); [done|done|]. intros a. apply U.
Qed.

Lemma view_alloc_image s h sz : view_ok s h -> 0 < sz <= 2 ^ 40 ->
  wp (kmalloc sz) s (fun _ s' => forall x, kernel_image x -> rd (s_mem s') x = rd (s_mem s) x) out_of_memory.
Proof.
  intros H Hsz. pose proof H as [Hc _]. pose proof (heap_size_bound _ _ _ _ Hc).
  eapply wp_mono; [apply (kmalloc_allocates s _ _ _ sz H); lia| |done].
  intros r s' (T' & bl' & [B1 B2 B3 B4 B5] & Hlk) x Hx. pose proof (heap_size_bound _ _ _ _ B1).
  unfold kernel_image in Hx. apply B5; [lia|right; unfold heap_end; lia].
Qed.

Lemma view_release_image s h p n : view_ok s h -> view_live h p n ->
  wp (kfree p) s (fun _ s' => forall x, kernel_image x -> rd (s_mem s') x = rd (s_mem s) x) no_panic.
Proof.
  intros H Hl. pose proof H as [Hc _]. pose proof Hl as Hl'. apply list_elem_of_split in Hl' as (pre & post & E).
  unfold view_ok in H. rewrite E in H. replace p with (p - 16 + 16) at 1 by lia.
  eapply wp_mono; [by apply (kfree_releases s (hv_root h) (hv_tables h))| |done].
  intros [] s' ([H' _] & C & Hsz & Hag) x Hx. apply Hag. intros (b & Hb & _ & Hbx).
  pose proof (heap_size_bound _ _ _ _ H').
  destruct (row_in _ _ _ _ (heap_row _ _ _ _ H') Hb) as (_ & _ & _ & _ & ? & ? & ?).
  unfold kernel_image, heap_end in *. lia.
Qed.

#[export] Instance kernel_heap : heap_allocator malloc free := {|
  hview := heap_view;
  ha_ok := view_ok;
  live := view_live;
  ha_range := view_range;
  ha_disjoint := view_disjoint;
  ha_alloc := view_alloc;
  ha_release := view_release;
  ha_frame := view_frame;
  ha_cpu := fun s h H => pa_cpu s (vr_pmm _ _ _ _ (ho_vmm _ _ _ _ (hk_core _ _ _ _ H)));
  ha_alloc_image := view_alloc_image;
  ha_release_image := view_release_image
|}.
End instance.
