(* ===== verification/Pagemap.v ===== *)
(** * New address spaces ([vmm_new_pagemap] of kernel/system/vmm.c)

    A new root table has an empty lower half and shares the kernel's upper
    half.  The function calls [malloc] while it holds [vmm_lock]: that is fine
    as long as the heap does not have to grow, and a deadlock otherwise. *)

From S2P Require Import Prelude Memory State Cpu Libc Pmm Vmm VmmTree VmmSpec.
From S2P Require Import Heap HeapTiles HeapList HeapSpec HeapTop.

(** ** Definitions *)

(** [vmm_new_pagemap] up to the two halves of the root table. *)
Definition new_root_table : M Z :=
  spin_lock vmm_lock;;;
  pml4_phys <- pmm_allocate;;
  if pml4_phys =? 0 then panic "failed to allocate new pagemap pml4" else
  hhdm <- VMM_HIGHER_HALF;;
  let pml4_virt := u64 (pml4_phys + hhdm) in
  memset pml4_virt 0 (PAGE_SIZE / 2);;;
  kp <- gets (fun s => kernel_pagemap (s_vmm s));;
  kbase <- base_virt kp;;
  memcpy (pml4_virt + 256 * 8) (kbase + 256 * 8) (PAGE_SIZE / 2);;;
  ret pml4_virt.

Definition vmm_new_pagemap : M Z :=
  pml4_virt <- new_root_table;;
  new_pagemap <- malloc 8;;
  modify (on_vmm (fun v => set_pagemaps (<[new_pagemap := pml4_virt]> (pagemaps v)) v));;;
  spin_unlock vmm_lock;;;
  ret new_pagemap.

(** The machine waits for [l], or stopped for lack of memory. *)
Definition locked_out {A} (l : lock_id) (r : outcome A) : Prop :=
  match r with
  | Spin l' _ => l' = l
  | Panic msg s' => out_of_memory msg s'
  | _ => False
  end.

Section pagemap.
Context {PA : page_allocator pmm_allocate pmm_free}.

(** The state with the new root table, and [vmm_lock] taken. *)
Record fresh_root (s : kstate) (root : Z) (T : gmap (list Z) Z) (bl : list tile) (f : Z) (s3 : kstate)
    : Prop := {
  fr_core : heap_core (on_locks (set_latch vmm_lock false) s3) root T bl;
  fr_locks : s_locks s3 = set_latch vmm_lock true (s_locks s);
  fr_vmm : s_vmm s3 = s_vmm s;
  fr_boot : s_boot s3 = s_boot s;
  fr_low : hhdm_offset (s_boot s) + f + 4096 <= KERNEL_HEAP_START;
  fr_new : ~ frame_used s f;
  fr_used : frame_used (on_locks (set_latch vmm_lock false) s3) f;
  fr_entries : forall i, 0 <= i < 512 -> pte s3 f i = if i <? 256 then 0 else pte s root i
}.

(** ** Lemmas *)

(** [kmalloc] when a block fits: a matter of the headers alone. *)
Lemma kmalloc_fit_raw s pre a n post sz :
  let bl := pre ++ Tile a n true :: post in
  row KERNEL_HEAP_START (heap_end s) bl -> heap_mem (s_mem s) (heap_head (s_heap s)) bl ->
  latch heap_lock (s_locks s) = false -> 0 < sz < 2 ^ 46 -> block_bytes sz <= n ->
  (forall c, c ∈ pre -> b_free c = true -> b_size c < block_bytes sz) ->
  wp (kmalloc sz) s
    (fun r s' => r = a + 16 /\ exists m' hd', s' = heap_upd m' hd' s /\
       heap_mem m' hd' (pre ++ place (block_bytes sz) (Tile a n true) ++ post) /\
       agree_off (in_free bl) (s_mem s) m') no_panic.
Proof.
  intros bl Hrow Hm Hlk Hsz Hfit Hpre. unfold kmalloc. destruct (Z.eqb_spec sz 0) as [|_]; [lia|].
  rewrite ALIGN_UP_HEAP_alt by lia. change (ALIGN_UP_HEAP 8) with 16. fold (block_bytes sz).
  set (k := block_bytes sz) in *. assert (32 <= k <= sz + 31 /\ k mod 16 = 0) as [Hk Hkm]
    by (unfold k, block_bytes; zlia).
  rewrite u64_small by lia. destruct (Z.ltb_spec k 16); [lia|].
  apply wp_bind, wp_gets, wp_bind, wp_spin_lock; [done|].
  replace (Z.to_nat (k / 4096 + 2)) with (S (Z.to_nat (k / 4096 + 1))) by zlia.
  set (sl := on_locks (set_latch heap_lock true) s).
  eapply wp_mono; [apply (try_fit_raw _ sl pre a n post k no_panic); try done; lia| |done].
  intros r s' (-> & m' & hd' & -> & Hm' & Hag). split; [done|]. exists m', hd'. split; [|done].
  apply kstate_ext; try done. cbn [on_locks set_locks heap_upd on_heap set_heap set_mem s_locks sl].
  by apply set_latch_relock.
Qed.

(** An outcome that is a wait for [l] or a stop for lack of memory. *)
Lemma locked_stop {A B} l (m : M A) (k : A -> M B) s :
  locked_out l (m s) -> locked_out l (bind m k s).
Proof. unfold bind. by destruct (m s). Qed.

Lemma locked_step {A B} l (m : M A) (k : A -> M B) s a s' :
  m s = Ok a s' -> locked_out l (k a s') -> locked_out l (bind m k s).
Proof. unfold bind. by intros ->. Qed.

(** Growing the heap takes [vmm_lock] in [vmm_map_page]. *)
Lemma expand_page_locked s base i :
  pa_ready s -> latch vmm_lock (s_locks s) = true -> locked_out vmm_lock (expand_page base i s).
Proof.
  intros Hr Hl. unfold expand_page. pose proof (pa_allocate s Hr) as Ha. unfold wp in Ha.
  destruct (pmm_allocate s) as [a s2|msg s2| | |] eqn:E; try done.
  - destruct Ha as (_ & Hua & _ & _ & _ & Hc & Hr2). destruct (pa_range _ _ Hr2 Hua) as [_ ?].
    eapply locked_step; [exact E|]. destruct (Z.eqb_spec a 0); [lia|].
    eapply locked_step; [done|]. apply locked_stop. unfold vmm_map_page. apply locked_stop.
    unfold spin_lock. by rewrite (sc_locks _ _ Hc), Hl.
  - apply locked_stop. by rewrite E.
Qed.

(** Without a block that fits, [kmalloc] grows the heap through [vmm_map_page]. *)
Lemma kmalloc_grows_locked s root T bl sz :
  heap_core s root T bl -> latch heap_lock (s_locks s) = false -> 0 < sz < 2 ^ 46 ->
  (forall c, c ∈ bl -> b_free c = true -> b_size c < block_bytes sz) ->
  locked_out vmm_lock (kmalloc sz (on_locks (set_latch vmm_lock true) s)).
Proof.
  intros H Hlk Hsz Hnone. pose proof (heap_row _ _ _ _ H) as Hrow.
  pose proof (ho_mem _ _ _ _ H) as Hm. pose proof (walk_fuel_enough _ _ _ _ H) as Hfuel.
  unfold kmalloc. destruct (Z.eqb_spec sz 0) as [|_]; [lia|].
  rewrite ALIGN_UP_HEAP_alt by lia. change (ALIGN_UP_HEAP 8) with 16. fold (block_bytes sz).
  set (k := block_bytes sz) in *. assert (32 <= k <= sz + 31) as Hk by (unfold k, block_bytes; zlia).
  rewrite u64_small by lia. destruct (Z.ltb_spec k 16); [lia|].
  set (s1 := on_locks (set_latch heap_lock true) (on_locks (set_latch vmm_lock true) s)).
  eapply locked_step; [reflexivity|]. eapply (locked_step _ _ _ _ tt s1).
  { unfold spin_lock. cbn [on_locks set_locks s_locks]. rewrite latch_set_ne, Hlk by done. done. }
  replace (Z.to_nat (k / 4096 + 2)) with (S (Z.to_nat (k / 4096 + 1))) by zlia. cbn [kmalloc_try].
  eapply locked_step; [reflexivity|].
  eapply locked_step; [apply (find_fit_none _ k 0 _ (faddrs bl)); [apply Hm|by apply (small_tiles s1 _ bl bl k Hrow Hm)|];
    change (s_heap s1) with (s_heap s); lia|].
  cbv beta iota. pose proof H as [H1 H2 H3 H4 _ _ _ _]. destruct H1 as [Hr _ _ _].
  destruct (pa_frame s s1 Hr) as [Hr1 _]; try done; auto.
  apply locked_stop. unfold heap_expand_pages. cbn [Z.eqb]. eapply locked_step; [reflexivity|].
  change (s_heap s1) with (s_heap s). rewrite H2. eapply locked_step; [reflexivity|].
  change (PAGE_SIZE - 1) with 4095. rewrite land_page_mask, H3. eapply locked_step; [reflexivity|].
  apply locked_stop. change (Z.to_nat 16) with 16%nat. cbn [for_loop]. apply locked_stop.
  apply (expand_page_locked s1 _ _ Hr1). cbn [s1 on_locks set_locks s_locks].
  by rewrite latch_set_ne, latch_set_eq by done.
Qed.

(** The heap survives a new frame that gets filled. *)
Lemma heap_core_fresh s s' root T bl a :
  heap_core s root T bl -> pa_ready s' -> ~ frame_used s a -> frame_used s' a ->
  (forall b, b <> a -> frame_used s' b <-> frame_used s b) ->
  s_boot s' = s_boot s -> s_vmm s' = s_vmm s -> s_heap s' = s_heap s -> s_locks s' = s_locks s ->
  agree_off (in_frame s a) (s_mem s) (s_mem s') -> heap_core s' root T bl.
Proof.
  intros H Hr' Hna Hua Hoth Hb Hv Hh Hl Hag. pose proof H as [R H2 H3 H4 H5 H6 H7 H8].
  pose proof R as [Rp _ _ Rt].
  assert (forall b, frame_used s b -> frame_used s' b) as Hmono.
  { intros b Hb'. destruct (decide (b = a)) as [->|]; [done|]. by apply Hoth. }
  destruct (pa_range _ _ Hr' Hua) as [Ham Har].
  destruct (vmm_ready_step s s' (kernel_pagemap (s_vmm s)) root T R Hr' Hb Hv) as [R' Hleaf];
    [by rewrite Hl|done| |].
  { intros p t x Hp Hx. apply Hag. intros Hx'. destruct (table_facts s root T p t Rp Rt Hp) as (? & ? & _).
    apply (frames_disjoint s t a x); try done. intros ->. by apply Hna, (tr_used _ _ _ Rt p). }
  assert (heap_end s' = heap_end s) as He by (unfold heap_end; by rewrite Hh).
  split; rewrite ?Hv, ?Hh, ?He; try done.
  - pose proof (heap_row _ _ _ _ H) as Hrow.
    apply (heap_mem_frame KERNEL_HEAP_START (heap_end s) _ (s_mem s)); [done|done|].
    intros x Hx. apply Hag. intros Hx'.
    assert (x < KERNEL_HEAP_START); [|lia]. apply (frame_below s' a); [done|done|].
    unfold in_frame. by rewrite Hb.
  - by apply (backed_ext s).
Qed.

(** A pagemap object elsewhere in the heap does not disturb the heap. *)
Lemma heap_core_pagemap s root T bl q b :
  heap_core s root T bl -> q <> kernel_pagemap (s_vmm s) ->
  heap_core (on_vmm (fun v => set_pagemaps (<[q := b]> (pagemaps v)) v) s) root T bl.
Proof.
  intros [R H2 H3 H4 H5 H6 H7 H8] Hq. set (s' := on_vmm _ s). pose proof R as [Rp Rl Rb Rt].
  destruct (pa_frame s s') as [Hr' Hu']; auto.
  assert (vmm_ready s' (kernel_pagemap (s_vmm s')) root T).
  { split; [done|done| |].
    - cbn [s' on_vmm set_vmm s_vmm set_pagemaps pagemaps kernel_pagemap]. by rewrite lookup_insert_ne.
    - by apply (tree_frame s). }
  split; try done. apply (backed_ext s); [done|done|]. intros a. apply Hu'.
Qed.

(** The two halves of a new root table. *)
Lemma fresh_root_entries h root a m :
  root mod 4096 = 0 -> a mod 4096 = 0 -> a <> root ->
  let m' := copy_fwd (memset_loop m (h + a) 0 2048) (h + a + 2048) (h + root + 2048) 2048 in
  agree_off (fun x => h + a <= x < h + a + 4096) m m' /\
  forall i, 0 <= i < 512 ->
    load64 m' (h + a + i * 8) = if i <? 256 then 0 else load64 m (h + root + i * 8).
Proof.
  intros Hr Ha Hne m'.
  assert (a + 4096 <= root \/ root + 4096 <= a) by zlia.
  assert (forall x, rd m' x = if (h + a + 2048 <=? x) && (x <? h + a + 4096) then rd m (h + root + 2048 + (x - (h + a + 2048)))
    else if (h + a <=? x) && (x <? h + a + 2048) then 0 else rd m x) as Hm.
  { intros x. unfold m'. rewrite rd_copy_fwd, !rd_memset_loop by lia.
    change (Z.of_nat 2048) with 2048. replace (h + a + 2048 + 2048) with (h + a + 4096) by lia.
    destruct ((h + a + 2048 <=? x) && (x <? h + a + 4096)) eqn:E1; [|done].
    apply andb_true_iff in E1. rewrite (proj2 (andb_false_iff _ _)); [done|]. lia. }
  split.
  - intros x Hx. rewrite Hm.
    rewrite !(proj2 (andb_false_iff _ _)); [done| |]; lia.
  - intros i Hi. destruct (Z.ltb_spec i 256).
    + apply load64_zero. intros x Hx. rewrite Hm.
      rewrite (proj2 (andb_false_iff _ _)) by lia. by rewrite (proj2 (andb_true_iff _ _)) by lia.
    + apply load64_copied. intros k Hk. rewrite Hm.
      rewrite (proj2 (andb_true_iff _ _)) by lia. f_equal. lia.
Qed.

(** The second half of [vmm_new_pagemap], with [vmm_lock] taken. *)
Lemma new_pagemap_finish s root T pre a n post base :
  let u := on_locks (set_latch vmm_lock false) s in
  let bl := pre ++ Tile a n true :: post in
  heap_core u root T bl -> latch heap_lock (s_locks s) = false -> 32 <= n ->
  (forall c, c ∈ pre -> b_free c = true -> b_size c < 32) -> kernel_pagemap (s_vmm s) <> a + 16 ->
  wp (new_pagemap <- malloc 8;;
      modify (on_vmm (fun v => set_pagemaps (<[new_pagemap := base]> (pagemaps v)) v));;;
      spin_unlock vmm_lock;;; ret new_pagemap) s
    (fun pm s' => pm = a + 16 /\ heap_ok s' root T (pre ++ place 32 (Tile a n true) ++ post) /\
       s_boot s' = s_boot s /\ pagemaps (s_vmm s') = <[pm := base]> (pagemaps (s_vmm s)) /\
       (forall f, frame_used s' f <-> frame_used u f) /\
       agree_off (fun x => KERNEL_HEAP_START <= x) (s_mem s) (s_mem s')) no_panic.
Proof.
  intros u bl H Hlk Hn Hpre Hkp. pose proof (heap_row _ _ _ _ H) as Hrow.
  eapply wp_call; [apply (kmalloc_fit_raw s pre a n post 8); try done; apply H|].
  intros pm s4 (-> & m' & hd' & -> & Hm' & Hag). apply wp_bind, wp_modify, wp_bind.
  eapply wp_ok; [reflexivity|]. apply wp_ret.
  destruct (take_allocated u root T pre a n post 32 m' hd' H) as [A1 _ _ _ _]; try done.
  set (v := heap_upd m' hd' u) in A1. apply (heap_core_pagemap _ _ _ _ (a + 16) base) in A1; [|done].
  match goal with |- _ /\ heap_ok ?s _ _ _ /\ _ => set (s' := s) end.
  change (on_vmm _ v) with s' in A1. pose proof (heap_row _ _ _ _ H) as [Htl _ _ _].
  destruct (pa_frame u s') as [_ Hu]; [apply H|done|done|done|by left|].
  split_and!; [done| |done|done|done|].
  - split; [done|]. cbn [s' on_locks set_locks s_locks]. by rewrite latch_set_ne.
  - eapply agree_off_weaken; [|exact Hag]. intros x Hx.
    pose proof (in_free_range _ _ _ x Htl eq_refl Hx). lia.
Qed.

Lemma fresh_root_intro s s1 s2 s3 root T bl f :
  let h := hhdm_offset (s_boot s) in
  heap_core s root T bl -> s1 = on_locks (set_latch vmm_lock true) s -> same_ctx s1 s2 ->
  pa_ready s2 -> ~ frame_used s1 f -> frame_used s2 f ->
  (forall b, b <> f -> frame_used s2 b <-> frame_used s1 b) ->
  agree_off (in_frame s1 f) (s_mem s1) (s_mem s2) ->
  s_pmm s3 = s_pmm s2 -> s_boot s3 = s_boot s2 -> s_cpu s3 = s_cpu s2 -> s_vmm s3 = s_vmm s2 ->
  s_heap s3 = s_heap s2 -> s_locks s3 = s_locks s2 ->
  agree_off (fun x => h + f <= x < h + f + 4096) (s_mem s2) (s_mem s3) ->
  (forall i, 0 <= i < 512 -> load64 (s_mem s3) (h + f + i * 8) =
     if i <? 256 then 0 else load64 (s_mem s2) (h + root + i * 8)) ->
  fresh_root s root T bl f s3.
Proof.
  intros h H -> Hc Hr2 Hnf Huf Hoth Hag E1 E2 E3 E4 E5 E6 Hag3 Hent. set (s1 := on_locks _ s) in *.
  pose proof H as [R _ _ _ _ _ _ _]. pose proof R as [Rp Rl Rb Rt].
  destruct (relatch s true root T Rp Rt) as (Hr1 & Ht1 & Hu1). fold s1 in Hr1, Ht1, Hu1.
  set (u := on_locks (set_latch vmm_lock false) s3).
  assert (s_locks u = s_locks s) as Hlu.
  { cbn [u on_locks set_locks s_locks]. rewrite E6, (sc_locks _ _ Hc). by apply set_latch_relock. }
  destruct (pa_frame s2 u) as [Hru Huu]; [done|done|done| |by left|].
  { rewrite Hlu, (sc_locks _ _ Hc). cbn [s1 on_locks set_locks s_locks]. by rewrite latch_set_ne. }
  assert (s_boot s2 = s_boot s) as Eb by apply Hc. destruct (pa_range _ _ Hr2 Huf) as [Hfm Hfr].
  destruct (pa_boot _ Hr2) as [Hb1 Hb2 Hb3]. rewrite Eb in *. fold h in Hb1, Hb2, Hb3.
  destruct (table_facts s root T [] root Rp Rt (tr_root _ _ _ Rt)) as (? & ? & _ & _).
  assert (f <> root) as Hfroot. { intros ->. apply Hnf. apply (tr_used _ _ _ Ht1 []), Ht1. }
  split; fold u; [|by rewrite E6, (sc_locks _ _ Hc)|by rewrite E4, (sc_vmm _ _ Hc)|congruence|fold h; zlia
    |by intros ?%Hu1|by apply Huu|].
  - apply (heap_core_fresh s u root T _ f H Hru).
    + by intros ?%Hu1.
    + by apply Huu.
    + intros b Hb. rewrite (Huu b), (Hoth b Hb). apply Hu1.
    + cbn [u on_locks set_locks s_boot]. congruence.
    + cbn [u on_locks set_locks s_vmm]. rewrite E4. apply Hc.
    + cbn [u on_locks set_locks s_heap]. rewrite E5. apply Hc.
    + done.
    + by eapply agree_off_trans.
  - intros i Hi. unfold pte at 1. rewrite E2. fold h. rewrite Hent by done.
    destruct (i <? 256); [done|]. apply (agree_off_load64 _ _ _ _ Hag). intros x Hx Hx'.
    unfold in_frame in Hx'. cbn [s1 on_locks set_locks s_boot] in Hx'. fold h in Hx'. zlia.
Qed.

Lemma new_root_table_spec s root T bl :
  heap_core s root T bl ->
  wp new_root_table s (fun r s3 => exists f, r = hhdm_offset (s_boot s) + f /\ fresh_root s root T bl f s3)
    out_of_memory.
Proof.
  intros H. pose proof H as [R _ _ _ _ _ _ _]. pose proof R as [Rp Rl Rb Rt].
  apply wp_bind, wp_spin_lock; [done|]. set (s1 := on_locks _ s).
  destruct (relatch s true root T Rp Rt) as (Hr1 & Ht1 & Hu1).
  eapply wp_call; [by apply pa_allocate|]. fold s1. intros f s2 (Hnf & Huf & Hoth & Hz & Hag & Hc & Hr2).
  destruct (pa_range _ _ Hr2 Huf) as [Hfm Hfr]. destruct (Z.eqb_spec f 0); [lia|].
  assert (s_boot s2 = s_boot s) as Eb by apply Hc.
  assert (f <> root) as Hfroot. { intros ->. apply Hnf. apply (tr_used _ _ _ Ht1 []), Ht1. }
  destruct (pa_boot _ Hr2) as [Hb1 Hb2 Hb3]. rewrite Eb in *. set (h := hhdm_offset (s_boot s)) in *.
  destruct (table_facts s root T [] root Rp Rt (tr_root _ _ _ Rt)) as (? & ? & _ & _).
  assert (u64 (f + h) = h + f) as Hadd by (rewrite u64_small; lia).
  apply wp_bind, wp_gets. rewrite Eb. fold h. rewrite Hadd. apply wp_bind, wp_memset.
  apply wp_bind, wp_gets. cbn [on_mem set_mem s_vmm]. rewrite (sc_vmm _ _ Hc). cbn [s1 on_locks set_locks s_vmm].
  apply wp_bind. eapply wp_base_virt. { cbn [on_mem set_mem s_vmm]. rewrite (sc_vmm _ _ Hc). exact Rb. }
  fold h. apply wp_bind, wp_memcpy; [lia|lia|done|].
  change (Z.to_nat (4096 / 2)) with 2048%nat. change (256 * 8) with 2048. set (s3 := on_mem _ _).
  assert (s_mem s3 = copy_fwd (memset_loop (s_mem s2) (h + f) 0 2048) (h + f + 2048) (h + root + 2048) 2048)
    as Em by done.
  destruct (fresh_root_entries h root f (s_mem s2)) as [Hag3 Hent]; [done|done|done|]. rewrite <- Em in Hag3, Hent.
  assert (s_pmm s3 = s_pmm s2 /\ s_boot s3 = s_boot s2 /\ s_cpu s3 = s_cpu s2 /\ s_vmm s3 = s_vmm s2 /\
    s_heap s3 = s_heap s2 /\ s_locks s3 = s_locks s2) as (E1 & E2 & E3 & E4 & E5 & E6) by (split_and!; reflexivity).
  clearbody s3. clear Em. apply wp_ret. exists f. split; [done|].
  by apply (fresh_root_intro s s1 s2 s3 root T bl f).
Qed.

(** C28: when a free block of the heap can hold a pagemap object,
    [vmm_new_pagemap] (or an out-of-memory stop) returns a new object whose
    root is a frame that was not in use: its lower 256 entries are empty, its
    upper 256 entries are the kernel's, and the heap keeps its invariant. *)
Theorem new_pagemap_spec (s : kstate) (root : Z) (T : gmap (list Z) Z) (pre : list tile) (a n : Z)
    (post : list tile) :
  heap_ok s root T (pre ++ Tile a n true :: post) -> 32 <= n ->
  (forall c, c ∈ pre -> b_free c = true -> b_size c < 32) ->
  kernel_pagemap (s_vmm s) <> a + 16 ->
  wp vmm_new_pagemap s
    (fun pm s' => pm = a + 16 /\
       heap_ok s' root T (pre ++ place 32 (Tile a n true) ++ post) /\
       exists f, pagemaps (s_vmm s') = <[pm := hhdm_offset (s_boot s) + f]> (pagemaps (s_vmm s)) /\
         ~ frame_used s f /\ frame_used s' f /\
         forall i, 0 <= i < 512 -> pte s' f i = if i <? 256 then 0 else pte s root i) out_of_memory.
Proof.
  intros [H Hlk] Hn Hpre Hkp.
  eapply wp_call; [by apply new_root_table_spec|]. intros r s3 (f & -> & [F1 F2 F3 F4 F5 F6 F7 F8]).
  eapply wp_mono; [apply (new_pagemap_finish s3 root T pre a n post _ F1)| |done]; try done.
  { by rewrite F2, latch_set_ne. }
  { by rewrite F3. }
  intros pm s' (-> & Hok & Eb' & Ep & Hus & Hm). split_and!; [done|done|].
  exists f. split_and!; [by rewrite Ep, F3|done|by apply Hus|].
  intros i Hi. rewrite <- F8 by done. unfold pte. rewrite Eb'.
  apply (agree_off_load64 _ _ _ _ Hm). rewrite F4. intros; lia.
Qed.

(** C35: when no free block of the heap can hold a pagemap object,
    [vmm_new_pagemap] never returns: the heap grows through [vmm_map_page],
    which waits for the [vmm_lock] that [vmm_new_pagemap] holds. *)
Theorem new_pagemap_deadlock (s : kstate) (root : Z) (T : gmap (list Z) Z) (bl : list tile) :
  heap_ok s root T bl -> (forall c, c ∈ bl -> b_free c = true -> b_size c < 32) ->
  locked_out vmm_lock (vmm_new_pagemap s).
Proof.
  intros [H Hlk] Hnone. unfold vmm_new_pagemap. pose proof (new_root_table_spec s root T bl H) as Hw.
  unfold wp in Hw. destruct (new_root_table s) as [r s3|msg s3| | |] eqn:E; try done.
  - destruct Hw as (f & _ & [F1 F2 _ _ _ _ _ _]). eapply locked_step; [exact E|]. apply locked_stop.
    pose proof (kmalloc_grows_locked _ root T bl 8 F1) as Hg.
    replace s3 with (on_locks (set_latch vmm_lock true) (on_locks (set_latch vmm_lock false) s3)).
    + apply Hg; [|lia|done]. cbn [on_locks set_locks s_locks]. by rewrite F2, !latch_set_ne.
    + apply kstate_ext; try done. cbn [on_locks set_locks s_locks].
      apply (set_latch_back vmm_lock true). by rewrite F2, latch_set_eq.
  - apply locked_stop. by rewrite E.
Qed.
End pagemap.

(** ** Witnesses *)

Lemma new_pagemap_spec_witness :
  wp vmm_new_pagemap demo_heap (fun pm s' => pm = KERNEL_HEAP_START + 80 /\
    exists f, pagemaps (s_vmm s') !! pm = Some (hhdm_offset (s_boot demo_heap) + f) /\ pte s' f 3 = 0)
    out_of_memory.
Proof.
  eapply wp_mono; [apply (new_pagemap_spec demo_heap _ _ [Tile KERNEL_HEAP_START 64 false]
    (KERNEL_HEAP_START + 64) 4032 [] demo_heap_ok)| |done].
  - lia.
  - by intros c [->|[]%elem_of_nil]%elem_of_cons.
  - vm_compute. done.
  - intros pm s' (-> & _ & f & -> & _ & _ & H). split; [done|]. exists f.
    split; [by rewrite lookup_insert_eq|]. by apply (H 3).
Defined.

Lemma new_pagemap_deadlock_witness : locked_out vmm_lock (vmm_new_pagemap demo_full).
Proof.
  apply (new_pagemap_deadlock demo_full _ _ _ demo_full_ok).
  by intros c [->|[]%elem_of_nil]%elem_of_cons.
Defined.
