(* ===== verification/Elf.v ===== *)
(** * The program loader (kernel/system/elf.c)

    [elf64_load] checks the header, then maps and fills one [PT_LOAD] segment
    after the other.  Structure fields are read from the bytes of the image
    at their offsets; all additions on them wrap at 64 bits, as in the code. *)

From S2P Require Import Prelude Memory State Cpu Libc Pmm Vmm.

(** A message and the end of its line. *)
Definition line (s : string) : string := String.append s (String (Ascii.ascii_of_nat 10) EmptyString).

(** ** Data (elf.h) *)

Record elf64_header : Type := mk_elf_header {
  magic : list Z;
  class_ : Z;
  machine : Z;
  entry_point : Z;
  phoff : Z;
  phentsize : Z;
  phnum : Z
}.

Record elf64_phdr : Type := mk_elf_phdr {
  ph_type : Z;
  ph_flags : Z;
  ph_offset : Z;
  ph_vaddr : Z;
  ph_filesz : Z;
  ph_memsz : Z
}.

Record elf_info : Type := mk_elf_info {
  e_entry : Z;
  e_size : Z;
  e_base : Z
}.

Definition sizeof_elf64_header : Z := 64.
Definition sizeof_elf64_phdr : Z := 56.
Definition PT_LOAD : Z := 1.
Definition PF_X : Z := 1.
Definition PF_W : Z := 2.

Definition header_at (m : mem) (a : Z) : elf64_header :=
  mk_elf_header (read_bytes m a 4) (rd m (a + 4)) (load16 m (a + 18)) (load64 m (a + 24))
    (load64 m (a + 32)) (load16 m (a + 54)) (load16 m (a + 56)).

Definition phdr_at (m : mem) (a : Z) : elf64_phdr :=
  mk_elf_phdr (load32 m a) (load32 m (a + 4)) (load64 m (a + 8)) (load64 m (a + 16))
    (load64 m (a + 32)) (load64 m (a + 40)).

(** ** Operations *)

Definition segment_flags (p_flags : Z) : Z :=
  let flags := Z.lor PTE_PRESENT PTE_USER in
  let flags := if negb (Z.land p_flags PF_W =? 0) then Z.lor flags PTE_WRITABLE else flags in
  if Z.land p_flags PF_X =? 0 then Z.lor flags PTE_NX else flags.

Definition start_page (p : elf64_phdr) : Z := Z.land (ph_vaddr p) (Z.lnot (PAGE_SIZE - 1)).
Definition segment_end (p : elf64_phdr) : Z := u64 (ph_vaddr p + ph_memsz p).
Definition end_page (p : elf64_phdr) : Z :=
  Z.land (u64 (segment_end p + PAGE_SIZE - 1)) (Z.lnot (PAGE_SIZE - 1)).

(** [while (addr < end_page)]: one round per page of the segment. *)
Fixpoint map_segment (fuel : nat) (pagemap addr stop flags : Z) : M unit :=
  if addr <? stop then
    match fuel with
    | O => diverge
    | S fuel =>
      existing_phys <- vmm_virt_to_phys pagemap addr;;
      if negb (existing_phys =? 0) then panic (line "elf64_load: virtual address already mapped!") else
      page <- pmm_allocate;;
      ASSERT (negb (page =? 0));;;
      vmm_map_page pagemap addr page flags;;;
      map_segment fuel pagemap (u64 (addr + PAGE_SIZE)) stop flags
    end
  else ret tt.

(** The body of the loop over the program headers for a [PT_LOAD] entry. *)
Definition load_segment (pagemap elf_data len : Z) (p : elf64_phdr) : M unit :=
  let flags := segment_flags (ph_flags p) in
  ASSERT (start_page p <? end_page p);;;
  ASSERT (start_page p <? end_page p);;;
  ASSERT (start_page p mod PAGE_SIZE =? 0);;;
  ASSERT (end_page p mod PAGE_SIZE =? 0);;;
  ASSERT (negb (start_page p =? 0));;;
  map_segment (Z.to_nat ((end_page p - start_page p) / PAGE_SIZE)) pagemap (start_page p) (end_page p) flags;;;
  let file_start := ph_offset p in
  let file_end := u64 (file_start + ph_filesz p) in
  if len <? file_end then panic (line "segment out of bound!") else
  ASSERT (negb (u64 (elf_data + file_start) =? 0));;;
  ASSERT (negb (ph_vaddr p =? 0));;;
  ASSERT (0 <? ph_filesz p);;;
  vmm_map_copy pagemap (ph_vaddr p) (u64 (elf_data + file_start)) (ph_filesz p);;;
  when (ph_filesz p <? ph_memsz p)
    (vmm_map_zero pagemap (u64 (ph_vaddr p + ph_filesz p)) (ph_memsz p - ph_filesz p)).

(** [base_addr] and [end_addr] after a segment. *)
Definition widen (p : elf64_phdr) (r : Z * Z) : Z * Z :=
  (if ph_vaddr p <? r.1 then ph_vaddr p else r.1, if r.2 <? segment_end p then segment_end p else r.2).

(** [for (i = 0; i < ph_count; i++)], from [i] on. *)
Fixpoint load_segments (n : nat) (pagemap elf_data len phoff phsize i : Z) (r : Z * Z) : M (Z * Z) :=
  match n with
  | O => ret r
  | S n =>
    let ph_start := u64 (phoff + u64 (i * phsize)) in
    if len <? u64 (ph_start + phsize) then panic (line "header out of bound!") else
    p <- gets (fun s => phdr_at (s_mem s) (u64 (elf_data + ph_start)));;
    if negb (ph_type p =? PT_LOAD) then load_segments n pagemap elf_data len phoff phsize (i + 1) r else
    load_segment pagemap elf_data len p;;;
    load_segments n pagemap elf_data len phoff phsize (i + 1) (widen p r)
  end.

(** The checks on the header, in order: the message of the first that fails. *)
Definition header_check (h : elf64_header) : option string :=
  if negb (bool_decide (magic h = [0x7F; 0x45; 0x4C; 0x46])) then Some (line "invalid magic") else
  if negb (class_ h =? 2) then Some (line "not an elf64") else
  if negb (machine h =? 0x3E) then Some (line "not amd64") else
  if negb (phentsize h =? sizeof_elf64_phdr) then Some (line "invalid phentsize") else None.

Definition elf64_load (pagemap elf_data len : Z) : M elf_info :=
  if len <? sizeof_elf64_header then panic (line "elf64_load: invalid ELF header size") else
  h <- gets (fun s => header_at (s_mem s) elf_data);;
  match header_check h with
  | Some msg => panic msg
  | None =>
    r <- load_segments (Z.to_nat (phnum h)) pagemap elf_data len (phoff h) (phentsize h) 0 (2 ^ 64 - 1, 0);;
    h <- gets (fun s => header_at (s_mem s) elf_data);;
    ret (mk_elf_info (entry_point h) (u64 (r.2 - r.1)) r.1)
  end.
