(* ===== verification/ElfSpec.v ===== *)
(** * The program loader is correct (theorems about kernel/system/elf.c) *)

From S2P Require Import Prelude Memory State Cpu Libc Pmm Vmm VmmTree VmmSpec VmmFresh VmmCopy Heap Elf.

Section elf_spec.
Context {PA : page_allocator pmm_allocate pmm_free}.

(** ** Definitions *)

(** The byte that the address space [T] shows at [v]. *)
Definition user_byte (s : kstate) (T : gmap (list Z) Z) (v : Z) : Z :=
  rd (s_mem s) (hhdm_offset (s_boot s) + translate s T v).

(** The pages of [P] are backed by frames of their own. *)
Record pages_owned (s : kstate) (T : gmap (list Z) Z) (P : Z -> Prop) : Prop := {
  po_range : forall v, P v -> 0 <= v < 2 ^ 47;
  po_present : forall v, P v -> present (leaf_entry s T v) = true;
  po_used : forall v, P v -> frame_used s (PTE_GET_ADDR (leaf_entry s T v));
  po_inj : forall v w, P v -> P w ->
    PTE_GET_ADDR (leaf_entry s T v) = PTE_GET_ADDR (leaf_entry s T w) -> v / 4096 = w / 4096;
  po_table : forall v p, P v -> T !! p <> Some (PTE_GET_ADDR (leaf_entry s T v))
}.

(** Everything the loader keeps while it maps and fills pages. *)
Record load_step (s : kstate) (pm root : Z) (T : gmap (list Z) Z) (s' : kstate) (T' : gmap (list Z) Z)
    (P P' : Z -> Prop) : Prop := {
  ls_ready : vmm_ready s' pm root T';
  ls_ctx : same_ctx s s';
  ls_owned : pages_owned s' T' P';
  ls_leaf : forall w, 0 <= w < 2 ^ 47 -> P w \/ ~ P' w -> leaf_entry s' T' w = leaf_entry s T w;
  ls_bytes : forall w, P w -> user_byte s' T' w = user_byte s T w;
  ls_high : forall x, KERNEL_HEAP_START <= x -> rd (s_mem s') x = rd (s_mem s) x
}.

(** The pages of a segment. *)
Definition seg_pages (p : elf64_phdr) (v : Z) : Prop := start_page p <= v < end_page p.

(** A segment that fits the user half. *)
Record segment_fits (p : elf64_phdr) : Prop := {
  so_vaddr : 4096 <= ph_vaddr p;
  so_filesz : 0 < ph_filesz p <= ph_memsz p;
  so_end : ph_vaddr p + ph_memsz p + 4096 <= 2 ^ 47
}.

(** ... and lies inside the file. *)
Record segment_ok (len : Z) (p : elf64_phdr) : Prop := {
  so_fits : segment_fits p;
  so_offset : 0 <= ph_offset p;
  so_file : ph_offset p + ph_filesz p <= len
}.

(** ** Lemmas *)

Lemma vpn_user v w : 0 <= v < 2 ^ 47 -> 0 <= w < 2 ^ 47 -> vpn v = vpn w <-> v / 4096 = w / 4096.
Proof. intros. apply vpn_small; lia. Qed.

Lemma translate_owned s T P v : pa_ready s -> pages_owned s T P -> P v ->
  translate s T v = PTE_GET_ADDR (leaf_entry s T v) + v mod 4096 /\
  in_frame s (PTE_GET_ADDR (leaf_entry s T v)) (hhdm_offset (s_boot s) + translate s T v).
Proof.
  intros Hr [O1 O2 O3 O4 O5] Hv. destruct (pa_range _ _ Hr (O3 v Hv)) as [Hm Hrg].
  unfold translate. rewrite (O2 v Hv). rewrite u64_small by zlia. split; [done|]. unfold in_frame. zlia.
Qed.

Lemma load_step_refl s pm root T P :
  vmm_ready s pm root T -> pages_owned s T P -> load_step s pm root T s T P P.
Proof. intros R O. split; try done; split; auto. Qed.

Lemma load_step_trans s1 pm root T1 s2 T2 s3 T3 (P1 P2 P3 : Z -> Prop) :
  (forall v, P1 v -> P2 v) -> (forall v, P2 v -> P3 v) ->
  load_step s1 pm root T1 s2 T2 P1 P2 -> load_step s2 pm root T2 s3 T3 P2 P3 ->
  load_step s1 pm root T1 s3 T3 P1 P3.
Proof.
  intros H12 H23 [A1 A2 A3 A4 A5 A6] [B1 B2 B3 B4 B5 B6]. split; [done|by eapply same_ctx_trans|done| | |].
  - intros w Hw Hor. rewrite B4, A4; [done|done| |done|].
    + destruct Hor as [?|Hn]; [by left|right; auto].
    + destruct Hor as [?|Hn]; [left; auto|by right].
  - intros w Hw. rewrite B5, A5 by auto. done.
  - intros x Hx. rewrite B6, A6 by done. done.
Qed.

(** A fresh page joins the owned ones. *)
Lemma owned_fresh s pm root T virt flags f s' T' P :
  vmm_ready s pm root T -> pages_owned s T P -> mapped_fresh s pm root T virt flags f s' T' ->
  0 <= virt < 2 ^ 47 -> virt mod 4096 = 0 -> (forall v, virt <= v < virt + 4096 -> ~ P v) ->
  Z.land flags 0x000ffffffffff000 = 0 ->
  load_step s pm root T s' T' P (fun v => P v \/ virt <= v < virt + 4096) /\
  (forall v, virt <= v < virt + 4096 ->
     leaf_entry s' T' v = Z.lor (Z.lor f flags) 1 /\ user_byte s' T' v = 0).
Proof.
  intros R O [F1 F2 F3 F4 F5 F6 F7 F8 F9 F10] Hv Hvm HnP Hfl. pose proof O as [O1 O2 O3 O4 O5].
  pose proof R as [Rp _ _ Rt]. pose proof F1 as [Hr' _ _ Rt']. destruct (pa_range _ _ Hr' F4) as [Hfm Hfr].
  destruct (fresh_entry f flags Hfm Hfr Hfl) as [E1 E2].
  assert (forall v, P v -> leaf_entry s' T' v = leaf_entry s T v) as Hold.
  { intros v HP. rewrite F7. destruct (Z.eqb_spec (vpn v) (vpn virt)) as [E|]; [|done].
    apply vpn_user in E; [|by apply O1|lia]. exfalso. apply (HnP v); [zlia|done]. }
  assert (forall v, virt <= v < virt + 4096 -> leaf_entry s' T' v = Z.lor (Z.lor f flags) 1) as Hnew.
  { intros v Hx. rewrite F7. replace (vpn v) with (vpn virt); [by rewrite Z.eqb_refl|].
    apply vpn_user; [lia| |zlia]. split; [lia|]. assert (virt + 4096 <= 2 ^ 47) by zlia. lia. }
  assert (s_boot s' = s_boot s) as Eb by apply F2.
  assert (pages_owned s' T' (fun v => P v \/ virt <= v < virt + 4096)) as O'.
  { split.
    - intros v [HP|Hx]; [by apply O1|]. assert (virt + 4096 <= 2 ^ 47) by zlia. lia.
    - intros v [HP|Hx]; [rewrite Hold by done; auto|by rewrite Hnew].
    - intros v [HP|Hx]; [rewrite Hold by done; auto|by rewrite Hnew, E2].
    - intros v w [HP|Hx] [HQ|Hy].
      + rewrite !Hold by done. by apply O4.
      + rewrite (Hold v), (Hnew w), E2 by done. intros E. exfalso. apply F3. rewrite <- E. auto.
      + rewrite (Hold w), (Hnew v), E2 by done. intros E. exfalso. apply F3. rewrite E. auto.
      + intros _. zlia.
    - intros v p [HP|Hx] Hp; [rewrite Hold in Hp by done|rewrite Hnew, E2 in Hp by done; by apply (F5 p)].
      destruct (F6 p _ Hp) as [[q Hq]|Hnu]; [by apply (O5 v q)|]. by apply Hnu, O3. }
  split; [split; [done|done|done| | |]|].
  - intros w Hw [HP|Hn]; [by apply Hold|]. rewrite F7. destruct (Z.eqb_spec (vpn w) (vpn virt)) as [E|]; [|done].
    apply vpn_user in E; [|done|lia]. exfalso. apply Hn. right. zlia.
  - intros w HP. destruct (translate_owned s T P w Rp O HP) as [Ht Hin].
    unfold user_byte. rewrite Eb. assert (translate s' T' w = translate s T w) as ->.
    { unfold translate. by rewrite Hold. }
    apply F10. intros (t & Hx & Hor). pose proof (O3 w HP) as Hu. destruct (pa_range _ _ Rp Hu) as [Hm _].
    destruct Hor as [[q Hq]|[Hnt Hut]].
    + destruct (pa_range _ _ Rp (tr_used _ _ _ Rt _ _ Hq)) as [Htm _].
      apply (frames_disjoint s t (PTE_GET_ADDR (leaf_entry s T w)) _ Htm Hm) in Hx; [done| |done].
      intros ->. by apply (O5 w q).
    + destruct (pa_range _ _ Hr' Hut) as [Htm _].
      apply (frames_disjoint s t (PTE_GET_ADDR (leaf_entry s T w)) _ Htm Hm) in Hx; [done| |done]. by intros ->.
  - intros x Hx. apply F10. intros (t & Hin & Hor). destruct (pa_boot _ Rp) as [_ _ Hb].
    assert (t mod 4096 = 0 /\ t < 2 ^ 35) as [? ?]; [|unfold in_frame in Hin; zlia].
    destruct Hor as [[q Hq]|[_ Hut]].
    + destruct (pa_range _ _ Rp (tr_used _ _ _ Rt _ _ Hq)). lia.
    + destruct (pa_range _ _ Hr' Hut). lia.
  - intros v Hx. split; [by apply Hnew|]. destruct (translate_owned s' T' _ v Hr' O' ltac:(by right)) as [_ Hin].
    unfold user_byte. apply F9. rewrite Hnew, E2 in Hin by done. unfold in_frame in *. by rewrite Eb in Hin |- *.
Qed.

Lemma load_step_ext s pm root T s' T' (P P' Q' : Z -> Prop) :
  (forall v, P' v <-> Q' v) -> load_step s pm root T s' T' P P' -> load_step s pm root T s' T' P Q'.
Proof.
  intros E [A1 A2 [O1 O2 O3 O4 O5] A4 A5 A6]. split; try done.
  - split; [intros v ?%E|intros v ?%E|intros v ?%E|intros v w ?%E ?%E|intros v p ?%E]; auto.
  - intros w Hw [?|Hn]; [by apply A4; [|left]|]. apply A4; [done|]. right. by intros ?%E.
Qed.

(** The loop that maps the pages of a segment. *)
Lemma map_segment_spec fuel s pm root T addr stop flags P :
  vmm_ready s pm root T -> pages_owned s T P -> 0 <= addr -> addr mod 4096 = 0 -> stop mod 4096 = 0 ->
  stop <= 2 ^ 47 -> (stop - addr) / 4096 <= Z.of_nat fuel ->
  (forall v, addr <= v < stop -> ~ P v /\ present (leaf_entry s T v) = false) ->
  0 <= flags < 2 ^ 64 -> Z.land flags 0x000ffffffffff000 = 0 ->
  wp (map_segment fuel pm addr stop flags) s
    (fun _ s' => exists T', load_step s pm root T s' T' P (fun v => P v \/ addr <= v < stop) /\
       forall v, addr <= v < stop -> user_byte s' T' v = 0 /\
         exists f, leaf_entry s' T' v = Z.lor (Z.lor f flags) 1) out_of_memory.
Proof.
  revert s T addr P. induction fuel as [|fuel IH]; intros s T addr P R O Ha0 Ham Hsm Hs Hf Hun Hfl Hfm; cbn [map_segment];
    (destruct (Z.ltb_spec addr stop); [|apply wp_ret; exists T; split; [|intros; lia];
      eapply load_step_ext; [|by apply load_step_refl]; intros v; split; [auto|intros [?|?]; [done|lia]]]).
  { exfalso. zlia. }
  pose proof R as [Rp Rl Rb Rt]. destruct (Hun addr ltac:(lia)) as [HnP Hnp].
  eapply wp_bind, wp_ok; [by apply (virt_to_phys_translates s pm root T)|].
  assert (translate s T addr = 0) as -> by (unfold translate; by rewrite Hnp). cbn [Z.eqb negb].
  assert (wp (page <- pmm_allocate;; ASSERT (negb (page =? 0));;; vmm_map_page pm addr page flags) s
    (fun r s' => r = true /\ exists f T', mapped_fresh s pm root T addr flags f s' T') out_of_memory) as Hmap.
  { apply (map_fresh_spec s pm root T addr flags (fun page => ASSERT (negb (page =? 0)))); [done|lia|done|].
    intros a t Ha. destruct (Z.eqb_spec a 0); [lia|done]. }
  assert (forall k : M unit, wp (page <- pmm_allocate;; ASSERT (negb (page =? 0));;; vmm_map_page pm addr page flags;;; k) s =
    wp ((page <- pmm_allocate;; ASSERT (negb (page =? 0));;; vmm_map_page pm addr page flags);;; k) s) as Hre.
  { intros k. unfold wp, bind. destruct (pmm_allocate s) as [a s1| | | |]; try done. by destruct (ASSERT _ s1). }
  rewrite Hre. eapply wp_call; [exact Hmap|]. intros r s1 (-> & f & T1 & Hfr).
  destruct (owned_fresh s pm root T addr flags f s1 T1 P R O Hfr) as [St1 Hnew]; [lia|done| |done|].
  { intros v Hv. apply Hun. assert (addr + 4096 <= stop) by zlia. lia. }
  assert (addr + 4096 <= stop) as Hle by zlia. change PAGE_SIZE with 4096. rewrite u64_small by lia.
  pose proof St1 as [S1 S2 S3 S4 S5 S6].
  eapply wp_mono; [apply (IH s1 T1 (addr + 4096) (fun v => P v \/ addr <= v < addr + 4096) S1 S3); try done; [lia|zlia|zlia|]| |done].
  { intros v Hv. split; [intros [HP|?]; [|lia]; by apply (Hun v); [lia|]|].
    rewrite S4; [by apply Hun; lia|lia|]. right. intros [HP|?]; [|lia]. by apply (Hun v); [lia|]. }
  intros [] s2 (T2 & St2 & Hz). exists T2. split.
  - eapply load_step_ext;
      [|eapply (fun H12 H23 => load_step_trans s pm root T s1 T1 s2 T2 _ _ _ H12 H23 St1 St2); auto].
    intros v. split; [intros [[?|?]|?]; auto; right; lia|].
    intros [?|?]; [auto|]. destruct (decide (v < addr + 4096)); [left; right; lia|right; lia].
  - intros v Hv. destruct (decide (addr + 4096 <= v)); [apply Hz; lia|].
    pose proof St2 as [_ _ _ Q4 Q5 _]. destruct (Hnew v ltac:(lia)) as [L1 L2].
    rewrite Q5 by (right; lia). split; [done|]. exists f. rewrite Q4; [done|lia|]. left. right. lia.
Qed.

(** Distinct addresses of owned pages are distinct bytes. *)
Lemma owned_inj s T P v w : pa_ready s -> pages_owned s T P -> P v -> P w ->
  translate s T v = translate s T w -> v = w.
Proof.
  intros Hr O Hv Hw E. destruct (translate_owned s T P v Hr O Hv) as [E1 _].
  destruct (translate_owned s T P w Hr O Hw) as [E2 _]. pose proof O as [_ _ O3 O4 _].
  destruct (pa_range _ _ Hr (O3 v Hv)) as [M1 _]. destruct (pa_range _ _ Hr (O3 w Hw)) as [M2 _].
  assert (PTE_GET_ADDR (leaf_entry s T v) = PTE_GET_ADDR (leaf_entry s T w)) as Ef by zlia.
  apply O4 in Ef; [|done|done]. zlia.
Qed.

(** Bytes written to owned pages. *)
Lemma fill_step s pm root T P virt len m' g :
  vmm_ready s pm root T -> pages_owned s T P -> (forall k, 0 <= k < len -> P (virt + k)) ->
  (forall k, 0 <= k < len -> rd m' (dst s T virt k) = g k) ->
  (forall x, (forall k, 0 <= k < len -> x <> dst s T virt k) -> rd m' x = rd (s_mem s) x) ->
  vmm_ready (set_mem m' s) pm root T /\ pages_owned (set_mem m' s) T P /\
  (forall v, leaf_entry (set_mem m' s) T v = leaf_entry s T v) /\
  (forall v, P v -> user_byte (set_mem m' s) T v =
     if (virt <=? v) && (v <? virt + len) then g (v - virt) else user_byte s T v) /\
  (forall x, KERNEL_HEAP_START <= x -> rd m' x = rd (s_mem s) x).
Proof.
  intros R O Hin Hg Hout. pose proof R as [Rp Rl Rb Rt]. pose proof O as [O1 O2 O3 O4 O5].
  assert (forall k, 0 <= k < len -> in_frame s (PTE_GET_ADDR (leaf_entry s T (virt + k))) (dst s T virt k)) as Hdst.
  { intros k Hk. apply (translate_owned s T P); auto. }
  destruct (tree_mem s root T m' Rp Rt) as (R' & Tr & L).
  { intros p t x Hp Hx. apply Hout. intros k Hk ->. pose proof (Hdst k Hk) as Hd.
    destruct (pa_range _ _ Rp (O3 _ (Hin k Hk))) as [Hm _].
    destruct (pa_range _ _ Rp (tr_used _ _ _ Rt _ _ Hp)) as [Htm _].
    apply (frames_disjoint s t _ _ Htm Hm) in Hd; [done| |done]. intros ->. by apply (O5 _ p (Hin k Hk)). }
  assert (forall v, translate (set_mem m' s) T v = translate s T v) as Htr by (intros v; unfold translate; by rewrite L).
  destruct (pa_frame s (set_mem m' s)) as [_ Hu']; auto.
  split_and!; [done| |done| |].
  - split; [done|..]; intros v; rewrite ?L; auto.
    + intros HP. apply Hu'. auto.
    + intros w. rewrite L. auto.
  - intros v HP. unfold user_byte. rewrite Htr. cbn [set_mem s_mem s_boot].
    destruct ((virt <=? v) && (v <? virt + len)) eqn:E.
    + apply andb_true_iff in E. rewrite <- (Hg (v - virt)) by lia. unfold dst. do 3 f_equal. lia.
    + apply andb_false_iff in E. apply Hout. intros k Hk Ed. unfold dst in Ed.
      assert (v = virt + k); [|lia]. apply (owned_inj s T P); auto. lia.
  - intros x Hx. apply Hout. intros k Hk ->. pose proof (Hdst k Hk) as Hd. unfold in_frame in Hd.
    destruct (pa_range _ _ Rp (O3 _ (Hin k Hk))) as [Hm ?]. destruct (pa_boot _ Rp) as [_ _ Hb]. zlia.
Qed.

Lemma owned_target s pm root T P virt len :
  vmm_ready s pm root T -> pages_owned s T P -> 0 <= virt -> 0 <= len -> virt + len <= 2 ^ 47 ->
  (forall k, 0 <= k < len -> P (virt + k)) -> copy_target s T virt len.
Proof.
  intros R [O1 O2 O3 O4 O5] Hv Hl Hh Hin. split; [done|done|lia|auto|auto| |auto].
  intros j k Hj Hk E. apply vpn_user; [apply O1; auto|apply O1; auto|]. apply O4; auto.
Qed.

Lemma segment_bounds p : segment_fits p ->
  start_page p mod 4096 = 0 /\ end_page p mod 4096 = 0 /\ 4096 <= start_page p <= ph_vaddr p /\
  ph_vaddr p + ph_memsz p <= end_page p /\ end_page p <= 2 ^ 47 /\
  segment_end p = ph_vaddr p + ph_memsz p.
Proof.
  intros [S1 S2 S3]. unfold start_page, end_page, segment_end. change (PAGE_SIZE - 1) with 4095.
  change PAGE_SIZE with 4096. rewrite (u64_small (ph_vaddr p + ph_memsz p)), (u64_small (_ + 4096 - 1)), !land_lnot_page by lia.
  split_and!; done || zlia.
Qed.

Lemma segment_flags_ok fl : 0 <= segment_flags fl < 2 ^ 64 /\ Z.land (segment_flags fl) 0x000ffffffffff000 = 0.
Proof. unfold segment_flags. destruct (Z.land fl PF_W =? 0), (Z.land fl PF_X =? 0); cbn; split; done || lia. Qed.

(** What a loaded segment looks like from its own address space. *)
Definition segment_loaded (m : mem) (src : Z) (p : elf64_phdr) (s : kstate) (T : gmap (list Z) Z) : Prop :=
  forall k, 0 <= k < ph_memsz p ->
    user_byte s T (ph_vaddr p + k) = (if k <? ph_filesz p then rd m (src + k) else 0) /\
    exists f, leaf_entry s T (ph_vaddr p + k) = Z.lor (Z.lor f (segment_flags (ph_flags p))) 1.

(** The two copies of [load_segment], with the pages in place. *)
Lemma fill_segment s pm root T P src p :
  vmm_ready s pm root T -> pages_owned s T P -> segment_fits p ->
  (forall v, seg_pages p v -> P v) -> KERNEL_HEAP_START <= src -> src + ph_filesz p < 2 ^ 64 ->
  (forall v, seg_pages p v -> user_byte s T v = 0) ->
  wp (vmm_map_copy pm (ph_vaddr p) src (ph_filesz p);;;
      when (ph_filesz p <? ph_memsz p)
        (vmm_map_zero pm (u64 (ph_vaddr p + ph_filesz p)) (ph_memsz p - ph_filesz p))) s
    (fun _ s' => exists m', s' = set_mem m' s /\ vmm_ready s' pm root T /\ pages_owned s' T P /\
       (forall v, leaf_entry s' T v = leaf_entry s T v) /\
       (forall v, P v -> ~ seg_pages p v -> user_byte s' T v = user_byte s T v) /\
       (forall k, 0 <= k < ph_memsz p -> user_byte s' T (ph_vaddr p + k) =
          if k <? ph_filesz p then rd (s_mem s) (src + k) else 0) /\
       (forall x, KERNEL_HEAP_START <= x -> rd m' x = rd (s_mem s) x)) no_panic.
Proof.
  intros R O Hok Hsub Hd Hlen Hz. destruct (segment_bounds p Hok) as (B1 & B2 & B3 & B4 & B5 & B6).
  pose proof Hok as [S1 S2 S3]. pose proof R as [Rp _ _ _].
  assert (forall k, 0 <= k < ph_memsz p -> seg_pages p (ph_vaddr p + k)) as Hseg by (intros; unfold seg_pages; lia).
  assert (copy_target s T (ph_vaddr p) (ph_filesz p)) as Ht1.
  { apply (owned_target s pm root T P); try done; try lia. intros k Hk. apply Hsub, Hseg. lia. }
  eapply wp_call; [apply (map_copy_fills s pm root T _ _ _ R Ht1); [lia|lia|]|].
  { intros k j Hk Hj E. destruct (translate_owned s T P (ph_vaddr p + k) Rp O) as [_ Hin]; [apply Hsub, Hseg; lia|].
    unfold dst in E. rewrite E in Hin. unfold in_frame in Hin. destruct (pa_boot _ Rp) as [_ _ Hb].
    destruct (pa_range _ _ Rp (po_used _ _ _ O _ (Hsub _ (Hseg k ltac:(lia))))) as [? ?]. zlia. }
  intros [] s1 (m1 & -> & F1 & F2 & _ & _).
  destruct (fill_step s pm root T P (ph_vaddr p) (ph_filesz p) m1 (fun k => rd (s_mem s) (src + k)) R O)
    as (R1 & O1 & L1 & U1 & H1); [|exact F1|exact F2|].
  { intros k Hk. apply Hsub, Hseg. lia. }
  unfold when. destruct (Z.ltb_spec (ph_filesz p) (ph_memsz p)) as [Hlt|Hge].
  - rewrite u64_small by lia. set (v0 := ph_vaddr p + ph_filesz p). set (n0 := ph_memsz p - ph_filesz p).
    assert (copy_target (set_mem m1 s) T v0 n0) as Ht2.
    { apply (owned_target _ pm root T P); try done; try (unfold v0, n0; lia). intros k Hk. unfold v0.
      replace (ph_vaddr p + ph_filesz p + k) with (ph_vaddr p + (ph_filesz p + k)) by lia. apply Hsub, Hseg. lia. }
    eapply wp_mono; [apply (map_zero_fills _ pm root T _ _ R1 Ht2)| |done].
    intros [] s2 (m2 & -> & G1 & G2 & _ & _).
    destruct (fill_step (set_mem m1 s) pm root T P v0 n0 m2 (fun _ => 0) R1 O1) as (R2 & O2 & L2 & U2 & H2); [|done|done|].
    { intros k Hk. unfold v0. replace (ph_vaddr p + ph_filesz p + k) with (ph_vaddr p + (ph_filesz p + k)) by lia.
      apply Hsub, Hseg. lia. }
    exists m2. split; [done|]. split; [exact R2|]. split; [exact O2|]. split_and!.
    + intros v. change (set_mem m2 s) with (set_mem m2 (set_mem m1 s)). by rewrite L2, L1.
    + intros v HP Hns. change (set_mem m2 s) with (set_mem m2 (set_mem m1 s)). unfold seg_pages in Hns.
      rewrite U2, (proj2 (andb_false_iff _ _)) by (done || unfold v0, n0; lia).
      by rewrite U1, (proj2 (andb_false_iff _ _)) by (done || lia).
    + intros k Hk. change (set_mem m2 s) with (set_mem m2 (set_mem m1 s)). rewrite U2 by (apply Hsub, Hseg; lia).
      destruct (Z.ltb_spec k (ph_filesz p)).
      * rewrite (proj2 (andb_false_iff _ _)) by (unfold v0, n0; lia). rewrite U1 by (apply Hsub, Hseg; lia).
        rewrite (proj2 (andb_true_iff _ _)) by lia. f_equal. lia.
      * by rewrite (proj2 (andb_true_iff _ _)) by (unfold v0, n0; lia).
    + intros x Hx. rewrite H2 by done. by apply H1.
  - apply wp_ret. exists m1. split; [done|]. split_and!; try done.
    + intros v HP Hns. unfold seg_pages in Hns. by rewrite U1, (proj2 (andb_false_iff _ _)) by (done || lia).
    + intros k Hk. rewrite U1 by (apply Hsub, Hseg; lia). rewrite (proj2 (andb_true_iff _ _)) by lia.
      destruct (Z.ltb_spec k (ph_filesz p)); [f_equal; lia|lia].
Qed.

Lemma load_segment_spec s pm root T P elf_data len p :
  let src := u64 (elf_data + ph_offset p) in
  vmm_ready s pm root T -> pages_owned s T P -> segment_fits p ->
  (forall v, seg_pages p v -> ~ P v /\ present (leaf_entry s T v) = false) ->
  u64 (ph_offset p + ph_filesz p) <= len -> KERNEL_HEAP_START <= src -> src + ph_filesz p < 2 ^ 64 ->
  wp (load_segment pm elf_data len p) s
    (fun _ s' => exists T', load_step s pm root T s' T' P (fun v => P v \/ seg_pages p v) /\
       segment_loaded (s_mem s) src p s' T') out_of_memory.
Proof.
  intros src R O Hok Hun Hfile Hd Hlen. destruct (segment_bounds p Hok) as (B1 & B2 & B3 & B4 & B5 & B6).
  pose proof Hok as [S1 S2 S3]. destruct (segment_flags_ok (ph_flags p)) as [Fl1 Fl2]. unfold load_segment.
  assert (start_page p < end_page p) as Hlt by lia.
  do 2 (apply wp_bind, wp_ASSERT; [by apply Z.ltb_lt|]). change PAGE_SIZE with 4096. rewrite B1, B2.
  do 2 (apply wp_bind, wp_ASSERT; [done|]). apply wp_bind, wp_ASSERT; [by destruct (Z.eqb_spec (start_page p) 0); [lia|]|].
  eapply wp_call; [apply (map_segment_spec _ s pm root T (start_page p) (end_page p) _ P R O); try done; [lia|zlia]|].
  intros [] s1 (T1 & St1 & Hnew). pose proof St1 as [R1 C1 O1 L1 U1 H1].
  destruct (Z.ltb_spec len (u64 (ph_offset p + ph_filesz p))); [lia|]. fold src.
  apply wp_bind, wp_ASSERT; [by destruct (Z.eqb_spec src 0); [lia|]|].
  apply wp_bind, wp_ASSERT; [by destruct (Z.eqb_spec (ph_vaddr p) 0); [lia|]|].
  apply wp_bind, wp_ASSERT; [apply Z.ltb_lt; lia|].
  eapply wp_mono; [apply (fill_segment s1 pm root T1 (fun v => P v \/ start_page p <= v < end_page p) src p R1 O1 Hok);
    [by right|done|done|by intros; apply Hnew]| |done].
  intros [] s2 (m2 & -> & R2 & O2 & L2 & U2 & B & H2). exists T1. split.
  - split; [done| |done| | |].
    + destruct C1. split; done.
    + intros w Hw Hor. rewrite L2. by apply L1.
    + intros w HP. rewrite U2, U1; [done|done|by left|]. intros Hs. by apply (Hun w).
    + intros x Hx. cbn [set_mem s_mem]. rewrite H2 by done. by apply H1.
  - intros k Hk. rewrite B by done. split.
    + destruct (Z.ltb_spec k (ph_filesz p)); [|done]. apply H1. lia.
    + destruct (Hnew (ph_vaddr p + k) ltac:(lia)) as [_ [f Hf]]. exists f. by rewrite L2.
Qed.

(** Segments that share no page with a later one. *)
Fixpoint segs_apart (l : list elf64_phdr) : Prop :=
  match l with
  | [] => True
  | p :: l => (forall q v, q ∈ l -> seg_pages p v -> ~ seg_pages q v) /\ segs_apart l
  end.

Definition in_segs (l : list elf64_phdr) (v : Z) : Prop := exists p, p ∈ l /\ seg_pages p v.

(** The loadable program headers number [i] to [i + n - 1]. *)
Definition loads (m : mem) (table i : Z) (n : nat) : list elf64_phdr :=
  filter (fun p => ph_type p = PT_LOAD) (map (fun j => phdr_at m (table + j * 56)) (seqZ i (Z.of_nat n))).

Lemma loads_S m table i n :
  loads m table i (S n) =
  let p := phdr_at m (table + i * 56) in
  if decide (ph_type p = PT_LOAD) then p :: loads m table (i + 1) n else loads m table (i + 1) n.
Proof.
  unfold loads. replace (Z.of_nat (S n)) with (Z.succ (Z.of_nat n)) by lia. rewrite (seqZ_cons i) by lia.
  replace (Z.pred (Z.succ (Z.of_nat n))) with (Z.of_nat n) by lia. cbn [map]. rewrite filter_cons. cbn zeta.
  replace (Z.succ i) with (i + 1) by lia. done.
Qed.

Lemma phdr_at_high m m' a : KERNEL_HEAP_START <= a ->
  (forall x, KERNEL_HEAP_START <= x -> rd m' x = rd m x) -> phdr_at m' a = phdr_at m a.
Proof.
  intros Ha Hm. unfold phdr_at, load64, load32.
  f_equal; apply load_le_ext; intros k Hk; apply Hm; lia.
Qed.

Lemma segment_loaded_step m src p s pm root T s' T' (P P' : Z -> Prop) :
  segment_fits p -> (forall v, seg_pages p v -> P v) -> load_step s pm root T s' T' P P' ->
  segment_loaded m src p s T -> segment_loaded m src p s' T'.
Proof.
  intros Hok Hsub [_ _ _ L U _] H k Hk. destruct (segment_bounds p Hok) as (B1 & B2 & B3 & B4 & B5 & B6).
  assert (P (ph_vaddr p + k)) as HP by (apply Hsub; unfold seg_pages; lia).
  destruct (H k Hk) as [H1 [f H2]]. rewrite U, H1 by done. split; [done|]. exists f. rewrite L; [done|lia|by left].
Qed.

Lemma segment_loaded_mem m m' src p s T :
  KERNEL_HEAP_START <= src ->
  (forall x, KERNEL_HEAP_START <= x -> rd m' x = rd m x) ->
  segment_loaded m' src p s T -> segment_loaded m src p s T.
Proof.
  intros Hd Hm H k Hk. destruct (H k Hk) as [H1 H2]. split; [|done]. rewrite H1.
  destruct (Z.ltb_spec k (ph_filesz p)); [|done]. apply Hm. lia.
Qed.

(** The loop over the program headers. *)
Lemma load_segments_spec n s pm root T (P : Z -> Prop) elf_data len phoff i m0 r :
  let table := elf_data + phoff in let l := loads m0 table i n in
  vmm_ready s pm root T -> pages_owned s T P -> KERNEL_HEAP_START <= elf_data -> elf_data + len < 2 ^ 64 ->
  0 <= phoff -> 0 <= i -> phoff + (i + Z.of_nat n) * 56 <= len ->
  (forall x, KERNEL_HEAP_START <= x -> rd (s_mem s) x = rd m0 x) ->
  Forall (segment_ok len) l -> segs_apart l ->
  (forall v, in_segs l v -> ~ P v /\ present (leaf_entry s T v) = false) ->
  wp (load_segments n pm elf_data len phoff 56 i r) s
    (fun r' s' => r' = foldl (fun r p => widen p r) r l /\ exists T',
       load_step s pm root T s' T' P (fun v => P v \/ in_segs l v) /\
       forall p, p ∈ l -> segment_loaded m0 (elf_data + ph_offset p) p s' T') out_of_memory.
Proof.
  revert s T P i r. induction n as [|n IH]; intros s T P i r table l R O Hd Hlen Hph Hi Hfit Hm Hok Hap Hun;
    cbn [load_segments].
  { apply wp_ret. split; [done|]. exists T. split; [|by intros p Hp%elem_of_nil].
    eapply load_step_ext; [|by apply load_step_refl]. intros v. split; [auto|]. by intros [?|(p & Hp%elem_of_nil & _)]. }
  rewrite (u64_small (i * 56)), (u64_small (phoff + i * 56)), (u64_small (phoff + i * 56 + 56)),
    (u64_small (elf_data + (phoff + i * 56))) by lia.
  destruct (Z.ltb_spec len (phoff + i * 56 + 56)); [lia|].
  apply wp_bind, wp_gets. rewrite (phdr_at_high m0) by (done || lia). subst l. rewrite loads_S in *. cbv zeta in *.
  replace (elf_data + (phoff + i * 56)) with (table + i * 56) by (unfold table; lia).
  set (p := phdr_at m0 (table + i * 56)) in *. destruct (decide (ph_type p = PT_LOAD)) as [Ht|Ht].
  2: { destruct (Z.eqb_spec (ph_type p) PT_LOAD); [done|]. cbn [negb]. apply IH; try done; lia. }
  destruct (Z.eqb_spec (ph_type p) PT_LOAD); [|done]. cbn [negb].
  set (l := loads m0 table (i + 1) n) in *. apply Forall_cons in Hok as [Hokp Hok]. destruct Hap as [Hap1 Hap2].
  destruct Hokp as [Hfp Hop Hfl]. pose proof Hfp as [F1 F2 F3].
  pose proof (load_segment_spec s pm root T P elf_data len p R O Hfp) as Hseg. cbv zeta in Hseg.
  rewrite !u64_small in Hseg by lia.
  eapply wp_call; [apply Hseg; try lia|].
  { intros v Hv. apply Hun. exists p. split; [set_solver|done]. }
  intros [] s1 (T1 & St1 & Hld). pose proof St1 as [R1 C1 O1 L1 U1 H1].
  eapply wp_mono; [apply (IH s1 T1 (fun v => P v \/ seg_pages p v) (i + 1) (widen p r)); try done; try lia| |done].
  { intros x Hx. rewrite H1 by done. by apply Hm. }
  { intros v (q & Hq & Hv). assert (~ P v /\ present (leaf_entry s T v) = false) as [HnP Hnp].
    { apply Hun. exists q. split; [set_solver|done]. }
    assert (~ (P v \/ seg_pages p v)) as HnP'. { intros [?|Hpv]; [done|]. by apply (Hap1 q v). }
    split; [done|]. rewrite L1; [done| |by right].
    pose proof (proj1 (Forall_forall _ _) Hok q Hq) as Hokq.
    destruct (segment_bounds q (so_fits _ _ Hokq)) as (? & ? & ? & ? & ? & _). unfold seg_pages in Hv. lia. }
  intros r' s2 (-> & T2 & St2 & Hl). split; [done|]. exists T2. split.
  - eapply load_step_ext;
      [|eapply (fun H12 H23 => load_step_trans s pm root T s1 T1 s2 T2 _ _ _ H12 H23 St1 St2); auto].
    intros v. unfold in_segs. split.
    + intros [[?|?]|(q & Hq & ?)]; [by left|right; exists p; set_solver|right; exists q; set_solver].
    + intros [?|(q & [->|Hq]%elem_of_cons & ?)]; [by left; left|by left; right|right; by exists q].
  - intros q [->|Hq]%elem_of_cons; [|by apply Hl].
    apply (segment_loaded_mem _ (s_mem s)); [lia|done|].
    eapply (segment_loaded_step _ _ _ s1); [done| |exact St2|exact Hld]. by right.
Qed.

(** ** Properties *)

(** C10: loading a well-formed program image succeeds unless memory runs out.
    For an image in the kernel heap whose header passes the checks and whose
    [PT_LOAD] segments lie inside the file and the user half, share no page
    and hit no mapped page, the new address space shows at every address of
    each segment the byte of the file, or zero past the file's part, on a page
    with the segment's access rights; nothing else in the lower half is mapped
    or changed, and the entry point and base are those of the image. *)
Theorem elf64_load_spec (s : kstate) (pm root : Z) (T : gmap (list Z) Z) (elf_data len : Z) :
  let h := header_at (s_mem s) elf_data in
  let l := loads (s_mem s) (elf_data + phoff h) 0 (Z.to_nat (phnum h)) in
  vmm_ready s pm root T -> KERNEL_HEAP_START <= elf_data -> elf_data + len < 2 ^ 64 ->
  64 <= len -> header_check h = None -> phoff h + phnum h * 56 <= len ->
  Forall (segment_ok len) l -> segs_apart l ->
  (forall v, in_segs l v -> present (leaf_entry s T v) = false) ->
  wp (elf64_load pm elf_data len) s
    (fun info s' => e_entry info = entry_point h /\
       e_base info = (foldl (fun r p => widen p r) (2 ^ 64 - 1, 0) l).1 /\
       exists T', vmm_ready s' pm root T' /\ same_ctx s s' /\
         (forall p, p ∈ l -> segment_loaded (s_mem s) (elf_data + ph_offset p) p s' T') /\
         (forall v, 0 <= v < 2 ^ 47 -> ~ in_segs l v -> leaf_entry s' T' v = leaf_entry s T v)) out_of_memory.
Proof.
  intros h l R Hd Hlen H64 Hck Hfit Hok Hap Hun. unfold elf64_load. destruct (Z.ltb_spec len sizeof_elf64_header);
    [unfold sizeof_elf64_header in *; lia|].
  apply wp_bind, wp_gets. fold h. rewrite Hck.
  assert (phentsize h = 56) as ->.
  { unfold header_check in Hck. destruct (bool_decide (magic h = _)), (class_ h =? 2), (machine h =? 0x3E),
      (Z.eqb_spec (phentsize h) sizeof_elf64_phdr); done. }
  assert (0 <= phoff h /\ 0 <= phnum h) as [Hp0 Hn0].
  { split; [apply load_le_range|]. apply (load_le_range (s_mem s) (elf_data + 56) 2). }
  eapply wp_call.
  { apply (load_segments_spec _ s pm root T (fun _ => False) elf_data len (phoff h) 0 (s_mem s)); try done; try lia.
    intros v Hv. split; [tauto|]. by apply Hun. }
  intros r s1 (-> & T' & St & Hl). pose proof St as [R1 C1 O1 L1 U1 H1].
  apply wp_bind, wp_gets, wp_ret. cbn [e_entry e_base].
  assert (header_at (s_mem s1) elf_data = h) as ->.
  { unfold h, header_at, load64, load16. f_equal; [|apply H1; lia|..]; [|apply load_le_ext; intros; apply H1; lia..].
    apply read_bytes_ext. intros x Hx. apply H1. lia. }
  split; [done|]. split; [done|]. exists T'. split_and!; try done.
  intros v Hv Hn. apply L1; [done|]. right. by intros [?|?].
Qed.

(** The check of a segment against the end of the file adds two 64-bit
    values from the image without looking at the carry.  With an offset just
    below 2^64 the sum wraps, the check passes, and the segment is filled from
    the kernel heap in front of the image: user space gets to read it. *)
Theorem segment_check_wraps (s : kstate) (pm root : Z) (T : gmap (list Z) Z) (elf_data len d : Z) (p : elf64_phdr) :
  vmm_ready s pm root T -> segment_fits p ->
  (forall v, seg_pages p v -> present (leaf_entry s T v) = false) ->
  0 < d <= ph_filesz p -> ph_offset p = 2 ^ 64 - d -> ph_filesz p - d <= len ->
  KERNEL_HEAP_START + d <= elf_data -> elf_data + ph_filesz p < 2 ^ 64 ->
  wp (load_segment pm elf_data len p) s
    (fun _ s' => exists T', vmm_ready s' pm root T' /\
       forall k, 0 <= k < ph_filesz p ->
         user_byte s' T' (ph_vaddr p + k) = rd (s_mem s) (elf_data - d + k)) out_of_memory.
Proof.
  intros R Hfp Hun Hd Hoff Hlen He1 He2. pose proof Hfp as [S1 S2 S3].
  assert (u64 (elf_data + ph_offset p) = elf_data - d) as Hsrc by (rewrite Hoff; unfold u64; zlia).
  assert (u64 (ph_offset p + ph_filesz p) = ph_filesz p - d) as Hend by (rewrite Hoff; unfold u64; zlia).
  pose proof (load_segment_spec s pm root T (fun _ => False) elf_data len p R) as Hseg.
  rewrite Hsrc, Hend in Hseg. eapply wp_mono; [apply Hseg; try done; try lia| |done].
  { intros v Hv. split; [tauto|auto]. }
  intros [] s' (T' & St & Hl). exists T'. split; [apply St|]. intros k Hk.
  destruct (Hl k ltac:(lia)) as [-> _]. by destruct (Z.ltb_spec k (ph_filesz p)); [|lia].
Qed.

(** An image that is too short, or whose header fails one of the checks
    (magic, class, machine, size of a program header), stops the loader with
    the message of the first check that fails, before anything was changed. *)
Theorem elf64_load_rejects (s : kstate) (pm elf_data len : Z) :
  let h := header_at (s_mem s) elf_data in
  (len < 64 -> elf64_load pm elf_data len s = Panic (line "elf64_load: invalid ELF header size") s) /\
  (64 <= len -> magic h <> [0x7F; 0x45; 0x4C; 0x46] -> elf64_load pm elf_data len s = Panic (line "invalid magic") s) /\
  (64 <= len -> magic h = [0x7F; 0x45; 0x4C; 0x46] -> class_ h <> 2 ->
     elf64_load pm elf_data len s = Panic (line "not an elf64") s) /\
  (64 <= len -> magic h = [0x7F; 0x45; 0x4C; 0x46] -> class_ h = 2 -> machine h <> 0x3E ->
     elf64_load pm elf_data len s = Panic (line "not amd64") s) /\
  (64 <= len -> magic h = [0x7F; 0x45; 0x4C; 0x46] -> class_ h = 2 -> machine h = 0x3E -> phentsize h <> 56 ->
     elf64_load pm elf_data len s = Panic (line "invalid phentsize") s).
Proof.
  intros h. unfold elf64_load. change sizeof_elf64_header with 64.
  split; [intros Hlt; by rewrite (proj2 (Z.ltb_lt _ _) Hlt)|].
  destruct (Z.ltb_spec len 64); [split_and!; intros; lia|]. erewrite bind_ok by reflexivity. fold h.
  unfold header_check, sizeof_elf64_phdr.
  split_and!; intros _; case_bool_decide; try done; cbn [negb]; intros;
    destruct (Z.eqb_spec (class_ h) 2); try done; cbn [negb];
    destruct (Z.eqb_spec (machine h) 0x3E); try done; cbn [negb];
    destruct (Z.eqb_spec (phentsize h) 56); done.
Qed.
End elf_spec.

(** ** Witnesses *)

(** A program of one read-only, executable segment: four bytes of file, then
    four of zeroes, at 0x400000. *)
Definition demo_image : list Z :=
  [0x7F; 0x45; 0x4C; 0x46; 2; 1; 1; 0] ++ replicate 8 0 ++ [2; 0; 0x3E; 0; 1; 0; 0; 0] ++
  [0; 0; 0x40; 0; 0; 0; 0; 0] ++ [64; 0; 0; 0; 0; 0; 0; 0] ++ replicate 8 0 ++ [0; 0; 0; 0] ++
  [64; 0; 56; 0; 1; 0; 0; 0; 0; 0; 0; 0] ++
  [1; 0; 0; 0; 5; 0; 0; 0] ++ [120; 0; 0; 0; 0; 0; 0; 0] ++ [0; 0; 0x40; 0; 0; 0; 0; 0] ++ replicate 8 0 ++
  [4; 0; 0; 0; 0; 0; 0; 0] ++ [8; 0; 0; 0; 0; 0; 0; 0] ++ replicate 8 0 ++ [0xB8; 0x3C; 0; 0xC3].

Definition demo_elf_at : Z := KERNEL_HEAP_START + 0x1000.

Definition demo_elf : kstate :=
  set_mem (write_bytes (s_mem (demo_map 0x800000)) demo_elf_at demo_image) (demo_map 0x800000).

Definition demo_segment : elf64_phdr := mk_elf_phdr 1 5 120 0x400000 4 8.

Lemma demo_elf_header : header_at (s_mem demo_elf) demo_elf_at = mk_elf_header [0x7F; 0x45; 0x4C; 0x46] 2 0x3E 0x400000 64 56 1.
Proof. vm_compute. reflexivity. Qed.

Lemma demo_elf_loads : loads (s_mem demo_elf) (demo_elf_at + 64) 0 1 = [demo_segment].
Proof. vm_compute. reflexivity. Qed.

Lemma demo_elf_ready :
  vmm_ready demo_elf 0x5000 0x1000 (demo_tables 0x800000) /\
  forall v, leaf_entry demo_elf (demo_tables 0x800000) v = if vpn v =? vpn 0x800000 then 0x5003 else 0.
Proof.
  pose proof (demo_vmm_ready 0x800000) as R. pose proof R as [Rp Rl Rb Rt].
  destruct (tree_mem (demo_map 0x800000) 0x1000 (demo_tables 0x800000)
    (write_bytes (s_mem (demo_map 0x800000)) demo_elf_at demo_image) Rp Rt) as (R' & T' & L).
  { intros p t x Hp Hx. rewrite rd_write_bytes. destruct (Z.leb_spec demo_elf_at x) as [Hle|]; [|done].
    pose proof (tr_used _ _ _ Rt p t Hp) as Hu. destruct (pa_range _ _ Rp Hu) as [_ Hr].
    unfold in_frame in Hx. change (hhdm_offset (s_boot (demo_map 0x800000))) with 0xFFFF800000000000 in Hx.
    unfold demo_elf_at in Hle. lia. }
  split; [by split|]. intros v. rewrite <- demo_leaf. apply L.
Qed.

Lemma demo_segment_pages v : seg_pages demo_segment v -> 0x400000 <= v < 0x401000.
Proof. intros Hv. exact Hv. Qed.

Lemma demo_unmapped v : seg_pages demo_segment v ->
  present (leaf_entry demo_elf (demo_tables 0x800000) v) = false.
Proof.
  intros Hv%demo_segment_pages. rewrite (proj2 demo_elf_ready).
  destruct (Z.eqb_spec (vpn v) (vpn 0x800000)) as [E|]; [|done].
  assert (0 <= v < 2 ^ 48) as Hv2 by (clear E; lia). apply vpn_small in E; [zlia|done|lia].
Qed.

Lemma demo_segment_fits : segment_fits demo_segment.
Proof. split; cbn; lia. Qed.

Lemma demo_elf_byte : rd (s_mem demo_elf) (demo_elf_at + 120 + 3) = 0xC3.
Proof. vm_compute. reflexivity. Qed.

Lemma elf64_load_spec_witness :
  wp (elf64_load 0x5000 demo_elf_at 124) demo_elf
    (fun info s' => e_entry info = 0x400000 /\ exists T', user_byte s' T' 0x400003 = 0xC3 /\
       user_byte s' T' 0x400005 = 0) out_of_memory.
Proof.
  pose proof (elf64_load_spec demo_elf 0x5000 0x1000 (demo_tables 0x800000) demo_elf_at 124) as H.
  cbv zeta in H. rewrite demo_elf_header in H. cbn [phoff phnum] in H. change (Z.to_nat 1) with 1%nat in H.
  rewrite demo_elf_loads in H. eapply wp_mono; [apply H| |done].
  - apply demo_elf_ready.
  - unfold demo_elf_at. lia.
  - unfold demo_elf_at. lia.
  - lia.
  - reflexivity.
  - lia.
  - apply Forall_singleton. split; [apply demo_segment_fits|cbn; lia|cbn; lia].
  - split; [|exact I]. intros q v []%elem_of_nil.
  - intros v (p & ->%list_elem_of_singleton & Hv). by apply demo_unmapped.
  - intros info s' (He & _ & T' & _ & _ & Hl & _). split; [exact He|]. exists T'.
    specialize (Hl demo_segment (proj2 (list_elem_of_singleton _ _) eq_refl)).
    destruct (Hl 3 ltac:(cbn; lia)) as [H3 _]. destruct (Hl 5 ltac:(cbn; lia)) as [H5 _].
    split; [|exact H5]. exact (eq_trans H3 demo_elf_byte).
Defined.

Lemma segment_check_wraps_witness :
  wp (load_segment 0x5000 demo_elf_at 124 (mk_elf_phdr 1 5 (2 ^ 64 - 4) 0x400000 4 8)) demo_elf
    (fun _ s' => exists T', user_byte s' T' 0x400000 = rd (s_mem demo_elf) (demo_elf_at - 4)) out_of_memory.
Proof.
  eapply wp_mono; [apply (segment_check_wraps demo_elf 0x5000 0x1000 (demo_tables 0x800000) demo_elf_at 124 4)| |done].
  - apply demo_elf_ready.
  - split; cbn; lia.
  - exact demo_unmapped.
  - cbn. lia.
  - reflexivity.
  - cbn. lia.
  - unfold demo_elf_at. lia.
  - cbn. unfold demo_elf_at. lia.
  - intros [] s' (T' & _ & H). exists T'. apply (H 0). cbn. lia.
Defined.

Lemma elf64_load_rejects_witness :
  elf64_load 0x5000 demo_elf_at 63 demo_elf = Panic (line "elf64_load: invalid ELF header size") demo_elf /\
  elf64_load 0x5000 (demo_elf_at + 1) 123 demo_elf = Panic (line "invalid magic") demo_elf.
Proof.
  destruct (elf64_load_rejects demo_elf 0x5000 demo_elf_at 63) as (H1 & _).
  destruct (elf64_load_rejects demo_elf 0x5000 (demo_elf_at + 1) 123) as (_ & H2 & _).
  split; [apply H1; lia|apply H2; [lia|]]. vm_compute. congruence.
Defined.
