(* ===== verification/Process.v ===== *)
(** * Processes and the scheduler (kernel/system/process.c, panic.c, process.S)

    Processes form a ring of nodes; [process_head] is the running one.  A
    switch leaves the current C function: the code goes on at the address that
    [process_switch] pops from the other process's stack.  Functions that may
    switch therefore return a [control]: whether they came back to their
    caller, where the processor went instead, or that it halted for good.  A
    process that was switched out goes on at [sym_switch_return], the rest of
    its [process_schedule], which is [schedule_cleanup]. *)

From S2P Require Import Prelude Memory State Cpu Arch Libc Pmm Vmm Heap Pagemap Elf.

(** ** Data *)

Inductive control : Type :=
| Returned
| Jumped (rip : Z)
| Halted.

Definition STACK_SIZE : Z := 0x10000.
Definition USER_STACK_TOP : Z := 0xB0000000.
Definition USER_STACK_BASE : Z := 0xAFF00000.
Definition sizeof_process : Z := 608.
Definition sizeof_process_node : Z := 16.
Definition MSR_FS_BASE : Z := 0xC0000100.

(** ** Access to the objects *)

Definition get_process (p : Z) : M process := fun s =>
  match processes (s_proc s) !! p with Some x => Ok x s | None => Fault s end.

Definition put_process (p : Z) (x : process) : M unit :=
  modify (on_proc (fun q => set_processes (<[p := x]> (processes q)) q)).

Definition get_node (n : Z) : M process_node := fun s =>
  match nodes (s_proc s) !! n with Some x => Ok x s | None => Fault s end.

Definition put_node (n : Z) (x : process_node) : M unit :=
  modify (on_proc (fun q => set_nodes (<[n := x]> (nodes q)) q)).

Definition get_process_head : M Z := gets (fun s => process_head (s_proc s)).

(** Field updates. *)
Definition set_krsp (v : Z) (p : process) : process :=
  mk_process v (ursp p) (p_id p) (p_name p) (wake_at p) (p_type p) (p_state p) (p_stack p) (stack_top p)
    (p_pagemap p) (user_heap_start p) (user_heap_position p) (fsbase p) (fpu_state p).
Definition set_name (v : string) (p : process) : process :=
  mk_process (krsp p) (ursp p) (p_id p) v (wake_at p) (p_type p) (p_state p) (p_stack p) (stack_top p)
    (p_pagemap p) (user_heap_start p) (user_heap_position p) (fsbase p) (fpu_state p).
Definition set_wake_at (v : Z) (p : process) : process :=
  mk_process (krsp p) (ursp p) (p_id p) (p_name p) v (p_type p) (p_state p) (p_stack p) (stack_top p)
    (p_pagemap p) (user_heap_start p) (user_heap_position p) (fsbase p) (fpu_state p).
Definition set_p_state (v : process_state) (p : process) : process :=
  mk_process (krsp p) (ursp p) (p_id p) (p_name p) (wake_at p) (p_type p) v (p_stack p) (stack_top p)
    (p_pagemap p) (user_heap_start p) (user_heap_position p) (fsbase p) (fpu_state p).
Definition set_user_heap_position (v : Z) (p : process) : process :=
  mk_process (krsp p) (ursp p) (p_id p) (p_name p) (wake_at p) (p_type p) (p_state p) (p_stack p) (stack_top p)
    (p_pagemap p) (user_heap_start p) v (fsbase p) (fpu_state p).
Definition set_fpu_fsbase (f b : Z) (p : process) : process :=
  mk_process (krsp p) (ursp p) (p_id p) (p_name p) (wake_at p) (p_type p) (p_state p) (p_stack p) (stack_top p)
    (p_pagemap p) (user_heap_start p) (user_heap_position p) b f.

(** ** Creation *)

(** [PROCESS_PUSH(new_process)] *)
Definition PROCESS_PUSH (node : Z) : M unit :=
  head <- get_process_head;;
  x <- get_node node;;
  (if head =? 0 then
     put_node node (mk_node (n_process x) node);;;
     modify (on_proc (set_process_head node))
   else
     h <- get_node head;;
     put_node node (mk_node (n_process x) (n_next h));;;
     put_node head (mk_node (n_process h) node));;;
  modify (on_proc (set_should_schedule true)).

(** [PUSH_STACK] for a list of values, the first pushed first. *)
Fixpoint PUSH_STACK (stack : Z) (values : list Z) : M Z :=
  match values with
  | [] => ret stack
  | v :: values =>
    let stack := u64 (stack - 8) in
    write64 stack v;;;
    PUSH_STACK stack values
  end.

(** The process object and its kernel stack, both zeroed. *)
Definition new_process_object : M (Z * Z) :=
  new_process <- malloc sizeof_process;;
  ASSERT (negb (new_process =? 0));;;
  put_process new_process
    (mk_process 0 0 0 EmptyString 0 PROCESS_KERNEL PROCESS_READY 0 0 0 0 0 0 0);;;
  stack <- malloc STACK_SIZE;;
  ASSERT (negb (stack =? 0));;;
  memset stack 0 STACK_SIZE;;;
  ret (new_process, stack).

(** [next_pid++] *)
Definition take_pid : M Z :=
  pid <- gets (fun s => next_pid (s_proc s));;
  modify (on_proc (set_next_pid (u32 (pid + 1))));;;
  ret pid.

Definition push_new_node (new_process : Z) : M unit :=
  new_node <- malloc sizeof_process_node;;
  put_node new_node (mk_node new_process 0);;;
  PROCESS_PUSH new_node.

Definition process_create (entry pagemap : Z) : M Z :=
  o <- new_process_object;;
  let top := Z.land (u64 (o.2 + STACK_SIZE)) (Z.lnot 0xF) in
  v <- gets s_vmm;;
  y <- gets (fun s => symbols (s_boot s));;
  let pm := if pagemap =? 0 then kernel_pagemap v else pagemap in
  let entry := if entry =? 0 then sym_forever y else entry in
  stack <- PUSH_STACK top [sym_kernel_trampoline y; 0; 0; 0; 0; 0; entry];;
  pid <- take_pid;;
  put_process o.1 (mk_process stack 0 pid "kernel" 0 PROCESS_KERNEL PROCESS_READY o.2 top pm 0 0 0 0);;;
  push_new_node o.1;;;
  ret o.1.

Definition process_create_user (entry pagemap user_stack_top user_heap : Z) : M Z :=
  ASSERT (negb (pagemap =? 0));;;
  o <- new_process_object;;
  let top := Z.land (u64 (o.2 + STACK_SIZE)) (Z.lnot 0xF) in
  y <- gets (fun s => symbols (s_boot s));;
  let entry := if entry =? 0 then sym_forever y else entry in
  stack <- PUSH_STACK top [sym_user_trampoline y; 0; 0; 0; 0; user_stack_top; entry];;
  pid <- take_pid;;
  put_process o.1 (mk_process stack user_stack_top pid "user-unnamed" 0 PROCESS_USER PROCESS_READY o.2 top
                     pagemap user_heap user_heap 0 0);;;
  push_new_node o.1;;;
  ret o.1.

(** [for (i = stack_base; i < stack_top; i += PAGE_SIZE)] of
    [process_spawn_elf]: a frame per page. *)
Definition map_fresh_page (pagemap virt flags : Z) : M unit :=
  page <- pmm_allocate;;
  vmm_map_page pagemap virt page flags;;;
  ret tt.

(** [process_spawn_elf].  The initial stack words are stored at addresses of
    the caller's own address space, through [stack_top]. *)
Definition process_spawn_elf (name : option string) (elf_data len : Z) : M unit :=
  pagemap <- vmm_new_pagemap;;
  let flags := Z.lor PTE_PRESENT (Z.lor PTE_WRITABLE PTE_USER) in
  elf <- elf64_load pagemap elf_data len;;
  let user_heap := Z.land (u64 (u64 (e_entry elf + e_size elf) + 0xFFF)) (Z.lnot 0xFFF) in
  map_fresh_page pagemap user_heap flags;;;
  stack_top <- PUSH_STACK USER_STACK_TOP [0; 0; 0; 0];;
  for_loop (pages_between USER_STACK_BASE stack_top) 0
    (fun i => map_fresh_page pagemap (USER_STACK_BASE + i * PAGE_SIZE) flags);;;
  new_process <- process_create_user (e_entry elf) pagemap stack_top user_heap;;
  p <- get_process new_process;;
  put_process new_process (set_name (default "unnamed"%string name) p).

(** ** Removal *)

(** [for (addr = start; addr < stop; addr += PAGE_SIZE) vmm_unmap_page(...)] *)
Definition unmap_range (pagemap start stop : Z) : M unit :=
  for_loop (pages_between start stop) 0
    (fun i => vmm_unmap_page pagemap (u64 (start + i * PAGE_SIZE));;; ret tt).

(** [free] of an object: no pointer to it is valid any more. *)
Definition free_process (p : Z) : M unit :=
  free p;;; modify (on_proc (fun q => set_processes (delete p (processes q)) q)).
Definition free_node (n : Z) : M unit :=
  free n;;; modify (on_proc (fun q => set_nodes (delete n (nodes q)) q)).

(** What [process_reap] does about the dead process of node [curr]. *)
Definition reap_node (prev curr : Z) : M unit :=
  c <- get_node curr;;
  p <- get_process (n_process c);;
  (if curr =? prev then modify (on_proc (set_process_head 0))
   else
     x <- get_node prev;;
     put_node prev (mk_node (n_process x) (n_next c));;;
     head <- get_process_head;;
     when (head =? curr) (modify (on_proc (set_process_head prev))));;;
  unmap_range (p_pagemap p) USER_STACK_BASE USER_STACK_TOP;;;
  when (negb (user_heap_start p =? 0))
    (unmap_range (p_pagemap p) (Z.land (u64 (user_heap_start p + 0xFFF)) (Z.lnot 0xFFF)) (user_heap_position p));;;
  free (p_stack p);;;
  free_process (n_process c);;;
  free_node curr.

(** The [do ... while (curr != process_head && process_head != NULL)] loop. *)
Fixpoint reap_loop (fuel : nat) (prev curr : Z) : M unit :=
  match fuel with
  | O => diverge
  | S fuel =>
    c <- get_node curr;;
    p <- get_process (n_process c);;
    pc <- (if bool_decide (p_state p = PROCESS_DEAD) then
             reap_node prev curr;;;
             x <- get_node prev;;
             ret (prev, n_next x)
           else ret (curr, n_next c));;
    head <- get_process_head;;
    if negb (pc.2 =? head) && negb (head =? 0) then reap_loop fuel pc.1 pc.2 else ret tt
  end.

(** Enough rounds: each visits another node of the ring. *)
Definition ring_fuel (s : kstate) : nat := S (size (nodes (s_proc s))).

Definition process_reap : M unit :=
  head <- get_process_head;;
  if head =? 0 then ret tt else
  h <- get_node head;;
  if n_next h =? 0 then ret tt else
  fuel <- gets ring_fuel;;
  reap_loop fuel head (n_next h).

(** ** Switching (system/asm/process.S) *)

(** [pop] for a number of registers. *)
Fixpoint POP_STACK (n : nat) (stack : Z) : M (Z * list Z) :=
  match n with
  | O => ret (stack, [])
  | S n =>
    v <- read64 stack;;
    r <- POP_STACK n (u64 (stack + 8));;
    ret (r.1, v :: r.2)
  end.

(** The [call] pushes the return address, then the six callee-saved registers
    go to the old stack and come from the new one, and [ret] pops the address
    to go on at. *)
Definition process_switch (prev next : Z) : M control :=
  c <- gets s_cpu;;
  ra <- gets (fun s => sym_switch_return (symbols (s_boot s)));;
  old <- PUSH_STACK (rsp c) (ra :: callee c);;
  p <- get_process prev;;
  put_process prev (set_krsp old p);;;
  n <- get_process next;;
  r <- POP_STACK 7 (krsp n);;
  match reverse r.2 with
  | rip :: regs =>
    modify (on_cpu (fun c => set_rsp r.1 (set_callee regs c)));;;
    ret (Jumped rip)
  | [] => diverge
  end.

(** ** Scheduling *)

(** [while (process_head->process->wake_at > ticks)]: interrupts are off, so
    [ticks] stands still. *)
Fixpoint skip_sleeping (fuel : nat) : M unit :=
  match fuel with
  | O => diverge
  | S fuel =>
    head <- get_process_head;;
    h <- get_node head;;
    p <- get_process (n_process h);;
    t <- gets (fun s => ticks (s_cpu s));;
    if t <? wake_at p then
      modify (on_proc (set_process_head (n_next h)));;;
      skip_sleeping fuel
    else ret tt
  end.

(** The "very long, just in case" condition of [process_schedule]. *)
Definition can_schedule : M bool :=
  q <- gets s_proc;;
  if negb (should_schedule q) then ret false else
  if process_head q =? 0 then ret false else
  h <- get_node (process_head q);;
  if n_next h =? 0 then ret false else
  p <- get_process (n_process h);;
  if p_pagemap p =? 0 then ret false else
  x <- get_node (n_next h);;
  p <- get_process (n_process x);;
  ret (negb (p_pagemap p =? 0)).

(** [cleanup: IRQ_RES; return 0;] *)
Definition schedule_cleanup : M control := int_resume;;; ret Returned.

(** The part of [process_schedule] that changes the address space, the task
    state segment, the FPU and the segment bases. *)
Definition load_context (prev_proc curr_proc : Z) : M unit :=
  c <- get_process curr_proc;;
  ASSERT (negb (p_pagemap c =? 0));;;
  vmm_switch_pagemap (p_pagemap c);;;
  ASSERT (negb (stack_top c =? 0));;;
  tss_set_stack (stack_top c);;;
  p <- get_process prev_proc;;
  when (bool_decide (p_type p = PROCESS_USER)) (
    f <- gets (fun s => fpu (s_cpu s));;
    b <- rdmsr MSR_FS_BASE;;
    put_process prev_proc (set_fpu_fsbase f b p));;;
  c <- get_process curr_proc;;
  when (bool_decide (p_type c = PROCESS_USER)) (
    modify (on_cpu (set_fpu (fpu_state c)));;;
    wrmsr MSR_FS_BASE (fsbase c));;;
  wrmsr MSR_USER_GS_BASE curr_proc.

(** [process_schedule] after [process_reap]. *)
Definition pick_next : M control :=
  head <- get_process_head;;
  h <- get_node head;;
  let prev_proc := n_process h in
  ASSERT (negb (prev_proc =? 0));;;
  modify (on_proc (set_process_head (n_next h)));;;
  ASSERT (negb (n_next h =? 0));;;
  x <- get_node (n_next h);;
  ASSERT (negb (n_process x =? 0));;;
  fuel <- gets ring_fuel;;
  skip_sleeping fuel;;;
  head <- get_process_head;;
  h <- get_node head;;
  let curr_proc := n_process h in
  c <- get_process curr_proc;;
  p <- get_process prev_proc;;
  if p_id c =? p_id p then schedule_cleanup else
  load_context prev_proc curr_proc;;;
  process_switch prev_proc curr_proc.

Definition process_schedule : M control :=
  int_disable;;;
  irq_ack 0;;;
  ok <- can_schedule;;
  if negb ok then schedule_cleanup else
  process_reap;;;
  pick_next.

Definition process_yield : M control := process_schedule.

Definition process_get_current : M Z :=
  head <- get_process_head;;
  if head =? 0 then UNREACHABLE else
  h <- get_node head;;
  ret (n_process h).

Definition process_sleep (ms : Z) : M control :=
  c <- process_get_current;;
  if c =? 0 then panic "sleeping without a process" else
  p <- get_process c;;
  t <- gets (fun s => ticks (s_cpu s));;
  put_process c (set_wake_at (u64 (t + ms)) p);;;
  process_yield.

Definition process_exit (code : Z) : M control :=
  c <- process_get_current;;
  if c =? 0 then panic "exiting without a process" else
  p <- get_process c;;
  put_process c (set_p_state PROCESS_DEAD p);;;
  process_schedule.

(** ** First entry *)

(** [process_entry], called by the kernel trampoline with R15; [entry] is the
    body of the process. *)
Definition process_entry (entry : M control) : M control :=
  int_resume;;;
  c <- entry;;
  match c with
  | Returned =>
    c <- process_exit 0;;
    match c with Returned => UNREACHABLE | _ => ret c end
  | _ => ret c
  end.

(** [switch_to_user] (system/asm/user.S): the frame of [iretq] goes to the
    kernel stack, and the processor goes on in user mode with interrupts on. *)
Definition switch_to_user (entry stack_top : Z) : M control :=
  c <- gets s_cpu;;
  PUSH_STACK (rsp c) [0x23; stack_top; 0x200; 0x2B; entry];;;
  modify (on_cpu (fun c => set_if_flag true (set_rsp stack_top c)));;;
  ret (Jumped entry).

(** [process_user_entry]; [switch_to_user] does not come back. *)
Definition process_user_entry (entry stack_top : Z) : M control :=
  int_resume;;;
  swapgs;;;
  switch_to_user entry stack_top.

(** ** Panic (panic.c) *)

(** What follows the outcome [Panic msg]: a user process is ended, anything
    else stops the machine.  Without a process, [process_get_current] asserts,
    which calls [panic] again. *)
Definition panic_handler (message : string) : M control :=
  int_disable;;;
  head <- get_process_head;;
  if head =? 0 then diverge else
  h <- get_node head;;
  p <- get_process (n_process h);;
  if bool_decide (p_type p = PROCESS_USER) then
    int_resume;;;
    c <- process_exit (-1);;
    match c with Returned => ret Halted | _ => ret c end
  else ret Halted.

(** Kernel code with its panics carried out. *)
Definition with_panics (m : M control) : M control := fun s =>
  match m s with Panic msg s' => panic_handler msg s' | r => r end.

(** ** Page faults ([vmm_pagefault] of vmm.c) *)

(** A fresh page under the fault address. *)
Definition fault_in (pagemap page_addr : Z) : M unit :=
  page <- pmm_allocate;;
  vmm_map_page pagemap page_addr page (Z.lor PTE_PRESENT (Z.lor PTE_WRITABLE PTE_USER));;;
  ret tt.

Definition vmm_pagefault (r : regs) : M control :=
  int_disable;;;
  fault_addr <- gets (fun s => cr2 (s_cpu s));;
  cur <- process_get_current;;
  ASSERT (negb (cur =? 0));;;
  p <- get_process cur;;
  ASSERT (negb (p_pagemap p =? 0));;;
  let page_addr := Z.land fault_addr (Z.lnot (PAGE_SIZE - 1)) in
  if (user_heap_start p <=? fault_addr) && (fault_addr <? u64 (user_heap_position p + PAGE_SIZE)) then
    fault_in (p_pagemap p) page_addr;;;
    p <- get_process cur;;
    when (user_heap_position p <=? page_addr)
      (put_process cur (set_user_heap_position (u64 (page_addr + PAGE_SIZE)) p));;;
    int_resume;;; ret Returned
  else if (USER_STACK_BASE <=? fault_addr) && (fault_addr <? USER_STACK_TOP) then
    fault_in (p_pagemap p) page_addr;;;
    int_resume;;; ret Returned
  else
    c <- (if negb (Z.land (r_cs r) 0x3 =? 0) then int_resume;;; process_exit (-1) else ret Returned);;
    match c with
    | Returned => panic "erm, page fault occurred"
    | _ => ret c
    end.
