(* ===== verification/ProcessSpec.v ===== *)
(** * Switching and scheduling (theorems about kernel/system/process.c) *)

From S2P Require Import Prelude Memory State Cpu Arch Libc Pmm Vmm Heap Process.

(** ** Definitions *)

(** Words on a stack: pushed from [sp] downwards, and read upwards. *)
Fixpoint push_mem (m : mem) (sp : Z) (vs : list Z) : mem :=
  match vs with
  | [] => m
  | v :: vs => push_mem (store64 m (sp - 8) v) (sp - 8) vs
  end.

Fixpoint words (m : mem) (a : Z) (n : nat) : list Z :=
  match n with
  | O => []
  | S n => load64 m a :: words m (a + 8) n
  end.

(** A switched-out process: the seven words [process_switch] pops. *)
Record frame_at (m : mem) (sp rip : Z) (regs : list Z) : Prop := {
  fa_low : 0 <= sp;
  fa_high : sp + 56 < 2 ^ 64;
  fa_regs : length regs = 6%nat;
  fa_words : words m sp 7 = reverse (rip :: regs)
}.

(** The nodes from [a], following [next], up to [z]. *)
Fixpoint path (N : gmap Z process_node) (a : Z) (l : list Z) (z : Z) : Prop :=
  match l with
  | [] => a = z
  | x :: l => a = x /\ x <> 0 /\ exists n, N !! x = Some n /\ path N (n_next n) l z
  end.

(** The ring of processes: [h] first, closed, no node twice. *)
Definition ring (q : proc_state) (h : Z) (l : list Z) : Prop :=
  process_head q = h /\ path (nodes q) h (h :: l) h /\ NoDup (h :: l).

Definition proc_of (q : proc_state) (x : Z) : option process :=
  n ← nodes q !! x; processes q !! n_process n.

Definition asleep (t : Z) (q : proc_state) (x : Z) : Prop :=
  exists p, proc_of q x = Some p /\ t < wake_at p.

Definition awake (t : Z) (q : proc_state) (x : Z) : Prop :=
  exists p, proc_of q x = Some p /\ wake_at p <= t.

(** ** Lemmas: stacks *)

Lemma rd_push_mem m sp vs x :
  x < sp - 8 * Z.of_nat (length vs) \/ sp <= x -> rd (push_mem m sp vs) x = rd m x.
Proof.
  revert m sp. induction vs as [|v vs IH]; intros m sp Hx; cbn [push_mem]; [done|].
  cbn [length] in Hx. rewrite IH by lia. apply rd_store64_ne. lia.
Qed.

Lemma words_app m a n k : words m a (n + k) = words m a n ++ words m (a + 8 * Z.of_nat n) k.
Proof.
  revert a. induction n as [|n IH]; intros a; cbn [words Nat.add app].
  - f_equal; lia.
  - rewrite IH. do 3 f_equal. lia.
Qed.

Lemma words_ext m m' a n :
  (forall x, a <= x < a + 8 * Z.of_nat n -> rd m' x = rd m x) -> words m' a n = words m a n.
Proof.
  revert a. induction n as [|n IH]; intros a H; cbn [words]; [done|].
  rewrite IH by (intros; apply H; lia). f_equal. apply load64_ext. intros; apply H; lia.
Qed.

Lemma words_push m sp vs :
  Forall in_u64 vs ->
  words (push_mem m sp vs) (sp - 8 * Z.of_nat (length vs)) (length vs) = reverse vs.
Proof.
  revert m sp. induction vs as [|v vs IH]; intros m sp Hv; [done|]. inversion Hv; subst.
  cbn [push_mem]. rewrite reverse_cons. cbn [length].
  replace (S (length vs)) with (length vs + 1)%nat by lia. rewrite words_app.
  replace (sp - 8 * Z.of_nat (length vs + 1)) with (sp - 8 - 8 * Z.of_nat (length vs)) by lia.
  rewrite IH by done. f_equal. cbn [words]. f_equal.
  replace (sp - 8 - 8 * Z.of_nat (length vs) + 8 * Z.of_nat (length vs)) with (sp - 8) by lia.
  rewrite (load64_ext (store64 m (sp - 8) v)); [by apply load_store64|].
  intros x Hx. apply rd_push_mem. lia.
Qed.

Lemma PUSH_STACK_run sp vs s :
  8 * Z.of_nat (length vs) <= sp < 2 ^ 64 ->
  PUSH_STACK sp vs s = Ok (sp - 8 * Z.of_nat (length vs)) (on_mem (fun m => push_mem m sp vs) s).
Proof.
  revert sp s. induction vs as [|v vs IH]; intros sp s Hsp; cbn [PUSH_STACK].
  - replace (sp - 8 * Z.of_nat (length (@nil Z))) with sp by (cbn; lia). by destruct s.
  - cbn [length] in Hsp. unfold bind, write64, modify. rewrite u64_small by lia.
    rewrite IH by lia. replace (sp - 8 * Z.of_nat (length (v :: vs))) with (sp - 8 - 8 * Z.of_nat (length vs)) by (cbn [length]; lia).
    done.
Qed.

Lemma POP_STACK_run n sp s :
  0 <= sp -> sp + 8 * Z.of_nat n < 2 ^ 64 ->
  POP_STACK n sp s = Ok (sp + 8 * Z.of_nat n, words (s_mem s) sp n) s.
Proof.
  revert sp. induction n as [|n IH]; intros sp H0 Hsp; cbn [POP_STACK].
  - unfold ret. do 2 f_equal. lia.
  - unfold bind, read64, gets. rewrite u64_small by lia. rewrite IH by lia. cbn [fst snd words].
    unfold ret. do 2 f_equal. lia.
Qed.

(** A switch, as a function of the state. *)
Definition switched (prev : Z) (p : process) (sp : Z) (regs : list Z) (s : kstate) : kstate :=
  let c := s_cpu s in
  on_cpu (fun c => set_rsp sp (set_callee regs c))
    (on_proc (fun q => set_processes (<[prev := set_krsp (rsp c - 56) p]> (processes q)) q)
       (on_mem (fun m => push_mem m (rsp c) (sym_switch_return (symbols (s_boot s)) :: callee c)) s)).

Lemma process_switch_run s prev next p c rip regs :
  processes (s_proc s) !! prev = Some p -> processes (s_proc s) !! next = Some c -> prev <> next ->
  length (callee (s_cpu s)) = 6%nat -> 56 <= rsp (s_cpu s) < 2 ^ 64 ->
  frame_at (s_mem s) (krsp c) rip regs ->
  krsp c + 56 <= rsp (s_cpu s) - 56 \/ rsp (s_cpu s) <= krsp c ->
  process_switch prev next s = Ok (Jumped rip) (switched prev p (krsp c + 56) regs s).
Proof.
  intros Hp Hc Hne Hl Hr [F1 F2 F3 F4] Hd. unfold process_switch.
  erewrite bind_ok by reflexivity. erewrite bind_ok by reflexivity.
  set (vs := sym_switch_return _ :: _).
  assert (Z.of_nat (length vs) = 7) as Hvs by (cbn [vs length]; lia).
  erewrite bind_ok by (apply PUSH_STACK_run; lia). rewrite Hvs. change (8 * 7) with 56.
  set (s1 := on_mem _ s).
  erewrite bind_ok by (unfold get_process; change (s_proc s1) with (s_proc s); by rewrite Hp).
  erewrite bind_ok by reflexivity.
  set (s2 := on_proc _ s1).
  assert (processes (s_proc s2) !! next = Some c) as Hc2.
  { change (processes (s_proc s2)) with (<[prev := set_krsp (rsp (s_cpu s) - 56) p]> (processes (s_proc s))).
    by rewrite lookup_insert_ne. }
  erewrite bind_ok by (unfold get_process; by rewrite Hc2).
  erewrite bind_ok by (apply POP_STACK_run; lia). cbn [fst snd]. change (8 * Z.of_nat 7) with 56.
  assert (words (s_mem s2) (krsp c) 7 = reverse (rip :: regs)) as Hw.
  { rewrite <- F4. apply words_ext. intros x Hx. change (s_mem s2) with (push_mem (s_mem s) (rsp (s_cpu s)) vs).
    apply rd_push_mem. lia. }
  rewrite Hw, reverse_involutive. reflexivity.
Qed.

(** ** Properties: switching *)

(** C22: a process that is switched out and later switched in again goes on
    in the rest of its [process_schedule] with its stack pointer and its six
    callee-saved registers as they were, whatever happened in between, as long
    as its saved stack pointer and the seven words at it were left alone. *)
Theorem switch_roundtrip (s1 : kstate) (a b : Z) (pa pb : process) (rip : Z) (regs : list Z) :
  processes (s_proc s1) !! a = Some pa -> processes (s_proc s1) !! b = Some pb -> a <> b ->
  length (callee (s_cpu s1)) = 6%nat -> Forall in_u64 (callee (s_cpu s1)) ->
  in_u64 (sym_switch_return (symbols (s_boot s1))) -> 56 <= rsp (s_cpu s1) < 2 ^ 64 - 1 ->
  frame_at (s_mem s1) (krsp pb) rip regs ->
  krsp pb + 56 <= rsp (s_cpu s1) - 56 \/ rsp (s_cpu s1) <= krsp pb ->
  exists s1', process_switch a b s1 = Ok (Jumped rip) s1' /\ callee (s_cpu s1') = regs /\
    rsp (s_cpu s1') = krsp pb + 56 /\
    forall (s2 : kstate) (c : Z) (pa' pc : process),
     processes (s_proc s2) !! a = Some pa' -> processes (s_proc s2) !! c = Some pc -> c <> a ->
     length (callee (s_cpu s2)) = 6%nat -> 56 <= rsp (s_cpu s2) < 2 ^ 64 ->
     option_map krsp (processes (s_proc s1') !! a) = Some (krsp pa') ->
     (forall x, krsp pa' <= x < krsp pa' + 56 -> rd (s_mem s2) x = rd (s_mem s1') x) ->
     krsp pa' + 56 <= rsp (s_cpu s2) - 56 \/ rsp (s_cpu s2) <= krsp pa' ->
     exists s2', process_switch c a s2 = Ok (Jumped (sym_switch_return (symbols (s_boot s1)))) s2' /\
       callee (s_cpu s2') = callee (s_cpu s1) /\ rsp (s_cpu s2') = rsp (s_cpu s1).
Proof.
  intros Ha Hb Hab Hl Hu Hy Hr Hf Hd.
  pose proof (process_switch_run s1 a b pa pb rip regs Ha Hb Hab Hl ltac:(lia) Hf Hd) as E1.
  eexists. split; [exact E1|]. split; [done|]. split; [done|].
  intros s2 c pa' pc Ha2 Hc2 Hca Hl2 Hr2 Hk Hm Hd2.
  change (processes (s_proc (switched a pa (krsp pb + 56) regs s1)))
    with (<[a := set_krsp (rsp (s_cpu s1) - 56) pa]> (processes (s_proc s1))) in Hk.
  rewrite lookup_insert_eq in Hk. cbn [option_map set_krsp krsp] in Hk. injection Hk as Hk.
  set (y := sym_switch_return (symbols (s_boot s1))) in *.
  assert (frame_at (s_mem s2) (krsp pa') y (callee (s_cpu s1))) as Hf2.
  { split; [lia|lia|done|]. rewrite (words_ext (push_mem (s_mem s1) (rsp (s_cpu s1)) (y :: callee (s_cpu s1)))).
    - rewrite <- Hk. pose proof (words_push (s_mem s1) (rsp (s_cpu s1)) (y :: callee (s_cpu s1))) as Hw.
      cbn [length] in Hw. rewrite Hl in Hw. apply Hw. by constructor.
    - intros x Hx. apply Hm. lia. }
  pose proof (process_switch_run s2 c a pc pa' y (callee (s_cpu s1)) Hc2 Ha2 Hca Hl2 Hr2 Hf2 Hd2) as E2.
  eexists. split; [exact E2|]. split; [done|]. cbn. lia.
Qed.

(** ** Lemmas: the ring *)

Lemma path_app N a l1 l2 z :
  path N a (l1 ++ l2) z <-> exists b, path N a l1 b /\ path N b l2 z.
Proof.
  revert a. induction l1 as [|x l1 IH]; intros a; cbn [path app].
  - split; [by intros; exists a|by intros (b & -> & ?)].
  - split.
    + intros (-> & Hx & n & Hn & (b & H1 & H2)%IH). exists b. split; [|done].
      split; [done|]. split; [done|]. by exists n.
    + intros (b & (-> & Hx & n & Hn & H1) & H2). split; [done|]. split; [done|]. exists n. split; [done|].
      apply IH. by exists b.
Qed.

Lemma path_ext N N' a l z :
  (forall x, x ∈ l -> option_map n_next (N' !! x) = option_map n_next (N !! x)) -> path N a l z -> path N' a l z.
Proof.
  revert a. induction l as [|x l IH]; intros a Hx; cbn [path]; [done|].
  intros (-> & Hne & n & Hn & H). pose proof (Hx x ltac:(set_solver)) as E. rewrite Hn in E.
  destruct (N' !! x) as [n'|] eqn:E'; cbn in E; [|done]. injection E as E.
  split; [done|]. split; [done|]. exists n'. split; [done|]. rewrite E. apply IH; [|done].
  intros y Hy. apply Hx. set_solver.
Qed.

(** The ring seen from another of its nodes. *)
Lemma path_rotate N h l : path N h (h :: l) h -> exists n, N !! h = Some n /\ path N (n_next n) (l ++ [h]) (n_next n) /\
  (exists x l', l ++ [h] = x :: l' /\ n_next n = x).
Proof.
  intros (_ & Hh & n & Hn & H). exists n. split; [done|]. split.
  - apply path_app. exists h. split; [done|]. cbn. split; [done|]. split; [done|]. by exists n.
  - destruct l as [|x l]; cbn in *; [by eauto|]. destruct H as (-> & _). eauto.
Qed.

Lemma proc_of_split q x p : proc_of q x = Some p ->
  exists n, nodes q !! x = Some n /\ processes q !! n_process n = Some p.
Proof. unfold proc_of. destruct (nodes q !! x); [|done]. cbn. eauto. Qed.

Lemma skip_step fuel s n p :
  nodes (s_proc s) !! process_head (s_proc s) = Some n -> processes (s_proc s) !! n_process n = Some p ->
  skip_sleeping (S fuel) s =
  if ticks (s_cpu s) <? wake_at p then skip_sleeping fuel (on_proc (set_process_head (n_next n)) s) else Ok tt s.
Proof.
  intros Hn Hp. cbn [skip_sleeping]. erewrite bind_ok by reflexivity.
  erewrite bind_ok by (unfold get_node; by rewrite Hn). erewrite bind_ok by (unfold get_process; by rewrite Hp).
  erewrite bind_ok by reflexivity. by destruct (_ <? _).
Qed.

Lemma on_head_same s x : process_head (s_proc s) = x -> on_proc (set_process_head x) s = s.
Proof. intros <-. destruct s as [? ? ? ? ? ? ? ? ? q ? ? ? ? ? ?]. by destruct q. Qed.

(** The loop over sleeping processes stops at the first one awake. *)
Lemma skip_sleeping_first fuel s pre x post z :
  let q := s_proc s in let t := ticks (s_cpu s) in
  path (nodes q) (process_head q) (pre ++ x :: post) z ->
  Forall (asleep t q) pre -> awake t q x -> (length pre < fuel)%nat ->
  skip_sleeping fuel s = Ok tt (on_proc (set_process_head x) s).
Proof.
  revert fuel s. induction pre as [|y pre IH]; intros [|fuel] s q t Hp Hs Hx Hf; cbn [length] in Hf; try lia.
  - destruct Hp as (E & Hx0 & n & Hn & _). destruct Hx as (p & (n' & Hn' & Hp)%proc_of_split & Hw).
    rewrite Hn in Hn'. injection Hn' as <-. rewrite (skip_step fuel s n p); [|fold q; by rewrite E|done].
    fold t. destruct (Z.ltb_spec t (wake_at p)); [lia|]. by rewrite on_head_same.
  - destruct Hp as (E & Hy0 & n & Hn & Hp'). apply Forall_cons in Hs as [Hy Hs'].
    destruct Hy as (p & (n' & Hn' & Hp)%proc_of_split & Hw). rewrite Hn in Hn'. injection Hn' as <-.
    rewrite (skip_step fuel s n p); [|fold q; by rewrite E|done]. fold t.
    destruct (Z.ltb_spec t (wake_at p)); [|lia]. rewrite IH; [done|done|done|done|lia].
Qed.

(** Along a path of sleepers no amount of fuel is enough to get past it. *)
Lemma skip_sleeping_path fuel s l z :
  let q := s_proc s in let t := ticks (s_cpu s) in
  path (nodes q) (process_head q) l z -> Forall (asleep t q) l ->
  skip_sleeping fuel s = Diverge \/ (length l < fuel)%nat /\
    skip_sleeping fuel s = skip_sleeping (fuel - length l) (on_proc (set_process_head z) s).
Proof.
  revert fuel s. induction l as [|y l IH]; intros [|fuel] s q t Hp Hs; cbn [length].
  - by left.
  - right. split; [lia|]. cbn in Hp. by rewrite Nat.sub_0_r, on_head_same.
  - by left.
  - destruct Hp as (E & Hy0 & n & Hn & Hp'). apply Forall_cons in Hs as [Hy Hs'].
    destruct Hy as (p & (n' & Hn' & Hp)%proc_of_split & Hw). rewrite Hn in Hn'. injection Hn' as <-.
    rewrite (skip_step fuel s n p); [|fold q; by rewrite E|done]. fold t.
    destruct (Z.ltb_spec t (wake_at p)); [|lia].
    destruct (IH fuel (on_proc (set_process_head (n_next n)) s)) as [H1|[H1 H2]]; [done|done|by left|].
    right. split; [lia|]. by rewrite H2.
Qed.

Lemma skip_sleeping_hangs fuel s l :
  path (nodes (s_proc s)) (process_head (s_proc s)) l (process_head (s_proc s)) -> l <> [] ->
  Forall (asleep (ticks (s_cpu s)) (s_proc s)) l -> skip_sleeping fuel s = Diverge.
Proof.
  intros Hp Hl Hs. induction (lt_wf fuel) as [fuel _ IH].
  destruct (skip_sleeping_path fuel s l _ Hp Hs) as [H|[H1 H2]]; [done|].
  rewrite H2, on_head_same by done. apply IH. destruct l; [done|]. cbn [length] in *. lia.
Qed.

Lemma path_size N a l z : path N a l z -> NoDup l -> (length l <= size N)%nat.
Proof.
  intros Hp Hn. assert (forall x, x ∈ l -> x ∈ dom N) as Hd.
  { clear Hn. revert a Hp. induction l as [|y l IH]; intros a Hp x Hx; [by apply elem_of_nil in Hx|].
    destruct Hp as (_ & _ & n & Hy & Hp). apply elem_of_cons in Hx as [->|Hx]; [|by eapply IH].
    apply elem_of_dom. eauto. }
  rewrite <- (size_list_to_set (C := gset Z) l Hn), <- size_dom. apply subseteq_size.
  intros x Hx%elem_of_list_to_set. by apply Hd.
Qed.

(** ** Lemmas: the context *)

(** What the switch needs of the running code. *)
Record running (s : kstate) : Prop := {
  ru_callee : length (callee (s_cpu s)) = 6%nat;
  ru_rsp : 56 <= rsp (s_cpu s) < 2 ^ 64;
  ru_fs : in_u64 (default 0 (msrs (s_cpu s) !! MSR_FS_BASE))
}.

(** A process that was switched out, or was never run. *)
Record ready_to_run (s : kstate) (c : process) (base rip : Z) (regs : list Z) : Prop := {
  rr_pagemap : p_pagemap c <> 0;
  rr_base : pagemaps (s_vmm s) !! p_pagemap c = Some base;
  rr_base_ne : base <> 0;
  rr_top : stack_top c <> 0;
  rr_top_range : in_u64 (stack_top c);
  rr_fsbase : in_u64 (fsbase c);
  rr_frame : frame_at (s_mem s) (krsp c) rip regs;
  rr_apart : krsp c + 56 <= rsp (s_cpu s) - 56 \/ rsp (s_cpu s) <= krsp c
}.

(** The interrupt bookkeeping of the processor state. *)
Definition mask_of (c : cpu_state) : bool * Z * bool := (if_flag c, sync_depth c, sync_was_enabled c).

(** The processor state that belongs to a process. *)
Record context_of (s s' : kstate) (curr : Z) (c : process) (base : Z) : Prop := {
  cx_cr3 : cr3 (s_cpu s') = u64 (base - hhdm_offset (s_boot s));
  cx_stack : rsp0 (gdt_tss (s_gdt s')) = stack_top c;
  cx_gs : msrs (s_cpu s') !! MSR_USER_GS_BASE = Some curr;
  cx_fpu : p_type c = PROCESS_USER ->
    fpu (s_cpu s') = fpu_state c /\ msrs (s_cpu s') !! MSR_FS_BASE = Some (fsbase c)
}.

(** The process left behind: a user process keeps the FPU and its FS base. *)
Record saved_as (s : kstate) (p p' : process) : Prop := {
  sv_fpu : p_type p = PROCESS_USER ->
    fpu_state p' = fpu (s_cpu s) /\ fsbase p' = default 0 (msrs (s_cpu s) !! MSR_FS_BASE);
  sv_kernel : p_type p = PROCESS_KERNEL -> p' = p;
  sv_id : p_id p' = p_id p;
  sv_wake : wake_at p' = wake_at p;
  sv_state : p_state p' = p_state p;
  sv_pagemap : p_pagemap p' = p_pagemap p
}.

Lemma wp_get_process s a p (Q : process -> kstate -> Prop) E :
  processes (s_proc s) !! a = Some p -> Q p s -> wp (get_process a) s Q E.
Proof. intros H HQ. eapply wp_ok; [|exact HQ]. unfold get_process. by rewrite H. Qed.

Lemma wp_get_node s a n (Q : process_node -> kstate -> Prop) E :
  nodes (s_proc s) !! a = Some n -> Q n s -> wp (get_node a) s Q E.
Proof. intros H HQ. eapply wp_ok; [|exact HQ]. unfold get_node. by rewrite H. Qed.

Lemma load_context_spec s prev curr p c base rip regs :
  processes (s_proc s) !! prev = Some p -> processes (s_proc s) !! curr = Some c -> prev <> curr ->
  in_u64 curr -> running s -> ready_to_run s c base rip regs ->
  wp (load_context prev curr) s
    (fun _ s' => context_of s s' curr c base /\
       exists p', saved_as s p p' /\ s_proc s' = set_processes (<[prev := p']> (processes (s_proc s))) (s_proc s) /\
         s_mem s' = s_mem s /\ s_boot s' = s_boot s /\
         rsp (s_cpu s') = rsp (s_cpu s) /\ callee (s_cpu s') = callee (s_cpu s) /\
         mask_of (s_cpu s') = mask_of (s_cpu s)) no_panic.
Proof.
  intros Hp Hc Hne Hcu [U1 U2 U3] [R1 R2 R3 R4 R5 R6 R7 R8]. unfold load_context.
  apply wp_bind. eapply wp_get_process; [done|]. apply wp_bind, wp_ASSERT; [by destruct (Z.eqb_spec (p_pagemap c) 0)|].
  apply wp_bind. eapply wp_ok.
  { unfold vmm_switch_pagemap. destruct (Z.eqb_spec (p_pagemap c) 0); [done|].
    erewrite bind_ok by (unfold base_virt; by rewrite R2). destruct (Z.eqb_spec base 0); [done|]. reflexivity. }
  set (s1 := on_cpu _ s). apply wp_bind, wp_ASSERT; [by destruct (Z.eqb_spec (stack_top c) 0)|].
  apply wp_bind. eapply wp_ok; [reflexivity|]. set (s2 := on_gdt _ s1).
  apply wp_bind. eapply wp_get_process; [exact Hp|].
  apply wp_bind.
  set (p' := if bool_decide (p_type p = PROCESS_USER)
             then set_fpu_fsbase (fpu (s_cpu s)) (default 0 (msrs (s_cpu s) !! MSR_FS_BASE)) p else p).
  set (s3 := on_proc (fun q => set_processes (<[prev := p']> (processes q)) q) s2).
  assert (saved_as s p p') as Hsv.
  { unfold p'. case_bool_decide as Ht; split; try done; intros E; congruence. }
  eapply (wp_ok _ _ tt s3).
  { unfold p' in s3. unfold when. case_bool_decide as Ht.
    - erewrite bind_ok by reflexivity. erewrite bind_ok by (apply rdmsr_run; [exact U3|reflexivity]). reflexivity.
    - unfold ret. f_equal. apply kstate_ext; try done. cbn [s3 on_proc set_proc s_proc].
      change (s_proc s2) with (s_proc s). rewrite insert_id by done. by destruct (s_proc s). }
  assert (processes (s_proc s3) !! curr = Some c) as Hc3.
  { cbn [s3 on_proc set_proc s_proc set_processes processes]. by rewrite lookup_insert_ne. }
  apply wp_bind. eapply wp_get_process; [exact Hc3|]. apply wp_bind.
  set (s4 := if bool_decide (p_type c = PROCESS_USER)
             then on_cpu (fun d => set_msrs (<[MSR_FS_BASE := fsbase c]> (msrs d)) (set_fpu (fpu_state c) d)) s3 else s3).
  eapply (wp_ok _ _ tt s4).
  { unfold s4, when. case_bool_decide; [|done]. erewrite bind_ok by reflexivity. by rewrite wrmsr_run. }
  eapply wp_ok; [by apply wrmsr_run|]. change (u32 MSR_USER_GS_BASE) with MSR_USER_GS_BASE.
  unfold s4. split.
  - case_bool_decide as Ht; split; cbn -[lookup insert u64]; try done; rewrite ?lookup_insert_eq; try done.
    + by apply u64_small.
    + intros _. split; [done|]. rewrite lookup_insert_ne by done. by rewrite lookup_insert_eq.
    + by apply u64_small.
  - exists p'. split; [done|]. by case_bool_decide.
Qed.

(** ** Properties: scheduling *)

(** [pick_next] behind the loop over the sleepers. *)
Definition pick_rest (prev_proc : Z) : M control :=
  head <- get_process_head;;
  h <- get_node head;;
  let curr_proc := n_process h in
  c <- get_process curr_proc;;
  p <- get_process prev_proc;;
  if p_id c =? p_id p then schedule_cleanup else
  load_context prev_proc curr_proc;;;
  process_switch prev_proc curr_proc.

(** On a ring the scheduler comes to that loop, one node further on. *)
Lemma pick_next_start s h l n :
  ring (s_proc s) h l -> (forall y n, nodes (s_proc s) !! y = Some n -> n_process n <> 0) ->
  nodes (s_proc s) !! h = Some n ->
  pick_next s = (skip_sleeping (ring_fuel s);;; pick_rest (n_process n)) (on_proc (set_process_head (n_next n)) s).
Proof.
  intros (Hh & Hpath & _) Hnz Hn0.
  destruct (path_rotate _ _ _ Hpath) as (n' & Hn & Hpath' & y & l' & Hy & Hnext).
  rewrite Hn0 in Hn. injection Hn as <-. rename Hn0 into Hn.
  assert (exists ny, nodes (s_proc s) !! n_next n = Some ny) as [ny Hny].
  { rewrite Hy in Hpath'. destruct Hpath' as (<- & _ & ny & ? & _). by exists ny. }
  assert (n_next n <> 0) as Hn0. { rewrite Hy in Hpath'. by destruct Hpath' as (<- & ? & _). }
  unfold pick_next. erewrite bind_ok by reflexivity. rewrite Hh.
  erewrite bind_ok by (unfold get_node; by rewrite Hn).
  assert (forall b : bool, b = true -> forall t, ASSERT b t = Ok tt t) as HA by by intros [] ?.
  erewrite bind_ok by (apply HA; by destruct (Z.eqb_spec (n_process n) 0) as [E|]; [apply Hnz in Hn|]).
  erewrite bind_ok by reflexivity. set (s1 := on_proc (set_process_head (n_next n)) s).
  erewrite bind_ok by (apply HA; by destruct (Z.eqb_spec (n_next n) 0)).
  erewrite bind_ok by (unfold get_node; change (nodes (s_proc s1)) with (nodes (s_proc s)); by rewrite Hny).
  erewrite bind_ok by (apply HA; by destruct (Z.eqb_spec (n_process ny) 0) as [E|]; [apply Hnz in Hny|]).
  by erewrite bind_ok by reflexivity.
Qed.

(** The node after the head, and the head moved past the sleepers. *)
Lemma pick_next_head s h l pre x post ph px :
  ring (s_proc s) h l -> l ++ [h] = pre ++ x :: post ->
  Forall (asleep (ticks (s_cpu s)) (s_proc s)) pre -> awake (ticks (s_cpu s)) (s_proc s) x ->
  (forall y n, nodes (s_proc s) !! y = Some n -> n_process n <> 0) ->
  option_map n_process (nodes (s_proc s) !! h) = Some ph ->
  option_map n_process (nodes (s_proc s) !! x) = Some px ->
  pick_next s =
    (c <- get_process px;; p <- get_process ph;;
     if p_id c =? p_id p then schedule_cleanup else
     load_context ph px;;; process_switch ph px) (on_proc (set_process_head x) s).
Proof.
  intros Hring Hl Hs Hx Hnz Hph Hpx. pose proof Hring as (Hh & Hpath & Hnd).
  destruct (path_rotate _ _ _ Hpath) as (n & Hn & Hpath' & _).
  rewrite Hn in Hph. cbn in Hph. injection Hph as <-. rewrite (pick_next_start s h l n) by done.
  set (s1 := on_proc (set_process_head (n_next n)) s).
  assert (length (h :: l) <= size (nodes (s_proc s)))%nat as Hsz by by apply (path_size _ h _ h).
  assert (length (l ++ [h]) = length (pre ++ x :: post)) as Hlen by by rewrite Hl.
  rewrite !length_app in Hlen. cbn [length] in Hlen, Hsz.
  erewrite bind_ok.
  2: { apply (skip_sleeping_first _ s1 pre x post (n_next n)); [by rewrite <- Hl|done|done|]. unfold ring_fuel. lia. }
  unfold pick_rest. erewrite bind_ok by reflexivity.
  change (on_proc (set_process_head x) s1) with (on_proc (set_process_head x) s).
  set (s2 := on_proc (set_process_head x) s). change (process_head (s_proc s2)) with x.
  destruct (nodes (s_proc s) !! x) as [nx|] eqn:Enx; [|done]. cbn in Hpx. injection Hpx as <-.
  erewrite bind_ok by (unfold get_node; change (nodes (s_proc s2)) with (nodes (s_proc s)); by rewrite Enx).
  done.
Qed.

(** With another process first in line, scheduling comes down to switching to
    it. *)
Lemma pick_next_other s h l pre x post ph px p c :
  ring (s_proc s) h l -> l ++ [h] = pre ++ x :: post ->
  Forall (asleep (ticks (s_cpu s)) (s_proc s)) pre -> wake_at c <= ticks (s_cpu s) ->
  (forall y n, nodes (s_proc s) !! y = Some n -> n_process n <> 0) ->
  option_map n_process (nodes (s_proc s) !! h) = Some ph ->
  option_map n_process (nodes (s_proc s) !! x) = Some px ->
  processes (s_proc s) !! ph = Some p -> processes (s_proc s) !! px = Some c -> p_id c <> p_id p ->
  pick_next s = (load_context ph px;;; process_switch ph px) (on_proc (set_process_head x) s).
Proof.
  intros Hr Hl Hs Hw Hnz Hph Hpx Hp Hc Hid.
  assert (awake (ticks (s_cpu s)) (s_proc s) x) as Hx.
  { exists c. split; [|done]. unfold proc_of. destruct (nodes (s_proc s) !! x); [|done]. cbn in *. by injection Hpx as ->. }
  rewrite (pick_next_head s h l pre x post ph px) by done.
  set (s1 := on_proc (set_process_head x) s).
  erewrite bind_ok by (unfold get_process; change (processes (s_proc s1)) with (processes (s_proc s)); by rewrite Hc).
  erewrite bind_ok by (unfold get_process; change (processes (s_proc s1)) with (processes (s_proc s)); by rewrite Hp).
  by destruct (Z.eqb_spec (p_id c) (p_id p)).
Qed.

(** What a switch from [ph] to [px] ends with. *)
Definition switched_to (s : kstate) (ph px : Z) (p c : process) (base rip : Z) (regs : list Z)
    (r : control) (s' : kstate) : Prop :=
  r = Jumped rip /\ process_head (s_proc s') = process_head (s_proc s) /\ nodes (s_proc s') = nodes (s_proc s) /\
  context_of s s' px c base /\ callee (s_cpu s') = regs /\ rsp (s_cpu s') = krsp c + 56 /\
  mask_of (s_cpu s') = mask_of (s_cpu s) /\
  exists p', saved_as s p p' /\
    processes (s_proc s') = <[ph := set_krsp (rsp (s_cpu s) - 56) p']> (processes (s_proc s)).

Lemma switch_spec s ph px p c base rip regs :
  processes (s_proc s) !! ph = Some p -> processes (s_proc s) !! px = Some c -> p_id c <> p_id p ->
  in_u64 px -> running s -> ready_to_run s c base rip regs ->
  wp (load_context ph px;;; process_switch ph px) s (switched_to s ph px p c base rip regs) no_panic.
Proof.
  intros Hp Hc Hid Hpu Hru Hrr. assert (ph <> px) as Hne by (intros ->; congruence).
  pose proof (load_context_spec s ph px p c base rip regs Hp Hc Hne Hpu) as Hlc.
  specialize (Hlc ltac:(by destruct Hru) ltac:(by destruct Hrr)). unfold wp in Hlc |- *. unfold bind.
  destruct (load_context ph px s) as [[] s2|? ?| | |]; try done.
  destruct Hlc as (Hcx & p' & Hsv & Hq & Hm & Hb & Hsp & Hce & Hmk).
  destruct Hru as [U1 U2 U3]. destruct Hrr as [R1 R2 R3 R4 R5 R6 R7 R8].
  rewrite (process_switch_run s2 ph px p' c rip regs); rewrite ?Hq, ?Hm, ?Hsp, ?Hce; try done.
  - split; [done|]. split; [cbn; by rewrite Hq|]. split; [cbn; by rewrite Hq|].
    split. { destruct Hcx. split; done. }
    split; [done|]. split; [done|]. split; [done|]. exists p'. split; [by destruct Hsv|]. cbn [switched on_cpu set_cpu s_proc on_proc set_proc].
    cbn [on_mem set_mem s_proc set_processes processes]. rewrite Hq, Hsp. cbn [set_processes processes].
    by rewrite insert_insert_eq.
  - cbn [set_processes processes]. by rewrite lookup_insert_eq.
  - cbn [set_processes processes]. by rewrite lookup_insert_ne.
Qed.

(** C21: the scheduler is round robin over the processes that are awake.  In
    a ring of processes, it takes the first one after the running process that
    is not asleep and, when that is another process, loads its address space,
    kernel stack, GS base and, for a user process, its FPU state and FS base,
    saves those of the process it leaves, and goes on at the address and with
    the registers that the new process's saved stack holds. *)
Theorem pick_next_round_robin (s : kstate) (h : Z) (l pre : list Z) (x : Z) (post : list Z)
    (ph px : Z) (p c : process) (base rip : Z) (regs : list Z) :
  ring (s_proc s) h l -> l ++ [h] = pre ++ x :: post ->
  Forall (asleep (ticks (s_cpu s)) (s_proc s)) pre -> wake_at c <= ticks (s_cpu s) ->
  (forall y n, nodes (s_proc s) !! y = Some n -> n_process n <> 0) ->
  option_map n_process (nodes (s_proc s) !! h) = Some ph ->
  option_map n_process (nodes (s_proc s) !! x) = Some px ->
  processes (s_proc s) !! ph = Some p -> processes (s_proc s) !! px = Some c -> p_id c <> p_id p ->
  in_u64 px -> running s -> ready_to_run s c base rip regs ->
  wp pick_next s
    (switched_to (on_proc (set_process_head x) s) ph px p c base rip regs) no_panic.
Proof.
  intros Hr Hl Hs Hw Hnz Hph Hpx Hp Hc Hid Hpu Hru Hrr. unfold wp.
  rewrite (pick_next_other s h l pre x post ph px p c) by done.
  apply (switch_spec (on_proc (set_process_head x) s)); try done; [by destruct Hru|by destruct Hrr].
Qed.

(** Every process of the ring exists and has an address space. *)
Record ring_ok (q : proc_state) (h : Z) (l : list Z) : Prop := {
  ro_ring : ring q h l;
  ro_should : should_schedule q = true;
  ro_procs : forall y, y ∈ h :: l -> exists p, proc_of q y = Some p /\ p_pagemap p <> 0;
  ro_nonnull : forall y n, nodes q !! y = Some n -> n_process n <> 0
}.

Definition alive (q : proc_state) (y : Z) : Prop :=
  exists p, proc_of q y = Some p /\ p_state p <> PROCESS_DEAD.

(** Without dead processes the reaper goes once around and changes nothing. *)
Lemma reap_loop_nothing fuel s h prev a l :
  path (nodes (s_proc s)) a l h -> process_head (s_proc s) = h -> h <> 0 -> l <> [] -> h ∉ tail l ->
  Forall (alive (s_proc s)) l -> (length l <= fuel)%nat -> reap_loop fuel prev a s = Ok tt s.
Proof.
  revert fuel prev a. induction l as [|x l IH]; intros [|fuel] prev a Hp Hh Hh0 Hl Hni Ha Hf;
    cbn [length] in Hf; try done; try lia.
  destruct Hp as (-> & Hx0 & n & Hn & Hp). apply Forall_cons in Ha as [(p & (n' & Hn' & Hpp)%proc_of_split & Hd) Ha].
  rewrite Hn in Hn'. injection Hn' as <-. cbn [reap_loop].
  erewrite bind_ok by (unfold get_node; by rewrite Hn). erewrite bind_ok by (unfold get_process; by rewrite Hpp).
  rewrite bool_decide_eq_false_2 by done. erewrite bind_ok by reflexivity. erewrite bind_ok by reflexivity.
  cbn [fst snd]. rewrite Hh. destruct (Z.eqb_spec h 0); [done|]. destruct l as [|y l].
  - cbn in Hp. rewrite Hp, Z.eqb_refl. done.
  - destruct (Z.eqb_spec (n_next n) h) as [E|E].
    + destruct Hp as (E' & _). cbn [tail] in Hni. rewrite <- E', E in Hni. set_solver.
    + cbn [negb andb]. apply (IH fuel x (n_next n)); try done; [|lia]. cbn [tail] in *. set_solver.
Qed.

(** The machine state in which [process_schedule] looks for the next process. *)
Definition sched_entry (s : kstate) : kstate :=
  set_io (IoOut 8 PIC1_COMMAND PIC_EOI :: s_io s) (on_cpu cpu_int_disable s).

Lemma schedule_no_dead s h l :
  ring_ok (s_proc s) h l -> Forall (alive (s_proc s)) (if decide (l = []) then [h] else l) ->
  process_schedule s = pick_next (sched_entry s).
Proof.
  intros [(Hh & Hp & Hnd) Hsh Hpr Hnn] Ha. unfold process_schedule.
  erewrite bind_ok by reflexivity. erewrite bind_ok by reflexivity.
  match goal with |- bind _ _ ?t = _ => change t with (sched_entry s) end.
  destruct (path_rotate _ _ _ Hp) as (n & Hn & Hp' & y & l' & Hy & Hnext).
  destruct (Hpr h ltac:(set_solver)) as (p & (n1 & Hn1 & Hpp)%proc_of_split & Hpm).
  rewrite Hn in Hn1. injection Hn1 as <-.
  assert (y ∈ h :: l) as Hyin by (assert (y ∈ l ++ [h]) by (rewrite Hy; set_solver); set_solver).
  destruct (Hpr y Hyin) as (p2 & (n2 & Hn2 & Hpp2)%proc_of_split & Hpm2). rewrite <- Hnext in Hn2.
  assert (h <> 0 /\ n_next n <> 0) as [Hh0 Hn0].
  { destruct Hp as (_ & ? & _). split; [done|]. rewrite Hy in Hp'. by destruct Hp' as (<- & ? & _). }
  assert (can_schedule (sched_entry s) = Ok true (sched_entry s)) as Hcan.
  { unfold can_schedule. erewrite bind_ok by reflexivity. change (s_proc (sched_entry s)) with (s_proc s).
    rewrite Hsh, Hh. cbn [negb]. destruct (Z.eqb_spec h 0); [done|].
    erewrite bind_ok by (unfold get_node; change (s_proc (sched_entry s)) with (s_proc s); by rewrite Hn).
    destruct (Z.eqb_spec (n_next n) 0); [done|].
    erewrite bind_ok by (unfold get_process; change (s_proc (sched_entry s)) with (s_proc s); by rewrite Hpp).
    destruct (Z.eqb_spec (p_pagemap p) 0); [done|].
    erewrite bind_ok by (unfold get_node; change (s_proc (sched_entry s)) with (s_proc s); by rewrite Hn2).
    erewrite bind_ok by (unfold get_process; change (s_proc (sched_entry s)) with (s_proc s); by rewrite Hpp2).
    by destruct (Z.eqb_spec (p_pagemap p2) 0). }
  erewrite bind_ok by exact Hcan. cbn [negb].
  erewrite bind_ok; [done|]. unfold process_reap. erewrite bind_ok by reflexivity.
  change (s_proc (sched_entry s)) with (s_proc s). rewrite Hh. destruct (Z.eqb_spec h 0); [done|].
  erewrite bind_ok by (unfold get_node; change (s_proc (sched_entry s)) with (s_proc s); by rewrite Hn).
  destruct (Z.eqb_spec (n_next n) 0); [done|]. erewrite bind_ok by reflexivity.
  pose proof (path_size _ _ _ _ Hp Hnd) as Hsz. cbn [length] in Hsz.
  apply (reap_loop_nothing _ (sched_entry s) h h (n_next n) (if decide (l = []) then [h] else l)); try done.
  - destruct Hp as (_ & _ & n3 & Hn3 & Hp3). rewrite Hn in Hn3. injection Hn3 as <-.
    destruct (decide (l = [])) as [->|]; [|done]. cbn in Hp3. split; [done|]. split; [done|]. by exists n.
  - by destruct (decide (l = [])).
  - destruct (decide (l = [])); cbn [tail]; [set_solver|]. apply NoDup_cons in Hnd as [Hni _].
    destruct l; cbn in *; set_solver.
  - unfold ring_fuel. change (s_proc (sched_entry s)) with (s_proc s).
    destruct (decide (l = [])) as [->|]; cbn [length] in *; lia.
Qed.

(** C33: when scheduling is on and every process of the ring is asleep and none
    is dead, [process_schedule] never ends: [ticks] is advanced by an interrupt,
    and interrupts are off in the loop that skips sleeping processes.  The
    bound on the rounds of that loop in the model does not matter: from where
    the scheduler enters it, no number of rounds is enough. *)
Theorem all_asleep_hangs (s : kstate) (h : Z) (l : list Z) :
  ring_ok (s_proc s) h l -> Forall (alive (s_proc s)) (h :: l) ->
  Forall (asleep (ticks (s_cpu s)) (s_proc s)) (h :: l) ->
  process_schedule s = Diverge /\
  exists n, nodes (s_proc s) !! h = Some n /\
    forall fuel, skip_sleeping fuel (on_proc (set_process_head (n_next n)) (sched_entry s)) = Diverge.
Proof.
  intros Hok Ha Hs. pose proof (ro_ring _ _ _ Hok) as Hring. pose proof Hring as (Hh & Hp & _).
  destruct (path_rotate _ _ _ Hp) as (n & Hn & Hp' & _).
  assert (forall fuel, skip_sleeping fuel (on_proc (set_process_head (n_next n)) (sched_entry s)) = Diverge) as Hskip.
  { assert (ticks (s_cpu (sched_entry s)) = ticks (s_cpu s)) as Et
      by (cbn; unfold cpu_int_disable; by destruct (sync_depth _ =? 0)).
    intros fuel. apply (skip_sleeping_hangs _ _ (l ++ [h])); [done|by destruct l|].
    change (ticks (s_cpu (on_proc _ (sched_entry s)))) with (ticks (s_cpu (sched_entry s))). rewrite Et.
    apply Forall_app. apply Forall_cons in Hs as [H1 H2]. split; [exact H2|]. apply Forall_singleton. exact H1. }
  split; [|by exists n]. rewrite (schedule_no_dead s h l Hok).
  - rewrite (pick_next_start (sched_entry s) h l n); [|done|by destruct Hok|done]. unfold bind. by rewrite Hskip.
  - apply Forall_cons in Ha as [H1 H2]. destruct (decide (l = [])); [by apply Forall_singleton|done].
Qed.
