(* ===== verification/ProcessCreate.v ===== *)
(** * New processes (theorems about [process_create] and [process_create_user])

    Proved against the interface of the heap, not against [kmalloc]: the
    process object, its stack and its node are three blocks that nothing else
    owns, and the stack is laid out so that the first switch to the process
    enters its trampoline. *)

From S2P Require Import Prelude Memory State Cpu Arch Libc Pmm Vmm VmmTree VmmSpec.
From S2P Require Import Heap HeapTiles HeapList HeapSpec Budget HeapTop HeapIface Process ProcessSpec.

Section create.
Context {HA : heap_allocator malloc free}.

(** The process and node objects are heap blocks. *)
Record objects_live (q : proc_state) (hv : hview) : Prop := {
  ol_proc : forall a p, processes q !! a = Some p -> exists n, live hv a n;
  ol_node : forall a n, nodes q !! a = Some n -> exists k, live hv a k
}.

(** A process that has not run yet: [process_switch] to it goes on at [rip]
    with the entry point in R15 and [arg] in R14. *)
Record fresh_process (s : kstate) (x : process) (rip arg entry : Z) : Prop := {
  fp_frame : frame_at (s_mem s) (krsp x) rip [0; 0; 0; 0; arg; entry];
  fp_top : krsp x + 56 = stack_top x;
  fp_align : stack_top x mod 16 = 0;
  fp_range : KERNEL_HEAP_START < krsp x /\ stack_top x < 2 ^ 64
}.

(** ** Lemmas *)

Lemma ha_proc s hv f : ha_ok s hv -> ha_ok (on_proc f s) hv.
Proof. intros H. apply (ha_frame s); try done. by apply (ha_cpu s hv). Qed.

Lemma ha_write s hv p n m' :
  ha_ok s hv -> live hv p n -> (forall x, ~ (p <= x < p + n) -> rd m' x = rd (s_mem s) x) ->
  ha_ok (set_mem m' s) hv.
Proof.
  intros H Hl Hm. apply (ha_frame s); try done; [by apply (ha_cpu s hv)|].
  intros x Hx. apply Hm. by apply Hx.
Qed.

(** [PROCESS_PUSH] puts the node behind the head. *)
Lemma process_push_spec s hd l node x (E : string -> kstate -> Prop) :
  ring (s_proc s) hd l -> nodes (s_proc s) !! node = Some x -> node ∉ hd :: l -> node <> 0 ->
  wp (PROCESS_PUSH node) s (fun _ s' => exists f, s' = on_proc f s /\ ring (s_proc s') hd (node :: l) /\
    should_schedule (s_proc s') = true /\ processes (s_proc s') = processes (s_proc s) /\
    next_pid (s_proc s') = next_pid (s_proc s) /\
    forall y, option_map n_process (nodes (s_proc s') !! y) = option_map n_process (nodes (s_proc s) !! y)) E.
Proof.
  intros (Hh & Hp & Hnd) Hx Hni Hn0. unfold PROCESS_PUSH. apply wp_bind, wp_gets, wp_bind.
  eapply wp_get_node; [exact Hx|]. rewrite Hh. pose proof Hp as (_ & Hh0 & n & Hn & Hp').
  destruct (Z.eqb_spec hd 0); [done|]. apply wp_bind, wp_bind. eapply wp_get_node; [exact Hn|].
  apply wp_bind, wp_modify, wp_modify, wp_modify.
  set (N' := <[hd := mk_node (n_process n) node]> (<[node := mk_node (n_process x) (n_next n)]> (nodes (s_proc s)))).
  set (f := fun q => set_should_schedule true (set_nodes N' q)). exists f.
  assert (node <> hd) as Hne by set_solver.
  match goal with |- ?t = _ /\ _ => change t with (on_proc f s) end.
  split; [done|]. split; [|split; [done|split; [done|split; [done|]]]].
  - split; [done|]. split; [|apply NoDup_cons; split; [|apply NoDup_cons; split]];
      [|apply NoDup_cons in Hnd as [? ?]; set_solver|set_solver|by apply NoDup_cons in Hnd as [? ?]].
    change (nodes (s_proc (on_proc f s))) with N'. split; [done|]. split; [done|].
    exists (mk_node (n_process n) node). split; [by apply lookup_insert_eq|].
    split; [done|]. split; [done|]. exists (mk_node (n_process x) (n_next n)).
    split; [unfold N'; by rewrite lookup_insert_ne, lookup_insert_eq by done|].
    apply (path_ext (nodes (s_proc s))); [|done]. intros y Hy. unfold N'.
    apply NoDup_cons in Hnd as [Hhl _]. rewrite !lookup_insert_ne by set_solver. done.
  - intros y. change (nodes (s_proc (on_proc f s))) with N'. unfold N'. destruct (decide (y = hd)) as [->|].
    { by rewrite lookup_insert_eq, Hn. }
    rewrite lookup_insert_ne by done. destruct (decide (y = node)) as [->|]; [by rewrite lookup_insert_eq, Hx|].
    by rewrite lookup_insert_ne.
Qed.

(** The first process makes a ring of one. *)
Lemma process_push_first s node x (E : string -> kstate -> Prop) :
  process_head (s_proc s) = 0 -> nodes (s_proc s) !! node = Some x -> node <> 0 ->
  wp (PROCESS_PUSH node) s (fun _ s' => exists f, s' = on_proc f s /\ ring (s_proc s') node [] /\
    should_schedule (s_proc s') = true /\ processes (s_proc s') = processes (s_proc s)) E.
Proof.
  intros Hh Hx Hn0. unfold PROCESS_PUSH. apply wp_bind, wp_gets, wp_bind.
  eapply wp_get_node; [exact Hx|]. rewrite Hh. cbn [Z.eqb]. apply wp_bind, wp_bind, wp_modify, wp_modify, wp_modify.
  exists (fun q => set_should_schedule true (set_process_head node
    (set_nodes (<[node := mk_node (n_process x) node]> (nodes (s_proc s))) q))).
  split; [by apply kstate_ext|]. split; [|done]. split; [done|]. split; [|apply NoDup_singleton].
  split; [done|]. split; [done|]. eexists. split; [by apply lookup_insert_eq|done].
Qed.

(** The object and the zeroed stack. *)
Lemma new_process_object_spec s hv :
  ha_ok s hv ->
  wp new_process_object s (fun r s' => exists hv' n k, ha_ok s' hv' /\ heap_ctx s (on_proc (fun _ => s_proc s) s') /\
    sizeof_process <= n /\ STACK_SIZE <= k /\ live hv' r.1 n /\ live hv' r.2 k /\ r.1 <> r.2 /\
    (forall q j, live hv q j -> live hv' q j /\ q <> r.1 /\ q <> r.2) /\
    (forall q j x, live hv q j -> q <= x < q + j -> rd (s_mem s') x = rd (s_mem s) x) /\
    (exists z, s_proc s' = set_processes (<[r.1 := z]> (processes (s_proc s))) (s_proc s))) out_of_memory.
Proof.
  intros H. unfold new_process_object.
  eapply wp_call; [by apply (ha_alloc s hv sizeof_process)|].
  intros a s1 (h1 & n & H1 & C1 & Hn & L1 & F1 & M1).
  destruct (ha_range s1 h1 a n H1) as (_ & ? & _ & _); [apply L1; auto|].
  apply wp_bind, wp_ASSERT; [by destruct (Z.eqb_spec a 0); [lia|]|]. apply wp_bind, wp_modify.
  set (z := mk_process _ _ _ _ _ _ _ _ _ _ _ _ _ _). set (s2 := on_proc _ s1).
  eapply wp_call; [apply (ha_alloc s2 h1 STACK_SIZE); [by apply ha_proc|done]|].
  intros b s3 (h3 & k & H3 & C3 & Hk & L3 & F3 & M3).
  assert (live h3 b k) as Lb by (apply L3; auto).
  destruct (ha_range s3 h3 b k H3 Lb) as (_ & ? & _ & _).
  apply wp_bind, wp_ASSERT; [by destruct (Z.eqb_spec b 0); [lia|]|]. apply wp_bind, wp_memset, wp_ret.
  pose (m4 := memset_loop (s_mem s3) b 0 (Z.to_nat STACK_SIZE)).
  assert (a <> b) as Hab. { intros ->. apply (F3 n), L1. auto. }
  assert (forall x, ~ (b <= x < b + k) -> rd m4 x = rd (s_mem s3) x) as Hms.
  { intros x Hx. unfold m4. rewrite rd_memset_loop, Z2Nat.id by done. change STACK_SIZE with 65536 in *.
    destruct (Z.leb_spec b x), (Z.ltb_spec x (b + 65536)); cbn; done || lia. }
  change (on_mem (fun m => memset_loop m b 0 (Z.to_nat STACK_SIZE)) s3) with (set_mem m4 s3). clearbody m4.
  exists h3, n, k. split_and!; try done.
  - by apply (ha_write s3 h3 b k).
  - destruct C1, C3. split; try (cbn in *; congruence); cbn in *.
    destruct hc_cpu as [E1|E1], hc_cpu0 as [E2|E2]; rewrite E2, E1, ?irq_section_idemp; auto.
  - apply L3. left. apply L1. auto.
  - intros q j Hq. split; [apply L3; left; apply L1; auto|]. split.
    + intros ->. by apply (F1 j).
    + intros ->. apply (F3 j), L1. auto.
  - intros q j x Hq Hx. cbn [set_mem s_mem]. assert (live h1 q j) as Hq1 by (apply L1; auto).
    rewrite Hms.
    + rewrite (M3 q j) by done. by rewrite <- (M1 q j x Hq Hx).
    + intros Hx'. assert (live h3 q j) as Hq3 by (apply L3; auto).
      destruct (ha_disjoint s3 h3 q j b k x H3 Hq3 Lb Hx Hx') as [-> _]. by apply (F3 j).
  - exists z. cbn [set_mem s_proc]. rewrite (hc_proc _ _ C3). cbn [s2 on_proc set_proc s_proc].
    by rewrite (hc_proc _ _ C1).
Qed.

Lemma path_nodes N a l z y : path N a l z -> y ∈ l -> is_Some (N !! y).
Proof.
  revert a. induction l as [|x l IH]; intros a Hp Hy; [by apply elem_of_nil in Hy|].
  destruct Hp as (_ & _ & n & Hn & Hp). apply elem_of_cons in Hy as [->|Hy]; [by eauto|by eapply IH].
Qed.

Lemma push_new_node_spec s hv hd l a :
  ha_ok s hv -> ring (s_proc s) hd l -> (forall y n, nodes (s_proc s) !! y = Some n -> exists k, live hv y k) ->
  wp (push_new_node a) s (fun _ s' => exists hv' node, ha_ok s' hv' /\ heap_ctx s (on_proc (fun _ => s_proc s) s') /\
    ring (s_proc s') hd (node :: l) /\ option_map n_process (nodes (s_proc s') !! node) = Some a /\
    should_schedule (s_proc s') = true /\ processes (s_proc s') = processes (s_proc s) /\
    next_pid (s_proc s') = next_pid (s_proc s) /\
    (forall q j, live hv q j -> live hv' q j) /\
    (forall q j x, live hv q j -> q <= x < q + j -> rd (s_mem s') x = rd (s_mem s) x)) out_of_memory.
Proof.
  intros H Hr Hlv. unfold push_new_node.
  eapply wp_call; [by apply (ha_alloc s hv sizeof_process_node)|].
  intros node s1 (h1 & n & H1 & C1 & Hn & L1 & F1 & M1).
  destruct (ha_range s1 h1 node n H1) as (_ & ? & _ & _); [apply L1; auto|].
  apply wp_bind, wp_modify. set (s2 := on_proc _ s1).
  assert (node ∉ hd :: l) as Hni.
  { intros Hin. pose proof Hr as (_ & Hp & _). destruct (path_nodes _ _ _ _ _ Hp Hin) as [y Hy].
    destruct (Hlv _ _ Hy) as [k Hk]. by apply (F1 k). }
  assert (ring (s_proc s2) hd l) as Hr2.
  { destruct Hr as (R1 & R2 & R3). cbn [s2 on_proc set_proc s_proc]. rewrite (hc_proc _ _ C1).
    split; [done|]. split; [|done]. apply (path_ext (nodes (s_proc s))); [|done]. intros y Hy.
    cbn [set_nodes nodes]. rewrite lookup_insert_ne by set_solver. done. }
  eapply wp_mono; [apply (process_push_spec s2 hd l node (mk_node a 0) out_of_memory Hr2); [|done|lia]| |done].
  { cbn [s2 on_proc set_proc s_proc set_nodes nodes]. by rewrite lookup_insert_eq. }
  intros [] s' (f & -> & Hr' & Hsh & Hpr & Hpid & Hnp). exists h1, node.
  assert (processes (s_proc s2) = processes (s_proc s) /\ next_pid (s_proc s2) = next_pid (s_proc s)) as [E1 E2].
  { cbn [s2 on_proc set_proc s_proc set_nodes processes next_pid]. by rewrite (hc_proc _ _ C1). }
  split_and!; try done.
  - by apply ha_proc, ha_proc.
  - destruct C1. split; done.
  - rewrite Hnp. cbn [s2 on_proc set_proc s_proc set_nodes nodes]. by rewrite lookup_insert_eq.
  - by rewrite Hpr.
  - by rewrite Hpid.
  - intros q j Hq. apply L1. auto.
Qed.

(** The end of both functions: initial stack, object, node. *)
Lemma create_finish s hv hd l a b k rip arg entry (x : Z -> Z -> process) :
  let top := b + STACK_SIZE in
  ha_ok s hv -> ring (s_proc s) hd l -> (forall y n, nodes (s_proc s) !! y = Some n -> exists k, live hv y k) ->
  live hv b k -> STACK_SIZE <= k -> in_u64 rip -> in_u64 arg -> in_u64 entry ->
  (forall sp pid, krsp (x sp pid) = sp /\ stack_top (x sp pid) = top) ->
  wp (stack <- PUSH_STACK top [rip; 0; 0; 0; 0; arg; entry];; pid <- take_pid;;
      put_process a (x stack pid);;; push_new_node a;;; ret a) s
    (fun r s' => r = a /\ exists hv' node, ha_ok s' hv' /\ ring (s_proc s') hd (node :: l) /\
       option_map n_process (nodes (s_proc s') !! node) = Some a /\ should_schedule (s_proc s') = true /\
       processes (s_proc s') = <[a := x (top - 56) (next_pid (s_proc s))]> (processes (s_proc s)) /\
       next_pid (s_proc s') = u32 (next_pid (s_proc s) + 1) /\
       fresh_process s' (x (top - 56) (next_pid (s_proc s))) rip arg entry) out_of_memory.
Proof.
  intros top H Hr Hlv Lb Hk Hrip Harg Hent Hx. destruct (ha_range s hv b k H Lb) as (Hbm & Hb & _ & Hbe).
  change STACK_SIZE with 65536 in *. set (vs := [rip; 0; 0; 0; 0; arg; entry]).
  eapply wp_bind, wp_ok; [apply PUSH_STACK_run; cbn [vs length]; lia|].
  replace (top - 8 * Z.of_nat (length vs)) with (top - 56) by (cbn [vs length]; lia).
  eapply wp_bind, wp_ok; [reflexivity|]. apply wp_bind, wp_modify. set (sp := top - 56). set (m1 := push_mem (s_mem s) top vs).
  match goal with |- wp _ ?t _ _ => set (s1 := t) end.
  change (next_pid (s_proc (on_mem (fun m => push_mem m top vs) s))) with (next_pid (s_proc s)) in s1.
  assert (words m1 sp 7 = reverse vs) as Hw.
  { apply (words_push (s_mem s) top vs). unfold vs. rewrite !Forall_cons. split_and!; done || by apply Forall_nil. }
  assert (forall y, y < sp \/ top <= y -> rd m1 y = rd (s_mem s) y) as Hm1.
  { intros y Hy. apply rd_push_mem. cbn [vs length]. lia. }
  assert (ha_ok (set_mem m1 s) hv) as H0.
  { apply (ha_write s hv b k); [done|done|]. intros y Hy. apply Hm1. lia. }
  assert (ha_ok s1 hv) as H1.
  { apply (ha_frame (set_mem m1 s)); try done. by apply (ha_cpu s hv). }
  eapply wp_call; [apply (push_new_node_spec s1 hv hd l a H1); [|exact Hlv]|].
  { destruct Hr as (? & ? & ?). by split_and!. }
  intros [] s' (hv' & node & H' & C' & Hr' & Hnp & Hsh & Hpr & Hpid & Hlv' & Hm'). apply wp_ret.
  split; [done|]. exists hv', node. destruct (Hx sp (next_pid (s_proc s))) as [X1 X2].
  split_and!; try done. split; rewrite ?X1, ?X2; [|lia|zlia|lia].
  split; [lia|lia|done|]. change (reverse (rip :: [0; 0; 0; 0; arg; entry])) with (reverse vs). rewrite <- Hw.
  apply words_ext. intros y Hy. change m1 with (s_mem s1). apply (Hm' b k); [done|]. lia.
Qed.

(** From the objects to the start of [create_finish]. *)
Lemma top_of_stack b k s hv : ha_ok s hv -> live hv b k -> STACK_SIZE <= k ->
  Z.land (u64 (b + STACK_SIZE)) (Z.lnot 0xF) = b + STACK_SIZE.
Proof.
  intros H Lb Hk. destruct (ha_range s hv b k H Lb) as (? & ? & _ & ?). change STACK_SIZE with 65536 in *.
  rewrite u64_small by lia. change 0xF with 15. rewrite land_lnot_15. zlia.
Qed.

(** *** What a process costs *)

Lemma costs_get_process p : costs 0 (get_process p).
Proof. intros s. unfold get_process. destruct (_ !! _); [lia|done]. Qed.
Lemma costs_get_node n : costs 0 (get_node n).
Proof. intros s. unfold get_node. destruct (_ !! _); [lia|done]. Qed.
Lemma costs_push_stack sp vs : costs 0 (PUSH_STACK sp vs).
Proof. revert sp. induction vs as [|v vs IH]; intros sp; cbn [PUSH_STACK]; budget. Qed.
Lemma costs_take_pid : costs 0 take_pid.
Proof. unfold take_pid. budget. Qed.
Lemma costs_process_push n : costs 0 (PROCESS_PUSH n).
Proof.
  assert (forall n, costs 0 (get_node n)) by exact costs_get_node.
  unfold PROCESS_PUSH, get_process_head, put_node. budget.
Qed.

Lemma costs_push_new_node p : costs 204 (push_new_node p).
Proof.
  unfold push_new_node, put_node. apply (costs_bind 204 0); [apply (costs_kmalloc sizeof_process_node); done|].
  intros n. apply costs_bind_free; [budget|]. intros ?. apply costs_process_push.
Qed.

Lemma costs_new_process_object : costs 1496 new_process_object.
Proof.
  unfold new_process_object, put_process. apply (costs_bind 204 1292); [apply (costs_kmalloc sizeof_process); done|].
  intros p. do 2 (apply costs_bind_free; [budget|intros ?]).
  apply (costs_bind 1292 0); [apply (costs_kmalloc STACK_SIZE); done|]. intros ?. budget.
Qed.

Lemma costs_process_create entry pm : costs 1700 (process_create entry pm).
Proof.
  unfold process_create, put_process. apply (costs_bind 1496 204); [apply costs_new_process_object|].
  intros o. do 2 (apply costs_bind_free; [budget|intros ?]).
  apply costs_bind_free; [apply costs_push_stack|intros ?]. apply costs_bind_free; [apply costs_take_pid|intros ?].
  apply costs_bind_free; [budget|intros ?]. apply (costs_bind 204 0); [apply costs_push_new_node|intros ?]. budget.
Qed.

(** ** Properties *)

(** C30: [process_create] adds a kernel process behind the running one, with the
    next process id and the given address space (the kernel's if none); its
    saved stack is such that the first switch to it enters the kernel
    trampoline with the entry point in R15 and the stack pointer at the
    16-byte aligned top of its own stack.  With 1700 free pages it always
    does; with fewer it may stop for lack of memory. *)
Theorem process_create_spec (s : kstate) (hv : hview) (hd : Z) (l : list Z) (entry pagemap : Z) :
  ha_ok s hv -> ring (s_proc s) hd l -> objects_live (s_proc s) hv ->
  in_u64 entry -> entry <> 0 -> in_u64 (sym_kernel_trampoline (symbols (s_boot s))) ->
  wp (process_create entry pagemap) s
    (fun r s' => exists hv' node x, ha_ok s' hv' /\ ring (s_proc s') hd (node :: l) /\
       option_map n_process (nodes (s_proc s') !! node) = Some r /\ processes (s_proc s) !! r = None /\
       processes (s_proc s') = <[r := x]> (processes (s_proc s)) /\
       p_id x = next_pid (s_proc s) /\ next_pid (s_proc s') = u32 (next_pid (s_proc s) + 1) /\
       p_type x = PROCESS_KERNEL /\ p_state x = PROCESS_READY /\ wake_at x = 0 /\
       p_pagemap x = (if pagemap =? 0 then kernel_pagemap (s_vmm s) else pagemap) /\
       fresh_process s' x (sym_kernel_trampoline (symbols (s_boot s))) 0 entry)
    (fun msg s' => out_of_memory msg s' /\ (frees s < 1700)%nat).
Proof.
  intros H Hr [O1 O2] Hent Hne Hy. apply wp_budget; [apply costs_process_create|]. unfold process_create.
  eapply wp_call; [by apply new_process_object_spec|].
  intros [a b] s1 (h1 & n & k & H1 & C1 & Hn & Hk & La & Lb & Hab & Hold & Hm & z & Hq). cbn [fst snd] in *.
  apply wp_bind, wp_gets, wp_bind, wp_gets.
  assert (s_boot s1 = s_boot s /\ s_vmm s1 = s_vmm s) as [Eb Ev] by (destruct C1; done).
  rewrite Eb, Ev, (top_of_stack b k s1 h1) by done. destruct (Z.eqb_spec entry 0); [done|].
  set (pm := if pagemap =? 0 then _ else _). set (y := sym_kernel_trampoline _) in *.
  assert (ring (s_proc s1) hd l) as Hr1 by (rewrite Hq; exact Hr).
  assert (forall c m, nodes (s_proc s1) !! c = Some m -> exists j, live h1 c j) as O2'.
  { rewrite Hq. intros c m Hc. destruct (O2 c m Hc) as [j Hj]. exists j. by apply Hold. }
  eapply wp_mono; [apply (create_finish s1 h1 hd l a b k y 0 entry
    (fun sp pid => mk_process sp 0 pid "kernel" 0 PROCESS_KERNEL PROCESS_READY b (b + STACK_SIZE) pm 0 0 0 0)); try done| |done].
  intros r s' (-> & hv' & node & H' & Hr' & Hnp & Hsh & Hpr & Hpid & Hfp). eexists hv', node, _.
  rewrite Hq in Hpr, Hpid, Hfp. cbn [set_processes processes next_pid] in Hpr, Hpid, Hfp. rewrite insert_insert_eq in Hpr.
  split_and!; [done|done|done| |exact Hpr|..|exact Hfp]; try done.
  destruct (processes (s_proc s) !! a) as [x|] eqn:E; [|done]. destruct (O1 _ _ E) as [j Hj].
  by destruct (Hold a j Hj) as (_ & ? & _).
Qed.

(** [process_create_user] does the same for a user process: the first
    switch enters the user trampoline with the entry point in R15 and the user
    stack in R14, and the program break starts at the given heap. *)
Theorem process_create_user_spec (s : kstate) (hv : hview) (hd : Z) (l : list Z)
    (entry pagemap user_stack_top user_heap : Z) :
  ha_ok s hv -> ring (s_proc s) hd l -> objects_live (s_proc s) hv -> pagemap <> 0 ->
  in_u64 entry -> entry <> 0 -> in_u64 user_stack_top -> in_u64 (sym_user_trampoline (symbols (s_boot s))) ->
  wp (process_create_user entry pagemap user_stack_top user_heap) s
    (fun r s' => exists hv' node x, ha_ok s' hv' /\ ring (s_proc s') hd (node :: l) /\
       option_map n_process (nodes (s_proc s') !! node) = Some r /\ processes (s_proc s) !! r = None /\
       processes (s_proc s') = <[r := x]> (processes (s_proc s)) /\
       p_id x = next_pid (s_proc s) /\ next_pid (s_proc s') = u32 (next_pid (s_proc s) + 1) /\
       p_type x = PROCESS_USER /\ p_state x = PROCESS_READY /\ p_pagemap x = pagemap /\
       ursp x = user_stack_top /\ user_heap_start x = user_heap /\ user_heap_position x = user_heap /\
       fresh_process s' x (sym_user_trampoline (symbols (s_boot s))) user_stack_top entry) out_of_memory.
Proof.
  intros H Hr [O1 O2] Hpm Hent Hne Hst Hy. unfold process_create_user.
  apply wp_bind, wp_ASSERT; [by destruct (Z.eqb_spec pagemap 0)|].
  eapply wp_call; [by apply new_process_object_spec|].
  intros [a b] s1 (h1 & n & k & H1 & C1 & Hn & Hk & La & Lb & Hab & Hold & Hm & z & Hq). cbn [fst snd] in *.
  apply wp_bind, wp_gets.
  assert (s_boot s1 = s_boot s) as Eb by (destruct C1; done).
  rewrite Eb, (top_of_stack b k s1 h1) by done. destruct (Z.eqb_spec entry 0); [done|].
  set (y := sym_user_trampoline _) in *.
  assert (ring (s_proc s1) hd l) as Hr1 by (rewrite Hq; exact Hr).
  assert (forall c m, nodes (s_proc s1) !! c = Some m -> exists j, live h1 c j) as O2'.
  { rewrite Hq. intros c m Hc. destruct (O2 c m Hc) as [j Hj]. exists j. by apply Hold. }
  eapply wp_mono; [apply (create_finish s1 h1 hd l a b k y user_stack_top entry
    (fun sp pid => mk_process sp user_stack_top pid "user-unnamed" 0 PROCESS_USER PROCESS_READY b (b + STACK_SIZE)
       pagemap user_heap user_heap 0 0)); try done| |done].
  intros r s' (-> & hv' & node & H' & Hr' & Hnp & Hsh & Hpr & Hpid & Hfp). eexists hv', node, _.
  rewrite Hq in Hpr, Hpid, Hfp. cbn [set_processes processes next_pid] in Hpr, Hpid, Hfp. rewrite insert_insert_eq in Hpr.
  split_and!; [done|done|done| |exact Hpr|..|exact Hfp]; try done.
  destruct (processes (s_proc s) !! a) as [x|] eqn:E; [|done]. destruct (O1 _ _ E) as [j Hj].
  by destruct (Hold a j Hj) as (_ & ? & _).
Qed.
End create.

(** ** Witnesses *)

(** A heap with a node and a process object in it. *)
Definition demo_proc_heap : kstate :=
  demo_heap_with (fun m => store64 (store64 (store64 (store64 m KERNEL_HEAP_START 32)
      (KERNEL_HEAP_START + 32) 624) (KERNEL_HEAP_START + 656) 3440) (KERNEL_HEAP_START + 656 + 8) 0)
    (KERNEL_HEAP_START + 656).

Definition demo_proc_view : heap_view :=
  mk_view 0x1000 (demo_tables KERNEL_HEAP_START)
    [Tile KERNEL_HEAP_START 32 false; Tile (KERNEL_HEAP_START + 32) 624 false;
     Tile (KERNEL_HEAP_START + 656) 3440 true].

Lemma demo_proc_heap_ok : view_ok demo_proc_heap demo_proc_view.
Proof.
  apply demo_heap_with_ok.
  - intros x Hx. rewrite !rd_store64_ne by lia. done.
  - cbn. by split_and!.
  - cbn. split; [by intros [? _]|]. split; [|done]. by intros [? _].
  - split.
    + intros b [->|[->|[->|[]%elem_of_nil]%elem_of_cons]%elem_of_cons]%elem_of_cons; cbn [b_addr b_size];
        by rewrite load_next_size, !load_size_size by (done || lia).
    + cbn [faddrs demo_proc_view hv_tiles b_free b_addr lseg]. split; [done|]. by rewrite load_store64 by lia.
Qed.

Definition demo_node : Z := KERNEL_HEAP_START + 16.
Definition demo_proc : Z := KERNEL_HEAP_START + 48.

Definition demo_process : process :=
  mk_process 0 0 0 "kernel" 0 PROCESS_KERNEL PROCESS_READY 0x10000 0x20000 0x5000 0 0 0 0.

Definition demo_machine : kstate :=
  on_proc (fun _ => mk_proc {[demo_proc := demo_process]} {[demo_node := mk_node demo_proc demo_node]}
                      demo_node 1 true) demo_proc_heap.

Lemma demo_machine_ok : view_ok demo_machine demo_proc_view.
Proof. apply (ha_proc (HA := kernel_heap)). exact demo_proc_heap_ok. Qed.

Lemma demo_machine_ring : ring (s_proc demo_machine) demo_node [].
Proof.
  split; [done|]. split; [|apply NoDup_singleton]. split; [done|]. split; [done|].
  exists (mk_node demo_proc demo_node). done.
Qed.

Lemma demo_machine_live : objects_live (HA := kernel_heap) (s_proc demo_machine) demo_proc_view.
Proof.
  split.
  - intros a p E. change (({[demo_proc := demo_process]} : gmap Z process) !! a = Some p) in E.
    apply lookup_singleton_Some in E as [<- <-]. exists 608. cbn. unfold view_live. cbn [demo_proc_view hv_tiles]. set_solver.
  - intros a n E. change (({[demo_node := mk_node demo_proc demo_node]} : gmap Z process_node) !! a = Some n) in E.
    apply lookup_singleton_Some in E as [<- <-]. exists 16. cbn. unfold view_live. cbn [demo_proc_view hv_tiles]. set_solver.
Qed.

Lemma process_create_spec_witness : exists r s' x,
  process_create 0xFFFFFFFF80005000 0 demo_machine = Ok r s' /\
    processes (s_proc s') !! r = Some x /\ p_id x = 1 /\ p_pagemap x = 0x5000 /\
    exists node, ring (s_proc s') demo_node [node].
Proof.
  destruct (wp_enough 1700 (process_create 0xFFFFFFFF80005000 0) demo_machine _ ltac:(apply Nat.leb_le; vm_compute; reflexivity)
    (process_create_spec (HA := kernel_heap) demo_machine demo_proc_view demo_node []
      0xFFFFFFFF80005000 0 demo_machine_ok demo_machine_ring demo_machine_live
      ltac:(vm_compute; split; congruence) ltac:(done) ltac:(vm_compute; split; congruence)))
    as (r & s' & E & hv' & node & x & _ & Hring & _ & _ & Hp & Hid & _ & _ & _ & _ & Hpm & _).
  exists r, s', x. split; [exact E|]. rewrite Hp, lookup_insert_eq. split_and!; [done|exact Hid|exact Hpm|by exists node].
Defined.

Lemma process_create_user_spec_witness :
  wp (process_create_user 0x401000 0x5000 0xAFFFFFE0 0x500000) demo_machine
    (fun r s' => exists x, processes (s_proc s') !! r = Some x /\ p_id x = 1 /\ p_type x = PROCESS_USER) out_of_memory.
Proof.
  eapply wp_mono; [apply (process_create_user_spec (HA := kernel_heap) demo_machine demo_proc_view demo_node []
    0x401000 0x5000 0xAFFFFFE0 0x500000 demo_machine_ok demo_machine_ring demo_machine_live)| |done].
  - done.
  - vm_compute. split; congruence.
  - done.
  - vm_compute. split; congruence.
  - vm_compute. split; congruence.
  - intros r s' (hv' & node & x & _ & _ & _ & _ & Hp & Hid & _ & Ht & _).
    exists x. rewrite Hp, lookup_insert_eq. split; [done|]. split; [exact Hid|exact Ht].
Defined.
