(* ===== verification/ProcessExit.v ===== *)
(** * Ending, sleeping and faulting processes (theorems about process.c,
      panic.c and [vmm_pagefault]) *)

From S2P Require Import Prelude Memory State Cpu Arch Libc Pmm Vmm VmmTree VmmSpec VmmFresh.
From S2P Require Import Heap HeapTiles HeapList HeapSpec HeapTop HeapIface Process ProcessSpec ProcessCreate.

(** ** Lemmas *)

Lemma process_get_current_run s h l ph :
  ring (s_proc s) h l -> option_map n_process (nodes (s_proc s) !! h) = Some ph ->
  process_get_current s = Ok ph s.
Proof.
  intros (Hh & Hp & _) Hn. unfold process_get_current. erewrite bind_ok by reflexivity. rewrite Hh.
  destruct Hp as (_ & Hh0 & _). destruct (Z.eqb_spec h 0); [done|].
  destruct (nodes (s_proc s) !! h) as [m|] eqn:E; [|done]. cbn in Hn. injection Hn as <-.
  erewrite bind_ok by (unfold get_node; by rewrite E). done.
Qed.

(** The process table with one process changed. *)
Definition with_process (a : Z) (x : process) (q : proc_state) : proc_state :=
  set_processes (<[a := x]> (processes q)) q.

Lemma proc_of_with a x q y n :
  nodes q !! y = Some n ->
  proc_of (with_process a x q) y = if decide (n_process n = a) then Some x else proc_of q y.
Proof.
  intros Hn. unfold proc_of, with_process. cbn [set_processes nodes processes]. rewrite Hn. cbn.
  destruct (decide _) as [->|]; [by rewrite lookup_insert_eq|by rewrite lookup_insert_ne].
Qed.

Lemma proc_of_node q y p : proc_of q y = Some p -> exists n, nodes q !! y = Some n.
Proof. unfold proc_of. destruct (nodes q !! y); [eauto|done]. Qed.

(** Computations that do not come back. *)
Definition never_ok {A} (r : outcome A) : Prop := match r with Ok _ _ => False | _ => True end.

Lemma never_ok_bind {A B} (m : M A) (k : A -> M B) s :
  (forall a s', m s = Ok a s' -> never_ok (k a s')) -> never_ok (bind m k s).
Proof. intros H. unfold bind. destruct (m s); try done. by apply H. Qed.

Lemma bind_inv {A B} (m : M A) (k : A -> M B) s b s' :
  bind m k s = Ok b s' -> exists a s1, m s = Ok a s1 /\ k a s1 = Ok b s'.
Proof. unfold bind. destruct (m s); try done. eauto. Qed.

(** A freed node is gone. *)
Lemma reap_node_gone prev curr s s' : reap_node prev curr s = Ok tt s' -> nodes (s_proc s') !! curr = None.
Proof.
  intros (? & ? & _ & H)%bind_inv. apply bind_inv in H as (? & ? & _ & H).
  do 5 (apply bind_inv in H as (? & ? & _ & H)). unfold free_node in H.
  apply bind_inv in H as (? & s1 & _ & [= <-]). cbn [on_proc set_proc s_proc set_nodes nodes]. apply lookup_delete_eq.
Qed.

(** The bookkeeping fields decide what [int_resume] does. *)
Lemma resume_mask c c' : mask_of c' = mask_of c -> mask_of (cpu_int_resume c') = mask_of (cpu_int_resume c).
Proof.
  destruct c as [i1 d1 w1 ? ? ? ? ? ? ? ? ?], c' as [i2 d2 w2 ? ? ? ? ? ? ? ? ?].
  unfold mask_of. cbn. intros [= -> -> ->]. unfold cpu_int_resume. cbn. destruct (d1 =? 0); [done|]. cbn.
  by destruct ((i32 (d1 - 1) =? 0) && w1).
Qed.

(** Scheduling when only the running process is awake: it keeps running. *)
Lemma schedule_keeps s h l ph p :
  ring_ok (s_proc s) h l -> Forall (alive (s_proc s)) (if decide (l = []) then [h] else l) ->
  Forall (asleep (ticks (s_cpu s)) (s_proc s)) l ->
  option_map n_process (nodes (s_proc s) !! h) = Some ph -> processes (s_proc s) !! ph = Some p ->
  wake_at p <= ticks (s_cpu s) -> cpu_ok (s_cpu s) ->
  exists s', process_schedule s = Ok Returned s' /\ s_proc s' = s_proc s /\
    if_flag (s_cpu s') = if_flag (s_cpu s) /\ sync_depth (s_cpu s') = sync_depth (s_cpu s).
Proof.
  intros Hro Ha Hs Hph Hp Hw Hcpu. rewrite (schedule_no_dead s h l) by done.
  assert (ticks (s_cpu (sched_entry s)) = ticks (s_cpu s)) as Ht.
  { cbn. unfold cpu_int_disable. by destruct (_ =? 0). }
  rewrite (pick_next_head (sched_entry s) h l l h [] ph ph); rewrite ?Ht; try done; [|apply Hro| |apply Hro].
  2: { exists p. split; [|done]. unfold proc_of. change (s_proc (sched_entry s)) with (s_proc s).
       destruct (nodes (s_proc s) !! h); [|done]. cbn in *. by injection Hph as ->. }
  set (s1 := on_proc _ _).
  assert (processes (s_proc s1) !! ph = Some p) as Hp1 by done.
  erewrite bind_ok by (unfold get_process; by rewrite Hp1). erewrite bind_ok by (unfold get_process; by rewrite Hp1).
  rewrite Z.eqb_refl. eexists. split; [reflexivity|]. destruct Hro as [(Hh & _) _ _ _].
  split.
  { change (s_proc (on_cpu cpu_int_resume s1)) with (set_process_head h (s_proc s)). rewrite <- Hh. by destruct (s_proc s). }
  change (s_cpu (on_cpu cpu_int_resume s1)) with (cpu_int_resume (cpu_int_disable (s_cpu s))).
  rewrite cpu_disable_resume by done. destruct (irq_section_fields (s_cpu s)) as (-> & -> & _). done.
Qed.

(** ** Properties *)

(** [process_exit] can return.  When every other process is asleep, the
    scheduler goes around the ring back to the process that just marked itself
    dead, and the call comes back to it as if nothing had happened: in
    [process_entry] that is the [UNREACHABLE] after the call. *)
Theorem exit_returns_when_others_sleep (s : kstate) (h : Z) (l : list Z) (code ph : Z) (p : process) :
  ring_ok (s_proc s) h l -> l <> [] -> Forall (alive (s_proc s)) l ->
  Forall (asleep (ticks (s_cpu s)) (s_proc s)) l ->
  option_map n_process (nodes (s_proc s) !! h) = Some ph -> processes (s_proc s) !! ph = Some p ->
  (forall y n, y ∈ l -> nodes (s_proc s) !! y = Some n -> n_process n <> ph) ->
  wake_at p <= ticks (s_cpu s) -> cpu_ok (s_cpu s) ->
  exists s', process_exit code s = Ok Returned s' /\ process_head (s_proc s') = h /\
    processes (s_proc s') !! ph = Some (set_p_state PROCESS_DEAD p) /\
    if_flag (s_cpu s') = if_flag (s_cpu s).
Proof.
  intros Hro Hl Ha Hs Hph Hp Hinj Hw Hcpu. pose proof Hro as [Hr Hsh Hpr Hnn].
  assert (ph <> 0) as Hph0.
  { destruct (nodes (s_proc s) !! h) as [n|] eqn:E; [|done]. cbn in Hph. injection Hph as <-. by apply (Hnn h). }
  unfold process_exit. erewrite bind_ok by (by apply (process_get_current_run s h l)).
  destruct (Z.eqb_spec ph 0); [done|]. erewrite bind_ok by (unfold get_process; by rewrite Hp).
  erewrite bind_ok by reflexivity. set (d := set_p_state PROCESS_DEAD p).
  set (s1 := on_proc _ s). change (s_proc s1) with (with_process ph d (s_proc s)) in *.
  assert (forall y, y ∈ l -> proc_of (with_process ph d (s_proc s)) y = proc_of (s_proc s) y) as Hsame.
  { intros y Hy. destruct (Hpr y ltac:(set_solver)) as (x & Hx & _). destruct (proc_of_node _ _ _ Hx) as [m Hn].
    rewrite (proc_of_with _ _ _ _ m) by done. destruct (decide (n_process m = ph)); [|done]. by apply Hinj in Hn. }
  destruct (schedule_keeps s1 h l ph d) as (s' & Hsc & Hpr' & Hif & _); try done.
  - split; [done|done| |done]. intros y Hy. destruct (Hpr y Hy) as (x & Hx & Hpm).
    destruct (proc_of_node _ _ _ Hx) as [m Hn]. change (s_proc s1) with (with_process ph d (s_proc s)).
    rewrite (proc_of_with _ _ _ _ m) by done. destruct (decide (n_process m = ph)) as [<-|]; [|eauto].
    exists d. split; [done|]. unfold proc_of in Hx. rewrite Hn in Hx. cbn in Hx. rewrite Hp in Hx. by injection Hx as <-.
  - destruct (decide (l = [])); [done|]. apply Forall_forall. intros y Hy. destruct (proj1 (Forall_forall _ _) Ha y Hy) as (x & Hx & Hd). exists x. split; [|done].
    change (s_proc s1) with (with_process ph d (s_proc s)). by rewrite Hsame.
  - apply Forall_forall. intros y Hy. destruct (proj1 (Forall_forall _ _) Hs y Hy) as (x & Hx & Hd). exists x.
    split; [|done]. change (s_proc s1) with (with_process ph d (s_proc s)). by rewrite Hsame.
  - change (processes (s_proc s1)) with (<[ph := d]> (processes (s_proc s))). by rewrite lookup_insert_eq.
  - exists s'. split; [done|]. rewrite Hpr'. split; [apply Hr|].
    split; [|done]. change (processes (s_proc s1)) with (<[ph := d]> (processes (s_proc s))). by rewrite lookup_insert_eq.
Qed.

(** The only process cannot end.  When it does, the reaper frees its node
    and then follows the [next] pointer of that same node: [process_exit] has
    no outcome in which the machine goes on. *)
Theorem exit_sole_process (s : kstate) (h code ph : Z) (p : process) :
  ring_ok (s_proc s) h [] -> option_map n_process (nodes (s_proc s) !! h) = Some ph ->
  processes (s_proc s) !! ph = Some p -> never_ok (process_exit code s).
Proof.
  intros Hro Hph Hp. pose proof Hro as [Hr Hsh Hpr Hnn]. pose proof Hr as (Hh & (_ & Hh0 & n & Hn & Hnx) & _).
  cbn in Hnx. rewrite Hn in Hph. cbn in Hph. injection Hph as <-.
  unfold process_exit. erewrite bind_ok by (apply (process_get_current_run s h []); [done|by rewrite Hn]).
  destruct (Z.eqb_spec (n_process n) 0) as [E|]; [by apply Hnn in Hn|].
  erewrite bind_ok by (unfold get_process; by rewrite Hp). erewrite bind_ok by reflexivity.
  set (d := set_p_state PROCESS_DEAD p). set (s1 := on_proc _ s).
  unfold process_schedule. erewrite bind_ok by reflexivity. erewrite bind_ok by reflexivity.
  match goal with |- context [bind _ _ ?t] => change t with (sched_entry s1) end. set (s2 := sched_entry s1).
  assert (nodes (s_proc s2) !! h = Some n) as Hn2 by done.
  assert (processes (s_proc s2) !! n_process n = Some d) as Hp2 by apply lookup_insert_eq.
  assert (p_pagemap d <> 0) as Hpm.
  { destruct (Hpr h ltac:(set_solver)) as (x & Hx & Hpm). unfold proc_of in Hx. rewrite Hn in Hx. cbn in Hx.
    rewrite Hp in Hx. by injection Hx as <-. }
  assert (can_schedule s2 = Ok true s2) as Hcan.
  { unfold can_schedule. erewrite bind_ok by reflexivity. change (should_schedule (s_proc s2)) with (should_schedule (s_proc s)).
    change (process_head (s_proc s2)) with (process_head (s_proc s)). rewrite Hsh, Hh. cbn [negb].
    destruct (Z.eqb_spec h 0); [done|]. erewrite bind_ok by (unfold get_node; by rewrite Hn2). rewrite Hnx.
    destruct (Z.eqb_spec h 0); [done|]. erewrite bind_ok by (unfold get_process; by rewrite Hp2).
    destruct (Z.eqb_spec (p_pagemap d) 0); [done|]. erewrite bind_ok by (unfold get_node; by rewrite Hn2).
    erewrite bind_ok by (unfold get_process; by rewrite Hp2). by destruct (Z.eqb_spec (p_pagemap d) 0). }
  erewrite bind_ok by exact Hcan. cbn [negb]. apply never_ok_bind. intros [] s3 Hreap. exfalso.
  unfold process_reap in Hreap. erewrite bind_ok in Hreap by reflexivity.
  change (process_head (s_proc s2)) with (process_head (s_proc s)) in Hreap. rewrite Hh in Hreap.
  destruct (Z.eqb_spec h 0); [done|]. erewrite bind_ok in Hreap by (unfold get_node; by rewrite Hn2).
  rewrite Hnx in Hreap. destruct (Z.eqb_spec h 0); [done|]. erewrite bind_ok in Hreap by reflexivity.
  unfold ring_fuel in Hreap. cbn [reap_loop] in Hreap.
  erewrite bind_ok in Hreap by (unfold get_node; by rewrite Hn2).
  erewrite bind_ok in Hreap by (unfold get_process; by rewrite Hp2).
  rewrite bool_decide_eq_true_2 in Hreap by done.
  apply bind_inv in Hreap as (pc & s4 & Hr4 & _). apply bind_inv in Hr4 as ([] & s5 & Hr5%reap_node_gone & Hr4).
  apply bind_inv in Hr4 as (x & s6 & Hg & _). unfold get_node in Hg. by rewrite Hr5 in Hg.
Qed.

(** Interrupt masking across a switch.  Whatever process is switched
    in, one [IRQ_RES] in its [process_entry] or in the rest of its
    [process_schedule] leaves the interrupt flag and the nesting count that the
    process switched out had when it called [process_schedule].  A process
    that first runs out of the timer interrupt thus starts with interrupts
    off, since the processor cleared the flag on the way into the handler. *)
Theorem schedule_mask_balance (s : kstate) (h : Z) (l pre : list Z) (x : Z) (post : list Z)
    (ph px : Z) (p c : process) (base rip : Z) (regs : list Z) :
  ring_ok (s_proc s) h l -> Forall (alive (s_proc s)) l -> l ++ [h] = pre ++ x :: post -> l <> [] ->
  Forall (asleep (ticks (s_cpu s)) (s_proc s)) pre -> wake_at c <= ticks (s_cpu s) ->
  option_map n_process (nodes (s_proc s) !! h) = Some ph ->
  option_map n_process (nodes (s_proc s) !! x) = Some px ->
  processes (s_proc s) !! ph = Some p -> processes (s_proc s) !! px = Some c -> p_id c <> p_id p ->
  in_u64 px -> running s -> ready_to_run s c base rip regs -> cpu_ok (s_cpu s) ->
  wp (r <- process_schedule;; int_resume;;; ret r) s
    (fun r s' => r = Jumped rip /\ process_head (s_proc s') = x /\
       if_flag (s_cpu s') = if_flag (s_cpu s) /\ sync_depth (s_cpu s') = sync_depth (s_cpu s)) no_panic.
Proof.
  intros Hro Ha Hl Hne Hs Hw Hph Hpx Hp Hc Hid Hpu [U1 U2 U3] [R1 R2 R3 R4 R5 R6 R7 R8] Hcpu.
  assert (forall t, ticks (cpu_int_disable t) = ticks t /\ rsp (cpu_int_disable t) = rsp t /\
    callee (cpu_int_disable t) = callee t /\ msrs (cpu_int_disable t) = msrs t) as Hd.
  { intros t. unfold cpu_int_disable. by destruct (_ =? 0). }
  destruct (Hd (s_cpu s)) as (D1 & D2 & D3 & D4).
  assert (wp process_schedule s (fun r s' => r = Jumped rip /\ process_head (s_proc s') = x /\
    mask_of (s_cpu s') = mask_of (cpu_int_disable (s_cpu s))) no_panic) as Hsw.
  { unfold wp. rewrite (schedule_no_dead s h l) by (done || by destruct (decide (l = []))).
    rewrite (pick_next_other (sched_entry s) h l pre x post ph px p c);
      change (s_cpu (sched_entry s)) with (cpu_int_disable (s_cpu s)); rewrite ?D1; try done; try apply Hro.
    apply wp_mono with (switched_to (on_proc (set_process_head x) (sched_entry s)) ph px p c base rip regs) no_panic;
      [apply switch_spec; try done| |done].
    - split; change (s_cpu (on_proc (set_process_head x) (sched_entry s))) with (cpu_int_disable (s_cpu s)); by rewrite ?D2, ?D3, ?D4.
    - split; try done. change (s_cpu (on_proc (set_process_head x) (sched_entry s))) with (cpu_int_disable (s_cpu s)). by rewrite D2.
    - intros r s' (-> & E1 & _ & _ & _ & _ & E2 & _). done. }
  eapply wp_call; [exact Hsw|]. intros r s' (-> & E1 & E2). apply wp_bind, wp_modify, wp_ret.
  split; [done|]. split; [done|]. apply resume_mask in E2.
  rewrite cpu_disable_resume in E2 by done. injection E2 as F1 F2 F3.
  change (s_cpu (on_cpu cpu_int_resume s')) with (cpu_int_resume (s_cpu s')). rewrite F1, F2.
  destruct (irq_section_fields (s_cpu s)) as (-> & -> & _). done.
Qed.

Section faults.
Context {PA : page_allocator pmm_allocate pmm_free}.

(** A frame found and mapped for the page of the fault. *)
Lemma fault_in_spec s pm root T virt :
  vmm_ready s pm root T -> 0 <= virt ->
  wp (fault_in pm virt) s (fun _ s2 => exists f T', mapped_fresh s pm root T virt 7 f s2 T') out_of_memory.
Proof.
  intros R Hv. unfold fault_in. change (Z.lor PTE_PRESENT (Z.lor PTE_WRITABLE PTE_USER)) with 7.
  pose proof (map_fresh_spec s pm root T virt 7 (fun _ => ret tt) R) as Hm.
  specialize (Hm Hv ltac:(lia) ltac:(done)). unfold wp, bind in Hm |- *.
  destruct (pmm_allocate s) as [f s2|? ?| | |]; try done. cbn [ret] in Hm.
  destruct (vmm_map_page pm virt f 7 s2); try done. by destruct Hm as [_ ?].
Qed.

(** The section that the page fault handler opens is closed by its end, also
    across the sections of the allocations in between. *)
Lemma resume_after_sections c c' :
  cpu_ok c -> sync_depth c + 1 < 2 ^ 31 - 1 -> c' = cpu_int_disable c \/ c' = irq_section (cpu_int_disable c) ->
  cpu_int_resume c' = irq_section c.
Proof.
  intros Hcpu Hdep [->| ->].
  - by apply cpu_disable_resume.
  - rewrite <- (cpu_disable_resume c) by done. f_equal. unfold irq_section.
    rewrite cpu_int_disable_depth by (destruct Hcpu; lia). destruct (Z.eqb_spec (sync_depth c + 1) 0); [|done].
    destruct Hcpu. lia.
Qed.

(** C32: a page fault below the program break (and up to one page past it) is
    served: a zeroed frame that was not in use is mapped at the page of the
    fault address, user accessible and writable, nothing else in the address
    space changes, and the break is raised past the page if it was below.  This
    holds of every process, so for a kernel process, whose heap bounds are
    both 0, a null dereference maps a page at address 0. *)
Theorem pagefault_heap_spec (s : kstate) (r : regs) (h : Z) (l : list Z) (ph : Z) (p : process)
    (root : Z) (T : gmap (list Z) Z) :
  let a := cr2 (s_cpu s) in
  ring_ok (s_proc s) h l -> option_map n_process (nodes (s_proc s) !! h) = Some ph ->
  processes (s_proc s) !! ph = Some p -> vmm_ready s (p_pagemap p) root T ->
  cpu_ok (s_cpu s) -> sync_depth (s_cpu s) + 1 < 2 ^ 31 - 1 -> in_u64 a ->
  0 <= user_heap_start p <= a -> 0 <= user_heap_position p < 2 ^ 48 -> a < user_heap_position p + 4096 ->
  wp (vmm_pagefault r) s
    (fun c s' => c = Returned /\ exists f T', vmm_ready s' (p_pagemap p) root T' /\
       ~ frame_used s f /\ frame_used s' f /\
       (forall w, leaf_entry s' T' w = if vpn w =? vpn a then Z.lor (Z.lor f 7) 1 else leaf_entry s T w) /\
       (forall x, in_frame s f x -> rd (s_mem s') x = 0) /\
       processes (s_proc s') = <[ph := set_user_heap_position
         (Z.max (user_heap_position p) (if user_heap_position p <=? a / 4096 * 4096 then a / 4096 * 4096 + 4096 else 0)) p]>
         (processes (s_proc s)) /\
       if_flag (s_cpu s') = if_flag (s_cpu s)) out_of_memory.
Proof.
  intros a Hro Hph Hp R Hcpu Hdep Hau Hlo Hpos Hhi. pose proof Hro as [Hr Hsh Hpr Hnn].
  assert (ph <> 0) as Hph0.
  { destruct (nodes (s_proc s) !! h) as [n|] eqn:E; [|done]. cbn in Hph. injection Hph as <-. by apply (Hnn h). }
  assert (p_pagemap p <> 0) as Hpm.
  { destruct (Hpr h ltac:(set_solver)) as (x & Hx & Hpm). unfold proc_of in Hx.
    destruct (nodes (s_proc s) !! h); [|done]. cbn in *. injection Hph as E. rewrite E, Hp in Hx. by injection Hx as <-. }
  unfold vmm_pagefault. apply wp_bind, wp_modify. set (s1 := on_cpu cpu_int_disable s).
  assert (cpu_ok (s_cpu s1)) as Hcpu1.
  { split; [|by intros; apply cpu_int_disable_off]. destruct Hcpu as [? _].
    change (s_cpu s1) with (cpu_int_disable (s_cpu s)). rewrite cpu_int_disable_depth; lia. }
  apply wp_bind, wp_gets. replace (cr2 (s_cpu s1)) with a.
  2: { unfold a, s1. cbn [on_cpu set_cpu s_cpu]. unfold cpu_int_disable. by destruct (_ =? 0). }
  eapply wp_bind, wp_ok; [by apply (process_get_current_run s1 h l)|].
  apply wp_bind, wp_ASSERT; [by destruct (Z.eqb_spec ph 0)|]. apply wp_bind. eapply wp_get_process; [exact Hp|].
  apply wp_bind, wp_ASSERT; [by destruct (Z.eqb_spec (p_pagemap p) 0)|].
  change (PAGE_SIZE - 1) with 4095. rewrite land_lnot_page. unfold in_u64 in Hau. change PAGE_SIZE with 4096.
  rewrite (u64_small (user_heap_position p + 4096)) by lia.
  rewrite (proj2 (Z.leb_le _ _)), (proj2 (Z.ltb_lt _ _)) by lia. cbn [andb].
  destruct (heap_frame_ready s s1 (p_pagemap p) root T R) as (Rs1 & L1 & Us1); try done.
  eapply wp_call; [apply (fault_in_spec s1 (p_pagemap p) root T _ Rs1); zlia|].
  intros [] s2 (f & T' & [F1 F2 F3 F4 F5 F6 F7 F8 F9 F10]).
  assert (processes (s_proc s2) !! ph = Some p) as Hp2 by (rewrite (sc_proc _ _ F2); exact Hp).
  apply wp_bind. eapply wp_get_process; [exact Hp2|].
  set (pos := Z.max _ _). apply wp_bind.
  eapply (wp_ok _ _ tt (on_proc (with_process ph (set_user_heap_position pos p)) s2)).
  { unfold when, pos. destruct (Z.leb_spec (user_heap_position p) (a / 4096 * 4096)).
    - rewrite u64_small, Z.max_r by zlia. done.
    - rewrite Z.max_l by lia. unfold ret. f_equal. apply kstate_ext; try done. cbn [on_proc set_proc s_proc].
      unfold with_process. rewrite insert_id; [by destruct (s_proc s2)|]. rewrite Hp2. by destruct p. }
  apply wp_bind, wp_modify, wp_ret. set (s3 := on_cpu cpu_int_resume _). split; [done|]. exists f, T'.
  pose proof F1 as [G1 G2 G3 G4].
  assert (cpu_int_resume (s_cpu s2) = irq_section (s_cpu s)) as Ecpu.
  { apply resume_after_sections; [done|done|]. destruct (sc_cpu _ _ F2) as [E|E]; rewrite E; [by left|by right]. }
  destruct (heap_frame_ready s2 s3 (p_pagemap p) root T' F1) as (R3 & L3 & U3); try done.
  { change (s_cpu s3) with (cpu_int_resume (s_cpu s2)). rewrite Ecpu. by apply irq_section_ok. }
  split_and!; [done|by intros ?%Us1|by apply U3| |exact F9| |].
  - intros w. rewrite L3, F7, L1. replace (vpn (a / 4096 * 4096)) with (vpn a); [done|].
    unfold vpn. f_equal. zlia.
  - change (processes (s_proc s3)) with (<[ph := set_user_heap_position pos p]> (processes (s_proc s2))).
    by rewrite (sc_proc _ _ F2).
  - change (s_cpu s3) with (cpu_int_resume (s_cpu s2)). rewrite Ecpu. apply irq_section_fields.
Qed.
End faults.

(** ** Witnesses *)

(** Two processes, the second switched out with a frame at 0x8000 - 56 and
    asleep until tick [w]. *)
Definition demo_two_procs (w : Z) : proc_state :=
  mk_proc
    {[0x100 := mk_process 0 0 1 "kernel" 0 PROCESS_KERNEL PROCESS_READY 0x9000 0xA000 0x5000 0 0 0 0;
      0x200 := mk_process (0x8000 - 56) 0 2 "user" w PROCESS_USER PROCESS_READY 0x7000 0x8000 0x5000 0 0 0x77 5]}
    {[0x10 := mk_node 0x100 0x20; 0x20 := mk_node 0x200 0x10]} 0x10 3 true.

Definition demo_sched (w : Z) : kstate :=
  on_proc (fun _ => demo_two_procs w)
    (on_vmm (fun _ => mk_vmm 0x5000 {[0x5000 := 0xFFFF800000001000]})
       (on_cpu (set_rsp 0xA000)
          (on_mem (fun m => push_mem m 0x8000 [0x1234; 1; 2; 3; 4; 5; 6]) demo_entry_state))).

Lemma demo_ring_ok w : ring_ok (demo_two_procs w) 0x10 [0x20].
Proof.
  split; [|done| |].
  - split; [done|]. split.
    + split; [done|]. split; [done|]. eexists. split; [reflexivity|]. split; [done|]. split; [done|].
      eexists. split; [reflexivity|done].
    + apply NoDup_cons. split; [set_solver|apply NoDup_singleton].
  - intros y [->|[->|[]%elem_of_nil]%elem_of_cons]%elem_of_cons; eexists; (split; [reflexivity|done]).
  - intros y n. unfold demo_two_procs. cbn [nodes].
    intros [[<- <-]|[_ [<- <-]%lookup_singleton_Some]]%lookup_insert_Some; done.
Qed.

Lemma demo_frame w : frame_at (s_mem (demo_sched w)) (0x8000 - 56) 0x1234 [1; 2; 3; 4; 5; 6].
Proof.
  split; [done|done|done|]. apply (words_push ∅ 0x8000 [0x1234; 1; 2; 3; 4; 5; 6]).
  rewrite !Forall_cons. split_and!; done || by apply Forall_nil.
Qed.

Lemma demo_switched_out w p : p = mk_process (0x8000 - 56) 0 2 "user" w PROCESS_USER PROCESS_READY 0x7000 0x8000 0x5000 0 0 0x77 5 ->
  ready_to_run (demo_sched w) p 0xFFFF800000001000 0x1234 [1; 2; 3; 4; 5; 6].
Proof. intros ->. split; first [done|apply demo_frame|by left]. Qed.

Lemma demo_running w : running (demo_sched w).
Proof. by split. Qed.

(** Process 0x100 is switched out, process 0x200 runs with other registers and
    switches back. *)
Lemma switch_roundtrip_witness :
  exists s1' s2', process_switch 0x100 0x200 (demo_sched 0) = Ok (Jumped 0x1234) s1' /\
    callee (s_cpu s1') = [1; 2; 3; 4; 5; 6] /\
    process_switch 0x200 0x100 (on_cpu (set_callee [7; 7; 7; 7; 7; 7]) s1') =
      Ok (Jumped (sym_switch_return (symbols (s_boot (demo_sched 0))))) s2' /\
    callee (s_cpu s2') = callee (s_cpu (demo_sched 0)) /\ rsp (s_cpu s2') = 0xA000.
Proof.
  set (pa := mk_process 0 0 1 "kernel" 0 PROCESS_KERNEL PROCESS_READY 0x9000 0xA000 0x5000 0 0 0 0).
  set (pb := mk_process (0x8000 - 56) 0 2 "user" 0 PROCESS_USER PROCESS_READY 0x7000 0x8000 0x5000 0 0 0x77 5).
  destruct (switch_roundtrip (demo_sched 0) 0x100 0x200 pa pb 0x1234 [1; 2; 3; 4; 5; 6]) as (s1' & E & Hc & _ & Hback).
  - reflexivity.
  - reflexivity.
  - done.
  - reflexivity.
  - cbn. rewrite !Forall_cons. split_and!; done || by apply Forall_nil.
  - done.
  - done.
  - apply demo_frame.
  - left. done.
  - assert (s1' = switched 0x100 pa (krsp pb + 56) [1; 2; 3; 4; 5; 6] (demo_sched 0)) as ->.
    { rewrite (process_switch_run (demo_sched 0) 0x100 0x200 pa pb 0x1234 [1; 2; 3; 4; 5; 6]) in E.
      - by injection E.
      - reflexivity.
      - reflexivity.
      - done.
      - reflexivity.
      - change (56 <= 0xA000 < 2 ^ 64). lia.
      - apply demo_frame.
      - left. done. }
    destruct (Hback (on_cpu (set_callee [7; 7; 7; 7; 7; 7]) (switched 0x100 pa (krsp pb + 56) [1; 2; 3; 4; 5; 6] (demo_sched 0)))
      0x200 (set_krsp (0xA000 - 56) pa) pb) as (s2' & E2 & Hc2 & Hsp2).
    + reflexivity.
    + reflexivity.
    + lia.
    + reflexivity.
    + change (56 <= 0x8000 < 2 ^ 64). lia.
    + reflexivity.
    + intros x _. reflexivity.
    + right. change (0x8000 <= 0xA000 - 56). lia.
    + eexists _, s2'. split; [exact E|]. split; [exact Hc|]. split; [exact E2|]. split; [exact Hc2|exact Hsp2].
Defined.

Lemma pick_next_round_robin_witness :
  wp pick_next (demo_sched 0) (fun r s' => r = Jumped 0x1234 /\ process_head (s_proc s') = 0x20 /\
    fpu (s_cpu s') = 5) no_panic.
Proof.
  eapply wp_mono; [apply (pick_next_round_robin (demo_sched 0) 0x10 [0x20] [] 0x20 [0x10] 0x100 0x200
    (mk_process 0 0 1 "kernel" 0 PROCESS_KERNEL PROCESS_READY 0x9000 0xA000 0x5000 0 0 0 0)
    (mk_process (0x8000 - 56) 0 2 "user" 0 PROCESS_USER PROCESS_READY 0x7000 0x8000 0x5000 0 0 0x77 5)
    0xFFFF800000001000 0x1234 [1; 2; 3; 4; 5; 6])| |done]; try done.
  - apply (demo_ring_ok 0).
  - apply (ro_nonnull _ _ _ (demo_ring_ok 0)).
  - by apply demo_switched_out.
  - intros r s' (-> & E & _ & [_ _ _ Hf] & _). split; [done|]. split; [done|]. by apply Hf.
Defined.

(** The two processes, both asleep until tick 50. *)
Lemma all_asleep_hangs_witness : process_schedule (on_proc (fun q => set_processes
  (fmap (set_wake_at 50) (processes q)) q) (demo_sched 50)) = Diverge.
Proof.
  refine (proj1 (all_asleep_hangs _ 0x10 [0x20] _ _ _)).
  - destruct (demo_ring_ok 50) as [H1 H2 _ H4]. split; [exact H1|exact H2| |exact H4].
    intros y [->|[->|[]%elem_of_nil]%elem_of_cons]%elem_of_cons; eexists; (split; [reflexivity|done]).
  - rewrite !Forall_cons. split_and!; [| |by apply Forall_nil]; eexists; (split; [reflexivity|done]).
  - rewrite !Forall_cons. split_and!; [| |by apply Forall_nil]; eexists; (split; [reflexivity|done]).
Defined.

Lemma exit_returns_when_others_sleep_witness :
  exists s', process_exit 0 (demo_sched 50) = Ok Returned s' /\ process_head (s_proc s') = 0x10.
Proof.
  destruct (exit_returns_when_others_sleep (demo_sched 50) 0x10 [0x20] 0 0x100
    (mk_process 0 0 1 "kernel" 0 PROCESS_KERNEL PROCESS_READY 0x9000 0xA000 0x5000 0 0 0 0)) as (s' & E1 & E2 & _); try done.
  - apply demo_ring_ok.
  - apply Forall_singleton. eexists. split; [reflexivity|done].
  - apply Forall_singleton. eexists. split; [reflexivity|done].
  - intros y n [->|[]%elem_of_nil]%elem_of_cons [= <-]. done.
  - by exists s'.
Defined.

Lemma exit_sole_process_witness : never_ok (process_exit 0 demo_machine).
Proof.
  apply (exit_sole_process demo_machine demo_node 0 demo_proc demo_process); [|reflexivity|reflexivity].
  split; [exact demo_machine_ring|done| |].
  - intros y [->|[]%elem_of_nil]%elem_of_cons. eexists. split; [reflexivity|done].
  - intros y n E. change (({[demo_node := mk_node demo_proc demo_node]} : gmap Z process_node) !! y = Some n) in E.
    by apply lookup_singleton_Some in E as [<- <-].
Defined.

Lemma schedule_mask_balance_witness :
  wp (r <- process_schedule;; int_resume;;; ret r) (demo_sched 0)
    (fun r s' => r = Jumped 0x1234 /\ if_flag (s_cpu s') = false) no_panic.
Proof.
  eapply wp_mono; [apply (schedule_mask_balance (demo_sched 0) 0x10 [0x20] [] 0x20 [0x10] 0x100 0x200
    (mk_process 0 0 1 "kernel" 0 PROCESS_KERNEL PROCESS_READY 0x9000 0xA000 0x5000 0 0 0 0)
    (mk_process (0x8000 - 56) 0 2 "user" 0 PROCESS_USER PROCESS_READY 0x7000 0x8000 0x5000 0 0 0x77 5)
    0xFFFF800000001000 0x1234 [1; 2; 3; 4; 5; 6])| |done]; try done.
  - apply (demo_ring_ok 0).
  - apply Forall_singleton. eexists. split; [reflexivity|done].
  - by apply demo_switched_out.
  - intros r s' (-> & _ & E & _). split; [done|]. exact E.
Defined.

(** A null dereference in the only, kernel, process. *)
Lemma pagefault_heap_spec_witness :
  wp (vmm_pagefault (mk_regs 0 0 0 0 0 0 0 0 0 0 0 0 0 0 0 0 14 0 0 8 0 0)) demo_machine
    (fun c s' => c = Returned /\ exists T' f, leaf_entry s' T' 0 = Z.lor (Z.lor f 7) 1) out_of_memory.
Proof.
  eapply wp_mono; [apply (pagefault_heap_spec (PA := pmm_page_allocator) demo_machine _ demo_node [] demo_proc
    demo_process 0x1000 (demo_tables KERNEL_HEAP_START))| |done].
  - split; [exact demo_machine_ring|done| |].
    + intros y [->|[]%elem_of_nil]%elem_of_cons. eexists. split; [reflexivity|done].
    + intros y n E. change (({[demo_node := mk_node demo_proc demo_node]} : gmap Z process_node) !! y = Some n) in E.
      by apply lookup_singleton_Some in E as [<- <-].
  - reflexivity.
  - reflexivity.
  - destruct demo_machine_ok as [[H _ _ _ _ _ _ _] _]. exact H.
  - split; [split; [discriminate|reflexivity]|intros H; discriminate H].
  - reflexivity.
  - split; [discriminate|reflexivity].
  - split; discriminate.
  - split; [discriminate|reflexivity].
  - reflexivity.
  - intros c s' (-> & f & T' & _ & _ & _ & Hl & _). split; [done|]. exists T', f. by rewrite Hl.
Defined.
