(* ===== verification/Devices.v ===== *)
(** * Serial port, keyboard and framebuffer

    kernel/drivers/tty/serial.c, kernel/drivers/ps2/ps2.keyboard.c with the
    macros of drivers/ps2.h and the scan code tables of drivers/ps2.kb.set.h,
    and kernel/drivers/video/fb0.c.  The terminal emulator that fb0.c drives is
    a parameter.  Loops that poll a device take a bound on the number of
    polls; [Diverge] is the outcome when the device stays busy that long. *)

From S2P Require Import Prelude Memory State Cpu Arch Libc.

(** ** Polling *)

(** [while (!ready(inb(port)));] *)
Fixpoint poll (fuel : nat) (port : Z) (ready : Z -> bool) : M unit :=
  match fuel with
  | O => diverge
  | S fuel => v <- inb port;; if ready v then ret tt else poll fuel port ready
  end.

(** ** The serial port *)

Definition COM1 : Z := 0x3F8.

Definition serial_install : M unit :=
  outb (COM1 + 1) 0x00;;;
  outb (COM1 + 3) 0x80;;;
  outb (COM1 + 0) 0x03;;;
  outb (COM1 + 1) 0x00;;;
  outb (COM1 + 3) 0x03;;;
  outb (COM1 + 2) 0xC7;;;
  outb (COM1 + 4) 0x0B.

Definition serial_wait (fuel : nat) : M unit :=
  poll fuel (COM1 + 5) (fun v => negb (Z.land v 0x20 =? 0)).

Definition serial_write (fuel : nat) (c : Z) : M unit :=
  serial_wait fuel;;;
  outb COM1 c.

(** ** The keyboard *)

Definition KB_IRQ : Z := 0x1.
Definition KB_DEVICE : Z := 0x60.
Definition KB_PENDING : Z := 0x64.
Definition KB_BUFFER_SIZE : Z := 1024.

(** The designated initialisers of the two tables, row by row; every other
    entry is zero. *)
Definition ascii_set_normal (scancode : Z) : Z :=
  default 0 ((list_to_map
    (zip (seqZ 0x02 12) (cstr "1234567890-=") ++
     zip (seqZ 0x10 12) (cstr "qwertyuiop[]") ++
     zip (seqZ 0x1E 12) (cstr "asdfghjkl;'`") ++
     zip (seqZ 0x2C 10) (cstr "zxcvbnm,./") ++
     [(0x39, 32); (0x1C, 10); (0x0E, 8)]) : gmap Z Z) !! scancode).

Definition ascii_set_shifted (scancode : Z) : Z :=
  default 0 ((list_to_map
    (zip (seqZ 0x02 12) (cstr "!@#$%^&*()_+") ++
     zip (seqZ 0x10 12) (cstr "QWERTYUIOP{}") ++
     zip (seqZ 0x1E 10) (cstr "ASDFGHJKL:") ++ [(0x28, 34); (0x29, 126)] ++
     zip (seqZ 0x2C 10) (cstr "ZXCVBNM<>?") ++
     [(0x39, 32); (0x1C, 10); (0x0E, 8)]) : gmap Z Z) !! scancode).

(** [KB_PUSH(c)]: the store comes first, the check of the new index after it. *)
Definition KB_PUSH (c : Z) : M unit :=
  k <- gets s_kbd;;
  let i := input_buffer_index k in
  if KB_BUFFER_SIZE <=? i then fault else
  modify (on_kbd (fun k => set_input_buffer_index (i + 1) (set_input_buffer (<[i := c]> (input_buffer k)) k)));;;
  ASSERT (i + 1 <? KB_BUFFER_SIZE).

(** [KB_POP()] *)
Definition KB_POP : M Z :=
  k <- gets s_kbd;;
  let i := input_buffer_index k in
  if 0 <? i then
    modify (on_kbd (set_input_buffer_index (i - 1)));;;
    ret (default 0 (input_buffer k !! (i - 1)))
  else ret 0.

Definition read_scancode : M Z :=
  pending <- inb KB_PENDING;;
  if negb (Z.land pending 0x1 =? 0) then inb KB_DEVICE else ret 0.

(** The shift state after a scan code. *)
Definition shift_after (scancode shift : Z) : Z :=
  if (scancode =? 0x2A) || (scancode =? 0x36) then 1
  else if (scancode =? 0xAA) || (scancode =? 0xB6) then 0
  else shift.

Definition keyboard_handler : M Z :=
  scancode <- read_scancode;;
  modify (on_kbd (fun k => set_shift_pressed (shift_after scancode (shift_pressed k)) k));;;
  shift <- gets (fun s => shift_pressed (s_kbd s));;
  (if negb (scancode =? 0) && negb (shift =? 0) then KB_PUSH (ascii_set_shifted scancode)
   else if negb (scancode =? 0) then KB_PUSH (ascii_set_normal scancode)
   else ret tt);;;
  irq_ack KB_IRQ;;;
  ret 1.

Definition ps2_keyboard_install : M Z :=
  irq_install_handler KB_IRQ Keyboard_handler "ps2.keyboard";;;
  ret 0.

Definition ps2_keyboard_uninstall : M Z := ret 0.

(** [for (i = 0; i < n; i++) buffer[i] = KB_POP();] of kernel/fs/dev/keyboard.c,
    from address [p] on. *)
Fixpoint pop_into (n : nat) (p : Z) : M unit :=
  match n with
  | O => ret tt
  | S n =>
    c <- KB_POP;;
    modify (on_mem (fun m => wr m p c));;;
    pop_into n (p + 1)
  end.

(** [_keyboard_read] *)
Definition keyboard_read (buffer sz : Z) : M Z :=
  pop_into (Z.to_nat sz) buffer;;;
  ret sz.

(** ** The framebuffer *)

Section framebuffer.
(** [flanterm_fb_init] returns the terminal if it could make one;
    [flanterm_write] prints a text on the terminal [ft_ctx]. *)
Variable flanterm_fb_init : fb_state -> M (option fb_terminal).
Variable flanterm_write : list Z -> M unit.

Definition framebuffer_install : M unit :=
  b <- gets s_boot;;
  match framebuffers b with
  | [] => panic "no framebuffer found!"
  | fb :: _ =>
    modify (on_fb (fun f =>
      set_fb_masks (u8 <$> lf_masks fb) (set_fb_pitch (u32 (lf_pitch fb)) (set_fb_bpp (u32 (lf_bpp fb))
        (set_fb_height (u32 (lf_height fb)) (set_fb_width (u32 (lf_width fb)) (set_fb_addr (lf_address fb) f)))))));;;
    f <- gets s_fb;;
    ctx <- flanterm_fb_init f;;
    modify (on_fb (set_ft_ctx ctx))
  end.

(** [framebuffer_write]: [term_buffer] is the text queued so far,
    [term_buffer_index] its length. *)
Definition framebuffer_write (str : list Z) : M unit :=
  f <- gets s_fb;;
  if fb_addr f =? 0 then ret tt else
  match ft_ctx f with
  | None =>
    if 4096 <=? strlen (term_buffer f) + strlen str then ret tt
    else modify (on_fb (set_term_buffer (term_buffer f ++ str)))
  | Some _ =>
    when (0 <? strlen (term_buffer f))
      (flanterm_write (term_buffer f);;; modify (on_fb (set_term_buffer [])));;;
    flanterm_write str
  end.
End framebuffer.

(** [framebuffer_draw_pixel]: [x] and [y] are ints, the row offset is computed
    in 32-bit unsigned arithmetic. *)
Definition framebuffer_draw_pixel (x y col : Z) : M unit :=
  f <- gets s_fb;;
  if (x <? 0) || (i32 (fb_width f) <=? x) || (y <? 0) || (i32 (fb_height f) <=? y) then ret tt
  else modify (on_mem (fun m =>
    store32 m (fb_addr f + 4 * u32 (y * Z.shiftr (fb_pitch f) 2) + 4 * x) col)).
