(* ===== verification/DevicesSpec.v ===== *)
(** * The keyboard as a stack, and the bounds of the framebuffer

    Between them the interrupt handler and the device file of the keyboard
    implement a stack of characters with a shift key: the abstract machine
    [kbd_abs] below.  The buffer behind it holds 1024 characters and its check
    comes one store too late.  A pixel that is drawn is drawn inside the frame
    buffer. *)

From S2P Require Import Prelude Memory State Cpu Arch Libc Devices.

(** ** The abstract machine *)

(** A US keyboard: the keys of a row count up from its first scan code, each
    with its character alone and with shift. *)
Definition row (first : Z) (plain shifted : list Z) : list (Z * (Z * Z)) :=
  zip (seqZ first (Z.of_nat (length plain))) (zip plain shifted).

Definition us_keys : list (Z * (Z * Z)) :=
  row 0x02 (cstr "1234567890-=") (cstr "!@#$%^&*()_+") ++
  row 0x10 (cstr "qwertyuiop[]") (cstr "QWERTYUIOP{}") ++
  row 0x1E (cstr "asdfghjkl;'`") (cstr "ASDFGHJKL:" ++ [34; 126]) ++
  row 0x2C (cstr "zxcvbnm,./") (cstr "ZXCVBNM<>?") ++
  [(0x39, (32, 32)); (0x1C, (10, 10)); (0x0E, (8, 8))].

(** The character of a scan code; 0 for one that has none, as for the codes
    from 0x80 on, which report that a key was released. *)
Definition us_char (shift : bool) (scancode : Z) : Z :=
  match list_find (fun k => k.1 = scancode) us_keys with
  | Some (_, (_, (plain, shifted))) => if shift then shifted else plain
  | None => 0
  end.









(** ** The driver *)




(** The controller has [sc] ready: its status port says so, and its data port
    then gives it. *)
Definition delivers (s : kstate) (sc : Z) : Prop :=
  Z.testbit (s_dev s (s_io s) KB_PENDING) 0 = true /\
  s_dev s (IoIn 8 KB_PENDING :: s_io s) KB_DEVICE mod 256 = sc.




(** ** Lemmas *)



Lemma delivers_read s sc :
  delivers s sc ->
  read_scancode s = Ok sc (set_io (IoIn 8 KB_DEVICE :: IoIn 8 KB_PENDING :: s_io s) s).
Proof.
  intros [Hp Hd]. unfold read_scancode, bind, inb, port_in. change (u16 KB_PENDING) with KB_PENDING.
  set (v := s_dev s (s_io s) KB_PENDING) in *.
  change (Z.land (v mod 2 ^ 8) 0x1) with (Z.land (v mod 2 ^ 8) (Z.shiftl 1 0)).
  rewrite land_bit_nonzero by lia. rewrite Z.mod_pow2_bits_low, Hp by lia. cbn [negb].
  change (u16 KB_DEVICE) with KB_DEVICE. cbn [s_dev s_io set_io]. change (2 ^ 8) with 256. by rewrite Hd.
Qed.

Definition pushed (c : Z) (k : kbd_state) : kbd_state :=
  mk_kbd (<[input_buffer_index k := c]> (input_buffer k)) (input_buffer_index k + 1) (shift_pressed k).

Lemma push_run s c : 0 <= input_buffer_index (s_kbd s) < KB_BUFFER_SIZE ->
  KB_PUSH c s = (if input_buffer_index (s_kbd s) + 1 <? KB_BUFFER_SIZE then Ok tt else Panic "Assertion failure")
                  (set_kbd (pushed c (s_kbd s)) s).
Proof.
  intros Hi. unfold KB_PUSH, ASSERT, gets, modify, bind, ret, panic.
  destruct (Z.leb_spec KB_BUFFER_SIZE (input_buffer_index (s_kbd s))); [lia|].
  by destruct (input_buffer_index (s_kbd s) + 1 <? KB_BUFFER_SIZE).
Qed.

(** The tables of the driver are those of the keyboard. *)
Lemma tables_us sc : 0 <= sc < 256 ->
  ascii_set_normal sc = us_char false sc /\ ascii_set_shifted sc = us_char true sc /\
  0 <= us_char false sc < 256 /\ 0 <= us_char true sc < 256.
Proof.
  assert (forallb (fun sc => (ascii_set_normal sc =? us_char false sc) && (ascii_set_shifted sc =? us_char true sc) &&
    ((0 <=? us_char false sc) && (us_char false sc <? 256)) && ((0 <=? us_char true sc) && (us_char true sc <? 256)))
    (seqZ 0 256) = true) as H by (vm_compute; reflexivity).
  intros Hsc. rewrite forallb_forall in H. specialize (H sc). rewrite <- list_elem_of_In, elem_of_seqZ in H.
  specialize (H ltac:(lia)). rewrite !andb_true_iff in H. destruct H as [[[H1 H2] [H3 H4]] [H5 H6]]. lia.
Qed.

Lemma delivers_byte s sc : delivers s sc -> 0 <= sc < 256.
Proof. intros [_ <-]. by apply Z.mod_pos_bound. Qed.



(** The handler with a scan code in hand: the shift state, then the push. *)
Definition key_state (sc : Z) (s : kstate) : kstate :=
  on_kbd (fun k => set_shift_pressed (shift_after sc (shift_pressed k)) k)
    (set_io (IoIn 8 KB_DEVICE :: IoIn 8 KB_PENDING :: s_io s) s).

Lemma handler_run s sc :
  delivers s sc -> sc <> 0 ->
  keyboard_handler s =
    (KB_PUSH (us_char (negb (shift_after sc (shift_pressed (s_kbd s)) =? 0)) sc);;; irq_ack KB_IRQ;;; ret 1)
      (key_state sc s).
Proof.
  intros Hd Hsc. unfold keyboard_handler. erewrite bind_ok by by apply delivers_read.
  erewrite bind_ok by done. fold (key_state sc s).
  erewrite bind_ok by done. change (shift_pressed (s_kbd (key_state sc s))) with (shift_after sc (shift_pressed (s_kbd s))).
  destruct (Z.eqb_spec sc 0); [done|]. cbn [negb andb].
  destruct (tables_us sc (delivers_byte _ _ Hd)) as (E1 & E2 & _). rewrite E1, E2.
  by destruct (shift_after sc (shift_pressed (s_kbd s)) =? 0).
Qed.





(** ** Properties *)



(** The buffer check comes too late.  The key that fills the last of the
    1024 places is stored, then the assertion fails and leaves the index at
    1024; where that panic only ends the user process that was running, the
    next key is stored outside the array. *)
Theorem keyboard_overflow (s s2 : kstate) (sc sc2 : Z) :
  delivers s sc -> sc <> 0 -> input_buffer_index (s_kbd s) = KB_BUFFER_SIZE - 1 ->
  exists s1, keyboard_handler s = Panic "Assertion failure" s1 /\
    input_buffer_index (s_kbd s1) = KB_BUFFER_SIZE /\
    (s_kbd s2 = s_kbd s1 -> delivers s2 sc2 -> sc2 <> 0 -> exists s3, keyboard_handler s2 = Fault s3).
Proof.
  intros Hd Hsc Hi. rewrite (handler_run s sc Hd Hsc). set (c := us_char _ sc). unfold bind at 1.
  rewrite push_run by (change (input_buffer_index (s_kbd (key_state sc s))) with (input_buffer_index (s_kbd s)); rewrite Hi; done).
  change (input_buffer_index (s_kbd (key_state sc s))) with (input_buffer_index (s_kbd s)).
  destruct (Z.ltb_spec (input_buffer_index (s_kbd s) + 1) KB_BUFFER_SIZE); [lia|]. eexists. split; [done|].
  assert (input_buffer_index (s_kbd s) + 1 = KB_BUFFER_SIZE) as Hn by (rewrite Hi; lia).
  split; [exact Hn|]. intros E Hd2 Hsc2. rewrite (handler_run s2 sc2 Hd2 Hsc2).
  exists (key_state sc2 s2). unfold bind at 1, KB_PUSH, gets at 1, bind at 1.
  change (input_buffer_index (s_kbd (key_state sc2 s2))) with (input_buffer_index (s_kbd s2)).
  rewrite E. cbn [s_kbd set_kbd]. change (input_buffer_index (pushed c (s_kbd (key_state sc s)))) with (input_buffer_index (s_kbd s) + 1).
  rewrite Hn. reflexivity.
Qed.

(** The address of a pixel. *)
Definition pixel_addr (f : fb_state) (x y : Z) : Z := fb_addr f + y * fb_pitch f + 4 * x.

(** A frame buffer whose rows hold their pixels and whose size fits in 32 bits. *)
Record fb_ok (f : fb_state) : Prop := {
  fo_width : 0 <= fb_width f < 2 ^ 31;
  fo_height : 0 <= fb_height f < 2 ^ 31;
  fo_pitch : 4 * fb_width f <= fb_pitch f /\ fb_pitch f mod 4 = 0;
  fo_size : fb_pitch f * fb_height f < 2 ^ 32
}.

(** Drawing a pixel stores its colour at the pixel's place, inside the frame
    buffer, and changes no other byte; coordinates off the screen change
    nothing. *)
Theorem draw_pixel_bounds (s : kstate) (x y col : Z) :
  fb_ok (s_fb s) -> 0 <= col < 2 ^ 32 ->
  let f := s_fb s in
  exists m, framebuffer_draw_pixel x y col s = Ok tt (set_mem m s) /\
    (0 <= x < fb_width f /\ 0 <= y < fb_height f ->
       fb_addr f <= pixel_addr f x y /\ pixel_addr f x y + 4 <= fb_addr f + fb_pitch f * fb_height f /\
       load32 m (pixel_addr f x y) = col /\
       agree_off (fun a => pixel_addr f x y <= a < pixel_addr f x y + 4) (s_mem s) m) /\
    (~ (0 <= x < fb_width f /\ 0 <= y < fb_height f) -> m = s_mem s).
Proof.
  intros [Hw Hh [Hp Hp4] Hsz] Hc f. unfold framebuffer_draw_pixel, gets, bind. fold f in Hw, Hh, Hp, Hp4, Hsz |- *.
  rewrite !i32_small by lia.
  destruct (Z.ltb_spec x 0), (Z.leb_spec (fb_width f) x), (Z.ltb_spec y 0), (Z.leb_spec (fb_height f) y); cbn [orb];
    try (exists (s_mem s); split; [by destruct s|]; split; [lia|done]).
  assert (Z.shiftr (fb_pitch f) 2 * 4 = fb_pitch f) as E4.
  { rewrite Z.shiftr_div_pow2 by lia. change (2 ^ 2) with 4. zlia. }
  assert (0 <= y * fb_pitch f /\ y * fb_pitch f + fb_pitch f <= fb_pitch f * fb_height f) by nia.
  assert (fb_addr f + 4 * u32 (y * Z.shiftr (fb_pitch f) 2) + 4 * x = pixel_addr f x y) as ->.
  { rewrite u32_small by nia. unfold pixel_addr. nia. }
  eexists. split; [done|]. split; [|lia]. intros _. split_and!.
  - unfold pixel_addr. lia.
  - unfold pixel_addr. nia.
  - unfold load32, store32. rewrite load_store_le. change (256 ^ Z.of_nat 4) with (2 ^ 32). apply Z.mod_small. lia.
  - intros a Ha. unfold store32. rewrite rd_store_le. destruct (Z.leb_spec (pixel_addr f x y) a); [|done].
    destruct (Z.ltb_spec a (pixel_addr f x y + Z.of_nat 4)); [lia|done].
Qed.

(** ** Witnesses *)

(** A controller that sends a shift key and then the key of the letter a. *)
Definition demo_keys (io : list io_event) (port : Z) : Z :=
  if port =? KB_PENDING then 1 else if Nat.eqb (length io) 1 then 0x2A else 0x1E.

Definition demo_kbd : kstate := entry_state demo_boot_info demo_keys true.


Definition demo_kbd_full : kstate := set_kbd (mk_kbd ∅ 1023 0) demo_kbd.

Lemma keyboard_overflow_witness :
  exists s1, keyboard_handler demo_kbd_full = Panic "Assertion failure" s1 /\
    input_buffer_index (s_kbd s1) = 1024.
Proof.
  destruct (keyboard_overflow demo_kbd_full demo_kbd_full 0x2A 0x2A) as (s1 & H1 & H2 & _);
    [by vm_compute|lia|done|]. by exists s1.
Defined.

Definition demo_screen : kstate := set_fb (mk_fb 0x100000 640 480 32 2560 [] None []) demo_kbd.

Lemma draw_pixel_bounds_witness :
  exists m, framebuffer_draw_pixel 639 479 0xFF00FF demo_screen = Ok tt (set_mem m demo_screen) /\
    load32 m (0x100000 + 479 * 2560 + 4 * 639) = 0xFF00FF.
Proof.
  destruct (draw_pixel_bounds demo_screen 639 479 0xFF00FF) as (m & H1 & H2 & _); [split; cbn [demo_screen s_fb set_fb fb_width fb_height fb_pitch]; zlia|lia|].
  exists m. split; [exact H1|]. apply H2. cbn. lia.
Defined.
