(* ===== verification/Pci.v ===== *)
(** * The PCI bus and the AC97 sound card

    kernel/drivers/pci/pci.c and kernel/drivers/pci/ac97.c.  The devices behind
    the ports are [s_dev]. *)

From S2P Require Import Prelude Memory State Cpu Arch Libc Pmm Vmm Heap Devices.

(** ** Configuration space *)

Definition PCI_BAR_MEM : Z := 1.
Definition PCI_BAR_IO : Z := 2.
Definition DATA_PORT : Z := 0xCFC.
Definition CMD_PORT : Z := 0xCF8.

(** The value written to the address port. *)
Definition pci_address (dev_bus dev_slot func offset : Z) : Z :=
  u32 (Z.lor (Z.lor (Z.lor (Z.lor (Z.shiftl dev_bus 16) (Z.shiftl dev_slot 11)) (Z.shiftl func 8))
                    (Z.land offset 0xFC)) 0x80000000).

Definition pci_read (dev : pci_device) (func offset : Z) : M Z :=
  outb_l CMD_PORT (pci_address (bus dev) (slot dev) func offset);;;
  inb_l DATA_PORT.

Definition pci_write (dev : pci_device) (func offset val : Z) : M unit :=
  outb_l CMD_PORT (pci_address (bus dev) (slot dev) func offset);;;
  outb_l DATA_PORT val.

(** [pci_get_bar]: the returned status and, when it is 1, the record stored
    through the pointer. *)
Definition pci_get_bar (dev : pci_device) (bar_idx : Z) : M (option pci_bar) :=
  if 5 <? bar_idx then ret None else
  let offset := u8 (0x10 + bar_idx * 4) in
  phys_bar <- pci_read dev 0 offset;;
  let type := if negb (Z.land phys_bar 0x1 =? 0) then PCI_BAR_IO else PCI_BAR_MEM in
  let original_bar := phys_bar in
  let phys_bar := Z.land phys_bar 0xFFFFFFF0 in
  pci_write dev 0 offset 0xFFFFFFFF;;;
  bar_result <- pci_read dev 0 offset;;
  let bar_result := Z.land bar_result (Z.lnot 0xF) in
  let bar_result := u32 (Z.lnot bar_result) in
  let bar_result := u32 (bar_result + 1) in
  pci_write dev 0 offset original_bar;;;
  ret (Some (mk_bar phys_bar bar_result type)).

Definition at_slot (b s : Z) (d : pci_device) : pci_device :=
  mk_pci (vendor d) (device d) b s (pci_function d) (general_base d).

(** The scan of the two nested loops over [n] positions from [bus] and [slot]
    on, [slots] to a bus; [probe] is the loop body: [None] goes on. *)
Fixpoint pci_scan (slots : Z) (n : nat) (b s : Z) (probe : Z -> Z -> pci_device -> M (bool * pci_device))
    (d : pci_device) : M (bool * pci_device) :=
  match n with
  | O => ret (false, d)
  | S n =>
    r <- probe b s d;;
    if r.1 : bool then ret (true, r.2)
    else if s + 1 <? slots then pci_scan slots n b (s + 1) probe r.2
    else pci_scan slots n (b + 1) 0 probe r.2
  end.

(** The body of the loop of [pci_devices_by_id]. *)
Definition probe_class (class_id subclass_id b s : Z) (d : pci_device) : M (bool * pci_device) :=
  let d := at_slot b s d in
  v <- pci_read d 0 0x08;;
  let class_info := u16 (Z.shiftr v 16) in
  let h_classcode := Z.shiftr (Z.land class_info 0xFF00) 8 in
  let h_subclass := Z.land class_info 0x00FF in
  if negb (h_classcode =? class_id) then ret (false, d) else
  if negb (h_subclass =? subclass_id) then ret (false, d) else
  device_vendor <- pci_read d 0 0x00;;
  function_type <- pci_read d 0 0x0C;;
  ret (true, mk_pci (Z.land device_vendor 0xFFFF) (u16 (Z.shiftr device_vendor 16)) b s
               (Z.land (u8 (Z.shiftr function_type 16)) 0xFF) (general_base d)).

Definition pci_devices_by_id (class_id subclass_id : Z) (dev : pci_device) : M (bool * pci_device) :=
  pci_scan 255 (Z.to_nat (255 * 255)) 0 0 (probe_class class_id subclass_id) dev.

(** The body of the loop of [pci_populate_device]. *)
Definition probe_id (vendor_id device_id b s : Z) (d : pci_device) : M (bool * pci_device) :=
  device_vendor <- pci_read (at_slot b s d) 0 0x00;;
  if negb (vendor_id =? Z.land device_vendor 0xFFFF) then ret (false, d) else
  if negb (device_id =? Z.shiftr device_vendor 16) then ret (false, d) else
  let d := at_slot b s d in
  bar0 <- pci_read d 0 0x10;;
  ASSERT (negb (Z.land bar0 0x1 =? 0));;;
  ret (true, mk_pci (vendor d) (device d) b s (pci_function d) (Z.land bar0 (Z.lnot 0x3))).

Definition pci_populate_device (vendor_id device_id : Z) (dev : pci_device) : M (bool * pci_device) :=
  let dev := mk_pci vendor_id device_id (bus dev) (slot dev) (pci_function dev) (general_base dev) in
  pci_scan 256 (Z.to_nat (256 * 256)) 0 0 (probe_id vendor_id device_id) dev.

(** ** The sound card *)

Definition AC97_BUFFERS : Z := 32.
Definition AC97_BUFFER_SIZE : Z := 128000.
Definition AC97_BDL_LAST : Z := Z.shiftl 1 14.

Definition get_nabm : M Z := gets (fun s => bar_addr (nabm (s_ac97 s))).
Definition get_nam : M Z := gets (fun s => bar_addr (nam (s_ac97 s))).

Definition ac97_available : M bool := gets (fun s => ac97_initialized (s_ac97 s)).

Definition ac97_flush : M unit :=
  up <- ac97_available;;
  if negb up then ret tt else
  a <- get_nabm;;
  s <- inb (a + 0x10 + 0xB);;
  if negb (Z.land s 1 =? 0) then ret tt else
  outb (a + 0x10 + 0xB) (Z.lor s 1).

(** [uint8_t buffer_left] as both [ac97_can_write] and [ac97_write_buffer]
    compute it from the hardware's read pointer. *)
Definition buffer_left (entry read_ptr : Z) : Z :=
  if read_ptr <=? entry then
    let l := u8 (AC97_BUFFERS - entry) in
    if (read_ptr =? 0) && (0 <? l) then l - 1 else l
  else u8 (read_ptr - entry - 1).

Definition ac97_can_write : M bool :=
  up <- ac97_available;;
  if negb up then ret false else
  a <- get_nabm;;
  read_ptr <- inb (a + 0x10 + 0x4);;
  entry <- gets (fun s => ac97_entry (s_ac97 s));;
  ret (0 <? buffer_left entry read_ptr).

(** One turn of the loop of [ac97_setup_buffer]. *)
Definition setup_one_buffer (i : Z) : M unit :=
  r <- kmalloc_phys AC97_BUFFER_SIZE true;;
  ASSERT (negb (r.1 =? 0));;;
  let phys := default 0 r.2 in
  modify (on_ac97 (fun a => set_buffers (<[i := mk_audio r.1 0 phys 1]> (buffers a)) a));;;
  desc <- gets (fun s => buf_desc (s_ac97 s));;
  let p := desc + 8 * i in
  modify (on_mem (fun m => store_le (store_le (store_le m p 4 (u32 phys))
                             (p + 4) 2 (u16 (AC97_BUFFER_SIZE / 2))) (p + 6) 2 0)).

Definition ac97_setup_buffer : M unit :=
  for_loop (Z.to_nat AC97_BUFFERS) 0 setup_one_buffer;;;
  desc <- gets (fun s => buf_desc (s_ac97 s));;
  let p := desc + 8 * (AC97_BUFFERS - 1) + 6 in
  modify (on_mem (fun m => store_le m p 2 (Z.lor (load_le m p 2) AC97_BDL_LAST))).

Definition ac97_write_buffer (buf sz : Z) : M Z :=
  up <- ac97_available;;
  if negb up then ret 0 else
  ASSERT (sz <=? AC97_BUFFER_SIZE);;;
  spin_lock ac97_lock;;;
  a <- get_nabm;;
  read_ptr <- inb (a + 0x10 + 0x4);;
  entry <- gets (fun s => ac97_entry (s_ac97 s));;
  if buffer_left entry read_ptr =? 0 then panic "no buffers left!" else
  data <- gets (fun s => default 0 (ab_data <$> buffers (s_ac97 s) !! entry));;
  memset data 0x00 AC97_BUFFER_SIZE;;;
  memcpy data buf sz;;;
  let lvi := u8 (Z.rem (entry + AC97_BUFFERS - 1) AC97_BUFFERS) in
  outb (a + 0x10 + 0x5) lvi;;;
  modify (on_ac97 (set_ac97_entry (Z.rem (entry + 1) AC97_BUFFERS)));;;
  ac97_flush;;;
  spin_unlock ac97_lock;;;
  ret 1.

Definition ac97_write_pcm (buf sz : Z) : M Z :=
  up <- ac97_available;;
  if negb up then ret 0 else
  a <- gets s_ac97;;
  let room := u64 (AC97_BUFFER_SIZE - temp_buffer_count a) in
  let bytes_written := if sz <? room then sz else room in
  memcpy (temp_buffer a + temp_buffer_count a) buf bytes_written;;;
  let count := u64 (temp_buffer_count a + bytes_written) in
  modify (on_ac97 (set_temp_buffer_count count));;;
  if count <? AC97_BUFFER_SIZE then ret (i32 bytes_written) else
  ok <- ac97_write_buffer (temp_buffer a) AC97_BUFFER_SIZE;;
  if ok =? 0 then ret (i32 bytes_written) else
  modify (on_ac97 (set_temp_buffer_count 0));;;
  ret (i32 bytes_written).

(** The value for the volume register: five bits of attenuation per channel. *)
Definition volume_value (volume : Z) : Z :=
  let s := if volume =? 0 then 31 else Z.quot (31 * volume) 100 in
  let chan := u8 (31 - s) in
  Z.lor chan (Z.shiftl chan 8).

Definition ac97_set_volume (volume : Z) : M unit :=
  ASSERT (volume <=? 100);;;
  modify (on_ac97 (set_current_volume volume));;;
  n <- get_nam;;
  outb_w (n + 0x18) (volume_value volume).

(** [ASSERT(pci_get_bar(&ac97, idx, &bar)); ASSERT(bar.type == PCI_BAR_IO)] *)
Definition io_bar (idx : Z) (put : pci_bar -> ac97_state -> ac97_state) : M unit :=
  dev <- gets (fun s => ac97 (s_ac97 s));;
  r <- pci_get_bar dev idx;;
  match r with
  | None => UNREACHABLE
  | Some b =>
    modify (on_ac97 (put b));;;
    ASSERT (bar_type b =? PCI_BAR_IO)
  end.

Definition ac97_install (fuel : nat) : M unit :=
  dev <- gets (fun s => ac97 (s_ac97 s));;
  found <- pci_populate_device 0x8086 0x2415 dev;;
  modify (on_ac97 (set_ac97 found.2));;;
  if negb found.1 then ret tt else
  r <- kmalloc_phys 0x1000 true;;
  modify (on_ac97 (fun a => set_phys_buf_desc (default 0 r.2) (set_buf_desc r.1 a)));;;
  ASSERT (negb (r.1 =? 0));;;
  dev <- gets (fun s => ac97 (s_ac97 s));;
  reg1 <- pci_read dev 0 0x04;;
  pci_write dev 0 0x04 (Z.lor (Z.lor reg1 (Z.shiftl 1 0)) (Z.shiftl 1 2));;;
  io_bar 1 set_nabm;;;
  io_bar 0 set_nam;;;
  nabm_addr <- get_nabm;;
  nam_addr <- get_nam;;
  outb_w (nabm_addr + 0x2C) (Z.shiftl 1 1);;;
  outb_w nam_addr 0x1;;;
  outb_w (nam_addr + 0x2C) 48000;;;
  outb_w (nam_addr + 0x2E) 48000;;;
  outb_w (nam_addr + 0x30) 48000;;;
  outb_w (nam_addr + 0x32) 48000;;;
  ac97_set_volume 50;;;
  outb_w (nam_addr + 0x02) 0;;;
  outb_w (nam_addr + 0x04) 0;;;
  s <- inb (nabm_addr + 0x10 + 0xB);;
  outb (nabm_addr + 0x10 + 0xB) (Z.lor s (Z.shiftl 1 1));;;
  poll fuel (nabm_addr + 0x10 + 0xB) (fun v => Z.land v (Z.shiftl 1 1) =? 0);;;
  ac97_setup_buffer;;;
  phys <- gets (fun s => phys_buf_desc (s_ac97 s));;
  outb_l (nabm_addr + 0x10) (u32 phys);;;
  control <- inb (nabm_addr + 0x10 + 0xB);;
  outb (nabm_addr + 0x10 + 0xB) (Z.lor control (Z.shiftl 1 0));;;
  modify (on_ac97 (set_ac97_initialized true)).
