(* ===== verification/PciSpec.v ===== *)
(** * Base address registers and the ring of audio buffers

    What [pci_get_bar] finds out about a device that follows the PCI protocol,
    and when [ac97_write_buffer] may fill another buffer of the ring it shares
    with the hardware. *)

From S2P Require Import Prelude Memory State Cpu Arch Libc Pmm Vmm Heap Devices DevicesSpec Pci.

(** ** A base address register as the PCI specification describes it *)

(** The register selected by the last write to the address port. *)
Fixpoint selected (io : list io_event) : Z :=
  match io with
  | IoOut 32 p a :: io => if p =? CMD_PORT then a else selected io
  | _ :: io => selected io
  | [] => 0
  end.

(** The value of the register at configuration address [ad] after a history
    of port accesses: of a written value only the bits of [mask] are kept, the
    bits of [kind] are wired. *)
Fixpoint register (ad mask kind init : Z) (io : list io_event) : Z :=
  match io with
  | IoOut 32 p v :: io =>
    if (p =? DATA_PORT) && (selected io =? ad) then Z.lor (Z.land v mask) kind
    else register ad mask kind init io
  | _ :: io => register ad mask kind init io
  | [] => init
  end.

(** The device answers reads of the data port with that register while it is
    selected. *)
Definition has_register (dev : list io_event -> Z -> Z) (ad mask kind init : Z) : Prop :=
  forall io, selected io = ad -> dev io DATA_PORT = register ad mask kind init io.

(** The writable bits of a register that decodes [2^k] bytes. *)
Definition bar_mask (k : Z) : Z := 2 ^ 32 - 2 ^ k.

(** ** Lemmas *)

Lemma pow2_multiple a b : 0 <= a <= b -> (2 ^ a | 2 ^ b).
Proof. intros H. exists (2 ^ (b - a)). rewrite <- Z.pow_add_r by lia. f_equal. lia. Qed.

Lemma bar_mask_lnot k : 0 <= k <= 32 -> bar_mask k = Z.land (2 ^ 32 - 1) (Z.lnot (2 ^ k - 1)).
Proof.
  intros Hk. rewrite land_lnot_ones by lia. unfold bar_mask.
  destruct (pow2_multiple k 32) as [q E]; [lia|]. rewrite E.
  assert (0 < 2 ^ k) by lia.
  replace (q * 2 ^ k - 1) with ((q - 1) * 2 ^ k + (2 ^ k - 1)) by lia.
  rewrite Z.div_add_l, (Z.div_small (2 ^ k - 1)) by lia. lia.
Qed.

(** A base survives the write back. *)
Lemma land_bar_mask base k : 0 <= k <= 32 -> 0 <= base < 2 ^ 32 -> Z.land base (bar_mask k) = base / 2 ^ k * 2 ^ k.
Proof.
  intros Hk Hb. rewrite bar_mask_lnot, Z.land_assoc by done.
  change (2 ^ 32 - 1) with (Z.ones 32). rewrite Z.land_ones, Z.mod_small by lia.
  apply land_lnot_ones. lia.
Qed.

(** The port accesses of a configuration read and of a write. *)
Definition io_read (ad : Z) (io : list io_event) : list io_event := IoIn 32 DATA_PORT :: IoOut 32 CMD_PORT ad :: io.
Definition io_write (ad v : Z) (io : list io_event) : list io_event := IoOut 32 DATA_PORT v :: IoOut 32 CMD_PORT ad :: io.

Lemma pci_address_range b s f o : 0 <= pci_address b s f o < 2 ^ 32.
Proof. apply Z.mod_pos_bound. lia. Qed.

Lemma pci_read_run dev func offset s :
  let ad := pci_address (bus dev) (slot dev) func offset in
  pci_read dev func offset s =
    Ok (s_dev s (IoOut 32 CMD_PORT ad :: s_io s) DATA_PORT mod 2 ^ 32) (set_io (io_read ad (s_io s)) s).
Proof.
  intros ad. unfold pci_read, outb_l, inb_l, port_out, port_in, modify, bind. fold ad.
  change (u16 CMD_PORT) with CMD_PORT. change (u16 DATA_PORT) with DATA_PORT.
  rewrite (Z.mod_small ad) by apply pci_address_range. reflexivity.
Qed.

Lemma pci_write_run dev func offset v s :
  let ad := pci_address (bus dev) (slot dev) func offset in
  0 <= v < 2 ^ 32 -> pci_write dev func offset v s = Ok tt (set_io (io_write ad v (s_io s)) s).
Proof.
  intros ad Hv. unfold pci_write, outb_l, port_out, modify, bind. fold ad.
  change (u16 CMD_PORT) with CMD_PORT. change (u16 DATA_PORT) with DATA_PORT.
  rewrite (Z.mod_small ad), (Z.mod_small v) by (done || apply pci_address_range). reflexivity.
Qed.

Lemma register_write ad mask kind init v io :
  register ad mask kind init (io_write ad v io) = Z.lor (Z.land v mask) kind.
Proof. cbn. by rewrite Z.eqb_refl. Qed.

Lemma pow2_bounds k : 2 <= k <= 31 -> 4 <= 2 ^ k <= 2 ^ 31.
Proof. intros. split; [change 4 with (2 ^ 2)|]; apply Z.pow_le_mono_r; lia. Qed.

(** The top of the range below 2^32 that [2^k] bytes leave. *)
Lemma all_ones_masked k : 2 <= k <= 31 -> Z.land 0xFFFFFFFF (bar_mask k) = 2 ^ 32 - 2 ^ k.
Proof.
  intros Hk. pose proof (pow2_bounds k Hk). rewrite land_bar_mask by lia. change 0xFFFFFFFF with (2 ^ 32 - 1).
  destruct (pow2_multiple k 32) as [q E]; [lia|]. rewrite E.
  replace (q * 2 ^ k - 1) with ((q - 1) * 2 ^ k + (2 ^ k - 1)) by lia.
  rewrite Z.div_add_l, (Z.div_small (2 ^ k - 1)) by lia. lia.
Qed.

Lemma top_multiple k : 0 <= k <= 32 -> (2 ^ 32 - 2 ^ k) mod 2 ^ k = 0.
Proof.
  intros Hk. destruct (pow2_multiple k 32) as [q E]; [lia|]. rewrite E.
  replace (q * 2 ^ k - 2 ^ k) with ((q - 1) * 2 ^ k) by lia. apply Z.mod_mul. lia.
Qed.

(** The size that the write of all ones reveals. *)
Lemma sizing k kind : 2 <= k <= 31 -> 0 <= kind < 4 ->
  u32 (u32 (Z.lnot (Z.land (Z.lor (Z.land 0xFFFFFFFF (bar_mask k)) kind mod 2 ^ 32) (Z.lnot 0xF))) + 1) = 2 ^ Z.max 4 k.
Proof.
  intros Hk Hkind. pose proof (pow2_bounds k Hk) as Hp. rewrite all_ones_masked by done.
  rewrite (lor_low _ _ k), Z.mod_small by (lia || apply top_multiple; lia).
  change 0xF with 15. rewrite land_lnot_15.
  assert ((2 ^ 32 - 2 ^ k + kind) / 16 * 16 = 2 ^ 32 - 2 ^ Z.max 4 k) as ->.
  { destruct (decide (4 <= k)).
    - rewrite Z.max_r by lia. destruct (pow2_multiple 4 k) as [j Ej]; [lia|]. change (2 ^ 4) with 16 in Ej.
      rewrite Ej. change (2 ^ 32) with (268435456 * 16). zlia.
    - rewrite Z.max_l by lia. assert (k = 2 \/ k = 3) as [->| ->] by lia;
        change (2 ^ 2) with 4; change (2 ^ 3) with 8; change (2 ^ 4) with 16; change (2 ^ 32) with 4294967296; zlia. }
  assert (0 < 2 ^ Z.max 4 k <= 2 ^ 31) by (split; [lia|apply Z.pow_le_mono_r; lia]).
  unfold Z.lnot, u32.
  replace (Z.pred (- (2 ^ 32 - 2 ^ Z.max 4 k))) with (2 ^ Z.max 4 k - 1 + (-1) * 2 ^ 32) by lia.
  rewrite Z.mod_add, (Z.mod_small (2 ^ Z.max 4 k - 1)), Z.mod_small by lia. lia.
Qed.

(** ** Properties *)

(** On a device whose base address register decodes 2^k bytes, the probe
    of [pci_get_bar] reports the kind of the register, puts its contents
    back, and reports base and size to 16 bytes: exactly for 16 bytes and more,
    while for the port ranges of 4 or 8 bytes that the bus allows the size is
    16 and bits 2 and 3 of the base are lost. *)
Theorem pci_get_bar_spec (s : kstate) (dev : pci_device) (idx k kind base init : Z) :
  let ad := pci_address (bus dev) (slot dev) 0 (u8 (0x10 + idx * 4)) in
  0 <= idx <= 5 -> 2 <= k <= 31 -> 0 <= kind < 4 -> 0 <= base < 2 ^ 32 -> base mod 2 ^ k = 0 ->
  has_register (s_dev s) ad (bar_mask k) kind init ->
  register ad (bar_mask k) kind init (s_io s) = base + kind ->
  exists io, pci_get_bar dev idx s =
      Ok (Some (mk_bar (base / 16 * 16) (2 ^ Z.max 4 k) (if Z.odd kind then PCI_BAR_IO else PCI_BAR_MEM)))
        (set_io io s) /\
    register ad (bar_mask k) kind init io = base + kind.
Proof.
  intros ad Hidx Hk Hkind Hb Hal Hdev Hreg. pose proof (pow2_bounds k Hk) as Hp.
  assert (base + 4 <= 2 ^ 32) as Hb2.
  { destruct (pow2_multiple k 32) as [q E]; [lia|]. pose proof (Z_div_mod_eq_full base (2 ^ k)).
    assert (base / 2 ^ k < q) by (apply Z.div_lt_upper_bound; lia). nia. }
  assert (forall j, 0 <= j <= k -> base mod 2 ^ j = 0) as Hmul.
  { intros j Hj. apply Z.mod_divide; [lia|]. apply Z.divide_trans with (2 ^ k); [by apply pow2_multiple|].
    apply Z.mod_divide; [lia|done]. }
  assert (base mod 4 = 0) as H4 by (apply (Hmul 2); lia).
  assert (0 <= base + kind < 2 ^ 32) as Hr by lia.
  unfold pci_get_bar. destruct (Z.ltb_spec 5 idx); [lia|].
  erewrite bind_ok by apply pci_read_run. fold ad. rewrite Hdev by done.
  change (register ad (bar_mask k) kind init (IoOut 32 CMD_PORT ad :: s_io s)) with (register ad (bar_mask k) kind init (s_io s)).
  rewrite Hreg, (Z.mod_small (base + kind)) by done. cbn zeta.
  erewrite bind_ok by (apply pci_write_run; lia). fold ad.
  erewrite bind_ok by apply pci_read_run. fold ad. cbn [s_dev s_io set_io]. rewrite Hdev by done.
  set (io1 := io_write ad 0xFFFFFFFF (io_read ad (s_io s))).
  change (register ad (bar_mask k) kind init (IoOut 32 CMD_PORT ad :: io1)) with (register ad (bar_mask k) kind init io1).
  unfold io1 at 1. rewrite register_write, sizing by done.
  erewrite bind_ok by (apply pci_write_run; lia). fold ad. unfold ret. cbn [s_io set_io].
  exists (io_write ad (base + kind) (io_read ad io1)). split.
  - f_equal. f_equal. f_equal; [|].
    + change 0xFFFFFFF0 with (bar_mask 4). rewrite land_bar_mask by lia. change (2 ^ 4) with 16.
      destruct (decide (4 <= k)); [pose proof (Hmul 4 ltac:(lia)) as H16; change (2 ^ 4) with 16 in H16|]; zlia.
    + change 0x1 with 1. rewrite land_1. assert (base mod 2 = 0) by zlia.
      rewrite <- Z.add_mod_idemp_l, H0 by lia. rewrite Z.add_0_l, Zodd_mod.
      by destruct (Z.mod_pos_bound kind 2 ltac:(lia)); assert (kind mod 2 = 0 \/ kind mod 2 = 1) as [->| ->] by lia.
  - rewrite register_write, land_bar_mask by lia.
    rewrite <- (Z.div_unique (base + kind) (2 ^ k) (base / 2 ^ k) kind) by (try left; pose proof (Z_div_mod_eq_full base (2 ^ k)); lia).
    replace (base / 2 ^ k * 2 ^ k) with base by (pose proof (Z_div_mod_eq_full base (2 ^ k)); lia).
    apply (lor_low _ _ k); lia || done.
Qed.





(** ** Witnesses *)

(** A port range of eight bytes at 0xC008 behind device 4 of bus 0. *)
Definition demo_pci : pci_device := mk_pci 0x8086 0x2415 0 4 0 0.
Definition demo_bar : kstate :=
  entry_state demo_boot_info (fun io _ => register (pci_address 0 4 0 0x14) (bar_mask 3) 1 0xC009 io) true.

Lemma pci_get_bar_spec_witness :
  exists io, pci_get_bar demo_pci 1 demo_bar = Ok (Some (mk_bar 0xC000 16 PCI_BAR_IO)) (set_io io demo_bar).
Proof.
  destruct (pci_get_bar_spec demo_bar demo_pci 1 3 1 0xC008 0xC009) as (io & H & _);
    [lia|lia|lia|lia|done|by intros io _|done|]. by exists io.
Defined.


