(* ===== verification/Devfs.v ===== *)
(** * Device files: kernel/fs/devfs.c and kernel/fs/dev/

    The list of devices and the functions behind /dev/zero, /dev/stdout,
    /dev/audio, /dev/keyboard and /dev/fb0.  Device names are literals of the
    sources, kept as byte lists; the paths they are compared with are strings in
    memory.  [fuel] bounds the loops that wait for a device. *)

From S2P Require Import Prelude Memory State Cpu Arch Libc Pmm Vmm Heap Devices Pci.

(** ** Strings of the program text *)

(** [strcmp(lit, p)] for a literal and a string in memory. *)
Fixpoint strcmp_lit (lit : list Z) (m : mem) (p : Z) : Z :=
  match lit with
  | [] => 0 - rd m p
  | c :: lit => if c =? rd m p then strcmp_lit lit m (p + 1) else c - rd m p
  end.

(** [strncmp(p, lit, strlen(lit))] *)
Fixpoint strncmp_lit (m : mem) (p : Z) (lit : list Z) : Z :=
  match lit with
  | [] => 0
  | c :: lit =>
    if negb (rd m p =? 0) && (rd m p =? c) then strncmp_lit m (p + 1) lit else rd m p - c
  end.

Section devfs.
Variable fuel : nat.

(** ** The devices (kernel/fs/dev/) *)

Definition zero_read (buffer sz : Z) : M Z :=
  memset buffer 0 sz;;;
  ret (i64 sz).

Definition zero_write (buffer sz : Z) : M Z := ret (i64 sz).

Definition stdout_read (buffer sz : Z) : M Z := ret (i64 sz).

Definition stdout_write (buffer sz : Z) : M Z :=
  for_loop (Z.to_nat sz) 0 (fun i =>
    c <- gets (fun s => rd (s_mem s) (buffer + i));;
    serial_write fuel c);;;
  ret (i64 sz).

(** [while (!ac97_can_write());] *)
Fixpoint wait_can_write (n : nat) : M unit :=
  match n with
  | O => diverge
  | S n => ok <- ac97_can_write;; if ok : bool then ret tt else wait_can_write n
  end.

Definition audio_write (buffer sz : Z) : M Z :=
  up <- ac97_available;;
  if negb up then ret (-1) else
  wait_can_write fuel;;;
  ac97_write_pcm buffer sz.

Definition keyboard_write (buffer sz : Z) : M Z := ret (i64 sz).

Definition framebuffer_dev_write (buffer sz : Z) : M Z := ret (i64 sz).

(** [_framebuffer_mmap]: the physical address, and the length stored through
    [len]. *)
Definition framebuffer_mmap (len : Z) : M (Z * Z) :=
  f <- gets s_fb;;
  hhdm <- VMM_HIGHER_HALF;;
  ret (u64 (fb_addr f - hhdm), u32 (fb_pitch f * fb_height f)).

(** Calls through the function pointers of a [devfs_dev_t]. *)
Definition dev_read (f : fs_fun) (buffer sz : Z) : M Z :=
  match f with
  | Zero_read => zero_read buffer sz
  | Stdout_read => stdout_read buffer sz
  | Keyboard_read => n <- keyboard_read buffer sz;; ret (i64 n)
  | _ => fault
  end.

Definition dev_write (f : fs_fun) (buffer sz : Z) : M Z :=
  match f with
  | Zero_write => zero_write buffer sz
  | Stdout_write => stdout_write buffer sz
  | Audio_write => audio_write buffer sz
  | Keyboard_write => keyboard_write buffer sz
  | Framebuffer_write => framebuffer_dev_write buffer sz
  | _ => fault
  end.

Definition dev_mmap (f : fs_fun) (len : Z) : M (Z * Z) :=
  match f with
  | Framebuffer_mmap => framebuffer_mmap len
  | _ => fault
  end.

(** ** The file system *)

Fixpoint find_dev (m : mem) (path : Z) (l : list devfs_dev) : option devfs_dev :=
  match l with
  | [] => None
  | d :: l => if strcmp_lit (d_loc d) m path =? 0 then Some d else find_dev m path l
  end.

Definition _devfs_find_dev (path : Z) : M (option devfs_dev) :=
  gets (fun s => find_dev (s_mem s) path (devs (s_vfs s))).

Definition devfs_read (path buffer sz : Z) : M Z :=
  if path =? 0 then ret (-1) else
  if buffer =? 0 then ret (-2) else
  dev <- _devfs_find_dev path;;
  match dev with
  | None => ret (-3)
  | Some d =>
    match d_read d with
    | None => ret (-4)
    | Some f => bytes_read <- dev_read f buffer sz;; ret (i64 (u64 bytes_read))
    end
  end.

Definition devfs_write (path buffer sz : Z) : M Z :=
  if path =? 0 then ret (-1) else
  if buffer =? 0 then ret (-2) else
  dev <- _devfs_find_dev path;;
  match dev with
  | None => ret (-3)
  | Some d =>
    match d_write d with
    | None => ret (-4)
    | Some f => bytes_written <- dev_write f buffer sz;; ret (i64 (u64 bytes_written))
    end
  end.

(** The address returned and the length stored through [len]. *)
Definition devfs_mmap (path len : Z) : M (Z * Z) :=
  if path =? 0 then ret (0, len) else
  dev <- _devfs_find_dev path;;
  match dev with
  | None => ret (0, len)
  | Some d =>
    match d_mmap d with
    | None => ret (0, len)
    | Some f => dev_mmap f len
    end
  end.

Definition devfs_exists (path : Z) : M bool :=
  if path =? 0 then ret false else
  dev <- _devfs_find_dev path;;
  match dev with
  | Some _ => ret true
  | None => ret false
  end.

Definition sizeof_devfs_dev : Z := 40.

Definition devfs_register_dev (loc : list Z) (read write mmap : option fs_fun) : M unit :=
  dev <- malloc sizeof_devfs_dev;;
  if dev =? 0 then ret tt else
  modify (on_vfs (fun v => set_devs (devs v ++ [mk_dev loc read write mmap]) v)).

Definition devfs_zero_install : M unit :=
  devfs_register_dev (cstr "/zero") (Some Zero_read) (Some Zero_write) None.
Definition devfs_stdout_install : M unit :=
  devfs_register_dev (cstr "/stdout") (Some Stdout_read) (Some Stdout_write) None.
Definition devfs_audio_install : M unit :=
  devfs_register_dev (cstr "/audio") None (Some Audio_write) None.
Definition devfs_keyboard_install : M unit :=
  devfs_register_dev (cstr "/keyboard") (Some Keyboard_read) (Some Keyboard_write) None.
Definition devfs_framebuffer_install : M unit :=
  devfs_register_dev (cstr "/fb0") None (Some Framebuffer_write) (Some Framebuffer_mmap).

(** [devfs_init]: the record it fills in. *)
Definition devfs_init : M vfs_impl :=
  devfs_zero_install;;;
  devfs_stdout_install;;;
  devfs_audio_install;;;
  devfs_keyboard_install;;;
  devfs_framebuffer_install;;;
  ret (mk_impl (Some Devfs_read) (Some Devfs_write) None (Some Devfs_exists) None (Some Devfs_mmap)).
End devfs.
