(* ===== verification/Tarfs.v ===== *)
(** * The initial file system: kernel/fs/tarfs.c

    A tar archive in memory, read in place.  The list of [tarfs_file_t] objects
    is [tarfs_files]; names are pointers, into the archive or to a copy on the
    heap.  [fuel] bounds the walks over strings and over the archive. *)

From S2P Require Import Prelude Memory State Cpu Libc Pmm Vmm Heap Devfs.

Definition sizeof_tarfs_file : Z := 56.

(** [memcmp(p, lit, strlen(lit))] for a literal. *)
Fixpoint memcmp_lit (m : mem) (p : Z) (lit : list Z) : Z :=
  match lit with
  | [] => 0
  | c :: lit =>
    if negb (rd m p =? c) then (if rd m p <? c then -1 else 1) else memcmp_lit m (p + 1) lit
  end.

Definition is_ustar (m : mem) (ptr : Z) : bool := memcmp_lit m (ptr + 257) (cstr "ustar") =? 0.

(** [oct2bin]: an [int] is accumulated. *)
Fixpoint oct2bin_loop (m : mem) (c : Z) (size : nat) (n : Z) : Z :=
  match size with
  | O => n
  | S size => oct2bin_loop m (c + 1) size (i32 (i32 (n * 8) + (rd m c - 48)))
  end.

Definition oct2bin (m : mem) (str : Z) (size : nat) : Z := oct2bin_loop m str size 0.

(** [ptr += (((file_size + 511) / 512) + 1) * 512] *)
Definition next_header (ptr file_size : Z) : Z :=
  u64 (ptr + i32 ((Z.quot (i32 (file_size + 511)) 512 + 1) * 512)).

Section tarfs.
Variable fuel : nat.

(** The value of a bounded walk over memory. *)
Definition walk {A} (f : mem -> option A) : M A := fun s =>
  match f (s_mem s) with Some a => Ok a s | None => Diverge end.

(** [_tarfs_add_file]: the new object's [seek_pos] is not assigned; it holds
    what the block held before. *)
Definition _tarfs_add_file (loc sz : Z) : M unit :=
  file <- malloc sizeof_tarfs_file;;
  ASSERT (negb (file =? 0));;;
  seek_pos <- gets (fun s => i32 (load32 (s_mem s) (file + 8)));;
  first <- gets (fun s => rd (s_mem s) loc);;
  loc <- (if first =? 46 then ret (loc + 1) else
    n <- walk (fun m => strlen_mem fuel m loc);;
    new_loc <- malloc (n + 2);;
    ASSERT (negb (new_loc =? 0));;;
    modify (on_mem (fun m => wr m new_loc 47));;;
    m' <- walk (fun m => strcpy_mem fuel m (new_loc + 1) loc);;
    modify (set_mem m');;;
    ret new_loc);;
  modify (on_vfs (fun v => set_tarfs_files (tarfs_files v ++ [mk_tarfs_file loc seek_pos sz]) v)).

(** The position in the list of the first file whose name is [path]. *)
Fixpoint find_file (m : mem) (path : Z) (l : list tarfs_file) : option (option nat) :=
  match l with
  | [] => Some None
  | f :: l =>
    match strcmp_mem fuel m (t_loc f) path with
    | None => None
    | Some c => if c =? 0 then Some (Some O) else option_map (option_map S) (find_file m path l)
    end
  end.

(** [_tarfs_find_file]: the index of the file; a path that is not in the list
    runs into [UNREACHABLE()]. *)
Definition _tarfs_find_file (path : Z) : M nat :=
  l <- gets (fun s => tarfs_files (s_vfs s));;
  r <- walk (fun m => find_file m path l);;
  match r with
  | Some i => ret i
  | None => UNREACHABLE
  end.

Definition get_tarfs_file (i : nat) : M tarfs_file := fun s =>
  match tarfs_files (s_vfs s) !! i with Some f => Ok f s | None => Fault s end.

Definition put_seek_pos (i : nat) (v : Z) : M unit :=
  modify (on_vfs (fun w => set_tarfs_files
    (alter (fun f => mk_tarfs_file (t_loc f) v (t_len f)) i (tarfs_files w)) w)).

(** The loop of [tarfs_read] from header [ptr] on. *)
Fixpoint tar_read (n : nat) (ptr tar_path buffer sz : Z) : M Z :=
  match n with
  | O => diverge
  | S n =>
    ustar <- gets (fun s => is_ustar (s_mem s) ptr);;
    if negb ustar then ret (-1) else
    file_size <- gets (fun s => oct2bin (s_mem s) (ptr + 0x7c) 11);;
    c <- walk (fun m => strcmp_mem fuel m ptr (tar_path + 1));;
    if c =? 0 then
      i <- _tarfs_find_file tar_path;;
      f <- get_tarfs_file i;;
      let seek_pos := u64 (t_seek_pos f) in
      if u64 file_size <? seek_pos then ret 0 else
      let data := ptr + 512 + seek_pos in
      let remaining := u64 (u64 file_size - seek_pos) in
      let bytes_to_read := if remaining <? sz then remaining else sz in
      if bytes_to_read =? 0 then ret 0 else
      memcpy buffer data bytes_to_read;;;
      put_seek_pos i (i32 (u64 (seek_pos + bytes_to_read)));;;
      ret (i64 bytes_to_read)
    else tar_read n (next_header ptr file_size) tar_path buffer sz
  end.

Definition tarfs_read (path buffer sz : Z) : M Z :=
  ptr <- gets (fun s => initramfs (s_vfs s));;
  tar_read fuel ptr path buffer sz.

Definition tarfs_seek (path offset whence : Z) : M Z :=
  if path =? 0 then ret (-1) else
  i <- _tarfs_find_file path;;
  put_seek_pos i (i32 offset);;;
  ret (i32 offset).

(** [tarfs_stat]: the status and the record stored through [stat], as type and
    size. *)
Definition tarfs_stat (path : Z) : M (Z * (Z * Z)) :=
  if path =? 0 then ret (-1, (0, 0)) else
  i <- _tarfs_find_file path;;
  f <- get_tarfs_file i;;
  ret (0, (0, t_len f)).

Definition tarfs_exists (path : Z) : M bool :=
  if path =? 0 then ret false else
  _tarfs_find_file path;;;
  ret true.

(** The loop of [tarfs_init] over the headers. *)
Fixpoint tar_scan (n : nat) (ptr : Z) : M unit :=
  match n with
  | O => diverge
  | S n =>
    ustar <- gets (fun s => is_ustar (s_mem s) ptr);;
    if negb ustar then ret tt else
    file_size <- gets (fun s => oct2bin (s_mem s) (ptr + 0x7c) 11);;
    when (0 <? file_size) (_tarfs_add_file ptr (u64 file_size));;;
    tar_scan n (next_header ptr file_size)
  end.

(** [tarfs_init]: the record it fills in.  [mmap] is not assigned; it holds what
    the block [impl] held before. *)
Definition tarfs_init (impl : Z) : M vfs_impl :=
  b <- gets s_boot;;
  modify (on_vfs (fun v =>
    match list_find (fun p => p.1 = cstr "/boot/initramfs.tar") (boot_modules b) with
    | Some (_, p) => set_initramfs p.2 v
    | None => v
    end));;;
  ptr <- gets (fun s => initramfs (s_vfs s));;
  if ptr =? 0 then panic "no initramfs provided!" else
  old_mmap <- gets (fun s => load64 (s_mem s) (impl + 40));;
  tar_scan fuel ptr;;;
  ret (mk_impl (Some Tarfs_read) None (Some Tarfs_seek) (Some Tarfs_exists) (Some Tarfs_stat)
         (if old_mmap =? 0 then None else Some Uninitialised)).
End tarfs.
