(* ===== verification/TarfsSpec.v ===== *)
(** * Reading files of the archive (theorems about kernel/fs/tarfs.c)

    [tar_at] describes an archive in memory as a list of names and contents;
    [tarfs_read] serves exactly those contents. *)

From S2P Require Import Prelude Memory State Cpu Arch Libc Pmm Vmm Heap Devfs Tarfs.

(** ** Octal numbers *)

(** [k] octal digits of [n] as characters, the most significant first. *)
Fixpoint octal (k : nat) (n : Z) : list Z :=
  match k with
  | O => []
  | S k => octal k (n / 8) ++ [48 + n mod 8]
  end.

Definition oct_step (n d : Z) : Z := i32 (i32 (n * 8) + (d - 48)).

Lemma oct2bin_loop_fold m c size n : oct2bin_loop m c size n = fold_left oct_step (read_bytes m c size) n.
Proof. revert c n. induction size as [|k IH]; intros c n; [done|]. cbn [oct2bin_loop read_bytes fold_left]. apply IH. Qed.

Lemma octal_fold k n : 0 <= n < 2 ^ 31 -> n < 8 ^ Z.of_nat k -> fold_left oct_step (octal k n) 0 = n.
Proof.
  revert n. induction k as [|k IH]; intros n Hn Hk; [cbn in *; lia|].
  cbn [octal]. rewrite fold_left_app. rewrite IH; [|zlia|].
  - cbn [fold_left]. unfold oct_step. rewrite (i32_small (n / 8 * 8)) by zlia. rewrite i32_small by zlia. zlia.
  - rewrite Nat2Z.inj_succ, Z.pow_succ_r in Hk by lia. apply Z.div_lt_upper_bound; lia.
Qed.

(** The size field of a header reads back the number it was written from. *)
Lemma oct2bin_octal m a n :
  0 <= n < 2 ^ 31 -> read_bytes m a 11 = octal 11 n -> oct2bin m a 11 = n.
Proof. intros Hn E. unfold oct2bin. rewrite oct2bin_loop_fold, E. apply octal_fold; [done|]. lia. Qed.

(** ** Archives *)

Definition blocks (data : list Z) : Z := (Z.of_nat (length data) + 511) / 512.

(** The header after a file. *)
Definition after_file (ptr : Z) (data : list Z) : Z := ptr + 512 * (1 + blocks data).

Fixpoint tar_at (m : mem) (ptr : Z) (fs : list (list Z * list Z)) : Prop :=
  match fs with
  | [] => is_ustar m ptr = false
  | (name, data) :: fs =>
    is_ustar m ptr = true /\ cstr_at m ptr name /\
    read_bytes m (ptr + 0x7c) 11 = octal 11 (Z.of_nat (length data)) /\
    read_bytes m (ptr + 512) (length data) = data /\
    Z.of_nat (length data) < 2 ^ 31 - 1024 /\ 0 < ptr /\ after_file ptr data < 2 ^ 64 /\
    tar_at m (after_file ptr data) fs
  end.

(** Where the header after the files [fs] is. *)
Definition tar_pos (ptr : Z) (fs : list (list Z * list Z)) : Z := fold_left (fun p f => after_file p f.2) fs ptr.

Lemma next_header_after ptr data :
  0 < ptr -> after_file ptr data < 2 ^ 64 -> Z.of_nat (length data) < 2 ^ 31 - 1024 ->
  next_header ptr (Z.of_nat (length data)) = after_file ptr data.
Proof.
  unfold next_header, after_file, blocks. intros Hp Ha Hl. rewrite (i32_small (_ + 511)) by lia.
  rewrite Z.quot_div_nonneg by lia. rewrite i32_small by zlia. rewrite u64_small by zlia. lia.
Qed.

Lemma find_file_spec fuel m path str l names :
  cstr_at m path str -> Forall2 (fun f nm => cstr_at m (t_loc f) nm /\ (length nm < fuel)%nat) l names ->
  find_file fuel m path l = Some (fst <$> list_find (fun nm => nm = str) names).
Proof.
  intros Hp. induction 1 as [|f nm l names [Hf Hfu] _ IH]; [done|]. cbn [find_file list_find].
  rewrite (strcmp_mem_eq m (t_loc f) path nm str fuel) by done.
  rewrite strcmp_eq by (by eapply cstr_at_nul_free). destruct (decide (nm = str)).
  - by rewrite bool_decide_eq_true_2.
  - rewrite bool_decide_eq_false_2, IH by done. by destruct (list_find _ names) as [[? ?]|].
Qed.

Lemma read_bytes_drop m a k n : drop k (read_bytes m a n) = read_bytes m (a + Z.of_nat k) (n - k).
Proof.
  revert a n. induction k as [|k IH]; intros a [|n]; cbn [read_bytes drop]; try done.
  - by rewrite Z.add_0_r.
  - rewrite IH. f_equal; lia.
Qed.

Lemma read_bytes_take m a k n : (k <= n)%nat -> take k (read_bytes m a n) = read_bytes m a k.
Proof.
  revert a n. induction k as [|k IH]; intros a [|n] H; cbn [read_bytes take]; try done; try lia.
  rewrite IH by lia. done.
Qed.

Lemma read_bytes_copy m d p n : d + Z.of_nat n <= p \/ p + Z.of_nat n <= d ->
  read_bytes (copy_fwd m d p n) d n = read_bytes m p n.
Proof.
  intros H. apply list_eq_same_length with n; [by rewrite length_read_bytes..|].
  intros i x y Hi. rewrite !read_bytes_lookup by done. intros [= <-] [= <-].
  rewrite rd_copy_fwd by lia. destruct (Z.leb_spec d (d + Z.of_nat i)); [|lia].
  destruct (Z.ltb_spec (d + Z.of_nat i) (d + Z.of_nat n)); [|lia]. cbn [andb]. f_equal. lia.
Qed.

Lemma list_alter_fmap_insert {A} (g : A -> A) i (l : list A) x : l !! i = Some x -> alter g i l = <[i := g x]> l.
Proof.
  revert i. induction l as [|y l IH]; intros [|i] H; cbn in *; try done; [by injection H as ->|].
  f_equal. by apply IH.
Qed.

(** One header: its size field and its name against the path's. *)
Lemma tar_read_header fuel k s ptr path name nm d fs buffer sz :
  tar_at (s_mem s) ptr ((nm, d) :: fs) -> cstr_at (s_mem s) path (47 :: name) -> (length nm < fuel)%nat ->
  tar_read fuel (S k) ptr path buffer sz s =
    (if decide (nm = name) then
       i <- _tarfs_find_file fuel path;;
       f <- get_tarfs_file i;;
       let file_size := Z.of_nat (length d) in
       let seek_pos := u64 (t_seek_pos f) in
       if u64 file_size <? seek_pos then ret 0 else
       let data := ptr + 512 + seek_pos in
       let remaining := u64 (u64 file_size - seek_pos) in
       let bytes_to_read := if remaining <? sz then remaining else sz in
       if bytes_to_read =? 0 then ret 0 else
       memcpy buffer data bytes_to_read;;;
       put_seek_pos i (i32 (u64 (seek_pos + bytes_to_read)));;;
       ret (i64 bytes_to_read)
     else tar_read fuel k (after_file ptr d) path buffer sz) s.
Proof.
  intros (Hu & Hnm & Hoct & _ & Hd & Hp & Ha & _) Hpath Hfu. cbn [tar_read].
  unfold gets at 1, bind at 1. rewrite Hu. cbn [negb]. unfold gets at 1, bind at 1.
  rewrite (oct2bin_octal _ _ (Z.of_nat (length d))) by (done || lia).
  assert (cstr_at (s_mem s) (path + 1) name) as Hp1 by apply Hpath.
  unfold walk, bind at 1. rewrite (strcmp_mem_eq _ ptr (path + 1) nm name fuel) by done.
  rewrite strcmp_eq by (by eapply cstr_at_nul_free). destruct (decide (nm = name)).
  - by rewrite bool_decide_eq_true_2.
  - rewrite bool_decide_eq_false_2, next_header_after by done. reflexivity.
Qed.

(** ** Properties *)

(** How many bytes a read of [sz] bytes at position [pos] returns. *)
Definition readable (data : list Z) (pos sz : Z) : Z := Z.max 0 (Z.min sz (Z.of_nat (length data) - pos)).

(** C15: reading a file of the archive.  The walk finds the first entry of that
    name and copies its bytes from the file's position on: as many as asked
    for and are left.  The position moves on by that number, and no other byte
    of memory and no other file's position changes. *)
Theorem tarfs_read_spec (s : kstate) (fuel : nat) (pre post : list (list Z * list Z)) (name data : list Z)
    (path buffer sz : Z) (names : list (list Z)) (i : nat) (f : tarfs_file) :
  let v := s_vfs s in
  let src := tar_pos (initramfs v) pre + 512 in
  tar_at (s_mem s) (initramfs v) (pre ++ (name, data) :: post) -> name ∉ pre.*1 ->
  cstr_at (s_mem s) path (47 :: name) ->
  Forall2 (fun f nm => cstr_at (s_mem s) (t_loc f) nm /\ (length nm < fuel)%nat) (tarfs_files v) names ->
  list_find (fun nm => nm = 47 :: name) names = Some (i, 47 :: name) -> tarfs_files v !! i = Some f ->
  Forall (fun e => (length e.1 < fuel)%nat) (pre ++ [(name, data)]) -> (length pre < fuel)%nat ->
  0 <= t_seek_pos f < 2 ^ 31 -> 0 <= sz < 2 ^ 63 -> buffer <> 0 ->
  buffer + sz <= src \/ src + Z.of_nat (length data) <= buffer ->
  let n := readable data (t_seek_pos f) sz in
  exists m, tarfs_read fuel path buffer sz s =
      Ok n (set_vfs (set_tarfs_files (<[i := mk_tarfs_file (t_loc f) (t_seek_pos f + n) (t_len f)]> (tarfs_files v)) v)
        (set_mem m s)) /\
    read_bytes m buffer (Z.to_nat n) = take (Z.to_nat n) (drop (Z.to_nat (t_seek_pos f)) data) /\
    agree_off (fun x => buffer <= x < buffer + n) (s_mem s) m.
Proof.
  intros v src Htar Hpre Hpath Hnames Hfind Hi Hfu Hlen Hpos Hsz Hbuf Hdis n. unfold tarfs_read, gets, bind at 1.
  fold v. unfold src in *. clear src. generalize dependent (initramfs v).
  assert (exists k, fuel = k /\ (length pre < k)%nat) as (k & Ek & Hk) by by exists fuel.
  replace (tar_read fuel fuel) with (tar_read fuel k) by by rewrite Ek. clear Ek Hlen. revert k Hk.
  induction pre as [|[nm d] pre IH]; intros k Hk ptr Htar Hdis; (destruct k as [|k]; [cbn in Hk; lia|]).
  - cbn [tar_pos fold_left] in Hdis. apply Forall_cons in Hfu as [Hfu _]. cbn [app] in Htar.
    rewrite (tar_read_header _ _ s ptr path name name data post) by done. rewrite decide_True by done.
    destruct Htar as (_ & _ & _ & Hdata & Hd & Hptr & _).
    unfold _tarfs_find_file, gets, walk. unfold bind at 1 2 3. fold v.
    rewrite (find_file_spec fuel _ path (47 :: name) _ names) by done. rewrite Hfind. cbn [fmap option_fmap option_map fst].
    unfold ret at 1. unfold bind at 1. unfold get_tarfs_file. fold v. rewrite Hi.
    rewrite (u64_small (t_seek_pos f)), (u64_small (Z.of_nat (length data))) by lia. cbn zeta.
    assert (n = 0 -> exists m, Ok 0 s = Ok n (set_vfs (set_tarfs_files (<[i := mk_tarfs_file (t_loc f) (t_seek_pos f + n) (t_len f)]> (tarfs_files v)) v) (set_mem m s)) /\
      read_bytes m buffer (Z.to_nat n) = take (Z.to_nat n) (drop (Z.to_nat (t_seek_pos f)) data) /\
      agree_off (fun x => buffer <= x < buffer + n) (s_mem s) m) as Hzero.
    { intros ->. exists (s_mem s). split_and!; [|done|apply agree_off_refl]. f_equal. rewrite Z.add_0_r.
      rewrite list_insert_id by (by destruct f). subst v. destruct s as [? ? ? ? ? ? ? ? ? ? w ? ? ? ? ?]. by destruct w. }
    destruct (Z.ltb_spec (Z.of_nat (length data)) (t_seek_pos f)); [apply Hzero; unfold n, readable; lia|].
    rewrite (u64_small (Z.of_nat (length data) - t_seek_pos f)) by lia.
    replace (if Z.of_nat (length data) - t_seek_pos f <? sz then Z.of_nat (length data) - t_seek_pos f else sz) with n
      by (unfold n, readable; destruct (Z.ltb_spec (Z.of_nat (length data) - t_seek_pos f) sz); lia).
    assert (0 <= n <= sz /\ t_seek_pos f + n <= Z.of_nat (length data)) as [Hn1 Hn2] by (unfold n, readable; lia).
    destruct (Z.eqb_spec n 0) as [|Hn0]; [by apply Hzero|].
    eexists. split.
    + unfold memcpy, ASSERT, put_seek_pos, modify, bind, ret.
      destruct (Z.eqb_spec buffer 0) as [|_]; [done|]. destruct (Z.eqb_spec (ptr + 512 + t_seek_pos f) 0) as [|_]; [lia|].
      destruct (Z.ltb_spec 0 n); [|lia]. cbn [negb]. rewrite u64_small, i32_small, i64_small by lia. f_equal.
      unfold on_vfs. cbn [s_vfs on_mem set_mem]. fold v. rewrite (list_alter_fmap_insert _ _ _ f) by done. reflexivity.
    + split.
      * rewrite read_bytes_copy by lia. rewrite <- Hdata, read_bytes_drop, read_bytes_take by lia. f_equal. lia.
      * intros x Hx. rewrite rd_copy_fwd by lia. destruct (Z.leb_spec buffer x); [|done].
        destruct (Z.ltb_spec x (buffer + Z.of_nat (Z.to_nat n))); [lia|done].
  - apply Forall_cons in Hfu as [Hfu1 Hfu]. cbn [fst] in Hfu1. cbn [app] in Htar.
    apply not_elem_of_cons in Hpre as [Hne Hpre]. cbn [fst] in Hne.
    rewrite (tar_read_header _ _ s ptr path name nm d (pre ++ (name, data) :: post)) by done.
    rewrite decide_False by done. apply IH; [done|done|cbn in Hk; lia|by destruct Htar as (_ & _ & _ & _ & _ & _ & _ & ?)|].
    exact Hdis.
Qed.

(** ** Witness *)

(** The header block of a file, as far as the code looks at it. *)
Definition demo_header (name : list Z) (len : Z) : list Z :=
  name ++ replicate (124 - length name) 0 ++ octal 11 len ++ replicate 122 0 ++ cstr "ustar" ++ replicate 250 0.

Definition demo_text : list Z := cstr "hello".

Definition demo_tar : kstate :=
  on_vfs (fun v => set_tarfs_files [mk_tarfs_file 0x9000 2 5] (set_initramfs 0x10000 v))
    (on_mem (fun m => write_bytes (write_bytes (write_bytes m 0x10000 (demo_header (cstr "a.txt") 5)) 0x10200 demo_text)
                        0x9000 (cstr "/a.txt" ++ [0])) demo_entry_state).

Lemma tarfs_read_spec_witness :
  exists m, result (tarfs_read 10 0x9000 0x20000 100) demo_tar = Some 3 /\
    read_bytes m 0x20000 3 = cstr "llo".
Proof.
  destruct (tarfs_read_spec demo_tar 10 [] [] (cstr "a.txt") demo_text 0x9000 0x20000 100 [cstr "/a.txt"] 0
    (mk_tarfs_file 0x9000 2 5)) as (m & Hr & Hm & _).
  - vm_compute. repeat split; try reflexivity; discriminate.
  - apply not_elem_of_nil.
  - vm_compute. repeat split; try reflexivity; discriminate.
  - constructor; [|constructor]. split; [|cbn; lia]. vm_compute. repeat split; try reflexivity; discriminate.
  - reflexivity.
  - reflexivity.
  - constructor; [cbn; lia|constructor].
  - cbn. lia.
  - cbn. lia.
  - lia.
  - done.
  - right. vm_compute. discriminate.
  - exists m. split; [unfold result; rewrite Hr; reflexivity|exact Hm].
Defined.
