(* ===== verification/Vfs.v ===== *)
(** * The virtual file system: kernel/fs/vfs.c and kernel/fs/vfs_sys.c

    The mount table, the descriptor table, the operations on open files and the
    layer that system calls use.  A [vfs_file_t] keeps the caller's pointer to
    the path.  [fuel] is the bound of the loops of the file systems below. *)

From S2P Require Import Prelude Memory State Cpu Libc Pmm Vmm Heap Devfs Tarfs.

Definition VFS_MAX_MOUNTPOINTS : Z := 16.
Definition VFS_MAX_FILE_DESCRIPTORS : Z := 256.
Definition VFS_FD_OFFSET : Z := 10.
Definition sizeof_vfs_file : Z := 32.
Definition sizeof_vfs_impl : Z := 48.

(** ** Mount points and descriptors *)

Definition _startswith (m : mem) (str : Z) (prefix : list Z) : bool := strncmp_lit m str prefix =? 0.

Fixpoint find_mnt (m : mem) (path : Z) (l : list vfs) : option nat :=
  match l with
  | [] => None
  | v :: l =>
    match mnt v with
    | Some p => if _startswith m path p then Some O else option_map S (find_mnt m path l)
    | None => option_map S (find_mnt m path l)
    end
  end.

Definition _vfs_find_mnt (path : Z) : M (option nat) :=
  if path =? 0 then ret None else
  gets (fun s => find_mnt (s_mem s) path (mountpoints (s_vfs s))).

Definition get_file (file : Z) : M vfs_file := fun s =>
  match files (s_vfs s) !! file with Some f => Ok f s | None => Fault s end.

Definition put_file (file : Z) (f : vfs_file) : M unit :=
  modify (on_vfs (fun v => set_files (<[file := f]> (files v)) v)).

Definition get_mnt (k : nat) : M vfs := fun s =>
  match mountpoints (s_vfs s) !! k with Some v => Ok v s | None => Fault s end.

(** [open_files[i]], null when the slot is free. *)
Definition slot_of (v : vfs_state) (i : Z) : Z := default 0 (open_files v !! i).

(** [open_files[i] = p]; an index outside the array is an access outside it. *)
Definition put_slot (i p : Z) : M unit :=
  if negb ((0 <=? i) && (i <? VFS_MAX_FILE_DESCRIPTORS)) then fault
  else modify (on_vfs (fun v => set_open_files (<[i := p]> (open_files v)) v)).

(** The first free slot among [n] from [i] on. *)
Fixpoint free_slot (n : nat) (i : Z) (v : vfs_state) : option Z :=
  match n with
  | O => None
  | S n => if slot_of v i =? 0 then Some i else free_slot n (i + 1) v
  end.

Definition _vfs_get_fd (file : Z) : M Z :=
  if file =? 0 then ret (-1) else
  v <- gets s_vfs;;
  match free_slot (Z.to_nat (VFS_MAX_FILE_DESCRIPTORS - VFS_FD_OFFSET)) VFS_FD_OFFSET v with
  | Some i =>
    put_slot i file;;;
    f <- get_file file;;
    put_file file (mk_file i (f_loc f) (f_flags f) (f_mode f) (f_fs f));;;
    ret i
  | None => ret (-1)
  end.

Definition vfs_get_from_fd (fd : Z) : M Z :=
  v <- gets s_vfs;;
  if (fd <? 0) || (VFS_MAX_FILE_DESCRIPTORS <=? fd) || (slot_of v fd =? 0) then ret 0
  else ret (slot_of v fd).

Section vfs.
Variable fuel : nat.

(** ** Calls through a [vfs_impl_t] *)

Definition impl_read (f : fs_fun) (path buffer sz : Z) : M Z :=
  match f with
  | Devfs_read => devfs_read path buffer sz
  | Tarfs_read => tarfs_read fuel path buffer sz
  | _ => fault
  end.

Definition impl_write (f : fs_fun) (path buffer sz : Z) : M Z :=
  match f with
  | Devfs_write => devfs_write fuel path buffer sz
  | _ => fault
  end.

Definition impl_seek (f : fs_fun) (path offset whence : Z) : M Z :=
  match f with
  | Tarfs_seek => tarfs_seek fuel path offset whence
  | _ => fault
  end.

Definition impl_exists (f : fs_fun) (path : Z) : M bool :=
  match f with
  | Devfs_exists => devfs_exists path
  | Tarfs_exists => tarfs_exists fuel path
  | _ => fault
  end.

Definition impl_stat (f : fs_fun) (path : Z) : M (Z * (Z * Z)) :=
  match f with
  | Tarfs_stat => tarfs_stat fuel path
  | _ => fault
  end.

Definition impl_mmap (f : fs_fun) (path len : Z) : M (Z * Z) :=
  match f with
  | Devfs_mmap => devfs_mmap path len
  | _ => fault
  end.

(** ** Open files (vfs.c) *)

(** [path + strlen(mnt) - 1]: the location with its leading slash. *)
Definition loc_wo_mnt (path : Z) (v : vfs) : Z := path + strlen (default [] (mnt v)) - 1.

Definition vfs_open (path flags mode : Z) : M Z :=
  if path =? 0 then ret 0 else
  k <- _vfs_find_mnt path;;
  match k with
  | None => ret 0
  | Some k =>
    v <- get_mnt k;;
    match impl v with
    | None => ret 0
    | Some im =>
      match i_exists im with
      | None => ret 0
      | Some ex =>
        file <- malloc sizeof_vfs_file;;
        if file =? 0 then ret 0 else
        put_file file (mk_file 0 0 0 0 0);;;
        found <- impl_exists ex (loc_wo_mnt path v);;
        if negb found then
          modify (on_vfs (fun w => set_files (delete file (files w)) w));;;
          free file;;;
          ret 0
        else
          id <- _vfs_get_fd file;;
          put_file file (mk_file id path flags mode k);;;
          put_slot id file;;;
          ret file
      end
    end
  end.

(** The four checks that the operations share, then the file with its mount
    point: [null] is the result for a file that fails the first, and so on. *)
Definition with_file {A} (file : Z) (r1 r2 r4 : A) (k : vfs_file -> vfs -> vfs_impl -> M A) : M A :=
  if file =? 0 then ret r1 else
  f <- get_file file;;
  if f_loc f =? 0 then ret r2 else
  v <- get_mnt (f_fs f);;
  match impl v with
  | None => ret r4
  | Some im => k f v im
  end.

Definition vfs_read (file buffer sz : Z) : M Z :=
  with_file file (-1) (-2) (-4) (fun f v im =>
    match i_read im with
    | None => ret 0
    | Some g => r <- impl_read g (loc_wo_mnt (f_loc f) v) buffer sz;; ret (i32 r)
    end).

Definition vfs_write (file buffer sz : Z) : M Z :=
  with_file file (-1) (-2) (-4) (fun f v im =>
    match i_write im with
    | None => ret 0
    | Some g => r <- impl_write g (loc_wo_mnt (f_loc f) v) buffer sz;; ret (i32 r)
    end).

Definition vfs_seek (file offset whence : Z) : M Z :=
  with_file file (-1) (-2) (-4) (fun f v im =>
    match i_seek im with
    | None => ret 0
    | Some g => r <- impl_seek g (loc_wo_mnt (f_loc f) v) offset whence;; ret (i32 r)
    end).

(** The status and the record stored through [stat], untouched when the
    implementation is not called. *)
Definition vfs_stat (file : Z) (stat : Z * Z) : M (Z * (Z * Z)) :=
  with_file file (-1, stat) (-2, stat) (-4, stat) (fun f v im =>
    match i_stat im with
    | None => ret (0, stat)
    | Some g => r <- impl_stat g (loc_wo_mnt (f_loc f) v);; ret (i32 r.1, r.2)
    end).

(** [vfs_exists] hands the whole location down, mount point included. *)
Definition vfs_exists (file : Z) : M Z :=
  if file =? 0 then ret (-1) else
  f <- get_file file;;
  if f_loc f =? 0 then ret (-2) else
  v <- get_mnt (f_fs f);;
  match impl v ≫= i_exists with
  | None => fault
  | Some g => r <- impl_exists g (f_loc f);; ret (if r : bool then 1 else 0)
  end.

Definition vfs_mmap (file len : Z) : M (Z * Z) :=
  with_file file (0, len) (0, len) (0, len) (fun f v im =>
    match i_mmap im with
    | None => ret (0, len)
    | Some g => impl_mmap g (loc_wo_mnt (f_loc f) v) len
    end).

Definition vfs_close (file : Z) : M Z :=
  if file =? 0 then ret (-1) else
  f <- get_file file;;
  v <- gets s_vfs;;
  if (f_id f <? 0) || (VFS_MAX_FILE_DESCRIPTORS <=? f_id f) || (slot_of v (f_id f) =? 0) then ret (-2) else
  put_slot (f_id f) 0;;;
  modify (on_vfs (fun w => set_files (delete file (files w)) w));;;
  free file;;;
  ret 0.

Definition put_mnt (k : nat) (name : list Z) (im : option vfs_impl) : M unit :=
  modify (on_vfs (fun v => set_mountpoints (<[k := mk_mnt (Some name) im]> (mountpoints v)) v)).

Definition vfs_install : M unit :=
  devfs <- malloc sizeof_vfs_impl;;
  im <- devfs_init;;
  put_mnt 0 (cstr "/dev/") (Some im);;;
  tarfs <- malloc sizeof_vfs_impl;;
  im <- tarfs_init fuel tarfs;;
  put_mnt 1 (cstr "/init/") (Some im).

(** ** The system call layer (vfs_sys.c) *)

Definition MLIBC_HACK (r : Z) : Z := if r <? 0 then 0 else r.

Definition vfs_sys_open (path flags mode : Z) : M Z :=
  file <- vfs_open path flags mode;;
  if file =? 0 then ret (-1) else
  f <- get_file file;;
  ret (f_id f).

Definition vfs_sys_read (fd buffer sz : Z) : M Z :=
  file <- vfs_get_from_fd fd;;
  r <- vfs_read file buffer sz;;
  ret (MLIBC_HACK r).

Definition vfs_sys_write (fd buffer sz : Z) : M Z :=
  file <- vfs_get_from_fd fd;;
  r <- vfs_write file buffer sz;;
  ret (MLIBC_HACK r).

Definition vfs_sys_seek (fd offset whence : Z) : M Z :=
  file <- vfs_get_from_fd fd;;
  r <- vfs_seek file offset whence;;
  ret (MLIBC_HACK r).

Definition vfs_sys_mmap (fd len : Z) : M (Z * Z) :=
  file <- vfs_get_from_fd fd;;
  vfs_mmap file len.

Definition vfs_sys_close (fd : Z) : M Z :=
  file <- vfs_get_from_fd fd;;
  vfs_close file.
End vfs.
