(* ===== verification/VfsSpec.v ===== *)
(** * The descriptor table (theorems about kernel/fs/vfs.c and vfs_sys.c)

    The invariant of the table of open files, and that opening a device and
    closing a descriptor keep it, against the interface of the heap.  Paths are
    strings at places that the heap leaves alone: in the kernel's image, or in a
    block that is allocated. *)

From S2P Require Import Prelude Memory State Cpu Arch Libc Pmm Vmm VmmTree VmmSpec.
From S2P Require Import Heap HeapTiles HeapList HeapSpec HeapTop HeapIface.
From S2P Require Import Devices Pci Devfs Tarfs Vfs.

(** ** Strings *)

Lemma strcmp_lit_spec m p l lit : nul_free lit -> cstr_at m p l -> strcmp_lit lit m p = strcmp lit l.
Proof.
  intros Hl. revert p l. induction Hl as [|c lit Hc _ IH]; intros p [|d l] H; cbn [cstr_at strcmp_lit strcmp] in *.
  - by rewrite H.
  - by destruct H as (_ & -> & _).
  - rewrite H. destruct (Z.eqb_spec c 0); lia.
  - destruct H as (_ & -> & H). destruct (Z.eqb_spec c d); [by apply IH|done].
Qed.

Lemma strncmp_lit_spec m p l lit : cstr_at m p l -> strncmp_lit m p lit = strncmp l lit (length lit).
Proof.
  revert p l. induction lit as [|c lit IH]; intros p [|d l] H; cbn [cstr_at strncmp_lit strncmp length] in *; try done.
  - by rewrite H.
  - destruct H as (Hd & -> & H). destruct (Z.eqb_spec d 0); [done|]. cbn [negb andb].
    destruct (Z.eqb_spec d c); [by apply IH|done].
Qed.

(** The device of that name. *)
Definition dev_named (l : list Z) (ds : list devfs_dev) : option devfs_dev :=
  snd <$> list_find (fun d => d_loc d = l) ds.

Lemma find_dev_spec m p l ds :
  cstr_at m p l -> Forall (fun d => nul_free (d_loc d)) ds -> find_dev m p ds = dev_named l ds.
Proof.
  intros Hp Hd. unfold dev_named. induction Hd as [|d ds Hd _ IH]; [done|]. cbn [find_dev list_find].
  rewrite (strcmp_lit_spec m p l) by done. rewrite strcmp_eq by (done || by eapply cstr_at_nul_free).
  destruct (decide (d_loc d = l)); [by rewrite bool_decide_eq_true_2|]. rewrite bool_decide_eq_false_2 by done.
  rewrite IH. by destruct (list_find _ ds) as [[? ?]|].
Qed.

Section vfs_spec.
Context {HA : heap_allocator malloc free}.

(** Addresses whose bytes allocation and release leave alone. *)
Definition stable (hv : hview) (x : Z) : Prop :=
  kernel_image x \/ exists p n, live hv p n /\ p <= x < p + n.

(** The invariant of the descriptor table: a used slot is a descriptor that
    user code may hold, its object says so, and every object is a block of the
    heap. *)
Record fd_ok (v : vfs_state) (hv : hview) : Prop := {
  fd_range : forall fd, slot_of v fd <> 0 -> VFS_FD_OFFSET <= fd < VFS_MAX_FILE_DESCRIPTORS;
  fd_file : forall fd, slot_of v fd <> 0 -> exists f, files v !! slot_of v fd = Some f /\ f_id f = fd;
  fd_live : forall p f, files v !! p = Some f -> exists n, live hv p n
}.

Lemma ha_vfs s hv f : ha_ok s hv -> ha_ok (on_vfs f s) hv.
Proof. intros H. apply (ha_frame s); try done. by apply (ha_cpu s hv). Qed.

(** ** Allocation and release with what they leave alone *)

Lemma malloc_stable s hv sz : ha_ok s hv -> 0 < sz <= 2 ^ 40 ->
  wp (malloc sz) s (fun r s' => exists hv', ha_ok s' hv' /\ s_vfs s' = s_vfs s /\ r <> 0 /\
    (exists n, live hv' r n) /\ (forall k, ~ live hv r k) /\
    (forall q k, live hv' q k <-> live hv q k \/ (q = r /\ live hv' r k)) /\
    (forall x, stable hv x -> rd (s_mem s') x = rd (s_mem s) x /\ stable hv' x)) out_of_memory.
Proof.
  intros H Hsz. eapply wp_mono; [eapply wp_and; [by apply (ha_alloc s hv)|by apply (ha_alloc_image s hv)]| |done].
  intros r s' [(hv' & n & H' & C & Hn & Hl & Hnew & Hm) Him]. exists hv'.
  assert (live hv' r n) as Hr by (apply Hl; auto).
  destruct (ha_range s' hv' r n H' Hr) as (_ & ? & _).
  split_and!; [done|by apply C|lia|by exists n|done| |].
  - intros q k. split.
    + intros [?|[-> ->]]%Hl; [by left|by right].
    + intros [?|[-> Hk]]; [apply Hl; by left|done].
  - intros x [Hx|(p & k & Hp & Hx)].
    + split; [by apply Him|by left].
    + split; [by apply (Hm p k)|]. right. exists p, k. split; [|done]. apply Hl. by left.
Qed.

Lemma free_stable s hv p n : ha_ok s hv -> live hv p n ->
  wp (free p) s (fun _ s' => exists hv', ha_ok s' hv' /\ s_vfs s' = s_vfs s /\
    (forall q k, live hv' q k <-> live hv q k /\ q <> p)) no_panic.
Proof.
  intros H Hl. eapply wp_mono; [by apply (ha_release s hv p n)| |done].
  intros [] s' (hv' & H' & C & Hlv & _). exists hv'. split_and!; [done|by apply C|done].
Qed.

(** ** The table *)

Lemma free_slot_spec n i v fd : free_slot n i v = Some fd ->
  i <= fd < i + Z.of_nat n /\ slot_of v fd = 0 /\ forall j, i <= j < fd -> slot_of v j <> 0.
Proof.
  revert i. induction n as [|n IH]; intros i H; [done|]. cbn [free_slot] in H.
  destruct (Z.eqb_spec (slot_of v i) 0) as [E|E].
  - injection H as <-. split_and!; [lia|lia|done|]. intros j Hj. lia.
  - apply IH in H as (? & ? & Hj). split_and!; [lia|lia|done|]. intros j ?. destruct (decide (j = i)) as [->|]; [done|].
    apply Hj. lia.
Qed.

Lemma slot_insert v i p j F : slot_of (set_files F (set_open_files (<[i := p]> (open_files v)) v)) j = if j =? i then p else slot_of v j.
Proof.
  unfold slot_of. cbn [open_files set_open_files set_files].
  destruct (Z.eqb_spec j i) as [->|]; [by rewrite lookup_insert_eq|by rewrite lookup_insert_ne].
Qed.

Lemma free_slot_some n i v fd : i <= fd < i + Z.of_nat n -> slot_of v fd = 0 -> free_slot n i v <> None.
Proof.
  revert i. induction n as [|n IH]; intros i Hr Hs; [lia|]. cbn [free_slot].
  destruct (Z.eqb_spec (slot_of v i) 0); [done|]. apply IH; [|done]. destruct (decide (fd = i)) as [->|]; [done|lia].
Qed.

(** The lowest descriptor that user code may get and that is not in use. *)
Definition lowest_free (v : vfs_state) (fd : Z) : Prop :=
  10 <= fd < 256 /\ slot_of v fd = 0 /\ forall j, 10 <= j < fd -> slot_of v j <> 0.

(** What a new descriptor makes of the table. *)
Definition with_fd (fd file : Z) (f : vfs_file) (v : vfs_state) : vfs_state :=
  set_files (<[file := f]> (files v)) (set_open_files (<[fd := file]> (open_files v)) v).

Lemma with_fd_ok v hv hv' fd file f n :
  fd_ok v hv -> f_id f = fd -> VFS_FD_OFFSET <= fd < VFS_MAX_FILE_DESCRIPTORS -> slot_of v fd = 0 ->
  (forall k, ~ live hv file k) -> live hv' file n -> (forall q k, live hv q k -> live hv' q k) ->
  fd_ok (with_fd fd file f v) hv'.
Proof.
  intros [F1 F2 F3] Hid Hfd Hs Hnew Hl Hm. unfold with_fd. split.
  - intros j. rewrite slot_insert. destruct (Z.eqb_spec j fd) as [->|]; [done|apply F1].
  - intros j. rewrite slot_insert. cbn [files set_files]. destruct (Z.eqb_spec j fd) as [->|].
    + intros _. exists f. by rewrite lookup_insert_eq.
    + intros Hj. destruct (F2 j Hj) as (g & Hg & ?). exists g. rewrite lookup_insert_ne; [done|].
      intros ->. destruct (F3 _ _ Hg) as (k & Hk). by apply (Hnew k).
  - intros p g. cbn [files set_files]. destruct (decide (p = file)) as [->|].
    + intros _. by exists n.
    + rewrite lookup_insert_ne by done. intros (k & Hk)%F3. exists k. by apply Hm.
Qed.

Lemma with_fd_undo v file f : files v !! file = None ->
  set_files (delete file (<[file := f]> (files v))) v = v.
Proof. intros H. rewrite delete_insert_id by done. by destruct v. Qed.

(** [_vfs_get_fd] and the stores that follow it in [vfs_open]. *)
Lemma get_fd_run s file f path flags mode k fd :
  file <> 0 -> free_slot 246 VFS_FD_OFFSET (s_vfs s) = Some fd -> files (s_vfs s) !! file = Some f ->
  exists v', (id <- _vfs_get_fd file;; put_file file (mk_file id path flags mode k);;; put_slot id file;;; ret file) s =
      Ok file (set_vfs v' s) /\
    v' = with_fd fd file (mk_file fd path flags mode k) (s_vfs s).
Proof.
  intros Hf Hs Hfile. destruct (free_slot_spec _ _ _ _ Hs) as (Hr & _ & _). change VFS_FD_OFFSET with 10 in Hr.
  eexists. split; [|reflexivity]. unfold _vfs_get_fd. destruct (Z.eqb_spec file 0); [done|].
  assert ((0 <=? fd) && (fd <? VFS_MAX_FILE_DESCRIPTORS) = true) as Hin.
  { apply andb_true_intro. split; [apply Z.leb_le|apply Z.ltb_lt; change VFS_MAX_FILE_DESCRIPTORS with 256]; lia. }
  unfold bind at 1 2, gets. change (Z.to_nat (VFS_MAX_FILE_DESCRIPTORS - VFS_FD_OFFSET)) with 246%nat. rewrite Hs.
  unfold put_slot, get_file, put_file, modify, bind, ret. rewrite Hin. cbn [negb].
  cbn [s_vfs on_vfs set_vfs files set_open_files]. rewrite Hfile. rewrite Hin. cbn [negb]. f_equal.
  cbn [on_vfs s_vfs set_vfs files set_files open_files set_open_files]. apply kstate_ext; try reflexivity.
  unfold on_vfs. cbn [s_vfs set_vfs]. unfold with_fd. destruct (s_vfs s) as [mp ofs fl ds ir tf].
  cbn [files set_files open_files set_open_files set_mountpoints]. f_equal; by rewrite ?insert_insert_eq.
Qed.

(** ** Properties *)

(** C11: opening a path below a mounted devfs.  If the device exists the file
    gets the lowest descriptor from 10 to 255 that is not in use, with the
    caller's path, flags and mode, and no other descriptor changes; if it does
    not, the result is null and the table and the heap are as before.  Either
    way the table stays well formed.  ([vfs_open] may stop for lack of memory.) *)
Theorem vfs_open_dev_spec (s : kstate) (hv : hview) (fuel : nat) (path flags mode : Z) (k : nat) (v : vfs)
    (im : vfs_impl) (name : list Z) :
  let loc := loc_wo_mnt path v in
  ha_ok s hv -> fd_ok (s_vfs s) hv -> path <> 0 -> loc <> 0 ->
  find_mnt (s_mem s) path (mountpoints (s_vfs s)) = Some k -> mountpoints (s_vfs s) !! k = Some v ->
  impl v = Some im -> i_exists im = Some Devfs_exists ->
  Forall (fun d => nul_free (d_loc d)) (devs (s_vfs s)) ->
  cstr_at (s_mem s) loc name -> (forall x, loc <= x <= loc + strlen name -> stable hv x) ->
  (dev_named name (devs (s_vfs s)) <> None -> exists fd, 10 <= fd < 256 /\ slot_of (s_vfs s) fd = 0) ->
  wp (vfs_open fuel path flags mode) s
    (fun r s' => exists hv', ha_ok s' hv' /\ fd_ok (s_vfs s') hv' /\
       match dev_named name (devs (s_vfs s)) with
       | Some _ => exists fd, lowest_free (s_vfs s) fd /\ r <> 0 /\
           s_vfs s' = with_fd fd r (mk_file fd path flags mode k) (s_vfs s)
       | None => r = 0 /\ s_vfs s' = s_vfs s /\ forall q j, live hv' q j <-> live hv q j
       end) out_of_memory.
Proof.
  intros loc H F Hp Hloc Hmnt Hk Him Hex Hds Hname Hst Hfree. unfold vfs_open, _vfs_find_mnt.
  destruct (Z.eqb_spec path 0) as [|_]; [done|]. apply wp_bind, wp_gets. rewrite Hmnt.
  apply wp_bind. eapply wp_ok; [unfold get_mnt; by rewrite Hk|]. rewrite Him, Hex.
  eapply wp_call; [apply (malloc_stable s hv sizeof_vfs_file H); done|].
  intros r s1 (hv1 & H1 & Ev & Hr0 & (n & Hn) & Hnew & Hlv & Hm). destruct (Z.eqb_spec r 0) as [|_]; [done|].
  assert (files (s_vfs s) !! r = None) as Hnr.
  { destruct (files (s_vfs s) !! r) as [f|] eqn:E; [|done]. destruct (fd_live _ _ F _ _ E) as (j & Hj). by destruct (Hnew j). }
  apply wp_bind, wp_modify. set (s2 := on_vfs _ s1).
  assert (cstr_at (s_mem s1) loc name) as Hname1.
  { apply cstr_at_ext with (s_mem s); [|done]. intros x Hx. apply Hm, Hst. unfold strlen. lia. }
  apply wp_bind. cbn [impl_exists]. fold loc. unfold devfs_exists. destruct (Z.eqb_spec loc 0) as [|_]; [done|].
  apply wp_bind, wp_gets. change (s_mem s2) with (s_mem s1). change (devs (s_vfs s2)) with (devs (s_vfs s1)).
  rewrite Ev, (find_dev_spec _ _ name) by done.
  destruct (dev_named name (devs (s_vfs s))) as [d|]; apply wp_ret; cbn [negb].
  - destruct (free_slot 246 VFS_FD_OFFSET (s_vfs s)) as [fd|] eqn:Hs.
    2: { destruct Hfree as (fd & Hfd & H0); [done|]. by destruct (free_slot_some 246 10 _ fd Hfd H0). }
    assert (free_slot 246 VFS_FD_OFFSET (s_vfs s2) = Some fd) as Hs2.
    { change (s_vfs s2) with (set_files (<[r := mk_file 0 0 0 0 0]> (files (s_vfs s1))) (s_vfs s1)). rewrite Ev.
      by destruct (s_vfs s). }
    destruct (get_fd_run s2 r (mk_file 0 0 0 0 0) path flags mode k fd) as (v' & Hrun & Hv'); [done|done|apply lookup_insert_eq|].
    eapply wp_ok; [exact Hrun|]. exists hv1.
    destruct (free_slot_spec _ _ _ _ Hs) as (Hfd & Hs0 & Hmin). change (10 <= fd < 10 + Z.of_nat 246) in Hfd.
    assert (v' = with_fd fd r (mk_file fd path flags mode k) (s_vfs s)) as ->.
    { rewrite Hv'. change (s_vfs s2) with (set_files (<[r := mk_file 0 0 0 0 0]> (files (s_vfs s1))) (s_vfs s1)).
      rewrite Ev. unfold with_fd. destruct (s_vfs s) as [mp ofs fl ds ir tf]. unfold set_files, set_open_files. cbn [mountpoints files open_files devs initramfs tarfs_files]. by rewrite insert_insert_eq. }
    split_and!.
    + change (set_vfs ?w s2) with (on_vfs (fun _ => w) s1). by apply ha_vfs.
    + apply (with_fd_ok _ hv hv1 fd r _ n); [done|done|change VFS_FD_OFFSET with 10; change VFS_MAX_FILE_DESCRIPTORS with 256; lia|done|done|done|].
      intros q j Hq. apply Hlv. by left.
    + exists fd. split; [|done]. split; [lia|]. by split.
  - apply wp_bind, wp_modify. set (s3 := on_vfs _ s2).
    assert (s_vfs s3 = s_vfs s) as E3.
    { change (s_vfs s3) with (set_files (delete r (<[r := mk_file 0 0 0 0 0]> (files (s_vfs s1)))) (set_files (<[r := mk_file 0 0 0 0 0]> (files (s_vfs s1))) (s_vfs s1))).
      rewrite Ev, delete_insert_id by done. by destruct (s_vfs s). }
    assert (ha_ok s3 hv1) as H3 by by apply ha_vfs, ha_vfs.
    eapply wp_call; [eapply wp_mono; [by apply (free_stable s3 hv1 r n)|done|done]|].
    intros [] s4 (hv4 & H4 & Ev4 & Hl4). apply wp_ret. exists hv4.
    assert (forall q j, live hv4 q j <-> live hv q j) as Hlive.
    { intros q j. rewrite Hl4, Hlv. split.
      - intros [[?|[-> _]] ?]; done.
      - intros Hq. split; [by left|]. intros ->. by destruct (Hnew j). }
    split_and!; [done| |done|by rewrite Ev4|done]. rewrite Ev4, E3. destruct F as [F1 F2 F3].
    split; [done|done|]. intros p f (j & Hj)%F3. exists j. by apply Hlive.
Qed.

(** Closing a descriptor frees exactly its slot and its object and
    returns 0; a number that is no open descriptor is answered with -1 and
    changes nothing.  The table stays well formed. *)
Theorem vfs_sys_close_spec (s : kstate) (hv : hview) (fd : Z) :
  ha_ok s hv -> fd_ok (s_vfs s) hv ->
  wp (vfs_sys_close fd) s
    (fun r s' => exists hv', ha_ok s' hv' /\ fd_ok (s_vfs s') hv' /\
       if slot_of (s_vfs s) fd =? 0 then r = -1 /\ s' = s
       else r = 0 /\ (forall j, slot_of (s_vfs s') j = if j =? fd then 0 else slot_of (s_vfs s) j) /\
         files (s_vfs s') = delete (slot_of (s_vfs s) fd) (files (s_vfs s)) /\
         (forall q k, live hv' q k <-> live hv q k /\ q <> slot_of (s_vfs s) fd)) no_panic.
Proof.
  intros H F. unfold vfs_sys_close, vfs_get_from_fd. apply wp_bind, wp_bind, wp_gets.
  destruct (Z.eqb_spec (slot_of (s_vfs s) fd) 0) as [E|E].
  { rewrite orb_true_r. apply wp_ret. unfold vfs_close. cbn [Z.eqb]. apply wp_ret. by exists hv. }
  pose proof (fd_range _ _ F fd E) as Hr. destruct (fd_file _ _ F fd E) as (f & Hf & Hid).
  destruct (fd_live _ _ F _ _ Hf) as (n & Hn). set (file := slot_of (s_vfs s) fd) in *.
  change VFS_FD_OFFSET with 10 in Hr. change VFS_MAX_FILE_DESCRIPTORS with 256 in *.
  assert ((fd <? 0) || (256 <=? fd) = false) as Hb.
  { apply orb_false_intro; [apply Z.ltb_ge|apply Z.leb_gt]; lia. }
  rewrite Hb. cbn [orb]. apply wp_ret. unfold vfs_close. destruct (Z.eqb_spec file 0) as [|_]; [done|].
  apply wp_bind. eapply wp_ok; [unfold get_file; by rewrite Hf|]. apply wp_bind, wp_gets.
  rewrite Hid. change VFS_MAX_FILE_DESCRIPTORS with 256. rewrite Hb. fold file.
  destruct (Z.eqb_spec file 0) as [|_]; [done|]. cbn [orb]. unfold put_slot.
  change VFS_MAX_FILE_DESCRIPTORS with 256.
  assert ((0 <=? fd) && (fd <? 256) = true) as ->.
  { apply andb_true_intro. split; [apply Z.leb_le|apply Z.ltb_lt]; lia. }
  cbn [negb]. apply wp_bind, wp_modify, wp_bind, wp_modify. set (s1 := on_vfs _ _).
  assert (ha_ok s1 hv) as H1 by by apply ha_vfs, ha_vfs.
  eapply wp_call; [by apply (free_stable s1 hv file n)|]. intros [] s2 (hv2 & H2 & Ev & Hl). apply wp_ret.
  exists hv2. rewrite Ev.
  assert (s_vfs s1 = set_files (delete file (files (s_vfs s))) (set_open_files (<[fd := 0]> (open_files (s_vfs s))) (s_vfs s)))
    as Es1 by reflexivity.
  rewrite Es1. split_and!; [done| |done|intros j; by rewrite slot_insert|done|done]. destruct F as [F1 F2 F3]. split.
  - intros j. rewrite slot_insert. destruct (Z.eqb_spec j fd); [done|]. apply F1.
  - intros j. rewrite slot_insert. cbn [files set_files]. destruct (Z.eqb_spec j fd); [done|].
    intros Hj. destruct (F2 j Hj) as (g & Hg & Hgid). exists g. rewrite lookup_delete_ne; [done|].
    intros Eq. rewrite <- Eq, Hf in Hg. congruence.
  - intros p g. cbn [files set_files]. intros [Hp Hg]%lookup_delete_Some. destruct (F3 _ _ Hg) as (k & Hk).
    exists k. apply Hl. done.
Qed.

(** With no free descriptor left, what [vfs_open] does once it has found the
    file stores its address in front of the table, at index -1. *)
Lemma full_table_faults s file f path flags mode k :
  file <> 0 -> free_slot 246 VFS_FD_OFFSET (s_vfs s) = None -> files (s_vfs s) !! file = Some f ->
  exists s', (id <- _vfs_get_fd file;; put_file file (mk_file id path flags mode k);;; put_slot id file;;; ret file) s = Fault s'.
Proof.
  intros Hf Hs Hfile. unfold _vfs_get_fd. destruct (Z.eqb_spec file 0) as [|_]; [done|].
  unfold bind at 1 2, gets. change (Z.to_nat (VFS_MAX_FILE_DESCRIPTORS - VFS_FD_OFFSET)) with 246%nat. rewrite Hs.
  eexists. reflexivity.
Qed.

(** [tarfs_exists] cannot say no: a path that is not in the archive stops the
    kernel instead. *)
Lemma tarfs_exists_never_false fuel path s s' : path <> 0 -> tarfs_exists fuel path s <> Ok false s'.
Proof.
  intros Hp. unfold tarfs_exists. destruct (Z.eqb_spec path 0) as [|_]; [done|].
  unfold bind, ret. by destruct (_tarfs_find_file fuel path s).
Qed.
End vfs_spec.

(** ** Witnesses *)

(** A devfs with one device, and the path of that device in a block of the heap. *)
Definition demo_path : Z := KERNEL_HEAP_START + 16.

Definition demo_devfs : vfs_state :=
  mk_vfs [mk_mnt (Some (cstr "/dev/")) (Some (mk_impl (Some Devfs_read) (Some Devfs_write) None (Some Devfs_exists) None (Some Devfs_mmap)))]
    ∅ ∅ [mk_dev (cstr "/zero") (Some Zero_read) (Some Zero_write) None] 0 [].

Definition demo_fs : kstate :=
  on_vfs (fun _ => demo_devfs) (on_mem (fun m => write_bytes m demo_path (cstr "/dev/zero" ++ [0])) demo_heap).

Definition demo_fs_view : heap_view := mk_view 0x1000 (demo_tables KERNEL_HEAP_START) demo_tiles.

Lemma demo_fs_live : view_live demo_fs_view demo_path 48.
Proof. unfold view_live. cbn [demo_fs_view hv_tiles]. change (demo_path - 16) with KERNEL_HEAP_START. left. Qed.

Lemma demo_fs_ok : view_ok demo_fs demo_fs_view.
Proof.
  apply (ha_vfs (HA := kernel_heap)).
  apply (ha_frame (heap_allocator := kernel_heap) demo_heap _ demo_fs_view demo_heap_ok); try done.
  intros x Hx. specialize (Hx _ _ demo_fs_live). cbn [s_mem on_mem set_mem]. rewrite rd_write_bytes.
    destruct (Z.leb_spec demo_path x), (Z.ltb_spec x (demo_path + Z.of_nat (length (cstr "/dev/zero" ++ [0])))); cbn [andb];
      [|done..]. change (Z.of_nat (length (cstr "/dev/zero" ++ [0]))) with 10 in *. lia.
Qed.

Lemma demo_fs_fd : fd_ok (HA := kernel_heap) (s_vfs demo_fs) demo_fs_view.
Proof. by split; intros; exfalso. Qed.

Lemma demo_open_returns : result (vfs_open 10 demo_path 0 0) demo_fs = Some (KERNEL_HEAP_START + 80).
Proof. vm_compute. reflexivity. Qed.

Lemma vfs_open_dev_spec_witness :
  exists r s', vfs_open 10 demo_path 0 0 demo_fs = Ok r s' /\ r <> 0 /\ slot_of (s_vfs s') 10 = r.
Proof.
  assert (wp (vfs_open 10 demo_path 0 0) demo_fs (fun r s' => r <> 0 /\ slot_of (s_vfs s') 10 = r) out_of_memory) as Hw.
  { eapply wp_mono; [apply (vfs_open_dev_spec (HA := kernel_heap) demo_fs demo_fs_view 10 demo_path 0 0 0%nat
      (mk_mnt (Some (cstr "/dev/")) (Some (mk_impl (Some Devfs_read) (Some Devfs_write) None (Some Devfs_exists) None (Some Devfs_mmap))))
      (mk_impl (Some Devfs_read) (Some Devfs_write) None (Some Devfs_exists) None (Some Devfs_mmap)) (cstr "/zero"))| |done].
    - exact demo_fs_ok.
    - exact demo_fs_fd.
    - done.
    - done.
    - vm_compute. reflexivity.
    - done.
    - done.
    - done.
    - repeat constructor.
    - vm_compute. repeat split; lia.
    - intros x Hx. right. exists demo_path, 48. split; [exact demo_fs_live|].
      change (loc_wo_mnt demo_path _) with (demo_path + 4) in Hx. change (strlen (cstr "/zero")) with 5 in Hx. lia.
    - intros _. by exists 10.
    - intros r s' (hv' & _ & _ & fd & (Hfd & Hs0 & Hmin) & Hr & Ev). split; [done|].
      assert (fd = 10) as ->. { destruct (decide (fd = 10)) as [|Hne]; [done|]. by destruct (Hmin 10 ltac:(lia)). }
      rewrite Ev. unfold slot_of, with_fd. cbn [open_files set_files set_open_files]. by rewrite lookup_insert_eq. }
  exists (KERNEL_HEAP_START + 80), (after (vfs_open 10 demo_path 0 0) demo_fs). exact (wp_result _ _ _ _ _ demo_open_returns Hw).
Defined.

(** The same machine with that file open as descriptor 10. *)
Definition demo_open : kstate :=
  on_vfs (fun v => with_fd 10 demo_path (mk_file 10 demo_path 0 0 0) v) demo_fs.

Lemma vfs_sys_close_spec_witness :
  wp (vfs_sys_close 10) demo_open (fun r s' => r = 0 /\ slot_of (s_vfs s') 10 = 0) no_panic.
Proof.
  eapply wp_mono; [apply (vfs_sys_close_spec (HA := kernel_heap) demo_open demo_fs_view 10)| |done].
  - apply (ha_vfs (HA := kernel_heap)), demo_fs_ok.
  - apply (with_fd_ok (HA := kernel_heap) demo_devfs (mk_view 0x1000 ∅ []) demo_fs_view 10 demo_path _ 48).
    + split; intros; exfalso; done.
    + done.
    + done.
    + done.
    + intros k Hk. by apply elem_of_nil in Hk.
    + exact demo_fs_live.
    + intros q k Hq. by apply elem_of_nil in Hq.
  - intros r s' (hv' & _ & _ & Hc). change (slot_of (s_vfs demo_open) 10) with demo_path in Hc.
    change (demo_path =? 0) with false in Hc. destruct Hc as (-> & Hs & _). split; [done|]. apply (Hs 10).
Defined.
