(* ===== verification/Printf.v ===== *)
(** * Formatted output: kernel/libc/stdio/

    The formatter nanoprintf.h as printf.c configures it (field widths,
    precisions, short, long and binary conversions; no floating point, no
    %n), and the functions of the C library on top of it.

    A format is the list of its bytes without the terminator, so the end of
    the list is the NUL that the C code meets there.  The variable arguments
    are a list of 64-bit slots.  [str] gives the string that a pointer
    argument points to; it is fixed while the call runs, so the strings do
    not overlap the output buffer.  Undefined behaviour, such as a missing
    argument or a field width that does not fit an [int], is [None] or
    [Undefined]. *)

From S2P Require Import Prelude Memory State Devices.

(** The code of a character. *)
Definition ch (s : string) : Z := hd 0 (cstr s).

(** [short] and [signed char]. *)
Definition i16 (z : Z) : Z := (z + 2 ^ 15) mod 2 ^ 16 - 2 ^ 15.
Definition i8 (z : Z) : Z := (z + 2 ^ 7) mod 2 ^ 8 - 2 ^ 7.

(** ** Format specifications *)

Inductive npf_opt : Type :=
| NPF_FMT_SPEC_OPT_NONE
| NPF_FMT_SPEC_OPT_LITERAL
| NPF_FMT_SPEC_OPT_STAR.

Inductive npf_len_mod : Type :=
| NPF_FMT_SPEC_LEN_MOD_NONE
| NPF_FMT_SPEC_LEN_MOD_SHORT
| NPF_FMT_SPEC_LEN_MOD_LONG_DOUBLE
| NPF_FMT_SPEC_LEN_MOD_CHAR
| NPF_FMT_SPEC_LEN_MOD_LONG
| NPF_FMT_SPEC_LEN_MOD_LARGE_LONG_LONG
| NPF_FMT_SPEC_LEN_MOD_LARGE_INTMAX
| NPF_FMT_SPEC_LEN_MOD_LARGE_SIZET
| NPF_FMT_SPEC_LEN_MOD_LARGE_PTRDIFFT.

Inductive npf_conv : Type :=
| NPF_FMT_SPEC_CONV_NONE
| NPF_FMT_SPEC_CONV_PERCENT
| NPF_FMT_SPEC_CONV_CHAR
| NPF_FMT_SPEC_CONV_STRING
| NPF_FMT_SPEC_CONV_SIGNED_INT
| NPF_FMT_SPEC_CONV_BINARY
| NPF_FMT_SPEC_CONV_OCTAL
| NPF_FMT_SPEC_CONV_HEX_INT
| NPF_FMT_SPEC_CONV_UNSIGNED_INT
| NPF_FMT_SPEC_CONV_POINTER.

#[export] Instance npf_opt_eq_dec : EqDecision npf_opt.
Proof. solve_decision. Defined.
#[export] Instance npf_conv_eq_dec : EqDecision npf_conv.
Proof. solve_decision. Defined.

Record npf_format_spec : Type := mk_spec {
  field_width : Z;
  field_width_opt : npf_opt;
  left_justified : Z;      (** 0, '-' or 1 *)
  leading_zero_pad : Z;
  prec : Z;
  prec_opt : npf_opt;
  prepend : Z;             (** 0, ' ' or '+' *)
  alt_form : Z;            (** 0 or '#' *)
  case_adjust : Z;         (** 'a' - 'A' or 0 *)
  length_modifier : npf_len_mod;
  conv_spec : npf_conv
}.

Definition set_flags (l z p a : Z) (fs : npf_format_spec) : npf_format_spec :=
  mk_spec (field_width fs) (field_width_opt fs) l z (prec fs) (prec_opt fs) p a
    (case_adjust fs) (length_modifier fs) (conv_spec fs).
Definition set_width (w : Z) (o : npf_opt) (fs : npf_format_spec) : npf_format_spec :=
  mk_spec w o (left_justified fs) (leading_zero_pad fs) (prec fs) (prec_opt fs) (prepend fs)
    (alt_form fs) (case_adjust fs) (length_modifier fs) (conv_spec fs).
Definition set_prec (p : Z) (o : npf_opt) (fs : npf_format_spec) : npf_format_spec :=
  mk_spec (field_width fs) (field_width_opt fs) (left_justified fs) (leading_zero_pad fs) p o (prepend fs)
    (alt_form fs) (case_adjust fs) (length_modifier fs) (conv_spec fs).
Definition set_length (m : npf_len_mod) (fs : npf_format_spec) : npf_format_spec :=
  mk_spec (field_width fs) (field_width_opt fs) (left_justified fs) (leading_zero_pad fs) (prec fs) (prec_opt fs)
    (prepend fs) (alt_form fs) (case_adjust fs) m (conv_spec fs).
Definition set_conv (c : npf_conv) (adj : Z) (fs : npf_format_spec) : npf_format_spec :=
  mk_spec (field_width fs) (field_width_opt fs) (left_justified fs) (leading_zero_pad fs) (prec fs) (prec_opt fs)
    (prepend fs) (alt_form fs) adj (length_modifier fs) c.

Definition set_left (l : Z) (fs : npf_format_spec) : npf_format_spec :=
  set_flags l (leading_zero_pad fs) (prepend fs) (alt_form fs) fs.
Definition set_zero_pad (z : Z) (fs : npf_format_spec) : npf_format_spec :=
  set_flags (left_justified fs) z (prepend fs) (alt_form fs) fs.

Definition spec_none : npf_format_spec :=
  mk_spec 0 NPF_FMT_SPEC_OPT_NONE 0 0 0 NPF_FMT_SPEC_OPT_NONE 0 0 (ch "a" - ch "A")
    NPF_FMT_SPEC_LEN_MOD_NONE NPF_FMT_SPEC_CONV_NONE.

(** ** Parsing a specification *)

(** The loop over the flags, [cur] behind the '%'. *)
Fixpoint parse_flags (cur : list Z) (fs : npf_format_spec) : npf_format_spec * list Z :=
  match cur with
  | [] => (fs, [])
  | c :: rest =>
    if c =? ch "-" then parse_flags rest (set_flags (ch "-") 0 (prepend fs) (alt_form fs) fs)
    else if c =? ch "0" then parse_flags rest (set_zero_pad (if left_justified fs =? 0 then 1 else 0) fs)
    else if c =? ch "+" then
      parse_flags rest (set_flags (left_justified fs) (leading_zero_pad fs) (ch "+") (alt_form fs) fs)
    else if c =? ch " " then
      parse_flags rest (set_flags (left_justified fs) (leading_zero_pad fs)
        (if prepend fs =? 0 then ch " " else prepend fs) (alt_form fs) fs)
    else if c =? ch "#" then
      parse_flags rest (set_flags (left_justified fs) (leading_zero_pad fs) (prepend fs) (ch "#") fs)
    else (fs, cur)
  end.

Definition is_digit (c : Z) : bool := (ch "0" <=? c) && (c <=? ch "9").

(** The loop that reads decimal digits into an [int], whose overflow is
    undefined. *)
Fixpoint parse_number (cur : list Z) (v : Z) : option (Z * list Z) :=
  match cur with
  | c :: rest =>
    if is_digit c then
      let v := v * 10 + (c - ch "0") in
      if v <? 2 ^ 31 then parse_number rest v else None
    else Some (v, cur)
  | [] => Some (v, [])
  end.

Definition parse_width (cur : list Z) (fs : npf_format_spec) : option (npf_format_spec * list Z) :=
  match cur with
  | c :: rest =>
    if c =? ch "*" then Some (set_width 0 NPF_FMT_SPEC_OPT_STAR fs, rest) else
    '(w, rest) ← parse_number cur 0;
    Some (set_width w (if is_digit c then NPF_FMT_SPEC_OPT_LITERAL else NPF_FMT_SPEC_OPT_NONE) fs, rest)
  | [] => Some (set_width 0 NPF_FMT_SPEC_OPT_NONE fs, [])
  end.

Definition parse_prec (cur : list Z) (fs : npf_format_spec) : option (npf_format_spec * list Z) :=
  match cur with
  | c :: rest =>
    if c =? ch "." then
      match rest with
      | d :: rest' =>
        if d =? ch "*" then Some (set_prec 0 NPF_FMT_SPEC_OPT_STAR fs, rest')
        else if d =? ch "-" then
          '(p, rest) ← parse_number rest' 0; Some (set_prec p NPF_FMT_SPEC_OPT_NONE fs, rest)
        else '(p, rest) ← parse_number rest 0; Some (set_prec p NPF_FMT_SPEC_OPT_LITERAL fs, rest)
      | [] => Some (set_prec 0 NPF_FMT_SPEC_OPT_LITERAL fs, [])
      end
    else Some (set_prec 0 NPF_FMT_SPEC_OPT_NONE fs, cur)
  | [] => Some (set_prec 0 NPF_FMT_SPEC_OPT_NONE fs, [])
  end.

Definition parse_length (cur : list Z) (fs : npf_format_spec) : npf_format_spec * list Z :=
  match cur with
  | c :: rest =>
    if c =? ch "h" then
      match rest with
      | d :: rest' => if d =? ch "h" then (set_length NPF_FMT_SPEC_LEN_MOD_CHAR fs, rest')
                      else (set_length NPF_FMT_SPEC_LEN_MOD_SHORT fs, rest)
      | [] => (set_length NPF_FMT_SPEC_LEN_MOD_SHORT fs, rest)
      end
    else if c =? ch "l" then
      match rest with
      | d :: rest' => if d =? ch "l" then (set_length NPF_FMT_SPEC_LEN_MOD_LARGE_LONG_LONG fs, rest')
                      else (set_length NPF_FMT_SPEC_LEN_MOD_LONG fs, rest)
      | [] => (set_length NPF_FMT_SPEC_LEN_MOD_LONG fs, rest)
      end
    else if c =? ch "j" then (set_length NPF_FMT_SPEC_LEN_MOD_LARGE_INTMAX fs, rest)
    else if c =? ch "z" then (set_length NPF_FMT_SPEC_LEN_MOD_LARGE_SIZET fs, rest)
    else if c =? ch "t" then (set_length NPF_FMT_SPEC_LEN_MOD_LARGE_PTRDIFFT fs, rest)
    else (set_length NPF_FMT_SPEC_LEN_MOD_NONE fs, cur)
  | [] => (set_length NPF_FMT_SPEC_LEN_MOD_NONE fs, [])
  end.

(** The part that 'i', 'd', 'o', 'u', 'X' and 'x' share. *)
Definition int_conv (c : npf_conv) (adj : Z) (fs : npf_format_spec) : npf_format_spec :=
  let fs := set_conv c adj fs in
  if bool_decide (prec_opt fs = NPF_FMT_SPEC_OPT_NONE) then fs else set_zero_pad 0 fs.

Definition parse_conv (cur : list Z) (fs : npf_format_spec) : option (npf_format_spec * list Z) :=
  let lower := case_adjust fs in
  let no_prec fs := set_prec (prec fs) NPF_FMT_SPEC_OPT_NONE fs in
  match cur with
  | [] => None
  | c :: rest =>
    if c =? ch "%" then Some (no_prec (set_conv NPF_FMT_SPEC_CONV_PERCENT lower fs), rest)
    else if c =? ch "c" then Some (no_prec (set_conv NPF_FMT_SPEC_CONV_CHAR lower fs), rest)
    else if c =? ch "s" then Some (set_zero_pad 0 (set_conv NPF_FMT_SPEC_CONV_STRING lower fs), rest)
    else if (c =? ch "i") || (c =? ch "d") then Some (int_conv NPF_FMT_SPEC_CONV_SIGNED_INT lower fs, rest)
    else if c =? ch "o" then Some (int_conv NPF_FMT_SPEC_CONV_OCTAL lower fs, rest)
    else if c =? ch "u" then Some (int_conv NPF_FMT_SPEC_CONV_UNSIGNED_INT lower fs, rest)
    else if c =? ch "X" then Some (int_conv NPF_FMT_SPEC_CONV_HEX_INT 0 fs, rest)
    else if c =? ch "x" then Some (int_conv NPF_FMT_SPEC_CONV_HEX_INT lower fs, rest)
    else if c =? ch "p" then Some (no_prec (set_conv NPF_FMT_SPEC_CONV_POINTER lower fs), rest)
    else if c =? ch "B" then Some (set_conv NPF_FMT_SPEC_CONV_BINARY 0 fs, rest)
    else if c =? ch "b" then Some (set_conv NPF_FMT_SPEC_CONV_BINARY lower fs, rest)
    else None
  end.

Inductive parsed : Type :=
| Undefined
| NoSpec                                          (** [return 0] *)
| Spec (fs : npf_format_spec) (rest : list Z).    (** and [rest] is [format + length] *)

(** [cur] is [format + 1], behind the '%'. *)
Definition npf_parse_format_spec (cur : list Z) : parsed :=
  let '(fs, cur) := parse_flags cur spec_none in
  match ('(fs, cur) ← parse_width cur fs; parse_prec cur fs) with
  | None => Undefined
  | Some (fs, cur) =>
    let '(fs, cur) := parse_length cur fs in
    match parse_conv cur fs with
    | None => NoSpec
    | Some (fs, rest) => Spec fs rest
    end
  end.

(** ** Converting an argument *)

(** [va_arg]: the next slot. *)
Definition va_arg (args : list Z) : option (Z * list Z) :=
  match args with
  | [] => None
  | v :: args => Some (v, args)
  end.

(** The casts of the two NPF_EXTRACT tables. *)
Definition extract_signed (m : npf_len_mod) (v : Z) : Z :=
  match m with
  | NPF_FMT_SPEC_LEN_MOD_NONE | NPF_FMT_SPEC_LEN_MOD_LONG_DOUBLE => i32 v
  | NPF_FMT_SPEC_LEN_MOD_SHORT => i16 v
  | NPF_FMT_SPEC_LEN_MOD_CHAR => i8 v
  | _ => i64 v
  end.

Definition extract_unsigned (m : npf_len_mod) (v : Z) : Z :=
  match m with
  | NPF_FMT_SPEC_LEN_MOD_NONE | NPF_FMT_SPEC_LEN_MOD_LONG_DOUBLE => u32 v
  | NPF_FMT_SPEC_LEN_MOD_SHORT => u16 v
  | NPF_FMT_SPEC_LEN_MOD_CHAR => u8 v
  | _ => u64 v
  end.

Definition digit_char (d case_adj : Z) : Z := (if d <? 10 then ch "0" else ch "A" - 10 + case_adj) + d.

(** The digits of a 64-bit number from the lowest on; 64 rounds are enough for
    every base. *)
Fixpoint utoa_rev_loop (fuel : nat) (val base case_adj : Z) : list Z :=
  match fuel with
  | O => []
  | S fuel =>
    digit_char (val mod base) case_adj ::
    (if val / base =? 0 then [] else utoa_rev_loop fuel (val / base) base case_adj)
  end.

Definition npf_utoa_rev (val base case_adj : Z) : list Z := utoa_rev_loop 64 val base case_adj.

(** [64 - __builtin_clzll(u)] *)
Definition npf_bin_len (u : Z) : Z := if u =? 0 then 1 else Z.log2 u + 1.

Definition npf_max (x y : Z) : Z := if y <? x then x else y.

(** What the conversion leaves in the local variables.  [cbuf] is the text in
    the order it is stored: a string forwards, a number backwards. *)
Record converted : Type := mk_converted {
  cbuf : list Z;
  cbuf_len : Z;
  sign_c : Z;
  need_0x : Z;
  zero : bool;
  binval : Z
}.

Definition payload (l : list Z) : converted := mk_converted l (Z.of_nat (length l)) 0 0 false 0.

Definition has_prec (fs : npf_format_spec) : bool := negb (bool_decide (prec_opt fs = NPF_FMT_SPEC_OPT_NONE)).

Definition convert_signed (fs : npf_format_spec) (val : Z) : converted :=
  let sign := if val <? 0 then ch "-" else prepend fs in
  let l := if (val =? 0) && has_prec fs && (prec fs =? 0) then []
           else npf_utoa_rev (if val <? 0 then u64 (0 - u64 val) else u64 val) 10 (case_adjust fs) in
  mk_converted l (Z.of_nat (length l)) sign 0 (val =? 0) 0.

(** The unsigned conversions also change the precision in one case. *)
Definition convert_unsigned (fs : npf_format_spec) (val : Z) : npf_format_spec * converted :=
  let conv := conv_spec fs in
  let alt := negb (alt_form fs =? 0) in
  let octal := bool_decide (conv = NPF_FMT_SPEC_CONV_OCTAL) in
  let hex := bool_decide (conv = NPF_FMT_SPEC_CONV_HEX_INT) in
  let binary := bool_decide (conv = NPF_FMT_SPEC_CONV_BINARY) in
  let skip := (val =? 0) && has_prec fs && (prec fs =? 0) in
  let fs' := if skip && octal && alt then set_prec 1 (prec_opt fs) fs else fs in
  let l := if skip || binary then []
           else npf_utoa_rev val (if octal then 8 else if hex then 16 else 10) (case_adjust fs) in
  let l := if negb (val =? 0) && alt && octal then l ++ [ch "0"] else l in
  let len := if negb skip && binary then npf_bin_len val else Z.of_nat (length l) in
  let x := if negb (val =? 0) && alt then (if hex then ch "X" else if binary then ch "B" else 0) else 0 in
  (fs', mk_converted l len 0 (if x =? 0 then 0 else x + case_adjust fs) (val =? 0) val).

Section formatter.
Variable str : Z -> list Z.

(** The [switch] over the conversions. *)
Definition convert (fs : npf_format_spec) (args : list Z) :
    option (npf_format_spec * converted * list Z) :=
  match conv_spec fs with
  | NPF_FMT_SPEC_CONV_NONE => Some (fs, payload [], args)
  | NPF_FMT_SPEC_CONV_PERCENT => Some (fs, payload [ch "%"], args)
  | NPF_FMT_SPEC_CONV_CHAR => '(v, args) ← va_arg args; Some (fs, payload [u8 v], args)
  | NPF_FMT_SPEC_CONV_STRING =>
    '(p, args) ← va_arg args;
    let s := if p =? 0 then [] else str p in
    Some (fs, payload (if has_prec fs then take (Z.to_nat (prec fs)) s else s), args)
  | NPF_FMT_SPEC_CONV_SIGNED_INT =>
    '(v, args) ← va_arg args;
    Some (fs, convert_signed fs (extract_signed (length_modifier fs) v), args)
  | NPF_FMT_SPEC_CONV_BINARY | NPF_FMT_SPEC_CONV_OCTAL | NPF_FMT_SPEC_CONV_HEX_INT
  | NPF_FMT_SPEC_CONV_UNSIGNED_INT =>
    '(v, args) ← va_arg args;
    Some (convert_unsigned fs (extract_unsigned (length_modifier fs) v), args)
  | NPF_FMT_SPEC_CONV_POINTER =>
    '(v, args) ← va_arg args;
    let l := npf_utoa_rev (u64 v) 16 (ch "a" - ch "A") in
    Some (fs, mk_converted l (Z.of_nat (length l)) 0 (ch "x") false 0, args)
  end.

(** The arguments for '*'. *)
Definition star_width (fs : npf_format_spec) (args : list Z) : option (npf_format_spec * list Z) :=
  if bool_decide (field_width_opt fs = NPF_FMT_SPEC_OPT_STAR) then
    '(v, args) ← va_arg args;
    let w := i32 v in
    if w =? - 2 ^ 31 then None else
    Some (if w <? 0 then set_left 1 (set_width (- w) NPF_FMT_SPEC_OPT_STAR fs)
          else set_width w NPF_FMT_SPEC_OPT_STAR fs, args)
  else Some (fs, args).

Definition star_prec (fs : npf_format_spec) (args : list Z) : option (npf_format_spec * list Z) :=
  if bool_decide (prec_opt fs = NPF_FMT_SPEC_OPT_STAR) then
    '(v, args) ← va_arg args;
    let p := i32 v in
    Some (set_prec p (if p <? 0 then NPF_FMT_SPEC_OPT_NONE else NPF_FMT_SPEC_OPT_STAR) fs, args)
  else Some (fs, args).

(** The field width pad character; 0 for none. *)
Definition pad_char (fs : npf_format_spec) (z : bool) : Z :=
  if bool_decide (field_width_opt fs = NPF_FMT_SPEC_OPT_NONE) then 0
  else if leading_zero_pad fs =? 0 then ch " "
  else match conv_spec fs with
       | NPF_FMT_SPEC_CONV_STRING | NPF_FMT_SPEC_CONV_CHAR | NPF_FMT_SPEC_CONV_PERCENT => 0
       | _ => if has_prec fs && (prec fs =? 0) && z then ch " " else ch "0"
       end.

(** ** Output *)

Context {C : Type} (pc : Z -> C -> C).

(** [npf_cnt_putc_ctx_t]: the state of the receiver and the count. *)
Record npf_cnt_putc_ctx : Type := mk_cnt { cnt_ctx : C; cnt_n : Z }.

(** The count is an [int]; it wraps here where its overflow is undefined. *)
Definition NPF_PUTC (c : Z) (k : npf_cnt_putc_ctx) : npf_cnt_putc_ctx :=
  mk_cnt (pc c (cnt_ctx k)) (i32 (cnt_n k + 1)).

(** [while (n-- > 0) NPF_PUTC(c)] *)
Definition put_times (n c : Z) (k : npf_cnt_putc_ctx) : npf_cnt_putc_ctx :=
  Nat.iter (Z.to_nat n) (NPF_PUTC c) k.

Definition put_0x (x : Z) (k : npf_cnt_putc_ctx) : npf_cnt_putc_ctx :=
  if x =? 0 then k else NPF_PUTC x (NPF_PUTC (ch "0") k).

Definition put_sign (s : Z) (k : npf_cnt_putc_ctx) : npf_cnt_putc_ctx :=
  if s =? 0 then k else NPF_PUTC s k.

(** [while (cbuf_len) NPF_PUTC('0' + ((u.binval >> --cbuf_len) & 1))] *)
Fixpoint put_binary (n : nat) (v : Z) (k : npf_cnt_putc_ctx) : npf_cnt_putc_ctx :=
  match n with
  | O => k
  | S n => put_binary n v (NPF_PUTC (ch "0" + Z.land (Z.shiftr v (Z.of_nat n)) 1) k)
  end.

(** [while (cbuf_len-- > 0) NPF_PUTC(cbuf[cbuf_len])] *)
Definition put_reversed (l : list Z) (k : npf_cnt_putc_ctx) : npf_cnt_putc_ctx :=
  foldl (fun k c => NPF_PUTC c k) k (reverse l).

(** From "Write the converted payload" on. *)
Definition put_payload (fs : npf_format_spec) (c : converted) (sign prec_pad : Z) (k : npf_cnt_putc_ctx) :
    npf_cnt_putc_ctx :=
  match conv_spec fs with
  | NPF_FMT_SPEC_CONV_STRING => foldl (fun k c => NPF_PUTC c k) k (cbuf c)
  | NPF_FMT_SPEC_CONV_BINARY =>
    put_binary (Z.to_nat (cbuf_len c)) (binval c) (put_times prec_pad (ch "0") (put_sign sign k))
  | _ => put_reversed (cbuf c) (put_times prec_pad (ch "0") (put_sign sign k))
  end.

(** Everything after the conversion. *)
Definition put_field (fs : npf_format_spec) (c : converted) (k : npf_cnt_putc_ctx) : npf_cnt_putc_ctx :=
  let pad_c := pad_char fs (zero c) in
  let prec_pad := if bool_decide (conv_spec fs = NPF_FMT_SPEC_CONV_STRING) then 0
                  else npf_max 0 (prec fs - cbuf_len c) in
  let field_pad := npf_max 0 (field_width fs - cbuf_len c - (if sign_c c =? 0 then 0 else 1)
                              - (if need_0x c =? 0 then 0 else 2) - prec_pad) in
  let k :=
    if (left_justified fs =? 0) && negb (pad_c =? 0) then
      if pad_c =? ch "0" then
        put_payload fs c 0 prec_pad (put_times field_pad pad_c (put_0x (need_0x c) (put_sign (sign_c c) k)))
      else put_payload fs c (sign_c c) prec_pad (put_0x (need_0x c) (put_times field_pad pad_c k))
    else put_payload fs c (sign_c c) prec_pad (put_0x (need_0x c) k) in
  if negb (left_justified fs =? 0) && negb (pad_c =? 0) then put_times field_pad pad_c k else k.

(** One conversion: star arguments, the argument itself and the output. *)
Definition put_spec (fs : npf_format_spec) (args : list Z) (k : npf_cnt_putc_ctx) :
    option (list Z * npf_cnt_putc_ctx) :=
  '(fs, args) ← star_width fs args;
  '(fs, args) ← star_prec fs args;
  '(fs, c, args) ← convert fs args;
  Some (args, put_field fs c k).

(** The main loop; every round takes at least one byte of the format. *)
Fixpoint vpprintf_loop (fuel : nat) (cur args : list Z) (k : npf_cnt_putc_ctx) : option npf_cnt_putc_ctx :=
  match fuel, cur with
  | _, [] => Some k
  | O, _ => None
  | S fuel, c :: rest =>
    if c =? ch "%" then
      match npf_parse_format_spec rest with
      | Undefined => None
      | NoSpec => vpprintf_loop fuel rest args (NPF_PUTC c k)
      | Spec fs rest => '(args, k) ← put_spec fs args k; vpprintf_loop fuel rest args k
      end
    else vpprintf_loop fuel rest args (NPF_PUTC c k)
  end.

Definition npf_vpprintf (ctx : C) (format args : list Z) : option npf_cnt_putc_ctx :=
  vpprintf_loop (length format) format args (mk_cnt ctx 0).
End formatter.

(** ** Output to a buffer *)

Record npf_bufputc_ctx : Type := mk_bufputc { dst : Z; len : Z; cur : Z; bp_mem : mem }.

Definition npf_bufputc (c : Z) (b : npf_bufputc_ctx) : npf_bufputc_ctx :=
  if cur b <? len b then mk_bufputc (dst b) (len b) (cur b + 1) (wr (bp_mem b) (u64 (dst b + cur b)) c) else b.

Definition npf_bufputc_nop (c : Z) (b : npf_bufputc_ctx) : npf_bufputc_ctx := b.

(** The memory afterwards and the result. *)
Definition npf_vsnprintf (str : Z -> list Z) (buffer bufsz : Z) (format args : list Z) (m : mem) :
    option (mem * Z) :=
  let pc := if buffer =? 0 then npf_bufputc_nop else npf_bufputc in
  k ← npf_vpprintf str pc (mk_bufputc buffer bufsz 0 m) format args;
  let b := pc 0 (cnt_ctx k) in
  let m := if negb (buffer =? 0) && negb (bufsz =? 0) then wr (bp_mem b) (u64 (buffer + (bufsz - 1))) 0
           else bp_mem b in
  Some (m, cnt_n k).

(** ** The C library's functions *)

Definition SIZE_MAX : Z := 2 ^ 64 - 1.

Definition sprintf (str : Z -> list Z) (buf : Z) (fmt args : list Z) (m : mem) : option (mem * Z) :=
  npf_vsnprintf str buf 1024 fmt args m.

Definition snprintf (str : Z -> list Z) (buf size : Z) (fmt args : list Z) (m : mem) : option (mem * Z) :=
  '(m, _) ← npf_vsnprintf str buf size fmt args m; Some (m, 0).

Definition vsprintf (str : Z -> list Z) (buffer : Z) (fmt args : list Z) (m : mem) : option (mem * Z) :=
  npf_vsnprintf str buffer SIZE_MAX fmt args m.

Definition RESET : list Z := 27 :: cstr "[0m".

(** The bytes from [a] to the first NUL, [n] at most. *)
Fixpoint string_at (m : mem) (a : Z) (n : nat) : list Z :=
  match n with
  | O => []
  | S n => if rd m a =? 0 then [] else rd m a :: string_at m (a + 1) n
  end.

Section output.
Variable fuel : nat.
Variable flanterm_write : list Z -> M unit.

(** [for (int i = 0; s[i]; i++) serial_write(s[i])] *)
Fixpoint serial_puts (l : list Z) : M unit :=
  match l with
  | [] => ret tt
  | c :: l => serial_write fuel c;;; serial_puts l
  end.

(** [buf] is the address of the local array on the stack. *)
Definition printf (buf : Z) (str : Z -> list Z) (fmt args : list Z) : M Z :=
  modify (fun s => set_mem (memset_loop (s_mem s) buf 0 1024) s);;;
  m <- gets s_mem;;
  match npf_vsnprintf str buf 1024 fmt args m with
  | None => fault
  | Some (m, _) =>
    modify (set_mem m);;;
    serial_puts (string_at m buf 1024);;;
    serial_puts RESET;;;
    framebuffer_write flanterm_write (string_at m buf 1024);;;
    framebuffer_write flanterm_write RESET;;;
    ret 0
  end.

(** The arguments are not passed on. *)
Definition kprintf (buf : Z) (str : Z -> list Z) (fmt args : list Z) : M unit :=
  printf buf str fmt [];;; ret tt.
End output.
