(* ===== verification/Syscall.v ===== *)
(** * System calls (kernel/system/syscall.c, asm/syscall.S)

    The register block that the entry stub builds on the kernel stack is a
    [sysregs_t] in memory; the handlers read it through its address [r] and
    return an [int].  User pointers are dereferenced in [s_mem] at the address
    given.  [fuel] is the bound of the loops of the file systems and of the wait
    for the serial port; [flanterm_write] is the terminal and [printf_buf] the
    address of [printf]'s local array, as in Printf.v. *)

From S2P Require Import Printf.
From S2P Require Import Prelude Memory State Cpu Arch Libc Pmm Vmm Heap Pagemap Elf Process.
From S2P Require Import Devices Pci Devfs Tarfs Vfs.

(** ** [sysregs_t] *)

Definition r15_off : Z := 0.
Definition r14_off : Z := 8.
Definition r10_off : Z := 40.
Definition r9_off : Z := 48.
Definition r8_off : Z := 56.
Definition rdi_off : Z := 72.
Definition rsi_off : Z := 80.
Definition rdx_off : Z := 88.
Definition rax_off : Z := 112.
Definition sizeof_sysregs : Z := 120.

Definition reg (r off : Z) : M Z := read64 (r + off).

Definition SYSCALL_RESTART : Z := 0.
Definition SYSCALL_EXIT : Z := 1.
Definition SYSCALL_FORK : Z := 2.
Definition SYSCALL_READ : Z := 3.
Definition SYSCALL_WRITE : Z := 4.
Definition SYSCALL_OPEN : Z := 5.
Definition SYSCALL_CLOSE : Z := 6.
Definition SYSCALL_SEEK : Z := 8.
Definition SYSCALL_WRITEFSBASE : Z := 29.
Definition SYSCALL_GET_THREAD_ID : Z := 30.
Definition SYSCALL_MMAP : Z := 31.
Definition SYSCALL_UNMAP : Z := 32.

(** [if (ret < 0) ret = -1;] *)
Definition clamp (r : Z) : Z := if r <? 0 then -1 else r.

Section syscalls.
Variable fuel : nat.
Variable flanterm_write : list Z -> M unit.
Variable printf_buf : Z.

Definition syscall_restart (r : Z) : M Z := UNREACHABLE.

(** [syscall_exit]: as a rule [process_exit] does not come back. *)
Definition syscall_exit (r : Z) : M control :=
  rdi <- reg r rdi_off;;
  c <- process_exit (i32 rdi);;
  match c with
  | Returned => write64 (r + rax_off) 0;;; ret Returned
  | _ => ret c
  end.

Definition syscall_fork (r : Z) : M Z := UNREACHABLE.

Definition syscall_read (r : Z) : M Z :=
  fd <- reg r rdi_off;;
  buf <- reg r rsi_off;;
  len <- reg r rdx_off;;
  n <- vfs_sys_read fuel (i32 fd) buf len;;
  ret (clamp n).

(** The loop of [syscall_write] over the [n] bytes that are left from [a] on. *)
Fixpoint write_console (n : nat) (a : Z) : M unit :=
  match n with
  | O => ret tt
  | S n =>
    m <- gets s_mem;;
    let c := rd m a in
    if c =? 0 then ret tt else
    kprintf fuel flanterm_write printf_buf (fun _ => []) (cstr "%c") [u64 (i8 c)];;;
    write_console n (u64 (a + 1))
  end.

(** [syscall_write]: descriptor 1 prints up to a NUL and takes everything. *)
Definition syscall_write (r : Z) : M Z :=
  fd <- reg r rdi_off;;
  buf <- reg r rsi_off;;
  len <- reg r rdx_off;;
  let fd := i32 fd in
  if fd <? VFS_FD_OFFSET then
    if fd =? 1 then write_console (Z.to_nat len) buf;;; ret (i32 len) else ret (-1)
  else
    n <- vfs_sys_write fuel fd buf len;;
    ret (clamp n).

Definition syscall_open (r : Z) : M Z :=
  path <- reg r rdi_off;;
  flags <- reg r rsi_off;;
  mode <- reg r rdx_off;;
  n <- vfs_sys_open fuel path (i32 flags) (i32 mode);;
  ret (clamp n).

Definition syscall_close (r : Z) : M Z :=
  fd <- reg r rdi_off;;
  n <- vfs_sys_close (i32 fd);;
  ret (clamp n).

Definition syscall_seek (r : Z) : M Z :=
  fd <- reg r rdi_off;;
  offset <- reg r rsi_off;;
  whence <- reg r rdx_off;;
  n <- vfs_sys_seek fuel (i32 fd) offset (i32 whence);;
  ret (clamp n).

Definition syscall_write_fsbase (r : Z) : M Z :=
  fsbase <- reg r rdi_off;;
  if fsbase <=? 0x00007FFFFFFFFFFF then
    wrmsr MSR_FS_BASE fsbase;;;
    ret 0
  else ret (-1).

Definition syscall_get_thread_id (r : Z) : M Z :=
  cur <- process_get_current;;
  p <- get_process cur;;
  ret (i32 (p_id p)).

Definition advance_heap (cur : Z) : M unit :=
  p <- get_process cur;;
  put_process cur (set_user_heap_position (u64 (user_heap_position p + PAGE_SIZE)) p).

(** The loop of [syscall_mmap] over the pages of a device. *)
Definition map_device_page (cur data i : Z) : M unit :=
  p <- get_process cur;;
  vmm_map_page (p_pagemap p) (user_heap_position p) (u64 (data + i * PAGE_SIZE))
    (Z.lor PTE_PRESENT (Z.lor PTE_USER PTE_WRITABLE));;;
  advance_heap cur.

(** The loop of [syscall_mmap] over fresh pages. *)
Definition map_heap_page (cur i : Z) : M unit :=
  page <- pmm_allocate;;
  ASSERT (negb (page =? 0));;;
  p <- get_process cur;;
  vmm_map_page (p_pagemap p) (user_heap_position p) page
    (Z.lor PTE_PRESENT (Z.lor PTE_USER (Z.lor PTE_WRITABLE PTE_NX)));;;
  advance_heap cur.

(** [syscall_mmap]: the result is the old heap position, cut to an [int]. *)
Definition syscall_mmap (r : Z) : M Z :=
  fd <- reg r r8_off;;
  size <- reg r rsi_off;;
  cur <- process_get_current;;
  p <- get_process cur;;
  let heap_start := user_heap_position p in
  let heap_pages := u32 (ALIGN_UP size PAGE_SIZE / PAGE_SIZE) in
  (if negb (i32 fd =? -1) then
     d <- vfs_sys_mmap (i32 fd) size;;
     ASSERT (negb (d.1 =? 0));;;
     for_loop (Z.to_nat heap_pages) 0 (map_device_page cur d.1)
   else for_loop (Z.to_nat heap_pages) 0 (map_heap_page cur));;;
  ret (i32 heap_start).

(** One turn of the loop of [syscall_unmap]. *)
Definition unmap_heap_page (cur base i : Z) : M unit :=
  p <- get_process cur;;
  let virt := u64 (base + u32 (u32 i * PAGE_SIZE)) in
  phys <- vmm_virt_to_phys (p_pagemap p) virt;;
  ASSERT (negb (phys =? 0));;;
  pmm_free phys;;;
  vmm_unmap_page (p_pagemap p) virt;;;
  ret tt.

Definition syscall_unmap (r : Z) : M Z :=
  cur <- process_get_current;;
  addr <- reg r rdi_off;;
  size <- reg r rsi_off;;
  let base := Z.land addr (Z.lnot (PAGE_SIZE - 1)) in
  let pages := ALIGN_UP size PAGE_SIZE / PAGE_SIZE in
  p <- get_process cur;;
  if addr <? user_heap_start p then panic "WTF" else
  if user_heap_position p <? u64 (addr + size) then panic "WTF" else
  for_loop (Z.to_nat pages) 0 (unmap_heap_page cur base);;;
  ret 0.

(** The [switch] of [syscall_handler], without the call that may switch. *)
Definition syscall_table (r rax : Z) : M Z :=
  if rax =? SYSCALL_RESTART then syscall_restart r
  else if rax =? SYSCALL_FORK then syscall_fork r
  else if rax =? SYSCALL_READ then syscall_read r
  else if rax =? SYSCALL_WRITE then syscall_write r
  else if rax =? SYSCALL_OPEN then syscall_open r
  else if rax =? SYSCALL_CLOSE then syscall_close r
  else if rax =? SYSCALL_SEEK then syscall_seek r
  else if rax =? SYSCALL_WRITEFSBASE then syscall_write_fsbase r
  else if rax =? SYSCALL_GET_THREAD_ID then syscall_get_thread_id r
  else if rax =? SYSCALL_MMAP then syscall_mmap r
  else if rax =? SYSCALL_UNMAP then syscall_unmap r
  else if rax =? 77 then gets (fun s => ticks (s_cpu s))
  else ret (-1).

Definition syscall_handler (r : Z) : M control :=
  int_disable;;;
  rax <- reg r rax_off;;
  if rax =? SYSCALL_EXIT then
    c <- syscall_exit r;;
    match c with
    | Returned => write64 (r + rax_off) 0;;; int_resume;;; ret Returned
    | _ => ret c
    end
  else
    v <- syscall_table r rax;;
    write64 (r + rax_off) (u64 v);;;
    int_resume;;;
    ret Returned.

(** ** Entry (asm/syscall.S) *)

(** [gs:0] and [gs:8] are [krsp] and [ursp] of the process that the GS base
    points to. *)
Definition gs_base : M Z := gets (fun s => default 0 (msrs (s_cpu s) !! MSR_USER_GS_BASE)).

Definition set_ursp (v : Z) (p : process) : process :=
  mk_process (krsp p) v (p_id p) (p_name p) (wake_at p) (p_type p) (p_state p) (p_stack p)
    (stack_top p) (p_pagemap p) (user_heap_start p) (user_heap_position p) (fsbase p) (fpu_state p).

(** [syscall_trap] up to the call, with the user's registers in the order in
    which they are pushed: RAX, RBX, RCX, RDX, RSI, RDI, RBP, R8 to R15.  The
    call pushes its return address [ra] below them.  The result is the argument
    of the handler, the address of the last register. *)
Definition trap_entry (ra : Z) (user_regs : list Z) : M Z :=
  swapgs;;;
  gs <- gs_base;;
  user_rsp <- gets (fun s => rsp (s_cpu s));;
  p <- get_process gs;;
  put_process gs (set_ursp user_rsp p);;;
  stack <- PUSH_STACK (krsp p) user_regs;;
  sp <- PUSH_STACK stack [ra];;
  modify (on_cpu (set_rsp sp));;;
  ret stack.

(** [syscall_trap] after the call: the registers that [sysretq] leaves to user
    mode, in the same order. *)
Definition trap_exit (stack : Z) : M (list Z) :=
  r <- POP_STACK 15 stack;;
  gs <- gs_base;;
  p <- get_process gs;;
  put_process gs (set_krsp r.1 p);;;
  modify (on_cpu (set_rsp (ursp p)));;;
  swapgs;;;
  ret (reverse r.2).

(** The handler's [ret] takes the return address off the stack and leaves for
    it, which is the second half of the stub unless it was overwritten. *)
Definition syscall_trap (ra : Z) (user_regs : list Z) : M (control * list Z) :=
  stack <- trap_entry ra user_regs;;
  c <- syscall_handler stack;;
  match c with
  | Returned =>
    back <- POP_STACK 1 (u64 (stack - 8));;
    modify (on_cpu (set_rsp back.1));;;
    if decide (back.2 = [ra]) then r <- trap_exit stack;; ret (Returned, r)
    else ret (Jumped (hd 0 back.2), [])
  | _ => ret (c, user_regs)
  end.

(** [syscall_install] *)
Definition MSR_EFER : Z := 0xC0000080.
Definition MSR_STAR : Z := 0xC0000081.
Definition MSR_LSTAR : Z := 0xC0000082.
Definition MSR_SYSCALL_MASK : Z := 0xC0000084.

Definition syscall_install : M unit :=
  efer <- rdmsr MSR_EFER;;
  wrmsr MSR_EFER (Z.lor efer (Z.shiftl 1 0));;;
  let star := Z.lor (Z.shiftl (Z.lor 0x18 3) 48) (Z.shiftl 0x08 32) in
  wrmsr MSR_STAR star;;;
  trap <- gets (fun s => sym_syscall_trap (symbols (s_boot s)));;
  wrmsr MSR_LSTAR trap;;;
  wrmsr MSR_SYSCALL_MASK (u64 (Z.lnot 0x2)).
End syscalls.
