(* ===== verification/SyscallSpec.v ===== *)
(** * Theorems about system calls

    Anonymous [mmap] grows the user heap by fresh, zeroed, private pages; the
    entry stub gives user mode its registers back; and after a preemption the
    stub works on the wrong process. *)

From S2P Require Import Prelude Memory State Cpu Arch Libc Pmm Vmm VmmTree VmmSpec VmmFresh.
From S2P Require Import Heap HeapTiles HeapList HeapSpec HeapIface Pagemap Elf Process ProcessSpec ProcessCreate ProcessExit.
From S2P Require Import Devices Pci Devfs Tarfs Vfs Syscall.

Section mmap.
Context {PA : page_allocator pmm_allocate pmm_free}.

(** The frames [fs] now back the pages from [pos] on: none was in use before,
    each page has its own, and they are zero; every other page is as it was. *)
Record mmapped (s : kstate) (pm root : Z) (T : gmap (list Z) Z) (pos flags : Z) (fs : list Z)
    (s' : kstate) (T' : gmap (list Z) Z) : Prop := {
  mm_ready : vmm_ready s' pm root T';
  mm_boot : s_boot s' = s_boot s;
  mm_fresh : forall f, f ∈ fs -> ~ frame_used s f /\ frame_used s' f;
  mm_nodup : NoDup fs;
  mm_tables : forall f p, f ∈ fs -> T' !! p <> Some f;
  mm_leaf : forall w, leaf_entry s' T' w =
    match fs !! Z.to_nat (vpn w - vpn pos) with
    | Some f => if vpn pos <=? vpn w then Z.lor (Z.lor f flags) 1 else leaf_entry s T w
    | None => leaf_entry s T w
    end;
  mm_zero : forall f x, f ∈ fs -> in_frame s f x -> rd (s_mem s') x = 0;
  mm_mono : forall a, frame_used s a -> frame_used s' a
}.

Lemma mmapped_nil s pm root T pos flags : vmm_ready s pm root T -> mmapped s pm root T pos flags [] s T.
Proof.
  intros R. split; try done; [by intros f ?%elem_of_nil|apply NoDup_nil; done|by intros f p ?%elem_of_nil|by intros f x ?%elem_of_nil].
Qed.

Lemma vpn_low_half v : 0 <= v < 2 ^ 48 -> vpn v = v / 4096.
Proof. intros. unfold vpn. apply Z.mod_small. zlia. Qed.

Lemma vpn_range v : 0 <= vpn v < 2 ^ 36.
Proof. apply Z.mod_pos_bound. lia. Qed.

Lemma mmapped_app s pm root T pos flags fs s1 T1 f s2 T2 :
  0 <= pos -> pos mod 4096 = 0 -> pos + (Z.of_nat (length fs) + 1) * 4096 <= 2 ^ 48 ->
  mmapped s pm root T pos flags fs s1 T1 ->
  mapped_fresh s1 pm root T1 (pos + Z.of_nat (length fs) * 4096) flags f s2 T2 ->
  mmapped s pm root T pos flags (fs ++ [f]) s2 T2.
Proof.
  intros Hp Hal Hmax [M1 M2 M3 M4 M5 M6 M7 M8] [F1 F2 F3 F4 F5 F6 F7 F8 F9 F10].
  assert (forall t x, in_frame s1 t x <-> in_frame s t x) as Hin by (intros; unfold in_frame; by rewrite M2).
  assert (forall g, g ∈ fs -> g mod 4096 = 0) as Hmod.
  { intros g Hg. destruct (M3 g Hg) as [_ Hu]. by destruct (pa_range _ _ (vr_pmm _ _ _ _ M1) Hu). }
  destruct (pa_range _ _ (vr_pmm _ _ _ _ F1) F4) as [Hfm _].
  split; [done|by rewrite (sc_boot _ _ F2)| | | | | |].
  - intros g [Hg| ->%list_elem_of_singleton]%elem_of_app.
    + destruct (M3 g Hg). auto.
    + split; [|done]. intros Hu. by apply F3, M8.
  - apply NoDup_app. split_and!; [done| |apply NoDup_singleton]. intros g Hg ->%list_elem_of_singleton.
    by apply F3, (M3 f Hg).
  - intros g p [Hg| ->%list_elem_of_singleton]%elem_of_app; [|apply F5]. intros Hpg.
    destruct (F6 p g Hpg) as [(q & Hq)|Hnu]; [by apply (M5 g q Hg)|by apply Hnu, (M3 g Hg)].
  - intros w. rewrite F7, M6. pose proof (vpn_range w). rewrite (vpn_low_half pos), (vpn_low_half (pos + _)) by lia.
    replace ((pos + Z.of_nat (length fs) * 4096) / 4096) with (pos / 4096 + Z.of_nat (length fs)) by zlia.
    destruct (Z.eqb_spec (vpn w) (pos / 4096 + Z.of_nat (length fs))) as [->|Hne].
    + replace (Z.to_nat (pos / 4096 + Z.of_nat (length fs) - pos / 4096)) with (length fs) by lia.
      rewrite list_lookup_middle by done. destruct (Z.leb_spec (pos / 4096) (pos / 4096 + Z.of_nat (length fs))); [done|lia].
    + destruct (Z.leb_spec (pos / 4096) (vpn w)).
      * destruct (decide (Z.to_nat (vpn w - pos / 4096) < length fs)%nat); [by rewrite lookup_app_l|].
        rewrite !lookup_ge_None_2; [done|rewrite length_app; cbn; lia|lia].
      * by destruct (fs !! _), ((fs ++ [f]) !! _).
  - intros g x Hg Hx. apply elem_of_app in Hg as [Hg| ->%list_elem_of_singleton]; [|by apply F9, Hin].
    rewrite F10; [by apply (M7 g)|]. intros (t & Ht & [[q Hq]|[Hnt Hut]]).
    + pose proof (tr_used _ _ _ (vr_tree _ _ _ _ M1) q t Hq) as Hu.
      destruct (pa_range _ _ (vr_pmm _ _ _ _ M1) Hu) as [Htm _].
      apply (frames_disjoint s t g x); auto; [by intros ->; apply (M5 g q Hg)|by apply Hin].
    + destruct (pa_range _ _ (vr_pmm _ _ _ _ F1) Hut) as [Htm _].
      apply (frames_disjoint s t g x); auto; [by intros ->; apply Hnt, (M3 g Hg)|by apply Hin].
  - auto.
Qed.

(** Process bookkeeping is no part of the address space. *)
Lemma mmapped_proc s pm root T pos flags fs s' T' g :
  mmapped s pm root T pos flags fs s' T' -> mmapped s pm root T pos flags fs (on_proc g s') T'.
Proof.
  intros [M1 M2 M3 M4 M5 M6 M7 M8].
  destruct (heap_frame_ready s' (on_proc g s') pm root T' M1) as (R & L & U); try done.
  { by apply (pa_cpu s'), (vr_pmm _ _ _ _ M1). }
  split; try done.
  - intros f Hf. rewrite U. by apply M3.
  - intros a Ha. by apply U, M8.
Qed.

(** One turn of the loop. *)
Lemma map_heap_page_spec s pm root T cur p i :
  vmm_ready s pm root T -> processes (s_proc s) !! cur = Some p -> p_pagemap p = pm ->
  0 <= user_heap_position p -> user_heap_position p + 4096 < 2 ^ 64 ->
  wp (map_heap_page cur i) s
    (fun _ s' => exists f s1 T', mapped_fresh s pm root T (user_heap_position p) (7 + 2 ^ 63) f s1 T' /\
       s' = on_proc (with_process cur (set_user_heap_position (user_heap_position p + 4096) p)) s1) out_of_memory.
Proof.
  intros R Hp Hpm H0 Hmax. unfold map_heap_page.
  change (Z.lor PTE_PRESENT (Z.lor PTE_USER (Z.lor PTE_WRITABLE PTE_NX))) with (7 + 2 ^ 63).
  pose proof (map_fresh_spec s pm root T (user_heap_position p) (7 + 2 ^ 63) (fun a => ASSERT (negb (a =? 0))) R H0) as Hm.
  specialize (Hm ltac:(lia)). specialize (Hm ltac:(intros a t Ha; cbv beta; destruct (Z.eqb_spec a 0); [lia|reflexivity])).
  pose proof (pa_allocate s (vr_pmm _ _ _ _ R)) as Ha. unfold wp, bind in Hm, Ha |- *.
  destruct (pmm_allocate s) as [a s1|? ?| | |]; try done. destruct Ha as (_ & _ & _ & _ & _ & C & _).
  destruct (ASSERT (negb (a =? 0)) s1) as [[] s1'|? ?| | |] eqn:EA; try done.
  assert (s1' = s1) as ->. { unfold ASSERT in EA. destruct (negb (a =? 0)); [|done]. by injection EA. }
  unfold get_process. rewrite (sc_proc _ _ C), Hp, Hpm.
  destruct (vmm_map_page pm (user_heap_position p) a (7 + 2 ^ 63) s1) as [b s2|? ?| | |]; try done.
  destruct Hm as (_ & f & T' & F). unfold advance_heap, put_process, modify, bind, get_process.
  assert (processes (s_proc s2) !! cur = Some p) as Hp2 by (rewrite (sc_proc _ _ (mf_ctx _ _ _ _ _ _ _ _ _ F)); exact Hp).
  rewrite Hp2. exists f, s2, T'. split; [done|]. change PAGE_SIZE with 4096. by rewrite u64_small by lia.
Qed.

(** C16: an anonymous [mmap] of [size] bytes maps that many bytes, rounded up to
    pages, at the end of the user heap: each page gets a zeroed frame of its
    own that was not in use, readable and writable but not executable by the
    program, no other page changes, and the heap ends after the new pages.  The
    result is the old end of the heap as an [int]: a program whose heap lies
    above 2 GiB gets a different address back. *)
Theorem mmap_anonymous_spec (s : kstate) (r : Z) (h : Z) (l : list Z) (cur : Z) (p : process) (size root : Z)
    (T : gmap (list Z) Z) :
  let pos := user_heap_position p in
  let n := (size + 4095) / 4096 in
  load64 (s_mem s) (r + r8_off) = 2 ^ 64 - 1 -> load64 (s_mem s) (r + rsi_off) = size ->
  ring (s_proc s) h l -> option_map n_process (nodes (s_proc s) !! h) = Some cur ->
  processes (s_proc s) !! cur = Some p -> vmm_ready s (p_pagemap p) root T ->
  0 <= pos -> pos mod 4096 = 0 -> 0 <= size <= 2 ^ 40 -> pos + size + 4096 <= 2 ^ 47 ->
  wp (syscall_mmap r) s
    (fun v s' => v = i32 pos /\ exists fs T', Z.of_nat (length fs) = n /\
       mmapped s (p_pagemap p) root T pos (7 + 2 ^ 63) fs s' T' /\
       s_proc s' = with_process cur (set_user_heap_position (pos + n * 4096) p) (s_proc s)) out_of_memory.
Proof.
  intros pos n Hfd Hsize Hring Hcur Hp R Hpos Hal Hsz Hmax. unfold syscall_mmap, reg, read64.
  apply wp_bind, wp_gets. apply wp_bind, wp_gets. rewrite Hfd, Hsize.
  eapply wp_bind, wp_ok; [by apply (process_get_current_run s h l)|]. apply wp_bind. eapply wp_get_process; [exact Hp|].
  change (negb (i32 (2 ^ 64 - 1) =? -1)) with false. cbn zeta.
  assert (u32 (ALIGN_UP size PAGE_SIZE / PAGE_SIZE) = n) as ->.
  { unfold ALIGN_UP. change (PAGE_SIZE - 1) with 4095. change PAGE_SIZE with 4096. rewrite land_lnot_page.
    rewrite u64_small by lia. rewrite Z.div_mul by lia. unfold n. rewrite u32_small by zlia. f_equal. lia. }
  assert (0 <= n /\ n * 4096 <= size + 4095) as [Hn Hn2] by (unfold n; zlia).
  eapply wp_call.
  - apply (wp_for_loop (fun j s' => exists fs T', Z.of_nat (length fs) = j /\
      mmapped s (p_pagemap p) root T pos (7 + 2 ^ 63) fs s' T' /\
      s_proc s' = with_process cur (set_user_heap_position (pos + j * 4096) p) (s_proc s)) (Z.to_nat n) 0).
    + exists [], T. split_and!; [done|by apply mmapped_nil|]. unfold with_process, pos. rewrite Z.add_0_r, insert_id; [by destruct (s_proc s)|].
      rewrite Hp. by destruct p.
    + intros j s1 Hj (fs & T1 & Hlen & M & Hpr).
      set (p1 := set_user_heap_position (pos + j * 4096) p).
      assert (processes (s_proc s1) !! cur = Some p1) as Hp1 by (rewrite Hpr; apply lookup_insert_eq).
      eapply wp_mono; [apply (map_heap_page_spec s1 (p_pagemap p) root T1 cur p1 j (mm_ready _ _ _ _ _ _ _ _ _ M) Hp1)| |done];
        [done|cbn [p1 set_user_heap_position user_heap_position]; lia..|].
      intros [] s2 (f & s1' & T2 & F & ->). exists (fs ++ [f]), T2. split_and!.
      * rewrite length_app. cbn [length]. lia.
      * apply mmapped_proc. apply (mmapped_app s (p_pagemap p) root T pos (7 + 2 ^ 63) fs s1 T1); [done|done|lia|done|].
        rewrite Hlen. exact F.
      * cbn [on_proc set_proc s_proc]. rewrite (sc_proc _ _ (mf_ctx _ _ _ _ _ _ _ _ _ F)), Hpr. unfold with_process.
        cbn [set_processes processes]. rewrite insert_insert_eq. unfold p1.
        cbn [set_user_heap_position user_heap_position]. replace (pos + j * 4096 + 4096) with (pos + (j + 1) * 4096) by lia. reflexivity.
  - intros [] s' (fs & T' & Hlen & M & Hpr). apply wp_ret. split; [done|]. exists fs, T'.
    replace (0 + Z.of_nat (Z.to_nat n)) with n in * by lia. done.
Qed.
End mmap.

(** ** The entry stub *)

Definition gs_of (s : kstate) : Z := default 0 (msrs (s_cpu s) !! MSR_USER_GS_BASE).
Definition kernel_gs_of (s : kstate) : Z := default 0 (msrs (s_cpu s) !! MSR_KERNEL_GS_BASE).

Lemma swapgs_run s : exists c, swapgs s = Ok tt (set_cpu c s) /\
  gs_of (set_cpu c s) = kernel_gs_of s /\ kernel_gs_of (set_cpu c s) = gs_of s /\
  rsp c = rsp (s_cpu s) /\ ticks c = ticks (s_cpu s) /\ mask_of c = mask_of (s_cpu s).
Proof.
  eexists. split; [reflexivity|]. unfold gs_of, kernel_gs_of. cbn [s_cpu set_cpu msrs set_msrs].
  split; [by rewrite lookup_insert_eq|]. split; [|done].
  rewrite lookup_insert_ne by done. by rewrite lookup_insert_eq.
Qed.

(** The numbers that [syscall_handler] answers without doing anything. *)
Definition passive (rax : Z) : Prop :=
  rax = 77 \/ ((7 <= rax /\ rax <> 8) /\ ~ (29 <= rax <= 32) /\ rax <> 77).

Lemma passive_run fuel fw buf r rax s : passive rax ->
  syscall_table fuel fw buf r rax s = Ok (if rax =? 77 then ticks (s_cpu s) else -1) s.
Proof.
  intros Hp. unfold syscall_table, SYSCALL_RESTART, SYSCALL_FORK, SYSCALL_READ, SYSCALL_WRITE, SYSCALL_OPEN, SYSCALL_CLOSE,
    SYSCALL_SEEK, SYSCALL_WRITEFSBASE, SYSCALL_GET_THREAD_ID, SYSCALL_MMAP, SYSCALL_UNMAP.
  destruct Hp as [->|([? ?] & ? & ?)]; [done|].
  repeat match goal with |- context [rax =? ?k] => destruct (Z.eqb_spec rax k); [lia|] end. done.
Qed.

Lemma resume_disable_fields c :
  msrs (cpu_int_resume (cpu_int_disable c)) = msrs c /\ rsp (cpu_int_resume (cpu_int_disable c)) = rsp c.
Proof. unfold cpu_int_resume, cpu_int_disable. by destruct (sync_depth c =? 0); cbn; repeat case_match. Qed.

(** Code that leaves a part of the state alone. *)
Definition keeps {A X} (f : kstate -> X) (m : M A) : Prop := forall s a s', m s = Ok a s' -> f s' = f s.

Lemma keeps_bind {A B X} (f : kstate -> X) (m : M A) (k : A -> M B) :
  keeps f m -> (forall a, keeps f (k a)) -> keeps f (bind m k).
Proof. intros Hm Hk s b s' (a & s1 & E1 & E2)%bind_inv. by rewrite (Hk _ _ _ _ E2), (Hm _ _ _ E1). Qed.

Lemma keeps_ret {A X} (f : kstate -> X) (a : A) : keeps f (ret a).
Proof. by intros s b s' [= _ <-]. Qed.

Lemma keeps_gets {A X} (f : kstate -> X) (g : kstate -> A) : keeps f (gets g).
Proof. by intros s b s' [= _ <-]. Qed.

Lemma keeps_modify {X} (f : kstate -> X) g : (forall s, f (g s) = f s) -> keeps f (modify g).
Proof. intros H s b s' E. unfold modify in E. injection E as _ <-. apply H. Qed.

Lemma keeps_ASSERT {X} (f : kstate -> X) b : keeps f (ASSERT b).
Proof. intros s a s'. unfold ASSERT, ret, panic. destruct b; [by intros [= _ <-]|done]. Qed.

Lemma keeps_when {X} (f : kstate -> X) b m : keeps f m -> keeps f (when b m).
Proof. intros H. destruct b; [done|apply keeps_ret]. Qed.

Lemma keeps_get_process {X} (f : kstate -> X) a : keeps f (get_process a).
Proof. intros s b s'. unfold get_process. destruct (_ !! _); [by intros [= _ <-]|done]. Qed.

Lemma keeps_wrmsr r v : u32 r <> MSR_KERNEL_GS_BASE -> keeps kernel_gs_of (wrmsr r v).
Proof.
  intros Hr. apply keeps_modify. intros s. unfold kernel_gs_of. cbn [on_cpu set_cpu s_cpu msrs set_msrs].
  by rewrite lookup_insert_ne.
Qed.

Lemma keeps_switch_pagemap pm : keeps kernel_gs_of (vmm_switch_pagemap pm).
Proof.
  unfold vmm_switch_pagemap. destruct (pm =? 0); [by intros ? ? ?|].
  apply keeps_bind; [intros s a s'; unfold base_virt; repeat case_match; by intros [= _ <-] || done|].
  intros b. destruct (b =? 0); [by intros ? ? ?|]. apply keeps_bind; [apply keeps_gets|]. intros o. by apply keeps_modify.
Qed.

Create HintDb keeps.
#[export] Hint Resolve keeps_ret keeps_gets keeps_ASSERT keeps_when keeps_get_process keeps_switch_pagemap : keeps.
#[export] Hint Extern 1 (keeps _ (bind _ _)) => apply keeps_bind; [|intros ?] : keeps.
#[export] Hint Extern 1 (keeps _ (modify _)) => apply keeps_modify; reflexivity : keeps.
#[export] Hint Extern 1 (keeps _ (wrmsr _ _)) => apply keeps_wrmsr; discriminate : keeps.
#[export] Hint Extern 1 (keeps _ (put_process _ _)) => apply keeps_modify; reflexivity : keeps.
#[export] Hint Extern 1 (keeps _ (tss_set_stack _)) => apply keeps_modify; reflexivity : keeps.
#[export] Hint Extern 1 (keeps _ (rdmsr _)) => unfold rdmsr : keeps.

Lemma load_context_keeps a b : keeps kernel_gs_of (load_context a b).
Proof. unfold load_context. auto 30 with keeps. Qed.

(** The scheduler writes the GS base that is in use and leaves the other. *)
Lemma load_context_gs a b s s1 : in_u64 b -> load_context a b s = Ok tt s1 ->
  gs_of s1 = b /\ kernel_gs_of s1 = kernel_gs_of s.
Proof.
  intros Hb Hl. split; [|by apply (load_context_keeps a b s tt)].
  unfold load_context in Hl.
  repeat match type of Hl with bind (wrmsr _ _) _ _ = _ => fail 1 | bind _ _ _ = _ => apply bind_inv in Hl as (? & ? & _ & Hl) end.
  rewrite wrmsr_run in Hl by done. injection Hl as <-. unfold gs_of. cbn [on_cpu set_cpu s_cpu msrs set_msrs].
  by rewrite lookup_insert_eq.
Qed.

(** What the stub has done when it calls the handler. *)
Record entered (s : kstate) (gs : Z) (p : process) (ra : Z) (regs : list Z) (s1 : kstate) : Prop := {
  en_mem : s_mem s1 = push_mem (push_mem (s_mem s) (krsp p) regs) (krsp p - 8 * Z.of_nat (length regs)) [ra];
  en_rsp : rsp (s_cpu s1) = krsp p - 8 * Z.of_nat (length regs) - 8;
  en_proc : s_proc s1 = with_process gs (set_ursp (rsp (s_cpu s)) p) (s_proc s);
  en_gs : gs_of s1 = gs;
  en_kgs : kernel_gs_of s1 = gs_of s;
  en_ticks : ticks (s_cpu s1) = ticks (s_cpu s);
  en_mask : mask_of (s_cpu s1) = mask_of (s_cpu s)
}.

Lemma trap_entry_run s gs p ra regs :
  kernel_gs_of s = gs -> processes (s_proc s) !! gs = Some p -> 8 * Z.of_nat (length regs) + 8 <= krsp p < 2 ^ 64 ->
  exists s1, trap_entry ra regs s = Ok (krsp p - 8 * Z.of_nat (length regs)) s1 /\ entered s gs p ra regs s1.
Proof.
  intros Hgs Hp Hk. unfold trap_entry. destruct (swapgs_run s) as (c & E & G1 & G2 & Hrsp & Htk & Hmk).
  erewrite bind_ok by exact E. unfold gs_base. erewrite bind_ok by reflexivity. fold (gs_of (set_cpu c s)).
  rewrite G1, Hgs. erewrite bind_ok by reflexivity.
  erewrite bind_ok by (unfold get_process; cbn [s_proc set_cpu]; rewrite Hp; reflexivity).
  erewrite bind_ok by reflexivity. erewrite bind_ok by (apply PUSH_STACK_run; lia).
  erewrite bind_ok by (apply PUSH_STACK_run; cbn [length]; lia).
  eexists. split; [reflexivity|]. cbn [s_cpu set_cpu]. rewrite Hrsp. split; try done.
  by rewrite <- Hgs, <- G1.
Qed.

Lemma trap_exit_run s gs p sp regs :
  gs_of s = gs -> processes (s_proc s) !! gs = Some p -> words (s_mem s) sp 15 = reverse regs ->
  0 <= sp -> sp + 120 < 2 ^ 64 ->
  exists s', trap_exit sp s = Ok regs s' /\ s_mem s' = s_mem s /\
    s_proc s' = with_process gs (set_krsp (sp + 120) p) (s_proc s) /\ rsp (s_cpu s') = ursp p /\
    gs_of s' = kernel_gs_of s /\ kernel_gs_of s' = gs.
Proof.
  intros Hgs Hp Hw H0 Hsp. unfold trap_exit. erewrite bind_ok by (apply POP_STACK_run; lia).
  unfold gs_base. erewrite bind_ok by reflexivity. fold (gs_of s). rewrite Hgs.
  erewrite bind_ok by (unfold get_process; rewrite Hp; reflexivity). erewrite bind_ok by reflexivity.
  erewrite bind_ok by reflexivity.
  match goal with |- exists s', bind swapgs _ ?x = _ /\ _ => destruct (swapgs_run x) as (c & E & G1 & G2 & Hr & _) end.
  erewrite bind_ok by exact E. cbn [snd]. rewrite Hw, reverse_involutive. eexists. split; [reflexivity|].
  split_and!; [done|done|cbn [s_cpu set_cpu]; rewrite Hr; reflexivity|exact G1|]. etransitivity; [exact G2|exact Hgs].
Qed.

(** What the stack holds when the stub calls the handler. *)
Lemma entered_words s gs p ra regs s1 :
  Forall in_u64 regs -> in_u64 ra -> entered s gs p ra regs s1 ->
  let sp := krsp p - 8 * Z.of_nat (length regs) in
  words (s_mem s1) sp (length regs) = reverse regs /\ words (s_mem s1) (sp - 8) 1 = [ra].
Proof.
  intros Hu Hra N sp. rewrite (en_mem _ _ _ _ _ _ N). fold sp. split.
  - rewrite <- (words_push (s_mem s) (krsp p) regs Hu). fold sp. apply words_ext. intros x Hx. apply rd_push_mem.
    cbn [length]. lia.
  - apply (words_push (push_mem (s_mem s) (krsp p) regs) sp [ra]). by apply Forall_singleton.
Qed.

(** The state after a system call that only answers. *)
Definition answered (m : mem) (s : kstate) : kstate :=
  on_mem (fun _ => m) (on_cpu (fun c => cpu_int_resume (cpu_int_disable c)) s).

Lemma answered_gs m s : gs_of (answered m s) = gs_of s /\ kernel_gs_of (answered m s) = kernel_gs_of s.
Proof.
  unfold gs_of, kernel_gs_of, answered. cbn [on_mem on_cpu s_cpu set_mem set_cpu].
  by rewrite (proj1 (resume_disable_fields _)).
Qed.

Lemma passive_handler_run fuel fw buf s sp rax :
  load64 (s_mem s) (sp + 112) = rax -> passive rax -> in_u64 (ticks (s_cpu s)) ->
  let v := if rax =? 77 then ticks (s_cpu s) else 2 ^ 64 - 1 in
  syscall_handler fuel fw buf sp s = Ok Returned (answered (store64 (s_mem s) (sp + 112) v) s).
Proof.
  intros Hrax Hpas Htk v. unfold syscall_handler. erewrite bind_ok by reflexivity.
  unfold reg, read64, rax_off. erewrite bind_ok by reflexivity.
  change (s_mem (on_cpu cpu_int_disable s)) with (s_mem s). rewrite Hrax.
  destruct (Z.eqb_spec rax SYSCALL_EXIT) as [->|_]; [unfold passive, SYSCALL_EXIT in Hpas; lia|].
  erewrite bind_ok by by apply passive_run. unfold write64, modify, bind, ret. f_equal. unfold answered, v.
  replace (ticks (s_cpu (on_cpu cpu_int_disable s))) with (ticks (s_cpu s)).
  2: { unfold on_cpu, cpu_int_disable. cbn [s_cpu set_cpu]. by destruct (_ =? 0). }
  destruct (rax =? 77); [|done]. by rewrite u64_small by exact Htk.
Qed.

(** A [write] of text to descriptor 1 runs into undefined behaviour: [kprintf]
    does not pass its arguments on, so its conversion of the first character
    has none. *)
Lemma write_console_undefined fuel fw buf r s :
  i32 (load64 (s_mem s) (r + rdi_off)) = 1 -> 0 < load64 (s_mem s) (r + rdx_off) ->
  rd (s_mem s) (load64 (s_mem s) (r + rsi_off)) <> 0 ->
  exists s', syscall_write fuel fw buf r s = Fault s'.
Proof.
  intros Hfd Hlen Hc. unfold syscall_write, reg, read64. do 3 erewrite bind_ok by reflexivity. cbv zeta.
  rewrite Hfd. change (1 <? VFS_FD_OFFSET) with true. change (1 =? 1) with true. cbv iota.
  destruct (Z.to_nat _) as [|n] eqn:En; [lia|]. unfold bind at 1. cbn [write_console]. erewrite bind_ok by reflexivity.
  destruct (Z.eqb_spec (rd (s_mem s) (load64 (s_mem s) (r + rsi_off))) 0); [done|].
  by eexists.
Qed.

(** ** Properties *)

(** C17: a system call that changes nothing gives user mode everything back.
    From user mode the stub finds the process through the GS base kept aside,
    runs on that process's kernel stack and returns with the answer in RAX,
    every other register, the stack pointer and both GS bases as they were,
    and, the frames that the compiled handler uses further down apart, writes
    nothing outside the 120 bytes of the register block and the 8 bytes of the
    return address below it. *)
Theorem syscall_trap_restores (fuel : nat) (fw : list Z -> M unit) (buf : Z) (s : kstate) (gs : Z) (p : process)
    (ra rax : Z) (rest : list Z) :
  kernel_gs_of s = gs -> processes (s_proc s) !! gs = Some p -> 128 <= krsp p < 2 ^ 64 -> in_u64 ra ->
  length rest = 14%nat -> Forall in_u64 (rax :: rest) -> passive rax -> in_u64 (ticks (s_cpu s)) ->
  exists s', syscall_trap fuel fw buf ra (rax :: rest) s =
      Ok (Returned, (if rax =? 77 then ticks (s_cpu s) else 2 ^ 64 - 1) :: rest) s' /\
    rsp (s_cpu s') = rsp (s_cpu s) /\ gs_of s' = gs_of s /\ kernel_gs_of s' = gs /\
    s_proc s' = with_process gs (set_ursp (rsp (s_cpu s)) p) (s_proc s) /\
    agree_off (fun x => krsp p - 128 <= x < krsp p) (s_mem s) (s_mem s').
Proof.
  intros Hgs Hp Hk Hra Hlen Hu Hpas Htk. set (v := if rax =? 77 then ticks (s_cpu s) else 2 ^ 64 - 1).
  destruct (trap_entry_run s gs p ra (rax :: rest) Hgs Hp) as (s1 & E1 & N); [cbn [length]; lia|].
  destruct (entered_words s gs p ra (rax :: rest) s1 Hu Hra N) as [Hw Hwra].
  destruct N as [N1 N0 N2 N3 N4 N5 N6].
  unfold syscall_trap. erewrite bind_ok by exact E1. cbn [length] in *. rewrite Hlen in *.
  change (8 * Z.of_nat 15) with 120 in *. set (sp := krsp p - 120) in *.
  rewrite (words_app _ _ 14 1), reverse_cons in Hw. change (8 * Z.of_nat 14) with 112 in Hw.
  apply app_inj_2 in Hw as [Hw1 Hw2]; [|done]. cbn [words] in Hw2. injection Hw2 as Hrax.
  assert (in_u64 v) as Hv by (unfold v, in_u64 in *; destruct (rax =? 77); lia).
  erewrite bind_ok by (apply (passive_handler_run fuel fw buf s1 sp rax); [done|done|by rewrite N5]).
  rewrite N5. fold v. set (m2 := store64 (s_mem s1) (sp + 112) v). set (s2 := answered m2 s1).
  erewrite bind_ok by (apply POP_STACK_run; rewrite u64_small by lia; lia). cbn [fst snd].
  rewrite u64_small by lia. change (s_mem s2) with m2.
  assert (words m2 (sp - 8) 1 = [ra]) as ->.
  { rewrite <- Hwra. apply words_ext. intros x Hx. apply rd_store64_ne. lia. }
  erewrite bind_ok by reflexivity. rewrite decide_True by done.
  set (s2' := on_cpu (set_rsp _) s2).
  assert (words (s_mem s2') sp 15 = reverse (v :: rest)) as Hw'.
  { change (s_mem s2') with m2. rewrite (words_app _ _ 14 1), reverse_cons. change (8 * Z.of_nat 14) with 112.
    change (words m2 (sp + 112) 1) with [load64 m2 (sp + 112)].
    assert (load64 m2 (sp + 112) = v) as -> by (apply load_store64; exact Hv). f_equal. rewrite <- Hw1. apply words_ext.
    intros x Hx. apply rd_store64_ne. change (8 * Z.of_nat 14) with 112 in Hx. lia. }
  destruct (answered_gs m2 s1) as [Hg2 Hk2]. fold s2 in Hg2, Hk2.
  destruct (trap_exit_run s2' gs (set_ursp (rsp (s_cpu s)) p) sp (v :: rest)) as (s3 & E3 & X1 & X2 & X3 & X4 & X5);
    [by etransitivity; [exact Hg2|exact N3]| |done|lia|lia|].
  { change (s_proc s2') with (s_proc s1). rewrite N2. apply lookup_insert_eq. }
  erewrite bind_ok by exact E3. exists s3. split; [done|]. split_and!; [exact X3| |exact X5| |].
  - rewrite X4. etransitivity; [exact Hk2|exact N4].
  - rewrite X2. change (s_proc s2') with (s_proc s1). rewrite N2. unfold with_process. cbn [processes set_processes].
    rewrite insert_insert_eq. replace (sp + 120) with (krsp p) by lia. reflexivity.
  - intros x Hx. rewrite X1. change (s_mem s2') with m2. unfold m2. rewrite rd_store64_ne by lia. rewrite N1.
    rewrite !rd_push_mem; [done|cbn [length]; rewrite Hlen; lia|cbn [length]; lia].
Qed.

(** C34: after a preemption the entry stub works on the wrong process.  The
    timer stub does not exchange the GS bases, so when the scheduler takes the
    processor from user process [a] to user process [b] it writes [b] into the
    base in use and leaves [a] in the one kept aside.  The next system call of
    [b] therefore stores the user stack pointer of [b] into [a] and pushes its
    registers and a return address onto the kernel stack of [a], over the frame
    that [a] was switched out with. *)
Theorem preempted_syscall_wrong_process (s s1 s2 : kstate) (a b : Z) (pa : process) (ra : Z) (regs : list Z) :
  kernel_gs_of s = a -> in_u64 b -> load_context a b s = Ok tt s1 ->
  msrs (s_cpu s2) = msrs (s_cpu s1) -> processes (s_proc s2) !! a = Some pa ->
  8 * Z.of_nat (length regs) + 8 <= krsp pa < 2 ^ 64 ->
  gs_of s2 = b /\
  exists s3, trap_entry ra regs s2 = Ok (krsp pa - 8 * Z.of_nat (length regs)) s3 /\ entered s2 a pa ra regs s3.
Proof.
  intros Ha Hb Hl Em Hpa Hk.
  assert (gs_of s1 = b /\ kernel_gs_of s1 = kernel_gs_of s) as [G1 G2] by by apply (load_context_gs a).
  assert (gs_of s2 = gs_of s1 /\ kernel_gs_of s2 = kernel_gs_of s1) as [G3 G4] by (unfold gs_of, kernel_gs_of; by rewrite Em).
  split; [congruence|]. apply trap_entry_run; [congruence|done|done].
Qed.

(** ** Witnesses *)

(** A register block in the kernel's image: [mmap] of 5000 bytes, no file. *)
Definition demo_regs : Z := 0xFFFFFFFF80000000.
Definition demo_mmap : kstate :=
  on_mem (fun m => store64 (store64 m (demo_regs + r8_off) (2 ^ 64 - 1)) (demo_regs + rsi_off) 5000) demo_machine.

Lemma demo_mmap_ready : vmm_ready demo_mmap 0x5000 0x1000 (demo_tables KERNEL_HEAP_START).
Proof.
  destruct demo_machine_ok as [[H _ _ _ _ _ _ _] _].
  destruct (heap_frame_ready demo_machine demo_mmap 0x5000 0x1000 (demo_tables KERNEL_HEAP_START) H) as (R & _);
    [reflexivity|reflexivity|exact (pa_cpu _ (vr_pmm _ _ _ _ H))|reflexivity|reflexivity|reflexivity| |exact R].
  intros x Hx. cbn [demo_mmap on_mem s_mem set_mem]. unfold demo_regs, r8_off, rsi_off.
  rewrite !rd_store64_ne by lia. reflexivity.
Qed.

Lemma mmap_anonymous_spec_witness :
  wp (syscall_mmap demo_regs) demo_mmap
    (fun v s' => v = 0 /\ exists fs : list Z, length fs = 2%nat /\ NoDup fs) out_of_memory.
Proof.
  eapply wp_mono; [apply (mmap_anonymous_spec (PA := pmm_page_allocator) demo_mmap demo_regs demo_node [] demo_proc
    demo_process 5000 0x1000 (demo_tables KERNEL_HEAP_START))| |intros ? ? H; exact H].
  - cbn [demo_mmap on_mem s_mem set_mem]. rewrite load_store64_ne by (unfold r8_off, rsi_off; lia). by apply load_store64.
  - by apply load_store64.
  - exact demo_machine_ring.
  - reflexivity.
  - reflexivity.
  - exact demo_mmap_ready.
  - discriminate.
  - reflexivity.
  - split; discriminate.
  - discriminate.
  - intros v s' (-> & fs & T' & Hlen & M & _). split; [reflexivity|]. exists fs.
    split; [|exact (mm_nodup _ _ _ _ _ _ _ _ _ M)]. change ((5000 + 4095) / 4096) with 2 in Hlen. lia.
Defined.

(** User process 0x200 is running, its address kept aside in the GS base. *)
Definition demo_user : kstate :=
  on_cpu (fun c => set_rsp 0xB000 (set_msrs {[MSR_KERNEL_GS_BASE := 0x200]} c)) (demo_sched 0).

Definition demo_user_process : process :=
  mk_process (0x8000 - 56) 0 2 "user" 0 PROCESS_USER PROCESS_READY 0x7000 0x8000 0x5000 0 0 0x77 5.

Lemma syscall_trap_restores_witness :
  exists s', syscall_trap 10 (fun _ => ret tt) 0xA000 0x1000 (77 :: seqZ 1 14) demo_user = Ok (Returned, 0 :: seqZ 1 14) s' /\
    rsp (s_cpu s') = 0xB000.
Proof.
  destruct (syscall_trap_restores 10 (fun _ => ret tt) 0xA000 demo_user 0x200 demo_user_process 0x1000 77 (seqZ 1 14)) as (s' & E & Hr & _).
  - reflexivity.
  - reflexivity.
  - cbn. lia.
  - split; [discriminate|reflexivity].
  - reflexivity.
  - apply Forall_cons. split; [split; [discriminate|reflexivity]|]. apply Forall_forall.
    intros x Hx%elem_of_seqZ. unfold in_u64. lia.
  - left. reflexivity.
  - split; [discriminate|reflexivity].
  - exists s'. split; [exact E|exact Hr].
Defined.

Lemma preempted_syscall_wrong_process_witness :
  exists s3, trap_entry 0x1000 [7] (after (load_context 0x200 0x100) demo_user) = Ok (0x8000 - 64) s3 /\
    option_map ursp (processes (s_proc s3) !! 0x200) = Some 0xB000.
Proof.
  set (pa := set_fpu_fsbase 0 0 demo_user_process).
  destruct (preempted_syscall_wrong_process demo_user (after (load_context 0x200 0x100) demo_user)
    (after (load_context 0x200 0x100) demo_user) 0x200 0x100 pa 0x1000 [7]) as (_ & s3 & E & N).
  - reflexivity.
  - split; [discriminate|reflexivity].
  - apply result_after. vm_compute. reflexivity.
  - reflexivity.
  - vm_compute. reflexivity.
  - cbn. lia.
  - exists s3. split; [exact E|]. rewrite (en_proc _ _ _ _ _ _ N). vm_compute. reflexivity.
Defined.
