(* ===== verification/Kernel.v ===== *)
(** * Interrupt dispatch, boot and the kernel's own programs

    [irq_handler] and [isr_handler] (kernel/arch/x86_64/irq.c, isr.c),
    [boot_verify] (kernel/system/boot.c), [kmain] (kernel/entry.c), [run_elf]
    and [userspace_shell] (kernel/elf.c) and [sleep]
    (kernel/libc/unistd/sleep.c). *)

From S2P Require Import Prelude Memory State Cpu Arch Libc Pmm Vmm Heap Pagemap Elf Process.
From S2P Require Import Devices Pci Devfs Tarfs Vfs Syscall.

(** ** Interrupts *)

(** A call through [irq_routines]: how it ended and what it returned. *)
Definition run_irq (h : irq_routine) : M (control * Z) :=
  match h with
  | Pit_handler => r <- pit_handler;; ret (Returned, r)
  | Process_schedule => c <- process_schedule;; ret (c, 0)
  | Keyboard_handler => r <- keyboard_handler;; ret (Returned, r)
  end.

(** The loop of [irq_handler] from chain level [i] on: whether it went through
    to the acknowledgement. *)
Fixpoint irq_chain (levels : nat) (i irq : Z) : M (control * bool) :=
  match levels with
  | O => ret (Returned, true)
  | S levels =>
    q <- gets s_irq;;
    match irq_routines q !! (i * IRQ_CHAIN_SIZE + irq) with
    | None => ret (Returned, true)
    | Some h =>
      r <- run_irq h;;
      match r.1 with
      | Returned => if negb (r.2 =? 0) then ret (Returned, false) else irq_chain levels (i + 1) irq
      | c => ret (c, false)
      end
    end
  end.

Definition irq_handler (r : regs) : M control :=
  if (int_no r <=? 47) && (32 <=? int_no r) then
    x <- irq_chain 4 0 (int_no r - 32);;
    when x.2 (irq_ack (int_no r - 32));;;
    ret x.1
  else ret Returned.

Definition gpf_fault_handler (r : regs) : M control := panic "general protection fault".
Definition irq_invalid_opcode (r : regs) : M control := panic "invalid opcode exception".

Definition isr_handler (r : regs) : M control :=
  q <- gets s_irq;;
  match isr_callbacks q !! int_no r with
  | Some Irq_invalid_opcode => irq_invalid_opcode r
  | Some Gpf_fault_handler => gpf_fault_handler r
  | Some Vmm_pagefault => vmm_pagefault r
  | None => ret Returned
  end.

(** ** Boot *)

(** Which requests the boot loader answered. *)
Record boot_answers : Type := mk_answers {
  revision_supported : bool;
  memmap_answered : bool;
  hhdm_answered : bool;
  executable_answered : bool;
  module_answered : bool
}.

Definition boot_verify (a : boot_answers) : M unit :=
  if negb (revision_supported a) then panic "unsupported limine base revision!" else
  if negb (memmap_answered a) then panic "no memory map response!" else
  if negb (hhdm_answered a) then panic "no HHDM response!" else
  if negb (executable_answered a) then panic "no executable address response!" else
  if negb (module_answered a) then panic "no module response!" else
  ret tt.

(** [unsigned int sleep(unsigned int seconds)] *)
Definition sleep (seconds : Z) : M control := process_sleep (u32 (seconds * 1000)).

Section kernel.
Variable fuel : nat.
(** The processor's answers to [cpuid], and the terminal emulator. *)
Variable cpuid_insn : Z -> Z -> Z * Z * Z * Z.
Variable flanterm_fb_init : fb_state -> M (option fb_terminal).

Definition kmain (a : boot_answers) : M control :=
  serial_install;;;
  boot_verify a;;;
  cpu_features_install cpuid_insn;;;
  gdt_install;;;
  idt_install;;;
  irq_install;;;
  isr_install;;;
  pmm_install;;;
  vmm_install;;;
  heap_install;;;
  vfs_install fuel;;;
  framebuffer_install flanterm_fb_init;;;
  ps2_keyboard_install;;;
  ac97_install fuel;;;
  syscall_install;;;
  process_create 0 0;;;
  ret Halted.

(** ** Programs *)

(** [run_elf]: [path] is the address of the string [name]; [stat0] is what the
    local variable [stat] held before it was assigned. *)
Definition run_elf (name : string) (path : Z) (stat0 : Z * Z) : M unit :=
  elf_file <- vfs_open fuel path 0 0;;
  if elf_file =? 0 then ret tt else
  r <- vfs_stat fuel elf_file stat0;;
  if r.1 <? 0 then ret tt else
  let size := r.2.2 in
  buf <- malloc size;;
  if buf =? 0 then ret tt else
  bytes_read <- vfs_read fuel elf_file buf size;;
  if bytes_read <? 0 then ret tt else
  res <- vfs_close elf_file;;
  if res <? 0 then ret tt else
  process_spawn_elf (Some name) buf size.

(** [lit s] is the address of the string literal [s]. *)
Variable lit : string -> Z.

Definition userspace_shell (stat0 : Z * Z) : M unit :=
  run_elf "/init/bin/fb" (lit "/init/bin/fb") stat0;;;
  run_elf "/init/bin/shell" (lit "/init/bin/shell") stat0;;;
  run_elf "/init/ports/doom/doomgeneric" (lit "/init/ports/doom/doomgeneric") stat0.

End kernel.
