(* ===== verification/Interrupts.v ===== *)
(** * Interrupts from the gate to the handler and back

    The processor's way through the interrupt descriptor table into the stubs
    of [Stubs], with [irq_handler] and [isr_handler] of [Kernel] as the C
    functions that they call. *)

From S2P Require Import Prelude Memory State Cpu Arch Process Kernel Asm Stubs.

(** ** The gates *)

Definition gate (s : kstate) (n : Z) : idt_entry := default idt_zero (idt_entries (s_irq s) !! n).

(** An interrupt gate of the kernel's code segment without a stack of its
    own. *)
Definition kernel_gate (e : idt_entry) : Prop :=
  segment_selector e = 0x08 /\ ist e = 0 /\ idt_flags e = 0x8E.

Definition kernel_gates (s : kstate) : Prop := map_Forall (fun _ e => kernel_gate e) (idt_entries (s_irq s)).

Lemma idt_set_gate_kernel num base s (E : string -> kstate -> Prop) :
  kernel_gates s -> wp (idt_set_gate num base 0x08 0x8E) s (fun _ s' => kernel_gates s') E.
Proof. intros H. apply wp_modify. by apply map_Forall_insert_2. Qed.

Lemma install_kernel_gates s :
  wp (idt_install;;; isr_install;;; irq_setup_gates) s (fun _ s' => kernel_gates s') no_panic.
Proof.
  eapply wp_call; [exact (map_Forall_empty (fun _ e => kernel_gate e) : wp idt_install s (fun _ s' => kernel_gates s') no_panic)|].
  intros [] s1 H1. eapply (wp_call _ _ _ (fun _ s' => kernel_gates s')).
  - unfold isr_install. apply wp_bind, wp_gets.
    eapply wp_call; [by apply idt_set_gate_kernel|]. intros [] s2 H2. apply wp_bind, wp_modify.
    eapply wp_call; [by apply idt_set_gate_kernel|]. intros [] s3 H3. apply wp_bind, wp_modify.
    eapply wp_call; [by apply idt_set_gate_kernel|]. intros [] s4 H4.
    apply (wp_for_loop (fun _ s => kernel_gates s)); [done|]. intros j s5 _ H5. by apply idt_set_gate_kernel.
  - intros [] s2 H2. apply wp_bind, wp_gets.
    apply (wp_for_loop (fun _ s => kernel_gates s)); [done|]. intros j s5 _ H5. by apply idt_set_gate_kernel.
Qed.

Lemma gate_installed s t n :
  kernel_gates s -> idt_entries (s_irq t) = idt_entries (s_irq s) -> gate_target s n <> 0 -> kernel_gate (gate t n).
Proof.
  intros Hk Ht Hn. unfold gate. rewrite Ht. unfold gate_target in Hn.
  destruct (idt_entries (s_irq s) !! n) as [e|] eqn:E; [|done]. exact (Hk n e E).
Qed.

(** The stubs agree with the processor about the error code but for four
    vectors. *)
Lemma agrees n : 1 <= n < 48 -> n ∉ [17; 21; 29; 30] -> declared_error n = pushes_error n.
Proof.
  intros _ Hn. unfold declared_error, pushes_error. apply bool_decide_ext. rewrite !elem_of_cons in *. tauto.
Qed.

(** ** Dispatch *)

Section dispatch.
Variable addr : label -> Z.

(** What the compiled code of a handler does to the machine. *)
Variable clobber : machine -> machine.

Definition c_handler (f : cfun) (mh : machine) (s : kstate) : option (machine * kstate) :=
  let r := regs_at (m_mem mh) (gpr mh RDI) in
  match (match f with Irq_handler => irq_handler r | Isr_handler => isr_handler r end) s with
  | Ok Returned s' => Some (clobber mh, s')
  | _ => None
  end.

(** Vector [n] at instruction [rip]: through a present gate with the stack of
    the task state segment. *)
Definition interrupt (n : Z) (err : option Z) (rip : Z) (m : machine) (s : kstate) : outcome kstate :=
  let e := gate s n in
  if Z.testbit (idt_flags e) 7 && (ist e =? 0)
  then run addr c_handler stub_code stub_labels 3 (gate_target s n)
         (deliver (segment_selector e) (rsp0 (gdt_tss (s_gdt s))) err rip m) s
  else Fault.

Context `{Hlay : !Layout addr}.
Hypothesis clobber_keeps : forall mh, keeps_frame mh (clobber mh).

(** C12: Once the tables are installed, and as long as the gates stay, every
    vector from 1 to 47 whose stub agrees with the processor about the error
    code runs the kernel's handler for it on a [regs_t] with its number, error
    code, instruction pointer, code selector and registers.  If the handler
    returns, the interrupted program goes on at the same instruction with the
    same registers, flags, stack and selectors, and the kernel is in the state
    that the handler left, whatever the compiled handler does to the registers;
    if it does not return, the program does not go on.  A divide error (vector
    0) finds no stub at the address in its gate.  [regs_t] takes the saved
    flags for [rsp] and the saved stack pointer for [ss]. *)
Theorem interrupt_dispatch (s : kstate) :
  (forall i, 0 <= i < 32 -> addr (Isr i) = sym_isr (symbols (s_boot s)) i) ->
  (forall i, 0 <= i < 16 -> addr (Irq i) = sym_irq (symbols (s_boot s)) i) ->
  label_at addr stub_labels 0 = None ->
  (forall i, in_u64 (sym_isr (symbols (s_boot s)) i)) -> (forall i, in_u64 (sym_irq (symbols (s_boot s)) i)) ->
  wp (idt_install;;; isr_install;;; irq_setup_gates) s (fun _ s' => forall t,
    idt_entries (s_irq t) = idt_entries (s_irq s') ->
    (forall n err rip m, 1 <= n < 48 -> n ∉ [17; 21; 29; 30] ->
      interruptible (rsp0 (gdt_tss (s_gdt t))) rip m ->
      pushes_error n = bool_decide (is_Some err) -> Forall in_u64 (option_list err) ->
      let r := frame_of (set_flags (entry_flags m) m) n (default 0 err) rip (m_cs m) (m_rflags m) (m_rsp m) in
      match (if n <? 32 then isr_handler r else irq_handler r) t with
      | Ok Returned t' => exists mf, interrupt n err rip m t = Leave rip mf t' /\ same_context m mf
      | _ => interrupt n err rip m t = Gone
      end) /\
    forall err rip m, interrupt 0 err rip m t = Fault) no_panic.
Proof.
  intros Ha1 Ha2 Hz Hi1 Hi2.
  eapply wp_mono; [exact (wp_and _ _ _ _ _ _ (interrupt_gates s Hi1 Hi2) (install_kernel_gates s))| |done].
  intros [] s' [Hg Hk] t Ht.
  assert (forall n, gate_target t n = gate_target s' n) as Hgt by (intros n; unfold gate_target; by rewrite Ht).
  split.
  - intros n err rip m Hn Hne I Hp He r.
    assert (gate_target s' n = addr (vector_label n)) as Htgt.
    { rewrite Hg. unfold vector_label. destruct (Z.ltb_spec n 32).
      - rewrite Ha1 by lia. destruct (Z.leb_spec 1 n); [done|lia].
      - rewrite Ha2 by lia. rewrite andb_false_r. destruct (Z.leb_spec 32 n), (Z.ltb_spec n 48); done || lia. }
    destruct (gate_installed s' t n Hk Ht) as (G1 & G2 & G3).
    { rewrite Htgt. intros H0. pose proof (layout_at (vector_label n) (proj1 (proj1 (vector_labels n ltac:(lia))))) as Hl.
      by rewrite H0, Hz in Hl. }
    unfold interrupt. rewrite G1, G2, G3, Hgt, Htgt. cbn [Z.eqb andb].
    destruct (interrupt_roundtrip addr c_handler n err (rsp0 (gdt_tss (s_gdt t))) rip m t) as (mh & Hf & _ & _ & _ & _ & Hrun); try done; [lia|..].
    { by apply agrees. }
    fold r in Hf. unfold run_stub in Hrun. unfold c_handler in Hrun at 1. rewrite Hf in Hrun. unfold vector_handler in Hrun.
    destruct (n <? 32); destruct (_ r t) as [[] t'| | | |]; try exact Hrun; apply Hrun, clobber_keeps.
  - intros err rip m. unfold interrupt. rewrite Hgt, Hg. cbn [run Z.leb Z.ltb andb Z.compare]. rewrite Hz. by destruct (_ && _).
Qed.
End dispatch.

(** ** Witnesses *)

Definition demo_addr (l : label) : Z :=
  match l with
  | Irq i => 0xFFFFFFFF80002000 + (i mod 64) * 16
  | Isr i => 0xFFFFFFFF80001000 + (i mod 64) * 16
  | Irq_common => 0x3000 | Irq_return => 0x3010 | Isr_common => 0x3020 | Isr_return => 0x3030
  | Gdt_flush => 0x3040 | Reload_cs => 0x3050 | Idt_flush => 0x3060 | Tss_flush => 0x3070
  | Switch_to_user => 0x3080
  end.

#[global] Instance demo_layout : Layout demo_addr.
Proof.
  split.
  - apply Forall_forall, (bool_decide_eq_true_1 (Forall _ _)). vm_compute. reflexivity.
  - intros []; unfold in_u64, demo_addr; try lia; zlia.
Qed.

(** A user program with a descriptor table at 0x500, and a compiled handler
    that leaves nothing in the registers. *)
Definition demo_machine : machine :=
  mk_machine (fun r => match r with RAX => 11 | RDI => 12 | R15 => 13 | _ => 14 end) 0x7000 0x202 0x2B
    (fun _ => 0x23) (71, 0x500) (0, 0) 0x30 (<[0x52D := 0xFA]> (<[0x525 := 0xF2]> ∅)).

Definition demo_clobber (m : machine) : machine :=
  mk_machine (fun _ => 0xDEAD) (m_rsp m) 0x2 (m_cs m) (sel m) (gdtr m) (idtr m) (m_tr m) (m_mem m).

Definition demo_installed : kstate :=
  on_gdt (set_gdt_tss (mk_tss 0x9000 0 0)) (after (idt_install;;; isr_install;;; irq_setup_gates) demo_entry_state).

Lemma demo_clobber_keeps mh : keeps_frame mh (demo_clobber mh).
Proof. unfold keeps_frame, same_table. by split_and!. Qed.

Lemma demo_interruptible : interruptible 0x9000 0x401000 demo_machine.
Proof.
  assert (entry_stack 0x9000 demo_machine = 0x9000) as E by reflexivity.
  split; unfold in_u64; rewrite ?E; cbn [demo_machine gpr m_rflags m_rsp m_cs sel gdtr fst snd]; try lia; try reflexivity.
  intros []; lia.
Qed.

Definition demo_frame : regs :=
  frame_of (set_flags (entry_flags demo_machine) demo_machine) 35 (default 0 None) 0x401000
    (m_cs demo_machine) (m_rflags demo_machine) (m_rsp demo_machine).

Lemma demo_irq : result (irq_handler demo_frame) demo_installed = Some Returned.
Proof. vm_compute. reflexivity. Qed.

Lemma on_gdt_idt f s : idt_entries (s_irq (on_gdt f s)) = idt_entries (s_irq s).
Proof. done. Qed.

Lemma demo_gates :
  idt_entries (s_irq demo_installed) =
  idt_entries (s_irq (after (idt_install;;; isr_install;;; irq_setup_gates) demo_entry_state)).
Proof. apply on_gdt_idt. Qed.

Lemma demo_install :
  (idt_install;;; isr_install;;; irq_setup_gates) demo_entry_state =
  Ok tt (after (idt_install;;; isr_install;;; irq_setup_gates) demo_entry_state).
Proof. apply result_after. vm_compute. reflexivity. Qed.

Lemma demo_sym_range :
  (forall i, in_u64 (sym_isr (symbols (s_boot demo_entry_state)) i)) /\
  (forall i, in_u64 (sym_irq (symbols (s_boot demo_entry_state)) i)).
Proof.
  unfold in_u64. cbn [sym_isr sym_irq symbols s_boot demo_entry_state entry_state demo_boot_info demo_symbols].
  split; intros i; zlia.
Qed.

Lemma interrupt_dispatch_witness :
  exists mf t', interrupt demo_addr demo_clobber 35 None 0x401000 demo_machine demo_installed = Leave 0x401000 mf t' /\
    same_context demo_machine mf.
Proof.
  pose proof (interrupt_dispatch demo_addr demo_clobber demo_clobber_keeps demo_entry_state (fun _ _ => eq_refl)
    (fun _ _ => eq_refl) eq_refl (proj1 demo_sym_range) (proj2 demo_sym_range)) as H.
  unfold wp in H. rewrite demo_install in H. destruct (H demo_installed demo_gates) as [Hn _]. clear H.
  specialize (Hn 35 None 0x401000 demo_machine ltac:(lia)).
  specialize (Hn ltac:(by apply (bool_decide_eq_true_1 (35 ∉ [17; 21; 29; 30]))) demo_interruptible eq_refl (Forall_nil_2 _)).
  cbv zeta in Hn. fold demo_frame in Hn. change (35 <? 32) with false in Hn. cbn iota in Hn.
  rewrite (result_after _ _ _ demo_irq) in Hn.
  destruct Hn as (mf & Hi & Hc). exists mf. eexists. split; [exact Hi|exact Hc].
Defined.

Lemma unexpected_error_code_witness :
  exists mh, err_code (regs_at (m_mem mh) (gpr mh RDI)) = 0 /\ r_rip (regs_at (m_mem mh) (gpr mh RDI)) = 0x18 /\
    (run_stub demo_addr (fun _ mh (w : unit) => Some (demo_clobber mh, w)) (Isr 17) (deliver 0x08 0x9000 (Some 0x18) 0x401000 demo_machine) tt = Fault).
Proof.
  destruct (unexpected_error_code demo_addr (fun _ mh (w : unit) => Some (demo_clobber mh, w)) 17 0x18 0x9000 0x401000
    demo_machine tt) as (mh & Hf & Hr).
  - by left.
  - exact demo_interruptible.
  - unfold in_u64. lia.
  - exists mh. rewrite Hf. split_and!; [done|done|].
    destruct (Hr _ _ eq_refl (demo_clobber_keeps mh)) as (mf & ->). vm_compute. reflexivity.
Defined.

Definition demo_loader : machine :=
  let s := after gdt_install demo_entry_state in
  mk_machine (fun r => match r with RDI => 0x700 | _ => 0 end) 0x9000 0x2 0x28 (fun _ => 0x30) (0, 0) (0, 0) 0
    (store64 (store64 (store_le (write_bytes ∅ 0x600 (table_bytes s)) 0x700 2 71) 0x702 0x600) 0x9000 0x401000).

Lemma segments_loaded_witness :
  wp gdt_install demo_entry_state (fun _ _ => exists m1,
    run_stub demo_addr (fun _ mh (w : unit) => Some (mh, w)) Gdt_flush demo_loader tt = Leave 0x401000 m1 tt /\
    m_cs m1 = 0x08 /\ sel m1 FS = 0x10 /\ m_rsp m1 = 0x9008) no_panic.
Proof.
  pose proof (segments_loaded demo_addr (fun _ mh (w : unit) => Some (mh, w)) demo_entry_state) as H. unfold wp in H |- *.
  rewrite (result_after gdt_install demo_entry_state tt ltac:(vm_compute; reflexivity)) in H |- *.
  destruct (H 0x600 0x700 demo_loader tt 0x401000 0x402000) as (m1 & m2 & E & _ & Hcs & Hsel & Hrsp & _).
  - unfold holds_table. split_and!; vm_compute; reflexivity.
  - reflexivity.
  - vm_compute. reflexivity.
  - unfold in_u64. lia.
  - cbn [demo_loader m_rsp]. lia.
  - cbn [demo_loader m_rsp]. lia.
  - cbn [demo_loader m_rsp]. lia.
  - exists m1. split_and!; [exact E|exact Hcs|apply Hsel|exact Hrsp].
Defined.
