(* ===== verification/PrintfSpec.v ===== *)
(** * What the formatter prints

    The text of a format is the same for every receiver of its characters;
    into a buffer it is cut to the buffer's size; numbers read back as what
    was printed; and the conversion buffer is never overrun. *)

From S2P Require Import Prelude Memory State Devices Printf.

(** ** The text of a format *)

Definition sign_text (s : Z) : list Z := if s =? 0 then [] else [s].
Definition prefix_text (x : Z) : list Z := if x =? 0 then [] else [ch "0"; x].

Fixpoint binary_text (n : nat) (v : Z) : list Z :=
  match n with
  | O => []
  | S n => (ch "0" + Z.land (Z.shiftr v (Z.of_nat n)) 1) :: binary_text n v
  end.

Definition zeros (n : Z) : list Z := replicate (Z.to_nat n) (ch "0").

Definition payload_text (fs : npf_format_spec) (c : converted) (sign prec_pad : Z) : list Z :=
  match conv_spec fs with
  | NPF_FMT_SPEC_CONV_STRING => cbuf c
  | NPF_FMT_SPEC_CONV_BINARY =>
    sign_text sign ++ zeros prec_pad ++ binary_text (Z.to_nat (cbuf_len c)) (binval c)
  | _ => sign_text sign ++ zeros prec_pad ++ reverse (cbuf c)
  end.

Definition prec_pad_of (fs : npf_format_spec) (c : converted) : Z :=
  if bool_decide (conv_spec fs = NPF_FMT_SPEC_CONV_STRING) then 0 else npf_max 0 (prec fs - cbuf_len c).

Definition field_pad_of (fs : npf_format_spec) (c : converted) : Z :=
  npf_max 0 (field_width fs - cbuf_len c - (if sign_c c =? 0 then 0 else 1)
             - (if need_0x c =? 0 then 0 else 2) - prec_pad_of fs c).

Definition field_text (fs : npf_format_spec) (c : converted) : list Z :=
  let pad_c := pad_char fs (zero c) in
  let pads := replicate (Z.to_nat (field_pad_of fs c)) pad_c in
  let pp := prec_pad_of fs c in
  let body :=
    if (left_justified fs =? 0) && negb (pad_c =? 0) then
      if pad_c =? ch "0" then
        sign_text (sign_c c) ++ prefix_text (need_0x c) ++ pads ++ payload_text fs c 0 pp
      else pads ++ prefix_text (need_0x c) ++ payload_text fs c (sign_c c) pp
    else prefix_text (need_0x c) ++ payload_text fs c (sign_c c) pp in
  if negb (left_justified fs =? 0) && negb (pad_c =? 0) then body ++ pads else body.

(** A conversion with its arguments: the text and the arguments left. *)
Definition spec_text (str : Z -> list Z) (fs : npf_format_spec) (args : list Z) : option (list Z * list Z) :=
  '(fs, args) ← star_width fs args;
  '(fs, args) ← star_prec fs args;
  '(fs, c, args) ← convert str fs args;
  Some (field_text fs c, args).

Fixpoint text_from (str : Z -> list Z) (fuel : nat) (cur args : list Z) : option (list Z) :=
  match fuel, cur with
  | _, [] => Some []
  | O, _ => None
  | S fuel, c :: rest =>
    if c =? ch "%" then
      match npf_parse_format_spec rest with
      | Undefined => None
      | NoSpec => cons c <$> text_from str fuel rest args
      | Spec fs rest => '(t, args) ← spec_text str fs args; app t <$> text_from str fuel rest args
      end
    else cons c <$> text_from str fuel rest args
  end.

Definition text (str : Z -> list Z) (format args : list Z) : option (list Z) :=
  text_from str (length format) format args.

(** ** Every receiver gets that text *)

Section receiver.
Context {C : Type} (pc : Z -> C -> C).

Definition puts (t : list Z) (k : npf_cnt_putc_ctx) : npf_cnt_putc_ctx := foldl (fun k c => NPF_PUTC pc c k) k t.

Lemma puts_app a b k : puts (a ++ b) k = puts b (puts a k).
Proof. apply foldl_app. Qed.

Lemma put_times_puts n c k : put_times pc n c k = puts (replicate (Z.to_nat n) c) k.
Proof.
  unfold put_times. generalize (Z.to_nat n) as i. intros i. revert k. induction i as [|i IH]; intros k; [done|].
  cbn [replicate]. change (puts (c :: replicate i c) k) with (puts (replicate i c) (NPF_PUTC pc c k)).
  rewrite <- IH. apply Nat.iter_succ_r.
Qed.

Lemma put_sign_puts s k : put_sign pc s k = puts (sign_text s) k.
Proof. unfold put_sign, sign_text. by destruct (s =? 0). Qed.

Lemma put_0x_puts x k : put_0x pc x k = puts (prefix_text x) k.
Proof. unfold put_0x, prefix_text. by destruct (x =? 0). Qed.

Lemma put_binary_puts n v k : put_binary pc n v k = puts (binary_text n v) k.
Proof. revert k. induction n as [|n IH]; intros k; [done|]. apply IH. Qed.

Lemma put_payload_puts fs c s p k : put_payload pc fs c s p k = puts (payload_text fs c s p) k.
Proof.
  unfold put_payload, payload_text.
  destruct (conv_spec fs); rewrite ?puts_app, ?put_sign_puts, ?put_times_puts, ?put_binary_puts; reflexivity.
Qed.

Lemma put_field_puts fs c k : put_field pc fs c k = puts (field_text fs c) k.
Proof.
  unfold put_field, field_text. fold (prec_pad_of fs c). fold (field_pad_of fs c). cbv zeta.
  repeat match goal with |- context [if ?b then _ else _] => destruct b end;
    rewrite ?put_payload_puts, ?put_times_puts, ?put_0x_puts, ?put_sign_puts, ?puts_app; try reflexivity.
Qed.
Lemma loop_text str fuel cur args k :
  vpprintf_loop str pc fuel cur args k = option_map (fun t => puts t k) (text_from str fuel cur args).
Proof.
  revert cur args k. induction fuel as [|fuel IH]; intros [|c rest] args k; try done. cbn [vpprintf_loop text_from].
  assert (forall r, vpprintf_loop str pc fuel r args (NPF_PUTC pc c k) =
    option_map (fun t => puts t k) (cons c <$> text_from str fuel r args)) as Hc.
  { intros r. rewrite IH. by destruct (text_from str fuel r args). }
  destruct (c =? ch "%"); [|apply Hc]. destruct (npf_parse_format_spec rest) as [| |fs r]; [done|apply Hc|].
  unfold put_spec, spec_text. destruct (star_width fs args) as [[fs1 a1]|]; [|done]. cbn [mbind option_bind].
  destruct (star_prec fs1 a1) as [[fs2 a2]|]; [|done]. cbn [mbind option_bind].
  destruct (convert str fs2 a2) as [[[fs3 x] a3]|]; [|done]. cbn [mbind option_bind].
  rewrite IH, put_field_puts. destruct (text_from str fuel r a3) as [t|]; [|done]. cbn [fmap option_fmap option_map].
  by rewrite puts_app.
Qed.

Lemma puts_received t ctx n :
  puts t (mk_cnt ctx n) = mk_cnt (foldl (fun x c => pc c x) ctx t)
    (if decide (t = []) then n else i32 (n + Z.of_nat (length t))).
Proof.
  revert ctx n. induction t as [|c t IH]; intros ctx n; [done|].
  change (puts (c :: t) (mk_cnt ctx n)) with (puts t (mk_cnt (pc c ctx) (i32 (n + 1)))). rewrite IH. cbn [foldl].
  f_equal. destruct (decide (t = [])) as [->|Ht]; [done|]. destruct (decide (c :: t = [])); [done|]. cbn [length].
  unfold i32. f_equal.
  replace ((n + 1 + 2 ^ 31) mod 2 ^ 32 - 2 ^ 31 + Z.of_nat (length t) + 2 ^ 31)
    with ((n + 1 + 2 ^ 31) mod 2 ^ 32 + Z.of_nat (length t)) by lia.
  rewrite Zplus_mod_idemp_l. f_equal. lia.
Qed.

(** The receiver gets the text, and the result counts it. *)
Lemma vpprintf_text str ctx format args :
  npf_vpprintf str pc ctx format args =
  option_map (fun t => mk_cnt (foldl (fun x c => pc c x) ctx t) (i32 (Z.of_nat (length t)))) (text str format args).
Proof.
  unfold npf_vpprintf, text. rewrite loop_text. destruct (text_from _ _ _ _) as [t|]; [|done]. cbn [option_map].
  rewrite puts_received. by destruct (decide (t = [])) as [->|].
Qed.
End receiver.

(** ** The whole format is read *)

Lemma parse_flags_shorter cur fs : (length (parse_flags cur fs).2 <= length cur)%nat.
Proof.
  revert fs. induction cur as [|c cur IH]; intros fs; [done|]. cbn [parse_flags].
  repeat match goal with |- context [if ?b then _ else _] => destruct b end; cbn [length snd];
    try (etransitivity; [apply IH|lia]); lia.
Qed.

Lemma parse_number_shorter cur v w rest :
  parse_number cur v = Some (w, rest) -> (length rest <= length cur)%nat.
Proof.
  revert v. induction cur as [|c cur IH]; intros v H; cbn [parse_number] in H; [by injection H as <- <-|].
  destruct (is_digit c); [|by injection H as <- <-]. destruct (_ <? _); [|done]. apply IH in H. cbn [length]. lia.
Qed.

Lemma parse_width_shorter cur fs fs' rest :
  parse_width cur fs = Some (fs', rest) -> (length rest <= length cur)%nat.
Proof.
  unfold parse_width. destruct cur as [|c cur]; [by intros [= <- <-]|].
  destruct (c =? ch "*"); [intros [= <- <-]; cbn; lia|].
  destruct (parse_number (c :: cur) 0) as [[w r]|] eqn:E; [|done]. apply parse_number_shorter in E.
  cbn [mbind option_bind]. by intros [= <- <-].
Qed.

Lemma parse_prec_shorter cur fs fs' rest :
  parse_prec cur fs = Some (fs', rest) -> (length rest <= length cur)%nat.
Proof.
  unfold parse_prec. destruct cur as [|c cur]; [by intros [= <- <-]|].
  destruct (c =? ch "."); [|by intros [= <- <-]]. destruct cur as [|d cur]; [intros [= <- <-]; cbn; lia|].
  destruct (d =? ch "*"); [intros [= <- <-]; cbn; lia|].
  destruct (d =? ch "-").
  - destruct (parse_number cur 0) as [[w r]|] eqn:E; [|done]. apply parse_number_shorter in E.
    cbn [mbind option_bind]. intros [= <- <-]. cbn. lia.
  - destruct (parse_number (d :: cur) 0) as [[w r]|] eqn:E; [|done]. apply parse_number_shorter in E.
    cbn [mbind option_bind]. intros [= <- <-]. cbn in *. lia.
Qed.

Lemma parse_length_shorter cur fs : (length (parse_length cur fs).2 <= length cur)%nat.
Proof.
  unfold parse_length. destruct cur as [|c [|d cur]]; [done|..];
    repeat match goal with |- context [if ?b then _ else _] => destruct b end; cbn; lia.
Qed.

Lemma parse_conv_shorter cur fs fs' rest :
  parse_conv cur fs = Some (fs', rest) -> (length rest < length cur)%nat.
Proof.
  unfold parse_conv. destruct cur as [|c cur]; [done|].
  repeat match goal with |- context [if ?b then _ else _] => destruct b end;
    first [done | intros [= <- <-]; cbn; lia].
Qed.

Lemma parse_shorter cur fs rest : npf_parse_format_spec cur = Spec fs rest -> (length rest < length cur)%nat.
Proof.
  unfold npf_parse_format_spec. pose proof (parse_flags_shorter cur spec_none) as H1.
  destruct (parse_flags cur spec_none) as [fs1 c1].
  destruct (parse_width c1 fs1) as [[fs2 c2]|] eqn:E2; [|done]. apply parse_width_shorter in E2. cbn [mbind option_bind].
  destruct (parse_prec c2 fs2) as [[fs3 c3]|] eqn:E3; [|done]. apply parse_prec_shorter in E3.
  pose proof (parse_length_shorter c3 fs3) as H4. destruct (parse_length c3 fs3) as [fs4 c4].
  destruct (parse_conv c4 fs4) as [[fs5 c5]|] eqn:E5; [|done]. apply parse_conv_shorter in E5.
  intros [= <- <-]. cbn [snd] in *. lia.
Qed.

Lemma text_step str fuel c rest args :
  text_from str (S fuel) (c :: rest) args =
  if c =? ch "%" then
    match npf_parse_format_spec rest with
    | Undefined => None
    | NoSpec => cons c <$> text_from str fuel rest args
    | Spec fs rest => '(t, args) ← spec_text str fs args; app t <$> text_from str fuel rest args
    end
  else cons c <$> text_from str fuel rest args.
Proof. reflexivity. Qed.

(** One round per byte is enough: only undefined behaviour gives no text. *)
Lemma text_fuel str fuel cur args :
  (length cur <= fuel)%nat -> text_from str (S fuel) cur args = text_from str fuel cur args.
Proof.
  revert cur args. induction fuel as [|fuel IH]; intros [|c rest] args Hf; cbn [length] in Hf; try done; try lia.
  rewrite !(text_step str _ c rest). rewrite (IH rest) by lia.
  destruct (c =? ch "%"); [|done]. destruct (npf_parse_format_spec rest) as [| |fs r] eqn:E; [done|done|].
  apply parse_shorter in E. destruct (spec_text str fs args) as [[t a]|]; [|done]. cbn [mbind option_bind].
  by rewrite IH by lia.
Qed.

(** ** Into a buffer *)

Lemma bufputc_text t d n i m :
  0 <= d -> 0 <= i <= n -> d + Z.min n (i + Z.of_nat (length t)) <= 2 ^ 64 ->
  foldl (fun b c => npf_bufputc c b) (mk_bufputc d n i m) t =
  mk_bufputc d n (Z.min n (i + Z.of_nat (length t))) (write_bytes m (d + i) (take (Z.to_nat (n - i)) t)).
Proof.
  intros Hd. revert i m. induction t as [|c t IH]; intros i m Hi Hw; cbn [foldl length] in *.
  - rewrite take_nil, Z.min_r by lia. f_equal. lia.
  - unfold npf_bufputc at 2. cbn [Printf.cur len dst bp_mem]. destruct (Z.ltb_spec i n) as [Hin|Hin].
    + rewrite IH by lia. rewrite (u64_small (d + i)) by lia.
      replace (Z.to_nat (n - i)) with (S (Z.to_nat (n - (i + 1)))) by lia. cbn [take write_bytes].
      f_equal; [lia|]. f_equal. lia.
    + replace i with n by lia. rewrite IH by lia. rewrite Z.sub_diag. cbn [Z.to_nat take write_bytes]. f_equal; lia.
Qed.

(** The buffer afterwards: as much of the text as fits, a terminator, and a
    terminator in the last byte. *)
Lemma vsnprintf_mem str buffer bufsz format args m t :
  text str format args = Some t -> 0 < buffer -> 0 < bufsz ->
  buffer + Z.min bufsz (Z.of_nat (length t) + 1) <= 2 ^ 64 ->
  npf_vsnprintf str buffer bufsz format args m =
  Some (wr (write_bytes m buffer (take (Z.to_nat bufsz) (t ++ [0]))) (u64 (buffer + (bufsz - 1))) 0,
        i32 (Z.of_nat (length t))).
Proof.
  intros Ht Hb Hs Hw. unfold npf_vsnprintf. rewrite (proj2 (Z.eqb_neq buffer 0)), (proj2 (Z.eqb_neq bufsz 0)) by lia.
  rewrite vpprintf_text, Ht. cbn [option_map mbind option_bind cnt_ctx cnt_n negb andb]. do 2 f_equal.
  set (b := npf_bufputc 0 _).
  assert (b = foldl (fun b c => npf_bufputc c b) (mk_bufputc buffer bufsz 0 m) (t ++ [0])) as -> by by rewrite foldl_app.
  rewrite bufputc_text by (rewrite ?length_app; cbn [length]; lia). cbn [bp_mem]. by rewrite Z.add_0_r, Z.sub_0_r.
Qed.

Lemma read_bytes_u8 m a (l : list Z) (n : nat) :
  (n <= length l)%nat -> (forall i, (i < n)%nat -> rd m (a + Z.of_nat i) = u8 (nth i l 0)) ->
  read_bytes m a n = u8 <$> take n l.
Proof.
  revert a l. induction n as [|n IH]; intros a l Hn H; [done|]. destruct l as [|c l]; cbn [length] in Hn; [lia|].
  cbn [read_bytes take fmap list_fmap]. f_equal.
  - rewrite <- (Z.add_0_r a). apply (H 0%nat). lia.
  - apply IH; [lia|]. intros i Hi. replace (a + 1 + Z.of_nat i) with (a + Z.of_nat (S i)) by lia. apply (H (S i)). lia.
Qed.

(** What a byte of the buffer is after [vsnprintf_mem]. *)
Lemma rd_truncated m buffer n t x :
  0 <= n ->
  rd (write_bytes m buffer (take (Z.to_nat n) (t ++ [0]))) x =
  if (buffer <=? x) && (x <? buffer + Z.min n (Z.of_nat (length t) + 1))
  then u8 (nth (Z.to_nat (x - buffer)) (t ++ [0]) 0) else rd m x.
Proof.
  intros Hn. rewrite rd_write_bytes, length_take, length_app. cbn [length].
  replace (Z.of_nat (Z.to_nat n `min` (length t + 1))) with (Z.min n (Z.of_nat (length t) + 1)) by lia.
  destruct (Z.leb_spec buffer x); [|done]. destruct (Z.ltb_spec x (buffer + Z.min n (Z.of_nat (length t) + 1))); [|done].
  cbn [andb]. f_equal. rewrite <- (take_drop (Z.to_nat n) (t ++ [0])) at 2. rewrite app_nth1; [done|].
  rewrite length_take, length_app. cbn [length]. lia.
Qed.

(** The bytes of a buffer of [bufsz] bytes that received the text [t]. *)
Lemma vsnprintf_bytes (str : Z -> list Z) (buffer bufsz : Z) (format args : list Z) (m : mem) (t : list Z) :
  text str format args = Some t -> 0 < buffer -> 0 < bufsz -> buffer + bufsz <= 2 ^ 64 ->
  let n := Z.min (Z.of_nat (length t)) (bufsz - 1) in
  exists m', npf_vsnprintf str buffer bufsz format args m = Some (m', i32 (Z.of_nat (length t))) /\
    (forall x, rd m' x = if (buffer <=? x) && (x <? buffer + n) then u8 (nth (Z.to_nat (x - buffer)) t 0)
                         else if (x =? buffer + n) || (x =? buffer + (bufsz - 1)) then 0 else rd m x).
Proof.
  intros Ht Hb Hs Hw n. rewrite (vsnprintf_mem _ _ _ _ _ _ t) by (done || lia). eexists. split; [done|].
  intros x. rewrite u64_small, rd_wr, rd_truncated by lia.
  destruct (Z.eqb_spec x (buffer + (bufsz - 1))) as [->|Hx].
  { rewrite orb_true_r. destruct (Z.leb_spec buffer (buffer + (bufsz - 1))); [|done].
    rewrite (proj2 (Z.ltb_ge _ _)) by lia. done. }
  rewrite orb_false_r. destruct (Z.leb_spec buffer x); cbn [andb].
  2: { destruct (Z.eqb_spec x (buffer + n)); [lia|done]. }
  destruct (Z.ltb_spec x (buffer + n)).
  - rewrite (proj2 (Z.ltb_lt _ _)) by lia. by rewrite app_nth1 by lia.
  - destruct (Z.eqb_spec x (buffer + n)) as [->|].
    + rewrite (proj2 (Z.ltb_lt _ _)) by lia. replace (Z.to_nat (buffer + n - buffer)) with (length t + 0)%nat by lia.
      by rewrite app_nth2_plus.
    + by rewrite (proj2 (Z.ltb_ge _ _)) by lia.
Qed.

(** C36: formatted output into a buffer of [bufsz] bytes puts as much of the text
    as leaves room for the terminator there, terminates it, changes no byte
    outside the buffer and returns the length of the whole text, cut or
    not. *)
Theorem vsnprintf_truncates (str : Z -> list Z) (buffer bufsz : Z) (format args : list Z) (m : mem) (t : list Z) :
  text str format args = Some t -> 0 < buffer -> 0 < bufsz -> buffer + bufsz <= 2 ^ 64 ->
  let n := Z.min (Z.of_nat (length t)) (bufsz - 1) in
  exists m', npf_vsnprintf str buffer bufsz format args m = Some (m', i32 (Z.of_nat (length t))) /\
    read_bytes m' buffer (Z.to_nat n) = u8 <$> take (Z.to_nat n) t /\ rd m' (buffer + n) = 0 /\
    agree_off (fun x => buffer <= x < buffer + bufsz) m m'.
Proof.
  intros Ht Hb Hs Hw n. destruct (vsnprintf_bytes str buffer bufsz format args m t) as (m' & E & Hm); [done..|].
  fold n in Hm. exists m'. split; [done|]. split_and!.
  - apply read_bytes_u8; [lia|]. intros i Hi. rewrite Hm, (proj2 (Z.leb_le _ _)), (proj2 (Z.ltb_lt _ _)) by lia.
    cbn [andb]. do 2 f_equal. lia.
  - rewrite Hm, (proj2 (Z.ltb_ge _ _)), Z.eqb_refl, andb_false_r by lia. done.
  - intros x Hx. rewrite Hm. zcases; cbn; done || lia.
Qed.

(** The bytes in front of the first NUL. *)
Fixpoint until_nul (l : list Z) : list Z :=
  match l with
  | [] => []
  | c :: l => if c =? 0 then [] else c :: until_nul l
  end.

Lemma string_at_bytes m a n : string_at m a n = until_nul (read_bytes m a n).
Proof. revert a. induction n as [|n IH]; intros a; cbn [string_at read_bytes until_nul]; [done|]. by rewrite IH. Qed.

Lemma until_nul_app l l' : until_nul (l ++ 0 :: l') = until_nul l.
Proof. induction l as [|c l IH]; cbn [app until_nul]; [done|]. by rewrite IH. Qed.

Lemma read_bytes_app m a n k : read_bytes m a (n + k) = read_bytes m a n ++ read_bytes m (a + Z.of_nat n) k.
Proof.
  revert a. induction n as [|n IH]; intros a; cbn [Nat.add read_bytes app]; [by rewrite Z.add_0_r|].
  rewrite IH. do 3 f_equal. lia.
Qed.

(** The string that a reader of the buffer finds. *)
Lemma vsnprintf_string str buffer (bufsz : nat) format args m t :
  text str format args = Some t -> 0 < buffer -> (0 < bufsz)%nat -> buffer + Z.of_nat bufsz <= 2 ^ 64 ->
  exists m', npf_vsnprintf str buffer (Z.of_nat bufsz) format args m = Some (m', i32 (Z.of_nat (length t))) /\
    string_at m' buffer bufsz = until_nul (u8 <$> take (bufsz - 1) t) /\
    agree_off (fun x => buffer <= x < buffer + Z.of_nat bufsz) m m'.
Proof.
  intros Ht Hb Hs Hw. destruct (vsnprintf_bytes str buffer (Z.of_nat bufsz) format args m t) as (m' & E & Hm); [done|lia..|].
  set (n := Z.min _ _) in Hm. exists m'. split_and!; [done| |].
  - rewrite string_at_bytes. replace bufsz with (Z.to_nat n + S (bufsz - 1 - Z.to_nat n))%nat at 1 by lia.
    rewrite read_bytes_app. cbn [read_bytes].
    replace (rd m' (buffer + Z.of_nat (Z.to_nat n))) with 0.
    2: { replace (Z.of_nat (Z.to_nat n)) with n by lia.
         rewrite Hm, (proj2 (Z.ltb_ge _ _)), Z.eqb_refl, andb_false_r by lia. done. }
    rewrite until_nul_app. f_equal. rewrite (read_bytes_u8 _ _ t) by
      (lia || (intros i Hi; rewrite Hm, (proj2 (Z.leb_le _ _)), (proj2 (Z.ltb_lt _ _)) by lia; cbn [andb]; do 2 f_equal; lia)).
    f_equal. destruct (Z.le_ge_cases (Z.of_nat (length t)) (Z.of_nat bufsz - 1)).
    + rewrite !take_ge by lia. done.
    + f_equal. lia.
  - intros x Hx. rewrite Hm. zcases; cbn; done || lia.
Qed.

(** [vsprintf] passes the largest size there is, so the byte that is cleared
    as the last one of the buffer is two bytes in front of it. *)
Lemma vsprintf_clears_below str buffer format args m t :
  text str format args = Some t -> 2 <= buffer -> buffer + Z.of_nat (length t) + 1 <= 2 ^ 64 ->
  exists m', vsprintf str buffer format args m = Some (m', i32 (Z.of_nat (length t))) /\ rd m' (buffer - 2) = 0 /\
    agree_off (fun x => x = buffer - 2 \/ buffer <= x <= buffer + Z.of_nat (length t)) m m'.
Proof.
  intros Ht Hb Hw. unfold vsprintf, SIZE_MAX. rewrite (vsnprintf_mem _ _ _ _ _ _ t) by (done || lia). eexists. split; [done|].
  replace (u64 (buffer + (2 ^ 64 - 1 - 1))) with (buffer - 2).
  2: { unfold u64. replace (buffer + (2 ^ 64 - 1 - 1)) with (buffer - 2 + 1 * 2 ^ 64) by lia.
       rewrite Z.mod_add, Z.mod_small by lia. done. }
  split; [by rewrite rd_wr, Z.eqb_refl|]. intros x Hx. rewrite rd_wr, rd_truncated by lia.
  destruct (Z.eqb_spec x (buffer - 2)); [by destruct Hx; left|].
  destruct (Z.leb_spec buffer x); [|done]. rewrite (proj2 (Z.ltb_ge _ _)) by lia. done.
Qed.

(** ** Digits *)

Definition digit_val (c : Z) : Z :=
  if c <=? ch "9" then c - ch "0" else if ch "a" <=? c then c - ch "a" + 10 else c - ch "A" + 10.

(** The number that a list of digits stands for, lowest digit first. *)
Definition number (base : Z) (l : list Z) : Z := foldr (fun c v => digit_val c + base * v) 0 l.

Lemma digit_val_char d adj : 0 <= d < 16 -> adj = 0 \/ adj = 32 -> digit_val (digit_char d adj) = d.
Proof.
  intros Hd Ha. unfold digit_val, digit_char.
  change (ch "9") with 57. change (ch "0") with 48. change (ch "a") with 97. change (ch "A") with 65.
  destruct (Z.ltb_spec d 10).
  - rewrite (proj2 (Z.leb_le _ _)) by lia. lia.
  - rewrite (proj2 (Z.leb_gt _ _)) by lia. destruct Ha as [-> | ->].
    + rewrite (proj2 (Z.leb_gt _ _)) by lia. lia.
    + rewrite (proj2 (Z.leb_le _ _)) by lia. lia.
Qed.

Lemma utoa_loop_number fuel v base adj :
  2 <= base <= 16 -> adj = 0 \/ adj = 32 -> 0 <= v < base ^ Z.of_nat fuel ->
  number base (utoa_rev_loop fuel v base adj) = v.
Proof.
  intros Hb Ha. revert v. induction fuel as [|fuel IH]; intros v Hv; [cbn in *; lia|].
  rewrite Nat2Z.inj_succ, Z.pow_succ_r in Hv by lia. cbn [utoa_rev_loop number foldr].
  pose proof (Z.mod_pos_bound v base ltac:(lia)). pose proof (Z.div_mod v base ltac:(lia)) as Hdm.
  rewrite digit_val_char by lia. fold (number base).
  destruct (Z.eqb_spec (v / base) 0) as [E|E]; [cbn; lia|]. fold (number base (utoa_rev_loop fuel (v / base) base adj)).
  rewrite IH; [lia|]. split; [apply Z.div_pos; lia|]. apply Z.div_lt_upper_bound; lia.
Qed.

Lemma utoa_loop_length fuel v base adj k :
  2 <= base -> (1 <= k)%nat -> 0 <= v < base ^ Z.of_nat k -> (length (utoa_rev_loop fuel v base adj) <= k)%nat.
Proof.
  intros Hb. revert v k. induction fuel as [|fuel IH]; intros v k Hk Hv; [cbn; lia|]. cbn [utoa_rev_loop length].
  destruct (Z.eqb_spec (v / base) 0) as [E|E]; [cbn; lia|]. destruct k as [|[|k]]; [lia| |].
  - change (Z.of_nat 1) with 1 in Hv. rewrite Z.pow_1_r in Hv. rewrite Z.div_small in E by lia. done.
  - apply le_n_S, IH; [lia|]. rewrite (Nat2Z.inj_succ (S k)), Z.pow_succ_r in Hv by lia.
    split; [apply Z.div_pos; lia|]. apply Z.div_lt_upper_bound; lia.
Qed.

Lemma utoa_number v base adj :
  2 <= base <= 16 -> adj = 0 \/ adj = 32 -> in_u64 v -> number base (npf_utoa_rev v base adj) = v.
Proof.
  intros Hb Ha [Hv1 Hv2]. apply utoa_loop_number; [done|done|]. split; [done|].
  eapply Z.lt_le_trans; [exact Hv2|]. change 64 with (Z.of_nat 64). apply Z.pow_le_mono_l. lia.
Qed.

Lemma utoa_digits v adj : Forall (fun c => ch "0" <= c <= ch "9") (npf_utoa_rev v 10 adj).
Proof.
  unfold npf_utoa_rev. generalize 64%nat as fuel. intros fuel. revert v. induction fuel as [|fuel IH]; intros v; [constructor|].
  cbn [utoa_rev_loop]. constructor.
  - pose proof (Z.mod_pos_bound v 10 ltac:(lia)). unfold digit_char. rewrite (proj2 (Z.ltb_lt _ _)) by lia.
    change (ch "9") with 57. change (ch "0") with 48. lia.
  - destruct (v / 10 =? 0); [constructor|apply IH].
Qed.

(** How much of the conversion buffer a conversion uses. *)
Definition stored (r : option (npf_format_spec * converted * list Z)) : nat :=
  match r with Some (_, c, _) => length (cbuf c) | None => 0 end.

(** No number overruns the conversion buffer of 23 bytes: 64 bits are at most
    22 octal digits, and the prefix of the alternative form makes it 23.
    Binary numbers are not stored, and strings stay where they are. *)
Theorem conversion_buffer_fits (str : Z -> list Z) (fs fs' : npf_format_spec) (args args' : list Z) (c : converted) :
  convert str fs args = Some (fs', c, args') -> conv_spec fs <> NPF_FMT_SPEC_CONV_STRING ->
  (length (cbuf c) <= 23)%nat.
Proof.
  assert (forall v base adj, 8 <= base -> in_u64 v -> (length (npf_utoa_rev v base adj) <= 22)%nat) as Hl.
  { intros v base adj Hb [H1 H2]. apply utoa_loop_length; [lia|lia|]. split; [done|].
    eapply Z.lt_le_trans; [exact H2|]. etransitivity; [|apply Z.pow_le_mono_l; split; [|exact Hb]; lia]. cbn. lia. }
  assert (forall z, in_u64 (u64 z)) as Hu by (intros; apply u64_range).
  assert (forall md v, in_u64 (extract_unsigned md v)) as He.
  { intros md v. unfold extract_unsigned, in_u64. destruct md; unfold u64, u32, u16, u8;
      match goal with |- context [_ mod ?k] => pose proof (Z.mod_pos_bound v k ltac:(lia)) end; lia. }
  assert (forall f v, in_u64 v -> (length (cbuf (convert_unsigned f v).2) <= 23)%nat) as Hun.
  { intros f v Hv. unfold convert_unsigned. cbn [snd cbuf].
    match goal with |- context [if ?b then [] else npf_utoa_rev v ?base ?adj] =>
      assert (length (if b then [] else npf_utoa_rev v base adj) <= 22)%nat as H
        by (destruct b; [cbn; lia|apply Hl; [repeat case_bool_decide; lia|done]]) end.
    destruct (negb (v =? 0) && _ && _); rewrite ?length_app; cbn [length]; lia. }
  assert (forall f v, (length (cbuf (convert_signed f v)) <= 23)%nat) as Hsg.
  { intros f v. unfold convert_signed. cbn [cbuf]. destruct (_ && _ && _); [cbn; lia|].
    etransitivity; [apply Hl; [lia|by destruct (v <? 0)]|lia]. }
  intros Hc Hs. unfold convert in Hc.
  destruct (conv_spec fs); try done; try (destruct args as [|v args0]; [done|]);
    cbn [va_arg mbind option_bind] in Hc; apply (f_equal stored) in Hc; unfold stored in Hc; rewrite <- Hc.
  all: try (cbn [payload cbuf length]; lia).
  all: try apply Hsg.
  all: try (destruct (convert_unsigned fs _) as [f u] eqn:Eu; rewrite <- (f_equal snd Eu : _ = u); apply Hun, He).
  cbn [cbuf]. etransitivity; [apply Hl; [lia|apply Hu]|lia].
Qed.

(** ** Parsed specifications *)

Record spec_ok (fs : npf_format_spec) : Prop := {
  sp_width : 0 <= field_width fs < 2 ^ 31;
  sp_no_width : field_width_opt fs = NPF_FMT_SPEC_OPT_NONE -> field_width fs = 0;
  sp_prec : - 2 ^ 31 <= prec fs < 2 ^ 31;
  sp_zero_pad : left_justified fs <> 0 -> leading_zero_pad fs = 0;
  sp_prepend : prepend fs = 0 \/ prepend fs = ch " " \/ prepend fs = ch "+";
  sp_case : case_adjust fs = 0 \/ case_adjust fs = 32
}.

Lemma parse_flags_ok cur fs : spec_ok fs -> spec_ok (parse_flags cur fs).1.
Proof.
  revert fs. induction cur as [|c cur IH]; intros fs [H1 H2 H3 H4 H5 H6]; [done|]. cbn [parse_flags].
  repeat match goal with |- context [if c =? ?x then _ else _] => destruct (c =? x) end; try apply IH; split; try done;
    cbn; auto.
  - intros Hl. by rewrite (proj2 (Z.eqb_neq _ _) Hl).
  - destruct (prepend fs =? 0); auto.
Qed.

Lemma parse_number_range cur v w rest :
  0 <= v < 2 ^ 31 -> parse_number cur v = Some (w, rest) -> 0 <= w < 2 ^ 31.
Proof.
  revert v. induction cur as [|c cur IH]; intros v Hv H; cbn [parse_number] in H; [by injection H as <- _|].
  unfold is_digit in H. destruct (Z.leb_spec (ch "0") c) as [Hc|Hc]; cbn [andb] in H; [|by injection H as <- _].
  destruct (c <=? ch "9"); [|by injection H as <- _]. destruct (Z.ltb_spec (v * 10 + (c - ch "0")) (2 ^ 31)); [|done].
  apply (IH (v * 10 + (c - ch "0"))); [lia|exact H].
Qed.

Lemma parse_width_ok cur fs fs' rest :
  parse_width cur fs = Some (fs', rest) -> spec_ok fs -> spec_ok fs'.
Proof.
  unfold parse_width. intros H [H1 H2 H3 H4 H5 H6]. destruct cur as [|c cur]; [by injection H as <- _; split|].
  destruct (c =? ch "*"); [by injection H as <- _; split|].
  destruct (parse_number (c :: cur) 0) as [[w r]|] eqn:E; [|done]. cbn [mbind option_bind] in H. injection H as <- _.
  split; try done; cbn.
  - by apply (parse_number_range (c :: cur) 0 w r).
  - unfold is_digit in *. cbn [parse_number] in E. unfold is_digit in E.
    destruct ((ch "0" <=? c) && (c <=? ch "9")); [done|]. by injection E as <- _.
Qed.

Lemma set_prec_ok p o fs : spec_ok fs -> 0 <= p < 2 ^ 31 -> spec_ok (set_prec p o fs).
Proof. intros [H1 H2 H3 H4 H5 H6] Hp. split; try done. cbn. lia. Qed.

Lemma parse_prec_ok cur fs fs' rest :
  parse_prec cur fs = Some (fs', rest) -> spec_ok fs -> spec_ok fs'.
Proof.
  unfold parse_prec. intros H Hs. destruct cur as [|c cur]; [injection H as <- _; by apply set_prec_ok|].
  destruct (c =? ch "."); [|injection H as <- _; by apply set_prec_ok].
  destruct cur as [|d cur]; [injection H as <- _; by apply set_prec_ok|].
  destruct (d =? ch "*"); [injection H as <- _; by apply set_prec_ok|].
  destruct (d =? ch "-");
    match type of H with context [parse_number ?l 0] => destruct (parse_number l 0) as [[w r]|] eqn:E; [|done] end;
    cbn [mbind option_bind] in H; injection H as <- _; apply set_prec_ok; try done;
    by eapply parse_number_range; [|exact E].
Qed.

Lemma parse_length_ok cur fs : spec_ok fs -> spec_ok (parse_length cur fs).1.
Proof.
  intros [H1 H2 H3 H4 H5 H6]. unfold parse_length. destruct cur as [|c [|d cur]];
    repeat match goal with |- context [if ?b then _ else _] => destruct b end; by split.
Qed.

Lemma parse_conv_ok cur fs fs' rest : parse_conv cur fs = Some (fs', rest) -> spec_ok fs -> spec_ok fs'.
Proof.
  unfold parse_conv, int_conv. intros H [H1 H2 H3 H4 H5 H6]. destruct cur as [|c cur]; [done|].
  repeat match type of H with context [if ?b then _ else _] => destruct b end; try done;
    injection H as <- _; split; cbn; auto.
Qed.

Lemma parse_ok cur fs rest : npf_parse_format_spec cur = Spec fs rest -> spec_ok fs.
Proof.
  unfold npf_parse_format_spec. intros H.
  assert (spec_ok spec_none) as H0 by (split; cbn; auto; lia). apply (parse_flags_ok cur) in H0.
  destruct (parse_flags cur spec_none) as [fs1 c1].
  destruct (parse_width c1 fs1) as [[fs2 c2]|] eqn:E2; [|done]. cbn [mbind option_bind fst] in *.
  apply parse_width_ok in E2; [|done]. destruct (parse_prec c2 fs2) as [[fs3 c3]|] eqn:E3; [|done].
  apply parse_prec_ok in E3; [|done]. apply (parse_length_ok c3) in E3.
  destruct (parse_length c3 fs3) as [fs4 c4]. cbn [fst] in *.
  destruct (parse_conv c4 fs4) as [[fs5 c5]|] eqn:E5; [|done]. apply parse_conv_ok in E5; [|done].
  by injection H as <- _.
Qed.

(** ** Reading numbers back *)

(** A reader of decimal numbers in the manner of [strtol]: spaces, a sign and
    digits up to the first other character. *)
Fixpoint read_digits (l : list Z) (v : Z) : Z :=
  match l with
  | c :: l => if is_digit c then read_digits l (v * 10 + (c - ch "0")) else v
  | [] => v
  end.

Definition read_signed (l : list Z) : Z :=
  match l with
  | c :: r => if c =? ch "-" then - read_digits r 0 else if c =? ch "+" then read_digits r 0 else read_digits l 0
  | [] => 0
  end.

Fixpoint read_int (l : list Z) : Z :=
  match l with
  | c :: r => if c =? ch " " then read_int r else read_signed l
  | [] => 0
  end.

Definition spaces (n : nat) : list Z := replicate n (ch " ").

Lemma read_digits_number l b v :
  Forall (fun c => ch "0" <= c <= ch "9") l ->
  read_digits (reverse l ++ spaces b) v = foldl (fun v c => v * 10 + (c - ch "0")) v (reverse l).
Proof.
  intros Hl. apply Forall_reverse in Hl. revert v. induction Hl as [|c r Hc _ IH]; intros v.
  - destruct b; [done|]. done.
  - cbn [app read_digits foldl]. unfold is_digit.
    rewrite (proj2 (Z.leb_le (ch "0") c)), (proj2 (Z.leb_le c (ch "9"))) by apply Hc. apply IH.
Qed.

Lemma foldl_number l :
  Forall (fun c => ch "0" <= c <= ch "9") l -> foldl (fun v c => v * 10 + (c - ch "0")) 0 (reverse l) = number 10 l.
Proof.
  intros Hl. induction Hl as [|c l Hc _ IH]; [done|]. rewrite reverse_cons, foldl_app, IH. cbn [foldl number foldr].
  fold (number 10 l). unfold digit_val. rewrite (proj2 (Z.leb_le c (ch "9"))) by apply Hc. lia.
Qed.

Lemma read_zeros z l : read_digits (zeros z ++ l) 0 = read_digits l 0.
Proof. unfold zeros. generalize (Z.to_nat z) as n. induction n as [|n IH]; [done|]. exact IH. Qed.

(** Spaces, a sign, zeros, digits and spaces read as the digits' number. *)
Lemma read_shape a sg z l b :
  Forall (fun c => ch "0" <= c <= ch "9") l -> In sg [0; ch " "; ch "+"; ch "-"] ->
  read_int (spaces a ++ sign_text sg ++ zeros z ++ reverse l ++ spaces b) =
  if sg =? ch "-" then - number 10 l else number 10 l.
Proof.
  intros Hl Hsg. assert (forall r, read_int (spaces a ++ r) = read_int r) as Ha by (induction a; [done|assumption]).
  rewrite Ha. pose proof (read_digits_number l b 0 Hl) as Hd. rewrite (foldl_number l Hl) in Hd.
  rewrite <- (read_zeros z) in Hd. set (r := zeros z ++ reverse l ++ spaces b) in *.
  assert (read_int r = number 10 l) as Hr.
  { rewrite <- Hd. assert (forall c x, In c (zeros z ++ reverse l) -> read_int (c :: x) = read_digits (c :: x) 0) as Hc.
    { intros c x Hc. assert (ch "0" <= c <= ch "9") as Hr.
      { apply in_app_or in Hc as [Hc|Hc]; [unfold zeros in Hc; apply list_elem_of_In, elem_of_replicate in Hc as [-> _]; by split|].
        apply list_elem_of_In, elem_of_reverse in Hc. rewrite reverse_involutive in Hc.
        exact (proj1 (Forall_forall _ _) Hl c Hc). }
      change (ch "0") with 48 in Hr. change (ch "9") with 57 in Hr. cbn [read_int]. change (ch " ") with 32.
      rewrite (proj2 (Z.eqb_neq c 32)) by lia. unfold read_signed. change (ch "-") with 45. change (ch "+") with 43.
      rewrite (proj2 (Z.eqb_neq c 45)), (proj2 (Z.eqb_neq c 43)) by lia. done. }
    unfold r. rewrite app_assoc. destruct (zeros z ++ reverse l) as [|c x] eqn:E; [|apply Hc; by left].
    cbn [app]. transitivity 0; [clear; induction b; [done|assumption]|by destruct b]. }
  unfold sign_text. destruct Hsg as [<-|[<-|[<-|[<-|[]]]]]; cbn [app Z.eqb]; try exact Hr.
  - exact Hd.
  - change (- read_digits r 0 = - number 10 l). by rewrite Hd.
Qed.

(** The field of a signed conversion has that shape. *)
Lemma signed_field fs c :
  spec_ok fs -> conv_spec fs = NPF_FMT_SPEC_CONV_SIGNED_INT -> need_0x c = 0 ->
  exists a z b, field_text fs c = spaces a ++ sign_text (sign_c c) ++ zeros z ++ reverse (cbuf c) ++ spaces b.
Proof.
  intros Hok Hconv Hx. unfold field_text, payload_text. rewrite Hconv, Hx. cbv zeta.
  change (prefix_text 0) with (@nil Z). change (sign_text 0) with (@nil Z). cbn [app].
  set (pp := prec_pad_of fs c). set (fp := field_pad_of fs c).
  assert (pad_char fs (zero c) = 0 \/ pad_char fs (zero c) = ch " " \/
    pad_char fs (zero c) = ch "0" /\ left_justified fs = 0) as Hpad.
  { unfold pad_char. rewrite Hconv. destruct (bool_decide _); [by left|].
    destruct (Z.eqb_spec (leading_zero_pad fs) 0) as [|Hz]; [by right; left|].
    destruct (_ && _ && _); [by right; left|]. right; right. split; [done|].
    destruct (Z.eq_dec (left_justified fs) 0) as [|Hl]; [done|]. by destruct Hz; apply (sp_zero_pad _ Hok). }
  destruct Hpad as [E|[E|[E El]]]; rewrite E, ?El.
  - exists 0%nat, pp, 0%nat. rewrite !andb_false_r. by rewrite app_nil_r.
  - change (ch " " =? 0) with false. change (ch " " =? ch "0") with false. cbn [negb]. rewrite !andb_true_r.
    destruct (left_justified fs =? 0); cbn [negb].
    + exists (Z.to_nat fp), pp, 0%nat. by rewrite app_nil_r.
    + exists 0%nat, pp, (Z.to_nat fp). by rewrite <- !app_assoc.
  - change (0 =? 0) with true. change (ch "0" =? 0) with false. change (ch "0" =? ch "0") with true. cbn [negb andb].
    exists 0%nat, (Z.of_nat (Z.to_nat fp + Z.to_nat pp)), 0%nat. rewrite app_nil_r. unfold zeros, spaces at 1.
    cbn [replicate app]. by rewrite Nat2Z.id, replicate_add, <- app_assoc.
Qed.

Lemma extract_signed_range md v : - 2 ^ 63 <= extract_signed md v < 2 ^ 63.
Proof.
  unfold extract_signed. destruct md; unfold i32, i16, i8, i64;
    match goal with |- context [?x mod ?k] => pose proof (Z.mod_pos_bound x k ltac:(lia)) end; lia.
Qed.

(** The digits of a signed conversion are those of the absolute value. *)
Lemma signed_digits fs val :
  spec_ok fs -> - 2 ^ 63 <= val < 2 ^ 63 ->
  Forall (fun c => ch "0" <= c <= ch "9") (cbuf (convert_signed fs val)) /\
  number 10 (cbuf (convert_signed fs val)) = Z.abs val.
Proof.
  intros Hok Hv. unfold convert_signed. cbn [cbuf].
  destruct (Z.eqb_spec val 0) as [->|Hne]; cbn [andb].
  - destruct (has_prec fs && (prec fs =? 0)); [done|]. split; [apply utoa_digits|].
    rewrite utoa_number; [done|lia|apply sp_case, Hok|by split].
  - split; [apply utoa_digits|]. destruct (Z.ltb_spec val 0).
    + assert (u64 (0 - u64 val) = Z.abs val) as ->.
      { unfold u64. replace (val mod 2 ^ 64) with (val + 2 ^ 64).
        - rewrite <- (Z.mod_add _ 1 (2 ^ 64)), Z.mod_small by lia. lia.
        - rewrite <- (Z.mod_small (val + 2 ^ 64) (2 ^ 64)) by lia. rewrite <- (Z.mod_add val 1 (2 ^ 64)) by lia. f_equal. }
      apply utoa_number; [lia|apply sp_case, Hok|unfold in_u64; lia].
    + rewrite u64_small by lia. rewrite utoa_number; [lia|lia|apply sp_case, Hok|unfold in_u64; lia].
Qed.

Lemma signed_length fs val : - 2 ^ 63 <= val < 2 ^ 63 -> (length (cbuf (convert_signed fs val)) <= 20)%nat.
Proof.
  intros Hv. unfold convert_signed. cbn [cbuf]. destruct (_ && _ && _); [cbn; lia|].
  apply utoa_loop_length; [lia|lia|]. change (10 ^ Z.of_nat 20) with 100000000000000000000.
  destruct (val <? 0); [pose proof (u64_range (0 - u64 val))|pose proof (u64_range val)]; unfold in_u64 in *; lia.
Qed.

(** A field is never narrower than asked for, and no wider than it has to be. *)
Lemma signed_field_width fs val :
  spec_ok fs -> conv_spec fs = NPF_FMT_SPEC_CONV_SIGNED_INT -> - 2 ^ 63 <= val < 2 ^ 63 ->
  field_width fs <= Z.of_nat (length (field_text fs (convert_signed fs val))) <=
    Z.max (field_width fs) (1 + Z.max (prec fs) 20).
Proof.
  intros Hok Hconv Hv. pose proof (signed_length fs val Hv) as H20. set (c := convert_signed fs val) in *.
  assert (cbuf_len c = Z.of_nat (length (cbuf c)) /\ need_0x c = 0) as [El Ex] by done.
  assert (pad_char fs (zero c) = 0 -> field_width fs = 0) as Hpad.
  { unfold pad_char. rewrite Hconv. case_bool_decide as Eo; [by rewrite (sp_no_width _ Hok Eo)|].
    destruct (leading_zero_pad fs =? 0); [done|]. by destruct (_ && _ && _). }
  assert (forall x, npf_max 0 x = Z.max 0 x) as Hm by (intros x; unfold npf_max; destruct (Z.ltb_spec x 0); lia).
  assert (Z.of_nat (length (sign_text (sign_c c))) = if sign_c c =? 0 then 0 else 1) as Hs
    by (unfold sign_text; by destruct (sign_c c =? 0)).
  assert (prec_pad_of fs c = Z.max 0 (prec fs - Z.of_nat (length (cbuf c))) /\
    field_pad_of fs c = Z.max 0 (field_width fs - Z.of_nat (length (cbuf c)) -
      Z.of_nat (length (sign_text (sign_c c))) - prec_pad_of fs c)) as [Ep Ef].
  { unfold field_pad_of, prec_pad_of. rewrite Hconv, bool_decide_eq_false_2, Ex, El, Hs, !Hm by done. cbn. lia. }
  assert (Z.of_nat (length (sign_text (sign_c c))) <= 1) as Hs1 by (rewrite Hs; by destruct (sign_c c =? 0)).
  unfold field_text, payload_text. rewrite Hconv, Ex. cbv zeta.
  change (prefix_text 0) with (@nil Z). change (sign_text 0) with (@nil Z). cbn [app].
  unfold zeros. destruct (Z.eqb_spec (pad_char fs (zero c)) 0) as [E0|E0]; cbn [negb]; rewrite ?andb_false_r, ?andb_true_r.
  - specialize (Hpad E0). rewrite !length_app, length_replicate, length_reverse. lia.
  - clear Hpad. destruct (left_justified fs =? 0); cbn [negb]; try destruct (pad_char fs (zero c) =? ch "0");
      rewrite ?length_app, ?length_replicate, ?length_reverse; lia.
Qed.

(** The arguments of a conversion: [w] and [p] for a width and a precision that
    are given as '*', then the number. *)
Definition conv_args (fs : npf_format_spec) (w p v : Z) (args : list Z) : list Z :=
  (if bool_decide (field_width_opt fs = NPF_FMT_SPEC_OPT_STAR) then [w] else []) ++
  (if bool_decide (prec_opt fs = NPF_FMT_SPEC_OPT_STAR) then [p] else []) ++ v :: args.

(** The width and the precision that are asked for. *)
Definition asked_width (fs : npf_format_spec) (w : Z) : Z :=
  if bool_decide (field_width_opt fs = NPF_FMT_SPEC_OPT_STAR) then Z.abs w else field_width fs.

Definition asked_prec (fs : npf_format_spec) (p : Z) : Z :=
  if bool_decide (prec_opt fs = NPF_FMT_SPEC_OPT_STAR) then p else prec fs.

Lemma i32_id v : - 2 ^ 31 <= v < 2 ^ 31 -> i32 v = v.
Proof. intros Hv. unfold i32. rewrite Z.mod_small by lia. lia. Qed.

Lemma star_width_ok fs w p v args :
  spec_ok fs -> (field_width_opt fs = NPF_FMT_SPEC_OPT_STAR ->
    - 2 ^ 31 < w < 2 ^ 31 /\ (w < 0 -> leading_zero_pad fs = 0)) ->
  exists fs', star_width fs (conv_args fs w p v args) =
      Some (fs', (if bool_decide (prec_opt fs = NPF_FMT_SPEC_OPT_STAR) then [p] else []) ++ v :: args) /\
    spec_ok fs' /\ field_width fs' = asked_width fs w /\ prec_opt fs' = prec_opt fs /\ prec fs' = prec fs /\
    length_modifier fs' = length_modifier fs /\ conv_spec fs' = conv_spec fs.
Proof.
  intros [H1 H2 H3 H4 H5 H6] Hw. unfold star_width, conv_args, asked_width. case_bool_decide as E.
  - destruct (Hw E) as [Hr Hz]. cbn [app va_arg mbind option_bind]. rewrite i32_id, (proj2 (Z.eqb_neq w _)) by lia.
    destruct (Z.ltb_spec w 0); (eexists; split; [done|]); (split_and!; [split|..]); try done; cbn; try lia; auto.
  - exists fs. by split_and!.
Qed.

Lemma star_prec_ok fs p v args :
  spec_ok fs -> (prec_opt fs = NPF_FMT_SPEC_OPT_STAR -> - 2 ^ 31 <= p < 2 ^ 31) ->
  exists fs', star_prec fs ((if bool_decide (prec_opt fs = NPF_FMT_SPEC_OPT_STAR) then [p] else []) ++ v :: args) =
      Some (fs', v :: args) /\
    spec_ok fs' /\ field_width fs' = field_width fs /\ prec fs' = asked_prec fs p /\
    length_modifier fs' = length_modifier fs /\ conv_spec fs' = conv_spec fs.
Proof.
  intros [H1 H2 H3 H4 H5 H6] Hp. unfold star_prec, asked_prec. case_bool_decide as E.
  - specialize (Hp E). cbn [app va_arg mbind option_bind]. rewrite i32_id by lia.
    eexists. split; [done|]. split_and!; [split|..]; done.
  - exists fs. by split_and!.
Qed.

(** The text of a signed conversion reads back as the number. *)
Lemma signed_text_reads fs val :
  spec_ok fs -> conv_spec fs = NPF_FMT_SPEC_CONV_SIGNED_INT -> - 2 ^ 63 <= val < 2 ^ 63 ->
  let t := field_text fs (convert_signed fs val) in
  read_int t = val /\ field_width fs <= Z.of_nat (length t) <= Z.max (field_width fs) (1 + Z.max (prec fs) 20) /\
  Forall (fun c => 0 < c < 256) t.
Proof.
  intros Hok Hc Hv t. destruct (signed_field fs (convert_signed fs val)) as (a & z & b & E); [done|done|done|].
  destruct (signed_digits fs val Hok Hv) as [Hd Hn].
  assert (In (sign_c (convert_signed fs val)) [0; ch " "; ch "+"; ch "-"]) as Hsg.
  { unfold convert_signed. cbn [sign_c]. destruct (val <? 0); [cbn; tauto|].
    destruct (sp_prepend _ Hok) as [-> |[-> | ->]]; cbn; tauto. }
  split; [|split; [by apply signed_field_width|]].
  - unfold t. rewrite E, read_shape, Hn by done. unfold convert_signed. cbn [sign_c].
    destruct (Z.ltb_spec val 0); [rewrite Z.eqb_refl; lia|].
    destruct (sp_prepend _ Hok) as [-> |[-> | ->]]; (rewrite (proj2 (Z.eqb_neq _ _)) by done; lia).
  - unfold t. rewrite E. unfold spaces, zeros, sign_text. repeat rewrite Forall_app. split_and!.
    + by apply Forall_replicate.
    + destruct Hsg as [<-|[<-|[<-|[<-|[]]]]]; by repeat constructor.
    + by apply Forall_replicate.
    + apply Forall_reverse. eapply Forall_impl; [exact Hd|]. intros c [? ?]. change (ch "0") with 48 in *.
      change (ch "9") with 57 in *. lia.
    + by apply Forall_replicate.
Qed.

(** C37: a number printed with %d reads back.  Whatever flags, width, precision
    and length the conversion has, with a width and a precision that are
    written out or given as arguments, what [npf_vsnprintf] stores in a buffer
    that is large enough is a string that a reader of decimal numbers reads as
    exactly that number.  It fills the field, and it is no longer than the
    width, or 21 characters, or one more than the precision.  The exception is a negative
    width argument together with the flag '0' ([negative_star_width]). *)
Theorem printf_decimal_roundtrip (str : Z -> list Z) (buffer : Z) (bufsz : nat) (cur args : list Z) (w p v : Z)
    (fs : npf_format_spec) (m : mem) :
  npf_parse_format_spec cur = Spec fs [] -> conv_spec fs = NPF_FMT_SPEC_CONV_SIGNED_INT ->
  (field_width_opt fs = NPF_FMT_SPEC_OPT_STAR -> - 2 ^ 31 < w < 2 ^ 31 /\ (w < 0 -> leading_zero_pad fs = 0)) ->
  (prec_opt fs = NPF_FMT_SPEC_OPT_STAR -> - 2 ^ 31 <= p < 2 ^ 31) ->
  0 < buffer -> (0 < bufsz)%nat -> buffer + Z.of_nat bufsz <= 2 ^ 64 ->
  exists m' n, npf_vsnprintf str buffer (Z.of_nat bufsz) (ch "%" :: cur) (conv_args fs w p v args) m = Some (m', i32 n) /\
    asked_width fs w <= n <= Z.max (asked_width fs w) (1 + Z.max (asked_prec fs p) 20) /\
    (n < Z.of_nat bufsz ->
       Z.of_nat (length (string_at m' buffer bufsz)) = n /\
       read_int (string_at m' buffer bufsz) = extract_signed (length_modifier fs) v).
Proof.
  intros Hp Hc Hw Hpr Hb Hs Hbw. set (val := extract_signed (length_modifier fs) v).
  destruct (star_width_ok fs w p v args (parse_ok _ _ _ Hp) Hw) as (fs1 & E1 & Hok1 & Hw1 & Hp1 & Hq1 & Hm1 & Hc1).
  rewrite <- Hp1 in Hpr, E1. destruct (star_prec_ok fs1 p v args Hok1 Hpr) as (fs2 & E2 & Hok2 & Hw2 & Hq2 & Hm2 & Hc2).
  set (t := field_text fs2 (convert_signed fs2 val)).
  destruct (signed_text_reads fs2 val Hok2) as (Hread & Hlen & Hbytes); [congruence|apply extract_signed_range|].
  fold t in Hread, Hlen, Hbytes.
  assert (text str (ch "%" :: cur) (conv_args fs w p v args) = Some t) as Ht.
  { unfold text. cbn [length]. rewrite text_step, Z.eqb_refl, Hp. unfold spec_text. rewrite E1. cbn [mbind option_bind].
    rewrite E2. cbn [mbind option_bind]. unfold convert. rewrite Hc2, Hc1, Hc. cbn [va_arg mbind option_bind].
    rewrite Hm2, Hm1. fold val t. destruct (length cur); cbn [text_from fmap option_fmap option_map]; by rewrite app_nil_r. }
  destruct (vsnprintf_string str buffer bufsz _ _ m t Ht Hb Hs Hbw) as (m' & Em & Hstr & _).
  assert (asked_prec fs1 p = asked_prec fs p) as Ea by (unfold asked_prec; by rewrite Hp1, Hq1).
  rewrite Hq2, Ea, Hw2, Hw1 in Hlen. exists m', (Z.of_nat (length t)). split; [exact Em|]. split; [exact Hlen|]. intros Hn.
  assert (u8 <$> t = t /\ until_nul t = t) as [Hu Hnul].
  { clear - Hbytes. induction Hbytes as [|c l Hx _ [IH1 IH2]]; [done|]. cbn [fmap list_fmap until_nul].
    rewrite (proj2 (Z.eqb_neq c 0)), IH2 by lia. split; [|done]. f_equal; [apply u8_small; lia|exact IH1]. }
  rewrite Hstr, take_ge, Hu, Hnul by lia. split; [done|exact Hread].
Qed.

(** A negative width argument stands for its absolute value and the flag '-',
    which should overrule the flag '0'; here both stay, and the number is
    padded with zeros on its right. *)
Example negative_star_width : exists m,
  npf_vsnprintf (fun _ => []) 0x1000 8 (cstr "%0*d") [-5; 3] ∅ = Some (m, 5) /\ string_at m 0x1000 8 = cstr "30000".
Proof. eexists. split; vm_compute; reflexivity. Qed.

(** ** Witnesses *)

Lemma vsnprintf_truncates_witness : exists m',
  npf_vsnprintf (fun _ => cstr "riria") 0x1000 8 (cstr "%s: %d") [1; 42] ∅ = Some (m', 9) /\
  read_bytes m' 0x1000 7 = cstr "riria: " /\ rd m' 0x1007 = 0.
Proof.
  destruct (vsnprintf_truncates (fun _ => cstr "riria") 0x1000 8 (cstr "%s: %d") [1; 42] ∅ (cstr "riria: 42"))
    as (m' & E1 & E2 & E3 & _); [vm_compute; reflexivity|done|done|done|].
  exists m'. split; [exact E1|]. split; [exact E2|exact E3].
Defined.

(** The largest number in octal with its prefix fills the buffer. *)
Lemma conversion_buffer_fits_witness : exists fs' c args',
  convert (fun _ => []) (set_conv NPF_FMT_SPEC_CONV_OCTAL 32 (set_flags 0 0 0 35 (set_length NPF_FMT_SPEC_LEN_MOD_LONG spec_none)))
    [2 ^ 64 - 1] = Some (fs', c, args') /\ length (cbuf c) = 23%nat /\ (length (cbuf c) <= 23)%nat.
Proof.
  do 3 eexists. split; [vm_compute; reflexivity|]. split; [reflexivity|].
  eapply (conversion_buffer_fits (fun _ => [])
    (set_conv NPF_FMT_SPEC_CONV_OCTAL 32 (set_flags 0 0 0 35 (set_length NPF_FMT_SPEC_LEN_MOD_LONG spec_none))) _ [2 ^ 64 - 1]);
    [vm_compute; reflexivity|done].
Defined.

Lemma printf_decimal_roundtrip_witness : exists m,
  npf_vsnprintf (fun _ => []) 0x1000 32 (cstr "%+*.5ld") [-8; -77] ∅ = Some (m, 8) /\
  read_int (string_at m 0x1000 32) = -77.
Proof.
  destruct (printf_decimal_roundtrip (fun _ => []) 0x1000 32 (cstr "+*.5ld") [] (-8) 0 (-77)
    (mk_spec 0 NPF_FMT_SPEC_OPT_STAR 0 0 5 NPF_FMT_SPEC_OPT_LITERAL 43 0 32 NPF_FMT_SPEC_LEN_MOD_LONG
      NPF_FMT_SPEC_CONV_SIGNED_INT) ∅) as (m & n & E & Hn & H); [vm_compute; reflexivity|done|by split|done|done|lia|done|].
  change (asked_width _ _) with 8 in Hn. change (Z.max 8 _) with 21 in Hn. rewrite i32_id in E by lia. exists m.
  assert (option_map snd (npf_vsnprintf (fun _ => []) 0x1000 32 (cstr "%+*.5ld") [-8; -77] ∅) = Some 8) as E8
    by (vm_compute; reflexivity).
  change (Z.of_nat 32) with 32 in *. change (ch "%" :: cstr "+*.5ld") with (cstr "%+*.5ld") in E.
  change (conv_args _ _ _ _ _) with [-8; -77] in E. rewrite E in E8. injection E8 as ->.
  split; [exact E|]. apply H. lia.
Defined.
