(* ===== verification/Ssfn.v ===== *)
(** * The console font renderer

    [ssfn_putc] of base/usr/include/riria/thirdparty/ssfn.h as
    kernel/info.c compiles it (SSFN_CONSOLEBITMAP_TRUECOLOR, 32-bit pixels):
    the walk through the character table of a font in memory and the drawing of
    a glyph's fragments.  The globals [ssfn_src] and [ssfn_dst] are
    arguments. *)

From S2P Require Import Prelude Memory.

(** ** Definitions *)

Definition SSFN_OK : Z := 0.
Definition SSFN_ERR_INVINP : Z := -4.
Definition SSFN_ERR_NOGLYPH : Z := -7.

(** [ssfn_buf_t] *)
Record ssfn_buf : Type := mk_ssfn_buf {
  d_ptr : Z; d_w : Z; d_h : Z; d_p : Z; d_x : Z; d_y : Z; d_fg : Z; d_bg : Z
}.

Definition move_to (x y : Z) (d : ssfn_buf) : ssfn_buf :=
  mk_ssfn_buf (d_ptr d) (d_w d) (d_h d) (d_p d) x y (d_fg d) (d_bg d).

(** The fields of [ssfn_font_t] that are read. *)
Definition font_magic (m : mem) (src : Z) : list Z := read_bytes m src 4.
Definition font_height (m : mem) (src : Z) : Z := rd m (src + 11).
Definition characters_offs (m : mem) (src : Z) : Z := load32 m (src + 16).

(** Bytes of a fragment reference of a character. *)
Definition ref_size (b : Z) : Z := if Z.land b 0x40 =? 0 then 5 else 6.

(** The loop over the character table from code point [i] on; every round
    advances [i], so that [0x110000] rounds are enough. *)
Fixpoint find_chr (fuel : nat) (m : mem) (ptr i unicode : Z) : option Z :=
  match fuel with
  | O => None
  | S fuel =>
    if 0x110000 <=? i then None else
    let b := rd m ptr in
    if b =? 0xFF then find_chr fuel m (ptr + 1) (i + 65535 + 1) unicode
    else if Z.land b 0xC0 =? 0xC0 then
      find_chr fuel m (ptr + 2) (i + Z.lor (Z.shiftl (Z.land b 0x3F) 8) (rd m (ptr + 1)) + 1) unicode
    else if Z.land b 0xC0 =? 0x80 then find_chr fuel m (ptr + 1) (i + Z.land b 0x3F + 1) unicode
    else if u32 i =? unicode then Some ptr
    else find_chr fuel m (ptr + (6 + rd m (ptr + 1) * ref_size b)) (i + 1) unicode
  end.

(** [for (p = o, j = 0; j < n && (!w || x + j < w); j++, p++) *p = bg;] *)
Fixpoint fill_row (n : nat) (d : ssfn_buf) (w p j : Z) (m : mem) : mem :=
  match n with
  | O => m
  | S n =>
    if (w =? 0) || (d_x d + j <? w) then fill_row n d w (p + 4) (j + 1) (store32 m p (d_bg d)) else m
  end.

(** The rows of background from [y] up to [last], and where they end. *)
Fixpoint fill_rows (n : nat) (d : ssfn_buf) (w s width y o : Z) (m : mem) : Z * Z * mem :=
  match n with
  | O => (y, o, m)
  | S n =>
    if (d_h d =? 0) || (d_y d + y <? d_h d)
    then fill_rows n d w s width (y + 1) (o + 4 * s) (fill_row (Z.to_nat width) d w o 0 m)
    else (y, o, m)
  end.

(** The inner loop over one row of a fragment: [frg] and [mask] are the place of
    the next bit. *)
Fixpoint draw_row (n : nat) (d : ssfn_buf) (w p l frg mask : Z) (m : mem) : Z * Z * mem :=
  match n with
  | O => (frg, mask, m)
  | S n =>
    let frg' := if 0x80 <? mask then frg + 1 else frg in
    let mask' := if 0x80 <? mask then 1 else mask in
    let m' :=
      if (0 <=? d_x d + l) && ((w =? 0) || (d_x d + l <? w)) then
        if negb (Z.land (rd m frg') mask' =? 0) then store32 m p (d_fg d)
        else if negb (d_bg d =? 0) then store32 m p (d_bg d) else m
      else m in
    draw_row n d w (p + 4) (l + 1) frg' (Z.shiftl mask' 1) m'
  end.

(** The loop over the [n] rows of a fragment of width [k]. *)
Fixpoint draw_rows (n : nat) (d : ssfn_buf) (w s k frg mask y o : Z) (m : mem) : Z * Z * mem :=
  match n with
  | O => (y, o, m)
  | S n =>
    if (d_h d =? 0) || (d_y d + y <? d_h d) then
      let '(frg, mask, m) := draw_row (Z.to_nat k) d w o 0 frg mask m in
      draw_rows n d w s k frg mask (y + 1) (o + 4 * s) m
    else (y, o, m)
  end.

(** The offset of the fragment that the reference at [ptr] names. *)
Definition frag_offs (m : mem) (ptr size : Z) : Z :=
  let b i := rd m (ptr + i) in
  if size =? 6 then i32 (Z.lor (Z.lor (Z.lor (Z.shiftl (b 5) 24) (Z.shiftl (b 4) 16)) (Z.shiftl (b 3) 8)) (b 2))
  else Z.lor (Z.lor (Z.shiftl (b 4) 16) (Z.shiftl (b 3) 8)) (b 2).

(** The loop over the fragments of the character at [chr]. *)
Fixpoint draw_frags (n : nat) (src : Z) (d : ssfn_buf) (w s chr ptr y o : Z) (m : mem) : Z * Z * mem :=
  match n with
  | O => (y, o, m)
  | S n =>
    let size := ref_size (rd m chr) in
    let next := draw_frags n src d w s chr (ptr + size) in
    if (rd m ptr =? 255) && (rd m (ptr + 1) =? 255) then next y o m else
    let frg := src + frag_offs m ptr size in
    if negb (Z.land (rd m frg) 0xE0 =? 0x80) then next y o m else
    let '(y, o, m) :=
      if negb (d_bg d =? 0)
      then fill_rows (Z.to_nat (rd m (ptr + 1) - y)) d w s (rd m (chr + 2)) y o m
      else (rd m (ptr + 1), o + 4 * ((rd m (ptr + 1) - y) * s), m) in
    let k := Z.shiftl (Z.land (rd m frg) 0x1F + 1) 3 in
    let '(y, o, m) := draw_rows (Z.to_nat (rd m (frg + 1) + 1)) d w s k (frg + 2) 1 y o m in
    next y o m
  end.

(** [ssfn_putc]: the result, [ssfn_dst] and the memory afterwards. *)
Definition ssfn_putc (src : Z) (d : ssfn_buf) (unicode : Z) (m : mem) : Z * ssfn_buf * mem :=
  if (src =? 0) || negb (bool_decide (font_magic m src = cstr "SFN2")) || (d_ptr d =? 0) || (d_p d =? 0)
  then (SSFN_ERR_INVINP, d, m) else
  let s := d_p d / 4 in
  let w := if d_w d <? 0 then - d_w d else d_w d in
  match find_chr (Z.to_nat 0x110000) m (src + characters_offs m src) 0 unicode with
  | None => (SSFN_ERR_NOGLYPH, d, m)
  | Some chr =>
    let o := d_ptr d + d_y d * d_p d + d_x d * 4 in
    let '(y, o, m) := draw_frags (Z.to_nat (rd m (chr + 1))) src d w s chr (chr + 6) 0 o m in
    let '(_, _, m) :=
      if negb (d_bg d =? 0) then fill_rows (Z.to_nat (rd m (chr + 3) - y)) d w s (rd m (chr + 2)) y o m
      else (y, o, m) in
    (SSFN_OK, move_to (i32 (d_x d + rd m (chr + 4))) (i32 (d_y d + rd m (chr + 5))) d, m)
  end.

(** ** What a glyph looks like

    A fragment of the character is a box of dots: it starts at row [f_row] of
    the cell, is [f_width] dots wide and [f_rows] high, and its dots are the bits from
    address [f_data] on, row by row, lowest bit first. *)

Record frag : Type := mk_frag { f_row : Z; f_width : Z; f_rows : Z; f_data : Z }.

Definition frag_at (m : mem) (src ptr size : Z) : option frag :=
  let frg := src + frag_offs m ptr size in
  if (rd m ptr =? 255) && (rd m (ptr + 1) =? 255) then None else
  if negb (Z.land (rd m frg) 0xE0 =? 0x80) then None else
  Some (mk_frag (rd m (ptr + 1)) (8 * (Z.land (rd m frg) 0x1F + 1)) (rd m (frg + 1) + 1) (frg + 2)).

(** The fragments of the character at [chr]. *)
Definition frags (m : mem) (src chr : Z) : list frag :=
  let size := ref_size (rd m chr) in
  omap (fun i => frag_at m src (chr + 6 + size * i) size) (seqZ 0 (rd m (chr + 1))).

Definition dot (m : mem) (f : frag) (r c : Z) : bool :=
  let pos := r * f_width f + c in Z.testbit (rd m (f_data f + pos / 8)) (pos mod 8).

(** The addresses of the pixels of row [r] of the box, [pitch] bytes to a
    line, and those of all its rows, for a cell at address [o]. *)
Definition row_dots (m : mem) (f : frag) (pitch o r : Z) : list Z :=
  omap (fun c => if dot m f r c then Some (o + pitch * (f_row f + r) + 4 * c) else None) (seqZ 0 (f_width f)).

Definition frag_dots (m : mem) (pitch o : Z) (f : frag) : list Z :=
  flat_map (row_dots m f pitch o) (seqZ 0 (f_rows f)).

Definition glyph_dots (m : mem) (src chr pitch o : Z) : list Z :=
  flat_map (frag_dots m pitch o) (frags m src chr).

(** Pixels set one after the other. *)
Definition paint (fg : Z) (dots : list Z) (m : mem) : mem := foldl (fun m a => store32 m a fg) m dots.

(** The bytes that drawing the character reads. *)
Definition glyph_reads (m : mem) (src chr a : Z) : Prop :=
  chr <= a < chr + 6 + 6 * rd m (chr + 1) \/
  (exists i, 0 <= i < rd m (chr + 1) /\
     let frg := src + frag_offs m (chr + 6 + ref_size (rd m chr) * i) (ref_size (rd m chr)) in frg <= a < frg + 2) \/
  exists f, In f (frags m src chr) /\ f_data f <= a < f_data f + f_rows f * (f_width f / 8).

(** ** Lemmas *)

Lemma paint_app fg l1 l2 m : paint fg (l1 ++ l2) m = paint fg l2 (paint fg l1 m).
Proof. apply foldl_app. Qed.

Definition in_pixel (x a : Z) : bool := (a <=? x) && (x <? a + 4).

Lemma rd_store32 m a v x :
  rd (store32 m a v) x = if in_pixel x a then u8 (v / 256 ^ (x - a)) else rd m x.
Proof.
  unfold store32, in_pixel. by rewrite rd_store_le.
Qed.

(** A painted memory, for pixels that are a multiple of 4 apart. *)
Lemma rd_paint fg o dots m x :
  Forall (fun a => (a - o) mod 4 = 0) dots ->
  rd (paint fg dots m) x = if existsb (in_pixel x) dots then u8 (fg / 256 ^ ((x - o) mod 4)) else rd m x.
Proof.
  intros Hd. revert m. induction Hd as [|a dots Ha Hd IH]; intros m; [done|].
  cbn [existsb]. change (paint fg (a :: dots) m) with (paint fg dots (store32 m a fg)). rewrite IH, rd_store32.
  destruct (existsb (in_pixel x) dots); [by rewrite orb_true_r|]. rewrite orb_false_r.
  destruct (in_pixel x a) eqn:E; [|done]. unfold in_pixel in E. apply andb_prop in E as [E1 E2].
  do 2 f_equal. f_equal. zlia.
Qed.

Lemma rd_paint_off fg dots m x : existsb (in_pixel x) dots = false -> rd (paint fg dots m) x = rd m x.
Proof.
  revert m. induction dots as [|a dots IH]; intros m H; [done|]. cbn [existsb] in H. apply orb_false_elim in H as [H1 H2].
  change (paint fg (a :: dots) m) with (paint fg dots (store32 m a fg)). by rewrite IH, rd_store32, H1.
Qed.

(** [frg] and [mask] are at bit [pos] of the data. *)
Definition bit_state (data pos frg mask : Z) : Prop :=
  exists b, 0 <= b <= 8 /\ mask = Z.shiftl 1 b /\ pos = 8 * (frg - data) + b.

Lemma mask_full b : 0 <= b <= 8 -> (0x80 <? Z.shiftl 1 b) = (b =? 8).
Proof.
  intros Hb. assert (In b [0; 1; 2; 3; 4; 5; 6; 7; 8]) as Hin by (cbn [In]; lia). cbn [In] in Hin.
  repeat destruct Hin as [<-|Hin]; done.
Qed.

Lemma bit_next data pos frg mask :
  bit_state data pos frg mask ->
  let frg' := if 0x80 <? mask then frg + 1 else frg in
  let mask' := if 0x80 <? mask then 1 else mask in
  frg' = data + pos / 8 /\ (forall v, negb (Z.land v mask' =? 0) = Z.testbit v (pos mod 8)) /\
  bit_state data (pos + 1) frg' (Z.shiftl mask' 1).
Proof.
  intros (b & Hb & -> & ->). rewrite mask_full by done. destruct (Z.eqb_spec b 8) as [->|Hb8]; cbn zeta; split_and!.
  - zlia.
  - intros v. change 1 with (Z.shiftl 1 0) at 1. rewrite land_bit_nonzero, negb_involutive by lia. f_equal. zlia.
  - exists 1. split; [lia|]. split; [done|lia].
  - zlia.
  - intros v. rewrite land_bit_nonzero, negb_involutive by lia. f_equal. zlia.
  - exists (b + 1). split; [lia|]. split; [by rewrite Z.shiftl_shiftl by lia|lia].
Qed.

Section plain.
(** The renderer as the kernel sets it up: no clipping and no background. *)
Context (d : ssfn_buf) (Hh : d_h d = 0) (Hbg : d_bg d = 0) (Hx : 0 <= d_x d).
(** The memory with the font, and the bytes of it that are read. *)
Context (m0 : mem) (F : Z -> Prop).

Definition same_font (m : mem) : Prop := forall a, F a -> rd m a = rd m0 a.
Definition avoids (dots : list Z) : Prop := forall a x, In a dots -> F x -> in_pixel x a = false.

Lemma same_paint dots m : same_font m -> avoids dots -> same_font (paint (d_fg d) dots m).
Proof.
  intros Hm Ha a HF. rewrite rd_paint_off; [by apply Hm|]. apply not_true_is_false. intros He.
  apply existsb_exists in He as (x & Hin & Hp). by rewrite (Ha x a Hin HF) in Hp.
Qed.

Definition font_bit (data pos : Z) : bool := Z.testbit (rd m0 (data + pos / 8)) (pos mod 8).

Fixpoint bits_dots (n : nat) (data pos p : Z) : list Z :=
  match n with
  | O => []
  | S n => (if font_bit data pos then [p] else []) ++ bits_dots n data (pos + 1) (p + 4)
  end.

Lemma draw_row_dots n p l data pos frg mask m :
  0 <= l -> bit_state data pos frg mask -> same_font m ->
  (forall i, 0 <= i < Z.of_nat n -> F (data + (pos + i) / 8)) -> avoids (bits_dots n data pos p) ->
  exists frg' mask', draw_row n d 0 p l frg mask m = (frg', mask', paint (d_fg d) (bits_dots n data pos p) m) /\
    bit_state data (pos + Z.of_nat n) frg' mask'.
Proof.
  revert p l pos frg mask m. induction n as [|n IH]; intros p l pos frg mask m Hl Hb Hm HF Hav.
  - exists frg, mask. by rewrite Z.add_0_r.
  - cbn [draw_row bits_dots]. destruct (bit_next _ _ _ _ Hb) as (E1 & E2 & E3). cbn zeta in E1, E2, E3.
    rewrite Z.eqb_refl, orb_true_l, andb_true_r, (proj2 (Z.leb_le _ _)) by lia. rewrite Hbg, Z.eqb_refl. cbn [negb].
    rewrite E2, E1 in *. rewrite Hm by (rewrite <- (Z.add_0_r pos); apply HF; lia). fold (font_bit data pos).
    assert (avoids (bits_dots n data (pos + 1) (p + 4))) as Hav'.
    { intros a x Ha. apply Hav. apply in_or_app. by right. }
    assert (same_font (paint (d_fg d) (if font_bit data pos then [p] else []) m)) as Hm'.
    { apply same_paint; [done|]. intros a x Ha. apply Hav. apply in_or_app. by left. }
    destruct (IH (p + 4) (l + 1) (pos + 1) (data + pos / 8) (Z.shiftl (if 128 <? mask then 1 else mask) 1)
      (paint (d_fg d) (if font_bit data pos then [p] else []) m)) as (frg' & mask' & E & Hb'); try done; [lia| |].
    { intros i Hi. replace (pos + 1 + i) with (pos + (i + 1)) by lia. apply HF. lia. }
    exists frg', mask'. rewrite paint_app, <- E. split; [by destruct (font_bit data pos)|].
    by replace (pos + Z.of_nat (S n)) with (pos + 1 + Z.of_nat n) by lia.
Qed.

Lemma bits_dots_omap n data pos p j :
  bits_dots n data (pos + j) (p + 4 * j) =
  omap (fun c => if font_bit data (pos + c) then Some (p + 4 * c) else None) (seqZ j (Z.of_nat n)).
Proof.
  revert j. induction n as [|n IH]; intros j; [done|].
  rewrite (seqZ_cons j) by lia. replace (Z.pred (Z.of_nat (S n))) with (Z.of_nat n) by lia.
  cbn [bits_dots omap list_omap].
  replace (pos + j + 1) with (pos + Z.succ j) by lia. replace (p + 4 * j + 4) with (p + 4 * Z.succ j) by lia.
  rewrite IH. by destruct (font_bit data (pos + j)).
Qed.

(** [n] rows from bit [pos] on, the first at address [o]. *)
Fixpoint rows_dots (n : nat) (k : nat) (pitch data pos o : Z) : list Z :=
  match n with
  | O => []
  | S n => bits_dots k data pos o ++ rows_dots n k pitch data (pos + Z.of_nat k) (o + pitch)
  end.

Lemma draw_rows_dots n k s data pos frg mask y o m :
  0 <= pos -> bit_state data pos frg mask -> same_font m ->
  (forall i, 0 <= i < Z.of_nat n * Z.of_nat k -> F (data + (pos + i) / 8)) -> avoids (rows_dots n k (4 * s) data pos o) ->
  draw_rows n d 0 s (Z.of_nat k) frg mask y o m =
    (y + Z.of_nat n, o + 4 * s * Z.of_nat n, paint (d_fg d) (rows_dots n k (4 * s) data pos o) m).
Proof.
  revert pos frg mask y o m. induction n as [|n IH]; intros pos frg mask y o m Hp Hb Hm HF Hav.
  - cbn. by rewrite Z.mul_0_r, !Z.add_0_r.
  - cbn [draw_rows rows_dots]. rewrite Hh, Z.eqb_refl, orb_true_l, Nat2Z.id.
    destruct (draw_row_dots k o 0 data pos frg mask m) as (frg' & mask' & E & Hb'); try done.
    { intros i Hi. apply HF. nia. }
    { intros a x Ha. apply Hav. apply in_or_app. by left. }
    rewrite E, (IH (pos + Z.of_nat k)); try done; [|lia|..].
    + rewrite paint_app. f_equal. f_equal; lia.
    + apply same_paint; [done|]. intros a x Ha. apply Hav. apply in_or_app. by left.
    + intros i Hi. replace (pos + Z.of_nat k + i) with (pos + (Z.of_nat k + i)) by lia. apply HF. nia.
    + intros a x Ha. apply Hav. apply in_or_app. by right.
Qed.

Lemma rows_dots_flat f n s o r :
  0 <= f_width f ->
  rows_dots n (Z.to_nat (f_width f)) (4 * s) (f_data f) (r * f_width f) (o + 4 * s * (f_row f + r)) =
  flat_map (row_dots m0 f (4 * s) o) (seqZ r (Z.of_nat n)).
Proof.
  intros Hw. revert r. induction n as [|n IH]; intros r; [done|].
  rewrite (seqZ_cons r) by lia. replace (Z.pred (Z.of_nat (S n))) with (Z.of_nat n) by lia.
  cbn [rows_dots flat_map]. f_equal.
  - pose proof (bits_dots_omap (Z.to_nat (f_width f)) (f_data f) (r * f_width f) (o + 4 * s * (f_row f + r)) 0) as E.
    rewrite Z.mul_0_r, !Z.add_0_r, Z2Nat.id in E by done. exact E.
  - rewrite <- IH. f_equal; lia.
Qed.
End plain.

Section glyph.
Context (d : ssfn_buf) (Hh : d_h d = 0) (Hbg : d_bg d = 0) (Hx : 0 <= d_x d).
Context (m0 : mem) (src chr : Z).

Abbreviation F := (glyph_reads m0 src chr).
Abbreviation size := (ref_size (rd m0 chr)).
Abbreviation same := (same_font m0 F).

Lemma ref_size_cases b : ref_size b = 5 \/ ref_size b = 6.
Proof. unfold ref_size. destruct (_ =? _); auto. Qed.

Lemma reads_chr a : chr <= a < chr + 6 + 6 * rd m0 (chr + 1) -> F a.
Proof. by left. Qed.

Lemma frag_at_same i m :
  same m -> 0 <= i < rd m0 (chr + 1) ->
  let ptr := chr + 6 + size * i in
  rd m ptr = rd m0 ptr /\ rd m (ptr + 1) = rd m0 (ptr + 1) /\ frag_offs m ptr size = frag_offs m0 ptr size /\
  (let frg := src + frag_offs m0 ptr size in rd m frg = rd m0 frg /\ rd m (frg + 1) = rd m0 (frg + 1)).
Proof.
  intros Hm Hi ptr. assert (forall j, 0 <= j < size -> rd m (ptr + j) = rd m0 (ptr + j)) as Hp.
  { intros j Hj. apply Hm, reads_chr. unfold ptr. destruct (ref_size_cases (rd m0 chr)) as [E|E]; rewrite E in *; lia. }
  assert (5 <= size) as Hs by (destruct (ref_size_cases (rd m0 chr)) as [->| ->]; lia).
  split_and!.
  - rewrite <- (Z.add_0_r ptr). apply Hp. lia.
  - apply Hp. lia.
  - unfold frag_offs. destruct (Z.eqb_spec size 6); rewrite !Hp by lia; done.
  - cbn zeta. split; apply Hm; right; left; exists i; (split; [done|]); fold ptr; lia.
Qed.

Lemma frag_width i f : frag_at m0 src (chr + 6 + size * i) size = Some f -> exists k, 1 <= k /\ f_width f = 8 * k.
Proof.
  unfold frag_at. destruct (_ && _); [done|]. destruct (negb _); [done|]. intros [= <-]. cbn [f_width].
  eexists. split; [|done]. assert (0 <= Z.land (rd m0 (src + frag_offs m0 (chr + 6 + size * i) size)) 31)
    by (apply Z.land_nonneg; lia). lia.
Qed.

Lemma frags_in i f : 0 <= i < rd m0 (chr + 1) -> frag_at m0 src (chr + 6 + size * i) size = Some f -> In f (frags m0 src chr).
Proof.
  intros Hi Hf. apply list_elem_of_In, list_elem_of_omap. exists i. split; [|done]. apply elem_of_seqZ. lia.
Qed.

(** One fragment. *)
Lemma draw_frag_dots i f s o m :
  same m -> 0 <= i < rd m0 (chr + 1) -> frag_at m0 src (chr + 6 + size * i) size = Some f ->
  avoids F (frag_dots m0 (4 * s) o f) ->
  draw_rows (Z.to_nat (f_rows f)) d 0 s (f_width f) (f_data f) 1 (f_row f) (o + 4 * s * f_row f) m =
    (f_row f + f_rows f, o + 4 * s * (f_row f + f_rows f), paint (d_fg d) (frag_dots m0 (4 * s) o f) m).
Proof.
  intros Hm Hi Hf Hav. destruct (frag_width i f Hf) as (k & Hk & Ek).
  assert (0 <= f_rows f) as Hr.
  { revert Hf. unfold frag_at. destruct (_ && _); [done|]. destruct (negb _); [done|]. intros [= <-]. cbn [f_rows].
    pose proof (rd_range m0 (src + frag_offs m0 (chr + 6 + size * i) size + 1)). lia. }
  pose proof (rows_dots_flat m0 f (Z.to_nat (f_rows f)) s o 0 ltac:(lia)) as E.
  rewrite Z.mul_0_l, Z.add_0_r, Z2Nat.id in E by done. change (flat_map _ _) with (frag_dots m0 (4 * s) o f) in E.
  rewrite <- E in Hav |- *. replace (f_width f) with (Z.of_nat (Z.to_nat (f_width f))) at 1 by lia.
  rewrite (draw_rows_dots d Hh Hbg Hx m0 F _ _ s (f_data f) 0); try done.
  - rewrite Z2Nat.id by done. f_equal. f_equal; lia.
  - exists 0. split; [lia|]. split; [done|lia].
  - intros j Hj. right. right. exists f. split; [by apply (frags_in i)|]. rewrite Ek in *.
    replace (8 * k / 8) with k by (rewrite Z.mul_comm, Z.div_mul; lia). rewrite Z2Nat.id, Z2Nat.id in Hj by lia.
    rewrite Z.add_0_l. assert (j / 8 < f_rows f * k) by (apply Z.div_lt_upper_bound; nia).
    assert (0 <= j / 8) by (apply Z.div_pos; lia). lia.
Qed.

Lemma draw_frags_dots n i s y o m :
  same m -> 0 <= i -> i + Z.of_nat n <= rd m0 (chr + 1) ->
  let fs := omap (fun i => frag_at m0 src (chr + 6 + size * i) size) (seqZ i (Z.of_nat n)) in
  avoids F (flat_map (frag_dots m0 (4 * s) o) fs) ->
  exists y', draw_frags n src d 0 s chr (chr + 6 + size * i) y (o + 4 * s * y) m =
    (y', o + 4 * s * y', paint (d_fg d) (flat_map (frag_dots m0 (4 * s) o) fs) m).
Proof.
  revert i y m. induction n as [|n IH]; intros i y m Hm Hi Hn fs Hav; [by exists y|].
  revert Hav. unfold fs. clear fs. rewrite (seqZ_cons i) by lia.
  replace (Z.pred (Z.of_nat (S n))) with (Z.of_nat n) by lia. change (omap ?f (?x :: ?l)) with
    (match f x with Some y => y :: omap f l | None => omap f l end). cbn beta. intros Hav.
  cbn [draw_frags]. rewrite (Hm chr) by (apply reads_chr; pose proof (rd_range m0 (chr + 1)); lia).
  destruct (frag_at_same i m Hm ltac:(lia)) as (R1 & R2 & R3 & R4 & R5). cbn zeta in R1, R2, R3, R4, R5.
  rewrite R1, R2, R3, R4, Hbg, Z.eqb_refl. cbn [negb]. unfold frag_at in Hav at 1 |- * at 1.
  replace (chr + 6 + size * i + size) with (chr + 6 + size * Z.succ i) by lia.
  destruct ((rd m0 _ =? 255) && _) eqn:Es; [apply (IH (Z.succ i)); done || lia|].
  destruct (negb _) eqn:Ev; [apply (IH (Z.succ i)); done || lia|].
  set (f := mk_frag _ _ _ _) in Hav |- *. cbn [flat_map] in Hav |- *.
  assert (frag_at m0 src (chr + 6 + size * i) size = Some f) as Hf by (unfold frag_at; by rewrite Es, Ev).
  assert (avoids F (frag_dots m0 (4 * s) o f)) as Hav1 by (intros a x Ha; apply Hav, in_or_app; by left).
  pose proof (draw_frag_dots i f s o m Hm ltac:(lia) Hf Hav1) as E.
  rewrite R5. replace (o + 4 * s * y + 4 * ((rd m0 (chr + 6 + size * i + 1) - y) * s)) with (o + 4 * s * f_row f)
    by (cbn [f f_row]; lia).
  cbn [f f_row f_width f_rows f_data] in E |- *. cbn beta iota zeta.
  rewrite Z.shiftl_mul_pow2, (Z.mul_comm _ (2 ^ 3)) by lia. change (2 ^ 3) with 8. rewrite R4, E, paint_app.
  apply (IH (Z.succ i)); try lia.
  - by apply same_paint.
  - intros a x Ha. apply Hav, in_or_app. by right.
Qed.
End glyph.

(** ** The character table *)

(** Entries of the table: code points left out, in the three encodings, and a
    character with its metrics and fragment references. *)
Inductive entry : Type :=
  | Skip_plane                    (* 65536 code points *)
  | Skip_long (n : Z)             (* n + 1 of them, n < 0x3F00 *)
  | Skip (n : Z)                  (* n + 1 of them, n < 64 *)
  | Glyph (bytes : list Z).

Definition entry_ok (e : entry) : Prop :=
  match e with
  | Skip_plane => True
  | Skip_long n => 0 <= n < 0x3F00
  | Skip n => 0 <= n < 64
  | Glyph l => Forall (fun b => 0 <= b < 256) l /\ nth 0 l 0 < 0x80 /\
               Z.of_nat (length l) = 6 + nth 1 l 0 * ref_size (nth 0 l 0)
  end.

Definition encode (e : entry) : list Z :=
  match e with
  | Skip_plane => [0xFF]
  | Skip_long n => [0xC0 + n / 256; n mod 256]
  | Skip n => [0x80 + n]
  | Glyph l => l
  end.

Definition span (e : entry) : Z :=
  match e with Skip_plane => 65536 | Skip_long n => n + 1 | Skip n => n + 1 | Glyph _ => 1 end.

(** Where the character of code point [u] is in the table at [a] whose first
    entry starts at code point [i]. *)
Fixpoint locate (es : list entry) (a i u : Z) : option Z :=
  match es with
  | [] => None
  | e :: es =>
    if match e with Glyph _ => i =? u | _ => false end then Some a
    else locate es (a + Z.of_nat (length (encode e))) (i + span e) u
  end.

Definition total_span (es : list entry) : Z := fold_right (fun e n => span e + n) 0 es.

Fixpoint bytes_at (m : mem) (a : Z) (l : list Z) : Prop :=
  match l with
  | [] => True
  | v :: l => rd m a = v /\ bytes_at m (a + 1) l
  end.

Lemma bytes_at_app m a l1 l2 :
  bytes_at m a (l1 ++ l2) <-> bytes_at m a l1 /\ bytes_at m (a + Z.of_nat (length l1)) l2.
Proof.
  revert a. induction l1 as [|v l1 IH]; intros a; cbn [app bytes_at length].
  - rewrite Z.add_0_r. tauto.
  - rewrite IH. replace (a + Z.of_nat (S (length l1))) with (a + 1 + Z.of_nat (length l1)) by lia. tauto.
Qed.

(** The classes of a first byte. *)
Lemma byte_class b :
  0 <= b < 256 ->
  if b <? 0x80 then Z.land b 0xC0 <> 0xC0 /\ Z.land b 0xC0 <> 0x80
  else if b <? 0xC0 then Z.land b 0xC0 = 0x80 /\ Z.land b 0x3F = b - 0x80
  else Z.land b 0xC0 = 0xC0 /\ Z.land b 0x3F = b - 0xC0.
Proof.
  intros Hb.
  assert (forallb (fun b => if b <? 0x80 then negb (Z.land b 0xC0 =? 0xC0) && negb (Z.land b 0xC0 =? 0x80)
    else if b <? 0xC0 then (Z.land b 0xC0 =? 0x80) && (Z.land b 0x3F =? b - 0x80)
    else (Z.land b 0xC0 =? 0xC0) && (Z.land b 0x3F =? b - 0xC0)) (seqZ 0 256) = true) as H by (vm_compute; reflexivity).
  rewrite forallb_forall in H. specialize (H b ltac:(apply list_elem_of_In, elem_of_seqZ; lia)). cbn beta in H.
  destruct (b <? 0x80); [|destruct (b <? 0xC0)]; apply andb_prop in H as [H1 H2];
    rewrite ?negb_true_iff, ?Z.eqb_neq, ?Z.eqb_eq in H1; rewrite ?negb_true_iff, ?Z.eqb_neq, ?Z.eqb_eq in H2; by split.
Qed.

Lemma span_pos e : entry_ok e -> 1 <= span e.
Proof. destruct e; cbn; lia. Qed.

Lemma locate_past es a i u : Forall entry_ok es -> u < i -> locate es a i u = None.
Proof.
  intros H. revert a i. induction H as [|e es He Hes IH]; intros a i Hi; [done|]. cbn [locate].
  pose proof (span_pos e He). replace (match e with Glyph _ => i =? u | _ => false end) with false
    by (destruct e; lia). apply IH. lia.
Qed.

(** One round of the loop passes over one entry. *)
Lemma find_chr_step fuel m a i u e :
  0 <= i < 0x110000 -> entry_ok e -> bytes_at m a (encode e) ->
  find_chr (S fuel) m a i u =
    if match e with Glyph _ => i =? u | _ => false end then Some a
    else find_chr fuel m (a + Z.of_nat (length (encode e))) (i + span e) u.
Proof.
  intros Hi He Hb. cbn [find_chr]. rewrite (proj2 (Z.leb_gt _ _)) by lia.
  pose proof (byte_class (rd m a) (rd_range m a)) as Hc.
  destruct e as [|n|n|l]; cbn [encode span length entry_ok] in *.
  - destruct Hb as [-> _]. rewrite Z.eqb_refl. f_equal; lia.
  - destruct Hb as (E1 & E2 & _). rewrite E1, E2 in *. assert (0 <= n / 256 < 0x3F) by (split; [apply Z.div_pos; lia|apply Z.div_lt_upper_bound; lia]).
    rewrite (proj2 (Z.ltb_ge _ 128)), (proj2 (Z.ltb_ge _ 192)) in Hc by lia. destruct Hc as [-> ->].
    rewrite (proj2 (Z.eqb_neq _ 255)), Z.eqb_refl by lia.
    rewrite lor_shiftl by (lia || (change (2 ^ 8) with 256; apply Z.mod_pos_bound; lia)). change (2 ^ 8) with 256.
    f_equal. zlia.
  - destruct Hb as (E1 & _). rewrite E1 in *.
    rewrite (proj2 (Z.ltb_ge _ 128)), (proj2 (Z.ltb_lt _ 192)) in Hc by lia. destruct Hc as [-> ->].
    rewrite (proj2 (Z.eqb_neq _ 255)) by lia. cbn [Z.eqb Pos.eqb]. f_equal; lia.
  - destruct He as (Hl & Hf & Hlen). destruct l as [|b0 [|b1 l]]; cbn [length nth] in *.
    { pose proof (rd_range m a). destruct (ref_size_cases 0) as [E|E]; rewrite E in Hlen; lia. }
    { destruct (ref_size_cases b0) as [E|E]; rewrite E in Hlen; lia. }
    destruct Hb as (E1 & E2 & _). rewrite E1, E2 in *. rewrite (proj2 (Z.ltb_lt _ 128)) in Hc by lia.
    destruct Hc as [C1 C2]. rewrite (proj2 (Z.eqb_neq _ 255)), (proj2 (Z.eqb_neq _ _) C1), (proj2 (Z.eqb_neq _ _) C2) by lia.
    rewrite u32_small by lia. destruct (i =? u); [done|]. f_equal. lia.
Qed.

(** The walk finds what looking the code point up in the list of entries
    finds. *)
Lemma find_chr_locate es fuel m a i u :
  Forall entry_ok es -> bytes_at m a (flat_map encode es) -> 0 <= i -> 0 <= u < 0x110000 ->
  0x110000 <= i + total_span es -> 0x110000 - i <= Z.of_nat fuel ->
  find_chr fuel m a i u = locate es a i u.
Proof.
  intros Hes. revert fuel a i. induction Hes as [|e es He Hes IH]; intros fuel a i Hb Hi Hu Hs Hf.
  - destruct fuel; [done|]. cbn [total_span fold_right] in Hs. cbn [find_chr locate].
    by rewrite (proj2 (Z.leb_le _ _)) by lia.
  - destruct (Z.lt_ge_cases i 0x110000) as [Hlt|Hge].
    + destruct fuel as [|fuel]; [lia|]. cbn [flat_map] in Hb. apply bytes_at_app in Hb as [Hb1 Hb2].
      rewrite (find_chr_step _ _ _ _ _ e) by done. cbn [locate]. destruct (match e with Glyph _ => _ | _ => _ end); [done|].
      pose proof (span_pos e He). apply IH; try done; try lia. change (total_span (e :: es)) with (span e + total_span es) in Hs. lia.
    + rewrite locate_past by (constructor || lia; done). destruct fuel; [done|]. cbn [find_chr].
      by rewrite (proj2 (Z.leb_le _ _)) by lia.
Qed.

Lemma glyph_dots_aligned m src chr pitch o a :
  pitch mod 4 = 0 -> In a (glyph_dots m src chr pitch o) -> (a - o) mod 4 = 0.
Proof.
  intros Hp Ha. apply in_flat_map in Ha as (f & _ & Ha). apply in_flat_map in Ha as (r & _ & Ha).
  apply list_elem_of_In, list_elem_of_omap in Ha as (c & _ & Hc). destruct (dot m f r c); [|done].
  injection Hc as <-. rewrite (Z.div_mod pitch 4), Hp by lia.
  replace (o + (4 * (pitch / 4) + 0) * (f_row f + r) + 4 * c - o) with ((pitch / 4 * (f_row f + r) + c) * 4) by lia.
  apply Z.mod_mul. lia.
Qed.

(** ** Properties *)

(** A font in memory: the header, and a character table that covers all code
    points. *)
Record font_at (m : mem) (src : Z) (es : list entry) : Prop := {
  font_src : src <> 0;
  font_tag : font_magic m src = cstr "SFN2";
  font_entries : Forall entry_ok es;
  font_table : bytes_at m (src + characters_offs m src) (flat_map encode es);
  font_complete : 0x110000 <= total_span es
}.

(** C23: With the settings of the kernel (no clipping, no background), [ssfn_putc]
    of a character that the font's table has finds it, sets exactly the pixels
    of the dots of its fragments to the foreground colour and changes no other
    byte, wherever on the screen, and moves the position on by the character's
    advance; for a character that the table lacks it returns
    [SSFN_ERR_NOGLYPH] and changes nothing.  The drawing loops of the code keep
    a running pointer into the frame buffer and a running bit mask; the dots
    are those of rows, columns and bits counted from the start. *)
Theorem ssfn_putc_spec (m : mem) (src u : Z) (es : list entry) (d : ssfn_buf) :
  font_at m src es -> 0 <= u < 0x110000 -> d_ptr d <> 0 -> 0 < d_p d -> d_p d mod 4 = 0 ->
  d_w d = 0 -> d_h d = 0 -> d_bg d = 0 -> 0 <= d_x d ->
  let o := d_ptr d + d_y d * d_p d + d_x d * 4 in
  match locate es (src + characters_offs m src) 0 u with
  | None => ssfn_putc src d u m = (SSFN_ERR_NOGLYPH, d, m)
  | Some chr =>
    let dots := glyph_dots m src chr (d_p d) o in
    (forall a x, In a dots -> glyph_reads m src chr x -> in_pixel x a = false) ->
    exists m', ssfn_putc src d u m =
        (SSFN_OK, move_to (i32 (d_x d + rd m (chr + 4))) (i32 (d_y d + rd m (chr + 5))) d, m') /\
      forall x, rd m' x = if existsb (in_pixel x) dots then u8 (d_fg d / 256 ^ ((x - o) mod 4)) else rd m x
  end.
Proof.
  intros [Hsrc Htag Hes Htab Hall] Hu Hp Hpitch Hp4 Hw Hh Hbg Hx o. unfold ssfn_putc.
  pose proof (Z2Nat.id 0x110000 ltac:(lia)) as HN. revert HN. generalize (Z.to_nat 0x110000). intros N HN.
  rewrite (bool_decide_eq_true_2 _ Htag), (proj2 (Z.eqb_neq src 0) Hsrc), (proj2 (Z.eqb_neq _ 0) Hp),
    (proj2 (Z.eqb_neq (d_p d) 0)) by lia. cbn [negb orb].
  rewrite (find_chr_locate es) by (assumption || lia).
  destruct (locate es _ 0 u) as [chr|]; [|done]. set (dots := glyph_dots m src chr (d_p d) o). intros Hav.
  rewrite Hw, Hbg, Z.eqb_refl. cbn [negb Z.ltb Z.compare].
  assert (4 * (d_p d / 4) = d_p d) as E4 by zlia. pose proof (rd_range m (chr + 1)) as Hn.
  assert (avoids (glyph_reads m src chr) dots) as Hav' by exact Hav.
  destruct (draw_frags_dots d Hh Hbg Hx m src chr (Z.to_nat (rd m (chr + 1))) 0 (d_p d / 4) 0 o m) as (y' & E);
    [by intros a _|lia|lia| |].
  { rewrite E4, Z2Nat.id by lia. exact Hav. }
  rewrite E4, !Z.mul_0_r, !Z.add_0_r, Z2Nat.id in E by lia.
  change (flat_map _ _) with dots in E. fold o. rewrite E.
  assert (same_font m (glyph_reads m src chr) (paint (d_fg d) dots m)) as Hf by (apply same_paint; [by intros a _|done]).
  rewrite !(Hf (chr + _)) by (left; lia). eexists. split; [done|].
  intros x. apply rd_paint. apply Forall_forall. intros a Ha.
  by apply (glyph_dots_aligned m src chr (d_p d)), list_elem_of_In.
Qed.

(** ** Witness *)

(** A font with one character, 'A': a fragment of one row of eight dots at row 2. *)
Definition demo_glyph : list Z := [0; 1; 8; 8; 9; 0; 0; 2; 64; 0; 0].
Definition demo_entries : list entry :=
  Skip_long 64 :: Glyph demo_glyph :: replicate 17 Skip_plane.
Definition demo_font : mem :=
  write_bytes ∅ 0x1000
    (cstr "SFN2" ++ replicate 12 0 ++ [96; 0; 0; 0] ++ replicate 44 0 ++ [0x80; 0; 0x81] ++ replicate 29 0 ++
     flat_map encode demo_entries).
Definition demo_dst : ssfn_buf := mk_ssfn_buf 0x8000 0 0 64 1 1 0x00FFFFFF 0.

Lemma ssfn_putc_spec_witness :
  exists m', ssfn_putc 0x1000 demo_dst 65 demo_font = (SSFN_OK, move_to 10 1 demo_dst, m') /\
    load32 m' 0x80C4 = 0x00FFFFFF /\ load32 m' 0x80E0 = 0x00FFFFFF /\ load32 m' 0x80C8 = 0.
Proof.
  pose proof (ssfn_putc_spec demo_font 0x1000 65 demo_entries demo_dst) as H.
  assert (font_at demo_font 0x1000 demo_entries) as Hf.
  { split; [lia|vm_compute; reflexivity| |vm_compute; tauto|vm_compute; discriminate].
    apply Forall_cons_2; [cbn; lia|]. apply Forall_cons_2; [|by apply Forall_replicate].
    split; [|split; [cbn; lia|reflexivity]].
    unfold demo_glyph. repeat (apply Forall_cons_2; [lia|]). apply Forall_nil_2. }
  specialize (H Hf ltac:(lia) ltac:(discriminate) ltac:(cbn; lia) eq_refl eq_refl eq_refl eq_refl ltac:(cbn; lia)).
  cbn zeta in H. assert (locate demo_entries (0x1000 + characters_offs demo_font 0x1000) 0 65 = Some 0x1062) as El
    by (vm_compute; reflexivity). rewrite El in H.
  assert (glyph_dots demo_font 0x1000 0x1062 64 0x8044 = [0x80C4; 0x80E0]) as Ed by (vm_compute; reflexivity).
  change (d_ptr demo_dst + d_y demo_dst * d_p demo_dst + d_x demo_dst * 4) with 0x8044 in H.
  change (d_p demo_dst) with 64 in H. rewrite Ed in H. destruct H as (m' & E & Hm).
  - assert (rd demo_font (0x1062 + 1) = 1) as En by (vm_compute; reflexivity).
    assert (0x1000 + frag_offs demo_font (0x1062 + 6 + ref_size (rd demo_font 0x1062) * 0) (ref_size (rd demo_font 0x1062)) = 0x1040)
      as Eo by (vm_compute; reflexivity).
    intros a x Ha Hx. assert (x < 0x2000) as Hlt.
    { destruct Hx as [Hx|[(i & Hi & Hx)|(f & Hin & Hx)]].
      - rewrite En in Hx. lia.
      - rewrite En in Hi. replace i with 0 in Hx by lia. cbn zeta in Hx. rewrite Eo in Hx. lia.
      - assert (frags demo_font 0x1000 0x1062 = [mk_frag 2 8 1 0x1042]) as Efr by (vm_compute; reflexivity).
        rewrite Efr in Hin. destruct Hin as [<-|[]]. cbn [f_data f_rows f_width] in Hx. change (1 * (8 / 8)) with 1 in Hx. lia. }
    unfold in_pixel. destruct Ha as [<-|[<-|[]]]; apply andb_false_intro1, Z.leb_gt; lia.
  - exists m'. assert (rd demo_font (0x1062 + 4) = 9 /\ rd demo_font (0x1062 + 5) = 0) as [E4 E5] by (vm_compute; tauto).
    rewrite E, E4, E5. split; [reflexivity|]. unfold load32. cbn [load_le]. rewrite !Hm.
    vm_compute. tauto.
Defined.
