(* ===== verification/Info.v ===== *)
(** * The information screen: kernel/info.c

    [kernel_info] reads a font, formats a page of numbers and draws it with the
    renderer of [Ssfn] once a second. *)

From S2P Require Import Prelude Memory State Cpu Arch Libc Pmm Heap Process Devices DevicesSpec Vfs Kernel Printf Ssfn.

Section info.
Variable fuel : nat.
(** [lit s] is the address of the string literal [s]. *)
Variable lit : string -> Z.

(** [kernel_info] up to its loop: the font in memory, if it could be read. *)
Definition load_font (stat0 : Z * Z) : M (option Z) :=
  font_file <- vfs_open fuel (lit "/init/fonts/lanapixel.sfn") 0 0;;
  if font_file =? 0 then ret None else
  r <- vfs_stat fuel font_file stat0;;
  if negb (r.1 =? 0) then vfs_close font_file;;; ret None else
  let font_size := r.2.2 in
  font_buffer <- malloc font_size;;
  if font_buffer =? 0 then vfs_close font_file;;; ret None else
  read_bytes <- vfs_read fuel font_file font_buffer font_size;;
  if negb (read_bytes =? i64 font_size) then
    free font_buffer;;;
    vfs_close font_file;;;
    ret None
  else
    vfs_close font_file;;;
    ret (Some font_buffer).

(** [ssfn_dst] before the loop: the width and the height, which are never set,
    are 0, and the pitch is cut to 16 bits. *)
Definition info_dst (f : fb_state) : ssfn_buf :=
  mk_ssfn_buf (fb_addr f) 0 0 (u16 (fb_pitch f)) 850 100 0xFFFFFFFF 0.

Definition text_line (s : string) : list Z := cstr s ++ [10].

Definition info_format : list Z :=
  text_line "-------------------" ++
  text_line "Total RAM: %u MB" ++
  text_line "Free RAM: %u MB" ++
  text_line "Framebuffer: %ux%u @ %u bpp" ++
  text_line "Ticks: %u" ++
  text_line "-------------------".

(** [for (y = 100; y < 300; y++) for (x = 850; x < 1150; x++)] *)
Definition clear_info : M unit :=
  for_loop 200 100 (fun y => for_loop 300 850 (fun x => framebuffer_draw_pixel x y 0x000000)).

(** The loop over [info_buffer] at [buf] from index [i] on, [n] bytes before
    the end of the array; a [char] is signed. *)
Fixpoint draw_info (n : nat) (font buf i : Z) (d : ssfn_buf) : M ssfn_buf :=
  match n with
  | O => fault
  | S n =>
    m <- gets s_mem;;
    let c := rd m (buf + i) in
    if c =? 0 then ret d
    else if c =? 10 then draw_info n font buf (i + 1) (move_to 850 (i32 (d_y d + font_height m font)) d)
    else
      let '(_, d, m) := ssfn_putc font d (u32 (if c <? 128 then c else c - 256)) m in
      modify (set_mem m);;;
      draw_info n font buf (i + 1) d
  end.

(** One turn of the loop; [buf] is the address of [info_buffer]. *)
Definition info_frame (font buf : Z) (d : ssfn_buf) : M (control * ssfn_buf) :=
  total <- pmm_get_total_pages;;
  unused <- pmm_get_free_pages;;
  f <- gets s_fb;;
  t <- gets (fun s => ticks (s_cpu s));;
  m <- gets s_mem;;
  match sprintf (fun _ => []) buf info_format
          [u32 (u64 (total * 4096) / (1024 * 1024)); u32 (u64 (unused * 4096) / (1024 * 1024));
           fb_width f; fb_height f; fb_bpp f; t] m with
  | None => fault
  | Some (m, _) =>
    modify (set_mem m);;;
    clear_info;;;
    d <- draw_info 1024 font buf 0 (move_to 850 100 d);;
    c <- sleep 1;;
    ret (c, d)
  end.

(** [turns] turns of the loop, unless one does not return. *)
Fixpoint info_loop (turns : nat) (font buf : Z) (d : ssfn_buf) : M control :=
  match turns with
  | O => diverge
  | S turns =>
    r <- info_frame font buf d;;
    match r.1 with
    | Returned => info_loop turns font buf r.2
    | c => ret c
    end
  end.

Definition kernel_info (turns : nat) (stat0 : Z * Z) (buf : Z) : M control :=
  font <- load_font stat0;;
  match font with
  | None => ret Returned
  | Some font =>
    f <- gets s_fb;;
    info_loop turns font buf (info_dst f)
  end.
End info.

(** ** Clearing the area *)

Lemma pixels_apart f x y X Y :
  4 * fb_width f <= fb_pitch f -> 0 <= x < fb_width f -> 0 <= X < fb_width f -> (X, Y) <> (x, y) ->
  pixel_addr f X Y + 4 <= pixel_addr f x y \/ pixel_addr f x y + 4 <= pixel_addr f X Y.
Proof.
  intros Hp Hx HX Hne. unfold pixel_addr. destruct (Z.lt_trichotomy Y y) as [H|[->|H]].
  - assert (Y * fb_pitch f + fb_pitch f <= y * fb_pitch f) by nia. lia.
  - assert (X <> x) by congruence. lia.
  - assert (y * fb_pitch f + fb_pitch f <= Y * fb_pitch f) by nia. lia.
Qed.

(** The pixels of the screen are those of [g]; the rest of the kernel is [s]. *)
Definition screen_is (s : kstate) (g : Z -> Z -> Z) (s' : kstate) : Prop :=
  exists m, s' = set_mem m s /\
    (forall X Y, 0 <= X < fb_width (s_fb s) -> 0 <= Y < fb_height (s_fb s) -> load32 m (pixel_addr (s_fb s) X Y) = g X Y) /\
    agree_off (fun a => fb_addr (s_fb s) <= a < fb_addr (s_fb s) + fb_pitch (s_fb s) * fb_height (s_fb s)) (s_mem s) m.

Lemma draw_pixel_screen s g s' x y col :
  fb_ok (s_fb s) -> 0 <= col < 2 ^ 32 -> 0 <= x -> 0 <= y -> screen_is s g s' ->
  wp (framebuffer_draw_pixel x y col) s'
    (fun _ => screen_is s (fun X Y => if (X =? x) && (Y =? y) then col else g X Y)) no_panic.
Proof.
  intros Hok Hc Hx Hy (m & -> & Hg & Ha).
  destruct (draw_pixel_bounds (set_mem m s) x y col Hok Hc) as (m' & E & Hin & Hout).
  eapply wp_ok; [exact E|]. exists m'. split; [reflexivity|].
  change (s_fb (set_mem m s)) with (s_fb s) in Hin, Hout. change (s_mem (set_mem m s)) with m in Hin, Hout.
  destruct Hok as [Hw Hh [Hp _] _].
  destruct (decide (x < fb_width (s_fb s) /\ y < fb_height (s_fb s))) as [[Hxw Hyh]|Hoff].
  - destruct Hin as (L1 & L2 & Hv & Hag); [lia|]. split.
    + intros X Y HX HY. destruct (Z.eqb_spec X x) as [EX|NX], (Z.eqb_spec Y y) as [EY|NY]; cbn [andb]; [by subst X Y|..];
        rewrite <- Hg by done; apply load_le_ext; intros i Hi; apply Hag;
        destruct (pixels_apart (s_fb s) x y X Y); (congruence || lia).
    + intros a Hn. rewrite Hag; [by apply Ha|]. lia.
  - rewrite Hout by lia. split; [|done]. intros X Y HX HY.
    destruct (Z.eqb_spec X x), (Z.eqb_spec Y y); cbn [andb]; lia || by apply Hg.
Qed.

Lemma screen_is_ext s g g' s' :
  (forall X Y, 0 <= X -> 0 <= Y -> g X Y = g' X Y) -> screen_is s g s' -> screen_is s g' s'.
Proof.
  intros Hg (m & -> & Hm & Ha). exists m. split; [done|]. split; [|done]. intros X Y HX HY. rewrite <- Hg by lia. by apply Hm.
Qed.

(** Clearing the area of the text makes the pixels of its 300 by 200 that are on
    the screen black and changes nothing else, on a screen of any size. *)
Theorem clear_info_spec s :
  fb_ok (s_fb s) ->
  wp clear_info s
    (fun _ => screen_is s (fun X Y => if (850 <=? X) && (X <? 1150) && ((100 <=? Y) && (Y <? 300)) then 0
                                      else load32 (s_mem s) (pixel_addr (s_fb s) X Y))) no_panic.
Proof.
  intros Hok. set (g := fun X Y => load32 (s_mem s) (pixel_addr (s_fb s) X Y)).
  eapply wp_mono; [apply (wp_for_loop (fun y => screen_is s (fun X Y =>
    if (850 <=? X) && (X <? 1150) && ((100 <=? Y) && (Y <? y)) then 0 else g X Y)))| |done].
  - exists (s_mem s). split; [by destruct s|]. split; [|done]. intros X Y _ _.
    replace ((100 <=? Y) && (Y <? 100)) with false by (zcases; cbn; done || lia). by rewrite andb_false_r.
  - intros y s1 Hy Hs1.
    eapply wp_mono; [apply (wp_for_loop (fun x => screen_is s (fun X Y =>
      if (850 <=? X) && (X <? x) && (Y =? y) then 0
      else if (850 <=? X) && (X <? 1150) && ((100 <=? Y) && (Y <? y)) then 0 else g X Y)))| |done].
    + revert Hs1. apply screen_is_ext. intros X Y _ _.
      replace ((850 <=? X) && (X <? 850)) with false by (zcases; cbn; done || lia). done.
    + intros x s2 Hx Hs2. eapply wp_mono; [exact (draw_pixel_screen _ _ _ x y 0 Hok ltac:(lia) ltac:(lia) ltac:(lia) Hs2)| |done].
      intros [] s3. apply screen_is_ext. intros X Y _ _. zcases; cbn; done || lia.
    + intros [] s2. apply screen_is_ext. intros X Y _ _. change (850 + Z.of_nat 300) with 1150. zcases; cbn; done || lia.
  - intros [] s1. apply screen_is_ext. intros X Y _ _. change (100 + Z.of_nat 200) with 300. reflexivity.
Qed.
