(* ===== verification/Runs.v ===== *)
(** * Programs and the devices they talk to

    A program of user mode is an interaction tree over the calls that it makes
    to its C library.  A library is a function from a call and the library's
    state to the answer and the next state.  [runs] says how far a program gets
    on a library in finitely many calls: the calls it has made have changed the
    state, and the program that is left is known as a tree, with all the calls
    that are still to come.  A program that makes no calls runs nowhere
    ([runs_silent]). *)

From S2P Require Import Prelude.
From ITree Require Import ITree ITreeFacts.
From Paco Require Import paco.
From Stdlib Require Import Morphisms.

Declare Scope libc_scope.
Delimit Scope libc_scope with libc.
Notation "x <- m ;; k" := (ITree.bind m (fun x => k))
  (at level 100, m at next level, right associativity) : libc_scope.
Notation "m ;;; k" := (ITree.bind m (fun _ => k))
  (at level 100, right associativity) : libc_scope.
Notation "t ~~ u" := (eutt eq t u) (at level 70) : libc_scope.
Local Open Scope libc_scope.

Section runs.
Context {E : Type -> Type} {S : Type} (dev : forall X, E X -> S -> option (S * X)).

Inductive runs {A} : itree E A -> S -> itree E A -> S -> Prop :=
| runs_here t u s : t ~~ u -> runs t s u s
| runs_call t X (e : E X) k s r s1 u s' :
    t ~~ Vis e k -> dev X e s = Some (s1, r) -> runs (k r) s1 u s' -> runs t s u s'.

#[export] Instance runs_proper {A} : Proper (eutt eq ==> eq ==> eutt eq ==> eq ==> iff) (@runs A).
Proof.
  assert (forall t t' s (u u' : itree E A) s', t ~~ t' -> u ~~ u' -> runs t s u s' -> runs t' s u' s') as H.
  { intros t t' s u u' s' Ht Hu H. revert t' u' Ht Hu.
    induction H as [t u s E1|t X e k s r s1 u s' E1 E2 _ IH]; intros t' u' Ht Hu.
    - apply runs_here. by rewrite <- Ht, E1.
    - apply (runs_call t' X e k s r s1); [by rewrite <- Ht|done|]. by apply IH. }
  intros t t' Ht s ? <- u u' Hu s' ? <-. split; apply H; done || by symmetry.
Qed.

Lemma runs_refl {A} (t : itree E A) s : runs t s t s.
Proof. by apply runs_here. Qed.

Lemma runs_trans {A} (t u v : itree E A) s s1 s2 : runs t s u s1 -> runs u s1 v s2 -> runs t s v s2.
Proof.
  induction 1 as [t u s E1|t X e k s r s1 u s' E1 E2 _ IH]; intros Hv; [by rewrite E1|].
  apply (runs_call t X e k s r s1); [done|done|by apply IH].
Qed.

Lemma runs_bind {A B} (t u : itree E A) (k : A -> itree E B) s s' :
  runs t s u s' -> runs (ITree.bind t k) s (ITree.bind u k) s'.
Proof.
  induction 1 as [t u s E1|t X e c s r s1 u s' E1 E2 _ IH]; [apply runs_here; by rewrite E1|].
  apply (runs_call _ X e (fun x => ITree.bind (c x) k) s r s1); [|done|exact IH].
  rewrite E1, bind_vis. reflexivity.
Qed.

(** A program that comes to a result goes on with it. *)
Lemma runs_then {A B} (t : itree E A) (k : A -> itree E B) s r s1 u s2 :
  runs t s (Ret r) s1 -> runs (k r) s1 u s2 -> runs (ITree.bind t k) s u s2.
Proof.
  intros H Hk. eapply runs_trans; [exact (runs_bind _ _ k _ _ H)|]. rewrite bind_ret_l. exact Hk.
Qed.

Lemma runs_trigger {X} (e : E X) s r s1 : dev X e s = Some (s1, r) -> runs (ITree.trigger e) s (Ret r) s1.
Proof. intros H. apply (runs_call _ X e (fun x => Ret x) s r s1); [reflexivity|done|apply runs_refl]. Qed.

Lemma runs_event {X B} (e : E X) (k : X -> itree E B) s r s1 u s2 :
  dev X e s = Some (s1, r) -> runs (k r) s1 u s2 -> runs (ITree.bind (ITree.trigger e) k) s u s2.
Proof. intros H. by apply runs_then, runs_trigger. Qed.

Lemma runs_iter {A B} (body : A -> itree E (A + B)) a s s1 x u s2 :
  runs (body a) s (Ret x) s1 ->
  runs match x with inl a' => ITree.iter body a' | inr b => Ret b end s1 u s2 ->
  runs (ITree.iter body a) s u s2.
Proof.
  intros H Hx. rewrite unfold_iter. eapply runs_then; [exact H|]. destruct x; [|exact Hx]. by rewrite tau_eutt.
Qed.

(** A program that only spins makes no call, so it changes nothing. *)
Lemma spin_silent {A X} (e : E X) (k : X -> itree E A) : ~ ITree.spin ~~ Vis e k.
Proof.
  intros H. punfold H. red in H. cbn in H. remember (TauF ITree.spin) as o eqn:Eo in H.
  remember (VisF e k) as v eqn:Ev in H. induction H; try done. injection Eo as ->. apply IHeqitF; [done|done].
Qed.

Lemma runs_silent {A} (u : itree E A) s s' : runs ITree.spin s u s' -> s' = s.
Proof. intros H. remember ITree.spin as t eqn:Et in H. destruct H; [done|]. subst. by apply spin_silent in H. Qed.
End runs.
