(* ===== verification/Shell.v ===== *)
(** * The shell: misc/userspace/user/shell.c

    A program of user mode on a C library that is not part of the sources.
    What it asks of that library, of the kernel behind it and of the heap are
    the events [libcE]; the program is an interaction tree over them.  The
    functions of <string.h> are computed here on strings as byte lists, and
    pointers are their addresses, with 0 for NULL.  Local arrays are byte lists
    that the functions hand on.  A [char] is kept as a byte, so values of 128
    and more stand for the negative ones. *)

From S2P Require Import Prelude Runs.
From ITree Require Import ITree ITreeFacts.
Local Open Scope libc_scope.

(** ** The C library *)

Inductive printf_arg : Type :=
| AStr (s : list Z)
| AInt (v : Z)
| AChar (c : Z).

(** A stream: the standard output, or the address that [fopen] returned. *)
Inductive FILE : Type :=
| Stdout
| Opened (p : Z).

Variant libcE : Type -> Type :=
| Printf (fmt : list Z) (args : list printf_arg) : libcE unit
| Fopen (path mode : list Z) : libcE Z
| Fclose (f : FILE) : libcE unit
| Setvbuf (f : FILE) : libcE unit              (** [setvbuf(f, NULL, _IONBF, 0)] *)
| Fread (n : Z) (f : FILE) : libcE (list Z)    (** [fread(buf, 1, n, f)]: the bytes put into [buf] *)
| Fwrite (data : list Z) (f : FILE) : libcE Z  (** [fwrite(data, 1, length, f)] *)
| Malloc (n : Z) : libcE Z
| Free (p : Z) : libcE unit
| Memset (p c n : Z) : libcE unit              (** [memset] of memory that is not a local array *)
| Mmap (len : Z) : libcE Z                     (** anonymous, private, readable and writable *)
| Munmap (p len : Z) : libcE Z
| Syscall (nr a : Z) : libcE Z
| Crash : libcE void.                          (** undefined behaviour *)

Definition crash {A} : itree libcE A := v <- ITree.trigger Crash;; match v : void with end.

Definition printf (fmt : list Z) (args : list printf_arg) : itree libcE unit :=
  ITree.trigger (Printf fmt args).

(** A literal that ends with a newline. *)
Definition line (s : string) : list Z := cstr s ++ [10].

Definition NULL : Z := 0.
Definition MAP_FAILED : Z := 2 ^ 64 - 1.

(** The longest prefix whose bytes meet [p], and the rest. *)
Fixpoint span (p : Z -> bool) (l : list Z) : list Z * list Z :=
  match l with
  | c :: l' => if p c then let r := span p l' in (c :: r.1, r.2) else ([], l)
  | [] => ([], [])
  end.

(** The string at the start of an array. *)
Definition string_of (buf : list Z) : list Z := (span (fun c => negb (c =? 0)) buf).1.

Definition is_delim (delim : list Z) (c : Z) : bool := bool_decide (c ∈ delim).

(** [strtok]: the token and the string that the next call goes on with. *)
Definition strtok (delim s : list Z) : option (list Z * list Z) :=
  match (span (is_delim delim) s).2 with
  | [] => None
  | s => let r := span (fun c => negb (is_delim delim c)) s in Some (r.1, tail r.2)
  end.

(** [buf[i] = c] for a local array. *)
Definition store (buf : list Z) (i c : Z) : itree libcE (list Z) :=
  if (0 <=? i) && (i <? Z.of_nat (length buf)) then Ret (<[Z.to_nat i := c]> buf) else crash.

(** [for (i = i0; i < stop; i += step)]: the body goes on with [inl] and
    returns from the function with [inr]. *)
Definition for_up {A} (stop step : Z) (body : Z -> A -> itree libcE (A + Z)) (i0 : Z) (a : A) :
    itree libcE (A + Z) :=
  ITree.iter (fun '(i, a) =>
    if i <? stop then
      r <- body i a;;
      match r with
      | inl a => Ret (inl (i + step, a))
      | inr v => Ret (inr (inr v))
      end
    else Ret (inr (inl a))) (i0, a).

(** ** Timing *)

Definition PCM_BUFFER : Z := 128000.

Definition get_pit_cycles : itree libcE Z :=
  v <- ITree.trigger (Syscall 77 0);; Ret (i32 v).

Definition sleep_riria (ms : Z) : itree libcE unit :=
  start <- get_pit_cycles;;
  let stop := i32 (start + ms) in
  ITree.iter (fun _ : unit =>
    now <- get_pit_cycles;;
    if now <? stop then Ret (inl tt) else Ret (inr tt)) tt.

(** ** Commands *)

(** [char path_to_file[256] = "/init/"; strcat(path_to_file, path)]. *)
Definition init_path (path : list Z) : itree libcE (list Z) :=
  let p := cstr "/init/" ++ path in
  if Z.of_nat (length p) <? 256 then Ret p else crash.

Definition cat (args : option (list Z)) : itree libcE Z :=
  match args with
  | None => printf (cstr "no path specified.") [];;; Ret (-1)
  | Some path =>
    path_to_file <- init_path path;;
    f <- ITree.trigger (Fopen path_to_file (cstr "r"));;
    if f =? NULL then printf (line "failed to open %s") [AStr path_to_file];;; Ret (-1) else
    ITree.iter (fun _ : unit =>
      data <- ITree.trigger (Fread 512 (Opened f));;
      if 0 <? Z.of_nat (length data) then ITree.trigger (Fwrite data Stdout);;; Ret (inl tt)
      else Ret (inr tt)) tt;;;
    ITree.trigger (Fclose (Opened f));;;
    Ret 0
  end.

(** The inner loop of [play_pcm]: [data] is what was read, at [pcm_pos] in the
    file; [true] when all of it was written, [false] for [goto cleanup]. *)
Definition write_pcm (data : list Z) (f_driver pcm_pos : Z) : itree libcE bool :=
  let bytes_read := Z.of_nat (length data) in
  ITree.iter (fun total_written =>
    if total_written <? bytes_read then
      written <- ITree.trigger (Fwrite (drop (Z.to_nat total_written) data) (Opened f_driver));;
      if written =? 0 then
        printf (line "audio driver write failed at byte %ld") [AInt (u64 (pcm_pos + total_written))];;;
        Ret (inr false)
      else
        let total_written := u64 (total_written + written) in
        sleep_riria 512;;;
        printf (line "played %ld/%ld bytes")
          [AInt (u64 (pcm_pos + total_written)); AInt (u64 (pcm_pos + bytes_read))];;;
        Ret (inl total_written)
    else Ret (inr true)) 0.

(** [snprintf(path_to_mus, sizeof(path_to_mus), "/init/audio/%s", args)] and the
    check of its result. *)
Definition audio_path (args : list Z) : option (list Z) :=
  let p := cstr "/init/audio/" ++ args in
  if 256 <=? Z.of_nat (length p) then None else Some p.

Definition play_pcm (args : option (list Z)) : itree libcE Z :=
  match args with
  | None => printf (line "no path specified.") [];;; Ret (-1)
  | Some args =>
    match audio_path args with
    | None => printf (line "path too long!") [];;; Ret (-1)
    | Some path_to_mus =>
      f_driver <- ITree.trigger (Fopen (cstr "/dev/audio") (cstr "w"));;
      if f_driver =? NULL then printf (line "failed to open audio driver") [];;; Ret (-1) else
      ITree.trigger (Setvbuf (Opened f_driver));;;
      f_pcm <- ITree.trigger (Fopen path_to_mus (cstr "r"));;
      if f_pcm =? NULL then
        printf (line "failed to open PCM file %s") [AStr path_to_mus];;;
        ITree.trigger (Fclose (Opened f_driver));;;
        Ret (-1)
      else
      ITree.trigger (Setvbuf (Opened f_pcm));;;
      buffer <- ITree.trigger (Malloc PCM_BUFFER);;
      if buffer =? NULL then
        printf (line "failed to allocate audio buffer") [];;;
        ITree.trigger (Fclose (Opened f_driver));;;
        ITree.trigger (Fclose (Opened f_pcm));;;
        Ret (-1)
      else
      ITree.iter (fun pcm_pos =>
        data <- ITree.trigger (Fread PCM_BUFFER (Opened f_pcm));;
        if Z.of_nat (length data) =? 0 then Ret (inr tt) else
        ok <- write_pcm data f_driver pcm_pos;;
        if ok : bool then Ret (inl (i64 (pcm_pos + Z.of_nat (length data)))) else Ret (inr tt)) 0;;;
      ITree.trigger (Free buffer);;;
      ITree.trigger (Fclose (Opened f_driver));;;
      ITree.trigger (Fclose (Opened f_pcm));;;
      Ret 0
    end
  end.

(** ** Stress tests *)

Definition stress_test : itree libcE Z :=
  printf (line "starting memory stress test...") [];;;
  let alloc_size := 10 * 1024 * 1024 in
  let iterations := 10 in
  r <- for_up iterations 1 (fun i _ =>
    printf (line "allocation %d/%d: allocating %zu bytes...") [AInt (i + 1); AInt iterations; AInt alloc_size];;;
    ptr <- ITree.trigger (Malloc alloc_size);;
    if ptr =? NULL then printf (line "allocation failed!") [];;; Ret (inr (-1)) else
    ITree.trigger (Memset ptr 0xAA alloc_size);;;
    printf (line "allocation %d/%d: freeing memory...") [AInt (i + 1); AInt iterations];;;
    ITree.trigger (Free ptr);;;
    Ret (inl tt)) 0 tt;;
  match r with
  | inr v => Ret v
  | inl _ => printf (line "memory stress test completed successfully.") [];;; Ret 0
  end.

(** [ptrs[i] = malloc(size)] with its check and [memset]. *)
Definition fill_slot (what : string) (fill i size : Z) (ptrs : list Z) : itree libcE (list Z + Z) :=
  p <- ITree.trigger (Malloc size);;
  ptrs <- store ptrs i p;;
  if p =? NULL then printf (line what) [AInt i];;; Ret (inr (-1)) else
  ITree.trigger (Memset p fill size);;;
  Ret (inl ptrs).

Definition slot (ptrs : list Z) (i : Z) : Z := nth (Z.to_nat i) ptrs NULL.

Definition stress_heap_fragmentation : itree libcE Z :=
  printf (line "starting heap fragmentation stress test...") [];;;
  let blocks := 10000 in
  let min_size := 16 in
  let max_size := 1024 in
  r <- for_up blocks 1 (fun i ptrs =>
    fill_slot "allocation failed at %d" 0xCC i (min_size + i mod (max_size - min_size)) ptrs)
    0 (replicate (Z.to_nat blocks) NULL);;
  match r with
  | inr v => Ret v
  | inl ptrs =>
    r <- for_up blocks 2 (fun i ptrs =>
      ITree.trigger (Free (slot ptrs i));;;
      ptrs <- store ptrs i NULL;;
      Ret (inl ptrs)) 0 ptrs;;
    match r with
    | inr v => Ret v
    | inl ptrs =>
      r <- for_up blocks 2 (fun i ptrs => fill_slot "re-allocation failed at %d" 0xDD i 512 ptrs) 0 ptrs;;
      match r with
      | inr v => Ret v
      | inl ptrs =>
        for_up blocks 1 (fun i _ => ITree.trigger (Free (slot ptrs i));;; Ret (inl tt)) 0 tt;;;
        printf (line "heap fragmentation stress test completed.") [];;;
        Ret 0
      end
    end
  end.

Definition stress_mmap : itree libcE Z :=
  printf (line "starting mmap stress test...") [];;;
  let iterations := 1000 in
  let size := 4096 * 16 in
  r <- for_up iterations 1 (fun i _ =>
    ptr <- ITree.trigger (Mmap size);;
    if ptr =? MAP_FAILED then printf (line "mmap failed at iteration %d") [AInt i];;; Ret (inr (-1)) else
    ITree.trigger (Memset ptr 0xAB size);;;
    e <- ITree.trigger (Munmap ptr size);;
    if negb (e =? 0) then printf (line "munmap failed at iteration %d") [AInt i];;; Ret (inr (-1)) else
    Ret (inl tt)) 0 tt;;
  match r with
  | inr v => Ret v
  | inl _ => printf (line "mmap stress test completed.") [];;; Ret 0
  end.

Definition stress_file_io : itree libcE Z :=
  printf (line "starting file I/O stress test...") [];;;
  let iterations := 1000 in
  r <- for_up iterations 1 (fun i _ =>
    f <- ITree.trigger (Fopen (cstr "/init/test.txt") (cstr "r"));;
    if f =? NULL then printf (line "failed to open file at iteration %d") [AInt i];;; Ret (inr (-1)) else
    ITree.trigger (Fread 1024 (Opened f));;;
    ITree.trigger (Fclose (Opened f));;;
    Ret (inl tt)) 0 tt;;
  match r with
  | inr v => Ret v
  | inl _ => printf (line "file I/O stress test completed.") [];;; Ret 0
  end.

(** The array on the stack of each call is filled and dropped. *)
Fixpoint recurse (depth : nat) : Z :=
  match depth with
  | O => 0
  | S depth => recurse depth
  end.

Definition stress_stack : itree libcE Z :=
  printf (line "starting stack stress test...") [];;;
  let _ := recurse 1024 in
  printf (line "stack stress test completed.") [];;;
  Ret 0.

Definition stress_all : itree libcE Z :=
  stress_test;;;
  stress_heap_fragmentation;;;
  stress_file_io;;;
  stress_stack;;;
  Ret 0.

(** ** Command lines *)

(** [if (strcmp(cmd, name) == 0) { body; }] *)
Definition on_command (cmd : list Z) (name : string) (body : itree libcE Z) : itree libcE unit :=
  if bool_decide (cmd = cstr name) then body;;; Ret tt else Ret tt.

(** Where [strtok] puts its terminator: behind the first word. *)
Definition cut_word (buf : list Z) : list Z :=
  let s := string_of buf in
  let r := span (is_delim [32]) s in
  let w := span (fun c => negb (is_delim [32] c)) r.2 in
  match r.2, w.2 with
  | _ :: _, _ :: _ => <[(length r.1 + length w.1)%nat := 0]> buf
  | _, _ => buf
  end.

(** [strcmp] on a NULL [cmd] is undefined. *)
Definition exec (arg : list Z) : itree libcE (list Z) :=
  match strtok [32] (string_of arg) with
  | None => crash
  | Some (cmd, rest) =>
    let args := option_map fst (strtok [] rest) in
    on_command cmd "cat" (cat args);;;
    on_command cmd "play" (play_pcm args);;;
    on_command cmd "stress" stress_test;;;
    on_command cmd "stress-heap" stress_heap_fragmentation;;;
    on_command cmd "stress-mmap" stress_mmap;;;
    on_command cmd "stress-io" stress_file_io;;;
    on_command cmd "stress-stack" stress_stack;;;
    on_command cmd "stress-all" stress_all;;;
    Ret (cut_word arg)
  end.

(** ** Reading lines *)

(** The loop of [getch]: [fread] puts at most one byte into [key]. *)
Definition read_key (f_kb : Z) : itree libcE Z :=
  ITree.iter (fun key =>
    data <- ITree.trigger (Fread 1 (Opened f_kb));;
    let key := nth 0 data key in
    if negb (key =? 0) then ITree.trigger (Fclose (Opened f_kb));;; Ret (inr key) else Ret (inl key)) 0.

Definition getch : itree libcE Z :=
  f_kb <- ITree.trigger (Fopen (cstr "/dev/keyboard") (cstr "r"));;
  if f_kb =? NULL then Ret 0 else
  ITree.trigger (Setvbuf (Opened f_kb));;;
  read_key f_kb.

(** One round of [read_line]: [inr] when the line is complete. *)
Definition edit_key (len c pos : Z) (buf : list Z) : itree libcE (Z * list Z + Z * list Z) :=
  if c =? 10 then printf [10] [];;; Ret (inr (pos, buf)) else
  if c =? 8 then
    if 0 <? pos then printf [8; 32; 8] [];;; Ret (inl (pos - 1, buf)) else Ret (inl (pos, buf))
  else if (32 <=? c) && (c <=? 126) then
    if pos <? u64 (len - 1) then
      buf <- store buf pos c;;
      printf (cstr "%c") [AChar c];;;
      Ret (inl (pos + 1, buf))
    else Ret (inl (pos, buf))
  else Ret (inl (pos, buf)).

Definition read_line (buf : list Z) (len : Z) : itree libcE (Z * list Z) :=
  ITree.iter (fun '(pos, buf) => c <- getch;; edit_key len c pos buf) (0, buf).

Definition SHELL_BUFFER : Z := 128.

(** [memset(buffer + len, 0, SHELL_BUFFER - len)] *)
Definition clear_from (len : Z) (buf : list Z) : list Z :=
  take (Z.to_nat len) buf ++ replicate (Z.to_nat (SHELL_BUFFER - len)) 0.

Definition turn (buffer : list Z) : itree libcE (list Z) :=
  printf (cstr "> ") [];;;
  r <- read_line buffer SHELL_BUFFER;;
  let buffer := clear_from r.1 r.2 in
  if r.1 =? 0 then Ret buffer else exec buffer.

Definition shell_loop (buffer : list Z) : itree libcE Z :=
  ITree.iter (fun buffer => buffer <- turn buffer;; Ret (inl buffer)) buffer.

Definition main : itree libcE Z :=
  ITree.trigger (Setvbuf Stdout);;;
  shell_loop (replicate (Z.to_nat SHELL_BUFFER) 0).
