(* ===== verification/ShellSpec.v ===== *)
(** * The shell: what a turn of its loop does

    [terminal] is what the shell relies on: a keyboard device that gives the
    typed bytes one at a time, and an output that keeps what is printed.  On
    any such library, one turn of the shell edits the line that is typed and
    runs the one command that the line names. *)

From S2P Require Import Prelude Runs Shell.
From ITree Require Import ITree ITreeFacts.
Local Open Scope libc_scope.

(** ** The library's side *)

Section terminal.
Context {S : Type} (dev : forall X, libcE X -> S -> option (S * X)).

(** The event [e] answers [r] and leads to a state with the given keys and
    screen. *)
Definition answers (keys : S -> list Z) (screen : S -> list (list Z * list printf_arg)) {A} (e : libcE A)
    (s : S) (r : A) (ks : list Z) (out : list (list Z * list printf_arg)) : Prop :=
  exists s', dev A e s = Some (s', r) /\ keys s' = ks /\ screen s' = out.

Class terminal (keys : S -> list Z) (screen : S -> list (list Z * list printf_arg)) (kbd : Z) : Prop := {
  t_kbd : kbd <> NULL;
  t_fopen : forall s, answers keys screen (Fopen (cstr "/dev/keyboard") (cstr "r")) s kbd (keys s) (screen s);
  t_setvbuf : forall s, answers keys screen (Setvbuf (Opened kbd)) s tt (keys s) (screen s);
  t_fclose : forall s, answers keys screen (Fclose (Opened kbd)) s tt (keys s) (screen s);
  t_fread : forall s k ks, keys s = k :: ks ->
    answers keys screen (Fread 1 (Opened kbd)) s [k] ks (screen s);
  t_printf : forall s fmt args,
    answers keys screen (Printf fmt args) s tt (keys s) (screen s ++ [(fmt, args)])
}.

(** ** The edited line *)

(** What a line of at most [cap] bytes is after a key, and what the key
    prints. *)
Definition edit (cap : nat) (l : list Z) (c : Z) : list Z :=
  if c =? 8 then take (length l - 1) l
  else if (32 <=? c) && (c <=? 126) && bool_decide (length l < cap)%nat then l ++ [c]
  else l.

Definition echo (cap : nat) (l : list Z) (c : Z) : list (list Z * list printf_arg) :=
  if c =? 8 then (if decide (l = []) then [] else [([8; 32; 8], [])])
  else if (32 <=? c) && (c <=? 126) && bool_decide (length l < cap)%nat then [(cstr "%c", [AChar c])]
  else [].

Definition edited (cap : nat) (typed : list Z) : list Z := foldl (edit cap) [] typed.

Fixpoint echoes (cap : nat) (l typed : list Z) : list (list Z * list printf_arg) :=
  match typed with
  | [] => []
  | c :: typed => echo cap l c ++ echoes cap (edit cap l c) typed
  end.

Lemma edit_bound cap l c : (length l <= cap)%nat -> (length (edit cap l c) <= cap)%nat.
Proof.
  intros H. unfold edit. destruct (c =? 8); [rewrite length_take; lia|].
  destruct (_ && bool_decide _) eqn:E; [|done]. apply andb_prop in E as [_ E%bool_decide_eq_true].
  rewrite length_app. cbn. lia.
Qed.

Lemma edited_bound cap typed : (length (edited cap typed) <= cap)%nat.
Proof.
  unfold edited. assert (length (@nil Z) <= cap)%nat as H by (cbn; lia). revert H. generalize (@nil Z).
  induction typed as [|c typed IH]; intros l H; [done|]. cbn [foldl]. apply IH, edit_bound, H.
Qed.

(** Keys that are not characters leave no trace, as NUL bytes of the keyboard
    device. *)
Lemma edit_zeros cap l n typed : foldl (edit cap) l (replicate n 0 ++ typed) = foldl (edit cap) l typed.
Proof. induction n as [|n IH]; [done|]. exact IH. Qed.

Lemma echoes_zeros cap l n typed : echoes cap l (replicate n 0 ++ typed) = echoes cap l typed.
Proof. induction n as [|n IH]; [done|]. exact IH. Qed.

Lemma split_zeros (typed : list Z) :
  (exists n, typed = replicate n 0) \/
  exists n c typed', typed = replicate n 0 ++ c :: typed' /\ c <> 0.
Proof.
  induction typed as [|c typed IH]; [left; by exists 0%nat|]. destruct (decide (c = 0)) as [->|Hc].
  - destruct IH as [(n & ->)|(n & c & t & -> & Hc)]; [left; by exists (Datatypes.S n)|].
    right. by exists (Datatypes.S n), c, t.
  - right. by exists 0%nat, c, typed.
Qed.

(** Only printable characters end up in the line. *)
Lemma edited_printable cap typed : Forall (fun c => 32 <= c <= 126) (edited cap typed).
Proof.
  unfold edited. assert (Forall (fun c => 32 <= c <= 126) (@nil Z)) as H by constructor. revert H. generalize (@nil Z).
  induction typed as [|c typed IH]; intros l H; [done|]. cbn [foldl]. apply IH. unfold edit.
  destruct (c =? 8); [by apply Forall_take|].
  destruct (Z.leb_spec 32 c); destruct (Z.leb_spec c 126); cbn [andb]; try done.
  destruct (bool_decide _); [|done]. apply Forall_app. split; [done|]. by apply Forall_singleton.
Qed.

(** ** Words and commands *)

Lemma span_stop p (l r : list Z) :
  Forall (fun c => p c = true) l -> (forall c, head r = Some c -> p c = false) -> span p (l ++ r) = (l, r).
Proof.
  intros Hl Hr. induction Hl as [|c l Hc _ IH]; cbn [app].
  - destruct r as [|c r]; [done|]. cbn. by rewrite Hr.
  - cbn [span]. by rewrite Hc, IH.
Qed.

Lemma string_of_padded l n : Forall (fun c => 32 <= c <= 126) l -> string_of (l ++ replicate n 0) = l.
Proof.
  intros H. unfold string_of. rewrite span_stop; [done| |].
  - eapply Forall_impl; [exact H|]. intros c Hc. cbn in Hc |- *. destruct (Z.eqb_spec c 0) as [->|]; [lia|done].
  - destruct n; [done|]. by intros c [= <-].
Qed.

(** A line is spaces, a word and a rest that is empty or starts with a space. *)
Record words (l : list Z) (n : nat) (w t : list Z) : Prop := {
  wo_line : l = replicate n 32 ++ w ++ t;
  wo_word : w <> [];
  wo_no_space : 32 ∉ w;
  wo_rest : t = [] \/ head t = Some 32
}.

Definition args_of (t : list Z) : option (list Z) :=
  match tail t with [] => None | a => Some a end.

Lemma strtok_words l n w t : words l n w t -> strtok [32] l = Some (w, tail t).
Proof.
  intros [-> Hw Hs Ht]. unfold strtok. rewrite span_stop.
  - cbn [snd]. destruct w as [|c w]; [done|]. cbn [app].
    change (c :: w ++ t) with ((c :: w) ++ t). rewrite span_stop; [done| |].
    + apply Forall_forall. intros d Hd. unfold is_delim. rewrite bool_decide_eq_false_2; [done|].
      intros ->%list_elem_of_singleton. done.
    + intros d Hd. destruct Ht as [->|Ht]; [done|]. rewrite Ht in Hd. by injection Hd as <-.
  - apply Forall_replicate. done.
  - intros c Hc. destruct w as [|d w]; [done|]. injection Hc as <-. unfold is_delim.
    rewrite bool_decide_eq_false_2; [done|]. intros ->%list_elem_of_singleton. apply Hs. by left.
Qed.

Lemma strtok_blank n : strtok [32] (replicate n 32) = None.
Proof.
  unfold strtok. rewrite <- (app_nil_r (replicate n 32)), span_stop; [done| |done]. by apply Forall_replicate.
Qed.

Lemma strtok_rest t : option_map fst (strtok [] (tail t)) = args_of t.
Proof.
  unfold args_of. destruct (tail t) as [|c r]; [done|]. unfold strtok.
  assert (forall d, is_delim [] d = false) as Hd by (intros; apply bool_decide_eq_false_2; set_solver).
  rewrite (span_stop _ [] (c :: r)) by (done || intros; apply Hd). cbn [snd].
  rewrite <- (app_nil_r (c :: r)) at 1. rewrite span_stop; [done| |done].
  apply Forall_forall. intros d _. by rewrite Hd.
Qed.

(** The commands by name. *)
Definition commands (args : option (list Z)) : list (string * itree libcE Z) :=
  [("cat", Shell.cat args); ("play", play_pcm args); ("stress", stress_test);
   ("stress-heap", stress_heap_fragmentation); ("stress-mmap", stress_mmap); ("stress-io", stress_file_io);
   ("stress-stack", stress_stack); ("stress-all", stress_all)]%string.

Definition dispatch (w : list Z) (cmds : list (string * itree libcE Z)) : itree libcE unit :=
  match list_find (fun e => cstr e.1 = w) cmds with
  | Some (_, e) => e.2;;; Ret tt
  | None => Ret tt
  end.

Definition command (w : list Z) (args : option (list Z)) : itree libcE unit := dispatch w (commands args).

(** A chain of comparisons with different names runs one command at most. *)
Definition chain {A} (w : list Z) (cmds : list (string * itree libcE Z)) (k : itree libcE A) : itree libcE A :=
  foldr (fun e k => on_command w e.1 e.2;;; k) k cmds.

Lemma chain_skip {A} w cmds (k : itree libcE A) : w ∉ List.map (fun e => cstr e.1) cmds -> chain w cmds k ~~ k.
Proof.
  induction cmds as [|[x p] cmds IH]; [reflexivity|]. cbn [List.map fst chain foldr]. intros [Hx Hw]%not_elem_of_cons.
  unfold on_command at 1. rewrite bool_decide_eq_false_2 by done. rewrite bind_ret_l. by apply IH.
Qed.

Lemma chain_dispatch {A} w cmds (k : itree libcE A) :
  NoDup (List.map (fun e => cstr e.1) cmds) -> chain w cmds k ~~ (dispatch w cmds;;; k).
Proof.
  unfold dispatch. induction cmds as [|[x p] cmds IH]; cbn [List.map fst snd chain foldr list_find].
  - intros _. rewrite bind_ret_l. reflexivity.
  - intros [Hx Hn]%NoDup_cons. cbn [fst snd]. unfold on_command at 1. destruct (decide (cstr x = w)) as [<-|Hne].
    + rewrite bool_decide_eq_true_2 by done. cbn [snd]. apply eutt_eq_bind. intros _. by apply chain_skip.
    + rewrite bool_decide_eq_false_2 by done. rewrite bind_ret_l. fold (chain w cmds k). rewrite (IH Hn).
      by destruct (list_find _ cmds) as [[? ?]|].
Qed.

Lemma exec_dispatch buf n w t :
  words (string_of buf) n w t -> exec buf ~~ (command w (args_of t);;; Ret (cut_word buf)).
Proof.
  intros H. unfold exec. rewrite (strtok_words _ _ _ _ H), strtok_rest.
  assert (NoDup (List.map (fun e => cstr e.1) (commands (args_of t)))) as Hnd.
  { unfold commands. cbn [List.map fst]. apply (bool_decide_unpack _). vm_compute. exact I. }
  pose proof (chain_dispatch w (commands (args_of t)) (Ret (cut_word buf)) Hnd) as E.
  unfold chain in E. unfold commands in E at 1. cbn [foldr fst snd] in E. exact E.
Qed.

(** ** Running the program *)

Section runs.
Context {keys : S -> list Z} {screen : S -> list (list Z * list printf_arg)} {kbd : Z}.
Context {T : terminal keys screen kbd}.

(** [getch] skips NUL bytes and returns the first other one. *)
Lemma read_key_spec s n c ks :
  keys s = replicate n 0 ++ c :: ks -> c <> 0 ->
  exists s', runs dev (read_key kbd) s (Ret c) s' /\ keys s' = ks /\ screen s' = screen s.
Proof.
  intros Hk Hc. revert s Hk. unfold read_key. induction n as [|n IH]; intros s Hk.
  - destruct (t_fread s c ks Hk) as (s1 & E1 & K1 & S1). destruct (t_fclose s1) as (s2 & E2 & K2 & S2).
    exists s2. split; [|by rewrite K2, S2].
    apply (runs_iter dev _ 0 s s2 (inr c)); [|apply runs_refl].
    apply (runs_event dev _ _ _ _ _ _ _ E1). cbn [nth]. rewrite (proj2 (Z.eqb_neq c 0) Hc). cbn [negb].
    apply (runs_event dev _ _ _ _ _ _ _ E2), runs_refl.
  - destruct (t_fread s 0 _ Hk) as (s1 & E1 & K1 & S1). destruct (IH s1 K1) as (s2 & E2 & K2 & S2).
    exists s2. split; [|by rewrite S2, S1]. apply (runs_iter dev _ 0 s s1 (inl 0)); [|exact E2].
    apply (runs_event dev _ _ _ _ _ _ _ E1). cbn [nth negb Z.eqb]. apply runs_refl.
Qed.

Lemma getch_spec s n c ks :
  keys s = replicate n 0 ++ c :: ks -> c <> 0 ->
  exists s', runs dev getch s (Ret c) s' /\ keys s' = ks /\ screen s' = screen s.
Proof.
  intros Hk Hc. destruct (t_fopen s) as (s1 & E1 & K1 & S1). destruct (t_setvbuf s1) as (s2 & E2 & K2 & S2).
  destruct (read_key_spec s2 n c ks) as (s3 & E3 & K3 & S3); [by rewrite K2, K1|done|].
  exists s3. split; [|by rewrite S3, S2, S1]. unfold getch. apply (runs_event dev _ _ _ _ _ _ _ E1).
  rewrite (proj2 (Z.eqb_neq kbd NULL) t_kbd). by apply (runs_event dev _ _ _ _ _ _ _ E2).
Qed.

Lemma run_printf fmt args s :
  exists s', (forall B (k : unit -> itree libcE B) u s2, runs dev (k tt) s' u s2 ->
      runs dev (ITree.bind (printf fmt args) k) s u s2) /\
    keys s' = keys s /\ screen s' = screen s ++ [(fmt, args)].
Proof.
  destruct (t_printf s fmt args) as (s' & E & K & Sc). exists s'. split; [|done]. intros B k u s2. by apply runs_event.
Qed.

(** The array holds the line [l] and is as it was from [cap] on. *)
Record holds (cap : nat) (buf0 l buf : list Z) : Prop := {
  ho_line : take (length l) buf = l;
  ho_length : length buf = length buf0;
  ho_tail : drop cap buf = drop cap buf0;
  ho_cap : (length l <= cap)%nat
}.

(** One key edits the array as it edits the line. *)
Lemma edit_key_spec cap buf0 s l buf c :
  holds cap buf0 l buf -> (cap < length buf0)%nat -> Z.of_nat cap < 2 ^ 63 -> c <> 10 ->
  exists s' buf', runs dev (edit_key (Z.of_nat cap + 1) c (Z.of_nat (length l)) buf) s
      (Ret (inl (Z.of_nat (length (edit cap l c)), buf'))) s' /\
    holds cap buf0 (edit cap l c) buf' /\ keys s' = keys s /\ screen s' = screen s ++ echo cap l c.
Proof.
  intros [H1 H2 H3 H4] Hc Hb Hn. unfold edit_key, edit, echo. rewrite (proj2 (Z.eqb_neq c 10) Hn).
  destruct (Z.eqb_spec c 8) as [_|_].
  - destruct l as [|x l].
    + exists s, buf. split; [apply runs_refl|]. split_and!; [done|done|symmetry; apply app_nil_r].
    + rewrite (proj2 (Z.ltb_lt 0 _)) by (cbn [length]; lia).
      destruct (run_printf [8; 32; 8] [] s) as (s' & E & K & Sc).
      exists s', buf. cbn [length] in *.
      replace (Datatypes.S (length l) - 1)%nat with (length l) by lia.
      replace (Z.of_nat (Datatypes.S (length l)) - 1) with (Z.of_nat (length (take (length l) (x :: l))))
        by (rewrite length_take; cbn; lia).
      split; [apply E, runs_refl|]. split_and!; [|done|done]. split; [|done|done|rewrite length_take; cbn; lia].
      apply (f_equal (take (length l))) in H1. rewrite take_take, Nat.min_l in H1 by lia.
      rewrite length_take, Nat.min_l by (cbn [length]; lia). exact H1.
  - destruct ((32 <=? c) && (c <=? 126)); cbn [andb].
    2: { exists s, buf. rewrite app_nil_r. split; [apply runs_refl|]. by split_and!. }
    rewrite u64_small by lia. replace (Z.of_nat cap + 1 - 1) with (Z.of_nat cap) by lia.
    destruct (Z.ltb_spec (Z.of_nat (length l)) (Z.of_nat cap)) as [Hl|Hl].
    2: { exists s, buf. rewrite bool_decide_eq_false_2 by lia. rewrite app_nil_r.
         split; [apply runs_refl|]. by split_and!. }
    rewrite bool_decide_eq_true_2 by lia. unfold store.
    rewrite (proj2 (Z.leb_le 0 _)), (proj2 (Z.ltb_lt _ (Z.of_nat (length buf)))) by lia. cbn [andb].
    rewrite Nat2Z.id. set (buf' := <[length l := c]> buf).
    destruct (run_printf (cstr "%c") [AChar c] s) as (s' & E & K & Sc).
    exists s', buf'. rewrite length_app. cbn [length].
    replace (Z.of_nat (length l + 1)) with (Z.of_nat (length l) + 1) by lia.
    split; [apply (runs_then dev _ _ s buf' s); [apply runs_refl|apply E, runs_refl]|].
    split_and!; [|done|done]. unfold buf'. split; rewrite ?length_app, ?length_insert; cbn [length]; try done; try lia.
    + rewrite Nat.add_1_r, (take_S_r _ _ c) by (apply list_lookup_insert_eq; lia).
      rewrite take_insert_ge, H1 by lia. done.
    + by rewrite drop_insert_lt by lia.
Qed.

(** The loop of [read_line] from a line [l] on. *)
Lemma read_line_loop cap buf0 rest m typed s l buf :
  (length typed <= m)%nat -> keys s = typed ++ 10 :: rest -> 10 ∉ typed ->
  holds cap buf0 l buf -> (cap < length buf0)%nat -> Z.of_nat cap < 2 ^ 63 ->
  let l' := foldl (edit cap) l typed in
  exists s' buf', runs dev
      (ITree.iter (fun '(pos, buf) => c <- getch;; edit_key (Z.of_nat cap + 1) c pos buf) (Z.of_nat (length l), buf)) s
      (Ret (Z.of_nat (length l'), buf')) s' /\
    holds cap buf0 l' buf' /\ keys s' = rest /\ screen s' = screen s ++ echoes cap l typed ++ [([10], [])].
Proof.
  intros Hm Hk H10 Hh Hc Hb. revert typed s l buf Hm Hk H10 Hh.
  induction m as [m IH] using lt_wf_ind. intros typed s l buf Hm Hk H10 Hh l'.
  destruct (split_zeros typed) as [(n & ->)|(n & c & typed' & -> & Hc0)].
  - destruct (getch_spec s n 10 rest Hk ltac:(done)) as (s1 & E1 & K1 & S1).
    destruct (run_printf [10] [] s1) as (s2 & E2 & K2 & S2).
    assert (l' = l) as -> by (unfold l'; by rewrite <- (app_nil_r (replicate n 0)), edit_zeros).
    exists s2, buf. rewrite <- (app_nil_r (replicate n 0)), echoes_zeros. split_and!; [|done|congruence|by rewrite S2, S1].
    apply (runs_iter dev _ _ s s2 (inr (Z.of_nat (length l), buf))); [|apply runs_refl].
    apply (runs_then dev _ _ _ _ _ _ _ E1). unfold edit_key. cbn [Z.eqb Pos.eqb]. apply E2, runs_refl.
  - rewrite <- app_assoc in Hk. cbn [app] in Hk.
    destruct (getch_spec s n c (typed' ++ 10 :: rest) Hk Hc0) as (s1 & E1 & K1 & S1).
    assert (c <> 10 /\ 10 ∉ typed') as [Hn Hn'] by (split; [intros ->|]; set_solver).
    destruct (edit_key_spec cap buf0 s1 l buf c Hh Hc Hb Hn) as (s2 & buf2 & E2 & Hh2 & K2 & S2).
    destruct (IH (length typed') ltac:(rewrite length_app in Hm; cbn in Hm; lia) typed' s2 (edit cap l c) buf2)
      as (s3 & buf3 & E3 & Hh3 & K3 & S3); [done|by rewrite K2|done|done|].
    exists s3, buf3. unfold l'. rewrite edit_zeros, echoes_zeros. cbn [foldl echoes].
    split_and!; [|done|done|by rewrite S3, S2, S1, <- !app_assoc].
    apply (runs_iter dev _ _ s s2 (inl (Z.of_nat (length (edit cap l c)), buf2))); [|exact E3].
    by apply (runs_then dev _ _ _ _ _ _ _ E1).
Qed.

(** [read_line] on an array of [len] bytes. *)
Lemma read_line_spec s buf typed rest :
  keys s = typed ++ 10 :: rest -> 10 ∉ typed -> Z.of_nat (length buf) = SHELL_BUFFER ->
  exists s' buf', runs dev (read_line buf SHELL_BUFFER) s
      (Ret (Z.of_nat (length (edited 127 typed)), buf')) s' /\
    take (length (edited 127 typed)) buf' = edited 127 typed /\
    keys s' = rest /\ screen s' = screen s ++ echoes 127 [] typed ++ [([10], [])].
Proof.
  intros Hk H10 Hl. unfold SHELL_BUFFER in Hl.
  destruct (read_line_loop 127 buf rest (length typed) typed s [] buf) as (s' & buf' & E & [H1 H2 H3 H4] & K & Sc);
    try done; [split; (done || cbn; lia)|lia|]. by exists s', buf'.
Qed.

(** Nothing happens after undefined behaviour. *)
Lemma crash_bind {A B} (k : A -> itree libcE B) : ITree.bind crash k ~~ crash.
Proof. unfold crash. rewrite bind_bind. apply eutt_eq_bind. intros []. Qed.

Lemma loop_step buf : shell_loop buf ~~ (b <- turn buf;; shell_loop b).
Proof.
  unfold shell_loop at 1. rewrite unfold_iter, bind_bind. apply eutt_eq_bind. intros b.
  rewrite bind_ret_l, tau_eutt. reflexivity.
Qed.

(** The array after [memset]: the line and zeros. *)
Definition padded (l : list Z) : list Z := l ++ replicate (Z.to_nat (SHELL_BUFFER - Z.of_nat (length l))) 0.

Lemma length_cut_word buf : length (cut_word buf) = length buf.
Proof. unfold cut_word. repeat case_match; by rewrite ?length_insert. Qed.

(** C38: one turn of the shell.  Whatever is typed before a newline, the shell
    prompts, echoes and reads the edited line: printable characters are added
    while there is room for them, a backspace takes the last one away and
    other keys do nothing.  An empty line starts the next turn; a line of
    spaces only is undefined behaviour (a null pointer is compared); any
    other line runs the command that its first word names with the rest as
    argument, or nothing if there is no such command, and the next turn
    follows.  The array keeps its size and no store leaves it. *)
Theorem shell_turn (s : S) (buf typed rest : list Z) :
  keys s = typed ++ 10 :: rest -> 10 ∉ typed -> Z.of_nat (length buf) = SHELL_BUFFER ->
  let l := edited 127 typed in
  exists s', keys s' = rest /\
    screen s' = screen s ++ (cstr "> ", []) :: echoes 127 [] typed ++ [([10], [])] /\
    (l = [] -> runs dev (shell_loop buf) s (shell_loop (padded l)) s') /\
    (forall n, l = replicate (Datatypes.S n) 32 -> runs dev (shell_loop buf) s crash s') /\
    (forall n w t, words l n w t ->
       runs dev (shell_loop buf) s (command w (args_of t);;; shell_loop (cut_word (padded l))) s') /\
    Z.of_nat (length (cut_word (padded l))) = SHELL_BUFFER.
Proof.
  intros Hk H10 Hl l. destruct (run_printf (cstr "> ") [] s) as (s1 & E1 & K1 & S1).
  destruct (read_line_spec s1 buf typed rest) as (s2 & buf2 & E2 & H2 & K2 & S2); [by rewrite K1|done|done|].
  fold l in E2, H2. pose proof (edited_bound 127 typed) as Hb. fold l in Hb.
  pose proof (edited_printable 127 typed) as Hpr. fold l in Hpr.
  assert (clear_from (Z.of_nat (length l)) buf2 = padded l) as Hpad.
  { unfold clear_from, padded. by rewrite Nat2Z.id, H2. }
  assert (string_of (padded l) = l) as Hstr by by apply string_of_padded.
  assert (runs dev (shell_loop buf) s
    (b <- (if Z.of_nat (length l) =? 0 then Ret (padded l) else exec (padded l));; shell_loop b) s2) as Hrun.
  { rewrite loop_step. unfold turn. rewrite bind_bind. apply E1. rewrite bind_bind.
    apply (runs_then dev _ _ _ _ _ _ _ E2). cbn [fst snd]. rewrite Hpad. apply runs_refl. }
  exists s2. split; [done|]. split; [by rewrite S2, S1, <- app_assoc|]. split_and!.
  - intros E. rewrite E in Hrun |- *. change (Z.of_nat (length []) =? 0) with true in Hrun. cbn iota in Hrun.
    by rewrite bind_ret_l in Hrun.
  - intros n E. unfold exec in Hrun. rewrite Hstr, E, strtok_blank in Hrun. cbn [length replicate] in Hrun.
    rewrite (proj2 (Z.eqb_neq _ 0)) in Hrun by lia. by rewrite crash_bind in Hrun.
  - intros n w t Hw. destruct (Z.eqb_spec (Z.of_nat (length l)) 0) as [E0|_].
    + destruct Hw as [-> Hw _ _]. rewrite !length_app in E0. destruct w; [done|]. cbn [length] in E0. lia.
    + rewrite (exec_dispatch _ n w t), bind_bind in Hrun by by rewrite Hstr.
      by setoid_rewrite bind_ret_l in Hrun.
  - rewrite length_cut_word. unfold padded. rewrite length_app, length_replicate. unfold SHELL_BUFFER in *. lia.
Qed.

End runs.
End terminal.

(** ** A terminal *)

(** A library with a keyboard and a screen and nothing else. *)
Definition demo_libc (A : Type) (e : libcE A) (s : list Z * list (list Z * list printf_arg)) :
    option ((list Z * list (list Z * list printf_arg)) * A) :=
  match e with
  | Printf fmt args => Some ((s.1, s.2 ++ [(fmt, args)]), tt)
  | Fopen path _ => Some (s, if bool_decide (path = cstr "/dev/keyboard") then 1 else 0)
  | Fread _ _ => match s.1 with [] => Some (s, []) | k :: ks => Some ((ks, s.2), [k]) end
  | Fwrite _ _ | Malloc _ | Mmap _ | Munmap _ _ | Syscall _ _ => Some (s, 0)
  | Fclose _ | Setvbuf _ | Free _ | Memset _ _ _ => Some (s, tt)
  | Crash => None
  end.

#[export] Instance demo_terminal : terminal demo_libc fst snd 1.
Proof.
  split; [done|..]; intros s; try (by exists s; split; [reflexivity|]).
  - intros k ks Hk. exists (ks, s.2). split; [|done]. cbn. by rewrite Hk.
  - intros fmt args. by exists (s.1, s.2 ++ [(fmt, args)]).
Qed.

(** "cas", a backspace, a key release, "t a" and a newline run [cat] on "a". *)
Lemma shell_turn_witness : exists s',
  s'.1 = [7] /\ last s'.2 = Some ([10], []) /\
  runs demo_libc main (cstr "cas" ++ [8; 0] ++ cstr "t a" ++ [10; 7], [])
    (command (cstr "cat") (Some (cstr "a"));;; shell_loop (cut_word (padded (cstr "cat a")))) s'.
Proof.
  destruct (shell_turn (T := demo_terminal) demo_libc (cstr "cas" ++ [8; 0] ++ cstr "t a" ++ [10; 7], [])
    (replicate (Z.to_nat SHELL_BUFFER) 0) (cstr "cas" ++ [8; 0] ++ cstr "t a") [7]) as (s' & K & Sc & _ & _ & Hw & _).
  - reflexivity.
  - apply (bool_decide_unpack _). vm_compute. exact I.
  - reflexivity.
  - exists s'. split; [exact K|]. split; [rewrite Sc; vm_compute; reflexivity|].
    eapply runs_event; [reflexivity|]. apply (Hw 0%nat (cstr "cat") (cstr " a")). split; [reflexivity|done| |by right].
    apply (bool_decide_unpack _). vm_compute. exact I.
Defined.
