(* ===== verification/FbTest.v ===== *)
(** * The frame buffer test program: misc/userspace/mlibc_test/fb.c

    A program of user mode that maps /dev/fb0 and draws squares for ever, as an
    interaction tree over what it asks of its C library and over its stores to
    the mapped memory. *)

From S2P Require Import Prelude Memory Runs.
From ITree Require Import ITree ITreeFacts.
Local Open Scope libc_scope.

(** ** The program *)

Definition FB_WIDTH : Z := 1024.
Definition FB_HEIGHT : Z := 768.
Definition FB_PITCH : Z := 4096.

Inductive fbE : Type -> Type :=
| Print (fmt : list Z) (args : list Z) : fbE unit
| Open (path : list Z) : fbE Z                (** [open(path, O_RDWR)] *)
| Mmap_shared (len fd : Z) : fbE Z            (** readable and writable, [MAP_SHARED], offset 0 *)
| Close (fd : Z) : fbE Z
| Store (addr v : Z) : fbE unit.              (** a 32-bit store *)

(** [for (v = start; v < start + n; v++)] *)
Fixpoint for_range (n : nat) (v : Z) (body : Z -> itree fbE unit) : itree fbE unit :=
  match n with
  | O => Ret tt
  | S n => body v;;; for_range n (v + 1) body
  end.

Definition square_x (i : Z) : Z := i mod 640 + 100.
Definition square_y (i : Z) : Z := i mod 400 + 100.
Definition shade (i : Z) : Z := Z.lor (Z.lor (u32 (Z.shiftl i 16)) (u32 (Z.shiftl i 8))) i.

(** Pixel [x] of line [y]: the pointer counts 32-bit words, and the line's
    offset is computed in 32 bits. *)
Definition pixel_place (fbPtr x y : Z) : Z := u64 (fbPtr + 4 * u32 (y * Z.shiftr 4096 2) + 4 * x).

(** One square. *)
Definition square (fbPtr i : Z) : itree fbE unit :=
  for_range 100 (square_x i) (fun x => for_range 100 (square_y i) (fun y => ITree.trigger (Store (pixel_place fbPtr x y) (shade i)))).

(** [while (1)], with the counter before the turn. *)
Definition draw (fbPtr : Z) (i : Z) : itree fbE Z :=
  ITree.iter (fun i => square fbPtr (u32 (i + 1));;; Ret (inl (u32 (i + 1)))) i.

Definition message (s : string) (args : list Z) : itree fbE unit := ITree.trigger (Print (cstr s ++ [10]) args).

Definition main : itree fbE Z :=
  message "Trying to mmap /dev/fb0..." [];;;
  f_fb <- ITree.trigger (Open (cstr "/dev/fb0"));;
  if f_fb <? 0 then
    message "failed to open /dev/fb0" [];;;
    Ret (-1)
  else
    fbPtr <- ITree.trigger (Mmap_shared (FB_PITCH * FB_HEIGHT) f_fb);;
    message "mmap returned fbPtr=%p" [fbPtr];;;
    if fbPtr =? 0 then
      message "failed to mmap /dev/fb0" [];;;
      ITree.trigger (Close f_fb);;;
      Ret (-1)
    else draw fbPtr 0.

Lemma for_range_succ n v body : for_range (S n) v body = (body v;;; for_range n (v + 1) body).
Proof. reflexivity. Qed.

(** ** What the program draws *)

Section device.
Context {S : Type} (dev : forall X, fbE X -> S -> option (S * X)) (pixels : S -> mem) (fbPtr : Z).

(** The library's promise: the device opens and maps at [fbPtr], and stores
    inside the mapping change the memory of the frame buffer.  A store anywhere
    else need not have an answer, and the program does not run past it. *)
Class mapping : Prop := {
  map_range : 0 < fbPtr /\ fbPtr + FB_PITCH * FB_HEIGHT <= 2 ^ 64;
  map_print : forall s fmt args, exists s', dev unit (Print fmt args) s = Some (s', tt) /\ pixels s' = pixels s;
  map_open : forall s, exists fd s', dev Z (Open (cstr "/dev/fb0")) s = Some (s', fd) /\ 0 <= fd /\ pixels s' = pixels s;
  map_mmap : forall s fd, exists s', dev Z (Mmap_shared (4096 * 768) fd) s = Some (s', fbPtr) /\ pixels s' = pixels s;
  map_store : forall s a v, fbPtr <= a -> a + 4 <= fbPtr + FB_PITCH * FB_HEIGHT ->
    exists s', dev unit (Store a v) s = Some (s', tt) /\ pixels s' = store32 (pixels s) a v
}.

Context {M : mapping}.

Definition pixel_at (s : S) (X Y : Z) : Z := load32 (pixels s) (fbPtr + 4 * (Y * 1024 + X)).
Definition on_display (X Y : Z) : Prop := 0 <= X < FB_WIDTH /\ 0 <= Y < FB_HEIGHT.

Lemma pixel_place_eq x y : on_display x y -> pixel_place fbPtr x y = fbPtr + 4 * (y * 1024 + x).
Proof.
  unfold on_display, FB_WIDTH, FB_HEIGHT, pixel_place. intros [Hx Hy]. destruct map_range as [H0 H1].
  unfold FB_PITCH, FB_HEIGHT in H1. change (Z.shiftr 4096 2) with 1024. rewrite u32_small, u64_small by lia. lia.
Qed.

Lemma store_pixel s x y v :
  on_display x y -> 0 <= v < 2 ^ 32 ->
  exists s', runs dev (ITree.trigger (Store (pixel_place fbPtr x y) v)) s (Ret tt) s' /\
    forall X Y, on_display X Y -> pixel_at s' X Y = if (X =? x) && (Y =? y) then v else pixel_at s X Y.
Proof.
  intros Hd Hv. rewrite pixel_place_eq by done. unfold on_display, FB_WIDTH, FB_HEIGHT in Hd.
  destruct (map_store s (fbPtr + 4 * (y * 1024 + x)) v) as (s' & E & Hp); [lia|unfold FB_PITCH, FB_HEIGHT; lia|].
  exists s'. split; [by apply runs_trigger|].
  unfold on_display, FB_WIDTH, FB_HEIGHT, pixel_at. intros X Y HD. rewrite Hp. unfold load32, store32.
  destruct (Z.eqb_spec X x) as [->|]; [destruct (Z.eqb_spec Y y) as [->|]|]; cbn [andb].
  - rewrite load_store_le. by apply Z.mod_small.
  - apply load_store_le_ne. lia.
  - apply load_store_le_ne. lia.
Qed.

(** A column of [n] pixels, and [n] columns. *)
Lemma column_drawn n s x y v :
  0 <= x < FB_WIDTH -> 0 <= y -> y + Z.of_nat n <= FB_HEIGHT -> 0 <= v < 2 ^ 32 ->
  exists s', runs dev (for_range n y (fun y => ITree.trigger (Store (pixel_place fbPtr x y) v))) s (Ret tt) s' /\
    forall X Y, on_display X Y ->
      pixel_at s' X Y = if (X =? x) && ((y <=? Y) && (Y <? y + Z.of_nat n)) then v else pixel_at s X Y.
Proof.
  intros Hx. revert s y. induction n as [|n IH]; intros s y Hy Hn Hv.
  - exists s. cbn [for_range]. split; [apply runs_refl|]. intros X Y _.
    replace ((y <=? Y) && (Y <? y + Z.of_nat 0)) with false by (zcases; cbn; done || lia). by rewrite andb_false_r.
  - destruct (store_pixel s x y v) as (s1 & E1 & P1); [unfold on_display; lia|done|].
    destruct (IH s1 (y + 1)) as (s2 & E2 & P2); [lia..|done|].
    exists s2. split; [rewrite (for_range_succ n y); exact (runs_then dev _ _ _ _ _ _ _ E1 E2)|].
    intros X Y HD. rewrite P2, P1 by done. destruct (X =? x); [|done]. zcases; cbn; done || lia.
Qed.

Lemma columns_drawn n s x y v :
  0 <= x -> x + Z.of_nat n <= FB_WIDTH -> 0 <= y -> y + 100 <= FB_HEIGHT -> 0 <= v < 2 ^ 32 ->
  exists s', runs dev (for_range n x (fun x => for_range 100 y (fun y => ITree.trigger (Store (pixel_place fbPtr x y) v)))) s
      (Ret tt) s' /\
    forall X Y, on_display X Y ->
      pixel_at s' X Y =
        if (x <=? X) && (X <? x + Z.of_nat n) && ((y <=? Y) && (Y <? y + 100)) then v else pixel_at s X Y.
Proof.
  revert s x. induction n as [|n IH]; intros s x Hx Hn Hy Hy2 Hv.
  - exists s. cbn [for_range]. split; [apply runs_refl|]. intros X Y _.
    replace ((x <=? X) && (X <? x + Z.of_nat 0)) with false by (zcases; cbn; done || lia). done.
  - destruct (column_drawn 100 s x y v) as (s1 & E1 & P1); [lia..|done|].
    destruct (IH s1 (x + 1)) as (s2 & E2 & P2); [lia..|done|].
    exists s2. split; [rewrite (for_range_succ n x); exact (runs_then dev _ _ _ _ _ _ _ E1 E2)|].
    intros X Y HD. rewrite P2, P1 by done. change (Z.of_nat 100) with 100. zcases; cbn; done || lia.
Qed.

Lemma draw_step i : draw fbPtr i ~~ (square fbPtr (u32 (i + 1));;; draw fbPtr (u32 (i + 1))).
Proof.
  unfold draw at 1. rewrite unfold_iter, bind_bind. apply eutt_eq_bind. intros _.
  rewrite bind_ret_l, tau_eutt. reflexivity.
Qed.

Lemma shade_range i : 0 <= i < 2 ^ 32 -> 0 <= shade i < 2 ^ 32.
Proof.
  intros Hi. unfold shade. apply lor_range; [lia| |lia]. apply lor_range; [lia|apply Z.mod_pos_bound; lia..].
Qed.

(** The [n]th square: its place and its colour. *)
Definition covers (n X Y : Z) : bool :=
  (n mod 640 + 100 <=? X) && (X <? n mod 640 + 200) && ((n mod 400 + 100 <=? Y) && (Y <? n mod 400 + 200)).

Definition colour (n : Z) : Z := Z.lor (Z.lor (n * 65536 mod 2 ^ 32) (n * 256 mod 2 ^ 32)) n.

(** The display after [n] squares: the last one that covers a pixel shows. *)
Fixpoint picture (n : nat) (old : Z -> Z -> Z) (X Y : Z) : Z :=
  match n with
  | O => old X Y
  | Datatypes.S m =>
    let k := Z.of_nat n mod 2 ^ 32 in
    if covers k X Y then colour k else picture m old X Y
  end.

(** One turn of the loop, with the counter before it. *)
Lemma turn_drawn s i : let j := u32 (i + 1) in
  exists s', runs dev (draw fbPtr i) s (draw fbPtr j) s' /\
    forall X Y, on_display X Y -> pixel_at s' X Y = if covers j X Y then colour j else pixel_at s X Y.
Proof.
  intros j. assert (0 <= j < 2 ^ 32) as Hr by (apply Z.mod_pos_bound; lia).
  destruct (columns_drawn 100 s (square_x j) (square_y j) (shade j)) as (s' & E & P);
    [unfold square_x, square_y, FB_WIDTH, FB_HEIGHT; zlia..|by apply shade_range|].
  exists s'. split; [rewrite (draw_step i); fold j; exact (runs_then dev _ _ _ _ _ _ _ E (runs_refl dev _ _))|].
  intros X Y HD. rewrite (P X Y HD). unfold covers, colour, shade, square_x, square_y, u32.
  rewrite !Z.shiftl_mul_pow2 by lia. change (2 ^ 16) with 65536. change (2 ^ 8) with 256. change (Z.of_nat 100) with 100.
  by rewrite <- !Z.add_assoc.
Qed.

Lemma start_of_main s : exists s', runs dev main s (draw fbPtr 0) s' /\ pixels s' = pixels s.
Proof.
  destruct (map_print s (cstr "Trying to mmap /dev/fb0..." ++ [10]) []) as (s1 & E1 & P1).
  destruct (map_open s1) as (fd & s2 & E2 & Hfd & P2). destruct (map_mmap s2 fd) as (s3 & E3 & P3).
  destruct (map_print s3 (cstr "mmap returned fbPtr=%p" ++ [10]) [fbPtr]) as (s4 & E4 & P4).
  exists s4. split; [|congruence]. unfold main, message.
  apply (runs_event dev _ _ _ _ _ _ _ E1), (runs_event dev _ _ _ _ _ _ _ E2).
  rewrite (proj2 (Z.ltb_ge fd 0) Hfd).
  apply (runs_event dev _ _ _ _ _ _ _ E3), (runs_event dev _ _ _ _ _ _ _ E4).
  destruct map_range as [Hp _]. rewrite (proj2 (Z.eqb_neq fbPtr 0)) by lia. apply runs_refl.
Qed.

(** C40: on a device that maps, the program comes to its loop and through any
    number of turns of it.  After [n] turns the loop stands at counter [n] (in
    32 bits) and each pixel of the 1024 by 768 display shows the colour of the
    last of the squares 1 to [n] that covers it, or what it showed before:
    square [k] is the 100 by 100 pixels from column [k mod 640 + 100] and line
    [k mod 400 + 100].  No store leaves the mapping, since one that did need
    not be answered and the program would not get past it. *)
Theorem fb_test_draws (s : S) (n : nat) :
  exists s', runs dev main s (draw fbPtr (Z.of_nat n mod 2 ^ 32)) s' /\
    forall X Y, on_display X Y -> pixel_at s' X Y = picture n (pixel_at s) X Y.
Proof.
  induction n as [|n (s1 & R1 & P1)].
  - destruct (start_of_main s) as (s' & R & P). exists s'. split; [exact R|]. intros X Y _. unfold pixel_at. by rewrite P.
  - destruct (turn_drawn s1 (Z.of_nat n mod 2 ^ 32)) as (s2 & R2 & P2).
    assert (u32 (Z.of_nat n mod 2 ^ 32 + 1) = Z.of_nat (Datatypes.S n) mod 2 ^ 32) as Eu.
    { unfold u32. rewrite Zplus_mod_idemp_l. f_equal. lia. }
    rewrite Eu in R2, P2. exists s2. split; [exact (runs_trans dev _ _ _ _ _ _ R1 R2)|].
    intros X Y HD. rewrite (P2 X Y HD), (P1 X Y HD). reflexivity.
Qed.

(** ** Failures *)

(** The program when [open] fails, when [mmap] gives a null pointer, and when
    [mmap] reports a failure the way it does, with the address -1: that is not
    noticed, and the first square is drawn there, where the addresses wrap
    around to low memory. *)
Lemma main_failures (s : S) (fd p : Z) :
  (forall s fmt args, dev unit (Print fmt args) s = Some (s, tt)) ->
  (forall s, dev Z (Open (cstr "/dev/fb0")) s = Some (s, fd)) ->
  (forall s fd, dev Z (Mmap_shared (FB_PITCH * FB_HEIGHT) fd) s = Some (s, p)) ->
  (forall s fd, dev Z (Close fd) s = Some (s, 0)) ->
  runs dev main s (if fd <? 0 then Ret (-1) else if p =? 0 then Ret (-1) else draw p 0) s.
Proof.
  intros Hp Ho Hm Hc. unfold main, message.
  apply (runs_event dev _ _ _ _ _ _ _ (Hp s _ _)), (runs_event dev _ _ _ _ _ _ _ (Ho s)).
  destruct (fd <? 0); [apply (runs_event dev _ _ _ _ _ _ _ (Hp s _ _)), runs_refl|].
  apply (runs_event dev _ _ _ _ _ _ _ (Hm s fd)), (runs_event dev _ _ _ _ _ _ _ (Hp s _ _)).
  destruct (p =? 0); [|apply runs_refl].
  apply (runs_event dev _ _ _ _ _ _ _ (Hp s _ _)), (runs_event dev _ _ _ _ _ _ _ (Hc s fd)), runs_refl.
Qed.
End device.

Lemma map_failed_wraps : pixel_place (2 ^ 64 - 1) (square_x 1) (square_y 1) = 414099.
Proof. reflexivity. Qed.

(** ** Witness *)

(** A library that answers the stores to its mapping only. *)
Definition demo_fb_libc (A : Type) (e : fbE A) (m : mem) : option (mem * A) :=
  match e with
  | Print _ _ => Some (m, tt)
  | Open _ => Some (m, 3)
  | Mmap_shared _ _ => Some (m, 0x10000)
  | Close _ => Some (m, 0)
  | Store a v => if (0x10000 <=? a) && (a + 4 <=? 0x310000) then Some (store32 m a v, tt) else None
  end.

#[export] Instance demo_mapping : mapping demo_fb_libc (fun m => m) 0x10000.
Proof.
  split; [unfold FB_PITCH, FB_HEIGHT; lia|..].
  - intros s fmt args. by exists s.
  - intros s. by exists 3, s.
  - intros s fd. by exists s.
  - intros s a v H1 H2. change (FB_PITCH * FB_HEIGHT) with 0x300000 in H2. exists (store32 s a v). cbn [demo_fb_libc].
    by rewrite (proj2 (Z.leb_le 0x10000 a)), (proj2 (Z.leb_le (a + 4) 0x310000)) by lia.
Qed.

(** Two squares, one pixel apart. *)
Lemma fb_test_draws_witness :
  exists m, runs demo_fb_libc main ∅ (draw 0x10000 2) m /\ load32 m (0x10000 + 4 * (101 * 1024 + 101)) = 0x10101 /\
    load32 m (0x10000 + 4 * (102 * 1024 + 102)) = 0x20202 /\ load32 m (0x10000 + 4 * (101 * 1024 + 100)) = 0.
Proof.
  destruct (fb_test_draws demo_fb_libc (fun m => m) 0x10000 ∅ 2) as (m & R & P). exists m. split; [exact R|].
  unfold pixel_at in P. rewrite !P by (unfold on_display, FB_WIDTH, FB_HEIGHT; lia). split_and!; vm_compute; reflexivity.
Defined.
