(* ===== verification/FlantermSim.v ===== *)
(** * Two backends of the terminal

    What flanterm.c asks of a backend, as a relation between two of them: each
    pointer of [flanterm_ops] returns on both sides, to related states, whenever
    the context has the geometry of the screen.  The parser is proved against
    that interface once: fed with the same bytes, it returns with either
    backend, makes the same calls of [callback], leaves the same context and
    related backends, and keeps the invariant [ctx_ok] of its context.
    FlantermFbSpec.v discharges the interface for the frame buffer against a
    plain array of characters. *)

From S2P Require Import Prelude Arrays Wcwidth Flanterm.

Local Open Scope term_scope.

(** ** The invariant of the context *)

(** A colour number of [sgr]: one of the eight, or none. *)
Definition colour (v : Z) : Prop := v = SIZE_MAX \/ 0 <= v < 8.

Definition byte (v : Z) : Prop := 0 <= v < 256.
Definition word (v : Z) : Prop := 0 <= v < 2 ^ 32.

(** The screen has [H] rows of [W] characters, and the margins lie in it. *)
Record geometry (W H : Z) (t : flanterm_context) : Prop := mk_geometry {
  g_rows : rows t = H;
  g_cols : cols t = W;
  g_top : 0 <= scroll_top_margin t < H;
  g_bottom : 1 <= scroll_bottom_margin t <= H
}.

Record ctx_ok (W H : Z) (t : flanterm_context) : Prop := mk_ctx_ok {
  ok_geometry : geometry W H t;
  ok_margins : scroll_top_margin t < scroll_bottom_margin t;
  ok_tab : tab_size t = 8;
  ok_len : zlen (esc_values t) = FLANTERM_MAX_ESC_VALUES;
  ok_values : Forall word (esc_values t);
  ok_count : 0 <= esc_values_i t <= FLANTERM_MAX_ESC_VALUES;
  ok_rrr : rrr t = true -> esc_values_i t < FLANTERM_MAX_ESC_VALUES;
  ok_select : 0 <= g_select t <= 2;
  ok_charsets : zlen (charsets t) = 2;
  ok_charset : 0 <= current_charset t <= 1;
  ok_primary : colour (current_primary t);
  ok_bg : colour (current_bg t);
  ok_unicode : 0 <= unicode_remaining t <= 3;
  ok_code_point : 0 <= code_point t < 2 ^ 21;
  ok_cursor : 0 <= saved_cursor_x t < 2 ^ 64 /\ 0 <= saved_cursor_y t < 2 ^ 64;
  ok_saved_charset : 0 <= saved_state_current_charset t <= 1;
  ok_saved_primary : colour (saved_state_current_primary t);
  ok_saved_bg : colour (saved_state_current_bg t)
}.

(** ** The interface *)

Section sim.
Context {B1 B2 : Type} (F1 : flanterm_ops B1) (F2 : flanterm_ops B2).
Context (W H : Z) (R : B1 -> B2 -> Prop).

Definition agree (o1 : option B1) (o2 : option B2) : Prop :=
  exists b1 b2, o1 = Some b1 /\ o2 = Some b2 /\ R b1 b2.

(** An operation that both backends always complete, given the argument and
    the geometry. *)
Definition same_op {A} (P : A -> Prop)
    (f1 : flanterm_context -> A -> B1 -> option B1) (f2 : flanterm_context -> A -> B2 -> option B2) : Prop :=
  forall t a b1 b2, geometry W H t -> P a -> R b1 b2 -> agree (f1 t a b1) (f2 t a b2).

Definition in_range (n v : Z) : Prop := 0 <= v < n.

Class backend_sim : Prop := {
  sim_dims : 1 <= W < 2 ^ 31 /\ 1 <= H < 2 ^ 31;
  sim_raw_putchar : same_op byte (op_raw_putchar F1) (op_raw_putchar F2);
  sim_clear : same_op (fun _ => True) (op_clear F1) (op_clear F2);
  sim_set_cursor_pos : same_op (fun p => 0 <= p.1 < 2 ^ 64 /\ 0 <= p.2 < 2 ^ 64)
    (fun t p => op_set_cursor_pos F1 t p.1 p.2) (fun t p => op_set_cursor_pos F2 t p.1 p.2);
  sim_get_cursor_pos t b1 b2 : geometry W H t -> R b1 b2 ->
    op_get_cursor_pos F1 t b1 = op_get_cursor_pos F2 t b2 /\
    in_range W (op_get_cursor_pos F1 t b1).1 /\ in_range H (op_get_cursor_pos F1 t b1).2;
  sim_fg : same_op (in_range 8) (op_set_text_fg F1) (op_set_text_fg F2);
  sim_bg : same_op (in_range 8) (op_set_text_bg F1) (op_set_text_bg F2);
  sim_fg_bright : same_op (in_range 8) (op_set_text_fg_bright F1) (op_set_text_fg_bright F2);
  sim_bg_bright : same_op (in_range 8) (op_set_text_bg_bright F1) (op_set_text_bg_bright F2);
  sim_fg_rgb : same_op (fun _ => True) (op_set_text_fg_rgb F1) (op_set_text_fg_rgb F2);
  sim_bg_rgb : same_op (fun _ => True) (op_set_text_bg_rgb F1) (op_set_text_bg_rgb F2);
  sim_fg_default : same_op (fun _ : unit => True)
    (fun t _ => op_set_text_fg_default F1 t) (fun t _ => op_set_text_fg_default F2 t);
  sim_bg_default : same_op (fun _ : unit => True)
    (fun t _ => op_set_text_bg_default F1 t) (fun t _ => op_set_text_bg_default F2 t);
  sim_fg_default_bright : same_op (fun _ : unit => True)
    (fun t _ => op_set_text_fg_default_bright F1 t) (fun t _ => op_set_text_fg_default_bright F2 t);
  sim_bg_default_bright : same_op (fun _ : unit => True)
    (fun t _ => op_set_text_bg_default_bright F1 t) (fun t _ => op_set_text_bg_default_bright F2 t);
  sim_move_character : same_op (fun p => (0 <= p.1.1 /\ 0 <= p.1.2) /\ 0 <= p.2.1 /\ 0 <= p.2.2)
    (fun t p => op_move_character F1 t p.1.1 p.1.2 p.2.1 p.2.2)
    (fun t p => op_move_character F2 t p.1.1 p.1.2 p.2.1 p.2.2);
  sim_scroll : same_op (fun _ : unit => True) (fun t _ => op_scroll F1 t) (fun t _ => op_scroll F2 t);
  sim_revscroll : same_op (fun _ : unit => True) (fun t _ => op_revscroll F1 t) (fun t _ => op_revscroll F2 t);
  sim_swap_palette : same_op (fun _ : unit => True)
    (fun t _ => op_swap_palette F1 t) (fun t _ => op_swap_palette F2 t);
  sim_save_state : same_op (fun _ : unit => True)
    (fun t _ => op_save_state F1 t) (fun t _ => op_save_state F2 t);
  sim_restore_state : same_op (fun _ : unit => True)
    (fun t _ => op_restore_state F1 t) (fun t _ => op_restore_state F2 t);
  sim_flush : same_op (fun _ : unit => True)
    (fun t _ => op_double_buffer_flush F1 t) (fun t _ => op_double_buffer_flush F2 t)
}.

(** ** Related runs *)

(** Terminals with one context, which meets [I], one history of calls and
    related backends. *)
Record related (I : flanterm_context -> Prop) (t1 : terminal B1) (t2 : terminal B2) : Prop := mk_related {
  rel_ctx : t_ctx t1 = t_ctx t2;
  rel_calls : t_calls t1 = t_calls t2;
  rel_be : R (t_be t1) (t_be t2);
  rel_ok : I (t_ctx t1)
}.

(** Both runs return, with one result that meets [Q], from terminals related
    by [I] to terminals related by [J]. *)
Definition sim_from {A} (I J : flanterm_context -> Prop) (m1 : T B1 A) (m2 : T B2 A) (Q : A -> Prop) : Prop :=
  forall t1 t2, related I t1 t2 ->
    exists a t1' t2', m1 t1 = Some (a, t1') /\ m2 t2 = Some (a, t2') /\ related J t1' t2' /\ Q a.

Definition sim {A} (m1 : T B1 A) (m2 : T B2 A) (Q : A -> Prop) : Prop :=
  sim_from (ctx_ok W H) (ctx_ok W H) m1 m2 Q.

Definition unitP : unit -> Prop := fun _ => True.

Lemma sim_from_bind {A C} I J K (m1 : T B1 A) m2 (k1 : A -> T B1 C) k2 Q Q' :
  sim_from I J m1 m2 Q -> (forall a, Q a -> sim_from J K (k1 a) (k2 a) Q') ->
  sim_from I K (tbind m1 k1) (tbind m2 k2) Q'.
Proof.
  intros Hm Hk t1 t2 Ht. destruct (Hm t1 t2 Ht) as (a & t1' & t2' & E1 & E2 & Ht' & Ha).
  unfold tbind. rewrite E1, E2. by apply Hk.
Qed.

Lemma sim_bind {A C} (m1 : T B1 A) m2 (k1 : A -> T B1 C) k2 Q Q' :
  sim m1 m2 Q -> (forall a, Q a -> sim (k1 a) (k2 a) Q') -> sim (tbind m1 k1) (tbind m2 k2) Q'.
Proof. apply sim_from_bind. Qed.

Lemma sim_ret {A} (a : A) (Q : A -> Prop) : Q a -> sim (tret a) (tret a) Q.
Proof. intros Ha t1 t2 Ht. by exists a, t1, t2. Qed.

Lemma sim_weaken {A} (m1 : T B1 A) m2 (Q Q' : A -> Prop) :
  sim m1 m2 Q -> (forall a, Q a -> Q' a) -> sim m1 m2 Q'.
Proof.
  intros Hm HQ t1 t2 Ht. destruct (Hm t1 t2 Ht) as (a & t1' & t2' & ? & ? & ? & ?).
  exists a, t1', t2'. auto.
Qed.

Lemma sim_context : sim context context (ctx_ok W H).
Proof.
  intros t1 t2 Ht. exists (t_ctx t1), t1, t2. unfold context.
  split_and!; [done|by rewrite (rel_ctx _ _ _ Ht)|done|apply Ht].
Qed.

(** The context that is read is the one that what follows starts from. *)
Lemma sim_context_eq {A} (k1 : flanterm_context -> T B1 A) k2 Q :
  (forall t, ctx_ok W H t -> sim_from (eq t) (ctx_ok W H) (k1 t) (k2 t) Q) ->
  sim (tbind context k1) (tbind context k2) Q.
Proof.
  intros Hk t1 t2 [Hc Hl Hb Ho]. unfold tbind, context. rewrite <- Hc.
  apply (Hk (t_ctx t1) Ho). by constructor.
Qed.

Lemma sim_from_updo (I J : flanterm_context -> Prop) f :
  (forall t, I t -> exists t', f t = Some t' /\ J t') -> sim_from I J (updo f) (updo f) unitP.
Proof.
  intros Hf t1 t2 [Hc Hl Hb Ho]. destruct (Hf _ Ho) as (t' & E & Ho').
  unfold updo. rewrite <- Hc, E. cbn [mbind option_bind].
  eexists _, _, _. split_and!; [done..|]. by constructor.
Qed.

Lemma sim_from_upd (I J : flanterm_context -> Prop) f :
  (forall t, I t -> J (f t)) -> sim_from I J (upd f) (upd f) unitP.
Proof. intros Hf. apply (sim_from_updo I J (fun t => Some (f t))). eauto. Qed.

Lemma sim_updo f :
  (forall t, ctx_ok W H t -> exists t', f t = Some t' /\ ctx_ok W H t') -> sim (updo f) (updo f) unitP.
Proof. apply sim_from_updo. Qed.

Lemma sim_upd f : (forall t, ctx_ok W H t -> ctx_ok W H (f t)) -> sim (upd f) (upd f) unitP.
Proof. apply sim_from_upd. Qed.

Lemma sim_from_call (I : flanterm_context -> Prop) f1 f2 :
  (forall t b1 b2, I t -> R b1 b2 -> agree (f1 t b1) (f2 t b2)) ->
  sim_from I I (call f1) (call f2) unitP.
Proof.
  intros Hf t1 t2 [Hc Hl Hb Ho]. destruct (Hf _ _ _ Ho Hb) as (b1 & b2 & E1 & E2 & Hb').
  unfold call. rewrite E1, <- Hc, E2. cbn [mbind option_bind].
  eexists _, _, _. split_and!; [done..|]. by constructor.
Qed.

(** A call of an operation of the interface. *)
Lemma sim_op {A} (P : A -> Prop) f1 f2 a :
  same_op P f1 f2 -> P a -> sim (call (fun t => f1 t a)) (call (fun t => f2 t a)) unitP.
Proof.
  intros Hf Ha. apply sim_from_call. intros t b1 b2 Ho Hb. apply Hf; [apply Ho|done|done].
Qed.

Lemma sim_notify ty a b c : sim (notify ty a b c) (notify ty a b c) unitP.
Proof.
  intros t1 t2 [Hc Hl Hb Ho]. unfold notify. rewrite <- Hc.
  destruct (callback (t_ctx t1)); eexists _, _, _; (split_and!; [done..| |done]); constructor; cbn; congruence.
Qed.

Lemma sim_tget {A} (o : option A) (Q : A -> Prop) :
  (exists a, o = Some a /\ Q a) -> sim (tget o) (tget o) Q.
Proof. intros (a & -> & Ha) t1 t2 Ht. by exists a, t1, t2. Qed.

Lemma sim_if {A} (b : bool) (m1 : T B1 A) m2 n1 n2 Q :
  (b = true -> sim m1 m2 Q) -> (b = false -> sim n1 n2 Q) ->
  sim (if b then m1 else n1) (if b then m2 else n2) Q.
Proof. destruct b; auto. Qed.

Lemma sim_when b m1 m2 :
  (b = true -> sim m1 m2 unitP) -> sim (twhen b m1) (twhen b m2) unitP.
Proof. intros Hm. unfold twhen. apply sim_if; [done|]. intros _. by apply sim_ret. Qed.

Lemma sim_from_for_n I n i body1 body2 :
  (forall j, i <= j < i + Z.of_nat n -> sim_from I I (body1 j) (body2 j) unitP) ->
  sim_from I I (for_n n i body1) (for_n n i body2) unitP.
Proof.
  revert i. induction n as [|n IH]; intros i Hb; cbn [for_n].
  - intros t1 t2 Ht. by exists tt, t1, t2.
  - eapply sim_from_bind; [apply Hb; lia|]. intros _ _. apply IH. intros j Hj. apply Hb. lia.
Qed.

Lemma sim_for_up lo hi body1 body2 :
  (forall j, lo <= j < hi -> sim (body1 j) (body2 j) unitP) ->
  sim (for_up lo hi body1) (for_up lo hi body2) unitP.
Proof. intros Hb. apply sim_from_for_n. intros j Hj. apply Hb. lia. Qed.

Lemma sim_down_to fuel i lo body1 body2 :
  0 <= lo <= i -> i < 2 ^ 64 -> i - lo < Z.of_nat fuel ->
  (forall j, lo <= j <= i -> sim (body1 j) (body2 j) unitP) ->
  sim (down_to fuel i lo body1) (down_to fuel i lo body2) unitP.
Proof.
  revert i. induction fuel as [|fuel IH]; intros i Hi Hi' Hf Hb; [lia|]. cbn [down_to].
  eapply sim_bind; [apply Hb; lia|]. intros _ _.
  destruct (Z.eqb_spec i lo) as [->|Hne]; [by apply sim_ret|].
  rewrite u64_small by lia. apply IH; [lia..|]. intros j Hj. apply Hb. lia.
Qed.
End sim.
