(* ===== verification/FlantermSafe.v ===== *)
(** * The parser on related backends

    The simulation of FlantermSim.v for every function of flanterm.c.  Since a
    run that reads or writes outside of an array, and a loop that does not end,
    have no result in the model, it is also the proof that the parser does
    neither, on any bytes. *)

From S2P Require Import Prelude Arrays Wcwidth Flanterm FlantermSim.

Local Open Scope term_scope.

(** ** Updates of the context *)

Create HintDb bounds.
#[local] Hint Unfold in_range word byte colour unitP FLANTERM_MAX_ESC_VALUES SIZE_MAX : bounds.

Ltac bounds :=
  autounfold with bounds in *; cbn [fst snd] in *; auto; try lia.

(** An update of fields that the invariant does not mention, or of fields
    whose new values are in range. *)
Ltac ok_upd :=
  let t := fresh "t" in let Ht := fresh "Ht" in
  intros t Ht; destruct Ht as [Hgeo]; destruct Hgeo;
  constructor; [constructor|..]; cbn in *; bounds.

Section context.
Context (W H : Z) (HW : 1 <= W < 2 ^ 31) (HH : 1 <= H < 2 ^ 31).
Abbreviation ok := (ctx_ok W H).

Lemma ok_esc_values t l :
  ok t -> zlen l = FLANTERM_MAX_ESC_VALUES -> Forall word l -> ok (set_esc_values l t).
Proof. intros Ht Hl Hf. revert t Ht. ok_upd. Qed.

Lemma aset_values t i v :
  ok t -> 0 <= i < FLANTERM_MAX_ESC_VALUES -> word v ->
  exists l, aset (esc_values t) i v = Some l /\ zlen l = FLANTERM_MAX_ESC_VALUES /\ Forall word l.
Proof.
  intros Ht Hi Hv. pose proof (ok_len _ _ _ Ht) as Hl.
  eexists. split; [apply aset_in; lia|]. split; [by rewrite zlen_insert|].
  apply Forall_insert; [apply Ht|done].
Qed.

Lemma aget_values t i :
  ok t -> 0 <= i < FLANTERM_MAX_ESC_VALUES -> exists v, aget (esc_values t) i = Some v /\ word v.
Proof.
  intros Ht Hi. destruct (aget_in (esc_values t) i) as [v Hv].
  - by rewrite (ok_len _ _ _ Ht).
  - exists v. split; [done|]. eapply aget_Forall; [apply Ht|done].
Qed.

Lemma u32_word v : word (u32 v).
Proof. unfold word, u32. apply Z.mod_pos_bound. lia. Qed.

Lemma fill_values_ok n i v l :
  0 <= i -> i + Z.of_nat n <= FLANTERM_MAX_ESC_VALUES -> word v ->
  zlen l = FLANTERM_MAX_ESC_VALUES -> Forall word l ->
  exists l', fill_values n i v l = Some l' /\ zlen l' = FLANTERM_MAX_ESC_VALUES /\ Forall word l'.
Proof.
  revert i l. induction n as [|n IH]; intros i l Hi Hn Hv Hl Hf; cbn [fill_values]; [by exists l|].
  rewrite aset_in by lia. cbn [mbind option_bind].
  apply IH; [lia|lia|done|by rewrite zlen_insert|by apply Forall_insert].
Qed.

Lemma csi_digit_ok c t : ok t -> exists t', csi_digit c t = Some t' /\ ok t'.
Proof.
  intros Ht. unfold csi_digit. destruct (Z.eqb_spec (esc_values_i t) FLANTERM_MAX_ESC_VALUES) as [E|E];
    [by exists t|].
  pose proof (ok_count _ _ _ Ht) as Hc. assert (Hi : 0 <= esc_values_i t < FLANTERM_MAX_ESC_VALUES) by lia.
  destruct (aget_values t _ Ht Hi) as (v & -> & Hv). cbn [mbind option_bind].
  destruct (aset_values t _ (u32 (u32 (v * 10) + (c - ch "0"))) Ht Hi (u32_word _)) as (l & -> & Hl & Hf).
  cbn [mbind option_bind]. eexists. split; [done|].
  apply ok_esc_values; [|done|done]. clear Hl Hf l Hv v. destruct Ht as [[]]. constructor; [constructor|..]; cbn; bounds.
Qed.

Lemma csi_end_value_ok t : ok t -> ok (csi_end_value t).
Proof.
  intros Ht. unfold csi_end_value. destruct (rrr t) eqn:E; [|done].
  pose proof (ok_rrr _ _ _ Ht E) as Hi. pose proof (ok_count _ _ _ Ht) as Hc. bounds.
  rewrite u64_small by lia. destruct Ht as [[]]. constructor; [constructor|..]; cbn; bounds.
Qed.

Lemma csi_empty_value_ok t : ok t -> rrr t = false -> exists t', csi_empty_value t = Some t' /\ ok t'.
Proof.
  intros Ht Hr. unfold csi_empty_value.
  destruct (Z.eqb_spec (esc_values_i t) FLANTERM_MAX_ESC_VALUES) as [E|E]; [by exists t|].
  pose proof (ok_count _ _ _ Ht) as Hc. assert (Hi : 0 <= esc_values_i t < FLANTERM_MAX_ESC_VALUES) by lia.
  destruct (aset_values t _ 0 Ht Hi ltac:(bounds)) as (l & -> & Hl & Hf).
  cbn [mbind option_bind]. eexists. split; [done|]. bounds.
  rewrite u64_small by lia. destruct Ht as [[]]. constructor; [constructor|..]; cbn; bounds. congruence.
Qed.

Lemma csi_defaults_ok c t : ok t -> exists t', csi_defaults c t = Some t' /\ ok t'.
Proof.
  intros Ht. unfold csi_defaults. pose proof (ok_count _ _ _ Ht) as Hc.
  destruct (fill_values_ok (Z.to_nat (FLANTERM_MAX_ESC_VALUES - esc_values_i t)) (esc_values_i t)
    (if one_of c "JKq" then 0 else 1) (esc_values t)) as (l & -> & Hl & Hf);
    [lia|lia|destruct (one_of c "JKq"); bounds|apply Ht|apply Ht|].
  cbn [mbind option_bind]. eexists. split; [done|]. by apply ok_esc_values.
Qed.

Lemma start_sequence_ok t :
  ok t -> exists t',
    (l ← fill_values (Z.to_nat FLANTERM_MAX_ESC_VALUES) 0 0 (esc_values t);
     Some (set_control_sequence true (set_csi_unhandled false (set_rrr false
       (set_esc_values_i 0 (set_esc_values l t)))))) = Some t' /\ ok t'.
Proof.
  intros Ht. destruct (fill_values_ok (Z.to_nat FLANTERM_MAX_ESC_VALUES) 0 0 (esc_values t))
    as (l & -> & Hl & Hf); [lia|bounds|bounds|apply Ht|apply Ht|].
  cbn [mbind option_bind]. eexists. split; [done|].
  destruct Ht as [[]]. constructor; [constructor|..]; cbn; bounds.
Qed.

(** The values of case [r], after the two tests for zero. *)
Lemma margin_values t :
  ok t -> exists l v0 v1,
    (v0 ← aget (esc_values t) 0;
     l ← (if v0 =? 0 then aset (esc_values t) 0 1 else Some (esc_values t));
     v1 ← aget l 1;
     if v1 =? 0 then aset l 1 1 else Some l) = Some l /\
    zlen l = FLANTERM_MAX_ESC_VALUES /\ Forall word l /\
    aget l 0 = Some v0 /\ aget l 1 = Some v1 /\ 1 <= v0 < 2 ^ 32 /\ 1 <= v1 < 2 ^ 32.
Proof.
  intros Ht. destruct (aget_values t 0 Ht ltac:(bounds)) as (a & E0 & Ha). rewrite E0. cbn [mbind option_bind].
  pose proof (ok_len _ _ _ Ht) as Hl. pose proof (ok_values _ _ _ Ht) as Hf. unfold FLANTERM_MAX_ESC_VALUES in *.
  destruct (aget_values t 1 Ht ltac:(bounds)) as (b & E1 & Hb).
  assert (exists l, (if a =? 0 then aset (esc_values t) 0 1 else Some (esc_values t)) = Some l /\
    zlen l = 16 /\ Forall word l /\ (exists v0, aget l 0 = Some v0 /\ 1 <= v0 < 2 ^ 32) /\ aget l 1 = Some b)
    as (l & -> & Hl' & Hf' & (v0 & E0' & Hv0) & E1').
  { destruct (Z.eqb_spec a 0) as [->|Hne].
    - eexists. split; [apply aset_in; lia|]. rewrite zlen_insert, !aget_insert by lia. cbn.
      split_and!; [done|apply Forall_insert; [done|bounds]|exists 1; split; [done|lia]|done].
    - exists (esc_values t). split_and!; [done..| |done]. exists a. split; [done|]. bounds. }
  cbn [mbind option_bind]. rewrite E1'. cbn [mbind option_bind].
  destruct (Z.eqb_spec b 0) as [->|Hne].
  - eexists _, v0, 1. split; [apply aset_in; lia|]. rewrite zlen_insert, !aget_insert by lia. cbn.
    split_and!; [done|apply Forall_insert; [done|bounds]|done|done|lia|lia|lia|lia].
  - exists l, v0, b. bounds. split_and!; done || lia.
Qed.

Lemma csi_set_margins_ok t : ok t -> exists t', csi_set_margins t = Some t' /\ ok t'.
Proof.
  intros Ht. destruct (margin_values t Ht) as (l & v0 & v1 & E & Hl & Hf & E0 & E1 & H0 & H1).
  unfold csi_set_margins. destruct (aget (esc_values t) 0) as [a|]; [|done]. cbn [mbind option_bind] in *.
  destruct (if a =? 0 then _ else _) as [l0|]; [|done]. cbn [mbind option_bind] in *.
  destruct (aget l0 1) as [b|]; [|done]. cbn [mbind option_bind] in *. rewrite E. cbn [mbind option_bind].
  rewrite E0, E1. cbn [mbind option_bind]. eexists. split; [done|].
  rewrite u32_small by lia. apply (ok_esc_values t l) in Ht; [|done|done].
  set (u := set_esc_values l t) in *. change (esc_values_i t) with (esc_values_i u).
  change (rows t) with (rows u). clearbody u. pose proof (g_rows _ _ _ (ok_geometry _ _ _ Ht)) as Hr.
  set (top := if 0 <? esc_values_i u then v0 - 1 else 0).
  set (bottom := if 1 <? esc_values_i u then v1 else rows u).
  assert (Htop : 0 <= top) by (unfold top; destruct (0 <? esc_values_i u); lia).
  assert (Hbot : 1 <= bottom < 2 ^ 32) by (unfold bottom; destruct (1 <? esc_values_i u); lia).
  clearbody top bottom. rewrite (u64_small (bottom - 1)) by lia.
  destruct ((rows u <=? top) || (rows u <? bottom) || (bottom - 1 <=? top)) eqn:Ec;
    destruct Ht as [[]]; (constructor; [constructor|..]); cbn; bounds.
Qed.

Lemma select_charset_ok c t :
  ok t -> g_select t <> 0 -> exists t', select_charset c t = Some t' /\ ok t'.
Proof.
  intros Ht Hg. unfold select_charset. pose proof (ok_select _ _ _ Ht). pose proof (ok_charsets _ _ _ Ht) as Hc.
  rewrite u8_small by lia.
  assert (exists l, (if c =? ch "B" then aset (charsets t) (g_select t - 1) CHARSET_DEFAULT
       else if c =? ch "0" then aset (charsets t) (g_select t - 1) CHARSET_DEC_SPECIAL
       else Some (charsets t)) = Some l /\ zlen l = 2) as (l & -> & Hl).
  { rewrite !aset_in by lia. repeat case_match; eexists; (split; [done|]); by rewrite ?zlen_insert. }
  cbn [mbind option_bind]. eexists. split; [done|].
  destruct Ht as [[]]. constructor; [constructor|..]; cbn; bounds.
Qed.

Lemma reinit_ok t : ok t -> ok (flanterm_context_reinit t).
Proof. revert t. ok_upd. Qed.

(** The bits that a continuation byte adds. *)
Lemma land_ones_shift c k s :
  0 <= k -> 0 <= s -> 0 <= Z.shiftl (Z.land c (Z.ones k)) s < 2 ^ (k + s).
Proof.
  intros Hk Hs. rewrite Z.land_ones, Z.shiftl_mul_pow2, Z.pow_add_r by lia.
  pose proof (Z.mod_pos_bound c (2 ^ k) ltac:(lia)). nia.
Qed.

Definition continue_code_point (c : Z) (t : flanterm_context) : flanterm_context :=
  let r := u64 (unicode_remaining t - 1) in
  set_code_point (Z.lor (code_point t) (u64 (Z.shiftl (Z.land c 0x3f) (6 * r))))
    (set_unicode_remaining r t).

Lemma continue_code_point_ok c t : ok t -> unicode_remaining t <> 0 -> ok (continue_code_point c t).
Proof.
  intros Ht Hu. unfold continue_code_point. pose proof (ok_unicode _ _ _ Ht). pose proof (ok_code_point _ _ _ Ht).
  rewrite (u64_small (unicode_remaining t - 1)) by lia.
  pose proof (land_ones_shift c 6 (6 * (unicode_remaining t - 1)) ltac:(lia) ltac:(lia)) as Hs.
  change (Z.ones 6) with 0x3f in Hs.
  assert (2 ^ (6 + 6 * (unicode_remaining t - 1)) <= 2 ^ 18) by (apply Z.pow_le_mono_r; lia).
  rewrite u64_small by lia.
  pose proof (lor_range (code_point t) (Z.shiftl (Z.land c 63) (6 * (unicode_remaining t - 1))) 21
    ltac:(lia) ltac:(lia) ltac:(lia)).
  destruct Ht as [[]]. constructor; [constructor|..]; cbn; bounds.
Qed.

Lemma start_code_point_ok v n t :
  0 <= v < 2 ^ 21 -> 0 <= n <= 3 -> ok t -> ok (set_code_point v (set_unicode_remaining n t)).
Proof. intros Hv Hn. revert t. ok_upd. Qed.
End context.

(** ** The functions of flanterm.c *)

Section parser.
Context {B1 B2 : Type} (F1 : flanterm_ops B1) (F2 : flanterm_ops B2).
Context (W H : Z) (R : B1 -> B2 -> Prop) {BS : backend_sim F1 F2 W H R}.
Abbreviation ok := (ctx_ok W H).
Abbreviation sim := (FlantermSim.sim W H R).

Lemma dims : 1 <= W < 2 ^ 31 /\ 1 <= H < 2 ^ 31.
Proof. apply (@sim_dims _ _ F1 F2 W H R BS). Qed.

Lemma sim_forget {A} t (m1 : T B1 A) (m2 : T B2 A) Q :
  ok t -> sim m1 m2 Q -> sim_from R (eq t) ok m1 m2 Q.
Proof. intros Ht Hm t1 t2 [Hc Hl Hb He]. apply Hm. constructor; [done..|by rewrite <- He]. Qed.

Lemma sim_from_if {A} I J (b : bool) (m1 : T B1 A) m2 n1 n2 Q :
  (b = true -> sim_from R I J m1 m2 Q) -> (b = false -> sim_from R I J n1 n2 Q) ->
  sim_from R I J (if b then m1 else n1) (if b then m2 else n2) Q.
Proof. destruct b; auto. Qed.

(** *** The pointers *)

Lemma s_get_cursor_pos :
  sim (get_cursor_pos F1) (get_cursor_pos F2) (fun p => in_range W p.1 /\ in_range H p.2).
Proof.
  intros t1 t2 Ht. destruct Ht as [Hc Hl Hb Ho].
  destruct (sim_get_cursor_pos F1 F2 W H R (t_ctx t1) (t_be t1) (t_be t2) (ok_geometry _ _ _ Ho) Hb) as (E & Hx & Hy).
  unfold get_cursor_pos, reads. rewrite <- Hc, <- E. eexists _, _, _. split_and!; [done..| |done|done].
  by constructor.
Qed.

Lemma s_set_cursor_pos x y :
  0 <= x < 2 ^ 64 -> 0 <= y < 2 ^ 64 -> sim (set_cursor_pos F1 x y) (set_cursor_pos F2 x y) unitP.
Proof. intros Hx Hy. by apply (sim_op W H R _ _ _ (x, y) (sim_set_cursor_pos F1 F2 W H R)). Qed.

Lemma s_raw_putchar c : byte c -> sim (raw_putchar F1 c) (raw_putchar F2 c) unitP.
Proof. apply (sim_op W H R _ _ _ c (sim_raw_putchar F1 F2 W H R)). Qed.

Lemma s_move_character nx ny ox oy :
  0 <= nx -> 0 <= ny -> 0 <= ox -> 0 <= oy ->
  sim (move_character F1 nx ny ox oy) (move_character F2 nx ny ox oy) unitP.
Proof. intros. by apply (sim_op W H R _ _ _ ((nx, ny), (ox, oy)) (sim_move_character F1 F2 W H R)). Qed.

Lemma s_esc i : 0 <= i < FLANTERM_MAX_ESC_VALUES -> sim (esc i) (esc i) word.
Proof.
  intros Hi. eapply sim_bind; [apply sim_context|]. intros t Ht.
  apply sim_tget. by apply (aget_values W H).
Qed.

Lemma s_set_esc i v :
  0 <= i < FLANTERM_MAX_ESC_VALUES -> word v -> sim (set_esc i v) (set_esc i v) unitP.
Proof.
  intros Hi Hv. apply sim_updo. intros t Ht.
  destruct (aset_values W H t i v Ht Hi Hv) as (l & -> & Hl & Hf). cbn [mbind option_bind].
  eexists. split; [done|]. by apply ok_esc_values.
Qed.

Lemma u64_ge v : 0 <= u64 v.
Proof. apply u64_range. Qed.

(** What the invariant says of the numbers of a context that was read. *)
Ltac facts :=
  repeat match goal with
  | Ht : ctx_ok _ _ ?t |- _ =>
    lazymatch goal with
    | _ : rows t = _ |- _ => fail
    | _ => pose proof (g_rows _ _ _ (ok_geometry _ _ _ Ht)); pose proof (g_cols _ _ _ (ok_geometry _ _ _ Ht));
           pose proof (g_top _ _ _ (ok_geometry _ _ _ Ht)); pose proof (g_bottom _ _ _ (ok_geometry _ _ _ Ht));
           pose proof (ok_count _ _ _ Ht); pose proof (ok_cursor _ _ _ Ht)
    end
  end; pose proof dims.

(** One step of a proof that two runs are related: the rule for the head of
    the program, with its side conditions left to [bounds]. *)
Ltac side :=
  match goal with
  | |- word (u32 _) => apply u32_word
  | |- 0 <= u64 _ < _ => apply u64_range
  | |- 0 <= u64 _ => apply u64_ge
  | |- unitP _ => exact I
  | |- True => exact I
  | |- byte (ch _) => vm_compute; intuition discriminate
  | _ => facts; bounds
  end.

Ltac head_step :=
  lazymatch goal with
  | |- FlantermSim.sim _ _ _ (tbind _ _) _ _ => eapply sim_bind; [|intros ? ?; cbv beta]
  | |- FlantermSim.sim _ _ _ (tret _) _ _ => apply sim_ret; side
  | |- FlantermSim.sim _ _ _ context _ _ => apply sim_context
  | |- FlantermSim.sim _ _ _ (if _ then _ else _) _ _ => apply sim_if; intros ?
  | |- FlantermSim.sim _ _ _ (twhen _ _) _ _ => apply sim_when; intros ?
  | |- FlantermSim.sim _ _ _ (upd _) _ _ => apply sim_upd; try solve [ok_upd]
  | |- FlantermSim.sim _ _ _ (notify _ _ _ _) _ _ => apply sim_notify
  | |- FlantermSim.sim _ _ _ (esc _) _ _ => apply s_esc; side
  | |- FlantermSim.sim _ _ _ (set_esc _ _) _ _ => apply s_set_esc; side
  | |- FlantermSim.sim _ _ _ (get_cursor_pos _) _ _ => apply s_get_cursor_pos
  | |- FlantermSim.sim _ _ _ (set_cursor_pos _ _ _) _ _ => apply s_set_cursor_pos; try solve [side]
  | |- FlantermSim.sim _ _ _ (raw_putchar _ _) _ _ => apply s_raw_putchar; try solve [side]
  | |- FlantermSim.sim _ _ _ (move_character _ _ _ _ _) _ _ => apply s_move_character; try solve [side]
  | |- FlantermSim.sim _ _ _ (for_up _ _ _) _ _ => apply sim_for_up; intros ? ?
  | |- FlantermSim.sim _ _ _ (match ?p with (_, _) => _ end) _ _ => destruct p
  end.
Ltac run := repeat head_step.

(** A call of a pointer that takes no argument, or a colour. *)
Ltac call_op_with l :=
  first [ apply (sim_op W H R _ _ _ tt l); exact I
        | apply (sim_op W H R _ _ _ _ l); solve [side] ].

(** *** Colours *)

Lemma s_swap_palette : sim (call (op_swap_palette F1)) (call (op_swap_palette F2)) unitP.
Proof. call_op_with (sim_swap_palette F1 F2 W H R). Qed.
Lemma s_fg_default : sim (call (op_set_text_fg_default F1)) (call (op_set_text_fg_default F2)) unitP.
Proof. call_op_with (sim_fg_default F1 F2 W H R). Qed.
Lemma s_bg_default : sim (call (op_set_text_bg_default F1)) (call (op_set_text_bg_default F2)) unitP.
Proof. call_op_with (sim_bg_default F1 F2 W H R). Qed.
Lemma s_fg_default_bright :
  sim (call (op_set_text_fg_default_bright F1)) (call (op_set_text_fg_default_bright F2)) unitP.
Proof. call_op_with (sim_fg_default_bright F1 F2 W H R). Qed.
Lemma s_bg_default_bright :
  sim (call (op_set_text_bg_default_bright F1)) (call (op_set_text_bg_default_bright F2)) unitP.
Proof. call_op_with (sim_bg_default_bright F1 F2 W H R). Qed.

Lemma s_fg col : in_range 8 col ->
  sim (call (fun t => op_set_text_fg F1 t col)) (call (fun t => op_set_text_fg F2 t col)) unitP.
Proof. intros. call_op_with (sim_fg F1 F2 W H R). Qed.
Lemma s_bg col : in_range 8 col ->
  sim (call (fun t => op_set_text_bg F1 t col)) (call (fun t => op_set_text_bg F2 t col)) unitP.
Proof. intros. call_op_with (sim_bg F1 F2 W H R). Qed.
Lemma s_fg_bright col : in_range 8 col ->
  sim (call (fun t => op_set_text_fg_bright F1 t col)) (call (fun t => op_set_text_fg_bright F2 t col)) unitP.
Proof. intros. call_op_with (sim_fg_bright F1 F2 W H R). Qed.
Lemma s_bg_bright col : in_range 8 col ->
  sim (call (fun t => op_set_text_bg_bright F1 t col)) (call (fun t => op_set_text_bg_bright F2 t col)) unitP.
Proof. intros. call_op_with (sim_bg_bright F1 F2 W H R). Qed.
Lemma s_rgb (fg : bool) v :
  sim (call (fun t => (if fg then op_set_text_fg_rgb else op_set_text_bg_rgb) F1 t v))
      (call (fun t => (if fg then op_set_text_fg_rgb else op_set_text_bg_rgb) F2 t v)) unitP.
Proof. destruct fg; [call_op_with (sim_fg_rgb F1 F2 W H R)|call_op_with (sim_bg_rgb F1 F2 W H R)]. Qed.

Create HintDb sim.
#[local] Hint Resolve s_swap_palette s_fg_default s_bg_default s_fg_default_bright s_bg_default_bright
  s_fg s_bg s_fg_bright s_bg_bright s_rgb : sim.

(** A colour that is set is one of the eight. *)
Lemma colour_set v : colour v -> negb (v =? SIZE_MAX) = true -> in_range 8 v.
Proof. intros [->|?]; [by vm_compute|done]. Qed.

#[local] Hint Resolve colour_set ok_primary ok_bg : sim.
#[local] Hint Extern 2 (in_range _ _) => solve [bounds] : sim.

Ltac colours := repeat (head_step || solve [eauto with sim]).

Lemma s_sgr_def : sim (sgr_def F1) (sgr_def F2) unitP.
Proof. unfold sgr_def. colours. Qed.

Lemma s_sgr_set_fg col : in_range 8 col -> sim (sgr_set_fg F1 col) (sgr_set_fg F2 col) unitP.
Proof. intros. unfold sgr_set_fg. colours. Qed.
Lemma s_sgr_set_bg col : in_range 8 col -> sim (sgr_set_bg F1 col) (sgr_set_bg F2 col) unitP.
Proof. intros. unfold sgr_set_bg. colours. Qed.
Lemma s_sgr_set_fg_bright col :
  in_range 8 col -> sim (sgr_set_fg_bright F1 col) (sgr_set_fg_bright F2 col) unitP.
Proof. apply s_fg_bright. Qed.
Lemma s_sgr_set_bg_bright col :
  in_range 8 col -> sim (sgr_set_bg_bright F1 col) (sgr_set_bg_bright F2 col) unitP.
Proof. apply s_bg_bright. Qed.

Lemma s_sgr_bold : sim (sgr_bold F1) (sgr_bold F2) unitP.
Proof. unfold sgr_bold. colours. Qed.
Lemma s_sgr_bg_bold : sim (sgr_bg_bold F1) (sgr_bg_bold F2) unitP.
Proof. unfold sgr_bg_bold. colours. Qed.
Lemma s_sgr_unbold : sim (sgr_unbold F1) (sgr_unbold F2) unitP.
Proof. unfold sgr_unbold. colours. Qed.
Lemma s_sgr_bg_unbold : sim (sgr_bg_unbold F1) (sgr_bg_unbold F2) unitP.
Proof. unfold sgr_bg_unbold. colours. Qed.
Lemma s_sgr_default_fg : sim (sgr_default_fg F1) (sgr_default_fg F2) unitP.
Proof. unfold sgr_default_fg. colours. Qed.
Lemma s_sgr_default_bg : sim (sgr_default_bg F1) (sgr_default_bg F2) unitP.
Proof. unfold sgr_default_bg. colours. Qed.

#[local] Hint Resolve s_sgr_def s_sgr_set_fg s_sgr_set_bg s_sgr_set_fg_bright s_sgr_set_bg_bright
  s_sgr_bold s_sgr_bg_bold s_sgr_unbold s_sgr_bg_unbold s_sgr_default_fg s_sgr_default_bg : sim.

(** The index after a round of [sgr] is beyond the one before. *)
Definition advances (i : Z) (s : sgr_step) : Prop :=
  match s with SgrNext i' => i < i' < 2 ^ 64 | SgrOut => True end.

Lemma col256_in i : 0 <= i < 240 -> exists v, aget col256 i = Some v /\ True.
Proof. intros Hi. destruct (aget_in col256 i) as [v Hv]; [by vm_compute zlen|]. by exists v. Qed.

Lemma s_sgr_extended fg i :
  0 < i <= 16 -> sim (sgr_extended F1 fg i) (sgr_extended F2 fg i) (advances (i - 1)).
Proof.
  intros Hi. unfold sgr_extended. eapply sim_bind; [apply sim_context|]. intros t Ht. cbv beta.
  pose proof (ok_count _ _ _ Ht). bounds. rewrite !(u64_small (i + _)) by lia.
  apply sim_if; intros Hc; [by apply sim_ret|].
  assert (i < 16) by lia.
  eapply sim_bind; [apply s_esc; bounds|]. intros v Hv. cbv beta.
  apply sim_if; intros _; [|apply sim_if; intros _].
  - apply sim_if; intros Hc'; [by apply sim_ret|].
    do 3 (eapply sim_bind; [apply s_esc; bounds|]; intros ? ?; cbv beta).
    eapply sim_bind; [apply s_rgb|]. intros _ _. apply sim_ret. unfold advances. lia.
  - apply sim_if; intros Hc'; [by apply sim_ret|].
    eapply sim_bind; [apply s_esc; bounds|]. intros col Hcol. cbv beta.
    eapply sim_bind; [|intros _ _; apply sim_ret; unfold advances; lia]. bounds.
    apply sim_if; intros ?; [destruct fg; [apply s_fg|apply s_bg]; bounds|].
    apply sim_if; intros ?; [destruct fg; [apply s_fg_bright|apply s_bg_bright]; bounds|].
    apply sim_if; intros ?; [|by apply sim_ret].
    eapply sim_bind; [apply sim_tget, col256_in; lia|]. intros ? _. apply s_rgb.
  - apply sim_ret. unfold advances. lia.
Qed.

(** A round that ends with [continue]. *)
Lemma s_continue i (m1 : T B1 unit) (m2 : T B2 unit) :
  0 <= i < 16 -> sim m1 m2 unitP ->
  sim (m1;;; tret (SgrNext (u64 (i + 1)))) (m2;;; tret (SgrNext (u64 (i + 1)))) (advances i).
Proof.
  intros Hi Hm. eapply sim_bind; [apply Hm|]. intros _ _. apply sim_ret.
  rewrite u64_small by lia. unfold advances. lia.
Qed.

Lemma s_sgr_body i : 0 <= i < 16 -> sim (sgr_body F1 i) (sgr_body F2 i) (advances i).
Proof.
  intros Hi. unfold sgr_body. eapply sim_bind; [apply s_esc; bounds|]. intros v Hv. cbv beta zeta.
  eapply sim_bind; [apply sim_context|]. intros t Ht. cbv beta.
  repeat (apply sim_if; intros ?; [try (apply s_continue; [done|]; solve [colours])|]).
  - rewrite u64_small by lia. eapply sim_weaken; [apply s_sgr_extended; lia|].
    intros s. by replace (i + 1 - 1) with i by lia.
  - apply sim_ret. rewrite u64_small by lia. unfold advances. lia.
Qed.

Lemma s_sgr_loop fuel i :
  0 <= i < 2 ^ 64 -> 16 - i <= Z.of_nat fuel -> sim (sgr_loop F1 fuel i) (sgr_loop F2 fuel i) unitP.
Proof.
  revert i. induction fuel as [|fuel IH]; intros i Hi Hf; cbn [sgr_loop];
    (eapply sim_bind; [apply sim_context|]; intros t Ht; cbv beta);
    pose proof (ok_count _ _ _ Ht) as Hc; unfold FLANTERM_MAX_ESC_VALUES in Hc;
    apply sim_if; intros Hi'; try (by apply sim_ret); [lia|].
  eapply sim_bind; [apply s_sgr_body; lia|]. intros [i'|] Hs; cbn in Hs; [|by apply sim_ret].
  apply IH; lia.
Qed.

Lemma s_sgr : sim (sgr F1) (sgr F2) unitP.
Proof. unfold sgr. colours. apply s_sgr_loop; [lia|]. vm_compute. discriminate. Qed.

(** *** Modes and private sequences *)

Lemma s_dec_private_parse c : sim (dec_private_parse c) (dec_private_parse c) unitP.
Proof. unfold dec_private_parse. run. Qed.
Lemma s_linux_private_parse : sim linux_private_parse linux_private_parse unitP.
Proof. unfold linux_private_parse. run. Qed.
Lemma s_mode_toggle c : sim (mode_toggle c) (mode_toggle c) unitP.
Proof. unfold mode_toggle. run. Qed.
Lemma s_osc_parse c : sim (osc_parse c) (osc_parse c) (fun _ => True).
Proof. unfold osc_parse. run. Qed.

(** *** Control sequences *)

Lemma s_csi_up x y : in_range W x -> in_range H y -> sim (csi_up F1 x y) (csi_up F2 x y) unitP.
Proof.
  intros. unfold csi_up. run. repeat case_match; try apply u64_range; facts; lia.
Qed.

Lemma s_csi_down x y : in_range W x -> in_range H y -> sim (csi_down F1 x y) (csi_down F2 x y) unitP.
Proof.
  intros. unfold csi_down. run. repeat case_match; apply u64_range.
Qed.

Lemma s_csi_right x y : in_range W x -> in_range H y -> sim (csi_right F1 x y) (csi_right F2 x y) unitP.
Proof. intros. unfold csi_right. run. Qed.
Lemma s_csi_left x y : in_range W x -> in_range H y -> sim (csi_left F1 x y) (csi_left F2 x y) unitP.
Proof. intros. unfold csi_left. run. Qed.
Lemma s_csi_row x : in_range W x -> sim (csi_row F1 x) (csi_row F2 x) unitP.
Proof. intros. unfold csi_row. run. Qed.
Lemma s_csi_column y : in_range H y -> sim (csi_column F1 y) (csi_column F2 y) unitP.
Proof. intros. unfold csi_column. run. Qed.
Lemma s_csi_position : sim (csi_position F1) (csi_position F2) unitP.
Proof. unfold csi_position. run. Qed.

Lemma s_scroll : sim (call (op_scroll F1)) (call (op_scroll F2)) unitP.
Proof. call_op_with (sim_scroll F1 F2 W H R). Qed.
Lemma s_revscroll : sim (call (op_revscroll F1)) (call (op_revscroll F2)) unitP.
Proof. call_op_with (sim_revscroll F1 F2 W H R). Qed.
Lemma s_clear mv : sim (call (fun t => op_clear F1 t mv)) (call (fun t => op_clear F2 t mv)) unitP.
Proof. call_op_with (sim_clear F1 F2 W H R). Qed.
Lemma s_flush : sim (call (op_double_buffer_flush F1)) (call (op_double_buffer_flush F2)) unitP.
Proof. call_op_with (sim_flush F1 F2 W H R). Qed.
Lemma s_save_state : sim (call (op_save_state F1)) (call (op_save_state F2)) unitP.
Proof. call_op_with (sim_save_state F1 F2 W H R). Qed.
Lemma s_restore_state : sim (call (op_restore_state F1)) (call (op_restore_state F2)) unitP.
Proof. call_op_with (sim_restore_state F1 F2 W H R). Qed.

Lemma s_csi_scroll_up : sim (csi_scroll_up F1) (csi_scroll_up F2) unitP.
Proof. unfold csi_scroll_up. run. apply s_scroll. Qed.

(** While lines are inserted, the top margin is the row of the cursor, which
    may lie below the bottom margin. *)
Lemma s_csi_insert_lines y : in_range H y -> sim (csi_insert_lines F1 y) (csi_insert_lines F2 y) unitP.
Proof.
  intros Hy. unfold csi_insert_lines. apply sim_context_eq. intros t Ht. cbv beta zeta.
  set (J := fun u => u = set_scroll_top_margin y t).
  eapply (sim_from_bind R (eq t) J); [apply sim_from_upd; intros u <-; reflexivity|]. intros _ _.
  eapply (sim_from_bind R J J ok _ _ _ _ (fun _ => True)).
  { intros t1 t2 [Hc Hl Hb Hj]. unfold esc, tbind, context, tget. rewrite <- Hc.
    destruct (aget_values W H t 0 Ht ltac:(bounds)) as (v & Hv & _).
    unfold J in Hj. rewrite Hj. cbn [esc_values set_scroll_top_margin]. rewrite Hv. cbn.
    by exists v, t1, t2. }
  intros v _. cbv beta.
  eapply (sim_from_bind R J J ok _ _ _ _ unitP).
  - apply sim_from_for_n. intros _ _. apply sim_from_call. intros u b1 b2 -> Hb.
    apply (sim_revscroll F1 F2 W H R _ tt); [|done|done]. destruct Ht as [[] _]. by constructor.
  - intros _ _. apply sim_from_upd. intros u ->. destruct Ht as [[]]. constructor; [constructor|..]; cbn; bounds.
Qed.

Lemma s_csi_report x y : sim (csi_report x y) (csi_report x y) unitP.
Proof. unfold csi_report. run. Qed.

Lemma byte_ch s : byte (ch s).
Proof.
  unfold ch, byte. destruct s as [|a s]; cbn; [lia|].
  pose proof (Ascii.N_ascii_bounded a). lia.
Qed.

Lemma s_blank : sim (raw_putchar F1 (ch " ")) (raw_putchar F2 (ch " ")) unitP.
Proof. apply s_raw_putchar, byte_ch. Qed.

Lemma s_erase_row n xc yc x y :
  in_range W x -> in_range H y -> sim (erase_row F1 n xc yc x y) (erase_row F2 n xc yc x y) (fun _ => True).
Proof.
  intros Hx Hy. revert xc. induction n as [|n IH]; intros xc; cbn [erase_row]; run. apply IH.
Qed.

Lemma s_erase_rows n yc x y w :
  in_range W x -> in_range H y -> sim (erase_rows F1 n yc x y w) (erase_rows F2 n yc x y w) unitP.
Proof.
  intros Hx Hy. revert yc. induction n as [|n IH]; intros yc; cbn [erase_rows]; run.
  - by apply s_erase_row.
  - apply IH.
Qed.

#[local] Hint Resolve s_scroll s_revscroll s_clear s_flush s_save_state s_restore_state s_blank
  s_csi_insert_lines s_csi_report s_erase_row s_erase_rows : sim.

Lemma s_csi_erase_display x y :
  in_range W x -> in_range H y -> sim (csi_erase_display F1 x y) (csi_erase_display F2 x y) unitP.
Proof. intros. unfold csi_erase_display. colours. Qed.

Lemma s_shift_right x y f1 f2 t :
  ok t -> in_range W x -> in_range H y ->
  (forall i, in_range W i -> sim (f1 i) (f2 i) unitP) ->
  sim (down_to (Z.to_nat (cols t)) (u64 (cols t - 1)) x f1)
      (down_to (Z.to_nat (cols t)) (u64 (cols t - 1)) x f2) unitP.
Proof.
  intros Ht Hx Hy Hf. facts. bounds. rewrite u64_small by lia.
  apply sim_down_to; [lia..|]. intros j Hj. apply Hf. lia.
Qed.

Lemma s_csi_insert_chars x y :
  in_range W x -> in_range H y -> sim (csi_insert_chars F1 x y) (csi_insert_chars F2 x y) unitP.
Proof.
  intros Hx Hy. unfold csi_insert_chars. head_step; [run|]. head_step; [|run].
  eapply s_shift_right; [done..|]. intros i Hi. colours.
Qed.

Lemma s_csi_erase_chars x y :
  in_range W x -> in_range H y -> sim (csi_erase_chars F1 x y) (csi_erase_chars F2 x y) unitP.
Proof. intros. unfold csi_erase_chars. colours. Qed.

Lemma s_csi_delete_chars x y :
  in_range W x -> in_range H y -> sim (csi_delete_chars F1 x y) (csi_delete_chars F2 x y) unitP.
Proof.
  intros. unfold csi_delete_chars. run; try by apply s_csi_erase_chars. pose proof (u64_ge (x + a)). lia.
Qed.

Lemma s_csi_save_cursor : sim (csi_save_cursor F1) (csi_save_cursor F2) unitP.
Proof.
  unfold csi_save_cursor. head_step; [run|]. destruct a as [x y]. cbn in *. pose proof dims.
  apply sim_upd. ok_upd.
Qed.

Lemma s_csi_restore_cursor : sim (csi_restore_cursor F1) (csi_restore_cursor F2) unitP.
Proof. unfold csi_restore_cursor. run; facts; lia. Qed.

Lemma s_csi_erase_line x y :
  in_range W x -> in_range H y -> sim (csi_erase_line F1 x y) (csi_erase_line F2 x y) unitP.
Proof. intros. unfold csi_erase_line. colours. Qed.

Lemma s_csi_set_margins : sim (updo csi_set_margins) (updo csi_set_margins) unitP.
Proof. apply sim_updo. intros t. apply csi_set_margins_ok; apply dims. Qed.

#[local] Hint Resolve s_csi_up s_csi_down s_csi_right s_csi_left s_csi_row s_csi_column s_csi_position
  s_csi_scroll_up s_csi_erase_display s_csi_insert_chars s_csi_erase_chars s_csi_delete_chars
  s_csi_save_cursor s_csi_restore_cursor s_csi_erase_line s_csi_set_margins s_sgr s_mode_toggle
  s_linux_private_parse : sim.

Lemma s_csi_switch c x y :
  in_range W x -> in_range H y -> sim (csi_switch F1 c x y) (csi_switch F2 c x y) (fun _ => True).
Proof.
  intros Hx Hy. pose proof dims. unfold csi_switch.
  repeat (apply sim_if; intros ?; [solve [colours]|]). run.
Qed.

Lemma s_cleanup : sim cleanup cleanup unitP.
Proof. unfold cleanup. run. Qed.

Lemma s_csi_final c : sim (csi_final F1 c) (csi_final F2 c) unitP.
Proof.
  unfold csi_final. eapply sim_bind; [apply sim_updo, csi_defaults_ok|]. intros _ _.
  head_step; [run|]. head_step.
  - head_step; [apply s_dec_private_parse|apply s_cleanup].
  - do 2 (head_step; [run|]). destruct a1 as [x y]. head_step.
    + run. apply s_cleanup.
    + head_step; [cbn in *; apply s_csi_switch; tauto|]. destruct a1; run. apply s_cleanup.
Qed.

Lemma s_control_sequence_parse c : sim (control_sequence_parse F1 c) (control_sequence_parse F2 c) unitP.
Proof.
  unfold control_sequence_parse. apply sim_context_eq. intros t Ht.
  repeat (apply sim_from_if; intros ?).
  - apply sim_forget; [done|]. run. apply s_cleanup.
  - apply sim_forget; [done|]. run.
  - apply sim_forget; [done|]. apply sim_updo, csi_digit_ok.
  - apply sim_forget; [done|]. head_step; [apply sim_upd, csi_end_value_ok|].
    head_step; [run|apply s_csi_final].
  - apply sim_from_updo. intros u <-. by apply csi_empty_value_ok.
  - apply sim_forget; [done|]. apply s_csi_final.
Qed.

(** *** Escape sequences *)

Lemma s_restore : sim (restore_state F1) (restore_state F2) unitP.
Proof. unfold restore_state. colours. Qed.
Lemma s_save : sim (save_state F1) (save_state F2) unitP.
Proof. unfold save_state. colours. Qed.

Lemma s_line_feed x y :
  in_range W x -> in_range H y -> sim (line_feed F1 x y) (line_feed F2 x y) unitP.
Proof. intros. unfold line_feed. colours. Qed.

Lemma s_finish (m1 : T B1 unit) (m2 : T B2 unit) :
  sim m1 m2 unitP -> sim (m1;;; upd (set_escape false)) (m2;;; upd (set_escape false)) unitP.
Proof. intros Hm. eapply sim_bind; [apply Hm|]. intros _ _. run. Qed.

Lemma g_select_range c : one_of c "()" = true -> 0 <= u8 (c - 39) <= 2.
Proof.
  unfold one_of. change (cstr "()") with [40; 41]. cbn [existsb]. intros Hc. assert (c = 40 \/ c = 41) as [->| ->] by lia; by vm_compute.
Qed.

#[local] Hint Resolve s_restore s_save s_line_feed : sim.

Lemma s_escape_switch c x y :
  in_range W x -> in_range H y -> sim (escape_switch F1 c x y) (escape_switch F2 c x y) unitP.
Proof.
  intros Hx Hy. assert (in_range W 0) by (pose proof dims; bounds). unfold escape_switch.
  apply sim_if; intros ?; [run|]. apply sim_if; intros ?; [apply sim_updo, start_sequence_ok|].
  do 2 (apply sim_if; intros ?; [apply s_finish; solve [colours]|]).
  apply sim_if; intros ?.
  { apply s_finish. eapply sim_bind; [apply sim_upd, reinit_ok; apply dims|]. intros _ _. apply s_clear. }
  repeat (apply sim_if; intros ?; [apply s_finish; try solve [colours]|]).
  - pose proof (g_select_range c ltac:(done)). apply sim_upd. ok_upd.
  - apply s_finish. run.
Qed.

Lemma s_escape_parse c : sim (escape_parse F1 c) (escape_parse F2 c) unitP.
Proof.
  unfold escape_parse. do 2 (head_step; [run|]). eapply (sim_bind W H R _ _ _ _ (fun _ => True)).
  - apply sim_if; intros _; [apply s_osc_parse|by apply sim_ret].
  - intros d _. head_step; [run|]. head_step; [run|]. head_step; [apply s_control_sequence_parse|].
    head_step; [run|]. destruct a2 as [x y]. cbn in *; apply s_escape_switch; tauto.
Qed.

(** *** Characters *)

Lemma dec_special_glyphs : forallb (fun '(_, g) => (0 <=? g) && (g <? 256)) dec_special_cases = true.
Proof. vm_compute. reflexivity. Qed.

Lemma switch_byte cases c :
  forallb (fun '(_, g) => (0 <=? g) && (g <? 256)) cases = true ->
  switch cases c (-1) <> -1 -> byte (switch cases c (-1)).
Proof.
  intros Hg Hne. destruct (switch_in cases c (-1)) as [?|Hin]; [done|]. revert Hin.
  generalize (switch cases c (-1)). intros g Hin. rewrite forallb_forall in Hg.
  specialize (Hg _ (proj1 (list_elem_of_In _ _) Hin)). cbn beta iota in Hg. unfold byte. lia.
Qed.

Lemma s_dec_special_print c :
  sim (dec_special_print F1 c) (dec_special_print F2 c) (fun _ => True).
Proof.
  unfold dec_special_print. pose proof (switch_byte dec_special_cases c dec_special_glyphs) as Hb.
  revert Hb. generalize (switch dec_special_cases c (-1)). intros g Hb. cbv zeta.
  head_step; [run|]. head_step; [|run]. apply s_raw_putchar, Hb. lia.
Qed.

Lemma s_put_code_point : sim (put_code_point F1) (put_code_point F2) unitP.
Proof.
  unfold put_code_point. head_step; [run|]. cbv zeta.
  pose proof (unicode_to_cp437_glyph (code_point a)) as Hg. revert Hg.
  generalize (unicode_to_cp437 (code_point a)). intros g Hg. head_step.
  - eapply sim_bind; [apply sim_tget, mk_wcwidth_total|]. intros w Hw. cbv beta in *. run.
  - apply s_raw_putchar. bounds.
Qed.

Lemma s_put_plain c x y :
  in_range W x -> in_range H y -> byte c -> sim (put_plain F1 c x y) (put_plain F2 c x y) unitP.
Proof.
  intros Hx Hy Hc. unfold put_plain. head_step; [run|]. head_step.
  - head_step. eapply s_shift_right; [done..|]. intros i Hi. run.
  - eapply (sim_bind W H R _ _ _ _ (fun _ => True)).
    + apply sim_tget. destruct (aget_in (charsets a) (current_charset a)) as [v Hv].
      * rewrite (ok_charsets _ _ _ ltac:(done)). pose proof (ok_charset _ _ a ltac:(done)). lia.
      * by exists v.
    + intros cs _. eapply (sim_bind W H R _ _ _ _ (fun _ => True)).
      * head_step; [apply s_dec_special_print|run].
      * intros sp _. run.
Qed.

Lemma s_put_control c x y :
  in_range W x -> in_range H y -> byte c -> sim (put_control F1 c x y) (put_control F2 c x y) unitP.
Proof.
  intros Hx Hy Hc. unfold put_control. head_step; [run|]. pose proof dims.
  repeat head_step; try by apply s_put_plain. apply s_line_feed; [|done]. case_match; bounds.
Qed.

Lemma start_range c k s : 0 <= k -> 0 <= s -> k + s <= 21 -> 0 <= Z.shiftl (Z.land c (Z.ones k)) s < 2 ^ 21.
Proof.
  intros. pose proof (land_ones_shift c k s ltac:(done) ltac:(done)).
  assert (2 ^ (k + s) <= 2 ^ 21) by (apply Z.pow_le_mono_r; lia). lia.
Qed.

Lemma s_put_start c : byte c -> sim (put_start F1 c) (put_start F2 c) unitP.
Proof.
  intros Hc. unfold put_start. head_step.
  - repeat head_step; intros t; apply start_code_point_ok; try lia.
    + by apply (start_range c 5 6).
    + by apply (start_range c 4 12).
    + by apply (start_range c 3 18).
  - apply sim_context_eq. intros t Ht. repeat (apply sim_from_if; intros ?).
    + apply sim_forget; [done|]. apply s_escape_parse.
    + apply sim_from_updo. intros u <-. apply select_charset_ok; [done|lia].
    + apply sim_forget; [done|]. head_step; [run|]. destruct a as [x y]. cbn in *; apply s_put_control; tauto.
Qed.

Lemma s_flanterm_putchar c : byte c -> sim (flanterm_putchar F1 c) (flanterm_putchar F2 c) unitP.
Proof.
  intros Hc. unfold flanterm_putchar. apply sim_context_eq. intros t Ht.
  apply sim_from_if; intros ?; [|apply sim_from_if; intros ?; [apply sim_from_if; intros ?|]].
  - apply sim_forget; [done|]. run.
  - apply sim_forget; [done|]. head_step; [run|]. by apply s_put_start.
  - unfold put_continuation. eapply (sim_from_bind R (eq t) ok ok _ _ _ _ unitP).
    + apply sim_from_upd. intros u <-. apply (continue_code_point_ok W H c t); [done|lia].
    + intros _ _. apply (FlantermSim.sim_bind W H R _ _ _ _ ok); [apply sim_context|]. intros u Hu.
      head_step; [run|]. apply s_put_code_point.
  - apply sim_forget; [done|]. by apply s_put_start.
Qed.

Lemma s_flanterm_putchars buf : sim (flanterm_putchars F1 buf) (flanterm_putchars F2 buf) unitP.
Proof.
  induction buf as [|b buf IH]; cbn [flanterm_putchars]; [run|].
  head_step; [|apply IH]. apply s_flanterm_putchar. apply u8_range.
Qed.

(** Writing any bytes, on two backends that the interface relates. *)
Lemma s_flanterm_write buf : sim (flanterm_write F1 buf) (flanterm_write F2 buf) unitP.
Proof.
  unfold flanterm_write. head_step; [apply s_flanterm_putchars|]. head_step; [run|].
  head_step. apply s_flush.
Qed.
End parser.
