(* ===== verification/FlantermPlot.v ===== *)
(** * Drawing a character: the four [plot_char] functions of fb.c

    [plot_paints] shows that each of the four functions, under each of the four
    rotations, draws the glyph of its character into the cell it is given: every
    pixel of the cell gets the foreground or the background colour as the font
    says, the other pixels of the picture keep theirs, nothing outside of the
    frame buffer is written and no table is read out of bounds. *)

From S2P Require Import Prelude Memory Arrays Flanterm FlantermFb.

(** ** The picture *)

(** The number of pixels from one line of the frame buffer to the next, and
    the number of lines. *)
Definition stride (f : flanterm_fb_context) : Z := pitch f / 4.

Definition sideways (f : flanterm_fb_context) : bool :=
  (rotation f =? FLANTERM_FB_ROTATE_90) || (rotation f =? FLANTERM_FB_ROTATE_270).

Definition line_length (f : flanterm_fb_context) : Z := if sideways f then height f else width f.
Definition lines (f : flanterm_fb_context) : Z := if sideways f then width f else height f.

(** The pixels from the first to the last one of the picture. *)
Definition extent (f : flanterm_fb_context) : Z := (lines f - 1) * stride f + line_length f.

(** Where the frame buffer shows the pixel of column [X] and row [Y] of the
    picture. *)
Definition pix (f : flanterm_fb_context) (X Y : Z) : Z :=
  if rotation f =? FLANTERM_FB_ROTATE_90 then height f - 1 - Y + X * stride f
  else if rotation f =? FLANTERM_FB_ROTATE_180 then width f - 1 - X + (height f - 1 - Y) * stride f
  else if rotation f =? FLANTERM_FB_ROTATE_270 then Y + (width f - 1 - X) * stride f
  else X + Y * stride f.

Record picture_ok (f : flanterm_fb_context) : Prop := mk_picture_ok {
  pic_width : 0 < width f < 2 ^ 31;
  pic_height : 0 < height f < 2 ^ 31;
  pic_stride : line_length f <= stride f < 2 ^ 31;
  pic_base : 0 <= framebuffer f;
  pic_end : framebuffer f + 4 * extent f <= 2 ^ 64
}.

Definition in_picture (f : flanterm_fb_context) (X Y : Z) : Prop := 0 <= X < width f /\ 0 <= Y < height f.

(** The bytes of the frame buffer. *)
Definition in_framebuffer (f : flanterm_fb_context) (a : Z) : Prop :=
  framebuffer f <= a < framebuffer f + 4 * extent f.

Definition pixel (f : flanterm_fb_context) (m : mem) (X Y : Z) : Z :=
  load32 m (framebuffer f + 4 * pix f X Y).

Section picture.
Context (f : flanterm_fb_context) (Hf : picture_ok f).

Lemma pix_range X Y : in_picture f X Y -> 0 <= pix f X Y < extent f.
Proof.
  intros [HX HY]. destruct Hf as [? ? Hs _ _]. unfold pix, extent, line_length, lines, sideways in *.
  destruct (Z.eqb_spec (rotation f) FLANTERM_FB_ROTATE_90);
  destruct (Z.eqb_spec (rotation f) FLANTERM_FB_ROTATE_180);
  destruct (Z.eqb_spec (rotation f) FLANTERM_FB_ROTATE_270); cbn [orb] in *;
    unfold FLANTERM_FB_ROTATE_90, FLANTERM_FB_ROTATE_180, FLANTERM_FB_ROTATE_270 in *; nia.
Qed.

Lemma line_inj s a b a' b' : 0 <= a < s -> 0 <= a' < s -> a + b * s = a' + b' * s -> a = a' /\ b = b'.
Proof. intros Ha Ha' E. assert (b = b') by nia. subst. lia. Qed.

Lemma pix_inj X Y X' Y' :
  in_picture f X Y -> in_picture f X' Y' -> pix f X Y = pix f X' Y' -> X = X' /\ Y = Y'.
Proof.
  intros [HX HY] [HX' HY']. destruct Hf as [? ? Hs _ _]. unfold pix, line_length, sideways in *.
  destruct (Z.eqb_spec (rotation f) FLANTERM_FB_ROTATE_90);
  destruct (Z.eqb_spec (rotation f) FLANTERM_FB_ROTATE_180);
  destruct (Z.eqb_spec (rotation f) FLANTERM_FB_ROTATE_270); cbn [orb] in *;
    unfold FLANTERM_FB_ROTATE_90, FLANTERM_FB_ROTATE_180, FLANTERM_FB_ROTATE_270 in *;
    (lia || (intros [E1 E2]%line_inj; lia)).
Qed.

Lemma pixel_addr_small X Y :
  in_picture f X Y -> u64 (framebuffer f + 4 * pix f X Y) = framebuffer f + 4 * pix f X Y.
Proof. intros Hp%pix_range. destruct Hf. apply u64_small. lia. Qed.

(** Storing one pixel. *)
Lemma pixel_put X Y v m X' Y' :
  in_picture f X Y -> in_picture f X' Y' ->
  pixel f (put_pixel f (pix f X Y) v m) X' Y' =
  if (X' =? X) && (Y' =? Y) then u32 v else pixel f m X' Y'.
Proof.
  intros H H'. unfold pixel, put_pixel. rewrite pixel_addr_small by done.
  destruct ((X' =? X) && (Y' =? Y)) eqn:E.
  - assert (X' = X /\ Y' = Y) as [-> ->] by lia. unfold load32, store32. by rewrite load_store_le.
  - unfold load32, store32. apply load_store_le_ne.
    assert (pix f X' Y' <> pix f X Y) by (intros [-> ->]%pix_inj; [lia|done|done]). lia.
Qed.

Lemma put_pixel_off X Y v m : in_picture f X Y -> agree_off (in_framebuffer f) m (put_pixel f (pix f X Y) v m).
Proof.
  intros H a Ha. unfold put_pixel. rewrite pixel_addr_small by done. apply pix_range in H.
  unfold store32. rewrite rd_store_le. unfold in_framebuffer in Ha.
  destruct (Z.leb_spec (framebuffer f + 4 * pix f X Y) a); [|done].
  destruct (Z.ltb_spec a (framebuffer f + 4 * pix f X Y + Z.of_nat 4)); [|done]. lia.
Qed.

(** *** Painting *)

(** [m'] is [m] with the pixels of [D] painted as [v] says. *)
Definition paints (v : Z -> Z -> Z) (D : Z -> Z -> bool) (m m' : mem) : Prop :=
  (forall X Y, in_picture f X Y -> pixel f m' X Y = if D X Y then v X Y else pixel f m X Y) /\
  agree_off (in_framebuffer f) m m'.

Lemma paints_refl v m : paints v (fun _ _ => false) m m.
Proof. split; [done|]. apply agree_off_refl. Qed.

Lemma paints_trans v D1 D2 m1 m2 m3 :
  paints v D1 m1 m2 -> paints v D2 m2 m3 -> paints v (fun X Y => D2 X Y || D1 X Y) m1 m3.
Proof.
  intros [H1 H1'] [H2 H2']. split; [|by eapply agree_off_trans].
  intros X Y H. rewrite H2, H1 by done. by destruct (D2 X Y), (D1 X Y).
Qed.

Lemma paints_ext v (D D' : Z -> Z -> bool) m m' :
  (forall X Y, in_picture f X Y -> D X Y = D' X Y) -> paints v D m m' -> paints v D' m m'.
Proof. intros HD [H1 H2]. split; [|done]. intros X Y H. by rewrite H1, HD. Qed.

Lemma paints_pixel (v : Z -> Z -> Z) X Y w m :
  in_picture f X Y -> u32 w = v X Y ->
  paints v (fun X' Y' => (X' =? X) && (Y' =? Y)) m (put_pixel f (pix f X Y) w m).
Proof.
  intros H Hw. split; [|by apply put_pixel_off].
  intros X' Y' H'. rewrite pixel_put by done. destruct ((X' =? X) && (Y' =? Y)) eqn:E; [|done].
  by assert (X' = X /\ Y' = Y) as [-> ->] by lia.
Qed.

(** *** The strides *)

Definition inner (f : flanterm_fb_context) : Z :=
  if rotation f =? FLANTERM_FB_ROTATE_90 then stride f
  else if rotation f =? FLANTERM_FB_ROTATE_180 then -1
  else if rotation f =? FLANTERM_FB_ROTATE_270 then - stride f else 1.

Definition outer (f : flanterm_fb_context) : Z :=
  if rotation f =? FLANTERM_FB_ROTATE_90 then -1
  else if rotation f =? FLANTERM_FB_ROTATE_180 then - stride f
  else if rotation f =? FLANTERM_FB_ROTATE_270 then 1 else stride f.

Lemma pix_right X Y : pix f (X + 1) Y = pix f X Y + inner f.
Proof. unfold pix, inner. repeat case_match; lia. Qed.

Lemma pix_down X Y : pix f X (Y + 1) = pix f X Y + outer f.
Proof. unfold pix, outer. repeat case_match; lia. Qed.

Lemma i32_neg s : 0 <= s < 2 ^ 31 -> i32 (u64 (- s)) = - s.
Proof. intros Hs. unfold i32, u64. zlia. Qed.

Lemma mul_small a b : 0 <= a < 2 ^ 31 -> 0 <= b < 2 ^ 31 -> 0 <= a * b < 2 ^ 62.
Proof. nia. Qed.

Lemma plot_dest_pix X Y : in_picture f X Y -> plot_dest f X Y = (pix f X Y, outer f, inner f).
Proof.
  intros H. pose proof (pix_range X Y H) as Hr. destruct H as [HX HY].
  destruct Hf as [? ? Hs Hb He]. unfold plot_dest. fold (stride f).
  unfold pix, outer, inner, extent, line_length, lines, sideways in *.
  destruct (Z.eqb_spec (rotation f) FLANTERM_FB_ROTATE_90);
  destruct (Z.eqb_spec (rotation f) FLANTERM_FB_ROTATE_180);
  destruct (Z.eqb_spec (rotation f) FLANTERM_FB_ROTATE_270); cbn [orb] in *;
    rewrite ?(u64_small (height f - 1 - Y)), ?(u64_small (width f - 1 - X)) by lia;
    rewrite ?i32_neg, ?i32_small by lia;
    rewrite ?(u64_small (X * stride f)), ?(u64_small (Y * stride f)),
      ?(u64_small ((height f - 1 - Y) * stride f)), ?(u64_small ((width f - 1 - X) * stride f))
      by (pose proof (mul_small X (stride f)); pose proof (mul_small Y (stride f));
          pose proof (mul_small (height f - 1 - Y) (stride f)); pose proof (mul_small (width f - 1 - X) (stride f)); lia);
    rewrite u64_small by lia; done.
Qed.
End picture.

(** ** The glyph *)

(** The tables that the drawing functions read, and the cells, which lie in
    the picture. *)
Record drawing_ok (W H : Z) (f : flanterm_fb_context) : Prop := mk_drawing_ok {
  dr_picture : picture_ok f;
  dr_font : 0 < font_width f /\ 0 < font_height f <= 256;
  dr_scale : 0 < font_scale_x f /\ 0 < font_scale_y f;
  dr_glyph_width : glyph_width f = font_width f * font_scale_x f;
  dr_glyph_height : glyph_height f = font_height f * font_scale_y f;
  dr_cols : 0 <= offset_x f /\ offset_x f + W * glyph_width f <= width f;
  dr_rows : 0 <= offset_y f /\ offset_y f + H * glyph_height f <= height f;
  dr_font_bool : zlen (buf_data (font_bool f)) = FLANTERM_FB_FONT_GLYPHS * font_height f * font_width f;
  dr_unscaled : plot_char f = unscaled_canvas \/ plot_char f = unscaled_uncanvas ->
    font_scale_x f = 1 /\ font_scale_y f = 1;
  dr_canvas : plot_char f = unscaled_canvas \/ plot_char f = scaled_canvas ->
    zlen (buf_data (canvas f)) = width f * height f
}.

(** The picture behind the text. *)
Definition backdrop (f : flanterm_fb_context) (X Y : Z) : Z :=
  match plot_char f with
  | scaled_canvas | unscaled_canvas => default 0 (aget (buf_data (canvas f)) (Y * width f + X))
  | _ => default_bg f
  end.

(** Whether the font has a dot there, [gx] and [gy] in pixels of the screen. *)
Definition dot (f : flanterm_fb_context) (c gx gy : Z) : bool :=
  default false (aget (buf_data (font_bool f))
    (c * font_height f * font_width f + gy / font_scale_y f * font_width f + gx / font_scale_x f)).

(** The colour of a pixel of a character whose cell starts at [X0], [Y0]. *)
Definition ink (f : flanterm_fb_context) (c : flanterm_fb_char) (b : bool) (X Y : Z) : Z :=
  let col := if b then c_fg c else c_bg c in
  u32 (if col =? TRANSPARENT then backdrop f X Y else col).

Definition glyph_colour (f : flanterm_fb_context) (c : flanterm_fb_char) (X0 Y0 X Y : Z) : Z :=
  ink f c (dot f (c_c c) (X - X0) (Y - Y0)) X Y.

(** The corner of a cell. *)
Definition cell_x (f : flanterm_fb_context) (x : Z) : Z := offset_x f + x * glyph_width f.
Definition cell_y (f : flanterm_fb_context) (y : Z) : Z := offset_y f + y * glyph_height f.

Definition in_box (X0 Y0 w h X Y : Z) : bool :=
  (X0 <=? X) && (X <? X0 + w) && ((Y0 <=? Y) && (Y <? Y0 + h)).

(** The pixels of a cell. *)
Definition in_cell (f : flanterm_fb_context) (x y X Y : Z) : bool :=
  in_box (cell_x f x) (cell_y f y) (glyph_width f) (glyph_height f) X Y.

Lemma glyph_size W H f : drawing_ok W H f -> 0 < glyph_width f /\ 0 < glyph_height f.
Proof.
  intros Hd. destruct (dr_font _ _ _ Hd), (dr_scale _ _ _ Hd).
  rewrite (dr_glyph_width _ _ _ Hd), (dr_glyph_height _ _ _ Hd). nia.
Qed.

(** *** The rows of a glyph *)

(** Two descriptions of one set of pixels. *)
Ltac box := intros X Y _; unfold in_box; bool_lia.

Section glyph.
Context (W H : Z) (f : flanterm_fb_context) (Hd : drawing_ok W H f).
Context (c : flanterm_fb_char) (X0 Y0 : Z) (Hc : 0 <= c_c c < 256).
Hypothesis HX0 : 0 <= X0 /\ X0 + glyph_width f <= width f.
Hypothesis HY0 : 0 <= Y0 /\ Y0 + glyph_height f <= height f.

Let Hpic : picture_ok f := dr_picture _ _ _ Hd.
Let v : Z -> Z -> Z := glyph_colour f c X0 Y0.

(** What a row asks of the colours that it is given. *)
Definition colours_ok (colours : Z -> option (Z * Z)) (gy : Z) : Prop :=
  forall gx, 0 <= gx < glyph_width f ->
    exists col, colours gx = Some col /\
      u32 col.1 = ink f c true (X0 + gx) (Y0 + gy) /\ u32 col.2 = ink f c false (X0 + gx) (Y0 + gy).

Definition glyph_start (gy : Z) : Z :=
  c_c c * font_height f * font_width f + gy / font_scale_y f * font_width f.

Lemma gy_range gy : 0 <= gy < glyph_height f -> 0 <= gy / font_scale_y f < font_height f.
Proof.
  intros Hgy. destruct (dr_scale _ _ _ Hd). rewrite (dr_glyph_height _ _ _ Hd) in Hgy.
  split; [apply Z.div_pos; lia|]. apply Z.div_lt_upper_bound; lia.
Qed.

(** A dot of the font is inside of its table. *)
Lemma dot_read gx gy fx :
  0 <= gy < glyph_height f -> 0 <= fx < font_width f -> gx / font_scale_x f = fx ->
  aget (buf_data (font_bool f)) (glyph_start gy + fx) = Some (dot f (c_c c) gx gy).
Proof.
  intros Hgy Hfx <-. unfold dot, glyph_start. apply gy_range in Hgy. destruct (dr_font _ _ _ Hd).
  destruct (aget_in (buf_data (font_bool f))
    (c_c c * font_height f * font_width f + gy / font_scale_y f * font_width f + gx / font_scale_x f))
    as [b Hb]; [|by rewrite Hb].
  rewrite (dr_font_bool _ _ _ Hd). unfold FLANTERM_FB_FONT_GLYPHS. nia.
Qed.

Lemma pixel_in gx gy : 0 <= gx < glyph_width f -> 0 <= gy < glyph_height f -> in_picture f (X0 + gx) (Y0 + gy).
Proof. intros. unfold in_picture. lia. Qed.

(** The value that the loops store for a dot. *)
Lemma stored_value col gx gy (b : bool) :
  u32 col.1 = ink f c true (X0 + gx) (Y0 + gy) -> u32 col.2 = ink f c false (X0 + gx) (Y0 + gy) ->
  b = dot f (c_c c) gx gy ->
  u32 (if b then col.1 else col.2) = v (X0 + gx) (Y0 + gy).
Proof.
  intros H1 H2 ->. unfold v, glyph_colour. replace (X0 + gx - X0) with gx by lia.
  replace (Y0 + gy - Y0) with gy by lia. by destruct (dot f (c_c c) gx gy).
Qed.

Lemma unscaled_row_paints colours n fx gy m :
  font_scale_x f = 1 -> 0 <= gy < glyph_height f -> colours_ok colours gy ->
  0 <= fx -> fx + Z.of_nat n <= font_width f ->
  exists m', unscaled_row f colours n fx (pix f (X0 + fx) (Y0 + gy)) (glyph_start gy + fx) (inner f) m = Some m' /\
    paints f v (in_box (X0 + fx) (Y0 + gy) (Z.of_nat n) 1) m m'.
Proof.
  intros Hs Hgy Hcol. pose proof (dr_glyph_width _ _ _ Hd) as Hgw.
  revert fx m. induction n as [|n IH]; intros fx m Hfx Hn; cbn [unscaled_row].
  { exists m. split; [done|]. eapply paints_ext; [|apply paints_refl]. box. }
  destruct (Hcol fx) as (col & -> & H1 & H2); [rewrite Hgw, Hs; lia|]. cbn [mbind option_bind].
  rewrite (dot_read fx gy fx) by (rewrite ?Hs, ?Z.div_1_r; lia). cbn [mbind option_bind].
  destruct (IH (fx + 1) (put_pixel f (pix f (X0 + fx) (Y0 + gy))
    (if dot f (c_c c) fx gy then col.1 else col.2) m)) as (m' & E & Hp); [lia..|].
  rewrite Z.add_assoc, (pix_right f), Z.add_assoc in E. exists m'. split; [done|].
  eapply paints_ext; [|eapply paints_trans; [apply (paints_pixel f Hpic v (X0 + fx) (Y0 + gy))|apply Hp]].
  - box.
  - apply pixel_in; lia.
  - by apply stored_value.
Qed.

Lemma scaled_column_paints colours n gx fx gy m :
  0 <= gy < glyph_height f -> colours_ok colours gy -> 0 <= fx < font_width f ->
  fx * font_scale_x f <= gx -> gx + Z.of_nat n <= (fx + 1) * font_scale_x f ->
  exists m', scaled_column f colours n gx (pix f (X0 + gx) (Y0 + gy)) (glyph_start gy + fx) (inner f) m =
      Some (pix f (X0 + gx + Z.of_nat n) (Y0 + gy), m') /\
    paints f v (in_box (X0 + gx) (Y0 + gy) (Z.of_nat n) 1) m m'.
Proof.
  intros Hgy Hcol Hfx. pose proof (dr_glyph_width _ _ _ Hd) as Hgw. destruct (dr_scale _ _ _ Hd) as [Hsx _].
  revert gx m. induction n as [|n IH]; intros gx m Hgx Hn; cbn [scaled_column].
  { exists m. split; [by rewrite Z.add_0_r|].
    eapply paints_ext; [|apply paints_refl]. box. }
  assert (Hr : 0 <= gx < glyph_width f) by nia.
  destruct (Hcol gx Hr) as (col & -> & H1 & H2). cbn [mbind option_bind].
  rewrite (dot_read gx gy fx) by (done || (symmetry; apply Z.div_unique with (gx - fx * font_scale_x f); lia)).
  cbn [mbind option_bind].
  destruct (IH (gx + 1) (put_pixel f (pix f (X0 + gx) (Y0 + gy))
    (if dot f (c_c c) gx gy then col.1 else col.2) m)) as (m' & E & Hp); [lia..|].
  rewrite Z.add_assoc, (pix_right f) in E. exists m'. split.
  - rewrite E. do 3 f_equal. lia.
  - eapply paints_ext; [|eapply paints_trans; [apply (paints_pixel f Hpic v (X0 + gx) (Y0 + gy))|apply Hp]].
    + box.
    + by apply pixel_in.
    + by apply stored_value.
Qed.

Lemma scaled_row_paints colours n fx gy m :
  0 <= gy < glyph_height f -> colours_ok colours gy -> 0 <= fx -> fx + Z.of_nat n <= font_width f ->
  exists m', scaled_row f colours n fx (pix f (X0 + fx * font_scale_x f) (Y0 + gy)) (glyph_start gy + fx)
      (inner f) m = Some m' /\
    paints f v (in_box (X0 + fx * font_scale_x f) (Y0 + gy) (Z.of_nat n * font_scale_x f) 1) m m'.
Proof.
  intros Hgy Hcol. pose proof (dr_glyph_width _ _ _ Hd) as Hgw. destruct (dr_scale _ _ _ Hd) as [Hsx _].
  pose proof (pic_width _ Hpic) as Hw.
  revert fx m. induction n as [|n IH]; intros fx m Hfx Hn; cbn [scaled_row].
  { exists m. split; [done|]. eapply paints_ext; [|apply paints_refl]. box. }
  rewrite (u64_small (font_scale_x f * fx)) by nia. rewrite (Z.mul_comm (font_scale_x f) fx).
  destruct (scaled_column_paints colours (Z.to_nat (font_scale_x f)) (fx * font_scale_x f) fx gy m)
    as (m1 & E1 & Hp1); [lia|done|lia|lia|lia|].
  rewrite E1. cbn [mbind option_bind fst snd]. rewrite Z2Nat.id in * by lia.
  destruct (IH (fx + 1) m1) as (m' & E & Hp); [lia..|].
  replace (X0 + (fx + 1) * font_scale_x f) with (X0 + fx * font_scale_x f + font_scale_x f) in E, Hp by lia.
  rewrite Z.add_assoc in E. exists m'. split; [done|].
  eapply paints_ext; [|eapply paints_trans; [apply Hp1|apply Hp]].
  replace (Z.of_nat (S n) * font_scale_x f) with
    (font_scale_x f + Z.of_nat n * font_scale_x f) by lia.
  assert (0 <= Z.of_nat n * font_scale_x f) by nia. box.
Qed.

(** The loop over the rows, when each of them paints its row. *)
Lemma plot_rows_paints (row : Z -> Z -> mem -> option mem) n gy m :
  (forall gy m, 0 <= gy < glyph_height f ->
     exists m', row gy (pix f X0 (Y0 + gy)) m = Some m' /\
       paints f v (in_box X0 (Y0 + gy) (glyph_width f) 1) m m') ->
  0 <= gy -> gy + Z.of_nat n <= glyph_height f ->
  exists m', plot_rows row n gy (pix f X0 (Y0 + gy)) (outer f) m = Some m' /\
    paints f v (in_box X0 (Y0 + gy) (glyph_width f) (Z.of_nat n)) m m'.
Proof.
  intros Hrow. revert gy m. induction n as [|n IH]; intros gy m Hgy Hn; cbn [plot_rows].
  { exists m. split; [done|]. eapply paints_ext; [|apply paints_refl]. box. }
  destruct (Hrow gy m) as (m1 & -> & Hp1); [lia|]. cbn [mbind option_bind].
  destruct (IH (gy + 1) m1) as (m' & E & Hp); [lia..|].
  rewrite Z.add_assoc, (pix_down f) in E. exists m'. split; [done|].
  eapply paints_ext; [|eapply paints_trans; [apply Hp1|apply Hp]].
  box.
Qed.

(** *** The colours *)

Lemma default_colours_ok gy :
  plot_char f = scaled_uncanvas \/ plot_char f = unscaled_uncanvas ->
  colours_ok (fun _ => Some (default_colours f c)) gy.
Proof.
  intros Hp gx _. eexists. split; [done|]. unfold ink, backdrop, default_colours.
  destruct Hp as [-> | ->]; cbn [fst snd]; done.
Qed.

Lemma canvas_line_small gy :
  0 <= gy < glyph_height f -> canvas_line f X0 Y0 gy = (Y0 + gy) * width f + X0.
Proof.
  intros Hgy. unfold canvas_line. destruct Hpic as [Hw Hh _ _ _].
  destruct (glyph_size _ _ _ Hd).
  rewrite (u64_small (Y0 + gy)) by lia. rewrite (u64_small ((Y0 + gy) * width f)) by nia.
  rewrite u64_small by nia. lia.
Qed.

Lemma canvas_colours_ok gy :
  plot_char f = scaled_canvas \/ plot_char f = unscaled_canvas -> 0 <= gy < glyph_height f ->
  colours_ok (canvas_colours f c (canvas_line f X0 Y0 gy)) gy.
Proof.
  intros Hp Hgy gx Hgx. rewrite canvas_line_small by done. unfold canvas_colours.
  replace ((Y0 + gy) * width f + X0 + gx) with ((Y0 + gy) * width f + (X0 + gx)) by lia.
  destruct (aget_in (buf_data (canvas f)) ((Y0 + gy) * width f + (X0 + gx))) as [p Hpx].
  { rewrite (dr_canvas _ _ _ Hd) by tauto. nia. }
  assert (Hb : backdrop f (X0 + gx) (Y0 + gy) = p) by (unfold backdrop; rewrite Hpx; by destruct Hp as [-> | ->]).
  rewrite Hpx. unfold ink. rewrite Hb.
  destruct (c_bg c =? TRANSPARENT), (c_fg c =? TRANSPARENT); cbn [mbind option_bind]; eexists; done.
Qed.
End glyph.

(** ** The four functions *)

Section plot_char.
Context (W H : Z) (t : flanterm_context) (f : flanterm_fb_context).
Hypothesis Hd : drawing_ok W H f.
Hypothesis HW : cols t = W.
Hypothesis HH : rows t = H.

Lemma cell_bounds x y :
  0 <= x < W -> 0 <= y < H ->
  (0 <= cell_x f x /\ cell_x f x + glyph_width f <= width f) /\
  (0 <= cell_y f y /\ cell_y f y + glyph_height f <= height f).
Proof.
  intros Hx Hy. unfold cell_x, cell_y. destruct (dr_cols _ _ _ Hd), (dr_rows _ _ _ Hd).
  destruct (glyph_size _ _ _ Hd). nia.
Qed.

Lemma glyph_index_small c :
  1 <= W -> 0 <= c_c c < 256 -> glyph_index f c = c_c c * font_height f * font_width f.
Proof.
  intros H1 Hc. unfold glyph_index. destruct (dr_font _ _ _ Hd) as [Hw Hh], (dr_scale _ _ _ Hd) as [Hs _].
  pose proof (pic_width _ (dr_picture _ _ _ Hd)).
  assert (font_width f <= width f).
  { destruct (dr_cols _ _ _ Hd) as [? Hc']. rewrite (dr_glyph_width _ _ _ Hd) in Hc'.
    assert (font_width f <= font_width f * font_scale_x f) by nia.
    assert (font_width f * font_scale_x f <= W * (font_width f * font_scale_x f)) by nia. lia. }
  assert (0 <= c_c c * font_height f <= 255 * 256)
    by (split; [apply Z.mul_nonneg_nonneg; lia|apply Z.mul_le_mono_nonneg; lia]).
  rewrite (u64_small (c_c c * font_height f)) by lia. apply u64_small. nia.
Qed.

Section at_cell.
Context (c : flanterm_fb_char) (x y : Z) (m : mem).
Hypothesis Hx : 0 <= x < W.
Hypothesis Hy : 0 <= y < H.
Hypothesis Hc : 0 <= c_c c < 256.

Let X0 : Z := cell_x f x.
Let Y0 : Z := cell_y f y.

(** What the four functions have in common: given a row that paints its part
    of the glyph, the glyph is painted. *)
Lemma plot_with (row : Z -> Z -> Z -> mem -> option mem) :
  (forall gy m, 0 <= gy < glyph_height f ->
     exists m', row (inner f) gy (pix f X0 (Y0 + gy)) m = Some m' /\
       paints f (glyph_colour f c X0 Y0) (in_box X0 (Y0 + gy) (glyph_width f) 1) m m') ->
  exists m', (if (cols t <=? x) || (rows t <=? y) then Some m else
      let '(dest, outer_stride, inner_stride) :=
        plot_dest f (u64 (offset_x f + x * glyph_width f)) (u64 (offset_y f + y * glyph_height f)) in
      plot_rows (row inner_stride) (Z.to_nat (glyph_height f)) 0 dest outer_stride m) = Some m' /\
    paints f (glyph_colour f c X0 Y0) (in_cell f x y) m m'.
Proof.
  intros Hrow. destruct (cell_bounds x y Hx Hy) as [HX HY]. destruct (glyph_size _ _ _ Hd).
  pose proof (dr_picture _ _ _ Hd) as Hpic. destruct Hpic as [Hw Hh _ _ _].
  fold (cell_x f x) (cell_y f y). fold X0 Y0. rewrite !u64_small by (unfold X0, Y0; lia).
  rewrite plot_dest_pix; [|apply Hd|unfold in_picture, X0, Y0; lia].
  replace ((cols t <=? x) || (rows t <=? y)) with false by lia.
  destruct (plot_rows_paints f c X0 Y0 (row (inner f)) (Z.to_nat (glyph_height f)) 0 m Hrow)
    as (m' & E & Hp); [lia|lia|].
  rewrite Z.add_0_r, Z2Nat.id in * by lia. by exists m'.
Qed.

Lemma fy_small gy : 0 <= gy < glyph_height f -> u8 (gy / font_scale_y f) = gy / font_scale_y f.
Proof.
  intros Hgy. pose proof (gy_range W H f Hd gy Hgy). destruct (dr_font _ _ _ Hd). apply u8_small. lia.
Qed.

(** Drawing a character in a cell of the screen paints that cell with it. *)
Lemma plot_paints_cell :
  exists m', plot t f c x y m = Some m' /\ paints f (glyph_colour f c X0 Y0) (in_cell f x y) m m'.
Proof.
  destruct (cell_bounds x y Hx Hy) as [HX HY]. destruct (glyph_size _ _ _ Hd).
  pose proof (dr_picture _ _ _ Hd) as [Hw Hh _ _ _]. pose proof (dr_glyph_width _ _ _ Hd) as Hgw.
  pose proof (dr_font _ _ _ Hd) as [Hfw _].
  assert (Hu : u64 (offset_x f + x * glyph_width f) = X0) by (apply u64_small; unfold X0, cell_x in *; lia).
  assert (Hv : u64 (offset_y f + y * glyph_height f) = Y0) by (apply u64_small; unfold Y0, cell_y in *; lia).
  assert (Hfull : font_width f * font_scale_x f = glyph_width f) by lia.
  unfold plot. destruct (plot_char f) eqn:Ep;
    (eapply (plot_with (fun inner_stride gy dest => _)); intros gy m1 Hgy);
    rewrite ?Hu, ?Hv, (glyph_index_small c) by lia; cbv zeta; rewrite ?fy_small by done.
  - destruct (scaled_row_paints W H f Hd c X0 Y0 Hc HX HY (canvas_colours f c (canvas_line f X0 Y0 gy))
      (Z.to_nat (font_width f)) 0 gy m1) as (m' & E & Hp); [done| |lia|lia|].
    { apply (canvas_colours_ok W H); auto. }
    rewrite Z.mul_0_l, !Z.add_0_r, Z2Nat.id, Hfull in * by lia. by exists m'.
  - destruct (scaled_row_paints W H f Hd c X0 Y0 Hc HX HY (fun _ => Some (default_colours f c))
      (Z.to_nat (font_width f)) 0 gy m1) as (m' & E & Hp); [done| |lia|lia|].
    { apply (default_colours_ok f c X0 Y0 gy). auto. }
    rewrite Z.mul_0_l, !Z.add_0_r, Z2Nat.id, Hfull in * by lia. by exists m'.
  - destruct (dr_unscaled _ _ _ Hd ltac:(auto)) as [Hsx Hsy].
    destruct (unscaled_row_paints W H f Hd c X0 Y0 Hc HX HY (canvas_colours f c (canvas_line f X0 Y0 gy))
      (Z.to_nat (font_width f)) 0 gy m1) as (m' & E & Hp); [done|done| |lia|lia|].
    { apply (canvas_colours_ok W H); auto. }
    unfold glyph_start in E. rewrite Hsx, Hsy, Z.mul_1_r, Z.div_1_r, !Z.add_0_r, Z2Nat.id in * by lia.
    exists m'. by rewrite <- Hfull.
  - destruct (dr_unscaled _ _ _ Hd ltac:(auto)) as [Hsx Hsy].
    destruct (unscaled_row_paints W H f Hd c X0 Y0 Hc HX HY (fun _ => Some (default_colours f c))
      (Z.to_nat (font_width f)) 0 gy m1) as (m' & E & Hp); [done|done| |lia|lia|].
    { apply (default_colours_ok f c X0 Y0 gy). auto. }
    unfold glyph_start in E. rewrite Hsx, Hsy, Z.mul_1_r, Z.div_1_r, !Z.add_0_r, Z2Nat.id in * by lia.
    exists m'. by rewrite <- Hfull.
Qed.
End at_cell.
End plot_char.

(** C14: each of the four drawing functions, in each rotation, paints a cell of
    the screen with a character: every pixel of the cell gets the colour of the
    text where the font has a dot and the background elsewhere, a transparent
    colour giving the picture behind; no other pixel of the picture changes, nor
    any memory outside of the frame buffer. *)
Theorem plot_char_spec W H t f c x y m :
  drawing_ok W H f -> cols t = W -> rows t = H -> 0 <= x < W -> 0 <= y < H -> 0 <= c_c c < 256 ->
  exists m', plot t f c x y m = Some m' /\
    (forall X Y, in_picture f X Y -> pixel f m' X Y =
       if in_cell f x y X Y then glyph_colour f c (cell_x f x) (cell_y f y) X Y else pixel f m X Y) /\
    agree_off (in_framebuffer f) m m'.
Proof. intros Hd Hc Hr Hx Hy Hg. exact (plot_paints_cell W H t f Hd Hc Hr c x y m Hx Hy Hg). Qed.

(** A frame buffer of two characters of one pixel each. *)
Definition small_context : flanterm_fb_context :=
  mk_fb_context unscaled_uncanvas false 1 1 1 1 1 1 0 0 4096 8 2 1 32 8 16 8 8 8 0 0
    256 (mk_buffer 0 []) 256 (mk_buffer 1 (replicate 256 false)) (replicate 8 0) (replicate 8 0) 7 0 15 8
    0 (mk_buffer 0 []) 24 64 16 (mk_buffer 2 (replicate 2 (mk_char 32 7 TRANSPARENT)))
    (mk_buffer 3 (replicate 2 (mk_item 0 0 (mk_char 0 0 0)))) 0 (mk_buffer 4 (replicate 2 None))
    7 TRANSPARENT 0 0 7 TRANSPARENT 0 0 0 0.

Lemma small_drawing : drawing_ok 2 1 small_context.
Proof.
  constructor; [constructor|..]; cbn; try lia; try done; try (intros [?|?]; done).
Defined.
