(* ===== verification/FlantermScreen.v ===== *)
(** * The screen as a plain array of characters

    A backend of the terminal with nothing to draw and nothing to delay: the
    characters of the screen in one array, row by row, the two colours of the
    text and the cursor.  [screen_ops] says in the simplest way what each
    operation of a backend does to the screen; FlantermFbSpec.v proves that the
    grid, the queue and the map of fb.c implement it. *)

From S2P Require Import Prelude Arrays Flanterm FlantermFb.

(** The colours that a backend has by number. *)
Record palette : Type := mk_palette {
  p_ansi : list Z;
  p_bright : list Z;
  p_fg : Z;
  p_fg_bright : Z;
  p_bg_bright : Z;
  p_rgb : Z -> Z
}.

Record text_state : Type := mk_text {
  s_fg : Z; s_bg : Z; s_x : Z; s_y : Z
}.

Record screen : Type := mk_screen {
  s_cells : list flanterm_fb_char;
  s_text : text_state;
  s_saved : text_state
}.

Definition on_text (g : text_state -> text_state) (s : screen) : screen :=
  mk_screen (s_cells s) (g (s_text s)) (s_saved s).
Definition put_fg (v : Z) (s : text_state) : text_state := mk_text v (s_bg s) (s_x s) (s_y s).
Definition put_bg (v : Z) (s : text_state) : text_state := mk_text (s_fg s) v (s_x s) (s_y s).
Definition put_pos (x y : Z) (s : text_state) : text_state := mk_text (s_fg s) (s_bg s) x y.
Definition on_cells (g : list flanterm_fb_char -> list flanterm_fb_char) (s : screen) : screen :=
  mk_screen (g (s_cells s)) (s_text s) (s_saved s).

Definition blank (s : screen) : flanterm_fb_char := mk_char 32 (s_fg (s_text s)) (s_bg (s_text s)).

(** One character; nothing happens off the screen. *)
Definition put_cell (t : flanterm_context) (c : flanterm_fb_char) (x y : Z)
    (l : list flanterm_fb_char) : list flanterm_fb_char :=
  if (cols t <=? x) || (rows t <=? y) then l else <[Z.to_nat (y * cols t + x) := c]> l.

(** The cell [i] of the screen after the rows between the margins have moved
    up by one, and down by one. *)
Definition cell_up (t : flanterm_context) (e : flanterm_fb_char) (l : list flanterm_fb_char)
    (i : Z) (old : flanterm_fb_char) : flanterm_fb_char :=
  if ((scroll_bottom_margin t - 1) * cols t <=? i) && (i <? scroll_bottom_margin t * cols t) then e
  else if (scroll_top_margin t * cols t <=? i) && (i <? (scroll_bottom_margin t - 1) * cols t)
  then default old (aget l (i + cols t)) else old.

Definition cell_down (t : flanterm_context) (e : flanterm_fb_char) (l : list flanterm_fb_char)
    (i : Z) (old : flanterm_fb_char) : flanterm_fb_char :=
  if (scroll_top_margin t * cols t <=? i) && (i <? (scroll_top_margin t + 1) * cols t) then e
  else if ((scroll_top_margin t + 1) * cols t <=? i) && (i <? scroll_bottom_margin t * cols t)
  then default old (aget l (i - cols t)) else old.

Definition by_cell (g : Z -> flanterm_fb_char -> flanterm_fb_char) (l : list flanterm_fb_char) :
    list flanterm_fb_char := imap (fun i => g (Z.of_nat i)) l.

Definition screen_scroll (t : flanterm_context) (s : screen) : screen :=
  on_cells (fun l => by_cell (cell_up t (blank s) l) l) s.

Definition screen_revscroll (t : flanterm_context) (s : screen) : screen :=
  on_cells (fun l => by_cell (cell_down t (blank s) l) l) s.

Definition screen_clear (t : flanterm_context) (move : bool) (s : screen) : screen :=
  let s' := on_cells (by_cell (fun _ _ => blank s)) s in
  if move then on_text (put_pos 0 0) s' else s'.

(** A coordinate that is not on the screen is brought back to its edge. *)
Definition clamp (n v : Z) : Z := if n <=? v then if i32 v <? 0 then 0 else n - 1 else v.

Definition screen_get_cursor_pos (t : flanterm_context) (s : screen) : Z * Z :=
  (Z.min (s_x (s_text s)) (cols t - 1), Z.min (s_y (s_text s)) (rows t - 1)).

Definition screen_move (t : flanterm_context) (nx ny ox oy : Z) (s : screen) : screen :=
  if (cols t <=? ox) || (rows t <=? oy) then s else
  match aget (s_cells s) (oy * cols t + ox) with
  | Some c => on_cells (put_cell t c nx ny) s
  | None => s
  end.

(** The cursor goes to the next line when it stands behind the last column and
    the text may still move down; at the bottom margin the region scrolls. *)
Definition wrap_line (t : flanterm_context) (s : screen) : screen :=
  let y := s_y (s_text s) in
  if (cols t <=? s_x (s_text s)) && ((y <? scroll_bottom_margin t - 1) || scroll_enabled t) then
    let s' := if y + 1 =? scroll_bottom_margin t then screen_scroll t s else s in
    let y' := if y + 1 =? scroll_bottom_margin t then y else u64 (y + 1) in
    on_text (put_pos 0 (if cols t <=? y' then cols t - 1 else y')) s'
  else s.

Definition screen_putchar (t : flanterm_context) (c : Z) (s : screen) : screen :=
  let s := wrap_line t s in
  let '(mk_text fg bg x y) := s_text s in
  on_text (put_pos (u64 (x + 1)) y) (on_cells (put_cell t (mk_char c fg bg) x y) s).

Definition screen_ops (P : palette) : flanterm_ops screen :=
  mk_ops screen
    (fun t c s => Some (screen_putchar t c s))
    (fun t mv s => Some (screen_clear t mv s))
    (fun t x y s => Some (on_text (put_pos (clamp (cols t) x) (clamp (rows t) y)) s))
    screen_get_cursor_pos
    (fun _ v s => c ← aget (p_ansi P) v; Some (on_text (put_fg c) s))
    (fun _ v s => c ← aget (p_ansi P) v; Some (on_text (put_bg c) s))
    (fun _ v s => c ← aget (p_bright P) v; Some (on_text (put_fg c) s))
    (fun _ v s => c ← aget (p_bright P) v; Some (on_text (put_bg c) s))
    (fun _ v s => Some (on_text (put_fg (p_rgb P v)) s))
    (fun _ v s => Some (on_text (put_bg (p_rgb P v)) s))
    (fun _ s => Some (on_text (put_fg (p_fg P)) s))
    (fun _ s => Some (on_text (put_bg TRANSPARENT) s))
    (fun _ s => Some (on_text (put_fg (p_fg_bright P)) s))
    (fun _ s => Some (on_text (put_bg (p_bg_bright P)) s))
    (fun t nx ny ox oy s => Some (screen_move t nx ny ox oy s))
    (fun t s => Some (screen_scroll t s))
    (fun t s => Some (screen_revscroll t s))
    (fun _ s => Some (on_text (fun x => mk_text (s_bg x) (s_fg x) (s_x x) (s_y x)) s))
    (fun _ s => Some (mk_screen (s_cells s) (s_text s) (s_text s)))
    (fun _ s => Some (mk_screen (s_cells s) (s_saved s) (s_saved s)))
    (fun _ s => Some s)
    (fun _ s => Some s).

(** ** Cells by index *)

Lemma zlen_by_cell g l : zlen (by_cell g l) = zlen l.
Proof. unfold zlen, by_cell. by rewrite length_imap. Qed.

Lemma aget_by_cell g l i : aget (by_cell g l) i = g i <$> aget l i.
Proof.
  unfold aget, by_cell. destruct (Z.ltb_spec i 0); [done|].
  rewrite list_lookup_imap. by rewrite Z2Nat.id by lia.
Qed.

Lemma zlen_put_cell t c x y l : zlen (put_cell t c x y l) = zlen l.
Proof. unfold put_cell. case_match; [done|]. apply zlen_insert. Qed.

Lemma aget_put_cell t c x y l i :
  0 <= x < cols t -> 0 <= y < rows t -> zlen l = rows t * cols t ->
  aget (put_cell t c x y l) i = if i =? y * cols t + x then Some c else aget l i.
Proof.
  intros Hx Hy Hl. unfold put_cell. replace ((cols t <=? x) || (rows t <=? y)) with false by lia.
  apply aget_insert. nia.
Qed.
