(* ===== verification/FlantermStore.v ===== *)
(** * The grid, the queue and the map of fb.c as one array

    [store f g]: the three buffers are consistent and the cell [i] of the screen
    they describe is [g i].  Under it [push_to_queue] never runs out of queue, and
    changes one cell; the loops that move and clear rows follow from that. *)

From S2P Require Import Prelude Memory Arrays Flanterm FlantermSim FlantermFb FlantermScreen.

Section store.
Context (W H : Z) (HW : 1 <= W < 2 ^ 31) (HH : 1 <= H < 2 ^ 31).
Implicit Types (f : flanterm_fb_context) (g : Z -> option flanterm_fb_char).

Definition on_screen (i : Z) : Prop := 0 <= i < H * W.

(** An entry of the queue is about a cell of the screen. *)
Definition entry_at (q : flanterm_fb_queue_item) (i : Z) : Prop :=
  0 <= q_x q < W /\ 0 <= q_y q < H /\ q_y q * W + q_x q = i.

Definition glyph (c : flanterm_fb_char) : Prop := byte (c_c c).

Record sizes f : Prop := mk_sizes {
  sz_grid : zlen (buf_data (grid f)) = H * W;
  sz_map : zlen (buf_data (map f)) = H * W;
  sz_queue : zlen (buf_data (queue f)) = H * W;
  sz_queue_i : 0 <= queue_i f <= H * W;
  sz_glyphs : Forall (fun q => glyph (q_c q)) (buf_data (queue f))
}.

Record store f g : Prop := mk_store {
  st_sizes : sizes f;
  (** a pointer of the map leads to the entry of its cell *)
  st_map : forall i j, aget (buf_data (map f)) i = Some (Some j) ->
    0 <= j < queue_i f /\ exists q, aget (buf_data (queue f)) j = Some q /\ entry_at q i;
  (** every entry of the queue is in the map *)
  st_live : forall j, 0 <= j < queue_i f -> exists i, aget (buf_data (map f)) i = Some (Some j);
  st_cell : forall i, on_screen i -> cell f i = g i;
  st_glyph : forall i, on_screen i -> exists c, g i = Some c /\ glyph c
}.

Definition update g (i : Z) (c : flanterm_fb_char) : Z -> option flanterm_fb_char :=
  fun j => if j =? i then Some c else g j.

(** [f'] is [f] but for the queue and the map. *)
Definition queued f f' : Prop :=
  f' = set_map (map f') (set_queue (queue f') (set_queue_i (queue_i f') f)) /\ grid f' = grid f.

Lemma queued_refl f : queued f f.
Proof. by destruct f. Qed.

Lemma queued_trans f1 f2 f3 : queued f1 f2 -> queued f2 f3 -> queued f1 f3.
Proof. intros [E1 G1] [E2 G2]. split; [rewrite E2; rewrite E1 at 1; reflexivity|congruence]. Qed.

Lemma store_ext f g g' : (forall i, on_screen i -> g i = g' i) -> store f g -> store f g'.
Proof.
  intros Hg [Hs Hm Hl Hc Hgl]. constructor; [done..| |].
  - intros i Hi. by rewrite Hc, Hg.
  - intros i Hi. rewrite <- Hg by done. by apply Hgl.
Qed.

Lemma index_on_screen x y : 0 <= x < W -> 0 <= y < H -> on_screen (y * W + x).
Proof. unfold on_screen. nia. Qed.

Lemma entry_inj q i i' : entry_at q i -> entry_at q i' -> i = i'.
Proof. unfold entry_at. lia. Qed.

(** A cell without an entry leaves room for one. *)
Lemma omap_length_lt {A} (l : list (option A)) i :
  l !! i = Some None -> (length (omap id l) < length l)%nat.
Proof.
  revert i. induction l as [|o l IH]; intros i Hi; [done|].
  assert (Hle : (length (omap id l) <= length l)%nat).
  { clear. induction l as [|[a|] l IH]; cbn; lia. }
  destruct i as [|i]; cbn in Hi.
  - injection Hi as ->. cbn. lia.
  - specialize (IH i Hi). destruct o; cbn; lia.
Qed.

Lemma store_room f g i :
  store f g -> aget (buf_data (map f)) i = Some None -> queue_i f < H * W.
Proof.
  intros [Hs _ Hl _ _] Hi. pose proof (aget_Some_range _ _ _ Hi) as Hr.
  unfold aget in Hi. replace (i <? 0) with false in Hi by lia.
  apply omap_length_lt in Hi.
  assert (Hsub : seqZ 0 (queue_i f) ⊆+ omap id (buf_data (map f))).
  { apply NoDup_submseteq; [apply NoDup_seqZ|]. intros j Hj%elem_of_seqZ.
    destruct (Hl j ltac:(lia)) as [k Hk]. pose proof (aget_Some_range _ _ _ Hk).
    unfold aget in Hk. replace (k <? 0) with false in Hk by lia.
    apply list_elem_of_omap. exists (Some j). split; [by eapply list_elem_of_lookup_2|done]. }
  apply submseteq_length in Hsub. rewrite length_seqZ in Hsub.
  pose proof (sz_map _ Hs). pose proof (sz_queue_i _ Hs). unfold zlen in *. lia.
Qed.

Lemma compare_char_eq a b : compare_char a b = true -> a = b.
Proof. destruct a, b. unfold compare_char. cbn. intros. f_equal; lia. Qed.

(** *** Changing the character of an entry *)

Lemma set_entry_store f g i j c :
  store f g -> aget (buf_data (map f)) i = Some (Some j) -> glyph c ->
  exists f', set_entry f j c = Some f' /\ store f' (update g i c) /\ queued f f'.
Proof.
  intros Hst Hij Hc. pose proof Hst as [Hs Hm Hl Hce Hg].
  destruct (Hm i j Hij) as (Hj & q & Hq & Hat). pose proof (aget_Some_range _ _ _ Hq) as Hr.
  unfold set_entry. rewrite Hq. cbn [mbind option_bind]. rewrite aset_in by done. cbn [mbind option_bind].
  eexists. split; [done|]. split; [|by split].
  constructor; cbn [map queue queue_i grid set_queue buf_data set_data].
  - destruct Hs. constructor; cbn; rewrite ?zlen_insert; [done..|]. by apply Forall_insert.
  - intros i' j' Hi'. destruct (Hm i' j' Hi') as (? & q' & Hq' & Hat'). split; [done|].
    rewrite aget_insert by done. destruct (Z.eqb_spec j' j) as [->|]; [|by exists q'].
    eexists. split; [done|]. assert (q' = q) by congruence. by subst.
  - done.
  - intros i' Hi'. unfold update. specialize (Hce i' Hi'). unfold cell in *.
    cbn [map queue grid set_queue buf_data set_data].
    destruct (aget (buf_data (map f)) i') as [[j'|]|] eqn:Ei'; cbn [mbind option_bind] in *; [| |].
    + rewrite aget_insert by done. destruct (Hm i' j' Ei') as (_ & q' & Hq' & Hat').
      destruct (Z.eqb_spec j' j) as [->|Hne].
      * assert (i' = i) as -> by (rewrite Hq in Hq'; simplify_eq; by eapply entry_inj).
        by rewrite Z.eqb_refl.
      * destruct (Z.eqb_spec i' i) as [->|]; [congruence|done].
    + destruct (Z.eqb_spec i' i) as [->|]; [congruence|done].
    + destruct (Z.eqb_spec i' i) as [->|]; [congruence|done].
  - intros i' Hi'. unfold update. destruct (i' =? i); [by exists c|by apply Hg].
Qed.

(** *** A new entry *)

(** The state between the allocation of an entry and the assignment of its
    character: the cell shows what the entry held before. *)
Lemma new_entry_store f g x y old :
  store f g -> 0 <= x < W -> 0 <= y < H -> aget (buf_data (map f)) (y * W + x) = Some None ->
  aget (buf_data (queue f)) (queue_i f) = Some old ->
  store (set_map (set_data (<[Z.to_nat (y * W + x) := Some (queue_i f)]> (buf_data (map f))) (map f))
          (set_queue (set_data (<[Z.to_nat (queue_i f) := mk_item x y (q_c old)]> (buf_data (queue f))) (queue f))
            (set_queue_i (queue_i f + 1) f)))
        (update g (y * W + x) (q_c old)).
Proof.
  intros Hst Hx Hy Hi Hold. pose proof Hst as [Hs Hm Hl Hce Hg].
  pose proof (aget_Forall _ _ _ _ (sz_glyphs _ Hs) Hold) as Hgl. cbv beta in Hgl.
  pose proof (store_room _ _ _ Hst Hi) as Hroom. pose proof (aget_Some_range _ _ _ Hi) as Hri.
  pose proof (aget_Some_range _ _ _ Hold) as Hrq.
  constructor; cbn [map queue queue_i grid set_map set_queue set_queue_i buf_data set_data].
  - destruct Hs. constructor; cbn; rewrite ?zlen_insert; [lia..|]. by apply Forall_insert.
  - intros i' j' Hi'. rewrite aget_insert in Hi' by done. destruct (Z.eqb_spec i' (y * W + x)) as [->|Hne].
    + injection Hi' as <-. split; [lia|]. rewrite aget_insert, Z.eqb_refl by done.
      eexists. split; [done|]. unfold entry_at. cbn. lia.
    + destruct (Hm i' j' Hi') as (? & q & Hq & Hat). split; [lia|].
      rewrite aget_insert by done. destruct (Z.eqb_spec j' (queue_i f)); [lia|]. by exists q.
  - intros j Hj. destruct (Z.eq_dec j (queue_i f)) as [->|Hne].
    + exists (y * W + x). by rewrite aget_insert, Z.eqb_refl by done.
    + destruct (Hl j ltac:(lia)) as [i' Hi']. exists i'. rewrite aget_insert by done.
      destruct (Z.eqb_spec i' (y * W + x)) as [->|]; [congruence|done].
  - intros i' Hi'. unfold cell. cbn [map queue grid set_map set_queue set_queue_i buf_data set_data].
    rewrite aget_insert by done. unfold update. destruct (Z.eqb_spec i' (y * W + x)) as [->|Hne].
    + cbn [mbind option_bind]. by rewrite aget_insert, Z.eqb_refl by done.
    + specialize (Hce i' Hi'). unfold cell in Hce. rewrite <- Hce.
      destruct (aget (buf_data (map f)) i') as [[j'|]|] eqn:Ei'; cbn [mbind option_bind]; [|done|done].
      rewrite aget_insert by done. destruct (Hm i' j' Ei') as [? _].
      destruct (Z.eqb_spec j' (queue_i f)); [lia|done].
  - intros i' Hi'. unfold update. destruct (i' =? y * W + x); [by exists (q_c old)|by apply Hg].
Qed.

(** *** push_to_queue *)

(** Pushing a character changes its cell of the screen, and no other one. *)
Lemma push_store t f g c x y :
  rows t = H -> cols t = W -> store f g -> 0 <= x < W -> 0 <= y < H -> glyph c ->
  exists f', push_to_queue t c x y f = Some f' /\ store f' (update g (y * W + x) c) /\ queued f f'.
Proof.
  intros Hr Hc Hst Hx Hy Hg. pose proof Hst as [Hs _ _ Hce _]. unfold push_to_queue.
  rewrite Hr, Hc. replace ((W <=? x) || (H <=? y)) with false by lia.
  assert (Hi : on_screen (y * W + x)) by (by apply index_on_screen). unfold on_screen in Hi.
  rewrite (u64_small (y * W)), (u64_small (y * W + x)) by nia.
  destruct (aget_in (buf_data (map f)) (y * W + x)) as [q Hq]; [by rewrite (sz_map _ Hs)|].
  rewrite Hq. cbn [mbind option_bind]. destruct q as [j|]; [by apply set_entry_store|].
  specialize (Hce _ Hi). unfold cell in Hce. rewrite Hq in Hce. cbn [mbind option_bind] in Hce.
  destruct (aget_in (buf_data (grid f)) (y * W + x)) as [d Hd]; [by rewrite (sz_grid _ Hs)|].
  rewrite Hd in Hce |- *. cbn [mbind option_bind]. destruct (compare_char d c) eqn:Ed.
  { apply compare_char_eq in Ed as ->. exists f. split; [done|]. split; [|apply queued_refl].
    eapply store_ext; [|exact Hst]. intros i _. unfold update. destruct (Z.eqb_spec i (y * W + x)) as [->|]; done. }
  pose proof (store_room _ _ _ Hst Hq) as Hroom. pose proof (sz_queue_i _ Hs) as Hqi.
  destruct (aget_in (buf_data (queue f)) (queue_i f)) as [old Hold]; [rewrite (sz_queue _ Hs); lia|].
  rewrite Hold. cbn [mbind option_bind].
  rewrite !aset_in by (rewrite ?(sz_queue _ Hs), ?(sz_map _ Hs); lia). cbn [mbind option_bind].
  rewrite (u64_small (queue_i f + 1)) by nia.
  pose proof (new_entry_store f g x y old Hst Hx Hy Hq Hold) as Hst'.
  destruct (set_entry_store _ _ (y * W + x) (queue_i f) c Hst') as (f' & E & Hf' & Hq'); [|done|].
  { cbn. rewrite aget_insert by (rewrite (sz_map _ Hs); lia). by rewrite Z.eqb_refl. }
  exists f'. split; [done|]. split.
  - eapply store_ext; [|exact Hf']. intros i _. unfold update. by destruct (i =? y * W + x).
  - eapply queued_trans; [|exact Hq']. by split.
Qed.

(** Off the screen nothing happens. *)
Lemma push_off t f c x y : W <= x \/ H <= y -> rows t = H -> cols t = W -> push_to_queue t c x y f = Some f.
Proof.
  intros Ho Hr Hc. unfold push_to_queue. rewrite Hr, Hc.
  by replace ((W <=? x) || (H <=? y)) with true by lia.
Qed.

(** *** Loops of pushes *)

(** A loop whose round [i] assigns [v i] to the cell [dst i], where [v] may
    read the cells that the rounds before it have left alone. *)
Lemma push_loop (body : Z -> flanterm_fb_context -> option flanterm_fb_context)
    (dst : Z -> Z) (v : Z -> option flanterm_fb_char) (cur : Z -> Z -> option flanterm_fb_char) f0 n lo f :
  (forall k j, lo <= k -> cur (k + 1) j = if j =? dst k then v k else cur k j) ->
  (forall k f, lo <= k < lo + Z.of_nat n -> store f (cur k) -> queued f0 f ->
     exists f' c, v k = Some c /\ body k f = Some f' /\ store f' (update (cur k) (dst k) c) /\ queued f f') ->
  store f (cur lo) -> queued f0 f ->
  exists f', fb_for n lo body f = Some f' /\ store f' (cur (lo + Z.of_nat n)) /\ queued f0 f'.
Proof.
  revert lo f. induction n as [|n IH]; intros lo f Hcur Hb Hst Hq; cbn [fb_for].
  { exists f. rewrite Z.add_0_r. done. }
  destruct (Hb lo f ltac:(lia) Hst Hq) as (f1 & c & Hv & -> & Hst1 & Hq1). cbn [mbind option_bind].
  destruct (IH (lo + 1) f1) as (f' & E & Hst' & Hq').
  - intros k j Hk. apply Hcur. lia.
  - intros k f2 Hk. apply Hb. lia.
  - eapply store_ext; [|exact Hst1]. intros i _. unfold update. rewrite Hcur, Hv by lia. done.
  - by eapply queued_trans.
  - exists f'. split; [done|]. split; [|done]. by replace (lo + Z.of_nat (S n)) with (lo + 1 + Z.of_nat n) by lia.
Qed.

Section geometry.
Context (t : flanterm_context) (Ht : geometry W H t).

Lemma t_rows : rows t = H.
Proof. apply Ht. Qed.
Lemma t_cols : cols t = W.
Proof. apply Ht. Qed.
Hint Resolve t_rows t_cols : core.

(** Clearing the row [y]. *)
Lemma row_store f g e y :
  store f g -> 0 <= y < H -> glyph e ->
  exists f', fb_for (Z.to_nat W) 0 (fun i => push_to_queue t e i y) f = Some f' /\
    store f' (fun j => if (y * W <=? j) && (j <? (y + 1) * W) then Some e else g j) /\ queued f f'.
Proof.
  intros Hst Hy He.
  destruct (push_loop (fun i => push_to_queue t e i y) (fun k => y * W + k) (fun _ => Some e)
    (fun k j => if (y * W <=? j) && (j <? y * W + k) then Some e else g j) f (Z.to_nat W) 0 f)
    as (f' & E & Hst' & Hq).
  - intros k j Hk. repeat case_match; done || lia.
  - intros k f1 Hk Hst1 _. destruct (push_store t f1 _ e k y t_rows t_cols Hst1) as (f2 & E & Hst2 & Hq); [lia|done|done|].
    by exists f2, e.
  - eapply store_ext; [|exact Hst]. intros i _. case_match; [lia|done].
  - apply queued_refl.
  - exists f'. split; [done|]. split; [|done]. eapply store_ext; [|exact Hst'].
    intros i _. cbv beta. by replace (y * W + (0 + Z.of_nat (Z.to_nat W))) with ((y + 1) * W) by lia.
Qed.

(** The column and the row of an index. *)
Lemma index_div i : 0 <= i -> 0 <= i mod W < W /\ i / W * W + i mod W = i.
Proof. intros Hi. pose proof (Z.div_mod i W ltac:(lia)). pose proof (Z.mod_pos_bound i W). lia. Qed.

Lemma index_div_row i : on_screen i -> 0 <= i / W < H.
Proof.
  unfold on_screen. intros Hi. split; [apply Z.div_pos; lia|]. apply Z.div_lt_upper_bound; lia.
Qed.

(** A push at an index. *)
Lemma push_index f g c i :
  store f g -> on_screen i -> glyph c ->
  exists f', push_to_queue t c (i mod W) (i / W) f = Some f' /\ store f' (update g i c) /\ queued f f'.
Proof.
  intros Hst Hi Hc. destruct (index_div i) as [Hm Hd]; [apply Hi|].
  destruct (push_store t f g c (i mod W) (i / W) t_rows t_cols Hst Hm (index_div_row i Hi) Hc) as (f' & E & Hst' & Hq).
  rewrite Hd in Hst'. by exists f'.
Qed.

Lemma empty_glyph f : glyph (empty f).
Proof. unfold glyph, byte. cbn. lia. Qed.

Lemma queued_empty f f' : queued f f' -> empty f' = empty f.
Proof. intros [-> _]. reflexivity. Qed.

(** *** scroll *)

Definition up g (e : flanterm_fb_char) (j : Z) : option flanterm_fb_char :=
  let top := scroll_top_margin t in let bottom := scroll_bottom_margin t in
  if ((bottom - 1) * W <=? j) && (j <? bottom * W) then Some e
  else if (top * W <=? j) && (j <? (bottom - 1) * W) then g (j + W) else g j.

Lemma margin_facts :
  0 <= scroll_top_margin t < H /\ 1 <= scroll_bottom_margin t <= H /\
  0 <= scroll_top_margin t * W /\ (scroll_top_margin t + 1) * W <= H * W /\
  0 <= (scroll_bottom_margin t - 1) * W /\ scroll_bottom_margin t * W <= H * W /\ H * W < 2 ^ 62.
Proof. destruct Ht. split_and!; try lia; nia. Qed.

Lemma scroll_store f g :
  store f g ->
  exists f', flanterm_fb_scroll t f = Some f' /\ store f' (up g (empty f)) /\ queued f f'.
Proof.
  intros Hst. pose proof margin_facts as (Htop & Hbot & H1 & H2 & H3 & H4 & H5).
  unfold flanterm_fb_scroll. rewrite t_cols, !(u64_small (_ * W)) by lia.
  set (lo := (scroll_top_margin t + 1) * W). set (hi := scroll_bottom_margin t * W).
  assert (Hlo : W <= lo) by (unfold lo; lia).
  destruct (push_loop
    (fun i f => c ← cell f i; push_to_queue t c (u64 (i - W) mod W) (u64 (i - W) / W) f)
    (fun k => k - W) g (fun k j => if (lo - W <=? j) && (j <? k - W) then g (j + W) else g j)
    f (Z.to_nat (hi - lo)) lo f) as (f1 & E1 & Hst1 & Hq1).
  - intros k j Hk. repeat case_match; try done; try lia. f_equal. lia.
  - intros k f1 Hk Hst1 _. assert (Hs : on_screen k) by (unfold on_screen, hi in *; lia).
    destruct (st_glyph _ _ Hst k Hs) as (c & Hc & Hgc).
    rewrite (st_cell _ _ Hst1 k Hs). replace ((lo - W <=? k) && (k <? k - W)) with false by lia.
    rewrite Hc. cbn [mbind option_bind]. rewrite u64_small by lia.
    destruct (push_index f1 _ c (k - W) Hst1) as (f2 & E & Hst2 & Hq2);
      [unfold on_screen, hi in *; lia|done|]. by exists f2, c.
  - eapply store_ext; [|exact Hst]. intros i _. case_match; [lia|done].
  - apply queued_refl.
  - rewrite E1. cbn [mbind option_bind]. rewrite (u64_small (scroll_bottom_margin t - 1)) by lia.
    rewrite (queued_empty f f1 Hq1).
    destruct (row_store f1 _ (empty f) (scroll_bottom_margin t - 1) Hst1) as (f' & E & Hst' & Hq);
      [lia|apply empty_glyph|].
    exists f'. split; [done|]. split; [|by eapply queued_trans].
    eapply store_ext; [|exact Hst']. intros i Hi. unfold up. cbv beta zeta.
    replace (scroll_bottom_margin t - 1 + 1) with (scroll_bottom_margin t) by lia.
    destruct (((scroll_bottom_margin t - 1) * W <=? i) && (i <? scroll_bottom_margin t * W)); [done|].
    assert (Hn : Z.of_nat (Z.to_nat (hi - lo)) = Z.max 0 (hi - lo)) by lia. rewrite Hn.
    assert (Elo : lo = scroll_top_margin t * W + W) by (unfold lo; lia).
    assert (Ehi : hi = (scroll_bottom_margin t - 1) * W + W) by (unfold hi; lia).
    clearbody lo hi. revert Elo Ehi. generalize (scroll_top_margin t * W), ((scroll_bottom_margin t - 1) * W).
    intros p q -> ->. destruct (Z.leb_spec p i), (Z.ltb_spec i q); cbn [andb]; case_match; done || lia.
Qed.

(** *** revscroll *)

Definition down g (e : flanterm_fb_char) (j : Z) : option flanterm_fb_char :=
  let top := scroll_top_margin t in let bottom := scroll_bottom_margin t in
  if (top * W <=? j) && (j <? (top + 1) * W) then Some e
  else if ((top + 1) * W <=? j) && (j <? bottom * W) then g (j - W) else g j.

(** The cells after the rounds from the last one down to [i + 1]. *)
Definition lowered g (i j : Z) : option flanterm_fb_char :=
  if (i + W <? j) && (j <? scroll_bottom_margin t * W) then g (j - W) else g j.

Lemma revscroll_stops fuel i f :
  -1 <= i < scroll_top_margin t * W -> revscroll_loop fuel t (u64 i) f = Some f.
Proof.
  intros Hi. pose proof margin_facts as (_ & _ & _ & _ & _ & _ & ?).
  pose proof margin_facts as (_ & _ & ? & ? & _).
  assert (E : u64 i = i \/ i = -1 /\ u64 i = SIZE_MAX).
  { destruct (Z.eq_dec i (-1)) as [->|]; [by right|left]. apply u64_small. lia. }
  destruct fuel; cbn [revscroll_loop]; rewrite t_cols, (u64_small (_ * W)) by lia;
    destruct E as [->|[-> ->]]; try done;
    try (by replace (scroll_top_margin t * W <=? i) with false by lia);
    rewrite Z.eqb_refl; by case_match.
Qed.

Lemma revscroll_loop_store f0 g n fuel f :
  store f0 g -> queued f0 f ->
  scroll_top_margin t * W + Z.of_nat n <= (scroll_bottom_margin t - 1) * W -> (n <= fuel)%nat ->
  store f (lowered g (scroll_top_margin t * W + Z.of_nat n - 1)) ->
  exists f', revscroll_loop fuel t (u64 (scroll_top_margin t * W + Z.of_nat n - 1)) f = Some f' /\
    store f' (lowered g (scroll_top_margin t * W - 1)) /\ queued f0 f'.
Proof.
  intros Hst0. pose proof margin_facts as (Htop & Hbot & H1 & H2 & H3 & H4 & H5).
  revert fuel f. induction n as [|n IH]; intros fuel f Hq0 Hn Hf Hst.
  - rewrite Z.add_0_r in *. exists f. split; [apply revscroll_stops; lia|done].
  - destruct fuel as [|fuel]; [lia|]. set (i := scroll_top_margin t * W + Z.of_nat (S n) - 1) in *.
    assert (Hi : scroll_top_margin t * W <= i < (scroll_bottom_margin t - 1) * W) by (unfold i; lia).
    rewrite (u64_small i) by lia. cbn [revscroll_loop]. rewrite t_cols, (u64_small (_ * W)) by lia.
    replace (scroll_top_margin t * W <=? i) with true by lia. cbn [negb].
    replace (i =? SIZE_MAX) with false by (unfold SIZE_MAX; lia).
    assert (Hs : on_screen i) by (unfold on_screen; lia). rewrite (st_cell _ _ Hst i Hs).
    destruct (st_glyph _ _ Hst0 i Hs) as (c & Hc & Hgc).
    unfold lowered at 1. replace ((i + W <? i) && _) with false by lia. rewrite Hc. cbn [mbind option_bind].
    rewrite (u64_small (i + W)) by lia.
    destruct (push_index f _ c (i + W) Hst) as (f1 & E1 & Hst1 & Hq1); [unfold on_screen; lia|done|].
    rewrite E1. cbn [mbind option_bind].
    replace (i - 1) with (scroll_top_margin t * W + Z.of_nat n - 1) by (unfold i; lia).
    apply IH; [by eapply queued_trans|lia|lia|].
    eapply store_ext; [|exact Hst1]. intros j Hj. unfold update, lowered.
    replace (scroll_top_margin t * W + Z.of_nat n - 1) with (i - 1) by (unfold i; lia).
    clearbody i. replace (i - 1 + W <? j) with (i + W <=? j) by lia.
    destruct (Z.eqb_spec j (i + W)) as [->|Hne].
    + rewrite <- Hc, Z.leb_refl. replace (i + W <? _) with true by lia. cbn [andb]. f_equal. lia.
    + by replace (i + W <=? j) with (i + W <? j) by lia.
Qed.

Lemma revscroll_store f g :
  store f g ->
  exists f', flanterm_fb_revscroll t f = Some f' /\ store f' (down g (empty f)) /\ queued f f'.
Proof.
  intros Hst. pose proof margin_facts as (Htop & Hbot & H1 & H2 & H3 & H4 & H5).
  unfold flanterm_fb_revscroll. rewrite t_cols, t_rows, (u64_small (_ * W)) by lia.
  assert (Hl : forall i, (scroll_bottom_margin t - 1) * W - 1 <= i -> store f (lowered g i)).
  { intros i Hi. eapply store_ext; [|exact Hst]. intros j Hj. unfold lowered. case_match; [lia|done]. }
  assert (exists f1, revscroll_loop (Z.to_nat (H * W)) t (u64 ((scroll_bottom_margin t - 1) * W - 1)) f = Some f1 /\
    store f1 (lowered g (scroll_top_margin t * W - 1)) /\ queued f f1) as (f1 & -> & Hst1 & Hq1).
  { destruct (Z.le_gt_cases (scroll_top_margin t * W) ((scroll_bottom_margin t - 1) * W)) as [Hle|Hgt].
    - destruct (revscroll_loop_store f g (Z.to_nat ((scroll_bottom_margin t - 1) * W - scroll_top_margin t * W))
        (Z.to_nat (H * W)) f Hst (queued_refl f)) as (f1 & E & Hst1 & Hq1); [lia|lia|apply Hl; lia|].
      exists f1. split; [|done]. rewrite <- E. f_equal. f_equal. lia.
    - exists f. split; [apply revscroll_stops; lia|]. split; [apply Hl; lia|apply queued_refl]. }
  cbn [mbind option_bind]. rewrite (queued_empty f f1 Hq1).
  destruct (row_store f1 _ (empty f) (scroll_top_margin t) Hst1) as (f' & E & Hst' & Hq);
    [lia|apply empty_glyph|].
  exists f'. split; [done|]. split; [|by eapply queued_trans].
  eapply store_ext; [|exact Hst']. intros i Hi. unfold down, lowered. cbv beta zeta.
  destruct ((scroll_top_margin t * W <=? i) && (i <? (scroll_top_margin t + 1) * W)); [done|].
  repeat case_match; done || lia.
Qed.

(** *** clear *)

Lemma clear_store f g :
  store f g ->
  exists f', fb_for (Z.to_nat (u64 (H * W))) 0 (fun i => push_to_queue t (empty f) (i mod W) (i / W)) f = Some f' /\
    store f' (fun _ => Some (empty f)) /\ queued f f'.
Proof.
  intros Hst. pose proof margin_facts as (_ & _ & _ & _ & _ & _ & H5). rewrite u64_small by nia.
  destruct (push_loop (fun i => push_to_queue t (empty f) (i mod W) (i / W)) (fun k => k) (fun _ => Some (empty f))
    (fun k j => if j <? k then Some (empty f) else g j) f (Z.to_nat (H * W)) 0 f) as (f' & E & Hst' & Hq).
  - intros k j Hk. repeat case_match; done || lia.
  - intros k f1 Hk Hst1 _.
    destruct (push_index f1 _ (empty f) k Hst1) as (f2 & E & Hst2 & Hq);
      [unfold on_screen; nia|apply empty_glyph|]. by exists f2, (empty f).
  - eapply store_ext; [|exact Hst]. intros i Hi. unfold on_screen in Hi. by replace (i <? 0) with false by lia.
  - apply queued_refl.
  - exists f'. split; [done|]. split; [|done]. eapply store_ext; [|exact Hst'].
    intros i Hi. unfold on_screen in Hi. cbv beta.
    replace (0 + Z.of_nat (Z.to_nat (H * W))) with (H * W) by lia. by replace (i <? H * W) with true by lia.
Qed.
End geometry.
End store.
