(* ===== verification/FlantermFlush.v ===== *)
(** * What the frame buffer shows: flanterm_fb_double_buffer_flush

    A cell is shown when its pixels are those of the glyph of a character.  The
    flush leaves every cell of the screen shown, with the cell of the cursor in
    inverse colours, empties the queue and brings the grid up to date. *)

From S2P Require Import Prelude Memory Arrays Flanterm FlantermSim FlantermFb FlantermPlot FlantermScreen FlantermStore.

Definition shown (f : flanterm_fb_context) (m : mem) (x y : Z) (c : flanterm_fb_char) : Prop :=
  forall X Y, in_picture f X Y -> in_cell f x y X Y = true ->
    pixel f m X Y = glyph_colour f c (cell_x f x) (cell_y f y) X Y.

Definition inverse (c : flanterm_fb_char) : flanterm_fb_char := mk_char (c_c c) (c_bg c) (c_fg c).

(** [f'] is [f] but for the grid and the map. *)
Definition settled (f f' : flanterm_fb_context) : Prop := f' = set_map (map f') (set_grid (grid f') f).

Lemma settled_refl f : settled f f.
Proof. by destruct f. Qed.

Lemma settled_trans f1 f2 f3 : settled f1 f2 -> settled f2 f3 -> settled f1 f3.
Proof. unfold settled. intros E1 E2. rewrite E2. rewrite E1 at 1. reflexivity. Qed.

Lemma settled_shown f f' m x y c : settled f f' -> shown f' m x y c <-> shown f m x y c.
Proof. intros ->. reflexivity. Qed.

(** The fields that change while the terminal runs are not those that drawing
    depends on. *)
Ltac keep_drawing Hd := destruct Hd as [[]]; constructor; [constructor|..]; assumption.

Lemma drawing_settled W H f f' : settled f f' -> drawing_ok W H f -> drawing_ok W H f'.
Proof. intros -> Hd. keep_drawing Hd. Qed.

Section flush.
Context (W H : Z) (HW : 1 <= W < 2 ^ 31) (HH : 1 <= H < 2 ^ 31).
Context (t : flanterm_context) (Ht : geometry W H t).
Implicit Types (f : flanterm_fb_context) (g : Z -> option flanterm_fb_char).

Abbreviation on_screen := (on_screen W H).
Abbreviation entry_at := (entry_at W H).

(** ** Cells of the picture *)

Definition shows f (m : mem) (i : Z) (c : flanterm_fb_char) : Prop := shown f m (i mod W) (i / W) c.

Lemma box_inj o w x x' X :
  0 < w -> o + x * w <= X < o + x * w + w -> o + x' * w <= X < o + x' * w + w -> x = x'.
Proof. intros. nia. Qed.

Lemma cells_disjoint f x y x' y' X Y :
  drawing_ok W H f -> in_cell f x y X Y = true -> in_cell f x' y' X Y = true -> x = x' /\ y = y'.
Proof.
  intros Hd. destruct (glyph_size _ _ _ Hd) as [Hw Hh]. unfold in_cell, in_box, cell_x, cell_y.
  rewrite !andb_true_iff, !Z.leb_le, !Z.ltb_lt. intros [[] []] [[] []].
  split; [apply (box_inj (offset_x f) (glyph_width f) x x' X)|apply (box_inj (offset_y f) (glyph_height f) y y' Y)]; lia.
Qed.

(** Drawing a character shows it in its cell, and leaves the other cells and
    the memory around the frame buffer alone. *)
Lemma plot_shown f c x y m :
  drawing_ok W H f -> 0 <= x < W -> 0 <= y < H -> glyph c ->
  exists m', plot t f c x y m = Some m' /\ shown f m' x y c /\
    (forall x' y' c', (x', y') <> (x, y) -> shown f m x' y' c' -> shown f m' x' y' c') /\
    agree_off (in_framebuffer f) m m'.
Proof.
  intros Hd Hx Hy Hc.
  destruct (plot_paints_cell W H t f Hd (g_cols _ _ _ Ht) (g_rows _ _ _ Ht) c x y m Hx Hy Hc) as (m' & E & Hp & Ho).
  exists m'. split_and!; [done| | |done].
  - intros X Y HXY Hin. by rewrite Hp, Hin.
  - intros x' y' c' Hne Hs X Y HXY Hin. rewrite Hp by done. destruct (in_cell f x y X Y) eqn:E'; [|by apply Hs].
    exfalso. apply Hne. by destruct (cells_disjoint f x' y' x y X Y Hd Hin E') as [-> ->].
Qed.

Lemma index_inj i i' : on_screen i -> on_screen i' -> (i mod W, i / W) = (i' mod W, i' / W) -> i = i'.
Proof.
  intros Hi Hi' E. injection E as E1 E2.
  destruct (index_div W HW i) as [_ D]; [apply Hi|]. destruct (index_div W HW i') as [_ D']; [apply Hi'|].
  congruence.
Qed.

Lemma index_of x y : 0 <= x < W -> (y * W + x) mod W = x /\ (y * W + x) / W = y.
Proof.
  intros Hx. split.
  - rewrite Z.add_comm, Z.mod_add by lia. by apply Z.mod_small.
  - rewrite Z.div_add_l by lia. rewrite Z.div_small by lia. lia.
Qed.

(** The same by index of the cell. *)
Lemma plot_shows f c x y m :
  drawing_ok W H f -> 0 <= x < W -> 0 <= y < H -> glyph c ->
  exists m', plot t f c x y m = Some m' /\ shows f m' (y * W + x) c /\
    (forall i c', on_screen i -> i <> y * W + x -> shows f m i c' -> shows f m' i c') /\
    agree_off (in_framebuffer f) m m'.
Proof.
  intros Hd Hx Hy Hc. destruct (plot_shown f c x y m Hd Hx Hy Hc) as (m' & E & Hs & Ho & Ha).
  exists m'. destruct (index_of x y Hx) as [E1 E2]. split_and!; [done| | |done].
  - unfold shows. by rewrite E1, E2.
  - intros i c' Hi Hne. apply Ho. intros Heq. apply Hne.
    apply index_inj; [done|by apply index_on_screen|]. by rewrite E1, E2.
Qed.

(** ** The loop over the queue *)

(** From entry [k] on the queue is still to be drawn; an entry whose cell has
    no pointer any more was drawn by [draw_cursor]. *)
Record flushing (k : Z) f g : Prop := mk_flushing {
  fl_sizes : sizes W H f;
  fl_map : forall i j, aget (buf_data (map f)) i = Some (Some j) ->
    k <= j < queue_i f /\ exists q, aget (buf_data (queue f)) j = Some q /\ entry_at q i;
  fl_entry : forall j, k <= j < queue_i f ->
    exists q i, aget (buf_data (queue f)) j = Some q /\ entry_at q i /\
      (aget (buf_data (map f)) i = Some None \/ aget (buf_data (map f)) i = Some (Some j));
  fl_cell : forall i, on_screen i -> cell f i = g i;
  fl_glyph : forall i, on_screen i -> exists c, g i = Some c /\ glyph c
}.

Lemma store_flushing f g : store W H f g -> flushing 0 f g.
Proof.
  intros [Hs Hm Hl Hc Hg]. constructor; [done..| |done|done].
  intros j Hj. destruct (Hl j Hj) as [i Hi]. destruct (Hm i j Hi) as (_ & q & Hq & Hat).
  exists q, i. auto.
Qed.

(** Every cell shows its character of the grid, but for the hidden ones. *)
Definition displayed f (m : mem) (hidden : Z -> bool) : Prop :=
  forall i, on_screen i -> hidden i = false -> exists c, aget (buf_data (grid f)) i = Some c /\ shows f m i c.

Lemma entry_on_screen q i : entry_at q i -> on_screen i.
Proof. intros (Hx & Hy & <-). by apply index_on_screen. Qed.

Lemma settle_flushing k f g i c :
  flushing k f g -> on_screen i -> g i = Some c ->
  exists f', settle f i c = Some f' /\ settled f f' /\ flushing k f' g /\
    (forall j, aget (buf_data (map f')) j = if j =? i then Some None else aget (buf_data (map f)) j) /\
    (forall j, aget (buf_data (grid f')) j = if j =? i then Some c else aget (buf_data (grid f)) j).
Proof.
  intros [Hs Hm He Hc Hg] Hi Hgi. unfold settle. pose proof Hs as [Sg Sm _ _ _]. unfold FlantermStore.on_screen in Hi.
  rewrite !aset_in by lia. cbn [mbind option_bind]. eexists. split; [done|]. split; [done|].
  assert (Hmap : forall j, aget (<[Z.to_nat i := None]> (buf_data (map f))) j =
    if j =? i then Some None else aget (buf_data (map f)) j) by (intros; apply aget_insert; lia).
  assert (Hgrid : forall j, aget (<[Z.to_nat i := c]> (buf_data (grid f))) j =
    if j =? i then Some c else aget (buf_data (grid f)) j) by (intros; apply aget_insert; lia).
  split; [|split; [exact Hmap|exact Hgrid]].
  constructor; cbn [map queue queue_i grid set_map set_grid buf_data set_data].
  - destruct Hs. constructor; cbn; rewrite ?zlen_insert; done.
  - intros i' j. rewrite Hmap. destruct (i' =? i); [done|]. apply Hm.
  - intros j Hj. destruct (He j Hj) as (q & i' & Hq & Hat & Ho). exists q, i'. rewrite Hmap.
    destruct (i' =? i); auto.
  - intros i' Hi'. unfold cell. cbn [map queue grid set_map set_grid buf_data set_data]. rewrite Hmap, Hgrid.
    destruct (Z.eqb_spec i' i) as [->|]; [done|]. by apply Hc.
  - done.
Qed.

(** An entry whose cell is settled is done with. *)
Lemma flushing_next k f g q i :
  flushing k f g -> aget (buf_data (queue f)) k = Some q -> entry_at q i ->
  aget (buf_data (map f)) i = Some None -> flushing (k + 1) f g.
Proof.
  intros [Hs Hm He Hc Hg] Hq Hat Hn. constructor; [done| | |done|done].
  - intros i' j Hi'. destruct (Hm i' j Hi') as (Hj & q' & Hq' & Hat'). split; [|by exists q'].
    assert (j <> k); [|lia]. intros ->. assert (q' = q) as -> by congruence.
    assert (i' = i) as -> by (by eapply entry_inj). congruence.
  - intros j Hj. apply He. lia.
Qed.

(** What a round, and the loop, keep of a state of the backend. *)
Record redrawn (w w' : fb_world) : Prop := mk_redrawn {
  rd_settled : settled (fb w) (fb w');
  rd_flushes : flushes w' = flushes w;
  rd_off : agree_off (in_framebuffer (fb w)) (vram w) (vram w');
  (** a cell that is not in the queue keeps its pixels *)
  rd_kept : forall i c, on_screen i -> aget (buf_data (map (fb w))) i = Some None ->
    shows (fb w) (vram w) i c -> shows (fb w') (vram w') i c /\ aget (buf_data (map (fb w'))) i = Some None
}.

Lemma redrawn_refl w : redrawn w w.
Proof. constructor; [apply settled_refl|done|apply agree_off_refl|done]. Qed.

Lemma redrawn_trans w1 w2 w3 : redrawn w1 w2 -> redrawn w2 w3 -> redrawn w1 w3.
Proof.
  intros [S1 F1 O1 K1] [S2 F2 O2 K2]. constructor.
  - by eapply settled_trans.
  - congruence.
  - eapply agree_off_trans; [exact O1|]. intros a Ha. apply O2. rewrite S1. exact Ha.
  - intros i c Hi Hn Hs. destruct (K1 i c Hi Hn Hs). by apply K2.
Qed.

Lemma flush_entry_redrawn k w g hidden :
  drawing_ok W H (fb w) -> flushing k (fb w) g -> k < queue_i (fb w) -> 0 <= k ->
  displayed (fb w) (vram w) hidden ->
  exists w', flush_entry t k w = Some w' /\ flushing (k + 1) (fb w') g /\
    displayed (fb w') (vram w') hidden /\ redrawn w w'.
Proof.
  intros Hd Hfl Hk Hk0 Hdis. destruct (fl_entry _ _ _ Hfl k ltac:(lia)) as (q & i & Hq & Hat & Ho).
  pose proof Hat as (Hx & Hy & Hi). unfold flush_entry. rewrite Hq. cbn [mbind option_bind].
  pose proof (entry_on_screen q i Hat) as Hon. unfold FlantermStore.on_screen in Hon.
  rewrite (g_cols _ _ _ Ht), (u64_small (q_y q * W)), (u64_small (q_y q * W + q_x q)), Hi by nia.
  destruct Ho as [Hn|Hj].
  { rewrite Hn. cbn [mbind option_bind]. exists w. split_and!; [done|by eapply flushing_next|done|apply redrawn_refl]. }
  rewrite Hj. cbn [mbind option_bind].
  assert (Hgi : g i = Some (q_c q)).
  { rewrite <- (fl_cell _ _ _ Hfl i Hon). unfold cell. rewrite Hj. cbn [mbind option_bind]. by rewrite Hq. }
  destruct (fl_glyph _ _ _ Hfl i Hon) as (c' & Hc' & Hgl). assert (c' = q_c q) as -> by congruence.
  destruct (plot_shows (fb w) (q_c q) (q_x q) (q_y q) (vram w) Hd Hx Hy Hgl) as (m & -> & Hs & Hoth & Hoff).
  cbn [mbind option_bind]. rewrite Hi in *.
  destruct (settle_flushing k (fb w) g i (q_c q) Hfl Hon Hgi) as (f' & -> & Hset & Hfl' & Hmap & Hgrid).
  cbn [mbind option_bind]. eexists. split; [done|]. cbn [fb vram flushes].
  assert (Hmi : aget (buf_data (map f')) i = Some None) by (by rewrite Hmap, Z.eqb_refl).
  split_and!.
  - eapply flushing_next; [exact Hfl'| |exact Hat|exact Hmi]. rewrite Hset. exact Hq.
  - intros j Hj' Hh. rewrite Hgrid. destruct (Z.eqb_spec j i) as [->|Hne].
    + exists (q_c q). split; [done|]. by apply (settled_shown (fb w)).
    + destruct (Hdis j Hj' Hh) as (c & Hc & Hsc). exists c. split; [done|].
      apply (settled_shown (fb w)); [done|]. by apply Hoth.
  - constructor; [done|done|done|]. cbn [fb vram]. intros j c Hj' Hn Hsc. rewrite Hmap.
    destruct (Z.eqb_spec j i) as [->|Hne]; [congruence|]. split; [|done].
    apply (settled_shown (fb w)); [done|]. by apply Hoth.
Qed.

Lemma flush_loop_redrawn n k w g hidden :
  drawing_ok W H (fb w) -> flushing k (fb w) g -> 0 <= k -> k + Z.of_nat n = queue_i (fb w) ->
  displayed (fb w) (vram w) hidden ->
  exists w', fb_for n k (flush_entry t) w = Some w' /\ flushing (queue_i (fb w)) (fb w') g /\
    displayed (fb w') (vram w') hidden /\ redrawn w w'.
Proof.
  revert k w. induction n as [|n IH]; intros k w Hd Hfl Hk Hn Hdis; cbn [fb_for].
  { exists w. replace (queue_i (fb w)) with k by lia. split_and!; [done..|apply redrawn_refl]. }
  destruct (flush_entry_redrawn k w g hidden Hd Hfl ltac:(lia) Hk Hdis) as (w1 & -> & Hfl1 & Hdis1 & Hr1).
  cbn [mbind option_bind]. pose proof (rd_settled _ _ Hr1) as Hset.
  assert (Hqi : queue_i (fb w1) = queue_i (fb w)) by (by rewrite Hset).
  destruct (IH (k + 1) w1) as (w' & E & Hfl' & Hdis' & Hr'); [|done|lia|lia|done|].
  { by eapply drawing_settled. }
  exists w'. rewrite <- Hqi. split_and!; [done..|by eapply redrawn_trans].
Qed.

(** ** The cursor *)

Definition cursor_cell (x y i : Z) : bool := (x <? W) && (y <? H) && (i =? y * W + x).

Lemma cursor_cell_at x y i : cursor_cell x y i = true -> x < W /\ y < H /\ i = y * W + x.
Proof. unfold cursor_cell. lia. Qed.

Definition cursor_of f : Z -> bool := cursor_cell (cursor_x f) (cursor_y f).
Definition old_cursor_of f : Z -> bool := cursor_cell (old_cursor_x f) (old_cursor_y f).

Definition cursors_ok f : Prop :=
  0 <= cursor_x f /\ 0 <= cursor_y f /\ 0 <= old_cursor_x f /\ 0 <= old_cursor_y f.

(** A cell that shows its character of the screen in inverse colours and is
    not in the queue. *)
Definition marked w g (i : Z) : Prop :=
  aget (buf_data (map (fb w))) i = Some None /\
  exists c, g i = Some c /\ shows (fb w) (vram w) i (inverse c).

Lemma draw_cursor_shows w g hidden :
  drawing_ok W H (fb w) -> cursors_ok (fb w) -> store W H (fb w) g ->
  displayed (fb w) (vram w) hidden ->
  exists w', draw_cursor t w = Some w' /\ flushing 0 (fb w') g /\ settled (fb w) (fb w') /\
    flushes w' = flushes w /\ agree_off (in_framebuffer (fb w)) (vram w) (vram w') /\
    displayed (fb w') (vram w') (fun i => hidden i || cursor_of (fb w) i) /\
    (forall i, cursor_of (fb w) i = true -> marked w' g i).
Proof.
  intros Hd (Hx & Hy & _) Hst Hdis. unfold draw_cursor. rewrite (g_cols _ _ _ Ht), (g_rows _ _ _ Ht).
  unfold cursor_of. set (f := fb w) in *. set (x := cursor_x f) in *. set (y := cursor_y f) in *.
  destruct ((W <=? x) || (H <=? y)) eqn:Eo.
  { exists w. split_and!; [done|by apply store_flushing|apply settled_refl|done|apply agree_off_refl| |].
    - intros i Hi Hh. apply orb_false_iff in Hh as [Hh _]. by apply Hdis.
    - intros i (? & ? & _)%cursor_cell_at. lia. }
  assert (Hx' : 0 <= x < W) by lia. assert (Hy' : 0 <= y < H) by lia.
  pose proof (index_on_screen W H HW HH x y Hx' Hy') as Hon. pose proof Hon as Hr. unfold FlantermStore.on_screen in Hr.
  rewrite (u64_small (y * W)), (u64_small (x + y * W)), (Z.add_comm x) by nia.
  destruct (st_glyph _ _ _ _ Hst _ Hon) as (c & Hc & Hgl). rewrite (st_cell _ _ _ _ Hst _ Hon), Hc.
  cbn [mbind option_bind].
  destruct (aget_in (buf_data (map f)) (y * W + x)) as [q Hq]; [rewrite (sz_map _ _ _ (st_sizes _ _ _ _ Hst)); lia|].
  rewrite Hq. cbn [mbind option_bind].
  destruct (plot_shows f (inverse c) x y (vram w) Hd Hx' Hy' Hgl) as (m & Ep & Hs & Hoth & Hoff).
  fold (inverse c). rewrite Ep. cbn [mbind option_bind].
  assert (exists f', match q with Some _ => settle f (y * W + x) c | None => Some f end = Some f' /\ settled f f' /\
    flushing 0 f' g /\ aget (buf_data (map f')) (y * W + x) = Some None /\
    (forall j, j <> y * W + x -> aget (buf_data (grid f')) j = aget (buf_data (grid f)) j))
    as (f' & -> & Hset & Hfl & Hm & Hg).
  { destruct q as [j|].
    - destruct (settle_flushing 0 f g (y * W + x) c (store_flushing f g Hst) Hon Hc) as (f' & E & Hset & Hfl & Hm & Hg).
      exists f'. split_and!; [done..| |].
      + by rewrite Hm, Z.eqb_refl.
      + intros j' Hj'. rewrite Hg. by destruct (Z.eqb_spec j' (y * W + x)).
    - exists f. split_and!; [done|apply settled_refl|by apply store_flushing|done|done]. }
  cbn [mbind option_bind]. eexists. split; [done|]. cbn [fb vram flushes]. split_and!; [done..| |].
  - intros i Hi Hh. apply orb_false_iff in Hh as [Hh Hcur].
    assert (Hne : i <> y * W + x) by (intros ->; unfold cursor_cell in Hcur; lia).
    destruct (Hdis i Hi Hh) as (c' & Hc' & Hs'). exists c'. rewrite Hg by done. split; [done|].
    apply (settled_shown f); [done|]. by apply Hoth.
  - intros i (_ & _ & ->)%cursor_cell_at. split; [done|]. exists c. split; [done|].
    by apply (settled_shown f).
Qed.

(** The cell that the cursor has left, or that shows a cursor which is now
    hidden, is drawn again. *)
Lemma redraw_old_shows w g (cur : Z -> bool) :
  drawing_ok W H (fb w) -> cursors_ok (fb w) -> sizes W H (fb w) ->
  (forall i, on_screen i -> aget (buf_data (grid (fb w))) i = g i) ->
  (forall i, on_screen i -> exists c, g i = Some c /\ glyph c) ->
  cur = (fun i => cursor_enabled t && cursor_of (fb w) i) ->
  displayed (fb w) (vram w) (fun i => old_cursor_of (fb w) i || cur i) ->
  (forall i, cur i = true -> marked w g i) ->
  exists w', redraw_old_cursor t w = Some w' /\ fb w' = fb w /\ flushes w' = flushes w /\
    agree_off (in_framebuffer (fb w)) (vram w) (vram w') /\
    displayed (fb w') (vram w') cur /\ (forall i, cur i = true -> marked w' g i).
Proof.
  intros Hd (Hx & Hy & Hox & Hoy) Hs Hgrid Hgl Hcur Hdis Hmark. unfold redraw_old_cursor.
  rewrite (g_cols _ _ _ Ht), (g_rows _ _ _ Ht). set (f := fb w) in *.
  set (x := old_cursor_x f) in *. set (y := old_cursor_y f) in *.
  destruct ((negb (x =? cursor_x f) || negb (y =? cursor_y f)) || negb (cursor_enabled t)) eqn:Em;
    [destruct ((x <? W) && (y <? H)) eqn:Er|].
  - assert (Hx' : 0 <= x < W) by lia. assert (Hy' : 0 <= y < H) by lia.
    pose proof (index_on_screen W H HW HH x y Hx' Hy') as Hon. pose proof Hon as Hr. unfold FlantermStore.on_screen in Hr.
    rewrite (u64_small (y * W)), (u64_small (x + y * W)), (Z.add_comm x), Hgrid by (done || nia).
    destruct (Hgl _ Hon) as (c & Hc & Hgc). rewrite Hc. cbn [mbind option_bind].
    destruct (plot_shows f c x y (vram w) Hd Hx' Hy' Hgc) as (m & -> & Hsh & Hoth & Hoff).
    cbn [mbind option_bind]. eexists. split; [done|]. cbn [fb vram flushes]. split_and!; [done..| |].
    + intros i Hi Hh. destruct (Z.eq_dec i (y * W + x)) as [->|Hne].
      { exists c. by rewrite Hgrid. }
      destruct (Hdis i Hi) as (c' & Hc' & Hs'); [|exists c'; split; [done|by apply Hoth]].
      rewrite Hh, orb_false_r. unfold old_cursor_of, cursor_cell. fold f x y. lia.
    + intros i Hi. destruct (Hmark i Hi) as (Hm & c' & Hc' & Hs'). split; [done|]. exists c'. split; [done|].
      rewrite Hcur in Hi. apply andb_true_iff in Hi as [He (? & ? & Hi)%cursor_cell_at].
      apply Hoth; [rewrite Hi; apply index_on_screen; lia| |done]. intros Heq. subst i.
      assert (cursor_x f = x /\ cursor_y f = y) as [Ex Ey]; [apply line_inj with (s := W); lia|].
      by rewrite Ex, Ey, He, !Z.eqb_refl in Em.
  - exists w. split_and!; [done..|apply agree_off_refl| |done]. intros i Hi Hh. apply Hdis; [done|].
    rewrite Hh, orb_false_r. unfold old_cursor_of, cursor_cell. fold f x y. by rewrite Er.
  - exists w. split_and!; [done..|apply agree_off_refl| |done]. intros i Hi Hh. apply Hdis; [done|].
    rewrite Hh, orb_false_r. rewrite Hcur in Hh. unfold old_cursor_of, cursor_of in *. fold f x y.
    assert (x = cursor_x f /\ y = cursor_y f) as [-> ->] by lia.
    destruct (cursor_enabled t); [done|]. cbn in Em. lia.
Qed.

(** ** The flush *)

(** The whole queue is drawn: no cell has a pointer left, so the grid is the
    screen. *)
Lemma flushing_done f g :
  flushing (queue_i f) f g ->
  (forall i, on_screen i -> aget (buf_data (map f)) i = Some None) /\
  (forall i, on_screen i -> aget (buf_data (grid f)) i = g i).
Proof.
  intros Hfl. pose proof (fl_sizes _ _ _ Hfl) as Hs.
  assert (Hm : forall i, on_screen i -> aget (buf_data (map f)) i = Some None).
  { intros i Hi. destruct (aget_in (buf_data (map f)) i) as [[j|] Hq]; [by rewrite (sz_map _ _ _ Hs)| |done].
    destruct (fl_map _ _ _ Hfl i j Hq) as [? _]. lia. }
  split; [done|]. intros i Hi. rewrite <- (fl_cell _ _ _ Hfl i Hi). unfold cell. by rewrite Hm.
Qed.

(** [f'] is [f] after a flush. *)
Definition flushed f f' : Prop :=
  f' = set_queue_i 0 (set_old_cursor_y (cursor_y f) (set_old_cursor_x (cursor_x f)
         (set_map (map f') (set_grid (grid f') f)))).

Lemma flushed_store f g x y :
  flushing (queue_i f) f g -> store W H (set_queue_i 0 (set_old_cursor_y y (set_old_cursor_x x f))) g.
Proof.
  intros Hfl. destruct (flushing_done _ _ Hfl) as [Hm Hg].
  pose proof (fl_sizes _ _ _ Hfl) as [? Hsm ? ? ?]. constructor; cbn.
  - constructor; cbn; done || nia.
  - intros i j Hi. pose proof (aget_Some_range _ _ _ Hi) as Hr. rewrite Hsm in Hr.
    rewrite Hm in Hi; done.
  - lia.
  - intros i Hi. unfold cell. cbn. by rewrite Hm, Hg.
  - apply Hfl.
Qed.

Lemma settled_flushed f f' :
  settled f f' -> flushed f (set_queue_i 0 (set_old_cursor_y (cursor_y f') (set_old_cursor_x (cursor_x f') f'))).
Proof. intros E. unfold settled in E. rewrite E. reflexivity. Qed.

(** The screen that the user sees after a flush. *)
Definition presented f (m : mem) g : Prop :=
  forall i, on_screen i -> exists c, g i = Some c /\
    shows f m i (if cursor_enabled t && cursor_of f i then inverse c else c).

(** The first step of the flush: the cursor, when it is enabled. *)
Lemma flush_cursor_shows w g :
  drawing_ok W H (fb w) -> cursors_ok (fb w) -> store W H (fb w) g ->
  displayed (fb w) (vram w) (old_cursor_of (fb w)) ->
  let cur i := cursor_enabled t && cursor_of (fb w) i in
  exists w1, (if cursor_enabled t then draw_cursor t w else Some w) = Some w1 /\ flushing 0 (fb w1) g /\
    settled (fb w) (fb w1) /\ agree_off (in_framebuffer (fb w)) (vram w) (vram w1) /\
    displayed (fb w1) (vram w1) (fun i => old_cursor_of (fb w) i || cur i) /\
    (forall i, cur i = true -> marked w1 g i).
Proof.
  intros Hd Hcs Hst Hdis cur. unfold cur. destruct (cursor_enabled t).
  - destruct (draw_cursor_shows w g _ Hd Hcs Hst Hdis) as (w1 & ? & ? & ? & ? & ? & ? & ?). by exists w1.
  - exists w. split_and!; [done|by apply store_flushing|apply settled_refl|apply agree_off_refl| |done].
    intros i Hi Hh. rewrite orb_false_r in Hh. by apply Hdis.
Qed.

Lemma flush_presents w g :
  drawing_ok W H (fb w) -> cursors_ok (fb w) -> store W H (fb w) g ->
  displayed (fb w) (vram w) (old_cursor_of (fb w)) ->
  exists w', flanterm_fb_double_buffer_flush t w = Some w' /\ flushed (fb w) (fb w') /\
    store W H (fb w') g /\ displayed (fb w') (vram w') (old_cursor_of (fb w')) /\
    presented (fb w') (vram w') g /\ agree_off (in_framebuffer (fb w)) (vram w) (vram w').
Proof.
  intros Hd Hcs Hst Hdis. unfold flanterm_fb_double_buffer_flush.
  set (cur := fun i => cursor_enabled t && cursor_of (fb w) i).
  destruct (flush_cursor_shows w g Hd Hcs Hst Hdis) as (w1 & -> & Hfl1 & Hset1 & Hoff1 & Hdis1 & Hm1).
  cbn [mbind option_bind]. pose proof (drawing_settled _ _ _ _ Hset1 Hd) as Hd1.
  pose proof (sz_queue_i _ _ _ (fl_sizes _ _ _ Hfl1)) as Hqi.
  destruct (flush_loop_redrawn (Z.to_nat (queue_i (fb w1))) 0 w1 g _ Hd1 Hfl1 ltac:(lia) ltac:(lia) Hdis1)
    as (w2 & -> & Hfl2 & Hdis2 & [Hset2 _ Hoff2 Hkept]).
  cbn [mbind option_bind]. pose proof (settled_trans _ _ _ Hset1 Hset2) as Hset.
  pose proof (drawing_settled _ _ _ _ Hset Hd) as Hd2.
  assert (Hc2 : forall i, cursor_of (fb w2) i = cursor_of (fb w) i) by (intros; by rewrite Hset).
  assert (Ho2 : forall i, old_cursor_of (fb w2) i = old_cursor_of (fb w) i) by (intros; by rewrite Hset).
  replace (queue_i (fb w1)) with (queue_i (fb w2)) in Hfl2 by (by rewrite Hset2).
  destruct (flushing_done _ _ Hfl2) as [Hmap Hgrid].
  destruct (redraw_old_shows w2 g (fun i => cursor_enabled t && cursor_of (fb w2) i))
    as (w3 & -> & Hf3 & _ & Hoff3 & Hdis3 & Hm3).
  { done. } { rewrite Hset. exact Hcs. } { apply Hfl2. } { done. } { apply Hfl2. } { done. }
  { intros i Hi Hh. apply Hdis2; [done|]. unfold cur. by rewrite <- Ho2, <- Hc2. }
  { intros i Hi. rewrite Hc2 in Hi. destruct (Hm1 i Hi) as (Hn & c & Hc & Hs).
    assert (Hon : on_screen i).
    { pose proof (aget_Some_range _ _ _ Hn) as Hr. rewrite (sz_map _ _ _ (fl_sizes _ _ _ Hfl1)) in Hr. done. }
    destruct (Hkept i _ Hon Hn Hs) as [Hs' Hn']. split; [done|]. by exists c. }
  cbn [mbind option_bind]. rewrite Hf3 in *. eexists. split; [done|].
  unfold notify_flush. cbn [fb vram].
  set (f3 := set_queue_i 0 (set_old_cursor_y (cursor_y (fb w2)) (set_old_cursor_x (cursor_x (fb w2)) (fb w2)))).
  assert (Hff : flushed (fb w) f3) by (by apply settled_flushed).
  assert (Hst3 : store W H f3 g) by (by apply flushed_store).
  assert (Hd3 : displayed f3 (vram w3) (old_cursor_of f3)).
  { intros i Hi Hh. apply (Hdis3 i Hi). change (old_cursor_of f3 i) with (cursor_of (fb w2) i) in Hh.
    rewrite Hh. apply andb_false_r. }
  assert (Hp3 : presented f3 (vram w3) g).
  { intros i Hi. change (cursor_of f3 i) with (cursor_of (fb w2) i).
    destruct (cursor_enabled t && cursor_of (fb w2) i) eqn:E.
    - destruct (Hm3 i E) as (_ & c & Hc & Hs). rewrite Hf3 in Hs. exists c. split; [exact Hc|exact Hs].
    - destruct (Hdis3 i Hi E) as (c & Hc & Hs). exists c. rewrite <- Hgrid by done. split; [exact Hc|exact Hs]. }
  assert (Hoff : agree_off (in_framebuffer (fb w)) (vram w) (vram w3)).
  { eapply agree_off_trans; [exact Hoff1|]. eapply agree_off_trans.
    - intros a Ha. apply Hoff2. rewrite Hset1. exact Ha.
    - intros a Ha. apply Hoff3. rewrite Hset. exact Ha. }
  destruct (flush_callback f3); cbn [fb vram]; by split_and!.
Qed.
End flush.
