(* ===== verification/FlantermFbSpec.v ===== *)
(** * The frame buffer backend implements the screen

    [refines] relates the state of fb.c to the plain screen of FlantermScreen.v;
    [fb_backend] discharges the interface of FlantermSim.v for the two.  With the
    parser's side of it (FlantermSafe.v) whatever is written to the terminal is
    processed without an access out of bounds, the characters on the screen are
    those that the plain array would hold, and the frame buffer shows them. *)

From S2P Require Import Prelude Memory Arrays Wcwidth Flanterm FlantermSim FlantermSafe FlantermFb FlantermPlot.
From S2P Require Import FlantermScreen FlantermStore FlantermFlush.

Definition palette_of (f : flanterm_fb_context) : palette :=
  mk_palette (ansi_colours f) (ansi_bright_colours f) (default_fg f) (default_fg_bright f)
    (default_bg_bright f) (convert_colour f).

Definition text_of (f : flanterm_fb_context) : text_state :=
  mk_text (text_fg f) (text_bg f) (cursor_x f) (cursor_y f).
Definition saved_of (f : flanterm_fb_context) : text_state :=
  mk_text (saved_state_text_fg f) (saved_state_text_bg f) (saved_state_cursor_x f) (saved_state_cursor_y f).

Definition size_t (v : Z) : Prop := 0 <= v < 2 ^ 64.
Definition position_ok (s : text_state) : Prop := size_t (s_x s) /\ size_t (s_y s).

Section refinement.
Context (W H : Z) (HW : 1 <= W < 2 ^ 31) (HH : 1 <= H < 2 ^ 31).
Context (P : palette) (HP : zlen (p_ansi P) = 8 /\ zlen (p_bright P) = 8).
(** The memory as it was before the terminal drew anything. *)
Context (m0 : mem).

Record refines (w : fb_world) (s : screen) : Prop := mk_refines {
  rf_store : store W H (fb w) (aget (s_cells s));
  rf_len : zlen (s_cells s) = H * W;
  rf_drawing : drawing_ok W H (fb w);
  rf_displayed : displayed W H (fb w) (vram w) (old_cursor_of W H (fb w));
  rf_palette : palette_of (fb w) = P;
  rf_text : text_of (fb w) = s_text s;
  rf_saved : saved_of (fb w) = s_saved s;
  rf_position : position_ok (s_text s) /\ position_ok (s_saved s);
  rf_old : 0 <= old_cursor_x (fb w) /\ 0 <= old_cursor_y (fb w);
  rf_off : agree_off (in_framebuffer (fb w)) m0 (vram w)
}.

Definition with_fb (f : flanterm_fb_context) (w : fb_world) : fb_world := mk_world f (vram w) (flushes w).

(** ** Changes of the queue *)

Lemma refines_queued w s f' l' :
  refines w s -> queued (fb w) f' -> store W H f' (aget l') -> zlen l' = H * W ->
  refines (with_fb f' w) (mk_screen l' (s_text s) (s_saved s)).
Proof.
  intros [Hst Hl Hd Hdis Hp Ht Hs Hpos Ho Hoff] [Eq Eg] Hst' Hl'.
  constructor; cbn [fb vram with_fb s_cells s_text s_saved]; [done|done| | | | | |done| |].
  - rewrite Eq. keep_drawing Hd.
  - intros i Hi Hh. rewrite Eg. rewrite Eq in Hh |- *. exact (Hdis i Hi Hh).
  - by rewrite Eq.
  - by rewrite Eq.
  - by rewrite Eq.
  - by rewrite Eq.
  - rewrite Eq. exact Hoff.
Qed.

(** ** Changes of the text state *)

(** The backend with another text state, and another saved one. *)
Definition with_text (x x' : text_state) (f : flanterm_fb_context) : flanterm_fb_context :=
  set_saved_state_cursor_y (s_y x') (set_saved_state_cursor_x (s_x x')
    (set_saved_state_text_bg (s_bg x') (set_saved_state_text_fg (s_fg x')
      (set_cursor_y (s_y x) (set_cursor_x (s_x x) (set_text_bg (s_bg x) (set_text_fg (s_fg x) f))))))).

Lemma store_text f g x x' : store W H f g -> store W H (with_text x x' f) g.
Proof. intros [[] Hm Hl Hc Hg]. constructor; [constructor|..]; assumption. Qed.

Lemma refines_text w s x x' :
  refines w s -> position_ok x -> position_ok x' ->
  refines (with_fb (with_text x x' (fb w)) w) (mk_screen (s_cells s) x x').
Proof.
  intros [Hst Hl Hd Hdis Hp Ht Hs Hpos Ho Hoff] Hx Hx'.
  constructor; cbn [fb vram with_fb s_cells s_text s_saved]; [by apply store_text|done| |exact Hdis| | | |done|done|exact Hoff].
  - keep_drawing Hd.
  - rewrite <- Hp. reflexivity.
  - by destruct x.
  - by destruct x'.
Qed.

(** An operation that changes the text state alone. *)
Lemma lift_text (h : flanterm_fb_context -> flanterm_fb_context) w s x x' :
  refines w s -> position_ok x -> position_ok x' -> h (fb w) = with_text x x' (fb w) ->
  agree refines (lift h w) (Some (mk_screen (s_cells s) x x')).
Proof.
  intros Hr Hx Hx' E. unfold agree, lift, lifto. cbn [mbind option_bind]. rewrite E.
  eexists _, _. split_and!; [done..|]. by apply refines_text.
Qed.

Lemma text_facts w s :
  refines w s ->
  s_text s = text_of (fb w) /\ s_saved s = saved_of (fb w) /\ position_ok (text_of (fb w)) /\ position_ok (saved_of (fb w)).
Proof.
  intros Hr. rewrite (rf_text _ _ Hr), (rf_saved _ _ Hr). split_and!; [done..|apply Hr|apply Hr].
Qed.

Lemma lift_on_text (h : flanterm_fb_context -> flanterm_fb_context) g w s :
  refines w s -> position_ok (g (text_of (fb w))) ->
  h (fb w) = with_text (g (text_of (fb w))) (saved_of (fb w)) (fb w) ->
  agree refines (lift h w) (Some (on_text g s)).
Proof.
  intros Hr Hg E. destruct (text_facts _ _ Hr) as (Et & Es & Hx & Hx'). unfold on_text. rewrite Et, Es.
  by apply lift_text.
Qed.

(** Colours: only the two colours of the text change. *)
Ltac colour_op :=
  intros t v w s Ht Hv Hr; apply lift_on_text; [done|by destruct (text_facts _ _ Hr) as (_ & _ & [] & _)|];
  rewrite <- ?(rf_palette _ _ Hr); by destruct (fb w).

Lemma f_fg_rgb : same_op W H refines (fun _ => True) (op_set_text_fg_rgb fb_ops) (op_set_text_fg_rgb (screen_ops P)).
Proof. colour_op. Qed.
Lemma f_bg_rgb : same_op W H refines (fun _ => True) (op_set_text_bg_rgb fb_ops) (op_set_text_bg_rgb (screen_ops P)).
Proof. colour_op. Qed.
Lemma f_fg_default : same_op W H refines (fun _ : unit => True)
  (fun t _ => op_set_text_fg_default fb_ops t) (fun t _ => op_set_text_fg_default (screen_ops P) t).
Proof. colour_op. Qed.
Lemma f_bg_default : same_op W H refines (fun _ : unit => True)
  (fun t _ => op_set_text_bg_default fb_ops t) (fun t _ => op_set_text_bg_default (screen_ops P) t).
Proof. colour_op. Qed.
Lemma f_fg_default_bright : same_op W H refines (fun _ : unit => True)
  (fun t _ => op_set_text_fg_default_bright fb_ops t) (fun t _ => op_set_text_fg_default_bright (screen_ops P) t).
Proof. colour_op. Qed.
Lemma f_bg_default_bright : same_op W H refines (fun _ : unit => True)
  (fun t _ => op_set_text_bg_default_bright fb_ops t) (fun t _ => op_set_text_bg_default_bright (screen_ops P) t).
Proof. colour_op. Qed.
Lemma f_swap_palette : same_op W H refines (fun _ : unit => True)
  (fun t _ => op_swap_palette fb_ops t) (fun t _ => op_swap_palette (screen_ops P) t).
Proof. colour_op. Qed.

(** Colours by number. *)

Lemma lifto_Some (h : flanterm_fb_context -> option flanterm_fb_context) (h' : flanterm_fb_context -> flanterm_fb_context) w :
  h (fb w) = Some (h' (fb w)) -> lifto h w = lift h' w.
Proof. intros E. unfold lift, lifto. by rewrite E. Qed.

Lemma palette_lookup w s v :
  refines w s -> in_range 8 v ->
  (exists c, aget (p_ansi P) v = Some c /\ aget (ansi_colours (fb w)) v = Some c) /\
  (exists c, aget (p_bright P) v = Some c /\ aget (ansi_bright_colours (fb w)) v = Some c).
Proof.
  intros Hr Hv. unfold in_range in Hv. destruct HP as [H1 H2]. rewrite <- (rf_palette _ _ Hr) in *.
  cbn [palette_of p_ansi p_bright] in *.
  destruct (aget_in (ansi_colours (fb w)) v) as [c Hc]; [lia|].
  destruct (aget_in (ansi_bright_colours (fb w)) v) as [c' Hc']; [lia|]. split; eauto.
Qed.

Lemma f_number (op1 : Z -> flanterm_fb_context -> option flanterm_fb_context) (l : palette -> list Z)
    (put : Z -> text_state -> text_state) (h : Z -> flanterm_fb_context -> flanterm_fb_context) :
  (forall w s v, refines w s -> in_range 8 v -> exists c, aget (l P) v = Some c /\ op1 v (fb w) = Some (h c (fb w))) ->
  (forall c f, h c f = with_text (put c (text_of f)) (saved_of f) f) ->
  (forall c x, position_ok x -> position_ok (put c x)) ->
  same_op W H refines (in_range 8) (fun _ v => lifto (op1 v))
    (fun _ v s => c ← aget (l P) v; Some (on_text (put c) s)).
Proof.
  intros Hop Hh Hput t v w s Ht Hv Hr. destruct (Hop w s v Hr Hv) as (c & Hc & E). rewrite Hc. cbn [mbind option_bind].
  rewrite (lifto_Some _ (h c)) by done. apply lift_on_text; [done| |apply Hh].
  apply Hput. by destruct (text_facts _ _ Hr) as (_ & _ & ? & _).
Qed.

Lemma f_fg : same_op W H refines (in_range 8) (op_set_text_fg fb_ops) (op_set_text_fg (screen_ops P)).
Proof.
  apply (f_number flanterm_fb_set_text_fg p_ansi put_fg set_text_fg); [|by intros c []|by intros c x []].
  intros w s v Hr Hv. destruct (palette_lookup w s v Hr Hv) as [(c & H1 & H2) _].
  exists c. unfold flanterm_fb_set_text_fg. by rewrite H2.
Qed.
Lemma f_bg : same_op W H refines (in_range 8) (op_set_text_bg fb_ops) (op_set_text_bg (screen_ops P)).
Proof.
  apply (f_number flanterm_fb_set_text_bg p_ansi put_bg set_text_bg); [|by intros c []|by intros c x []].
  intros w s v Hr Hv. destruct (palette_lookup w s v Hr Hv) as [(c & H1 & H2) _].
  exists c. unfold flanterm_fb_set_text_bg. by rewrite H2.
Qed.
Lemma f_fg_bright : same_op W H refines (in_range 8) (op_set_text_fg_bright fb_ops) (op_set_text_fg_bright (screen_ops P)).
Proof.
  apply (f_number flanterm_fb_set_text_fg_bright p_bright put_fg set_text_fg); [|by intros c []|by intros c x []].
  intros w s v Hr Hv. destruct (palette_lookup w s v Hr Hv) as [_ (c & H1 & H2)].
  exists c. unfold flanterm_fb_set_text_fg_bright. by rewrite H2.
Qed.
Lemma f_bg_bright : same_op W H refines (in_range 8) (op_set_text_bg_bright fb_ops) (op_set_text_bg_bright (screen_ops P)).
Proof.
  apply (f_number flanterm_fb_set_text_bg_bright p_bright put_bg set_text_bg); [|by intros c []|by intros c x []].
  intros w s v Hr Hv. destruct (palette_lookup w s v Hr Hv) as [_ (c & H1 & H2)].
  exists c. unfold flanterm_fb_set_text_bg_bright. by rewrite H2.
Qed.

(** The saved state and the cursor. *)
Lemma f_save_state : same_op W H refines (fun _ : unit => True)
  (fun t _ => op_save_state fb_ops t) (fun t _ => op_save_state (screen_ops P) t).
Proof.
  intros t v w s Ht Hv Hr. destruct (text_facts _ _ Hr) as (Et & Es & Hx & Hx'). cbn. rewrite Et.
  apply lift_text; [done..|]. by destruct (fb w).
Qed.
Lemma f_restore_state : same_op W H refines (fun _ : unit => True)
  (fun t _ => op_restore_state fb_ops t) (fun t _ => op_restore_state (screen_ops P) t).
Proof.
  intros t v w s Ht Hv Hr. destruct (text_facts _ _ Hr) as (Et & Es & Hx & Hx'). cbn. rewrite Es.
  apply lift_text; [done..|]. by destruct (fb w).
Qed.

Lemma clamp_size n v : 1 <= n < 2 ^ 31 -> size_t v -> size_t (clamp n v).
Proof. unfold clamp, size_t. intros. repeat case_match; lia. Qed.

Lemma f_set_cursor_pos : same_op W H refines (fun p => 0 <= p.1 < 2 ^ 64 /\ 0 <= p.2 < 2 ^ 64)
  (fun t p => op_set_cursor_pos fb_ops t p.1 p.2) (fun t p => op_set_cursor_pos (screen_ops P) t p.1 p.2).
Proof.
  intros t [x y] w s Ht Hv Hr. cbn in *. apply lift_on_text; [done| |].
  - rewrite (g_cols _ _ _ Ht), (g_rows _ _ _ Ht). split; apply clamp_size; done || apply Hv.
  - unfold flanterm_fb_set_cursor_pos, clamp. rewrite (g_cols _ _ _ Ht), (g_rows _ _ _ Ht).
    rewrite !u64_small by lia. by destruct (fb w).
Qed.

Lemma f_get_cursor_pos t w s :
  geometry W H t -> refines w s ->
  op_get_cursor_pos fb_ops t w = op_get_cursor_pos (screen_ops P) t s /\
  in_range W (op_get_cursor_pos fb_ops t w).1 /\ in_range H (op_get_cursor_pos fb_ops t w).2.
Proof.
  intros Ht Hr. destruct (text_facts _ _ Hr) as (Et & _ & [Hx Hy] & _). cbn.
  unfold flanterm_fb_get_cursor_pos, screen_get_cursor_pos. rewrite Et, (g_cols _ _ _ Ht), (g_rows _ _ _ Ht).
  cbn [text_of s_x s_y] in *. unfold size_t, in_range in *. rewrite !u64_small by lia. cbn [fst snd].
  split_and!; [|case_match; lia..]. f_equal; case_match; lia.
Qed.

(** ** Changes of the cells *)

Lemma cell_in l i : zlen l = H * W -> on_screen W H i -> exists c, aget l i = Some (c : flanterm_fb_char).
Proof. intros Hl Hi. apply aget_in. by rewrite Hl. Qed.

Lemma blank_empty w s : refines w s -> blank s = empty (fb w).
Proof. intros Hr. unfold blank. by rewrite <- (rf_text _ _ Hr). Qed.

(** A step of the backend that leaves a queue for the cells [l']. *)
Lemma lifto_cells (h : flanterm_fb_context -> option flanterm_fb_context) w s f' g l' :
  refines w s -> h (fb w) = Some f' -> store W H f' g -> queued (fb w) f' ->
  zlen l' = H * W -> (forall i, on_screen W H i -> g i = aget l' i) ->
  agree refines (lifto h w) (Some (mk_screen l' (s_text s) (s_saved s))).
Proof.
  intros Hr E Hst Hq Hl Hg. unfold lifto. rewrite E. cbn [mbind option_bind]. eexists _, _. split_and!; [done..|].
  apply refines_queued; [done|done| |done]. by eapply store_ext.
Qed.

Lemma up_cells t l e i :
  geometry W H t -> zlen l = H * W -> on_screen W H i ->
  up W t (aget l) e i = aget (by_cell (cell_up t e l) l) i.
Proof.
  intros Ht Hl Hi. pose proof (margin_facts W H HW HH t Ht) as (? & ? & ? & ? & ? & ? & ?).
  rewrite aget_by_cell. destruct (cell_in l i Hl Hi) as [c Hc]. unfold on_screen in Hi.
  unfold up, cell_up. rewrite Hc, (g_cols _ _ _ Ht). cbn [fmap option_fmap option_map].
  destruct (((scroll_bottom_margin t - 1) * W <=? i) && (i <? scroll_bottom_margin t * W)); [done|].
  destruct ((scroll_top_margin t * W <=? i) && (i <? (scroll_bottom_margin t - 1) * W)) eqn:E; [|done].
  destruct (cell_in l (i + W) Hl) as [d ->]; [unfold on_screen; lia|done].
Qed.

Lemma down_cells t l e i :
  geometry W H t -> zlen l = H * W -> on_screen W H i ->
  down W t (aget l) e i = aget (by_cell (cell_down t e l) l) i.
Proof.
  intros Ht Hl Hi. pose proof (margin_facts W H HW HH t Ht) as (? & ? & ? & ? & ? & ? & ?).
  rewrite aget_by_cell. destruct (cell_in l i Hl Hi) as [c Hc]. unfold on_screen in Hi.
  unfold down, cell_down. rewrite Hc, (g_cols _ _ _ Ht). cbn [fmap option_fmap option_map].
  destruct ((scroll_top_margin t * W <=? i) && (i <? (scroll_top_margin t + 1) * W)); [done|].
  destruct (((scroll_top_margin t + 1) * W <=? i) && (i <? scroll_bottom_margin t * W)) eqn:E; [|done].
  destruct (cell_in l (i - W) Hl) as [d ->]; [unfold on_screen; lia|done].
Qed.

Lemma f_scroll : same_op W H refines (fun _ : unit => True)
  (fun t _ => op_scroll fb_ops t) (fun t _ => op_scroll (screen_ops P) t).
Proof.
  intros t [] w s Ht _ Hr. destruct (scroll_store W H HW HH t Ht (fb w) _ (rf_store _ _ Hr)) as (f' & E & Hst & Hq).
  pose proof (rf_len _ _ Hr). cbn. unfold screen_scroll, on_cells. rewrite (blank_empty w s Hr).
  eapply lifto_cells; [done..|by rewrite zlen_by_cell|]. intros i Hi. by apply up_cells.
Qed.

Lemma f_revscroll : same_op W H refines (fun _ : unit => True)
  (fun t _ => op_revscroll fb_ops t) (fun t _ => op_revscroll (screen_ops P) t).
Proof.
  intros t [] w s Ht _ Hr. destruct (revscroll_store W H HW HH t Ht (fb w) _ (rf_store _ _ Hr)) as (f' & E & Hst & Hq).
  pose proof (rf_len _ _ Hr). cbn. unfold screen_revscroll, on_cells. rewrite (blank_empty w s Hr).
  eapply lifto_cells; [done..|by rewrite zlen_by_cell|]. intros i Hi. by apply down_cells.
Qed.

Lemma f_clear : same_op W H refines (fun _ => True) (op_clear fb_ops) (op_clear (screen_ops P)).
Proof.
  intros t mv w s Ht _ Hr. destruct (clear_store W H HW HH t Ht (fb w) _ (rf_store _ _ Hr)) as (f' & E & Hst & Hq).
  pose proof (rf_len _ _ Hr) as Hl. cbn. unfold lifto, flanterm_fb_clear, screen_clear.
  rewrite (g_cols _ _ _ Ht), (g_rows _ _ _ Ht), E, (blank_empty w s Hr). cbn [mbind option_bind].
  set (l' := by_cell (fun _ _ => empty (fb w)) (s_cells s)).
  assert (Hr' : refines (with_fb f' w) (mk_screen l' (s_text s) (s_saved s))).
  { apply refines_queued; [done|done| |unfold l'; by rewrite zlen_by_cell].
    eapply store_ext; [|exact Hst]. intros i Hi. unfold l'. rewrite aget_by_cell.
    by destruct (cell_in _ i Hl Hi) as [c ->]. }
  eexists _, _. split_and!; [done..|]. destruct mv; [|done].
  destruct (text_facts _ _ Hr') as (Et & Es & [] & Hx').
  assert (E' : set_cursor_y 0 (set_cursor_x 0 f') = with_text (put_pos 0 0 (text_of f')) (saved_of f') f')
    by (by destruct f').
  rewrite E'. cbn in Et, Es. unfold on_text, on_cells. cbn [s_cells s_text s_saved]. rewrite Et, Es.
  apply (refines_text _ _ (put_pos 0 0 (text_of f')) (saved_of f') Hr'); [|done]. split; cbn; unfold size_t; lia.
Qed.

(** Pushing a character is [put_cell]. *)
Lemma push_refines t c x y w s :
  geometry W H t -> refines w s -> glyph c -> 0 <= x -> 0 <= y ->
  agree refines (lifto (push_to_queue t c x y) w) (Some (on_cells (put_cell t c x y) s)).
Proof.
  intros Ht Hr Hc Hx Hy. pose proof (rf_len _ _ Hr) as Hl.
  pose proof (g_cols _ _ _ Ht) as Ec. pose proof (g_rows _ _ _ Ht) as Er.
  destruct (Z.lt_ge_cases x W) as [Hx'|Hx']; [destruct (Z.lt_ge_cases y H) as [Hy'|Hy']|].
  - destruct (push_store W H HW HH t (fb w) _ c x y Er Ec (rf_store _ _ Hr)) as (f' & E & Hst & Hq); [lia..|done|].
    eapply lifto_cells; [done..|by rewrite zlen_put_cell|]. intros i Hi.
    rewrite aget_put_cell by (rewrite ?Ec, ?Er; lia). by rewrite Ec.
  - unfold lifto. rewrite (push_off W H) by (done || lia). cbn [mbind option_bind]. unfold on_cells, put_cell.
    replace ((cols t <=? x) || (rows t <=? y)) with true by lia. exists w, s. destruct w, s. done.
  - unfold lifto. rewrite (push_off W H) by (done || lia). cbn [mbind option_bind]. unfold on_cells, put_cell.
    replace ((cols t <=? x) || (rows t <=? y)) with true by lia. exists w, s. destruct w, s. done.
Qed.

Lemma f_move_character : same_op W H refines (fun p => (0 <= p.1.1 /\ 0 <= p.1.2) /\ 0 <= p.2.1 /\ 0 <= p.2.2)
  (fun t p => op_move_character fb_ops t p.1.1 p.1.2 p.2.1 p.2.2)
  (fun t p => op_move_character (screen_ops P) t p.1.1 p.1.2 p.2.1 p.2.2).
Proof.
  intros t [[nx ny] [ox oy]] w s Ht [[Hnx Hny] [Hox Hoy]] Hr. cbn in *.
  pose proof (g_cols _ _ _ Ht) as Ec. pose proof (g_rows _ _ _ Ht) as Er.
  unfold flanterm_fb_move_character, screen_move. rewrite Ec, Er.
  destruct ((W <=? ox) || (H <=? oy)) eqn:Eo.
  { cbn [orb]. exists w, s. by destruct w. }
  assert (Hon : on_screen W H (oy * W + ox)) by (apply index_on_screen; lia).
  destruct (cell_in _ _ (rf_len _ _ Hr) Hon) as [c Hc]. rewrite Hc.
  assert (Hgl : glyph c).
  { destruct (st_glyph _ _ _ _ (rf_store _ _ Hr) _ Hon) as (c' & Hc' & Hg). congruence. }
  destruct ((W <=? nx) || (H <=? ny)) eqn:En.
  - replace (false || (W <=? nx) || (H <=? ny)) with true by lia. unfold on_cells, put_cell. rewrite Ec, Er, En.
    exists w, s. by destruct w, s.
  - replace (false || (W <=? nx) || (H <=? ny)) with false by lia.
    unfold on_screen in Hon. rewrite (u64_small (oy * W)), (u64_small (ox + oy * W)), (Z.add_comm ox) by nia.
    pose proof (push_refines t c nx ny w s Ht Hr Hgl Hnx Hny) as Hp.
    unfold lifto in *. rewrite (st_cell _ _ _ _ (rf_store _ _ Hr)), Hc by done. exact Hp.
Qed.

(** *** raw_putchar *)

(** The first part of [flanterm_fb_raw_putchar], which moves the cursor to the
    next line. *)
Definition wrap (t : flanterm_context) (f : flanterm_fb_context) : option flanterm_fb_context :=
  if (cols t <=? cursor_x f) && ((cursor_y f <? u64 (scroll_bottom_margin t - 1)) || scroll_enabled t) then
    let f := set_cursor_y (u64 (cursor_y f + 1)) (set_cursor_x 0 f) in
    f ← (if cursor_y f =? scroll_bottom_margin t
         then flanterm_fb_scroll t (set_cursor_y (u64 (cursor_y f - 1)) f) else Some f);
    Some (if cols t <=? cursor_y f then set_cursor_y (u64 (cols t - 1)) f else f)
  else Some f.

Lemma set_position w s x y :
  refines w s -> size_t x -> size_t y ->
  refines (with_fb (set_cursor_y y (set_cursor_x x (fb w))) w) (on_text (put_pos x y) s).
Proof.
  intros Hr Hx Hy. destruct (text_facts _ _ Hr) as (Et & Es & _ & Hx').
  assert (E : set_cursor_y y (set_cursor_x x (fb w)) = with_text (put_pos x y (text_of (fb w))) (saved_of (fb w)) (fb w))
    by (by destruct (fb w)).
  rewrite E. unfold on_text. rewrite Et, Es. by apply refines_text.
Qed.

Lemma wrap_refines t w s :
  geometry W H t -> refines w s -> agree refines (lifto (wrap t) w) (Some (wrap_line t s)).
Proof.
  intros Ht Hr. pose proof (g_cols _ _ _ Ht) as Ec. pose proof (g_bottom _ _ _ Ht) as Hb.
  destruct (text_facts _ _ Hr) as (Et & _ & [Hx Hy] & _).
  unfold wrap, wrap_line, lifto. rewrite Et, Ec. cbn [text_of s_x s_y] in *.
  rewrite (u64_small (scroll_bottom_margin t - 1)) by lia.
  destruct ((W <=? cursor_x (fb w)) && _); [|exists w, s; by destruct w]. cbv zeta.
  cbn [cursor_y cursor_x set_cursor_y set_cursor_x]. set (y := cursor_y (fb w)) in *. unfold size_t in *.
  assert (Hy1 : (u64 (y + 1) =? scroll_bottom_margin t) = (y + 1 =? scroll_bottom_margin t)).
  { destruct (Z.eq_dec y (2 ^ 64 - 1)) as [->|]; [|by rewrite u64_small by lia].
    change (u64 (2 ^ 64 - 1 + 1)) with 0. lia. }
  rewrite Hy1. destruct (Z.eqb_spec (y + 1) (scroll_bottom_margin t)) as [E|E].
  - rewrite (u64_small (y + 1)), (u64_small (y + 1 - 1)), Z.add_simpl_r by lia.
    pose proof (set_position w s 0 y Hr ltac:(unfold size_t; lia) Hy) as Hr1.
    destruct (f_scroll t tt _ _ Ht I Hr1) as (w2 & s2 & E1 & E2 & Hr2). cbn in E1, E2. unfold lifto in E1. cbn in E1.
    injection E2 as <-. destruct (flanterm_fb_scroll t _) as [f2|]; [|done]. cbn in E1. injection E1 as <-.
    cbn [mbind option_bind].
    pose proof (f_equal s_y (rf_text _ _ Hr2) : cursor_y f2 = y) as Hy2.
    rewrite Hy2. destruct (W <=? y).
    + rewrite (u64_small (W - 1)) by lia. eexists _, _. split_and!; [done..|].
      pose proof (set_position _ _ 0 (W - 1) Hr2 ltac:(unfold size_t; lia) ltac:(unfold size_t; lia)) as Hr3.
      pose proof (f_equal s_x (rf_text _ _ Hr2) : cursor_x f2 = 0) as Hx2.
      cbn in Hr3. rewrite <- Hx2 in Hr3 at 1. destruct f2. exact Hr3.
    + eexists _, _. split_and!; [done..|]. exact Hr2.
  - cbn [mbind option_bind cursor_y set_cursor_y]. pose proof (u64_range (y + 1)).
    destruct (W <=? u64 (y + 1)).
    + rewrite (u64_small (W - 1)) by lia. eexists _, _. split_and!; [done..|].
      apply (set_position w s 0 (W - 1) Hr); unfold size_t; lia.
    + eexists _, _. split_and!; [done..|]. apply (set_position w s 0 (u64 (y + 1)) Hr); unfold size_t; lia.
Qed.

Lemma f_raw_putchar : same_op W H refines byte (op_raw_putchar fb_ops) (op_raw_putchar (screen_ops P)).
Proof.
  intros t c w s Ht Hc Hr. cbn. unfold screen_putchar.
  destruct (wrap_refines t w s Ht Hr) as (w1 & s1 & E1 & E2 & Hr1). injection E2 as <-.
  unfold lifto, flanterm_fb_raw_putchar. fold (wrap t (fb w)). unfold lifto in E1.
  destruct (wrap t (fb w)) as [f1|]; [|done]. cbn in E1. injection E1 as <-. cbn [mbind option_bind].
  destruct (text_facts _ _ Hr1) as (Et & _ & [Hx Hy] & _). cbn in Et, Hx, Hy. rewrite Et.
  cbn [text_of]. unfold size_t in *.
  pose proof (set_position _ _ (u64 (cursor_x f1 + 1)) (cursor_y f1) Hr1 (u64_range _) Hy) as Hr2. cbn in Hr2.
  destruct (push_refines t (mk_char c (text_fg f1) (text_bg f1)) (cursor_x f1) (cursor_y f1) _ _ Ht Hr2 Hc)
    as (w3 & s3 & E3 & E4 & Hr3); [lia|lia|].
  unfold lifto in E3. cbn [fb with_fb vram flushes] in E3.
  replace (set_cursor_y (cursor_y f1) (set_cursor_x (u64 (cursor_x f1 + 1)) f1))
    with (set_cursor_x (u64 (cursor_x f1 + 1)) f1) in E3 by (by destruct f1).
  rewrite E3. injection E4 as <-. eexists _, _. split_and!; [done..|]. exact Hr3.
Qed.

(** *** The flush *)

Lemma refines_flushed w s w' :
  refines w s -> flushed (fb w) (fb w') -> store W H (fb w') (aget (s_cells s)) ->
  displayed W H (fb w') (vram w') (old_cursor_of W H (fb w')) ->
  agree_off (in_framebuffer (fb w)) (vram w) (vram w') -> refines w' s.
Proof.
  intros [Hst Hl Hd Hdis Hp Ht Hs Hpos Ho Hoff] Hf Hst' Hdis' Hoff'.
  constructor; [done|done| |done|by rewrite Hf|by rewrite Hf|by rewrite Hf|done| |].
  - rewrite Hf. keep_drawing Hd.
  - rewrite Hf. cbn. rewrite <- Ht in Hpos. destruct Hpos as [[[] []] _]. done.
  - rewrite Hf. eapply agree_off_trans; [exact Hoff|exact Hoff'].
Qed.

Lemma cursors_refines w s : refines w s -> cursors_ok (fb w).
Proof.
  intros Hr. destruct (text_facts _ _ Hr) as (_ & _ & [[] []] & _). destruct (rf_old _ _ Hr). done.
Qed.

Lemma flush_refines t w s :
  geometry W H t -> refines w s ->
  exists w', flanterm_fb_double_buffer_flush t w = Some w' /\ refines w' s /\
    presented W H t (fb w') (vram w') (aget (s_cells s)).
Proof.
  intros Ht Hr.
  destruct (flush_presents W H HW HH t Ht w _ (rf_drawing _ _ Hr) (cursors_refines _ _ Hr) (rf_store _ _ Hr)
    (rf_displayed _ _ Hr)) as (w' & E & Hf & Hst & Hdis & Hp & Hoff).
  exists w'. split_and!; [done| |done]. by eapply refines_flushed.
Qed.

Lemma f_flush : same_op W H refines (fun _ : unit => True)
  (fun t _ => op_double_buffer_flush fb_ops t) (fun t _ => op_double_buffer_flush (screen_ops P) t).
Proof.
  intros t [] w s Ht _ Hr. destruct (flush_refines t w s Ht Hr) as (w' & E & Hr' & _). by exists w', s.
Qed.

(** The interface. *)
#[export] Instance fb_backend : backend_sim fb_ops (screen_ops P) W H refines.
Proof.
  split; [done|exact f_raw_putchar|exact f_clear|exact f_set_cursor_pos|exact f_get_cursor_pos|exact f_fg|exact f_bg
    |exact f_fg_bright|exact f_bg_bright|exact f_fg_rgb|exact f_bg_rgb|exact f_fg_default|exact f_bg_default
    |exact f_fg_default_bright|exact f_bg_default_bright|exact f_move_character|exact f_scroll|exact f_revscroll
    |exact f_swap_palette|exact f_save_state|exact f_restore_state|exact f_flush].
Qed.
End refinement.
