(* ===== verification/FlantermInit.v ===== *)
(** * Making and releasing a terminal: flanterm_fb_init, flanterm_fb_deinit

    The allocations of fb.c, from its own pool or from the client's allocator,
    the tables that are filled once, and the two ways out of [flanterm_fb_init].
    The pool is [bump_alloc_pool] with the three static variables about it; the
    client's allocator is a parameter of the call, as the pointers it returns
    for its calls in order. *)

From S2P Require Import Prelude Memory Arrays Flanterm FlantermFb.

(** ** The pool *)

Definition FLANTERM_FB_BUMP_ALLOC_POOL_SIZE : Z := 873000.
Definition FLANTERM_FB_WIDTH_LIMIT : Z := 1920.
Definition FLANTERM_FB_HEIGHT_LIMIT : Z := 1200.

Record bump_state : Type := mk_bump {
  bump_alloc_pool : Z;  (** its address *)
  bump_alloc_ptr : Z;
  base_offset_added : bool;
  bump_allocated_instance : bool
}.

(** The pointer, NULL when the pool is exhausted. *)
Definition bump_alloc (s : Z) (b : bump_state) : Z * bump_state :=
  let pool := bump_alloc_pool b in
  let ptr :=
    if base_offset_added b then bump_alloc_ptr b
    else if negb (Z.land pool 0xf =? 0) then u64 (bump_alloc_ptr b + (0x10 - Z.land pool 0xf))
    else bump_alloc_ptr b in
  let b := mk_bump pool ptr true (bump_allocated_instance b) in
  let s := if negb (Z.land s 0xf =? 0) then Z.land (u64 (s + 0x10)) (Z.lnot 0xf) else s in
  let next_ptr := u64 (ptr + s) in
  if FLANTERM_FB_BUMP_ALLOC_POOL_SIZE <? next_ptr then (0, b)
  else (pool + ptr, mk_bump pool next_ptr true (bump_allocated_instance b)).

(** ** The arguments *)

Record init_args : Type := mk_args {
  a_malloc : option (nat -> Z -> Z);  (** the client's [_malloc]: the pointer that its n-th call returns *)
  a_free : bool;                      (** whether [_free] is not NULL *)
  a_framebuffer : Z;
  a_width : Z;
  a_height : Z;
  a_pitch : Z;
  a_masks : Z * Z * (Z * Z) * (Z * Z);  (** size and shift of red, green and blue *)
  a_canvas : option (list Z);
  a_ansi_colours : option (list Z);
  a_ansi_bright_colours : option (list Z);
  a_default_bg : option Z;
  a_default_fg : option Z;
  a_default_bg_bright : option Z;
  a_default_fg_bright : option Z;
  a_font : option (list Z);
  a_font_width : Z;
  a_font_height : Z;
  a_font_spacing : Z;
  a_font_scale_x : Z;
  a_font_scale_y : Z;
  a_margin : Z;
  a_rotation : Z
}.

(** The buffers made so far, by address and size; an address is 0 before. *)
Record made : Type := mk_made {
  m_ctx : Z * Z; m_font_bits : Z * Z; m_font_bool : Z * Z; m_grid : Z * Z; m_queue : Z * Z;
  m_map : Z * Z; m_canvas : Z * Z
}.

Definition nothing_made : made := mk_made (0, 0) (0, 0) (0, 0) (0, 0) (0, 0) (0, 0) (0, 0).

(** The allocators, and the calls of [_free] so far. *)
Record alloc_state : Type := mk_alloc {
  al_bump : bump_state;
  al_calls : nat;
  al_freed : list (Z * Z)
}.

(** ** The monad of flanterm_fb_init

    The allocators and the buffers made are threaded; a computation can go to
    the label [fail], and has no result when it reads or writes outside of a
    buffer or divides by zero. *)

Inductive outcome (A : Type) : Type := Made (a : A) | Fail.
Arguments Made {A}. Arguments Fail {A}.

Definition I (A : Type) : Type := alloc_state * made -> option (outcome A * (alloc_state * made)).

Definition iret {A} (a : A) : I A := fun st => Some (Made a, st).
Definition ibind {A C} (m : I A) (k : A -> I C) : I C :=
  fun st => match m st with
            | Some (Made a, st) => k a st
            | Some (Fail, st) => Some (Fail, st)
            | None => None
            end.

Declare Scope init_scope.
Notation "x <- m ;; k" := (ibind m (fun x => k))
  (at level 100, m at next level, right associativity) : init_scope.
Local Open Scope init_scope.

(** A computation on tables that may have no result. *)
Definition ilift {A} (o : option A) : I A := fun st => a ← o; Some (Made a, st).

(** [_malloc(size)], and [goto fail] when it returns NULL; [note] records the
    buffer. *)
Definition alloc (_malloc : option (nat -> Z -> Z)) (note : Z * Z -> made -> made) (size : Z) : I Z :=
  fun '(al, mk) =>
    let '(p, al) :=
      match _malloc with
      | Some f => (f (al_calls al) size, mk_alloc (al_bump al) (S (al_calls al)) (al_freed al))
      | None => let '(p, b) := bump_alloc size (al_bump al) in (p, mk_alloc b (al_calls al) (al_freed al))
      end in
    if p =? 0 then Some (Fail, (al, mk)) else Some (Made p, (al, note (p, size) mk)).

Definition note_ctx (p : Z * Z) (k : made) : made :=
  mk_made p (m_font_bits k) (m_font_bool k) (m_grid k) (m_queue k) (m_map k) (m_canvas k).
Definition note_font_bits (p : Z * Z) (k : made) : made :=
  mk_made (m_ctx k) p (m_font_bool k) (m_grid k) (m_queue k) (m_map k) (m_canvas k).
Definition note_font_bool (p : Z * Z) (k : made) : made :=
  mk_made (m_ctx k) (m_font_bits k) p (m_grid k) (m_queue k) (m_map k) (m_canvas k).
Definition note_grid (p : Z * Z) (k : made) : made :=
  mk_made (m_ctx k) (m_font_bits k) (m_font_bool k) p (m_queue k) (m_map k) (m_canvas k).
Definition note_queue (p : Z * Z) (k : made) : made :=
  mk_made (m_ctx k) (m_font_bits k) (m_font_bool k) (m_grid k) p (m_map k) (m_canvas k).
Definition note_map (p : Z * Z) (k : made) : made :=
  mk_made (m_ctx k) (m_font_bits k) (m_font_bool k) (m_grid k) (m_queue k) p (m_canvas k).
Definition note_canvas (p : Z * Z) (k : made) : made :=
  mk_made (m_ctx k) (m_font_bits k) (m_font_bool k) (m_grid k) (m_queue k) (m_map k) p.

(** ** Sizes of the structures, on x86-64 *)

Definition SIZEOF_FB_CONTEXT : Z := 816.
Definition SIZEOF_FB_CHAR : Z := 12.
Definition SIZEOF_QUEUE_ITEM : Z := 32.
Definition SIZEOF_POINTER : Z := 8.

(** ** The picture *)

(** The width and the height, exchanged when the picture stands on its side. *)
Definition init_dimensions (a : init_args) : Z * Z :=
  if (a_rotation a =? FLANTERM_FB_ROTATE_90) || (a_rotation a =? FLANTERM_FB_ROTATE_270)
  then (a_height a, a_width a) else (a_width a, a_height a).

Definition init_scale (a : init_args) (width height : Z) : Z * Z :=
  if (a_font_scale_x a =? 0) || (a_font_scale_y a =? 0) then
    if (3840 + 3840 / 3 <=? width) && (2160 + 2160 / 3 <=? height) then (4, 4)
    else if (1920 + 1920 / 3 <=? width) && (1080 + 1080 / 3 <=? height) then (2, 2)
    else (1, 1)
  else (a_font_scale_x a, a_font_scale_y a).

(** The part of the picture that a terminal from the pool uses: where it
    starts, its width and its height. *)
Definition init_limit (framebuffer width height pitch : Z) : Z * Z * Z :=
  if (FLANTERM_FB_WIDTH_LIMIT <? width) || (FLANTERM_FB_HEIGHT_LIMIT <? height) then
    let width_limit := if FLANTERM_FB_WIDTH_LIMIT <? width then FLANTERM_FB_WIDTH_LIMIT else width in
    let height_limit := if FLANTERM_FB_HEIGHT_LIMIT <? height then FLANTERM_FB_HEIGHT_LIMIT else height in
    (u64 (framebuffer + u64 (u64 (u64 (height / 2 - height_limit / 2) * pitch) +
       u64 (u64 (width / 2 - width_limit / 2) * 4))), width_limit, height_limit)
  else (framebuffer, width, height).

(** ** The tables *)

(** [_colours[i] = convert_colour(_ctx, colours[i])] for the eight colours, or
    for the defaults. *)
Definition init_colours (conv : Z -> Z) (colours : option (list Z)) (dflt : list Z) : option (list Z) :=
  match colours with
  | Some l => mapM (fun i => v ← aget l i; Some (conv v)) (seqZ 0 8)
  | None => Some (conv <$> dflt)
  end.

Definition default_ansi_colours : list Z :=
  [0x00000000; 0x00aa0000; 0x0000aa00; 0x00aa5500; 0x000000aa; 0x00aa00aa; 0x0000aaaa; 0x00aaaaaa].
Definition default_ansi_bright_colours : list Z :=
  [0x00555555; 0x00ff5555; 0x0055ff55; 0x00ffff55; 0x005555ff; 0x00ff55ff; 0x0055ffff; 0x00ffffff].

(** [memcpy(dst, src, n)]: the first [n] bytes of an array. *)
Definition copy_bytes (src : list Z) (n : Z) : option (list Z) :=
  if n <=? zlen src then Some (take (Z.to_nat n) src) else None.

(** The row [y] of the glyph [i]: eight dots, then the columns above them. *)
Definition font_row (fh fw i y bits : Z) (l : list bool) : option (list bool) :=
  let base := u64 (u64 (u64 (i * fh) * fw) + u64 (y * fw)) in
  l ← fb_for 8 0 (fun x l => aset l (u64 (base + x)) (negb (Z.land bits (Z.shiftr 0x80 x) =? 0))) l;
  fb_for (Z.to_nat (fw - 8)) 8 (fun x l =>
    aset l (u64 (base + x))
      (if (0xc0 <=? i) && (i <=? 0xdf) then negb (Z.land bits 1 =? 0) else false)) l.

Definition init_font_bool (font_bits : list Z) (fh fw : Z) (l : list bool) : option (list bool) :=
  fb_for (Z.to_nat FLANTERM_FB_FONT_GLYPHS) 0 (fun i =>
    fb_for (Z.to_nat fh) 0 (fun y l =>
      bits ← aget font_bits (u64 (u64 (i * fh) + y));
      font_row fh fw i y bits l)) l.

(** An array of [n] elements in a buffer with room for [room]. *)
Definition filled {A} (n room : Z) (v : A) : option (list A) :=
  if n <=? room then Some (replicate (Z.to_nat n) v) else None.

(** The font, sixteen rows of eight dots for each of the 256 glyphs, in decimal:
    glyphs 0 to 89, 90 to 179 and 180 to 255. *)
Definition builtin_font_0 : list Z :=
  [0; 0; 0; 0; 0; 0; 0; 0; 0; 0; 0; 0; 0; 0; 0; 0;
   0; 60; 66; 129; 129; 165; 165; 129; 129; 165; 153; 129; 66; 60; 0; 0;
   0; 60; 126; 255; 255; 219; 219; 255; 255; 219; 231; 255; 126; 60; 0; 0;
   0; 0; 0; 108; 254; 254; 254; 124; 124; 56; 56; 16; 16; 0; 0; 0;
   0; 16; 16; 56; 56; 124; 124; 254; 124; 124; 56; 56; 16; 16; 0; 0;
   0; 0; 0; 24; 60; 60; 219; 255; 255; 219; 24; 24; 60; 0; 0; 0;
   0; 0; 0; 24; 60; 126; 255; 255; 255; 102; 24; 24; 60; 0; 0; 0;
   0; 0; 0; 0; 0; 0; 48; 120; 120; 48; 0; 0; 0; 0; 0; 0;
   255; 255; 255; 255; 255; 255; 231; 195; 195; 231; 255; 255; 255; 255; 255; 255;
   0; 0; 0; 0; 0; 120; 204; 132; 132; 204; 120; 0; 0; 0; 0; 0;
   255; 255; 255; 255; 255; 195; 153; 189; 189; 153; 195; 255; 255; 255; 255; 255;
   0; 0; 0; 30; 14; 30; 50; 120; 204; 204; 204; 120; 0; 0; 0; 0;
   0; 0; 0; 120; 204; 204; 204; 120; 48; 252; 48; 48; 0; 0; 0; 0;
   0; 0; 16; 24; 28; 30; 22; 18; 16; 16; 112; 240; 224; 0; 0; 0;
   0; 48; 56; 44; 38; 50; 58; 46; 38; 34; 98; 226; 198; 14; 12; 0;
   0; 0; 0; 24; 24; 219; 60; 231; 60; 219; 24; 24; 0; 0; 0; 0;
   0; 0; 0; 128; 192; 224; 248; 254; 248; 224; 192; 128; 0; 0; 0; 0;
   0; 0; 0; 2; 6; 14; 62; 254; 62; 14; 6; 2; 0; 0; 0; 0;
   0; 0; 48; 120; 252; 48; 48; 48; 48; 48; 252; 120; 48; 0; 0; 0;
   0; 0; 204; 204; 204; 204; 204; 204; 204; 204; 0; 204; 204; 0; 0; 0;
   0; 0; 127; 219; 219; 219; 219; 123; 27; 27; 27; 27; 27; 0; 0; 0;
   0; 0; 124; 198; 96; 56; 108; 198; 198; 108; 56; 12; 198; 124; 0; 0;
   0; 0; 0; 0; 0; 0; 0; 0; 0; 0; 254; 254; 254; 0; 0; 0;
   0; 0; 48; 120; 252; 48; 48; 48; 48; 48; 252; 120; 48; 252; 0; 0;
   0; 0; 48; 120; 252; 48; 48; 48; 48; 48; 48; 48; 48; 0; 0; 0;
   0; 0; 48; 48; 48; 48; 48; 48; 48; 48; 252; 120; 48; 0; 0; 0;
   0; 0; 0; 0; 0; 24; 12; 254; 254; 12; 24; 0; 0; 0; 0; 0;
   0; 0; 0; 0; 0; 48; 96; 254; 254; 96; 48; 0; 0; 0; 0; 0;
   0; 0; 0; 0; 0; 0; 0; 192; 192; 192; 254; 0; 0; 0; 0; 0;
   0; 0; 0; 0; 0; 36; 102; 255; 255; 102; 36; 0; 0; 0; 0; 0;
   0; 0; 0; 0; 16; 16; 56; 56; 124; 124; 254; 254; 0; 0; 0; 0;
   0; 0; 0; 0; 254; 254; 124; 124; 56; 56; 16; 16; 0; 0; 0; 0;
   0; 0; 0; 0; 0; 0; 0; 0; 0; 0; 0; 0; 0; 0; 0; 0;
   0; 0; 48; 120; 120; 120; 120; 48; 48; 48; 0; 48; 48; 0; 0; 0;
   0; 0; 204; 204; 204; 204; 204; 0; 0; 0; 0; 0; 0; 0; 0; 0;
   0; 0; 108; 108; 108; 254; 108; 108; 108; 254; 108; 108; 108; 0; 0; 0;
   0; 24; 24; 124; 198; 192; 192; 124; 6; 6; 198; 124; 24; 24; 0; 0;
   0; 0; 198; 198; 12; 12; 24; 56; 48; 96; 96; 198; 198; 0; 0; 0;
   0; 0; 56; 108; 108; 56; 48; 118; 222; 204; 204; 222; 118; 0; 0; 0;
   0; 0; 24; 24; 24; 48; 0; 0; 0; 0; 0; 0; 0; 0; 0; 0;
   0; 0; 24; 48; 96; 96; 96; 96; 96; 96; 96; 48; 24; 0; 0; 0;
   0; 0; 96; 48; 24; 24; 24; 24; 24; 24; 24; 48; 96; 0; 0; 0;
   0; 0; 0; 0; 0; 108; 56; 254; 56; 108; 0; 0; 0; 0; 0; 0;
   0; 0; 0; 0; 0; 24; 24; 126; 24; 24; 0; 0; 0; 0; 0; 0;
   0; 0; 0; 0; 0; 0; 0; 0; 0; 0; 0; 24; 24; 48; 0; 0;
   0; 0; 0; 0; 0; 0; 0; 254; 0; 0; 0; 0; 0; 0; 0; 0;
   0; 0; 0; 0; 0; 0; 0; 0; 0; 0; 0; 24; 24; 0; 0; 0;
   0; 0; 6; 6; 12; 12; 24; 56; 48; 96; 96; 192; 192; 0; 0; 0;
   0; 0; 124; 198; 198; 198; 214; 214; 214; 198; 198; 198; 124; 0; 0; 0;
   0; 0; 24; 56; 120; 24; 24; 24; 24; 24; 24; 24; 126; 0; 0; 0;
   0; 0; 124; 198; 6; 6; 12; 24; 48; 96; 192; 192; 254; 0; 0; 0;
   0; 0; 124; 198; 6; 6; 60; 6; 6; 6; 6; 198; 124; 0; 0; 0;
   0; 0; 4; 12; 28; 60; 108; 204; 254; 12; 12; 12; 12; 0; 0; 0;
   0; 0; 254; 192; 192; 192; 252; 6; 6; 6; 6; 198; 124; 0; 0; 0;
   0; 0; 60; 96; 192; 192; 252; 198; 198; 198; 198; 198; 124; 0; 0; 0;
   0; 0; 254; 198; 6; 6; 12; 24; 48; 48; 48; 48; 48; 0; 0; 0;
   0; 0; 124; 198; 198; 198; 124; 198; 198; 198; 198; 198; 124; 0; 0; 0;
   0; 0; 124; 198; 198; 198; 198; 126; 6; 6; 6; 12; 120; 0; 0; 0;
   0; 0; 0; 0; 0; 0; 0; 24; 24; 0; 0; 24; 24; 0; 0; 0;
   0; 0; 0; 0; 0; 0; 0; 24; 24; 0; 0; 24; 24; 48; 0; 0;
   0; 0; 6; 12; 24; 48; 96; 192; 96; 48; 24; 12; 6; 0; 0; 0;
   0; 0; 0; 0; 0; 0; 254; 0; 254; 0; 0; 0; 0; 0; 0; 0;
   0; 0; 192; 96; 48; 24; 12; 6; 12; 24; 48; 96; 192; 0; 0; 0;
   0; 0; 124; 198; 198; 6; 12; 24; 48; 48; 0; 48; 48; 0; 0; 0;
   0; 0; 124; 198; 198; 198; 222; 222; 222; 222; 192; 192; 126; 0; 0; 0;
   0; 0; 56; 108; 198; 198; 198; 198; 254; 198; 198; 198; 198; 0; 0; 0;
   0; 0; 252; 198; 198; 198; 252; 198; 198; 198; 198; 198; 252; 0; 0; 0;
   0; 0; 124; 198; 192; 192; 192; 192; 192; 192; 192; 198; 124; 0; 0; 0;
   0; 0; 248; 204; 198; 198; 198; 198; 198; 198; 198; 204; 248; 0; 0; 0;
   0; 0; 254; 192; 192; 192; 252; 192; 192; 192; 192; 192; 254; 0; 0; 0;
   0; 0; 254; 192; 192; 192; 252; 192; 192; 192; 192; 192; 192; 0; 0; 0;
   0; 0; 124; 198; 192; 192; 192; 222; 198; 198; 198; 198; 126; 0; 0; 0;
   0; 0; 198; 198; 198; 198; 198; 254; 198; 198; 198; 198; 198; 0; 0; 0;
   0; 0; 252; 48; 48; 48; 48; 48; 48; 48; 48; 48; 252; 0; 0; 0;
   0; 0; 30; 12; 12; 12; 12; 12; 12; 12; 204; 204; 120; 0; 0; 0;
   0; 0; 198; 198; 204; 216; 240; 224; 240; 216; 204; 198; 198; 0; 0; 0;
   0; 0; 192; 192; 192; 192; 192; 192; 192; 192; 192; 192; 254; 0; 0; 0;
   0; 0; 198; 198; 238; 254; 214; 214; 214; 198; 198; 198; 198; 0; 0; 0;
   0; 0; 198; 198; 230; 230; 246; 222; 206; 206; 198; 198; 198; 0; 0; 0;
   0; 0; 124; 198; 198; 198; 198; 198; 198; 198; 198; 198; 124; 0; 0; 0;
   0; 0; 252; 198; 198; 198; 198; 252; 192; 192; 192; 192; 192; 0; 0; 0;
   0; 0; 124; 198; 198; 198; 198; 198; 198; 198; 246; 218; 108; 6; 0; 0;
   0; 0; 252; 198; 198; 198; 198; 252; 216; 204; 204; 198; 198; 0; 0; 0;
   0; 0; 124; 198; 192; 96; 48; 24; 12; 6; 6; 198; 124; 0; 0; 0;
   0; 0; 255; 24; 24; 24; 24; 24; 24; 24; 24; 24; 24; 0; 0; 0;
   0; 0; 198; 198; 198; 198; 198; 198; 198; 198; 198; 198; 124; 0; 0; 0;
   0; 0; 198; 198; 198; 198; 198; 198; 198; 198; 108; 56; 16; 0; 0; 0;
   0; 0; 198; 198; 198; 198; 214; 214; 214; 214; 254; 108; 108; 0; 0; 0;
   0; 0; 198; 198; 198; 108; 56; 56; 56; 108; 198; 198; 198; 0; 0; 0;
   0; 0; 204; 204; 204; 204; 204; 120; 48; 48; 48; 48; 48; 0; 0; 0].

Definition builtin_font_90 : list Z :=
  [0; 0; 254; 6; 6; 12; 24; 48; 96; 192; 192; 192; 254; 0; 0; 0;
   0; 0; 120; 96; 96; 96; 96; 96; 96; 96; 96; 96; 120; 0; 0; 0;
   0; 0; 192; 192; 96; 96; 48; 56; 24; 12; 12; 6; 6; 0; 0; 0;
   0; 0; 120; 24; 24; 24; 24; 24; 24; 24; 24; 24; 120; 0; 0; 0;
   0; 0; 16; 56; 108; 198; 0; 0; 0; 0; 0; 0; 0; 0; 0; 0;
   0; 0; 0; 0; 0; 0; 0; 0; 0; 0; 0; 0; 0; 0; 255; 0;
   0; 0; 24; 24; 24; 12; 0; 0; 0; 0; 0; 0; 0; 0; 0; 0;
   0; 0; 0; 0; 0; 124; 6; 6; 126; 198; 198; 198; 126; 0; 0; 0;
   0; 0; 192; 192; 192; 220; 230; 198; 198; 198; 198; 230; 220; 0; 0; 0;
   0; 0; 0; 0; 0; 124; 198; 192; 192; 192; 192; 198; 124; 0; 0; 0;
   0; 0; 6; 6; 6; 118; 206; 198; 198; 198; 198; 206; 118; 0; 0; 0;
   0; 0; 0; 0; 0; 124; 198; 198; 254; 192; 192; 192; 126; 0; 0; 0;
   0; 0; 28; 54; 48; 48; 252; 48; 48; 48; 48; 48; 48; 0; 0; 0;
   0; 0; 0; 0; 0; 118; 206; 198; 198; 198; 206; 118; 6; 198; 124; 0;
   0; 0; 192; 192; 192; 220; 230; 198; 198; 198; 198; 198; 198; 0; 0; 0;
   0; 0; 24; 0; 0; 56; 24; 24; 24; 24; 24; 24; 60; 0; 0; 0;
   0; 0; 6; 0; 0; 30; 6; 6; 6; 6; 6; 6; 198; 198; 124; 0;
   0; 0; 192; 192; 192; 198; 204; 216; 240; 240; 216; 204; 198; 0; 0; 0;
   0; 0; 56; 24; 24; 24; 24; 24; 24; 24; 24; 24; 60; 0; 0; 0;
   0; 0; 0; 0; 0; 236; 254; 214; 214; 214; 214; 198; 198; 0; 0; 0;
   0; 0; 0; 0; 0; 220; 230; 198; 198; 198; 198; 198; 198; 0; 0; 0;
   0; 0; 0; 0; 0; 124; 198; 198; 198; 198; 198; 198; 124; 0; 0; 0;
   0; 0; 0; 0; 0; 220; 230; 198; 198; 198; 230; 220; 192; 192; 192; 0;
   0; 0; 0; 0; 0; 118; 206; 198; 198; 198; 206; 118; 6; 6; 6; 0;
   0; 0; 0; 0; 0; 220; 230; 192; 192; 192; 192; 192; 192; 0; 0; 0;
   0; 0; 0; 0; 0; 124; 198; 192; 112; 28; 6; 198; 124; 0; 0; 0;
   0; 0; 48; 48; 48; 254; 48; 48; 48; 48; 48; 54; 28; 0; 0; 0;
   0; 0; 0; 0; 0; 198; 198; 198; 198; 198; 198; 198; 124; 0; 0; 0;
   0; 0; 0; 0; 0; 198; 198; 198; 198; 198; 108; 56; 16; 0; 0; 0;
   0; 0; 0; 0; 0; 198; 198; 214; 214; 214; 214; 254; 108; 0; 0; 0;
   0; 0; 0; 0; 0; 198; 198; 108; 56; 56; 108; 198; 198; 0; 0; 0;
   0; 0; 0; 0; 0; 198; 198; 198; 198; 198; 206; 118; 6; 198; 124; 0;
   0; 0; 0; 0; 0; 254; 6; 12; 24; 48; 96; 192; 254; 0; 0; 0;
   0; 0; 28; 48; 48; 48; 48; 224; 48; 48; 48; 48; 28; 0; 0; 0;
   0; 0; 48; 48; 48; 48; 48; 0; 48; 48; 48; 48; 48; 0; 0; 0;
   0; 0; 224; 48; 48; 48; 48; 28; 48; 48; 48; 48; 224; 0; 0; 0;
   0; 0; 0; 118; 220; 0; 0; 0; 0; 0; 0; 0; 0; 0; 0; 0;
   0; 0; 0; 16; 16; 56; 56; 108; 108; 198; 198; 254; 0; 0; 0; 0;
   0; 0; 60; 102; 192; 192; 192; 192; 192; 192; 102; 60; 24; 204; 120; 0;
   0; 0; 108; 108; 0; 198; 198; 198; 198; 198; 198; 198; 124; 0; 0; 0;
   0; 12; 24; 48; 0; 124; 198; 198; 254; 192; 192; 192; 126; 0; 0; 0;
   0; 16; 56; 108; 0; 124; 6; 6; 126; 198; 198; 198; 126; 0; 0; 0;
   0; 0; 108; 108; 0; 124; 6; 6; 126; 198; 198; 198; 126; 0; 0; 0;
   0; 96; 48; 24; 0; 124; 6; 6; 126; 198; 198; 198; 126; 0; 0; 0;
   0; 56; 108; 56; 0; 124; 6; 6; 126; 198; 198; 198; 126; 0; 0; 0;
   0; 0; 0; 0; 0; 124; 198; 192; 192; 192; 192; 198; 124; 24; 12; 56;
   0; 16; 56; 108; 0; 124; 198; 198; 254; 192; 192; 192; 126; 0; 0; 0;
   0; 0; 108; 108; 0; 124; 198; 198; 254; 192; 192; 192; 126; 0; 0; 0;
   0; 96; 48; 24; 0; 124; 198; 198; 254; 192; 192; 192; 126; 0; 0; 0;
   0; 0; 108; 108; 0; 56; 24; 24; 24; 24; 24; 24; 60; 0; 0; 0;
   0; 16; 56; 108; 0; 56; 24; 24; 24; 24; 24; 24; 60; 0; 0; 0;
   0; 96; 48; 24; 0; 56; 24; 24; 24; 24; 24; 24; 60; 0; 0; 0;
   198; 198; 16; 56; 108; 198; 198; 198; 254; 198; 198; 198; 198; 0; 0; 0;
   56; 108; 56; 0; 56; 108; 198; 198; 198; 254; 198; 198; 198; 0; 0; 0;
   24; 48; 96; 0; 254; 192; 192; 252; 192; 192; 192; 192; 254; 0; 0; 0;
   0; 0; 0; 0; 0; 236; 54; 54; 118; 222; 216; 216; 110; 0; 0; 0;
   0; 0; 30; 60; 108; 204; 204; 254; 204; 204; 204; 204; 206; 0; 0; 0;
   0; 16; 56; 108; 0; 124; 198; 198; 198; 198; 198; 198; 124; 0; 0; 0;
   0; 0; 108; 108; 0; 124; 198; 198; 198; 198; 198; 198; 124; 0; 0; 0;
   0; 96; 48; 24; 0; 124; 198; 198; 198; 198; 198; 198; 124; 0; 0; 0;
   0; 16; 56; 108; 0; 198; 198; 198; 198; 198; 198; 198; 124; 0; 0; 0;
   0; 96; 48; 24; 0; 198; 198; 198; 198; 198; 198; 198; 124; 0; 0; 0;
   0; 0; 108; 108; 0; 198; 198; 198; 198; 198; 206; 118; 6; 198; 124; 0;
   108; 108; 0; 124; 198; 198; 198; 198; 198; 198; 198; 198; 124; 0; 0; 0;
   108; 108; 0; 198; 198; 198; 198; 198; 198; 198; 198; 198; 124; 0; 0; 0;
   0; 0; 0; 48; 48; 120; 204; 192; 192; 204; 120; 48; 48; 0; 0; 0;
   0; 0; 56; 108; 96; 96; 96; 248; 96; 96; 96; 230; 252; 0; 0; 0;
   0; 0; 204; 204; 204; 120; 48; 252; 48; 252; 48; 48; 48; 0; 0; 0;
   0; 0; 248; 204; 204; 248; 196; 204; 222; 204; 204; 204; 198; 0; 0; 0;
   0; 0; 14; 27; 24; 24; 24; 126; 24; 24; 24; 24; 24; 216; 112; 0;
   0; 12; 24; 48; 0; 124; 6; 6; 126; 198; 198; 198; 126; 0; 0; 0;
   0; 12; 24; 48; 0; 56; 24; 24; 24; 24; 24; 24; 60; 0; 0; 0;
   0; 12; 24; 48; 0; 124; 198; 198; 198; 198; 198; 198; 124; 0; 0; 0;
   0; 12; 24; 48; 0; 198; 198; 198; 198; 198; 198; 198; 124; 0; 0; 0;
   0; 118; 220; 0; 0; 220; 230; 198; 198; 198; 198; 198; 198; 0; 0; 0;
   118; 220; 0; 198; 198; 230; 246; 254; 222; 206; 198; 198; 198; 0; 0; 0;
   0; 120; 216; 216; 108; 0; 252; 0; 0; 0; 0; 0; 0; 0; 0; 0;
   0; 56; 108; 108; 56; 0; 124; 0; 0; 0; 0; 0; 0; 0; 0; 0;
   0; 0; 24; 24; 0; 24; 24; 48; 96; 192; 198; 198; 124; 0; 0; 0;
   0; 0; 0; 0; 0; 0; 0; 0; 254; 192; 192; 192; 0; 0; 0; 0;
   0; 0; 0; 0; 0; 0; 0; 0; 254; 6; 6; 6; 0; 0; 0; 0;
   0; 0; 192; 194; 198; 204; 216; 48; 96; 220; 134; 12; 24; 62; 0; 0;
   0; 0; 192; 194; 198; 204; 216; 48; 102; 206; 158; 62; 6; 6; 0; 0;
   0; 0; 48; 48; 0; 48; 48; 48; 120; 120; 120; 120; 48; 0; 0; 0;
   0; 0; 0; 0; 0; 54; 108; 216; 108; 54; 0; 0; 0; 0; 0; 0;
   0; 0; 0; 0; 0; 216; 108; 54; 108; 216; 0; 0; 0; 0; 0; 0;
   34; 136; 34; 136; 34; 136; 34; 136; 34; 136; 34; 136; 34; 136; 34; 136;
   85; 170; 85; 170; 85; 170; 85; 170; 85; 170; 85; 170; 85; 170; 85; 170;
   221; 119; 221; 119; 221; 119; 221; 119; 221; 119; 221; 119; 221; 119; 221; 119;
   24; 24; 24; 24; 24; 24; 24; 24; 24; 24; 24; 24; 24; 24; 24; 24].

Definition builtin_font_180 : list Z :=
  [24; 24; 24; 24; 24; 24; 24; 248; 248; 24; 24; 24; 24; 24; 24; 24;
   24; 24; 24; 24; 24; 248; 248; 24; 24; 248; 248; 24; 24; 24; 24; 24;
   54; 54; 54; 54; 54; 54; 54; 246; 246; 54; 54; 54; 54; 54; 54; 54;
   0; 0; 0; 0; 0; 0; 0; 254; 254; 54; 54; 54; 54; 54; 54; 54;
   0; 0; 0; 0; 0; 248; 248; 24; 24; 248; 248; 24; 24; 24; 24; 24;
   54; 54; 54; 54; 54; 246; 246; 6; 6; 246; 246; 54; 54; 54; 54; 54;
   54; 54; 54; 54; 54; 54; 54; 54; 54; 54; 54; 54; 54; 54; 54; 54;
   0; 0; 0; 0; 0; 254; 254; 6; 6; 246; 246; 54; 54; 54; 54; 54;
   54; 54; 54; 54; 54; 246; 246; 6; 6; 254; 254; 0; 0; 0; 0; 0;
   54; 54; 54; 54; 54; 54; 54; 254; 254; 0; 0; 0; 0; 0; 0; 0;
   24; 24; 24; 24; 24; 248; 248; 24; 24; 248; 248; 0; 0; 0; 0; 0;
   0; 0; 0; 0; 0; 0; 0; 248; 248; 24; 24; 24; 24; 24; 24; 24;
   24; 24; 24; 24; 24; 24; 24; 31; 31; 0; 0; 0; 0; 0; 0; 0;
   24; 24; 24; 24; 24; 24; 24; 255; 255; 0; 0; 0; 0; 0; 0; 0;
   0; 0; 0; 0; 0; 0; 0; 255; 255; 24; 24; 24; 24; 24; 24; 24;
   24; 24; 24; 24; 24; 24; 24; 31; 31; 24; 24; 24; 24; 24; 24; 24;
   0; 0; 0; 0; 0; 0; 0; 255; 255; 0; 0; 0; 0; 0; 0; 0;
   24; 24; 24; 24; 24; 24; 24; 255; 255; 24; 24; 24; 24; 24; 24; 24;
   24; 24; 24; 24; 24; 31; 31; 24; 24; 31; 31; 24; 24; 24; 24; 24;
   54; 54; 54; 54; 54; 54; 54; 55; 55; 54; 54; 54; 54; 54; 54; 54;
   54; 54; 54; 54; 54; 55; 55; 48; 48; 63; 63; 0; 0; 0; 0; 0;
   0; 0; 0; 0; 0; 63; 63; 48; 48; 55; 55; 54; 54; 54; 54; 54;
   54; 54; 54; 54; 54; 247; 247; 0; 0; 255; 255; 0; 0; 0; 0; 0;
   0; 0; 0; 0; 0; 255; 255; 0; 0; 247; 247; 54; 54; 54; 54; 54;
   54; 54; 54; 54; 54; 55; 55; 48; 48; 55; 55; 54; 54; 54; 54; 54;
   0; 0; 0; 0; 0; 255; 255; 0; 0; 255; 255; 0; 0; 0; 0; 0;
   54; 54; 54; 54; 54; 247; 247; 0; 0; 247; 247; 54; 54; 54; 54; 54;
   24; 24; 24; 24; 24; 255; 255; 0; 0; 255; 255; 0; 0; 0; 0; 0;
   54; 54; 54; 54; 54; 54; 54; 255; 255; 0; 0; 0; 0; 0; 0; 0;
   0; 0; 0; 0; 0; 255; 255; 0; 0; 255; 255; 24; 24; 24; 24; 24;
   0; 0; 0; 0; 0; 0; 0; 255; 255; 54; 54; 54; 54; 54; 54; 54;
   54; 54; 54; 54; 54; 54; 54; 63; 63; 0; 0; 0; 0; 0; 0; 0;
   24; 24; 24; 24; 24; 31; 31; 24; 24; 31; 31; 0; 0; 0; 0; 0;
   0; 0; 0; 0; 0; 31; 31; 24; 24; 31; 31; 24; 24; 24; 24; 24;
   0; 0; 0; 0; 0; 0; 0; 63; 63; 54; 54; 54; 54; 54; 54; 54;
   54; 54; 54; 54; 54; 54; 54; 255; 255; 54; 54; 54; 54; 54; 54; 54;
   24; 24; 24; 24; 24; 255; 255; 24; 24; 255; 255; 24; 24; 24; 24; 24;
   24; 24; 24; 24; 24; 24; 24; 248; 248; 0; 0; 0; 0; 0; 0; 0;
   0; 0; 0; 0; 0; 0; 0; 31; 31; 24; 24; 24; 24; 24; 24; 24;
   255; 255; 255; 255; 255; 255; 255; 255; 255; 255; 255; 255; 255; 255; 255; 255;
   0; 0; 0; 0; 0; 0; 0; 0; 255; 255; 255; 255; 255; 255; 255; 255;
   240; 240; 240; 240; 240; 240; 240; 240; 240; 240; 240; 240; 240; 240; 240; 240;
   15; 15; 15; 15; 15; 15; 15; 15; 15; 15; 15; 15; 15; 15; 15; 15;
   255; 255; 255; 255; 255; 255; 255; 255; 0; 0; 0; 0; 0; 0; 0; 0;
   0; 0; 0; 0; 0; 118; 214; 220; 200; 200; 220; 214; 118; 0; 0; 0;
   0; 0; 120; 204; 204; 204; 216; 204; 204; 204; 204; 204; 216; 192; 192; 0;
   0; 0; 254; 198; 198; 192; 192; 192; 192; 192; 192; 192; 192; 0; 0; 0;
   0; 0; 0; 0; 0; 126; 254; 36; 36; 36; 36; 102; 198; 0; 0; 0;
   0; 0; 254; 254; 194; 96; 48; 24; 48; 96; 194; 254; 254; 0; 0; 0;
   0; 0; 0; 0; 0; 126; 200; 204; 204; 204; 204; 204; 120; 0; 0; 0;
   0; 0; 0; 0; 0; 102; 102; 102; 102; 102; 102; 118; 108; 96; 192; 0;
   0; 0; 0; 0; 0; 102; 252; 152; 24; 24; 24; 24; 24; 0; 0; 0;
   0; 0; 252; 48; 48; 120; 204; 204; 204; 120; 48; 48; 252; 0; 0; 0;
   0; 0; 56; 108; 198; 198; 198; 254; 198; 198; 198; 108; 56; 0; 0; 0;
   0; 0; 56; 108; 198; 198; 198; 198; 198; 108; 108; 108; 238; 0; 0; 0;
   0; 0; 120; 204; 96; 48; 120; 204; 204; 204; 204; 204; 120; 0; 0; 0;
   0; 0; 0; 0; 0; 118; 187; 153; 153; 221; 110; 0; 0; 0; 0; 0;
   0; 0; 2; 6; 60; 108; 206; 214; 214; 230; 108; 120; 192; 128; 0; 0;
   0; 0; 30; 48; 96; 192; 192; 254; 192; 192; 96; 48; 30; 0; 0; 0;
   0; 0; 56; 108; 198; 198; 198; 198; 198; 198; 198; 198; 198; 0; 0; 0;
   0; 0; 0; 0; 254; 0; 0; 254; 0; 0; 254; 0; 0; 0; 0; 0;
   0; 0; 0; 0; 0; 48; 48; 252; 48; 48; 0; 0; 252; 0; 0; 0;
   0; 0; 0; 0; 96; 48; 24; 12; 24; 48; 96; 0; 252; 0; 0; 0;
   0; 0; 0; 0; 24; 48; 96; 192; 96; 48; 24; 0; 252; 0; 0; 0;
   0; 0; 28; 54; 54; 48; 48; 48; 48; 48; 48; 48; 48; 48; 48; 48;
   24; 24; 24; 24; 24; 24; 24; 24; 24; 24; 216; 216; 112; 0; 0; 0;
   0; 0; 0; 0; 48; 48; 0; 252; 0; 48; 48; 0; 0; 0; 0; 0;
   0; 0; 0; 0; 0; 118; 220; 0; 118; 220; 0; 0; 0; 0; 0; 0;
   0; 120; 204; 204; 204; 120; 0; 0; 0; 0; 0; 0; 0; 0; 0; 0;
   0; 0; 0; 0; 0; 0; 0; 48; 48; 0; 0; 0; 0; 0; 0; 0;
   0; 0; 0; 0; 0; 0; 0; 48; 0; 0; 0; 0; 0; 0; 0; 0;
   0; 15; 12; 12; 12; 12; 12; 12; 12; 204; 108; 60; 28; 12; 0; 0;
   0; 216; 236; 204; 204; 204; 204; 204; 0; 0; 0; 0; 0; 0; 0; 0;
   0; 56; 108; 12; 24; 48; 96; 124; 0; 0; 0; 0; 0; 0; 0; 0;
   0; 0; 0; 0; 120; 120; 120; 120; 120; 120; 120; 0; 0; 0; 0; 0;
   0; 0; 0; 0; 0; 0; 0; 0; 0; 0; 0; 0; 0; 0; 0; 0].

Definition builtin_font : list Z := builtin_font_0 ++ builtin_font_90 ++ builtin_font_180.

(** ** flanterm_fb_init *)

(** The function that [plot_char] is set to. *)
Definition init_plot_char (font_scale_x font_scale_y : Z) (canvas : bool) : plot_char_fn :=
  if (font_scale_x =? 1) && (font_scale_y =? 1) then
    if canvas then unscaled_canvas else unscaled_uncanvas
  else if canvas then scaled_canvas else scaled_uncanvas.

(** The context as [memset] leaves it, with the fields that [flanterm_fb_init]
    sets before [flanterm_context_reinit]. *)
Definition fresh_context (rows cols : Z) : flanterm_context :=
  flanterm_context_reinit
    (mk_context 0 false false false false false false false false false false false false false false false
      0 0 0 [0; 0] 0 0 0 0 0 0 0 0 0 (replicate 16 0) 0 false false false 0 0 0 rows cols false).

(** From the allocation of the context to the last table: the contexts. *)
Definition init_contexts (a : init_args) (framebuffer width height font_scale_x font_scale_y : Z)
    (canvas : option (list Z)) : I (flanterm_context * flanterm_fb_context) :=
  let '((red_mask_size, red_mask_shift), (green_mask_size, green_mask_shift),
        (blue_mask_size, blue_mask_shift)) := a_masks a in
  let malloc := alloc (a_malloc a) in
  _ <- malloc note_ctx SIZEOF_FB_CONTEXT;;
  let red_shift := u8 (red_mask_shift + (red_mask_size - 8)) in
  let green_shift := u8 (green_mask_shift + (green_mask_size - 8)) in
  let blue_shift := u8 (blue_mask_shift + (blue_mask_size - 8)) in
  let conv := convert red_shift green_shift blue_shift in
  ansi_colours <- ilift (init_colours conv (a_ansi_colours a) default_ansi_colours);;
  ansi_bright_colours <- ilift (init_colours conv (a_ansi_bright_colours a) default_ansi_bright_colours);;
  let default_bg := match a_default_bg a with Some v => conv v | None => 0x00000000 end in
  let default_fg := conv (default 0x00aaaaaa (a_default_fg a)) in
  let default_bg_bright := conv (default 0x00555555 (a_default_bg_bright a)) in
  let default_fg_bright := conv (default 0x00ffffff (a_default_fg_bright a)) in
  let text_fg := default_fg in
  let text_bg := TRANSPARENT in
  let '(font, font_width, font_height, font_spacing) :=
    match a_font a with
    | Some l => (l, a_font_width a, a_font_height a, a_font_spacing a)
    | None => (builtin_font, 8, 16, 1)
    end in
  let font_bits_size := u64 (u64 (font_width * font_height) * FLANTERM_FB_FONT_GLYPHS) / 8 in
  font_bits <- malloc note_font_bits font_bits_size;;
  font_bits_data <- ilift (copy_bytes font font_bits_size);;
  let font_width := u64 (font_width + font_spacing) in
  let font_bool_size := u64 (u64 (FLANTERM_FB_FONT_GLYPHS * font_height) * font_width) in
  font_bool <- malloc note_font_bool font_bool_size;;
  font_bool_data <- ilift (init_font_bool font_bits_data font_height font_width
                             (replicate (Z.to_nat font_bool_size) false));;
  let glyph_width := u64 (font_width * font_scale_x) in
  let glyph_height := u64 (font_height * font_scale_y) in
  _ <- ilift (if (glyph_width =? 0) || (glyph_height =? 0) then None else Some tt);;
  let inner_width := u64 (width - u64 (a_margin a * 2)) in
  let inner_height := u64 (height - u64 (a_margin a * 2)) in
  let cols := inner_width / glyph_width in
  let rows := inner_height / glyph_height in
  let offset_x := u64 (a_margin a + inner_width mod glyph_width / 2) in
  let offset_y := u64 (a_margin a + inner_height mod glyph_height / 2) in
  let cells := u64 (rows * cols) in
  let grid_size := u64 (cells * SIZEOF_FB_CHAR) in
  grid <- malloc note_grid grid_size;;
  grid_data <- ilift (filled cells (grid_size / SIZEOF_FB_CHAR) (mk_char 32 text_fg text_bg));;
  let queue_size := u64 (cells * SIZEOF_QUEUE_ITEM) in
  queue <- malloc note_queue queue_size;;
  let map_size := u64 (cells * SIZEOF_POINTER) in
  map <- malloc note_map map_size;;
  let canvas_size := u64 (u64 (width * height) * 4) in
  canvas_buffer <-
    match canvas with
    | Some l =>
      p <- malloc note_canvas canvas_size;;
      data <- ilift (if u64 (width * height) <=? canvas_size / 4
                     then mapM (fun i => v ← aget l i; Some (conv v)) (seqZ 0 (u64 (width * height)))
                     else None);;
      iret (mk_buffer p data)
    | None => iret (mk_buffer 0 [])
    end;;
  iret (fresh_context rows cols,
    mk_fb_context
      (init_plot_char font_scale_x font_scale_y (match canvas with Some _ => true | None => false end))
      false font_width font_height glyph_width glyph_height font_scale_x font_scale_y offset_x offset_y
      framebuffer (a_pitch a) width height 0
      red_mask_size red_shift green_mask_size green_shift blue_mask_size blue_shift (a_rotation a)
      font_bits_size (mk_buffer font_bits font_bits_data) font_bool_size (mk_buffer font_bool font_bool_data)
      ansi_colours ansi_bright_colours default_fg default_bg default_fg_bright default_bg_bright
      (match canvas with Some _ => canvas_size | None => 0 end) canvas_buffer
      grid_size queue_size map_size (mk_buffer grid grid_data)
      (mk_buffer queue (replicate (Z.to_nat (queue_size / SIZEOF_QUEUE_ITEM)) (mk_item 0 0 (mk_char 0 0 0)))) 0
      (mk_buffer map (replicate (Z.to_nat (map_size / SIZEOF_POINTER)) None))
      text_fg text_bg 0 0 0 0 0 0 0 0).

(** The calls of [_free] at the label [fail], for the buffers that exist. *)
Definition fail_frees (k : made) : list (Z * Z) :=
  filter (fun p => p.1 <> 0)
    [m_canvas k; m_map k; m_queue k; m_grid k; m_font_bool k; m_font_bits k; m_ctx k].

Definition set_bump_ptr (p : Z) (b : bump_state) : bump_state :=
  mk_bump (bump_alloc_pool b) p (base_offset_added b) (bump_allocated_instance b).
Definition set_instance (v : bool) (b : bump_state) : bump_state :=
  mk_bump (bump_alloc_pool b) (bump_alloc_ptr b) (base_offset_added b) v.
Definition on_bump (g : bump_state -> bump_state) (al : alloc_state) : alloc_state :=
  mk_alloc (g (al_bump al)) (al_calls al) (al_freed al).

(** The label [fail]. *)
Definition init_fail (a : init_args) (al : alloc_state) (k : made) : alloc_state :=
  if (m_ctx k).1 =? 0 then al else
  match a_malloc a with
  | None => on_bump (set_bump_ptr 0) al
  | Some _ =>
    if negb (a_free a) then al
    else mk_alloc (al_bump al) (al_calls al) (al_freed al ++ fail_frees k)
  end.

(** The result is the terminal, or NULL. *)
Definition flanterm_fb_init (a : init_args) (al : alloc_state) (m : mem)
    : option (option (terminal fb_world) * alloc_state) :=
  let '(width, height) := init_dimensions a in
  let '(font_scale_x, font_scale_y) := init_scale a width height in
  let '((red_mask_size, _), (green_mask_size, _), (blue_mask_size, _)) := a_masks a in
  if (red_mask_size <? 8) || negb (red_mask_size =? green_mask_size) ||
     negb (red_mask_size =? blue_mask_size) then Some (None, al) else
  let pool := match a_malloc a with None => true | Some _ => false end in
  if pool && bump_allocated_instance (al_bump al) then Some (None, al) else
  let '(framebuffer, width, height) :=
    if pool then init_limit (a_framebuffer a) width height (a_pitch a) else (a_framebuffer a, width, height) in
  let canvas := if pool then None else a_canvas a in
  r ← init_contexts a framebuffer width height font_scale_x font_scale_y canvas (al, nothing_made);
  match r with
  | (Fail, (al, k)) => Some (None, init_fail a al k)
  | (Made (t, f), (al, k)) =>
    w ← flanterm_fb_full_refresh t (mk_world f m []);
    Some (Some (mk_terminal t w []), if pool then on_bump (set_instance true) al else al)
  end.

(** ** flanterm_fb_deinit *)

(** The calls of [_free], or the release of the pool; [ctx] is the address of
    the context. *)
Definition flanterm_fb_deinit (free : bool) (ctx : Z) (f : flanterm_fb_context) (al : alloc_state) : alloc_state :=
  if negb free then
    if bump_allocated_instance (al_bump al)
    then on_bump (fun b => set_instance false (set_bump_ptr 0 b)) al else al
  else
    mk_alloc (al_bump al) (al_calls al)
      (al_freed al ++
       [(buf_ptr (font_bits f), font_bits_size f); (buf_ptr (font_bool f), font_bool_size f);
        (buf_ptr (grid f), grid_size f); (buf_ptr (queue f), queue_size f); (buf_ptr (map f), map_size f)] ++
       (if negb (buf_ptr (canvas f) =? 0) then [(buf_ptr (canvas f), canvas_size f)] else []) ++
       [(ctx, SIZEOF_FB_CONTEXT)]).

Definition flanterm_deinit (free : bool) (ctx : Z) (t : terminal fb_world) (al : alloc_state) : alloc_state :=
  flanterm_fb_deinit free ctx (fb (t_be t)) al.
