(* ===== verification/FlantermInitSpec.v ===== *)
(** * The terminal that the kernel makes

    The pool of fb.c is large enough for every frame buffer, the dots of the
    font are unpacked into [font_bool] as the drawing functions read them, and
    the first picture shows a blank screen.  Together: [flanterm_fb_init], called
    the way kernel/drivers/video/fb0.c calls it, returns a terminal that meets the
    invariants of FlantermSafe.v and FlantermFbSpec.v. *)

From S2P Require Import Prelude Memory Arrays Flanterm FlantermSim FlantermSafe FlantermFb FlantermPlot.
From S2P Require Import FlantermScreen FlantermStore FlantermFlush FlantermFbSpec FlantermInit.

(** ** The pool *)

Definition round16 (s : Z) : Z := (s + 15) / 16 * 16.

Lemma bump_round s : 0 <= s < 2 ^ 63 ->
  (if negb (Z.land s 0xf =? 0) then Z.land (u64 (s + 0x10)) (Z.lnot 0xf) else s) = round16 s.
Proof.
  intros Hs. change 0xf with (Z.ones 4). rewrite Z.land_ones by lia. rewrite u64_small by lia.
  change (Z.lnot (Z.ones 4)) with (Z.lnot 15). rewrite land_lnot_15. change (2 ^ 4) with 16. unfold round16.
  destruct (Z.eqb_spec (s mod 16) 0); cbn [negb]; zlia.
Qed.

Lemma mod_16_low x : Z.land x 15 = x mod 16.
Proof. apply (Z.land_ones x 4). lia. Qed.

(** A pool with its start aligned. *)
Record pool_at (p : Z) (b : bump_state) : Prop := mk_pool_at {
  pool_addr : 0 < bump_alloc_pool b;
  pool_added : base_offset_added b = true;
  pool_ptr : bump_alloc_ptr b = p;
  pool_range : 0 <= p
}.

Lemma bump_alloc_next p s b :
  pool_at p b -> 0 <= s < 2 ^ 63 -> p + round16 s <= FLANTERM_FB_BUMP_ALLOC_POOL_SIZE ->
  exists b', bump_alloc s b = (bump_alloc_pool b + p, b') /\ pool_at (p + round16 s) b' /\
    bump_alloc_pool b' = bump_alloc_pool b /\ bump_allocated_instance b' = bump_allocated_instance b.
Proof.
  intros [Ha Hb Hp Hr] Hs Hfit. unfold bump_alloc. rewrite Hb, Hp. rewrite bump_round by done.
  assert (0 <= round16 s) by (unfold round16; zlia). unfold FLANTERM_FB_BUMP_ALLOC_POOL_SIZE in *.
  rewrite u64_small by lia. replace (873000 <? p + round16 s) with false by lia.
  eexists. split; [done|]. split; [|done]. constructor; cbn; done || lia.
Qed.

(** The first allocation skips at most fifteen bytes. *)
Lemma bump_alloc_first s b :
  0 < bump_alloc_pool b -> base_offset_added b = false -> bump_alloc_ptr b = 0 ->
  0 <= s < 2 ^ 63 -> 15 + round16 s <= FLANTERM_FB_BUMP_ALLOC_POOL_SIZE ->
  exists o b', 0 <= o <= 15 /\ bump_alloc s b = (bump_alloc_pool b + o, b') /\ pool_at (o + round16 s) b' /\
    bump_alloc_pool b' = bump_alloc_pool b /\ bump_allocated_instance b' = bump_allocated_instance b.
Proof.
  intros Ha Hb Hp Hs Hfit.
  set (o := if negb (Z.land (bump_alloc_pool b) 0xf =? 0) then 0x10 - Z.land (bump_alloc_pool b) 0xf else 0).
  assert (Ho : 0 <= o <= 15).
  { unfold o. rewrite mod_16_low.
    pose proof (Z.mod_pos_bound (bump_alloc_pool b) 16 ltac:(lia)). case_match; lia. }
  destruct (bump_alloc_next o s (mk_bump (bump_alloc_pool b) o true (bump_allocated_instance b)))
    as (b' & E & Hat & H1 & H2); [constructor; cbn; done || lia|done|lia|].
  exists o, b'. split; [done|]. split; [|done]. cbn [bump_alloc_pool] in E. rewrite <- E. unfold bump_alloc.
  cbn [bump_alloc_pool bump_alloc_ptr base_offset_added bump_allocated_instance]. rewrite Hb, Hp.
  assert (Eo : (if negb (Z.land (bump_alloc_pool b) 15 =? 0)
                then u64 (0 + (16 - Z.land (bump_alloc_pool b) 15)) else 0) = o).
  { unfold o. rewrite mod_16_low. pose proof (Z.mod_pos_bound (bump_alloc_pool b) 16 ltac:(lia)).
    case_match; [|done]. apply u64_small. lia. }
  by rewrite Eo.
Qed.

(** ** Filling a table *)

Section fills.
Context {A : Type} (v : Z -> A).

(** [l'] is [l] with the elements of [D] set as [v] says. *)
Definition fills (D : Z -> bool) (l l' : list A) : Prop :=
  zlen l' = zlen l /\ forall j, 0 <= j < zlen l -> aget l' j = if D j then Some (v j) else aget l j.

Lemma fills_refl l : fills (fun _ => false) l l.
Proof. done. Qed.

Lemma fills_trans D1 D2 l1 l2 l3 : fills D1 l1 l2 -> fills D2 l2 l3 -> fills (fun j => D2 j || D1 j) l1 l3.
Proof.
  intros [Hl1 H1] [Hl2 H2]. split; [congruence|]. intros j Hj. rewrite H2, H1 by lia. by destruct (D2 j), (D1 j).
Qed.

Lemma fills_ext (D D' : Z -> bool) l l' :
  (forall j, 0 <= j < zlen l -> D j = D' j) -> fills D l l' -> fills D' l l'.
Proof. intros HD [Hl H]. split; [done|]. intros j Hj. by rewrite H, HD. Qed.

Lemma fills_aset l i x :
  0 <= i < zlen l -> x = v i -> exists l', aset l i x = Some l' /\ fills (Z.eqb i) l l'.
Proof.
  intros Hi ->. eexists. split; [by apply aset_in|]. split; [apply zlen_insert|]. intros j _.
  rewrite aget_insert by done. rewrite Z.eqb_sym. by destruct (Z.eqb_spec i j) as [->|].
Qed.

(** A loop whose round [i] fills the part [from i] up to [from (i + 1)]. *)
Lemma fills_loop (body : Z -> list A -> option (list A)) (from : Z -> Z) n lo l :
  (forall i, lo <= i < lo + Z.of_nat n -> from i <= from (i + 1)) ->
  (forall i l1, lo <= i < lo + Z.of_nat n -> zlen l1 = zlen l ->
     exists l2, body i l1 = Some l2 /\ fills (fun j => (from i <=? j) && (j <? from (i + 1))) l1 l2) ->
  exists l', fb_for n lo body l = Some l' /\
    fills (fun j => (from lo <=? j) && (j <? from (lo + Z.of_nat n))) l l'.
Proof.
  revert lo l. induction n as [|n IH]; intros lo l Hmono Hb; cbn [fb_for].
  { exists l. split; [done|]. eapply fills_ext; [|apply fills_refl]. intros j _. cbv beta.
    rewrite Z.add_0_r. lia. }
  destruct (Hb lo l ltac:(lia) eq_refl) as (l1 & -> & Hf1). cbn [mbind option_bind].
  destruct (IH (lo + 1) l1) as (l' & E & Hf).
  - intros i Hi. apply Hmono. lia.
  - intros i l2 Hi Hl2. apply Hb; [lia|]. rewrite Hl2. apply Hf1.
  - exists l'. split; [done|]. eapply fills_ext; [|by eapply fills_trans].
    intros j _. cbv beta. replace (lo + 1 + Z.of_nat n) with (lo + Z.of_nat (S n)) by lia.
    pose proof (Hmono lo ltac:(lia)).
    assert (from (lo + 1) <= from (lo + Z.of_nat (S n))).
    { clear -Hmono. replace (lo + Z.of_nat (S n)) with (lo + 1 + Z.of_nat n) by lia.
      assert (Hk : forall k, (k <= n)%nat -> from (lo + 1) <= from (lo + 1 + Z.of_nat k)).
      { induction k as [|k IHk]; intros Hk; [by rewrite Z.add_0_r|].
        specialize (IHk ltac:(lia)). pose proof (Hmono (lo + 1 + Z.of_nat k) ltac:(lia)) as Hm.
        replace (lo + 1 + Z.of_nat (S k)) with (lo + 1 + Z.of_nat k + 1) by lia. lia. }
      by apply Hk. }
    destruct (Z.leb_spec (from lo) j), (Z.leb_spec (from (lo + 1)) j), (Z.ltb_spec j (from (lo + 1))),
      (Z.ltb_spec j (from (lo + Z.of_nat (S n)))); cbn [andb orb]; done || lia.
Qed.
End fills.

(** ** The font *)

Section font.
Context (font_bits : list Z) (fh fw : Z).
Hypothesis Hfh : 1 <= fh <= 256.
Hypothesis Hfw : 8 <= fw < 2 ^ 31.
Hypothesis Hbits : zlen font_bits = FLANTERM_FB_FONT_GLYPHS * fh.

(** The dot at column [x] of row [y] of the glyph [i]: eight bits from the
    font, then a copy of the eighth for the glyphs that join. *)
Definition font_dot (i y x : Z) : bool :=
  let bits := default 0 (aget font_bits (i * fh + y)) in
  if x <? 8 then negb (Z.land bits (Z.shiftr 0x80 x) =? 0)
  else (0xc0 <=? i) && (i <=? 0xdf) && negb (Z.land bits 1 =? 0).

Definition font_at (j : Z) : bool := font_dot (j / fw / fh) (j / fw mod fh) (j mod fw).

Lemma font_at_index i y x :
  0 <= y < fh -> 0 <= x < fw -> font_at ((i * fh + y) * fw + x) = font_dot i y x.
Proof.
  intros Hy Hx. unfold font_at.
  assert (E : ((i * fh + y) * fw + x) / fw = i * fh + y) by (rewrite Z.div_add_l, Z.div_small; lia).
  rewrite E. f_equal.
  - rewrite Z.div_add_l, Z.div_small; lia.
  - rewrite Z.add_comm, Z.mod_add by lia. by apply Z.mod_small.
  - rewrite Z.add_comm, Z.mod_add by lia. by apply Z.mod_small.
Qed.

Definition size : Z := FLANTERM_FB_FONT_GLYPHS * fh * fw.

Lemma row_bounds i y : 0 <= i < 256 -> 0 <= y < fh -> 0 <= (i * fh + y) * fw /\ (i * fh + y + 1) * fw <= size.
Proof.
  intros Hi Hy. unfold size, FLANTERM_FB_FONT_GLYPHS.
  assert (0 <= i * fh + y /\ i * fh + y + 1 <= 256 * fh) by nia. nia.
Qed.

Lemma size_small : 0 < size < 2 ^ 48.
Proof. unfold size, FLANTERM_FB_FONT_GLYPHS. nia. Qed.

(** The offset of a dot is computed without overflow. *)
Lemma dot_offset i y x :
  0 <= i < 256 -> 0 <= y < fh -> 0 <= x < fw ->
  u64 (u64 (u64 (u64 (i * fh) * fw) + u64 (y * fw)) + x) = (i * fh + y) * fw + x.
Proof.
  intros Hi Hy Hx. pose proof (row_bounds i y Hi Hy). pose proof size_small.
  assert (0 <= i * fh <= 65536) by nia. assert (0 <= i * fh * fw) by nia. assert (0 <= y * fw) by nia.
  rewrite (u64_small (i * fh)) by lia. rewrite (u64_small (i * fh * fw)) by lia.
  rewrite (u64_small (y * fw)) by lia. rewrite (u64_small (i * fh * fw + y * fw)) by lia.
  rewrite u64_small by lia. lia.
Qed.

Lemma font_row_fills i y bits l :
  0 <= i < 256 -> 0 <= y < fh -> aget font_bits (i * fh + y) = Some bits -> zlen l = size ->
  exists l', font_row fh fw i y bits l = Some l' /\
    fills font_at (fun j => ((i * fh + y) * fw <=? j) && (j <? (i * fh + (y + 1)) * fw)) l l'.
Proof.
  intros Hi Hy Hb Hl. unfold font_row. pose proof (row_bounds i y Hi Hy) as [Hr1 Hr2].
  set (base := (i * fh + y) * fw) in *.
  assert (Hdot : forall x, 0 <= x < fw -> font_at (base + x) = font_dot i y x) by (intros; by apply font_at_index).
  unfold font_dot in Hdot. rewrite Hb in Hdot. cbn [default] in Hdot.
  destruct (fills_loop font_at (fun x l => aset l (u64 (u64 (u64 (u64 (i * fh) * fw) + u64 (y * fw)) + x))
    (negb (Z.land bits (Z.shiftr 128 x) =? 0))) (fun x => base + x) 8 0 l) as (l1 & -> & Hf1).
  { lia. }
  { intros x l1 Hx Hl1. rewrite dot_offset by lia. fold base.
    destruct (fills_aset font_at l1 (base + x) (negb (Z.land bits (Z.shiftr 128 x) =? 0))) as (l2 & E & Hf); [lia| |].
    - rewrite Hdot by lia. by replace (x <? 8) with true by lia.
    - exists l2. split; [done|]. eapply fills_ext; [|exact Hf]. intros j _. cbv beta. lia. }
  cbn [mbind option_bind].
  destruct (fills_loop font_at (fun x l => aset l (u64 (u64 (u64 (u64 (i * fh) * fw) + u64 (y * fw)) + x))
    (if (192 <=? i) && (i <=? 223) then negb (Z.land bits 1 =? 0) else false)) (fun x => base + x)
    (Z.to_nat (fw - 8)) 8 l1) as (l2 & -> & Hf2).
  { lia. }
  { intros x l2 Hx Hl2. rewrite dot_offset by lia. fold base. pose proof (proj1 Hf1).
    destruct (fills_aset font_at l2 (base + x) (if (192 <=? i) && (i <=? 223) then negb (Z.land bits 1 =? 0) else false))
      as (l3 & E & Hf); [lia| |].
    - rewrite Hdot by lia. replace (x <? 8) with false by lia. by destruct ((192 <=? i) && (i <=? 223)).
    - exists l3. split; [done|]. eapply fills_ext; [|exact Hf]. intros j _. cbv beta. lia. }
  exists l2. split; [done|]. eapply fills_ext; [|by eapply fills_trans]. intros j _. cbv beta.
  replace ((i * fh + (y + 1)) * fw) with (base + fw) by (unfold base; lia).
  replace (base + (8 + Z.of_nat (Z.to_nat (fw - 8)))) with (base + fw) by lia.
  change (0 + Z.of_nat 8) with 8. lia.
Qed.

(** The whole table holds the dots of the font. *)
Lemma init_font_bool_fills l :
  zlen l = size ->
  exists l', init_font_bool font_bits fh fw l = Some l' /\ zlen l' = size /\
    forall j, 0 <= j < size -> aget l' j = Some (font_at j).
Proof.
  intros Hl. unfold init_font_bool.
  destruct (fills_loop font_at (fun i => fb_for (Z.to_nat fh) 0 (fun y l =>
      bits ← aget font_bits (u64 (u64 (i * fh) + y)); font_row fh fw i y bits l))
    (fun i => i * fh * fw) (Z.to_nat FLANTERM_FB_FONT_GLYPHS) 0 l) as (l' & E & [Hl' Hf]).
  { intros i _. nia. }
  { intros i l1 Hi Hl1. change (Z.to_nat FLANTERM_FB_FONT_GLYPHS) with 256%nat in Hi.
    destruct (fills_loop font_at (fun y l => bits ← aget font_bits (u64 (u64 (i * fh) + y)); font_row fh fw i y bits l)
      (fun y => (i * fh + y) * fw) (Z.to_nat fh) 0 l1) as (l2 & E & Hf).
    - intros y _. nia.
    - intros y l2 Hy Hl2. assert (0 <= i * fh + y < 256 * fh) by nia.
      rewrite (u64_small (i * fh)), u64_small by lia.
      destruct (aget_in font_bits (i * fh + y)) as [bits Hb]; [rewrite Hbits; done|]. rewrite Hb.
      cbn [mbind option_bind]. apply font_row_fills; [lia|lia|done|congruence].
    - exists l2. split; [done|]. eapply fills_ext; [|exact Hf]. intros j _. cbv beta.
      replace ((i * fh + 0) * fw) with (i * fh * fw) by lia.
      by replace ((i * fh + (0 + Z.of_nat (Z.to_nat fh))) * fw) with ((i + 1) * fh * fw) by lia. }
  exists l'. split; [done|]. split; [congruence|]. intros j Hj. rewrite Hf by lia.
  change (Z.of_nat (Z.to_nat FLANTERM_FB_FONT_GLYPHS)) with 256. unfold size, FLANTERM_FB_FONT_GLYPHS in Hj.
  by replace ((0 * fh * fw <=? j) && (j <? (0 + 256) * fh * fw)) with true by lia.
Qed.
End font.

(** ** The first picture *)

Section refresh.
Context (W H : Z) (HW : 1 <= W < 2 ^ 31) (HH : 1 <= H < 2 ^ 31).
Context (t : flanterm_context) (Ht : geometry W H t).
Context (f : flanterm_fb_context) (Hd : drawing_ok W H f).
(** A canvas is there when the drawing function wants one. *)
Hypothesis Hcanvas :
  buf_ptr (canvas f) = 0 <-> plot_char f = scaled_uncanvas \/ plot_char f = unscaled_uncanvas.

Lemma refresh_pixel_pix X Y : in_picture f X Y -> refresh_pixel f X Y = pix f X Y.
Proof.
  intros Hin. pose proof (dr_picture _ _ _ Hd) as Hpic. pose proof (pix_range f Hpic X Y Hin) as Hr.
  destruct Hpic as [Hw Hh Hs _ He], Hin as [HX HY]. unfold refresh_pixel. fold (stride f).
  assert (Hl : 0 <= stride f < 2 ^ 31) by (unfold line_length in Hs; case_match; lia).
  pose proof (mul_small X (stride f) ltac:(lia) Hl). pose proof (mul_small Y (stride f) ltac:(lia) Hl).
  pose proof (mul_small (height f - 1 - Y) (stride f) ltac:(lia) Hl).
  pose proof (mul_small (width f - 1 - X) (stride f) ltac:(lia) Hl).
  unfold pix in *. clear He Hs Hr Ht.
  destruct (rotation f =? FLANTERM_FB_ROTATE_90); [|destruct (rotation f =? FLANTERM_FB_ROTATE_180);
    [|destruct (rotation f =? FLANTERM_FB_ROTATE_270)]]; cbv beta iota;
    rewrite ?(u64_small (height f - 1 - Y)), ?(u64_small (width f - 1 - X)) by lia;
    rewrite (u64_small (_ * stride f)) by lia; rewrite u64_small by lia; lia.
Qed.

(** A loop whose round [i] paints the pixels of [E] with key [i]. *)
Lemma paints_for v (body : Z -> mem -> option mem) (E : Z -> Z -> bool) (key : Z -> Z -> Z) n lo m :
  (forall i m, lo <= i < lo + Z.of_nat n ->
     exists m', body i m = Some m' /\ paints f v (fun X Y => E X Y && (key X Y =? i)) m m') ->
  exists m', fb_for n lo body m = Some m' /\
    paints f v (fun X Y => E X Y && ((lo <=? key X Y) && (key X Y <? lo + Z.of_nat n))) m m'.
Proof.
  revert lo m. induction n as [|n IH]; intros lo m Hb; cbn [fb_for].
  { exists m. split; [done|]. eapply paints_ext; [|apply paints_refl]. intros X Y _. cbv beta.
    rewrite Z.add_0_r. destruct (E X Y); cbn [andb]; [bool_lia|done]. }
  destruct (Hb lo m ltac:(lia)) as (m1 & -> & Hp1). cbn [mbind option_bind].
  destruct (IH (lo + 1) m1) as (m' & Em & Hp); [intros i m2 Hi; apply Hb; lia|].
  exists m'. split; [done|]. eapply paints_ext; [|by eapply paints_trans]. intros X Y _. cbv beta.
  replace (lo + Z.of_nat (S n)) with (lo + 1 + Z.of_nat n) by lia.
  destruct (E X Y); cbn [andb]; [bool_lia|done].
Qed.

Lemma refresh_background_paints m :
  exists m', refresh_background f m = Some m' /\
    paints f (fun X Y => u32 (backdrop f X Y)) (fun _ _ => true) m m'.
Proof.
  pose proof (dr_picture _ _ _ Hd) as Hpic. destruct (paints_for (fun X Y => u32 (backdrop f X Y))
    (fun y => fb_for (Z.to_nat (width f)) 0 (fun x m =>
      v ← (if negb (buf_ptr (canvas f) =? 0)
           then aget (buf_data (canvas f)) (u64 (u64 (y * width f) + x))
           else Some (default_bg f));
      Some (put_pixel f (refresh_pixel f x y) v m))) (fun _ _ => true) (fun _ Y => Y) (Z.to_nat (height f)) 0 m)
    as (m' & E & Hp).
  - intros y m1 Hy. assert (Hy' : 0 <= y < height f) by lia. destruct Hpic as [Hw Hh _ _ _].
    destruct (paints_for (fun X Y => u32 (backdrop f X Y)) (fun x m =>
      v ← (if negb (buf_ptr (canvas f) =? 0)
           then aget (buf_data (canvas f)) (u64 (u64 (y * width f) + x))
           else Some (default_bg f));
      Some (put_pixel f (refresh_pixel f x y) v m)) (fun _ Y => Y =? y) (fun X _ => X) (Z.to_nat (width f)) 0 m1)
      as (m2 & E & Hp).
    + intros x m2 Hx. assert (Hin : in_picture f x y) by (unfold in_picture; lia).
      assert (Hb : (if negb (buf_ptr (canvas f) =? 0) then aget (buf_data (canvas f)) (u64 (u64 (y * width f) + x))
                    else Some (default_bg f)) = Some (backdrop f x y)).
      { rewrite (u64_small (y * width f)), u64_small by nia. unfold backdrop.
        destruct (Z.eqb_spec (buf_ptr (canvas f)) 0) as [E0|E0]; cbn [negb].
        - by destruct (proj1 Hcanvas E0) as [-> | ->].
        - destruct (aget_in (buf_data (canvas f)) (y * width f + x)) as [v Hv].
          { rewrite (dr_canvas _ _ _ Hd); [nia|]. destruct (plot_char f); tauto. }
          rewrite Hv. destruct (plot_char f); try done; exfalso; tauto. }
      rewrite Hb. cbn [mbind option_bind]. eexists. split; [done|]. rewrite refresh_pixel_pix by done.
      eapply paints_ext; [|by apply paints_pixel; [apply Hd| |]]. intros X Y _. bool_lia.
    + exists m2. split; [done|]. eapply paints_ext; [|exact Hp]. intros X Y [HX HY]. bool_lia.
  - exists m'. split; [done|]. eapply paints_ext; [|exact Hp]. intros X Y [HX HY]. bool_lia.
Qed.

(** The loop over the cells. *)
Lemma refresh_cells g n lo m :
  (forall i, on_screen W H i -> aget (buf_data (grid f)) i = g i) ->
  (forall i, on_screen W H i -> exists c, g i = Some c /\ glyph c) ->
  0 <= lo -> lo + Z.of_nat n = H * W ->
  (forall i, 0 <= i < lo -> exists c, g i = Some c /\ shows W f m i c) ->
  exists m', fb_for n lo (fun i m => c ← aget (buf_data (grid f)) i; plot t f c (i mod W) (i / W) m) m = Some m' /\
    (forall i, on_screen W H i -> exists c, g i = Some c /\ shows W f m' i c) /\
    agree_off (in_framebuffer f) m m'.
Proof.
  intros Hg Hgl. revert lo m. induction n as [|n IH]; intros lo m Hlo Hn Hs; cbn [fb_for].
  { exists m. split_and!; [done| |apply agree_off_refl]. intros i Hi. apply Hs. unfold on_screen in Hi. lia. }
  assert (Hon : on_screen W H lo) by (unfold on_screen; lia).
  destruct (Hgl lo Hon) as (c & Hc & Hgc). rewrite Hg, Hc by done. cbn [mbind option_bind].
  destruct (index_div W HW lo Hlo) as [Hm Hdv]. pose proof (index_div_row W H HW lo Hon) as Hrow.
  destruct (plot_shows W H HW HH t Ht f c (lo mod W) (lo / W) m Hd Hm Hrow Hgc) as (m1 & -> & Hs1 & Hoth & Hoff).
  rewrite Hdv in *. cbn [mbind option_bind]. destruct (IH (lo + 1) m1) as (m' & E & Hs' & Hoff'); [lia|lia| |].
  - intros i Hi. destruct (Z.eq_dec i lo) as [->|Hne]; [by exists c|].
    destruct (Hs i ltac:(lia)) as (c' & Hc' & Hsc). exists c'. split; [done|].
    apply Hoth; [unfold on_screen; lia|done|done].
  - exists m'. split_and!; [done..|]. by eapply agree_off_trans.
Qed.

(** With nothing in the queue the refresh shows the grid, and the cursor. *)
Lemma full_refresh_shows g m :
  store W H f g -> queue_i f = 0 -> cursors_ok f -> cursor_enabled t = true ->
  (forall i, on_screen W H i -> aget (buf_data (grid f)) i = g i) ->
  exists w', flanterm_fb_full_refresh t (mk_world f m []) = Some w' /\ settled f (fb w') /\
    store W H (fb w') g /\ displayed W H (fb w') (vram w') (cursor_of W H f) /\
    presented W H t (fb w') (vram w') g /\ agree_off (in_framebuffer f) m (vram w').
Proof.
  intros Hst Hq Hcs Hce Hg. unfold flanterm_fb_full_refresh. cbn [fb vram flushes].
  destruct (refresh_background_paints m) as (m1 & -> & _ & Hoff1). cbn [mbind option_bind].
  rewrite (g_cols _ _ _ Ht), (g_rows _ _ _ Ht), (u64_small (H * W)) by nia.
  destruct (refresh_cells g (Z.to_nat (H * W)) 0 m1 Hg (st_glyph _ _ _ _ Hst)) as (m2 & -> & Hs & Hoff2);
    [lia|nia|lia|]. cbn [mbind option_bind]. rewrite Hce.
  destruct (draw_cursor_shows W H HW HH t Ht (mk_world f m2 []) g (fun _ => false) Hd Hcs Hst)
    as (w' & -> & Hfl & Hset & Hfs & Hoff & Hdis & Hmark).
  { intros i Hi _. destruct (Hs i Hi) as (c & Hc & Hsc). exists c. cbn [fb vram]. by rewrite Hg. }
  cbn [mbind option_bind fb vram flushes] in *. eexists. split; [done|].
  assert (Hq' : queue_i (fb w') = 0) by (by rewrite Hset).
  assert (Hst' : store W H (fb w') g).
  { destruct Hfl as [? Hm _ ? ?]. constructor; try done. rewrite Hq'. lia. }
  assert (Hgrid : forall i, on_screen W H i -> aget (buf_data (grid (fb w'))) i = g i).
  { intros i Hi. rewrite <- (st_cell _ _ _ _ Hst' i Hi). unfold cell.
    destruct (aget_in (buf_data (map (fb w'))) i) as [[j|] Hj].
    - by rewrite (sz_map _ _ _ (st_sizes _ _ _ _ Hst')).
    - destruct (st_map _ _ _ _ Hst' i j Hj) as [? _]. lia.
    - by rewrite Hj. }
  assert (Hp : presented W H t (fb w') (vram w') g).
  { intros i Hi. rewrite Hce. cbn [andb].
    replace (cursor_of W H (fb w') i) with (cursor_of W H f i) by (by rewrite Hset).
    destruct (cursor_of W H f i) eqn:E.
    - destruct (Hmark i E) as (_ & c & Hc & Hsc). by exists c.
    - destruct (Hdis i Hi E) as (c & Hc & Hsc). exists c. by rewrite <- Hgrid. }
  assert (Hall : agree_off (in_framebuffer f) m (vram w')).
  { eapply agree_off_trans; [exact Hoff1|]. by eapply agree_off_trans. }
  unfold notify_flush. destruct (flush_callback (fb w')); cbn [fb vram]; by split_and!.
Qed.
End refresh.

(** ** The call of the kernel *)

(** The arguments of the call in kernel/drivers/video/fb0.c. *)
Definition kernel_args (framebuffer width height pitch : Z) (masks : Z * Z * (Z * Z) * (Z * Z)) : init_args :=
  mk_args None false framebuffer width height pitch masks None None None None None None None None
    0 0 1 0 0 0 0.

(** The sizes that follow from the frame buffer's. *)
Definition scale_of (width height : Z) : Z :=
  if (5120 <=? width) && (2880 <=? height) then 4
  else if (2560 <=? width) && (1440 <=? height) then 2 else 1.
Definition term_width (width : Z) : Z := Z.min width FLANTERM_FB_WIDTH_LIMIT.
Definition term_height (height : Z) : Z := Z.min height FLANTERM_FB_HEIGHT_LIMIT.
Definition term_cols (width height : Z) : Z := term_width width / (9 * scale_of width height).
Definition term_rows (width height : Z) : Z := term_height height / (16 * scale_of width height).

(** An aligned frame buffer with room for a character, and rows that hold their
    pixels. *)
Record kernel_framebuffer (framebuffer width height pitch : Z) : Prop := mk_kernel_framebuffer {
  kf_width : 9 <= width < 2 ^ 32;
  kf_height : 16 <= height < 2 ^ 32;
  kf_pitch : 4 * width <= pitch < 2 ^ 32;
  kf_base : 0 <= framebuffer;
  kf_end : framebuffer + pitch * height <= 2 ^ 64;
  kf_aligned : framebuffer mod 4 = 0 /\ pitch mod 4 = 0
}.

(** The pool before its first use. *)
Record pool_unused (b : bump_state) : Prop := mk_pool_unused {
  pu_addr : 0 < bump_alloc_pool b;
  pu_ptr : bump_alloc_ptr b = 0;
  pu_added : base_offset_added b = false;
  pu_instance : bump_allocated_instance b = false
}.

Section kernel.
Context (framebuffer width height pitch : Z) (HF : kernel_framebuffer framebuffer width height pitch).

Abbreviation k := (scale_of width height).
Abbreviation ncols := (term_cols width height).
Abbreviation nrows := (term_rows width height).

Lemma scale_cases :
  k = 1 \/ (k = 2 /\ 2560 <= width /\ 1440 <= height) \/ (k = 4 /\ 5120 <= width /\ 2880 <= height).
Proof. unfold scale_of. repeat case_match; lia. Qed.

Lemma init_scale_eq masks : init_scale (kernel_args framebuffer width height pitch masks) width height = (k, k).
Proof.
  unfold init_scale, scale_of. cbn [kernel_args a_font_scale_x a_font_scale_y Z.eqb orb].
  change (3840 + 3840 / 3) with 5120. change (2160 + 2160 / 3) with 2880.
  change (1920 + 1920 / 3) with 2560. change (1080 + 1080 / 3) with 1440.
  by repeat case_match.
Qed.

(** The size of the screen in characters, and of the characters on it. *)
Lemma screen_size :
  1 <= ncols <= 213 /\ 1 <= nrows <= 75 /\ ncols * (9 * k) <= term_width width /\ nrows * (16 * k) <= term_height height /\
  9 <= term_width width <= 1920 /\ 16 <= term_height height <= 1200.
Proof.
  destruct HF as [Hw Hh _ _ _ _]. unfold term_cols, term_rows, term_width, term_height,
    FLANTERM_FB_WIDTH_LIMIT, FLANTERM_FB_HEIGHT_LIMIT in *.
  assert (Ha : 9 <= Z.min width 1920 <= 1920 /\ (2560 <= width -> Z.min width 1920 = 1920)) by lia.
  assert (Hb : 16 <= Z.min height 1200 <= 1200 /\ (1440 <= height -> Z.min height 1200 = 1200)) by lia.
  generalize dependent (Z.min width 1920). generalize dependent (Z.min height 1200). intros b Hb a Ha.
  pose proof scale_cases as [E|[(E & ? & ?)|(E & ? & ?)]]; rewrite E;
    [change (9 * 1) with 9; change (16 * 1) with 16|change (9 * 2) with 18; change (16 * 2) with 32
    |change (9 * 4) with 36; change (16 * 4) with 64]; zlia.
Qed.

(** Where the terminal's part of the frame buffer starts. *)
Definition term_start : Z :=
  framebuffer + (height / 2 - term_height height / 2) * pitch + (width / 2 - term_width width / 2) * 4.

Lemma start_bounds :
  framebuffer <= term_start /\
  term_start + 4 * ((term_height height - 1) * (pitch / 4) + term_width width) <= framebuffer + pitch * height.
Proof.
  destruct HF as [Hw Hh Hp _ _ _]. unfold term_start, term_width, term_height, FLANTERM_FB_WIDTH_LIMIT, FLANTERM_FB_HEIGHT_LIMIT.
  set (dy := height / 2 - Z.min height 1200 / 2). set (dx := width / 2 - Z.min width 1920 / 2).
  assert (Hdy : 0 <= dy /\ dy + Z.min height 1200 <= height) by (unfold dy; zlia).
  assert (Hdx : 0 <= dx /\ dx + Z.min width 1920 <= width) by (unfold dx; zlia).
  assert (Hq : 4 * (pitch / 4) <= pitch /\ 0 <= pitch / 4) by zlia.
  clearbody dx dy. generalize dependent (pitch / 4). intros q Hq.
  assert (0 <= dy * pitch) by nia.
  assert (4 * ((Z.min height 1200 - 1) * q) <= (Z.min height 1200 - 1) * pitch) by nia.
  assert ((dy + Z.min height 1200 - 1) * pitch <= (height - 1) * pitch) by nia. lia.
Qed.

Lemma init_limit_eq :
  init_limit framebuffer width height pitch = (term_start, term_width width, term_height height).
Proof.
  pose proof start_bounds as [Hs1 Hs2]. pose proof screen_size as (_ & _ & _ & _ & Hw' & Hh').
  destruct HF as [Hw Hh Hp Hb He _]. unfold init_limit.
  assert (Ew : (if FLANTERM_FB_WIDTH_LIMIT <? width then FLANTERM_FB_WIDTH_LIMIT else width) = term_width width)
    by (unfold term_width; destruct (Z.ltb_spec FLANTERM_FB_WIDTH_LIMIT width); [rewrite Z.min_r|rewrite Z.min_l]; lia).
  assert (Eh : (if FLANTERM_FB_HEIGHT_LIMIT <? height then FLANTERM_FB_HEIGHT_LIMIT else height) = term_height height)
    by (unfold term_height; destruct (Z.ltb_spec FLANTERM_FB_HEIGHT_LIMIT height); [rewrite Z.min_r|rewrite Z.min_l]; lia).
  rewrite Ew, Eh. unfold term_start in *.
  set (dy := height / 2 - term_height height / 2) in *. set (dx := width / 2 - term_width width / 2) in *.
  assert (Hdy : 0 <= dy < 2 ^ 32) by (unfold dy, term_height, FLANTERM_FB_HEIGHT_LIMIT in *; zlia).
  assert (Hdx : 0 <= dx < 2 ^ 32) by (unfold dx, term_width, FLANTERM_FB_WIDTH_LIMIT in *; zlia).
  assert (0 <= dy * pitch) by nia.
  assert (0 <= 4 * ((term_height height - 1) * (pitch / 4) + term_width width)) by (pose proof (Z.div_pos pitch 4); nia).
  assert (4 <= 4 * ((term_height height - 1) * (pitch / 4) + term_width width)) by (pose proof (Z.div_pos pitch 4); nia).
  rewrite (u64_small dy), (u64_small dx), (u64_small (dx * 4)) by lia.
  rewrite (u64_small (dy * pitch)), (u64_small (dy * pitch + dx * 4)), u64_small by lia.
  destruct ((FLANTERM_FB_WIDTH_LIMIT <? width) || (FLANTERM_FB_HEIGHT_LIMIT <? height)) eqn:E; [f_equal; f_equal; lia|].
  unfold dx, dy, term_width, term_height in *. rewrite !Z.min_l by lia. f_equal. f_equal. lia.
Qed.

(** *** The allocations *)

Lemma ibind_made {A C} (m : I A) (c : A -> I C) st a st' :
  m st = Some (Made a, st') -> ibind m c st = c a st'.
Proof. intros E. unfold ibind. by rewrite E. Qed.

Lemma ibind_lift {A C} (a : A) (c : A -> I C) st : ibind (ilift (Some a)) c st = c a st.
Proof. reflexivity. Qed.

Lemma ibind_ret {A C} (a : A) (c : A -> I C) st : ibind (iret a) c st = c a st.
Proof. reflexivity. Qed.

(** The state of the allocators when [p] bytes of the pool are used. *)
Definition pool_used (p : Z) (al : alloc_state) : Prop :=
  pool_at p (al_bump al) /\ bump_allocated_instance (al_bump al) = false.

Lemma alloc_next note p s al mk :
  pool_used p al -> 0 <= s < 2 ^ 63 -> p + round16 s <= FLANTERM_FB_BUMP_ALLOC_POOL_SIZE ->
  exists q al' mk', alloc None note s (al, mk) = Some (Made q, (al', mk')) /\ pool_used (p + round16 s) al'.
Proof.
  intros [Hp Hi] Hs Hfit. destruct (bump_alloc_next p s (al_bump al) Hp Hs Hfit) as (b & E & Hb & Ea & Ei).
  unfold alloc. rewrite E. destruct Hp as [Ha _ _ Hr].
  replace (bump_alloc_pool (al_bump al) + p =? 0) with false by lia.
  eexists _, _, _. split; [done|]. split; [done|]. cbn. congruence.
Qed.

Lemma alloc_first note s al mk :
  pool_unused (al_bump al) -> 0 <= s < 2 ^ 63 -> 15 + round16 s <= FLANTERM_FB_BUMP_ALLOC_POOL_SIZE ->
  exists o q al' mk', 0 <= o <= 15 /\ alloc None note s (al, mk) = Some (Made q, (al', mk')) /\
    pool_used (o + round16 s) al'.
Proof.
  intros [Ha Hp Hb Hi] Hs Hfit.
  destruct (bump_alloc_first s (al_bump al) Ha Hb Hp Hs Hfit) as (o & b & Ho & E & Hat & Ea & Ei).
  unfold alloc. rewrite E. replace (bump_alloc_pool (al_bump al) + o =? 0) with false by lia.
  eexists o, _, _, _. split; [done|]. split; [done|]. split; [done|]. cbn. congruence.
Qed.

(** The pool holds what the largest screen needs. *)
Lemma pool_fits n :
  0 <= n <= 15975 ->
  15 + round16 SIZEOF_FB_CONTEXT + round16 4096 + round16 36864 + round16 (n * SIZEOF_FB_CHAR) +
    round16 (n * SIZEOF_QUEUE_ITEM) + round16 (n * SIZEOF_POINTER) <= FLANTERM_FB_BUMP_ALLOC_POOL_SIZE.
Proof.
  intros Hn. unfold round16, SIZEOF_FB_CONTEXT, SIZEOF_FB_CHAR, SIZEOF_QUEUE_ITEM, SIZEOF_POINTER,
    FLANTERM_FB_BUMP_ALLOC_POOL_SIZE. zlia.
Qed.

(** *** The contexts *)

(** The backend's context that the call makes; the addresses of the buffers
    are the only thing left open. *)
Definition kernel_context (masks : Z * Z * (Z * Z) * (Z * Z)) (font_bool : list bool)
    (p1 p2 p3 p4 p5 : Z) : flanterm_fb_context :=
  let '((rs, rsh), (gs, gsh), (bs, bsh)) := masks in
  let red := u8 (rsh + (rs - 8)) in let green := u8 (gsh + (gs - 8)) in let blue := u8 (bsh + (bs - 8)) in
  let conv := convert red green blue in
  let cells := nrows * ncols in
  mk_fb_context (init_plot_char k k false) false 9 16 (9 * k) (16 * k) k k
    (term_width width mod (9 * k) / 2) (term_height height mod (16 * k) / 2)
    term_start pitch (term_width width) (term_height height) 0 rs red gs green bs blue 0
    4096 (mk_buffer p1 builtin_font) 36864 (mk_buffer p2 font_bool)
    (conv <$> default_ansi_colours) (conv <$> default_ansi_bright_colours)
    (conv 0xaaaaaa) 0 (conv 0xffffff) (conv 0x555555) 0 (mk_buffer 0 [])
    (cells * SIZEOF_FB_CHAR) (cells * SIZEOF_QUEUE_ITEM) (cells * SIZEOF_POINTER)
    (mk_buffer p3 (replicate (Z.to_nat cells) (mk_char 32 (conv 0xaaaaaa) TRANSPARENT)))
    (mk_buffer p4 (replicate (Z.to_nat cells) (mk_item 0 0 (mk_char 0 0 0)))) 0
    (mk_buffer p5 (replicate (Z.to_nat cells) None))
    (conv 0xaaaaaa) TRANSPARENT 0 0 0 0 0 0 0 0.

Lemma copy_builtin : copy_bytes builtin_font 4096 = Some builtin_font.
Proof. vm_compute. reflexivity. Qed.

Lemma builtin_size : zlen builtin_font = FLANTERM_FB_FONT_GLYPHS * 16.
Proof. vm_compute. reflexivity. Qed.

Lemma half_margin a b : 0 <= a < 2 ^ 32 -> 0 < b -> u64 (0 + a mod b / 2) = a mod b / 2.
Proof.
  intros Ha Hb. pose proof (Z.mod_pos_bound a b Hb). pose proof (Z.mod_le a b ltac:(lia) Hb).
  rewrite Z.add_0_l. apply u64_small. split; [apply Z.div_pos; lia|apply Z.div_lt_upper_bound; lia].
Qed.

Lemma init_contexts_kernel masks al :
  pool_unused (al_bump al) ->
  exists font_bool p1 p2 p3 p4 p5 al' mk,
    init_contexts (kernel_args framebuffer width height pitch masks) term_start (term_width width)
      (term_height height) k k None (al, nothing_made) =
    Some (Made (fresh_context nrows ncols, kernel_context masks font_bool p1 p2 p3 p4 p5), (al', mk)) /\
    zlen font_bool = 36864 /\
    (forall c y x, 0 <= c < 256 -> 0 <= y < 16 -> 0 <= x < 9 ->
       aget font_bool ((c * 16 + y) * 9 + x) = Some (font_dot builtin_font 16 c y x)).
Proof.
  intros Hal. pose proof screen_size as (HW & HH & HWw & HHh & Hw & Hh).
  assert (Hk : 1 <= k <= 4) by (pose proof scale_cases; lia).
  assert (Hn : 0 <= nrows * ncols <= 15975) by nia. pose proof (pool_fits (nrows * ncols) Hn) as Hfit.
  destruct masks as [[[rs rsh] [gs gsh]] [bs bsh]]. unfold init_contexts.
  cbn [kernel_args a_masks a_malloc a_ansi_colours a_ansi_bright_colours a_default_bg a_default_fg
    a_default_bg_bright a_default_fg_bright a_font a_margin a_pitch a_rotation].
  assert (Hr : forall s, 0 <= s -> 0 <= round16 s) by (intros; unfold round16; zlia).
  pose proof (Hr (nrows * ncols * SIZEOF_FB_CHAR)). pose proof (Hr (nrows * ncols * SIZEOF_QUEUE_ITEM)).
  pose proof (Hr (nrows * ncols * SIZEOF_POINTER)). pose proof (Hr 4096). pose proof (Hr 36864).
  unfold SIZEOF_FB_CHAR, SIZEOF_QUEUE_ITEM, SIZEOF_POINTER in *.
  destruct (alloc_first note_ctx SIZEOF_FB_CONTEXT al nothing_made Hal) as (o & q0 & al0 & mk0 & Ho & E0 & P0);
    [by vm_compute|by vm_compute|]. rewrite (ibind_made _ _ _ _ _ E0). cbv beta zeta.
  cbn [init_colours]. rewrite !ibind_lift. cbv beta iota zeta.
  change (u64 (u64 (8 * 16) * FLANTERM_FB_FONT_GLYPHS) / 8) with 4096.
  destruct (alloc_next note_font_bits _ 4096 al0 mk0 P0) as (q1 & al1 & mk1 & E1 & P1); [lia|lia|].
  rewrite (ibind_made _ _ _ _ _ E1). cbv beta. rewrite copy_builtin.
  rewrite ibind_lift. cbv beta.
  change (u64 (u64 (FLANTERM_FB_FONT_GLYPHS * 16) * u64 (8 + 1))) with 36864. change (u64 (8 + 1)) with 9.
  destruct (alloc_next note_font_bool _ 36864 al1 mk1 P1) as (q2 & al2 & mk2 & E2 & P2); [lia|lia|].
  rewrite (ibind_made _ _ _ _ _ E2). cbv beta.
  destruct (init_font_bool_fills builtin_font 16 9 ltac:(lia) ltac:(lia) builtin_size (replicate (Z.to_nat 36864) false))
    as (fbl & Ef & Hfl & Hfd); [rewrite zlen_replicate, Z2Nat.id by lia; reflexivity|].
  rewrite Ef, ibind_lift. cbv beta.
  change (u64 (0 * 2)) with 0. rewrite !Z.sub_0_r, (u64_small (9 * k)), (u64_small (16 * k)),
    (u64_small (term_width width)), (u64_small (term_height height)) by lia.
  replace ((9 * k =? 0) || (16 * k =? 0)) with false by lia.
  rewrite ibind_lift. cbv beta.
  fold ncols nrows. rewrite (u64_small (nrows * ncols)) by lia.
  rewrite !(u64_small (nrows * ncols * _)) by lia. rewrite !Z.div_mul by lia.
  destruct (alloc_next note_grid _ (nrows * ncols * 12) al2 mk2 P2) as (q3 & al3 & mk3 & E3 & P3); [lia|lia|].
  rewrite (ibind_made _ _ _ _ _ E3). cbv beta.
  unfold filled. rewrite Z.leb_refl, ibind_lift. cbv beta.
  destruct (alloc_next note_queue _ (nrows * ncols * 32) al3 mk3 P3) as (q4 & al4 & mk4 & E4 & P4); [lia|lia|].
  rewrite (ibind_made _ _ _ _ _ E4). cbv beta.
  destruct (alloc_next note_map _ (nrows * ncols * 8) al4 mk4 P4) as (q5 & al5 & mk5 & E5 & P5); [lia|lia|].
  rewrite (ibind_made _ _ _ _ _ E5). cbv beta. rewrite ibind_ret. cbv beta.
  exists fbl, q1, q2, q3, q4, q5, al5, mk5. split; [|split; [done|]].
  - rewrite !half_margin by lia. reflexivity.
  - intros c y x Hc Hy Hx. rewrite Hfd by (unfold size, FLANTERM_FB_FONT_GLYPHS; lia).
    f_equal. apply font_at_index; lia.
Qed.

Section made.
Context (masks : Z * Z * (Z * Z) * (Z * Z)) (font_bool : list bool) (p1 p2 p3 p4 p5 : Z).
Hypothesis Hfont : zlen font_bool = 36864.
Let f : flanterm_fb_context := kernel_context masks font_bool p1 p2 p3 p4 p5.

Lemma offset_fits a b : 0 <= a -> 0 < b -> 0 <= a mod b / 2 /\ a mod b / 2 + a / b * b <= a.
Proof.
  intros Ha Hb. pose proof (Z.mod_pos_bound a b Hb). pose proof (Z.div_mod a b ltac:(lia)).
  assert (0 <= a mod b / 2 <= a mod b); [|lia].
  split; [apply Z.div_pos; lia|]. apply Z.div_le_upper_bound; lia.
Qed.

Lemma kernel_drawing : drawing_ok ncols nrows f.
Proof.
  pose proof screen_size as (HW & HH & HWw & HHh & Hw & Hh). pose proof start_bounds as [Hs1 Hs2].
  assert (Hk : 1 <= k <= 4) by (pose proof scale_cases; lia).
  destruct HF as [Kw Kh Kp Kb Ke _]. unfold f, kernel_context. destruct masks as [[[rs rsh] [gs gsh]] [bs bsh]].
  assert (Hst : term_width width <= pitch / 4 < 2 ^ 31).
  { unfold term_width, FLANTERM_FB_WIDTH_LIMIT in *. zlia. }
  constructor; [constructor|..];
    unfold extent, line_length, lines, stride, sideways in *;
    cbn [FlantermFb.width FlantermFb.height FlantermFb.pitch rotation FlantermFb.framebuffer font_width font_height font_scale_x font_scale_y
      glyph_width glyph_height offset_x offset_y FlantermFb.font_bool buf_data plot_char canvas];
    change ((0 =? FLANTERM_FB_ROTATE_90) || (0 =? FLANTERM_FB_ROTATE_270)) with false; cbv iota;
    try lia; try done.
  - apply offset_fits; lia.
  - apply offset_fits; lia.
  - unfold init_plot_char. repeat case_match; intros [?|?]; try done; lia.
  - unfold init_plot_char. repeat case_match; intros [?|?]; done.
Qed.

Definition blank_cell : flanterm_fb_char := mk_char 32 (text_fg f) (text_bg f).

Lemma kernel_grid i : on_screen ncols nrows i -> aget (buf_data (grid f)) i = Some blank_cell.
Proof.
  intros Hi. unfold blank_cell, f, kernel_context. destruct masks as [[[rs rsh] [gs gsh]] [bs bsh]].
  cbn [grid buf_data text_fg text_bg]. apply aget_replicate. unfold on_screen in Hi. lia.
Qed.

Lemma kernel_store : store ncols nrows f (fun _ => Some blank_cell).
Proof.
  pose proof screen_size as (HW & HH & _). assert (Hn : 0 <= nrows * ncols) by nia.
  assert (Hm : forall i, on_screen ncols nrows i -> aget (buf_data (map f)) i = Some None).
  { intros i Hi. unfold f, kernel_context. destruct masks as [[[rs rsh] [gs gsh]] [bs bsh]].
    cbn [map buf_data]. apply aget_replicate. unfold on_screen in Hi. lia. }
  assert (Hl : zlen (buf_data (map f)) = nrows * ncols).
  { unfold f, kernel_context. destruct masks as [[[rs rsh] [gs gsh]] [bs bsh]].
    cbn [map buf_data]. rewrite zlen_replicate. lia. }
  assert (Hq : queue_i f = 0) by (unfold f, kernel_context; by destruct masks as [[[rs rsh] [gs gsh]] [bs bsh]]).
  constructor.
  - unfold f, kernel_context. destruct masks as [[[rs rsh] [gs gsh]] [bs bsh]].
    constructor; cbn [grid map queue queue_i buf_data]; rewrite ?zlen_replicate; try lia.
    apply Forall_replicate. unfold glyph, byte. cbn. lia.
  - intros i j Hi. pose proof (aget_Some_range _ _ _ Hi) as Hr. rewrite Hl in Hr. rewrite Hm in Hi; done.
  - rewrite Hq. lia.
  - intros i Hi. unfold cell. rewrite Hm by done. cbn [mbind option_bind]. by apply kernel_grid.
  - intros i _. eexists. split; [done|]. unfold glyph, byte, blank_cell. cbn. lia.
Qed.

Lemma fresh_ok : ctx_ok ncols nrows (fresh_context nrows ncols).
Proof.
  pose proof screen_size as (HW & HH & _). unfold fresh_context, flanterm_context_reinit.
  constructor; [constructor|..]; cbn; unfold colour, SIZE_MAX, FLANTERM_MAX_ESC_VALUES; try done; try lia.
  repeat (constructor; [split; [apply Z.le_refl|by vm_compute]|]). constructor.
Qed.

Lemma kernel_canvas :
  buf_ptr (canvas f) = 0 <-> plot_char f = scaled_uncanvas \/ plot_char f = unscaled_uncanvas.
Proof.
  unfold f, kernel_context. destruct masks as [[[rs rsh] [gs gsh]] [bs bsh]]. cbn [canvas buf_ptr plot_char].
  split; [|done]. intros _. unfold init_plot_char. repeat case_match; auto.
Qed.

(** What the terminal draws on lies in the frame buffer that it was given. *)
Lemma kernel_bounds a : in_framebuffer f a -> framebuffer <= a < framebuffer + pitch * height.
Proof.
  pose proof start_bounds as [Hs1 Hs2]. unfold in_framebuffer, extent, lines, stride, line_length, sideways, f, kernel_context.
  destruct masks as [[[rs rsh] [gs gsh]] [bs bsh]].
  cbn [FlantermFb.width FlantermFb.height FlantermFb.pitch rotation FlantermFb.framebuffer].
  change ((0 =? FLANTERM_FB_ROTATE_90) || (0 =? FLANTERM_FB_ROTATE_270)) with false. cbv iota. lia.
Qed.

(** The screen of the new terminal: blanks, and the cursor at the first. *)
Definition kernel_screen : screen :=
  mk_screen (replicate (Z.to_nat (nrows * ncols)) blank_cell) (mk_text (text_fg f) (text_bg f) 0 0) (mk_text 0 0 0 0).

Lemma kernel_start :
  cursor_x f = 0 /\ cursor_y f = 0 /\ old_cursor_x f = 0 /\ old_cursor_y f = 0 /\ queue_i f = 0 /\
  saved_of f = mk_text 0 0 0 0.
Proof. unfold f, kernel_context. by destruct masks as [[[rs rsh] [gs gsh]] [bs bsh]]. Qed.

Lemma kernel_refresh m :
  exists w, flanterm_fb_full_refresh (fresh_context nrows ncols) (mk_world f m []) = Some w /\ settled f (fb w) /\
    refines ncols nrows (palette_of f) m w kernel_screen /\
    presented ncols nrows (fresh_context nrows ncols) (fb w) (vram w) (aget (s_cells kernel_screen)).
Proof.
  pose proof screen_size as (HW & HH & _). assert (HW' : 1 <= ncols < 2 ^ 31) by lia. assert (HH' : 1 <= nrows < 2 ^ 31) by lia.
  assert (Hg : forall i, on_screen ncols nrows i -> Some blank_cell = aget (s_cells kernel_screen) i).
  { intros i Hi. unfold kernel_screen. cbn [s_cells]. symmetry. apply aget_replicate. unfold on_screen in Hi. lia. }
  destruct kernel_start as (Hx & Hy & Hox & Hoy & Hq & Hsv).
  destruct (full_refresh_shows ncols nrows HW' HH' (fresh_context nrows ncols) (ok_geometry _ _ _ fresh_ok) f
    kernel_drawing kernel_canvas (fun _ => Some blank_cell) m kernel_store Hq) as (w & E & Hset & Hst & Hdis & Hp & Hoff);
    [unfold cursors_ok; lia|done|exact kernel_grid|].
  exists w. split; [done|]. split; [done|]. split.
  - constructor.
    + eapply store_ext; [exact Hg|exact Hst].
    + unfold kernel_screen. cbn [s_cells]. rewrite zlen_replicate. nia.
    + eapply drawing_settled; [exact Hset|exact kernel_drawing].
    + replace (old_cursor_of ncols nrows (fb w)) with (cursor_of ncols nrows f); [exact Hdis|].
      rewrite Hset. unfold cursor_of, old_cursor_of. 
      rewrite Hx, Hy. change (cursor_cell ncols nrows 0 0 = cursor_cell ncols nrows (old_cursor_x f) (old_cursor_y f)).
      by rewrite Hox, Hoy.
    + by rewrite Hset.
    + rewrite Hset. unfold kernel_screen, text_of. cbn. by rewrite Hx, Hy.
    + rewrite Hset. exact Hsv.
    + unfold kernel_screen, position_ok, size_t. cbn. lia.
    + rewrite Hset. cbn. lia.
    + rewrite Hset. exact Hoff.
  - intros i Hi. destruct (Hp i Hi) as (c & Hc & Hs). exists c. by rewrite <- Hg.
Qed.
End made.
End kernel.
