(* ===== verification/FlantermText.v ===== *)
(** * What the terminal reads

    Round trips of the parser of flanterm.c, for every backend: the bytes of a
    code point give it back, and the digits of a control sequence give back the
    row and the column that they name.  Then the cases in which the parser does
    not do what its comments or the manual page it follows say. *)

From S2P Require Import Prelude Arrays Wcwidth Flanterm FlantermFb FlantermScreen FlantermInit.

Local Open Scope term_scope.

(** ** UTF-8 *)

(** The encoding of a code point, two to four bytes. *)
Definition utf8 (cp : Z) : list Z :=
  if cp <? 0x800 then [0xc0 + cp / 64; 0x80 + cp mod 64]
  else if cp <? 0x10000 then [0xe0 + cp / 4096; 0x80 + cp / 64 mod 64; 0x80 + cp mod 64]
  else [0xf0 + cp / 262144; 0x80 + cp / 4096 mod 64; 0x80 + cp / 64 mod 64; 0x80 + cp mod 64].

Lemma land_low c k q n : 0 <= n -> c = k * 2 ^ n + q -> 0 <= q < 2 ^ n -> Z.land c (Z.ones n) = q.
Proof.
  intros Hn -> Hq. rewrite Z.land_ones by done. rewrite Z.add_comm, Z.mod_add by lia. by apply Z.mod_small.
Qed.

(** The eighth bit alone marks a byte that continues a code point. *)
Lemma continuation_byte r : 0 <= r < 64 -> Z.land (0x80 + r) 0xc0 = 0x80 /\ Z.land (0x80 + r) 0x3f = r.
Proof.
  intros Hr. split; [|by apply (land_low _ 2 r 6)].
  assert (H : Forall (fun r => Z.land (0x80 + r) 0xc0 = 0x80) (seqZ 0 64)) by (vm_compute; repeat constructor).
  rewrite Forall_forall in H. apply H, elem_of_seqZ. lia.
Qed.

Lemma code_point_bits cp r n :
  0 <= cp -> 0 <= r < 64 -> 1 <= n <= 3 ->
  Z.lor (cp * 2 ^ (6 * n)) (u64 (Z.shiftl r (6 * (n - 1)))) = (cp * 64 + r) * 2 ^ (6 * (n - 1)).
Proof.
  intros Hcp Hr Hn. rewrite Z.shiftl_mul_pow2 by lia.
  assert (E : 2 ^ (6 * n) = 64 * 2 ^ (6 * (n - 1))).
  { replace (6 * n) with (6 + 6 * (n - 1)) by lia. by rewrite Z.pow_add_r by lia. }
  assert (0 < 2 ^ (6 * (n - 1)) <= 2 ^ 12) by (split; [lia|apply Z.pow_le_mono_r; lia]).
  rewrite u64_small, lor_add by nia. nia.
Qed.

Section utf8.
Context {B : Type} (F : flanterm_ops B).

Lemma bind_some {A C} (m : T B A) (k : A -> T B C) st a st' : m st = Some (a, st') -> tbind m k st = k a st'.
Proof. intros E. unfold tbind. by rewrite E. Qed.

Lemma bind_unit (m : T B unit) st : tbind m (fun _ => tret tt) st = m st.
Proof. unfold tbind, tret. by destruct (m st) as [[[] ?]|]. Qed.

(** The context when [r] bytes of a code point are still to come. *)
Definition reading (cp r : Z) (st : terminal B) : terminal B :=
  mk_terminal (set_code_point cp (set_unicode_remaining r (t_ctx st))) (t_be st) (t_calls st).

Lemma put_next cp r n st :
  discard_next (t_ctx st) = false -> 0 <= r < 64 -> 1 <= n <= 3 -> 0 <= cp ->
  flanterm_putchar F (u8 (0x80 + r)) (reading (cp * 2 ^ (6 * n)) n st) =
    if n =? 1 then put_code_point F (reading (cp * 64 + r) 0 st)
    else Some (tt, reading ((cp * 64 + r) * 2 ^ (6 * (n - 1))) (n - 1) st).
Proof.
  intros Hd Hr Hn Hcp. unfold u8. rewrite Z.mod_small by lia. destruct (continuation_byte r Hr) as [E1 E2].
  unfold flanterm_putchar, tbind at 1, context at 1. cbn [reading t_ctx set_code_point set_unicode_remaining discard_next unicode_remaining].
  rewrite Hd, E1. replace ((0x80 + r =? 0x18) || (0x80 + r =? 0x1a)) with false by lia.
  replace (n =? 0) with false by lia. cbn [orb negb].
  change (128 =? 128) with true. cbn [negb]. unfold put_continuation, tbind, upd, context.
  cbn [t_ctx t_be t_calls reading]. rewrite E2.
  cbn [set_code_point set_unicode_remaining unicode_remaining code_point].
  rewrite (u64_small (n - 1)) by lia. rewrite code_point_bits by done.
  destruct (Z.eqb_spec n 1) as [->|Hne].
  - change (1 - 1 =? 0) with true. change (2 ^ (6 * (1 - 1))) with 1. rewrite Z.mul_1_r. reflexivity.
  - replace (n - 1 =? 0) with false by lia. reflexivity.
Qed.

Lemma put_first n k lead cp st :
  discard_next (t_ctx st) = false -> unicode_remaining (t_ctx st) = 0 ->
  (n, k, lead) ∈ [(1, 32, 0xc0); (2, 16, 0xe0); (3, 8, 0xf0)] -> 0 <= cp < k ->
  flanterm_putchar F (u8 (lead + cp)) st = Some (tt, reading (cp * 2 ^ (6 * n)) n st).
Proof.
  intros Hd Hu Hc Hcp. remember (lead + cp) as c eqn:Ec.
  assert (0xc0 <= c <= 0xf7) 
    by (rewrite !elem_of_cons, elem_of_nil in Hc; destruct Hc as [E|[E|[E|[]]]]; injection E; lia).
  unfold u8. rewrite Z.mod_small by lia.
  unfold flanterm_putchar, tbind at 1, context at 1. rewrite Hd, Hu.
  replace ((c =? 0x18) || (c =? 0x1a)) with false by lia. cbn [orb negb Z.eqb].
  unfold put_start. replace ((0xc0 <=? c) && (c <=? 0xf7)) with true by lia.
  rewrite !elem_of_cons, elem_of_nil in Hc. unfold reading. destruct Hc as [E|[E|[E|[]]]]; injection E as -> -> ->.
  - replace ((0xc0 <=? c) && (c <=? 0xdf)) with true by lia. unfold upd.
    change 0x1f with (Z.ones 5). rewrite (land_low c 6 cp 5), Z.shiftl_mul_pow2 by lia. done.
  - replace ((0xc0 <=? c) && (c <=? 0xdf)) with false by lia. replace ((0xe0 <=? c) && (c <=? 0xef)) with true by lia.
    unfold upd. change 0x0f with (Z.ones 4). rewrite (land_low c 14 cp 4), Z.shiftl_mul_pow2 by lia. done.
  - replace ((0xc0 <=? c) && (c <=? 0xdf)) with false by lia. replace ((0xe0 <=? c) && (c <=? 0xef)) with false by lia.
    replace ((0xf0 <=? c) && (c <=? 0xf7)) with true by lia.
    unfold upd. change 0x07 with (Z.ones 3). rewrite (land_low c 30 cp 3), Z.shiftl_mul_pow2 by lia. done.
Qed.

(** C19: the bytes that encode a code point, after any complete input, give it
    back: the terminal prints that code point, its glyph or a replacement. *)
Theorem utf8_roundtrip cp st :
  0x80 <= cp < 0x200000 -> discard_next (t_ctx st) = false -> unicode_remaining (t_ctx st) = 0 ->
  flanterm_putchars F (utf8 cp) st = put_code_point F (reading cp 0 st).
Proof.
  intros Hcp Hd Hu. unfold utf8.
  assert (Hm : forall a, 0 <= a mod 64 < 64 /\ a / 64 * 64 + a mod 64 = a).
  { intros a. pose proof (Z.mod_pos_bound a 64 ltac:(lia)). pose proof (Z.div_mod a 64 ltac:(lia)). lia. }
  replace (cp / 262144) with (cp / 64 / 64 / 64) by (by rewrite !Z.div_div by lia).
  replace (cp / 4096) with (cp / 64 / 64) by (by rewrite !Z.div_div by lia).
  pose proof (Hm cp) as [H0 E0]. pose proof (Hm (cp / 64)) as [H1 E1]. pose proof (Hm (cp / 64 / 64)) as [H2 E2].
  assert (0 <= cp / 64 /\ 0 <= cp / 64 / 64 /\ 0 <= cp / 64 / 64 / 64) by (split_and!; repeat apply Z.div_pos; lia).
  case_match; [|case_match]; cbn [flanterm_putchars].
  - erewrite bind_some by (apply (put_first 1 32 0xc0); [done|done|rewrite !elem_of_cons; auto|lia]). cbv beta.
    rewrite bind_unit, (put_next _ _ 1) by (done || lia). cbn [Z.eqb]. by rewrite E0.
  - erewrite bind_some by (apply (put_first 2 16 0xe0); [done|done|rewrite !elem_of_cons; auto|lia]). cbv beta.
    erewrite bind_some by (apply (put_next _ _ 2); [done|done|lia|lia]). cbv beta. rewrite E1.
    rewrite bind_unit, (put_next _ _ 1) by (done || lia). cbn [Z.eqb]. by rewrite E0.
  - erewrite bind_some by (apply (put_first 3 8 0xf0); [done|done|rewrite !elem_of_cons; auto|lia]). cbv beta.
    erewrite bind_some by (apply (put_next _ _ 3); [done|done|lia|lia]). cbv beta. rewrite E2.
    erewrite bind_some by (apply (put_next _ _ 2); [done|done|lia|lia]). cbv beta. rewrite E1.
    rewrite bind_unit, (put_next _ _ 1) by (done || lia). cbn [Z.eqb]. by rewrite E0.
Qed.
End utf8.

(** ** Control sequences *)

(** A context between two characters of the text. *)
Record idle (t : flanterm_context) : Prop := mk_idle {
  id_escape : escape t = false;
  id_sequence : control_sequence t = false;
  id_osc : osc t = false;
  id_discard : discard_next t = false;
  id_unicode : unicode_remaining t = 0;
  id_select : g_select t = 0;
  id_private : dec_private t = false;
  id_len : length (esc_values t) = 16%nat
}.

(** The context with the fields of a control sequence set. *)
Definition in_csi (e : bool) (l : list Z) (i : Z) (r : bool) (o : Z) (t : flanterm_context) : flanterm_context :=
  set_escape_offset o (set_rrr r (set_esc_values_i i (set_esc_values l
    (set_csi_unhandled false (set_control_sequence e (set_escape e t)))))).

(** The number that digits name, and their characters. *)
Definition value_from (v : Z) (ds : list Z) : Z := foldl (fun v d => v * 10 + d) v ds.
Definition digits (ds : list Z) : list Z := (fun d => 48 + d) <$> ds.

Lemma value_from_mono ds v : Forall (fun d => 0 <= d <= 9) ds -> 0 <= v -> v <= value_from v ds.
Proof.
  intros Hds. revert v. induction Hds as [|d ds Hd Hds IH]; intros v Hv; cbn [value_from foldl]; [lia|].
  specialize (IH (v * 10 + d)). unfold value_from in IH. lia.
Qed.

Lemma fill_zero l : length l = 16%nat -> fill_values (Z.to_nat FLANTERM_MAX_ESC_VALUES) 0 0 l = Some (replicate 16 0).
Proof.
  intros Hl. do 16 (destruct l as [|? l]; [discriminate Hl|]). destruct l; [reflexivity|discriminate Hl].
Qed.

Lemma ch_open : ch "[" = 91. Proof. reflexivity. Qed.
Lemma ch_private : ch "?" = 63. Proof. reflexivity. Qed.
Lemma ch_0 : ch "0" = 48. Proof. reflexivity. Qed.
Lemma ch_9 : ch "9" = 57. Proof. reflexivity. Qed.
Lemma ch_semicolon : ch ";" = 59. Proof. reflexivity. Qed.

Lemma csi_values e l i r o t : esc_values (in_csi e l i r o t) = l. Proof. reflexivity. Qed.
Lemma csi_values_i e l i r o t : esc_values_i (in_csi e l i r o t) = i. Proof. reflexivity. Qed.

Lemma csi_sequence e l i r o t : control_sequence (in_csi e l i r o t) = e. Proof. reflexivity. Qed.
Lemma csi_offset e l i r o t : escape_offset (in_csi e l i r o t) = o. Proof. reflexivity. Qed.
Lemma csi_set_offset e l i r o t o' : set_escape_offset o' (in_csi e l i r o t) = in_csi e l i r o' t.
Proof. destruct t. vm_compute. reflexivity. Qed.
Lemma csi_set_value e l i r o t l' :
  set_esc_values l' (set_rrr true (in_csi e l i r o t)) = in_csi e l' i true o t.
Proof. destruct t. vm_compute. reflexivity. Qed.

Lemma csi_rrr e l i r o t : rrr (in_csi e l i r o t) = r. Proof. reflexivity. Qed.
Lemma csi_private e l i r o t : dec_private (in_csi e l i r o t) = dec_private t. Proof. reflexivity. Qed.
Lemma csi_not_unhandled e l i r o t : csi_unhandled (in_csi e l i r o t) = false. Proof. reflexivity. Qed.
Lemma csi_scroll e l i r o t : scroll_enabled (in_csi e l i r o t) = scroll_enabled t. Proof. reflexivity. Qed.
Lemma csi_cols e l i r o t : cols (in_csi e l i r o t) = cols t. Proof. reflexivity. Qed.
Lemma csi_rows e l i r o t : rows (in_csi e l i r o t) = rows t. Proof. reflexivity. Qed.
Lemma csi_set_values e l i r o t l' : set_esc_values l' (in_csi e l i r o t) = in_csi e l' i r o t.
Proof. destruct t. vm_compute. reflexivity. Qed.
Lemma csi_next e l i r o t i' : set_rrr false (set_esc_values_i i' (in_csi e l i r o t)) = in_csi e l i' false o t.
Proof. destruct t. vm_compute. reflexivity. Qed.
Lemma csi_set_scroll e l i r o t v :
  set_scroll_enabled v (in_csi e l i r o t) = in_csi e l i r o (set_scroll_enabled v t).
Proof. destruct t. vm_compute. reflexivity. Qed.
Lemma csi_close e l i r o t v :
  set_escape false (set_control_sequence false (in_csi e l i r o (set_scroll_enabled (scroll_enabled t)
    (set_scroll_enabled v t)))) = in_csi false l i r o t.
Proof. destruct t. vm_compute. reflexivity. Qed.

Lemma fill_ones v0 v1 :
  fill_values (Z.to_nat (FLANTERM_MAX_ESC_VALUES - 2)) 2 1 (v0 :: v1 :: replicate 14 0) =
    Some (v0 :: v1 :: replicate 14 1).
Proof. reflexivity. Qed.

(** The number of a row or a column from one that a sequence asks for, of [n]. *)
Definition position (n v : Z) : Z := Z.min (Z.max (v - 1) 0) (n - 1).

Lemma position_steps n v :
  1 <= n < 2 ^ 31 -> 0 <= v < 2 ^ 32 ->
  let a := if negb (v =? 0) then u32 (v - 1) else v in (if n <=? a then u32 (n - 1) else a) = position n v.
Proof.
  intros Hn Hv. unfold position. rewrite (u32_small (n - 1)) by lia. cbv zeta.
  destruct (Z.eqb_spec v 0) as [->|]; cbn [negb]; [|rewrite u32_small by lia]; case_match; lia.
Qed.

Lemma clamp_position n v : 1 <= n -> clamp n (position n v) = position n v.
Proof. intros Hn. unfold clamp. replace (n <=? position n v) with false by (unfold position; lia). done. Qed.

Section sequences.
Context {B : Type} (F : flanterm_ops B).

Lemma putchars_app l1 l2 st st' :
  flanterm_putchars F l1 st = Some (tt, st') -> flanterm_putchars F (l1 ++ l2) st = flanterm_putchars F l2 st'.
Proof.
  revert st. induction l1 as [|b l1 IH]; intros st; cbn [flanterm_putchars app].
  - unfold tret. by intros [= ->].
  - unfold tbind. destruct (flanterm_putchar F (u8 b) st) as [[[] st1]|]; [|done]. apply IH.
Qed.

Lemma putchars_one b st : flanterm_putchars F [b] st = flanterm_putchar F (u8 b) st.
Proof. cbn [flanterm_putchars]. apply bind_unit. Qed.

(** The way of a byte through [flanterm_putchar] outside of a sequence, and
    inside of a control sequence. *)
Lemma put_idle x t b c :
  idle t -> 0 <= x < 0xc0 -> x <> 0x18 -> x <> 0x1a ->
  flanterm_putchar F x (mk_terminal t b c) =
    put_control F x (op_get_cursor_pos F t b).1 (op_get_cursor_pos F t b).2 (mk_terminal t b c).
Proof.
  intros [He Hs Ho Hd Hu Hg Hp Hl] Hx H1 H2. unfold flanterm_putchar, tbind at 1, context at 1. cbn [t_ctx].
  rewrite Hd, Hu. replace ((x =? 0x18) || (x =? 0x1a)) with false by lia. cbn [orb negb Z.eqb].
  unfold put_start. replace ((0xc0 <=? x) && (x <=? 0xf7)) with false by lia.
  unfold tbind at 1, context at 1. cbn [t_ctx]. rewrite He, Hg. cbn [negb Z.eqb].
  unfold tbind, get_cursor_pos, reads. cbn [t_ctx t_be]. by destruct (op_get_cursor_pos F t b).
Qed.

Lemma put_escaped x t b c :
  escape t = true -> osc t = false -> discard_next t = false -> unicode_remaining t = 0 ->
  0 <= x < 0xc0 -> x <> 0x18 -> x <> 0x1a ->
  flanterm_putchar F x (mk_terminal t b c) =
    let t' := set_escape_offset (u64 (escape_offset t + 1)) t in
    (if control_sequence t then control_sequence_parse F x
     else escape_switch F x (op_get_cursor_pos F t' b).1 (op_get_cursor_pos F t' b).2) (mk_terminal t' b c).
Proof.
  intros He Ho Hd Hu Hx H1 H2. unfold flanterm_putchar, tbind at 1, context at 1. cbn [t_ctx].
  rewrite Hd, Hu. replace ((x =? 0x18) || (x =? 0x1a)) with false by lia. cbn [orb negb Z.eqb].
  unfold put_start. replace ((0xc0 <=? x) && (x <=? 0xf7)) with false by lia.
  unfold tbind at 1, context at 1. cbn [t_ctx]. rewrite He.
  unfold escape_parse, tbind at 1 2, upd, context at 1. cbn [t_ctx t_be t_calls].
  cbn [osc set_escape_offset]. rewrite Ho. unfold tbind at 1, tret at 1. cbv beta iota.
  unfold tbind at 1, context at 1. cbn [t_ctx control_sequence set_escape_offset].
  destruct (control_sequence t); [done|].
  unfold tbind, get_cursor_pos, reads. cbn [t_ctx t_be]. by destruct (op_get_cursor_pos F _ b).
Qed.

Lemma csi_open t b c :
  idle t -> flanterm_putchars F [27; 91] (mk_terminal t b c) =
    Some (tt, mk_terminal (in_csi true (replicate 16 0) 0 false 1 t) b c).
Proof.
  intros Hi. rewrite (putchars_app [27] [91] _ (mk_terminal (set_escape true (set_escape_offset 0 t)) b c)).
  - rewrite putchars_one. change (u8 91) with 91. destruct Hi as [He Hs Ho Hd Hu Hg Hp Hl].
    rewrite put_escaped by (done || lia). cbn [set_escape set_escape_offset control_sequence]. rewrite Hs.
    unfold escape_switch. change (91 =? ch "]") with false. change (91 =? ch "[") with true. cbv iota.
    unfold updo. cbn [t_ctx t_be t_calls]. change (esc_values (set_escape_offset _ _)) with (esc_values t).
    by rewrite fill_zero.
  - rewrite putchars_one. change (u8 27) with 27. rewrite put_idle by (done || lia).
    unfold put_control, tbind, context. cbn. reflexivity.
Qed.

Lemma csi_put x l i r o t b c :
  idle t -> 0 <= x < 0xc0 -> x <> 0x18 -> x <> 0x1a ->
  flanterm_putchar F x (mk_terminal (in_csi true l i r o t) b c) =
    control_sequence_parse F x (mk_terminal (in_csi true l i r (u64 (o + 1)) t) b c).
Proof. 
  intros [He Hs Ho Hd Hu Hg Hp Hl] Hx H1 H2. rewrite put_escaped; [|done..]. cbv zeta.
  by rewrite csi_offset, csi_set_offset, csi_sequence.
Qed.

(** A digit of a parameter. *)
Lemma csi_put_digit t b c l i r o v d :
  idle t -> 0 <= i < 16 -> aget l i = Some v -> 0 <= d <= 9 -> 0 <= v -> v * 10 + d < 2 ^ 32 ->
  flanterm_putchar F (u8 (48 + d)) (mk_terminal (in_csi true l i r o t) b c) =
    Some (tt, mk_terminal (in_csi true (<[Z.to_nat i := v * 10 + d]> l) i true (u64 (o + 1)) t) b c).
Proof.
  intros Ht Hi Hv Hdd Hv0 Hvd. unfold u8. rewrite Z.mod_small by lia. rewrite csi_put by (done || lia).
  unfold control_sequence_parse, tbind at 1, context at 1. rewrite ch_open, ch_private, ch_0, ch_9.
  replace (48 + d =? 91) with false by lia. replace (48 + d =? 63) with false by lia. rewrite !andb_false_r.
  replace ((48 <=? 48 + d) && (48 + d <=? 57)) with true by lia.
  unfold updo, csi_digit. cbn [t_ctx t_be t_calls]. rewrite csi_values_i, csi_values, ch_0.
  replace (i =? FLANTERM_MAX_ESC_VALUES) with false by (unfold FLANTERM_MAX_ESC_VALUES; lia).
  rewrite Hv. cbn [mbind option_bind]. replace (48 + d - 48) with d by lia.
  rewrite (u32_small (v * 10)), u32_small by lia. rewrite aset_in by (by apply aget_Some_range in Hv).
  cbn [mbind option_bind]. by rewrite csi_set_value.
Qed.

Lemma csi_put_digits t b c i ds : forall l r o v,
  idle t -> 0 <= i < 16 -> aget l i = Some v -> 0 <= v -> Forall (fun d => 0 <= d <= 9) ds -> value_from v ds < 2 ^ 32 ->
  exists r' o', flanterm_putchars F (digits ds) (mk_terminal (in_csi true l i r o t) b c) =
    Some (tt, mk_terminal (in_csi true (<[Z.to_nat i := value_from v ds]> l) i r' o' t) b c) /\ (r = true \/ ds <> [] -> r' = true).
Proof.
  induction ds as [|d ds IH]; intros l r o v Ht Hi Hv H0 Hds Hmax; cbn [digits fmap list_fmap flanterm_putchars].
  - exists r, o. split; [|intros [?|?]; done]. cbn [value_from foldl]. rewrite list_insert_id; [done|].
    unfold aget in Hv. by rewrite (proj2 (Z.ltb_ge i 0)) in Hv by lia.
  - inversion Hds as [|? ? Hd Hds']; subst. cbn [value_from foldl] in *.
    pose proof (value_from_mono ds (v * 10 + d) Hds' ltac:(lia)) as Hm. unfold value_from in Hm.
    erewrite bind_some by (apply (csi_put_digit _ _ _ _ _ _ _ v); [done..|lia]). cbv beta.
    destruct (IH (<[Z.to_nat i := v * 10 + d]> l) true (u64 (o + 1)) (v * 10 + d) Ht Hi) as (r' & o' & E & Hr);
      [| lia|done|done|].
    + pose proof (aget_Some_range _ _ _ Hv). rewrite aget_insert by lia. by rewrite Z.eqb_refl.
    + exists r', o'. split; [|intros _; apply Hr; by left]. unfold digits in E. rewrite E.
      by rewrite list_insert_insert_eq.
Qed.

(** The end of a parameter. *)
Lemma csi_put_separator t b c l i o :
  idle t -> 0 <= i < 16 ->
  flanterm_putchars F [59] (mk_terminal (in_csi true l i true o t) b c) =
    Some (tt, mk_terminal (in_csi true l (i + 1) false (u64 (o + 1)) t) b c).
Proof.
  intros Ht Hi. rewrite putchars_one. change (u8 59) with 59. rewrite csi_put by (done || lia).
  unfold control_sequence_parse, tbind at 1, context at 1. cbn [t_ctx].
  rewrite ch_open, ch_private, ch_0, ch_9, ch_semicolon, csi_rrr. cbn [Z.eqb Pos.eqb]. rewrite !andb_false_r.
  change ((48 <=? 59) && (59 <=? 57)) with false. cbv iota.
  unfold upd, tbind, tret. cbn [t_ctx t_be t_calls]. unfold csi_end_value.
  rewrite csi_rrr, csi_values_i, csi_next, u64_small by lia. done.
Qed.

(** Reading and writing the first two parameters. *)
Lemma esc_first e v0 v1 l i r o t (b : B) c :
  esc 0 (mk_terminal (in_csi e (v0 :: v1 :: l) i r o t) b c) =
    Some (v0, mk_terminal (in_csi e (v0 :: v1 :: l) i r o t) b c).
Proof. unfold esc, tbind, context, tget. cbn [t_ctx]. by rewrite csi_values. Qed.

Lemma esc_second e v0 v1 l i r o t (b : B) c :
  esc 1 (mk_terminal (in_csi e (v0 :: v1 :: l) i r o t) b c) =
    Some (v1, mk_terminal (in_csi e (v0 :: v1 :: l) i r o t) b c).
Proof. unfold esc, tbind, context, tget. cbn [t_ctx]. by rewrite csi_values. Qed.

Lemma set_esc_first (p : bool) e v v0 v1 l i r o t (b : B) c :
  twhen p (set_esc 0 v) (mk_terminal (in_csi e (v0 :: v1 :: l) i r o t) b c) =
    Some (tt, mk_terminal (in_csi e ((if p then v else v0) :: v1 :: l) i r o t) b c).
Proof.
  destruct p; [|done]. cbn [twhen]. unfold set_esc, updo. cbn [t_ctx t_be t_calls].
  rewrite csi_values, aset_in by (unfold zlen; cbn [length]; lia). cbn [mbind option_bind]. by rewrite csi_set_values.
Qed.

Lemma set_esc_second (p : bool) e v v0 v1 l i r o t (b : B) c :
  twhen p (set_esc 1 v) (mk_terminal (in_csi e (v0 :: v1 :: l) i r o t) b c) =
    Some (tt, mk_terminal (in_csi e (v0 :: (if p then v else v1) :: l) i r o t) b c).
Proof.
  destruct p; [|done]. cbn [twhen]. unfold set_esc, updo. cbn [t_ctx t_be t_calls].
  rewrite csi_values, aset_in by (unfold zlen; cbn [length]; lia). cbn [mbind option_bind]. by rewrite csi_set_values.
Qed.

Lemma csi_position_moves v0 v1 l i r o t b c :
  1 <= cols t < 2 ^ 31 -> 1 <= rows t < 2 ^ 31 -> 0 <= v0 < 2 ^ 32 -> 0 <= v1 < 2 ^ 32 ->
  let X := position (cols t) v1 in let Y := position (rows t) v0 in
  csi_position F (mk_terminal (in_csi true (v0 :: v1 :: l) i r o t) b c) =
    set_cursor_pos F X Y (mk_terminal (in_csi true (Y :: X :: l) i r o t) b c).
Proof.
  intros Hc Hr H0 H1 X Y. unfold X, Y. rewrite <- !position_steps by done. cbv zeta. unfold csi_position.
  rewrite (bind_some _ _ _ _ _ (esc_first _ _ _ _ _ _ _ _ _ _)).
  rewrite (bind_some _ _ _ _ _ (set_esc_first _ _ _ _ _ _ _ _ _ _ _ _)).
  rewrite (bind_some _ _ _ _ _ (esc_second _ _ _ _ _ _ _ _ _ _)).
  rewrite (bind_some _ _ _ _ _ (set_esc_second _ _ _ _ _ _ _ _ _ _ _ _)).
  unfold tbind at 1, context at 1. cbn [t_ctx]. rewrite csi_cols, csi_rows.
  rewrite (bind_some _ _ _ _ _ (esc_second _ _ _ _ _ _ _ _ _ _)).
  rewrite (bind_some _ _ _ _ _ (set_esc_second _ _ _ _ _ _ _ _ _ _ _ _)).
  rewrite (bind_some _ _ _ _ _ (esc_first _ _ _ _ _ _ _ _ _ _)).
  rewrite (bind_some _ _ _ _ _ (set_esc_first _ _ _ _ _ _ _ _ _ _ _ _)).
  rewrite (bind_some _ _ _ _ _ (esc_second _ _ _ _ _ _ _ _ _ _)).
  by rewrite (bind_some _ _ _ _ _ (esc_first _ _ _ _ _ _ _ _ _ _)).
Qed.

Lemma csi_switch_position x y : csi_switch F 72 x y = (csi_position F;;; tret Break).
Proof. reflexivity. Qed.

(** The final byte of [ESC [ row ; column H]. *)
Lemma csi_put_final t b b' c v0 v1 o :
  idle t -> 1 <= cols t < 2 ^ 31 -> 1 <= rows t < 2 ^ 31 -> 0 <= v0 < 2 ^ 32 -> 0 <= v1 < 2 ^ 32 ->
  let X := position (cols t) v1 in let Y := position (rows t) v0 in
  (forall t', cols t' = cols t -> rows t' = rows t -> op_set_cursor_pos F t' X Y b = Some b') ->
  flanterm_putchars F [72] (mk_terminal (in_csi true (v0 :: v1 :: replicate 14 0) 1 true o t) b c) =
    Some (tt, mk_terminal (in_csi false (Y :: X :: replicate 14 1) 2 false (u64 (o + 1)) t) b' c).
Proof.
  intros Ht Hc Hr H0 H1 X Y Hb. rewrite putchars_one. change (u8 72) with 72. rewrite csi_put by (done || lia).
  unfold control_sequence_parse, tbind at 1, context at 1. cbn [t_ctx].
  rewrite ch_open, ch_private, ch_0, ch_9, ch_semicolon, csi_rrr. cbn [Z.eqb Pos.eqb]. rewrite !andb_false_r.
  change ((48 <=? 72) && (72 <=? 57)) with false. cbv iota.
  unfold upd at 1, tbind at 1. cbn [t_ctx t_be t_calls]. unfold csi_end_value at 1.
  rewrite csi_rrr, csi_values_i, csi_next, u64_small by lia. change (1 + 1) with 2.
  unfold csi_final. erewrite bind_some; cycle 1.
  { unfold updo, csi_defaults. cbn [t_ctx t_be t_calls]. rewrite csi_values_i, csi_values.
    change (if one_of 72 "JKq" then 0 else 1) with 1. rewrite fill_ones. cbn [mbind option_bind].
    rewrite csi_set_values. reflexivity. }
  unfold tbind at 1, context at 1. cbn [t_ctx]. rewrite csi_private, csi_scroll, csi_not_unhandled, (id_private _ Ht).
  unfold tbind at 1, upd at 1. cbn [t_ctx t_be t_calls]. rewrite csi_set_scroll.
  unfold tbind at 1, get_cursor_pos, reads. cbn [t_ctx t_be].
  destruct (op_get_cursor_pos F _ b) as [x y]. rewrite csi_switch_position.
  unfold tbind at 1 2. rewrite csi_position_moves by done.
  change (cols (set_scroll_enabled false t)) with (cols t). change (rows (set_scroll_enabled false t)) with (rows t).
  unfold set_cursor_pos, call. cbn [t_ctx t_be t_calls]. rewrite Hb by done. cbn [mbind option_bind].
  unfold tret, tbind, cleanup, upd. cbn [t_ctx t_be t_calls]. by rewrite csi_set_scroll, csi_close.
Qed.
End sequences.

(** After any complete input, the sequence [ESC [ row ; column H] with the
    digits of a row and a column moves the cursor there: rows and columns count
    from one, nought counts as one, and what is too large as the last one.
    Nothing is printed, and the context is ready for the next character. *)
Theorem csi_position_roundtrip P t s c ds1 ds2 :
  idle t -> 1 <= cols t < 2 ^ 31 -> 1 <= rows t < 2 ^ 31 -> ds1 <> [] -> ds2 <> [] ->
  Forall (fun d => 0 <= d <= 9) ds1 -> Forall (fun d => 0 <= d <= 9) ds2 ->
  value_from 0 ds1 < 2 ^ 32 -> value_from 0 ds2 < 2 ^ 32 ->
  exists l o, flanterm_putchars (screen_ops P) ([27; 91] ++ digits ds1 ++ [59] ++ digits ds2 ++ [72]) (mk_terminal t s c) =
      Some (tt, mk_terminal (in_csi false l 2 false o t)
        (on_text (put_pos (position (cols t) (value_from 0 ds2)) (position (rows t) (value_from 0 ds1))) s) c) /\
    idle (in_csi false l 2 false o t).
Proof.
  intros Ht Hc Hr N1 N2 D1 D2 V1 V2.
  pose proof (value_from_mono ds1 0 D1 ltac:(lia)). pose proof (value_from_mono ds2 0 D2 ltac:(lia)).
  rewrite (putchars_app _ _ _ _ _ (csi_open (screen_ops P) t s c Ht)).
  destruct (csi_put_digits (screen_ops P) t s c 0 ds1 (replicate 16 0) false 1 0 Ht) as (r1 & o1 & E1 & R1); [done..|].
  rewrite (putchars_app _ _ _ _ _ E1), R1 by auto.
  rewrite (putchars_app _ _ _ _ _ (csi_put_separator (screen_ops P) t s c _ 0 o1 Ht ltac:(lia))).
  destruct (csi_put_digits (screen_ops P) t s c 1 ds2 (<[Z.to_nat 0 := value_from 0 ds1]> (replicate 16 0)) false (u64 (o1 + 1)) 0 Ht)
    as (r2 & o2 & E2 & R2); [done..|].
  rewrite (putchars_app _ _ _ _ _ E2), R2 by auto.
  eexists _, _. split.
  - apply (csi_put_final (screen_ops P) t s _ c (value_from 0 ds1) (value_from 0 ds2) o2); try done.
    intros t' Ec Er. cbn [op_set_cursor_pos screen_ops]. rewrite Ec, Er, !clamp_position by lia. done.
  - by destruct Ht; constructor.
Qed.

(** A terminal of four columns and two rows on the plain array. *)
Definition example_palette : palette := mk_palette (replicate 8 0) (replicate 8 0) 7 15 8 (fun v => v).
Definition example_screen : screen :=
  mk_screen (replicate 8 (mk_char 32 7 TRANSPARENT)) (mk_text 7 TRANSPARENT 0 0) (mk_text 0 0 0 0).
Definition example_terminal : terminal screen := mk_terminal (fresh_context 2 4) example_screen [].

Lemma example_idle : idle (fresh_context 2 4).
Proof. by constructor. Defined.

(** The full block, whose glyph is 0xdb. *)
Lemma utf8_roundtrip_witness :
  utf8 0x2588 = [0xe2; 0x96; 0x88] /\
  flanterm_putchars (screen_ops example_palette) (utf8 0x2588) example_terminal =
    raw_putchar (screen_ops example_palette) 0xdb (reading 0x2588 0 example_terminal).
Proof.
  split; [reflexivity|]. rewrite utf8_roundtrip; [reflexivity|lia|reflexivity|reflexivity].
Defined.

(** [ESC [ 2 ; 3 H] is the second row and the third column. *)
Lemma csi_position_roundtrip_witness :
  exists l o, flanterm_putchars (screen_ops example_palette) [27; 91; 50; 59; 51; 72] example_terminal =
    Some (tt, mk_terminal (in_csi false l 2 false o (fresh_context 2 4)) (on_text (put_pos 2 1) example_screen) []).
Proof.
  destruct (csi_position_roundtrip example_palette (fresh_context 2 4) example_screen [] [2] [3]) as (l & o & E & _);
    [exact example_idle|cbn; lia|cbn; lia|done|done|repeat constructor; lia|repeat constructor; lia|cbn; lia|cbn; lia|].
  exists l, o. exact E.
Defined.
