(* ===== verification/FlantermTop.v ===== *)
(** * The terminal as a whole

    The parser of flanterm.c on the frame buffer backend of fb.c, as the kernel
    makes it: [flanterm_fb_init] succeeds on every frame buffer with room for a
    character, and from then on whatever is written shows on the frame buffer
    as it would stand in a plain array of characters. *)

From S2P Require Import Prelude Memory Arrays Wcwidth Flanterm FlantermSim FlantermSafe FlantermFb FlantermPlot.
From S2P Require Import FlantermScreen FlantermStore FlantermFlush FlantermFbSpec FlantermInit FlantermInitSpec.

Local Open Scope term_scope.

(** A terminal on the frame buffer and the reference, after the same input. *)
Abbreviation in_step W H P m0 := (related (refines W H P m0) (ctx_ok W H)).

(** The masks of a pixel format: components of one size, not less than eight
    bits, that lie in the 32 bits of a pixel. *)
Definition masks_size (masks : Z * Z * (Z * Z) * (Z * Z)) : Prop :=
  let '((rs, _), (gs, _), (bs, _)) := masks in 8 <= rs /\ gs = rs /\ bs = rs.
Definition masks_ok (masks : Z * Z * (Z * Z) * (Z * Z)) : Prop :=
  let '((rs, rsh), (gs, gsh), (bs, bsh)) := masks in
  masks_size masks /\ 0 <= rsh <= 32 - rs /\ 0 <= gsh <= 32 - gs /\ 0 <= bsh <= 32 - bs.

(** ** The pool *)

(** The pool before its first use, or with its next allocation aligned. *)
Record pool_ok (b : bump_state) : Prop := mk_pool_ok {
  po_addr : 0 < bump_alloc_pool b;
  po_ptr : 0 <= bump_alloc_ptr b <= FLANTERM_FB_BUMP_ALLOC_POOL_SIZE;
  po_added : if base_offset_added b then (bump_alloc_pool b + bump_alloc_ptr b) mod 16 = 0 else bump_alloc_ptr b = 0
}.

(** The allocator of the pool either returns NULL, and then there is no room
    for the aligned size, or memory on a multiple of sixteen that lies in the
    pool behind everything returned before, and is counted as used. *)
Theorem bump_alloc_spec s b q b' :
  pool_ok b -> 0 <= s < 2 ^ 63 -> bump_alloc s b = (q, b') ->
  pool_ok b' /\ bump_alloc_pool b' = bump_alloc_pool b /\
  ((q = 0 /\ FLANTERM_FB_BUMP_ALLOC_POOL_SIZE < bump_alloc_ptr b' + round16 s) \/
   (q mod 16 = 0 /\ bump_alloc_pool b + bump_alloc_ptr b <= q /\ q + s <= bump_alloc_pool b + bump_alloc_ptr b')).
Proof.
  intros [Ha Hp Hadd] Hs. unfold bump_alloc, FLANTERM_FB_BUMP_ALLOC_POOL_SIZE in *. rewrite bump_round, mod_16_low by done. cbv zeta.
  set (ptr := if base_offset_added b then bump_alloc_ptr b
              else if negb (bump_alloc_pool b mod 16 =? 0) then u64 (bump_alloc_ptr b + (0x10 - bump_alloc_pool b mod 16))
              else bump_alloc_ptr b).
  assert (Hptr : bump_alloc_ptr b <= ptr <= 873000 /\ (bump_alloc_pool b + ptr) mod 16 = 0).
  { unfold ptr. destruct (base_offset_added b); [lia|]. rewrite Hadd.
    destruct (Z.eqb_spec (bump_alloc_pool b mod 16) 0); cbn [negb]; [zlia|]. rewrite u64_small by zlia. zlia. }
  clearbody ptr. destruct Hptr as [Hptr Hal]. assert (Hr : s <= round16 s < s + 16 /\ round16 s mod 16 = 0) by (unfold round16; zlia).
  rewrite u64_small by lia. destruct (Z.ltb_spec 873000 (ptr + round16 s)); intros [= <- <-].
  - split; [constructor; cbn; unfold FLANTERM_FB_BUMP_ALLOC_POOL_SIZE; try lia; exact Hal|]. split; [done|]. left. cbn. lia.
  - split; [constructor; cbn; try lia; unfold FLANTERM_FB_BUMP_ALLOC_POOL_SIZE; zlia|]. split; [done|]. right. cbn. lia.
Qed.

(** The first allocation from a pool at an odd address. *)
Lemma bump_alloc_spec_witness :
  (4097 + 15) mod 16 = 0 /\ pool_ok (mk_bump 4097 (15 + 32) true false) /\
  bump_alloc 20 (mk_bump 4097 0 false false) = (4097 + 15, mk_bump 4097 (15 + 32) true false).
Proof.
  destruct (bump_alloc_spec 20 (mk_bump 4097 0 false false) (4097 + 15) (mk_bump 4097 (15 + 32) true false))
    as (Hok & _ & _); [constructor; cbn; unfold FLANTERM_FB_BUMP_ALLOC_POOL_SIZE; done || lia|lia|reflexivity|].
  split; [reflexivity|]. split; [exact Hok|reflexivity].
Defined.

(** ** The new terminal *)

Section new.
Context (framebuffer width height pitch : Z) (HF : kernel_framebuffer framebuffer width height pitch).
Context (masks : Z * Z * (Z * Z) * (Z * Z)).

Abbreviation ncols := (term_cols width height).
Abbreviation nrows := (term_rows width height).
Abbreviation args := (kernel_args framebuffer width height pitch masks).

Lemma init_kernel_eq al m :
  masks_size masks -> bump_allocated_instance (al_bump al) = false ->
  flanterm_fb_init args al m =
  (r ← init_contexts args (term_start framebuffer width height pitch) (term_width width) (term_height height)
         (scale_of width height) (scale_of width height) None (al, nothing_made);
   match r with
   | (Fail, (al, k)) => Some (None, init_fail args al k)
   | (Made (t, f), (al, k)) =>
     w ← flanterm_fb_full_refresh t (mk_world f m []);
     Some (Some (mk_terminal t w []), on_bump (set_instance true) al)
   end).
Proof.
  intros Hm Hi. unfold flanterm_fb_init.
  change (init_dimensions args) with (width, height). cbv beta iota. rewrite init_scale_eq. cbv beta iota.
  cbn [kernel_args a_masks a_malloc a_framebuffer a_pitch]. rewrite Hi.
  destruct masks as [[[rs rsh] [gs gsh]] [bs bsh]]. destruct Hm as (Hrs & -> & ->).
  replace ((rs <? 8) || negb (rs =? rs) || negb (rs =? rs)) with false by (rewrite Z.eqb_refl; lia).
  cbn [andb]. rewrite (init_limit_eq _ _ _ _ HF). reflexivity.
Qed.

(** What holds of the terminal that the kernel makes. *)
Lemma kernel_terminal al m :
  masks_ok masks -> pool_unused (al_bump al) ->
  exists t al', flanterm_fb_init args al m = Some (Some t, al') /\
    bump_allocated_instance (al_bump al') = true /\
    let f := fb (t_be t) in
    let cells := replicate (Z.to_nat (nrows * ncols)) (mk_char 32 (default_fg f) TRANSPARENT) in
    t_ctx t = fresh_context nrows ncols /\ zlen (ansi_colours f) = 8 /\ zlen (ansi_bright_colours f) = 8 /\
    in_step ncols nrows (palette_of f) m t
      (mk_terminal (t_ctx t) (mk_screen cells (mk_text (default_fg f) TRANSPARENT 0 0) (mk_text 0 0 0 0)) []) /\
    presented ncols nrows (t_ctx t) f (vram (t_be t)) (aget cells) /\
    (forall c y x, 0 <= c < 256 -> 0 <= y < 16 -> 0 <= x < 9 ->
       aget (buf_data (font_bool f)) ((c * 16 + y) * 9 + x) = Some (font_dot builtin_font 16 c y x)) /\
    (forall a, in_framebuffer f a -> framebuffer <= a < framebuffer + pitch * height).
Proof.
  intros Hm Hal. rewrite init_kernel_eq by (apply Hal || destruct masks as [[[? ?] [? ?]] [? ?]]; apply Hm).
  destruct (init_contexts_kernel _ _ _ _ HF masks al Hal) as (fbl & p1 & p2 & p3 & p4 & p5 & al' & mk & -> & Hfl & Hfont).
  cbn [mbind option_bind].
  destruct (kernel_refresh _ _ _ _ HF masks fbl p1 p2 p3 p4 p5 Hfl m) as (w & -> & Hset & Hr & Hp).
  cbn [mbind option_bind]. eexists _, _. split; [done|]. split; [done|]. cbn [t_be t_ctx].
  assert (Hpal : palette_of (fb w) = palette_of (kernel_context framebuffer width height pitch masks fbl p1 p2 p3 p4 p5))
    by (by rewrite Hset).
  assert (Hscr : kernel_screen framebuffer width height pitch masks fbl p1 p2 p3 p4 p5 =
    mk_screen (replicate (Z.to_nat (nrows * ncols)) (mk_char 32 (default_fg (fb w)) TRANSPARENT))
      (mk_text (default_fg (fb w)) TRANSPARENT 0 0) (mk_text 0 0 0 0)).
  { rewrite Hset. by destruct masks as [[[rs rsh] [gs gsh]] [bs bsh]]. }
  rewrite Hpal. rewrite Hscr in Hr, Hp. split_and!; [done| | | |done| |].
  - rewrite Hset. by destruct masks as [[[rs rsh] [gs gsh]] [bs bsh]].
  - rewrite Hset. by destruct masks as [[[rs rsh] [gs gsh]] [bs bsh]].
  - constructor; [done..|]. by apply (fresh_ok framebuffer _ _ pitch).
  - intros c y x Hc Hy Hx. rewrite <- Hfont by done. rewrite Hset. by destruct masks as [[[rs rsh] [gs gsh]] [bs bsh]].
  - intros a Ha. apply (kernel_bounds _ _ _ _ HF masks fbl p1 p2 p3 p4 p5). rewrite Hset in Ha. exact Ha.
Qed.

(** The call of the kernel makes a terminal on every frame buffer with room
    for a character: the contexts and the tables fit into the pool, the context
    meets its invariant, the backend is in step with a screen of blanks that
    the frame buffer shows with the cursor on the first of them, the dots of
    the glyphs are those of the font, and what the terminal draws on lies in
    the frame buffer that it was given. *)
Theorem kernel_terminal_spec al m :
  masks_ok masks -> pool_unused (al_bump al) ->
  exists t al', flanterm_fb_init args al m = Some (Some t, al') /\
    bump_allocated_instance (al_bump al') = true /\
    let f := fb (t_be t) in
    let cells := replicate (Z.to_nat (nrows * ncols)) (mk_char 32 (default_fg f) TRANSPARENT) in
    t_ctx t = fresh_context nrows ncols /\ zlen (ansi_colours f) = 8 /\ zlen (ansi_bright_colours f) = 8 /\
    in_step ncols nrows (palette_of f) m t
      (mk_terminal (t_ctx t) (mk_screen cells (mk_text (default_fg f) TRANSPARENT 0 0) (mk_text 0 0 0 0)) []) /\
    presented ncols nrows (t_ctx t) f (vram (t_be t)) (aget cells) /\
    (forall c y x, 0 <= c < 256 -> 0 <= y < 16 -> 0 <= x < 9 ->
       aget (buf_data (font_bool f)) ((c * 16 + y) * 9 + x) = Some (font_dot builtin_font 16 c y x)) /\
    (forall a, in_framebuffer f a -> framebuffer <= a < framebuffer + pitch * height).
Proof. apply kernel_terminal. Qed.
End new.

(** A frame buffer with room for two rows of four characters. *)
Definition example_masks : Z * Z * (Z * Z) * (Z * Z) := ((8, 16), (8, 8), (8, 0)).
Definition example_pool : alloc_state := mk_alloc (mk_bump 4096 0 false false) 0%nat [].
Abbreviation example_init m := (flanterm_fb_init (kernel_args 65536 40 35 160 example_masks) example_pool m).

Lemma example_framebuffer : kernel_framebuffer 65536 40 35 160.
Proof. constructor; lia || done. Defined.
Lemma example_unused : pool_unused (al_bump example_pool).
Proof. constructor; reflexivity || lia. Defined.
Lemma example_masks_ok : masks_ok example_masks.
Proof. cbn. lia. Defined.

Lemma kernel_terminal_spec_witness :
  exists t al', example_init ∅ = Some (Some t, al') /\ t_ctx t = fresh_context 2 4.
Proof.
  destruct (kernel_terminal_spec 65536 40 35 160 example_framebuffer example_masks example_pool ∅
    example_masks_ok example_unused) as (t & al' & E & _ & Hc & _).
  exists t, al'. split; [exact E|exact Hc].
Defined.

(** A format with components of different sizes or of less than eight bits,
    and a second terminal in the pool, are refused, and nothing is allocated. *)
Theorem flanterm_fb_init_rejects a al m :
  ~ masks_size (a_masks a) \/ (a_malloc a = None /\ bump_allocated_instance (al_bump al) = true) ->
  flanterm_fb_init a al m = Some (None, al).
Proof.
  intros Ha. unfold flanterm_fb_init. destruct (init_dimensions a) as [w h]. destruct (init_scale a w h) as [sx sy].
  destruct (a_masks a) as [[[rs rsh] [gs gsh]] [bs bsh]]. unfold masks_size in Ha.
  destruct ((rs <? 8) || negb (rs =? gs) || negb (rs =? bs)) eqn:E; [done|].
  destruct Ha as [Hm|[-> ->]]; [exfalso; apply Hm; lia|done].
Qed.

Lemma flanterm_fb_init_rejects_witness :
  flanterm_fb_init (kernel_args 65536 40 35 160 ((5, 11), (6, 5), (5, 0))) example_pool ∅ = Some (None, example_pool).
Proof. apply flanterm_fb_init_rejects. left. cbn. lia. Defined.

(** ** Drawing *)

(** The second character of a small screen, a glyph without dots. *)
Lemma plot_char_spec_witness :
  exists m', plot (fresh_context 1 2) small_context (mk_char 65 0xffffff 0x1234) 1 0 ∅ = Some m' /\
    pixel small_context m' 1 0 = 0x1234 /\ pixel small_context m' 0 0 = 0.
Proof.
  destruct (plot_char_spec 2 1 (fresh_context 1 2) small_context (mk_char 65 0xffffff 0x1234) 1 0 ∅ small_drawing)
    as (m' & E & Hp & _); [reflexivity|reflexivity|lia|lia|cbn; lia|].
  exists m'. split; [exact E|]. split.
  - rewrite Hp by (split; cbn; lia). reflexivity.
  - rewrite Hp by (split; cbn; lia). reflexivity.
Defined.

(** ** Writing *)

(** C20: the type of the parser's state.  Given any backend that completes its
    operations when the margins lie on the screen (here: any two that do so
    alike), whatever bytes are written leave a context whose numbers index its
    arrays, whose margins lie on the screen and whose pending sequence is well
    formed; the run returns, with the same calls of [callback] on either
    backend. *)
Theorem parser_keeps_context {B1 B2} (F1 : flanterm_ops B1) (F2 : flanterm_ops B2) W H R buf t1 t2 :
  backend_sim F1 F2 W H R -> related R (ctx_ok W H) t1 t2 ->
  exists t1' t2', flanterm_write F1 buf t1 = Some (tt, t1') /\ flanterm_write F2 buf t2 = Some (tt, t2') /\
    ctx_ok W H (t_ctx t1') /\ t_ctx t1' = t_ctx t2' /\ t_calls t1' = t_calls t2' /\ R (t_be t1') (t_be t2').
Proof.
  intros HB Ht. destruct (s_flanterm_write F1 F2 W H R buf t1 t2 Ht) as ([] & t1' & t2' & E1 & E2 & [] & _).
  by exists t1', t2'.
Qed.

(** The frame buffer backend is one of them. *)
Lemma parser_keeps_context_witness :
  exists t al' t1', example_init ∅ = Some (Some t, al') /\
    flanterm_write fb_ops [27; 91; 51; 49; 109; 120] t = Some (tt, t1') /\ ctx_ok 4 2 (t_ctx t1').
Proof.
  destruct (kernel_terminal 65536 40 35 160 example_framebuffer example_masks example_pool ∅
    example_masks_ok example_unused) as (t & al' & E & _ & Hc & H1 & H2 & Ht & _).
  destruct (parser_keeps_context fb_ops _ 4 2 _ [27; 91; 51; 49; 109; 120] t _
    (fb_backend 4 2 ltac:(lia) ltac:(lia) (palette_of (fb (t_be t))) (conj H1 H2) ∅) Ht) as (t1' & t2' & E1 & _ & Hok & _).
  exists t, al', t1'. split; [exact E|]. split; [exact E1|exact Hok].
Defined.

Section write.
Context (W H : Z) (HW : 1 <= W < 2 ^ 31) (HH : 1 <= H < 2 ^ 31).
Context (P : palette) (HP : zlen (p_ansi P) = 8 /\ zlen (p_bright P) = 8) (m0 : mem).

(** What holds of every text. *)
Lemma terminal_write buf t1 t2 :
  in_step W H P m0 t1 t2 ->
  exists t1' t2', flanterm_write fb_ops buf t1 = Some (tt, t1') /\
    flanterm_write (screen_ops P) buf t2 = Some (tt, t2') /\ in_step W H P m0 t1' t2' /\
    (autoflush (t_ctx t1') = true ->
     presented W H (t_ctx t1') (fb (t_be t1')) (vram (t_be t1')) (aget (s_cells (t_be t2')))) /\
    agree_off (in_framebuffer (fb (t_be t1'))) m0 (vram (t_be t1')).
Proof.
  intros Ht. pose proof (fb_backend W H HW HH P HP m0). unfold flanterm_write.
  destruct (s_flanterm_putchars fb_ops (screen_ops P) W H (refines W H P m0) buf t1 t2 Ht)
    as ([] & u1 & u2 & E1 & E2 & Hu & _).
  unfold tbind, context. rewrite E1, E2. destruct Hu as [Hc Hl Hb Ho]. rewrite <- Hc.
  destruct (autoflush (t_ctx u1)) eqn:Ea; cbn [twhen].
  - unfold call. rewrite <- Hc. cbn [op_double_buffer_flush fb_ops screen_ops].
    destruct (flush_refines W H HW HH P m0 (t_ctx u1) _ _ (ok_geometry _ _ _ Ho) Hb) as (w & -> & Hr & Hp).
    cbn [mbind option_bind]. eexists _, _. split_and!; [done..| | |]; cbn [t_ctx t_be].
    + by constructor.
    + done.
    + apply Hr.
  - eexists _, _. split_and!; [done..| | |apply Hb]; [by constructor|]. by rewrite Ea.
Qed.

(** C6: whatever is written to the terminal, the parser returns on the frame
    buffer backend and on the plain array of characters: no access is out of
    bounds, the two stay in step, and with [autoflush] the frame buffer then
    shows the characters of the plain array, the cursor in inverse colours.
    The memory outside of the frame buffer stays as it was. *)
Theorem flanterm_write_spec buf t1 t2 :
  in_step W H P m0 t1 t2 ->
  exists t1' t2', flanterm_write fb_ops buf t1 = Some (tt, t1') /\
    flanterm_write (screen_ops P) buf t2 = Some (tt, t2') /\ in_step W H P m0 t1' t2' /\
    (autoflush (t_ctx t1') = true ->
     presented W H (t_ctx t1') (fb (t_be t1')) (vram (t_be t1')) (aget (s_cells (t_be t2')))) /\
    agree_off (in_framebuffer (fb (t_be t1'))) m0 (vram (t_be t1')).
Proof. by apply terminal_write. Qed.
End write.

Definition bytes_of (s : string) : list Z := (fun a => Z.of_N (Ascii.N_of_ascii a)) <$> String.list_ascii_of_string s.

Lemma flanterm_write_spec_witness :
  exists t al' t1' t2', example_init ∅ = Some (Some t, al') /\
    flanterm_write fb_ops (bytes_of "kernel") t = Some (tt, t1') /\
    in_step 4 2 (palette_of (fb (t_be t))) ∅ t1' t2'.
Proof.
  destruct (kernel_terminal 65536 40 35 160 example_framebuffer example_masks example_pool ∅
    example_masks_ok example_unused) as (t & al' & E & _ & Hc & H1 & H2 & Ht & _).
  destruct (flanterm_write_spec 4 2 ltac:(lia) ltac:(lia) (palette_of (fb (t_be t))) (conj H1 H2) ∅ (bytes_of "kernel") t _ Ht)
    as (t1' & t2' & E1 & E2 & Ht' & _).
  exists t, al', t1', t2'. split; [exact E|]. split; [exact E1|exact Ht'].
Defined.
