(* ===== verification/FlantermCases.v ===== *)
(** * Cases in which the terminal surprises

    Runs of the model of flanterm.c and fb.c that end otherwise than the
    comments of the code, or the manual page console_codes(4) that it names as
    the standard it follows, say. *)

From S2P Require Import Prelude Memory Arrays Wcwidth Flanterm FlantermSim FlantermSafe FlantermFb FlantermPlot FlantermScreen FlantermStore.
From S2P Require Import FlantermFbSpec FlantermInit FlantermInitSpec FlantermText FlantermTop.

Local Open Scope term_scope.

(** ** Control sequences that are not handled *)

Section unhandled.
Context {B : Type} (F : flanterm_ops B).

(** Final bytes that [control_sequence_parse] has no case for: among them the
    ones that scroll up and down, and repeat a character. *)
Definition unhandled_bytes : list Z := cstr "IOQRSTUVWYZbgijkoptvwxyz".

Lemma csi_switch_unhandled y x0 y0 :
  y ∈ unhandled_bytes -> csi_switch F y x0 y0 = (upd (set_csi_unhandled true);;; tret Return).
Proof.
  assert (H : Forall (fun y => csi_switch F y x0 y0 = (upd (set_csi_unhandled true);;; tret Return)) unhandled_bytes)
    by (let l := eval vm_compute in unhandled_bytes in change unhandled_bytes with l; repeat constructor).
  rewrite Forall_forall in H. apply H.
Qed.

Lemma unhandled_range y : y ∈ unhandled_bytes -> 0x40 <= y <= 0x7e /\ y <> 91.
Proof.
  assert (H : Forall (fun y => 0x40 <= y <= 0x7e /\ y <> 91) unhandled_bytes)
    by (let l := eval vm_compute in unhandled_bytes in change unhandled_bytes with l; repeat constructor; done).
  rewrite Forall_forall in H. apply H.
Qed.

(** A byte of a control sequence that is no part of a parameter. *)
Lemma parse_final z t b c :
  0x40 <= z <= 0x7e -> rrr t = false -> z <> 91 \/ escape_offset t <> 2 ->
  control_sequence_parse F z (mk_terminal t b c) = csi_final F z (mk_terminal t b c).
Proof.
  intros Hz Hr Ho. unfold control_sequence_parse, tbind at 1, context at 1. cbn [t_ctx].
  rewrite ch_open, ch_private, ch_0, ch_9, ch_semicolon, Hr.
  replace ((escape_offset t =? 2) && (z =? 91)) with false by lia.
  replace ((escape_offset t =? 2) && (z =? 63)) with false by lia.
  replace ((48 <=? z) && (z <=? 57)) with false by lia. by replace (z =? 59) with false by lia.
Qed.

Lemma fill_all l v : length l = 16%nat ->
  fill_values (Z.to_nat (FLANTERM_MAX_ESC_VALUES - 0)) 0 v l = Some (replicate 16 v).
Proof.
  intros Hl. do 16 (destruct l as [|? l]; [discriminate Hl|]). destruct l; [reflexivity|discriminate Hl].
Qed.

(** [csi_final] up to the test of [csi_unhandled], for a sequence without
    parameters. *)
Lemma final_start z t b c :
  esc_values_i t = 0 -> length (esc_values t) = 16%nat -> dec_private t = false ->
  exists v x y, csi_final F z (mk_terminal t b c) =
    (if csi_unhandled t then
       if (0x40 <=? z) && (z <=? 0x7e) then upd (set_csi_unhandled false);;; cleanup else tret tt
     else
       e <- csi_switch F z x y;;
       match e with
       | Break => upd (set_scroll_enabled (scroll_enabled t));;; cleanup
       | Return => tret tt
       end) (mk_terminal (set_scroll_enabled false (set_esc_values (replicate 16 v) t)) b c).
Proof.
  intros Hi Hl Hp. unfold csi_final, updo, csi_defaults. exists (if one_of z "JKq" then 0 else 1).
  unfold tbind at 1. cbn [t_ctx t_be t_calls]. rewrite Hi, fill_all by done. cbn [mbind option_bind].
  unfold tbind at 1, context at 1. cbn [t_ctx]. generalize (replicate 16 (if one_of z "JKq" then 0 else 1)). intros l.
  change (dec_private (set_esc_values l t)) with (dec_private t).
  change (csi_unhandled (set_esc_values l t)) with (csi_unhandled t).
  change (scroll_enabled (set_esc_values l t)) with (scroll_enabled t). rewrite Hp.
  unfold tbind at 1, upd at 1. cbn [t_ctx t_be t_calls]. unfold tbind at 1, get_cursor_pos, reads. cbn [t_ctx t_be].
  destruct (op_get_cursor_pos F _ b) as [x y]. by exists x, y.
Qed.

(** A control sequence with a final byte that the parser has no case for
    swallows the next letter of the text, and when it is over the terminal no
    longer scrolls: [scroll_enabled] stays as the handler left it. *)
Theorem unhandled_sequence_spec y z t b c :
  idle t -> y ∈ unhandled_bytes -> 0x40 <= z <= 0x7e ->
  exists t', flanterm_putchars F [27; 91; y; z] (mk_terminal t b c) = Some (tt, mk_terminal t' b c) /\
    idle t' /\ scroll_enabled t' = false.
Proof.
  intros Ht Hy Hz. destruct (unhandled_range y Hy) as [Hyr Hy91].
  change [27; 91; y; z] with ([27; 91] ++ [y] ++ [z]).
  rewrite (putchars_app F [27; 91] _ _ _ (csi_open F t b c Ht)).
  assert (Ey : exists l, length l = 16%nat /\
    flanterm_putchars F [y] (mk_terminal (in_csi true (replicate 16 0) 0 false 1 t) b c) =
    Some (tt, mk_terminal (set_csi_unhandled true (in_csi true l 0 false (u64 (1 + 1)) (set_scroll_enabled false t))) b c)).
  { rewrite putchars_one. unfold u8. rewrite Z.mod_small, csi_put, parse_final by (done || lia || by left).
    destruct (final_start y (in_csi true (replicate 16 0) 0 false (u64 (1 + 1)) t) b c) as (v & x0 & y0 & ->);
      [done|done|apply Ht|].
    exists (replicate 16 v). split; [done|]. rewrite csi_not_unhandled, csi_switch_unhandled by done.
    rewrite csi_set_values, csi_set_scroll. done. }
  destruct Ey as (l & Hl & Ey). rewrite (putchars_app F _ _ _ _ Ey). rewrite putchars_one.
  unfold u8. rewrite Z.mod_small by lia. destruct Ht as [He Hs Ho Hd Hu Hg Hp Hlen].
  rewrite put_escaped by (done || lia).
  set (t1 := set_csi_unhandled true (in_csi true l 0 false (u64 (1 + 1)) (set_scroll_enabled false t))).
  change (control_sequence t1) with true. cbv iota zeta.
  rewrite parse_final by (done || by right).
  destruct (final_start z (set_escape_offset (u64 (escape_offset t1 + 1)) t1) b c) as (v & x0 & y0 & ->); [done..|].
  change (csi_unhandled (set_escape_offset (u64 (escape_offset t1 + 1)) t1)) with true. cbv iota.
  replace ((0x40 <=? z) && (z <=? 0x7e)) with true by lia. unfold tbind, cleanup, upd. cbn [t_ctx t_be t_calls].
  eexists. split; [done|]. split; [|done]. by constructor.
Qed.
End unhandled.

(** [ESC [ S] and a text: its first letter is lost. *)
Lemma unhandled_sequence_spec_witness :
  exists t', flanterm_putchars (screen_ops example_palette) [27; 91; 83; 107] example_terminal =
    Some (tt, mk_terminal t' example_screen []) /\ scroll_enabled (fresh_context 2 4) = true /\ scroll_enabled t' = false.
Proof.
  destruct (unhandled_sequence_spec (screen_ops example_palette) 83 107 (fresh_context 2 4) example_screen [] example_idle)
    as (t' & E & _ & Hs); [|lia|].
  - apply list_elem_of_In. vm_compute. tauto.
  - exists t'. split; [exact E|]. split; [reflexivity|exact Hs].
Defined.

(** [ESC] inside of a sequence: [ESC [ ESC [ 2 ; 3 H] does not start the second
    sequence, the cursor stays where it is. *)
Example escape_does_not_restart :
  exists t', flanterm_putchars (screen_ops example_palette) [27; 91; 27; 91; 50; 59; 51; 72] example_terminal =
    Some (tt, mk_terminal t' example_screen []) /\ scroll_enabled t' = false.
Proof. eexists. vm_compute. split; reflexivity. Qed.

(** ** Sequences that name the row or the column nought *)

(** [ESC [ 0 d] and [ESC [ 0 G] go to the last row and the last column, while
    nought counts as one in [ESC [ 0 ; 0 H]. *)
Example row_zero_is_last :
  exists t', flanterm_putchars (screen_ops example_palette) [27; 91; 48; 100] example_terminal =
    Some (tt, mk_terminal t' (on_text (put_pos 0 1) example_screen) []).
Proof. eexists. vm_compute. reflexivity. Qed.

Example column_zero_is_last :
  exists t', flanterm_putchars (screen_ops example_palette) [27; 91; 48; 71] example_terminal =
    Some (tt, mk_terminal t' (on_text (put_pos 3 0) example_screen) []).
Proof. eexists. vm_compute. reflexivity. Qed.

(** ** Deleting lines *)

Definition characters (s : screen) : list Z := c_c <$> s_cells s.

(** With the cursor on the second of two rows, [ESC [ M] deletes the first. *)
Example delete_line_deletes_the_first :
  exists st, flanterm_putchars (screen_ops example_palette) (cstr "abcdefg" ++ [27; 91; 77]) example_terminal = Some (tt, st) /\
    s_y (s_text (t_be st)) = 1 /\ characters (t_be st) = cstr "efg     ".
Proof. eexists. vm_compute. split_and!; reflexivity. Qed.

(** ** The row of the cursor is bounded by the number of columns *)

(** When a line is full, the cursor goes to the next row, but not past the
    row whose number is that of the last column: on a screen with more rows
    than columns the text comes back to that row, and overwrites it. *)
Theorem raw_putchar_row W H P m0 t c w s :
  1 <= W < 2 ^ 31 -> 1 <= H < 2 ^ 31 ->
  geometry W H t -> refines W H P m0 w s -> byte c ->
  cols t <= cursor_x (fb w) -> cursor_y (fb w) + 1 < scroll_bottom_margin t -> cols t <= cursor_y (fb w) + 1 ->
  exists f', flanterm_fb_raw_putchar t c (fb w) = Some f' /\ cursor_x f' = 1 /\ cursor_y f' = cols t - 1.
Proof.
  intros HW HH Ht Hr Hc Hx Hm Hy.
  destruct (f_raw_putchar W H HW HH P m0 t c w s Ht Hc Hr) as (w' & s' & E & E' & Hr').
  cbn [op_raw_putchar fb_ops] in E. unfold lifto in E.
  destruct (flanterm_fb_raw_putchar t c (fb w)) as [f'|]; [|done]. injection E as <-. exists f'. split; [done|].
  pose proof (rf_text _ _ _ _ _ _ Hr') as Et. cbn [fb] in Et.
  destruct (text_facts _ _ _ _ _ _ Hr) as (Es & _ & [_ Hy0] & _). cbn in Hy0. unfold size_t in Hy0. destruct Ht as [_ Hcols _ Hb].
  injection E' as <-. unfold screen_putchar, wrap_line in Et. rewrite Es in Et. cbn [s_x s_y text_of] in Et.
  rewrite (u64_small (cursor_y (fb w) + 1)) in Et by lia.
  replace ((cols t <=? cursor_x (fb w)) && ((cursor_y (fb w) <? scroll_bottom_margin t - 1) || scroll_enabled t)) with true in Et by lia.
  replace (cursor_y (fb w) + 1 =? scroll_bottom_margin t) with false in Et by lia.
  replace (cols t <=? cursor_y (fb w) + 1) with true in Et by lia.
  unfold text_of in Et. cbn in Et. injection Et as _ _ -> ->. done.
Qed.

(** A screen of one column and three rows, and the second character. *)
Lemma raw_putchar_row_witness :
  exists t al' st f', flanterm_fb_init (kernel_args 65536 9 48 36 example_masks) example_pool ∅ = Some (Some t, al') /\
    flanterm_write fb_ops [97] t = Some (tt, st) /\
    flanterm_fb_raw_putchar (t_ctx st) 98 (fb (t_be st)) = Some f' /\ cursor_y f' = 0.
Proof.
  destruct (kernel_terminal 65536 9 48 36 ltac:(constructor; lia || done) example_masks example_pool ∅
    example_masks_ok example_unused) as (t & al' & E & _ & Hc & H1 & H2 & Ht & _).
  pose proof (fb_backend 1 3 ltac:(lia) ltac:(lia) (palette_of (fb (t_be t))) (conj H1 H2) ∅).
  destruct (s_flanterm_write fb_ops (screen_ops (palette_of (fb (t_be t)))) 1 3 _ [97] t _ Ht) as ([] & st & st2 & E1 & E2 & Hst & _).
  rewrite Hc in E2. revert E2. generalize (palette_of (fb (t_be t))) at 1. generalize (default_fg (fb (t_be t))).
  intros fg P E2. vm_compute in E2. injection E2 as E2. destruct Hst as [Hctx _ Hb Hok].
  pose proof (text_facts _ _ _ _ _ _ Hb) as (Et & _). rewrite <- E2 in Hctx, Et. cbn in Hctx, Et.
  injection Et as _ _ Ex Ey.
  destruct (raw_putchar_row 1 3 _ ∅ (t_ctx st) 98 _ _ ltac:(lia) ltac:(lia) (ok_geometry _ _ _ Hok) Hb) as (f' & Ef & _ & Efy);
    [unfold byte; lia|rewrite Hctx, <- Ex; cbn; lia|rewrite Hctx, <- Ey; cbn; lia|rewrite Hctx, <- Ey; cbn; lia|].
  exists t, al', st, f'. split; [exact E|]. split; [exact E1|]. split; [exact Ef|]. rewrite Efy, Hctx. reflexivity.
Defined.

(** ** The pool after a terminal has been given up *)

(** When the terminal in the pool is given up, the pool starts again at its
    first byte, whatever its alignment: the flag that says that the start has
    been aligned stays set, and the next allocation is not on a multiple of
    sixteen unless the pool is. *)
Theorem deinit_loses_alignment ctx f s al :
  bump_allocated_instance (al_bump al) = true -> base_offset_added (al_bump al) = true -> 0 < bump_alloc_pool (al_bump al) ->
  0 <= s < 2 ^ 63 -> round16 s <= FLANTERM_FB_BUMP_ALLOC_POOL_SIZE ->
  (bump_alloc s (al_bump (flanterm_fb_deinit false ctx f al))).1 = bump_alloc_pool (al_bump al).
Proof.
  intros Hi Hb Ha Hs Hfit. unfold flanterm_fb_deinit. cbn [negb]. rewrite Hi.
  destruct (bump_alloc_next 0 s (al_bump (on_bump (fun b => set_instance false (set_bump_ptr 0 b)) al)))
    as (b' & -> & _); [by constructor|done|done|]. cbn. lia.
Qed.

Lemma deinit_loses_alignment_witness :
  let al := mk_alloc (mk_bump 4104 873000 true true) 0%nat [] in
  (bump_alloc 720 (al_bump (flanterm_fb_deinit false 4112 small_context al))).1 = 4104 /\ 4104 mod 16 = 8.
Proof.
  intros al. split; [|reflexivity].
  apply (deinit_loses_alignment 4112 small_context 720 al); [reflexivity|reflexivity|cbn; lia|lia|].
  vm_compute. discriminate.
Defined.

(** ** A refresh before the flush *)

(** Its terminal, which does not flush by itself. *)
Definition small_terminal : terminal fb_world :=
  mk_terminal (set_autoflush false (fresh_context 1 2)) (mk_world small_context ∅ []) [].

(** [a], a backspace, a refresh, [b] in the place of [a], a flush. *)
Definition refresh_run {B} (F : flanterm_ops B) : T B unit :=
  flanterm_write F (cstr "a" ++ [8]);;; flanterm_full_refresh F;;;
  flanterm_write F (cstr "b");;; flanterm_flush F.

(** The plain array holds [b], the frame buffer's grid [a]: the refresh takes
    the entry of the cursor's cell out of the map and leaves it in the queue,
    where the flush finds it before the new one. *)
Example refresh_leaves_a_stale_entry :
  exists st st', refresh_run fb_ops small_terminal = Some (tt, st) /\
    refresh_run (screen_ops (palette_of small_context)) (mk_terminal (t_ctx small_terminal)
      (mk_screen (replicate 2 (mk_char 32 7 TRANSPARENT)) (text_of small_context) (saved_of small_context)) []) = Some (tt, st') /\
    characters (t_be st') = [98; 32] /\ c_c <$> buf_data (grid (fb (t_be st))) = [97; 32].
Proof. eexists _, _. vm_compute. split_and!; reflexivity. Qed.
