(* ===== verification/Console.v ===== *)
(** * The terminal of the kernel

    kernel/drivers/video/fb0.c on the terminal of kernel/drivers/video/flanterm:
    [framebuffer_install] and [framebuffer_write] of Devices.v with their
    parameters given by the model of the terminal, which draws in the memory of
    the kernel. *)

From S2P Require Import Prelude Memory State Cpu Arch Devices Arrays Flanterm FlantermSim FlantermFb FlantermPlot.
From S2P Require Import Printf PrintfSpec FlantermScreen FlantermFlush FlantermFbSpec FlantermInit FlantermInitSpec FlantermTop.

(** The masks of [fb_info], in the order of the arguments. *)
Definition fb_mask_args (f : fb_state) : Z * Z * (Z * Z) * (Z * Z) :=
  let mask i := default 0 (fb_masks f !! i) in
  ((mask 0%nat, mask 1%nat), (mask 2%nat, mask 3%nat), (mask 4%nat, mask 5%nat)).

(** The call in [framebuffer_install]: the context and the tables of the
    terminal are in its own pool, the pixels in the memory of the kernel. *)
Definition kernel_fb_init (al : alloc_state) (f : fb_state) : M (option fb_terminal) := fun s =>
  match flanterm_fb_init (kernel_args (fb_addr f) (fb_width f) (fb_height f) (fb_pitch f) (fb_mask_args f))
          al (s_mem s) with
  | Some (Some t, _) => Ok (Some t) (set_mem (vram (t_be t)) s)
  | Some (None, _) => Ok None s
  | None => Fault s
  end.

(** The terminal [t] with its pixels in memory [m]. *)
Definition terminal_on (t : fb_terminal) (m : mem) : fb_terminal :=
  mk_terminal (t_ctx t) (mk_world (FlantermFb.fb (t_be t)) m (flushes (t_be t))) (t_calls t).

(** [flanterm_write(ft_ctx, str, strlen(str))] *)
Definition kernel_terminal_write (str : list Z) : M unit := fun s =>
  match ft_ctx (s_fb s) with
  | None => Fault s
  | Some t =>
    match flanterm_write fb_ops str (terminal_on t (s_mem s)) with
    | Some (_, t') => Ok tt (on_fb (set_ft_ctx (Some t')) (set_mem (vram (t_be t')) s))
    | None => Fault s
    end
  end.

(** [fb_info] after the assignments of [framebuffer_install]. *)
Definition fb_info_of (fb : limine_framebuffer) (f : fb_state) : fb_state :=
  mk_fb (lf_address fb) (u32 (lf_width fb)) (u32 (lf_height fb)) (u32 (lf_bpp fb)) (u32 (lf_pitch fb))
    (u8 <$> lf_masks fb) (ft_ctx f) (term_buffer f).

Lemma install_eq init s fb rest :
  framebuffers (s_boot s) = fb :: rest ->
  framebuffer_install init s =
    (ctx <- init (fb_info_of fb (s_fb s));; modify (on_fb (set_ft_ctx ctx))) (set_fb (fb_info_of fb (s_fb s)) s).
Proof.
  intros Hb. unfold framebuffer_install, bind at 1, gets at 1. by rewrite Hb.
Qed.

Lemma install_mem f s : s_mem (set_fb f s) = s_mem s.
Proof. reflexivity. Qed.

Lemma install_state f m s v : on_fb (set_ft_ctx v) (set_mem m (set_fb f s)) = set_fb (set_ft_ctx v f) (set_mem m s).
Proof. reflexivity. Qed.

Lemma install_fb f m s : s_fb (set_fb f (set_mem m s)) = f.
Proof. reflexivity. Qed.

Lemma install_fb_mem f m s : s_mem (set_fb f (set_mem m s)) = m.
Proof. reflexivity. Qed.

Lemma write_mem f m s : s_mem (on_fb f (set_mem m s)) = m.
Proof. reflexivity. Qed.

Lemma write_fb f m s : s_fb (on_fb f (set_mem m s)) = f (s_fb s).
Proof. reflexivity. Qed.

(** ** The terminal in the kernel *)

(** The kernel has the terminal [t], nothing is queued, and [t] with its pixels
    in the kernel's memory is in step with the plain array of characters
    [screen]; outside of the frame buffer the memory is [m0]. *)
Record console (W H : Z) (P : palette) (m0 : mem) (s : kstate) (t : fb_terminal) (sc : terminal screen) : Prop := {
  con_width : 1 <= W < 2 ^ 31;
  con_height : 1 <= H < 2 ^ 31;
  con_palette : zlen (p_ansi P) = 8 /\ zlen (p_bright P) = 8;
  con_addr : fb_addr (s_fb s) <> 0;
  con_queue : term_buffer (s_fb s) = [];
  con_ctx : ft_ctx (s_fb s) = Some t;
  con_step : in_step W H P m0 (terminal_on t (s_mem s)) sc
}.

Lemma terminal_on_self t : terminal_on t (vram (t_be t)) = t.
Proof. by destruct t as [? [? ? ?] ?]. Qed.

(** Memory away from the frame buffer may change between two calls. *)
Lemma console_elsewhere W H P m0 s t sc m :
  console W H P m0 s t sc -> (forall a, in_framebuffer (FlantermFb.fb (t_be t)) a -> rd m a = rd (s_mem s) a) ->
  console W H P m (set_mem m s) t sc.
Proof.
  intros [HW HH HP Ha Hq Hc [Hctx Hcalls [Hst Hl Hd Hdis Hp Ht Hs Hpos Ho Hoff] Hok]] Hm.
  constructor; try done. constructor; [done|done| |done].
  constructor; try done; cbn [set_mem s_mem terminal_on t_be FlantermFb.fb vram] in *.
  intros i Hi Hh. destruct (Hdis i Hi Hh) as (c & Hc' & Hs'). exists c. split; [done|].
  intros X Y HX HY. rewrite <- (Hs' X Y HX HY). unfold pixel, load32. apply load_le_ext. intros k Hk. apply Hm.
  pose proof (pix_range _ (dr_picture _ _ _ Hd) X Y HX). unfold in_framebuffer. lia.
Qed.

(** The ports and the devices are no part of it. *)
Lemma console_io W H P m0 s t sc l : console W H P m0 s t sc -> console W H P m0 (set_io l s) t sc.
Proof. intros [HW HH HP Ha Hq Hc Hs]. by constructor. Qed.

(** Before [framebuffer_install] has set the address the text is lost: it is
    not queued either. *)
Lemma early_text_dropped fw str s : fb_addr (s_fb s) = 0 -> framebuffer_write fw str s = Ok tt s.
Proof. intros Ha. unfold framebuffer_write, bind, gets. by rewrite Ha. Qed.

Lemma write_eq fw str s t :
  fb_addr (s_fb s) <> 0 -> ft_ctx (s_fb s) = Some t -> term_buffer (s_fb s) = [] ->
  framebuffer_write fw str s = fw str s.
Proof.
  intros Ha Hc Hq. unfold framebuffer_write, bind, gets. rewrite Hc, Hq.
  by replace (fb_addr (s_fb s) =? 0) with false by lia.
Qed.

(** A text on the terminal. *)
Lemma console_write W H P m0 s t sc str :
  console W H P m0 s t sc ->
  exists t' sc' s', framebuffer_write kernel_terminal_write str s = Ok tt s' /\
    s' = on_fb (set_ft_ctx (Some t')) (set_mem (vram (t_be t')) s) /\
    flanterm_write (screen_ops P) str sc = Some (tt, sc') /\ console W H P m0 s' t' sc' /\
    (autoflush (t_ctx t') = true ->
     presented W H (t_ctx t') (FlantermFb.fb (t_be t')) (s_mem s') (aget (s_cells (t_be sc')))) /\
    agree_off (in_framebuffer (FlantermFb.fb (t_be t'))) m0 (s_mem s').
Proof.
  intros [HW HH HP Ha Hq Hc Hs].
  destruct (terminal_write W H HW HH P HP m0 str _ sc Hs) as (t' & sc' & E & E' & Hrel & Hpres & Hoff).
  exists t', sc', (on_fb (set_ft_ctx (Some t')) (set_mem (vram (t_be t')) s)). split_and!; try done.
  - rewrite (write_eq _ _ _ t) by done. unfold kernel_terminal_write. by rewrite Hc, E.
  - constructor; try done; rewrite ?write_fb; try done. by rewrite write_mem, terminal_on_self.
Qed.

(** ** Installation *)

(** C24: on a frame buffer that the boot loader reports with room for a
    character and with components of one size, [framebuffer_install] makes the
    terminal: it records the frame buffer and the terminal, the terminal is in
    step with an empty screen, the picture is that screen with the cursor in
    its first cell, and nothing else of the kernel changes, of its memory
    nothing outside of the frame buffer. *)
Theorem framebuffer_install_spec s fb rest al :
  framebuffers (s_boot s) = fb :: rest ->
  kernel_framebuffer (lf_address fb) (u32 (lf_width fb)) (u32 (lf_height fb)) (u32 (lf_pitch fb)) ->
  masks_ok (fb_mask_args (fb_info_of fb (s_fb s))) -> pool_unused (al_bump al) ->
  lf_address fb <> 0 -> term_buffer (s_fb s) = [] ->
  let base := lf_address fb in
  let size := u32 (lf_pitch fb) * u32 (lf_height fb) in
  let W := term_cols (u32 (lf_width fb)) (u32 (lf_height fb)) in
  let H := term_rows (u32 (lf_width fb)) (u32 (lf_height fb)) in
  exists t P sc s', framebuffer_install (kernel_fb_init al) s = Ok tt s' /\
    s' = set_fb (set_ft_ctx (Some t) (fb_info_of fb (s_fb s))) (set_mem (s_mem s') s) /\
    agree_off (fun a => base <= a < base + size) (s_mem s) (s_mem s') /\
    console W H P (s_mem s) s' t sc /\
    presented W H (t_ctx t) (FlantermFb.fb (t_be t)) (s_mem s')
      (fun _ => Some (mk_char 32 (default_fg (FlantermFb.fb (t_be t))) TRANSPARENT)).
Proof.
  intros Hb HF Hm Hal Hz Hq base size W H.
  destruct (kernel_terminal _ _ _ _ HF _ al (s_mem s) Hm Hal) as (t & al' & E & G1 & Hc & H1 & H2 & Ht & Hp & G2 & Hin).
  eexists t, (palette_of (FlantermFb.fb (t_be t))), _, _. split; [|split; [|split; [|split]]].
  - rewrite (install_eq _ _ fb rest) by done. unfold bind, kernel_fb_init.
    rewrite install_mem. cbn [fb_addr fb_width fb_height fb_pitch fb_info_of]. fold (fb_info_of fb (s_fb s)). rewrite E.
    unfold modify. rewrite install_state. reflexivity.
  - reflexivity.
  - intros a Ha. apply (rf_off _ _ _ _ _ _ (rel_be _ _ _ _ Ht)). intros Hf. by apply Ha, Hin.
  - pose proof (screen_size _ _ _ _ HF) as (HW & HH & _).
    constructor; rewrite ?install_fb, ?install_fb_mem; try done; try (unfold W, H; lia). by rewrite terminal_on_self.
  - rewrite install_fb_mem. intros i Hi. destruct (Hp i Hi) as (c & Hg & Hs). exists c. split; [|done].
    rewrite <- Hg. symmetry. apply aget_replicate. unfold FlantermStore.on_screen in Hi. unfold W, H in Hi. lia.
Qed.

(** A boot loader that reports a frame buffer of 80 by 32 pixels, and a serial
    port that is always ready. *)
Definition demo_fb : limine_framebuffer := mk_limine_fb 65536 80 32 32 320 [8; 16; 8; 8; 8; 0].
Definition demo_fb_state : kstate :=
  entry_state (mk_boot [] 0 0 0 0 0 0 0 0 0 0 0 [] [demo_fb] demo_symbols) (fun _ _ => 0x20) true.

Lemma framebuffer_install_spec_witness :
  exists t P sc s', framebuffer_install (kernel_fb_init example_pool) demo_fb_state = Ok tt s' /\
    console 8 2 P ∅ s' t sc /\
    presented 8 2 (t_ctx t) (FlantermFb.fb (t_be t)) (s_mem s')
      (fun _ => Some (mk_char 32 (default_fg (FlantermFb.fb (t_be t))) TRANSPARENT)).
Proof.
  destruct (framebuffer_install_spec demo_fb_state demo_fb [] example_pool) as (t & P & sc & s' & E & _ & _ & Hc & Hp);
    [reflexivity|constructor; vm_compute; try split; congruence|vm_compute; split_and!; congruence|exact example_unused
    |discriminate|reflexivity|].
  exists t, P, sc, s'. split_and!; [exact E|exact Hc|exact Hp].
Defined.

(** ** Writing *)

(** The state after [framebuffer_install] on the frame buffer of the example. *)
Lemma demo_console :
  exists t P sc s', framebuffer_install (kernel_fb_init example_pool) demo_fb_state = Ok tt s' /\
    console 8 2 P ∅ s' t sc /\ s_dev s' = s_dev demo_fb_state /\ s_io s' = [] /\
    forall a, in_framebuffer (FlantermFb.fb (t_be t)) a -> 65536 <= a < 65536 + 320 * 32.
Proof.
  destruct (kernel_terminal 65536 80 32 320 ltac:(constructor; lia || done) example_masks example_pool ∅
    example_masks_ok example_unused) as (t & al' & E & _ & Hc & H1 & H2 & Ht & _ & _ & Hin).
  eexists t, (palette_of (FlantermFb.fb (t_be t))), _, _. split; [|split; [|split; [|split]]].
  - rewrite (install_eq _ _ demo_fb []) by reflexivity. unfold bind, kernel_fb_init. rewrite install_mem.
    cbn [fb_addr fb_width fb_height fb_pitch fb_info_of].
    match goal with |- context [flanterm_fb_init ?a ?b ?c] => change (flanterm_fb_init a b c) with
      (flanterm_fb_init (kernel_args 65536 80 32 320 example_masks) example_pool ∅) end.
    rewrite E. unfold modify. rewrite install_state. reflexivity.
  - constructor; [lia|lia|split; [exact H1|exact H2]|rewrite install_fb; discriminate|rewrite install_fb; reflexivity
      |rewrite install_fb; reflexivity|rewrite install_fb_mem, terminal_on_self; exact Ht].
  - reflexivity.
  - reflexivity.
  - exact Hin.
Qed.

(** ** Printing *)

(** The serial port becomes ready within [fuel] polls, whatever was done to it
    before. *)
Definition serial_ready (fuel : nat) (dev : list io_event -> Z -> Z) : Prop :=
  forall h, exists k, (k < fuel)%nat /\
    Z.land (dev (replicate k (IoIn 8 (COM1 + 5)) ++ h) (COM1 + 5) mod 2 ^ 8) 0x20 <> 0.

(** The bytes that went out on the serial port, oldest first. *)
Fixpoint sent (log : list io_event) : list Z :=
  match log with
  | [] => []
  | IoOut _ port v :: log => if port =? COM1 then sent log ++ [v] else sent log
  | IoIn _ _ :: log => sent log
  end.

Lemma set_io_io l l' s : set_io l (set_io l' s) = set_io l s.
Proof. reflexivity. Qed.

Lemma serial_wait_spec fuel s k :
  (k < fuel)%nat -> Z.land (s_dev s (replicate k (IoIn 8 (COM1 + 5)) ++ s_io s) (COM1 + 5) mod 2 ^ 8) 0x20 <> 0 ->
  exists l, serial_wait fuel s = Ok tt (set_io l s) /\ sent l = sent (s_io s).
Proof.
  unfold serial_wait. revert s k. induction fuel as [|fuel IH]; intros s k Hk Hr; [lia|]. cbn [poll].
  unfold bind, inb, port_in. change (u16 (COM1 + 5)) with (COM1 + 5).
  destruct (Z.eqb_spec (Z.land (s_dev s (s_io s) (COM1 + 5) mod 2 ^ 8) 0x20) 0) as [E|E]; cbn [negb].
  - destruct k as [|k]; [done|].
    destruct (IH (set_io (IoIn 8 (COM1 + 5) :: s_io s) s) k) as (l & El & Hl); [lia| |].
    + cbn [set_io s_dev s_io]. revert Hr. cbn [replicate app].
      replace (replicate k (IoIn 8 (COM1 + 5)) ++ IoIn 8 (COM1 + 5) :: s_io s)
        with (IoIn 8 (COM1 + 5) :: replicate k (IoIn 8 (COM1 + 5)) ++ s_io s); [done|].
      clear. induction k as [|k IH]; cbn [replicate app]; congruence.
    + exists l. by rewrite El, set_io_io.
  - eexists. split; [reflexivity|]. done.
Qed.

Lemma serial_puts_spec fuel str s :
  serial_ready fuel (s_dev s) ->
  exists l, serial_puts fuel str s = Ok tt (set_io l s) /\ sent l = sent (s_io s) ++ (u8 <$> str).
Proof.
  revert s. induction str as [|c str IH]; intros s Hr.
  - exists (s_io s). cbn [serial_puts fmap list_fmap]. rewrite app_nil_r. split; [by destruct s|done].
  - destruct (Hr (s_io s)) as (k & Hk & Hk').
    destruct (serial_wait_spec fuel s k Hk Hk') as (l & El & Hl).
    destruct (IH (set_io (IoOut 8 COM1 (u8 c) :: l) s) Hr) as (l' & El' & Hl').
    exists l'. split.
    + cbn [serial_puts]. unfold bind at 1, serial_write, bind at 1. rewrite El. unfold outb, port_out, modify.
      rewrite set_io_io. exact El'.
    + rewrite Hl'. cbn [set_io s_io sent Z.eqb]. change (COM1 =? COM1) with true. cbn iota.
      by rewrite Hl, <- app_assoc.
Qed.

(** The text that a call of [printf] shows: the first 1023 bytes of the
    formatted text, up to a NUL. *)
Definition printed (t : list Z) : list Z := until_nul (u8 <$> take 1023 t).

Lemma printed_bytes t : u8 <$> printed t = printed t.
Proof.
  unfold printed. induction (take 1023 t) as [|c l IH]; [done|]. cbn [fmap list_fmap until_nul].
  destruct (u8 c =? 0); [done|]. cbn [fmap list_fmap]. by rewrite u8_idemp, IH.
Qed.

(** C13: [printf] on a kernel with a terminal returns 0 after it sent the
    formatted text, cut to its buffer, and the sequence that resets the colours
    to the serial port, wrote the text and then the reset sequence to the
    terminal, which stays in step with a plain array of characters that gets
    both, so that the frame buffer shows that array after the flush.  Nothing
    else of the kernel changes, of its memory only the buffer and the frame
    buffer. *)
Theorem printf_shows fuel W H P m0 s t sc buf str fmt args txt :
  console W H P m0 s t sc -> serial_ready fuel (s_dev s) -> text str fmt args = Some txt ->
  0 < buf -> buf + 1024 <= 2 ^ 64 ->
  (forall a, buf <= a < buf + 1024 -> ~ in_framebuffer (FlantermFb.fb (t_be t)) a) ->
  exists t' sc1 sc' l s' mb, printf fuel kernel_terminal_write buf str fmt args s = Ok 0 s' /\
    s' = on_fb (set_ft_ctx (Some t')) (set_mem (s_mem s') (set_io l s)) /\
    sent l = sent (s_io s) ++ printed txt ++ RESET /\
    flanterm_write (screen_ops P) (printed txt) sc = Some (tt, sc1) /\
    flanterm_write (screen_ops P) RESET sc1 = Some (tt, sc') /\
    console W H P mb s' t' sc' /\
    (autoflush (t_ctx t') = true ->
     presented W H (t_ctx t') (FlantermFb.fb (t_be t')) (s_mem s') (aget (s_cells (t_be sc')))) /\
    agree_off (fun a => buf <= a < buf + 1024) (s_mem s) mb /\
    agree_off (in_framebuffer (FlantermFb.fb (t_be t'))) mb (s_mem s').
Proof.
  intros Hc Hr Ht Hb Hb2 Hoff. set (m1 := memset_loop (s_mem s) buf 0 1024).
  destruct (vsnprintf_string str buf 1024 fmt args m1 txt) as (mb & Ev & Hstr & Hag); [done|done|lia..|].
  change (Z.of_nat 1024) with 1024 in Ev, Hag.
  assert (agree_off (fun a => buf <= a < buf + 1024) (s_mem s) mb) as Hmb.
  { intros a Ha. rewrite Hag by done. unfold m1. rewrite rd_memset_loop. zcases; cbn; done || lia. }
  assert (console W H P mb (set_mem mb s) t sc) as Hc1.
  { apply (console_elsewhere _ _ _ m0); [done|]. intros a Ha. apply Hmb. intros Ha'. by apply (Hoff a). }
  set (p := printed txt) in *. change (until_nul _) with p in Hstr.
  destruct (serial_puts_spec fuel p (set_mem mb s) Hr) as (l1 & E1 & S1).
  destruct (serial_puts_spec fuel RESET (set_io l1 (set_mem mb s)) Hr) as (l & E2 & S2).
  destruct (console_write _ _ _ _ _ _ _ p (console_io _ _ _ _ _ _ _ l Hc1)) as (t1 & sc1 & s1 & F1 & Es1 & G1 & K1 & _).
  destruct (console_write _ _ _ _ _ _ _ RESET K1) as (t' & sc' & s' & F2 & Es2 & G2 & K2 & Hp2 & Ho2).
  exists t', sc1, sc', l, s', mb. split_and!; try done.
  - unfold printf, bind, modify, gets. cbn beta iota. fold m1. change (s_mem (set_mem m1 s)) with m1. rewrite Ev.
    rewrite Hstr. change (set_mem mb (set_mem m1 s)) with (set_mem mb s). rewrite E1. rewrite E2, set_io_io, F1, F2. done.
  - rewrite Es2 at 2. rewrite write_mem, Es2, Es1. reflexivity.
  - rewrite S2. cbn [set_io s_io]. rewrite S1. change (s_io (set_mem mb s)) with (s_io s). rewrite <- app_assoc. by rewrite (printed_bytes txt : u8 <$> p = p).
Qed.

(** The first line after [framebuffer_install]. *)
Lemma printf_shows_witness :
  exists s s' t' l, framebuffer_install (kernel_fb_init example_pool) demo_fb_state = Ok tt s /\
    printf 1 kernel_terminal_write 4096 (fun _ => []) (cstr "up %d") [42] s = Ok 0 s' /\
    ft_ctx (s_fb s') = Some t' /\ sent l = cstr "up 42" ++ RESET /\ s_io s' = l.
Proof.
  destruct demo_console as (t & P & sc & s & E & Hc & Hd & Hio & Hin).
  destruct (printf_shows 1 8 2 P ∅ s t sc 4096 (fun _ => []) (cstr "up %d") [42] (cstr "up 42"))
    as (t' & sc1 & sc' & l & s' & mb & Ep & Es & Hs & _ & _ & Hc' & _).
  - exact Hc.
  - rewrite Hd. intros h. exists 0%nat. split; [lia|]. intros Heq. vm_compute in Heq. discriminate Heq.
  - vm_compute. reflexivity.
  - lia.
  - lia.
  - intros a Ha Hf. apply Hin in Hf. lia.
  - exists s, s', t', l. split; [exact E|]. split; [exact Ep|]. split; [exact (con_ctx _ _ _ _ _ _ _ Hc')|].
    rewrite Hs, Hio. split; [vm_compute; reflexivity|]. rewrite Es. reflexivity.
Defined.
